(* ===== verification/_CoqProject ===== *)
-Q . S2P
Prelude.v
JsString.v
JsDate.v
Json.v
SettlementPolicy.v
ContractBase.v
PlanContract.v
PlanGraph.v
PlanProps.v
Envelope.v
EnvelopeProps.v
WorkOrderState.v
WorkOrderFacts.v
WorkOrderContext.v
WorkOrderEffects.v
Outbox.v
Lifecycle.v
LifecycleProps.v
ProjectorBase.v
Projection.v
ProjectorInput.v
ProjectorWorkOrder.v
ProjectorBranch.v
ProjectorObserve.v
ProjectorOutbox.v
ProjectorEnqueue.v
ProjectorDelivery.v
ProjectorSettlement.v
ProjectorReceipt.v
Cutover.v
Projector.v
ProjectorSpec.v
ProjectorRefine.v
ProjectorStep.v
ProjectorInvariant.v
ProjectorRuns.v
ProjectorHistory.v
ProjectorClosed.v
ProjectorTheorems.v
WorkOrderCore.v
WorkOrderSettle.v
WorkOrderObserve.v
WorkOrderDelivery.v
WorkOrderCommands.v
WorkOrder.v
WorkOrderSpec.v
WorkOrderLogic.v
WorkOrderRefine.v
WorkOrderSafety.v
WorkOrderEvents.v
WorkOrderExample.v
WorkOrderTheorems.v
WorkOrderWitnesses.v
Agreement.v
ProjectorWitnesses.v
JsonText.v
JsonCanon.v
Validator.v
FileStore.v
EventLock.v
EventJournal.v
EventStore.v
Recovery.v
LockProps.v
BatchProps.v
CommitFrame.v
CommitProps.v
CommitTheorems.v
StoreTheorems.v
RecoveryProps.v
RecoveryTheorems.v
StoreWitnesses.v
CommandFacts.v
CommandBoundary.v
CommandLaws.v
CommandTheorems.v
CommandWitnesses.v
Kernel.v
KernelTheorems.v
CutoverBoundary.v
