(* ===== verification/Prelude.v ===== *)
(** Orquesta: a verification development of its canonical core.

    Orquesta runs Work Orders.  A user or an orchestrator sends commands, the runtime and its
    providers report observations, a decider turns each input into a batch of events, the batch is
    appended to a journal, and a projection of the journal is what every part reads.  Nothing is
    told to a provider before its effect is an entry of the projection's outbox.  The development
    models this core, function by function, and proves what makes it correct.

    * The parts, and where they are

    Under [packages/]:

    - canonical JSON and its hash ([contracts/src/canonical-json.js]): [Json]; its text and the
      language's [JSON.parse]: [JsonText], [JsonCanon];
    - the schema validator and the event-batch contract ([contracts/src/validator.js],
      [schemas/event-batch.schema.json]): [Validator];
    - the contracts of the orchestrator ([business-orchestrator/src/contract.js]): [ContractBase]
      (preflight and field assertions), [PlanContract], [PlanGraph], [PlanProps] (the plan and its
      dependency graph), [Envelope], [EnvelopeProps] (commands and observations);
    - the settlement policy ([settlement-policy.js]): [SettlementPolicy];
    - the decider ([state-machine.js]): state and facts in [WorkOrderState], [WorkOrderFacts], the
      decision context as a state and error monad in [WorkOrderContext], provider effects in
      [WorkOrderEffects], shared operations in [WorkOrderCore] and [WorkOrderSettle], observations in
      [WorkOrderObserve] and [WorkOrderDelivery], commands in [WorkOrderCommands], and
      [decideWorkOrderV1] in [WorkOrder];
    - the lifecycle of provider effects ([lifecycle.js]): [Lifecycle], [LifecycleProps];
    - the projector ([projector.js]): records and normalisers in [ProjectorBase], [Outbox],
      [Projection]; inputs in [ProjectorInput]; the reducers in [ProjectorWorkOrder],
      [ProjectorBranch], [ProjectorObserve], [ProjectorOutbox], [ProjectorEnqueue],
      [ProjectorDelivery]; closing checks in [ProjectorSettlement], [ProjectorReceipt]; dispatch
      and replay in [Projector];
    - the settlement cutover ([provider-settlement-cutover-boundary.js]): readiness, batch, epoch and
      receipt in [Cutover], its execution against a store in [CutoverBoundary];
    - the event store ([event-store/src/]): the files as a map with a recorded history in
      [FileStore] ([atomic-replace.js] and the calls of [node:fs]), the lock in [EventLock]
      ([lock.js]), the journal's reader and the pending evidence in [EventJournal], replay, cursors,
      projection and [commit] in [EventStore] ([journal.js], [projection-store.js]), and explicit
      recovery in [Recovery] ([recovery.js], [diagnostics.js]);
    - the command boundary ([command-boundary.js]): the validation of what callers and resolvers
      supply and the facts drawn from the projection in [CommandFacts], the execution of a command
      against a store in [CommandBoundary];
    - the execution kernel ([execution-kernel/src/kernel.js], [scheduler.js]), an independent
      scheduler of dependent tasks: [Kernel].

    [Prelude], [JsString] and [JsDate] hold what all of them use: the result monad of throwing code,
    the tactics, strings, time values.

    The decider emits events; the projector admits their types and transitions ([Agreement]); the
    event store replays a journal through reducers, which the orchestrator makes from the projector.
    The command boundary joins the three: it replays, decides, and commits.  It takes the store, the
    authoriser, the resolvers, the decider and the clock as arguments, and so does its model: the
    classes [EventStoreApi] and [CommandServices], whose answers may differ from call to call.  Every
    awaited call is a point at which other processes may change the store ([es_others]).

    * What is proved

    Each property of the manifest is a theorem whose comment names its number.

    - Decisions.  [WorkOrderSpec] is an abstract machine: the status, and of each branch its state,
      attempt and deadline.  [WorkOrderLogic] is a program logic for the decision monad over it, and
      [WorkOrderRefine] and [WorkOrderSafety] prove that every decider makes only legal moves and
      keeps the invariant (concurrency, dependency order, attempts within the plan).
      [WorkOrderTheorems] and [WorkOrderEvents] read the promises off: acceptance
      stands behind every gate, an unknown delivery is never sent again, a finished Work Order is
      inert, a stale observation is quarantined.
    - Projection.  [ProjectorSpec] lists the changes one event may make; [ProjectorRefine] and
      [ProjectorStep] prove that every reducer, and the projection of one event, makes one of them.
      [ProjectorInvariant], [ProjectorRuns], [ProjectorHistory], [ProjectorClosed] and
      [ProjectorTheorems] draw the consequences for runs: an append-only history, frozen finished
      Work Orders, redelivery without effect, revisions that count inputs, complete inputs that
      leave a settled Work Order.
    - Event store.  [FileStore] has the rules of an execution relation [execs I m F n r F' n']: the
      computation [m] leads from files [F] to [F'] with the result [r], and every state of the
      files on the way satisfies [I].  So one proof gives both what [commit] does and what a crash
      can leave.  [LockProps] and [BatchProps] prove the parts, [CommitFrame] and
      [CommitProps] the sequence, [CommitTheorems] and [StoreTheorems] the promises: [commit] is a
      compare-and-append on a log, atomic under crashes, idempotent.  [RecoveryProps] and
      [RecoveryTheorems] prove that recovery completes an interrupted commit and is itself safe
      under crashes.
    - Commands.  [CommandLaws] states what the boundary needs of a store ([StoreLaws]: the store is a
      log of requests, of which it answers the projection, and to which it appends at the revision
      named or not at all) and how a commit is justified, by the answers of the authenticator, the
      authoriser, the resolvers and the decider; [CommandTheorems] proves against it that what is
      committed was decided on the journal it extends and within what the authoriser granted, that
      a command is committed at most once and answered durably, that an attempt is repeated only
      when another process got ahead and at most [maxGlobalCasRetries] times, and that a retry rests
      on evidence in the projection.  [CommandWitnesses] instantiates the store and the services,
      with the decider of [WorkOrder].
    - The cutover.  Against a store with the same kind of laws ([CutoverLaws]), an execution activates
      exactly the journal it assessed, under the authoriser's grant and the readiness the resolver
      attested, and the contract is activated once, whatever other processes do between its calls.
    - The execution kernel.  [KernelTheorems] shows every operation to be a sequence of changes to
      the tasks, and from that, for every run: finished tasks stay as they are, an event counts once,
      and concurrency stays within its bound unless a definition brings a task already in flight.  A
      tick starts exactly what planning announces and survives every readable answer of the adapter,
      and a tick that starts nothing, over definitions that cover the tasks and their dependencies,
      has a reason: the loop that refreshes eligibility has a closed form ([refreshEligibility_spec]), and the
      dependencies that passed [assertAcyclic] have an order.
    - Data.  Normalised plans are well formed, the acyclicity check decides acyclicity, canonical
      text and the journal read back, the validator agrees with a typed decoder, the retry schedule
      stays within its bounds.

    Witnesses apply the theorems to concrete inputs: the sample plan of [PlanProps], the sample run
    of [WorkOrderExample], the projected run of [ProjectorWitnesses], the store of
    [StoreWitnesses], the contended logs of [CommandWitnesses] and [CutoverSample], the ticks of
    [KernelSample].

    * Fuel and bounds

    [JSON.parse] reads with [reader_fuel], two units for each character and two more, which
    [read_print] shows enough for every printed value.  The acyclicity check visits one level for
    each branch ([assertAcyclic_decides] proves that the fuel suffices), and so does the
    reachability of [validateIntegration]; the kernel's check visits one level for each definition
    ([assertAcyclic_total]).  An application of recovery calls itself once more after a restored
    backup ([recovery_fuel] is 2); a second restoration in a row cannot be chosen, since the journal
    is valid then.  Integers are [Z] with the code's safe-integer checks written out;
    sizes, depths and counts are checked where the code checks them.

    * What the model abstracts

    - Strings are their UTF-8 bytes; a lone surrogate has the three bytes of its code, and code-unit
      order is byte order only on what the code sorts, ASCII.  Objects are plain trees of data:
      no cycles, accessors, sparse arrays or prototypes, so a key that names a member of
      [Object.prototype] is an ordinary key.  NaN and the infinities are one value.
    - In typed records an absent field and a [null] one are the same where the code treats them so.
      Error messages are dropped, codes are kept.  Canonical instants are their milliseconds.
    - [sha256_hex] is a class ([Sha256]) with the shape of a digest as its law; the text of a number
      that is no safe integer is the class [NumberText]; the hash of a whole projection is
      [ProjectionHash]; packets and authorisations of a send are [SendEvidence]; the digest of
      recovery's snapshot, which covers modification times, is [RecoveryDigest]; the process, its
      clock, randomness and the state of other processes are [Platform].  [PlatformLaws] and
      [Sha256Laws] are documented behaviour, and the witnesses instantiate all of them.
    - The decision theorems are about a state that satisfies [Inv], and assume [sends_are_current] of
      an observation with an expiry fact: the branch of an expired start effect still waits for that
      start.  The decider does not check this, and an expiry of any other start moves a branch, an
      accepted one included, to an unknown delivery.
    - The store's file system fails only with ENOENT and EEXIST: no full disk, no retried rename, no
      power loss.  A crash stops the process between two calls.  The waiting loops of the lock end
      with the files as they are at the deadline.  [quiet] includes that the random staging names to
      be drawn are free.  Test hooks are left out, and so are recovery's summaries for display.
    - The laws of the boundary's store speak of the requests in the log; that the store's replay of
      the canonicalised entries projects as the requests do is part of the law [es_replay_log].  A
      permission mode that is an array of one string, which the code coerces, is rejected, and the
      members of an object are listed in the order of the map.  The laws of the cutover's store
      include that the projection adapter predicts the epoch of the store's projection and that no
      entry removes an epoch; the [AbortSignal] is the answers [cv_aborted] and [cv_interruption].
    - Of the kernel, what [Date.parse] makes of texts other than those of [toISOString] and the
      collation of [localeCompare] are the class [Locale]; numbers whose text has an exponent do
      not occur as revisions or attempts, and tasks are listed in the order of the map, which
      matters only between candidates that the comparison calls equal.
    - [cloneJson] and [canonicalClone] return the same tree; the size check inside
      [startWorkOrder]'s clone is left out, the plan having passed the same limits.  [same] on typed
      identities is equality.  [normalizeProjection] and [trustProjection] of a foreign projection
      are left out: a projection is what events lead to.

    * What is not modelled

    The other asynchronous drivers around the core (the observation and internal-action boundaries,
    the reactor, the packet store, send authorisation and the provider entry window), which store
    and retry over POSIX files; the context compiler, an independent engine, and what surrounds the
    execution kernel (its feature flag, placement, the organisation store); the adapters of child
    processes, the desktop application, and generated bundles.  The manifest lists each with its
    reason. *)

From Stdlib Require Import ZArith Lia Permutation Sorted.
From stdpp Require Import base tactics list strings sets.

(** ** Thrown values and the result monad

    Every function of the code that can [throw] is a function into [res].  The constructors of
    [error] are the error classes the code throws; a message text is not modelled, the fields a
    caller can branch on ([code], [path], [reason]) are. *)
Inductive error :=
| TypeError                                    (* a plain [TypeError] *)
| RangeError                                   (* [new Date(t).toISOString()] out of range *)
| ContractValidationError (path reason : string)
| BusinessSettlementPolicyError (path reason : string)
| BusinessDecisionError (code : string)
| BusinessProjectionError (code : string)
| BusinessLifecycleInvariantError (violations : list string)  (* the codes of the violations *)
| BusinessSendAuthorizationError (code : string)
| BusinessProviderEntryWindowError (code : string)
| BusinessProviderSettlementCutoverBoundaryError (code : string)
| BusinessCommandBoundaryError (code : string)
| PlainError (message : string)                (* [new Error(message)], up to the first colon *)
| EventStoreError (code : string)              (* [eventStoreError(code, ...)] *)
| SystemError (code : string)                  (* a failed system call: "ENOENT", "EEXIST" *)
| OutOfFuel.                                   (* never thrown: excluded by the termination theorems *)

Inductive res (A : Type) :=
| Ok (a : A)
| Err (e : error).
Arguments Ok {A} a.
Arguments Err {A} e.

Definition bind {A B} (m : res A) (k : A → res B) : res B :=
  match m with Ok a => k a | Err e => Err e end.

Declare Scope res_scope.
Delimit Scope res_scope with res.
Notation "'let*' x := m 'in' k" := (bind m (fun x => k))
  (at level 10, x name, m at level 100, k at level 200) : res_scope.
Notation "'let*' ' p := m 'in' k" := (bind m (fun x => match x with p => k end))
  (at level 10, p pattern, m at level 100, k at level 200) : res_scope.
Notation "'check' b 'else' e 'in' k" := (if b then k else Err e)
  (at level 10, b at level 100, e at level 100, k at level 200) : res_scope.
Notation "'reject' b 'with' e 'in' k" := (if b then Err e else k)
  (at level 10, b at level 100, e at level 100, k at level 200) : res_scope.
Open Scope res_scope.

#[export] Instance error_eq_dec : EqDecision error.
Proof. solve_decision. Defined.

#[export] Instance res_eq_dec {A} `{EqDecision A} : EqDecision (res A).
Proof. solve_decision. Defined.

(** Did a computation return?  (used by witnesses) *)
Definition is_ok {A} (m : res A) : bool := match m with Ok _ => true | Err _ => false end.

(** The value of a computation that returns. *)
Definition ok_get {A} (m : res A) : is_ok m = true → A :=
  match m with
  | Ok a => λ _, a
  | Err _ => λ H, match Bool.diff_false_true H with end
  end.

Lemma ok_get_eq {A} (m : res A) (H : is_ok m = true) : m = Ok (ok_get m H).
Proof. by destruct m. Qed.

(** Apply a throwing function to each entry, left to right, stopping at the first throw: the
    [array.map(f)] of the code. *)
Fixpoint mapR {A B} (f : A → res B) (l : list A) : res (list B) :=
  match l with
  | [] => Ok []
  | x :: l' => let* y := f x in let* ys := mapR f l' in Ok (y :: ys)
  end.

(** [array.map((entry, index) => ...)]. *)
Fixpoint imapR {A B} (f : nat → A → res B) (i : nat) (l : list A) : res (list B) :=
  match l with
  | [] => Ok []
  | x :: l' => let* y := f i x in let* ys := imapR f (S i) l' in Ok (y :: ys)
  end.

(** [for (const x of l) f(x)], for a check that only throws. *)
Fixpoint forR {A} (f : A → res unit) (l : list A) : res unit :=
  match l with
  | [] => Ok tt
  | x :: l' => let* _ := f x in forR f l'
  end.

(** A disjunction of checks, left to right, that stops at the first that holds or throws: the
    [a || b || c] of the code where a check may throw. *)
Fixpoint orR (l : list (res bool)) : res bool :=
  match l with
  | [] => Ok false
  | m :: l' => let* b := m in if b then Ok true else orR l'
  end.

Definition negR (m : res bool) : res bool := let* b := m in Ok (negb b).

(** *** Inversion of a successful run *)

Lemma bind_Ok {A B} (m : res A) (k : A → res B) b :
  bind m k = Ok b ↔ ∃ a, m = Ok a ∧ k a = Ok b.
Proof. destruct m; simpl; naive_solver. Qed.

Lemma bind_Err {A B} (m : res A) (k : A → res B) e :
  bind m k = Err e ↔ m = Err e ∨ ∃ a, m = Ok a ∧ k a = Err e.
Proof. destruct m; simpl; naive_solver. Qed.

Lemma if_Err_Ok {A} (b : bool) (m : res A) e a :
  (if b then Err e else m) = Ok a ↔ b = false ∧ m = Ok a.
Proof. destruct b; naive_solver. Qed.

Lemma if_Ok_Err {A} (b : bool) (m : res A) e a :
  (if b then m else Err e) = Ok a ↔ b = true ∧ m = Ok a.
Proof. destruct b; naive_solver. Qed.

Lemma mapR_Ok {A B} (f : A → res B) l l' :
  mapR f l = Ok l' ↔ Forall2 (λ x y, f x = Ok y) l l'.
Proof.
  revert l'. induction l as [|x l IH]; intros l'; simpl.
  - split; [intros [= <-]; constructor | by inversion 1].
  - rewrite bind_Ok. split.
    + intros (y & Hy & H). apply bind_Ok in H as (ys & Hys & [= <-]).
      constructor; [done | by apply IH].
    + inversion 1 as [|? y ? ys Hy Hys]; subst. exists y. split; [done|].
      apply bind_Ok. exists ys. split; [by apply IH | done].
Qed.

Lemma imapR_Forall2 {A B} (f : nat → A → res B) i l l' :
  imapR f i l = Ok l' → Forall2 (λ x y, ∃ j, f j x = Ok y) l l'.
Proof.
  revert i l'. induction l as [|x l IH]; intros i l'; simpl.
  - intros [= <-]. constructor.
  - intros (y & Hy & H)%bind_Ok. apply bind_Ok in H as (ys & Hys & [= <-]).
    constructor; eauto.
Qed.

Lemma imapR_roundtrip {A B} (f : nat → A → res B) (g : B → A) i l :
  (∀ j y, y ∈ l → f j (g y) = Ok y) → imapR f i (map g l) = Ok l.
Proof.
  revert i. induction l as [|y l IH]; intros i Hf; simpl; [done|].
  rewrite Hf by set_solver. simpl. rewrite IH; [done|]. intros; apply Hf; set_solver.
Qed.

Lemma imapR_Forall {A B} (f : nat → A → res B) (P : B → Prop) i l l' :
  (∀ j x y, f j x = Ok y → P y) → imapR f i l = Ok l' → Forall P l'.
Proof.
  intros Hf H%imapR_Forall2. induction H as [|x y l l' [j Hj] _ IH]; constructor; eauto.
Qed.

Lemma imapR_length {A B} (f : nat → A → res B) i l l' :
  imapR f i l = Ok l' → length l' = length l.
Proof. intros H%imapR_Forall2. symmetry. by eapply Forall2_length. Qed.

Lemma forR_Ok {A} (f : A → res unit) l :
  forR f l = Ok tt ↔ Forall (λ x, f x = Ok tt) l.
Proof.
  induction l as [|x l IH]; simpl; [by split; constructor|].
  rewrite bind_Ok, Forall_cons. split.
  - intros ([] & Hx & Hl). split; [done | by apply IH].
  - intros [Hx Hl]. exists tt. split; [done | by apply IH].
Qed.

(** [res_inv H]: split a successful run of a do-block into the successful runs of its steps. *)
Ltac res_inv1 H :=
  lazymatch type of H with
  | bind _ _ = Ok _ =>
      let a := fresh "v" in let H1 := fresh "E" in
      apply bind_Ok in H as (a & H1 & H); cbv beta iota in H
  | (if _ then Err _ else _) = Ok _ =>
      let H1 := fresh "B" in apply if_Err_Ok in H as (H1 & H)
  | (if _ then _ else Err _) = Ok _ =>
      let H1 := fresh "B" in apply if_Ok_Err in H as (H1 & H)
  | Ok _ = Ok _ => injection H as H
  | Err _ = Ok _ => discriminate H
  end.
Ltac res_inv H := repeat res_inv1 H.

(** [split_bools]: turn boolean connectives and comparisons in hypotheses into propositions. *)
Ltac split_bools :=
  repeat match goal with
  | H : (_ && _) = true |- _ => apply andb_true_iff in H as [? ?]
  | H : (_ || _) = false |- _ => apply orb_false_iff in H as [? ?]
  | H : negb _ = true |- _ => apply negb_true_iff in H
  | H : negb _ = false |- _ => apply negb_false_iff in H
  | H : bool_decide _ = true |- _ => apply bool_decide_eq_true in H
  | H : bool_decide _ = false |- _ => apply bool_decide_eq_false in H
  | H : (_ <? _)%Z = true |- _ => apply Z.ltb_lt in H
  | H : (_ <? _)%Z = false |- _ => apply Z.ltb_ge in H
  | H : (_ <=? _)%Z = true |- _ => apply Z.leb_le in H
  | H : (_ <=? _)%Z = false |- _ => apply Z.leb_gt in H
  | H : (_ =? _)%Z = true |- _ => apply Z.eqb_eq in H
  | H : (_ =? _)%Z = false |- _ => apply Z.eqb_neq in H
  | H : is_true _ |- _ => unfold is_true in H
  end.

(** ** Sorting

    [Array.prototype.sort(compare)] is stable; insertion sort computes the same list for every
    total preorder. *)
Section Sorting.
Context {A : Type} (leb : A → A → bool).

Fixpoint insert_sorted (x : A) (l : list A) : list A :=
  match l with
  | [] => [x]
  | y :: l' => if leb x y then x :: l else y :: insert_sorted x l'
  end.

Fixpoint isort (l : list A) : list A :=
  match l with
  | [] => []
  | x :: l' => insert_sorted x (isort l')
  end.

Definition ordered : list A → Prop := StronglySorted (λ x y, leb x y = true).

Lemma insert_sorted_Permutation x l : Permutation (insert_sorted x l) (x :: l).
Proof.
  induction l as [|y l IH]; simpl; [done|].
  destruct (leb x y); [done|]. rewrite IH. constructor.
Qed.

Lemma isort_Permutation l : Permutation (isort l) l.
Proof.
  induction l as [|x l IH]; simpl; [done|]. rewrite insert_sorted_Permutation. by constructor.
Qed.

Lemma isort_length l : length (isort l) = length l.
Proof. by rewrite isort_Permutation. Qed.

Lemma isort_elem_of x l : x ∈ isort l ↔ x ∈ l.
Proof. by rewrite isort_Permutation. Qed.

Lemma isort_Forall (P : A → Prop) l : Forall P (isort l) ↔ Forall P l.
Proof. by rewrite isort_Permutation. Qed.

Lemma isort_NoDup l : NoDup (isort l) ↔ NoDup l.
Proof. by rewrite isort_Permutation. Qed.

Lemma isort_id l : ordered l → isort l = l.
Proof.
  induction 1 as [|x l Hl IH Hx]; simpl; [done|]. rewrite IH.
  destruct l as [|y l]; simpl; [done|]. inversion Hx as [|? ? Hxy]; subst. by rewrite Hxy.
Qed.

Hypothesis leb_total : ∀ x y, leb x y = true ∨ leb y x = true.
Hypothesis leb_trans : ∀ x y z, leb x y = true → leb y z = true → leb x z = true.

Lemma insert_sorted_ordered x l : ordered l → ordered (insert_sorted x l).
Proof.
  induction 1 as [|y l Hl IH Hy]; simpl.
  - repeat constructor.
  - destruct (leb x y) eqn:E.
    + constructor; [by constructor|]. constructor; [done|].
      eapply Forall_impl; [done|]. intros z Hz. by eapply leb_trans.
    + constructor; [done|]. rewrite insert_sorted_Permutation. constructor; [|done].
      destruct (leb_total x y); congruence.
Qed.

Lemma isort_ordered l : ordered (isort l).
Proof. induction l; simpl; [constructor | by apply insert_sorted_ordered]. Qed.

Lemma isort_idem l : isort (isort l) = isort l.
Proof. apply isort_id, isort_ordered. Qed.

(** The result of sorting depends on the input only up to order, when the order is
    antisymmetric on the entries. *)
Lemma ordered_unique l1 l2 :
  (∀ x y, x ∈ l1 → y ∈ l1 → leb x y = true → leb y x = true → x = y) →
  ordered l1 → ordered l2 → Permutation l1 l2 → l1 = l2.
Proof.
  intros Hanti H1. revert l2. induction H1 as [|x l1 Hl1 IH Hx]; intros l2 H2 HP.
  - by apply Permutation_nil in HP.
  - destruct H2 as [|y l2 Hl2 Hy]; [by apply Permutation_sym, Permutation_nil in HP|].
    assert (x = y) as ->.
    { assert (x ∈ y :: l2) as Hx2 by (rewrite <- HP; left).
      assert (y ∈ x :: l1) as Hy1 by (rewrite HP; left).
      apply elem_of_cons in Hx2 as [?|Hx2]; [done|].
      apply elem_of_cons in Hy1 as [?|Hy1]; [done|].
      rewrite Forall_forall in Hx, Hy.
      apply Hanti; [by left | by right | by apply Hx | by apply Hy]. }
    f_equal. apply IH; [| done | by apply Permutation_cons_inv in HP].
    intros; apply Hanti; by (right || done).
Qed.

Lemma isort_Permutation_eq l1 l2 :
  (∀ x y, x ∈ l1 → y ∈ l1 → leb x y = true → leb y x = true → x = y) →
  Permutation l1 l2 → isort l1 = isort l2.
Proof.
  intros Hanti HP. apply ordered_unique; [|apply isort_ordered..|].
  - intros x y. rewrite !isort_elem_of. apply Hanti.
  - by rewrite !isort_Permutation.
Qed.
End Sorting.

(** ** Text order

    [compareText(left, right)] compares strings by code unit. *)
Definition text_leb : string → string → bool := String.leb.

Lemma text_leb_total s1 s2 : text_leb s1 s2 = true ∨ text_leb s2 s1 = true.
Proof. apply String.leb_total. Qed.

Lemma text_leb_antisym s1 s2 : text_leb s1 s2 = true → text_leb s2 s1 = true → s1 = s2.
Proof. apply String.leb_antisym. Qed.

Lemma text_leb_trans s1 s2 s3 :
  text_leb s1 s2 = true → text_leb s2 s3 = true → text_leb s1 s3 = true.
Proof.
  intros H1 H2. assert (String.le s1 s3) as H; [|by apply Is_true_eq_true].
  transitivity s2; by apply Is_true_eq_left.
Qed.

Definition sort_text : list string → list string := isort text_leb.

Lemma sort_text_idem l : sort_text (sort_text l) = sort_text l.
Proof. apply isort_idem; [apply text_leb_total | apply text_leb_trans]. Qed.

Lemma sort_text_Permutation l : Permutation (sort_text l) l.
Proof. apply isort_Permutation. Qed.

Lemma sort_text_Permutation_eq l1 l2 : Permutation l1 l2 → sort_text l1 = sort_text l2.
Proof.
  apply isort_Permutation_eq; [apply text_leb_total | apply text_leb_trans |].
  eauto using text_leb_antisym.
Qed.

(** [new Set(l).size !== l.length] is false exactly for lists without duplicates. *)
Definition has_duplicates {A} `{EqDecision A} (l : list A) : bool := negb (bool_decide (NoDup l)).

Lemma has_duplicates_false {A} `{EqDecision A} (l : list A) : has_duplicates l = false ↔ NoDup l.
Proof. unfold has_duplicates. rewrite negb_false_iff. apply bool_decide_eq_true. Qed.

(** Membership in a list of strings, as [array.includes(s)] and [set.has(s)]. *)
Definition includes (l : list string) (s : string) : bool := bool_decide (s ∈ l).

Lemma includes_true l s : includes l s = true ↔ s ∈ l.
Proof. apply bool_decide_eq_true. Qed.

Lemma includes_false l s : includes l s = false ↔ s ∉ l.
Proof. apply bool_decide_eq_false. Qed.

Lemma elem_of_rev {A} (x : A) l : x ∈ rev l ↔ x ∈ l.
Proof. rewrite !list_elem_of_In. symmetry. apply in_rev. Qed.

(** ** Enumerations

    A closed set of string constants of the code ([Object.freeze(["a", "b"])]): the type, its
    values in the order the code lists them, and the string of each.  The laws make the string
    the wire form of the value. *)
Class JsEnum (A : Type) := {
  enum_all : list A;
  enum_str : A → string;
}.

Class JsEnumLaws (A : Type) `{EqDecision A} `{JsEnum A} := {
  enum_all_complete : ∀ a : A, a ∈ enum_all;
  enum_str_inj : ∀ a b : A, enum_str a = enum_str b → a = b;
}.

(** The value of [allowed] whose string is [s]. *)
Definition enum_find {A} `{JsEnum A} (allowed : list A) (s : string) : option A :=
  head (filter (λ a, enum_str a = s) allowed).

Lemma enum_find_Some {A} `{JsEnum A} (allowed : list A) s a :
  enum_find allowed s = Some a → a ∈ allowed ∧ enum_str a = s.
Proof.
  unfold enum_find. intros Hhd.
  assert (a ∈ filter (λ a, enum_str a = s) allowed) as Ha.
  { destruct (filter _ allowed); [done|]. simplify_eq/=. left. }
  apply list_elem_of_filter in Ha. naive_solver.
Qed.

Lemma enum_find_str {A} `{JsEnumLaws A} (allowed : list A) a :
  a ∈ allowed → enum_find allowed (enum_str a) = Some a.
Proof.
  intros Ha. unfold enum_find.
  assert (a ∈ filter (λ b, enum_str b = enum_str a) allowed) as Hin by
    (apply list_elem_of_filter; done).
  destruct (filter _ allowed) as [|b l] eqn:E; [by apply not_elem_of_nil in Hin|].
  simpl. f_equal. apply enum_str_inj.
  assert (b ∈ filter (λ b, enum_str b = enum_str a) allowed) as Hb by (rewrite E; left).
  by apply list_elem_of_filter in Hb as [? _].
Qed.

(** [enum_laws]: discharge the laws of an enumeration with finitely many constructors. *)
Ltac enum_laws :=
  split;
  [ intros []; unfold enum_all; simpl; repeat (left || right)
  | intros [] []; simpl; (reflexivity || discriminate) ].

(** ** Maximum safe integer, [Number.MAX_SAFE_INTEGER] *)
Definition max_safe_integer : Z := 9007199254740991.

Definition is_safe_integer (z : Z) : bool :=
  (- max_safe_integer <=? z)%Z && (z <=? max_safe_integer)%Z.

Create HintDb orquesta.
#[export] Hint Resolve text_leb_total text_leb_trans text_leb_antisym : orquesta.
