(* ===== verification/JsString.v ===== *)
(** Strings of the code.

    A JavaScript string is modelled by its UTF-8 bytes ([Stdlib]'s [string], a list of 8-bit
    characters), so [Buffer.byteLength(s, "utf8")] is [String.length].  Lone surrogates have no
    UTF-8 form and are outside the model.  On ASCII text, which is all the code sorts after
    validation, byte order is code-unit order.

    This file holds [String.prototype.trim], the character classes of the code's regular
    expressions and the fixed-width hexadecimal patterns. *)

From Stdlib Require Import ZArith Lia Ascii String.
From stdpp Require Import base tactics list strings.
From S2P Require Import Prelude.

Definition code (c : ascii) : Z := Z.of_N (N_of_ascii c).

(** UTF-8 byte length, [utf8Bytes]. *)
Definition utf8Bytes (s : string) : Z := Z.of_nat (String.length s).

Definition between (lo hi : Z) (c : ascii) : bool := (lo <=? code c)%Z && (code c <=? hi)%Z.

(** ** [String.prototype.trim]

    The white space of ECMAScript (WhiteSpace and LineTerminator), by the number of its UTF-8
    bytes. *)
Definition ws1 (a : ascii) : bool := between 9 13 a || (code a =? 32)%Z.
Definition ws2 (a b : ascii) : bool := (code a =? 194)%Z && (code b =? 160)%Z.     (* U+00A0 *)
Definition ws3 (a b c : ascii) : bool :=
  ((code a =? 225)%Z && (code b =? 154)%Z && (code c =? 128)%Z)                     (* U+1680 *)
  || ((code a =? 226)%Z && (code b =? 128)%Z
      && (between 128 138 c || (code c =? 168)%Z || (code c =? 169)%Z || (code c =? 175)%Z))
  || ((code a =? 226)%Z && (code b =? 129)%Z && (code c =? 159)%Z)                  (* U+205F *)
  || ((code a =? 227)%Z && (code b =? 128)%Z && (code c =? 128)%Z)                  (* U+3000 *)
  || ((code a =? 239)%Z && (code b =? 187)%Z && (code c =? 191)%Z).                 (* U+FEFF *)

(** Drop the white space at the front.  [w2] and [w3] recognise multi-byte characters, so the
    same function trims the end of a string on its reversed bytes. *)
Fixpoint drop_ws (w2 : ascii → ascii → bool) (w3 : ascii → ascii → ascii → bool)
    (s : string) : string :=
  match s with
  | EmptyString => s
  | String a s1 =>
      if ws1 a then drop_ws w2 w3 s1 else
      match s1 with
      | EmptyString => s
      | String b s2 =>
          if w2 a b then drop_ws w2 w3 s2 else
          match s2 with
          | EmptyString => s
          | String c s3 => if w3 a b c then drop_ws w2 w3 s3 else s
          end
      end
  end.

Definition srev (s : string) : string := string_of_list_ascii (rev (list_ascii_of_string s)).

Definition trim_start : string → string := drop_ws ws2 ws3.
Definition drop_ws_rev : string → string := drop_ws (λ a b, ws2 b a) (λ a b c, ws3 c b a).
Definition trim_end (s : string) : string := srev (drop_ws_rev (srev s)).
Definition trim (s : string) : string := trim_end (trim_start s).

(** ** Character classes and patterns *)

Definition is_digit : ascii → bool := between 48 57.
Definition is_alnum (c : ascii) : bool := is_digit c || between 65 90 c || between 97 122 c.
(** [[A-Za-z0-9._:/@+\-]] *)
Definition is_ref_char (c : ascii) : bool :=
  is_alnum c || includes ["."; "_"; ":"; "/"; "@"; "+"; "-"] (String c EmptyString).
(** [[a-f0-9]] *)
Definition is_hex (c : ascii) : bool := is_digit c || between 97 102 c.

Fixpoint all_chars (p : ascii → bool) (s : string) : bool :=
  match s with EmptyString => true | String c s' => p c && all_chars p s' end.

(** [/^[A-Za-z0-9][A-Za-z0-9._:/@+\-]*$/u] *)
Definition portable_pattern (s : string) : bool :=
  match s with EmptyString => false | String c s' => is_alnum c && all_chars is_ref_char s' end.

(** [/^[a-f0-9]{n}$/u] *)
Definition hex_pattern (n : nat) (s : string) : bool :=
  Nat.eqb (String.length s) n && all_chars is_hex s.

Fixpoint strip_prefix (p s : string) : option string :=
  match p, s with
  | EmptyString, _ => Some s
  | String a p', String b s' => if Ascii.eqb a b then strip_prefix p' s' else None
  | String _ _, EmptyString => None
  end.

(** [/^PRE-[a-f0-9]{n}$/u], for a literal prefix [pre]. *)
Definition prefixed_hex_pattern (pre : string) (n : nat) (s : string) : bool :=
  match strip_prefix pre s with Some h => hex_pattern n h | None => false end.

(** [s.slice(0, n)] *)
Fixpoint slice0 (n : nat) (s : string) : string :=
  match n, s with
  | S n', String c s' => String c (slice0 n' s')
  | _, _ => EmptyString
  end.

(** ** Concatenation *)

Lemma str_app_nil s : "" +:+ s = s.
Proof. done. Qed.

Lemma str_app_cons a s t : String a s +:+ t = String a (s +:+ t).
Proof. done. Qed.

Lemma str_length_app s t : String.length (s +:+ t) = String.length s + String.length t.
Proof. induction s as [|a s IH]; [done|]. rewrite str_app_cons. simpl. lia. Qed.

Lemma str_app_assoc s t u : (s +:+ t) +:+ u = s +:+ (t +:+ u).
Proof. induction s as [|a s IH]; [done|]. rewrite !str_app_cons. by rewrite IH. Qed.

Lemma str_app_inj_l s t u : s +:+ t = s +:+ u → t = u.
Proof. induction s as [|a s IH]; [done|]. rewrite !str_app_cons. intros [=]. auto. Qed.

(** ** Trimming is idempotent *)

Lemma srev_involutive s : srev (srev s) = s.
Proof.
  unfold srev. by rewrite list_ascii_of_string_of_list_ascii, rev_involutive,
    string_of_list_ascii_of_string.
Qed.

Section DropWs.
Context (w2 : ascii → ascii → bool) (w3 : ascii → ascii → ascii → bool).
Local Abbreviation drop := (drop_ws w2 w3).

Lemma drop_ws_length_strong n s :
  String.length s ≤ n → String.length (drop s) ≤ String.length s ∧ drop (drop s) = drop s
    ∧ ∃ p, s = p +:+ drop s.
Proof.
  revert s. induction n as [|n IH]; intros s Hn.
  { destruct s; simpl in *; [|lia]. split_and!; [lia | done | by exists ""]. }
  assert (∀ t p, s = p +:+ t → String.length t ≤ n → drop s = drop t →
    String.length (drop s) ≤ String.length s ∧ drop (drop s) = drop s
    ∧ ∃ p, s = p +:+ drop s) as Hstep.
  { intros t p Hs Ht Hd. destruct (IH t Ht) as (Hl & Hdd & q & Hq).
    rewrite Hd. split_and!.
    - rewrite Hs, str_length_app. lia.
    - done.
    - exists (p +:+ q). rewrite str_app_assoc. congruence. }
  destruct s as [|a s1]; [split_and!; [done..|]; by exists ""|]. simpl in Hn.
  assert (drop (String a s1) = String a s1 →
    String.length (drop (String a s1)) ≤ String.length (String a s1)
    ∧ drop (drop (String a s1)) = drop (String a s1)
    ∧ ∃ p, String a s1 = p +:+ drop (String a s1)) as Hstop.
  { intros E. rewrite !E. split_and!; [done..|]. by exists "". }
  destruct (ws1 a) eqn:E1.
  { apply (Hstep s1 (String a "")); [done | lia |]. simpl. by rewrite E1. }
  destruct s1 as [|b s2]; [apply Hstop; simpl; by rewrite E1|]. simpl in Hn.
  destruct (w2 a b) eqn:E2.
  { apply (Hstep s2 (String a (String b ""))); [done | lia |]. simpl. by rewrite E1, E2. }
  destruct s2 as [|c s3]; [apply Hstop; simpl; by rewrite E1, E2|]. simpl in Hn.
  destruct (w3 a b c) eqn:E3.
  { apply (Hstep s3 (String a (String b (String c "")))); [done | lia |].
    simpl. by rewrite E1, E2, E3. }
  apply Hstop. simpl. by rewrite E1, E2, E3.
Qed.

Lemma drop_ws_length s : String.length (drop s) ≤ String.length s.
Proof. by destruct (drop_ws_length_strong _ s (le_n _)) as (? & ? & _). Qed.

Lemma drop_ws_idem s : drop (drop s) = drop s.
Proof. by destruct (drop_ws_length_strong _ s (le_n _)) as (? & ? & _). Qed.

Lemma drop_ws_suffix s : ∃ p, s = p +:+ drop s.
Proof. by destruct (drop_ws_length_strong _ s (le_n _)) as (_ & _ & ?). Qed.

(** A string without leading white space has no prefix with leading white space. *)
Lemma drop_ws_prefix p q : drop (p +:+ q) = p +:+ q → drop p = p.
Proof.
  assert (∀ s t, String.length t < String.length s → drop t ≠ s) as Hshort.
  { intros s t Hl E. pose proof (drop_ws_length t). rewrite E in *. lia. }
  assert (∀ s t (P : Prop), String.length t < String.length s → drop t = s → P) as Hno.
  { intros s t P Hl E. by destruct (Hshort s t Hl). }
  destruct p as [|a [|b [|c p]]]; rewrite ?str_app_cons, ?str_app_nil; [done|..]; simpl.
  - destruct (ws1 a); [apply (Hno _ q); simpl; lia | done].
  - destruct (ws1 a); [apply (Hno _ (String b q)); simpl; lia|].
    destruct (w2 a b); [apply (Hno _ q); simpl; lia | done].
  - destruct (ws1 a); [apply (Hno _ (String b (String c (p +:+ q)))); simpl; lia|].
    destruct (w2 a b); [apply (Hno _ (String c (p +:+ q))); simpl; lia|].
    destruct (w3 a b c); [apply (Hno _ (p +:+ q)); simpl; lia | done].
Qed.
End DropWs.

Lemma string_of_list_ascii_app l1 l2 :
  string_of_list_ascii (l1 ++ l2) = String.append (string_of_list_ascii l1) (string_of_list_ascii l2).
Proof. induction l1; [done|]. simpl. rewrite str_app_cons. congruence. Qed.

Lemma list_ascii_of_string_app s1 s2 :
  list_ascii_of_string (s1 +:+ s2) = list_ascii_of_string s1 ++ list_ascii_of_string s2.
Proof. induction s1; [done|]. rewrite str_app_cons. simpl. congruence. Qed.

Lemma srev_append s1 s2 : srev (s1 +:+ s2) = String.append (srev s2) (srev s1).
Proof. unfold srev. by rewrite list_ascii_of_string_app, rev_app_distr, string_of_list_ascii_app. Qed.

Lemma trim_end_idem s : trim_end (trim_end s) = trim_end s.
Proof. unfold trim_end, drop_ws_rev. by rewrite srev_involutive, drop_ws_idem. Qed.

Lemma trim_end_prefix s : ∃ q, s = trim_end s +:+ q.
Proof.
  destruct (drop_ws_suffix (λ a b, ws2 b a) (λ a b c, ws3 c b a) (srev s)) as [p Hp].
  exists (srev p). unfold trim_end, drop_ws_rev.
  rewrite <- srev_append, <- Hp. by rewrite srev_involutive.
Qed.

Lemma trim_idem s : trim (trim s) = trim s.
Proof.
  unfold trim. destruct (trim_end_prefix (trim_start s)) as [q Hq].
  assert (trim_start (trim_end (trim_start s)) = trim_end (trim_start s)) as ->.
  { apply (drop_ws_prefix _ _ _ q). rewrite <- Hq. apply drop_ws_idem. }
  apply trim_end_idem.
Qed.

#[export] Hint Rewrite trim_idem : orquesta.

(** ** Slices and patterns *)

Lemma slice0_length n s : n ≤ String.length s → String.length (slice0 n s) = n.
Proof. revert s. induction n; intros [|c s]; simpl; intros; [lia..|]. rewrite IHn; lia. Qed.

Lemma all_chars_slice0 p n s : all_chars p s = true → all_chars p (slice0 n s) = true.
Proof.
  revert s. induction n; intros [|c s]; simpl; try done.
  intros [? ?]%andb_true_iff. apply andb_true_iff. auto.
Qed.

Lemma hex_pattern_slice0 n m s :
  n ≤ m → hex_pattern m s = true → hex_pattern n (slice0 n s) = true.
Proof.
  unfold hex_pattern. intros Hle [Hl Hc]%andb_true_iff. apply Nat.eqb_eq in Hl.
  apply andb_true_iff. split; [|by apply all_chars_slice0].
  apply Nat.eqb_eq, slice0_length. lia.
Qed.

Lemma strip_prefix_append p s : strip_prefix p (p +:+ s) = Some s.
Proof. induction p as [|a p IH]; [done|]. rewrite str_app_cons. simpl. by rewrite Ascii.eqb_refl. Qed.

Lemma prefixed_hex_pattern_append pre n s :
  prefixed_hex_pattern pre n (pre +:+ s) = hex_pattern n s.
Proof. unfold prefixed_hex_pattern. by rewrite strip_prefix_append. Qed.

Example trim_ascii : trim "  a b " = "a b".
Proof. reflexivity. Qed.
Example portable_examples :
  (portable_pattern "branch-1.a", portable_pattern "-x", portable_pattern "a b") = (true, false, false).
Proof. reflexivity. Qed.
