(* ===== verification/JsDate.v ===== *)
(** Time values and their ISO text.

    The code keeps instants as canonical strings, [new Date(t).toISOString()], and compares them
    through [Date.parse].  A string it accepts is canonical ([new Date(Date.parse(s))
    .toISOString() === s], checked by [timestamp], [assertTimestamp] and [exactTimestamp]), and
    [iso_roundtrip] and [ms_of_iso_sound] below make canonical strings and time values in range
    the same data; the records of the development therefore hold the time value, a [Z] of
    milliseconds since the epoch, and print it with [iso_of_ms] where the code puts the string
    in an event or a hashed object.  How an engine reads a non-canonical string does not matter
    to these checks: whatever [Date.parse] answers, the round trip does not give the string
    back. *)

From Stdlib Require Import ZArith Lia Ascii String.
From stdpp Require Import base tactics list strings option.
From S2P Require Import Prelude JsString.
Local Open Scope Z_scope.

(** ** Calendar: the proleptic Gregorian calendar of ECMAScript time values *)

(** Days since 1970-01-01 of a calendar date, with the year counted from March so that the leap
    day comes last. *)
Definition days_from_civil (y m d : Z) : Z :=
  let y' := if m <=? 2 then y - 1 else y in
  let yoe := y' mod 400 in
  let doy := (153 * (if 2 <? m then m - 3 else m + 9) + 2) / 5 + d - 1 in
  (y' / 400) * 146097 + (yoe * 365 + yoe / 4 - yoe / 100 + doy) - 719468.

(** The year of the era, month and day of a day of the 400-year era (146097 days). *)
Definition civil_of_doe (doe : Z) : Z * Z * Z :=
  let yoe := (doe - doe / 1460 + doe / 36524 - doe / 146096) / 365 in
  let doy := doe - (365 * yoe + yoe / 4 - yoe / 100) in
  let mp := (5 * doy + 2) / 153 in
  (yoe, if mp <? 10 then mp + 3 else mp - 9, doy - (153 * mp + 2) / 5 + 1).

Definition civil_from_days (days : Z) : Z * Z * Z :=
  let z := days + 719468 in
  let '(yoe, m, d) := civil_of_doe (z mod 146097) in
  let y := yoe + (z / 146097) * 400 in
  (if m <=? 2 then y + 1 else y, m, d).

(** The first day of a year of the era, and the year of a day of the era. *)
Definition year_start (yoe : Z) : Z := 365 * yoe + yoe / 4 - yoe / 100.
Definition year_of_doe (doe : Z) : Z :=
  (doe - doe / 1460 + doe / 36524 - doe / 146096) / 365.

Fixpoint check_below (f : Z → bool) (n : nat) (z : Z) : bool :=
  match n with O => true | S n' => f z && check_below f n' (z + 1) end.

Lemma check_below_spec f n z x : check_below f n z = true → z <= x < z + Z.of_nat n → f x = true.
Proof.
  revert z. induction n as [|n IH]; intros z; simpl; [lia|].
  intros [Hz Hn]%andb_true_iff Hx. destruct (decide (x = z)) as [->|]; [done|].
  apply (IH (z + 1)); [done | lia].
Qed.

(** The first and the last day of each year of the era fall in that year. *)
Lemma year_ends yoe :
  0 <= yoe < 400 → year_of_doe (year_start yoe) = yoe
    ∧ (yoe < 399 → year_of_doe (year_start (yoe + 1) - 1) = yoe).
Proof.
  intros Hy.
  assert ((year_of_doe (year_start yoe) =? yoe)
    && ((399 <=? yoe) || (year_of_doe (year_start (yoe + 1) - 1) =? yoe)) = true) as H.
  { apply (check_below_spec (λ yoe, (year_of_doe (year_start yoe) =? yoe)
      && ((399 <=? yoe) || (year_of_doe (year_start (yoe + 1) - 1) =? yoe))) 400 0);
      [vm_compute; reflexivity | lia]. }
  apply andb_true_iff in H as [H1 H2]. split; [by apply Z.eqb_eq|].
  intros. apply orb_true_iff in H2 as [H2|H2]; [apply Z.leb_le in H2; lia | by apply Z.eqb_eq].
Qed.

Lemma year_of_doe_mono x y : x <= y → year_of_doe x <= year_of_doe y.
Proof.
  intros Hxy. apply Z.div_le_mono; [lia|].
  assert (∀ n : nat, x - x / 1460 + x / 36524 - x / 146096 <=
    (x + Z.of_nat n) - (x + Z.of_nat n) / 1460 + (x + Z.of_nat n) / 36524
      - (x + Z.of_nat n) / 146096) as H.
  { induction n as [|n IH]; [by rewrite Z.add_0_r|]. etransitivity; [apply IH|].
    replace (x + Z.of_nat (S n)) with ((x + Z.of_nat n) + 1) by lia.
    generalize (x + Z.of_nat n). intros z. Z.div_mod_to_equations. lia. }
  specialize (H (Z.to_nat (y - x))). by replace (x + Z.of_nat (Z.to_nat (y - x))) with y in H by lia.
Qed.

Lemma year_of_doe_spec doe :
  0 <= doe < 146097 →
  0 <= year_of_doe doe < 400 ∧ 0 <= doe - year_start (year_of_doe doe) < 366.
Proof.
  intros Hd. remember (year_of_doe doe) as y eqn:Ey.
  assert (0 <= y < 400) as Hy.
  { pose proof (year_of_doe_mono 0 doe ltac:(lia)). pose proof (year_of_doe_mono doe 146096 ltac:(lia)).
    change (year_of_doe 0) with 0 in *. change (year_of_doe 146096) with 399 in *. lia. }
  assert (year_start y <= doe).
  { apply Z.le_ngt. intros Hlt. destruct (decide (y = 0)) as [->|]; [change (year_start 0) with 0 in *; lia|].
    destruct (year_ends (y - 1) ltac:(lia)) as [_ He]. specialize (He ltac:(lia)).
    rewrite Z.sub_add in He.
    pose proof (year_of_doe_mono doe (year_start y - 1) ltac:(lia)). lia. }
  split; [done|]. destruct (decide (y = 399)) as [->|].
  { change (year_start 399) with 145731 in *. lia. }
  assert (doe < year_start (y + 1)).
  { apply Z.nle_gt. intros Hle. destruct (year_ends (y + 1) ltac:(lia)) as [He _].
    pose proof (year_of_doe_mono _ _ Hle). lia. }
  unfold year_start in *. Z.div_mod_to_equations. lia.
Qed.

(** The month and day of a day of the year, checked over one year. *)
Definition doy_ok (doy : Z) : bool :=
  let mp := (5 * doy + 2) / 153 in
  let m := if mp <? 10 then mp + 3 else mp - 9 in
  let d := doy - (153 * mp + 2) / 5 + 1 in
  (1 <=? m) && (m <=? 12) && (1 <=? d) && (d <=? 31)
  && ((153 * (if 2 <? m then m - 3 else m + 9) + 2) / 5 + d - 1 =? doy).

Lemma doy_ok_all doy : 0 <= doy < 366 → doy_ok doy = true.
Proof. apply (check_below_spec _ 366 0). vm_compute. reflexivity. Qed.

Lemma civil_of_doe_spec doe yoe m d :
  0 <= doe < 146097 → civil_of_doe doe = (yoe, m, d) →
  0 <= yoe < 400 ∧ 1 <= m <= 12 ∧ 1 <= d <= 31
  ∧ year_start yoe + ((153 * (if 2 <? m then m - 3 else m + 9) + 2) / 5 + d - 1) = doe.
Proof.
  intros Hd. unfold civil_of_doe. fold (year_of_doe doe). fold (year_start (year_of_doe doe)).
  destruct (year_of_doe_spec doe Hd) as [Hy Hdoy].
  pose proof (doy_ok_all _ Hdoy) as Hok. unfold doy_ok in Hok.
  set (doy := doe - year_start (year_of_doe doe)) in *.
  intros E. injection E as <- <- <-. split_bools. split_and!; lia.
Qed.

Lemma civil_from_days_bounds days y m d :
  civil_from_days days = (y, m, d) →
  1 <= m <= 12 ∧ 1 <= d <= 31
  ∧ (days + 719468) / 146097 * 400 <= y <= (days + 719468) / 146097 * 400 + 400.
Proof.
  unfold civil_from_days. destruct (civil_of_doe _) as [[yoe m'] d'] eqn:E.
  apply civil_of_doe_spec in E as (Hy & Hm & Hd & _); [|by apply Z.mod_pos_bound].
  intros [= <- <- <-]. destruct (m' <=? 2); lia.
Qed.

Lemma days_from_civil_from_days days y m d :
  civil_from_days days = (y, m, d) → days_from_civil y m d = days.
Proof.
  unfold civil_from_days, days_from_civil. set (z := days + 719468).
  destruct (civil_of_doe (z mod 146097)) as [[yoe m'] d'] eqn:E.
  apply civil_of_doe_spec in E as (Hy & Hm & Hd & Hdoe); [|by apply Z.mod_pos_bound].
  unfold year_start in Hdoe. intros [= <- <- <-].
  replace (if m' <=? 2 then (if m' <=? 2 then yoe + z / 146097 * 400 + 1
    else yoe + z / 146097 * 400) - 1 else if m' <=? 2 then yoe + z / 146097 * 400 + 1
    else yoe + z / 146097 * 400) with (yoe + z / 146097 * 400) by (destruct (m' <=? 2); lia).
  rewrite Z.mod_add, Z.div_add by lia.
  rewrite (Z.mod_small yoe), (Z.div_small yoe 400) by lia.
  pose proof (Z.div_mod z 146097 ltac:(lia)). unfold z in *. lia.
Qed.

(** ** Fixed-width decimal text *)

Definition digit (n : Z) : ascii := ascii_of_N (Z.to_N (48 + n)).

Fixpoint pad (w : nat) (n : Z) : string :=
  match w with
  | O => ""
  | S w' => pad w' (n / 10) +:+ String (digit (n mod 10)) ""
  end.

Fixpoint read_digits (w : nat) (acc : Z) (s : string) : option (Z * string) :=
  match w, s with
  | O, _ => Some (acc, s)
  | S w', String c s' =>
      if is_digit c then read_digits w' (acc * 10 + (code c - 48)) s' else None
  | S _, EmptyString => None
  end.

Definition expect (c : ascii) (s : string) : option string :=
  match s with
  | String c' s' => if Ascii.eqb c c' then Some s' else None
  | EmptyString => None
  end.

Lemma code_digit n : 0 <= n < 10 → code (digit n) = 48 + n.
Proof.
  intros H. unfold code, digit. rewrite N_ascii_embedding by lia. lia.
Qed.

Lemma is_digit_digit n : 0 <= n < 10 → is_digit (digit n) = true.
Proof.
  intros H. unfold is_digit, between. rewrite code_digit by done.
  apply andb_true_iff. split; apply Z.leb_le; lia.
Qed.

Lemma read_digits_snoc w acc s c v rest :
  read_digits w acc s = Some (v, String c rest) → is_digit c = true →
  read_digits (S w) acc s = Some (v * 10 + (code c - 48), rest).
Proof.
  revert acc s. induction w as [|w IH]; intros acc s.
  - simpl. intros [= -> ->] Hc. by rewrite Hc.
  - intros H Hc. destruct s as [|a s]; [done|]. cbn [read_digits] in H |- *.
    destruct (is_digit a); [|done]. exact (IH _ _ H Hc).
Qed.

Lemma read_digits_pad w n rest :
  0 <= n < 10 ^ Z.of_nat w → ∀ acc,
  read_digits w acc (pad w n +:+ rest) = Some (acc * 10 ^ Z.of_nat w + n, rest).
Proof.
  revert n rest. induction w as [|w IH]; intros n rest Hn acc.
  - simpl in *. rewrite str_app_nil. do 2 f_equal. lia.
  - rewrite Nat2Z.inj_succ, Z.pow_succ_r in * by lia.
    assert (0 <= n mod 10 < 10) as Hd by (apply Z.mod_pos_bound; lia).
    pose proof (Z.div_mod n 10 ltac:(lia)).
    erewrite read_digits_snoc; [| |by apply (is_digit_digit (n mod 10))].
    + rewrite code_digit by done. do 2 f_equal.
      instantiate (1 := acc * 10 ^ Z.of_nat w + n / 10). lia.
    + simpl. rewrite str_app_assoc, str_app_cons, str_app_nil.
      apply IH. split; [apply Z.div_pos; lia|]. apply Z.div_lt_upper_bound; lia.
Qed.

Lemma read_digits_pad0 w n rest :
  0 <= n < 10 ^ Z.of_nat w → read_digits w 0 (pad w n +:+ rest) = Some (n, rest).
Proof. intros Hn. rewrite read_digits_pad by done. do 2 f_equal. Qed.

(** ** [toISOString] and [Date.parse] *)

Definition ms_per_day : Z := 86400000.
(** The largest time value, 8.64e15. *)
Definition max_time : Z := 8640000000000000.
Definition time_in_range (t : Z) : bool := (- max_time <=? t) && (t <=? max_time).

Definition iso_year (y : Z) : string :=
  if (0 <=? y) && (y <=? 9999) then pad 4 y
  else if 0 <=? y then String "+" (pad 6 y) else String "-" (pad 6 (- y)).

Definition iso_of_ms (t : Z) : string :=
  let '(y, m, d) := civil_from_days (t / ms_per_day) in
  let r := t mod ms_per_day in
  iso_year y +:+ String "-" (pad 2 m +:+ String "-" (pad 2 d +:+ String "T"
    (pad 2 (r / 3600000) +:+ String ":" (pad 2 (r / 60000 mod 60) +:+ String ":"
    (pad 2 (r / 1000 mod 60) +:+ String "." (pad 3 (r mod 1000) +:+ String "Z" "")))))).

Definition read_year (s : string) : option (Z * string) :=
  match s with
  | String "+" s' => read_digits 6 0 s'
  | String "-" s' => '(y, r) ← read_digits 6 0 s'; Some (- y, r)
  | _ => read_digits 4 0 s
  end.

(** The fields of a canonical string, by position; [ms_of_iso] keeps the result only when it
    prints back to the same string. *)
Definition ms_of_iso_fields (s : string) : option Z :=
  '(y, s) ← read_year s; s ← expect "-" s;
  '(mo, s) ← read_digits 2 0 s; s ← expect "-" s;
  '(d, s) ← read_digits 2 0 s; s ← expect "T" s;
  '(h, s) ← read_digits 2 0 s; s ← expect ":" s;
  '(mi, s) ← read_digits 2 0 s; s ← expect ":" s;
  '(sec, s) ← read_digits 2 0 s; s ← expect "." s;
  '(ms, s) ← read_digits 3 0 s; s ← expect "Z" s;
  Some (days_from_civil y mo d * ms_per_day + h * 3600000 + mi * 60000 + sec * 1000 + ms).

Definition ms_of_iso (s : string) : option Z :=
  t ← ms_of_iso_fields s;
  if time_in_range t && String.eqb (iso_of_ms t) s then Some t else None.

Lemma read_year_iso y rest :
  -1000000 < y < 1000000 → read_year (iso_year y +:+ rest) = Some (y, rest).
Proof.
  intros Hy. unfold iso_year.
  destruct ((0 <=? y) && (y <=? 9999)) eqn:E; [|destruct (0 <=? y) eqn:E2]; split_bools.
  - assert (read_year (pad 4 y +:+ rest) = read_digits 4 0 (pad 4 y +:+ rest)) as ->.
    { assert (∃ c s, pad 4 y +:+ rest = String c s ∧ is_digit c = true) as (c & s & -> & Hc).
      { cbn [pad]. rewrite !str_app_nil, !str_app_assoc, !str_app_cons.
        eexists _, _. split; [done|]. apply is_digit_digit, Z.mod_pos_bound. lia. }
      unfold read_year. destruct c as [[] [] [] [] [] [] [] []]; done. }
    rewrite read_digits_pad0 by lia. done.
  - rewrite str_app_cons. cbn [read_year]. rewrite read_digits_pad0 by lia. done.
  - rewrite str_app_cons. cbn [read_year]. rewrite read_digits_pad0 by lia. simpl. do 2 f_equal. lia.
Qed.

Lemma expect_cons c s : expect c (String c s) = Some s.
Proof. unfold expect. by rewrite Ascii.eqb_refl. Qed.

Lemma ms_of_iso_fields_iso t : time_in_range t = true → ms_of_iso_fields (iso_of_ms t) = Some t.
Proof.
  unfold time_in_range, max_time. intros Ht. split_bools. unfold iso_of_ms.
  destruct (civil_from_days (t / ms_per_day)) as [[y m] d] eqn:E.
  pose proof (civil_from_days_bounds _ _ _ _ E) as (Hm & Hd & Hy).
  assert (-1000000 < y < 1000000).
  { assert (-100000000 <= t / ms_per_day <= 100000000) by
      (unfold ms_per_day; split; [apply Z.div_le_lower_bound | apply Z.div_le_upper_bound]; lia).
    assert (-700 <= (t / ms_per_day + 719468) / 146097 <= 700) by
      (split; [apply Z.div_le_lower_bound | apply Z.div_le_upper_bound]; lia). lia. }
  assert (0 <= t mod ms_per_day < 86400000) as Hr by (apply Z.mod_pos_bound; done).
  pose proof (Z.div_mod t ms_per_day ltac:(done)) as Hdm.
  set (r := t mod ms_per_day) in *.
  assert (0 <= r / 3600000 < 24) by
    (split; [apply Z.div_pos | apply Z.div_lt_upper_bound]; lia).
  pose proof (Z.mod_pos_bound (r / 60000) 60). pose proof (Z.mod_pos_bound (r / 1000) 60).
  pose proof (Z.mod_pos_bound r 1000).
  unfold ms_of_iso_fields.
  repeat (first [rewrite read_year_iso by lia | rewrite read_digits_pad0 by lia
                | rewrite expect_cons]; cbn [mbind option_bind]).
  f_equal. rewrite (days_from_civil_from_days _ _ _ _ E). fold r in Hdm.
  assert (r = r / 3600000 * 3600000 + r / 60000 mod 60 * 60000 + r / 1000 mod 60 * 1000
    + r mod 1000) as Hsplit; [|unfold ms_per_day in *; lia].
  replace 3600000 with (1000 * 60 * 60) by lia. replace 60000 with (1000 * 60) by lia.
  rewrite <- !Z.div_div by lia.
  pose proof (Z.div_mod r 1000 ltac:(lia)).
  pose proof (Z.div_mod (r / 1000) 60 ltac:(lia)).
  pose proof (Z.div_mod (r / 1000 / 60) 60 ltac:(lia)). lia.
Qed.

(** A time value in range is read back from its own text. *)
Lemma iso_roundtrip t : time_in_range t = true → ms_of_iso (iso_of_ms t) = Some t.
Proof.
  intros Ht. unfold ms_of_iso. rewrite ms_of_iso_fields_iso by done. simpl.
  by rewrite Ht, String.eqb_refl.
Qed.

Lemma ms_of_iso_sound s t : ms_of_iso s = Some t → iso_of_ms t = s ∧ time_in_range t = true.
Proof.
  unfold ms_of_iso. destruct (ms_of_iso_fields s) as [t'|]; simpl; [|done].
  destruct (time_in_range t' && String.eqb (iso_of_ms t') s) eqn:E; [|done].
  intros [= <-]. apply andb_true_iff in E as [? E]. split; [by apply String.eqb_eq|done].
Qed.

(** [new Date(t).toISOString()] throws a [RangeError] when [t] is out of range; the code computes
    such [t] by adding milliseconds to an instant ([addMilliseconds]). *)
Definition to_time (t : Z) : res Z := if time_in_range t then Ok t else Err RangeError.

Example iso_epoch : iso_of_ms 0 = "1970-01-01T00:00:00.000Z".
Proof. reflexivity. Qed.
Example iso_leap : iso_of_ms 951782400123 = "2000-02-29T00:00:00.123Z".
Proof. reflexivity. Qed.
Example iso_far : iso_of_ms 8640000000000000 = "+275760-09-13T00:00:00.000Z".
Proof. reflexivity. Qed.
Example iso_not_canonical :
  (ms_of_iso "2024-02-30T00:00:00.000Z", ms_of_iso "2024-02-29T24:00:00.000Z") = (None, None).
Proof. vm_compute. reflexivity. Qed.
