(* ===== verification/Json.v ===== *)
(** JSON values, canonical JSON and its hash ([packages/contracts/src/canonical-json.js]).

    A value is a tree of plain data: objects are lists of own enumerable fields in insertion
    order, without duplicates.  What plain data cannot contain (cycles, shared references,
    accessors, symbol keys, class instances, sparse arrays) has no representation, and the
    rejections of such values are not modelled. *)

From Stdlib Require Import ZArith Lia Ascii String Permutation Sorted.
From stdpp Require Import base tactics list strings option pretty.
From S2P Require Import Prelude JsString JsDate.

(** [JInt z] is the integral number [z]; [JNum t] is any other finite number, by the text
    [JSON.stringify] gives it; [JNonFinite] is [NaN] or an infinity; [JOther] is a function, a
    symbol or a bigint. *)
Inductive json :=
| JUndef
| JNull
| JBool (b : bool)
| JInt (z : Z)
| JNum (text : string)
| JNonFinite
| JStr (s : string)
| JArr (items : list json)
| JObj (fields : list (string * json))
| JOther.

Abbreviation fields := (list (string * json)).

(** ** Field access *)

(** [object.field]: [undefined] when the field is absent. *)
Fixpoint get (k : string) (fs : fields) : json :=
  match fs with
  | [] => JUndef
  | (k', v) :: fs' => if String.eqb k k' then v else get k fs'
  end.

(** [Object.hasOwn(object, field)]. *)
Definition has_own (fs : fields) (k : string) : bool := includes (map fst fs) k.

(** [Object.keys(object)] up to order; the code sorts it or iterates over it to check. *)
Definition keys (fs : fields) : list string := map fst fs.

(** The induction principle that reaches into arrays and objects. *)
Section JsonInd.
Context (P : json → Prop).
Hypothesis Hundef : P JUndef.
Hypothesis Hnull : P JNull.
Hypothesis Hbool : ∀ b, P (JBool b).
Hypothesis Hint : ∀ z, P (JInt z).
Hypothesis Hnum : ∀ t, P (JNum t).
Hypothesis Hnonfinite : P JNonFinite.
Hypothesis Hstr : ∀ s, P (JStr s).
Hypothesis Harr : ∀ l, Forall P l → P (JArr l).
Hypothesis Hobj : ∀ fs, Forall (λ kv, P kv.2) fs → P (JObj fs).
Hypothesis Hother : P JOther.

Fixpoint json_rect_nested (j : json) : P j :=
  match j with
  | JUndef => Hundef
  | JNull => Hnull
  | JBool b => Hbool b
  | JInt z => Hint z
  | JNum t => Hnum t
  | JNonFinite => Hnonfinite
  | JStr s => Hstr s
  | JArr l => Harr l ((fix go l : Forall P l :=
      match l with
      | [] => Forall_nil_2 _
      | x :: l' => Forall_cons_2 _ _ _ (json_rect_nested x) (go l')
      end) l)
  | JObj fs => Hobj fs ((fix go fs : Forall (λ kv, P kv.2) fs :=
      match fs with
      | [] => Forall_nil_2 _
      | (k, v) :: fs' => Forall_cons_2 _ (k, v) _ (json_rect_nested v) (go fs')
      end) fs)
  | JOther => Hother
  end.
End JsonInd.

(** [value === other] of JSON values: objects and arrays are equal only to themselves. *)
Definition strict_eq (l r : json) : bool :=
  match l, r with
  | JUndef, JUndef | JNull, JNull => true
  | JBool a, JBool b => Bool.eqb a b
  | JInt a, JInt b => (a =? b)%Z
  | JNum a, JNum b | JStr a, JStr b => String.eqb a b
  | _, _ => false
  end.

(** ** Canonical text *)

(** An array-index key ("0" to "4294967294" in canonical decimal), with its value: such keys
    come first in an object's key order, in numeric order. *)
Fixpoint decimal_value (acc : Z) (s : string) : option Z :=
  match s with
  | EmptyString => Some acc
  | String c s' => if is_digit c then decimal_value (acc * 10 + (code c - 48)) s' else None
  end.

Definition index_key (k : string) : option Z :=
  match decimal_value 0 k with
  | Some v => if (v <? 4294967295)%Z && String.eqb (pretty v) k then Some v else None
  | None => None
  end.

(** The order in which [JSON.stringify] visits the keys of an object whose keys were inserted in
    the order of [Object.keys(value).sort()]. *)
Definition key_leb (k1 k2 : string) : bool :=
  match index_key k1, index_key k2 with
  | Some v1, Some v2 => (v1 <=? v2)%Z
  | Some _, None => true
  | None, Some _ => false
  | None, None => text_leb k1 k2
  end.

Definition hex_digit (n : N) : ascii :=
  ascii_of_N (if (n <? 10)%N then 48 + n else 87 + n).

(** [JSON.stringify] of a character of a string. *)
Definition escape_char (c : ascii) (rest : string) : string :=
  let n := N_of_ascii c in
  if (n =? 34)%N then "\" +:+ String c rest
  else if (n =? 92)%N then "\\" +:+ rest
  else if (n =? 8)%N then "\b" +:+ rest
  else if (n =? 9)%N then "\t" +:+ rest
  else if (n =? 10)%N then "\n" +:+ rest
  else if (n =? 12)%N then "\f" +:+ rest
  else if (n =? 13)%N then "\r" +:+ rest
  else if (n <? 32)%N then
    "\u00" +:+ String (hex_digit (n / 16)) (String (hex_digit (n mod 16)) rest)
  else String c rest.

Definition dquote : ascii := "034"%char.

Fixpoint escape (s : string) : string :=
  match s with
  | EmptyString => String dquote EmptyString
  | String c s' => escape_char c (escape s')
  end.

Definition quote (s : string) : string := String dquote (escape s).

(** [parts.join(",")] *)
Fixpoint join_comma (l : list string) : string :=
  match l with
  | [] => ""
  | [x] => x
  | x :: l' => x +:+ "," +:+ join_comma l'
  end.

Definition entry_text (kt : string * res string) : res string :=
  let* t := kt.2 in Ok (quote kt.1 +:+ ":" +:+ t).

(** [canonicalJson(value)]: [normalize] then [JSON.stringify]. *)
Fixpoint canonicalJson (j : json) : res string :=
  match j with
  | JUndef | JNonFinite | JOther => Err TypeError
  | JNull => Ok "null"
  | JBool b => Ok (if b then "true" else "false")
  | JInt z => Ok (pretty z)
  | JNum t => Ok t
  | JStr s => Ok (quote s)
  | JArr l =>
      let* ts := mapR (λ r, r) (map canonicalJson l) in
      Ok ("[" +:+ join_comma ts +:+ "]")
  | JObj fs =>
      let entries := map (λ kv, match kv with (k, v) => (k, canonicalJson v) end) fs in
      let* ts := mapR entry_text (isort (λ a b, key_leb a.1 b.1) entries) in
      Ok ("{" +:+ join_comma ts +:+ "}")
  end.

(** [same(left, right)]: equality of the canonical texts; throws when a side has none. *)
Definition same (l r : json) : res bool :=
  let* a := canonicalJson l in
  let* b := canonicalJson r in
  Ok (String.eqb a b).

(** Node's [createHash("sha256").update(text, "utf8").digest("hex")], which the code takes from
    [node:crypto]. *)
Class Sha256 := sha256_hex : string → string.

(** Its documented output: 64 lowercase hexadecimal characters. *)
Class Sha256Laws `{Sha256} := sha256_hex_pattern : ∀ s, hex_pattern 64 (sha256_hex s) = true.

Definition canonicalHash `{Sha256} (j : json) : res string :=
  let* t := canonicalJson j in Ok (sha256_hex t).

(** ** Laws *)

Lemma index_key_inj k1 k2 v : index_key k1 = Some v → index_key k2 = Some v → k1 = k2.
Proof.
  unfold index_key. destruct (decimal_value 0 k1) as [v1|]; [|done].
  destruct ((v1 <? 4294967295)%Z && String.eqb (pretty v1) k1) eqn:E1; [|done].
  destruct (decimal_value 0 k2) as [v2|]; [|done].
  destruct ((v2 <? 4294967295)%Z && String.eqb (pretty v2) k2) eqn:E2; [|done].
  apply andb_true_iff in E1 as [_ E1], E2 as [_ E2]. apply String.eqb_eq in E1, E2. congruence.
Qed.

Lemma key_leb_total k1 k2 : key_leb k1 k2 = true ∨ key_leb k2 k1 = true.
Proof.
  unfold key_leb. destruct (index_key k1), (index_key k2); auto using text_leb_total.
  rewrite !Z.leb_le. lia.
Qed.

Lemma key_leb_trans k1 k2 k3 : key_leb k1 k2 = true → key_leb k2 k3 = true → key_leb k1 k3 = true.
Proof.
  unfold key_leb. destruct (index_key k1), (index_key k2), (index_key k3); try done.
  - rewrite !Z.leb_le. lia.
  - apply text_leb_trans.
Qed.

Lemma key_leb_antisym k1 k2 : key_leb k1 k2 = true → key_leb k2 k1 = true → k1 = k2.
Proof.
  unfold key_leb. destruct (index_key k1) eqn:E1, (index_key k2) eqn:E2; try done.
  - rewrite !Z.leb_le. intros. assert (z = z0) as <- by lia. by eapply index_key_inj.
  - apply text_leb_antisym.
Qed.

(** Values with a canonical text: no [undefined], no non-finite number, no function. *)
Fixpoint plain (j : json) : bool :=
  match j with
  | JUndef | JNonFinite | JOther => false
  | JArr l => forallb plain l
  | JObj fs => forallb (λ kv, match kv with (_, v) => plain v end) fs
  | _ => true
  end.

Lemma mapR_total {A B} (f : A → res B) l :
  (∀ x, x ∈ l → ∃ y, f x = Ok y) → ∃ l', mapR f l = Ok l'.
Proof.
  induction l as [|x l IH]; intros H; simpl; [by eexists|].
  destruct (H x) as [y ->]; [by left|]. simpl.
  destruct IH as [l' ->]; [intros; apply H; by right|]. simpl. by eexists.
Qed.

Lemma canonicalJson_total j : plain j = true → ∃ t, canonicalJson j = Ok t.
Proof.
  induction j as [| | | | | | |l IH|fs IH|] using json_rect_nested; simpl; try done; eauto.
  - intros Hp. destruct (mapR_total (λ r, r) (map canonicalJson l)) as [ts ->]; [|by eexists].
    intros r (j & -> & Hj)%list_elem_of_fmap. rewrite Forall_forall in IH.
    apply IH; [done|]. rewrite forallb_forall in Hp. apply Hp. by apply list_elem_of_In.
  - intros Hp.
    destruct (mapR_total entry_text (isort (λ a b, key_leb a.1 b.1)
      (map (λ kv, match kv with (k, v) => (k, canonicalJson v) end) fs))) as [ts ->];
      [|by eexists].
    intros [k r] H. apply isort_elem_of in H.
    apply list_elem_of_fmap in H as ([k' v] & [= -> ->] & Hv).
    rewrite Forall_forall in IH. destruct (IH _ Hv) as [t Ht].
    { rewrite forallb_forall in Hp. apply (Hp (k', v)). by apply list_elem_of_In. }
    simpl in Ht. unfold entry_text. simpl. rewrite Ht. simpl. by eexists.
Qed.

(** Canonical text does not depend on the order in which the fields were inserted. *)
Lemma canonicalJson_field_order fs1 fs2 :
  NoDup (keys fs1) → Permutation fs1 fs2 → canonicalJson (JObj fs1) = canonicalJson (JObj fs2).
Proof.
  intros Hnd HP. simpl. f_equal.
  set (f := λ kv : string * json, match kv with (k, v) => (k, canonicalJson v) end).
  enough (isort (λ a b, key_leb a.1 b.1) (map f fs1) = isort (λ a b, key_leb a.1 b.1) (map f fs2))
    as -> by done.
  apply isort_Permutation_eq;
    [intros; apply key_leb_total | intros; by eapply key_leb_trans | | by apply Permutation_map].
  intros x y (a & -> & Ha)%list_elem_of_fmap (b & -> & Hb)%list_elem_of_fmap H1 H2.
  pose proof (key_leb_antisym _ _ H1 H2) as Hk. destruct a as [k1 v1], b as [k2 v2]. simpl in Hk.
  apply list_elem_of_lookup in Ha as [i Hi], Hb as [j Hj].
  assert (i = j) as <-; [|congruence].
  eapply NoDup_lookup; [exact Hnd| |]; unfold keys; rewrite list_lookup_fmap.
  - by rewrite Hi.
  - rewrite Hj. simpl. by rewrite Hk.
Qed.

(** ** A concrete instance of the digest, for examples

    Sixty-four digits of a polynomial checksum: the shape of a digest, none of its strength. *)
Fixpoint hex_digits (n : nat) (v : N) : string :=
  match n with
  | O => EmptyString
  | S n' => String (hex_digit (v mod 16)) (hex_digits n' (v / 16))
  end.

Fixpoint checksum (acc : N) (s : string) : N :=
  match s with
  | EmptyString => acc
  | String c s' => checksum (N.land (acc * 65599 + N_of_ascii c) (N.ones 48)) s'
  end.

Definition checksum_sha : Sha256 := λ s, hex_digits 64 (checksum 5381 s).

Lemma is_hex_hex_digit n : (n < 16)%N → is_hex (hex_digit n) = true.
Proof.
  intros Hn.
  assert (forallb (λ k, is_hex (hex_digit (N.of_nat k))) (seq 0 16) = true) as Hall by reflexivity.
  rewrite forallb_forall in Hall. rewrite <- (N2Nat.id n). apply Hall, in_seq. lia.
Qed.

Lemma hex_digits_pattern n v : hex_pattern n (hex_digits n v) = true.
Proof.
  unfold hex_pattern. apply andb_true_iff. split.
  - apply Nat.eqb_eq. revert v. induction n; simpl; auto.
  - revert v. induction n as [|n IH]; intros v; [done|]. cbn [hex_digits all_chars].
    rewrite is_hex_hex_digit by (apply N.mod_lt; done). simpl. apply IH.
Qed.

Lemma checksum_sha_laws : @Sha256Laws checksum_sha.
Proof. intros s. apply hex_digits_pattern. Qed.
