(* ===== verification/SettlementPolicy.v ===== *)
(** The settlement policy ([packages/business-orchestrator/src/settlement-policy.js]).

    From a trusted certainty fact about one provider effect (its kind, the source of the
    evidence, the classification of the delivery and a bounded reason) the policy derives what
    happens next: terminal, a retry candidate, reconciliation or operator attention, and for a
    retry its scope and mode.  [deriveEffectGenerationRetryScheduleV2] then computes the
    bounded exponential back-off and whether a successor generation is permitted. *)

From Stdlib Require Import ZArith Lia String.
From stdpp Require Import base tactics list strings option.
From S2P Require Import Prelude JsString JsDate Json.

(** ** Vocabulary *)

Inductive EffectKind := ThreadCreate | TurnStart | UserInputSubmit | TurnCancel.
#[export] Instance EffectKind_eq_dec : EqDecision EffectKind.
Proof. solve_decision. Defined.
#[export] Instance EffectKind_enum : JsEnum EffectKind := {|
  enum_all := [ThreadCreate; TurnStart; UserInputSubmit; TurnCancel];
  enum_str k := match k with
    | ThreadCreate => "provider.thread.create" | TurnStart => "provider.turn.start"
    | UserInputSubmit => "provider.user_input.submit" | TurnCancel => "provider.turn.cancel" end |}.
#[export] Instance EffectKind_laws : JsEnumLaws EffectKind.
Proof. enum_laws. Qed.

(** [V2_SETTLEMENT_EFFECT_STAGES[kind]] *)
Definition effect_stage (k : EffectKind) : string :=
  match k with
  | ThreadCreate => "thread_create" | TurnStart => "turn_start"
  | UserInputSubmit => "user_input_submit" | TurnCancel => "turn_cancel" end.

Inductive SettlementSource := WorkerResult | RecoveryProbe | ControlPlane.
#[export] Instance SettlementSource_eq_dec : EqDecision SettlementSource.
Proof. solve_decision. Defined.
#[export] Instance SettlementSource_enum : JsEnum SettlementSource := {|
  enum_all := [WorkerResult; RecoveryProbe; ControlPlane];
  enum_str s := match s with
    | WorkerResult => "worker_result" | RecoveryProbe => "recovery_probe"
    | ControlPlane => "control_plane" end |}.
#[export] Instance SettlementSource_laws : JsEnumLaws SettlementSource.
Proof. enum_laws. Qed.

Inductive Classification := CAccepted | CNotSent | CDeliveryUnknown.
#[export] Instance Classification_eq_dec : EqDecision Classification.
Proof. solve_decision. Defined.
#[export] Instance Classification_enum : JsEnum Classification := {|
  enum_all := [CAccepted; CNotSent; CDeliveryUnknown];
  enum_str c := match c with
    | CAccepted => "accepted" | CNotSent => "not_sent"
    | CDeliveryUnknown => "delivery_unknown" end |}.
#[export] Instance Classification_laws : JsEnumLaws Classification.
Proof. enum_laws. Qed.

Inductive SettlementReason :=
| ProviderAcknowledged | ProviderRejectedNoMutation | ProviderBoundaryNotEntered
| ProviderDeferredNoMutation | PacketIntegrityFailed | AuthorityFailed | DriverCapabilityFailed
| WorkerTransportAmbiguous | WorkerSendExpired | RecoveryProbeFound
| RecoveryProbeAuthoritativeAbsence | RecoveryProbeInconclusive.
#[export] Instance SettlementReason_eq_dec : EqDecision SettlementReason.
Proof. solve_decision. Defined.
#[export] Instance SettlementReason_enum : JsEnum SettlementReason := {|
  enum_all := [ProviderAcknowledged; ProviderRejectedNoMutation; ProviderBoundaryNotEntered;
    ProviderDeferredNoMutation; PacketIntegrityFailed; AuthorityFailed; DriverCapabilityFailed;
    WorkerTransportAmbiguous; WorkerSendExpired; RecoveryProbeFound;
    RecoveryProbeAuthoritativeAbsence; RecoveryProbeInconclusive];
  enum_str r := match r with
    | ProviderAcknowledged => "provider_acknowledged"
    | ProviderRejectedNoMutation => "provider_rejected_no_mutation"
    | ProviderBoundaryNotEntered => "provider_boundary_not_entered"
    | ProviderDeferredNoMutation => "provider_deferred_no_mutation"
    | PacketIntegrityFailed => "packet_integrity_failed"
    | AuthorityFailed => "authority_failed"
    | DriverCapabilityFailed => "driver_capability_failed"
    | WorkerTransportAmbiguous => "worker_transport_ambiguous"
    | WorkerSendExpired => "worker_send_expired"
    | RecoveryProbeFound => "recovery_probe_found"
    | RecoveryProbeAuthoritativeAbsence => "recovery_probe_authoritative_absence"
    | RecoveryProbeInconclusive => "recovery_probe_inconclusive" end |}.
#[export] Instance SettlementReason_laws : JsEnumLaws SettlementReason.
Proof. enum_laws. Qed.

Definition V2_PRESEND_FAILURE_REASONS : list SettlementReason :=
  [PacketIntegrityFailed; AuthorityFailed; DriverCapabilityFailed].

Inductive Disposition := Terminal | RetryCandidate | ReconciliationRequired | OperatorAttention.
#[export] Instance Disposition_eq_dec : EqDecision Disposition.
Proof. solve_decision. Defined.
#[export] Instance Disposition_enum : JsEnum Disposition := {|
  enum_all := [Terminal; RetryCandidate; ReconciliationRequired; OperatorAttention];
  enum_str d := match d with
    | Terminal => "terminal" | RetryCandidate => "retry_candidate"
    | ReconciliationRequired => "reconciliation_required"
    | OperatorAttention => "operator_attention" end |}.
#[export] Instance Disposition_laws : JsEnumLaws Disposition.
Proof. enum_laws. Qed.

Inductive RetryScope := ScopeNone | ScopeEffectGeneration.
#[export] Instance RetryScope_eq_dec : EqDecision RetryScope.
Proof. solve_decision. Defined.
#[export] Instance RetryScope_enum : JsEnum RetryScope := {|
  enum_all := [ScopeNone; ScopeEffectGeneration];
  enum_str s := match s with ScopeNone => "none" | ScopeEffectGeneration => "effect_generation" end |}.
#[export] Instance RetryScope_laws : JsEnumLaws RetryScope.
Proof. enum_laws. Qed.

Inductive RetryMode := ModeNone | ModeAutomatic | ModeExplicit.
#[export] Instance RetryMode_eq_dec : EqDecision RetryMode.
Proof. solve_decision. Defined.
#[export] Instance RetryMode_enum : JsEnum RetryMode := {|
  enum_all := [ModeNone; ModeAutomatic; ModeExplicit];
  enum_str m := match m with
    | ModeNone => "none" | ModeAutomatic => "automatic" | ModeExplicit => "explicit" end |}.
#[export] Instance RetryMode_laws : JsEnumLaws RetryMode.
Proof. enum_laws. Qed.

(** ** The rule table *)

(** A rule's [retry_mode]: a mode, or ["stage_default"]. *)
Inductive RuleRetryMode := RuleMode (m : RetryMode) | StageDefault.

Record ReasonRule := {
  rule_settlement_source : SettlementSource;
  rule_classification : Classification;
  rule_disposition : Disposition;
  rule_retry_mode : RuleRetryMode;
}.

Definition REASON_RULES (r : SettlementReason) : ReasonRule :=
  match r with
  | ProviderAcknowledged => Build_ReasonRule WorkerResult CAccepted Terminal (RuleMode ModeNone)
  | ProviderRejectedNoMutation =>
      Build_ReasonRule WorkerResult CNotSent RetryCandidate (RuleMode ModeExplicit)
  | ProviderBoundaryNotEntered =>
      Build_ReasonRule WorkerResult CNotSent RetryCandidate StageDefault
  | ProviderDeferredNoMutation =>
      Build_ReasonRule WorkerResult CNotSent RetryCandidate StageDefault
  | PacketIntegrityFailed =>
      Build_ReasonRule ControlPlane CNotSent OperatorAttention (RuleMode ModeNone)
  | AuthorityFailed =>
      Build_ReasonRule ControlPlane CNotSent OperatorAttention (RuleMode ModeNone)
  | DriverCapabilityFailed =>
      Build_ReasonRule ControlPlane CNotSent OperatorAttention (RuleMode ModeNone)
  | WorkerTransportAmbiguous =>
      Build_ReasonRule WorkerResult CDeliveryUnknown ReconciliationRequired (RuleMode ModeNone)
  | WorkerSendExpired =>
      Build_ReasonRule ControlPlane CDeliveryUnknown ReconciliationRequired (RuleMode ModeNone)
  | RecoveryProbeFound => Build_ReasonRule RecoveryProbe CAccepted Terminal (RuleMode ModeNone)
  | RecoveryProbeAuthoritativeAbsence =>
      Build_ReasonRule RecoveryProbe CNotSent RetryCandidate (RuleMode ModeExplicit)
  | RecoveryProbeInconclusive =>
      Build_ReasonRule RecoveryProbe CDeliveryUnknown ReconciliationRequired (RuleMode ModeNone)
  end.

(** [START_STAGE_SET.has(effectStage)] *)
Definition is_start_kind (k : EffectKind) : bool :=
  match k with ThreadCreate | TurnStart => true | UserInputSubmit | TurnCancel => false end.

Definition retryModeFor (rule : ReasonRule) (k : EffectKind) : RetryMode :=
  match rule_retry_mode rule with
  | RuleMode m => m
  | StageDefault => if is_start_kind k then ModeAutomatic else ModeExplicit
  end.

(** ** Reading data objects *)

Local Abbreviation invalid path reason := (Err (BusinessSettlementPolicyError path reason)).

Definition exactDataObject (input : json) (expectedFields : list string) (path : string)
    : res fields :=
  match input with
  | JObj fs =>
      match filter (λ k, k ∉ expectedFields) (keys fs) with
      | _ :: _ => invalid path "unknown_field"
      | [] =>
          match filter (λ f, f ∉ keys fs) expectedFields with
          | f :: _ => invalid (path +:+ "." +:+ f) "missing_field"
          | [] => Ok fs
          end
      end
  | _ => invalid path "object"
  end.

Definition exactInteger (value : json) (expected : Z) (path reason : string) : res unit :=
  match value with
  | JInt z => if is_safe_integer z && (z =? expected)%Z then Ok tt else invalid path reason
  | _ => invalid path reason
  end.

Definition exactEnum {A} `{JsEnum A} (value : json) (allowed : list A) (path : string) : res A :=
  match value with
  | JStr s => match enum_find allowed s with
              | Some a => Ok a
              | None => invalid path "unknown_value"
              end
  | _ => invalid path "unknown_value"
  end.

(** A canonical text with a four-digit year has 24 characters, one with an expanded year 27. *)
Definition exactTimestamp (value : json) (path : string) : res Z :=
  match value with
  | JStr s => match ms_of_iso s with
              | Some t => if Nat.eqb (String.length s) 24 then Ok t else invalid path "timestamp"
              | None => invalid path "timestamp"
              end
  | _ => invalid path "timestamp"
  end.

(** Names every object inherits from [Object.prototype]: a lookup of one of them in an object
    literal is not [undefined]. *)
Definition object_prototype_names : list string :=
  ["constructor"; "__defineGetter__"; "__defineSetter__"; "hasOwnProperty"; "__lookupGetter__";
   "__lookupSetter__"; "isPrototypeOf"; "propertyIsEnumerable"; "toString"; "valueOf";
   "__proto__"; "toLocaleString"].

(** ** Deriving the disposition *)

Record SettlementPolicy := {
  sp_effect_kind : EffectKind;
  sp_settlement_source : SettlementSource;
  sp_classification : Classification;
  sp_reason : SettlementReason;
  sp_disposition : Disposition;
  sp_retry_scope : RetryScope;
  sp_retry_mode : RetryMode;
}.
#[export] Instance SettlementPolicy_eq_dec : EqDecision SettlementPolicy.
Proof. solve_decision. Defined.

Definition CERTAINTY_FACT_FIELDS : list string :=
  ["certainty_fact_version"; "effect_contract_version"; "effect_kind"; "effect_stage";
   "settlement_source"; "classification"; "reason"].
Definition SETTLEMENT_POLICY_FIELDS : list string :=
  ["policy_version"] ++ CERTAINTY_FACT_FIELDS ++ ["disposition"; "retry"].
Definition RETRY_FIELDS : list string := ["scope"; "mode"].
Definition RETRY_POLICY_INPUT_FIELDS : list string :=
  ["backoff_initial_ms"; "backoff_max_ms"; "max_attempts"].
Definition RETRY_SCHEDULE_FIELDS : list string :=
  ["settlement_policy"; "retry_policy"; "completed_generation"; "settled_at";
   "attempt_deadline_at"; "work_order_deadline_at"].

(** [V2_SETTLEMENT_EFFECT_STAGES[fact.effect_kind]] followed by the two checks on it: an absent
    kind is unknown; an inherited name is found, and is no stage. *)
Definition exactEffectKind (kind stage : json) : res EffectKind :=
  match kind with
  | JStr s =>
      match enum_find enum_all s with
      | Some k =>
          match stage with
          | JStr t => if String.eqb t (effect_stage k) then Ok k
                      else invalid "certainty_fact.effect_stage" "effect_stage_mismatch"
          | _ => invalid "certainty_fact.effect_stage" "effect_stage_mismatch"
          end
      | None =>
          if includes object_prototype_names s
          then invalid "certainty_fact.effect_stage" "effect_stage_mismatch"
          else invalid "certainty_fact.effect_kind" "unknown_value"
      end
  | _ => invalid "certainty_fact.effect_kind" "unknown_value"
  end.

(** The policy record the rule table gives a kind and a reason. *)
Definition policy_of (k : EffectKind) (r : SettlementReason) : SettlementPolicy :=
  let rule := REASON_RULES r in {|
    sp_effect_kind := k;
    sp_settlement_source := rule_settlement_source rule;
    sp_classification := rule_classification rule;
    sp_reason := r;
    sp_disposition := rule_disposition rule;
    sp_retry_scope := if decide (rule_disposition rule = RetryCandidate)
                      then ScopeEffectGeneration else ScopeNone;
    sp_retry_mode := retryModeFor rule k;
  |}.

Definition deriveSettlementDispositionV2 (input : json) : res SettlementPolicy :=
  let* fact := exactDataObject input CERTAINTY_FACT_FIELDS "certainty_fact" in
  let* _ := exactInteger (get "certainty_fact_version" fact) 2
    "certainty_fact.certainty_fact_version" "version" in
  let* _ := exactInteger (get "effect_contract_version" fact) 2
    "certainty_fact.effect_contract_version" "effect_contract_version" in
  let* settlementSource := exactEnum (A := SettlementSource) (get "settlement_source" fact)
    enum_all "certainty_fact.settlement_source" in
  let* classification := exactEnum (A := Classification) (get "classification" fact)
    enum_all "certainty_fact.classification" in
  let* reason := exactEnum (A := SettlementReason) (get "reason" fact)
    enum_all "certainty_fact.reason" in
  let* kind := exactEffectKind (get "effect_kind" fact) (get "effect_stage" fact) in
  let rule := REASON_RULES reason in
  reject bool_decide (settlementSource ≠ rule_settlement_source rule)
    with BusinessSettlementPolicyError "certainty_fact.reason" "source_reason_mismatch" in
  reject bool_decide (classification ≠ rule_classification rule)
    with BusinessSettlementPolicyError "certainty_fact.classification"
      "classification_reason_mismatch" in
  let disposition := rule_disposition rule in
  let retryMode := retryModeFor rule kind in
  let retryScope := if decide (disposition = RetryCandidate)
                    then ScopeEffectGeneration else ScopeNone in
  Ok {| sp_effect_kind := kind; sp_settlement_source := settlementSource;
        sp_classification := classification; sp_reason := reason;
        sp_disposition := disposition; sp_retry_scope := retryScope;
        sp_retry_mode := retryMode |}.

(** The certainty fact a policy record carries, and the record itself, as data objects. *)
Definition certainty_fact_fields (p : SettlementPolicy) : fields :=
  [("certainty_fact_version", JInt 2); ("effect_contract_version", JInt 2);
   ("effect_kind", JStr (enum_str (sp_effect_kind p)));
   ("effect_stage", JStr (effect_stage (sp_effect_kind p)));
   ("settlement_source", JStr (enum_str (sp_settlement_source p)));
   ("classification", JStr (enum_str (sp_classification p)));
   ("reason", JStr (enum_str (sp_reason p)))].

Definition settlement_policy_json (p : SettlementPolicy) : json :=
  JObj ([("policy_version", JInt 3)] ++ certainty_fact_fields p ++
    [("disposition", JStr (enum_str (sp_disposition p)));
     ("retry", JObj [("scope", JStr (enum_str (sp_retry_scope p)));
                     ("mode", JStr (enum_str (sp_retry_mode p)))])]).

(** [record.disposition !== derived.disposition] against a string constant. *)
Definition is_str (v : json) (s : string) : bool :=
  match v with JStr t => String.eqb t s | _ => false end.

Definition normalizeSettlementPolicyRecordV2 (input : json) : res SettlementPolicy :=
  let* record := exactDataObject input SETTLEMENT_POLICY_FIELDS "settlement_policy" in
  let* _ := exactInteger (get "policy_version" record) 3 "settlement_policy.policy_version" "version" in
  let* retry := exactDataObject (get "retry" record) RETRY_FIELDS "settlement_policy.retry" in
  let* derived := deriveSettlementDispositionV2
    (JObj (map (λ f, (f, get f record)) CERTAINTY_FACT_FIELDS)) in
  if negb (is_str (get "disposition" record) (enum_str (sp_disposition derived)))
     || negb (is_str (get "scope" retry) (enum_str (sp_retry_scope derived)))
     || negb (is_str (get "mode" retry) (enum_str (sp_retry_mode derived)))
  then invalid "settlement_policy" "semantic_mismatch"
  else Ok derived.

(** ** Back-off and retry schedule *)

Definition exactNonNegative (field : string) (candidate : fields) : res Z :=
  match get field candidate with
  | JInt z => if is_safe_integer z && (0 <=? z)%Z then Ok z
              else invalid ("retry_policy." +:+ field) "integer"
  | _ => invalid ("retry_policy." +:+ field) "integer"
  end.

(** [Number.isSafeInteger(completedGeneration) && completedGeneration >= 1] *)
Definition exactGeneration (v : json) : res Z :=
  match v with
  | JInt g => if is_safe_integer g && (1 <=? g)%Z then Ok g
              else invalid "completed_generation" "integer"
  | _ => invalid "completed_generation" "integer"
  end.

Definition effectGenerationRetryDelayV2 (settlementPolicy retryPolicy completedGeneration : json)
    : res Z :=
  let* policy := normalizeSettlementPolicyRecordV2 settlementPolicy in
  reject negb (bool_decide (sp_disposition policy = RetryCandidate)
               && bool_decide (sp_retry_scope policy = ScopeEffectGeneration))
    with BusinessSettlementPolicyError "settlement_policy.retry.scope" "retry_scope" in
  let* generation := exactGeneration completedGeneration in
  let* candidate := exactDataObject retryPolicy RETRY_POLICY_INPUT_FIELDS "retry_policy" in
  let* backoff_initial := exactNonNegative "backoff_initial_ms" candidate in
  let* backoff_max := exactNonNegative "backoff_max_ms" candidate in
  let* max_attempts := exactNonNegative "max_attempts" candidate in
  reject (max_attempts <? 1)%Z || (backoff_max <? backoff_initial)%Z
    with BusinessSettlementPolicyError "retry_policy" "range" in
  if bool_decide (sp_retry_mode policy = ModeExplicit) || (backoff_initial =? 0)%Z then Ok 0%Z
  else Ok (Z.min (backoff_initial * 2 ^ Z.max 0 (generation - 1)) backoff_max).

Record RetrySchedule := {
  rs_eligible_at : Z;
  rs_delay_ms : Z;
  rs_next_generation : Z;
  rs_automatic : bool;
  rs_permitted : bool;
}.

Definition deriveEffectGenerationRetryScheduleV2 (input : json) : res RetrySchedule :=
  let* candidate := exactDataObject input RETRY_SCHEDULE_FIELDS "retry_schedule" in
  let* policy := normalizeSettlementPolicyRecordV2 (get "settlement_policy" candidate) in
  let* settledAt := exactTimestamp (get "settled_at" candidate) "retry_schedule.settled_at" in
  let* attemptDeadlineAt := exactTimestamp (get "attempt_deadline_at" candidate)
    "retry_schedule.attempt_deadline_at" in
  let* workOrderDeadlineAt := exactTimestamp (get "work_order_deadline_at" candidate)
    "retry_schedule.work_order_deadline_at" in
  let* delayMs := effectGenerationRetryDelayV2 (settlement_policy_json policy)
    (get "retry_policy" candidate) (get "completed_generation" candidate) in
  let eligibleTime := (settledAt + delayMs)%Z in
  reject negb (is_safe_integer eligibleTime)
    with BusinessSettlementPolicyError "retry_schedule.eligible_at" "range" in
  let* eligibleAt := to_time eligibleTime in
  let* generation := exactGeneration (get "completed_generation" candidate) in
  let nextGeneration := (generation + 1)%Z in
  let* retryPolicy := exactDataObject (get "retry_policy" candidate) RETRY_POLICY_INPUT_FIELDS
    "retry_policy" in
  let* max_attempts := exactNonNegative "max_attempts" retryPolicy in
  Ok {| rs_eligible_at := eligibleAt; rs_delay_ms := delayMs;
        rs_next_generation := nextGeneration;
        rs_automatic := bool_decide (sp_retry_mode policy = ModeAutomatic);
        rs_permitted := is_safe_integer nextGeneration && (nextGeneration <=? max_attempts)%Z
          && (eligibleTime <? attemptDeadlineAt)%Z && (eligibleTime <? workOrderDeadlineAt)%Z |}.

Definition isGenerationSuccessorCandidateV2 (certaintyFact : json) : res bool :=
  let* p := deriveSettlementDispositionV2 certaintyFact in
  Ok (bool_decide (sp_retry_scope p = ScopeEffectGeneration)).

Definition isAutomaticEffectGenerationCandidateV2 (certaintyFact : json) : res bool :=
  let* p := deriveSettlementDispositionV2 certaintyFact in
  Ok (bool_decide (sp_retry_mode p = ModeAutomatic)).

(** ** Correctness *)

(** Every accepted fact gives the record of the rule table for its kind and reason. *)
Lemma derive_policy_of input p :
  deriveSettlementDispositionV2 input = Ok p → p = policy_of (sp_effect_kind p) (sp_reason p).
Proof.
  unfold deriveSettlementDispositionV2. intros H. res_inv H. split_bools. subst p. simpl.
  apply dec_stable in B, B0. subst. done.
Qed.

(** A certainty fact with all its fields from the vocabulary. *)
Definition settlement_fact (k : EffectKind) (s : SettlementSource) (c : Classification)
    (r : SettlementReason) : json :=
  JObj [("certainty_fact_version", JInt 2); ("effect_contract_version", JInt 2);
        ("effect_kind", JStr (enum_str k)); ("effect_stage", JStr (effect_stage k));
        ("settlement_source", JStr (enum_str s)); ("classification", JStr (enum_str c));
        ("reason", JStr (enum_str r))].

(** on a well-formed certainty fact the derivation is total and decides by the rule table: a
    source that is not authoritative for the reason is rejected first, then a classification that
    does not match the reason, and every consistent fact gets the disposition and the retry
    semantics of its reason and stage. *)
Theorem derive_disposition_spec k s c r :
  deriveSettlementDispositionV2 (settlement_fact k s c r) =
    if decide (s ≠ rule_settlement_source (REASON_RULES r))
    then Err (BusinessSettlementPolicyError "certainty_fact.reason" "source_reason_mismatch")
    else if decide (c ≠ rule_classification (REASON_RULES r))
    then Err (BusinessSettlementPolicyError "certainty_fact.classification"
      "classification_reason_mismatch")
    else Ok (policy_of k r).
Proof. destruct k, s, c, r; vm_compute; reflexivity. Qed.

Lemma derive_policy_of_fields k r :
  deriveSettlementDispositionV2 (JObj (certainty_fact_fields (policy_of k r))) = Ok (policy_of k r).
Proof. destruct k, r; vm_compute; reflexivity. Qed.

(** C40: no ambiguity is retried and no acknowledged effect is repeated: an automatic retry is
    derived only for a start stage whose worker result proves the mutation was not sent, and a
    delivery that is unknown or accepted is never a retry candidate. *)
Theorem derive_retry_safe input p :
  deriveSettlementDispositionV2 input = Ok p →
  (sp_retry_mode p = ModeAutomatic →
     sp_classification p = CNotSent ∧ sp_settlement_source p = WorkerResult
     ∧ is_start_kind (sp_effect_kind p) = true ∧ sp_disposition p = RetryCandidate)
  ∧ (sp_classification p ≠ CNotSent →
     sp_disposition p ≠ RetryCandidate ∧ sp_retry_scope p = ScopeNone
     ∧ sp_retry_mode p = ModeNone)
  ∧ (sp_retry_scope p = ScopeEffectGeneration ↔ sp_disposition p = RetryCandidate).
Proof.
  intros ->%derive_policy_of. destruct (sp_effect_kind p), (sp_reason p); simpl; naive_solver.
Qed.

Lemma derive_retry_safe_witness :
  ∃ p, deriveSettlementDispositionV2
         (settlement_fact TurnStart WorkerResult CNotSent ProviderBoundaryNotEntered) = Ok p
  ∧ ((sp_retry_mode p = ModeAutomatic →
     sp_classification p = CNotSent ∧ sp_settlement_source p = WorkerResult
     ∧ is_start_kind (sp_effect_kind p) = true ∧ sp_disposition p = RetryCandidate)
  ∧ (sp_classification p ≠ CNotSent →
     sp_disposition p ≠ RetryCandidate ∧ sp_retry_scope p = ScopeNone
     ∧ sp_retry_mode p = ModeNone)
  ∧ (sp_retry_scope p = ScopeEffectGeneration ↔ sp_disposition p = RetryCandidate)).
Proof.
  exists (policy_of TurnStart ProviderBoundaryNotEntered). split; [vm_compute; reflexivity|].
  apply (derive_retry_safe
    (settlement_fact TurnStart WorkerResult CNotSent ProviderBoundaryNotEntered)).
  vm_compute. reflexivity.
Defined.

(** Normalisation accepts exactly the records the derivation produces. *)
Lemma normalize_policy_record k r :
  normalizeSettlementPolicyRecordV2 (settlement_policy_json (policy_of k r)) = Ok (policy_of k r).
Proof. destruct k, r; vm_compute; reflexivity. Qed.

Lemma normalizeSettlementPolicyRecord_derived input p :
  normalizeSettlementPolicyRecordV2 input = Ok p → ∃ fact, deriveSettlementDispositionV2 fact = Ok p.
Proof.
  unfold normalizeSettlementPolicyRecordV2. intros H. res_inv H. subst. eauto.
Qed.

Lemma normalizeSettlementPolicyRecord_policy_of input p :
  normalizeSettlementPolicyRecordV2 input = Ok p → p = policy_of (sp_effect_kind p) (sp_reason p).
Proof. intros [fact Hf]%normalizeSettlementPolicyRecord_derived. by eapply derive_policy_of. Qed.

(** A settlement policy record survives the round trip through its stored form: a record that
    was derived, or accepted by the normaliser, is accepted again and gives the same record. *)
Theorem settlement_policy_roundtrip input p :
  deriveSettlementDispositionV2 input = Ok p ∨ normalizeSettlementPolicyRecordV2 input = Ok p →
  normalizeSettlementPolicyRecordV2 (settlement_policy_json p) = Ok p.
Proof.
  intros [->%derive_policy_of | ->%normalizeSettlementPolicyRecord_policy_of];
    apply normalize_policy_record.
Qed.

Lemma settlement_policy_roundtrip_witness :
  normalizeSettlementPolicyRecordV2
    (settlement_policy_json (policy_of UserInputSubmit RecoveryProbeAuthoritativeAbsence))
  = Ok (policy_of UserInputSubmit RecoveryProbeAuthoritativeAbsence).
Proof.
  apply (settlement_policy_roundtrip
    (settlement_fact UserInputSubmit RecoveryProbe CNotSent RecoveryProbeAuthoritativeAbsence)).
  left. vm_compute. reflexivity.
Defined.

(** *** The retry delay *)

(** The delay of the specification: zero for an explicit retry, else the doubled initial back-off
    cut at the maximum. *)
Definition backoff_delay (mode : RetryMode) (initial maximum generation : Z) : Z :=
  if decide (mode = ModeExplicit) then 0 else Z.min (initial * 2 ^ (generation - 1)) maximum.

Definition retry_limits_json (initial maximum max_attempts : Z) : json :=
  JObj [("backoff_initial_ms", JInt initial); ("backoff_max_ms", JInt maximum);
        ("max_attempts", JInt max_attempts)].

Lemma exactNonNegative_Ok f c z :
  exactNonNegative f c = Ok z → get f c = JInt z ∧ (0 <= z <= max_safe_integer)%Z.
Proof.
  unfold exactNonNegative. destruct (get f c); try discriminate. intros H. res_inv H.
  unfold is_safe_integer in B. split_bools. subst. split; [done | lia].
Qed.

Lemma exactGeneration_Ok v g :
  exactGeneration v = Ok g → v = JInt g ∧ (1 <= g <= max_safe_integer)%Z.
Proof.
  unfold exactGeneration. destruct v; try discriminate. intros H. res_inv H.
  unfold is_safe_integer in B. split_bools. subst. split; [done | lia].
Qed.

(** What a successful delay computation read. *)
Lemma retry_delay_Ok policy retry generation d :
  effectGenerationRetryDelayV2 policy retry generation = Ok d →
  ∃ p c initial maximum attempts g,
    normalizeSettlementPolicyRecordV2 policy = Ok p ∧ sp_disposition p = RetryCandidate
    ∧ retry = JObj c ∧ get "backoff_initial_ms" c = JInt initial
    ∧ get "backoff_max_ms" c = JInt maximum ∧ get "max_attempts" c = JInt attempts
    ∧ generation = JInt g ∧ (0 <= initial <= maximum)%Z ∧ (1 <= attempts)%Z ∧ (1 <= g)%Z
    ∧ d = backoff_delay (sp_retry_mode p) initial maximum g.
Proof.
  unfold effectGenerationRetryDelayV2. intros H.
  apply bind_Ok in H as (p & Hp & H). res_inv1 H. apply bind_Ok in H as (g & Hg & H).
  apply bind_Ok in H as (c & Hc & H). apply bind_Ok in H as (i & Hi & H).
  apply bind_Ok in H as (m & Hm & H). apply bind_Ok in H as (a & Ha & H). res_inv1 H.
  apply exactNonNegative_Ok in Hi as [? ?], Hm as [? ?], Ha as [? ?].
  apply exactGeneration_Ok in Hg as [? ?]. split_bools.
  exists p, c, i, m, a, g. split_and!; try done; try lia.
  - unfold exactDataObject in Hc. destruct retry; try discriminate.
    destruct (filter _ _); [|done]. destruct (filter _ _); [|done]. congruence.
  - unfold backoff_delay. destruct (decide (sp_retry_mode p = ModeExplicit)) as [Hmode|Hmode].
    + rewrite bool_decide_eq_true_2 in H by done. simpl in H. congruence.
    + rewrite bool_decide_eq_false_2 in H by done. simpl in H.
      destruct (i =? 0)%Z eqn:E; split_bools; [|rewrite Z.max_r in H by lia; congruence].
      subst. rewrite Z.mul_0_l, Z.min_l by lia. congruence.
Qed.

(** The back-off is the capped exponential of the specification and stays within its bounds:
    on accepted input the delay is [min(initial * 2^(generation-1), maximum)], zero for an
    explicit retry, never negative and never above the maximum. *)
Theorem retry_delay_bounded policy initial maximum attempts generation p :
  normalizeSettlementPolicyRecordV2 policy = Ok p → sp_disposition p = RetryCandidate →
  (0 <= initial <= maximum)%Z → (maximum <= max_safe_integer)%Z →
  (1 <= attempts <= max_safe_integer)%Z → (1 <= generation <= max_safe_integer)%Z →
  effectGenerationRetryDelayV2 policy (retry_limits_json initial maximum attempts)
    (JInt generation) = Ok (backoff_delay (sp_retry_mode p) initial maximum generation)
  ∧ (0 <= backoff_delay (sp_retry_mode p) initial maximum generation <= maximum)%Z.
Proof.
  intros Hp Hd Hi Hm Ha Hg. split.
  - unfold effectGenerationRetryDelayV2. rewrite Hp. cbn [bind].
    pose proof (normalizeSettlementPolicyRecord_policy_of _ _ Hp) as Hpo.
    assert (sp_retry_scope p = ScopeEffectGeneration) as Hs.
    { rewrite Hpo in Hd |- *. simpl in *. by rewrite decide_True. }
    assert (∀ z, (0 <= z <= max_safe_integer)%Z → is_safe_integer z && (0 <=? z)%Z = true) as Hsafe.
    { intros z Hz. unfold is_safe_integer. rewrite !andb_true_iff, !Z.leb_le.
      unfold max_safe_integer in *. lia. }
    assert (is_safe_integer generation && (1 <=? generation)%Z = true) as Hgs.
    { unfold is_safe_integer. rewrite !andb_true_iff, !Z.leb_le.
      unfold max_safe_integer in *. lia. }
    rewrite !bool_decide_eq_true_2 by done. cbn [negb andb].
    unfold exactGeneration. rewrite Hgs. cbn [bind].
    replace (exactDataObject _ _ _) with
      (Ok [("backoff_initial_ms", JInt initial); ("backoff_max_ms", JInt maximum);
        ("max_attempts", JInt attempts)]) by reflexivity.
    cbn [bind]. unfold exactNonNegative. cbn [get]. simpl (String.eqb _ _).
    cbn match. rewrite !Hsafe by lia. cbn [bind].
    replace ((attempts <? 1)%Z || (maximum <? initial)%Z) with false
      by (symmetry; apply orb_false_iff; rewrite !Z.ltb_ge; lia).
    unfold backoff_delay. destruct (decide (sp_retry_mode p = ModeExplicit)) as [Hmode|Hmode].
    + by rewrite bool_decide_eq_true_2.
    + rewrite bool_decide_eq_false_2 by done. simpl.
      destruct (initial =? 0)%Z eqn:E; split_bools; [|by rewrite Z.max_r by lia].
      subst. by rewrite Z.mul_0_l, Z.min_l by lia.
  - unfold backoff_delay. case_decide; [lia|].
    pose proof (Z.pow_nonneg 2 (generation - 1)). lia.
Qed.

Lemma retry_delay_bounded_witness :
  effectGenerationRetryDelayV2
    (settlement_policy_json (policy_of ThreadCreate ProviderDeferredNoMutation))
    (retry_limits_json 1000 5000 4) (JInt 4) = Ok 5000%Z ∧ (0 <= 5000 <= 5000)%Z.
Proof.
  apply (retry_delay_bounded _ 1000 5000 4 4 (policy_of ThreadCreate ProviderDeferredNoMutation));
    [apply normalize_policy_record | done | unfold max_safe_integer; lia ..].
Defined.

Lemma to_time_Ok t t' : to_time t = Ok t' → t' = t ∧ time_in_range t = true.
Proof. unfold to_time. destruct (time_in_range t) eqn:E; naive_solver. Qed.

(** A permitted retry is inside every bound: its generation is the next one and at most
    [max_attempts], and it becomes eligible exactly one capped back-off after the settlement,
    strictly before the attempt deadline and the work order deadline. *)
Lemma retry_schedule_permitted input s :
  deriveEffectGenerationRetryScheduleV2 input = Ok s → rs_permitted s = true →
  ∃ c rp settled attempt_deadline work_order_deadline generation max_attempts,
    input = JObj c ∧ get "retry_policy" c = JObj rp
    ∧ exactTimestamp (get "settled_at" c) "retry_schedule.settled_at" = Ok settled
    ∧ exactTimestamp (get "attempt_deadline_at" c) "retry_schedule.attempt_deadline_at"
        = Ok attempt_deadline
    ∧ exactTimestamp (get "work_order_deadline_at" c) "retry_schedule.work_order_deadline_at"
        = Ok work_order_deadline
    ∧ get "completed_generation" c = JInt generation ∧ get "max_attempts" rp = JInt max_attempts
    ∧ rs_next_generation s = (generation + 1)%Z ∧ (rs_next_generation s <= max_attempts)%Z
    ∧ rs_eligible_at s = (settled + rs_delay_ms s)%Z ∧ (0 <= rs_delay_ms s)%Z
    ∧ (rs_eligible_at s < attempt_deadline)%Z ∧ (rs_eligible_at s < work_order_deadline)%Z.
Proof.
  unfold deriveEffectGenerationRetryScheduleV2. intros H Hperm.
  apply bind_Ok in H as (c & Hc & H). apply bind_Ok in H as (p & Hp & H).
  apply bind_Ok in H as (t & Ht & H). apply bind_Ok in H as (ta & Hta & H).
  apply bind_Ok in H as (tw & Htw & H). apply bind_Ok in H as (d & Hd & H). res_inv1 H.
  apply bind_Ok in H as (e & He & H). apply bind_Ok in H as (g & Hg & H).
  apply bind_Ok in H as (rp & Hrp & H). apply bind_Ok in H as (m & Hm & H). injection H as <-.
  simpl in *. apply to_time_Ok in He as [-> _]. apply exactNonNegative_Ok in Hm as [Hm _].
  apply exactGeneration_Ok in Hg as [Hg _]. split_bools.
  apply retry_delay_Ok in Hd as (p' & c' & i & mx & a & g' & Hp' & _ & Hrpj & _ & _ & _ & _ & Hb & _ & Hg1 & ->).
  rewrite Hrpj in Hrp. simpl in Hrp.
  destruct input as [| | | | | | | |fs|]; try discriminate. simpl in Hc.
  destruct (filter _ (keys fs)); [|done]. destruct (filter _ RETRY_SCHEDULE_FIELDS); [|done].
  injection Hc as ->. destruct (filter _ (keys c')); [|done].
  destruct (filter _ RETRY_POLICY_INPUT_FIELDS); [|done]. injection Hrp as ->.
  exists c, rp, t, ta, tw, g, m. split_and!; try done.
  unfold backoff_delay. case_decide; [lia|]. pose proof (Z.pow_nonneg 2 (g' - 1)). lia.
Qed.

Definition retry_schedule_example : json := JObj
  [("settlement_policy", settlement_policy_json (policy_of TurnStart ProviderBoundaryNotEntered));
   ("retry_policy", retry_limits_json 1000 60000 3); ("completed_generation", JInt 2);
   ("settled_at", JStr "2026-08-31T00:00:00.000Z");
   ("attempt_deadline_at", JStr "2026-08-31T00:10:00.000Z");
   ("work_order_deadline_at", JStr "2026-08-31T01:00:00.000Z")].

Lemma retry_schedule_permitted_witness :
  ∃ s, deriveEffectGenerationRetryScheduleV2 retry_schedule_example = Ok s
  ∧ rs_permitted s = true ∧ rs_delay_ms s = 2000%Z
  ∧ ∃ c rp settled attempt_deadline work_order_deadline generation max_attempts,
    retry_schedule_example = JObj c ∧ get "retry_policy" c = JObj rp
    ∧ exactTimestamp (get "settled_at" c) "retry_schedule.settled_at" = Ok settled
    ∧ exactTimestamp (get "attempt_deadline_at" c) "retry_schedule.attempt_deadline_at"
        = Ok attempt_deadline
    ∧ exactTimestamp (get "work_order_deadline_at" c) "retry_schedule.work_order_deadline_at"
        = Ok work_order_deadline
    ∧ get "completed_generation" c = JInt generation ∧ get "max_attempts" rp = JInt max_attempts
    ∧ rs_next_generation s = (generation + 1)%Z ∧ (rs_next_generation s <= max_attempts)%Z
    ∧ rs_eligible_at s = (settled + rs_delay_ms s)%Z ∧ (0 <= rs_delay_ms s)%Z
    ∧ (rs_eligible_at s < attempt_deadline)%Z ∧ (rs_eligible_at s < work_order_deadline)%Z.
Proof.
  eexists. split; [vm_compute; reflexivity|]. split; [reflexivity|]. split; [reflexivity|].
  apply retry_schedule_permitted; [vm_compute; reflexivity | reflexivity].
Defined.
