(* ===== verification/ContractBase.v ===== *)
(** Contract primitives ([packages/business-orchestrator/src/contract.js], lines 12-565).

    The contract layer turns untrusted JSON into normalised records.  Each [assert*] function
    reads a JSON value and either returns the normalised datum or throws a
    [ContractValidationError] with the path and the reason; the records it builds are encoded
    back to JSON by [to_json], the form the code hashes and stores. *)

From Stdlib Require Import ZArith Lia Ascii String.
From stdpp Require Import base tactics list strings option.
From S2P Require Import Prelude JsString JsDate Json.

(** ** Limits *)
Module CONTRACT_LIMITS.
Definition max_plan_bytes : Z := 262144.
Definition max_envelope_bytes : Z := 98304.
Definition max_payload_bytes : Z := 65536.
Definition max_input_depth : Z := 16.
Definition max_input_nodes : Z := 8192.
Definition max_branches : Z := 64.
Definition max_acceptance_criteria : Z := 64.
Definition max_verification_requirements_per_criterion : Z := 16.
Definition max_review_findings_per_severity : Z := 10000.
Definition max_dependencies_per_branch : Z := 64.
Definition max_provider_refs : Z := 16.
Definition max_evidence_refs : Z := 128.
Definition max_ref_bytes : Z := 256.
Definition max_text_bytes : Z := 32768.
End CONTRACT_LIMITS.
Import CONTRACT_LIMITS.

(** [invalid(path, reason, message)] *)
Abbreviation invalid path reason := (Err (ContractValidationError path reason)).

Definition index_path (path : string) (i : nat) : string :=
  path +:+ "[" +:+ pretty.pretty (Z.of_nat i) +:+ "]".

(** ** Preflight

    [preflightJson] walks the value with an explicit stack, counting values and depth, before
    anything else reads it. *)

Record frame := { fr_value : json; fr_path : string; fr_depth : Z }.

(** The frames pushed for an array's items and for an object's fields.  The loop pops from the
    end, so the last pushed is on top. *)
Definition item_frames (path : string) (depth : Z) (l : list json) : list frame :=
  rev (imap (λ i v, {| fr_value := v; fr_path := index_path path i; fr_depth := depth |}) l).
Definition field_frames (path : string) (depth : Z) (fs : fields) : list frame :=
  rev (map (λ kv, {| fr_value := kv.2; fr_path := path +:+ "." +:+ kv.1; fr_depth := depth |}) fs).

(** One turn of the loop on the popped frame: the frames to push. *)
Definition preflight_visit (f : frame) : res (list frame) :=
  match fr_value f with
  | JNull | JBool _ | JInt _ | JNum _ => Ok []
  | JStr s =>
      if (max_text_bytes * 2 <? utf8Bytes s)%Z then invalid (fr_path f) "string_limit" else Ok []
  | JNonFinite | JUndef | JOther => invalid (fr_path f) "type"
  | JArr l =>
      if (max_input_nodes <? Z.of_nat (length l))%Z then invalid (fr_path f) "node_limit"
      else Ok (item_frames (fr_path f) (fr_depth f + 1) l)
  | JObj fs =>
      if (max_input_nodes <? Z.of_nat (length fs))%Z then invalid (fr_path f) "node_limit"
      else Ok (field_frames (fr_path f) (fr_depth f + 1) fs)
  end.

Fixpoint preflight_loop (fuel : nat) (root : string) (nodes : Z) (stack : list frame) : res unit :=
  match fuel, stack with
  | _, [] => Ok tt
  | O, _ => Err OutOfFuel
  | S fuel', f :: stack' =>
      let nodes := (nodes + 1)%Z in
      reject (max_input_nodes <? nodes)%Z with ContractValidationError root "node_limit" in
      reject (max_input_depth <? fr_depth f)%Z
        with ContractValidationError (fr_path f) "depth_limit" in
      let* pushed := preflight_visit f in
      preflight_loop fuel' root nodes (pushed ++ stack')
  end.

(** Each turn counts one value and the count is limited, so this fuel is never used up
    ([contract_only_preflight_loop]). *)
Definition preflight_turns : nat := Z.to_nat (max_input_nodes + 1).

Definition preflightJson (value : json) (path : string) (maximumBytes : Z) : res string :=
  let* _ := preflight_loop preflight_turns path 0
    [{| fr_value := value; fr_path := path; fr_depth := 0 |}] in
  match canonicalJson value with
  | Ok serialized =>
      if (maximumBytes <? utf8Bytes serialized)%Z then invalid path "serialized_size"
      else Ok serialized
  | Err _ => invalid path "serialization"
  end.

(** ** Assertions *)

Definition assertPlainObject (value : json) (path : string) : res fields :=
  match value with JObj fs => Ok fs | _ => invalid path "type" end.

(** An unknown field is reported before a missing one, each in order. *)
Definition assertExactFields (value : json) (allowed required : list string) (path : string)
    : res fields :=
  let* object := assertPlainObject value path in
  match filter (λ f, f ∉ allowed) (keys object) with
  | f :: _ => invalid (path +:+ "." +:+ f) "unknown_field"
  | [] =>
      match filter (λ f, f ∉ keys object) required with
      | f :: _ => invalid (path +:+ "." +:+ f) "required"
      | [] => Ok object
      end
  end.

Definition assertString (value : json) (path : string) (maximumBytes : Z) : res string :=
  match value with
  | JStr s =>
      let normalized := trim s in
      if String.eqb normalized "" then invalid path "type"
      else if (maximumBytes <? utf8Bytes normalized)%Z then invalid path "string_limit"
      else Ok normalized
  | _ => invalid path "type"
  end.

Definition assertRef (value : json) (path : string) : res string :=
  let* normalized := assertString value path max_ref_bytes in
  if portable_pattern normalized then Ok normalized else invalid path "format".

Definition assertTimestamp (value : json) (path : string) : res Z :=
  let* normalized := assertString value path 64 in
  match ms_of_iso normalized with
  | Some t => Ok t
  | None => invalid path "timestamp"
  end.

Definition assertPattern (value : json) (path : string) (pattern : string → bool) : res string :=
  match value with
  | JStr s => if pattern s then Ok s else invalid path "format"
  | _ => invalid path "format"
  end.

Definition assertEnum {A} `{JsEnum A} (value : json) (allowed : list A) (path : string) : res A :=
  match value with
  | JStr s => match enum_find allowed s with Some a => Ok a | None => invalid path "enum" end
  | _ => invalid path "enum"
  end.

Definition assertInteger (value : json) (path : string) (minimum maximum : Z) : res Z :=
  match value with
  | JInt z =>
      if negb (is_safe_integer z) || (z <? minimum)%Z || (maximum <? z)%Z
      then invalid path "integer_range" else Ok z
  | _ => invalid path "integer_range"
  end.

Definition assertBoolean (value : json) (path : string) : res bool :=
  match value with JBool b => Ok b | _ => invalid path "type" end.

Definition assertArray (value : json) (path : string) (minimum maximum : Z) : res (list json) :=
  match value with
  | JArr l =>
      if (Z.of_nat (length l) <? minimum)%Z || (maximum <? Z.of_nat (length l))%Z
      then invalid path "array_limit" else Ok l
  | _ => invalid path "type"
  end.

Definition normalizeUniqueRefs (value : json) (path : string) (minimum maximum : Z)
    : res (list string) :=
  let* input := assertArray value path minimum maximum in
  let* normalized := imapR (λ i entry, assertRef entry (index_path path i)) 0 input in
  reject has_duplicates normalized with ContractValidationError path "duplicate" in
  Ok (sort_text normalized).

(** ** Content references *)

Record ContentRef := { cr_id : string; cr_hash : string }.
#[export] Instance ContentRef_eq_dec : EqDecision ContentRef.
Proof. solve_decision. Defined.

Definition CONTENT_REF_FIELDS : list string := ["id"; "hash"].

Definition content_ref_json (r : ContentRef) : json :=
  JObj [("id", JStr (cr_id r)); ("hash", JStr (cr_hash r))].

Definition normalizeContentRef (input : json) (path : string) : res ContentRef :=
  let* ref := assertExactFields input CONTENT_REF_FIELDS CONTENT_REF_FIELDS path in
  let* id := assertRef (get "id" ref) (path +:+ ".id") in
  let* hash := assertPattern (get "hash" ref) (path +:+ ".hash") (hex_pattern 64) in
  Ok {| cr_id := id; cr_hash := hash |}.

(** [assertUniqueField] and [assertUniqueContentRefId]: the first repeated key is reported. *)
Definition assertUnique (l : list string) (path : string) : res unit :=
  if has_duplicates l then invalid path "duplicate" else Ok tt.

(** [failClosedNormalizer(path, normalize)]: what is not a contract error becomes one. *)
Definition failClosedNormalizer {A} (path : string) (normalize : json → res A) (input : json)
    : res A :=
  match normalize input with
  | Ok a => Ok a
  | Err (ContractValidationError p r) => Err (ContractValidationError p r)
  | Err _ => invalid path "hostile_input"
  end.

(** ** Encoders *)

Definition str_list_json (l : list string) : json := JArr (map JStr l).
Definition enum_json {A} `{JsEnum A} (a : A) : json := JStr (enum_str a).
Definition opt_json {A} (f : A → json) (o : option A) : json :=
  match o with Some a => f a | None => JNull end.

#[global] Arguments preflightJson : simpl never.
#[global] Arguments assertPlainObject : simpl never.
#[global] Arguments assertExactFields : simpl never.
#[global] Arguments assertString : simpl never.
#[global] Arguments assertRef : simpl never.
#[global] Arguments assertTimestamp : simpl never.
#[global] Arguments assertPattern : simpl never.
#[global] Arguments assertEnum : simpl never.
#[global] Arguments assertInteger : simpl never.
#[global] Arguments assertBoolean : simpl never.
#[global] Arguments assertArray : simpl never.
#[global] Arguments normalizeUniqueRefs : simpl never.
#[global] Arguments normalizeContentRef : simpl never.

(** ** Idempotence

    [stable norm enc]: what the normaliser accepts, encoded back to JSON, is accepted again and
    gives the same value, whatever the paths used for error messages. *)
Definition stable {A} (norm : json → string → res A) (enc : A → json) : Prop :=
  ∀ p p' v x, norm v p = Ok x → norm (enc x) p' = Ok x.

Lemma assertString_Ok v p m s :
  assertString v p m = Ok s → trim s = s ∧ s ≠ "" ∧ (utf8Bytes s <= m)%Z.
Proof.
  unfold assertString. destruct v; try discriminate.
  destruct (String.eqb _ _) eqn:E; [done|]. destruct (_ <? _)%Z eqn:E2; [done|].
  intros [= <-]. apply String.eqb_neq in E. apply Z.ltb_ge in E2. split_and!; try done.
  apply trim_idem.
Qed.

Lemma assertString_stable m p p' v s :
  assertString v p m = Ok s → assertString (JStr s) p' m = Ok s.
Proof.
  intros (Ht & Hne & Hl)%assertString_Ok. unfold assertString. cbv zeta. rewrite Ht.
  apply String.eqb_neq in Hne as ->. by destruct (Z.ltb_spec m (utf8Bytes s)); [lia|].
Qed.

Lemma assertRef_Ok v p s :
  assertRef v p = Ok s → portable_pattern s = true ∧ (utf8Bytes s <= max_ref_bytes)%Z.
Proof.
  unfold assertRef. intros H. res_inv H. subst. by apply assertString_Ok in E as (_ & _ & ?).
Qed.

Lemma assertRef_stable : stable assertRef JStr.
Proof.
  intros p p' v s. unfold assertRef. intros H. res_inv H. subst.
  rewrite (assertString_stable _ p p' v s E). simpl. by rewrite B.
Qed.

Lemma assertPattern_stable pat p p' v s :
  assertPattern v p pat = Ok s → assertPattern (JStr s) p' pat = Ok s.
Proof.
  unfold assertPattern. destruct v; try discriminate.
  intros H. res_inv H. subst. by rewrite B.
Qed.

Lemma assertPattern_Ok v p pat s : assertPattern v p pat = Ok s → pat s = true.
Proof. unfold assertPattern. destruct v; try discriminate. intros H. res_inv H. by subst. Qed.

Lemma assertEnum_Ok {A} `{JsEnum A} v (allowed : list A) p a :
  assertEnum v allowed p = Ok a → a ∈ allowed.
Proof.
  unfold assertEnum. destruct v; try discriminate. destruct (enum_find allowed s) eqn:E; [|done].
  intros [= <-]. by apply enum_find_Some in E as [? _].
Qed.

Lemma assertEnum_stable {A} `{JsEnumLaws A} (allowed : list A) p p' v a :
  assertEnum v allowed p = Ok a → assertEnum (enum_json a) allowed p' = Ok a.
Proof.
  intros Ha%assertEnum_Ok. unfold assertEnum, enum_json. by rewrite enum_find_str.
Qed.

Lemma assertInteger_Ok v p lo hi z :
  assertInteger v p lo hi = Ok z → v = JInt z ∧ (lo <= z <= hi)%Z.
Proof.
  unfold assertInteger. destruct v; try discriminate. intros H. res_inv H. split_bools. subst.
  split; [done | lia].
Qed.

Lemma assertInteger_stable lo hi p p' v z :
  assertInteger v p lo hi = Ok z → assertInteger (JInt z) p' lo hi = Ok z.
Proof.
  intros H. pose proof (assertInteger_Ok _ _ _ _ _ H) as [-> _].
  revert H. unfold assertInteger. by case_match.
Qed.

Lemma assertBoolean_stable : stable assertBoolean JBool.
Proof. intros p p' v b. unfold assertBoolean. destruct v; congruence. Qed.

Lemma assertArray_Ok v p lo hi l :
  assertArray v p lo hi = Ok l → v = JArr l ∧ (lo <= Z.of_nat (length l) <= hi)%Z.
Proof.
  unfold assertArray. destruct v; try discriminate. intros H. res_inv H. split_bools. subst.
  split; [done | lia].
Qed.

Lemma assertArray_JArr l p lo hi :
  (lo <= Z.of_nat (length l) <= hi)%Z → assertArray (JArr l) p lo hi = Ok l.
Proof.
  intros Hl. unfold assertArray.
  replace (_ || _) with false; [done|]. symmetry. apply orb_false_iff. rewrite !Z.ltb_ge. lia.
Qed.

Lemma assertPlainObject_Ok v p fs : assertPlainObject v p = Ok fs → v = JObj fs.
Proof. unfold assertPlainObject. destruct v; naive_solver. Qed.

Lemma assertExactFields_Ok v allowed required p fs :
  assertExactFields v allowed required p = Ok fs →
  v = JObj fs ∧ Forall (λ k, k ∈ allowed) (keys fs) ∧ Forall (λ k, k ∈ keys fs) required.
Proof.
  unfold assertExactFields. intros (o & ->%assertPlainObject_Ok & H)%bind_Ok.
  destruct (filter _ (keys o)) eqn:E1; [|done]. destruct (filter _ required) eqn:E2; [|done].
  injection H as <-. split_and!; [done|..]; apply Forall_forall; intros k Hk%list_elem_of_In.
  - apply dec_stable. intros Hn. assert (k ∈ filter (λ f, f ∉ allowed) (keys o)) as Hin
      by (apply list_elem_of_filter; done). rewrite E1 in Hin. by apply not_elem_of_nil in Hin.
  - apply dec_stable. intros Hn. assert (k ∈ filter (λ f, f ∉ keys o) required) as Hin
      by (apply list_elem_of_filter; done). rewrite E2 in Hin. by apply not_elem_of_nil in Hin.
Qed.

(** The lists of fields a normaliser builds are accepted by computation. *)
Lemma assertExactFields_JObj fs allowed required p :
  forallb (λ k, bool_decide (k ∈ allowed)) (keys fs) = true →
  forallb (λ k, bool_decide (k ∈ keys fs)) required = true →
  assertExactFields (JObj fs) allowed required p = Ok fs.
Proof.
  intros H1 H2. unfold assertExactFields. simpl.
  assert (∀ (P : string → Prop) `{∀ x, Decision (P x)} l,
    forallb (λ k, bool_decide (P k)) l = true → filter (λ k, ¬ P k) l = []) as Hf.
  { intros P ? l. induction l as [|k l IH]; simpl; [done|].
    intros [Hk%bool_decide_eq_true Hl]%andb_true_iff. rewrite filter_cons_False by tauto. auto. }
  rewrite (Hf (λ k, k ∈ allowed) _ _ H1). by rewrite (Hf (λ k, k ∈ keys fs) _ _ H2).
Qed.

(** [stable] for lists: normalising each entry in place. *)
Lemma imapR_stable {A} (norm : json → string → res A) (enc : A → json) (path path' : nat → string)
    i i' l xs :
  stable norm enc → imapR (λ j v, norm v (path j)) i l = Ok xs →
  ∀ ys, (∀ y, y ∈ ys → y ∈ xs) → imapR (λ j v, norm v (path' j)) i' (map enc ys) = Ok ys.
Proof.
  intros Hs H ys Hys. apply imapR_roundtrip. intros j y Hy.
  apply imapR_Forall2 in H. apply Hys in Hy.
  apply list_elem_of_lookup in Hy as [k Hk].
  destruct (Forall2_lookup_r _ _ _ _ _ H Hk) as (v & _ & j' & Hv). by eapply Hs.
Qed.

Lemma normalizeUniqueRefs_Ok v p lo hi l :
  normalizeUniqueRefs v p lo hi = Ok l →
  NoDup l ∧ sort_text l = l ∧ (lo <= Z.of_nat (length l) <= hi)%Z
  ∧ Forall (λ s, portable_pattern s = true) l.
Proof.
  unfold normalizeUniqueRefs. intros H. res_inv H. subst.
  apply has_duplicates_false in B. apply assertArray_Ok in E as [-> Hlen]. split_and!.
  - by rewrite sort_text_Permutation.
  - apply sort_text_idem.
  - rewrite sort_text_Permutation. apply imapR_length in E0. lia.
  - rewrite sort_text_Permutation. apply imapR_length in E0. lia.
  - rewrite sort_text_Permutation. revert E0. apply imapR_Forall.
    by intros j x y [? _]%assertRef_Ok.
Qed.

Lemma normalizeUniqueRefs_stable lo hi p p' v l :
  normalizeUniqueRefs v p lo hi = Ok l → normalizeUniqueRefs (str_list_json l) p' lo hi = Ok l.
Proof.
  intros H. pose proof (normalizeUniqueRefs_Ok _ _ _ _ _ H) as (Hnd & Hs & Hlen & _).
  unfold normalizeUniqueRefs in H |- *. res_inv H. subst.
  unfold str_list_json. rewrite assertArray_JArr by (rewrite length_map; lia). simpl.
  rewrite (imapR_stable _ _ _ (λ i, index_path p' i) _ _ _ _ assertRef_stable E0).
  - simpl. apply has_duplicates_false in Hnd as ->. by rewrite Hs.
  - intros y. by rewrite sort_text_Permutation.
Qed.

Lemma normalizeContentRef_stable : stable normalizeContentRef content_ref_json.
Proof.
  intros p p' v r. unfold normalizeContentRef. intros H. res_inv H. subst.
  unfold content_ref_json. rewrite assertExactFields_JObj by reflexivity. simpl.
  rewrite (assertRef_stable _ _ _ _ E0). cbn [bind].
  by rewrite (assertPattern_stable (hex_pattern 64) _ _ _ _ E1).
Qed.

Lemma assertTimestamp_stable : stable assertTimestamp (λ t, JStr (iso_of_ms t)).
Proof.
  intros p p' v t. unfold assertTimestamp. intros (s & Hs & H)%bind_Ok.
  destruct (ms_of_iso s) as [t'|] eqn:E; [|done]. injection H as <-.
  pose proof (ms_of_iso_sound _ _ E) as [Hi _]. rewrite Hi.
  rewrite (assertString_stable _ _ p' _ _ Hs). cbn [bind]. by rewrite E.
Qed.

(** [renorm]: rewrite each step of a normaliser run on its own output with the lemma that says
    the step is stable. *)
Ltac renorm1 :=
  match goal with
  | E : assertRef ?v ?p = Ok ?s |- context [assertRef (JStr ?s) ?q] =>
      rewrite (assertRef_stable p q v s E)
  | E : assertString ?v ?p ?m = Ok ?s |- context [assertString (JStr ?s) ?q ?m] =>
      rewrite (assertString_stable m p q v s E)
  | E : assertPattern ?v ?p ?f = Ok ?s |- context [assertPattern (JStr ?s) ?q ?f] =>
      rewrite (assertPattern_stable f p q v s E)
  | E : assertEnum ?v ?l ?p = Ok ?a |- context [assertEnum (enum_json ?a) ?l ?q] =>
      rewrite (assertEnum_stable l p q v a E)
  | E : assertInteger ?v ?p ?lo ?hi = Ok ?z |- context [assertInteger (JInt ?z) ?q ?lo ?hi] =>
      rewrite (assertInteger_stable lo hi p q v z E)
  | E : assertBoolean ?v ?p = Ok ?b |- context [assertBoolean (JBool ?b) ?q] =>
      rewrite (assertBoolean_stable p q v b E)
  | E : normalizeContentRef ?v ?p = Ok ?r |- context [normalizeContentRef (content_ref_json ?r) ?q] =>
      rewrite (normalizeContentRef_stable p q v r E)
  | E : normalizeUniqueRefs ?v ?p ?lo ?hi = Ok ?l
      |- context [normalizeUniqueRefs (str_list_json ?l) ?q ?lo ?hi] =>
      rewrite (normalizeUniqueRefs_stable lo hi p q v l E)
  | B : ?b = false |- context [if ?b then Err _ else _] => rewrite B
  | B : ?b = true |- context [if ?b then _ else Err _] => rewrite B
  | |- context [bind (Ok _) _] => cbn [bind]
  end.
Ltac renorm := repeat renorm1.

Lemma has_duplicates_Permutation (l1 l2 : list string) :
  Permutation l1 l2 → has_duplicates l1 = has_duplicates l2.
Proof.
  intros HP. unfold has_duplicates. f_equal. apply bool_decide_ext. by rewrite HP.
Qed.

Lemma assertUnique_Ok l p u : assertUnique l p = Ok u ↔ NoDup l.
Proof.
  unfold assertUnique. destruct u. rewrite if_Err_Ok, has_duplicates_false. naive_solver.
Qed.

Lemma assertUnique_map_isort {A} (leb : A → A → bool) (key : A → string) l p u :
  assertUnique (map key l) p = Ok u → assertUnique (map key (isort leb l)) p = Ok u.
Proof. rewrite !assertUnique_Ok. by rewrite isort_Permutation. Qed.

(** A sorted list of entries with unique keys is stable. *)
Lemma sorted_entries_stable {A} (norm : json → string → res A) (enc : A → json)
    (leb : A → A → bool) (path path' : nat → string) l xs :
  (∀ x y, leb x y = true ∨ leb y x = true) →
  (∀ x y z, leb x y = true → leb y z = true → leb x z = true) →
  stable norm enc → imapR (λ j v, norm v (path j)) 0 l = Ok xs →
  imapR (λ j v, norm v (path' j)) 0 (map enc (isort leb xs)) = Ok (isort leb xs)
  ∧ isort leb (isort leb xs) = isort leb xs.
Proof.
  intros Htot Htr Hs H. split; [|by apply isort_idem].
  apply (imapR_stable _ _ _ _ _ _ _ _ Hs H). intros y. by rewrite isort_elem_of.
Qed.

Lemma assertArray_isort_map {A} (enc : A → json) (leb : A → A → bool) norm i (l : list json) xs p p' v lo hi :
  assertArray v p lo hi = Ok l → imapR norm i l = Ok xs →
  assertArray (JArr (map enc (isort leb xs))) p' lo hi = Ok (map enc (isort leb xs)).
Proof.
  intros [-> Hlen]%assertArray_Ok Hx%imapR_length. apply assertArray_JArr.
  rewrite length_map, isort_length. lia.
Qed.

(** ** Errors

    [contract_only m]: the only thing [m] throws is a contract error (in particular it never runs
    out of fuel). *)
Definition contract_only {A} (m : res A) : Prop :=
  ∀ e, m = Err e → ∃ p r, e = ContractValidationError p r.

Lemma contract_only_Ok {A} (a : A) : contract_only (Ok a).
Proof. by intros e. Qed.

Lemma contract_only_invalid {A} p r : contract_only (A := A) (invalid p r).
Proof. intros e [= <-]. eauto. Qed.

Lemma contract_only_bind {A B} (m : res A) (k : A → res B) :
  contract_only m → (∀ a, m = Ok a → contract_only (k a)) → contract_only (bind m k).
Proof. intros Hm Hk e [He | (a & Ha & He)]%bind_Err; [by apply Hm | by eapply Hk]. Qed.

Lemma contract_only_if {A} (b : bool) (m1 m2 : res A) :
  contract_only m1 → contract_only m2 → contract_only (if b then m1 else m2).
Proof. by destruct b. Qed.

Lemma contract_only_imapR {A B} (f : nat → A → res B) i l :
  (∀ j x, contract_only (f j x)) → contract_only (imapR f i l).
Proof.
  intros Hf. revert i. induction l as [|x l IH]; intros i; simpl; [apply contract_only_Ok|].
  apply contract_only_bind; [done|]. intros y _. apply contract_only_bind; [done|].
  intros ys _. apply contract_only_Ok.
Qed.

Lemma contract_only_forR {A} (f : A → res unit) l :
  (∀ x, contract_only (f x)) → contract_only (forR f l).
Proof.
  intros Hf. induction l as [|x l IH]; simpl; [apply contract_only_Ok|].
  by apply contract_only_bind.
Qed.

Create HintDb contract.
#[export] Hint Resolve contract_only_Ok contract_only_invalid contract_only_bind contract_only_if
  contract_only_imapR contract_only_forR : contract.

(** [contract_tac]: decompose a computation down to the throws. *)
Ltac contract_tac :=
  repeat first
    [ match goal with |- forall _, _ => intro end
    | apply contract_only_Ok | apply contract_only_invalid
    | solve [auto with contract]
    | apply contract_only_bind | apply contract_only_imapR | apply contract_only_forR
    | apply contract_only_if
    | match goal with |- contract_only (match ?x with _ => _ end) => destruct x end ].

Lemma contract_only_assertString v p m : contract_only (assertString v p m).
Proof. unfold assertString. contract_tac. Qed.
#[export] Hint Resolve contract_only_assertString : contract.

Lemma contract_only_assertPattern v p f : contract_only (assertPattern v p f).
Proof. unfold assertPattern. contract_tac. Qed.

Lemma contract_only_assertEnum {A} `{JsEnum A} v (l : list A) p : contract_only (assertEnum v l p).
Proof. unfold assertEnum. contract_tac. Qed.

Lemma contract_only_assertInteger v p lo hi : contract_only (assertInteger v p lo hi).
Proof. unfold assertInteger. contract_tac. Qed.

Lemma contract_only_assertBoolean v p : contract_only (assertBoolean v p).
Proof. unfold assertBoolean. contract_tac. Qed.

Lemma contract_only_assertArray v p lo hi : contract_only (assertArray v p lo hi).
Proof. unfold assertArray. contract_tac. Qed.

Lemma contract_only_assertPlainObject v p : contract_only (assertPlainObject v p).
Proof. unfold assertPlainObject. contract_tac. Qed.

Lemma contract_only_assertUnique l p : contract_only (assertUnique l p).
Proof. unfold assertUnique. contract_tac. Qed.

Lemma contract_only_assertRef v p : contract_only (assertRef v p).
Proof. unfold assertRef. contract_tac. Qed.

Lemma contract_only_assertTimestamp v p : contract_only (assertTimestamp v p).
Proof. unfold assertTimestamp. contract_tac. Qed.

#[export] Hint Resolve contract_only_assertPattern contract_only_assertEnum
  contract_only_assertInteger contract_only_assertBoolean contract_only_assertArray
  contract_only_assertPlainObject contract_only_assertUnique contract_only_assertRef
  contract_only_assertTimestamp : contract.

Lemma contract_only_assertExactFields v a r p : contract_only (assertExactFields v a r p).
Proof. unfold assertExactFields. contract_tac. Qed.
#[export] Hint Resolve contract_only_assertExactFields : contract.

Lemma contract_only_normalizeUniqueRefs v p lo hi : contract_only (normalizeUniqueRefs v p lo hi).
Proof. unfold normalizeUniqueRefs. contract_tac. Qed.

Lemma contract_only_normalizeContentRef v p : contract_only (normalizeContentRef v p).
Proof. unfold normalizeContentRef. contract_tac. Qed.

Lemma contract_only_preflight_loop fuel root nodes stack :
  (nodes <= max_input_nodes < nodes + Z.of_nat fuel)%Z →
  contract_only (preflight_loop fuel root nodes stack).
Proof.
  revert nodes stack. induction fuel as [|fuel IH]; intros nodes [|f stack] Hn; simpl;
    try apply contract_only_Ok; [lia|].
  destruct (max_input_nodes <? nodes + 1)%Z eqn:E; [apply contract_only_invalid|].
  destruct (max_input_depth <? fr_depth f)%Z; [apply contract_only_invalid|]. split_bools.
  apply contract_only_bind; [unfold preflight_visit; contract_tac|]. intros pushed _. apply IH. lia.
Qed.

Lemma contract_only_preflightJson v p m : contract_only (preflightJson v p m).
Proof.
  unfold preflightJson. apply contract_only_bind; [|intros; contract_tac].
  apply contract_only_preflight_loop. unfold preflight_turns, max_input_nodes. lia.
Qed.
#[export] Hint Resolve contract_only_normalizeUniqueRefs contract_only_normalizeContentRef
  contract_only_preflightJson : contract.

(** Hashing what an encoder wrote cannot throw. *)
Lemma contract_only_canonicalHash `{Sha256} j : plain j = true → contract_only (canonicalHash j).
Proof.
  intros [t Ht]%canonicalJson_total. unfold canonicalHash. rewrite Ht. apply contract_only_Ok.
Qed.

Lemma plain_map {A} (f : A → json) l : (∀ x, plain (f x) = true) → forallb plain (map f l) = true.
Proof. intros Hf. induction l; simpl; [done|]. by rewrite Hf. Qed.

Lemma plain_str_list l : plain (str_list_json l) = true.
Proof. by apply plain_map. Qed.

Lemma failClosed_contract_only {A} path (normalize : json → res A) input :
  contract_only (normalize input) →
  failClosedNormalizer path normalize input = normalize input.
Proof.
  intros Hc. unfold failClosedNormalizer. destruct (normalize input) as [a|e] eqn:E; [done|].
  destruct (Hc e eq_refl) as (p & r & ->). done.
Qed.
