(* ===== verification/PlanContract.v ===== *)
(** The work order plan contract ([packages/business-orchestrator/src/contract.js], lines
    567-1139): the plan's records, the normaliser of each part, the dependency-graph checks and
    [normalizeBusinessWorkOrderPlanV1], which makes a plan content-addressed. *)

From Stdlib Require Import ZArith Lia Ascii String Permutation.
From stdpp Require Import base tactics list strings option.
From S2P Require Import Prelude JsString JsDate Json ContractBase.
Import CONTRACT_LIMITS.

(** ** Vocabulary *)

Inductive VerificationMode := VmDeterministic | VmMixed | VmHumanOnly.
#[export] Instance VerificationMode_eq_dec : EqDecision VerificationMode.
Proof. solve_decision. Defined.
#[export] Instance VerificationMode_enum : JsEnum VerificationMode := {|
  enum_all := [VmDeterministic; VmMixed; VmHumanOnly];
  enum_str m := match m with
    | VmDeterministic => "deterministic" | VmMixed => "mixed" | VmHumanOnly => "human_only" end |}.
#[export] Instance VerificationMode_laws : JsEnumLaws VerificationMode.
Proof. enum_laws. Qed.

Inductive RequirementKind := RkDeterministic | RkHuman.
#[export] Instance RequirementKind_eq_dec : EqDecision RequirementKind.
Proof. solve_decision. Defined.
#[export] Instance RequirementKind_enum : JsEnum RequirementKind := {|
  enum_all := [RkDeterministic; RkHuman];
  enum_str k := match k with RkDeterministic => "deterministic" | RkHuman => "human" end |}.
#[export] Instance RequirementKind_laws : JsEnumLaws RequirementKind.
Proof. enum_laws. Qed.

Inductive ReviewMinimum := ReviewLight | ReviewNormal | ReviewStrict.
#[export] Instance ReviewMinimum_eq_dec : EqDecision ReviewMinimum.
Proof. solve_decision. Defined.
#[export] Instance ReviewMinimum_enum : JsEnum ReviewMinimum := {|
  enum_all := [ReviewLight; ReviewNormal; ReviewStrict];
  enum_str m := match m with
    | ReviewLight => "light" | ReviewNormal => "normal" | ReviewStrict => "strict" end |}.
#[export] Instance ReviewMinimum_laws : JsEnumLaws ReviewMinimum.
Proof. enum_laws. Qed.

Inductive BranchRole := RoleWork | RoleIntegration.
#[export] Instance BranchRole_eq_dec : EqDecision BranchRole.
Proof. solve_decision. Defined.
#[export] Instance BranchRole_enum : JsEnum BranchRole := {|
  enum_all := [RoleWork; RoleIntegration];
  enum_str r := match r with RoleWork => "work" | RoleIntegration => "integration" end |}.
#[export] Instance BranchRole_laws : JsEnumLaws BranchRole.
Proof. enum_laws. Qed.

Inductive IsolationMode := IsoReadOnly | IsoWorktree | IsoSandbox | IsoRemote.
#[export] Instance IsolationMode_eq_dec : EqDecision IsolationMode.
Proof. solve_decision. Defined.
#[export] Instance IsolationMode_enum : JsEnum IsolationMode := {|
  enum_all := [IsoReadOnly; IsoWorktree; IsoSandbox; IsoRemote];
  enum_str m := match m with
    | IsoReadOnly => "read-only" | IsoWorktree => "worktree" | IsoSandbox => "sandbox"
    | IsoRemote => "remote" end |}.
#[export] Instance IsolationMode_laws : JsEnumLaws IsolationMode.
Proof. enum_laws. Qed.

Inductive PermissionMode := PermReadOnly | PermWorkspaceWrite.
#[export] Instance PermissionMode_eq_dec : EqDecision PermissionMode.
Proof. solve_decision. Defined.
#[export] Instance PermissionMode_enum : JsEnum PermissionMode := {|
  enum_all := [PermReadOnly; PermWorkspaceWrite];
  enum_str m := match m with
    | PermReadOnly => "read-only" | PermWorkspaceWrite => "workspace-write" end |}.
#[export] Instance PermissionMode_laws : JsEnumLaws PermissionMode.
Proof. enum_laws. Qed.

(** [permissionRank] *)
Definition permissionRank (m : PermissionMode) : Z :=
  match m with PermReadOnly => 0 | PermWorkspaceWrite => 1 end.

Inductive ProviderSelection := SelFixed | SelFallbackAllowed.
#[export] Instance ProviderSelection_eq_dec : EqDecision ProviderSelection.
Proof. solve_decision. Defined.
#[export] Instance ProviderSelection_enum : JsEnum ProviderSelection := {|
  enum_all := [SelFixed; SelFallbackAllowed];
  enum_str m := match m with SelFixed => "fixed" | SelFallbackAllowed => "fallback_allowed" end |}.
#[export] Instance ProviderSelection_laws : JsEnumLaws ProviderSelection.
Proof. enum_laws. Qed.

(** [RETRYABLE_RUNTIME_OBSERVATIONS] *)
Inductive RetryableObservation := RetryNotSent.
#[export] Instance RetryableObservation_eq_dec : EqDecision RetryableObservation.
Proof. solve_decision. Defined.
#[export] Instance RetryableObservation_enum : JsEnum RetryableObservation := {|
  enum_all := [RetryNotSent];
  enum_str o := match o with RetryNotSent => "branch.dispatch.not_sent" end |}.
#[export] Instance RetryableObservation_laws : JsEnumLaws RetryableObservation.
Proof. enum_laws. Qed.

(** ** Records *)

Record VerificationRequirement := {
  vr_kind : RequirementKind;
  vr_verification_ref : ContentRef;
}.

Record AcceptanceCriterion := {
  ac_criterion_id : string;
  ac_description : string;
  ac_verification : VerificationMode;
  ac_verification_requirements : list VerificationRequirement;
}.

Record AcceptancePolicy := {
  ap_criteria : list AcceptanceCriterion;
  ap_review_minimum : ReviewMinimum;
}.

Record RetryPolicy := {
  rp_max_attempts : Z;
  rp_attempt_timeout_ms : Z;
  rp_max_elapsed_ms : Z;
  rp_backoff_initial_ms : Z;
  rp_backoff_max_ms : Z;
  rp_retryable_observations : list RetryableObservation;
}.

Record LeasePolicy := {
  lp_lease_duration_ms : Z;
  lp_heartbeat_interval_ms : Z;
  lp_max_recovery_probes : Z;
}.

Record ProviderPolicy := {
  pp_allowed_provider_refs : list string;
  pp_selection : ProviderSelection;
}.

Record PlanBranch := {
  pb_branch_ref : string;
  pb_task_intent_ref : ContentRef;
  pb_execution_plan_ref : ContentRef;
  pb_context_pack_ref : ContentRef;
  pb_dependencies : list string;
  pb_role : BranchRole;
  pb_parallelizable : bool;
  pb_isolation : IsolationMode;
  pb_assignee_ref : string;
  pb_provider_ref : string;
  pb_permission_mode : PermissionMode;
}.

(** The content of a plan, everything its hash covers. *)
Record PlanContent := {
  pl_project_ref : string;
  pl_revision : Z;
  pl_supersedes_plan_ref : option string;
  pl_title : string;
  pl_desired_outcome : string;
  pl_acceptance_policy : AcceptancePolicy;
  pl_task_intent_ref : ContentRef;
  pl_execution_plan_ref : ContentRef;
  pl_context_pack_ref : ContentRef;
  pl_branches : list PlanBranch;
  pl_integration_branch_ref : option string;
  pl_max_concurrency : Z;
  pl_context_duplication_budget_tokens : Z;
  pl_retry_policy : RetryPolicy;
  pl_lease_policy : LeasePolicy;
  pl_provider_policy : ProviderPolicy;
  pl_permission_mode : PermissionMode;
}.

Record Plan := {
  pl_plan_snapshot_id : string;
  pl_plan_hash : string;
  pl_content :> PlanContent;
}.

(** ** Encoders: the object literals the normalisers return *)

Definition verification_requirement_json (r : VerificationRequirement) : json :=
  JObj [("kind", enum_json (vr_kind r));
        ("verification_ref", content_ref_json (vr_verification_ref r))].

Definition acceptance_criterion_json (c : AcceptanceCriterion) : json :=
  JObj [("criterion_id", JStr (ac_criterion_id c)); ("description", JStr (ac_description c));
        ("verification", enum_json (ac_verification c));
        ("verification_requirements",
          JArr (map verification_requirement_json (ac_verification_requirements c)))].

Definition acceptance_policy_json (p : AcceptancePolicy) : json :=
  JObj [("criteria", JArr (map acceptance_criterion_json (ap_criteria p)));
        ("review_minimum", enum_json (ap_review_minimum p))].

Definition retry_policy_json (p : RetryPolicy) : json :=
  JObj [("max_attempts", JInt (rp_max_attempts p));
        ("attempt_timeout_ms", JInt (rp_attempt_timeout_ms p));
        ("max_elapsed_ms", JInt (rp_max_elapsed_ms p));
        ("backoff_initial_ms", JInt (rp_backoff_initial_ms p));
        ("backoff_max_ms", JInt (rp_backoff_max_ms p));
        ("retryable_observations", JArr (map enum_json (rp_retryable_observations p)))].

Definition lease_policy_json (p : LeasePolicy) : json :=
  JObj [("lease_duration_ms", JInt (lp_lease_duration_ms p));
        ("heartbeat_interval_ms", JInt (lp_heartbeat_interval_ms p));
        ("max_recovery_probes", JInt (lp_max_recovery_probes p))].

Definition provider_policy_json (p : ProviderPolicy) : json :=
  JObj [("allowed_provider_refs", str_list_json (pp_allowed_provider_refs p));
        ("selection", enum_json (pp_selection p))].

Definition plan_branch_fields (b : PlanBranch) : fields :=
  [("branch_ref", JStr (pb_branch_ref b));
   ("task_intent_ref", content_ref_json (pb_task_intent_ref b));
   ("execution_plan_ref", content_ref_json (pb_execution_plan_ref b));
   ("context_pack_ref", content_ref_json (pb_context_pack_ref b));
   ("dependencies", str_list_json (pb_dependencies b));
   ("role", enum_json (pb_role b)); ("parallelizable", JBool (pb_parallelizable b));
   ("isolation", enum_json (pb_isolation b)); ("assignee_ref", JStr (pb_assignee_ref b));
   ("provider_ref", JStr (pb_provider_ref b));
   ("permission_mode", enum_json (pb_permission_mode b))].
Definition plan_branch_json (b : PlanBranch) : json := JObj (plan_branch_fields b).

Definition plan_content_fields (p : PlanContent) : fields :=
  [("version", JInt 1); ("project_ref", JStr (pl_project_ref p)); ("revision", JInt (pl_revision p));
   ("supersedes_plan_ref", opt_json JStr (pl_supersedes_plan_ref p));
   ("title", JStr (pl_title p)); ("desired_outcome", JStr (pl_desired_outcome p));
   ("acceptance_policy", acceptance_policy_json (pl_acceptance_policy p));
   ("task_intent_ref", content_ref_json (pl_task_intent_ref p));
   ("execution_plan_ref", content_ref_json (pl_execution_plan_ref p));
   ("context_pack_ref", content_ref_json (pl_context_pack_ref p));
   ("branches", JArr (map plan_branch_json (pl_branches p)));
   ("integration_branch_ref", opt_json JStr (pl_integration_branch_ref p));
   ("max_concurrency", JInt (pl_max_concurrency p));
   ("context_duplication_budget_tokens", JInt (pl_context_duplication_budget_tokens p));
   ("retry_policy", retry_policy_json (pl_retry_policy p));
   ("lease_policy", lease_policy_json (pl_lease_policy p));
   ("provider_policy", provider_policy_json (pl_provider_policy p));
   ("permission_mode", enum_json (pl_permission_mode p))].

Definition plan_json (p : Plan) : json :=
  JObj ([("plan_snapshot_id", JStr (pl_plan_snapshot_id p)); ("plan_hash", JStr (pl_plan_hash p))]
    ++ plan_content_fields p).

(** ** Acceptance policy *)

Definition VERIFICATION_REQUIREMENT_FIELDS : list string := ["kind"; "verification_ref"].
Definition ACCEPTANCE_CRITERION_FIELDS : list string :=
  ["criterion_id"; "description"; "verification"; "verification_requirements"].
Definition ACCEPTANCE_POLICY_FIELDS : list string := ["criteria"; "review_minimum"].

Definition normalizeVerificationRequirement (entry : json) (path : string)
    : res VerificationRequirement :=
  let* requirement := assertExactFields entry VERIFICATION_REQUIREMENT_FIELDS
    VERIFICATION_REQUIREMENT_FIELDS path in
  let* kind := assertEnum (A := RequirementKind) (get "kind" requirement) enum_all
    (path +:+ ".kind") in
  let* ref := normalizeContentRef (get "verification_ref" requirement)
    (path +:+ ".verification_ref") in
  Ok {| vr_kind := kind; vr_verification_ref := ref |}.

Definition requirement_id (r : VerificationRequirement) : string := cr_id (vr_verification_ref r).

(** [compareText(id) || compareText(kind)] *)
Definition requirement_leb (l r : VerificationRequirement) : bool :=
  if String.eqb (requirement_id l) (requirement_id r)
  then text_leb (enum_str (vr_kind l)) (enum_str (vr_kind r))
  else text_leb (requirement_id l) (requirement_id r).

Definition is_deterministic (r : VerificationRequirement) : bool :=
  bool_decide (vr_kind r = RkDeterministic).

(** [modeValid] *)
Definition mode_valid (mode : VerificationMode) (requirements : list VerificationRequirement)
    : bool :=
  let deterministicCount := Z.of_nat (length (filter is_deterministic requirements)) in
  let humanCount := (Z.of_nat (length requirements) - deterministicCount)%Z in
  match mode with
  | VmDeterministic => (1 <=? deterministicCount)%Z && (humanCount =? 0)%Z
  | VmHumanOnly => (1 <=? humanCount)%Z && (deterministicCount =? 0)%Z
  | VmMixed => (1 <=? deterministicCount)%Z && (1 <=? humanCount)%Z
  end.

Definition normalizeVerificationRequirements (input : json) (path : string)
    (verificationMode : VerificationMode) : res (list VerificationRequirement) :=
  let* entries := assertArray input path 1 max_verification_requirements_per_criterion in
  let* requirements :=
    imapR (λ i entry, normalizeVerificationRequirement entry (index_path path i)) 0 entries in
  let* _ := assertUnique (map requirement_id requirements) path in
  reject negb (mode_valid verificationMode requirements)
    with ContractValidationError path "verification_mode_mismatch" in
  Ok (isort requirement_leb requirements).

Definition normalizeAcceptanceCriterion (entry : json) (path : string) : res AcceptanceCriterion :=
  let* criterion := assertExactFields entry ACCEPTANCE_CRITERION_FIELDS
    ACCEPTANCE_CRITERION_FIELDS path in
  let* verification := assertEnum (A := VerificationMode) (get "verification" criterion) enum_all
    (path +:+ ".verification") in
  let* criterion_id := assertRef (get "criterion_id" criterion) (path +:+ ".criterion_id") in
  let* description := assertString (get "description" criterion) (path +:+ ".description") 8192 in
  let* requirements := normalizeVerificationRequirements
    (get "verification_requirements" criterion) (path +:+ ".verification_requirements")
    verification in
  Ok {| ac_criterion_id := criterion_id; ac_description := description;
        ac_verification := verification; ac_verification_requirements := requirements |}.

Definition criterion_leb (l r : AcceptanceCriterion) : bool :=
  text_leb (ac_criterion_id l) (ac_criterion_id r).

Definition normalizeAcceptancePolicy (input : json) : res AcceptancePolicy :=
  let* policy := assertExactFields input ACCEPTANCE_POLICY_FIELDS ACCEPTANCE_POLICY_FIELDS
    "plan.acceptance_policy" in
  let* entries := assertArray (get "criteria" policy) "plan.acceptance_policy.criteria" 1
    max_acceptance_criteria in
  let* criteria := imapR (λ i entry, normalizeAcceptanceCriterion entry
    (index_path "plan.acceptance_policy.criteria" i)) 0 entries in
  let* _ := assertUnique (map ac_criterion_id criteria)
    "plan.acceptance_policy.criteria.criterion_id" in
  let* review_minimum := assertEnum (A := ReviewMinimum) (get "review_minimum" policy) enum_all
    "plan.acceptance_policy.review_minimum" in
  Ok {| ap_criteria := isort criterion_leb criteria; ap_review_minimum := review_minimum |}.

(** ** Retry, lease and provider policies *)

Definition RETRY_POLICY_FIELDS : list string :=
  ["max_attempts"; "attempt_timeout_ms"; "max_elapsed_ms"; "backoff_initial_ms"; "backoff_max_ms";
   "retryable_observations"].
Definition LEASE_POLICY_FIELDS : list string :=
  ["lease_duration_ms"; "heartbeat_interval_ms"; "max_recovery_probes"].
Definition PROVIDER_POLICY_FIELDS : list string := ["allowed_provider_refs"; "selection"].

Definition normalizeRetryableObservation (name : json) (path : string) : res RetryableObservation :=
  match name with
  | JStr "branch.delivery_unknown" => invalid path "delivery_ambiguity"
  | _ => assertEnum name enum_all path
  end.

Definition observation_leb (l r : RetryableObservation) : bool :=
  text_leb (enum_str l) (enum_str r).

Definition normalizeRetryPolicy (input : json) : res RetryPolicy :=
  let* policy := assertExactFields input RETRY_POLICY_FIELDS RETRY_POLICY_FIELDS
    "plan.retry_policy" in
  let* names := assertArray (get "retryable_observations" policy)
    "plan.retry_policy.retryable_observations" 0 1 in
  let* retryable := imapR (λ i name, normalizeRetryableObservation name
    (index_path "plan.retry_policy.retryable_observations" i)) 0 names in
  let* _ := assertUnique (map enum_str retryable) "plan.retry_policy.retryable_observations" in
  let* max_attempts := assertInteger (get "max_attempts" policy)
    "plan.retry_policy.max_attempts" 1 5 in
  let* attempt_timeout_ms := assertInteger (get "attempt_timeout_ms" policy)
    "plan.retry_policy.attempt_timeout_ms" 1000 86400000 in
  let* max_elapsed_ms := assertInteger (get "max_elapsed_ms" policy)
    "plan.retry_policy.max_elapsed_ms" 1000 604800000 in
  let* backoff_initial_ms := assertInteger (get "backoff_initial_ms" policy)
    "plan.retry_policy.backoff_initial_ms" 0 3600000 in
  let* backoff_max_ms := assertInteger (get "backoff_max_ms" policy)
    "plan.retry_policy.backoff_max_ms" 0 86400000 in
  reject (max_elapsed_ms <? attempt_timeout_ms)%Z
    with ContractValidationError "plan.retry_policy.attempt_timeout_ms" "inconsistent_limit" in
  reject (backoff_max_ms <? backoff_initial_ms)%Z
    with ContractValidationError "plan.retry_policy.backoff_initial_ms" "inconsistent_limit" in
  Ok {| rp_max_attempts := max_attempts; rp_attempt_timeout_ms := attempt_timeout_ms;
        rp_max_elapsed_ms := max_elapsed_ms; rp_backoff_initial_ms := backoff_initial_ms;
        rp_backoff_max_ms := backoff_max_ms;
        rp_retryable_observations :=
          isort observation_leb retryable |}.

Definition normalizeLeasePolicy (input : json) : res LeasePolicy :=
  let* policy := assertExactFields input LEASE_POLICY_FIELDS LEASE_POLICY_FIELDS
    "plan.lease_policy" in
  let* lease_duration_ms := assertInteger (get "lease_duration_ms" policy)
    "plan.lease_policy.lease_duration_ms" 5000 3600000 in
  let* heartbeat_interval_ms := assertInteger (get "heartbeat_interval_ms" policy)
    "plan.lease_policy.heartbeat_interval_ms" 1000 600000 in
  let* max_recovery_probes := assertInteger (get "max_recovery_probes" policy)
    "plan.lease_policy.max_recovery_probes" 1 20 in
  reject (lease_duration_ms <=? heartbeat_interval_ms)%Z
    with ContractValidationError "plan.lease_policy.heartbeat_interval_ms" "inconsistent_limit" in
  Ok {| lp_lease_duration_ms := lease_duration_ms;
        lp_heartbeat_interval_ms := heartbeat_interval_ms;
        lp_max_recovery_probes := max_recovery_probes |}.

Definition normalizeProviderPolicy (input : json) : res ProviderPolicy :=
  let* policy := assertExactFields input PROVIDER_POLICY_FIELDS PROVIDER_POLICY_FIELDS
    "plan.provider_policy" in
  let* allowedProviderRefs := normalizeUniqueRefs (get "allowed_provider_refs" policy)
    "plan.provider_policy.allowed_provider_refs" 1 max_provider_refs in
  let* selection := assertEnum (A := ProviderSelection) (get "selection" policy) enum_all
    "plan.provider_policy.selection" in
  reject bool_decide (selection = SelFixed) && negb (Nat.eqb (length allowedProviderRefs) 1)
    with ContractValidationError "plan.provider_policy.allowed_provider_refs" "provider_count" in
  reject bool_decide (selection = SelFallbackAllowed) && Nat.ltb (length allowedProviderRefs) 2
    with ContractValidationError "plan.provider_policy.allowed_provider_refs" "provider_count" in
  Ok {| pp_allowed_provider_refs := allowedProviderRefs; pp_selection := selection |}.

(** ** Branches *)

Definition BRANCH_FIELDS : list string :=
  ["branch_ref"; "task_intent_ref"; "execution_plan_ref"; "context_pack_ref"; "dependencies";
   "role"; "parallelizable"; "isolation"; "assignee_ref"; "provider_ref"; "permission_mode"].

Definition normalizeBranch (input : json) (path : string) : res PlanBranch :=
  let* branch := assertExactFields input BRANCH_FIELDS BRANCH_FIELDS path in
  let* branch_ref := assertRef (get "branch_ref" branch) (path +:+ ".branch_ref") in
  let* task_intent_ref := normalizeContentRef (get "task_intent_ref" branch)
    (path +:+ ".task_intent_ref") in
  let* execution_plan_ref := normalizeContentRef (get "execution_plan_ref" branch)
    (path +:+ ".execution_plan_ref") in
  let* context_pack_ref := normalizeContentRef (get "context_pack_ref" branch)
    (path +:+ ".context_pack_ref") in
  let* dependencies := normalizeUniqueRefs (get "dependencies" branch) (path +:+ ".dependencies")
    0 max_dependencies_per_branch in
  let* role := assertEnum (A := BranchRole) (get "role" branch) enum_all (path +:+ ".role") in
  let* parallelizable := assertBoolean (get "parallelizable" branch)
    (path +:+ ".parallelizable") in
  let* isolation := assertEnum (A := IsolationMode) (get "isolation" branch) enum_all
    (path +:+ ".isolation") in
  let* assignee_ref := assertRef (get "assignee_ref" branch) (path +:+ ".assignee_ref") in
  let* provider_ref := assertRef (get "provider_ref" branch) (path +:+ ".provider_ref") in
  let* permission_mode := assertEnum (A := PermissionMode) (get "permission_mode" branch) enum_all
    (path +:+ ".permission_mode") in
  reject includes dependencies branch_ref
    with ContractValidationError (path +:+ ".dependencies") "self_dependency" in
  reject bool_decide (role = RoleIntegration) && parallelizable
    with ContractValidationError (path +:+ ".parallelizable") "integration_parallel" in
  reject bool_decide (isolation = IsoReadOnly) && negb (bool_decide (permission_mode = PermReadOnly))
    with ContractValidationError (path +:+ ".permission_mode") "isolation_permission" in
  reject parallelizable && bool_decide (permission_mode = PermWorkspaceWrite)
      && negb (bool_decide (isolation ∈ [IsoWorktree; IsoSandbox; IsoRemote]))
    with ContractValidationError (path +:+ ".isolation") "parallel_isolation" in
  Ok {| pb_branch_ref := branch_ref; pb_task_intent_ref := task_intent_ref;
        pb_execution_plan_ref := execution_plan_ref; pb_context_pack_ref := context_pack_ref;
        pb_dependencies := dependencies; pb_role := role; pb_parallelizable := parallelizable;
        pb_isolation := isolation; pb_assignee_ref := assignee_ref;
        pb_provider_ref := provider_ref; pb_permission_mode := permission_mode |}.

(** ** The dependency graph *)

(** [byRef.get(ref)], for the map of branches by reference. *)
Fixpoint branch_by_ref (branches : list PlanBranch) (ref : string) : option PlanBranch :=
  match branches with
  | [] => None
  | b :: bs => if String.eqb (pb_branch_ref b) ref then Some b else branch_by_ref bs ref
  end.

Definition dependencies_of (branches : list PlanBranch) (ref : string) : list string :=
  match branch_by_ref branches ref with Some b => pb_dependencies b | None => [] end.

(** Each dependency names a branch of the plan. *)
Definition checkDependenciesKnown (branches : list PlanBranch) : res unit :=
  forR (λ b, forR (λ d,
    match branch_by_ref branches d with
    | Some _ => Ok tt
    | None => invalid ("plan.branches." +:+ pb_branch_ref b +:+ ".dependencies")
                "unknown_dependency"
    end) (pb_dependencies b)) branches.

(** The depth-first [visit(branchRef)] of [assertAcyclic]: [visiting] is the set of branches on
    the current path (added on entry, removed on exit), [visited] the branches already done.
    The depth is bounded by the number of branches ([visit_fuel]). *)
Fixpoint visit (fuel : nat) (branches : list PlanBranch) (visiting visited : list string)
    (branchRef : string) : res (list string) :=
  match fuel with
  | O => Err OutOfFuel
  | S fuel' =>
      if includes visiting branchRef then invalid "plan.branches" "dependency_cycle"
      else if includes visited branchRef then Ok visited
      else
        let* visited' := (fix visit_all (ds : list string) (visited : list string) :=
          match ds with
          | [] => Ok visited
          | d :: ds' => let* visited' := visit fuel' branches (branchRef :: visiting) visited d in
                        visit_all ds' visited'
          end) (dependencies_of branches branchRef) visited in
        Ok (branchRef :: visited')
  end.

Fixpoint visit_each (fuel : nat) (branches : list PlanBranch) (visiting visited refs : list string)
    : res (list string) :=
  match refs with
  | [] => Ok visited
  | r :: rs => let* visited' := visit fuel branches visiting visited r in
               visit_each fuel branches visiting visited' rs
  end.

Definition assertAcyclic (branches : list PlanBranch) : res unit :=
  let* _ := checkDependenciesKnown branches in
  let* _ := visit_each (S (length branches)) branches [] [] (map pb_branch_ref branches) in
  Ok tt.

(** The reachability loop of [validateIntegration]: a stack of references, each expanded the
    first time it is popped.  The fuel bounds the pushes ([reach_total]). *)
Fixpoint reach (fuel : nat) (branches : list PlanBranch) (reachable stack : list string)
    : res (list string) :=
  match stack, fuel with
  | [], _ => Ok reachable
  | _, O => Err OutOfFuel
  | dependency :: stack', S fuel' =>
      if includes reachable dependency then reach fuel' branches reachable stack'
      else reach fuel' branches (dependency :: reachable)
             (rev (dependencies_of branches dependency) ++ stack')
  end.

Definition reach_turns (branches : list PlanBranch) : nat :=
  S (length (concat (map pb_dependencies branches)) * 2).

Definition validateIntegration (branches : list PlanBranch) (integrationBranchRef : option string)
    : res unit :=
  let integrationBranches := filter (λ b, pb_role b = RoleIntegration) branches in
  match integrationBranchRef with
  | None =>
      match integrationBranches with
      | [] => Ok tt
      | _ => invalid "plan.integration_branch_ref" "integration_mismatch"
      end
  | Some ref =>
      match integrationBranches with
      | [b] =>
          reject negb (String.eqb (pb_branch_ref b) ref)
            with ContractValidationError "plan.integration_branch_ref" "integration_mismatch" in
          let* _ := forR (λ branch,
            if negb (String.eqb (pb_branch_ref branch) ref)
               && includes (pb_dependencies branch) ref
            then invalid ("plan.branches." +:+ pb_branch_ref branch +:+ ".dependencies")
                   "integration_terminal"
            else Ok tt) branches in
          let* reachable := reach (reach_turns branches) branches []
            (rev (dependencies_of branches ref)) in
          match filter (λ b, pb_role b = RoleWork ∧ pb_branch_ref b ∉ reachable) branches with
          | [] => Ok tt
          | _ => invalid "plan.integration_branch_ref" "integration_coverage"
          end
      | _ => invalid "plan.integration_branch_ref" "integration_mismatch"
      end
  end.

(** ** The plan *)

(** Every content reference of the plan, in the order of [assertPlanContentRefIdsUnique]. *)
Definition plan_content_refs (rootRefs : list ContentRef) (branches : list PlanBranch)
    (acceptancePolicy : AcceptancePolicy) : list ContentRef :=
  rootRefs
  ++ flat_map (λ b, [pb_task_intent_ref b; pb_execution_plan_ref b; pb_context_pack_ref b]) branches
  ++ flat_map (λ c, map vr_verification_ref (ac_verification_requirements c))
       (ap_criteria acceptancePolicy).

Definition assertPlanContentRefIdsUnique (rootRefs : list ContentRef) (branches : list PlanBranch)
    (acceptancePolicy : AcceptancePolicy) : res unit :=
  if has_duplicates (map cr_id (plan_content_refs rootRefs branches acceptancePolicy))
  then invalid "plan.content_refs" "content_ref_id_conflict" else Ok tt.

(** The provider and permission ceilings of each branch. *)
Definition checkBranchPolicies (providerPolicy : ProviderPolicy) (permissionMode : PermissionMode)
    (branches : list PlanBranch) : res unit :=
  forR (λ b,
    reject negb (includes (pp_allowed_provider_refs providerPolicy) (pb_provider_ref b))
      with ContractValidationError ("plan.branches." +:+ pb_branch_ref b +:+ ".provider_ref")
        "provider_policy" in
    reject (permissionRank permissionMode <? permissionRank (pb_permission_mode b))%Z
      with ContractValidationError ("plan.branches." +:+ pb_branch_ref b +:+ ".permission_mode")
        "permission_ceiling" in
    Ok tt) branches.

Definition PLAN_REQUIRED_FIELDS : list string :=
  ["version"; "project_ref"; "revision"; "supersedes_plan_ref"; "title"; "desired_outcome";
   "acceptance_policy"; "task_intent_ref"; "execution_plan_ref"; "context_pack_ref"; "branches";
   "integration_branch_ref"; "max_concurrency"; "context_duplication_budget_tokens";
   "retry_policy"; "lease_policy"; "provider_policy"; "permission_mode"].
Definition PLAN_FIELDS : list string := PLAN_REQUIRED_FIELDS ++ ["plan_snapshot_id"; "plan_hash"].

Definition branch_leb (l r : PlanBranch) : bool := text_leb (pb_branch_ref l) (pb_branch_ref r).

Definition work_branches (branches : list PlanBranch) : list PlanBranch :=
  filter (λ b, pb_role b = RoleWork) branches.

(** [plan.version !== 1] and the like: is the value this integer? *)
Definition is_int (v : json) (z : Z) : bool := match v with JInt n => (n =? z)%Z | _ => false end.
Definition is_null (v : json) : bool := match v with JNull => true | _ => false end.

(** [value === null ? null : f(value)] *)
Definition nullable {A} (f : json → res A) (v : json) : res (option A) :=
  if is_null v then Ok None else let* a := f v in Ok (Some a).

(** A supplied identity must be the computed one; an absent field is accepted. *)
Definition checkSuppliedIdentity (supplied : json) (path : string) (pattern : string → bool)
    (computed : string) : res unit :=
  match supplied with
  | JUndef => Ok tt
  | v => let* s := assertPattern v path pattern in
         if String.eqb s computed then Ok tt else invalid path "hash_mismatch"
  end.

Section Plan.
Context `{Sha256}.

(** The identity of a plan: its hash over the canonical content and the snapshot id cut from
    the hash. *)
Definition plan_identity (content : PlanContent) : res Plan :=
  let* planHash := canonicalHash (JObj (plan_content_fields content)) in
  Ok {| pl_plan_snapshot_id := "BPS-" +:+ slice0 32 planHash; pl_plan_hash := planHash;
        pl_content := content |}.

Definition normalizeBusinessWorkOrderPlanV1 (input : json) : res Plan :=
  let* _ := preflightJson input "plan" max_plan_bytes in
  let* plan := assertExactFields input PLAN_FIELDS PLAN_REQUIRED_FIELDS "plan" in
  reject negb (is_int (get "version" plan) 1)
    with ContractValidationError "plan.version" "version" in
  let* projectRef := assertRef (get "project_ref" plan) "plan.project_ref" in
  let* revision := assertInteger (get "revision" plan) "plan.revision" 1 1000000 in
  let* supersedesPlanRef := nullable (λ v, assertPattern v "plan.supersedes_plan_ref"
    (prefixed_hex_pattern "BPS-" 32)) (get "supersedes_plan_ref" plan) in
  reject (revision =? 1)%Z && bool_decide (supersedesPlanRef ≠ None)
    with ContractValidationError "plan.supersedes_plan_ref" "revision_chain" in
  reject (1 <? revision)%Z && bool_decide (supersedesPlanRef = None)
    with ContractValidationError "plan.supersedes_plan_ref" "revision_chain" in
  let* providerPolicy := normalizeProviderPolicy (get "provider_policy" plan) in
  let* permissionMode := assertEnum (A := PermissionMode) (get "permission_mode" plan) enum_all
    "plan.permission_mode" in
  let* acceptancePolicy := normalizeAcceptancePolicy (get "acceptance_policy" plan) in
  let* taskIntentRef := normalizeContentRef (get "task_intent_ref" plan) "plan.task_intent_ref" in
  let* executionPlanRef := normalizeContentRef (get "execution_plan_ref" plan)
    "plan.execution_plan_ref" in
  let* contextPackRef := normalizeContentRef (get "context_pack_ref" plan)
    "plan.context_pack_ref" in
  let* entries := assertArray (get "branches" plan) "plan.branches" 1 max_branches in
  let* branches := imapR (λ i entry, normalizeBranch entry (index_path "plan.branches" i)) 0
    entries in
  let* _ := assertUnique (map pb_branch_ref branches) "plan.branches.branch_ref" in
  let* _ := assertUnique (map (λ b, cr_id (pb_task_intent_ref b)) branches)
    "plan.branches.task_intent_ref.id" in
  let* _ := assertUnique (map (λ b, cr_id (pb_execution_plan_ref b)) branches)
    "plan.branches.execution_plan_ref.id" in
  let* _ := assertUnique (map (λ b, cr_id (pb_context_pack_ref b)) branches)
    "plan.branches.context_pack_ref.id" in
  let* _ := assertPlanContentRefIdsUnique [taskIntentRef; executionPlanRef; contextPackRef]
    branches acceptancePolicy in
  let* _ := assertAcyclic branches in
  let* integrationBranchRef := nullable (λ v, assertRef v "plan.integration_branch_ref")
    (get "integration_branch_ref" plan) in
  let* _ := validateIntegration branches integrationBranchRef in
  let* _ := checkBranchPolicies providerPolicy permissionMode branches in
  let workBranchCount := Z.of_nat (length (work_branches branches)) in
  reject (workBranchCount =? 0)%Z
    with ContractValidationError "plan.branches" "work_branch_missing" in
  reject (1 <? workBranchCount)%Z && bool_decide (integrationBranchRef = None)
    with ContractValidationError "plan.integration_branch_ref" "integration_required" in
  let* maxConcurrency := assertInteger (get "max_concurrency" plan) "plan.max_concurrency" 1
    max_branches in
  reject (workBranchCount <? maxConcurrency)%Z
    with ContractValidationError "plan.max_concurrency" "concurrency_limit" in
  let* title := assertString (get "title" plan) "plan.title" 1024 in
  let* desiredOutcome := assertString (get "desired_outcome" plan) "plan.desired_outcome" 8192 in
  let* budget := assertInteger (get "context_duplication_budget_tokens" plan)
    "plan.context_duplication_budget_tokens" 0 100000000 in
  let* retryPolicy := normalizeRetryPolicy (get "retry_policy" plan) in
  let* leasePolicy := normalizeLeasePolicy (get "lease_policy" plan) in
  let* result := plan_identity {|
    pl_project_ref := projectRef; pl_revision := revision;
    pl_supersedes_plan_ref := supersedesPlanRef; pl_title := title;
    pl_desired_outcome := desiredOutcome; pl_acceptance_policy := acceptancePolicy;
    pl_task_intent_ref := taskIntentRef; pl_execution_plan_ref := executionPlanRef;
    pl_context_pack_ref := contextPackRef; pl_branches := isort branch_leb branches;
    pl_integration_branch_ref := integrationBranchRef; pl_max_concurrency := maxConcurrency;
    pl_context_duplication_budget_tokens := budget; pl_retry_policy := retryPolicy;
    pl_lease_policy := leasePolicy; pl_provider_policy := providerPolicy;
    pl_permission_mode := permissionMode |} in
  let* _ := checkSuppliedIdentity (get "plan_hash" plan) "plan.plan_hash" (hex_pattern 64)
    (pl_plan_hash result) in
  let* _ := checkSuppliedIdentity (get "plan_snapshot_id" plan) "plan.plan_snapshot_id"
    (prefixed_hex_pattern "BPS-" 32) (pl_plan_snapshot_id result) in
  Ok result.
End Plan.
