(* ===== verification/PlanGraph.v ===== *)
(** The dependency graph of a plan: what [assertAcyclic] and [validateIntegration] establish. *)

From Stdlib Require Import ZArith Lia String.
From stdpp Require Import base tactics list strings option relations sets.
From S2P Require Import Prelude Json ContractBase PlanContract.

(** [a] depends directly on [d]. *)
Definition depends (branches : list PlanBranch) (a d : string) : Prop :=
  d ∈ dependencies_of branches a.

Definition refs (branches : list PlanBranch) : list string := map pb_branch_ref branches.

Definition dependencies_known (branches : list PlanBranch) : Prop :=
  ∀ b d, b ∈ branches → d ∈ pb_dependencies b → d ∈ refs branches.

Section Graph.
Context (branches : list PlanBranch).
Local Abbreviation deps := (dependencies_of branches).

Lemma branch_by_ref_Some ref b :
  branch_by_ref branches ref = Some b → b ∈ branches ∧ pb_branch_ref b = ref.
Proof.
  induction branches as [|c bs IH]; simpl; [done|].
  destruct (String.eqb (pb_branch_ref c) ref) eqn:E.
  - intros [= ->]. split; [left | by apply String.eqb_eq].
  - intros H. apply IH in H as [? ?]. split; [by right | done].
Qed.

Lemma branch_by_ref_is_Some ref : is_Some (branch_by_ref branches ref) ↔ ref ∈ refs branches.
Proof.
  unfold refs. induction branches as [|c bs IH]; simpl.
  - split; [by intros [? ?] | by intros ?%not_elem_of_nil].
  - rewrite elem_of_cons. destruct (String.eqb (pb_branch_ref c) ref) eqn:E.
    + apply String.eqb_eq in E. naive_solver.
    + apply String.eqb_neq in E. rewrite IH. naive_solver.
Qed.

Lemma deps_in_refs a d : depends branches a d → a ∈ refs branches.
Proof.
  unfold depends, dependencies_of. intros H. apply branch_by_ref_is_Some.
  destruct (branch_by_ref branches a); [done | by apply not_elem_of_nil in H].
Qed.

(** A list in topological order: each entry comes before everything it depends on. *)
Inductive topological : list string → Prop :=
| topological_nil : topological []
| topological_cons x l :
    x ∉ l → (∀ d, d ∈ deps x → d ∈ l) → topological l → topological (x :: l).

Lemma topological_rank l :
  topological l → ∃ rank : string → nat, ∀ a d, a ∈ l → d ∈ deps a → d ∈ l ∧ rank d < rank a.
Proof.
  induction 1 as [|x l Hx Hd Hl [rank IH]].
  - exists (λ _, 0). by intros a d ?%not_elem_of_nil.
  - exists (λ s, if decide (s = x) then S (list_max (map rank l)) else rank s).
    assert (∀ d, d ∈ l → rank d ≤ list_max (map rank l)) as Hmax.
    { intros d Hin. pose proof (proj1 (list_max_le (map rank l) _) (le_n _)) as HF.
      rewrite Forall_forall in HF. apply HF. by apply list_elem_of_fmap_2. }
    intros a d [->|Ha]%elem_of_cons Hda.
    + assert (d ∈ l) by auto. split; [by right|].
      rewrite (decide_True (P := x = x)) by done. rewrite decide_False by congruence.
      pose proof (Hmax d H). lia.
    + destruct (IH _ _ Ha Hda) as [? ?]. split; [by right|]. rewrite !decide_False by congruence.
      done.
Qed.

(** What one call of [visit] does: it extends the topological order with everything the
    visited branch needs and keeps the current path out of it. *)
Lemma visit_topological fuel visiting visited r visited' :
  visit fuel branches visiting visited r = Ok visited' →
  topological visited → (∀ v, v ∈ visiting → v ∉ visited) →
  topological visited' ∧ visited ⊆ visited' ∧ r ∈ visited' ∧ (∀ v, v ∈ visiting → v ∉ visited').
Proof.
  revert visiting visited r visited'. induction fuel as [|fuel IH]; simpl; [done|].
  intros visiting visited r visited' H Htop Hdis.
  destruct (includes visiting r) eqn:E1; [done|]. apply includes_false in E1.
  destruct (includes visited r) eqn:E2.
  { apply includes_true in E2. injection H as <-. done. }
  apply includes_false in E2.
  apply bind_Ok in H as (visited1 & Hall & H). injection H as <-.
  assert (∀ v, v ∈ r :: visiting → v ∉ visited) as Hdis' by set_solver.
  assert (topological visited1 ∧ visited ⊆ visited1 ∧ (∀ d, d ∈ deps r → d ∈ visited1)
    ∧ (∀ v, v ∈ r :: visiting → v ∉ visited1)) as (Ht1 & Hsub & Hds & Hdis1).
  { clear E2. revert visited Htop Hdis Hdis' Hall.
    induction (deps r) as [|d ds IHds]; intros visited Htop Hdis Hdis' Hall.
    - injection Hall as <-. split_and!; try done. by intros d ?%not_elem_of_nil.
    - apply bind_Ok in Hall as (v1 & Hv1 & Hall).
      apply IH in Hv1 as (Ht & Hs & Hd & Hdv); [|done..].
      apply IHds in Hall as (? & ? & Hds & ?); [|done|set_solver|done].
      split_and!; [done | set_solver | | done]. intros d' [->|?]%elem_of_cons; [set_solver|auto]. }
  split_and!.
  - constructor; [apply Hdis1; left | done..].
  - set_solver.
  - left.
  - intros v Hv [->|Hv1]%elem_of_cons; [done|]. eapply Hdis1; [by right|done].
Qed.

(** A reported cycle is a cycle. *)
Lemma visit_cycle fuel visiting visited r p w :
  visit fuel branches visiting visited r = Err (ContractValidationError p w) →
  (∀ v, v ∈ visiting → tc (depends branches) v r) → ∃ x, tc (depends branches) x x.
Proof.
  revert visiting visited r. induction fuel as [|fuel IH]; simpl; [done|].
  intros visiting visited r H Hpath.
  destruct (includes visiting r) eqn:E1; [apply includes_true in E1; eauto|].
  destruct (includes visited r); [done|].
  apply bind_Err in H as [H | (? & _ & H)]; [|done].
  assert (∀ d, d ∈ deps r → ∀ v, v ∈ r :: visiting → tc (depends branches) v d) as Hpath'.
  { intros d Hd v [->|Hv]%elem_of_cons; [by apply tc_once|].
    eapply tc_r; [by apply Hpath|]. exact Hd. }
  revert visited H. induction (deps r) as [|d ds IHds]; intros visited H; [done|].
  apply bind_Err in H as [H | (v1 & _ & H)].
  - apply IH in H; [done|]. apply Hpath'. left.
  - apply IHds in H; [done|]. intros d' Hd'. apply Hpath'. by right.
Qed.

(** The recursion depth is bounded by the number of branches. *)
Lemma visit_fuel fuel visiting visited r :
  NoDup visiting → visiting ⊆ refs branches → length branches < fuel + length visiting →
  visit fuel branches visiting visited r ≠ Err OutOfFuel.
Proof.
  revert visiting visited r. induction fuel as [|fuel IH]; intros visiting visited r Hnd Hsub Hlen.
  - exfalso. assert (length visiting ≤ length (refs branches)).
    { apply submseteq_length, NoDup_submseteq; [done|]. exact Hsub. }
    unfold refs in *. rewrite length_map in *. simpl in *. lia.
  - simpl. destruct (includes visiting r) eqn:E1; [done|]. apply includes_false in E1.
    destruct (includes visited r); [done|]. intros H.
    apply bind_Err in H as [H | (? & _ & H)]; [|done].
    destruct (decide (r ∈ refs branches)) as [Hr|Hr].
    + revert visited H. induction (deps r) as [|d ds IHds]; intros visited H; [done|].
      apply bind_Err in H as [H | (v1 & _ & H)]; [|by eapply IHds].
      revert H. apply IH; [by constructor | set_solver | simpl; lia].
    + assert (deps r = []) as Hd; [|rewrite Hd in H; done].
      unfold dependencies_of. destruct (branch_by_ref branches r) eqn:E; [|done].
      destruct Hr. apply branch_by_ref_is_Some. eauto.
Qed.

Lemma visit_each_topological fuel rs visited visited' :
  visit_each fuel branches [] visited rs = Ok visited' → topological visited →
  topological visited' ∧ visited ⊆ visited' ∧ (∀ r, r ∈ rs → r ∈ visited').
Proof.
  revert visited. induction rs as [|r rs IH]; simpl; intros visited H Ht.
  - injection H as <-. split_and!; try done. by intros r ?%not_elem_of_nil.
  - apply bind_Ok in H as (v1 & Hv1 & H).
    apply visit_topological in Hv1 as (? & ? & ? & _); [|done|by intros v ?%not_elem_of_nil].
    apply IH in H as (? & ? & Hr); [|done].
    split_and!; [done | set_solver |]. intros r' [->|?]%elem_of_cons; [set_solver | auto].
Qed.

Lemma visit_each_err fuel visited rs e :
  visit_each fuel branches [] visited rs = Err e →
  ∃ visited r, visit fuel branches [] visited r = Err e.
Proof.
  revert visited. induction rs as [|r rs IH]; simpl; [done|]. intros visited.
  intros [H | (v1 & _ & H)]%bind_Err; eauto.
Qed.

Lemma visit_err_kind fuel visiting visited r e :
  visit fuel branches visiting visited r = Err e →
  e = OutOfFuel ∨ e = ContractValidationError "plan.branches" "dependency_cycle".
Proof.
  revert visiting visited r. induction fuel as [|fuel IH]; simpl; [naive_solver|].
  intros visiting visited r. destruct (includes visiting r); [naive_solver|].
  destruct (includes visited r); [done|].
  intros [H | (? & _ & H)]%bind_Err; [|done]. revert visited H.
  induction (deps r) as [|d ds IHds]; intros visited H; [done|].
  apply bind_Err in H as [H | (v1 & _ & H)]; eauto.
Qed.

Lemma checkDependenciesKnown_Ok :
  checkDependenciesKnown branches = Ok tt ↔ dependencies_known branches.
Proof.
  unfold checkDependenciesKnown, dependencies_known. rewrite forR_Ok, Forall_forall.
  split.
  - intros H b d Hb Hd. apply H in Hb. rewrite forR_Ok, Forall_forall in Hb.
    apply Hb in Hd. apply branch_by_ref_is_Some. by case_match.
  - intros H b Hb. rewrite forR_Ok, Forall_forall. intros d Hd.
    pose proof (H _ _ Hb Hd) as [x ->]%branch_by_ref_is_Some. done.
Qed.

Lemma checkDependenciesKnown_Err e :
  checkDependenciesKnown branches = Err e → ∃ p, e = ContractValidationError p "unknown_dependency".
Proof.
  unfold checkDependenciesKnown. generalize (branch_by_ref branches). intros look.
  induction branches as [|b bs IH]; simpl; [done|].
  intros [H | (? & _ & H)]%bind_Err; [|auto]. revert H.
  induction (pb_dependencies b) as [|d ds IHd]; simpl; [done|].
  intros [H | (? & _ & H)]%bind_Err; [|auto]. case_match; naive_solver.
Qed.
End Graph.

(** An acyclic graph: its references can be ranked so that every dependency ranks lower. *)
Definition ranked (branches : list PlanBranch) : Prop :=
  ∃ rank : string → nat, ∀ b d, b ∈ branches → d ∈ pb_dependencies b →
    rank d < rank (pb_branch_ref b).

Lemma branch_by_ref_elem branches b :
  NoDup (refs branches) → b ∈ branches → branch_by_ref branches (pb_branch_ref b) = Some b.
Proof.
  unfold refs. induction branches as [|c bs IH]; simpl; [by intros _ ?%not_elem_of_nil|].
  intros [Hc Hnd]%NoDup_cons [->|Hb]%elem_of_cons; [by rewrite String.eqb_refl|].
  destruct (String.eqb (pb_branch_ref c) (pb_branch_ref b)) eqn:E; [|auto].
  apply String.eqb_eq in E. destruct Hc. rewrite E. by apply list_elem_of_fmap_2.
Qed.

Lemma dependencies_of_branch branches b :
  NoDup (refs branches) → b ∈ branches → dependencies_of branches (pb_branch_ref b) = pb_dependencies b.
Proof. intros Hnd Hb. unfold dependencies_of. by rewrite branch_by_ref_elem. Qed.

(** The graph does not depend on the order of the branches. *)
Lemma branch_by_ref_Permutation bs1 bs2 r :
  NoDup (refs bs1) → Permutation bs1 bs2 → branch_by_ref bs1 r = branch_by_ref bs2 r.
Proof.
  intros Hnd HP. destruct (branch_by_ref bs1 r) as [b|] eqn:E.
  - apply branch_by_ref_Some in E as [Hb <-]. symmetry. apply branch_by_ref_elem.
    + unfold refs in *. by rewrite <- HP.
    + by rewrite <- HP.
  - destruct (branch_by_ref bs2 r) as [b|] eqn:E2; [|done].
    apply branch_by_ref_Some in E2 as [Hb <-]. rewrite <- HP in Hb.
    by rewrite (branch_by_ref_elem _ _ Hnd Hb) in E.
Qed.

Lemma dependencies_of_Permutation bs1 bs2 r :
  NoDup (refs bs1) → Permutation bs1 bs2 → dependencies_of bs1 r = dependencies_of bs2 r.
Proof. intros. unfold dependencies_of. by rewrite (branch_by_ref_Permutation bs1 bs2). Qed.

Lemma depends_Permutation bs1 bs2 a d :
  NoDup (refs bs1) → Permutation bs1 bs2 → depends bs2 a d → depends bs1 a d.
Proof. intros. unfold depends. by rewrite (dependencies_of_Permutation bs1 bs2). Qed.

Lemma tc_impl {A} (R1 R2 : A → A → Prop) x y : (∀ a b, R1 a b → R2 a b) → tc R1 x y → tc R2 x y.
Proof. intros Hi. induction 1; [by apply tc_once; auto | eapply tc_l; eauto]. Qed.

Lemma ranked_acyclic branches :
  NoDup (refs branches) → ranked branches → ∀ x, ¬ tc (depends branches) x x.
Proof.
  intros Hnd [rank Hrank] x Hx.
  assert (∀ a b, tc (depends branches) a b → rank b < rank a) as Hlt; [|apply Hlt in Hx; lia].
  assert (∀ a b, depends branches a b → rank b < rank a) as Hstep.
  { intros a b Hab. pose proof (deps_in_refs _ _ _ Hab) as Ha.
    apply list_elem_of_fmap in Ha as (c & -> & Hc).
    unfold depends in Hab. rewrite dependencies_of_branch in Hab by done. by apply Hrank. }
  induction 1 as [a b Hab | a b c Hab _ IH]; [auto|]. apply Hstep in Hab. lia.
Qed.

Lemma assertAcyclic_Ok branches :
  NoDup (refs branches) → assertAcyclic branches = Ok tt →
  dependencies_known branches ∧ ranked branches.
Proof.
  intros Hnd. unfold assertAcyclic. intros ([] & Hk & H)%bind_Ok.
  apply bind_Ok in H as (visited & H & _).
  apply visit_each_topological in H as (Ht & _ & Hr); [|constructor].
  split; [by apply checkDependenciesKnown_Ok|].
  apply topological_rank in Ht as [rank Hrank]. exists rank. intros b d Hb Hd.
  eapply Hrank; [apply Hr; by apply list_elem_of_fmap_2|]. by rewrite dependencies_of_branch.
Qed.

Lemma assertAcyclic_no_fuel branches : assertAcyclic branches ≠ Err OutOfFuel.
Proof.
  unfold assertAcyclic. intros [H | (? & _ & H)]%bind_Err.
  { by apply checkDependenciesKnown_Err in H as [p ?]. }
  apply bind_Err in H as [H | (? & _ & H)]; [|done].
  apply visit_each_err in H as (visited & r & H). revert H.
  apply visit_fuel; [constructor | set_solver | simpl; lia].
Qed.

Lemma assertAcyclic_iff branches :
  NoDup (refs branches) →
  assertAcyclic branches = Ok tt
    ↔ dependencies_known branches ∧ ∀ x, ¬ tc (depends branches) x x.
Proof.
  intros Hnd. split.
  - intros H. apply assertAcyclic_Ok in H as [Hk Hr]; [|done]. split; [done|].
    by apply ranked_acyclic.
  - intros [Hk Hacy]. pose proof (assertAcyclic_no_fuel branches) as Hfuel. unfold assertAcyclic in *.
    rewrite (proj2 (checkDependenciesKnown_Ok branches) Hk) in *. cbn [bind] in *.
    destruct (visit_each _ _ _ _ _) as [v|e] eqn:E; [done|]. exfalso.
    apply visit_each_err in E as (visited & r & E).
    destruct (visit_err_kind _ _ _ _ _ _ E) as [->| ->]; [done|].
    apply visit_cycle in E as [x Hx]; [by eapply Hacy|]. by intros v ?%not_elem_of_nil.
Qed.

(** C39: [assertAcyclic] decides acyclicity and always terminates: on branches with distinct
    references it returns exactly when every dependency is a branch of the plan and no branch
    reaches itself through dependencies; otherwise it throws the matching contract error, and
    its recursion never exceeds one level per branch. *)
Theorem assertAcyclic_decides branches :
  NoDup (refs branches) →
  (assertAcyclic branches = Ok tt
     ↔ dependencies_known branches ∧ ∀ x, ¬ tc (depends branches) x x)
  ∧ (∀ e, assertAcyclic branches = Err e →
       (∃ p, e = ContractValidationError p "unknown_dependency")
       ∨ e = ContractValidationError "plan.branches" "dependency_cycle").
Proof.
  intros Hnd. split; [by apply assertAcyclic_iff|]. intros e He.
  pose proof (assertAcyclic_no_fuel branches) as Hfuel. unfold assertAcyclic in *.
  pose proof He as H. apply bind_Err in H as [H | (? & _ & H)].
  { left. by eapply checkDependenciesKnown_Err. }
  apply bind_Err in H as [H | (? & _ & H)]; [|done].
  apply visit_each_err in H as (visited & r & H).
  destruct (visit_err_kind _ _ _ _ _ _ H) as [->| ->]; [done | by right].
Qed.

(** A witness: a diamond is accepted, its dependencies being acyclic. *)
Definition sample_branch (ref : string) (deps : list string) (role : BranchRole) : PlanBranch :=
  let r := {| cr_id := ref; cr_hash := "" |} in
  {| pb_branch_ref := ref; pb_task_intent_ref := r; pb_execution_plan_ref := r;
     pb_context_pack_ref := r; pb_dependencies := deps; pb_role := role;
     pb_parallelizable := false; pb_isolation := IsoReadOnly; pb_assignee_ref := "worker";
     pb_provider_ref := "codex"; pb_permission_mode := PermReadOnly |}.

Definition diamond : list PlanBranch :=
  [sample_branch "a" [] RoleWork; sample_branch "b" ["a"] RoleWork;
   sample_branch "c" ["a"] RoleWork; sample_branch "d" ["b"; "c"] RoleIntegration].

Lemma assertAcyclic_decides_witness :
  NoDup (refs diamond) ∧ dependencies_known diamond ∧ ∀ x, ¬ tc (depends diamond) x x.
Proof.
  assert (NoDup (refs diamond)) as Hnd by (apply (bool_decide_eq_true_1 _); vm_compute; reflexivity).
  split; [exact Hnd|]. apply (proj1 (proj1 (assertAcyclic_decides diamond Hnd))). reflexivity.
Defined.

(** ** The integration branch *)

Section Reach.
Context (branches : list PlanBranch).
Local Abbreviation deps := (dependencies_of branches).

(** The dependencies of the branches not expanded yet. *)
Definition pending (reachable : list string) (bs : list PlanBranch) : list string :=
  concat (map pb_dependencies (filter (λ b, pb_branch_ref b ∉ reachable) bs)).

Lemma pending_mono x reachable bs :
  length (pending (x :: reachable) bs) ≤ length (pending reachable bs).
Proof.
  unfold pending. induction bs as [|b bs IH]; [done|]. rewrite !filter_cons.
  destruct (decide (pb_branch_ref b ∉ x :: reachable)), (decide (pb_branch_ref b ∉ reachable));
    simpl; rewrite ?length_app; set_solver by lia.
Qed.

Lemma pending_expand x reachable :
  x ∉ reachable →
  length (deps x) + length (pending (x :: reachable) branches)
    ≤ length (pending reachable branches).
Proof.
  intros Hx. unfold dependencies_of. induction branches as [|b bs IH]; simpl; [lia|].
  destruct (String.eqb (pb_branch_ref b) x) eqn:E.
  - apply String.eqb_eq in E. unfold pending. rewrite !filter_cons.
    rewrite decide_False by set_solver. rewrite decide_True by (rewrite E; done).
    simpl. rewrite length_app. pose proof (pending_mono x reachable bs). unfold pending in *. lia.
  - apply String.eqb_neq in E. unfold pending in *. rewrite !filter_cons.
    destruct (decide (pb_branch_ref b ∉ reachable)).
    + rewrite decide_True by set_solver. simpl. rewrite !length_app. lia.
    + rewrite decide_False by set_solver. done.
Qed.

(** Enough fuel gives a result. *)
Lemma reach_total fuel reachable stack :
  length stack + length (pending reachable branches) ≤ fuel →
  ∃ r, reach fuel branches reachable stack = Ok r.
Proof.
  revert reachable stack. induction fuel as [|fuel IH]; intros reachable [|d stack] Hf; simpl in *;
    try (by eexists); try lia.
  destruct (includes reachable d) eqn:E.
  - apply IH. lia.
  - apply includes_false in E. apply IH. pose proof (pending_expand _ _ E).
    rewrite length_app, length_rev. lia.
Qed.

Lemma reach_sound fuel start reachable stack r :
  reach fuel branches reachable stack = Ok r →
  (∀ x, x ∈ reachable ∨ x ∈ stack → tc (depends branches) start x) →
  ∀ x, x ∈ r → tc (depends branches) start x.
Proof.
  revert reachable stack. induction fuel as [|fuel IH]; intros reachable [|d stack] H Hst; simpl in H;
    try done; try (injection H as <-; naive_solver).
  destruct (includes reachable d); eapply IH; try exact H.
  - intros x Hx. apply Hst. set_solver.
  - intros x. assert (tc (depends branches) start d) as Hd by (apply Hst; right; left).
    rewrite elem_of_cons, elem_of_app, elem_of_rev.
    intros [[->|?]|[?|?]]; [done | auto | by eapply tc_r | apply Hst; right; by right].
Qed.

Lemma reach_complete fuel reachable stack r :
  reach fuel branches reachable stack = Ok r →
  (∀ x d, x ∈ reachable → d ∈ deps x → d ∈ reachable ∨ d ∈ stack) →
  (∀ x, x ∈ reachable ∨ x ∈ stack → x ∈ r) ∧ (∀ x d, x ∈ r → d ∈ deps x → d ∈ r).
Proof.
  revert reachable stack. induction fuel as [|fuel IH]; intros reachable [|s stack] H Hcl; simpl in H;
    try done;
    try (injection H as <-; split; [set_solver | intros x d Hx Hd; destruct (Hcl x d Hx Hd); set_solver]).
  destruct (includes reachable s) eqn:E; apply IH in H as [Hin Hc].
  - apply includes_true in E. set_solver.
  - apply includes_true in E. intros x d Hx Hd. destruct (Hcl x d Hx Hd); set_solver.
  - split; [|done]. intros x Hx. apply Hin. rewrite elem_of_cons, elem_of_app. set_solver.
  - intros x d. rewrite elem_of_cons, elem_of_cons, elem_of_app, elem_of_rev.
    intros [->|Hx] Hd; [auto|]. destruct (Hcl x d Hx Hd) as [|[->|]%elem_of_cons]; auto.
Qed.

(** The loop of [validateIntegration] computes the branches reached from [start]. *)
Lemma reach_spec start :
  ∃ r, reach (reach_turns branches) branches [] (rev (deps start)) = Ok r
    ∧ ∀ x, x ∈ r ↔ tc (depends branches) start x.
Proof.
  destruct (reach_total (reach_turns branches) [] (rev (deps start))) as [r Hr].
  { rewrite length_rev. unfold reach_turns.
    pose proof (pending_expand start [] ltac:(apply not_elem_of_nil)).
    assert (pending [] branches = concat (map pb_dependencies branches)) as <-; [|lia].
    unfold pending. f_equal. f_equal. clear. induction branches as [|b bs IH]; [done|].
    rewrite filter_cons_True by apply not_elem_of_nil. by rewrite IH. }
  exists r. split; [done|]. intros x. split.
  - eapply reach_sound; [exact Hr|]. intros y [?%not_elem_of_nil|Hy]; [done|].
    rewrite elem_of_rev in Hy. by apply tc_once.
  - apply reach_complete in Hr as [Hin Hc]; [|by intros ? ? ?%not_elem_of_nil].
    assert (∀ a, (∀ d, d ∈ deps a → d ∈ r) → tc (depends branches) a x → x ∈ r) as Hgo.
    { intros a Ha Hax. revert Ha. induction Hax as [a b Hab | a b c Hab _ IH]; intros Ha; auto.
      apply IH. intros d. apply Hc, Ha, Hab. }
    apply Hgo. intros d Hd. apply Hin. right. by apply elem_of_rev.
Qed.
End Reach.

(** What a plan promises about its integration branch: without one no branch has the role; with
    one it is the only branch of that role, no other branch depends on it, and it depends,
    directly or not, on every work branch. *)
Definition integration_ok (branches : list PlanBranch) (o : option string) : Prop :=
  match o with
  | None => ∀ b, b ∈ branches → pb_role b ≠ RoleIntegration
  | Some ref =>
      (∃ b, filter (λ b, pb_role b = RoleIntegration) branches = [b] ∧ pb_branch_ref b = ref)
      ∧ (∀ b, b ∈ branches → pb_branch_ref b ≠ ref → ref ∉ pb_dependencies b)
      ∧ (∀ b, b ∈ branches → pb_role b = RoleWork → tc (depends branches) ref (pb_branch_ref b))
  end.

Lemma filter_nil_iff {A} (P : A → Prop) `{∀ x, Decision (P x)} l :
  filter P l = [] ↔ ∀ x, x ∈ l → ¬ P x.
Proof.
  split.
  - intros Hf x Hx HP. assert (x ∈ filter P l) as Hin by (apply list_elem_of_filter; done).
    rewrite Hf in Hin. by apply not_elem_of_nil in Hin.
  - intros Hn. destruct (filter P l) as [|x l'] eqn:E; [done|].
    assert (x ∈ filter P l) as [? ?]%list_elem_of_filter by (rewrite E; left). by destruct (Hn x).
Qed.

Lemma integration_terminal_check branches ref :
  forR (λ branch,
    if negb (String.eqb (pb_branch_ref branch) ref) && includes (pb_dependencies branch) ref
    then invalid ("plan.branches." +:+ pb_branch_ref branch +:+ ".dependencies")
           "integration_terminal"
    else Ok tt) branches = Ok tt
  ↔ ∀ b, b ∈ branches → pb_branch_ref b ≠ ref → ref ∉ pb_dependencies b.
Proof.
  rewrite forR_Ok, Forall_forall. split; intros H b Hb; specialize (H b Hb).
  - intros Hne Hin%includes_true. rewrite Hin in H. apply String.eqb_neq in Hne.
    by rewrite Hne in H.
  - destruct (String.eqb _ _) eqn:E; [done|]. apply String.eqb_neq in E. simpl.
    by rewrite (proj2 (includes_false _ _) (H E)).
Qed.

Lemma validateIntegration_iff branches o :
  (validateIntegration branches o = Ok tt ↔ integration_ok branches o)
  ∧ validateIntegration branches o ≠ Err OutOfFuel.
Proof.
  unfold validateIntegration, integration_ok. destruct o as [ref|].
  - destruct (filter (λ b, pb_role b = RoleIntegration) branches) as [|b [|c l]].
    1, 3: split; [|done]; split; [done|]; by intros [(? & ? & _) _].
    destruct (reach_spec branches ref) as (r & -> & Hr).
    destruct (String.eqb (pb_branch_ref b) ref) eqn:E; simpl.
    + apply String.eqb_eq in E. rewrite bind_Ok.
      assert (∀ l : list PlanBranch, match l with [] => Ok tt
        | _ => invalid "plan.integration_branch_ref" "integration_coverage" end = Ok tt ↔ l = [])
        as Hl by (intros []; done).
      split.
      * split.
        -- intros ([] & Ht & Hf). pose proof (proj1 (integration_terminal_check branches ref) Ht) as Ht'.
           rewrite Hl, filter_nil_iff in Hf. split_and!; [eauto | done |].
           intros c Hc Hw. apply Hr, dec_stable. intros Hn. by apply (Hf c).
        -- intros (_ & Ht & Hw). exists tt. split; [by apply integration_terminal_check|].
           rewrite Hl, filter_nil_iff.
           intros c Hc [Hw' Hn]. apply Hn, Hr. auto.
      * intros [H | (? & _ & H)]%bind_Err; [|destruct (filter _ _); discriminate].
        revert H. clear. induction branches as [|c bs IH]; simpl; [done|].
        intros [H | (? & _ & H)]%bind_Err; [repeat case_match; discriminate | auto].
    + apply String.eqb_neq in E. split; [|done]. split; [done|]. by intros [(? & [= ->] & ?) _].
  - split; [|destruct (filter _ _); done].
    rewrite <- (filter_nil_iff (λ b, pb_role b = RoleIntegration)).
    destruct (filter _ _); split; done.
Qed.

(** [validateIntegration] decides the integration contract, whatever the order of the
    branches, and its reachability loop terminates: it accepts exactly when [integration_ok]
    holds, and it always returns or throws a contract error. *)
Theorem validateIntegration_decides branches o :
  (validateIntegration branches o = Ok tt ↔ integration_ok branches o)
  ∧ validateIntegration branches o ≠ Err OutOfFuel.
Proof. apply validateIntegration_iff. Qed.

Lemma assertAcyclic_Permutation bs1 bs2 :
  NoDup (refs bs1) → Permutation bs1 bs2 → assertAcyclic bs1 = Ok tt → assertAcyclic bs2 = Ok tt.
Proof.
  intros Hnd HP. assert (NoDup (refs bs2)) as Hnd2 by (unfold refs in *; by rewrite <- HP).
  rewrite !assertAcyclic_iff by done. intros [Hk Ha]. split.
  - intros b d Hb Hd. unfold refs. rewrite <- HP in *. by eapply Hk.
  - intros x Hx. apply (Ha x). revert Hx. apply tc_impl. intros a b. by apply depends_Permutation.
Qed.

Lemma validateIntegration_Permutation bs1 bs2 o :
  NoDup (refs bs1) → Permutation bs1 bs2 →
  validateIntegration bs1 o = Ok tt → validateIntegration bs2 o = Ok tt.
Proof.
  intros Hnd HP. rewrite !(proj1 (validateIntegration_iff _ _)). unfold integration_ok.
  assert (NoDup (refs bs2)) as Hnd2 by (unfold refs in *; by rewrite <- HP).
  destruct o as [ref|].
  - intros ((b & Hf & Hb) & Ht & Hw). split_and!.
    + exists b. split; [|done]. apply Permutation_singleton_r. by rewrite <- Hf, HP.
    + intros c. rewrite <- HP. auto.
    + intros c Hc Hr. eapply tc_impl; [|apply Hw; [by rewrite HP|done]].
      intros x y. by apply depends_Permutation.
  - intros H b. rewrite <- HP. auto.
Qed.
