(* ===== verification/PlanProps.v ===== *)
(** The plan contract's guarantees: what [normalizeBusinessWorkOrderPlanV1] accepts is well
    formed, content addressed, and normalising it again changes nothing. *)

From Stdlib Require Import ZArith Lia String Permutation.
From stdpp Require Import base tactics list strings option relations.
From S2P Require Import Prelude JsString Json ContractBase PlanContract PlanGraph.
Import CONTRACT_LIMITS.

#[local] Arguments isort : simpl never.
#[local] Arguments enum_json : simpl never.
#[local] Arguments enum_all : simpl never.
#[local] Arguments includes : simpl never.
#[local] Arguments checkSuppliedIdentity : simpl never.
#[local] Arguments index_path : simpl never.

Lemma normalizeVerificationRequirement_stable :
  stable normalizeVerificationRequirement verification_requirement_json.
Proof.
  intros p p' v r. unfold normalizeVerificationRequirement. intros H. res_inv H. subst.
  unfold verification_requirement_json. rewrite assertExactFields_JObj by reflexivity. simpl.
  by renorm.
Qed.

Lemma requirement_leb_total l r : requirement_leb l r = true ∨ requirement_leb r l = true.
Proof.
  unfold requirement_leb. rewrite (String.eqb_sym (requirement_id r)).
  destruct (String.eqb _ _); auto with orquesta.
Qed.

Lemma requirement_leb_trans x y z :
  requirement_leb x y = true → requirement_leb y z = true → requirement_leb x z = true.
Proof.
  unfold requirement_leb.
  destruct (String.eqb_spec (requirement_id x) (requirement_id y)) as [E1|E1],
    (String.eqb_spec (requirement_id y) (requirement_id z)) as [E2|E2],
    (String.eqb_spec (requirement_id x) (requirement_id z)) as [E3|E3];
    try congruence; intros H1 H2; try (by eapply text_leb_trans); try (by rewrite ?E1, <- ?E2).
  destruct E1. apply text_leb_antisym; congruence.
Qed.

Lemma mode_valid_Permutation m l1 l2 :
  Permutation l1 l2 → mode_valid m l1 = mode_valid m l2.
Proof.
  intros HP. unfold mode_valid. by rewrite !HP.
Qed.

Lemma normalizeVerificationRequirements_stable m p p' v l :
  normalizeVerificationRequirements v p m = Ok l →
  normalizeVerificationRequirements (JArr (map verification_requirement_json l)) p' m = Ok l.
Proof.
  unfold normalizeVerificationRequirements. intros H. res_inv H. subst.
  rewrite (assertArray_isort_map _ _ _ _ _ _ _ _ _ _ _ E E0). cbn [bind].
  destruct (sorted_entries_stable _ _ _ _ (index_path p') _ _ requirement_leb_total
    requirement_leb_trans normalizeVerificationRequirement_stable E0) as [-> Hs]. cbn [bind].
  apply (assertUnique_map_isort requirement_leb) in E1.
  rewrite (proj2 (assertUnique_Ok _ p' tt) (proj1 (assertUnique_Ok _ _ _) E1)). cbn [bind].
  rewrite (mode_valid_Permutation _ _ _ (isort_Permutation requirement_leb v1)), B. by rewrite Hs.
Qed.

Lemma normalizeAcceptanceCriterion_stable :
  stable normalizeAcceptanceCriterion acceptance_criterion_json.
Proof.
  intros p p' v c. unfold normalizeAcceptanceCriterion. intros H. res_inv H. subst.
  unfold acceptance_criterion_json. rewrite assertExactFields_JObj by reflexivity. simpl.
  renorm.
  by rewrite (normalizeVerificationRequirements_stable _ _ (p' +:+ ".verification_requirements") _ _ E3).
Qed.

Lemma criterion_leb_total l r : criterion_leb l r = true ∨ criterion_leb r l = true.
Proof. apply text_leb_total. Qed.

Lemma criterion_leb_trans x y z :
  criterion_leb x y = true → criterion_leb y z = true → criterion_leb x z = true.
Proof. apply text_leb_trans. Qed.

Lemma normalizeAcceptancePolicy_stable v a :
  normalizeAcceptancePolicy v = Ok a → normalizeAcceptancePolicy (acceptance_policy_json a) = Ok a.
Proof.
  unfold normalizeAcceptancePolicy. intros H. res_inv H. subst.
  unfold acceptance_policy_json. rewrite assertExactFields_JObj by reflexivity. simpl.
  rewrite (assertArray_isort_map _ _ _ _ _ _ _ _ _ _ _ E0 E1). cbn [bind].
  destruct (sorted_entries_stable _ _ _ _ (index_path "plan.acceptance_policy.criteria") _ _
    criterion_leb_total criterion_leb_trans normalizeAcceptanceCriterion_stable E1) as [-> Hs].
  cbn [bind]. rewrite (assertUnique_map_isort criterion_leb _ _ _ _ E2). renorm. by rewrite Hs.
Qed.

Lemma normalizeRetryableObservation_stable :
  stable normalizeRetryableObservation enum_json.
Proof. by intros p p' v []. Qed.

Lemma normalizeRetryPolicy_stable v r :
  normalizeRetryPolicy v = Ok r → normalizeRetryPolicy (retry_policy_json r) = Ok r.
Proof.
  unfold normalizeRetryPolicy. intros H. res_inv H. subst.
  unfold retry_policy_json. rewrite assertExactFields_JObj by reflexivity. simpl.
  rewrite (assertArray_isort_map _ _ _ _ _ _ _ _ _ _ _ E0 E1). cbn [bind].
  destruct (sorted_entries_stable _ _ observation_leb _ (index_path "plan.retry_policy.retryable_observations") _ _
    (λ _ _, text_leb_total _ _) (λ _ _ _, text_leb_trans _ _ _)
    normalizeRetryableObservation_stable E1) as [-> Hs].
  cbn [bind]. rewrite (assertUnique_map_isort _ _ _ _ _ E2). renorm. by rewrite Hs.
Qed.

Lemma normalizeLeasePolicy_stable v r :
  normalizeLeasePolicy v = Ok r → normalizeLeasePolicy (lease_policy_json r) = Ok r.
Proof.
  unfold normalizeLeasePolicy. intros H. res_inv H. subst.
  unfold lease_policy_json. rewrite assertExactFields_JObj by reflexivity. simpl. by renorm.
Qed.

Lemma normalizeProviderPolicy_stable v r :
  normalizeProviderPolicy v = Ok r → normalizeProviderPolicy (provider_policy_json r) = Ok r.
Proof.
  unfold normalizeProviderPolicy. intros H. res_inv H. subst.
  unfold provider_policy_json. rewrite assertExactFields_JObj by reflexivity. simpl. by renorm.
Qed.

Lemma normalizeBranch_stable : stable normalizeBranch plan_branch_json.
Proof.
  intros p p' v b. unfold normalizeBranch. intros H. res_inv H. subst.
  unfold plan_branch_json, plan_branch_fields. rewrite assertExactFields_JObj by reflexivity. simpl.
  by renorm.
Qed.

(** ** The checks over all branches do not depend on their order *)

Lemma branch_leb_total l r : branch_leb l r = true ∨ branch_leb r l = true.
Proof. apply text_leb_total. Qed.

Lemma branch_leb_trans x y z :
  branch_leb x y = true → branch_leb y z = true → branch_leb x z = true.
Proof. apply text_leb_trans. Qed.

Lemma assertPlanContentRefIdsUnique_Permutation root bs1 bs2 a u :
  Permutation bs1 bs2 →
  assertPlanContentRefIdsUnique root bs1 a = Ok u → assertPlanContentRefIdsUnique root bs2 a = Ok u.
Proof.
  intros HP. unfold assertPlanContentRefIdsUnique.
  rewrite (has_duplicates_Permutation (map cr_id (plan_content_refs root bs1 a))
    (map cr_id (plan_content_refs root bs2 a))); [done|].
  apply Permutation_map. unfold plan_content_refs. by rewrite HP.
Qed.

Lemma forR_Permutation {A} (f : A → res unit) l1 l2 u :
  Permutation l1 l2 → forR f l1 = Ok u → forR f l2 = Ok u.
Proof. destruct u. intros HP. rewrite !forR_Ok. by rewrite HP. Qed.

Lemma checkBranchPolicies_Permutation pp pm bs1 bs2 u :
  Permutation bs1 bs2 → checkBranchPolicies pp pm bs1 = Ok u → checkBranchPolicies pp pm bs2 = Ok u.
Proof. apply forR_Permutation. Qed.

Lemma work_branches_isort bs : length (work_branches (isort branch_leb bs)) = length (work_branches bs).
Proof. unfold work_branches. by rewrite isort_Permutation. Qed.

Lemma checkSuppliedIdentity_same v path pat s u :
  pat s = true → v = JStr s → checkSuppliedIdentity v path pat s = Ok u.
Proof.
  intros Hp ->. destruct u. unfold checkSuppliedIdentity, assertPattern. rewrite Hp. simpl.
  by rewrite String.eqb_refl.
Qed.

Lemma checkSuppliedIdentity_Ok v path pat s u :
  checkSuppliedIdentity v path pat s = Ok u → v ∈ [JUndef; JStr s].
Proof.
  unfold checkSuppliedIdentity, assertPattern. destruct v as [| | | | | |t| | |]; try done.
  - left.
  - intros H. res_inv H. res_inv E. subst. apply String.eqb_eq in B as ->. right. left.
Qed.

Lemma nullable_stable {A} (f : json → res A) (enc : A → json) v o :
  (∀ a, f v = Ok a → f (enc a) = Ok a ∧ is_null (enc a) = false) →
  nullable f v = Ok o → nullable f (opt_json enc o) = Ok o.
Proof.
  intros Hf. unfold nullable. destruct (is_null v).
  - by intros [= <-].
  - intros (a & Ha & [= <-])%bind_Ok. simpl. destruct (Hf a Ha) as [Hs ->]. by rewrite Hs.
Qed.

(** ** Well-formed plans *)

Record branch_wf (b : PlanBranch) : Prop := {
  bw_dependencies : NoDup (pb_dependencies b) ∧ sort_text (pb_dependencies b) = pb_dependencies b;
  bw_no_self : pb_branch_ref b ∉ pb_dependencies b;
  bw_integration_serial : pb_role b = RoleIntegration → pb_parallelizable b = false;
  bw_read_only : pb_isolation b = IsoReadOnly → pb_permission_mode b = PermReadOnly;
  bw_parallel_writer : pb_parallelizable b = true → pb_permission_mode b = PermWorkspaceWrite →
    pb_isolation b ∈ [IsoWorktree; IsoSandbox; IsoRemote];
}.

Lemma normalizeBranch_wf v p b : normalizeBranch v p = Ok b → branch_wf b.
Proof.
  unfold normalizeBranch. intros H. res_inv H. subst.
  apply normalizeUniqueRefs_Ok in E4 as (? & ? & _ & _). split; simpl; try done.
  - by apply includes_false.
  - intros ->. by simpl in B0.
  - intros ->. simpl in B1. by split_bools.
  - intros -> ->. simpl in B2. by split_bools.
Qed.

Record retry_policy_wf (r : RetryPolicy) : Prop := {
  rw_attempts : (1 <= rp_max_attempts r <= 5)%Z;
  rw_timeout : (1000 <= rp_attempt_timeout_ms r <= rp_max_elapsed_ms r)%Z;
  rw_elapsed : (rp_max_elapsed_ms r <= 604800000)%Z;
  rw_backoff : (0 <= rp_backoff_initial_ms r <= rp_backoff_max_ms r)%Z;
  rw_backoff_max : (rp_backoff_max_ms r <= 86400000)%Z;
}.

Lemma normalizeRetryPolicy_wf v r : normalizeRetryPolicy v = Ok r → retry_policy_wf r.
Proof.
  unfold normalizeRetryPolicy. intros H. res_inv H. subst.
  apply assertInteger_Ok in E3 as [_ ?], E4 as [_ ?], E5 as [_ ?], E6 as [_ ?], E7 as [_ ?].
  split_bools. split; simpl; lia.
Qed.

Record lease_policy_wf (l : LeasePolicy) : Prop := {
  lw_heartbeat : (1000 <= lp_heartbeat_interval_ms l < lp_lease_duration_ms l)%Z;
  lw_duration : (lp_lease_duration_ms l <= 3600000)%Z;
  lw_probes : (1 <= lp_max_recovery_probes l <= 20)%Z;
}.

Lemma normalizeLeasePolicy_wf v l : normalizeLeasePolicy v = Ok l → lease_policy_wf l.
Proof.
  unfold normalizeLeasePolicy. intros H. res_inv H. subst.
  apply assertInteger_Ok in E0 as [_ ?], E1 as [_ ?], E2 as [_ ?].
  split_bools. split; simpl; lia.
Qed.

Definition provider_policy_wf (p : ProviderPolicy) : Prop :=
  NoDup (pp_allowed_provider_refs p)
  ∧ match pp_selection p with
    | SelFixed => length (pp_allowed_provider_refs p) = 1
    | SelFallbackAllowed => 2 ≤ length (pp_allowed_provider_refs p)
    end.

Lemma normalizeProviderPolicy_wf v p : normalizeProviderPolicy v = Ok p → provider_policy_wf p.
Proof.
  unfold normalizeProviderPolicy. intros H. res_inv H. subst.
  apply normalizeUniqueRefs_Ok in E0 as (? & _ & _ & _). split; [done|]. simpl.
  destruct v2; simpl in *; split_bools.
  - by apply Nat.eqb_eq.
  - by apply Nat.ltb_ge.
Qed.

(** What every accepted plan satisfies. *)
Record plan_wf (p : PlanContent) : Prop := {
  pw_branch : Forall branch_wf (pl_branches p);
  pw_refs : NoDup (refs (pl_branches p)) ∧ ordered branch_leb (pl_branches p);
  pw_size : (1 <= Z.of_nat (length (pl_branches p)) <= max_branches)%Z;
  pw_known : dependencies_known (pl_branches p);
  pw_acyclic : ∀ x, ¬ tc (depends (pl_branches p)) x x;
  pw_integration : integration_ok (pl_branches p) (pl_integration_branch_ref p);
  pw_integration_required :
    2 ≤ length (work_branches (pl_branches p)) → pl_integration_branch_ref p ≠ None;
  pw_concurrency :
    (1 <= pl_max_concurrency p <= Z.of_nat (length (work_branches (pl_branches p))))%Z;
  pw_providers : ∀ b, b ∈ pl_branches p →
    pb_provider_ref b ∈ pp_allowed_provider_refs (pl_provider_policy p);
  pw_permissions : ∀ b, b ∈ pl_branches p →
    (permissionRank (pb_permission_mode b) <= permissionRank (pl_permission_mode p))%Z;
  pw_content_refs : NoDup (map cr_id (plan_content_refs
    [pl_task_intent_ref p; pl_execution_plan_ref p; pl_context_pack_ref p]
    (pl_branches p) (pl_acceptance_policy p)));
  pw_revision : (1 <= pl_revision p)%Z
    ∧ ((pl_revision p = 1)%Z ↔ pl_supersedes_plan_ref p = None);
  pw_retry : retry_policy_wf (pl_retry_policy p);
  pw_lease : lease_policy_wf (pl_lease_policy p);
  pw_provider_policy : provider_policy_wf (pl_provider_policy p);
}.

Lemma checkBranchPolicies_Ok pp pm bs u :
  checkBranchPolicies pp pm bs = Ok u → ∀ b, b ∈ bs →
    pb_provider_ref b ∈ pp_allowed_provider_refs pp
    ∧ (permissionRank (pb_permission_mode b) <= permissionRank pm)%Z.
Proof.
  destruct u. unfold checkBranchPolicies. rewrite forR_Ok, Forall_forall. intros H b Hb.
  specialize (H b Hb). res_inv H. split_bools. by apply includes_true in B.
Qed.

(** ** Only contract errors *)

Lemma contract_only_assertAcyclic bs : contract_only (assertAcyclic bs).
Proof.
  intros e He. pose proof (assertAcyclic_no_fuel bs) as Hfuel. unfold assertAcyclic in *.
  pose proof He as H. apply bind_Err in H as [H | (? & _ & H)].
  { apply checkDependenciesKnown_Err in H as [p ->]. eauto. }
  apply bind_Err in H as [H | (? & _ & H)]; [|done].
  apply visit_each_err in H as (visited & r & H).
  destruct (visit_err_kind _ _ _ _ _ _ H) as [->| ->]; [done | eauto].
Qed.

Lemma contract_only_validateIntegration bs o : contract_only (validateIntegration bs o).
Proof.
  unfold validateIntegration. destruct o as [ref|]; [|contract_tac].
  destruct (filter _ bs) as [|b [|c l]]; [contract_tac| |contract_tac].
  destruct (reach_spec bs ref) as (r & -> & _). contract_tac.
Qed.

#[export] Hint Resolve contract_only_assertAcyclic contract_only_validateIntegration : contract.

Lemma contract_only_verificationRequirements v p m :
  contract_only (normalizeVerificationRequirements v p m).
Proof. unfold normalizeVerificationRequirements, normalizeVerificationRequirement. contract_tac. Qed.
#[export] Hint Resolve contract_only_verificationRequirements : contract.

Lemma contract_only_acceptancePolicy v : contract_only (normalizeAcceptancePolicy v).
Proof. unfold normalizeAcceptancePolicy, normalizeAcceptanceCriterion. contract_tac. Qed.

Lemma contract_only_retryableObservation v p : contract_only (normalizeRetryableObservation v p).
Proof. unfold normalizeRetryableObservation. contract_tac. Qed.
#[export] Hint Resolve contract_only_retryableObservation : contract.

Lemma contract_only_retryPolicy v : contract_only (normalizeRetryPolicy v).
Proof. unfold normalizeRetryPolicy. contract_tac. Qed.

Lemma contract_only_leasePolicy v : contract_only (normalizeLeasePolicy v).
Proof. unfold normalizeLeasePolicy. contract_tac. Qed.

Lemma contract_only_providerPolicy v : contract_only (normalizeProviderPolicy v).
Proof. unfold normalizeProviderPolicy. contract_tac. Qed.

Lemma contract_only_branch v p : contract_only (normalizeBranch v p).
Proof. unfold normalizeBranch. contract_tac. Qed.

Lemma contract_only_contentRefIds rs bs a : contract_only (assertPlanContentRefIdsUnique rs bs a).
Proof. unfold assertPlanContentRefIdsUnique. contract_tac. Qed.

Lemma contract_only_branchPolicies pp pm bs : contract_only (checkBranchPolicies pp pm bs).
Proof. unfold checkBranchPolicies. contract_tac. Qed.

Lemma contract_only_suppliedIdentity v p pat s : contract_only (checkSuppliedIdentity v p pat s).
Proof. unfold checkSuppliedIdentity. destruct v; contract_tac. Qed.

Lemma contract_only_nullable {A} (f : json → res A) v :
  (∀ v, contract_only (f v)) → contract_only (nullable f v).
Proof. intros Hf. unfold nullable. contract_tac. Qed.

#[export] Hint Resolve contract_only_acceptancePolicy contract_only_retryPolicy
  contract_only_leasePolicy contract_only_providerPolicy contract_only_branch
  contract_only_contentRefIds contract_only_branchPolicies contract_only_suppliedIdentity
  contract_only_nullable : contract.

Lemma plain_opt_str o : plain (opt_json JStr o) = true.
Proof. by destruct o. Qed.

Lemma plain_requirement r : plain (verification_requirement_json r) = true.
Proof. done. Qed.

Lemma plain_criterion c : plain (acceptance_criterion_json c) = true.
Proof. simpl. by rewrite (plain_map verification_requirement_json). Qed.

Lemma plain_branch b : plain (plan_branch_json b) = true.
Proof. simpl. by rewrite (plain_map JStr). Qed.

Lemma plain_plan_content c : plain (JObj (plan_content_fields c)) = true.
Proof.
  simpl. rewrite !plain_opt_str, (plain_map acceptance_criterion_json) by apply plain_criterion.
  rewrite (plain_map plan_branch_json) by apply plain_branch.
  by rewrite (plain_map JStr), (plain_map (enum_json (A := RetryableObservation))).
Qed.

Section PlanProps.
Context `{Sha256Laws}.

Lemma plan_identity_Ok content p :
  plan_identity content = Ok p →
  pl_content p = content ∧ canonicalHash (JObj (plan_content_fields content)) = Ok (pl_plan_hash p)
  ∧ pl_plan_snapshot_id p = "BPS-" +:+ slice0 32 (pl_plan_hash p).
Proof. unfold plan_identity. intros Hp. res_inv Hp. by subst. Qed.

Lemma canonicalHash_pattern j t : canonicalHash j = Ok t → hex_pattern 64 t = true.
Proof. unfold canonicalHash. intros Hh. res_inv Hh. subst. apply sha256_hex_pattern. Qed.

(** normalising is idempotent: the plan record the normaliser returns, written out with
    its identity, is accepted again (when its text still fits the byte limit) and gives the
    same record, identity included. *)
Theorem normalizePlan_idempotent input p t :
  normalizeBusinessWorkOrderPlanV1 input = Ok p →
  preflightJson (plan_json p) "plan" max_plan_bytes = Ok t →
  normalizeBusinessWorkOrderPlanV1 (plan_json p) = Ok p.
Proof.
  intros Hn Ht. unfold normalizeBusinessWorkOrderPlanV1 in Hn |- *. rewrite Ht. cbn [bind].
  res_inv Hn. subst.
  match goal with Hid : plan_identity _ = Ok _ |- _ =>
    pose proof (plan_identity_Ok _ _ Hid) as (Hc & Hh & Hs); rewrite <- Hc in Hid end.
  unfold plan_json. rewrite assertExactFields_JObj by reflexivity. cbn [bind].
  rewrite Hc. simpl. pose proof (isort_Permutation branch_leb v11) as HP. symmetry in HP.
  assert (NoDup (refs v11)) as Hnd by (by apply assertUnique_Ok in E12).
  destruct v17, v19.
  assert (nullable (λ v, assertPattern v "plan.supersedes_plan_ref" (prefixed_hex_pattern "BPS-" 32))
    (opt_json JStr v3) = Ok v3) as ->.
  { eapply nullable_stable; [|exact E3]. intros a Ha. split; [|done].
    by eapply assertPattern_stable. }
  assert (nullable (λ v, assertRef v "plan.integration_branch_ref") (opt_json JStr v18) = Ok v18)
    as E18'.
  { eapply nullable_stable; [|exact E18]. intros a Ha. split; [|done].
    by eapply assertRef_stable. }
  renorm. rewrite (normalizeProviderPolicy_stable _ _ E4). renorm.
  rewrite (normalizeAcceptancePolicy_stable _ _ E6). renorm.
  rewrite (assertArray_isort_map _ branch_leb _ _ _ _ _ _ _ _ _ E10 E11). renorm.
  destruct (sorted_entries_stable _ _ _ _ (index_path "plan.branches") _ _
    branch_leb_total branch_leb_trans normalizeBranch_stable E11) as [-> Hsort]. renorm.
  rewrite (assertUnique_map_isort branch_leb _ _ _ _ E12), (assertUnique_map_isort branch_leb _ _ _ _ E13),
    (assertUnique_map_isort branch_leb _ _ _ _ E14), (assertUnique_map_isort branch_leb _ _ _ _ E15). renorm.
  rewrite (assertPlanContentRefIdsUnique_Permutation _ _ _ _ _ HP E16). renorm.
  rewrite (assertAcyclic_Permutation _ _ Hnd HP E17), E18'. renorm.
  rewrite (validateIntegration_Permutation _ _ _ Hnd HP E19). renorm.
  rewrite (checkBranchPolicies_Permutation _ _ _ _ _ HP E20), work_branches_isort. renorm.
  rewrite (normalizeRetryPolicy_stable _ _ E25), (normalizeLeasePolicy_stable _ _ E26). renorm.
  rewrite Hsort, <- Hc, E27. renorm. apply canonicalHash_pattern in Hh.
  rewrite (checkSuppliedIdentity_same _ _ _ _ tt Hh eq_refl). renorm.
  rewrite (checkSuppliedIdentity_same _ _ _ _ tt); [done| |done].
  rewrite Hs, prefixed_hex_pattern_append. by apply hex_pattern_slice0 with 64; [lia|].
Qed.

Lemma accepted_plan_wf input p :
  normalizeBusinessWorkOrderPlanV1 input = Ok p → plan_wf p.
Proof.
  unfold normalizeBusinessWorkOrderPlanV1. intros Hn. res_inv Hn. subst.
  match goal with Hid : plan_identity _ = Ok _ |- _ =>
    pose proof (plan_identity_Ok _ _ Hid) as (-> & _ & _) end.
  pose proof (isort_Permutation branch_leb v11) as HP. symmetry in HP.
  assert (NoDup (refs v11)) as Hnd by (by apply assertUnique_Ok in E12). destruct v17, v19.
  apply (assertAcyclic_Permutation _ _ Hnd HP) in E17.
  apply (validateIntegration_Permutation _ _ _ Hnd HP) in E19.
  apply (checkBranchPolicies_Permutation _ _ _ _ _ HP) in E20.
  apply (assertPlanContentRefIdsUnique_Permutation _ _ _ _ _ HP) in E16.
  rewrite <- (work_branches_isort v11) in *.
  assert (NoDup (refs (isort branch_leb v11))) as Hnd' by (unfold refs in *; by rewrite <- HP).
  apply assertAcyclic_iff in E17 as [Hk Ha]; [|done].
  pose proof (imapR_length _ _ _ _ E11). apply assertArray_Ok in E10 as [_ ?].
  apply assertInteger_Ok in E2 as [_ ?], E21 as [_ ?]. split_bools.
  split; simpl; try done; try (intros b Hb; by destruct (checkBranchPolicies_Ok _ _ _ _ E20 b Hb)).
  - rewrite isort_Forall. revert E11. apply imapR_Forall. by intros j x y ?%normalizeBranch_wf.
  - split; [done|]. apply isort_ordered; [apply branch_leb_total | apply branch_leb_trans].
  - rewrite isort_length. lia.
  - by apply validateIntegration_iff.
  - intros Hlen ->. rewrite bool_decide_eq_true_2, andb_true_r in B3 by done. split_bools. lia.
  - lia.
  - unfold assertPlanContentRefIdsUnique in E16. res_inv E16. by apply has_duplicates_false in B5.
  - split; [lia|]. destruct v3; simpl in *; rewrite ?andb_true_r in *; split_bools; naive_solver lia.
  - by eapply normalizeRetryPolicy_wf.
  - by eapply normalizeLeasePolicy_wf.
  - by eapply normalizeProviderPolicy_wf.
Qed.

(** C38: every plan the normaliser returns is well formed: its branches are distinct, sorted,
    acyclic and satisfy the integration contract; its concurrency is within the number of work
    branches; its providers and permissions are within the plan's ceilings; its retry, lease
    and revision numbers are consistent. *)
Theorem normalizePlan_wf input p :
  normalizeBusinessWorkOrderPlanV1 input = Ok p → plan_wf p.
Proof. apply accepted_plan_wf. Qed.

(** A plan is content addressed: its hash is the canonical hash of its content and its
    snapshot id is cut from the hash, and an identity supplied with the input is accepted
    only when it is this one. *)
Theorem normalizePlan_identity fs p :
  normalizeBusinessWorkOrderPlanV1 (JObj fs) = Ok p →
  canonicalHash (JObj (plan_content_fields p)) = Ok (pl_plan_hash p)
  ∧ pl_plan_snapshot_id p = "BPS-" +:+ slice0 32 (pl_plan_hash p)
  ∧ get "plan_hash" fs ∈ [JUndef; JStr (pl_plan_hash p)]
  ∧ get "plan_snapshot_id" fs ∈ [JUndef; JStr (pl_plan_snapshot_id p)].
Proof.
  unfold normalizeBusinessWorkOrderPlanV1. intros Hn. res_inv Hn. subst.
  match goal with Hid : plan_identity _ = Ok _ |- _ =>
    pose proof (plan_identity_Ok _ _ Hid) as (<- & Hh & Hs) end.
  apply assertExactFields_Ok in E0 as ([= <-] & _).
  split_and!; [done | done | | ].
  - by eapply checkSuppliedIdentity_Ok.
  - by eapply checkSuppliedIdentity_Ok.
Qed.

(** On any input the plan normaliser returns a plan or throws a contract error: its graph
    searches terminate, hashing the content cannot throw, and the fail-closed wrapper has
    nothing to convert. *)
Theorem normalizePlan_total input :
  contract_only (normalizeBusinessWorkOrderPlanV1 input)
  ∧ failClosedNormalizer "plan" normalizeBusinessWorkOrderPlanV1 input
      = normalizeBusinessWorkOrderPlanV1 input.
Proof.
  assert (contract_only (normalizeBusinessWorkOrderPlanV1 input)) as Hc.
  { assert (∀ content, contract_only (plan_identity content)) as Hid.
    { intros content. unfold plan_identity. apply contract_only_bind; [|contract_tac].
      apply contract_only_canonicalHash, plain_plan_content. }
    unfold normalizeBusinessWorkOrderPlanV1. contract_tac. }
  split; [done|]. by apply failClosed_contract_only.
Qed.
End PlanProps.

(** ** A sample plan, for the witnesses: two work branches and their integration *)

Definition sample_ref (id : string) : json :=
  JObj [("id", JStr id); ("hash", JStr (hex_digits 64 7))].

Definition sample_branch_json (ref : string) (deps : list string) (role : string) : json :=
  JObj [("branch_ref", JStr ref); ("task_intent_ref", sample_ref ("intent-" +:+ ref));
        ("execution_plan_ref", sample_ref ("execution-" +:+ ref));
        ("context_pack_ref", sample_ref ("context-" +:+ ref));
        ("dependencies", str_list_json deps); ("role", JStr role); ("parallelizable", JBool false);
        ("isolation", JStr "worktree"); ("assignee_ref", JStr "worker-1");
        ("provider_ref", JStr "codex"); ("permission_mode", JStr "workspace-write")].

Definition sample_criterion : json :=
  JObj [("criterion_id", JStr "tests-pass"); ("description", JStr "The tests pass");
        ("verification", JStr "deterministic");
        ("verification_requirements",
          JArr [JObj [("kind", JStr "deterministic"); ("verification_ref", sample_ref "verify-1")]])].

Definition sample_plan_fields : fields :=
  [("version", JInt 1); ("project_ref", JStr "project-1"); ("revision", JInt 1);
   ("supersedes_plan_ref", JNull); ("title", JStr " A plan "); ("desired_outcome", JStr "Done");
   ("acceptance_policy",
     JObj [("criteria", JArr [sample_criterion]); ("review_minimum", JStr "normal")]);
   ("task_intent_ref", sample_ref "intent"); ("execution_plan_ref", sample_ref "execution");
   ("context_pack_ref", sample_ref "context");
   ("branches", JArr [sample_branch_json "merge" ["b"; "a"] "integration";
      sample_branch_json "b" ["a"] "work"; sample_branch_json "a" [] "work"]);
   ("integration_branch_ref", JStr "merge"); ("max_concurrency", JInt 2);
   ("context_duplication_budget_tokens", JInt 1000);
   ("retry_policy", JObj [("max_attempts", JInt 3); ("attempt_timeout_ms", JInt 60000);
      ("max_elapsed_ms", JInt 600000); ("backoff_initial_ms", JInt 1000);
      ("backoff_max_ms", JInt 8000); ("retryable_observations", JArr [JStr "branch.dispatch.not_sent"])]);
   ("lease_policy", JObj [("lease_duration_ms", JInt 60000); ("heartbeat_interval_ms", JInt 10000);
      ("max_recovery_probes", JInt 3)]);
   ("provider_policy",
     JObj [("allowed_provider_refs", str_list_json ["codex"]); ("selection", JStr "fixed")]);
   ("permission_mode", JStr "workspace-write")].

Lemma sample_plan_accepted :
  is_ok (normalizeBusinessWorkOrderPlanV1 (H := checksum_sha) (JObj sample_plan_fields)) = true.
Proof. vm_compute. reflexivity. Defined.

Definition sample_plan : Plan := ok_get _ sample_plan_accepted.

Lemma sample_plan_fits : is_ok (preflightJson (plan_json sample_plan) "plan" max_plan_bytes) = true.
Proof. vm_compute. reflexivity. Defined.

Lemma normalizePlan_idempotent_witness :
  normalizeBusinessWorkOrderPlanV1 (H := checksum_sha) (plan_json sample_plan) = Ok sample_plan.
Proof.
  exact (@normalizePlan_idempotent checksum_sha checksum_sha_laws (JObj sample_plan_fields)
    sample_plan _ (ok_get_eq _ sample_plan_accepted) (ok_get_eq _ sample_plan_fits)).
Defined.

Lemma normalizePlan_wf_witness : plan_wf sample_plan ∧ length (pl_branches sample_plan) = 3.
Proof.
  split; [|vm_compute; reflexivity].
  exact (@normalizePlan_wf checksum_sha (JObj sample_plan_fields) sample_plan
    (ok_get_eq _ sample_plan_accepted)).
Defined.

Lemma normalizePlan_identity_witness :
  get "plan_hash" sample_plan_fields ∈ [JUndef; JStr (pl_plan_hash sample_plan)]
  ∧ String.length (pl_plan_snapshot_id sample_plan) = 36.
Proof.
  split; [|vm_compute; reflexivity].
  exact (proj1 (proj2 (proj2 (@normalizePlan_identity checksum_sha sample_plan_fields sample_plan
    (ok_get_eq _ sample_plan_accepted))))).
Defined.
