(* ===== verification/Envelope.v ===== *)
(** Command and observation envelopes ([packages/business-orchestrator/src/contract.js], lines
    47-91, 157-326 and 1141-2082): what users and orchestrators may ask of a work order and what
    the runtime, providers and verifiers may report, each with its closed payload schema, the
    hash of the payload and the class of actor that may assert it. *)

From Stdlib Require Import ZArith Lia Ascii String.
From stdpp Require Import base tactics list strings option.
From S2P Require Import Prelude JsString JsDate Json SettlementPolicy ContractBase PlanContract.
Import CONTRACT_LIMITS.

(** ** Vocabulary *)

Inductive ActorType := ActUser | ActOrchestrator | ActRuntime | ActProvider | ActVerifier.
#[export] Instance ActorType_eq_dec : EqDecision ActorType.
Proof. solve_decision. Defined.
#[export] Instance ActorType_enum : JsEnum ActorType := {|
  enum_all := [ActUser; ActOrchestrator; ActRuntime; ActProvider; ActVerifier];
  enum_str a := match a with
    | ActUser => "user" | ActOrchestrator => "orchestrator" | ActRuntime => "runtime"
    | ActProvider => "provider" | ActVerifier => "verifier" end |}.
#[export] Instance ActorType_laws : JsEnumLaws ActorType.
Proof. enum_laws. Qed.

Definition COMMAND_ACTOR_TYPES : list ActorType := [ActUser; ActOrchestrator].
Definition RUNTIME_OBSERVATION_ACTOR_TYPES : list ActorType :=
  [ActRuntime; ActProvider; ActVerifier].

Inductive CommandName :=
| NStart | NCancelRequest | NResume | NRetryRequest | NUserInputResolve | NAcceptanceDecision.
#[export] Instance CommandName_eq_dec : EqDecision CommandName.
Proof. solve_decision. Defined.
#[export] Instance CommandName_enum : JsEnum CommandName := {|
  enum_all := [NStart; NCancelRequest; NResume; NRetryRequest; NUserInputResolve;
    NAcceptanceDecision];
  enum_str n := match n with
    | NStart => "work_order.start" | NCancelRequest => "work_order.cancel.request"
    | NResume => "work_order.resume" | NRetryRequest => "branch.retry.request"
    | NUserInputResolve => "user_input.resolve"
    | NAcceptanceDecision => "acceptance.decision.record" end |}.
#[export] Instance CommandName_laws : JsEnumLaws CommandName.
Proof. enum_laws. Qed.

Inductive ObservationName :=
| NStarted | NCancelled | NDeliveryRecorded | NDispatchAccepted | NDispatchNotSent | NProgress
| NResultSubmitted | NFailed | NTimedOut | NDeliveryUnknown | NBranchCancelled
| NUserInputRequested | NVerification | NReview | NRateLimited | NUnavailable
| NSettlement | NSendExpiry | NPresendFailure.
#[export] Instance ObservationName_eq_dec : EqDecision ObservationName.
Proof. solve_decision. Defined.
#[export] Instance ObservationName_enum : JsEnum ObservationName := {|
  enum_all := [NStarted; NCancelled; NDeliveryRecorded; NDispatchAccepted; NDispatchNotSent;
    NProgress; NResultSubmitted; NFailed; NTimedOut; NDeliveryUnknown; NBranchCancelled;
    NUserInputRequested; NVerification; NReview; NRateLimited; NUnavailable; NSettlement;
    NSendExpiry; NPresendFailure];
  enum_str n := match n with
    | NStarted => "work_order.started" | NCancelled => "work_order.cancelled"
    | NDeliveryRecorded => "provider.effect.delivery.recorded"
    | NDispatchAccepted => "branch.dispatch.accepted"
    | NDispatchNotSent => "branch.dispatch.not_sent" | NProgress => "branch.progress"
    | NResultSubmitted => "branch.result.submitted" | NFailed => "branch.failed"
    | NTimedOut => "branch.timed_out" | NDeliveryUnknown => "branch.delivery_unknown"
    | NBranchCancelled => "branch.cancelled" | NUserInputRequested => "user_input.requested"
    | NVerification => "verification.recorded" | NReview => "review.recorded"
    | NRateLimited => "provider.rate_limited" | NUnavailable => "provider.unavailable"
    | NSettlement => "provider.effect.settlement.recorded"
    | NSendExpiry => "provider.effect.send_expiration.recorded"
    | NPresendFailure => "provider.effect.presend_failure.recorded" end |}.
#[export] Instance ObservationName_laws : JsEnumLaws ObservationName.
Proof. enum_laws. Qed.

Definition RUNTIME_OBSERVATION_NAMES : list ObservationName :=
  [NStarted; NCancelled; NDeliveryRecorded; NDispatchAccepted; NDispatchNotSent; NProgress;
   NResultSubmitted; NFailed; NTimedOut; NDeliveryUnknown; NBranchCancelled; NUserInputRequested;
   NVerification; NReview; NRateLimited; NUnavailable].
Definition EFFECT_SETTLEMENT_OBSERVATION_NAMES : list ObservationName := [NSettlement].
Definition EFFECT_SEND_EXPIRY_OBSERVATION_NAMES : list ObservationName := [NSendExpiry].
Definition EFFECT_PRESEND_FAILURE_OBSERVATION_NAMES : list ObservationName := [NPresendFailure].
Definition EFFECT_SETTLEMENT_SOURCES : list SettlementSource := [WorkerResult; RecoveryProbe].

Inductive Decision2 := DecAccepted | DecRejected.
#[export] Instance Decision2_eq_dec : EqDecision Decision2.
Proof. solve_decision. Defined.
#[export] Instance Decision2_enum : JsEnum Decision2 := {|
  enum_all := [DecAccepted; DecRejected];
  enum_str d := match d with DecAccepted => "accepted" | DecRejected => "rejected" end |}.
#[export] Instance Decision2_laws : JsEnumLaws Decision2.
Proof. enum_laws. Qed.

Inductive VerificationStatus := VsPassed | VsFailed.
#[export] Instance VerificationStatus_eq_dec : EqDecision VerificationStatus.
Proof. solve_decision. Defined.
#[export] Instance VerificationStatus_enum : JsEnum VerificationStatus := {|
  enum_all := [VsPassed; VsFailed];
  enum_str s := match s with VsPassed => "passed" | VsFailed => "failed" end |}.
#[export] Instance VerificationStatus_laws : JsEnumLaws VerificationStatus.
Proof. enum_laws. Qed.

(** [COMMAND_ACTORS_BY_NAME] *)
Definition COMMAND_ACTORS_BY_NAME (n : CommandName) : list ActorType :=
  match n with
  | NStart | NRetryRequest => [ActOrchestrator]
  | NCancelRequest | NResume => [ActUser; ActOrchestrator]
  | NUserInputResolve | NAcceptanceDecision => [ActUser]
  end.

(** [OBSERVATION_ACTORS_BY_NAME] and the three version 2 tables, one per name. *)
Definition OBSERVATION_ACTORS_BY_NAME (n : ObservationName) : list ActorType :=
  match n with
  | NStarted | NCancelled | NDispatchNotSent | NTimedOut | NDeliveryUnknown
  | NSettlement | NSendExpiry | NPresendFailure => [ActRuntime]
  | NDeliveryRecorded | NDispatchAccepted | NProgress | NResultSubmitted | NFailed
  | NBranchCancelled | NUserInputRequested | NRateLimited | NUnavailable =>
      [ActRuntime; ActProvider]
  | NVerification | NReview => [ActVerifier]
  end.

(** ** Payloads *)

Inductive CommandPayload :=
| StartPayload
| CancelRequestPayload (reason : string)
| ResumePayload (reason : string)
| RetryRequestPayload (branch_ref : string) (failed_attempt : Z) (reason : string)
| UserInputResolvePayload (request_id : string) (response_ref : ContentRef)
| AcceptanceDecisionPayload (decision : Decision2) (evidence_refs : list string) (comment : string).

Definition command_payload_name (p : CommandPayload) : CommandName :=
  match p with
  | StartPayload => NStart | CancelRequestPayload _ => NCancelRequest
  | ResumePayload _ => NResume | RetryRequestPayload _ _ _ => NRetryRequest
  | UserInputResolvePayload _ _ => NUserInputResolve
  | AcceptanceDecisionPayload _ _ _ => NAcceptanceDecision
  end.

(** The fields that tie an observation to one provider effect. *)
Record EffectBinding := {
  eb_effect_id : string;
  eb_effect_kind : EffectKind;
  eb_branch_ref : string;
  eb_attempt : Z;
  eb_dispatch_id : string;
}.

Record FencingToken := { ft_lease_id : string; ft_owner_id : string; ft_generation : Z }.

Record RecoveryProbeReceipt := {
  rpr_probe_receipt_ref : ContentRef;
  rpr_mutation_idempotency_key : string;
}.

(** The evidence of a settlement, by its source. *)
Inductive SettlementEvidence :=
| WorkerEvidence (worker_fencing_token : FencingToken) (worker_result_ref : ContentRef)
| ProbeEvidence (recovery_probe : RecoveryProbeReceipt).

Definition evidence_source (e : SettlementEvidence) : SettlementSource :=
  match e with WorkerEvidence _ _ => WorkerResult | ProbeEvidence _ => RecoveryProbe end.

Record ReviewFindings := { rf_critical : Z; rf_important : Z; rf_minor : Z }.

Inductive ObservationPayload :=
| StartedPayload
| CancelledPayload (reason : string)
| DeliveryRecordedPayload (binding : EffectBinding) (classification : Classification)
| DispatchAcceptedPayload (branch_ref : string) (attempt : Z) (dispatch_id : string)
| DispatchNotSentPayload (branch_ref : string) (attempt : Z) (dispatch_id reason : string)
| ProgressPayload (branch_ref : string) (attempt : Z) (message : string)
| ResultSubmittedPayload (branch_ref : string) (attempt : Z) (artifact_refs : list ContentRef)
    (evidence_refs : list string)
| FailedPayload (branch_ref : string) (attempt : Z) (failure_code : string)
| TimedOutPayload (branch_ref : string) (attempt timeout_ms : Z)
| DeliveryUnknownPayload (branch_ref : string) (attempt : Z) (dispatch_id detail : string)
| BranchCancelledPayload (branch_ref : string) (attempt : Z) (reason : string)
| UserInputRequestedPayload (branch_ref request_id : string) (prompt_ref : ContentRef)
| VerificationPayload (branch_ref criterion_id : string) (verification_ref : ContentRef)
    (kind : RequirementKind) (status : VerificationStatus) (evidence_refs : list string)
| ReviewPayload (branch_ref review_id : string) (status : Decision2) (findings : ReviewFindings)
    (evidence_refs : list string)
| RateLimitedPayload (branch_ref : string) (attempt retry_after_ms : Z)
| UnavailablePayload (branch_ref : string) (attempt : Z) (detail : string)
| SettlementPayload (binding : EffectBinding) (classification : Classification)
    (evidence : SettlementEvidence)
| SendExpiryPayload (binding : EffectBinding) (expired_fencing_token : FencingToken)
    (lease_expires_at : Z) (expiry_receipt_ref : ContentRef)
| PresendFailurePayload (binding : EffectBinding) (claimed_fencing_token : FencingToken)
    (failure_reason : SettlementReason) (failure_record_ref : ContentRef).

Definition observation_payload_name (p : ObservationPayload) : ObservationName :=
  match p with
  | StartedPayload => NStarted | CancelledPayload _ => NCancelled
  | DeliveryRecordedPayload _ _ => NDeliveryRecorded
  | DispatchAcceptedPayload _ _ _ => NDispatchAccepted
  | DispatchNotSentPayload _ _ _ _ => NDispatchNotSent | ProgressPayload _ _ _ => NProgress
  | ResultSubmittedPayload _ _ _ _ => NResultSubmitted | FailedPayload _ _ _ => NFailed
  | TimedOutPayload _ _ _ => NTimedOut | DeliveryUnknownPayload _ _ _ _ => NDeliveryUnknown
  | BranchCancelledPayload _ _ _ => NBranchCancelled
  | UserInputRequestedPayload _ _ _ => NUserInputRequested
  | VerificationPayload _ _ _ _ _ _ => NVerification | ReviewPayload _ _ _ _ _ => NReview
  | RateLimitedPayload _ _ _ => NRateLimited | UnavailablePayload _ _ _ => NUnavailable
  | SettlementPayload _ _ _ => NSettlement | SendExpiryPayload _ _ _ _ => NSendExpiry
  | PresendFailurePayload _ _ _ _ => NPresendFailure
  end.

(** ** Encoders: the object literals the normalisers return *)

Definition command_payload_json (p : CommandPayload) : json :=
  match p with
  | StartPayload => JObj []
  | CancelRequestPayload reason | ResumePayload reason => JObj [("reason", JStr reason)]
  | RetryRequestPayload b a reason =>
      JObj [("branch_ref", JStr b); ("failed_attempt", JInt a); ("reason", JStr reason)]
  | UserInputResolvePayload r c =>
      JObj [("request_id", JStr r); ("response_ref", content_ref_json c)]
  | AcceptanceDecisionPayload d e c =>
      JObj [("decision", enum_json d); ("evidence_refs", str_list_json e); ("comment", JStr c)]
  end.

Definition effect_binding_fields (b : EffectBinding) : fields :=
  [("effect_id", JStr (eb_effect_id b)); ("effect_contract_version", JInt 2);
   ("effect_kind", enum_json (eb_effect_kind b)); ("branch_ref", JStr (eb_branch_ref b));
   ("attempt", JInt (eb_attempt b)); ("dispatch_id", JStr (eb_dispatch_id b))].

Definition fencing_token_json (t : FencingToken) : json :=
  JObj [("lease_id", JStr (ft_lease_id t)); ("owner_id", JStr (ft_owner_id t));
        ("generation", JInt (ft_generation t))].

Definition recovery_probe_json (p : RecoveryProbeReceipt) : json :=
  JObj [("probe_receipt_ref", content_ref_json (rpr_probe_receipt_ref p));
        ("mutation_idempotency_key", JStr (rpr_mutation_idempotency_key p))].

Definition settlement_evidence_fields (e : SettlementEvidence) : fields :=
  match e with
  | WorkerEvidence t r =>
      [("worker_fencing_token", fencing_token_json t); ("worker_result_ref", content_ref_json r)]
  | ProbeEvidence p => [("recovery_probe", recovery_probe_json p)]
  end.

Definition review_findings_json (f : ReviewFindings) : json :=
  JObj [("critical", JInt (rf_critical f)); ("important", JInt (rf_important f));
        ("minor", JInt (rf_minor f))].

Definition branch_attempt_fields (b : string) (a : Z) : fields :=
  [("branch_ref", JStr b); ("attempt", JInt a)].

Definition timestamp_json (t : Z) : json := JStr (iso_of_ms t).

Definition observation_payload_json (p : ObservationPayload) : json :=
  JObj match p with
  | StartedPayload => []
  | CancelledPayload reason => [("reason", JStr reason)]
  | DeliveryRecordedPayload b c =>
      effect_binding_fields b ++ [("classification", enum_json c)]
  | DispatchAcceptedPayload b a d => branch_attempt_fields b a ++ [("dispatch_id", JStr d)]
  | DispatchNotSentPayload b a d reason =>
      branch_attempt_fields b a ++ [("dispatch_id", JStr d); ("reason", JStr reason)]
  | ProgressPayload b a message => branch_attempt_fields b a ++ [("message", JStr message)]
  | ResultSubmittedPayload b a refs e =>
      branch_attempt_fields b a
        ++ [("artifact_refs", JArr (map content_ref_json refs)); ("evidence_refs", str_list_json e)]
  | FailedPayload b a code => branch_attempt_fields b a ++ [("failure_code", JStr code)]
  | TimedOutPayload b a ms => branch_attempt_fields b a ++ [("timeout_ms", JInt ms)]
  | DeliveryUnknownPayload b a d detail =>
      branch_attempt_fields b a ++ [("dispatch_id", JStr d); ("detail", JStr detail)]
  | BranchCancelledPayload b a reason => branch_attempt_fields b a ++ [("reason", JStr reason)]
  | UserInputRequestedPayload b r c =>
      [("branch_ref", JStr b); ("request_id", JStr r); ("prompt_ref", content_ref_json c)]
  | VerificationPayload b c r k s e =>
      [("branch_ref", JStr b); ("criterion_id", JStr c); ("verification_ref", content_ref_json r);
       ("kind", enum_json k); ("status", enum_json s); ("evidence_refs", str_list_json e)]
  | ReviewPayload b r s f e =>
      [("branch_ref", JStr b); ("review_id", JStr r); ("status", enum_json s);
       ("findings", review_findings_json f); ("evidence_refs", str_list_json e)]
  | RateLimitedPayload b a ms => branch_attempt_fields b a ++ [("retry_after_ms", JInt ms)]
  | UnavailablePayload b a detail => branch_attempt_fields b a ++ [("detail", JStr detail)]
  | SettlementPayload b c e =>
      effect_binding_fields b
        ++ [("classification", enum_json c); ("settlement_source", enum_json (evidence_source e))]
        ++ settlement_evidence_fields e
  | SendExpiryPayload b t expires r =>
      effect_binding_fields b
        ++ [("expired_fencing_token", fencing_token_json t);
            ("lease_expires_at", timestamp_json expires);
            ("expiry_receipt_ref", content_ref_json r)]
  | PresendFailurePayload b t reason r =>
      effect_binding_fields b
        ++ [("claimed_fencing_token", fencing_token_json t); ("failure_reason", enum_json reason);
            ("failure_record_ref", content_ref_json r)]
  end.

(** ** Payload schemas *)

Definition COMMAND_PAYLOAD_FIELDS (n : CommandName) : list string :=
  match n with
  | NStart => []
  | NCancelRequest | NResume => ["reason"]
  | NRetryRequest => ["branch_ref"; "failed_attempt"; "reason"]
  | NUserInputResolve => ["request_id"; "response_ref"]
  | NAcceptanceDecision => ["decision"; "evidence_refs"; "comment"]
  end.

(** The V1 names; a V2 name has no entry and never reaches [normalizeObservationPayload]. *)
Definition OBSERVATION_PAYLOAD_FIELDS (n : ObservationName) : list string :=
  match n with
  | NStarted => []
  | NCancelled => ["reason"]
  | NDeliveryRecorded =>
      ["effect_id"; "effect_contract_version"; "effect_kind"; "branch_ref"; "attempt";
       "dispatch_id"; "classification"]
  | NDispatchAccepted => ["branch_ref"; "attempt"; "dispatch_id"]
  | NDispatchNotSent => ["branch_ref"; "attempt"; "dispatch_id"; "reason"]
  | NProgress => ["branch_ref"; "attempt"; "message"]
  | NResultSubmitted => ["branch_ref"; "attempt"; "artifact_refs"; "evidence_refs"]
  | NFailed => ["branch_ref"; "attempt"; "failure_code"]
  | NTimedOut => ["branch_ref"; "attempt"; "timeout_ms"]
  | NDeliveryUnknown => ["branch_ref"; "attempt"; "dispatch_id"; "detail"]
  | NBranchCancelled => ["branch_ref"; "attempt"; "reason"]
  | NUserInputRequested => ["branch_ref"; "request_id"; "prompt_ref"]
  | NVerification =>
      ["branch_ref"; "criterion_id"; "verification_ref"; "kind"; "status"; "evidence_refs"]
  | NReview => ["branch_ref"; "review_id"; "status"; "findings"; "evidence_refs"]
  | NRateLimited => ["branch_ref"; "attempt"; "retry_after_ms"]
  | NUnavailable => ["branch_ref"; "attempt"; "detail"]
  | NSettlement | NSendExpiry | NPresendFailure => []
  end.

Definition EFFECT_SETTLEMENT_COMMON_PAYLOAD_FIELDS : list string :=
  ["effect_id"; "effect_contract_version"; "effect_kind"; "branch_ref"; "attempt"; "dispatch_id";
   "classification"; "settlement_source"].
Definition WORKER_SETTLEMENT_PAYLOAD_FIELDS : list string :=
  EFFECT_SETTLEMENT_COMMON_PAYLOAD_FIELDS ++ ["worker_fencing_token"; "worker_result_ref"].
Definition RECOVERY_PROBE_SETTLEMENT_PAYLOAD_FIELDS : list string :=
  EFFECT_SETTLEMENT_COMMON_PAYLOAD_FIELDS ++ ["recovery_probe"].
Definition EFFECT_SEND_EXPIRY_PAYLOAD_FIELDS : list string :=
  ["effect_id"; "effect_contract_version"; "effect_kind"; "branch_ref"; "attempt"; "dispatch_id";
   "expired_fencing_token"; "lease_expires_at"; "expiry_receipt_ref"].
Definition EFFECT_PRESEND_FAILURE_PAYLOAD_FIELDS : list string :=
  ["effect_id"; "effect_contract_version"; "effect_kind"; "branch_ref"; "attempt"; "dispatch_id";
   "claimed_fencing_token"; "failure_reason"; "failure_record_ref"].
Definition WORKER_FENCING_TOKEN_FIELDS : list string := ["lease_id"; "owner_id"; "generation"].
Definition RECOVERY_PROBE_FIELDS : list string :=
  ["probe_receipt_ref"; "mutation_idempotency_key"].
Definition REVIEW_FINDINGS_FIELDS : list string := ["critical"; "important"; "minor"].
Definition ACTOR_FIELDS : list string := ["type"; "actor_id"].

(** ** Payload normalisers *)

(** [`${path}.${field}`] *)
Definition dot (path field : string) : string := path +:+ "." +:+ field.

Definition normalizePayloadRefs (input : json) (path : string) (minimum : Z) : res (list string) :=
  normalizeUniqueRefs input path minimum max_evidence_refs.

Definition content_ref_leb (l r : ContentRef) : bool := text_leb (cr_id l) (cr_id r).

Definition normalizePayloadContentRefs (input : json) (path : string) (minimum : Z)
    : res (list ContentRef) :=
  let* entries := assertArray input path minimum max_evidence_refs in
  let* refs := imapR (λ i entry, normalizeContentRef entry (index_path path i)) 0 entries in
  let* _ := assertUnique (map cr_id refs) path in
  Ok (isort content_ref_leb refs).

Definition normalizeCommandPayload (name : CommandName) (input : json) : res CommandPayload :=
  let path := "command.payload" in
  let* payload := assertExactFields input (COMMAND_PAYLOAD_FIELDS name)
    (COMMAND_PAYLOAD_FIELDS name) path in
  match name with
  | NStart => Ok StartPayload
  | NCancelRequest =>
      let* reason := assertString (get "reason" payload) (dot path "reason") 4096 in
      Ok (CancelRequestPayload reason)
  | NResume =>
      let* reason := assertString (get "reason" payload) (dot path "reason") 4096 in
      Ok (ResumePayload reason)
  | NRetryRequest =>
      let* branch_ref := assertRef (get "branch_ref" payload) (dot path "branch_ref") in
      let* failed_attempt := assertInteger (get "failed_attempt" payload)
        (dot path "failed_attempt") 1 5 in
      let* reason := assertString (get "reason" payload) (dot path "reason") 4096 in
      Ok (RetryRequestPayload branch_ref failed_attempt reason)
  | NUserInputResolve =>
      let* request_id := assertPattern (get "request_id" payload) (dot path "request_id")
        (prefixed_hex_pattern "REQ-" 32) in
      let* response_ref := normalizeContentRef (get "response_ref" payload)
        (dot path "response_ref") in
      Ok (UserInputResolvePayload request_id response_ref)
  | NAcceptanceDecision =>
      let* decision := assertEnum (A := Decision2) (get "decision" payload) enum_all
        (dot path "decision") in
      let* evidence_refs := normalizePayloadRefs (get "evidence_refs" payload)
        (dot path "evidence_refs") 1 in
      let* comment := assertString (get "comment" payload) (dot path "comment") 8192 in
      Ok (AcceptanceDecisionPayload decision evidence_refs comment)
  end.

(** [`observation.payload.${field}`] *)
Definition at_payload (field : string) : string := "observation.payload." +:+ field.

Definition assertBranchRef (payload : fields) : res string :=
  assertRef (get "branch_ref" payload) (at_payload "branch_ref").
Definition assertAttempt (payload : fields) : res Z :=
  assertInteger (get "attempt" payload) (at_payload "attempt") 1 5.
Definition assertDispatchId (payload : fields) : res string :=
  assertPattern (get "dispatch_id" payload) (at_payload "dispatch_id")
    (prefixed_hex_pattern "DSP-" 32).
Definition assertClassification (payload : fields) : res Classification :=
  assertEnum (get "classification" payload) [CAccepted; CNotSent; CDeliveryUnknown]
    (at_payload "classification").
Definition assertEvidenceRefs (payload : fields) : res (list string) :=
  normalizePayloadRefs (get "evidence_refs" payload) (at_payload "evidence_refs") 1.

Definition normalizeEffectBindingPayloadV2 (payload : fields) : res EffectBinding :=
  let* effect_id := assertPattern (get "effect_id" payload) (at_payload "effect_id")
    (prefixed_hex_pattern "FX-" 32) in
  let* _ := assertInteger (get "effect_contract_version" payload)
    (at_payload "effect_contract_version") 2 2 in
  let* effect_kind := assertEnum (get "effect_kind" payload)
    [ThreadCreate; TurnStart; UserInputSubmit; TurnCancel] (at_payload "effect_kind") in
  let* branch_ref := assertBranchRef payload in
  let* attempt := assertAttempt payload in
  let* dispatch_id := assertDispatchId payload in
  Ok {| eb_effect_id := effect_id; eb_effect_kind := effect_kind; eb_branch_ref := branch_ref;
        eb_attempt := attempt; eb_dispatch_id := dispatch_id |}.

(** The [branchAttempt()] closure. *)
Definition branchAttempt (payload : fields) : res (string * Z) :=
  let* branch_ref := assertBranchRef payload in
  let* attempt := assertAttempt payload in
  Ok (branch_ref, attempt).

Definition normalizeReviewCounts (findings : fields) : res ReviewFindings :=
  let* critical := assertInteger (get "critical" findings) (at_payload "findings.critical") 0
    max_review_findings_per_severity in
  let* important := assertInteger (get "important" findings) (at_payload "findings.important") 0
    max_review_findings_per_severity in
  let* minor := assertInteger (get "minor" findings) (at_payload "findings.minor") 0
    max_review_findings_per_severity in
  Ok {| rf_critical := critical; rf_important := important; rf_minor := minor |}.

Definition normalizeObservationPayload (name : ObservationName) (input : json)
    : res ObservationPayload :=
  let* payload := assertExactFields input (OBSERVATION_PAYLOAD_FIELDS name)
    (OBSERVATION_PAYLOAD_FIELDS name) "observation.payload" in
  match name with
  | NStarted => Ok StartedPayload
  | NCancelled =>
      let* reason := assertString (get "reason" payload) (at_payload "reason") 4096 in
      Ok (CancelledPayload reason)
  | NDeliveryRecorded =>
      let* binding := normalizeEffectBindingPayloadV2 payload in
      let* classification := assertClassification payload in
      Ok (DeliveryRecordedPayload binding classification)
  | NDispatchAccepted =>
      let* ' (b, a) := branchAttempt payload in
      let* dispatch_id := assertDispatchId payload in
      Ok (DispatchAcceptedPayload b a dispatch_id)
  | NDispatchNotSent =>
      let* ' (b, a) := branchAttempt payload in
      let* dispatch_id := assertDispatchId payload in
      let* reason := assertString (get "reason" payload) (at_payload "reason") 4096 in
      Ok (DispatchNotSentPayload b a dispatch_id reason)
  | NProgress =>
      let* ' (b, a) := branchAttempt payload in
      let* message := assertString (get "message" payload) (at_payload "message") 8192 in
      Ok (ProgressPayload b a message)
  | NResultSubmitted =>
      let* ' (b, a) := branchAttempt payload in
      let* artifact_refs := normalizePayloadContentRefs (get "artifact_refs" payload)
        (at_payload "artifact_refs") 1 in
      let* evidence_refs := assertEvidenceRefs payload in
      Ok (ResultSubmittedPayload b a artifact_refs evidence_refs)
  | NFailed =>
      let* ' (b, a) := branchAttempt payload in
      let* failure_code := assertRef (get "failure_code" payload) (at_payload "failure_code") in
      Ok (FailedPayload b a failure_code)
  | NTimedOut =>
      let* ' (b, a) := branchAttempt payload in
      let* timeout_ms := assertInteger (get "timeout_ms" payload) (at_payload "timeout_ms")
        1000 86400000 in
      Ok (TimedOutPayload b a timeout_ms)
  | NDeliveryUnknown =>
      let* ' (b, a) := branchAttempt payload in
      let* dispatch_id := assertDispatchId payload in
      let* detail := assertString (get "detail" payload) (at_payload "detail") 8192 in
      Ok (DeliveryUnknownPayload b a dispatch_id detail)
  | NBranchCancelled =>
      let* ' (b, a) := branchAttempt payload in
      let* reason := assertString (get "reason" payload) (at_payload "reason") 4096 in
      Ok (BranchCancelledPayload b a reason)
  | NUserInputRequested =>
      let* branch_ref := assertBranchRef payload in
      let* request_id := assertPattern (get "request_id" payload) (at_payload "request_id")
        (prefixed_hex_pattern "REQ-" 32) in
      let* prompt_ref := normalizeContentRef (get "prompt_ref" payload) (at_payload "prompt_ref") in
      Ok (UserInputRequestedPayload branch_ref request_id prompt_ref)
  | NVerification =>
      let* branch_ref := assertBranchRef payload in
      let* criterion_id := assertRef (get "criterion_id" payload) (at_payload "criterion_id") in
      let* verification_ref := normalizeContentRef (get "verification_ref" payload)
        (at_payload "verification_ref") in
      let* kind := assertEnum (A := RequirementKind) (get "kind" payload) enum_all
        (at_payload "kind") in
      let* status := assertEnum (A := VerificationStatus) (get "status" payload) enum_all
        (at_payload "status") in
      let* evidence_refs := assertEvidenceRefs payload in
      Ok (VerificationPayload branch_ref criterion_id verification_ref kind status evidence_refs)
  | NReview =>
      let* findings := assertExactFields (get "findings" payload) REVIEW_FINDINGS_FIELDS
        REVIEW_FINDINGS_FIELDS (at_payload "findings") in
      let* branch_ref := assertBranchRef payload in
      let* review_id := assertRef (get "review_id" payload) (at_payload "review_id") in
      let* status := assertEnum (A := Decision2) (get "status" payload) enum_all
        (at_payload "status") in
      let* counts := normalizeReviewCounts findings in
      let* evidence_refs := assertEvidenceRefs payload in
      Ok (ReviewPayload branch_ref review_id status counts evidence_refs)
  | NRateLimited =>
      let* ' (b, a) := branchAttempt payload in
      let* retry_after_ms := assertInteger (get "retry_after_ms" payload)
        (at_payload "retry_after_ms") 0 86400000 in
      Ok (RateLimitedPayload b a retry_after_ms)
  | NUnavailable =>
      let* ' (b, a) := branchAttempt payload in
      let* detail := assertString (get "detail" payload) (at_payload "detail") 8192 in
      Ok (UnavailablePayload b a detail)
  | NSettlement | NSendExpiry | NPresendFailure => invalid "observation.name" "enum"
  end.

(** ** Version 2 payloads *)

Definition normalizeWorkerFencingToken (input : json) (path : string) : res FencingToken :=
  let* token := assertExactFields input WORKER_FENCING_TOKEN_FIELDS WORKER_FENCING_TOKEN_FIELDS
    path in
  let* lease_id := assertRef (get "lease_id" token) (dot path "lease_id") in
  let* owner_id := assertRef (get "owner_id" token) (dot path "owner_id") in
  let* generation := assertInteger (get "generation" token) (dot path "generation") 1 1000000000 in
  Ok {| ft_lease_id := lease_id; ft_owner_id := owner_id; ft_generation := generation |}.

(** A content reference whose id is cut from its own hash. *)
Definition normalizeDerivedContentRef (input : json) (path prefix : string) : res ContentRef :=
  let* ref := normalizeContentRef input path in
  reject negb (prefixed_hex_pattern (prefix +:+ "-") 32 (cr_id ref))
      || negb (String.eqb (cr_id ref) (prefix +:+ "-" +:+ slice0 32 (cr_hash ref)))
    with ContractValidationError (dot path "id") "hash_mismatch" in
  Ok ref.

Definition normalizeRecoveryProbe (input : json) (path : string) : res RecoveryProbeReceipt :=
  let* probe := assertExactFields input RECOVERY_PROBE_FIELDS RECOVERY_PROBE_FIELDS path in
  let* probe_receipt_ref := normalizeDerivedContentRef (get "probe_receipt_ref" probe)
    (dot path "probe_receipt_ref") "PRB" in
  let* key := assertPattern (get "mutation_idempotency_key" probe)
    (dot path "mutation_idempotency_key") (prefixed_hex_pattern "IDEM-" 32) in
  Ok {| rpr_probe_receipt_ref := probe_receipt_ref; rpr_mutation_idempotency_key := key |}.

Definition settlement_payload_fields (s : SettlementSource) : list string :=
  match s with
  | WorkerResult => WORKER_SETTLEMENT_PAYLOAD_FIELDS
  | _ => RECOVERY_PROBE_SETTLEMENT_PAYLOAD_FIELDS
  end.

Definition normalizeSettlementEvidence (source : SettlementSource) (payload : fields)
    : res SettlementEvidence :=
  match source with
  | WorkerResult =>
      let* token := normalizeWorkerFencingToken (get "worker_fencing_token" payload)
        (at_payload "worker_fencing_token") in
      let* ref := normalizeDerivedContentRef (get "worker_result_ref" payload)
        (at_payload "worker_result_ref") "WRR" in
      Ok (WorkerEvidence token ref)
  | _ =>
      let* probe := normalizeRecoveryProbe (get "recovery_probe" payload)
        (at_payload "recovery_probe") in
      Ok (ProbeEvidence probe)
  end.

Definition normalizeEffectSettlementPayloadV2 (input : json) : res ObservationPayload :=
  let* candidate := assertPlainObject input "observation.payload" in
  let* source := assertEnum (get "settlement_source" candidate) EFFECT_SETTLEMENT_SOURCES
    (at_payload "settlement_source") in
  let* payload := assertExactFields (JObj candidate) (settlement_payload_fields source)
    (settlement_payload_fields source) "observation.payload" in
  let* binding := normalizeEffectBindingPayloadV2 payload in
  let* classification := assertClassification payload in
  let* evidence := normalizeSettlementEvidence source payload in
  Ok (SettlementPayload binding classification evidence).

Definition normalizeEffectSendExpiryPayloadV2 (input : json) : res ObservationPayload :=
  let* payload := assertExactFields input EFFECT_SEND_EXPIRY_PAYLOAD_FIELDS
    EFFECT_SEND_EXPIRY_PAYLOAD_FIELDS "observation.payload" in
  let* binding := normalizeEffectBindingPayloadV2 payload in
  let* token := normalizeWorkerFencingToken (get "expired_fencing_token" payload)
    (at_payload "expired_fencing_token") in
  let* lease_expires_at := assertTimestamp (get "lease_expires_at" payload)
    (at_payload "lease_expires_at") in
  let* ref := normalizeDerivedContentRef (get "expiry_receipt_ref" payload)
    (at_payload "expiry_receipt_ref") "EXP" in
  Ok (SendExpiryPayload binding token lease_expires_at ref).

Definition normalizeEffectPresendFailurePayloadV2 (input : json) : res ObservationPayload :=
  let* payload := assertExactFields input EFFECT_PRESEND_FAILURE_PAYLOAD_FIELDS
    EFFECT_PRESEND_FAILURE_PAYLOAD_FIELDS "observation.payload" in
  let* binding := normalizeEffectBindingPayloadV2 payload in
  let* token := normalizeWorkerFencingToken (get "claimed_fencing_token" payload)
    (at_payload "claimed_fencing_token") in
  let* reason := assertEnum (get "failure_reason" payload) V2_PRESEND_FAILURE_REASONS
    (at_payload "failure_reason") in
  let* ref := normalizeDerivedContentRef (get "failure_record_ref" payload)
    (at_payload "failure_record_ref") "PFR" in
  Ok (PresendFailurePayload binding token reason ref).

(** ** Envelopes *)

Record Actor := { act_type : ActorType; act_actor_id : string }.

Record EnvelopeIdentity := {
  ei_work_order_id : string;
  ei_plan_snapshot_ref : string;
  ei_plan_hash : string;
}.

(** A command; its [name] is the name of its payload. *)
Record CommandEnvelope := {
  ce_command_id : string;
  ce_identity : EnvelopeIdentity;
  ce_expected_work_order_revision : Z;
  ce_actor : Actor;
  ce_payload : CommandPayload;
  ce_payload_hash : string;
}.

Record ObservationEnvelope := {
  oe_version : Z;
  oe_observation_id : string;
  oe_identity : EnvelopeIdentity;
  oe_work_order_revision : Z;
  oe_actor : Actor;
  oe_payload : ObservationPayload;
  oe_payload_hash : string;
}.

Definition COMMAND_FIELDS : list string :=
  ["version"; "command_id"; "work_order_id"; "plan_snapshot_ref"; "plan_hash";
   "expected_work_order_revision"; "actor"; "name"; "payload"; "payload_hash"].
Definition OBSERVATION_FIELDS : list string :=
  ["version"; "observation_id"; "work_order_id"; "plan_snapshot_ref"; "plan_hash";
   "work_order_revision"; "actor"; "name"; "payload"; "payload_hash"].

Definition actor_json (a : Actor) : json :=
  JObj [("type", enum_json (act_type a)); ("actor_id", JStr (act_actor_id a))].

Definition envelope_identity_fields (i : EnvelopeIdentity) : fields :=
  [("work_order_id", JStr (ei_work_order_id i));
   ("plan_snapshot_ref", JStr (ei_plan_snapshot_ref i)); ("plan_hash", JStr (ei_plan_hash i))].

Definition command_name (c : CommandEnvelope) : CommandName := command_payload_name (ce_payload c).
Definition observation_name (o : ObservationEnvelope) : ObservationName :=
  observation_payload_name (oe_payload o).

Definition command_json (c : CommandEnvelope) : json :=
  JObj ([("version", JInt 1); ("command_id", JStr (ce_command_id c))]
    ++ envelope_identity_fields (ce_identity c)
    ++ [("expected_work_order_revision", JInt (ce_expected_work_order_revision c));
        ("actor", actor_json (ce_actor c)); ("name", enum_json (command_name c));
        ("payload", command_payload_json (ce_payload c));
        ("payload_hash", JStr (ce_payload_hash c))]).

Definition observation_json (o : ObservationEnvelope) : json :=
  JObj ([("version", JInt (oe_version o)); ("observation_id", JStr (oe_observation_id o))]
    ++ envelope_identity_fields (oe_identity o)
    ++ [("work_order_revision", JInt (oe_work_order_revision o));
        ("actor", actor_json (oe_actor o)); ("name", enum_json (observation_name o));
        ("payload", observation_payload_json (oe_payload o));
        ("payload_hash", JStr (oe_payload_hash o))]).

Definition normalizeActor (input : json) (path : string) (allowedTypes : list ActorType)
    : res Actor :=
  let* actor := assertExactFields input ACTOR_FIELDS ACTOR_FIELDS path in
  let* type := assertEnum (get "type" actor) allowedTypes (dot path "type") in
  let* actor_id := assertRef (get "actor_id" actor) (dot path "actor_id") in
  Ok {| act_type := type; act_actor_id := actor_id |}.

Definition assertActorProvenance (actor : Actor) (allowed : list ActorType) (path : string)
    : res Actor :=
  if bool_decide (act_type actor ∈ allowed) then Ok actor
  else invalid (dot path "type") "actor_name_mismatch".

Definition normalizeEnvelopeIdentity (envelope : fields) (path : string) : res EnvelopeIdentity :=
  let* workOrderId := assertPattern (get "work_order_id" envelope) (dot path "work_order_id")
    (prefixed_hex_pattern "WO-" 32) in
  let* planSnapshotRef := assertPattern (get "plan_snapshot_ref" envelope)
    (dot path "plan_snapshot_ref") (prefixed_hex_pattern "BPS-" 32) in
  let* planHash := assertPattern (get "plan_hash" envelope) (dot path "plan_hash")
    (hex_pattern 64) in
  reject negb (String.eqb planSnapshotRef ("BPS-" +:+ slice0 32 planHash))
    with ContractValidationError (dot path "plan_snapshot_ref") "plan_identity_mismatch" in
  Ok {| ei_work_order_id := workOrderId; ei_plan_snapshot_ref := planSnapshotRef;
        ei_plan_hash := planHash |}.

Section Envelopes.
Context `{Sha256}.

(** The payload's hash is recomputed and must be the supplied one. *)
Definition checkPayloadHash (payload : json) (supplied : json) (path : string) : res string :=
  let* payloadHash := canonicalHash payload in
  let* suppliedPayloadHash := assertPattern supplied (dot path "payload_hash") (hex_pattern 64) in
  reject negb (String.eqb suppliedPayloadHash payloadHash)
    with ContractValidationError (dot path "payload_hash") "hash_mismatch" in
  Ok payloadHash.

Definition normalizeCommandEnvelopeV1 (input : json) : res CommandEnvelope :=
  let* _ := preflightJson input "command" max_envelope_bytes in
  let* command := assertExactFields input COMMAND_FIELDS COMMAND_FIELDS "command" in
  reject negb (is_int (get "version" command) 1)
    with ContractValidationError "command.version" "version" in
  let* name := assertEnum (A := CommandName) (get "name" command) enum_all "command.name" in
  let* _ := preflightJson (get "payload" command) "command.payload" max_payload_bytes in
  let* payload := normalizeCommandPayload name (get "payload" command) in
  let* payloadHash := checkPayloadHash (command_payload_json payload)
    (get "payload_hash" command) "command" in
  let* actor := normalizeActor (get "actor" command) "command.actor" COMMAND_ACTOR_TYPES in
  let* _ := assertActorProvenance actor (COMMAND_ACTORS_BY_NAME name) "command.actor" in
  let* command_id := assertPattern (get "command_id" command) "command.command_id"
    (prefixed_hex_pattern "CMD-" 32) in
  let* identity := normalizeEnvelopeIdentity command "command" in
  let* revision := assertInteger (get "expected_work_order_revision" command)
    "command.expected_work_order_revision" 0 1000000000 in
  Ok {| ce_command_id := command_id; ce_identity := identity;
        ce_expected_work_order_revision := revision; ce_actor := actor; ce_payload := payload;
        ce_payload_hash := payloadHash |}.

(** The body the four observation normalisers share: they differ in the version, the names and
    the payload schema. *)
Definition normalizeObservationEnvelope (version : Z) (names : list ObservationName)
    (normalizePayload : ObservationName → json → res ObservationPayload) (input : json)
    : res ObservationEnvelope :=
  let* _ := preflightJson input "observation" max_envelope_bytes in
  let* observation := assertExactFields input OBSERVATION_FIELDS OBSERVATION_FIELDS
    "observation" in
  reject negb (is_int (get "version" observation) version)
    with ContractValidationError "observation.version" "version" in
  let* name := assertEnum (get "name" observation) names "observation.name" in
  let* _ := preflightJson (get "payload" observation) "observation.payload" max_payload_bytes in
  let* payload := normalizePayload name (get "payload" observation) in
  let* payloadHash := checkPayloadHash (observation_payload_json payload)
    (get "payload_hash" observation) "observation" in
  let* actor := normalizeActor (get "actor" observation) "observation.actor"
    RUNTIME_OBSERVATION_ACTOR_TYPES in
  let* _ := assertActorProvenance actor (OBSERVATION_ACTORS_BY_NAME name) "observation.actor" in
  let* observation_id := assertPattern (get "observation_id" observation)
    "observation.observation_id" (prefixed_hex_pattern "OBS-" 32) in
  let* identity := normalizeEnvelopeIdentity observation "observation" in
  let* revision := assertInteger (get "work_order_revision" observation)
    "observation.work_order_revision" 0 1000000000 in
  Ok {| oe_version := version; oe_observation_id := observation_id; oe_identity := identity;
        oe_work_order_revision := revision; oe_actor := actor; oe_payload := payload;
        oe_payload_hash := payloadHash |}.

Definition normalizeRuntimeObservationEnvelopeV1 : json → res ObservationEnvelope :=
  normalizeObservationEnvelope 1 RUNTIME_OBSERVATION_NAMES normalizeObservationPayload.
Definition normalizeEffectSettlementObservationEnvelopeV2 : json → res ObservationEnvelope :=
  normalizeObservationEnvelope 2 EFFECT_SETTLEMENT_OBSERVATION_NAMES
    (λ _, normalizeEffectSettlementPayloadV2).
Definition normalizeEffectSendExpiryObservationEnvelopeV2 : json → res ObservationEnvelope :=
  normalizeObservationEnvelope 2 EFFECT_SEND_EXPIRY_OBSERVATION_NAMES
    (λ _, normalizeEffectSendExpiryPayloadV2).
Definition normalizeEffectPresendFailureObservationEnvelopeV2 : json → res ObservationEnvelope :=
  normalizeObservationEnvelope 2 EFFECT_PRESEND_FAILURE_OBSERVATION_NAMES
    (λ _, normalizeEffectPresendFailurePayloadV2).

(** [names.includes(observation.name)] *)
Definition names_include (names : list ObservationName) (v : json) : bool :=
  match v with JStr s => includes (map enum_str names) s | _ => false end.

Definition normalizeBusinessRuntimeObservationEnvelope (input : json)
    : res ObservationEnvelope :=
  let* _ := preflightJson input "observation" max_envelope_bytes in
  let* observation := assertPlainObject input "observation" in
  if is_int (get "version" observation) 1
  then normalizeRuntimeObservationEnvelopeV1 (JObj observation)
  else if is_int (get "version" observation) 2 then
    if names_include EFFECT_SETTLEMENT_OBSERVATION_NAMES (get "name" observation)
    then normalizeEffectSettlementObservationEnvelopeV2 (JObj observation)
    else if names_include EFFECT_SEND_EXPIRY_OBSERVATION_NAMES (get "name" observation)
    then normalizeEffectSendExpiryObservationEnvelopeV2 (JObj observation)
    else normalizeEffectPresendFailureObservationEnvelopeV2 (JObj observation)
  else invalid "observation.version" "version".
End Envelopes.
