(* ===== verification/EnvelopeProps.v ===== *)
(** What the envelope normalisers guarantee: stability of every payload, the binding of payload,
    name, actor class and plan identity, and that only contract errors are thrown. *)

From Stdlib Require Import ZArith Lia String Permutation.
From stdpp Require Import base tactics list strings option.
From S2P Require Import Prelude JsString JsDate Json SettlementPolicy ContractBase PlanContract.
From S2P Require Import Envelope.
Import CONTRACT_LIMITS.

#[local] Arguments isort : simpl never.
#[local] Arguments enum_json : simpl never.
#[local] Arguments enum_all : simpl never.
#[local] Arguments includes : simpl never.
#[local] Arguments index_path : simpl never.
#[local] Arguments at_payload : simpl never.
#[local] Arguments slice0 : simpl never.
#[local] Arguments dot : simpl never.
#[local] Arguments normalizePayloadContentRefs : simpl never.
#[local] Arguments normalizePayloadRefs : simpl never.
#[local] Arguments normalizeEffectBindingPayloadV2 : simpl never.
#[local] Arguments branchAttempt : simpl never.
#[local] Arguments normalizeReviewCounts : simpl never.
#[local] Arguments assertBranchRef : simpl never.
#[local] Arguments assertDispatchId : simpl never.
#[local] Arguments assertClassification : simpl never.
#[local] Arguments assertEvidenceRefs : simpl never.
#[local] Arguments normalizeWorkerFencingToken : simpl never.
#[local] Arguments normalizeDerivedContentRef : simpl never.
#[local] Arguments normalizeRecoveryProbe : simpl never.
#[local] Arguments timestamp_json : simpl never.

#[local] Opaque assertTimestamp iso_of_ms.

(** [Ok]-inversion that also splits pairs. *)
Ltac res_inv_pairs H :=
  repeat (res_inv1 H; repeat match goal with x : (_ * _)%type |- _ => destruct x end; simpl in H).

(** ** Stability of the payloads *)

Lemma content_ref_leb_total l r : content_ref_leb l r = true ∨ content_ref_leb r l = true.
Proof. apply text_leb_total. Qed.

Lemma content_ref_leb_trans x y z :
  content_ref_leb x y = true → content_ref_leb y z = true → content_ref_leb x z = true.
Proof. apply text_leb_trans. Qed.

Lemma normalizePayloadContentRefs_stable m p p' v l :
  normalizePayloadContentRefs v p m = Ok l →
  normalizePayloadContentRefs (JArr (map content_ref_json l)) p' m = Ok l.
Proof.
  unfold normalizePayloadContentRefs. intros H. res_inv H. subst.
  rewrite (assertArray_isort_map _ _ _ _ _ _ _ _ _ _ _ E E0). cbn [bind].
  destruct (sorted_entries_stable _ _ _ _ (index_path p') _ _ content_ref_leb_total
    content_ref_leb_trans normalizeContentRef_stable E0) as [-> Hs]. cbn [bind].
  apply (assertUnique_map_isort content_ref_leb) in E1. apply assertUnique_Ok in E1.
  rewrite (proj2 (assertUnique_Ok _ p' tt) E1). cbn [bind]. by rewrite Hs.
Qed.

Lemma normalizePayloadRefs_stable m p p' v l :
  normalizePayloadRefs v p m = Ok l → normalizePayloadRefs (str_list_json l) p' m = Ok l.
Proof. apply normalizeUniqueRefs_stable. Qed.

Lemma normalizeCommandPayload_stable name v p :
  normalizeCommandPayload name v = Ok p →
  command_payload_name p = name ∧ normalizeCommandPayload name (command_payload_json p) = Ok p.
Proof.
  unfold normalizeCommandPayload. intros (payload & _ & H)%bind_Ok.
  destruct name; res_inv H; subst; (split; [done|]); simpl; renorm; try done.
  rewrite (normalizePayloadRefs_stable _ _ _ _ _ E0). by renorm.
Qed.

(** A list of fields a normaliser can read a component back from: looking the component's own
    fields up gives what the encoder wrote. *)
Fixpoint extends (fs own : fields) : Prop :=
  match own with
  | [] => True
  | (k, v) :: own' => get k fs = v ∧ extends fs own'
  end.

Lemma normalizeEffectBinding_stable fs fs' b :
  normalizeEffectBindingPayloadV2 fs = Ok b → extends fs' (effect_binding_fields b) →
  normalizeEffectBindingPayloadV2 fs' = Ok b.
Proof.
  intros H He. unfold normalizeEffectBindingPayloadV2, assertBranchRef, assertAttempt,
    assertDispatchId in *. res_inv H. subst.
  destruct He as (-> & -> & -> & -> & -> & -> & _). simpl.
  change (assertInteger (JInt 2) (at_payload "effect_contract_version") 2 2) with (Ok 2%Z).
  by renorm.
Qed.

Lemma branchAttempt_stable fs fs' b a :
  branchAttempt fs = Ok (b, a) → extends fs' (branch_attempt_fields b a) →
  branchAttempt fs' = Ok (b, a).
Proof.
  intros H He. unfold branchAttempt, assertBranchRef, assertAttempt in *. res_inv H. simplify_eq.
  destruct He as (-> & -> & _). by renorm.
Qed.

Lemma normalizeReviewCounts_stable fs f fs' :
  normalizeReviewCounts fs = Ok f →
  extends fs' [("critical", JInt (rf_critical f)); ("important", JInt (rf_important f));
    ("minor", JInt (rf_minor f))] →
  normalizeReviewCounts fs' = Ok f.
Proof.
  unfold normalizeReviewCounts. intros H (-> & -> & -> & _). res_inv H. subst. simpl. by renorm.
Qed.

Lemma normalizeDerivedContentRef_stable pre p p' v r :
  normalizeDerivedContentRef v p pre = Ok r →
  normalizeDerivedContentRef (content_ref_json r) p' pre = Ok r.
Proof. unfold normalizeDerivedContentRef. intros H. res_inv H. subst. by renorm. Qed.

Lemma normalizeWorkerFencingToken_stable : stable normalizeWorkerFencingToken fencing_token_json.
Proof.
  intros p p' v t. unfold normalizeWorkerFencingToken. intros H. res_inv H. subst.
  unfold fencing_token_json. rewrite assertExactFields_JObj by reflexivity. simpl. by renorm.
Qed.

Lemma normalizeRecoveryProbe_stable : stable normalizeRecoveryProbe recovery_probe_json.
Proof.
  intros p p' v t. unfold normalizeRecoveryProbe. intros H. res_inv H. subst.
  unfold recovery_probe_json. rewrite assertExactFields_JObj by reflexivity. simpl.
  rewrite (normalizeDerivedContentRef_stable _ _ _ _ _ E0). by renorm.
Qed.

(** [renorm] for the envelope's components. *)
Ltac renorm_payload1 :=
  match goal with
  | E : branchAttempt ?fs = Ok (?b, ?a) |- context [branchAttempt ?fs'] =>
      rewrite (branchAttempt_stable fs fs' b a E) by (repeat split)
  | E : normalizeEffectBindingPayloadV2 ?fs = Ok ?b
      |- context [normalizeEffectBindingPayloadV2 ?fs'] =>
      rewrite (normalizeEffectBinding_stable fs fs' b E) by (repeat split)
  | E : normalizeReviewCounts ?fs = Ok ?f |- context [normalizeReviewCounts ?fs'] =>
      rewrite (normalizeReviewCounts_stable fs f fs' E) by (repeat split)
  | E : normalizeUniqueRefs ?v ?p ?lo ?hi = Ok ?l
      |- context [normalizeUniqueRefs (str_list_json ?l) ?q ?lo ?hi] =>
      rewrite (normalizeUniqueRefs_stable lo hi p q v l E)
  | E : normalizePayloadContentRefs ?v ?p ?m = Ok ?l
      |- context [normalizePayloadContentRefs (JArr (map content_ref_json ?l)) ?q ?m] =>
      rewrite (normalizePayloadContentRefs_stable m p q v l E)
  | E : normalizeDerivedContentRef ?v ?p ?pre = Ok ?r
      |- context [normalizeDerivedContentRef (content_ref_json ?r) ?q ?pre] =>
      rewrite (normalizeDerivedContentRef_stable pre p q v r E)
  | E : normalizeWorkerFencingToken ?v ?p = Ok ?t
      |- context [normalizeWorkerFencingToken (fencing_token_json ?t) ?q] =>
      rewrite (normalizeWorkerFencingToken_stable p q v t E)
  | E : normalizeRecoveryProbe ?v ?p = Ok ?t
      |- context [normalizeRecoveryProbe (recovery_probe_json ?t) ?q] =>
      rewrite (normalizeRecoveryProbe_stable p q v t E)
  | E : assertTimestamp ?v ?p = Ok ?t |- context [assertTimestamp (timestamp_json ?t) ?q] =>
      unfold timestamp_json; rewrite (assertTimestamp_stable p q v t E)
  end.
Ltac renorm_payload := repeat first [renorm1 | renorm_payload1 | progress cbn [bind]].

Lemma normalizeObservationPayload_stable name v p :
  normalizeObservationPayload name v = Ok p →
  observation_payload_name p = name
  ∧ normalizeObservationPayload name (observation_payload_json p) = Ok p.
Proof.
  unfold normalizeObservationPayload. intros (payload & _ & H)%bind_Ok.
  destruct name; unfold assertBranchRef, assertDispatchId, assertClassification,
    assertEvidenceRefs, normalizePayloadRefs in *;
    res_inv_pairs H; subst; (split; [done|]); simpl; by renorm_payload.
Qed.

(** A payload normaliser for the given names that names its result and is stable. *)
Definition payload_stable (names : list ObservationName)
    (norm : ObservationName → json → res ObservationPayload) : Prop :=
  ∀ name v p, name ∈ names → norm name v = Ok p →
    observation_payload_name p = name ∧ norm name (observation_payload_json p) = Ok p.

Lemma payload_stable_V1 : payload_stable RUNTIME_OBSERVATION_NAMES normalizeObservationPayload.
Proof. intros name v p _. apply normalizeObservationPayload_stable. Qed.

Lemma payload_stable_settlement :
  payload_stable EFFECT_SETTLEMENT_OBSERVATION_NAMES (λ _, normalizeEffectSettlementPayloadV2).
Proof.
  intros name v p ->%list_elem_of_singleton. unfold normalizeEffectSettlementPayloadV2,
    assertClassification. intros H. res_inv H. subst. split; [done|].
  destruct v1; simpl in E4; res_inv E4; subst; simpl; by renorm_payload.
Qed.

Lemma payload_stable_expiry :
  payload_stable EFFECT_SEND_EXPIRY_OBSERVATION_NAMES (λ _, normalizeEffectSendExpiryPayloadV2).
Proof.
  intros name v p ->%list_elem_of_singleton. unfold normalizeEffectSendExpiryPayloadV2.
  intros H. res_inv H. subst. split; [done|]. simpl. by renorm_payload.
Qed.

Lemma payload_stable_presend :
  payload_stable EFFECT_PRESEND_FAILURE_OBSERVATION_NAMES
    (λ _, normalizeEffectPresendFailurePayloadV2).
Proof.
  intros name v p ->%list_elem_of_singleton. unfold normalizeEffectPresendFailurePayloadV2.
  intros H. res_inv H. subst. split; [done|]. simpl. by renorm_payload.
Qed.

(** ** Envelopes *)

Lemma assertActorProvenance_Ok actor allowed path a :
  assertActorProvenance actor allowed path = Ok a → a = actor ∧ act_type actor ∈ allowed.
Proof. unfold assertActorProvenance. intros H. res_inv H. split_bools. by subst. Qed.

Lemma normalizeActor_stable p p' v l a :
  normalizeActor v p l = Ok a → normalizeActor (actor_json a) p' l = Ok a.
Proof.
  unfold normalizeActor. intros H. res_inv H. subst. unfold actor_json.
  rewrite assertExactFields_JObj by reflexivity. simpl. by renorm.
Qed.

Lemma normalizeEnvelopeIdentity_Ok fs p i :
  normalizeEnvelopeIdentity fs p = Ok i →
  ei_plan_snapshot_ref i = "BPS-" +:+ slice0 32 (ei_plan_hash i)
  ∧ hex_pattern 64 (ei_plan_hash i) = true ∧ prefixed_hex_pattern "WO-" 32 (ei_work_order_id i) = true.
Proof.
  unfold normalizeEnvelopeIdentity. intros H. res_inv H. subst.
  apply assertPattern_Ok in E, E1. split_bools. by apply String.eqb_eq in B.
Qed.

Lemma normalizeEnvelopeIdentity_stable fs p i fs' p' :
  normalizeEnvelopeIdentity fs p = Ok i → extends fs' (envelope_identity_fields i) →
  normalizeEnvelopeIdentity fs' p' = Ok i.
Proof.
  unfold normalizeEnvelopeIdentity. intros H (-> & -> & -> & _). res_inv H. subst. simpl. by renorm.
Qed.

Section EnvelopeProps.
Context `{Sha256}.

Lemma checkPayloadHash_Ok payload supplied path h :
  checkPayloadHash payload supplied path = Ok h →
  canonicalHash payload = Ok h ∧ supplied = JStr h
  ∧ ∀ path', checkPayloadHash payload (JStr h) path' = Ok h.
Proof.
  unfold checkPayloadHash. intros Hc. res_inv Hc. subst. split_bools.
  apply String.eqb_eq in B as ->. split; [done|]. split.
  - unfold assertPattern in E0. destruct supplied; try done. res_inv E0. by subst.
  - intros path'. rewrite E. cbn [bind]. renorm. by rewrite String.eqb_refl.
Qed.

Lemma normalizeCommandEnvelope_stable input c t1 t2 :
  normalizeCommandEnvelopeV1 input = Ok c →
  preflightJson (command_json c) "command" max_envelope_bytes = Ok t1 →
  preflightJson (command_payload_json (ce_payload c)) "command.payload" max_payload_bytes = Ok t2 →
  normalizeCommandEnvelopeV1 (command_json c) = Ok c.
Proof.
  intros Hn Ht1 Ht2. unfold normalizeCommandEnvelopeV1 in Hn |- *. rewrite Ht1. cbn [bind].
  res_inv Hn. subst. destruct (normalizeCommandPayload_stable _ _ _ E3) as [Hname Hp].
  destruct (checkPayloadHash_Ok _ _ _ _ E4) as (_ & _ & Hh). simpl in Ht2.
  unfold command_json. rewrite assertExactFields_JObj by reflexivity. cbn [bind].
  cbn [envelope_identity_fields app get String.eqb Ascii.eqb Bool.eqb is_int negb Z.eqb Pos.eqb].
  unfold command_name. cbn [ce_payload ce_command_id ce_identity ce_actor
    ce_expected_work_order_revision ce_payload_hash]. rewrite Hname. renorm.
  rewrite Ht2. renorm. rewrite Hp. renorm. rewrite Hh. renorm.
  rewrite (normalizeActor_stable _ "command.actor" _ _ _ E5). renorm. rewrite E6. renorm.
  rewrite (normalizeEnvelopeIdentity_stable _ _ _ _ "command" E8) by (by repeat split). by renorm.
Qed.

Lemma normalizeObservationEnvelope_stable version names norm input o t1 t2 :
  payload_stable names norm →
  normalizeObservationEnvelope version names norm input = Ok o →
  preflightJson (observation_json o) "observation" max_envelope_bytes = Ok t1 →
  preflightJson (observation_payload_json (oe_payload o)) "observation.payload" max_payload_bytes
    = Ok t2 →
  normalizeObservationEnvelope version names norm (observation_json o) = Ok o.
Proof.
  intros Hst Hn Ht1 Ht2. unfold normalizeObservationEnvelope in Hn |- *. rewrite Ht1. cbn [bind].
  res_inv Hn. subst. pose proof (assertEnum_Ok _ _ _ _ E1) as Hin.
  destruct (Hst _ _ _ Hin E3) as [Hname Hp].
  destruct (checkPayloadHash_Ok _ _ _ _ E4) as (_ & _ & Hh). simpl in Ht2.
  unfold observation_json. rewrite assertExactFields_JObj by reflexivity. cbn [bind].
  cbn [envelope_identity_fields app get String.eqb Ascii.eqb Bool.eqb].
  unfold observation_name. cbn [oe_payload oe_observation_id oe_identity oe_actor
    oe_work_order_revision oe_payload_hash oe_version]. rewrite Hname.
  cbn [is_int]. rewrite Z.eqb_refl. cbn [negb]. renorm.
  rewrite Ht2. renorm. rewrite Hp. renorm. rewrite Hh. renorm.
  rewrite (normalizeActor_stable _ "observation.actor" _ _ _ E5). renorm. rewrite E6. renorm.
  rewrite (normalizeEnvelopeIdentity_stable _ _ _ _ "observation" E8) by (by repeat split).
  by renorm.
Qed.
End EnvelopeProps.

(** ** The dispatcher *)

Section Dispatch.
Context `{Sha256}.

Inductive dispatched (input : json) (o : ObservationEnvelope) : Prop :=
| dispatched_V1 :
    oe_version o = 1%Z → observation_name o ∈ RUNTIME_OBSERVATION_NAMES →
    normalizeRuntimeObservationEnvelopeV1 input = Ok o → dispatched input o
| dispatched_settlement :
    oe_version o = 2%Z → observation_name o = NSettlement →
    normalizeEffectSettlementObservationEnvelopeV2 input = Ok o → dispatched input o
| dispatched_expiry :
    oe_version o = 2%Z → observation_name o = NSendExpiry →
    normalizeEffectSendExpiryObservationEnvelopeV2 input = Ok o → dispatched input o
| dispatched_presend :
    oe_version o = 2%Z → observation_name o = NPresendFailure →
    normalizeEffectPresendFailureObservationEnvelopeV2 input = Ok o → dispatched input o.

Lemma normalizeObservationEnvelope_Ok version names norm input o :
  payload_stable names norm → normalizeObservationEnvelope version names norm input = Ok o →
  oe_version o = version ∧ observation_name o ∈ names
  ∧ canonicalHash (observation_payload_json (oe_payload o)) = Ok (oe_payload_hash o)
  ∧ act_type (oe_actor o) ∈ OBSERVATION_ACTORS_BY_NAME (observation_name o)
  ∧ ei_plan_snapshot_ref (oe_identity o) = "BPS-" +:+ slice0 32 (ei_plan_hash (oe_identity o))
  ∧ (0 <= oe_work_order_revision o <= 1000000000)%Z.
Proof.
  intros Hst. unfold normalizeObservationEnvelope. intros Hn. res_inv Hn. subst.
  pose proof (assertEnum_Ok _ _ _ _ E1) as Hin. destruct (Hst _ _ _ Hin E3) as [Hname _].
  apply checkPayloadHash_Ok in E4 as (Hh & _ & _).
  apply assertActorProvenance_Ok in E6 as [_ Ha].
  apply normalizeEnvelopeIdentity_Ok in E8 as (Hid & _ & _).
  apply assertInteger_Ok in E9 as [_ Hr].
  unfold observation_name. cbn [oe_payload oe_version oe_payload_hash oe_actor oe_identity
    oe_work_order_revision]. rewrite Hname. split_and!; done || lia.
Qed.

Lemma dispatch_Ok input o :
  normalizeBusinessRuntimeObservationEnvelope input = Ok o → dispatched input o.
Proof.
  unfold normalizeBusinessRuntimeObservationEnvelope. intros (t & _ & Hn)%bind_Ok.
  apply bind_Ok in Hn as (fs & ->%assertPlainObject_Ok & Hn).
  repeat match goal with Hn : (if ?b then _ else _) = Ok _ |- _ => destruct b end; try done.
  - pose proof (normalizeObservationEnvelope_Ok _ _ _ _ _ payload_stable_V1 Hn) as (? & ? & _).
    by apply dispatched_V1.
  - pose proof (normalizeObservationEnvelope_Ok _ _ _ _ _ payload_stable_settlement Hn)
      as (? & ?%list_elem_of_singleton & _). by apply dispatched_settlement.
  - pose proof (normalizeObservationEnvelope_Ok _ _ _ _ _ payload_stable_expiry Hn)
      as (? & ?%list_elem_of_singleton & _). by apply dispatched_expiry.
  - pose proof (normalizeObservationEnvelope_Ok _ _ _ _ _ payload_stable_presend Hn)
      as (? & ?%list_elem_of_singleton & _). by apply dispatched_presend.
Qed.

Lemma dispatched_body input o :
  dispatched input o → ∃ version names norm,
    payload_stable names norm ∧ normalizeObservationEnvelope version names norm input = Ok o.
Proof.
  intros []; do 3 eexists; (split; [|eassumption]);
    [apply payload_stable_V1 | apply payload_stable_settlement | apply payload_stable_expiry
    | apply payload_stable_presend].
Qed.

Lemma dispatch_observation_json o t :
  preflightJson (observation_json o) "observation" max_envelope_bytes = Ok t →
  dispatched (observation_json o) o →
  normalizeBusinessRuntimeObservationEnvelope (observation_json o) = Ok o.
Proof.
  intros Ht Hd. unfold normalizeBusinessRuntimeObservationEnvelope. rewrite Ht. cbn [bind].
  assert (∃ fs, observation_json o = JObj fs ∧ get "version" fs = JInt (oe_version o)
    ∧ get "name" fs = enum_json (observation_name o)) as (fs & Hj & Hv & Hname)
    by (eexists; repeat split).
  rewrite Hj in *. unfold assertPlainObject. cbn [bind]. rewrite Hv, Hname.
  destruct Hd as [-> _ Hn | -> -> Hn | -> -> Hn | -> -> Hn]; exact Hn.
Qed.
End Dispatch.

(** ** Only contract errors *)

#[local] Transparent assertTimestamp.

Ltac contract_of f := unfold f; contract_tac.

Lemma contract_only_branchAttempt fs : contract_only (branchAttempt fs).
Proof. unfold branchAttempt, assertBranchRef, assertAttempt. contract_tac. Qed.

Lemma contract_only_effectBinding fs : contract_only (normalizeEffectBindingPayloadV2 fs).
Proof.
  unfold normalizeEffectBindingPayloadV2, assertBranchRef, assertAttempt, assertDispatchId.
  contract_tac.
Qed.

Lemma contract_only_reviewCounts fs : contract_only (normalizeReviewCounts fs).
Proof. contract_of normalizeReviewCounts. Qed.

Lemma contract_only_payloadContentRefs v p m : contract_only (normalizePayloadContentRefs v p m).
Proof. contract_of normalizePayloadContentRefs. Qed.

Lemma contract_only_payloadRefs v p m : contract_only (normalizePayloadRefs v p m).
Proof. contract_of normalizePayloadRefs. Qed.

Lemma contract_only_derivedContentRef v p pre : contract_only (normalizeDerivedContentRef v p pre).
Proof. contract_of normalizeDerivedContentRef. Qed.

Lemma contract_only_fencingToken v p : contract_only (normalizeWorkerFencingToken v p).
Proof. contract_of normalizeWorkerFencingToken. Qed.

#[export] Hint Resolve contract_only_branchAttempt contract_only_effectBinding
  contract_only_reviewCounts contract_only_payloadContentRefs contract_only_payloadRefs
  contract_only_derivedContentRef contract_only_fencingToken : contract.

Lemma contract_only_recoveryProbe v p : contract_only (normalizeRecoveryProbe v p).
Proof. contract_of normalizeRecoveryProbe. Qed.
#[export] Hint Resolve contract_only_recoveryProbe : contract.

Lemma contract_only_commandPayload name v : contract_only (normalizeCommandPayload name v).
Proof. contract_of normalizeCommandPayload. Qed.

Lemma contract_only_observationPayload name v : contract_only (normalizeObservationPayload name v).
Proof.
  unfold normalizeObservationPayload, assertBranchRef, assertDispatchId, assertClassification,
    assertEvidenceRefs. contract_tac.
Qed.

Lemma contract_only_settlementPayload v : contract_only (normalizeEffectSettlementPayloadV2 v).
Proof.
  unfold normalizeEffectSettlementPayloadV2, assertClassification, normalizeSettlementEvidence.
  contract_tac.
Qed.

Lemma contract_only_expiryPayload v : contract_only (normalizeEffectSendExpiryPayloadV2 v).
Proof. contract_of normalizeEffectSendExpiryPayloadV2. Qed.

Lemma contract_only_presendPayload v : contract_only (normalizeEffectPresendFailurePayloadV2 v).
Proof. contract_of normalizeEffectPresendFailurePayloadV2. Qed.

Lemma contract_only_actor v p l : contract_only (normalizeActor v p l).
Proof. contract_of normalizeActor. Qed.

Lemma contract_only_provenance a l p : contract_only (assertActorProvenance a l p).
Proof. contract_of assertActorProvenance. Qed.

Lemma contract_only_identity fs p : contract_only (normalizeEnvelopeIdentity fs p).
Proof. contract_of normalizeEnvelopeIdentity. Qed.

#[export] Hint Resolve contract_only_commandPayload contract_only_observationPayload
  contract_only_settlementPayload contract_only_expiryPayload contract_only_presendPayload
  contract_only_actor contract_only_provenance contract_only_identity : contract.

Lemma plain_command_payload p : plain (command_payload_json p) = true.
Proof. destruct p; simpl; try done. fold (forallb plain). by rewrite (plain_map JStr). Qed.

Lemma plain_observation_payload p : plain (observation_payload_json p) = true.
Proof.
  destruct p as [| | | | | | | | | | | | | | | |b c []| |]; simpl; try done;
    by rewrite ?(plain_map JStr), ?(plain_map content_ref_json).
Qed.

Section ContractErrors.
Context `{Sha256}.

Lemma contract_only_payloadHash payload v p :
  plain payload = true → contract_only (checkPayloadHash payload v p).
Proof.
  intros Hp. unfold checkPayloadHash.
  apply contract_only_bind; [by apply contract_only_canonicalHash|]. contract_tac.
Qed.

#[local] Hint Resolve contract_only_payloadHash plain_command_payload plain_observation_payload
  : contract.

Lemma contract_only_command input : contract_only (normalizeCommandEnvelopeV1 input).
Proof. unfold normalizeCommandEnvelopeV1. contract_tac. Qed.

Lemma contract_only_observationEnvelope version names norm input :
  (∀ name v, contract_only (norm name v)) →
  contract_only (normalizeObservationEnvelope version names norm input).
Proof.
  intros Hnorm. unfold normalizeObservationEnvelope. contract_tac.
Qed.

Lemma contract_only_observation input :
  contract_only (normalizeBusinessRuntimeObservationEnvelope input).
Proof.
  unfold normalizeBusinessRuntimeObservationEnvelope.
  do 2 (apply contract_only_bind; [auto with contract | intros ? _]).
  repeat apply contract_only_if; try apply contract_only_invalid;
    apply contract_only_observationEnvelope; auto with contract.
Qed.

(** The command and observation normalisers throw nothing but contract errors, so the
    fail-closed wrapper around them never has to convert an error. *)
Theorem envelopes_throw_contract_errors input :
  contract_only (normalizeCommandEnvelopeV1 input)
  ∧ contract_only (normalizeBusinessRuntimeObservationEnvelope input)
  ∧ failClosedNormalizer "command" normalizeCommandEnvelopeV1 input
      = normalizeCommandEnvelopeV1 input
  ∧ failClosedNormalizer "observation" normalizeBusinessRuntimeObservationEnvelope input
      = normalizeBusinessRuntimeObservationEnvelope input.
Proof.
  split; [apply contract_only_command|]. split; [apply contract_only_observation|].
  split; apply failClosed_contract_only; [apply contract_only_command|].
  apply contract_only_observation.
Qed.

(** An accepted command is bound: its payload hash is the canonical hash of the payload the
    normaliser returns, its plan reference is cut from its plan hash, its actor is of a class
    the command's name allows, and its revision is in range. *)
Theorem command_envelope_bound input c :
  normalizeCommandEnvelopeV1 input = Ok c →
  canonicalHash (command_payload_json (ce_payload c)) = Ok (ce_payload_hash c)
  ∧ ei_plan_snapshot_ref (ce_identity c) = "BPS-" +:+ slice0 32 (ei_plan_hash (ce_identity c))
  ∧ act_type (ce_actor c) ∈ COMMAND_ACTORS_BY_NAME (command_name c)
  ∧ prefixed_hex_pattern "CMD-" 32 (ce_command_id c) = true
  ∧ (0 <= ce_expected_work_order_revision c <= 1000000000)%Z.
Proof.
  unfold normalizeCommandEnvelopeV1. intros Hn. res_inv Hn. subst.
  destruct (normalizeCommandPayload_stable _ _ _ E3) as [Hname _].
  apply checkPayloadHash_Ok in E4 as (Hh & _ & _).
  apply assertActorProvenance_Ok in E6 as [_ Ha]. apply assertPattern_Ok in E7.
  apply normalizeEnvelopeIdentity_Ok in E8 as (Hid & _ & _). apply assertInteger_Ok in E9 as [_ Hr].
  unfold command_name. cbn [ce_payload ce_command_id ce_identity ce_actor
    ce_expected_work_order_revision ce_payload_hash]. rewrite Hname. split_and!; done || lia.
Qed.

(** An accepted observation is bound in the same way, and its version agrees with its
    name: version 1 carries the runtime observations, version 2 the provider settlements. *)
Theorem observation_envelope_bound input o :
  normalizeBusinessRuntimeObservationEnvelope input = Ok o →
  canonicalHash (observation_payload_json (oe_payload o)) = Ok (oe_payload_hash o)
  ∧ ei_plan_snapshot_ref (oe_identity o) = "BPS-" +:+ slice0 32 (ei_plan_hash (oe_identity o))
  ∧ act_type (oe_actor o) ∈ OBSERVATION_ACTORS_BY_NAME (observation_name o)
  ∧ oe_version o
    = (if bool_decide (observation_name o ∈ RUNTIME_OBSERVATION_NAMES) then 1 else 2)%Z
  ∧ (0 <= oe_work_order_revision o <= 1000000000)%Z.
Proof.
  intros Hd%dispatch_Ok.
  assert (oe_version o
    = (if bool_decide (observation_name o ∈ RUNTIME_OBSERVATION_NAMES) then 1 else 2)%Z).
  { destruct Hd as [-> Hin _ | -> -> _ | -> -> _ | -> -> _]; [|reflexivity..].
    by rewrite bool_decide_eq_true_2. }
  apply dispatched_body in Hd as (version & names & norm & Hst & Hn).
  apply normalizeObservationEnvelope_Ok in Hn as (_ & _ & ? & ? & ? & ?); [|done].
  split_and!; done || lia.
Qed.

(** A command normalised and written out is accepted again unchanged. *)
Theorem command_envelope_idempotent input c t1 t2 :
  normalizeCommandEnvelopeV1 input = Ok c →
  preflightJson (command_json c) "command" max_envelope_bytes = Ok t1 →
  preflightJson (command_payload_json (ce_payload c)) "command.payload" max_payload_bytes = Ok t2 →
  normalizeCommandEnvelopeV1 (command_json c) = Ok c.
Proof. apply normalizeCommandEnvelope_stable. Qed.

(** An observation, of either version, normalised and written out is accepted again
    unchanged and through the same branch of the dispatcher. *)
Theorem observation_envelope_idempotent input o t1 t2 :
  normalizeBusinessRuntimeObservationEnvelope input = Ok o →
  preflightJson (observation_json o) "observation" max_envelope_bytes = Ok t1 →
  preflightJson (observation_payload_json (oe_payload o)) "observation.payload" max_payload_bytes
    = Ok t2 →
  normalizeBusinessRuntimeObservationEnvelope (observation_json o) = Ok o.
Proof.
  intros Hd%dispatch_Ok Ht1 Ht2. eapply dispatch_observation_json; [done|].
  destruct Hd as [? ? Hn | ? ? Hn | ? ? Hn | ? ? Hn];
    [apply dispatched_V1 | apply dispatched_settlement | apply dispatched_expiry
    | apply dispatched_presend]; try done; eapply normalizeObservationEnvelope_stable; eauto using
      payload_stable_V1, payload_stable_settlement, payload_stable_expiry, payload_stable_presend.
Qed.
End ContractErrors.

(** ** Sample envelopes, for the witnesses *)

#[local] Transparent iso_of_ms.

Definition hexid (prefix : string) (v : N) : json := JStr (prefix +:+ hex_digits 32 v).

(** An envelope around a payload, with its hash. *)
Definition sample_envelope (version : Z) (id_field id_prefix revision_field actor name : string)
    (payload : json) : json :=
  JObj [("version", JInt version); (id_field, hexid id_prefix 1);
        ("work_order_id", hexid "WO-" 2); ("plan_snapshot_ref", hexid "BPS-" 3);
        ("plan_hash", JStr (hex_digits 64 3)); (revision_field, JInt 4);
        ("actor", JObj [("type", JStr actor); ("actor_id", JStr "actor-1")]);
        ("name", JStr name); ("payload", payload);
        ("payload_hash", match canonicalHash (H := checksum_sha) payload with
           | Ok h => JStr h | Err _ => JUndef end)].

Definition sample_command : json :=
  sample_envelope 1 "command_id" "CMD-" "expected_work_order_revision" "user"
    "work_order.cancel.request" (JObj [("reason", JStr "stop")]).

Definition sample_settlement : json :=
  sample_envelope 2 "observation_id" "OBS-" "work_order_revision" "runtime"
    "provider.effect.settlement.recorded"
    (observation_payload_json (SettlementPayload
      {| eb_effect_id := "FX-" +:+ hex_digits 32 5; eb_effect_kind := TurnStart;
         eb_branch_ref := "a"; eb_attempt := 1; eb_dispatch_id := "DSP-" +:+ hex_digits 32 6 |}
      CAccepted
      (WorkerEvidence {| ft_lease_id := "lease"; ft_owner_id := "owner"; ft_generation := 1 |}
         {| cr_id := "WRR-" +:+ hex_digits 32 7; cr_hash := hex_digits 64 7 |}))).

Lemma sample_command_accepted :
  is_ok (normalizeCommandEnvelopeV1 (H := checksum_sha) sample_command) = true.
Proof. vm_compute. reflexivity. Defined.

Lemma sample_settlement_accepted :
  is_ok (normalizeBusinessRuntimeObservationEnvelope (H := checksum_sha) sample_settlement) = true.
Proof. vm_compute. reflexivity. Defined.

Definition sample_command_envelope : CommandEnvelope := ok_get _ sample_command_accepted.
Definition sample_observation_envelope : ObservationEnvelope := ok_get _ sample_settlement_accepted.

Lemma sample_command_fits :
  is_ok (preflightJson (command_json sample_command_envelope) "command" max_envelope_bytes) = true
  ∧ is_ok (preflightJson (command_payload_json (ce_payload sample_command_envelope))
      "command.payload" max_payload_bytes) = true.
Proof. split; vm_compute; reflexivity. Defined.

Lemma sample_observation_fits :
  is_ok (preflightJson (observation_json sample_observation_envelope) "observation"
    max_envelope_bytes) = true
  ∧ is_ok (preflightJson (observation_payload_json (oe_payload sample_observation_envelope))
      "observation.payload" max_payload_bytes) = true.
Proof. split; vm_compute; reflexivity. Defined.

Lemma command_envelope_bound_witness :
  act_type (ce_actor sample_command_envelope) ∈ COMMAND_ACTORS_BY_NAME (command_name sample_command_envelope).
Proof.
  exact (proj1 (proj2 (proj2 (command_envelope_bound (H := checksum_sha) sample_command
    sample_command_envelope (ok_get_eq _ sample_command_accepted))))).
Defined.

Lemma observation_envelope_bound_witness :
  act_type (oe_actor sample_observation_envelope) ∈ OBSERVATION_ACTORS_BY_NAME (observation_name sample_observation_envelope)
  ∧ observation_name sample_observation_envelope = NSettlement.
Proof.
  split; [|vm_compute; reflexivity].
  exact (proj1 (proj2 (proj2 (observation_envelope_bound (H := checksum_sha) sample_settlement
    sample_observation_envelope (ok_get_eq _ sample_settlement_accepted))))).
Defined.

Lemma command_envelope_idempotent_witness :
  normalizeCommandEnvelopeV1 (H := checksum_sha) (command_json sample_command_envelope)
    = Ok sample_command_envelope.
Proof.
  exact (command_envelope_idempotent (H := checksum_sha) sample_command sample_command_envelope _ _
    (ok_get_eq _ sample_command_accepted) (ok_get_eq _ (proj1 sample_command_fits))
    (ok_get_eq _ (proj2 sample_command_fits))).
Defined.

Lemma observation_envelope_idempotent_witness :
  normalizeBusinessRuntimeObservationEnvelope (H := checksum_sha)
    (observation_json sample_observation_envelope) = Ok sample_observation_envelope.
Proof.
  exact (observation_envelope_idempotent (H := checksum_sha) sample_settlement
    sample_observation_envelope _ _
    (ok_get_eq _ sample_settlement_accepted) (ok_get_eq _ (proj1 sample_observation_fits))
    (ok_get_eq _ (proj2 sample_observation_fits))).
Defined.
