(* ===== verification/WorkOrderState.v ===== *)
(** The Work Order aggregate ([packages/business-orchestrator/src/state-machine.js], lines 24-110
    and 1006-1037): its status vocabularies, the record of a branch and of the whole state, and
    their JSON forms.

    A state is the record the projector stores, decoded.  A field that is absent and a field that
    is [null] are identified (both [None]); timestamps are milliseconds (their canonical text is
    [timestamp_json]); objects used as maps are finite maps.  [attempt_history] is written only
    by the projector and is left out. *)

From Stdlib Require Import ZArith Lia String.
From stdpp Require Import base tactics list strings option gmap.
From S2P Require Import Prelude JsString JsDate Json SettlementPolicy ContractBase PlanContract.
From S2P Require Import Envelope.

(** ** Vocabulary *)

(** [WORK_ORDER_STATES] *)
Inductive WorkOrderStatus :=
| WStarting | WRunning | WPaused | WAwaitingAcceptance | WCancelling | WAccepted | WFailed
| WCancelled.
#[export] Instance WorkOrderStatus_eq_dec : EqDecision WorkOrderStatus.
Proof. solve_decision. Defined.
#[export] Instance WorkOrderStatus_enum : JsEnum WorkOrderStatus := {|
  enum_all := [WStarting; WRunning; WPaused; WAwaitingAcceptance; WCancelling; WAccepted; WFailed;
    WCancelled];
  enum_str s := match s with
    | WStarting => "starting" | WRunning => "running" | WPaused => "paused"
    | WAwaitingAcceptance => "awaiting_acceptance" | WCancelling => "cancelling"
    | WAccepted => "accepted" | WFailed => "failed" | WCancelled => "cancelled" end |}.
#[export] Instance WorkOrderStatus_laws : JsEnumLaws WorkOrderStatus.
Proof. enum_laws. Qed.

(** [BRANCH_STATES] *)
Inductive BranchState :=
| BBlocked | BReady | BDispatchPending | BRunning | BWaitingForUser | BVerifying | BAccepted
| BRetryable | BDeliveryUnknown | BCancelling | BFailed | BCancelled.
#[export] Instance BranchState_eq_dec : EqDecision BranchState.
Proof. solve_decision. Defined.
#[export] Instance BranchState_enum : JsEnum BranchState := {|
  enum_all := [BBlocked; BReady; BDispatchPending; BRunning; BWaitingForUser; BVerifying;
    BAccepted; BRetryable; BDeliveryUnknown; BCancelling; BFailed; BCancelled];
  enum_str s := match s with
    | BBlocked => "blocked" | BReady => "ready" | BDispatchPending => "dispatch_pending"
    | BRunning => "running" | BWaitingForUser => "waiting_for_user" | BVerifying => "verifying"
    | BAccepted => "accepted" | BRetryable => "retryable"
    | BDeliveryUnknown => "delivery_unknown" | BCancelling => "cancelling"
    | BFailed => "failed" | BCancelled => "cancelled" end |}.
#[export] Instance BranchState_laws : JsEnumLaws BranchState.
Proof. enum_laws. Qed.

Definition TERMINAL_WORK_ORDER_STATES : list WorkOrderStatus := [WAccepted; WFailed; WCancelled].
Definition TERMINAL_BRANCH_STATES : list BranchState := [BAccepted; BFailed; BCancelled].
Definition SLOT_BRANCH_STATES : list BranchState :=
  [BDispatchPending; BRunning; BWaitingForUser; BDeliveryUnknown; BCancelling].

(** Membership in one of the code's constant sets. *)
Definition among {A} `{EqDecision A} (l : list A) (a : A) : bool := bool_decide (a ∈ l).

Definition CURRENT_ATTEMPT_OBSERVATIONS : list ObservationName :=
  [NSettlement; NSendExpiry; NPresendFailure; NDeliveryRecorded; NDispatchAccepted;
   NDispatchNotSent; NProgress; NResultSubmitted; NFailed; NTimedOut; NDeliveryUnknown;
   NBranchCancelled; NRateLimited; NUnavailable].
Definition CURRENT_DISPATCH_OBSERVATIONS : list ObservationName :=
  [NSettlement; NSendExpiry; NPresendFailure; NDeliveryRecorded; NDispatchAccepted;
   NDispatchNotSent; NDeliveryUnknown].
Definition EXECUTION_WINDOW_OBSERVATIONS : list ObservationName :=
  [NProgress; NResultSubmitted; NUserInputRequested].
Definition TURN_BOUND_OBSERVATIONS : list ObservationName :=
  [NProgress; NResultSubmitted; NFailed; NUserInputRequested].

(** [REVIEW_COUNTS] *)
Definition REVIEW_COUNTS (m : ReviewMinimum) : Z :=
  match m with ReviewLight => 0 | ReviewNormal => 1 | ReviewStrict => 2 end.

(** ** The branch record *)

Record RuntimeIdentity := {
  ri_operation_id : option string;
  ri_thread_id : option string;
  ri_turn_id : option string;
}.
#[export] Instance RuntimeIdentity_eq_dec : EqDecision RuntimeIdentity.
Proof. solve_decision. Defined.

Record Delivery := { de_classification : Classification; de_observed_at : Z }.

Record OpenUserInput := {
  oui_request_id : string;
  oui_prompt_ref : ContentRef;
  oui_requested_at : Z;
}.

Record BranchResult := {
  rs_attempt : Z;
  rs_artifact_refs : list ContentRef;
  rs_evidence_refs : list string;
  rs_submitted_at : Z;
}.

Record VerificationRecord := {
  ve_criterion_id : string;
  ve_verification_ref : ContentRef;
  ve_kind : RequirementKind;
  ve_status : VerificationStatus;
  ve_evidence_refs : list string;
  ve_verifier_ref : string;
  ve_recorded_at : Z;
}.

Record Branch := {
  br_planned : PlanBranch;
  br_required_criterion_ids : list string;
  br_state : BranchState;
  br_attempt : Z;
  br_dispatch_id : option string;
  br_packet_ref : option ContentRef;
  br_attempt_started_at : option Z;
  br_attempt_deadline_at : option Z;
  br_retry_at : option Z;
  br_delivery : option Delivery;
  br_runtime_identity : option RuntimeIdentity;
  br_thread_identity : option RuntimeIdentity;
  br_open_user_input : option OpenUserInput;
  br_pending_user_input_effect_id : option string;
  br_pending_user_input_response_ref : option ContentRef;
  br_result : option BranchResult;
  br_verification_by_criterion : gmap string (gmap string VerificationRecord);
  br_last_progress_at : option Z;
  br_finished_at : option Z;
  br_thread_create_effect_id : option string;
  br_thread_create_delivery_hash : option string;
  br_turn_start_effect_id : option string;
  br_turn_start_delivery_hash : option string;
  br_cancel_effect_id : option string;
  br_last_transition_reason : option string;
  br_last_runtime_observation : option ObservationEnvelope;
}.

Definition br_branch_ref (b : Branch) : string := pb_branch_ref (br_planned b).
Definition br_provider_ref (b : Branch) : string := pb_provider_ref (br_planned b).
Definition br_dependencies (b : Branch) : list string := pb_dependencies (br_planned b).

(** ** The Work Order record *)

(** An attention item; [att_resolution] is set when its status is ["resolved"]. *)
Record Resolution := {
  re_resolution_ref : ContentRef;
  re_evidence_refs : list string;
  re_resolved_at : Z;
}.

Record Attention := {
  att_attention_id : string;
  att_kind : string;
  att_branch_ref : option string;
  att_effect_id : option string;
  att_detail_ref : ContentRef;
  att_evidence_refs : list string;
  att_opened_at : Z;
  att_resolution : option Resolution;
}.

Definition att_open (a : Attention) : bool :=
  match att_resolution a with None => true | Some _ => false end.

Record Review := {
  rv_review_id : string;
  rv_branch_ref : string;
  rv_status : Decision2;
  rv_findings : ReviewFindings;
  rv_evidence_refs : list string;
  rv_reviewer_ref : string;
  rv_result_hash : string;
  rv_recorded_at : Z;
}.

Record ContextBudget := {
  cb_budget_tokens : Z;
  cb_duplicate_context_tokens : Z;
  cb_evidence_refs : list string;
}.

Record AcceptanceRecord := {
  ar_decision : Decision2;
  ar_evidence_refs : list string;
  ar_comment : string;
  ar_decided_by : string;
  ar_decided_at : Z;
}.

(** An entry of the decision history; a decision carried over from before the history existed has
    no source. *)
Record HistoryEntry := {
  he_record : AcceptanceRecord;
  he_source : option (string * Z);
}.

Record State := {
  st_work_order_id : string;
  st_engine_contract_version : Z;
  st_plan_snapshot_ref : string;
  st_plan_hash : string;
  st_plan : Plan;
  st_revision : Z;
  st_status : WorkOrderStatus;
  st_created_at : Z;
  st_started_at : option Z;
  st_deadline_at : Z;
  st_stop_reason : option string;
  st_branches : gmap string Branch;
  st_attention : gmap string Attention;
  st_context_budget : option ContextBudget;
  st_reviews : gmap string Review;
  st_decision : option AcceptanceRecord;
  st_decision_history : option (list HistoryEntry);
}.

(** ** Assignments: one function per field the code assigns *)

Definition set_br_state (v : BranchState) (b : Branch) : Branch :=
  {| br_planned := br_planned b; br_required_criterion_ids := br_required_criterion_ids b;
     br_state := v; br_attempt := br_attempt b; br_dispatch_id := br_dispatch_id b;
     br_packet_ref := br_packet_ref b; br_attempt_started_at := br_attempt_started_at b;
     br_attempt_deadline_at := br_attempt_deadline_at b; br_retry_at := br_retry_at b;
     br_delivery := br_delivery b; br_runtime_identity := br_runtime_identity b;
     br_thread_identity := br_thread_identity b; br_open_user_input := br_open_user_input b;
     br_pending_user_input_effect_id := br_pending_user_input_effect_id b;
     br_pending_user_input_response_ref := br_pending_user_input_response_ref b;
     br_result := br_result b; br_verification_by_criterion := br_verification_by_criterion b;
     br_last_progress_at := br_last_progress_at b; br_finished_at := br_finished_at b;
     br_thread_create_effect_id := br_thread_create_effect_id b;
     br_thread_create_delivery_hash := br_thread_create_delivery_hash b;
     br_turn_start_effect_id := br_turn_start_effect_id b;
     br_turn_start_delivery_hash := br_turn_start_delivery_hash b;
     br_cancel_effect_id := br_cancel_effect_id b;
     br_last_transition_reason := br_last_transition_reason b;
     br_last_runtime_observation := br_last_runtime_observation b |}.
Definition set_br_retry_at (v : option Z) (b : Branch) : Branch :=
  {| br_planned := br_planned b; br_required_criterion_ids := br_required_criterion_ids b;
     br_state := br_state b; br_attempt := br_attempt b; br_dispatch_id := br_dispatch_id b;
     br_packet_ref := br_packet_ref b; br_attempt_started_at := br_attempt_started_at b;
     br_attempt_deadline_at := br_attempt_deadline_at b; br_retry_at := v;
     br_delivery := br_delivery b; br_runtime_identity := br_runtime_identity b;
     br_thread_identity := br_thread_identity b; br_open_user_input := br_open_user_input b;
     br_pending_user_input_effect_id := br_pending_user_input_effect_id b;
     br_pending_user_input_response_ref := br_pending_user_input_response_ref b;
     br_result := br_result b; br_verification_by_criterion := br_verification_by_criterion b;
     br_last_progress_at := br_last_progress_at b; br_finished_at := br_finished_at b;
     br_thread_create_effect_id := br_thread_create_effect_id b;
     br_thread_create_delivery_hash := br_thread_create_delivery_hash b;
     br_turn_start_effect_id := br_turn_start_effect_id b;
     br_turn_start_delivery_hash := br_turn_start_delivery_hash b;
     br_cancel_effect_id := br_cancel_effect_id b;
     br_last_transition_reason := br_last_transition_reason b;
     br_last_runtime_observation := br_last_runtime_observation b |}.
Definition set_br_delivery (v : option Delivery) (b : Branch) : Branch :=
  {| br_planned := br_planned b; br_required_criterion_ids := br_required_criterion_ids b;
     br_state := br_state b; br_attempt := br_attempt b; br_dispatch_id := br_dispatch_id b;
     br_packet_ref := br_packet_ref b; br_attempt_started_at := br_attempt_started_at b;
     br_attempt_deadline_at := br_attempt_deadline_at b; br_retry_at := br_retry_at b;
     br_delivery := v; br_runtime_identity := br_runtime_identity b;
     br_thread_identity := br_thread_identity b; br_open_user_input := br_open_user_input b;
     br_pending_user_input_effect_id := br_pending_user_input_effect_id b;
     br_pending_user_input_response_ref := br_pending_user_input_response_ref b;
     br_result := br_result b; br_verification_by_criterion := br_verification_by_criterion b;
     br_last_progress_at := br_last_progress_at b; br_finished_at := br_finished_at b;
     br_thread_create_effect_id := br_thread_create_effect_id b;
     br_thread_create_delivery_hash := br_thread_create_delivery_hash b;
     br_turn_start_effect_id := br_turn_start_effect_id b;
     br_turn_start_delivery_hash := br_turn_start_delivery_hash b;
     br_cancel_effect_id := br_cancel_effect_id b;
     br_last_transition_reason := br_last_transition_reason b;
     br_last_runtime_observation := br_last_runtime_observation b |}.
Definition set_br_runtime_identity (v : option RuntimeIdentity) (b : Branch) : Branch :=
  {| br_planned := br_planned b; br_required_criterion_ids := br_required_criterion_ids b;
     br_state := br_state b; br_attempt := br_attempt b; br_dispatch_id := br_dispatch_id b;
     br_packet_ref := br_packet_ref b; br_attempt_started_at := br_attempt_started_at b;
     br_attempt_deadline_at := br_attempt_deadline_at b; br_retry_at := br_retry_at b;
     br_delivery := br_delivery b; br_runtime_identity := v;
     br_thread_identity := br_thread_identity b; br_open_user_input := br_open_user_input b;
     br_pending_user_input_effect_id := br_pending_user_input_effect_id b;
     br_pending_user_input_response_ref := br_pending_user_input_response_ref b;
     br_result := br_result b; br_verification_by_criterion := br_verification_by_criterion b;
     br_last_progress_at := br_last_progress_at b; br_finished_at := br_finished_at b;
     br_thread_create_effect_id := br_thread_create_effect_id b;
     br_thread_create_delivery_hash := br_thread_create_delivery_hash b;
     br_turn_start_effect_id := br_turn_start_effect_id b;
     br_turn_start_delivery_hash := br_turn_start_delivery_hash b;
     br_cancel_effect_id := br_cancel_effect_id b;
     br_last_transition_reason := br_last_transition_reason b;
     br_last_runtime_observation := br_last_runtime_observation b |}.
Definition set_br_thread_identity (v : option RuntimeIdentity) (b : Branch) : Branch :=
  {| br_planned := br_planned b; br_required_criterion_ids := br_required_criterion_ids b;
     br_state := br_state b; br_attempt := br_attempt b; br_dispatch_id := br_dispatch_id b;
     br_packet_ref := br_packet_ref b; br_attempt_started_at := br_attempt_started_at b;
     br_attempt_deadline_at := br_attempt_deadline_at b; br_retry_at := br_retry_at b;
     br_delivery := br_delivery b; br_runtime_identity := br_runtime_identity b;
     br_thread_identity := v; br_open_user_input := br_open_user_input b;
     br_pending_user_input_effect_id := br_pending_user_input_effect_id b;
     br_pending_user_input_response_ref := br_pending_user_input_response_ref b;
     br_result := br_result b; br_verification_by_criterion := br_verification_by_criterion b;
     br_last_progress_at := br_last_progress_at b; br_finished_at := br_finished_at b;
     br_thread_create_effect_id := br_thread_create_effect_id b;
     br_thread_create_delivery_hash := br_thread_create_delivery_hash b;
     br_turn_start_effect_id := br_turn_start_effect_id b;
     br_turn_start_delivery_hash := br_turn_start_delivery_hash b;
     br_cancel_effect_id := br_cancel_effect_id b;
     br_last_transition_reason := br_last_transition_reason b;
     br_last_runtime_observation := br_last_runtime_observation b |}.
Definition set_br_open_user_input (v : option OpenUserInput) (b : Branch) : Branch :=
  {| br_planned := br_planned b; br_required_criterion_ids := br_required_criterion_ids b;
     br_state := br_state b; br_attempt := br_attempt b; br_dispatch_id := br_dispatch_id b;
     br_packet_ref := br_packet_ref b; br_attempt_started_at := br_attempt_started_at b;
     br_attempt_deadline_at := br_attempt_deadline_at b; br_retry_at := br_retry_at b;
     br_delivery := br_delivery b; br_runtime_identity := br_runtime_identity b;
     br_thread_identity := br_thread_identity b; br_open_user_input := v;
     br_pending_user_input_effect_id := br_pending_user_input_effect_id b;
     br_pending_user_input_response_ref := br_pending_user_input_response_ref b;
     br_result := br_result b; br_verification_by_criterion := br_verification_by_criterion b;
     br_last_progress_at := br_last_progress_at b; br_finished_at := br_finished_at b;
     br_thread_create_effect_id := br_thread_create_effect_id b;
     br_thread_create_delivery_hash := br_thread_create_delivery_hash b;
     br_turn_start_effect_id := br_turn_start_effect_id b;
     br_turn_start_delivery_hash := br_turn_start_delivery_hash b;
     br_cancel_effect_id := br_cancel_effect_id b;
     br_last_transition_reason := br_last_transition_reason b;
     br_last_runtime_observation := br_last_runtime_observation b |}.
Definition set_br_pending_user_input_effect_id (v : option string) (b : Branch) : Branch :=
  {| br_planned := br_planned b; br_required_criterion_ids := br_required_criterion_ids b;
     br_state := br_state b; br_attempt := br_attempt b; br_dispatch_id := br_dispatch_id b;
     br_packet_ref := br_packet_ref b; br_attempt_started_at := br_attempt_started_at b;
     br_attempt_deadline_at := br_attempt_deadline_at b; br_retry_at := br_retry_at b;
     br_delivery := br_delivery b; br_runtime_identity := br_runtime_identity b;
     br_thread_identity := br_thread_identity b; br_open_user_input := br_open_user_input b;
     br_pending_user_input_effect_id := v;
     br_pending_user_input_response_ref := br_pending_user_input_response_ref b;
     br_result := br_result b; br_verification_by_criterion := br_verification_by_criterion b;
     br_last_progress_at := br_last_progress_at b; br_finished_at := br_finished_at b;
     br_thread_create_effect_id := br_thread_create_effect_id b;
     br_thread_create_delivery_hash := br_thread_create_delivery_hash b;
     br_turn_start_effect_id := br_turn_start_effect_id b;
     br_turn_start_delivery_hash := br_turn_start_delivery_hash b;
     br_cancel_effect_id := br_cancel_effect_id b;
     br_last_transition_reason := br_last_transition_reason b;
     br_last_runtime_observation := br_last_runtime_observation b |}.
Definition set_br_pending_user_input_response_ref (v : option ContentRef) (b : Branch) : Branch :=
  {| br_planned := br_planned b; br_required_criterion_ids := br_required_criterion_ids b;
     br_state := br_state b; br_attempt := br_attempt b; br_dispatch_id := br_dispatch_id b;
     br_packet_ref := br_packet_ref b; br_attempt_started_at := br_attempt_started_at b;
     br_attempt_deadline_at := br_attempt_deadline_at b; br_retry_at := br_retry_at b;
     br_delivery := br_delivery b; br_runtime_identity := br_runtime_identity b;
     br_thread_identity := br_thread_identity b; br_open_user_input := br_open_user_input b;
     br_pending_user_input_effect_id := br_pending_user_input_effect_id b;
     br_pending_user_input_response_ref := v; br_result := br_result b;
     br_verification_by_criterion := br_verification_by_criterion b;
     br_last_progress_at := br_last_progress_at b; br_finished_at := br_finished_at b;
     br_thread_create_effect_id := br_thread_create_effect_id b;
     br_thread_create_delivery_hash := br_thread_create_delivery_hash b;
     br_turn_start_effect_id := br_turn_start_effect_id b;
     br_turn_start_delivery_hash := br_turn_start_delivery_hash b;
     br_cancel_effect_id := br_cancel_effect_id b;
     br_last_transition_reason := br_last_transition_reason b;
     br_last_runtime_observation := br_last_runtime_observation b |}.
Definition set_br_result (v : option BranchResult) (b : Branch) : Branch :=
  {| br_planned := br_planned b; br_required_criterion_ids := br_required_criterion_ids b;
     br_state := br_state b; br_attempt := br_attempt b; br_dispatch_id := br_dispatch_id b;
     br_packet_ref := br_packet_ref b; br_attempt_started_at := br_attempt_started_at b;
     br_attempt_deadline_at := br_attempt_deadline_at b; br_retry_at := br_retry_at b;
     br_delivery := br_delivery b; br_runtime_identity := br_runtime_identity b;
     br_thread_identity := br_thread_identity b; br_open_user_input := br_open_user_input b;
     br_pending_user_input_effect_id := br_pending_user_input_effect_id b;
     br_pending_user_input_response_ref := br_pending_user_input_response_ref b; br_result := v;
     br_verification_by_criterion := br_verification_by_criterion b;
     br_last_progress_at := br_last_progress_at b; br_finished_at := br_finished_at b;
     br_thread_create_effect_id := br_thread_create_effect_id b;
     br_thread_create_delivery_hash := br_thread_create_delivery_hash b;
     br_turn_start_effect_id := br_turn_start_effect_id b;
     br_turn_start_delivery_hash := br_turn_start_delivery_hash b;
     br_cancel_effect_id := br_cancel_effect_id b;
     br_last_transition_reason := br_last_transition_reason b;
     br_last_runtime_observation := br_last_runtime_observation b |}.
Definition set_br_verification_by_criterion (v : gmap string (gmap string VerificationRecord)) (b : Branch) : Branch :=
  {| br_planned := br_planned b; br_required_criterion_ids := br_required_criterion_ids b;
     br_state := br_state b; br_attempt := br_attempt b; br_dispatch_id := br_dispatch_id b;
     br_packet_ref := br_packet_ref b; br_attempt_started_at := br_attempt_started_at b;
     br_attempt_deadline_at := br_attempt_deadline_at b; br_retry_at := br_retry_at b;
     br_delivery := br_delivery b; br_runtime_identity := br_runtime_identity b;
     br_thread_identity := br_thread_identity b; br_open_user_input := br_open_user_input b;
     br_pending_user_input_effect_id := br_pending_user_input_effect_id b;
     br_pending_user_input_response_ref := br_pending_user_input_response_ref b;
     br_result := br_result b; br_verification_by_criterion := v;
     br_last_progress_at := br_last_progress_at b; br_finished_at := br_finished_at b;
     br_thread_create_effect_id := br_thread_create_effect_id b;
     br_thread_create_delivery_hash := br_thread_create_delivery_hash b;
     br_turn_start_effect_id := br_turn_start_effect_id b;
     br_turn_start_delivery_hash := br_turn_start_delivery_hash b;
     br_cancel_effect_id := br_cancel_effect_id b;
     br_last_transition_reason := br_last_transition_reason b;
     br_last_runtime_observation := br_last_runtime_observation b |}.
Definition set_br_last_progress_at (v : option Z) (b : Branch) : Branch :=
  {| br_planned := br_planned b; br_required_criterion_ids := br_required_criterion_ids b;
     br_state := br_state b; br_attempt := br_attempt b; br_dispatch_id := br_dispatch_id b;
     br_packet_ref := br_packet_ref b; br_attempt_started_at := br_attempt_started_at b;
     br_attempt_deadline_at := br_attempt_deadline_at b; br_retry_at := br_retry_at b;
     br_delivery := br_delivery b; br_runtime_identity := br_runtime_identity b;
     br_thread_identity := br_thread_identity b; br_open_user_input := br_open_user_input b;
     br_pending_user_input_effect_id := br_pending_user_input_effect_id b;
     br_pending_user_input_response_ref := br_pending_user_input_response_ref b;
     br_result := br_result b; br_verification_by_criterion := br_verification_by_criterion b;
     br_last_progress_at := v; br_finished_at := br_finished_at b;
     br_thread_create_effect_id := br_thread_create_effect_id b;
     br_thread_create_delivery_hash := br_thread_create_delivery_hash b;
     br_turn_start_effect_id := br_turn_start_effect_id b;
     br_turn_start_delivery_hash := br_turn_start_delivery_hash b;
     br_cancel_effect_id := br_cancel_effect_id b;
     br_last_transition_reason := br_last_transition_reason b;
     br_last_runtime_observation := br_last_runtime_observation b |}.
Definition set_br_finished_at (v : option Z) (b : Branch) : Branch :=
  {| br_planned := br_planned b; br_required_criterion_ids := br_required_criterion_ids b;
     br_state := br_state b; br_attempt := br_attempt b; br_dispatch_id := br_dispatch_id b;
     br_packet_ref := br_packet_ref b; br_attempt_started_at := br_attempt_started_at b;
     br_attempt_deadline_at := br_attempt_deadline_at b; br_retry_at := br_retry_at b;
     br_delivery := br_delivery b; br_runtime_identity := br_runtime_identity b;
     br_thread_identity := br_thread_identity b; br_open_user_input := br_open_user_input b;
     br_pending_user_input_effect_id := br_pending_user_input_effect_id b;
     br_pending_user_input_response_ref := br_pending_user_input_response_ref b;
     br_result := br_result b; br_verification_by_criterion := br_verification_by_criterion b;
     br_last_progress_at := br_last_progress_at b; br_finished_at := v;
     br_thread_create_effect_id := br_thread_create_effect_id b;
     br_thread_create_delivery_hash := br_thread_create_delivery_hash b;
     br_turn_start_effect_id := br_turn_start_effect_id b;
     br_turn_start_delivery_hash := br_turn_start_delivery_hash b;
     br_cancel_effect_id := br_cancel_effect_id b;
     br_last_transition_reason := br_last_transition_reason b;
     br_last_runtime_observation := br_last_runtime_observation b |}.
Definition set_br_thread_create_effect_id (v : option string) (b : Branch) : Branch :=
  {| br_planned := br_planned b; br_required_criterion_ids := br_required_criterion_ids b;
     br_state := br_state b; br_attempt := br_attempt b; br_dispatch_id := br_dispatch_id b;
     br_packet_ref := br_packet_ref b; br_attempt_started_at := br_attempt_started_at b;
     br_attempt_deadline_at := br_attempt_deadline_at b; br_retry_at := br_retry_at b;
     br_delivery := br_delivery b; br_runtime_identity := br_runtime_identity b;
     br_thread_identity := br_thread_identity b; br_open_user_input := br_open_user_input b;
     br_pending_user_input_effect_id := br_pending_user_input_effect_id b;
     br_pending_user_input_response_ref := br_pending_user_input_response_ref b;
     br_result := br_result b; br_verification_by_criterion := br_verification_by_criterion b;
     br_last_progress_at := br_last_progress_at b; br_finished_at := br_finished_at b;
     br_thread_create_effect_id := v;
     br_thread_create_delivery_hash := br_thread_create_delivery_hash b;
     br_turn_start_effect_id := br_turn_start_effect_id b;
     br_turn_start_delivery_hash := br_turn_start_delivery_hash b;
     br_cancel_effect_id := br_cancel_effect_id b;
     br_last_transition_reason := br_last_transition_reason b;
     br_last_runtime_observation := br_last_runtime_observation b |}.
Definition set_br_thread_create_delivery_hash (v : option string) (b : Branch) : Branch :=
  {| br_planned := br_planned b; br_required_criterion_ids := br_required_criterion_ids b;
     br_state := br_state b; br_attempt := br_attempt b; br_dispatch_id := br_dispatch_id b;
     br_packet_ref := br_packet_ref b; br_attempt_started_at := br_attempt_started_at b;
     br_attempt_deadline_at := br_attempt_deadline_at b; br_retry_at := br_retry_at b;
     br_delivery := br_delivery b; br_runtime_identity := br_runtime_identity b;
     br_thread_identity := br_thread_identity b; br_open_user_input := br_open_user_input b;
     br_pending_user_input_effect_id := br_pending_user_input_effect_id b;
     br_pending_user_input_response_ref := br_pending_user_input_response_ref b;
     br_result := br_result b; br_verification_by_criterion := br_verification_by_criterion b;
     br_last_progress_at := br_last_progress_at b; br_finished_at := br_finished_at b;
     br_thread_create_effect_id := br_thread_create_effect_id b;
     br_thread_create_delivery_hash := v; br_turn_start_effect_id := br_turn_start_effect_id b;
     br_turn_start_delivery_hash := br_turn_start_delivery_hash b;
     br_cancel_effect_id := br_cancel_effect_id b;
     br_last_transition_reason := br_last_transition_reason b;
     br_last_runtime_observation := br_last_runtime_observation b |}.
Definition set_br_turn_start_effect_id (v : option string) (b : Branch) : Branch :=
  {| br_planned := br_planned b; br_required_criterion_ids := br_required_criterion_ids b;
     br_state := br_state b; br_attempt := br_attempt b; br_dispatch_id := br_dispatch_id b;
     br_packet_ref := br_packet_ref b; br_attempt_started_at := br_attempt_started_at b;
     br_attempt_deadline_at := br_attempt_deadline_at b; br_retry_at := br_retry_at b;
     br_delivery := br_delivery b; br_runtime_identity := br_runtime_identity b;
     br_thread_identity := br_thread_identity b; br_open_user_input := br_open_user_input b;
     br_pending_user_input_effect_id := br_pending_user_input_effect_id b;
     br_pending_user_input_response_ref := br_pending_user_input_response_ref b;
     br_result := br_result b; br_verification_by_criterion := br_verification_by_criterion b;
     br_last_progress_at := br_last_progress_at b; br_finished_at := br_finished_at b;
     br_thread_create_effect_id := br_thread_create_effect_id b;
     br_thread_create_delivery_hash := br_thread_create_delivery_hash b;
     br_turn_start_effect_id := v; br_turn_start_delivery_hash := br_turn_start_delivery_hash b;
     br_cancel_effect_id := br_cancel_effect_id b;
     br_last_transition_reason := br_last_transition_reason b;
     br_last_runtime_observation := br_last_runtime_observation b |}.
Definition set_br_turn_start_delivery_hash (v : option string) (b : Branch) : Branch :=
  {| br_planned := br_planned b; br_required_criterion_ids := br_required_criterion_ids b;
     br_state := br_state b; br_attempt := br_attempt b; br_dispatch_id := br_dispatch_id b;
     br_packet_ref := br_packet_ref b; br_attempt_started_at := br_attempt_started_at b;
     br_attempt_deadline_at := br_attempt_deadline_at b; br_retry_at := br_retry_at b;
     br_delivery := br_delivery b; br_runtime_identity := br_runtime_identity b;
     br_thread_identity := br_thread_identity b; br_open_user_input := br_open_user_input b;
     br_pending_user_input_effect_id := br_pending_user_input_effect_id b;
     br_pending_user_input_response_ref := br_pending_user_input_response_ref b;
     br_result := br_result b; br_verification_by_criterion := br_verification_by_criterion b;
     br_last_progress_at := br_last_progress_at b; br_finished_at := br_finished_at b;
     br_thread_create_effect_id := br_thread_create_effect_id b;
     br_thread_create_delivery_hash := br_thread_create_delivery_hash b;
     br_turn_start_effect_id := br_turn_start_effect_id b; br_turn_start_delivery_hash := v;
     br_cancel_effect_id := br_cancel_effect_id b;
     br_last_transition_reason := br_last_transition_reason b;
     br_last_runtime_observation := br_last_runtime_observation b |}.
Definition set_br_cancel_effect_id (v : option string) (b : Branch) : Branch :=
  {| br_planned := br_planned b; br_required_criterion_ids := br_required_criterion_ids b;
     br_state := br_state b; br_attempt := br_attempt b; br_dispatch_id := br_dispatch_id b;
     br_packet_ref := br_packet_ref b; br_attempt_started_at := br_attempt_started_at b;
     br_attempt_deadline_at := br_attempt_deadline_at b; br_retry_at := br_retry_at b;
     br_delivery := br_delivery b; br_runtime_identity := br_runtime_identity b;
     br_thread_identity := br_thread_identity b; br_open_user_input := br_open_user_input b;
     br_pending_user_input_effect_id := br_pending_user_input_effect_id b;
     br_pending_user_input_response_ref := br_pending_user_input_response_ref b;
     br_result := br_result b; br_verification_by_criterion := br_verification_by_criterion b;
     br_last_progress_at := br_last_progress_at b; br_finished_at := br_finished_at b;
     br_thread_create_effect_id := br_thread_create_effect_id b;
     br_thread_create_delivery_hash := br_thread_create_delivery_hash b;
     br_turn_start_effect_id := br_turn_start_effect_id b;
     br_turn_start_delivery_hash := br_turn_start_delivery_hash b; br_cancel_effect_id := v;
     br_last_transition_reason := br_last_transition_reason b;
     br_last_runtime_observation := br_last_runtime_observation b |}.
Definition set_br_last_transition_reason (v : option string) (b : Branch) : Branch :=
  {| br_planned := br_planned b; br_required_criterion_ids := br_required_criterion_ids b;
     br_state := br_state b; br_attempt := br_attempt b; br_dispatch_id := br_dispatch_id b;
     br_packet_ref := br_packet_ref b; br_attempt_started_at := br_attempt_started_at b;
     br_attempt_deadline_at := br_attempt_deadline_at b; br_retry_at := br_retry_at b;
     br_delivery := br_delivery b; br_runtime_identity := br_runtime_identity b;
     br_thread_identity := br_thread_identity b; br_open_user_input := br_open_user_input b;
     br_pending_user_input_effect_id := br_pending_user_input_effect_id b;
     br_pending_user_input_response_ref := br_pending_user_input_response_ref b;
     br_result := br_result b; br_verification_by_criterion := br_verification_by_criterion b;
     br_last_progress_at := br_last_progress_at b; br_finished_at := br_finished_at b;
     br_thread_create_effect_id := br_thread_create_effect_id b;
     br_thread_create_delivery_hash := br_thread_create_delivery_hash b;
     br_turn_start_effect_id := br_turn_start_effect_id b;
     br_turn_start_delivery_hash := br_turn_start_delivery_hash b;
     br_cancel_effect_id := br_cancel_effect_id b; br_last_transition_reason := v;
     br_last_runtime_observation := br_last_runtime_observation b |}.
Definition set_br_last_runtime_observation (v : option ObservationEnvelope) (b : Branch) : Branch :=
  {| br_planned := br_planned b; br_required_criterion_ids := br_required_criterion_ids b;
     br_state := br_state b; br_attempt := br_attempt b; br_dispatch_id := br_dispatch_id b;
     br_packet_ref := br_packet_ref b; br_attempt_started_at := br_attempt_started_at b;
     br_attempt_deadline_at := br_attempt_deadline_at b; br_retry_at := br_retry_at b;
     br_delivery := br_delivery b; br_runtime_identity := br_runtime_identity b;
     br_thread_identity := br_thread_identity b; br_open_user_input := br_open_user_input b;
     br_pending_user_input_effect_id := br_pending_user_input_effect_id b;
     br_pending_user_input_response_ref := br_pending_user_input_response_ref b;
     br_result := br_result b; br_verification_by_criterion := br_verification_by_criterion b;
     br_last_progress_at := br_last_progress_at b; br_finished_at := br_finished_at b;
     br_thread_create_effect_id := br_thread_create_effect_id b;
     br_thread_create_delivery_hash := br_thread_create_delivery_hash b;
     br_turn_start_effect_id := br_turn_start_effect_id b;
     br_turn_start_delivery_hash := br_turn_start_delivery_hash b;
     br_cancel_effect_id := br_cancel_effect_id b;
     br_last_transition_reason := br_last_transition_reason b; br_last_runtime_observation := v |}.

Definition set_st_status (v : WorkOrderStatus) (s : State) : State :=
  {| st_work_order_id := st_work_order_id s;
     st_engine_contract_version := st_engine_contract_version s;
     st_plan_snapshot_ref := st_plan_snapshot_ref s; st_plan_hash := st_plan_hash s;
     st_plan := st_plan s; st_revision := st_revision s; st_status := v;
     st_created_at := st_created_at s; st_started_at := st_started_at s;
     st_deadline_at := st_deadline_at s; st_stop_reason := st_stop_reason s;
     st_branches := st_branches s; st_attention := st_attention s;
     st_context_budget := st_context_budget s; st_reviews := st_reviews s;
     st_decision := st_decision s; st_decision_history := st_decision_history s |}.
Definition set_st_started_at (v : option Z) (s : State) : State :=
  {| st_work_order_id := st_work_order_id s;
     st_engine_contract_version := st_engine_contract_version s;
     st_plan_snapshot_ref := st_plan_snapshot_ref s; st_plan_hash := st_plan_hash s;
     st_plan := st_plan s; st_revision := st_revision s; st_status := st_status s;
     st_created_at := st_created_at s; st_started_at := v; st_deadline_at := st_deadline_at s;
     st_stop_reason := st_stop_reason s; st_branches := st_branches s;
     st_attention := st_attention s; st_context_budget := st_context_budget s;
     st_reviews := st_reviews s; st_decision := st_decision s;
     st_decision_history := st_decision_history s |}.
Definition set_st_stop_reason (v : option string) (s : State) : State :=
  {| st_work_order_id := st_work_order_id s;
     st_engine_contract_version := st_engine_contract_version s;
     st_plan_snapshot_ref := st_plan_snapshot_ref s; st_plan_hash := st_plan_hash s;
     st_plan := st_plan s; st_revision := st_revision s; st_status := st_status s;
     st_created_at := st_created_at s; st_started_at := st_started_at s;
     st_deadline_at := st_deadline_at s; st_stop_reason := v; st_branches := st_branches s;
     st_attention := st_attention s; st_context_budget := st_context_budget s;
     st_reviews := st_reviews s; st_decision := st_decision s;
     st_decision_history := st_decision_history s |}.
Definition set_st_branches (v : gmap string Branch) (s : State) : State :=
  {| st_work_order_id := st_work_order_id s;
     st_engine_contract_version := st_engine_contract_version s;
     st_plan_snapshot_ref := st_plan_snapshot_ref s; st_plan_hash := st_plan_hash s;
     st_plan := st_plan s; st_revision := st_revision s; st_status := st_status s;
     st_created_at := st_created_at s; st_started_at := st_started_at s;
     st_deadline_at := st_deadline_at s; st_stop_reason := st_stop_reason s; st_branches := v;
     st_attention := st_attention s; st_context_budget := st_context_budget s;
     st_reviews := st_reviews s; st_decision := st_decision s;
     st_decision_history := st_decision_history s |}.
Definition set_st_attention (v : gmap string Attention) (s : State) : State :=
  {| st_work_order_id := st_work_order_id s;
     st_engine_contract_version := st_engine_contract_version s;
     st_plan_snapshot_ref := st_plan_snapshot_ref s; st_plan_hash := st_plan_hash s;
     st_plan := st_plan s; st_revision := st_revision s; st_status := st_status s;
     st_created_at := st_created_at s; st_started_at := st_started_at s;
     st_deadline_at := st_deadline_at s; st_stop_reason := st_stop_reason s;
     st_branches := st_branches s; st_attention := v; st_context_budget := st_context_budget s;
     st_reviews := st_reviews s; st_decision := st_decision s;
     st_decision_history := st_decision_history s |}.
Definition set_st_reviews (v : gmap string Review) (s : State) : State :=
  {| st_work_order_id := st_work_order_id s;
     st_engine_contract_version := st_engine_contract_version s;
     st_plan_snapshot_ref := st_plan_snapshot_ref s; st_plan_hash := st_plan_hash s;
     st_plan := st_plan s; st_revision := st_revision s; st_status := st_status s;
     st_created_at := st_created_at s; st_started_at := st_started_at s;
     st_deadline_at := st_deadline_at s; st_stop_reason := st_stop_reason s;
     st_branches := st_branches s; st_attention := st_attention s;
     st_context_budget := st_context_budget s; st_reviews := v; st_decision := st_decision s;
     st_decision_history := st_decision_history s |}.
Definition set_st_decision (v : option AcceptanceRecord) (s : State) : State :=
  {| st_work_order_id := st_work_order_id s;
     st_engine_contract_version := st_engine_contract_version s;
     st_plan_snapshot_ref := st_plan_snapshot_ref s; st_plan_hash := st_plan_hash s;
     st_plan := st_plan s; st_revision := st_revision s; st_status := st_status s;
     st_created_at := st_created_at s; st_started_at := st_started_at s;
     st_deadline_at := st_deadline_at s; st_stop_reason := st_stop_reason s;
     st_branches := st_branches s; st_attention := st_attention s;
     st_context_budget := st_context_budget s; st_reviews := st_reviews s; st_decision := v;
     st_decision_history := st_decision_history s |}.
Definition set_st_decision_history (v : option (list HistoryEntry)) (s : State) : State :=
  {| st_work_order_id := st_work_order_id s;
     st_engine_contract_version := st_engine_contract_version s;
     st_plan_snapshot_ref := st_plan_snapshot_ref s; st_plan_hash := st_plan_hash s;
     st_plan := st_plan s; st_revision := st_revision s; st_status := st_status s;
     st_created_at := st_created_at s; st_started_at := st_started_at s;
     st_deadline_at := st_deadline_at s; st_stop_reason := st_stop_reason s;
     st_branches := st_branches s; st_attention := st_attention s;
     st_context_budget := st_context_budget s; st_reviews := st_reviews s;
     st_decision := st_decision s; st_decision_history := v |}.
Definition set_st_plan (v : Plan) (s : State) : State :=
  {| st_work_order_id := st_work_order_id s;
     st_engine_contract_version := st_engine_contract_version s;
     st_plan_snapshot_ref := st_plan_snapshot_ref s; st_plan_hash := st_plan_hash s; st_plan := v;
     st_revision := st_revision s; st_status := st_status s; st_created_at := st_created_at s;
     st_started_at := st_started_at s; st_deadline_at := st_deadline_at s;
     st_stop_reason := st_stop_reason s; st_branches := st_branches s;
     st_attention := st_attention s; st_context_budget := st_context_budget s;
     st_reviews := st_reviews s; st_decision := st_decision s;
     st_decision_history := st_decision_history s |}.

(** ** JSON forms *)

Definition runtime_identity_json (i : RuntimeIdentity) : json :=
  JObj [("operation_id", opt_json JStr (ri_operation_id i));
        ("thread_id", opt_json JStr (ri_thread_id i)); ("turn_id", opt_json JStr (ri_turn_id i))].

Definition delivery_state_json (d : Delivery) : json :=
  JObj [("classification", enum_json (de_classification d));
        ("observed_at", timestamp_json (de_observed_at d))].

Definition open_user_input_json (u : OpenUserInput) : json :=
  JObj [("request_id", JStr (oui_request_id u)); ("prompt_ref", content_ref_json (oui_prompt_ref u));
        ("requested_at", timestamp_json (oui_requested_at u))].

Definition result_json (r : BranchResult) : json :=
  JObj [("attempt", JInt (rs_attempt r));
        ("artifact_refs", JArr (map content_ref_json (rs_artifact_refs r)));
        ("evidence_refs", str_list_json (rs_evidence_refs r));
        ("submitted_at", timestamp_json (rs_submitted_at r))].

Definition verification_record_json (v : VerificationRecord) : json :=
  JObj [("criterion_id", JStr (ve_criterion_id v));
        ("verification_ref", content_ref_json (ve_verification_ref v));
        ("kind", enum_json (ve_kind v)); ("status", enum_json (ve_status v));
        ("evidence_refs", str_list_json (ve_evidence_refs v));
        ("verifier_ref", JStr (ve_verifier_ref v));
        ("recorded_at", timestamp_json (ve_recorded_at v))].

(** An object used as a map. *)
Definition map_json {A} (f : A → json) (m : gmap string A) : json :=
  JObj (map (λ kv, (kv.1, f kv.2)) (map_to_list m)).

Definition branch_fields (b : Branch) : fields :=
  plan_branch_fields (br_planned b) ++
  [("required_criterion_ids", str_list_json (br_required_criterion_ids b));
   ("state", enum_json (br_state b)); ("attempt", JInt (br_attempt b));
   ("dispatch_id", opt_json JStr (br_dispatch_id b));
   ("packet_ref", opt_json content_ref_json (br_packet_ref b));
   ("attempt_started_at", opt_json timestamp_json (br_attempt_started_at b));
   ("attempt_deadline_at", opt_json timestamp_json (br_attempt_deadline_at b));
   ("retry_at", opt_json timestamp_json (br_retry_at b));
   ("delivery", opt_json delivery_state_json (br_delivery b));
   ("runtime_identity", opt_json runtime_identity_json (br_runtime_identity b));
   ("thread_identity", opt_json runtime_identity_json (br_thread_identity b));
   ("open_user_input", opt_json open_user_input_json (br_open_user_input b));
   ("pending_user_input_effect_id", opt_json JStr (br_pending_user_input_effect_id b));
   ("pending_user_input_response_ref",
     opt_json content_ref_json (br_pending_user_input_response_ref b));
   ("result", opt_json result_json (br_result b));
   ("verification_by_criterion",
     map_json (map_json verification_record_json) (br_verification_by_criterion b));
   ("last_progress_at", opt_json timestamp_json (br_last_progress_at b));
   ("finished_at", opt_json timestamp_json (br_finished_at b));
   ("thread_create_effect_id", opt_json JStr (br_thread_create_effect_id b));
   ("thread_create_delivery_hash", opt_json JStr (br_thread_create_delivery_hash b));
   ("turn_start_effect_id", opt_json JStr (br_turn_start_effect_id b));
   ("turn_start_delivery_hash", opt_json JStr (br_turn_start_delivery_hash b));
   ("cancel_effect_id", opt_json JStr (br_cancel_effect_id b));
   ("last_transition_reason", opt_json JStr (br_last_transition_reason b));
   ("last_runtime_observation", opt_json observation_json (br_last_runtime_observation b))].

Definition resolution_json (r : Resolution) : json :=
  JObj [("resolution_ref", content_ref_json (re_resolution_ref r));
        ("evidence_refs", str_list_json (re_evidence_refs r));
        ("resolved_at", timestamp_json (re_resolved_at r))].

(** The attention literal of [openAttention]. *)
Definition attention_fields (a : Attention) : fields :=
  [("attention_id", JStr (att_attention_id a)); ("kind", JStr (att_kind a));
   ("branch_ref", opt_json JStr (att_branch_ref a)); ("effect_id", opt_json JStr (att_effect_id a));
   ("detail_ref", content_ref_json (att_detail_ref a));
   ("evidence_refs", str_list_json (att_evidence_refs a));
   ("opened_at", timestamp_json (att_opened_at a))].

Definition attention_json (a : Attention) : json :=
  JObj (attention_fields a ++
    [("status", JStr (if att_open a then "open" else "resolved"));
     ("resolution", opt_json resolution_json (att_resolution a))]).

Definition review_json (r : Review) : json :=
  JObj [("review_id", JStr (rv_review_id r)); ("branch_ref", JStr (rv_branch_ref r));
        ("status", enum_json (rv_status r)); ("findings", review_findings_json (rv_findings r));
        ("evidence_refs", str_list_json (rv_evidence_refs r));
        ("reviewer_ref", JStr (rv_reviewer_ref r)); ("result_hash", JStr (rv_result_hash r));
        ("recorded_at", timestamp_json (rv_recorded_at r))].

Definition context_budget_json (c : ContextBudget) : json :=
  JObj [("budget_tokens", JInt (cb_budget_tokens c));
        ("duplicate_context_tokens", JInt (cb_duplicate_context_tokens c));
        ("evidence_refs", str_list_json (cb_evidence_refs c))].

Definition acceptance_record_fields (r : AcceptanceRecord) : fields :=
  [("decision", enum_json (ar_decision r)); ("evidence_refs", str_list_json (ar_evidence_refs r));
   ("comment", JStr (ar_comment r)); ("decided_by", JStr (ar_decided_by r));
   ("decided_at", timestamp_json (ar_decided_at r))].

Definition history_entry_json (h : HistoryEntry) : json :=
  JObj (acceptance_record_fields (he_record h) ++
    match he_source h with
    | Some (source, revision) =>
        [("source_id", JStr source); ("applied_revision", JInt revision)]
    | None => []
    end).

Definition state_json (s : State) : json :=
  JObj [("work_order_id", JStr (st_work_order_id s));
        ("engine_contract_version", JInt (st_engine_contract_version s));
        ("plan_snapshot_ref", JStr (st_plan_snapshot_ref s)); ("plan_hash", JStr (st_plan_hash s));
        ("plan", plan_json (st_plan s)); ("revision", JInt (st_revision s));
        ("status", enum_json (st_status s)); ("created_at", timestamp_json (st_created_at s));
        ("started_at", opt_json timestamp_json (st_started_at s));
        ("deadline_at", timestamp_json (st_deadline_at s));
        ("stop_reason", opt_json JStr (st_stop_reason s));
        ("branches", map_json (λ b, JObj (branch_fields b)) (st_branches s));
        ("attention", map_json attention_json (st_attention s));
        ("acceptance", JObj
          [("context_budget", opt_json context_budget_json (st_context_budget s));
           ("reviews", map_json review_json (st_reviews s));
           ("decision", opt_json (λ r, JObj (acceptance_record_fields r)) (st_decision s));
           ("decision_history",
             opt_json (λ l, JArr (map history_entry_json l)) (st_decision_history s))])].

(** ** What a payload has of the fields the state machine reads *)

Definition payload_branch_ref (p : ObservationPayload) : option string :=
  match p with
  | StartedPayload | CancelledPayload _ => None
  | DeliveryRecordedPayload b _ | SettlementPayload b _ _ | SendExpiryPayload b _ _ _
  | PresendFailurePayload b _ _ _ => Some (eb_branch_ref b)
  | DispatchAcceptedPayload r _ _ | DispatchNotSentPayload r _ _ _ | ProgressPayload r _ _
  | ResultSubmittedPayload r _ _ _ | FailedPayload r _ _ | TimedOutPayload r _ _
  | DeliveryUnknownPayload r _ _ _ | BranchCancelledPayload r _ _
  | UserInputRequestedPayload r _ _ | VerificationPayload r _ _ _ _ _ | ReviewPayload r _ _ _ _
  | RateLimitedPayload r _ _ | UnavailablePayload r _ _ => Some r
  end.

Definition payload_binding (p : ObservationPayload) : option EffectBinding :=
  match p with
  | DeliveryRecordedPayload b _ | SettlementPayload b _ _ | SendExpiryPayload b _ _ _
  | PresendFailurePayload b _ _ _ => Some b
  | _ => None
  end.

Definition payload_attempt (p : ObservationPayload) : option Z :=
  match p with
  | DispatchAcceptedPayload _ a _ | DispatchNotSentPayload _ a _ _ | ProgressPayload _ a _
  | ResultSubmittedPayload _ a _ _ | FailedPayload _ a _ | TimedOutPayload _ a _
  | DeliveryUnknownPayload _ a _ _ | BranchCancelledPayload _ a _
  | RateLimitedPayload _ a _ | UnavailablePayload _ a _ => Some a
  | p => option_map eb_attempt (payload_binding p)
  end.

Definition payload_dispatch_id (p : ObservationPayload) : option string :=
  match p with
  | DispatchAcceptedPayload _ _ d | DispatchNotSentPayload _ _ d _
  | DeliveryUnknownPayload _ _ d _ => Some d
  | p => option_map eb_dispatch_id (payload_binding p)
  end.

Definition payload_classification (p : ObservationPayload) : option Classification :=
  match p with
  | DeliveryRecordedPayload _ c | SettlementPayload _ c _ => Some c
  | _ => None
  end.

Definition payload_settlement_source (p : ObservationPayload) : option SettlementSource :=
  match p with SettlementPayload _ _ e => Some (evidence_source e) | _ => None end.

(** ** Membership *)

Lemma among_true {A} `{EqDecision A} (l : list A) a : among l a = true ↔ a ∈ l.
Proof. apply bool_decide_eq_true. Qed.
Lemma among_false {A} `{EqDecision A} (l : list A) a : among l a = false ↔ a ∉ l.
Proof. apply bool_decide_eq_false. Qed.
