(* ===== verification/WorkOrderFacts.v ===== *)
(** Reading trusted facts ([packages/business-orchestrator/src/state-machine.js], lines 112-241):
    the decider receives its facts as plain JSON and validates each one where it uses it.  A
    failed check throws a [BusinessDecisionError], of which the model keeps the code. *)

From Stdlib Require Import ZArith Lia String.
From stdpp Require Import base tactics list strings option.
From S2P Require Import Prelude JsString JsDate Json ContractBase PlanContract Envelope.
From S2P Require Import WorkOrderState.
Import CONTRACT_LIMITS.

(** [fail(code, message, details)] *)
Abbreviation fail code := (Err (BusinessDecisionError code)).

(** JavaScript truthiness. ([JNonFinite] stands for [NaN] here.) *)
Definition truthy (v : json) : bool :=
  match v with
  | JUndef | JNull | JBool false | JNonFinite => false
  | JInt z => negb (z =? 0)%Z
  | JStr s => negb (String.eqb s "")
  | _ => true
  end.

(** [left || right] *)
Definition or_json (l r : json) : json := if truthy l then l else r.

(** [left ?? right] *)
Definition nullish (l r : json) : json := match l with JUndef | JNull => r | _ => l end.

Definition is_none {A} (o : option A) : bool := match o with None => true | Some _ => false end.
Definition is_undef (v : json) : bool := match v with JUndef => true | _ => false end.
Definition is_true_value (v : json) : bool := match v with JBool true => true | _ => false end.

(** [value.field], for a value that is neither [null] nor [undefined]. *)
Definition prop (k : string) (v : json) : json := match v with JObj fs => get k fs | _ => JUndef end.

Definition object (value : json) : res fields :=
  match value with JObj fs => Ok fs | _ => fail "BUSINESS_DECISION_INVALID" end.

Definition portableRef (value : json) : res string :=
  match value with
  | JStr s =>
      let normalized := trim s in
      reject String.eqb normalized "" with BusinessDecisionError "BUSINESS_DECISION_INVALID" in
      reject (max_ref_bytes <? utf8Bytes normalized)%Z || negb (portable_pattern normalized)
        with BusinessDecisionError "BUSINESS_DECISION_INVALID" in
      Ok normalized
  | _ => fail "BUSINESS_DECISION_INVALID"
  end.

Definition sha256 (value : json) : res string :=
  match value with
  | JStr s => if hex_pattern 64 s then Ok s else fail "BUSINESS_DECISION_INVALID"
  | _ => fail "BUSINESS_DECISION_INVALID"
  end.

Definition integer (value : json) (minimum maximum : Z) : res Z :=
  match value with
  | JInt z =>
      if negb (is_safe_integer z) || (z <? minimum)%Z || (maximum <? z)%Z
      then fail "BUSINESS_DECISION_INVALID" else Ok z
  | _ => fail "BUSINESS_DECISION_INVALID"
  end.

(** [timestamp(value, path)]: no trimming; a canonical text is ASCII, so its length in code units
    is its length in bytes. *)
Definition timestamp (value : json) : res Z :=
  match value with
  | JStr s =>
      reject (64 <? Z.of_nat (String.length s))%Z
        with BusinessDecisionError "BUSINESS_DECISION_INVALID" in
      match ms_of_iso s with Some t => Ok t | None => fail "BUSINESS_DECISION_INVALID" end
  | _ => fail "BUSINESS_DECISION_INVALID"
  end.

(** [same(Object.keys(value).sort(compareText), expected)] for a sorted list of names. *)
Definition same_keys (fs : fields) (expected : list string) : bool :=
  bool_decide (sort_text (keys fs) = expected).

Definition contentRef (value : json) : res ContentRef :=
  let* ref := object value in
  reject negb (same_keys ref ["hash"; "id"])
    with BusinessDecisionError "BUSINESS_DECISION_INVALID" in
  let* id := portableRef (get "id" ref) in
  let* hash := sha256 (get "hash" ref) in
  Ok {| cr_id := id; cr_hash := hash |}.

Definition referenceArray (value : json) (minimum : Z) : res (list string) :=
  match value with
  | JArr l =>
      reject (Z.of_nat (length l) <? minimum)%Z || (max_evidence_refs <? Z.of_nat (length l))%Z
        with BusinessDecisionError "BUSINESS_DECISION_LIMIT" in
      let* normalized := mapR portableRef l in
      reject has_duplicates normalized with BusinessDecisionError "BUSINESS_DECISION_INVALID" in
      Ok (sort_text normalized)
  | _ => fail "BUSINESS_DECISION_LIMIT"
  end.

(** [addMilliseconds], [Date.prototype.toISOString] throwing out of range. *)
Definition addMilliseconds (t milliseconds : Z) : res Z := to_time (t + milliseconds).

Definition minTimestamp (left right : Z) : Z := if (left <=? right)%Z then left else right.

(** [value === undefined || value === null ? null : f(value)] *)
Definition optional {A} (f : json → res A) (v : json) : res (option A) :=
  match v with JUndef | JNull => Ok None | _ => let* a := f v in Ok (Some a) end.

(** [normalizeRuntimeIdentity] on a value that is present. *)
Definition runtimeIdentity (value : json) : res RuntimeIdentity :=
  let* identity := object value in
  reject existsb (λ k, negb (includes ["operation_id"; "thread_id"; "turn_id"] k)) (keys identity)
    with BusinessDecisionError "BUSINESS_DECISION_INVALID" in
  let* operation_id := optional portableRef (get "operation_id" identity) in
  let* thread_id := optional portableRef (get "thread_id" identity) in
  let* turn_id := optional portableRef (get "turn_id" identity) in
  reject bool_decide (operation_id = None ∧ thread_id = None ∧ turn_id = None)
    with BusinessDecisionError "BUSINESS_RUNTIME_IDENTITY_REQUIRED" in
  Ok {| ri_operation_id := operation_id; ri_thread_id := thread_id; ri_turn_id := turn_id |}.

Definition normalizeRuntimeIdentity (value : json) (required : bool)
    : res (option RuntimeIdentity) :=
  match value with
  | JUndef | JNull =>
      if required then fail "BUSINESS_RUNTIME_IDENTITY_REQUIRED" else Ok None
  | _ => let* i := runtimeIdentity value in Ok (Some i)
  end.

(** With [{ required: true }] the result is an identity. *)
Definition requiredRuntimeIdentity (value : json) : res RuntimeIdentity :=
  match value with
  | JUndef | JNull => fail "BUSINESS_RUNTIME_IDENTITY_REQUIRED"
  | _ => runtimeIdentity value
  end.

(** *** Laws *)

Lemma portableRef_Ok v s :
  portableRef v = Ok s → portable_pattern s = true ∧ trim s = s ∧ (utf8Bytes s <= max_ref_bytes)%Z.
Proof.
  unfold portableRef. destruct v; try discriminate. intros H. cbv zeta in H. res_inv H. subst.
  split_bools. split_and!; [done | apply trim_idem | done].
Qed.

(** A normalised reference is accepted again. *)
Lemma portableRef_stable v s : portableRef v = Ok s → portableRef (JStr s) = Ok s.
Proof.
  unfold portableRef. destruct v as [| | | | | |s0| | |]; try discriminate. cbv zeta. intros H.
  res_inv H. subst. rewrite trim_idem. by rewrite B, B0.
Qed.

Lemma sha256_Ok v s : sha256 v = Ok s → v = JStr s ∧ hex_pattern 64 s = true.
Proof. unfold sha256. destruct v; try discriminate. intros H. res_inv H. by subst. Qed.

Lemma integer_Ok v lo hi z : integer v lo hi = Ok z → v = JInt z ∧ (lo <= z <= hi)%Z.
Proof.
  unfold integer. destruct v; try discriminate. intros H. res_inv H. split_bools. subst.
  split; [done | lia].
Qed.

Lemma timestamp_Ok v t : timestamp v = Ok t → v = timestamp_json t.
Proof.
  unfold timestamp. destruct v; try discriminate. intros H. res_inv H.
  destruct (ms_of_iso s) as [t'|] eqn:E; [|done]. injection H as ->.
  apply ms_of_iso_sound in E as [E _]. unfold timestamp_json. by rewrite E.
Qed.

Lemma addMilliseconds_Ok t d t' : addMilliseconds t d = Ok t' → t' = (t + d)%Z.
Proof. unfold addMilliseconds, to_time. intros H. res_inv H. done. Qed.

Lemma minTimestamp_le l r : (minTimestamp l r <= l)%Z ∧ (minTimestamp l r <= r)%Z.
Proof. unfold minTimestamp. destruct (Z.leb_spec l r); lia. Qed.

Lemma referenceArray_Ok v m l :
  referenceArray v m = Ok l →
  NoDup l ∧ sort_text l = l ∧ (m <= Z.of_nat (length l) <= max_evidence_refs)%Z.
Proof.
  unfold referenceArray. destruct v as [| | | | | | |l0| |]; try discriminate. intros H. res_inv H.
  subst. split_bools. apply has_duplicates_false in B0. apply mapR_Ok, Forall2_length in E.
  pose proof (Permutation_length (sort_text_Permutation v)) as Hl.
  rewrite sort_text_idem. split_and!; [by rewrite sort_text_Permutation | done | lia | lia].
Qed.
