(* ===== verification/WorkOrderContext.v ===== *)
(** The decision context ([packages/business-orchestrator/src/state-machine.js], lines 321-420): the
    mutable working state and event list of one decision, as a state and error monad, with the
    primitive that emits an event and the two status transitions.

    The code works on one private copy of the state and mutates the branch objects it finds in
    it; here the working state is the [cx_state] of the context, a branch is named by its key and
    read again after each change. *)

From Stdlib Require Import ZArith Lia String.
From stdpp Require Import base tactics list strings option gmap.
From S2P Require Import Prelude JsString JsDate Json SettlementPolicy ContractBase PlanContract.
From S2P Require Import Envelope WorkOrderState WorkOrderFacts.

(** ** The fixed part of a context *)

Inductive Input := InCommand (c : CommandEnvelope) | InObservation (o : ObservationEnvelope).

Definition input_identity (i : Input) : EnvelopeIdentity :=
  match i with InCommand c => ce_identity c | InObservation o => oe_identity o end.
Definition input_actor (i : Input) : Actor :=
  match i with InCommand c => ce_actor c | InObservation o => oe_actor o end.

(** The envelope, the trusted facts with their validated [occurred_at], and the revision the
    decision starts from. *)
Class Env := {
  en_input : Input;
  en_facts : fields;
  en_occurred_at : Z;
  en_prior_revision : Z;
}.

(** [context.sourceId] *)
Definition input_source_id (i : Input) : string :=
  match i with InCommand c => ce_command_id c | InObservation o => oe_observation_id o end.

(** ** The changing part *)

Record Event := {
  ev_event_id : string;
  ev_type : string;
  ev_payload : fields;
  ev_evidence_refs : list string;
}.

Definition event_json (e : Event) : json :=
  JObj [("event_id", JStr (ev_event_id e)); ("schema_version", JInt 1); ("type", JStr (ev_type e));
        ("payload", JObj (ev_payload e)); ("evidence_refs", str_list_json (ev_evidence_refs e))].

Record Ctx := {
  cx_state : option State;
  cx_events : list Event;
  cx_settlementPolicy : option SettlementPolicy;
  cx_recoveryProbeLedger : option json;
}.

(** ** The monad *)

Definition M (A : Type) : Type := Ctx → res (A * Ctx).

Definition mret {A} (a : A) : M A := λ c, Ok (a, c).
Definition mbind {A B} (m : M A) (k : A → M B) : M B :=
  λ c, match m c with Ok (a, c') => k a c' | Err e => Err e end.
Definition mlift {A} (r : res A) : M A := λ c, match r with Ok a => Ok (a, c) | Err e => Err e end.
Definition mfail {A} (code : string) : M A := λ _, fail code.

Declare Scope mon_scope.
Delimit Scope mon_scope with mon.
Notation "'let!' x := m 'in' k" := (mbind m (fun x => k))
  (at level 10, x name, m at level 100, k at level 200) : mon_scope.
Notation "'let!' ' p := m 'in' k" := (mbind m (fun x => match x with p => k end))
  (at level 10, p pattern, m at level 100, k at level 200) : mon_scope.
Notation "'deny' b 'with' code 'in' k" := (if b then mfail code else k)
  (at level 10, b at level 100, code at level 100, k at level 200) : mon_scope.
Open Scope mon_scope.

(** [for (const x of l) f(x)] *)
Fixpoint forM {A} (f : A → M unit) (l : list A) : M unit :=
  match l with
  | [] => mret tt
  | x :: l' => let! _ := f x in forM f l'
  end.

(** [context.state], dereferenced: a [TypeError] when it is [null]. *)
Definition getState : M State :=
  λ c, match cx_state c with Some s => Ok (s, c) | None => Err TypeError end.

Definition putState (s : State) : M unit :=
  λ c, Ok (tt, {| cx_state := Some s; cx_events := cx_events c;
                  cx_settlementPolicy := cx_settlementPolicy c;
                  cx_recoveryProbeLedger := cx_recoveryProbeLedger c |}).

Definition modifyState (f : State → State) : M unit :=
  let! s := getState in putState (f s).

(** Assignments to fields of [context.state.branches[ref]]. *)
Definition modifyBranch (ref : string) (f : Branch → Branch) : M unit :=
  modifyState (λ s, set_st_branches (alter f ref (st_branches s)) s).

Section Context.
Context `{Sha256} {env : Env}.

Definition sourceId : string := input_source_id en_input.
Definition targetRevision : Z := (en_prior_revision + 1)%Z.
Definition occurred_at : Z := en_occurred_at.
Definition fact (k : string) : json := get k en_facts.

(** [commandRevision(state, command)] *)
Definition commandRevision (state : option State) (command : CommandEnvelope) : M unit :=
  let current := match state with Some s => st_revision s | None => 0%Z end in
  deny negb (ce_expected_work_order_revision command =? current)%Z
    with "BUSINESS_STALE_WORK_ORDER" in mret tt.

Definition common_event_fields : fields :=
  [("work_order_id", JStr (ei_work_order_id (input_identity en_input)));
   ("plan_snapshot_ref", JStr (ei_plan_snapshot_ref (input_identity en_input)));
   ("plan_hash", JStr (ei_plan_hash (input_identity en_input)));
   ("source_id", JStr sourceId); ("prior_work_order_revision", JInt en_prior_revision);
   ("target_work_order_revision", JInt targetRevision);
   ("occurred_at", timestamp_json occurred_at)].

(** The identifier of an event: a hash of what it says and of its place in the decision. *)
Definition event_id (ordinal : nat) (type : string) (payload : fields) (evidence : list string)
    : res string :=
  let* h := canonicalHash (JObj
    [("source_id", JStr sourceId); ("ordinal", JInt (Z.of_nat ordinal)); ("type", JStr type);
     ("payload", JObj payload); ("evidence_refs", str_list_json evidence)]) in
  Ok ("BEV-" +:+ slice0 32 h).

(** [emit(context, type, specific, evidenceRefs)]; [specific] never repeats a common field. *)
Definition emit (type : string) (specific : fields) (evidenceRefs : list string) : M unit :=
  let payload := common_event_fields ++ specific in
  let! normalizedEvidence := mlift (referenceArray (str_list_json evidenceRefs) 0) in
  λ c,
    match event_id (length (cx_events c)) type payload normalizedEvidence with
    | Err e => Err e
    | Ok eventId =>
        Ok (tt, {| cx_state := cx_state c;
                   cx_events := cx_events c ++
                     [{| ev_event_id := eventId; ev_type := type; ev_payload := payload;
                         ev_evidence_refs := normalizedEvidence |}];
                   cx_settlementPolicy := cx_settlementPolicy c;
                   cx_recoveryProbeLedger := cx_recoveryProbeLedger c |})
    end.

Definition branchByRef (branchRef : string) : M Branch :=
  let! s := getState in
  match st_branches s !! branchRef with
  | Some b => mret b
  | None => mfail "BUSINESS_BRANCH_NOT_FOUND"
  end.

(** The options of [transitionBranch]. *)
Record TransitionOptions := {
  to_retry_at : option Z;
  to_resolved : option (string * ContentRef);   (* resolved_request_id, response_ref *)
  to_evidence_refs : list string;
}.

Definition with_evidence (evidenceRefs : list string) : TransitionOptions :=
  {| to_retry_at := None; to_resolved := None; to_evidence_refs := evidenceRefs |}.
Definition retrying_at (retryAt : Z) (evidenceRefs : list string) : TransitionOptions :=
  {| to_retry_at := Some retryAt; to_resolved := None; to_evidence_refs := evidenceRefs |}.

(** The assignments at the end of [transitionBranch]. *)
Definition set_branch_state (to : BranchState) (retryAt : option Z) (reason : string)
    (b : Branch) : Branch :=
  set_br_last_transition_reason (Some reason)
    (set_br_finished_at (if among TERMINAL_BRANCH_STATES to then Some occurred_at else None)
      (set_br_retry_at (if bool_decide (to = BRetryable) then retryAt else None)
        (set_br_state to b))).

Definition transitionBranch (branchRef : string) (to : BranchState) (reason : string)
    (options : TransitionOptions) : M unit :=
  let! branch := branchByRef branchRef in
  if bool_decide (br_state branch = to) then mret tt
  else
    let! retry := match to with
      | BRetryable =>
          match to_retry_at options with
          | Some t => mret [("retry_at", timestamp_json t)]
          | None => mfail "BUSINESS_DECISION_INVALID"
          end
      | _ => mret []
      end in
    let! resolved := match to_resolved options with
      | Some (requestId, ref) =>
          let! id := mlift (portableRef (JStr requestId)) in
          let! response := mlift (contentRef (content_ref_json ref)) in
          mret [("resolved_request_id", JStr id); ("response_ref", content_ref_json response)]
      | None => mret []
      end in
    let! _ := emit "business.branch.status_changed"
      ([("branch_ref", JStr branchRef); ("from", enum_json (br_state branch));
        ("to", enum_json to); ("reason", JStr reason)] ++ retry ++ resolved)
      (to_evidence_refs options) in
    modifyBranch branchRef (set_branch_state to (to_retry_at options) reason).

(** The assignments at the end of [transitionWorkOrder]. *)
Definition set_status (to : WorkOrderStatus) (reason : string) (s : State) : State :=
  let s := set_st_status to s in
  let s := if bool_decide (to = WRunning ∧ st_started_at s = None)
    then set_st_started_at (Some occurred_at) s else s in
  if among TERMINAL_WORK_ORDER_STATES to || bool_decide (to = WCancelling)
  then set_st_stop_reason (Some reason) s else s.

Definition transitionWorkOrder (to : WorkOrderStatus) (reason : string)
    (evidenceRefs : list string) : M unit :=
  let! s := getState in
  if bool_decide (st_status s = to) then mret tt
  else
    let! _ := emit "business.work_order.status_changed"
      [("from", enum_json (st_status s)); ("to", enum_json to); ("reason", JStr reason)]
      evidenceRefs in
    modifyState (set_status to reason).
End Context.
