(* ===== verification/WorkOrderEffects.v ===== *)
(** Provider effects ([packages/business-orchestrator/src/state-machine.js], lines 422-731, and
    [packages/business-orchestrator/src/lifecycle.js], lines 52-72 and 157-202): the immutable
    identity of an effect, the identifiers derived from it, the generation lineage and the check
    that an effect belongs to the current attempt of a branch. *)

From Stdlib Require Import ZArith Lia String.
From stdpp Require Import base tactics list strings option gmap.
From S2P Require Import Prelude JsString JsDate Json SettlementPolicy ContractBase PlanContract.
From S2P Require Import Envelope WorkOrderState WorkOrderFacts WorkOrderContext.

(** ** The identity of an effect *)

(** [V2_EFFECT_IDENTITY_FIELDS]; the contract version is always 2.  [ef_dispatch_id] is [None]
    only for a branch that has no attempt. *)
Record EffectIdentity := {
  ef_effect_id : string;
  ef_work_order_id : string;
  ef_branch_ref : string;
  ef_attempt : Z;
  ef_dispatch_id : option string;
  ef_effect_kind : string;
  ef_origin_source_id : string;
  ef_operation_scope_hash : string;
  ef_operation_generation : Z;
  ef_generation_predecessor_effect_id : option string;
  ef_provider_ref : string;
  ef_packet_ref : string;
  ef_packet_hash : string;
  ef_predecessor_effect_id : option string;
  ef_predecessor_delivery_hash : option string;
  ef_target_runtime_identity : option RuntimeIdentity;
  ef_idempotency_key : string;
  ef_created_at : Z;
}.

Definition V2_EFFECT_IDENTITY_FIELDS : list string :=
  ["effect_id"; "effect_contract_version"; "work_order_id"; "branch_ref"; "attempt"; "dispatch_id";
   "effect_kind"; "origin_source_id"; "operation_scope_hash"; "operation_generation";
   "generation_predecessor_effect_id"; "provider_ref"; "packet_ref"; "packet_hash";
   "predecessor_effect_id"; "predecessor_delivery_hash"; "target_runtime_identity";
   "idempotency_key"; "created_at"].

(** [effectIdentifierSeed]: the fields that determine the identifiers. *)
Definition effectIdentifierSeed (e : EffectIdentity) : json :=
  JObj [("effect_contract_version", JInt 2); ("work_order_id", JStr (ef_work_order_id e));
        ("branch_ref", JStr (ef_branch_ref e)); ("attempt", JInt (ef_attempt e));
        ("dispatch_id", opt_json JStr (ef_dispatch_id e));
        ("effect_kind", JStr (ef_effect_kind e));
        ("origin_source_id", JStr (ef_origin_source_id e));
        ("operation_scope_hash", JStr (ef_operation_scope_hash e));
        ("operation_generation", JInt (ef_operation_generation e));
        ("generation_predecessor_effect_id",
          opt_json JStr (ef_generation_predecessor_effect_id e));
        ("provider_ref", JStr (ef_provider_ref e)); ("packet_ref", JStr (ef_packet_ref e));
        ("packet_hash", JStr (ef_packet_hash e));
        ("predecessor_effect_id", opt_json JStr (ef_predecessor_effect_id e));
        ("predecessor_delivery_hash", opt_json JStr (ef_predecessor_delivery_hash e));
        ("target_runtime_identity", opt_json runtime_identity_json (ef_target_runtime_identity e))].

(** The identity as the events carry it. *)
Definition effect_identity_fields (e : EffectIdentity) : fields :=
  [("effect_id", JStr (ef_effect_id e)); ("effect_contract_version", JInt 2);
   ("work_order_id", JStr (ef_work_order_id e)); ("branch_ref", JStr (ef_branch_ref e));
   ("attempt", JInt (ef_attempt e)); ("dispatch_id", opt_json JStr (ef_dispatch_id e));
   ("effect_kind", JStr (ef_effect_kind e)); ("origin_source_id", JStr (ef_origin_source_id e));
   ("operation_scope_hash", JStr (ef_operation_scope_hash e));
   ("operation_generation", JInt (ef_operation_generation e));
   ("generation_predecessor_effect_id", opt_json JStr (ef_generation_predecessor_effect_id e));
   ("provider_ref", JStr (ef_provider_ref e)); ("packet_ref", JStr (ef_packet_ref e));
   ("packet_hash", JStr (ef_packet_hash e));
   ("predecessor_effect_id", opt_json JStr (ef_predecessor_effect_id e));
   ("predecessor_delivery_hash", opt_json JStr (ef_predecessor_delivery_hash e));
   ("target_runtime_identity", opt_json runtime_identity_json (ef_target_runtime_identity e));
   ("idempotency_key", JStr (ef_idempotency_key e));
   ("created_at", timestamp_json (ef_created_at e))].

Definition effect_identity_json (e : EffectIdentity) : json := JObj (effect_identity_fields e).

(** The record [outboxEffect] returns: the identity and the initial delivery fields. *)
Definition outbox_effect_json (e : EffectIdentity) : json :=
  JObj (effect_identity_fields e ++
    [("status", JStr "pending"); ("lease", JNull); ("delivery", JNull);
     ("updated_at", timestamp_json (ef_created_at e))]).

(** [Object.fromEntries(FIELDS.map((field) => [field, value[field]]))] *)
Definition pick (names : list string) (fs : fields) : json := JObj (map (λ k, (k, get k fs)) names).

(** The [expectedFields] lists of the code, sorted. *)
Definition identity_keys_with (extra : list string) : list string :=
  sort_text (V2_EFFECT_IDENTITY_FIELDS ++ extra).

Definition optR {A} (f : A → res A) (o : option A) : res (option A) :=
  match o with None => Ok None | Some a => let* b := f a in Ok (Some b) end.

Definition normalizeOutboxEffectIdentity (value : json) : res EffectIdentity :=
  let* effect := object value in
  reject negb (same_keys effect (identity_keys_with []))
    with BusinessDecisionError "BUSINESS_OUTBOX_EFFECT_BINDING" in
  let* effect_id := portableRef (get "effect_id" effect) in
  let* _ := integer (get "effect_contract_version" effect) 2 2 in
  let* work_order_id := portableRef (get "work_order_id" effect) in
  let* branch_ref := portableRef (get "branch_ref" effect) in
  let* attempt := integer (get "attempt" effect) 1 5 in
  let* dispatch_id := portableRef (get "dispatch_id" effect) in
  let* effect_kind := portableRef (get "effect_kind" effect) in
  let* origin_source_id := portableRef (get "origin_source_id" effect) in
  let* operation_scope_hash := sha256 (get "operation_scope_hash" effect) in
  let* operation_generation := integer (get "operation_generation" effect) 1 1000000000 in
  let* generation_predecessor_effect_id :=
    nullable portableRef (get "generation_predecessor_effect_id" effect) in
  let* provider_ref := portableRef (get "provider_ref" effect) in
  let* packet_ref := portableRef (get "packet_ref" effect) in
  let* packet_hash := sha256 (get "packet_hash" effect) in
  let* predecessor_effect_id := nullable portableRef (get "predecessor_effect_id" effect) in
  let* predecessor_delivery_hash := nullable sha256 (get "predecessor_delivery_hash" effect) in
  let* target_runtime_identity :=
    nullable requiredRuntimeIdentity (get "target_runtime_identity" effect) in
  let* idempotency_key := portableRef (get "idempotency_key" effect) in
  let* created_at := timestamp (get "created_at" effect) in
  reject negb (Bool.eqb (operation_generation =? 1)%Z
      (bool_decide (generation_predecessor_effect_id = None)))
    with BusinessDecisionError "BUSINESS_OUTBOX_EFFECT_GENERATION_BINDING" in
  Ok {| ef_effect_id := effect_id; ef_work_order_id := work_order_id; ef_branch_ref := branch_ref;
        ef_attempt := attempt; ef_dispatch_id := Some dispatch_id; ef_effect_kind := effect_kind;
        ef_origin_source_id := origin_source_id; ef_operation_scope_hash := operation_scope_hash;
        ef_operation_generation := operation_generation;
        ef_generation_predecessor_effect_id := generation_predecessor_effect_id;
        ef_provider_ref := provider_ref; ef_packet_ref := packet_ref;
        ef_packet_hash := packet_hash; ef_predecessor_effect_id := predecessor_effect_id;
        ef_predecessor_delivery_hash := predecessor_delivery_hash;
        ef_target_runtime_identity := target_runtime_identity;
        ef_idempotency_key := idempotency_key; ef_created_at := created_at |}.

(** ** The scope of an operation *)

(** The argument of [deriveEffectOperationScopeHashV2]. *)
Record ScopeBinding := {
  sb_effect_kind : EffectKind;
  sb_provider_ref : string;
  sb_packet_ref : string;
  sb_packet_hash : string;
  sb_predecessor_effect_id : option string;
  sb_predecessor_delivery_hash : option string;
  sb_target_runtime_identity : option RuntimeIdentity;
  sb_request_id : option string;         (* [undefined] when [None] *)
  sb_response_ref : option ContentRef;   (* [undefined] when [None] *)
}.

Definition undef_json {A} (f : A → json) (o : option A) : json :=
  match o with Some a => f a | None => JUndef end.

(** The fields that delimit an operation, per kind: a start is tied to its packet, a mutation of a
    running turn to the turn. *)
Definition scope_fields (b : ScopeBinding) : fields :=
  let kind := ("effect_kind", enum_json (sb_effect_kind b)) in
  let provider := ("provider_ref", JStr (sb_provider_ref b)) in
  let packet := [("packet_ref", JStr (sb_packet_ref b)); ("packet_hash", JStr (sb_packet_hash b))] in
  let predecessor :=
    [("predecessor_effect_id", opt_json JStr (sb_predecessor_effect_id b));
     ("predecessor_delivery_hash", opt_json JStr (sb_predecessor_delivery_hash b));
     ("target_runtime_identity", opt_json runtime_identity_json (sb_target_runtime_identity b))] in
  match sb_effect_kind b with
  | ThreadCreate => kind :: provider :: packet
  | TurnStart => kind :: provider :: packet ++ predecessor
  | TurnCancel => kind :: provider :: predecessor
  | UserInputSubmit =>
      kind :: provider :: predecessor
        ++ [("request_id", undef_json JStr (sb_request_id b));
            ("response_ref", undef_json content_ref_json (sb_response_ref b))]
  end.

(** The retry schedule of a settled start effect, from the plan's retry policy. *)
Definition schedule_input (s : State) (policy : SettlementPolicy) (generation settledAt : Z)
    (attemptDeadline : option Z) : json :=
  let retry := pl_retry_policy (st_plan s) in
  JObj [("settlement_policy", settlement_policy_json policy);
        ("retry_policy", JObj [("backoff_initial_ms", JInt (rp_backoff_initial_ms retry));
           ("backoff_max_ms", JInt (rp_backoff_max_ms retry));
           ("max_attempts", JInt (rp_max_attempts retry))]);
        ("completed_generation", JInt generation); ("settled_at", timestamp_json settledAt);
        ("attempt_deadline_at", opt_json timestamp_json attemptDeadline);
        ("work_order_deadline_at", timestamp_json (st_deadline_at s))].

Section Effects.
Context `{Sha256} {env : Env}.

Definition deriveEffectOperationScopeHashV2 (binding : ScopeBinding) : res string :=
  canonicalHash (JObj (scope_fields binding)).

Definition deterministicId (prefix : string) (value : json) : res string :=
  let* h := canonicalHash value in Ok (prefix +:+ "-" +:+ slice0 32 h).

(** [packetFor(facts, branchRef, path)], by the last component of [path] and its singular. *)
Definition packetFor (field singularField branchRef : string) : res ContentRef :=
  let* packets := match fact field with JUndef => Ok [] | v => object v end in
  let candidates := [get branchRef packets; fact singularField; fact "dispatch_packet"] in
  match filter (λ v, truthy v = true) candidates with
  | candidate :: _ => contentRef candidate
  | [] => fail "BUSINESS_DISPATCH_PACKET_REQUIRED"
  end.

Definition dispatchPacket : string → res ContentRef :=
  packetFor "dispatch_packets" "dispatch_packet".
Definition retryPacket : string → res ContentRef :=
  packetFor "retry_dispatch_packets" "retry_dispatch_packet".
Definition cancelPacket : string → res ContentRef :=
  packetFor "cancel_packets" "cancel_packet".

(** Does the identity name the current attempt of the branch and this operation? *)
Definition binds_operation (s : State) (branch : Branch) (kind : option EffectKind)
    (scopeHash : string) (e : EffectIdentity) : bool :=
  String.eqb (ef_work_order_id e) (st_work_order_id s)
  && String.eqb (ef_branch_ref e) (br_branch_ref branch)
  && (ef_attempt e =? br_attempt branch)%Z
  && bool_decide (ef_dispatch_id e = br_dispatch_id branch)
  && bool_decide (Some (ef_effect_kind e) = option_map enum_str kind)
  && String.eqb (ef_provider_ref e) (br_provider_ref branch)
  && String.eqb (ef_operation_scope_hash e) scopeHash.

Definition normalizeGenerationPredecessor (s : State) (branch : Branch) (effectKind : EffectKind)
    (operationScopeHash : string) (value : json) : res EffectIdentity :=
  let* f := object value in
  reject negb (same_keys f (identity_keys_with ["status"]))
    with BusinessDecisionError "BUSINESS_OUTBOX_EFFECT_GENERATION_BINDING" in
  let* identity := normalizeOutboxEffectIdentity (pick V2_EFFECT_IDENTITY_FIELDS f) in
  let* status := portableRef (get "status" f) in
  reject negb (String.eqb status "not_sent")
      || negb (binds_operation s branch (Some effectKind) operationScopeHash identity)
    with BusinessDecisionError "BUSINESS_OUTBOX_EFFECT_GENERATION_BINDING" in
  let seed := effectIdentifierSeed identity in
  let* effectId := deterministicId "FX" seed in
  reject negb (String.eqb (ef_effect_id identity) effectId)
    with BusinessDecisionError "BUSINESS_OUTBOX_EFFECT_GENERATION_BINDING" in
  let* idempotencyKey := deterministicId "IDEM" seed in
  reject negb (String.eqb (ef_idempotency_key identity) idempotencyKey)
    with BusinessDecisionError "BUSINESS_OUTBOX_EFFECT_GENERATION_BINDING" in
  Ok identity.

Definition generationPredecessor (s : State) (branch : Branch) (effectKind : EffectKind)
    (operationScopeHash : string) : res (option EffectIdentity) :=
  match fact "generation_predecessors" with
  | JUndef => Ok None
  | v =>
      let* predecessors := object v in
      match get (br_branch_ref branch) predecessors with
      | JUndef => Ok None
      | value =>
          let* e := normalizeGenerationPredecessor s branch effectKind operationScopeHash value in
          Ok (Some e)
      end
  end.

(** The named options of [outboxEffect]. *)
Record OutboxOptions := {
  oo_predecessorEffectId : option string;
  oo_predecessorDeliveryHash : option string;
  oo_targetRuntimeIdentity : option RuntimeIdentity;
  oo_requestId : option string;
  oo_responseRef : option ContentRef;
  oo_allowGenerationSuccessor : bool;
  oo_generationPredecessorIdentity : option EffectIdentity;
}.

Definition no_options : OutboxOptions :=
  {| oo_predecessorEffectId := None; oo_predecessorDeliveryHash := None;
     oo_targetRuntimeIdentity := None; oo_requestId := None; oo_responseRef := None;
     oo_allowGenerationSuccessor := false; oo_generationPredecessorIdentity := None |}.

(** The [request_id] and [response_ref] of the scope binding. *)
Definition inputScope (effectKind : EffectKind) (o : OutboxOptions)
    : res (option string * option ContentRef) :=
  match effectKind with
  | UserInputSubmit =>
      let* request_id := portableRef (opt_json JStr (oo_requestId o)) in
      let* response_ref := contentRef (opt_json content_ref_json (oo_responseRef o)) in
      Ok (Some request_id, Some response_ref)
  | _ => Ok (None, None)
  end.

Definition resolveGenerationPredecessor (s : State) (branch : Branch) (effectKind : EffectKind)
    (scopeHash : string) (o : OutboxOptions) : res (option EffectIdentity) :=
  match oo_generationPredecessorIdentity o with
  | Some e => let* e := normalizeOutboxEffectIdentity (effect_identity_json e) in Ok (Some e)
  | None =>
      if oo_allowGenerationSuccessor o
      then generationPredecessor s branch effectKind scopeHash else Ok None
  end.

Definition outboxEffect (s : State) (branch : Branch) (packetRef : ContentRef)
    (effectKind : EffectKind) (o : OutboxOptions) : res EffectIdentity :=
  let* predecessor := optR (λ v, portableRef (JStr v)) (oo_predecessorEffectId o) in
  let* target := optR (λ i, requiredRuntimeIdentity (runtime_identity_json i))
    (oo_targetRuntimeIdentity o) in
  let* predecessorDelivery := optR (λ v, sha256 (JStr v)) (oo_predecessorDeliveryHash o) in
  let* ' (request_id, response_ref) := inputScope effectKind o in
  let* operationScopeHash := deriveEffectOperationScopeHashV2
    {| sb_effect_kind := effectKind; sb_provider_ref := br_provider_ref branch;
       sb_packet_ref := cr_id packetRef; sb_packet_hash := cr_hash packetRef;
       sb_predecessor_effect_id := predecessor;
       sb_predecessor_delivery_hash := predecessorDelivery;
       sb_target_runtime_identity := target; sb_request_id := request_id;
       sb_response_ref := response_ref |} in
  let* generation := resolveGenerationPredecessor s branch effectKind operationScopeHash o in
  reject match generation with
    | None => false
    | Some e => negb (binds_operation s branch (Some effectKind) operationScopeHash e)
    end with BusinessDecisionError "BUSINESS_OUTBOX_EFFECT_GENERATION_BINDING" in
  let identity :=
    {| ef_effect_id := ""; ef_work_order_id := st_work_order_id s;
       ef_branch_ref := br_branch_ref branch; ef_attempt := br_attempt branch;
       ef_dispatch_id := br_dispatch_id branch; ef_effect_kind := enum_str effectKind;
       ef_origin_source_id := sourceId; ef_operation_scope_hash := operationScopeHash;
       ef_operation_generation := match generation with
         | None => 1 | Some e => (ef_operation_generation e + 1)%Z end;
       ef_generation_predecessor_effect_id := option_map ef_effect_id generation;
       ef_provider_ref := br_provider_ref branch; ef_packet_ref := cr_id packetRef;
       ef_packet_hash := cr_hash packetRef; ef_predecessor_effect_id := predecessor;
       ef_predecessor_delivery_hash := predecessorDelivery;
       ef_target_runtime_identity := target; ef_idempotency_key := "";
       ef_created_at := occurred_at |} in
  let* effect_id := deterministicId "FX" (effectIdentifierSeed identity) in
  let* idempotency_key := deterministicId "IDEM" (effectIdentifierSeed identity) in
  Ok {| ef_effect_id := effect_id; ef_work_order_id := ef_work_order_id identity;
        ef_branch_ref := ef_branch_ref identity; ef_attempt := ef_attempt identity;
        ef_dispatch_id := ef_dispatch_id identity; ef_effect_kind := ef_effect_kind identity;
        ef_origin_source_id := ef_origin_source_id identity;
        ef_operation_scope_hash := ef_operation_scope_hash identity;
        ef_operation_generation := ef_operation_generation identity;
        ef_generation_predecessor_effect_id := ef_generation_predecessor_effect_id identity;
        ef_provider_ref := ef_provider_ref identity; ef_packet_ref := ef_packet_ref identity;
        ef_packet_hash := ef_packet_hash identity;
        ef_predecessor_effect_id := ef_predecessor_effect_id identity;
        ef_predecessor_delivery_hash := ef_predecessor_delivery_hash identity;
        ef_target_runtime_identity := ef_target_runtime_identity identity;
        ef_idempotency_key := idempotency_key; ef_created_at := ef_created_at identity |}.
End Effects.

(** ** The current stage of a branch *)

(** The start effect that is still due; [None] once the turn has started. *)
Definition currentDispatchStage (branch : Branch) : option EffectKind :=
  match br_turn_start_effect_id branch, br_thread_create_effect_id branch with
  | Some _, _ => None
  | None, Some _ => Some TurnStart
  | None, None => Some ThreadCreate
  end.

(** [assertEffectBindsBranch]: the effect is the one the current attempt of the branch has, at the
    stage [expectedKind]. *)
Definition assertEffectBindsBranch (s : State) (branch : Branch) (effect : EffectIdentity)
    (expectedKind : EffectKind) : res unit :=
  let isThreadCreate := bool_decide (expectedKind = ThreadCreate) in
  let isTurnStart := bool_decide (expectedKind = TurnStart) in
  let isStart := isThreadCreate || isTurnStart in
  let expected {A} (turnStart other : option A) : option A :=
    if isTurnStart then turnStart else if isThreadCreate then None else other in
  let expectedPredecessor :=
    expected (br_thread_create_effect_id branch) (br_turn_start_effect_id branch) in
  let expectedPredecessorDelivery :=
    expected (br_thread_create_delivery_hash branch) (br_turn_start_delivery_hash branch) in
  let expectedTarget := expected (br_thread_identity branch) (br_runtime_identity branch) in
  reject negb (String.eqb (ef_work_order_id effect) (st_work_order_id s))
      || negb (String.eqb (ef_branch_ref effect) (br_branch_ref branch))
      || negb (ef_attempt effect =? br_attempt branch)%Z
      || negb (bool_decide (ef_dispatch_id effect = br_dispatch_id branch))
      || negb (String.eqb (ef_provider_ref effect) (br_provider_ref branch))
      || negb (String.eqb (ef_effect_kind effect) (enum_str expectedKind))
      || (isStart && negb (bool_decide (br_packet_ref branch
            = Some {| cr_id := ef_packet_ref effect; cr_hash := ef_packet_hash effect |})))
      || (isThreadCreate
          && negb (bool_decide (br_attempt_started_at branch = Some (ef_created_at effect))))
      || (negb isThreadCreate && match br_attempt_started_at branch with
            | Some t => (ef_created_at effect <? t)%Z | None => false end)
      || negb (bool_decide (ef_predecessor_effect_id effect = expectedPredecessor))
      || negb (bool_decide (ef_predecessor_delivery_hash effect = expectedPredecessorDelivery))
      || negb (bool_decide (ef_target_runtime_identity effect = expectedTarget))
    with BusinessDecisionError "BUSINESS_OUTBOX_EFFECT_BINDING" in
  reject bool_decide (expectedKind = UserInputSubmit)
      && negb (bool_decide (br_pending_user_input_effect_id branch = Some (ef_effect_id effect)))
    with BusinessDecisionError "BUSINESS_OUTBOX_EFFECT_BINDING" in
  Ok tt.
