(* ===== verification/Outbox.v ===== *)
(** The outbox of the projection ([packages/business-orchestrator/src/projector.js], lines 260-283
    and 2527-2550, and [lifecycle.js], lines 10-81): a provider effect with its delivery record.

    An effect of contract version 1 has no version field and fewer identity fields; it is stored
    in the same record, with [fx_v2] false, and the fields it lacks are never read. *)

From Stdlib Require Import ZArith Lia String.
From stdpp Require Import base tactics list strings option gmap.
From S2P Require Import Prelude JsString JsDate Json SettlementPolicy ContractBase PlanContract.
From S2P Require Import Envelope WorkOrderState WorkOrderFacts WorkOrderContext WorkOrderEffects.

(** [V2_EFFECT_STATUSES] *)
Inductive EffectStatus :=
| FsPending | FsClaimed | FsSending | FsDeliveryUnknown | FsDelivered | FsNotSent | FsCancelled.
#[export] Instance EffectStatus_eq_dec : EqDecision EffectStatus.
Proof. solve_decision. Defined.
#[export] Instance EffectStatus_enum : JsEnum EffectStatus := {|
  enum_all := [FsPending; FsClaimed; FsSending; FsDeliveryUnknown; FsDelivered; FsNotSent;
    FsCancelled];
  enum_str s := match s with
    | FsPending => "pending" | FsClaimed => "claimed" | FsSending => "sending"
    | FsDeliveryUnknown => "delivery_unknown" | FsDelivered => "delivered"
    | FsNotSent => "not_sent" | FsCancelled => "cancelled" end |}.
#[export] Instance EffectStatus_laws : JsEnumLaws EffectStatus.
Proof. enum_laws. Qed.

Definition V2_UNRESOLVED_EFFECT_STATUSES : list EffectStatus :=
  [FsPending; FsClaimed; FsSending; FsDeliveryUnknown].
Definition V2_TERMINAL_EFFECT_STATUSES : list EffectStatus := [FsDelivered; FsNotSent; FsCancelled].
Definition V2_RECOVERABLE_EFFECT_STATUSES : list EffectStatus := [FsSending; FsDeliveryUnknown].

(** [OUTBOX_TRANSITIONS[from]] *)
Definition OUTBOX_TRANSITIONS (from : EffectStatus) : list EffectStatus :=
  match from with
  | FsPending => [FsClaimed; FsCancelled]
  | FsClaimed => [FsPending; FsSending; FsNotSent; FsCancelled]
  | FsSending => [FsDelivered; FsNotSent; FsDeliveryUnknown]
  | FsDeliveryUnknown => [FsDelivered; FsNotSent]
  | FsDelivered | FsNotSent | FsCancelled => []
  end.

(** ** Records *)

#[export] Instance FencingToken_eq_dec : EqDecision FencingToken.
Proof. solve_decision. Defined.

Record Lease := {
  ls_lease_id : string;
  ls_owner_id : string;
  ls_generation : Z;
  ls_claimed_at : Z;
  ls_heartbeat_at : Z;
  ls_expires_at : Z;
}.
#[export] Instance Lease_eq_dec : EqDecision Lease.
Proof. solve_decision. Defined.

Definition lease_token (l : Lease) : FencingToken :=
  {| ft_lease_id := ls_lease_id l; ft_owner_id := ls_owner_id l;
     ft_generation := ls_generation l |}.

Record EffectDelivery := {
  ed_classification : Classification;
  ed_evidence_refs : list string;
  ed_runtime_identity : option RuntimeIdentity;
  ed_recorded_at : Z;
}.
#[export] Instance EffectDelivery_eq_dec : EqDecision EffectDelivery.
Proof. solve_decision. Defined.

Definition effect_delivery_fields (d : EffectDelivery) : fields :=
  [("classification", enum_json (ed_classification d));
   ("evidence_refs", str_list_json (ed_evidence_refs d));
   ("runtime_identity", opt_json runtime_identity_json (ed_runtime_identity d));
   ("recorded_at", timestamp_json (ed_recorded_at d))].

#[export] Instance EffectIdentity_eq_dec : EqDecision EffectIdentity.
Proof. solve_decision. Defined.

Record Effect := {
  fx_v2 : bool;                                  (* [effect_contract_version === 2] *)
  fx_identity : EffectIdentity;
  fx_status : EffectStatus;
  fx_lease : option Lease;
  fx_delivery : option EffectDelivery;
  fx_lease_generation : Z;
  fx_last_lease_id : option string;
  fx_fencing_history : list FencingToken;
  fx_settlement_policy : option SettlementPolicy;
  fx_packet_receipt : option (option json);      (* absent, [null], or a receipt *)
  fx_last_delivery_reason : option string;
  fx_updated_at : Z;
}.

Definition fx_effect_id (e : Effect) : string := ef_effect_id (fx_identity e).
Definition fx_work_order_id (e : Effect) : string := ef_work_order_id (fx_identity e).
Definition fx_branch_ref (e : Effect) : string := ef_branch_ref (fx_identity e).
Definition fx_attempt (e : Effect) : Z := ef_attempt (fx_identity e).
Definition fx_dispatch_id (e : Effect) : option string := ef_dispatch_id (fx_identity e).
Definition fx_provider_ref (e : Effect) : string := ef_provider_ref (fx_identity e).
Definition fx_generation (e : Effect) : Z := ef_operation_generation (fx_identity e).
Definition fx_predecessor (e : Effect) : option string :=
  ef_generation_predecessor_effect_id (fx_identity e).

Definition has_kind (k : EffectKind) (e : Effect) : bool :=
  String.eqb (ef_effect_kind (fx_identity e)) (enum_str k).
Definition has_start_kind (e : Effect) : bool := has_kind ThreadCreate e || has_kind TurnStart e.

(** [effect_contract_version === undefined ? 1 : effect_contract_version] *)
Definition fx_version (e : Effect) : Z := if fx_v2 e then 2 else 1.

(** ** The immutable part *)

Definition LEGACY_OUTBOX_IMMUTABLE_FIELDS : list string :=
  ["effect_id"; "work_order_id"; "branch_ref"; "attempt"; "dispatch_id"; "effect_kind";
   "provider_ref"; "packet_ref"; "packet_hash"; "idempotency_key"; "created_at"].

(** [effect.effect_contract_version === 2 ? OUTBOX_IMMUTABLE_FIELDS : LEGACY_...] *)
Definition immutable_fields (e : Effect) : list string :=
  if fx_v2 e then V2_EFFECT_IDENTITY_FIELDS else LEGACY_OUTBOX_IMMUTABLE_FIELDS.

Definition effectIdentityForDeliveryHash (e : Effect) : json :=
  pick (immutable_fields e) (effect_identity_fields (fx_identity e)).

(** ** Assignments *)

Definition set_fx_status (to : EffectStatus) (updated_at : Z) (e : Effect) : Effect :=
  {| fx_v2 := fx_v2 e; fx_identity := fx_identity e; fx_status := to; fx_lease := fx_lease e;
     fx_delivery := fx_delivery e; fx_lease_generation := fx_lease_generation e;
     fx_last_lease_id := fx_last_lease_id e; fx_fencing_history := fx_fencing_history e;
     fx_settlement_policy := fx_settlement_policy e; fx_packet_receipt := fx_packet_receipt e;
     fx_last_delivery_reason := fx_last_delivery_reason e; fx_updated_at := updated_at |}.
Definition set_fx_lease (l : option Lease) (e : Effect) : Effect :=
  {| fx_v2 := fx_v2 e; fx_identity := fx_identity e; fx_status := fx_status e; fx_lease := l;
     fx_delivery := fx_delivery e; fx_lease_generation := fx_lease_generation e;
     fx_last_lease_id := fx_last_lease_id e; fx_fencing_history := fx_fencing_history e;
     fx_settlement_policy := fx_settlement_policy e; fx_packet_receipt := fx_packet_receipt e;
     fx_last_delivery_reason := fx_last_delivery_reason e; fx_updated_at := fx_updated_at e |}.
Definition set_fx_delivery (d : option EffectDelivery) (e : Effect) : Effect :=
  {| fx_v2 := fx_v2 e; fx_identity := fx_identity e; fx_status := fx_status e;
     fx_lease := fx_lease e; fx_delivery := d; fx_lease_generation := fx_lease_generation e;
     fx_last_lease_id := fx_last_lease_id e; fx_fencing_history := fx_fencing_history e;
     fx_settlement_policy := fx_settlement_policy e; fx_packet_receipt := fx_packet_receipt e;
     fx_last_delivery_reason := fx_last_delivery_reason e; fx_updated_at := fx_updated_at e |}.
Definition set_fx_settlement_policy (p : option SettlementPolicy) (e : Effect) : Effect :=
  {| fx_v2 := fx_v2 e; fx_identity := fx_identity e; fx_status := fx_status e;
     fx_lease := fx_lease e; fx_delivery := fx_delivery e;
     fx_lease_generation := fx_lease_generation e; fx_last_lease_id := fx_last_lease_id e;
     fx_fencing_history := fx_fencing_history e; fx_settlement_policy := p;
     fx_packet_receipt := fx_packet_receipt e;
     fx_last_delivery_reason := fx_last_delivery_reason e; fx_updated_at := fx_updated_at e |}.
Definition set_fx_packet_receipt (r : option json) (e : Effect) : Effect :=
  {| fx_v2 := fx_v2 e; fx_identity := fx_identity e; fx_status := fx_status e;
     fx_lease := fx_lease e; fx_delivery := fx_delivery e;
     fx_lease_generation := fx_lease_generation e; fx_last_lease_id := fx_last_lease_id e;
     fx_fencing_history := fx_fencing_history e; fx_settlement_policy := fx_settlement_policy e;
     fx_packet_receipt := Some r; fx_last_delivery_reason := fx_last_delivery_reason e;
     fx_updated_at := fx_updated_at e |}.
Definition set_fx_last_delivery_reason (r : string) (e : Effect) : Effect :=
  {| fx_v2 := fx_v2 e; fx_identity := fx_identity e; fx_status := fx_status e;
     fx_lease := fx_lease e; fx_delivery := fx_delivery e;
     fx_lease_generation := fx_lease_generation e; fx_last_lease_id := fx_last_lease_id e;
     fx_fencing_history := fx_fencing_history e; fx_settlement_policy := fx_settlement_policy e;
     fx_packet_receipt := fx_packet_receipt e; fx_last_delivery_reason := Some r;
     fx_updated_at := fx_updated_at e |}.

(** The assignments of a claim: the lease, its generation and its token in the history. *)
Definition claim_fields (l : Lease) (e : Effect) : Effect :=
  {| fx_v2 := fx_v2 e; fx_identity := fx_identity e; fx_status := fx_status e;
     fx_lease := Some l; fx_delivery := fx_delivery e; fx_lease_generation := ls_generation l;
     fx_last_lease_id := Some (ls_lease_id l);
     fx_fencing_history := if fx_v2 e then fx_fencing_history e ++ [lease_token l]
                           else fx_fencing_history e;
     fx_settlement_policy := fx_settlement_policy e; fx_packet_receipt := fx_packet_receipt e;
     fx_last_delivery_reason := fx_last_delivery_reason e; fx_updated_at := fx_updated_at e |}.

(** ** Deliveries *)

Section Outbox.
Context `{Sha256}.

(** [effectDeliveryHash(effect)]; hashing a record of this shape cannot throw. *)
Definition effectDeliveryHash (e : Effect) : res (option string) :=
  match fx_delivery e with
  | None => Ok None
  | Some d =>
      let* h := canonicalHash
        (JObj (("effect", effectIdentityForDeliveryHash e) :: effect_delivery_fields d)) in
      Ok (Some h)
  end.
End Outbox.

(** [effectMatchesCurrentAttempt(effect, workOrder, branch)] *)
Definition effectMatchesCurrentAttempt (e : Effect) (s : State) (branch : Branch) : bool :=
  String.eqb (fx_work_order_id e) (st_work_order_id s)
  && String.eqb (fx_branch_ref e) (br_branch_ref branch)
  && (fx_attempt e =? br_attempt branch)%Z
  && bool_decide (fx_dispatch_id e = br_dispatch_id branch)
  && String.eqb (fx_provider_ref e) (br_provider_ref branch).
