(* ===== verification/Lifecycle.v ===== *)
(** The lifecycle of provider effects ([packages/business-orchestrator/src/lifecycle.js]): what the
    effects and the attention items of a Work Order mean together, which violations they show,
    and what automation they allow.

    The module consumes normalised records, so the model takes the typed state, outbox and
    attention maps.  Of a violation the model keeps the code. *)

From Stdlib Require Import ZArith Lia String.
From stdpp Require Import base tactics list strings option gmap.
From S2P Require Import Prelude JsString JsDate Json SettlementPolicy ContractBase PlanContract.
From S2P Require Import Envelope WorkOrderState WorkOrderFacts WorkOrderContext WorkOrderEffects.
From S2P Require Import Outbox.

Definition V2_RECOVERY_ATTENTION_KINDS : list string :=
  ["delivery_unknown"; "timeout_requires_reconciliation"; "cancel_requires_dispatch_reconciliation"].
Definition V2_OPERATOR_ATTENTION_KINDS : list string := ["provider_effect_presend_failure"].

(** [[...new Set(values)].sort(compareText)] *)
Definition uniqueSorted (values : list string) : list string := sort_text (remove_dups values).

(** [Object.entries(map).sort(([left], [right]) => compareText(left, right))] *)
Definition sorted_entries {A} (m : gmap string A) : list (string * A) :=
  isort (λ a b, text_leb a.1 b.1) (map_to_list m).

(** The kind of an effect, when it is one of [V2_MUTATING_EFFECT_KINDS]. *)
Definition effect_kind_of (e : Effect) : option EffectKind :=
  enum_find enum_all (ef_effect_kind (fx_identity e)).

(** ** One effect *)

Inductive AttemptScope := ScopeUnbound | ScopeCurrent | ScopePrior | ScopeFuture.
#[export] Instance AttemptScope_eq_dec : EqDecision AttemptScope.
Proof. solve_decision. Defined.

Definition attemptScope (e : Effect) (branch : Branch) : AttemptScope :=
  if negb (String.eqb (fx_branch_ref e) (br_branch_ref branch)) then ScopeUnbound
  else if (fx_attempt e =? br_attempt branch)%Z
          && bool_decide (fx_dispatch_id e = br_dispatch_id branch) then ScopeCurrent
  else if (fx_attempt e <? br_attempt branch)%Z
          || ((fx_attempt e =? br_attempt branch)%Z
              && negb (bool_decide (fx_dispatch_id e = br_dispatch_id branch))) then ScopePrior
  else ScopeFuture.

Inductive GoalDisposition :=
| GoalOperatorAttention | GoalAchieved | GoalRetryable | GoalAbandoned | GoalAmbiguous | GoalOpen.
#[export] Instance GoalDisposition_eq_dec : EqDecision GoalDisposition.
Proof. solve_decision. Defined.

Definition goalDisposition (e : Effect) : GoalDisposition :=
  match fx_status e with
  | FsNotSent =>
      match fx_settlement_policy e with
      | Some p => if bool_decide (sp_disposition p = OperatorAttention)
                  then GoalOperatorAttention else GoalRetryable
      | None => GoalRetryable
      end
  | FsDelivered => GoalAchieved
  | FsCancelled => GoalAbandoned
  | FsDeliveryUnknown => GoalAmbiguous
  | FsPending | FsClaimed | FsSending => GoalOpen
  end.

(** What [classifyEffectLifecycleV2] computes, on top of the fields of the effect. *)
Record EffectLifecycle := {
  el_effect_key : string;
  el_effect : Effect;
  el_scope : AttemptScope;
  el_disposition : GoalDisposition;
  el_operation_lane_id : option string;
  el_operation_goal_id : option string;
}.

Definition el_effect_id (l : EffectLifecycle) : string := fx_effect_id (el_effect l).
Definition el_generation (l : EffectLifecycle) : Z := fx_generation (el_effect l).
Definition el_current_attempt (l : EffectLifecycle) : bool := bool_decide (el_scope l = ScopeCurrent).
Definition el_prior_attempt (l : EffectLifecycle) : bool := bool_decide (el_scope l = ScopePrior).
Definition el_ambiguous (l : EffectLifecycle) : bool :=
  bool_decide (fx_status (el_effect l) = FsDeliveryUnknown).
Definition el_unresolved (l : EffectLifecycle) : bool :=
  among V2_UNRESOLVED_EFFECT_STATUSES (fx_status (el_effect l)).
Definition el_goal_terminal (l : EffectLifecycle) : bool :=
  bool_decide (el_disposition l = GoalAchieved ∨ el_disposition l = GoalAbandoned).
Definition el_recovery_attention_required (l : EffectLifecycle) : bool := el_ambiguous l.
Definition el_operator_attention_required (l : EffectLifecycle) : bool :=
  bool_decide (el_disposition l = GoalOperatorAttention).
Definition el_may_have_crossed_provider_boundary (l : EffectLifecycle) : bool :=
  among [FsSending; FsDeliveryUnknown; FsDelivered] (fx_status (el_effect l)).

Section Lifecycle.
Context `{Sha256}.

(** ** Lanes and goals *)

Definition effectOperationLaneIdV2 (e : Effect) : res string :=
  let* h := canonicalHash (pick
    ["work_order_id"; "branch_ref"; "attempt"; "dispatch_id"; "effect_kind"]
    (effect_identity_fields (fx_identity e))) in
  Ok ("LANE-" +:+ slice0 32 h).

Definition effectOperationGoalIdV2 (e : Effect) : res string :=
  let* lane := effectOperationLaneIdV2 e in
  let* h := canonicalHash (JObj
    [("operation_lane_id", JStr lane);
     ("operation_scope_hash", JStr (ef_operation_scope_hash (fx_identity e)))]) in
  Ok ("GOAL-" +:+ slice0 32 h).

Definition classifyEffectLifecycleV2 (e : Effect) (branch : Branch) (effectKey : string)
    : res EffectLifecycle :=
  let* ids := match effect_kind_of e with
    | None => Ok (None, None)
    | Some _ =>
        let* lane := effectOperationLaneIdV2 e in
        if fx_v2 e then let* goal := effectOperationGoalIdV2 e in Ok (Some lane, Some goal)
        else Ok (Some lane, None)
    end in
  Ok {| el_effect_key := effectKey; el_effect := e; el_scope := attemptScope e branch;
        el_disposition := goalDisposition e; el_operation_lane_id := ids.1;
        el_operation_goal_id := ids.2 |}.

(** ** Violations of one effect *)

Definition scope_hash_valid (e : Effect) : bool :=
  fx_v2 e && hex_pattern 64 (ef_operation_scope_hash (fx_identity e)).
Definition generation_valid (e : Effect) : bool :=
  fx_v2 e && is_safe_integer (fx_generation e) && (1 <=? fx_generation e)%Z.

Definition violation_if (b : bool) (code : string) : list string := if b then [code] else [].

Definition invalidEffectViolations (effectKey : string) (e : Effect) (s : State) (branch : Branch)
    : list string :=
  violation_if (negb (fx_v2 e)) "effect_contract_version_mismatch"
  ++ violation_if (negb (String.eqb (fx_effect_id e) effectKey)) "effect_map_identity_mismatch"
  ++ violation_if (negb (String.eqb (fx_work_order_id e) (st_work_order_id s)))
       "effect_work_order_identity_mismatch"
  ++ violation_if (negb (String.eqb (fx_branch_ref e) (br_branch_ref branch)))
       "effect_branch_identity_mismatch"
  ++ violation_if (is_none (effect_kind_of e)) "effect_kind_unsupported"
  ++ violation_if (negb (scope_hash_valid e)) "effect_operation_scope_hash_invalid"
  ++ violation_if (negb (generation_valid e)) "effect_operation_generation_invalid"
  ++ map (λ _, "effect_identity_field_missing")
       (filter (λ k, k ∉ immutable_fields e) V2_EFFECT_IDENTITY_FIELDS)
  ++ violation_if (bool_decide (attemptScope e branch = ScopeFuture))
       "effect_ahead_of_branch_attempt".

(** The effects that take part in the lineage. *)
Definition in_lineage (e : Effect) : bool :=
  negb (is_none (effect_kind_of e)) && scope_hash_valid e && generation_valid e.

(** ** Grouping: a [Map] from keys to arrays, in insertion order *)

Fixpoint add_member {K A} `{EqDecision K} (k : K) (a : A) (groups : list (K * list A))
    : list (K * list A) :=
  match groups with
  | [] => [(k, [a])]
  | (k', l) :: groups' =>
      if decide (k = k') then (k', l ++ [a]) :: groups' else (k', l) :: add_member k a groups'
  end.

Definition group_by {K A} `{EqDecision K} (f : A → option K) (l : list A) : list (K * list A) :=
  foldl (λ g a, match f a with Some k => add_member k a g | None => g end) [] l.

(** [map.get(id)] of the map that keeps the first entry of each identifier. *)
Definition entry_by_id (l : list EffectLifecycle) (id : string) : option EffectLifecycle :=
  head (filter (λ e, el_effect_id e = id) l).

(** The identifiers in insertion order, first entries only. *)
Definition distinct_ids (l : list EffectLifecycle) : list string :=
  foldl (λ ids e, if decide (el_effect_id e ∈ ids) then ids else ids ++ [el_effect_id e]) [] l.

(** [effect_identity_duplicate]: one per entry whose identifier was there before. *)
Definition duplicate_violations (l : list EffectLifecycle) : list string :=
  map (λ _, "effect_identity_duplicate")
    (seq 0 (length l - length (distinct_ids l))).

(** ** Cycles of generation predecessors *)

(** [visitGeneration(effectId, path)]: [path] holds the identifiers being visited, in order, and
    the state is the set of visited identifiers with the signatures of the cycles found. *)
Fixpoint visitGeneration (fuel : nat) (l : list EffectLifecycle) (effectId : string)
    (path : list string) (st : list string * list (list string))
    : option (list string * list (list string)) :=
  match fuel with
  | O => None
  | S fuel =>
      if decide (effectId ∈ st.1) then Some st
      else if decide (effectId ∈ path) then
        let cycle := uniqueSorted
          (drop (match list_find (effectId =.) path with Some (i, _) => i | None => 0 end) path) in
        if decide (cycle ∈ st.2) then Some st else Some (st.1, st.2 ++ [cycle])
      else match entry_by_id l effectId with
      | None => Some st
      | Some e =>
          match match fx_predecessor (el_effect e) with
                | Some p => visitGeneration fuel l p (path ++ [effectId]) st
                | None => Some st
                end with
          | None => None
          | Some (visited, cycles) => Some (effectId :: visited, cycles)
          end
      end
  end.

Fixpoint visit_generations (fuel : nat) (l : list EffectLifecycle) (ids : list string)
    (st : list string * list (list string)) : option (list string * list (list string)) :=
  match ids with
  | [] => Some st
  | id :: ids' =>
      match visitGeneration fuel l id [] st with
      | None => None
      | Some st => visit_generations fuel l ids' st
      end
  end.

(** The cycles among the entries.  The path never repeats an identifier of an entry, so that one
    level per entry and one more are enough. *)
Definition generation_cycles (l : list EffectLifecycle) : res (list (list string)) :=
  match visit_generations (2 + length l) l (sort_text (distinct_ids l)) ([], []) with
  | Some (_, cycles) => Ok cycles
  | None => Err OutOfFuel
  end.

(** ** Goals *)

Record GoalSnapshot := {
  gs_operation_lane_id : string;
  gs_operation_goal_id : string;
  gs_effect_ids : list string;
  gs_unresolved_effect_ids : list string;
  gs_latest : EffectLifecycle;
  gs_terminal : bool;
  gs_disposition : GoalDisposition;
}.

Definition generation_leb (a b : EffectLifecycle) : bool :=
  (el_generation a <? el_generation b)%Z
  || ((el_generation a =? el_generation b)%Z && text_leb (el_effect_id a) (el_effect_id b)).

(** [goalSnapshot(laneId, goalId, effects)]; a goal has at least one member. *)
Definition goalSnapshot (laneId goalId : string) (effects : list EffectLifecycle)
    : res GoalSnapshot :=
  let ordered := isort generation_leb effects in
  let unresolved := map el_effect_id (filter (λ e, el_unresolved e = true) ordered) in
  match last ordered with
  | None => Err TypeError
  | Some latest =>
      Ok {| gs_operation_lane_id := laneId; gs_operation_goal_id := goalId;
            gs_effect_ids := map el_effect_id ordered; gs_unresolved_effect_ids := unresolved;
            gs_latest := latest;
            gs_terminal := bool_decide (unresolved = []) && el_goal_terminal latest;
            gs_disposition := if bool_decide (unresolved = []) then el_disposition latest
              else if existsb el_ambiguous ordered then GoalAmbiguous else GoalOpen |}
  end.

(** The violations of one member of a goal. *)
Definition member_violations (l : list EffectLifecycle) (goalId : string) (m : EffectLifecycle)
    : list string :=
  if (el_generation m =? 1)%Z
  then violation_if (negb (is_none (fx_predecessor (el_effect m))))
         "operation_generation_root_has_predecessor"
  else match fx_predecessor (el_effect m) with
  | None => ["operation_generation_predecessor_missing"]
  | Some p =>
      match entry_by_id l p with
      | None => ["operation_generation_predecessor_orphaned"]
      | Some predecessor =>
          violation_if (negb (bool_decide (el_operation_goal_id predecessor = Some goalId)))
            "operation_generation_goal_mismatch"
          ++ violation_if (negb (el_generation predecessor =? el_generation m - 1)%Z)
               "operation_generation_gap"
          ++ violation_if (negb (bool_decide (fx_status (el_effect predecessor) = FsNotSent)))
               "operation_generation_predecessor_not_retryable"
      end
  end.

Definition multiple {K A} (code : string) (groups : list (K * list A)) : list string :=
  map (λ _, code) (filter (λ g, 1 < length g.2) groups).

(** A goal with its violations. *)
Definition goal_violations (l : list EffectLifecycle) (goalId : string)
    (members : list EffectLifecycle) : res (GoalSnapshot * list string) :=
  let laneId := match members with m :: _ => default "" (el_operation_lane_id m) | [] => "" end in
  let* goal := goalSnapshot laneId goalId members in
  Ok (goal,
    flat_map (member_violations l goalId) members
    ++ multiple "operation_generation_duplicate" (group_by (λ m, Some (el_generation m)) members)
    ++ multiple "operation_generation_fork" (group_by (λ m, fx_predecessor (el_effect m)) members)
    ++ violation_if (1 <? length (gs_unresolved_effect_ids goal))%nat
         "multiple_unresolved_generations_for_operation_goal").

Definition lane_violations (lanes : list (string * list EffectLifecycle)) : list string :=
  map (λ _, "multiple_unresolved_effects_for_operation_lane")
    (filter (λ g, 1 < length (filter (λ m, el_unresolved m = true) g.2))
      (isort (λ a b, text_leb a.1 b.1) lanes)).

(** ** A branch *)

Inductive LifecycleMode := ReplayOnly | Unsupported | ModeV2.
#[export] Instance LifecycleMode_eq_dec : EqDecision LifecycleMode.
Proof. solve_decision. Defined.

Record BranchSnapshot := {
  bs_mode : LifecycleMode;
  bs_branch_ref : string;
  bs_branch_state : BranchState;
  bs_current_attempt : Z;
  bs_current_dispatch_id : option string;
  bs_effects : list EffectLifecycle;
  bs_operation_goals : list GoalSnapshot;
  bs_current_effect_ids : list string;
  bs_prior_effect_ids : list string;
  bs_unresolved_effect_ids : list string;
  bs_current_unresolved_effect_ids : list string;
  bs_stale_unresolved_effect_ids : list string;
  bs_ambiguous_effect_ids : list string;
  bs_open_recovery_attention_ids : list string;
  bs_open_operator_attention_ids : list string;
  bs_operator_attention_hold_effect_ids : list string;
  bs_cleanup_hold_effect_ids : list string;
  bs_cleanup_hold : bool;
  bs_retry_candidate : bool;
  bs_lifecycle_retry_clear : bool;
  bs_retry_allowed : bool;
  bs_lifecycle_allows_forward_automation : bool;
  bs_violations : list string;
}.

Definition replayOnlyBranchSnapshot (mode : LifecycleMode) (violations : list string)
    (branch : Branch) : BranchSnapshot :=
  {| bs_mode := mode; bs_branch_ref := br_branch_ref branch; bs_branch_state := br_state branch;
     bs_current_attempt := br_attempt branch; bs_current_dispatch_id := br_dispatch_id branch;
     bs_effects := []; bs_operation_goals := []; bs_current_effect_ids := [];
     bs_prior_effect_ids := []; bs_unresolved_effect_ids := [];
     bs_current_unresolved_effect_ids := []; bs_stale_unresolved_effect_ids := [];
     bs_ambiguous_effect_ids := []; bs_open_recovery_attention_ids := [];
     bs_open_operator_attention_ids := []; bs_operator_attention_hold_effect_ids := [];
     bs_cleanup_hold_effect_ids := []; bs_cleanup_hold := false; bs_retry_candidate := false;
     bs_lifecycle_retry_clear := false; bs_retry_allowed := false;
     bs_lifecycle_allows_forward_automation := false; bs_violations := violations |}.

(** The effects of the branch, in the order of their keys. *)
Definition branch_effects (s : State) (branch : Branch) (outbox : gmap string Effect)
    : list (string * Effect) :=
  filter (λ ke, fx_work_order_id ke.2 = st_work_order_id s
    ∧ fx_branch_ref ke.2 = br_branch_ref branch) (sorted_entries outbox).

(** The open attention items of the branch of one of the [kinds], in the order of their keys. *)
Definition open_attention (kinds : list string) (branch : Branch)
    (attention : gmap string Attention) : list (string * Attention) :=
  filter (λ ka, att_open ka.2 = true ∧ att_branch_ref ka.2 = Some (br_branch_ref branch)
    ∧ att_kind ka.2 ∈ kinds) (sorted_entries attention).

(** [effectById.get(id)]: the last effect of the identifier. *)
Definition effect_by_id (effects : list EffectLifecycle) (id : option string)
    : option EffectLifecycle :=
  match id with
  | None => None
  | Some id => last (filter (λ e, el_effect_id e = id) effects)
  end.

(** An open recovery attention: the effect it recovers, with its violations. *)
Definition recovery_attention (effects : list EffectLifecycle) (ka : string * Attention)
    : option string * list string :=
  let key := violation_if (negb (String.eqb (att_attention_id ka.2) ka.1))
    "attention_map_identity_mismatch" in
  match effect_by_id effects (att_effect_id ka.2) with
  | None => (None, key ++ ["recovery_attention_effect_missing"])
  | Some bound =>
      (Some (el_effect_id bound),
       key ++ violation_if
         (negb (among V2_RECOVERABLE_EFFECT_STATUSES (fx_status (el_effect bound))))
         "recovery_attention_effect_not_recoverable")
  end.

Definition operator_attention (effects : list EffectLifecycle) (ka : string * Attention)
    : option string * list string :=
  let bound := if String.eqb (att_attention_id ka.2) ka.1
    then effect_by_id effects (att_effect_id ka.2) else None in
  match bound with
  | Some b =>
      if el_operator_attention_required b then (Some (el_effect_id b), [])
      else (None, ["operator_attention_effect_mismatch"])
  | None => (None, ["operator_attention_effect_mismatch"])
  end.

(** The effects that need attention and have none. *)
Definition unattended (required : EffectLifecycle → bool) (attended : list string) (code : string)
    (effects : list EffectLifecycle) : list string :=
  map (λ _, code)
    (filter (λ e, required e = true ∧ el_effect_id e ∉ attended) effects).

Definition ids_where (p : EffectLifecycle → bool) (effects : list EffectLifecycle) : list string :=
  map el_effect_id (filter (λ e, p e = true) effects).

Definition deriveBranchLifecycleSnapshot (s : State) (branch : Branch)
    (outbox : gmap string Effect) (attention : gmap string Attention) : res BranchSnapshot :=
  if (st_engine_contract_version s =? 1)%Z then Ok (replayOnlyBranchSnapshot ReplayOnly [] branch)
  else if negb (st_engine_contract_version s =? 2)%Z
  then Ok (replayOnlyBranchSnapshot Unsupported ["engine_contract_version_unsupported"] branch)
  else
    let entries := branch_effects s branch outbox in
    let* effects := mapR (λ ke, classifyEffectLifecycleV2 ke.2 branch ke.1) entries in
    let lineage := filter (λ l, in_lineage (el_effect l) = true) effects in
    let* cycles := generation_cycles lineage in
    let* goals := mapR (λ g, goal_violations lineage g.1 g.2)
      (isort (λ a b, text_leb a.1 b.1) (group_by el_operation_goal_id lineage)) in
    let recovery := open_attention V2_RECOVERY_ATTENTION_KINDS branch attention in
    let recovered := map (recovery_attention effects) recovery in
    let recoveryIds := omap fst recovered in
    let operator := open_attention V2_OPERATOR_ATTENTION_KINDS branch attention in
    let operated := map (operator_attention effects) operator in
    let operatorIds := omap fst operated in
    let stale := ids_where (λ e, el_prior_attempt e && el_unresolved e) effects in
    let future := ids_where (λ e, bool_decide (el_scope e = ScopeFuture) && el_unresolved e)
      effects in
    let currentUnresolved := ids_where (λ e, el_current_attempt e && el_unresolved e) effects in
    let ambiguous := ids_where el_ambiguous effects in
    let pausedCrossed := if bool_decide (st_status s = WPaused)
      then ids_where (λ e, el_unresolved e && el_may_have_crossed_provider_boundary e) effects
      else [] in
    let hold := uniqueSorted (stale ++ future ++ ambiguous ++ recoveryIds ++ pausedCrossed) in
    let operatorHold := uniqueSorted operatorIds in
    let cleanupHold := negb (bool_decide (hold = [])) in
    let retryCandidate := among [BRetryable; BFailed] (br_state branch) in
    let retryClear := negb cleanupHold && bool_decide (currentUnresolved = []) in
    Ok {| bs_mode := ModeV2; bs_branch_ref := br_branch_ref branch;
          bs_branch_state := br_state branch; bs_current_attempt := br_attempt branch;
          bs_current_dispatch_id := br_dispatch_id branch; bs_effects := effects;
          bs_operation_goals := map fst goals;
          bs_current_effect_ids := uniqueSorted (ids_where el_current_attempt effects);
          bs_prior_effect_ids := uniqueSorted (ids_where el_prior_attempt effects);
          bs_unresolved_effect_ids := uniqueSorted (ids_where el_unresolved effects);
          bs_current_unresolved_effect_ids := uniqueSorted currentUnresolved;
          bs_stale_unresolved_effect_ids := uniqueSorted stale;
          bs_ambiguous_effect_ids := uniqueSorted ambiguous;
          bs_open_recovery_attention_ids := map (λ ka, att_attention_id ka.2) recovery;
          bs_open_operator_attention_ids := map (λ ka, att_attention_id ka.2) operator;
          bs_operator_attention_hold_effect_ids := operatorHold;
          bs_cleanup_hold_effect_ids := hold; bs_cleanup_hold := cleanupHold;
          bs_retry_candidate := retryCandidate; bs_lifecycle_retry_clear := retryClear;
          bs_retry_allowed := retryCandidate && retryClear && bool_decide (operatorIds = []);
          bs_lifecycle_allows_forward_automation :=
            negb cleanupHold && bool_decide (operatorHold = []);
          bs_violations :=
            flat_map (λ ke, invalidEffectViolations ke.1 ke.2 s branch) entries
            ++ duplicate_violations lineage
            ++ map (λ _, "operation_generation_cycle") cycles
            ++ flat_map snd goals
            ++ lane_violations (group_by el_operation_lane_id lineage)
            ++ flat_map snd recovered
            ++ unattended el_recovery_attention_required recoveryIds
                 "delivery_unknown_recovery_attention_missing" effects
            ++ flat_map snd operated
            ++ unattended el_operator_attention_required operatorIds
                 "operator_attention_missing" effects |}.

(** ** A Work Order *)

Inductive AutomationState :=
| AutoReplayOnly | AutoRunnable | AutoPaused | AutoCleanupHold | AutoCancelling
| AutoAwaitingAcceptance | AutoTerminal | AutoInvalid.
#[export] Instance AutomationState_eq_dec : EqDecision AutomationState.
Proof. solve_decision. Defined.

Record Automation := {
  au_state : AutomationState;
  au_may_schedule_forward_work : bool;
  au_may_retry : bool;
  au_may_reconcile : bool;
  au_may_run_cleanup : bool;
  au_blocking_effect_ids : list string;
  au_cleanup_blocked_by_branch : list (string * bool);
  au_lifecycle_retry_clear_by_branch : list (string * bool);
  au_retry_candidate_by_branch : list (string * bool);
  au_retry_allowed_by_branch : list (string * bool);
}.

Definition deriveAllowedAutomationState (mode : LifecycleMode) (status : WorkOrderStatus)
    (branches : list BranchSnapshot) (violations : list string) : Automation :=
  let none st := {| au_state := st; au_may_schedule_forward_work := false; au_may_retry := false;
                    au_may_reconcile := false; au_may_run_cleanup := false;
                    au_blocking_effect_ids := []; au_cleanup_blocked_by_branch := [];
                    au_lifecycle_retry_clear_by_branch := [];
                    au_retry_candidate_by_branch := []; au_retry_allowed_by_branch := [] |} in
  let by_branch (f : BranchSnapshot → bool) := map (λ b, (bs_branch_ref b, f b)) branches in
  match mode with
  | ReplayOnly => none AutoReplayOnly
  | Unsupported => none AutoInvalid
  | ModeV2 =>
      let cleanup := uniqueSorted (flat_map bs_cleanup_hold_effect_ids branches) in
      let operator := uniqueSorted (flat_map bs_operator_attention_hold_effect_ids branches) in
      let st :=
        if negb (bool_decide (violations = [])) then AutoInvalid
        else if negb (bool_decide (cleanup = [])) then AutoCleanupHold
        else if negb (bool_decide (operator = [])) then AutoPaused
        else if among TERMINAL_WORK_ORDER_STATES status then AutoTerminal
        else match status with
        | WCancelling => AutoCancelling
        | WPaused => AutoPaused
        | WAwaitingAcceptance => AutoAwaitingAcceptance
        | _ => AutoRunnable
        end in
      {| au_state := st; au_may_schedule_forward_work := bool_decide (st = AutoRunnable);
         au_may_retry := negb (bool_decide (st = AutoInvalid))
           && existsb bs_retry_allowed branches;
         au_may_reconcile := bool_decide (st = AutoCleanupHold);
         au_may_run_cleanup := among [AutoCleanupHold; AutoCancelling] st;
         au_blocking_effect_ids := uniqueSorted (cleanup ++ operator);
         au_cleanup_blocked_by_branch := by_branch bs_cleanup_hold;
         au_lifecycle_retry_clear_by_branch := by_branch bs_lifecycle_retry_clear;
         au_retry_candidate_by_branch := by_branch bs_retry_candidate;
         au_retry_allowed_by_branch := by_branch bs_retry_allowed |}
  end.

Record LifecycleSnapshot := {
  ls_mode : LifecycleMode;
  ls_engine_contract_version : Z;
  ls_work_order_id : string;
  ls_work_order_status : WorkOrderStatus;
  ls_branches : list (string * BranchSnapshot);
  ls_violations : list string;
  ls_automation : Automation;
}.

(** The branches in the order of their references. *)
Definition ordered_branches (s : State) : list Branch :=
  isort (λ a b, text_leb (br_branch_ref a) (br_branch_ref b)) (map snd (map_to_list (st_branches s))).

Definition stray_effects (s : State) (outbox : gmap string Effect) : list string :=
  map (λ _, "effect_branch_identity_mismatch")
    (filter (λ ke, fx_work_order_id ke.2 = st_work_order_id s
      ∧ st_branches s !! fx_branch_ref ke.2 = None) (sorted_entries outbox)).

(** [Object.hasOwn(workOrder.branches, record.branch_ref)], false for [null]. *)
Definition names_branch (s : State) (ref : option string) : bool :=
  match ref with Some r => negb (is_none (st_branches s !! r)) | None => false end.

Definition stray_attention (s : State) (attention : gmap string Attention) : list string :=
  flat_map (λ ka,
    if att_open ka.2 && includes V2_RECOVERY_ATTENTION_KINDS (att_kind ka.2) then
      violation_if (negb (String.eqb (att_attention_id ka.2) ka.1)
          && negb (names_branch s (att_branch_ref ka.2))) "attention_map_identity_mismatch"
      ++ violation_if (negb (names_branch s (att_branch_ref ka.2)))
           "recovery_attention_branch_missing"
    else []) (sorted_entries attention).

Definition deriveLifecycleSnapshot (s : State) (outbox : gmap string Effect)
    (attention : gmap string Attention) : res LifecycleSnapshot :=
  let version := st_engine_contract_version s in
  let* branches := if (version =? 1)%Z || (version =? 2)%Z
    then mapR (λ b, let* snapshot := deriveBranchLifecycleSnapshot s b outbox attention in
           Ok (br_branch_ref b, snapshot)) (ordered_branches s)
    else Ok [] in
  let mode := if (version =? 1)%Z then ReplayOnly
    else if (version =? 2)%Z then ModeV2 else Unsupported in
  let violations := match mode with
    | ReplayOnly => []
    | Unsupported => ["engine_contract_version_unsupported"]
    | ModeV2 => flat_map (λ rb, bs_violations rb.2) branches
        ++ stray_effects s outbox ++ stray_attention s attention
    end in
  Ok {| ls_mode := mode; ls_engine_contract_version := version;
        ls_work_order_id := st_work_order_id s; ls_work_order_status := st_status s;
        ls_branches := branches; ls_violations := violations;
        ls_automation :=
          deriveAllowedAutomationState mode (st_status s) (map snd branches) violations |}.

(** [assertLifecycleInvariants] of a derived snapshot. *)
Definition assertLifecycleInvariants (snapshot : LifecycleSnapshot) : res LifecycleSnapshot :=
  match ls_mode snapshot with
  | ReplayOnly => Ok snapshot
  | _ =>
      reject negb (bool_decide (ls_violations snapshot = []))
        with BusinessLifecycleInvariantError (ls_violations snapshot) in
      Ok snapshot
  end.

(** The snapshot of a branch: [snapshot.branches[ref]]. *)
Definition snapshot_branch (snapshot : LifecycleSnapshot) (ref : string) : option BranchSnapshot :=
  snd <$> last (filter (λ rb, rb.1 = ref) (ls_branches snapshot)).
End Lifecycle.
