(* ===== verification/LifecycleProps.v ===== *)
(** What a clean lifecycle means: theorems about [Lifecycle]. *)

From Stdlib Require Import ZArith Lia String.
From stdpp Require Import base tactics list strings option gmap.
From S2P Require Import Prelude JsString JsDate Json SettlementPolicy ContractBase PlanContract.
From S2P Require Import Envelope WorkOrderState WorkOrderFacts WorkOrderContext WorkOrderEffects.
From S2P Require Import Outbox Lifecycle.

(** ** Lists of violations *)

Lemma violation_if_nil b code : violation_if b code = [] ↔ b = false.
Proof. by destruct b. Qed.

Lemma flat_map_nil {A B} (f : A → list B) l : flat_map f l = [] ↔ ∀ x, x ∈ l → f x = [].
Proof.
  induction l as [|a l IH]; simpl.
  - split; [intros _ x Hx; by apply not_elem_of_nil in Hx | done].
  - rewrite app_nil, IH. setoid_rewrite elem_of_cons. naive_solver.
Qed.

Lemma map_filter_nil {A B} (f : A → B) (P : A → Prop) `{∀ x, Decision (P x)} l :
  map f (filter P l) = [] ↔ ∀ x, x ∈ l → ¬ P x.
Proof.
  split.
  - intros Hn x Hx HP. apply map_eq_nil in Hn. assert (x ∈ filter P l) as Hin
      by by apply list_elem_of_filter. rewrite Hn in Hin. by apply not_elem_of_nil in Hin.
  - intros Hn. replace (filter P l) with (@nil A); [done|]. symmetry.
    apply elem_of_nil_inv. intros x [HP Hx]%list_elem_of_filter. by eapply Hn.
Qed.

Lemma sorted_entries_elem {A} (m : gmap string A) k a : (k, a) ∈ sorted_entries m ↔ m !! k = Some a.
Proof. unfold sorted_entries. by rewrite isort_elem_of, elem_of_map_to_list. Qed.

Lemma uniqueSorted_elem l x : x ∈ uniqueSorted l ↔ x ∈ l.
Proof. unfold uniqueSorted, sort_text. by rewrite isort_elem_of, elem_of_remove_dups. Qed.

Lemma uniqueSorted_nil l : uniqueSorted l = [] ↔ l = [].
Proof.
  split; [|by intros ->]. intros Hn. apply elem_of_nil_inv. intros x Hx.
  apply uniqueSorted_elem in Hx. rewrite Hn in Hx. by apply not_elem_of_nil in Hx.
Qed.

Lemma mapR_elem {A B} (f : A → res B) l l' x :
  mapR f l = Ok l' → x ∈ l → ∃ y, y ∈ l' ∧ f x = Ok y.
Proof.
  intros HF%mapR_Ok [i Hi]%list_elem_of_lookup.
  destruct (Forall2_lookup_l _ _ _ _ _ HF Hi) as (y & Hy & Hf).
  exists y. split; [|done]. by eapply list_elem_of_lookup_2.
Qed.

Lemma mapR_elem_inv {A B} (f : A → res B) l l' y :
  mapR f l = Ok l' → y ∈ l' → ∃ x, x ∈ l ∧ f x = Ok y.
Proof.
  intros HF%mapR_Ok [i Hi]%list_elem_of_lookup.
  destruct (Forall2_lookup_r _ _ _ _ _ HF Hi) as (x & Hx & Hf).
  exists x. split; [|done]. by eapply list_elem_of_lookup_2.
Qed.

(** *** Groups *)

Section Groups.
Context {K A : Type} `{EqDecision K}.
Implicit Types (g : list (K * list A)).

Fixpoint members (k : K) (g : list (K * list A)) : list A :=
  match g with
  | [] => []
  | (k', l) :: g' => if decide (k = k') then l else members k g'
  end.

Lemma members_add k k0 a g :
  members k (add_member k0 a g) = if decide (k = k0) then members k g ++ [a] else members k g.
Proof. induction g as [|[k' l'] g IH]; simpl; repeat (simpl; case_decide); naive_solver. Qed.

Lemma members_group_by (f : A → option K) (l : list A) k :
  members k (group_by f l) = filter (λ a, f a = Some k) l.
Proof.
  unfold group_by. induction l as [|a l IH] using rev_ind; [done|].
  rewrite foldl_app, filter_app. simpl. rewrite filter_cons, filter_nil.
  destruct (f a) as [k0|] eqn:E.
  - rewrite members_add, IH. destruct (decide (k = k0)) as [<-|Hne].
    + rewrite decide_True by done. done.
    + rewrite decide_False by congruence. by rewrite app_nil_r.
  - rewrite IH, decide_False by done. by rewrite app_nil_r.
Qed.

Lemma members_elem k g : members k g ≠ [] → (k, members k g) ∈ g.
Proof.
  induction g as [|[k' l'] g IH]; simpl; [done|]. case_decide as Hk; subst.
  - intros _. by left.
  - intros Hn. right. by apply IH.
Qed.

(** An entry with a key is in the group of the key, with all the others of the key. *)
Lemma group_by_elem (f : A → option K) (l : list A) a k :
  a ∈ l → f a = Some k → (k, filter (λ a, f a = Some k) l) ∈ group_by f l.
Proof.
  intros Ha Hk. rewrite <- members_group_by. apply members_elem. rewrite members_group_by.
  intros Hn. assert (a ∈ filter (λ a, f a = Some k) l) as Hin by by apply list_elem_of_filter.
  rewrite Hn in Hin. by apply not_elem_of_nil in Hin.
Qed.
End Groups.

(** Two different positions of a list with at most one entry. *)
Lemma two_elems {A} (l : list A) a b : a ∈ l → b ∈ l → a ≠ b → 1 < length l.
Proof.
  intros Ha Hb Hne. destruct l as [|x [|y l]]; simpl; [|exfalso|lia].
  - by apply not_elem_of_nil in Ha.
  - apply list_elem_of_singleton in Ha, Hb. congruence.
Qed.

(** ** The search for cycles terminates *)

Section Cycles.
Implicit Types (l : list EffectLifecycle).

Lemma entry_by_id_Some l id e : entry_by_id l id = Some e → e ∈ l ∧ el_effect_id e = id.
Proof.
  unfold entry_by_id. intros Hhd. assert (e ∈ filter (λ e, el_effect_id e = id) l) as Hin.
  { destruct (filter _ l); [done|]. simplify_eq/=. by left. }
  apply list_elem_of_filter in Hin. naive_solver.
Qed.

Lemma visitGeneration_fuel l fuel id path st :
  NoDup path → (∀ x, x ∈ path → x ∈ map el_effect_id l) → 2 + length l ≤ fuel + length path →
  is_Some (visitGeneration fuel l id path st).
Proof.
  revert id path st. induction fuel as [|fuel IH]; intros id path st Hnd Hsub Hfuel.
  - assert (path ⊆+ map el_effect_id l) as Hlen%submseteq_length by by apply NoDup_submseteq.
    rewrite length_map in Hlen. lia.
  - simpl. case_decide as Hv; [eauto|]. case_decide as Hp; [case_decide; eauto|].
    destruct (entry_by_id l id) as [e|] eqn:Ee; [|eauto].
    apply entry_by_id_Some in Ee as [He Hid]. destruct (fx_predecessor (el_effect e)) as [p|].
    + destruct (IH p (path ++ [id]) st) as [[visited cycles] Hvis].
      * apply NoDup_app. split; [done|]. split; [|apply NoDup_singleton].
        intros x Hx Hx'%list_elem_of_singleton. by subst.
      * intros x [Hx|Hx%list_elem_of_singleton]%elem_of_app; [auto|]. subst.
        by apply list_elem_of_fmap_2.
      * rewrite length_app. simpl. lia.
      * rewrite Hvis. eauto.
    + destruct st. eauto.
Qed.

Lemma generation_cycles_total l : ∃ cycles, generation_cycles l = Ok cycles.
Proof.
  unfold generation_cycles. generalize (([], []) : list string * list (list string)).
  generalize (sort_text (distinct_ids l)). intros ids. induction ids as [|id ids IH]; intros st.
  - simpl. destruct st. eauto.
  - cbn [visit_generations].
    destruct (visitGeneration_fuel l (2 + length l) id [] st) as [st' ->]; [apply NoDup_nil_2|..].
    + intros x Hx. by apply not_elem_of_nil in Hx.
    + simpl. lia.
    + apply IH.
Qed.
End Cycles.

(** ** A clean branch *)

Section Clean.
Context `{Sha256}.

Lemma branch_effects_elem s branch outbox key e :
  (key, e) ∈ branch_effects s branch outbox ↔
  outbox !! key = Some e ∧ fx_work_order_id e = st_work_order_id s
  ∧ fx_branch_ref e = br_branch_ref branch.
Proof.
  unfold branch_effects. rewrite list_elem_of_filter, sorted_entries_elem. simpl. tauto.
Qed.

Lemma classify_Ok e branch key l :
  classifyEffectLifecycleV2 e branch key = Ok l →
  el_effect l = e ∧ el_effect_key l = key ∧ el_scope l = attemptScope e branch
  ∧ (in_lineage e = true → effectOperationLaneIdV2 e = Ok (default "" (el_operation_lane_id l))
      ∧ is_Some (el_operation_lane_id l)
      ∧ effectOperationGoalIdV2 e = Ok (default "" (el_operation_goal_id l))
      ∧ is_Some (el_operation_goal_id l)).
Proof.
  unfold classifyEffectLifecycleV2. intros Hc. res_inv Hc. subst. simpl. split_and!; try done.
  unfold in_lineage, scope_hash_valid. intros Hin. split_bools.
  destruct (effect_kind_of e); [|done].
  match goal with Hv : fx_v2 e = true |- _ => rewrite Hv in E end.
  res_inv E. subst. simpl. rewrite E0, E1. split_and!; eauto.
Qed.

(** An effect that shows no violation is part of the lineage. *)
Lemma no_effect_violation key e s branch :
  invalidEffectViolations key e s branch = [] →
  fx_v2 e = true ∧ fx_effect_id e = key ∧ is_Some (effect_kind_of e)
  ∧ in_lineage e = true ∧ (1 <= fx_generation e)%Z ∧ attemptScope e branch ≠ ScopeFuture.
Proof.
  unfold invalidEffectViolations. rewrite !app_nil, !violation_if_nil.
  intros (H1 & H2 & _ & _ & H5 & H6 & H7 & _ & H9). split_bools.
  apply String.eqb_eq in H2. unfold in_lineage. rewrite H6, H7.
  destruct (effect_kind_of e); [|done]. split_and!; try done.
  unfold generation_valid in H7. by split_bools.
Qed.

(** The parts of a snapshot of an effect-contract-2 Work Order. *)
Lemma snapshot_parts s branch outbox attention snap :
  st_engine_contract_version s = 2%Z →
  deriveBranchLifecycleSnapshot s branch outbox attention = Ok snap →
  let lineage := filter (λ l, in_lineage (el_effect l) = true) (bs_effects snap) in
  ∃ goals,
    mapR (λ ke, classifyEffectLifecycleV2 ke.2 branch ke.1) (branch_effects s branch outbox)
      = Ok (bs_effects snap)
    ∧ mapR (λ g, goal_violations lineage g.1 g.2)
        (isort (λ a b, text_leb a.1 b.1) (group_by el_operation_goal_id lineage)) = Ok goals
    ∧ (bs_violations snap = [] →
        (∀ ke, ke ∈ branch_effects s branch outbox → invalidEffectViolations ke.1 ke.2 s branch = [])
        ∧ (∀ g, g ∈ goals → g.2 = [])
        ∧ lane_violations (group_by el_operation_lane_id lineage) = []
        ∧ unattended el_recovery_attention_required
            (omap fst (map (recovery_attention (bs_effects snap))
              (open_attention V2_RECOVERY_ATTENTION_KINDS branch attention)))
            "delivery_unknown_recovery_attention_missing" (bs_effects snap) = []).
Proof.
  intros Hv Hd. unfold deriveBranchLifecycleSnapshot in Hd. rewrite Hv in Hd. simpl in Hd.
  res_inv Hd. subst. simpl. exists v1. split_and!; try done.
  rewrite !app_nil, !flat_map_nil. naive_solver.
Qed.

Section Branch.
Context (s : State) (branch : Branch) (outbox : gmap string Effect).
Context (attention : gmap string Attention) (snap : BranchSnapshot).
Hypothesis version : st_engine_contract_version s = 2%Z.
Hypothesis derived : deriveBranchLifecycleSnapshot s branch outbox attention = Ok snap.
Hypothesis clean : bs_violations snap = [].

(** The effect of the branch under the key [key]. *)
Definition of_branch (key : string) (e : Effect) : Prop :=
  outbox !! key = Some e ∧ fx_work_order_id e = st_work_order_id s
  ∧ fx_branch_ref e = br_branch_ref branch.

Let lineage := filter (λ l, in_lineage (el_effect l) = true) (bs_effects snap).

Lemma clean_effect key e :
  of_branch key e →
  fx_v2 e = true ∧ fx_effect_id e = key ∧ is_Some (effect_kind_of e)
  ∧ in_lineage e = true ∧ (1 <= fx_generation e)%Z ∧ attemptScope e branch ≠ ScopeFuture
  ∧ ∃ l, l ∈ bs_effects snap ∧ l ∈ lineage ∧ el_effect l = e ∧ el_scope l = attemptScope e branch
    ∧ effectOperationLaneIdV2 e = Ok (default "" (el_operation_lane_id l))
    ∧ is_Some (el_operation_lane_id l)
    ∧ effectOperationGoalIdV2 e = Ok (default "" (el_operation_goal_id l))
    ∧ is_Some (el_operation_goal_id l).
Proof.
  intros Hb%branch_effects_elem. destruct (snapshot_parts _ _ _ _ _ version derived)
    as (goals & Heff & _ & Hclean). destruct (Hclean clean) as (Hinv & _).
  pose proof (Hinv _ Hb) as Hi. destruct (no_effect_violation _ _ _ _ Hi)
    as (? & ? & ? & Hlin & ? & ?). split_and!; try done.
  destruct (mapR_elem _ _ _ _ Heff Hb) as (l & Hl & Hc). simpl in Hc.
  apply classify_Ok in Hc as (He & _ & Hs & Hids). destruct (Hids Hlin) as (? & ? & ? & ?).
  exists l. split_and!; try done. apply list_elem_of_filter. by rewrite He.
Qed.

(** A member of the lineage is an effect of the branch. *)
Lemma lineage_effect l : l ∈ lineage → of_branch (fx_effect_id (el_effect l)) (el_effect l).
Proof.
  intros [_ Hl]%list_elem_of_filter. destruct (snapshot_parts _ _ _ _ _ version derived)
    as (goals & Heff & _ & _). destruct (mapR_elem_inv _ _ _ _ Heff Hl) as ([key e] & Hb & Hc).
  apply classify_Ok in Hc as (He & _). simpl in He. subst e.
  apply branch_effects_elem in Hb. destruct (clean_effect _ _ Hb) as (_ & -> & _). done.
Qed.

Lemma clean_member l goal :
  l ∈ lineage → el_operation_goal_id l = Some goal → member_violations lineage goal l = [].
Proof.
  intros Hl Hg. destruct (snapshot_parts _ _ _ _ _ version derived)
    as (goals & _ & Hgoals & Hclean). destruct (Hclean clean) as (_ & Hnone & _).
  pose proof (group_by_elem el_operation_goal_id lineage l goal Hl Hg) as Hin.
  eapply isort_elem_of in Hin. destruct (mapR_elem _ _ _ _ Hgoals Hin) as ([gs vs] & Hy & Hgv).
  specialize (Hnone _ Hy). simpl in Hnone. subst vs. unfold goal_violations in Hgv.
  apply bind_Ok in Hgv as (g0 & _ & [= _ Hgv]). apply app_nil in Hgv as [Hm _].
  rewrite flat_map_nil in Hm. apply Hm. by apply list_elem_of_filter.
Qed.

Lemma clean_lanes l1 l2 lane :
  l1 ∈ lineage → l2 ∈ lineage → el_operation_lane_id l1 = Some lane →
  el_operation_lane_id l2 = Some lane → el_unresolved l1 = true → el_unresolved l2 = true →
  l1 = l2.
Proof.
  intros H1 H2 L1 L2 U1 U2. destruct (snapshot_parts _ _ _ _ _ version derived)
    as (goals & _ & _ & Hclean). destruct (Hclean clean) as (_ & _ & Hlanes & _).
  unfold lane_violations in Hlanes. rewrite map_filter_nil in Hlanes.
  pose proof (group_by_elem el_operation_lane_id lineage l1 lane H1 L1) as Hin.
  eapply isort_elem_of in Hin. specialize (Hlanes _ Hin). simpl in Hlanes.
  set (f := filter (λ m, el_unresolved m = true) _) in Hlanes.
  assert (∀ l, l ∈ lineage → el_operation_lane_id l = Some lane → el_unresolved l = true → l ∈ f)
    as Hf by (intros; apply list_elem_of_filter; split; [done|by apply list_elem_of_filter]).
  pose proof (Hf _ H1 L1 U1). pose proof (Hf _ H2 L2 U2).
  destruct f as [|a [|b f']]; simpl in *; [by exfalso; eapply not_elem_of_nil| |lia].
  set_solver.
Qed.
End Branch.

(** a branch whose snapshot shows no violation has a sound history of effects: each is of
    contract 2, stored under its own identifier, of a known kind and not from a future attempt;
    its generations form chains, a first generation has no predecessor and every later one
    directly succeeds a generation of the same operation goal that is proven not sent; and every
    ambiguous delivery has an open recovery attention. *)
Theorem clean_branch_lineage s branch outbox attention snap key e :
  st_engine_contract_version s = 2%Z →
  deriveBranchLifecycleSnapshot s branch outbox attention = Ok snap → bs_violations snap = [] →
  of_branch s branch outbox key e →
  fx_v2 e = true ∧ fx_effect_id e = key ∧ is_Some (effect_kind_of e)
  ∧ attemptScope e branch ≠ ScopeFuture ∧ (1 <= fx_generation e)%Z
  ∧ (fx_generation e = 1%Z → fx_predecessor e = None)
  ∧ (fx_generation e ≠ 1%Z → ∃ p pe, fx_predecessor e = Some p ∧ of_branch s branch outbox p pe
      ∧ fx_generation pe = (fx_generation e - 1)%Z ∧ fx_status pe = FsNotSent
      ∧ effectOperationGoalIdV2 pe = effectOperationGoalIdV2 e)
  ∧ (fx_status e = FsDeliveryUnknown → ∃ id a, attention !! id = Some a ∧ att_open a = true
      ∧ att_branch_ref a = Some (br_branch_ref branch)
      ∧ att_kind a ∈ V2_RECOVERY_ATTENTION_KINDS ∧ att_effect_id a = Some (fx_effect_id e)).
Proof.
  intros Hv Hd Hc Hb. destruct (clean_effect _ _ _ _ _ Hv Hd Hc _ _ Hb)
    as (Hv2 & Hid & Hk & Hlin & Hg & Hscope & l & Hl & Hll & He & _ & _ & _ & Hgoal & Hgo).
  destruct Hgo as [goal Hgo]. pose proof (clean_member _ _ _ _ _ Hv Hd Hc l goal Hll Hgo) as Hm.
  unfold member_violations, el_generation in Hm. rewrite He in Hm. split_and!; try done.
  - intros Hone. rewrite Hone in Hm. simpl in Hm. apply violation_if_nil in Hm.
    apply negb_false_iff in Hm. by destruct (fx_predecessor e).
  - intros Hne. rewrite (proj2 (Z.eqb_neq _ _) Hne) in Hm.
    destruct (fx_predecessor e) as [p|]; [|done].
    destruct (entry_by_id _ p) as [pl|] eqn:Ep; [|done].
    apply entry_by_id_Some in Ep as [Hpl Hpid]. rewrite !app_nil, !violation_if_nil in Hm.
    destruct Hm as (Hm1 & Hm2 & Hm3). split_bools.
    pose proof (lineage_effect _ _ _ _ _ Hv Hd Hc _ Hpl) as Hpb.
    destruct (clean_effect _ _ _ _ _ Hv Hd Hc _ _ Hpb)
      as (_ & _ & _ & Hplin & _ & _ & pl' & _ & _ & Hpe & _ & _ & _ & Hpgoal & _).
    exists p, (el_effect pl). unfold el_effect_id in Hpid. rewrite Hpid in Hpb.
    split_and!; try done. rewrite Hgoal, Hgo. simpl.
    destruct (snapshot_parts _ _ _ _ _ Hv Hd) as (goals & Heff & _ & _).
    apply list_elem_of_filter in Hpl as [_ Hpl].
    destruct (mapR_elem_inv _ _ _ _ Heff Hpl) as ([pk pe] & _ & Hcl).
    apply classify_Ok in Hcl as (Hce & _ & _ & Hids). simpl in Hce, Hids. subst pe.
    destruct (Hids Hplin) as (_ & _ & -> & _). by rewrite Hm1.
  - intros Hst. destruct (snapshot_parts _ _ _ _ _ Hv Hd) as (goals & _ & _ & Hclean).
    destruct (Hclean Hc) as (_ & _ & _ & Hun). unfold unattended in Hun.
    rewrite map_filter_nil in Hun. specialize (Hun l Hl).
    assert (el_effect_id l ∈ omap fst (map (recovery_attention (bs_effects snap))
      (open_attention V2_RECOVERY_ATTENTION_KINDS branch attention))) as Hin.
    { apply dec_stable. intros Hn. apply Hun. split; [|done].
      unfold el_recovery_attention_required, el_ambiguous. rewrite He, Hst. done. }
    apply list_elem_of_omap in Hin as (ra & Hra & Hfst).
    apply list_elem_of_fmap in Hra as ([id a] & -> & Hatt).
    apply list_elem_of_filter in Hatt as [(Hopen & Href & Hkind) Hatt].
    apply sorted_entries_elem in Hatt. exists id, a. split_and!; try done.
    unfold recovery_attention in Hfst. simpl in Hfst.
    destruct (effect_by_id _ (att_effect_id a)) as [bd|] eqn:Eb; [|done].
    simpl in Hfst. injection Hfst as Hfst. unfold effect_by_id in Eb.
    destruct (att_effect_id a) as [eid|]; [|done]. apply last_Some_elem_of in Eb.
    apply list_elem_of_filter in Eb as [Heid _]. f_equal. rewrite <- Heid, Hfst.
    unfold el_effect_id. by rewrite He.
Qed.

(** no mutation of the provider runs twice at a time: on a branch without violations, two
    unresolved effects of the same attempt, dispatch and kind are the same effect. *)
Theorem clean_branch_one_unresolved s branch outbox attention snap k1 e1 k2 e2 :
  st_engine_contract_version s = 2%Z →
  deriveBranchLifecycleSnapshot s branch outbox attention = Ok snap → bs_violations snap = [] →
  of_branch s branch outbox k1 e1 → of_branch s branch outbox k2 e2 →
  fx_attempt e1 = fx_attempt e2 → fx_dispatch_id e1 = fx_dispatch_id e2 →
  effect_kind_of e1 = effect_kind_of e2 →
  fx_status e1 ∈ V2_UNRESOLVED_EFFECT_STATUSES → fx_status e2 ∈ V2_UNRESOLVED_EFFECT_STATUSES →
  k1 = k2 ∧ e1 = e2.
Proof.
  intros Hv Hd Hc Hb1 Hb2 Hatt Hdis Hkind Hu1 Hu2.
  destruct (clean_effect _ _ _ _ _ Hv Hd Hc _ _ Hb1)
    as (_ & Hid1 & Hk1 & _ & _ & _ & l1 & _ & Hl1 & He1 & _ & Hlane1 & [n1 Hn1] & _).
  destruct (clean_effect _ _ _ _ _ Hv Hd Hc _ _ Hb2)
    as (_ & Hid2 & Hk2 & _ & _ & _ & l2 & _ & Hl2 & He2 & _ & Hlane2 & [n2 Hn2] & _).
  assert (effectOperationLaneIdV2 e1 = effectOperationLaneIdV2 e2) as Hsame.
  { destruct Hb1 as (_ & Hw1 & Hr1), Hb2 as (_ & Hw2 & Hr2).
    assert (ef_effect_kind (fx_identity e1) = ef_effect_kind (fx_identity e2)) as Hkk.
    { unfold effect_kind_of in Hkind, Hk1. destruct Hk1 as [k Hk1].
      pose proof (enum_find_Some _ _ _ Hk1) as [_ <-]. rewrite Hkind in Hk1.
      by pose proof (enum_find_Some _ _ _ Hk1) as [_ <-]. }
    unfold effectOperationLaneIdV2, pick. simpl.
    unfold fx_work_order_id, fx_branch_ref, fx_attempt, fx_dispatch_id in *.
    by rewrite Hw1, Hw2, Hr1, Hr2, Hatt, Hdis, Hkk. }
  rewrite Hlane1, Hlane2, Hn1, Hn2 in Hsame. injection Hsame as Hnn. simpl in Hnn. subst n2.
  assert (l1 = l2) as <-.
  { apply (clean_lanes _ _ _ _ _ Hv Hd Hc l1 l2 n1); try done;
      unfold el_unresolved; rewrite ?He1, ?He2; by apply bool_decide_eq_true. }
  rewrite He1 in He2. subst e2. by subst.
Qed.
End Clean.

(** ** What automation may do *)

Section Automation.
Context `{Sha256}.

(** A branch without a cleanup hold: its unresolved effects are current and not ambiguous. *)
Lemma no_hold s branch outbox attention snap key e :
  st_engine_contract_version s = 2%Z →
  deriveBranchLifecycleSnapshot s branch outbox attention = Ok snap →
  bs_cleanup_hold_effect_ids snap = [] → of_branch s branch outbox key e →
  fx_status e ∈ V2_UNRESOLVED_EFFECT_STATUSES →
  attemptScope e branch = ScopeCurrent ∧ fx_status e ≠ FsDeliveryUnknown.
Proof.
  intros Hv Hd Hhold Hb Hu. unfold deriveBranchLifecycleSnapshot in Hd. rewrite Hv in Hd.
  simpl in Hd. res_inv Hd. subst snap. simpl in Hhold.
  apply (proj1 (uniqueSorted_nil _)) in Hhold. rewrite !app_nil in Hhold.
  destruct Hhold as (Hstale & Hfuture & Hamb & _ & _). unfold ids_where in *.
  rewrite !map_filter_nil in Hstale, Hfuture, Hamb.
  pose proof (proj2 (branch_effects_elem s branch outbox key e) Hb) as Hin.
  destruct (mapR_elem _ _ _ _ E Hin) as (l & Hl & (He & _ & Hsc & _)%classify_Ok).
  simpl in He. specialize (Hstale l Hl). specialize (Hfuture l Hl). specialize (Hamb l Hl).
  assert (el_unresolved l = true) as Hul.
  { unfold el_unresolved. rewrite He. by apply bool_decide_eq_true. }
  unfold el_prior_attempt, el_ambiguous in *. rewrite Hul, andb_true_r, bool_decide_eq_true in *.
  rewrite Hsc, He in *. simpl in Hsc.
  destruct Hb as (_ & _ & Hr). destruct (attemptScope e branch) eqn:Esc; try done.
  unfold attemptScope in Esc. rewrite Hr, String.eqb_refl in Esc. simpl in Esc.
  by repeat case_match.
Qed.

(** forward work is scheduled only on a clean Work Order: when the derived automation allows
    it, the Work Order is starting or running, nothing violates the lifecycle, nothing waits for
    an operator, and every unresolved effect belongs to the current attempt of its branch and is
    not ambiguous. *)
Theorem forward_work_is_clean s outbox attention snap :
  deriveLifecycleSnapshot s outbox attention = Ok snap →
  (∀ ref b, st_branches s !! ref = Some b → br_branch_ref b = ref) →
  au_may_schedule_forward_work (ls_automation snap) = true →
  st_engine_contract_version s = 2%Z ∧ st_status s ∈ [WStarting; WRunning]
  ∧ ls_violations snap = []
  ∧ (∀ key e, outbox !! key = Some e → fx_work_order_id e = st_work_order_id s →
      fx_status e ∈ V2_UNRESOLVED_EFFECT_STATUSES →
      ∃ b, st_branches s !! fx_branch_ref e = Some b ∧ attemptScope e b = ScopeCurrent
        ∧ fx_status e ≠ FsDeliveryUnknown).
Proof.
  intros Hd Hkeyed Hmay. unfold deriveLifecycleSnapshot in Hd. res_inv Hd. subst snap.
  simpl in *. destruct (_ =? 1)%Z eqn:E1; [done|]. destruct (_ =? 2)%Z eqn:E2; [|done].
  apply Z.eqb_eq in E2. simpl in *. apply bool_decide_eq_true in Hmay.
  destruct (bool_decide (flat_map _ _ ++ _ = [])) eqn:Ev; [|done]. simpl in Hmay.
  apply bool_decide_eq_true in Ev. rewrite Ev in *. simpl in *.
  destruct (bool_decide (uniqueSorted (flat_map bs_cleanup_hold_effect_ids _) = [])) eqn:Ec;
    [|done]. apply bool_decide_eq_true, (proj1 (uniqueSorted_nil _)) in Ec. simpl in Hmay.
  destruct (bool_decide _); [|done]. simpl in Hmay.
  destruct (among TERMINAL_WORK_ORDER_STATES (st_status s)) eqn:Et; [done|]. split_and!; try done.
  - unfold among in Et. apply bool_decide_eq_false in Et.
    destruct (st_status s); try done; try (by left); try (by right; left);
      exfalso; apply Et; by apply (bool_decide_unpack _).
  - intros key e He Hw Hu. rewrite !app_nil in Ev. destruct Ev as (_ & Hstray & _).
    unfold stray_effects in Hstray. rewrite map_filter_nil in Hstray.
    specialize (Hstray (key, e) (proj2 (sorted_entries_elem _ _ _) He)). simpl in Hstray.
    destruct (st_branches s !! fx_branch_ref e) as [b|] eqn:Eb; [|by exfalso; apply Hstray].
    exists b. split; [done|].
    assert (b ∈ ordered_branches s) as Hob.
    { unfold ordered_branches. rewrite isort_elem_of. apply list_elem_of_fmap.
      exists (fx_branch_ref e, b). split; [done|]. by apply elem_of_map_to_list. }
    destruct (mapR_elem _ _ _ _ E Hob) as ([r sn] & Hsn & Hder).
    apply bind_Ok in Hder as (sn' & Hder & [= <- ->]).
    apply (no_hold _ _ _ _ _ key _ E2 Hder); [|split_and!; [done..|by rewrite (Hkeyed _ _ Eb)]|done].
    rewrite flat_map_nil in Ec. apply (Ec sn). apply list_elem_of_fmap. by exists (br_branch_ref b, sn).
Qed.
End Automation.
