(* ===== verification/ProjectorBase.v ===== *)
(** Reading events ([packages/business-orchestrator/src/projector.js], lines 284-635): the
    normalisers of the projector, the vocabulary of events and sources, and the event a reducer
    receives.  A failed check throws a [BusinessProjectionError], of which the model keeps the
    code.

    The normalisers have the names the projector gives them and shadow those of the state
    machine: these ones trim what they read, and sort nothing. *)

From Stdlib Require Import ZArith Lia String.
From stdpp Require Import base tactics list strings option gmap.
From S2P Require Import Prelude JsString JsDate Json SettlementPolicy ContractBase PlanContract.
From S2P Require Import Envelope WorkOrderState WorkOrderFacts.
Import CONTRACT_LIMITS.

(** [fail(code, message, details)] *)
Abbreviation fail code := (Err (BusinessProjectionError code)).
Abbreviation INVALID := "BUSINESS_PROJECTION_INVALID" (only parsing).
Abbreviation LIMIT := "BUSINESS_PROJECTION_LIMIT" (only parsing).
Notation "'refuse' b 'with' code 'in' k" := (if b then fail code else k)
  (at level 10, b at level 100, code at level 100, k at level 200) : res_scope.

(** ** Normalisers *)

(** [cloneJson(value, path, maximumBytes)]: the value again, when it has a canonical text of at
    most that size; the order of fields is not represented. *)
Definition cloneJson (value : json) (maximumBytes : Z) : res json :=
  match canonicalJson value with
  | Err _ => fail INVALID
  | Ok serialized => refuse (maximumBytes <? utf8Bytes serialized)%Z with LIMIT in Ok value
  end.

Definition MAX_EVENT_BYTES : Z := max_plan_bytes.

Definition object (value : json) : res fields :=
  match value with JObj fs => Ok fs | _ => fail INVALID end.

Definition exact (value : json) (allowed required : list string) : res fields :=
  let* input := object value in
  refuse existsb (λ k, negb (includes allowed k)) (keys input) with INVALID in
  refuse existsb (λ k, negb (has_own input k)) required with INVALID in
  Ok input.

Definition text (value : json) (maximum : Z) : res string :=
  match value with
  | JStr s =>
      let normalized := trim s in
      refuse String.eqb normalized "" with INVALID in
      refuse (maximum <? utf8Bytes normalized)%Z with LIMIT in
      Ok normalized
  | _ => fail INVALID
  end.

Definition portableRef (value : json) : res string :=
  let* normalized := text value max_ref_bytes in
  refuse negb (portable_pattern normalized) with INVALID in
  Ok normalized.

Definition integer (value : json) (minimum maximum : Z) : res Z :=
  match value with
  | JInt z =>
      refuse negb (is_safe_integer z) || (z <? minimum)%Z || (maximum <? z)%Z with INVALID in
      Ok z
  | _ => fail INVALID
  end.
(** The default range. *)
Definition count (value : json) : res Z := integer value 0 1000000000.
Definition positive (value : json) : res Z := integer value 1 1000000000.

Definition enumeration {A} `{JsEnum A} (value : json) (allowed : list A) : res A :=
  match value with
  | JStr s => match enum_find allowed s with Some a => Ok a | None => fail INVALID end
  | _ => fail INVALID
  end.

Definition sha256 (value : json) : res string :=
  match value with
  | JStr s => if hex_pattern 64 s then Ok s else fail INVALID
  | _ => fail INVALID
  end.

Definition timestamp (value : json) : res Z :=
  let* normalized := text value 64 in
  match ms_of_iso normalized with Some t => Ok t | None => fail INVALID end.

Definition stringArray (value : json) (minimum maximum : Z) : res (list string) :=
  match value with
  | JArr l =>
      refuse (Z.of_nat (length l) <? minimum)%Z || (maximum <? Z.of_nat (length l))%Z
        with LIMIT in
      let* normalized := mapR portableRef l in
      refuse has_duplicates normalized with INVALID in
      Ok normalized
  | _ => fail LIMIT
  end.
Definition evidenceRefs (value : json) : res (list string) := stringArray value 1 max_evidence_refs.

Definition contentRef (value : json) : res ContentRef :=
  let* ref := exact value ["id"; "hash"] ["id"; "hash"] in
  let* id := portableRef (get "id" ref) in
  let* hash := sha256 (get "hash" ref) in
  Ok {| cr_id := id; cr_hash := hash |}.

Definition normalizeWorkOrderId (value : json) : res string :=
  let* normalized := portableRef value in
  refuse negb (prefixed_hex_pattern "WO-" 32 normalized) with INVALID in Ok normalized.

Definition normalizePlanSnapshotRef (value : json) : res string :=
  let* normalized := portableRef value in
  refuse negb (prefixed_hex_pattern "BPS-" 32 normalized) with INVALID in Ok normalized.

Definition normalizeReason (value : json) : res string := text value 4096.

(** [value === null ? null : f(value)] *)
Definition nullOr {A} (f : json → res A) (value : json) : res (option A) :=
  match value with JNull => Ok None | _ => let* a := f value in Ok (Some a) end.

(** [value === undefined || value === null ? null : f(value)] *)
Definition optionalField {A} (f : json → res A) (value : json) : res (option A) :=
  match value with JUndef | JNull => Ok None | _ => let* a := f value in Ok (Some a) end.

Definition normalizeRuntimeIdentity (value : json) : res (option RuntimeIdentity) :=
  match value with
  | JNull => Ok None
  | _ =>
      let* identity := exact value ["operation_id"; "thread_id"; "turn_id"] [] in
      let* operation_id := optionalField portableRef (get "operation_id" identity) in
      let* thread_id := optionalField portableRef (get "thread_id" identity) in
      let* turn_id := optionalField portableRef (get "turn_id" identity) in
      refuse bool_decide (operation_id = None ∧ thread_id = None ∧ turn_id = None)
        with INVALID in
      Ok (Some {| ri_operation_id := operation_id; ri_thread_id := thread_id;
                  ri_turn_id := turn_id |})
  end.

(** ** Vocabulary *)

(** [BUSINESS_EVENT_TYPES] *)
Inductive EventType :=
| EWorkOrderCreated | EWorkOrderStatus | EContextBudget | EBranchInitialized | EAttemptOpened
| EBranchStatus | ERuntimeObserved | EVerification | EReview | EAcceptance | ELateObservation
| ERecoveryProbe | EEnqueued | EClaimed | ESendBegun | ELeaseRenewed | ERequeued | ESendExpired
| EDelivered | ENotSent | EDeliveryUnknown | ECancelled | ECommandReceived | EObservationReceived
| ESettlementReceived | EInternalReceived | EAttentionOpened | EAttentionResolved
| ESettlementActivated | ECutoverReceived.
#[export] Instance EventType_eq_dec : EqDecision EventType.
Proof. solve_decision. Defined.
#[export] Instance EventType_enum : JsEnum EventType := {|
  enum_all := [EWorkOrderCreated; EWorkOrderStatus; EContextBudget; EBranchInitialized;
    EAttemptOpened; EBranchStatus; ERuntimeObserved; EVerification; EReview; EAcceptance;
    ELateObservation; ERecoveryProbe; EEnqueued; EClaimed; ESendBegun; ELeaseRenewed; ERequeued;
    ESendExpired; EDelivered; ENotSent; EDeliveryUnknown; ECancelled; ECommandReceived;
    EObservationReceived; ESettlementReceived; EInternalReceived; EAttentionOpened;
    EAttentionResolved; ESettlementActivated; ECutoverReceived];
  enum_str t := match t with
    | EWorkOrderCreated => "business.work_order.created"
    | EWorkOrderStatus => "business.work_order.status_changed"
    | EContextBudget => "business.context_budget.verified"
    | EBranchInitialized => "business.branch.initialized"
    | EAttemptOpened => "business.branch.attempt_opened"
    | EBranchStatus => "business.branch.status_changed"
    | ERuntimeObserved => "business.branch.runtime_observed"
    | EVerification => "business.verification.recorded"
    | EReview => "business.review.recorded"
    | EAcceptance => "business.acceptance.recorded"
    | ELateObservation => "business.late_observation.quarantined"
    | ERecoveryProbe => "business.recovery_probe.recorded"
    | EEnqueued => "business.outbox.enqueued"
    | EClaimed => "business.outbox.claimed"
    | ESendBegun => "business.outbox.send_begun"
    | ELeaseRenewed => "business.outbox.lease_renewed"
    | ERequeued => "business.outbox.requeued"
    | ESendExpired => "business.outbox.send_expired"
    | EDelivered => "business.outbox.delivered"
    | ENotSent => "business.outbox.not_sent"
    | EDeliveryUnknown => "business.outbox.delivery_unknown"
    | ECancelled => "business.outbox.cancelled"
    | ECommandReceived => "business.command.received"
    | EObservationReceived => "business.observation.received"
    | ESettlementReceived => "business.provider_settlement.received"
    | EInternalReceived => "business.internal_action.received"
    | EAttentionOpened => "business.attention.opened"
    | EAttentionResolved => "business.attention.resolved"
    | ESettlementActivated => "business.provider_settlement.v2_activated"
    | ECutoverReceived => "business.provider_settlement.cutover_received"
    end |}.
#[export] Instance EventType_laws : JsEnumLaws EventType.
Proof. enum_laws. Qed.

(** The source of an input: [RECEIPT_TYPES], first components. *)
Inductive SourceType := SCommand | SObservation | SSettlement | SInternal.
#[export] Instance SourceType_eq_dec : EqDecision SourceType.
Proof. solve_decision. Defined.
#[export] Instance SourceType_enum : JsEnum SourceType := {|
  enum_all := [SCommand; SObservation; SSettlement; SInternal];
  enum_str s := match s with
    | SCommand => "command" | SObservation => "observation"
    | SSettlement => "provider_settlement" | SInternal => "internal_action" end |}.
#[export] Instance SourceType_laws : JsEnumLaws SourceType.
Proof. enum_laws. Qed.

(** The receipt maps of a projection: [RECEIPT_TYPES], second components. *)
Inductive ReceiptMap := CommandReceipts | ObservationReceipts | InternalReceipts.
#[export] Instance ReceiptMap_eq_dec : EqDecision ReceiptMap.
Proof. solve_decision. Defined.

Definition RECEIPT_TYPES (t : EventType) : option (SourceType * ReceiptMap) :=
  match t with
  | ECommandReceived => Some (SCommand, CommandReceipts)
  | EObservationReceived => Some (SObservation, ObservationReceipts)
  | ESettlementReceived => Some (SSettlement, ObservationReceipts)
  | EInternalReceived => Some (SInternal, InternalReceipts)
  | _ => None
  end.
Definition receiptSourceType (t : EventType) : option SourceType := fst <$> RECEIPT_TYPES t.

Definition INTERNAL_ONLY_EVENT_TYPES : list EventType :=
  [EClaimed; ESendBegun; ELeaseRenewed; ERequeued; ESendExpired; EInternalReceived].
Definition COMMAND_BATCH_EVENT_TYPES : list EventType :=
  [EWorkOrderCreated; EWorkOrderStatus; EContextBudget; EBranchInitialized; EAttemptOpened;
   EBranchStatus; EAcceptance; EEnqueued; ECancelled; EAttentionOpened; EAttentionResolved].
Definition OBSERVATION_BATCH_EVENT_TYPES : list EventType :=
  [EWorkOrderStatus; EAttemptOpened; EBranchStatus; ERuntimeObserved; EVerification; EReview;
   ELateObservation; ERecoveryProbe; EEnqueued; EDelivered; ENotSent; EDeliveryUnknown;
   ESendExpired; ECancelled; EAttentionOpened; EAttentionResolved].
Definition PROVIDER_SETTLEMENT_BATCH_EVENT_TYPES : list EventType :=
  [EWorkOrderStatus; EBranchStatus; ERuntimeObserved; ELateObservation; ERecoveryProbe; EEnqueued;
   EDelivered; ENotSent; EDeliveryUnknown; ESendExpired; ECancelled; EAttentionOpened;
   EAttentionResolved].
Definition BATCH_EVENT_TYPES (s : SourceType) : list EventType :=
  match s with
  | SCommand => COMMAND_BATCH_EVENT_TYPES
  | SObservation => OBSERVATION_BATCH_EVENT_TYPES
  | SSettlement => PROVIDER_SETTLEMENT_BATCH_EVENT_TYPES
  | SInternal => INTERNAL_ONLY_EVENT_TYPES
  end.
Definition GLOBAL_EVENT_TYPES : list EventType := [ESettlementActivated; ECutoverReceived].
Definition PROVIDER_SETTLEMENT_SENSITIVE_EVENTS : list EventType :=
  [ERecoveryProbe; EDelivered; ENotSent; EDeliveryUnknown; ESendExpired].

Definition PROVIDER_SETTLEMENT_CURRENT_OBSERVATIONS : list ObservationName :=
  [NSettlement; NSendExpiry; NPresendFailure].
Definition PROVIDER_SETTLEMENT_LEGACY_OBSERVATIONS : list ObservationName :=
  [NDeliveryRecorded; NDispatchAccepted; NDispatchNotSent; NDeliveryUnknown].

(** [WORK_ORDER_TRANSITIONS[from]] *)
Definition WORK_ORDER_TRANSITIONS (from : WorkOrderStatus) : list WorkOrderStatus :=
  match from with
  | WStarting => [WRunning; WPaused; WCancelling; WFailed; WCancelled]
  | WRunning => [WPaused; WAwaitingAcceptance; WCancelling; WFailed; WCancelled]
  | WPaused => [WRunning; WCancelling; WFailed; WCancelled]
  | WAwaitingAcceptance => [WPaused; WCancelling; WAccepted; WFailed; WCancelled]
  | WCancelling => [WFailed; WCancelled]
  | WAccepted | WFailed | WCancelled => []
  end.

(** [BRANCH_TRANSITIONS[from]] *)
Definition BRANCH_TRANSITIONS (from : BranchState) : list BranchState :=
  match from with
  | BBlocked => [BReady; BCancelling; BFailed; BCancelled]
  | BReady => [BDispatchPending; BCancelling; BFailed; BCancelled]
  | BDispatchPending => [BRunning; BRetryable; BDeliveryUnknown; BCancelling; BFailed; BCancelled]
  | BRunning => [BWaitingForUser; BVerifying; BRetryable; BDeliveryUnknown; BCancelling; BFailed;
      BCancelled]
  | BWaitingForUser => [BRunning; BCancelling; BFailed; BCancelled]
  | BVerifying => [BAccepted; BCancelling; BFailed; BCancelled]
  | BAccepted => []
  | BRetryable => [BDispatchPending; BCancelling; BFailed; BCancelled]
  | BDeliveryUnknown => [BDispatchPending; BRunning; BRetryable; BCancelling; BFailed; BCancelled]
  | BCancelling => [BFailed; BCancelled]
  | BFailed => [BDispatchPending; BCancelling; BCancelled]
  | BCancelled => []
  end.

(** ** Events *)

Definition COMMON_PAYLOAD_FIELDS : list string :=
  ["work_order_id"; "plan_snapshot_ref"; "plan_hash"; "source_id"; "prior_work_order_revision";
   "target_work_order_revision"; "occurred_at"].

(** The common fields of a payload, normalised. *)
Record Binding := {
  bd_work_order_id : string;
  bd_plan_snapshot_ref : string;
  bd_plan_hash : string;
  bd_source_id : string;
  bd_prior_revision : Z;
  bd_target_revision : Z;
  bd_occurred_at : Z;
}.

Definition binding_fields (b : Binding) : fields :=
  [("work_order_id", JStr (bd_work_order_id b));
   ("plan_snapshot_ref", JStr (bd_plan_snapshot_ref b)); ("plan_hash", JStr (bd_plan_hash b));
   ("source_id", JStr (bd_source_id b)); ("prior_work_order_revision", JInt (bd_prior_revision b));
   ("target_work_order_revision", JInt (bd_target_revision b));
   ("occurred_at", timestamp_json (bd_occurred_at b))].

(** A normalised event.  A cutover event has no binding; in the payload of any other, the common
    fields are those of the binding. *)
Record PEvent := {
  pe_event_id : string;
  pe_type : EventType;
  pe_payload : fields;
  pe_evidence_refs : list string;
  pe_binding : option Binding;
}.

Definition pevent_json (e : PEvent) : json :=
  JObj [("event_id", JStr (pe_event_id e)); ("schema_version", JInt 1);
        ("type", enum_json (pe_type e)); ("payload", JObj (pe_payload e));
        ("evidence_refs", str_list_json (pe_evidence_refs e))].

Definition EVENT_FIELDS : list string :=
  ["event_id"; "schema_version"; "type"; "payload"; "evidence_refs"].

(** [{ ...payload, ...common }] *)
Definition override (common payload : fields) : fields :=
  common ++ filter (λ kv, kv.1 ∉ keys common) payload.

Definition normalizeBinding (payload : fields) : res Binding :=
  let* work_order_id := normalizeWorkOrderId (get "work_order_id" payload) in
  let* plan_snapshot_ref := normalizePlanSnapshotRef (get "plan_snapshot_ref" payload) in
  let* plan_hash := sha256 (get "plan_hash" payload) in
  let* source_id := portableRef (get "source_id" payload) in
  let* prior := count (get "prior_work_order_revision" payload) in
  let* target := count (get "target_work_order_revision" payload) in
  let* occurred_at := timestamp (get "occurred_at" payload) in
  Ok {| bd_work_order_id := work_order_id; bd_plan_snapshot_ref := plan_snapshot_ref;
        bd_plan_hash := plan_hash; bd_source_id := source_id; bd_prior_revision := prior;
        bd_target_revision := target; bd_occurred_at := occurred_at |}.

Definition normalizeEvent (input : json) : res PEvent :=
  let* cloned := cloneJson input MAX_EVENT_BYTES in
  let* event := exact cloned EVENT_FIELDS EVENT_FIELDS in
  let* type := text (get "type" event) 128 in
  match enum_find enum_all type with
  | None => fail "BUSINESS_PROJECTION_EVENT_UNKNOWN"
  | Some type =>
      refuse negb (is_int (get "schema_version" event) 1)
        with "BUSINESS_PROJECTION_EVENT_VERSION" in
      let* evidence := stringArray (get "evidence_refs" event) 0 max_evidence_refs in
      let* payload := object (get "payload" event) in
      if among GLOBAL_EVENT_TYPES type then
        let* event_id := portableRef (get "event_id" event) in
        Ok {| pe_event_id := event_id; pe_type := type; pe_payload := payload;
              pe_evidence_refs := evidence; pe_binding := None |}
      else
        refuse existsb (λ k, negb (has_own payload k)) COMMON_PAYLOAD_FIELDS with INVALID in
        let* event_id := portableRef (get "event_id" event) in
        let* binding := normalizeBinding payload in
        Ok {| pe_event_id := event_id; pe_type := type;
              pe_payload := override (binding_fields binding) payload;
              pe_evidence_refs := evidence; pe_binding := Some binding |}
  end.

(** [requireSpecificFields(event, allowedSpecific, requiredSpecific)] *)
Definition requireSpecificFields (e : PEvent) (allowedSpecific requiredSpecific : list string)
    : res fields :=
  exact (JObj (pe_payload e)) (COMMON_PAYLOAD_FIELDS ++ allowedSpecific)
    (COMMON_PAYLOAD_FIELDS ++ requiredSpecific).

Definition assertEventAllowedForSource (type : EventType) (source : SourceType) : res unit :=
  if bool_decide (receiptSourceType type = Some source) then Ok tt
  else
    refuse negb (among (BATCH_EVENT_TYPES source) type) with "BUSINESS_PROJECTION_SOURCE_CLASS" in
    Ok tt.

Definition inferSourceType (type : EventType) : option SourceType :=
  if bool_decide (type = EWorkOrderCreated) then Some SCommand
  else if among INTERNAL_ONLY_EVENT_TYPES type then Some SInternal
  else if among [ERuntimeObserved; EVerification; EReview; ELateObservation; ERecoveryProbe;
      EDelivered; ENotSent; EDeliveryUnknown] type then Some SObservation
  else receiptSourceType type.
