(* ===== verification/Projection.v ===== *)
(** The projection ([packages/business-orchestrator/src/projector.js], lines 466-669 and 1006-1063):
    its records, the helpers that look things up in it, and the acceptance gates.

    A stored Work Order is the [State] of the decider with what only the projector keeps: the
    input that is being projected, and of each branch the attempts before the current one and the
    last answer to a request for user input. *)

From Stdlib Require Import ZArith Lia String.
From stdpp Require Import base tactics list strings option gmap.
From S2P Require Import Prelude JsString JsDate Json SettlementPolicy ContractBase PlanContract.
From S2P Require Import Envelope WorkOrderState WorkOrderFacts WorkOrderEffects Outbox Lifecycle.
From S2P Require Import ProjectorBase.
Import CONTRACT_LIMITS.

(** ** Records *)

(** An entry of [attempt_history]. *)
Record AttemptRecord := {
  at_attempt : Z;
  at_dispatch_id : option string;
  at_state : BranchState;
  at_delivery : option Delivery;
  at_result : option BranchResult;
  at_finished_at : option Z;
}.

Record ResolvedUserInput := {
  ru_request_id : string;
  ru_response_ref : ContentRef;
  ru_resolved_at : Z;
}.

Record BranchExtra := {
  bx_attempt_history : gmap string AttemptRecord;
  bx_last_resolved_user_input : option ResolvedUserInput;
}.
Definition no_extra : BranchExtra :=
  {| bx_attempt_history := ∅; bx_last_resolved_user_input := None |}.

(** [pending_projection_input] *)
Record Pending := {
  pn_source_id : string;
  pn_source_type : SourceType;
  pn_prior_revision : Z;
  pn_target_revision : Z;
  pn_occurred_at : Z;
  pn_batch_id : option string;
  pn_event_ids : list string;
  pn_event_types : list EventType;
  pn_event_hashes : gmap string string;
}.

Record WorkOrder := {
  wo_state : State;
  wo_extra : gmap string BranchExtra;
  wo_pending : option Pending;
}.

(** The settlement bundle of a provider-settlement receipt. *)
Record SettlementBundle := {
  bn_cutover_id : string;
  bn_observation_name : ObservationName;
  bn_effect_id : string;
  bn_effect_kind : EffectKind;
  bn_branch_ref : string;
  bn_attempt : Z;
  bn_dispatch_id : string;
  bn_mutation_idempotency_key : string;
  bn_ingress_kind : string;
  bn_provenance_ref : ContentRef;
  bn_effective_classification : Classification;
  bn_settlement_policy_hash : option string;
  bn_domain_event_manifest_hash : string;
}.

Record Receipt := {
  rc_source_id : string;
  rc_source_type : SourceType;
  rc_identity_hash : string;
  rc_payload_hash : string;
  rc_work_order_id : string;
  rc_applied_revision : Z;
  rc_batch_id : string;
  rc_event_ids : list string;
  rc_result : json;
  rc_settlement_bundle : option SettlementBundle;
  rc_event_hashes : gmap string string;
}.

(** A quarantined observation. *)
Record LateObservation := {
  lo_observation : ObservationEnvelope;
  lo_reason : string;
  lo_artifact_refs : list ContentRef;
  lo_evidence_refs : list string;
  lo_quarantined_at : Z;
}.

Record Projection := {
  pj_work_orders : gmap string WorkOrder;
  pj_command_receipts : gmap string Receipt;
  pj_observation_receipts : gmap string Receipt;
  pj_internal_receipts : gmap string Receipt;
  pj_provider_entry_windows : gmap string json;
  pj_outbox : gmap string Effect;
  pj_late_observations : gmap string LateObservation;
  pj_provider_settlement_epoch : option json;
}.

Definition initialBusinessProjectionV1 : Projection :=
  {| pj_work_orders := ∅; pj_command_receipts := ∅; pj_observation_receipts := ∅;
     pj_internal_receipts := ∅; pj_provider_entry_windows := ∅; pj_outbox := ∅;
     pj_late_observations := ∅; pj_provider_settlement_epoch := None |}.

(** ** Updates *)

Definition set_wo_state (s : State) (w : WorkOrder) : WorkOrder :=
  {| wo_state := s; wo_extra := wo_extra w; wo_pending := wo_pending w |}.
Definition set_wo_extra (x : gmap string BranchExtra) (w : WorkOrder) : WorkOrder :=
  {| wo_state := wo_state w; wo_extra := x; wo_pending := wo_pending w |}.
Definition set_wo_pending (p : option Pending) (w : WorkOrder) : WorkOrder :=
  {| wo_state := wo_state w; wo_extra := wo_extra w; wo_pending := p |}.

Definition set_pj_work_orders (m : gmap string WorkOrder) (p : Projection) : Projection :=
  {| pj_work_orders := m; pj_command_receipts := pj_command_receipts p;
     pj_observation_receipts := pj_observation_receipts p;
     pj_internal_receipts := pj_internal_receipts p;
     pj_provider_entry_windows := pj_provider_entry_windows p; pj_outbox := pj_outbox p;
     pj_late_observations := pj_late_observations p;
     pj_provider_settlement_epoch := pj_provider_settlement_epoch p |}.
Definition set_pj_outbox (m : gmap string Effect) (p : Projection) : Projection :=
  {| pj_work_orders := pj_work_orders p; pj_command_receipts := pj_command_receipts p;
     pj_observation_receipts := pj_observation_receipts p;
     pj_internal_receipts := pj_internal_receipts p;
     pj_provider_entry_windows := pj_provider_entry_windows p; pj_outbox := m;
     pj_late_observations := pj_late_observations p;
     pj_provider_settlement_epoch := pj_provider_settlement_epoch p |}.
Definition set_pj_late_observations (m : gmap string LateObservation) (p : Projection)
    : Projection :=
  {| pj_work_orders := pj_work_orders p; pj_command_receipts := pj_command_receipts p;
     pj_observation_receipts := pj_observation_receipts p;
     pj_internal_receipts := pj_internal_receipts p;
     pj_provider_entry_windows := pj_provider_entry_windows p; pj_outbox := pj_outbox p;
     pj_late_observations := m;
     pj_provider_settlement_epoch := pj_provider_settlement_epoch p |}.
Definition set_pj_provider_entry_windows (m : gmap string json) (p : Projection) : Projection :=
  {| pj_work_orders := pj_work_orders p; pj_command_receipts := pj_command_receipts p;
     pj_observation_receipts := pj_observation_receipts p;
     pj_internal_receipts := pj_internal_receipts p; pj_provider_entry_windows := m;
     pj_outbox := pj_outbox p; pj_late_observations := pj_late_observations p;
     pj_provider_settlement_epoch := pj_provider_settlement_epoch p |}.
Definition set_pj_provider_settlement_epoch (e : option json) (p : Projection) : Projection :=
  {| pj_work_orders := pj_work_orders p; pj_command_receipts := pj_command_receipts p;
     pj_observation_receipts := pj_observation_receipts p;
     pj_internal_receipts := pj_internal_receipts p;
     pj_provider_entry_windows := pj_provider_entry_windows p; pj_outbox := pj_outbox p;
     pj_late_observations := pj_late_observations p; pj_provider_settlement_epoch := e |}.

(** [projection[mapName]] *)
Definition receipts (m : ReceiptMap) (p : Projection) : gmap string Receipt :=
  match m with
  | CommandReceipts => pj_command_receipts p
  | ObservationReceipts => pj_observation_receipts p
  | InternalReceipts => pj_internal_receipts p
  end.
(** [{ ...projection, [mapName]: withMapEntry(projection[mapName], id, receipt) }] *)
Definition add_receipt (m : ReceiptMap) (id : string) (r : Receipt) (p : Projection) : Projection :=
  let put k := if decide (m = k) then <[id := r]> (receipts k p) else receipts k p in
  {| pj_work_orders := pj_work_orders p; pj_command_receipts := put CommandReceipts;
     pj_observation_receipts := put ObservationReceipts;
     pj_internal_receipts := put InternalReceipts;
     pj_provider_entry_windows := pj_provider_entry_windows p; pj_outbox := pj_outbox p;
     pj_late_observations := pj_late_observations p;
     pj_provider_settlement_epoch := pj_provider_settlement_epoch p |}.

Definition wo_id (w : WorkOrder) : string := st_work_order_id (wo_state w).

Definition replaceWorkOrder (p : Projection) (w : WorkOrder) : Projection :=
  set_pj_work_orders (<[wo_id w := w]> (pj_work_orders p)) p.

(** [{ ...workOrder, branches: withMapEntry(workOrder.branches, branch.branch_ref, branch) }] *)
Definition with_branch (b : Branch) (w : WorkOrder) : WorkOrder :=
  set_wo_state (set_st_branches (<[br_branch_ref b := b]> (st_branches (wo_state w)))
    (wo_state w)) w.

Definition replaceBranch (p : Projection) (w : WorkOrder) (b : Branch) : Projection :=
  replaceWorkOrder p (with_branch b w).

(** The entry of an effect in the outbox. *)
Definition put_effect (p : Projection) (e : Effect) : Projection :=
  set_pj_outbox (<[fx_effect_id e := e]> (pj_outbox p)) p.

(** ** JSON forms *)

(** Every field of a stored effect; the ones a contract-1 effect lacks are absent. *)
Definition effect_fields (e : Effect) : fields :=
  filter (λ kv, kv.1 ∈ immutable_fields e) (effect_identity_fields (fx_identity e)) ++
  [("status", enum_json (fx_status e));
   ("lease", opt_json (λ l, JObj
     [("lease_id", JStr (ls_lease_id l)); ("owner_id", JStr (ls_owner_id l));
      ("generation", JInt (ls_generation l)); ("claimed_at", timestamp_json (ls_claimed_at l));
      ("heartbeat_at", timestamp_json (ls_heartbeat_at l));
      ("expires_at", timestamp_json (ls_expires_at l))]) (fx_lease e));
   ("delivery", opt_json (λ d, JObj (effect_delivery_fields d)) (fx_delivery e));
   ("lease_generation", JInt (fx_lease_generation e));
   ("last_lease_id", opt_json JStr (fx_last_lease_id e));
   ("updated_at", timestamp_json (fx_updated_at e))] ++
  (if fx_v2 e then
     [("fencing_history", JArr (map fencing_token_json (fx_fencing_history e)));
      ("settlement_policy", opt_json settlement_policy_json (fx_settlement_policy e))]
   else []) ++
  match fx_packet_receipt e with
  | Some r => [("packet_verification_receipt", opt_json (λ j, j) r)]
  | None => []
  end ++
  match fx_last_delivery_reason e with
  | Some r => [("last_delivery_reason", JStr r)]
  | None => []
  end.
Definition effect_json (e : Effect) : json := JObj (effect_fields e).

(** [effect[field]], [undefined] for a field the effect lacks. *)
Definition effect_field (e : Effect) (k : string) : json := get k (effect_fields e).

(** [Object.fromEntries(fields.map((field) => [field, effect[field]]))] *)
Definition effect_identity (names : list string) (e : Effect) : json :=
  JObj (map (λ k, (k, effect_field e k)) names).

Definition attempt_record_json (a : AttemptRecord) : json :=
  JObj [("attempt", JInt (at_attempt a)); ("dispatch_id", opt_json JStr (at_dispatch_id a));
        ("state", enum_json (at_state a)); ("delivery", opt_json delivery_state_json (at_delivery a));
        ("result", opt_json result_json (at_result a));
        ("finished_at", opt_json timestamp_json (at_finished_at a))].

Definition resolved_user_input_json (r : ResolvedUserInput) : json :=
  JObj [("request_id", JStr (ru_request_id r)); ("response_ref", content_ref_json (ru_response_ref r));
        ("resolved_at", timestamp_json (ru_resolved_at r))].

Definition branch_json (b : Branch) (x : BranchExtra) : json :=
  JObj (branch_fields b ++
    [("attempt_history", map_json attempt_record_json (bx_attempt_history x));
     ("last_resolved_user_input",
       opt_json resolved_user_input_json (bx_last_resolved_user_input x))]).

Definition late_observation_json (l : LateObservation) : json :=
  JObj [("observation", observation_json (lo_observation l)); ("reason", JStr (lo_reason l));
        ("artifact_refs", JArr (map content_ref_json (lo_artifact_refs l)));
        ("evidence_refs", str_list_json (lo_evidence_refs l));
        ("quarantined_at", timestamp_json (lo_quarantined_at l))].

Definition effect_binding_json (effect_id : string) (kind : EffectKind) (branch_ref : string)
    (attempt : Z) (dispatch_id key : string) : json :=
  JObj [("effect_id", JStr effect_id); ("effect_contract_version", JInt 2);
        ("effect_kind", enum_json kind); ("branch_ref", JStr branch_ref);
        ("attempt", JInt attempt); ("dispatch_id", JStr dispatch_id);
        ("mutation_idempotency_key", JStr key)].

Definition settlement_bundle_json (s : SettlementBundle) : json :=
  JObj [("bundle_schema_version", JInt 1); ("settlement_contract_version", JInt 2);
        ("cutover_id", JStr (bn_cutover_id s));
        ("observation_name", enum_json (bn_observation_name s));
        ("effect_binding", effect_binding_json (bn_effect_id s) (bn_effect_kind s)
          (bn_branch_ref s) (bn_attempt s) (bn_dispatch_id s) (bn_mutation_idempotency_key s));
        ("ingress_kind", JStr (bn_ingress_kind s));
        ("provenance_ref", content_ref_json (bn_provenance_ref s));
        ("effective_classification", enum_json (bn_effective_classification s));
        ("settlement_policy_hash", opt_json JStr (bn_settlement_policy_hash s));
        ("domain_event_manifest_hash", JStr (bn_domain_event_manifest_hash s))].

Definition receipt_json (r : Receipt) : json :=
  JObj ([("source_id", JStr (rc_source_id r)); ("source_type", enum_json (rc_source_type r));
         ("identity_hash", JStr (rc_identity_hash r)); ("payload_hash", JStr (rc_payload_hash r));
         ("work_order_id", JStr (rc_work_order_id r));
         ("applied_revision", JInt (rc_applied_revision r)); ("batch_id", JStr (rc_batch_id r));
         ("event_ids", str_list_json (rc_event_ids r)); ("result", rc_result r)] ++
        match rc_settlement_bundle r with
        | Some s => [("settlement_bundle", settlement_bundle_json s)]
        | None => []
        end ++ [("event_hashes", map_json JStr (rc_event_hashes r))]).

(** ** Lookups *)

(** [findReceipt(projection, sourceId)] *)
Definition findReceipt (p : Projection) (sourceId : string) : res (option (ReceiptMap * Receipt)) :=
  match omap (λ m, pair m <$> receipts m p !! sourceId)
    [CommandReceipts; ObservationReceipts; InternalReceipts] with
  | [] => Ok None
  | [m] => Ok (Some m)
  | _ => fail "BUSINESS_PROJECTION_ID_CONFLICT"
  end.

(** [findPendingSource(projection, sourceId)] *)
Definition findPendingSource (p : Projection) (sourceId : string) : res (option WorkOrder) :=
  match filter (λ w, pn_source_id <$> wo_pending w = Some sourceId)
    (map snd (map_to_list (pj_work_orders p))) with
  | [] => Ok None
  | [w] => Ok (Some w)
  | _ => fail "BUSINESS_PROJECTION_ID_CONFLICT"
  end.

Definition workOrderEngineContractVersion (w : WorkOrder) : res Z :=
  let version := st_engine_contract_version (wo_state w) in
  refuse negb (version =? 1)%Z && negb (version =? 2)%Z with "BUSINESS_PROJECTION_VERSION" in
  Ok version.

Definition requireWorkOrder (p : Projection) (b : Binding) : res WorkOrder :=
  match pj_work_orders p !! bd_work_order_id b with
  | Some w => Ok w
  | None => fail "BUSINESS_PROJECTION_WORK_ORDER_MISSING"
  end.

Definition requireBranch (w : WorkOrder) (branchRef : json) : res Branch :=
  let* normalized := portableRef branchRef in
  match st_branches (wo_state w) !! normalized with
  | Some b => Ok b
  | None => fail "BUSINESS_PROJECTION_BRANCH_MISSING"
  end.

(** [workOrder.branches[ref]]'s projector-only part. *)
Definition extra_of (w : WorkOrder) (ref : string) : BranchExtra :=
  default no_extra (wo_extra w !! ref).

Section Gates.
Context `{Sha256}.

Definition requireLifecycleSnapshot (p : Projection) (w : WorkOrder) : res LifecycleSnapshot :=
  match let* snapshot := deriveLifecycleSnapshot (wo_state w) (pj_outbox p)
          (st_attention (wo_state w)) in assertLifecycleInvariants snapshot with
  | Err (BusinessLifecycleInvariantError _) => fail "BUSINESS_PROJECTION_RECEIPT_BINDING"
  | r => r
  end.

(** [workOrder.plan.integration_branch_ref || workOrder.plan.branches[0].branch_ref] *)
Definition finalBranchRef (s : State) : res string :=
  match pl_integration_branch_ref (st_plan s) with
  | Some ref => Ok ref
  | None => match pl_branches (st_plan s) with b :: _ => Ok (pb_branch_ref b) | [] => Err TypeError end
  end.

Definition branch_list (s : State) : list Branch := map snd (map_to_list (st_branches s)).

Definition allBranchesAccepted (s : State) : bool :=
  (length (branch_list s) =? length (pl_branches (st_plan s)))%nat
  && forallb (λ b, bool_decide (br_state b = BAccepted)) (branch_list s).

Definition is_assignee (s : State) (actor_id : string) : bool :=
  includes (map pb_assignee_ref (pl_branches (st_plan s))) actor_id.

(** The number of distinct reviewers of the current final result, [-1] when there is no result or
    a review of it is not clean. *)
Definition acceptedReviewCount (s : State) : res Z :=
  let* ref := finalBranchRef s in
  match st_branches s !! ref ≫= br_result with
  | None => Ok (-1)%Z
  | Some result =>
      let* hash := canonicalHash (result_json result) in
      let current := filter (λ r, rv_result_hash r = hash)
        (map snd (map_to_list (st_reviews s))) in
      if existsb (λ r, negb (bool_decide (rv_status r = DecAccepted))
          || negb (rf_critical (rv_findings r) =? 0)%Z
          || negb (rf_important (rv_findings r) =? 0)%Z
          || is_assignee s (rv_reviewer_ref r)) current
      then Ok (-1)%Z
      else Ok (Z.of_nat (length (remove_dups (map rv_reviewer_ref current))))
  end.

Definition requiredReviews (s : State) : Z :=
  REVIEW_COUNTS (ap_review_minimum (pl_acceptance_policy (st_plan s))).

Definition assertAwaitingAcceptanceGates (s : State) : res unit :=
  let* reviewCount := acceptedReviewCount s in
  refuse is_none (st_context_budget s) || negb (allBranchesAccepted s)
      || existsb att_open (map snd (map_to_list (st_attention s)))
      || (reviewCount <? requiredReviews s)%Z
    with "BUSINESS_PROJECTION_ACCEPTANCE_GATES" in
  Ok tt.

Definition criterion_of (s : State) (id : string) : option AcceptanceCriterion :=
  head (filter (λ c, ac_criterion_id c = id) (ap_criteria (pl_acceptance_policy (st_plan s)))).

Definition requirement_met (records : gmap string VerificationRecord)
    (r : VerificationRequirement) : bool :=
  match records !! cr_id (vr_verification_ref r) with
  | Some record =>
      bool_decide (ve_status record = VsPassed) && bool_decide (ve_kind record = vr_kind r)
      && bool_decide (ve_verification_ref record = vr_verification_ref r)
  | None => false
  end.

(** [branchVerificationComplete(workOrder, branch)] *)
Definition branchVerificationComplete (s : State) (b : Branch) : bool :=
  negb (is_none (br_result b)) &&
  forallb (λ id, match criterion_of s id with
    | None => false
    | Some criterion =>
        forallb (requirement_met (default ∅ (br_verification_by_criterion b !! id)))
          (ac_verification_requirements criterion)
    end) (br_required_criterion_ids b).
End Gates.
