(* ===== verification/ProjectorInput.v ===== *)
(** Inputs ([packages/business-orchestrator/src/projector.js], lines 637-977): the events of one
    atomic batch belong to one source and move the Work Order by one revision at most, and while
    an input is incomplete no other may enter.

    The batch an event comes from is plain JSON, [undefined] when the event comes alone. *)

From Stdlib Require Import ZArith Lia String.
From stdpp Require Import base tactics list strings option gmap.
From S2P Require Import Prelude JsString JsDate Json SettlementPolicy ContractBase PlanContract.
From S2P Require Import Envelope WorkOrderState WorkOrderFacts WorkOrderEffects Outbox Lifecycle.
From S2P Require Import ProjectorBase Projection.

(** [batchContext.events], when the context has an array of them. *)
Definition batch_events (batchContext : json) : option (list json) :=
  match prop "events" batchContext with JArr l => Some l | _ => None end.

Definition normalizedBatchId (batchContext : json) : res (option string) :=
  match batchContext with
  | JUndef | JNull => Ok None
  | _ =>
      let* fs := object batchContext in
      if negb (has_own fs "batch_id") then Ok None
      else let* id := portableRef (get "batch_id" fs) in Ok (Some id)
  end.

(** The observation an event retains. *)
Definition nested_observation (payload : fields) : json :=
  or_json (get "observation" payload) (prop "observation" (get "record" payload)).

Definition nestedObservationName (e : PEvent) : option string :=
  match prop "name" (nested_observation (pe_payload e)) with
  | JStr name => Some name
  | _ => None
  end.

Definition named (names : list ObservationName) (name : string) : bool :=
  includes (map enum_str names) name.

(** [events.slice(0, -1)] *)
Definition domain_events {A} (events : list A) : list A := removelast events.

Definition is_some {A} (o : option A) : bool := negb (is_none o).

(** [validateProviderSettlementBatchRoute(projection, events, sourceType)] *)
Definition validateProviderSettlementBatchRoute (p : Projection) (events : list PEvent)
    (sourceType : SourceType) : res unit :=
  let domainEvents := domain_events events in
  let observationNames := omap nestedObservationName domainEvents in
  let currentNames := filter (λ n, named PROVIDER_SETTLEMENT_CURRENT_OBSERVATIONS n = true)
    observationNames in
  let legacyNames := filter (λ n, named PROVIDER_SETTLEMENT_LEGACY_OBSERVATIONS n = true)
    observationNames in
  let sensitive := negb (bool_decide (currentNames = [])) || negb (bool_decide (legacyNames = []))
    || existsb (λ e, among PROVIDER_SETTLEMENT_SENSITIVE_EVENTS (pe_type e)) domainEvents in
  let activated := is_some (pj_provider_settlement_epoch p) in
  match sourceType with
  | SSettlement =>
      refuse negb activated with "BUSINESS_PROJECTION_PROVIDER_SETTLEMENT_CUTOVER" in
      refuse negb sensitive || bool_decide (currentNames = []) || negb (bool_decide (legacyNames = []))
        with "BUSINESS_PROJECTION_PROVIDER_SETTLEMENT_ROUTE" in
      refuse negb (length (remove_dups currentNames) =? 1)%nat
          || existsb (λ n, negb (named PROVIDER_SETTLEMENT_CURRENT_OBSERVATIONS n))
               observationNames
        with "BUSINESS_PROJECTION_PROVIDER_SETTLEMENT_ROUTE" in
      Ok tt
  | _ =>
      refuse activated && sensitive with "BUSINESS_PROJECTION_PROVIDER_SETTLEMENT_ROUTE" in
      Ok tt
  end.

(** The revision window of a source: an internal action does not advance the Work Order. *)
Definition expected_target (s : SourceType) (prior : Z) : Z :=
  match s with SInternal => prior | _ => prior + 1 end%Z.

(** Do two payloads carry the same common fields? *)
Definition same_binding (l r : fields) : bool :=
  forallb (λ k, strict_eq (get k l) (get k r)) COMMON_PAYLOAD_FIELDS.

Definition validateAtomicBatchStart (p : Projection) (event : PEvent) (batchContext : json)
    : res (option SourceType) :=
  match batch_events batchContext with
  | None => Ok None
  | Some entries =>
      refuse (length entries <? 2)%nat || (513 <? length entries)%nat
        with "BUSINESS_PROJECTION_RECEIPT_BINDING" in
      let* events := mapR normalizeEvent entries in
      match events, last events with
      | first :: rest, Some receipt =>
          if negb (String.eqb (pe_event_id first) (pe_event_id event)) then Ok None
          else match receiptSourceType (pe_type receipt) with
          | None => fail "BUSINESS_PROJECTION_RECEIPT_BINDING"
          | Some sourceType =>
              refuse existsb (λ e, is_some (receiptSourceType (pe_type e))) (domain_events events)
                with "BUSINESS_PROJECTION_RECEIPT_BINDING" in
              let binding := pe_payload first in
              refuse existsb (λ e, negb (same_binding (pe_payload e) binding)) rest
                with "BUSINESS_PROJECTION_RECEIPT_BINDING" in
              let* _ := forR (λ e, assertEventAllowedForSource (pe_type e) sourceType)
                (domain_events events) in
              let* _ := validateProviderSettlementBatchRoute p events sourceType in
              match pe_binding first with
              | None => fail "BUSINESS_PROJECTION_REVISION"   (* not reached: no source allows it *)
              | Some b =>
                  refuse negb (bd_target_revision b
                      =? expected_target sourceType (bd_prior_revision b))%Z
                    with "BUSINESS_PROJECTION_REVISION" in
                  Ok (Some sourceType)
              end
          end
      | _, _ => Ok None
      end
  end.

(** ** The input an event belongs to *)

Record Begun := {
  bg_projection : Projection;
  bg_duplicate : bool;
  bg_batch_id : option string;
}.

Section Begin.
Context `{Sha256}.

Definition event_hash (e : PEvent) : res string := canonicalHash (pevent_json e).

(** The event joins the pending input. *)
Definition join_pending (pending : Pending) (e : PEvent) (hash : string) : Pending :=
  {| pn_source_id := pn_source_id pending; pn_source_type := pn_source_type pending;
     pn_prior_revision := pn_prior_revision pending;
     pn_target_revision := pn_target_revision pending; pn_occurred_at := pn_occurred_at pending;
     pn_batch_id := pn_batch_id pending; pn_event_ids := pn_event_ids pending ++ [pe_event_id e];
     pn_event_types := pn_event_types pending ++ [pe_type e];
     pn_event_hashes := <[pe_event_id e := hash]> (pn_event_hashes pending) |}.

(** The event opens an input. *)
Definition new_pending (b : Binding) (source : SourceType) (batchId : option string) (e : PEvent)
    (hash : string) : Pending :=
  {| pn_source_id := bd_source_id b; pn_source_type := source;
     pn_prior_revision := bd_prior_revision b; pn_target_revision := bd_target_revision b;
     pn_occurred_at := bd_occurred_at b; pn_batch_id := batchId; pn_event_ids := [pe_event_id e];
     pn_event_types := [pe_type e]; pn_event_hashes := {[pe_event_id e := hash]} |}.

Definition set_st_revision (v : Z) (s : State) : State :=
  {| st_work_order_id := st_work_order_id s;
     st_engine_contract_version := st_engine_contract_version s;
     st_plan_snapshot_ref := st_plan_snapshot_ref s; st_plan_hash := st_plan_hash s;
     st_plan := st_plan s; st_revision := v; st_status := st_status s;
     st_created_at := st_created_at s; st_started_at := st_started_at s;
     st_deadline_at := st_deadline_at s; st_stop_reason := st_stop_reason s;
     st_branches := st_branches s; st_attention := st_attention s;
     st_context_budget := st_context_budget s; st_reviews := st_reviews s;
     st_decision := st_decision s; st_decision_history := st_decision_history s |}.

(** An input is being projected: only its own events may come. *)
Definition continueInput (p : Projection) (w : WorkOrder) (pending : Pending) (e : PEvent)
    (b : Binding) (batchId : option string) : res Begun :=
  refuse negb (String.eqb (pn_source_id pending) (bd_source_id b))
      || negb (pn_prior_revision pending =? bd_prior_revision b)%Z
      || negb (pn_target_revision pending =? bd_target_revision b)%Z
      || negb (pn_occurred_at pending =? bd_occurred_at b)%Z
      || match pn_batch_id pending, batchId with
         | Some l, Some r => negb (String.eqb l r)
         | _, _ => false
         end
    with "BUSINESS_PROJECTION_REVISION" in
  let eventSourceType := receiptSourceType (pe_type e) in
  refuse among TERMINAL_WORK_ORDER_STATES (st_status (wo_state w)) && is_none eventSourceType
    with "BUSINESS_PROJECTION_TRANSITION" in
  let* _ := match eventSourceType with
    | Some source =>
        refuse negb (bool_decide (pn_source_type pending = source))
          with "BUSINESS_PROJECTION_SOURCE_CLASS" in
        forR (λ t, assertEventAllowedForSource t source) (pn_event_types pending)
    | None => assertEventAllowedForSource (pe_type e) (pn_source_type pending)
    end in
  let* incomingHash := event_hash e in
  match pn_event_hashes pending !! pe_event_id e with
  | Some known =>
      refuse negb (String.eqb known incomingHash) with "BUSINESS_PROJECTION_ID_CONFLICT" in
      Ok {| bg_projection := p; bg_duplicate := true; bg_batch_id := batchId |}
  | None =>
      Ok {| bg_projection := replaceWorkOrder p
              (set_wo_pending (Some (join_pending pending e incomingHash)) w);
            bg_duplicate := false; bg_batch_id := batchId |}
  end.

(** No input is being projected: the event opens one, which moves the revision. *)
Definition openInput (p : Projection) (w : WorkOrder) (e : PEvent) (b : Binding)
    (batchId : option string) (batchSourceType : option SourceType) : res Begun :=
  let s := wo_state w in
  refuse among TERMINAL_WORK_ORDER_STATES (st_status s)
      && negb (bool_decide (pe_type e = ELateObservation))
    with "BUSINESS_PROJECTION_TRANSITION" in
  match match batchSourceType with Some t => Some t | None => inferSourceType (pe_type e) end with
  | None => fail "BUSINESS_PROJECTION_SOURCE_CLASS"
  | Some sourceType =>
      let* _ := assertEventAllowedForSource (pe_type e) sourceType in
      let expectedTarget := expected_target sourceType (st_revision s) in
      refuse negb (bd_prior_revision b =? st_revision s)%Z
          || negb (bd_target_revision b =? expectedTarget)%Z
        with "BUSINESS_PROJECTION_REVISION" in
      let* hash := event_hash e in
      Ok {| bg_projection := replaceWorkOrder p
              (set_wo_pending (Some (new_pending b sourceType batchId e hash))
                (set_wo_state (set_st_revision expectedTarget s) w));
            bg_duplicate := false; bg_batch_id := batchId |}
  end.

(** The source was received before: only a repetition of one of its events is accepted. *)
Definition repeatInput (p : Projection) (receipt : Receipt) (e : PEvent) (b : Binding)
    (batchId : option string) : res Begun :=
  let* incomingHash := event_hash e in
  refuse is_none (pj_work_orders p !! bd_work_order_id b)
      || negb (String.eqb (rc_work_order_id receipt) (bd_work_order_id b))
      || negb (bool_decide (rc_event_hashes receipt !! pe_event_id e = Some incomingHash))
    with "BUSINESS_PROJECTION_ID_CONFLICT" in
  Ok {| bg_projection := p; bg_duplicate := true; bg_batch_id := batchId |}.

(** The Work Order does not exist: the event must create it. *)
Definition createInput (p : Projection) (e : PEvent) (b : Binding) (batchId : option string)
    (batchSourceType : option SourceType) : res Begun :=
  refuse negb (bool_decide (pe_type e = EWorkOrderCreated))
    with "BUSINESS_PROJECTION_WORK_ORDER_MISSING" in
  refuse negb (bd_prior_revision b =? 0)%Z || negb (bd_target_revision b =? 1)%Z
    with "BUSINESS_PROJECTION_REVISION" in
  refuse negb (bool_decide
      (match batchSourceType with Some t => Some t | None => inferSourceType (pe_type e) end
       = Some SCommand))
    with "BUSINESS_PROJECTION_SOURCE_CLASS" in
  Ok {| bg_projection := p; bg_duplicate := false; bg_batch_id := batchId |}.

Definition beginInput (p : Projection) (e : PEvent) (b : Binding) (batchContext : json)
    (batchSourceType : option SourceType) : res Begun :=
  let* batchId := normalizedBatchId batchContext in
  let* receiptMatch := findReceipt p (bd_source_id b) in
  match receiptMatch with
  | Some (_, receipt) => repeatInput p receipt e b batchId
  | None =>
      let* pendingElsewhere := findPendingSource p (bd_source_id b) in
      refuse match pendingElsewhere with
             | Some w => negb (String.eqb (wo_id w) (bd_work_order_id b))
             | None => false
             end
        with "BUSINESS_PROJECTION_ID_CONFLICT" in
      match pj_work_orders p !! bd_work_order_id b with
      | None => createInput p e b batchId batchSourceType
      | Some w =>
          let* _ := workOrderEngineContractVersion w in
          let s := wo_state w in
          refuse negb (String.eqb (st_plan_snapshot_ref s) (bd_plan_snapshot_ref b))
              || negb (String.eqb (st_plan_hash s) (bd_plan_hash b))
            with "BUSINESS_PROJECTION_PLAN_BINDING" in
          refuse (bd_occurred_at b <? st_created_at s)%Z with INVALID in
          match wo_pending w with
          | Some pending => continueInput p w pending e b batchId
          | None => openInput p w e b batchId batchSourceType
          end
      end
  end.
End Begin.
