(* ===== verification/ProjectorWorkOrder.v ===== *)
(** Reducers of the Work Order and its branches
    ([packages/business-orchestrator/src/projector.js], lines 1065-1717 and 4852-4935): creation,
    status changes, the context budget, branches, attempts and attention. *)

From Stdlib Require Import ZArith Lia String.
From stdpp Require Import base tactics list strings option gmap.
From S2P Require Import Prelude JsString JsDate Json SettlementPolicy ContractBase PlanContract.
From S2P Require Import Envelope WorkOrderState WorkOrderFacts WorkOrderEffects Outbox Lifecycle.
From S2P Require Import ProjectorBase Projection ProjectorInput.
Import CONTRACT_LIMITS.

(** [same] of two runtime identities: [null], or the normalised record, whose JSON form
    determines it. *)
Definition same_identity (l r : option RuntimeIdentity) : bool := bool_decide (l = r).

(** [effect.delivery?.classification === c] *)
Definition delivered_with (c : Classification) (e : Effect) : bool :=
  bool_decide (ed_classification <$> fx_delivery e = Some c).
(** [same(effect.delivery.runtime_identity, identity)], a [TypeError] without a delivery. *)
Definition same_delivered_identity (e : Effect) (i : option RuntimeIdentity) : res bool :=
  match fx_delivery e with
  | Some d => Ok (same_identity (ed_runtime_identity d) i)
  | None => Err TypeError
  end.
Definition effects (p : Projection) : list Effect := map snd (map_to_list (pj_outbox p)).
(** [id === null ? null : projection.outbox[id]] *)
Definition effect_at (p : Projection) (id : option string) : option Effect :=
  id ≫= λ id, pj_outbox p !! id.

(** [executionWindowElapsed(workOrder, branch, occurredAt)] *)
Definition executionWindowElapsed (s : State) (b : Branch) (occurredAt : Z) : bool :=
  match br_attempt_deadline_at b with
  | None => true
  | Some deadline => (deadline <=? occurredAt)%Z || (st_deadline_at s <=? occurredAt)%Z
  end.

(** [assertEffectMatchesEngineContract(workOrder, effect)] *)
Definition assertEffectMatchesEngineContract (w : WorkOrder) (e : Effect) : res unit :=
  let* version := workOrderEngineContractVersion w in
  refuse negb (fx_version e =? version)%Z with "BUSINESS_PROJECTION_VERSION" in Ok tt.

(** [assertWorkOrderEffectContracts(projection, workOrder)] *)
Definition assertWorkOrderEffectContracts (p : Projection) (w : WorkOrder) : res unit :=
  let* version := workOrderEngineContractVersion w in
  refuse existsb (λ e, String.eqb (fx_work_order_id e) (wo_id w)
      && negb (fx_version e =? version)%Z) (effects p) with "BUSINESS_PROJECTION_VERSION" in
  Ok tt.

Section Reducers.
Context `{Sha256} (e : PEvent) (b : Binding).

(** ** The Work Order *)

Definition check_derived_fields (payload : fields) : res unit :=
  refuse has_own payload "revision" && negb (is_int (get "revision" payload) 1) with INVALID in
  refuse has_own payload "status" && negb (is_str (get "status" payload) "starting")
    with INVALID in
  if has_own payload "created_at" then
    let* created := timestamp (get "created_at" payload) in
    refuse negb (created =? bd_occurred_at b)%Z with INVALID in Ok tt
  else Ok tt.

Definition created_state (plan : Plan) (version deadline : Z) : State :=
  {| st_work_order_id := bd_work_order_id b; st_engine_contract_version := version;
     st_plan_snapshot_ref := bd_plan_snapshot_ref b; st_plan_hash := bd_plan_hash b;
     st_plan := plan; st_revision := 1; st_status := WStarting; st_created_at := bd_occurred_at b;
     st_started_at := None; st_deadline_at := deadline; st_stop_reason := None; st_branches := ∅;
     st_attention := ∅; st_context_budget := None; st_reviews := ∅; st_decision := None;
     st_decision_history := Some [] |}.

Definition created_pending (batchId : option string) (hash : string) : Pending :=
  {| pn_source_id := bd_source_id b; pn_source_type := SCommand; pn_prior_revision := 0;
     pn_target_revision := 1; pn_occurred_at := bd_occurred_at b; pn_batch_id := batchId;
     pn_event_ids := [pe_event_id e]; pn_event_types := [pe_type e];
     pn_event_hashes := {[pe_event_id e := hash]} |}.

Definition reduceWorkOrderCreated (p : Projection) (batchId : option string) : res Projection :=
  let* payload := requireSpecificFields e
    ["plan"; "deadline_at"; "engine_contract_version"; "revision"; "status"; "created_at"]
    ["plan"; "deadline_at"] in
  match normalizeBusinessWorkOrderPlanV1 (get "plan" payload) with
  | Err _ => fail INVALID
  | Ok plan =>
      refuse negb (String.eqb (pl_plan_snapshot_id plan) (bd_plan_snapshot_ref b))
          || negb (String.eqb (pl_plan_hash plan) (bd_plan_hash b))
        with "BUSINESS_PROJECTION_PLAN_BINDING" in
      let* deadlineAt := timestamp (get "deadline_at" payload) in
      refuse (deadlineAt <=? bd_occurred_at b)%Z with INVALID in
      let* _ := check_derived_fields payload in
      let* version := if has_own payload "engine_contract_version"
        then integer (get "engine_contract_version" payload) 1 2 else Ok 1%Z in
      let* hash := event_hash e in
      Ok (replaceWorkOrder p
        {| wo_state := created_state plan version deadlineAt; wo_extra := ∅;
           wo_pending := Some (created_pending batchId hash) |})
  end.

Definition decided_as (d : Decision2) (s : State) : bool :=
  bool_decide (ar_decision <$> st_decision s = Some d).

Definition reduceWorkOrderStatus (p : Projection) : res Projection :=
  let* payload := requireSpecificFields e ["from"; "to"; "reason"] ["from"; "to"; "reason"] in
  let* w := requireWorkOrder p b in
  let s := wo_state w in
  let* from := enumeration (get "from" payload) (@enum_all WorkOrderStatus _) in
  let* to := enumeration (get "to" payload) (@enum_all WorkOrderStatus _) in
  refuse negb (bool_decide (st_status s = from)) || negb (among (WORK_ORDER_TRANSITIONS from) to)
    with "BUSINESS_PROJECTION_TRANSITION" in
  refuse among TERMINAL_WORK_ORDER_STATES (st_status s) with "BUSINESS_PROJECTION_TRANSITION" in
  let* reason := normalizeReason (get "reason" payload) in
  let* _ := if bool_decide (to = WAwaitingAcceptance) then assertAwaitingAcceptanceGates s
    else Ok tt in
  let* _ := if bool_decide (to = WAccepted) then
      let* _ := assertAwaitingAcceptanceGates s in
      refuse negb (decided_as DecAccepted s) with "BUSINESS_PROJECTION_ACCEPTANCE_GATES" in Ok tt
    else Ok tt in
  refuse bool_decide (from = WAwaitingAcceptance) && bool_decide (to = WPaused)
      && negb (decided_as DecRejected s) with "BUSINESS_PROJECTION_ACCEPTANCE_GATES" in
  let s := set_st_stop_reason
    (if among TERMINAL_WORK_ORDER_STATES to || bool_decide (to = WCancelling)
     then Some reason else st_stop_reason s)
    (set_st_started_at
      (if bool_decide (to = WRunning) && is_none (st_started_at s)
       then Some (bd_occurred_at b) else st_started_at s)
      (set_st_status to s)) in
  Ok (replaceWorkOrder p (set_wo_state s w)).

Definition set_st_context_budget (v : option ContextBudget) (s : State) : State :=
  {| st_work_order_id := st_work_order_id s;
     st_engine_contract_version := st_engine_contract_version s;
     st_plan_snapshot_ref := st_plan_snapshot_ref s; st_plan_hash := st_plan_hash s;
     st_plan := st_plan s; st_revision := st_revision s; st_status := st_status s;
     st_created_at := st_created_at s; st_started_at := st_started_at s;
     st_deadline_at := st_deadline_at s; st_stop_reason := st_stop_reason s;
     st_branches := st_branches s; st_attention := st_attention s; st_context_budget := v;
     st_reviews := st_reviews s; st_decision := st_decision s;
     st_decision_history := st_decision_history s |}.

Definition CONTEXT_BUDGET_FIELDS : list string :=
  ["budget_tokens"; "duplicate_context_tokens"; "evidence_refs"].

Definition normalizeContextBudgetReceipt (value : json) (plan : Plan) : res ContextBudget :=
  let* receipt := exact value CONTEXT_BUDGET_FIELDS CONTEXT_BUDGET_FIELDS in
  let* budget := integer (get "budget_tokens" receipt) 0 100000000 in
  let* duplicate := integer (get "duplicate_context_tokens" receipt) 0 100000000 in
  refuse negb (budget =? pl_context_duplication_budget_tokens plan)%Z
      || (budget <? duplicate)%Z with INVALID in
  let* evidence := evidenceRefs (get "evidence_refs" receipt) in
  Ok {| cb_budget_tokens := budget; cb_duplicate_context_tokens := duplicate;
        cb_evidence_refs := evidence |}.

Definition reduceContextBudget (p : Projection) : res Projection :=
  let* payload := requireSpecificFields e ["receipt"] ["receipt"] in
  let* w := requireWorkOrder p b in
  let s := wo_state w in
  let* receipt := normalizeContextBudgetReceipt (get "receipt" payload) (st_plan s) in
  match st_context_budget s with
  | Some existing =>
      let* equal := same (context_budget_json existing) (context_budget_json receipt) in
      refuse negb equal with "BUSINESS_PROJECTION_ID_CONFLICT" in Ok p
  | None => Ok (replaceWorkOrder p (set_wo_state (set_st_context_budget (Some receipt) s) w))
  end.

(** ** Branches *)

(** The branch literal of [reduceBranchInitialized]. *)
Definition initialized_branch (planned : PlanBranch) (criteria : list string)
    (state : BranchState) : Branch :=
  {| br_planned := planned; br_required_criterion_ids := criteria; br_state := state;
     br_attempt := 0; br_dispatch_id := None; br_packet_ref := None;
     br_attempt_started_at := None; br_attempt_deadline_at := None; br_retry_at := None;
     br_delivery := None; br_runtime_identity := None; br_thread_identity := None;
     br_open_user_input := None; br_pending_user_input_effect_id := None;
     br_pending_user_input_response_ref := None; br_result := None;
     br_verification_by_criterion := ∅; br_last_progress_at := None; br_finished_at := None;
     br_thread_create_effect_id := None; br_thread_create_delivery_hash := None;
     br_turn_start_effect_id := None; br_turn_start_delivery_hash := None;
     br_cancel_effect_id := None; br_last_transition_reason := None;
     br_last_runtime_observation := None |}.

Definition reduceBranchInitialized (p : Projection) : res Projection :=
  let names := ["branch"; "state"; "required_criterion_ids"] in
  let* payload := requireSpecificFields e names names in
  let* w := requireWorkOrder p b in
  let s := wo_state w in
  let* definition := object (get "branch" payload) in
  let* branchRef := portableRef (get "branch_ref" definition) in
  match branch_by_ref (pl_branches (st_plan s)) branchRef with
  | None => fail "BUSINESS_PROJECTION_PLAN_BINDING"
  | Some planned =>
      let* equal := same (plan_branch_json planned) (JObj definition) in
      refuse negb equal with "BUSINESS_PROJECTION_PLAN_BINDING" in
      let* state := enumeration (get "state" payload) [BBlocked; BReady] in
      let* ids := stringArray (get "required_criterion_ids" payload) 1 max_acceptance_criteria in
      let criteria := sort_text ids in
      let planCriterionIds :=
        sort_text (map ac_criterion_id (ap_criteria (pl_acceptance_policy (st_plan s)))) in
      refuse existsb (λ id, negb (includes planCriterionIds id)) criteria
          || (bool_decide (pb_role planned = RoleIntegration)
              && negb (bool_decide (criteria = planCriterionIds)))
        with "BUSINESS_PROJECTION_PLAN_BINDING" in
      let branch := initialized_branch planned criteria state in
      match st_branches s !! branchRef with
      | Some existing =>
          let* equal := same (branch_json existing (extra_of w branchRef))
            (branch_json branch no_extra) in
          refuse negb equal with "BUSINESS_PROJECTION_ID_CONFLICT" in Ok p
      | None =>
          Ok (replaceWorkOrder p
            (set_wo_extra (<[branchRef := no_extra]> (wo_extra w))
              (set_wo_state (set_st_branches (<[branchRef := branch]> (st_branches s)) s) w)))
      end
  end.

(** [dispatchIdInUse(workOrder, dispatchId)] *)
Definition dispatchIdInUse (w : WorkOrder) (dispatchId : string) : bool :=
  existsb (λ kb,
    bool_decide (br_dispatch_id kb.2 = Some dispatchId)
    || existsb (λ ka, bool_decide (at_dispatch_id ka.2 = Some dispatchId))
         (map_to_list (bx_attempt_history (extra_of w kb.1))))
    (map_to_list (st_branches (wo_state w))).

(** The record of the attempt a branch leaves. *)
Definition attempt_record (branch : Branch) : AttemptRecord :=
  {| at_attempt := br_attempt branch; at_dispatch_id := br_dispatch_id branch;
     at_state := br_state branch; at_delivery := br_delivery branch;
     at_result := br_result branch; at_finished_at := br_finished_at branch |}.

Definition attempt_history (w : WorkOrder) (branch : Branch) : gmap string AttemptRecord :=
  let history := bx_attempt_history (extra_of w (br_branch_ref branch)) in
  if (0 <? br_attempt branch)%Z
  then <[pretty.pretty (br_attempt branch) := attempt_record branch]> history else history.

(** The branch literal of [reduceAttemptOpened]. *)
Definition opened_branch (branch : Branch) (attempt : Z) (dispatchId : string)
    (packetRef : ContentRef) (startedAt deadlineAt : Z) : Branch :=
  {| br_planned := br_planned branch;
     br_required_criterion_ids := br_required_criterion_ids branch; br_state := BDispatchPending;
     br_attempt := attempt; br_dispatch_id := Some dispatchId; br_packet_ref := Some packetRef;
     br_attempt_started_at := Some startedAt; br_attempt_deadline_at := Some deadlineAt;
     br_retry_at := None; br_delivery := None; br_runtime_identity := None;
     br_thread_identity := None; br_open_user_input := None;
     br_pending_user_input_effect_id := None; br_pending_user_input_response_ref := None;
     br_result := None; br_verification_by_criterion := ∅; br_last_progress_at := None;
     br_finished_at := None; br_thread_create_effect_id := None;
     br_thread_create_delivery_hash := None; br_turn_start_effect_id := None;
     br_turn_start_delivery_hash := None; br_cancel_effect_id := None;
     br_last_transition_reason := br_last_transition_reason branch;
     br_last_runtime_observation := None |}.

(** No earlier provider mutation of the branch is unresolved. *)
Definition require_resolved (p : Projection) (w : WorkOrder) (branch : Branch) : res unit :=
  let* version := workOrderEngineContractVersion w in
  if (version =? 2)%Z then
    let* snapshot := requireLifecycleSnapshot p w in
    match snapshot_branch snapshot (br_branch_ref branch) with
    | None => Err TypeError
    | Some lifecycle =>
        refuse negb (bool_decide (bs_unresolved_effect_ids lifecycle = []))
          with "BUSINESS_PROJECTION_TRANSITION" in Ok tt
    end
  else Ok tt.

Definition reduceAttemptOpened (p : Projection) : res Projection :=
  let required := ["branch_ref"; "attempt"; "dispatch_id"; "attempt_started_at";
    "attempt_deadline_at"; "packet_ref"] in
  let* payload := requireSpecificFields e (required ++ ["packet_hash"; "retry_at"]) required in
  let* w := requireWorkOrder p b in
  let s := wo_state w in
  let* branch := requireBranch w (get "branch_ref" payload) in
  refuse negb (among [BReady; BRetryable; BFailed] (br_state branch))
    with "BUSINESS_PROJECTION_TRANSITION" in
  let* _ := require_resolved p w branch in
  let* attempt := integer (get "attempt" payload) 1 (rp_max_attempts (pl_retry_policy (st_plan s))) in
  refuse negb (attempt =? br_attempt branch + 1)%Z with "BUSINESS_PROJECTION_TRANSITION" in
  let* dispatchId := portableRef (get "dispatch_id" payload) in
  refuse dispatchIdInUse w dispatchId with "BUSINESS_PROJECTION_ID_CONFLICT" in
  let* startedAt := timestamp (get "attempt_started_at" payload) in
  let* deadlineAt := timestamp (get "attempt_deadline_at" payload) in
  refuse (deadlineAt <=? startedAt)%Z || (st_deadline_at s <? deadlineAt)%Z with INVALID in
  let* packetRef := contentRef (get "packet_ref" payload) in
  let* _ := if has_own payload "packet_hash" then
      let* hash := sha256 (get "packet_hash" payload) in
      refuse negb (String.eqb hash (cr_hash packetRef))
        with "BUSINESS_PROJECTION_PLAN_BINDING" in Ok tt
    else Ok tt in
  refuse has_own payload "retry_at" && negb (is_null (get "retry_at" payload)) with INVALID in
  let ref := br_branch_ref branch in
  let extra := {| bx_attempt_history := attempt_history w branch;
    bx_last_resolved_user_input := bx_last_resolved_user_input (extra_of w ref) |} in
  Ok (replaceBranch p (set_wo_extra (<[ref := extra]> (wo_extra w)) w)
    (opened_branch branch attempt dispatchId packetRef startedAt deadlineAt)).
End Reducers.
