(* ===== verification/ProjectorBranch.v ===== *)
(** Reducers of branch states and attention
    ([packages/business-orchestrator/src/projector.js], lines 1461-1717 and 4852-4935). *)

From Stdlib Require Import ZArith Lia String.
From stdpp Require Import base tactics list strings option gmap.
From S2P Require Import Prelude JsString JsDate Json SettlementPolicy ContractBase PlanContract.
From S2P Require Import Envelope WorkOrderState WorkOrderFacts WorkOrderEffects Outbox Lifecycle.
From S2P Require Import ProjectorBase Projection ProjectorInput ProjectorWorkOrder.
Import CONTRACT_LIMITS.

(** A contract-2 effect of the kind. *)
Definition v2_kind (k : EffectKind) (e : Effect) : bool := fx_v2 e && has_kind k e.
Definition has_status (st : EffectStatus) (e : Effect) : bool := bool_decide (fx_status e = st).

Section Turns.
Context `{Sha256}.

Definition same_target (e : Effect) (i : option RuntimeIdentity) : bool :=
  same_identity (ef_target_runtime_identity (fx_identity e)) i.
(** [effect.predecessor_effect_id === id && effect.predecessor_delivery_hash === hash] *)
Definition succeeds (e : Effect) (id hash : option string) : bool :=
  bool_decide (ef_predecessor_effect_id (fx_identity e) = id)
  && bool_decide (ef_predecessor_delivery_hash (fx_identity e) = hash).
(** [hash === effectDeliveryHash(effect)] *)
Definition delivery_hash_is (e : Effect) (hash : option string) : res bool :=
  let* h := effectDeliveryHash e in Ok (bool_decide (hash = h)).

Definition acceptedCurrentTurn (p : Projection) (s : State) (branch : Branch) : res bool :=
  if negb (bool_decide (de_classification <$> br_delivery branch = Some CAccepted))
     || is_none (br_runtime_identity branch) then Ok false
  else match effect_at p (br_turn_start_effect_id branch) with
  | None => Ok false
  | Some e =>
      negR (orR [
        Ok (negb (v2_kind TurnStart e)); Ok (negb (effectMatchesCurrentAttempt e s branch));
        Ok (negb (has_status FsDelivered e)); Ok (negb (delivered_with CAccepted e));
        negR (same_delivered_identity e (br_runtime_identity branch));
        Ok (negb (same_target e (br_thread_identity branch)));
        Ok (negb (succeeds e (br_thread_create_effect_id branch)
          (br_thread_create_delivery_hash branch)));
        negR (delivery_hash_is e (br_turn_start_delivery_hash branch))])
  end.

Definition acceptedThreadWithoutTurnAfterDeadline (p : Projection) (s : State) (branch : Branch)
    (occurredAt : Z) : res bool :=
  match effect_at p (br_thread_create_effect_id branch) with
  | None => Ok false
  | Some e =>
      let* missing := orR [
        Ok (negb (v2_kind ThreadCreate e)); Ok (negb (effectMatchesCurrentAttempt e s branch));
        Ok (negb (has_status FsDelivered e)); Ok (negb (delivered_with CAccepted e));
        negR (same_delivered_identity e (br_thread_identity branch));
        Ok (negb (succeeds e None None)); Ok (negb (same_target e None));
        negR (delivery_hash_is e (br_thread_create_delivery_hash branch));
        Ok (negb (is_none (br_turn_start_effect_id branch)));
        Ok (existsb (λ c, fx_v2 c && effectMatchesCurrentAttempt c s branch
          && has_kind TurnStart c) (effects p))] in
      if missing then Ok false else Ok (executionWindowElapsed s branch occurredAt)
  end.
End Turns.

Definition open_attention_of (s : State) (branch : Branch) (kinds : list string)
    (p : Attention → bool) : bool :=
  existsb (λ ka, att_open ka.2 && bool_decide (att_branch_ref ka.2 = Some (br_branch_ref branch))
    && includes kinds (att_kind ka.2) && p ka.2) (map_to_list (st_attention s)).

Definition hasOpenCancelAttention (s : State) (branch : Branch) : bool :=
  open_attention_of s branch
    ["cancel_requires_runtime_identity"; "cancel_requires_dispatch_reconciliation";
     "cancel_not_sent"] (λ _, true).

Definition hasOpenDeliveryReconciliationAttention (s : State) (branch : Branch) (e : Effect) : bool :=
  open_attention_of s branch
    ["delivery_unknown"; "timeout_requires_reconciliation";
     "cancel_requires_dispatch_reconciliation"]
    (λ a, bool_decide (att_effect_id a = Some (fx_effect_id e))).

Definition ACTIVE_CANCEL_EFFECT_STATES : list EffectStatus :=
  V2_UNRESOLVED_EFFECT_STATUSES ++ [FsDelivered].

Definition exactCurrentCancelEffect (p : Projection) (s : State) (branch : Branch) : res bool :=
  match effect_at p (br_cancel_effect_id branch) with
  | None => Ok false
  | Some e =>
      if negb (v2_kind TurnCancel e) || negb (effectMatchesCurrentAttempt e s branch)
         || negb (among ACTIVE_CANCEL_EFFECT_STATES (fx_status e))
         || negb (succeeds e (br_turn_start_effect_id branch) (br_turn_start_delivery_hash branch))
         || negb (same_target e (br_runtime_identity branch)) then Ok false
      else match fx_status e with
      | FsDelivered =>
          if delivered_with CAccepted e
          then same_delivered_identity e (br_runtime_identity branch) else Ok false
      | FsDeliveryUnknown => Ok (delivered_with CDeliveryUnknown e)
      | _ => Ok (is_none (fx_delivery e))
      end
  end.

Section Reducers.
Context `{Sha256} (e : PEvent) (b : Binding).

(** ** The state of a branch *)

(** The one contract-1 submission an answer may resolve. *)
Definition legacy_resolution (p : Projection) (w : WorkOrder) (branch : Branch) : res bool :=
  let inputs := filter (λ c, negb (fx_v2 c) && effectMatchesCurrentAttempt c (wo_state w) branch
      && has_kind UserInputSubmit c && has_status FsPending c
      && (ef_created_at (fx_identity c) =? bd_occurred_at b)%Z = true) (effects p) in
  if is_none (br_pending_user_input_effect_id branch)
     && is_none (br_pending_user_input_response_ref branch)
  then let* version := workOrderEngineContractVersion w in
       Ok ((version =? 1)%Z && (length inputs =? 1)%nat)
  else Ok false.

(** The pending submission was delivered to the turn of the branch. *)
Definition durable_resolution (p : Projection) (w : WorkOrder) (branch : Branch) : res bool :=
  match effect_at p (br_pending_user_input_effect_id branch) with
  | None => Ok false
  | Some c =>
      if fx_v2 c && effectMatchesCurrentAttempt c (wo_state w) branch && has_kind UserInputSubmit c
         && has_status FsDelivered c && delivered_with CAccepted c
      then same_delivered_identity c (br_runtime_identity branch) else Ok false
  end.

(** The answer that moves a branch from waiting to running. *)
Definition resolve_user_input (p : Projection) (w : WorkOrder) (branch : Branch) (payload : fields)
    : res ResolvedUserInput :=
  let* legacy := legacy_resolution p w branch in
  let* durable := durable_resolution p w branch in
  refuse executionWindowElapsed (wo_state w) branch (bd_occurred_at b)
    with "BUSINESS_PROJECTION_TRANSITION" in
  refuse negb (has_own payload "resolved_request_id") || negb (has_own payload "response_ref")
    with "BUSINESS_PROJECTION_TRANSITION" in
  match br_open_user_input branch with
  | None => fail "BUSINESS_PROJECTION_TRANSITION"
  | Some open =>
      let* requestId := portableRef (get "resolved_request_id" payload) in
      refuse negb (String.eqb requestId (oui_request_id open))
        with "BUSINESS_PROJECTION_TRANSITION" in
      let* unbound := if legacy then Ok false else
        match br_pending_user_input_response_ref branch with
        | Some expected =>
            if negb durable || is_none (br_pending_user_input_effect_id branch) then Ok true
            else let* response := contentRef (get "response_ref" payload) in
                 Ok (negb (bool_decide (response = expected)))
        | None => Ok true
        end in
      refuse unbound with "BUSINESS_PROJECTION_TRANSITION" in
      let* response := contentRef (get "response_ref" payload) in
      Ok {| ru_request_id := oui_request_id open; ru_response_ref := response;
            ru_resolved_at := bd_occurred_at b |}
  end.

(** The retry time of a transition. *)
Definition transition_retry_at (s : State) (to : BranchState) (payload : fields)
    : res (option Z) :=
  match to with
  | BRetryable =>
      refuse negb (has_own payload "retry_at") with INVALID in
      let* retryAt := timestamp (get "retry_at" payload) in
      refuse (retryAt <? bd_occurred_at b)%Z || (st_deadline_at s <=? retryAt)%Z with INVALID in
      Ok (Some retryAt)
  | _ => refuse has_own payload "retry_at" with INVALID in Ok None
  end.

(** What a branch needs to be accepted. *)
Definition assertBranchAcceptance (s : State) (branch : Branch) : res unit :=
  refuse negb (branchVerificationComplete s branch) with "BUSINESS_PROJECTION_ACCEPTANCE_GATES" in
  let* final := finalBranchRef s in
  if String.eqb (br_branch_ref branch) final then
    let* reviews := acceptedReviewCount s in
    refuse (reviews <? requiredReviews s)%Z with "BUSINESS_PROJECTION_ACCEPTANCE_GATES" in
    Ok tt
  else Ok tt.

(** The branch after the transition. *)
Definition moved_branch (branch : Branch) (from to : BranchState) (retryAt : option Z)
    (reason : string) : Branch :=
  let resolves := bool_decide (from = BWaitingForUser) && bool_decide (to = BRunning) in
  let abandons := bool_decide (from = BWaitingForUser)
    && is_none (br_pending_user_input_effect_id branch)
    && (bool_decide (to = BCancelling) || among TERMINAL_BRANCH_STATES to) in
  set_br_pending_user_input_response_ref
    (if resolves then None else br_pending_user_input_response_ref branch)
    (set_br_pending_user_input_effect_id
      (if resolves then None else br_pending_user_input_effect_id branch)
      (set_br_open_user_input
        (if resolves || abandons then None else br_open_user_input branch)
        (set_br_last_transition_reason (Some reason)
          (set_br_finished_at
            (if among TERMINAL_BRANCH_STATES to then Some (bd_occurred_at b) else None)
            (set_br_retry_at retryAt (set_br_state to branch)))))).

Definition reduceBranchStatus (p : Projection) : res Projection :=
  let required := ["branch_ref"; "from"; "to"; "reason"] in
  let* payload := requireSpecificFields e
    (required ++ ["retry_at"; "resolved_request_id"; "response_ref"]) required in
  let* w := requireWorkOrder p b in
  let s := wo_state w in
  let* branch := requireBranch w (get "branch_ref" payload) in
  let* from := enumeration (get "from" payload) (@enum_all BranchState _) in
  let* to := enumeration (get "to" payload) (@enum_all BranchState _) in
  refuse negb (bool_decide (br_state branch = from)) || negb (among (BRANCH_TRANSITIONS from) to)
    with "BUSINESS_PROJECTION_TRANSITION" in
  let* premature :=
    if bool_decide (from = BDispatchPending) && bool_decide (to = BFailed)
       && negb (bool_decide (de_classification <$> br_delivery branch = Some CNotSent))
    then negR (acceptedThreadWithoutTurnAfterDeadline p s branch (bd_occurred_at b))
    else Ok false in
  refuse premature with "BUSINESS_PROJECTION_TRANSITION" in
  let* reason := normalizeReason (get "reason" payload) in
  let* resolved :=
    if bool_decide (from = BWaitingForUser) && bool_decide (to = BRunning) then
      let* r := resolve_user_input p w branch payload in Ok (Some r)
    else
      refuse has_own payload "resolved_request_id" || has_own payload "response_ref"
        with INVALID in Ok None in
  let* retryAt := transition_retry_at s to payload in
  let* _ := if bool_decide (to = BAccepted) then assertBranchAcceptance s branch else Ok tt in
  let ref := br_branch_ref branch in
  let x := extra_of w ref in
  let extra := {| bx_attempt_history := bx_attempt_history x;
    bx_last_resolved_user_input := match resolved with
      | Some r => Some r | None => bx_last_resolved_user_input x end |} in
  Ok (replaceBranch p (set_wo_extra (<[ref := extra]> (wo_extra w)) w)
    (moved_branch branch from to retryAt reason)).

(** ** Attention *)

Definition ATTENTION_FIELDS : list string :=
  ["attention_id"; "kind"; "branch_ref"; "detail_ref"; "evidence_refs"; "opened_at"].

Definition normalizeAttention (value : json) : res Attention :=
  let* a := exact value ("effect_id" :: ATTENTION_FIELDS) ATTENTION_FIELDS in
  let* attention_id := portableRef (get "attention_id" a) in
  let* kind := portableRef (get "kind" a) in
  let* branch_ref := nullOr portableRef (get "branch_ref" a) in
  let* effect_id := optionalField portableRef (get "effect_id" a) in
  let* detail_ref := contentRef (get "detail_ref" a) in
  let* evidence_refs := evidenceRefs (get "evidence_refs" a) in
  let* opened_at := timestamp (get "opened_at" a) in
  refuse negb (opened_at =? bd_occurred_at b)%Z with INVALID in
  Ok {| att_attention_id := attention_id; att_kind := kind; att_branch_ref := branch_ref;
        att_effect_id := effect_id; att_detail_ref := detail_ref;
        att_evidence_refs := evidence_refs; att_opened_at := opened_at; att_resolution := None |}.

Definition reduceAttentionOpened (p : Projection) : res Projection :=
  let* payload := requireSpecificFields e ["attention"] ["attention"] in
  let* w := requireWorkOrder p b in
  let s := wo_state w in
  let* attention := normalizeAttention (get "attention" payload) in
  let* _ := match att_branch_ref attention with
    | Some ref => let* _ := requireBranch w (JStr ref) in Ok tt
    | None => Ok tt
    end in
  refuse match att_effect_id attention with
         | None => false
         | Some id =>
             match pj_outbox p !! id with
             | None => true
             | Some effect => negb (String.eqb (fx_work_order_id effect) (wo_id w))
                 || negb (bool_decide (Some (fx_branch_ref effect) = att_branch_ref attention))
             end
         end with "BUSINESS_PROJECTION_OUTBOX_BINDING" in
  match st_attention s !! att_attention_id attention with
  | Some existing =>
      let* equal := same (attention_json existing) (attention_json attention) in
      refuse negb equal with "BUSINESS_PROJECTION_ID_CONFLICT" in Ok p
  | None =>
      Ok (replaceWorkOrder p (set_wo_state
        (set_st_attention (<[att_attention_id attention := attention]> (st_attention s)) s) w))
  end.

Definition resolve (r : Resolution) (a : Attention) : Attention :=
  {| att_attention_id := att_attention_id a; att_kind := att_kind a;
     att_branch_ref := att_branch_ref a; att_effect_id := att_effect_id a;
     att_detail_ref := att_detail_ref a; att_evidence_refs := att_evidence_refs a;
     att_opened_at := att_opened_at a; att_resolution := Some r |}.

Definition reduceAttentionResolved (p : Projection) : res Projection :=
  let names := ["attention_id"; "resolution_ref"; "evidence_refs"] in
  let* payload := requireSpecificFields e names names in
  let* w := requireWorkOrder p b in
  let s := wo_state w in
  let* attentionId := portableRef (get "attention_id" payload) in
  match st_attention s !! attentionId with
  | None => fail "BUSINESS_PROJECTION_ATTENTION_MISSING"
  | Some attention =>
      refuse negb (att_open attention) with "BUSINESS_PROJECTION_TRANSITION" in
      let* resolution_ref := contentRef (get "resolution_ref" payload) in
      let* evidence := evidenceRefs (get "evidence_refs" payload) in
      Ok (replaceWorkOrder p (set_wo_state (set_st_attention
        (<[attentionId := resolve {| re_resolution_ref := resolution_ref;
             re_evidence_refs := evidence; re_resolved_at := bd_occurred_at b |} attention]>
          (st_attention s)) s) w))
  end.
End Reducers.
