(* ===== verification/ProjectorObserve.v ===== *)
(** Reducers of observations ([packages/business-orchestrator/src/projector.js], lines 1719-2525):
    runtime facts, verifications, reviews, the decision of the user, recovery probes and
    quarantined observations. *)

From Stdlib Require Import ZArith Lia String.
From stdpp Require Import base tactics list strings option gmap.
From S2P Require Import Prelude JsString JsDate Json SettlementPolicy ContractBase PlanContract.
From S2P Require Import Envelope WorkOrderState WorkOrderFacts WorkOrderEffects Outbox Lifecycle.
From S2P Require Import ProjectorBase Projection ProjectorInput ProjectorWorkOrder.
From S2P Require Import ProjectorBranch.
Import CONTRACT_LIMITS.

Abbreviation OUTBOX_BINDING := "BUSINESS_PROJECTION_OUTBOX_BINDING" (only parsing).
Abbreviation SETTLEMENT_POLICY := "BUSINESS_PROJECTION_SETTLEMENT_POLICY" (only parsing).

(** [immutableEffectMatches(current, candidate)] *)
Definition immutableEffectMatches (current : Effect) (candidate : fields) : res bool :=
  negR (orR (flat_map (λ k,
    [Ok (negb (has_own candidate k)); negR (same (effect_field current k) (get k candidate))])
    (immutable_fields current))).

(** What a settlement policy must agree with: [observation.payload.effect_kind], and the source
    and classification the name of the observation implies. *)
Record PolicyScope := {
  ps_effect_kind : json;
  ps_settlement_source : json;
  ps_classification : json;
}.

Definition policy_scope (name : ObservationName) (effectKind source classification : json)
    : PolicyScope :=
  {| ps_effect_kind := effectKind;
     ps_settlement_source := match name with
       | NSendExpiry | NPresendFailure => enum_json ControlPlane
       | _ => source end;
     ps_classification := match name with
       | NSendExpiry => enum_json CDeliveryUnknown
       | NPresendFailure => enum_json CNotSent
       | _ => classification end |}.

(** [normalizeSettlementPolicyRecord(value, observation)] *)
Definition normalizeSettlementPolicyRecord (value : json) (scope : PolicyScope)
    : res SettlementPolicy :=
  match cloneJson value MAX_EVENT_BYTES with
  | Err _ => fail SETTLEMENT_POLICY
  | Ok record =>
      match normalizeSettlementPolicyRecordV2 record with
      | Err _ => fail SETTLEMENT_POLICY
      | Ok derived =>
          let* equal := same record (settlement_policy_json derived) in
          refuse negb equal
              || negb (strict_eq (enum_json (sp_effect_kind derived)) (ps_effect_kind scope))
              || negb (strict_eq (enum_json (sp_settlement_source derived))
                   (ps_settlement_source scope))
              || negb (strict_eq (enum_json (sp_classification derived)) (ps_classification scope))
            with SETTLEMENT_POLICY in
          Ok derived
      end
  end.

Definition undef_or {A} (f : A → json) (o : option A) : json :=
  match o with Some a => f a | None => JUndef end.

(** The scope of a normalised observation. *)
Definition observation_scope (o : ObservationEnvelope) : PolicyScope :=
  policy_scope (observation_name o)
    (undef_or (λ eb, enum_json (eb_effect_kind eb)) (payload_binding (oe_payload o)))
    (undef_or enum_json (payload_settlement_source (oe_payload o)))
    (undef_or enum_json (payload_classification (oe_payload o))).

(** The branch states in which an observation may change a branch. *)
Definition allowed_states (name : ObservationName) : list BranchState :=
  match name with
  | NSettlement | NSendExpiry | NDeliveryRecorded =>
      [BDispatchPending; BDeliveryUnknown; BWaitingForUser; BCancelling]
  | NPresendFailure => [BDispatchPending; BWaitingForUser; BCancelling]
  | NDispatchAccepted | NDispatchNotSent => [BDispatchPending; BDeliveryUnknown]
  | NProgress => [BRunning; BWaitingForUser; BCancelling]
  | NResultSubmitted => [BRunning]
  | NFailed => [BRunning; BWaitingForUser; BVerifying; BCancelling]
  | NTimedOut => [BDispatchPending; BRunning; BWaitingForUser]
  | NDeliveryUnknown => [BDispatchPending; BRunning; BDeliveryUnknown]
  | NBranchCancelled => [BCancelling]
  | NUserInputRequested => [BRunning]
  | NRateLimited | NUnavailable =>
      [BDispatchPending; BRunning; BWaitingForUser; BDeliveryUnknown]
  | NStarted | NCancelled | NVerification | NReview => []
  end.

(** The classification of a delivery observation. *)
Definition deliveryClassification (o : ObservationEnvelope) : option Classification :=
  match observation_name o with
  | NSendExpiry => Some CDeliveryUnknown
  | NPresendFailure => Some CNotSent
  | NDeliveryRecorded | NSettlement => payload_classification (oe_payload o)
  | NDispatchAccepted => Some CAccepted
  | NDispatchNotSent => Some CNotSent
  | NDeliveryUnknown => Some CDeliveryUnknown
  | _ => None
  end.

Definition expectedStatus (c : Classification) : EffectStatus :=
  match c with
  | CAccepted => FsDelivered | CNotSent => FsNotSent | CDeliveryUnknown => FsDeliveryUnknown end.

(** A delivery observation that names its effect. *)
Definition names_effect (name : ObservationName) : bool :=
  among [NDeliveryRecorded; NSettlement; NSendExpiry; NPresendFailure] name.

Section Reducers.
Context `{Sha256} (e : PEvent) (b : Binding).

Definition normalizeObservationFromEvent (value : json) : res ObservationEnvelope :=
  match normalizeBusinessRuntimeObservationEnvelope value with
  | Err _ => fail INVALID
  | Ok o =>
      refuse negb (String.eqb (oe_observation_id o) (bd_source_id b))
          || negb (String.eqb (ei_work_order_id (oe_identity o)) (bd_work_order_id b))
          || negb (String.eqb (ei_plan_snapshot_ref (oe_identity o)) (bd_plan_snapshot_ref b))
          || negb (String.eqb (ei_plan_hash (oe_identity o)) (bd_plan_hash b))
        with "BUSINESS_PROJECTION_PLAN_BINDING" in
      Ok o
  end.

(** ** Recovery probes *)

Definition LEDGER_FIELDS : list string :=
  ["version"; "effect_id"; "probe_receipt_ref"; "mutation_idempotency_key"; "classification";
   "settlement_policy"].

Definition recovery_probe_of (o : ObservationEnvelope) : option (Classification * RecoveryProbeReceipt) :=
  match oe_payload o with
  | SettlementPayload _ c (ProbeEvidence probe) => Some (c, probe)
  | _ => None
  end.

Definition reduceRecoveryProbeRecorded (p : Projection) : res Projection :=
  let names := ["observation"; "effect"; "recovery_probe_ledger"] in
  let* payload := requireSpecificFields e names names in
  let* o := normalizeObservationFromEvent (get "observation" payload) in
  match recovery_probe_of o with
  | None => fail "BUSINESS_PROJECTION_RECOVERY_PROBE"
  | Some (classification, probe) =>
      let* identity := exact (get "effect" payload) V2_EFFECT_IDENTITY_FIELDS
        V2_EFFECT_IDENTITY_FIELDS in
      match match get "effect_id" identity with JStr id => pj_outbox p !! id | _ => None end with
      | None => fail "BUSINESS_PROJECTION_RECOVERY_PROBE"
      | Some effect =>
          let* wrong := orR [Ok (negb (fx_v2 effect)); Ok (negb (has_status FsDeliveryUnknown effect));
            negR (immutableEffectMatches effect identity)] in
          refuse wrong with "BUSINESS_PROJECTION_RECOVERY_PROBE" in
          let* ledger := exact (get "recovery_probe_ledger" payload) LEDGER_FIELDS LEDGER_FIELDS in
          let key := ef_idempotency_key (fx_identity effect) in
          let* unbound := orR [
            Ok (negb (is_int (get "version" ledger) 1));
            Ok (negb (is_str (get "effect_id" ledger) (fx_effect_id effect)));
            (let* ref := contentRef (get "probe_receipt_ref" ledger) in
             Ok (negb (bool_decide (ref = rpr_probe_receipt_ref probe))));
            Ok (negb (is_str (get "mutation_idempotency_key" ledger) key));
            Ok (negb (is_str (get "mutation_idempotency_key" ledger)
              (rpr_mutation_idempotency_key probe)));
            Ok (negb (is_str (get "classification" ledger) (enum_str classification)))] in
          refuse unbound with "BUSINESS_PROJECTION_RECOVERY_PROBE" in
          let* _ := normalizeSettlementPolicyRecord (get "settlement_policy" ledger)
            (observation_scope o) in
          Ok p
      end
  end.

(** ** Runtime facts *)

(** The settlement policy an observation must, or must not, retain. *)
Definition check_policy_record (o : ObservationEnvelope) (payload : fields) : res unit :=
  if among PROVIDER_SETTLEMENT_CURRENT_OBSERVATIONS (observation_name o) then
    refuse negb (has_own payload "settlement_policy") with SETTLEMENT_POLICY in
    let* _ := normalizeSettlementPolicyRecord (get "settlement_policy" payload)
      (observation_scope o) in
    Ok tt
  else refuse has_own payload "settlement_policy" with SETTLEMENT_POLICY in Ok tt.

(** The observation is one of the current attempt, in a state that admits it. *)
Definition check_current (s : State) (branch : Branch) (o : ObservationEnvelope) : res unit :=
  refuse negb (among (allowed_states (observation_name o)) (br_state branch))
    with "BUSINESS_PROJECTION_TRANSITION" in
  refuse match payload_attempt (oe_payload o) with
         | Some a => negb (a =? br_attempt branch)%Z | None => false end
    with "BUSINESS_PROJECTION_TRANSITION" in
  refuse match payload_dispatch_id (oe_payload o) with
         | Some d => negb (bool_decide (Some d = br_dispatch_id branch)) | None => false end
    with "BUSINESS_PROJECTION_TRANSITION" in
  refuse among EXECUTION_WINDOW_OBSERVATIONS (observation_name o)
      && executionWindowElapsed s branch (bd_occurred_at b)
    with "BUSINESS_PROJECTION_TRANSITION" in
  Ok tt.

(** [recorded_at === occurred_at], or earlier for an ambiguous contract-1 delivery. *)
Definition recorded_in_time (legacy : bool) (c : Classification) (d : EffectDelivery) : bool :=
  (ed_recorded_at d =? bd_occurred_at b)%Z
  || (legacy && bool_decide (c = CDeliveryUnknown) && (ed_recorded_at d <=? bd_occurred_at b)%Z).

Definition legacy_delivery_matches (s : State) (branch : Branch) (c : Classification)
    (identity : option RuntimeIdentity) (candidate : Effect) : bool :=
  negb (fx_v2 candidate) && effectMatchesCurrentAttempt candidate s branch
  && has_kind TurnStart candidate && has_status (expectedStatus c) candidate
  && match fx_delivery candidate with
     | Some d => bool_decide (ed_classification d = c) && recorded_in_time true c d
         && same_identity (ed_runtime_identity d) identity
     | None => false
     end.

(** The effect a delivery observation settles, and whether it is an unannotated contract-1 one. *)
Definition find_delivery_effect (p : Projection) (w : WorkOrder) (branch : Branch)
    (o : ObservationEnvelope) (c : Classification) (identity : option RuntimeIdentity)
    (payload : fields) : res (Effect * bool) :=
  refuse negb (Bool.eqb (has_own payload "delivery_effect_id") (has_own payload "effect_kind"))
    with OUTBOX_BINDING in
  if has_own payload "delivery_effect_id" then
    let* id := portableRef (get "delivery_effect_id" payload) in
    let* kind := enumeration (get "effect_kind" payload) (@enum_all EffectKind _) in
    match pj_outbox p !! id with
    | Some effect =>
        refuse negb (has_kind kind effect) with OUTBOX_BINDING in Ok (effect, false)
    | None => fail OUTBOX_BINDING
    end
  else
    refuse names_effect (observation_name o) with OUTBOX_BINDING in
    let* version := workOrderEngineContractVersion w in
    refuse (version =? 2)%Z with OUTBOX_BINDING in
    match filter (λ x, legacy_delivery_matches (wo_state w) branch c identity x = true)
      (effects p) with
    | [effect] => Ok (effect, true)
    | _ => fail OUTBOX_BINDING
    end.

(** The effect carries the delivery the observation reports. *)
Definition delivery_binds (branch : Branch) (c : Classification)
    (identity : option RuntimeIdentity) (effect : Effect) (legacy : bool) : bool :=
  has_status (expectedStatus c) effect
  && String.eqb (fx_branch_ref effect) (br_branch_ref branch)
  && (fx_attempt effect =? br_attempt branch)%Z
  && bool_decide (fx_dispatch_id effect = br_dispatch_id branch)
  && match fx_delivery effect with
     | Some d => bool_decide (ed_classification d = c) && recorded_in_time legacy c d
         && same_identity (ed_runtime_identity d) identity
     | None => false
     end.

(** The payload of the observation names this effect. *)
Definition payload_names_effect (o : ObservationEnvelope) (effect : Effect) : bool :=
  if names_effect (observation_name o) then
    match payload_binding (oe_payload o) with
    | Some eb => String.eqb (eb_effect_id eb) (fx_effect_id effect) && fx_v2 effect
        && has_kind (eb_effect_kind eb) effect
    | None => false
    end
  else has_kind TurnStart effect.

(** The effect belongs to the provider stage the branch is in. *)
Definition check_stage (branch : Branch) (c : Classification) (effect : Effect) (legacy : bool)
    : res unit :=
  refuse negb legacy && has_kind ThreadCreate effect
      && (negb (is_none (br_thread_create_effect_id branch))
          || negb (is_none (br_thread_identity branch)))
    with OUTBOX_BINDING in
  refuse negb legacy && has_kind TurnStart effect
      && (negb (is_none (br_turn_start_effect_id branch))
          || negb (succeeds effect (br_thread_create_effect_id branch)
               (br_thread_create_delivery_hash branch))
          || negb (same_target effect (br_thread_identity branch)))
    with OUTBOX_BINDING in
  refuse has_kind UserInputSubmit effect
      && negb (bool_decide (br_pending_user_input_effect_id branch = Some (fx_effect_id effect)))
    with OUTBOX_BINDING in
  refuse has_kind TurnCancel effect
      && (negb (bool_decide (br_state branch = BCancelling))
          || (negb (bool_decide (br_cancel_effect_id branch = Some (fx_effect_id effect)))
              && negb (bool_decide (c = CNotSent) && is_none (br_cancel_effect_id branch)))
          || negb (same_target effect (br_runtime_identity branch)))
    with OUTBOX_BINDING in
  Ok tt.

(** The settled effect of a delivery observation with the hash of its delivery. *)
Record SettledDelivery := {
  sd_classification : Classification;
  sd_effect : Effect;
  sd_legacy : bool;
  sd_hash : string;
}.

Definition settled_delivery (p : Projection) (w : WorkOrder) (branch : Branch)
    (o : ObservationEnvelope) (identity : option RuntimeIdentity) (payload : fields)
    : res (option SettledDelivery) :=
  match deliveryClassification o with
  | None =>
      refuse has_own payload "delivery_effect_id" || has_own payload "effect_kind"
        with OUTBOX_BINDING in Ok None
  | Some c =>
      let* '(effect, legacy) := find_delivery_effect p w branch o c identity payload in
      refuse negb (delivery_binds branch c identity effect legacy) with OUTBOX_BINDING in
      refuse negb (payload_names_effect o effect) with OUTBOX_BINDING in
      match fx_delivery effect with
      | None => Err TypeError
      | Some d =>
          let* hash := canonicalHash (JObj
            (("effect", effect_identity
                (if legacy then LEGACY_OUTBOX_IMMUTABLE_FIELDS else V2_EFFECT_IDENTITY_FIELDS)
                effect) :: effect_delivery_fields d)) in
          let* _ := check_stage branch c effect legacy in
          Ok (Some {| sd_classification := c; sd_effect := effect; sd_legacy := legacy;
                      sd_hash := hash |})
      end
  end.

Definition legacy_turn_matches (s : State) (branch : Branch) (candidate : Effect) : bool :=
  negb (fx_v2 candidate) && effectMatchesCurrentAttempt candidate s branch
  && has_kind TurnStart candidate && has_status FsDelivered candidate
  && match fx_delivery candidate with
     | Some d => same_identity (ed_runtime_identity d) (br_runtime_identity branch)
     | None => false
     end.

(** A turn-bound observation is bound to the accepted turn of the branch. *)
Definition check_active_turn (p : Projection) (w : WorkOrder) (branch : Branch)
    (o : ObservationEnvelope) (payload : fields) : res unit :=
  let hasEffect := has_own payload "active_turn_effect_id" in
  let hasIdentity := has_own payload "active_runtime_identity" in
  if among TURN_BOUND_OBSERVATIONS (observation_name o) then
    refuse negb (Bool.eqb hasEffect hasIdentity) with OUTBOX_BINDING in
    if hasEffect then
      let* id := portableRef (get "active_turn_effect_id" payload) in
      let* identity := normalizeRuntimeIdentity (get "active_runtime_identity" payload) in
      match pj_outbox p !! id with
      | None => fail OUTBOX_BINDING
      | Some turn =>
          let* unbound := orR [
            Ok (negb (v2_kind TurnStart turn)); Ok (negb (has_status FsDelivered turn));
            Ok (negb (bool_decide (br_turn_start_effect_id branch = Some (fx_effect_id turn))));
            Ok (negb (String.eqb (fx_branch_ref turn) (br_branch_ref branch)));
            Ok (negb (fx_attempt turn =? br_attempt branch)%Z);
            Ok (negb (bool_decide (fx_dispatch_id turn = br_dispatch_id branch)));
            Ok (negb (same_identity identity (br_runtime_identity branch)));
            negR (same_delivered_identity turn identity)] in
          refuse unbound with OUTBOX_BINDING in Ok tt
      end
    else
      let* version := workOrderEngineContractVersion w in
      refuse (version =? 2)%Z with OUTBOX_BINDING in
      refuse negb (length (filter (λ x, legacy_turn_matches (wo_state w) branch x = true)
          (effects p)) =? 1)%nat with OUTBOX_BINDING in
      Ok tt
  else refuse hasEffect || hasIdentity with OUTBOX_BINDING in Ok tt.

Definition delivery_now (c : Classification) : option Delivery :=
  Some {| de_classification := c; de_observed_at := bd_occurred_at b |}.

Definition has_thread (i : option RuntimeIdentity) : bool :=
  match i with Some r => negb (is_none (ri_thread_id r)) | None => false end.
Definition has_turn (i : option RuntimeIdentity) : bool :=
  match i with Some r => negb (is_none (ri_turn_id r)) | None => false end.

(** The user-input submission is gone from the branch. *)
Definition drop_submission (branch : Branch) : Branch :=
  set_br_pending_user_input_response_ref None (set_br_pending_user_input_effect_id None branch).

(** An accepted delivery. *)
Definition apply_accepted (branch : Branch) (identity : option RuntimeIdentity)
    (d : SettledDelivery) : res Branch :=
  let effect := sd_effect d in
  let cancelling := bool_decide (br_state branch = BCancelling) in
  if sd_legacy d then
    Ok (set_br_runtime_identity identity (set_br_delivery (delivery_now CAccepted) branch))
  else if has_kind ThreadCreate effect then
    refuse negb (has_thread identity) || has_turn identity
        || negb (is_none (br_thread_create_effect_id branch))
        || negb (is_none (br_thread_identity branch)) with OUTBOX_BINDING in
    Ok (set_br_thread_create_delivery_hash (Some (sd_hash d))
      (set_br_thread_create_effect_id (Some (fx_effect_id effect))
        (set_br_thread_identity identity (set_br_delivery None branch))))
  else if has_kind TurnStart effect then
    let* unbound := orR [
      Ok (negb (has_thread identity)); Ok (negb (has_turn identity));
      Ok (negb (same_target effect (br_thread_identity branch)));
      match br_thread_identity branch with
      | None => Err TypeError
      | Some t => Ok (negb (bool_decide (identity ≫= ri_thread_id = ri_thread_id t)))
      end;
      Ok (negb (succeeds effect (br_thread_create_effect_id branch)
        (br_thread_create_delivery_hash branch)))] in
    refuse unbound with OUTBOX_BINDING in
    Ok (set_br_turn_start_delivery_hash (Some (sd_hash d))
      (set_br_turn_start_effect_id (Some (fx_effect_id effect))
        (set_br_runtime_identity identity (set_br_delivery (delivery_now CAccepted) branch))))
  else if has_kind UserInputSubmit effect then
    refuse negb (among [BWaitingForUser; BCancelling] (br_state branch))
        || negb (bool_decide (br_pending_user_input_effect_id branch = Some (fx_effect_id effect)))
        || is_none (br_pending_user_input_response_ref branch) || is_none identity
        || negb (same_identity identity (br_runtime_identity branch))
        || negb (same_target effect identity) || is_none (br_open_user_input branch)
      with OUTBOX_BINDING in
    Ok (if cancelling then set_br_open_user_input None (drop_submission branch) else branch)
  else if has_kind TurnCancel effect then
    refuse negb cancelling || is_none identity
        || negb (same_identity identity (br_runtime_identity branch))
        || negb (same_target effect (br_runtime_identity branch)) with OUTBOX_BINDING in
    let* bound := same_delivered_identity effect identity in
    refuse negb bound with OUTBOX_BINDING in
    Ok branch
  else Ok branch.

(** A delivery proven not sent. *)
Definition apply_not_sent (branch : Branch) (d : SettledDelivery) : res Branch :=
  let effect := sd_effect d in
  if has_start_kind effect then Ok (set_br_delivery (delivery_now CNotSent) branch)
  else if has_kind UserInputSubmit effect then
    refuse negb (bool_decide (br_pending_user_input_effect_id branch = Some (fx_effect_id effect)))
        || is_none (br_pending_user_input_response_ref branch) with OUTBOX_BINDING in
    Ok (if bool_decide (br_state branch = BCancelling)
        then set_br_open_user_input None (drop_submission branch) else drop_submission branch)
  else Ok branch.

Definition apply_unknown (branch : Branch) (d : SettledDelivery) : Branch :=
  if has_start_kind (sd_effect d) then set_br_delivery (delivery_now CDeliveryUnknown) branch
  else branch.

(** An observation that is no delivery. *)
Definition apply_fact (branch : Branch) (identity : option RuntimeIdentity)
    (o : ObservationEnvelope) : Branch :=
  match oe_payload o with
  | ProgressPayload _ _ _ => set_br_last_progress_at (Some (bd_occurred_at b)) branch
  | ResultSubmittedPayload _ _ artifacts evidence =>
      set_br_result (Some {| rs_attempt := br_attempt branch; rs_artifact_refs := artifacts;
        rs_evidence_refs := evidence; rs_submitted_at := bd_occurred_at b |}) branch
  | UserInputRequestedPayload _ requestId promptRef =>
      set_br_open_user_input (Some {| oui_request_id := requestId; oui_prompt_ref := promptRef;
        oui_requested_at := bd_occurred_at b |}) branch
  | BranchCancelledPayload _ _ _ =>
      set_br_cancel_effect_id None (set_br_runtime_identity
        (match identity with Some i => Some i | None => br_runtime_identity branch end) branch)
  | _ => branch
  end.

Definition apply_observation (branch : Branch) (identity : option RuntimeIdentity)
    (o : ObservationEnvelope) (delivery : option SettledDelivery) : res Branch :=
  let branch' := set_br_last_runtime_observation (Some o) branch in
  match delivery with
  | None => Ok (apply_fact branch' identity o)
  | Some d =>
      match sd_classification d with
      | CAccepted => apply_accepted branch' identity d
      | CNotSent => apply_not_sent branch' d
      | CDeliveryUnknown => Ok (apply_unknown branch' d)
      end
  end.

Definition reduceRuntimeObserved (p : Projection) : res Projection :=
  let* payload := requireSpecificFields e
    ["observation"; "runtime_identity"; "delivery_effect_id"; "effect_kind";
     "active_turn_effect_id"; "active_runtime_identity"; "settlement_policy"] ["observation"] in
  let* w := requireWorkOrder p b in
  let* o := normalizeObservationFromEvent (get "observation" payload) in
  let* _ := check_policy_record o payload in
  let* identity := if has_own payload "runtime_identity"
    then normalizeRuntimeIdentity (get "runtime_identity" payload) else Ok None in
  match payload_branch_ref (oe_payload o) with
  | None => Ok p
  | Some ref =>
      let* branch := requireBranch w (JStr ref) in
      let* _ := check_current (wo_state w) branch o in
      let* delivery := settled_delivery p w branch o identity payload in
      let* _ := check_active_turn p w branch o payload in
      refuse bool_decide (observation_name o = NTimedOut)
          && match br_attempt_deadline_at branch with
             | Some deadline => (bd_occurred_at b <? deadline)%Z
             | None => true
             end
        with "BUSINESS_PROJECTION_TRANSITION" in
      let* branch := apply_observation branch identity o delivery in
      Ok (replaceBranch p w branch)
  end.
End Reducers.

(** * Reviews and acceptance *)

Import CONTRACT_LIMITS.

Section Reducers.
Context `{Sha256} (e : PEvent) (b : Binding).

(** [canonicalHash(branch.result) !== sha256(payload.result_hash)], on a branch with a result in
    one of the states. *)
Definition check_result (branch : Branch) (states : list BranchState) (resultHash : json)
    : res unit :=
  match br_result branch with
  | None => fail "BUSINESS_PROJECTION_TRANSITION"
  | Some result =>
      refuse negb (among states (br_state branch)) with "BUSINESS_PROJECTION_TRANSITION" in
      let* current := canonicalHash (result_json result) in
      let* supplied := sha256 resultHash in
      refuse negb (String.eqb current supplied) with "BUSINESS_PROJECTION_TRANSITION" in Ok tt
  end.

Definition set_verification (criterionId key : string) (record : VerificationRecord)
    (branch : Branch) : Branch :=
  let byCriterion := default ∅ (br_verification_by_criterion branch !! criterionId) in
  set_br_verification_by_criterion
    (<[criterionId := <[key := record]> byCriterion]> (br_verification_by_criterion branch)) branch.

Definition reduceVerification (p : Projection) : res Projection :=
  let names := ["observation"; "result_hash"] in
  let* payload := requireSpecificFields e names names in
  let* w := requireWorkOrder p b in
  let s := wo_state w in
  let* o := normalizeObservationFromEvent b (get "observation" payload) in
  match oe_payload o with
  | VerificationPayload ref criterionId verificationRef kind status evidence =>
      let* branch := requireBranch w (JStr ref) in
      let* _ := check_result branch [BVerifying] (get "result_hash" payload) in
      refuse negb (includes (br_required_criterion_ids branch) criterionId)
        with "BUSINESS_PROJECTION_PLAN_BINDING" in
      match criterion_of s criterionId ≫= λ c, head (filter
          (λ r, cr_id (vr_verification_ref r) = cr_id verificationRef)
          (ac_verification_requirements c)) with
      | None => fail "BUSINESS_PROJECTION_PLAN_BINDING"
      | Some requirement =>
          refuse negb (bool_decide (vr_kind requirement = kind))
              || negb (bool_decide (vr_verification_ref requirement = verificationRef))
            with "BUSINESS_PROJECTION_PLAN_BINDING" in
          refuse bool_decide (kind = RkHuman) && is_assignee s (act_actor_id (oe_actor o))
            with "BUSINESS_PROJECTION_PLAN_BINDING" in
          let key := cr_id (vr_verification_ref requirement) in
          let record := {| ve_criterion_id := criterionId;
            ve_verification_ref := vr_verification_ref requirement; ve_kind := kind;
            ve_status := status; ve_evidence_refs := evidence;
            ve_verifier_ref := act_actor_id (oe_actor o); ve_recorded_at := bd_occurred_at b |} in
          let* conflict :=
            match br_verification_by_criterion branch !! criterionId ≫= lookup key with
            | Some existing =>
                negR (same (verification_record_json existing) (verification_record_json record))
            | None => Ok false
            end in
          refuse conflict with "BUSINESS_PROJECTION_ID_CONFLICT" in
          Ok (replaceBranch p w (set_verification criterionId key record branch))
      end
  | _ => fail INVALID
  end.

Definition reduceReview (p : Projection) : res Projection :=
  let names := ["observation"; "result_hash"] in
  let* payload := requireSpecificFields e names names in
  let* w := requireWorkOrder p b in
  let s := wo_state w in
  let* o := normalizeObservationFromEvent b (get "observation" payload) in
  match oe_payload o with
  | ReviewPayload ref reviewId status findings evidence =>
      let* branch := requireBranch w (JStr ref) in
      let* _ := check_result branch [BVerifying; BAccepted] (get "result_hash" payload) in
      let* final := finalBranchRef s in
      refuse negb (String.eqb (br_branch_ref branch) final)
          || is_assignee s (act_actor_id (oe_actor o))
        with "BUSINESS_PROJECTION_PLAN_BINDING" in
      let* hash := sha256 (get "result_hash" payload) in
      let record := {| rv_review_id := reviewId; rv_branch_ref := br_branch_ref branch;
        rv_status := status; rv_findings := findings; rv_evidence_refs := evidence;
        rv_reviewer_ref := act_actor_id (oe_actor o); rv_result_hash := hash;
        rv_recorded_at := bd_occurred_at b |} in
      let* conflict := match st_reviews s !! reviewId with
        | Some existing => negR (same (review_json existing) (review_json record))
        | None => Ok false
        end in
      refuse conflict with "BUSINESS_PROJECTION_ID_CONFLICT" in
      Ok (replaceWorkOrder p
        (set_wo_state (set_st_reviews (<[reviewId := record]> (st_reviews s)) s) w))
  | _ => fail INVALID
  end.

(** ** The decision of the user *)

Definition ACCEPTANCE_FIELDS : list string :=
  ["decision"; "evidence_refs"; "comment"; "decided_by"; "decided_at"].

Definition normalizeAcceptanceRecord (value : json) : res AcceptanceRecord :=
  let* record := exact value ACCEPTANCE_FIELDS ACCEPTANCE_FIELDS in
  let* decidedAt := timestamp (get "decided_at" record) in
  refuse negb (decidedAt =? bd_occurred_at b)%Z with INVALID in
  let* decision := enumeration (get "decision" record) [DecAccepted; DecRejected] in
  let* evidence := evidenceRefs (get "evidence_refs" record) in
  let* comment := text (get "comment" record) 8192 in
  let* decidedBy := portableRef (get "decided_by" record) in
  Ok {| ar_decision := decision; ar_evidence_refs := evidence; ar_comment := comment;
        ar_decided_by := decidedBy; ar_decided_at := decidedAt |}.

Definition reduceAcceptance (p : Projection) : res Projection :=
  let* payload := requireSpecificFields e ["record"] ["record"] in
  let* w := requireWorkOrder p b in
  let s := wo_state w in
  refuse negb (bool_decide (st_status s = WAwaitingAcceptance))
    with "BUSINESS_PROJECTION_TRANSITION" in
  let* record := normalizeAcceptanceRecord (get "record" payload) in
  refuse decided_as DecAccepted s with "BUSINESS_PROJECTION_ID_CONFLICT" in
  let history := default [] (st_decision_history s) in
  refuse existsb (λ h, bool_decide (fst <$> he_source h = Some (bd_source_id b))) history
    with "BUSINESS_PROJECTION_ID_CONFLICT" in
  let entry := {| he_record := record; he_source := Some (bd_source_id b, bd_target_revision b) |} in
  Ok (replaceWorkOrder p (set_wo_state
    (set_st_decision_history (Some (history ++ [entry])) (set_st_decision (Some record) s)) w)).

(** ** Quarantined observations *)

Definition LATE_FIELDS : list string := ["observation"; "reason"; "artifact_refs"; "evidence_refs"].

Definition normalizeLateObservation (value : json) : res LateObservation :=
  let* record := exact value LATE_FIELDS LATE_FIELDS in
  let* o := normalizeObservationFromEvent b (get "observation" record) in
  let* reason := portableRef (get "reason" record) in
  let* artifacts := match get "artifact_refs" record with
    | JArr l =>
        refuse (max_evidence_refs <? Z.of_nat (length l))%Z with LIMIT in mapR contentRef l
    | _ => fail LIMIT
    end in
  let* evidence := evidenceRefs (get "evidence_refs" record) in
  Ok {| lo_observation := o; lo_reason := reason; lo_artifact_refs := artifacts;
        lo_evidence_refs := evidence; lo_quarantined_at := bd_occurred_at b |}.

Definition reduceLateObservation (p : Projection) : res Projection :=
  let* payload := requireSpecificFields e ["record"] ["record"] in
  let* record := normalizeLateObservation (get "record" payload) in
  let id := oe_observation_id (lo_observation record) in
  match pj_late_observations p !! id with
  | Some existing =>
      let* equal := same (late_observation_json existing) (late_observation_json record) in
      refuse negb equal with "BUSINESS_PROJECTION_ID_CONFLICT" in Ok p
  | None => Ok (set_pj_late_observations (<[id := record]> (pj_late_observations p)) p)
  end.
End Reducers.
