(* ===== verification/ProjectorOutbox.v ===== *)
(** Reducers of the outbox ([packages/business-orchestrator/src/projector.js], lines 2527-3708):
    an effect is enqueued once, claimed under a lease, sent, and settled or cancelled. *)

From Stdlib Require Import ZArith Lia String.
From stdpp Require Import base tactics list strings option gmap.
From S2P Require Import Prelude JsString JsDate Json SettlementPolicy ContractBase PlanContract.
From S2P Require Import Envelope WorkOrderState WorkOrderFacts WorkOrderEffects Outbox Lifecycle.
From S2P Require Import ProjectorBase Projection ProjectorInput ProjectorWorkOrder.
From S2P Require Import ProjectorBranch ProjectorObserve.
Import CONTRACT_LIMITS.

Abbreviation TRANSITION := "BUSINESS_PROJECTION_TRANSITION" (only parsing).
Abbreviation PLAN_BINDING := "BUSINESS_PROJECTION_PLAN_BINDING" (only parsing).
Abbreviation PACKET_VERIFICATION := "BUSINESS_PROJECTION_PACKET_VERIFICATION" (only parsing).
Abbreviation CUTOVER := "BUSINESS_PROJECTION_PROVIDER_SETTLEMENT_CUTOVER" (only parsing).

Definition SEND_AUTHORIZATION_CONTRACT_VERSION : Z := 2.

(** What the projector asks of its collaborators: the packet store ([packet-store.js]), the send
    authorisation ([send-authorization.js]) and the provider entry windows
    ([provider-entry-window.js]).  Each operation reads evidence and returns it normalised, or
    throws. *)
Class SendEvidence := {
  normalizeDispatchPacketVerificationReceiptV1 : json → res json;
  normalizeSendAuthorizationOperationScopeBindingV2 : json → json → res json;
  normalizeSendAuthorizationBundleV1 : json → res json;
  createCommittedSendAuthorizationProofV2 : json → res json;
  createProviderEntryWindowAnchorV1 : json → res json;
  createProviderEntryWindowIndexV1 : json → res json;
  normalizeProviderEntryWindowV1 : json → json → res json;
  normalizeProviderEntryWindowIndexV1 : json → json → res json;
  normalizeProviderEntryWindowReceiptClosureV1 : json → res json;
  advanceProviderEntryWindowIndexV1 : json → res json;
}.

(** [value.field], a [TypeError] on [null] and [undefined]. *)
Definition propR (k : string) (v : json) : res json :=
  match v with JUndef | JNull => Err TypeError | _ => Ok (prop k v) end.

(** ** Normalisers *)

Section Normalisers.
Context `{Sha256} (e : PEvent) (b : Binding).

Definition deterministicEffectId (prefix : string) (identity : EffectIdentity) : res string :=
  deterministicId prefix (effectIdentifierSeed identity).

Definition NEW_EFFECT_FIELDS : list string := ["status"; "lease"; "delivery"; "updated_at"].

(** A new effect is pending, without lease or delivery. *)
Definition check_new_effect (effect : fields) : res unit :=
  let* _ := enumeration (get "status" effect) [FsPending] in
  refuse negb (is_null (get "lease" effect)) with INVALID in
  refuse negb (is_null (get "delivery" effect)) with INVALID in
  Ok tt.

Definition new_effect (v2 : bool) (identity : EffectIdentity) (updated_at : Z) : Effect :=
  {| fx_v2 := v2; fx_identity := identity; fx_status := FsPending; fx_lease := None;
     fx_delivery := None; fx_lease_generation := 0; fx_last_lease_id := None;
     fx_fencing_history := []; fx_settlement_policy := None; fx_packet_receipt := None;
     fx_last_delivery_reason := None; fx_updated_at := updated_at |}.

(** The contract-1 branch of [normalizeEffect]. *)
Definition normalizeLegacyEffect (value : json) : res Effect :=
  let names := LEGACY_OUTBOX_IMMUTABLE_FIELDS ++ NEW_EFFECT_FIELDS in
  let* effect := exact value names names in
  let* effect_id := portableRef (get "effect_id" effect) in
  let* work_order_id := normalizeWorkOrderId (get "work_order_id" effect) in
  let* branch_ref := portableRef (get "branch_ref" effect) in
  let* attempt := positive (get "attempt" effect) in
  let* dispatch_id := portableRef (get "dispatch_id" effect) in
  let* kind := enumeration (get "effect_kind" effect) (@enum_all EffectKind _) in
  let* provider_ref := portableRef (get "provider_ref" effect) in
  let* packet_ref := portableRef (get "packet_ref" effect) in
  let* packet_hash := sha256 (get "packet_hash" effect) in
  let* idempotency_key := portableRef (get "idempotency_key" effect) in
  let* _ := check_new_effect effect in
  let* created_at := timestamp (get "created_at" effect) in
  let* updated_at := timestamp (get "updated_at" effect) in
  refuse negb (String.eqb work_order_id (bd_work_order_id b))
      || negb (created_at =? bd_occurred_at b)%Z || negb (updated_at =? bd_occurred_at b)%Z
    with PLAN_BINDING in
  Ok (new_effect false
    {| ef_effect_id := effect_id; ef_work_order_id := work_order_id; ef_branch_ref := branch_ref;
       ef_attempt := attempt; ef_dispatch_id := Some dispatch_id;
       ef_effect_kind := enum_str kind; ef_origin_source_id := ""; ef_operation_scope_hash := "";
       ef_operation_generation := 0; ef_generation_predecessor_effect_id := None;
       ef_provider_ref := provider_ref; ef_packet_ref := packet_ref; ef_packet_hash := packet_hash;
       ef_predecessor_effect_id := None; ef_predecessor_delivery_hash := None;
       ef_target_runtime_identity := None; ef_idempotency_key := idempotency_key;
       ef_created_at := created_at |} updated_at).

Definition normalizeEffectV2 (value : json) : res Effect :=
  let names := V2_EFFECT_IDENTITY_FIELDS ++ NEW_EFFECT_FIELDS in
  let* effect := exact value names names in
  let* effect_id := portableRef (get "effect_id" effect) in
  let* _ := integer (get "effect_contract_version" effect) 2 2 in
  let* work_order_id := normalizeWorkOrderId (get "work_order_id" effect) in
  let* branch_ref := portableRef (get "branch_ref" effect) in
  let* attempt := positive (get "attempt" effect) in
  let* dispatch_id := portableRef (get "dispatch_id" effect) in
  let* kind := enumeration (get "effect_kind" effect) (@enum_all EffectKind _) in
  let* origin_source_id := portableRef (get "origin_source_id" effect) in
  let* operation_scope_hash := sha256 (get "operation_scope_hash" effect) in
  let* operation_generation := positive (get "operation_generation" effect) in
  let* generation_predecessor :=
    nullOr portableRef (get "generation_predecessor_effect_id" effect) in
  let* provider_ref := portableRef (get "provider_ref" effect) in
  let* packet_ref := portableRef (get "packet_ref" effect) in
  let* packet_hash := sha256 (get "packet_hash" effect) in
  let* predecessor_id := nullOr portableRef (get "predecessor_effect_id" effect) in
  let* predecessor_hash := nullOr sha256 (get "predecessor_delivery_hash" effect) in
  let* target := normalizeRuntimeIdentity (get "target_runtime_identity" effect) in
  let* idempotency_key := portableRef (get "idempotency_key" effect) in
  let* _ := check_new_effect effect in
  let* created_at := timestamp (get "created_at" effect) in
  let* updated_at := timestamp (get "updated_at" effect) in
  refuse negb (String.eqb work_order_id (bd_work_order_id b))
      || negb (String.eqb origin_source_id (bd_source_id b))
      || negb (created_at =? bd_occurred_at b)%Z || negb (updated_at =? bd_occurred_at b)%Z
    with PLAN_BINDING in
  refuse negb (Bool.eqb (is_none predecessor_id) (is_none predecessor_hash)) with PLAN_BINDING in
  refuse negb (Bool.eqb (operation_generation =? 1)%Z (is_none generation_predecessor))
    with PLAN_BINDING in
  let identity :=
    {| ef_effect_id := effect_id; ef_work_order_id := work_order_id; ef_branch_ref := branch_ref;
       ef_attempt := attempt; ef_dispatch_id := Some dispatch_id;
       ef_effect_kind := enum_str kind; ef_origin_source_id := origin_source_id;
       ef_operation_scope_hash := operation_scope_hash;
       ef_operation_generation := operation_generation;
       ef_generation_predecessor_effect_id := generation_predecessor;
       ef_provider_ref := provider_ref; ef_packet_ref := packet_ref; ef_packet_hash := packet_hash;
       ef_predecessor_effect_id := predecessor_id;
       ef_predecessor_delivery_hash := predecessor_hash; ef_target_runtime_identity := target;
       ef_idempotency_key := idempotency_key; ef_created_at := created_at |} in
  let* misnamed := orR [
    (let* id := deterministicEffectId "FX" identity in Ok (negb (String.eqb effect_id id)));
    (let* key := deterministicEffectId "IDEM" identity in
     Ok (negb (String.eqb idempotency_key key)))] in
  refuse misnamed with PLAN_BINDING in
  Ok (new_effect true identity updated_at).

Definition normalizeEffect (value : json) : res Effect :=
  let* candidate := object value in
  if has_own candidate "effect_contract_version" then normalizeEffectV2 value
  else normalizeLegacyEffect value.

Definition LEASE_FIELDS : list string :=
  ["lease_id"; "owner_id"; "generation"; "claimed_at"; "heartbeat_at"; "expires_at"].

Definition normalizeLease (value : json) : res Lease :=
  let* lease := exact value LEASE_FIELDS LEASE_FIELDS in
  let* lease_id := portableRef (get "lease_id" lease) in
  let* owner_id := portableRef (get "owner_id" lease) in
  let* generation := positive (get "generation" lease) in
  let* claimed_at := timestamp (get "claimed_at" lease) in
  let* heartbeat_at := timestamp (get "heartbeat_at" lease) in
  let* expires_at := timestamp (get "expires_at" lease) in
  refuse (heartbeat_at <? claimed_at)%Z || (expires_at <=? heartbeat_at)%Z with INVALID in
  Ok {| ls_lease_id := lease_id; ls_owner_id := owner_id; ls_generation := generation;
        ls_claimed_at := claimed_at; ls_heartbeat_at := heartbeat_at; ls_expires_at := expires_at |}.

Definition expectedLeaseExpiry (s : State) (occurredAt : Z) : res Z :=
  to_time (occurredAt + lp_lease_duration_ms (pl_lease_policy (st_plan s))).

Definition DELIVERY_FIELDS : list string :=
  ["classification"; "evidence_refs"; "runtime_identity"; "recorded_at"].

Definition normalizeDelivery (value : json) (expected : Classification) : res EffectDelivery :=
  let* delivery := exact value DELIVERY_FIELDS DELIVERY_FIELDS in
  refuse negb (is_str (get "classification" delivery) (enum_str expected)) with INVALID in
  let* evidence := evidenceRefs (get "evidence_refs" delivery) in
  let* identity := normalizeRuntimeIdentity (get "runtime_identity" delivery) in
  let* recorded_at := timestamp (get "recorded_at" delivery) in
  Ok {| ed_classification := expected; ed_evidence_refs := evidence;
        ed_runtime_identity := identity; ed_recorded_at := recorded_at |}.

(** ** Finding and moving an effect *)

Definition requireOutboxEffect (p : Projection) (payload : fields) : res Effect :=
  let* effectId := portableRef (get "effect_id" payload) in
  match pj_outbox p !! effectId with
  | None => fail "BUSINESS_PROJECTION_OUTBOX_MISSING"
  | Some effect =>
      refuse negb (String.eqb (fx_work_order_id effect) (bd_work_order_id b))
        with OUTBOX_BINDING in
      let* w := requireWorkOrder p b in
      let* _ := assertEffectMatchesEngineContract w effect in
      let* candidate := exact (get "effect" payload) (immutable_fields effect)
        (immutable_fields effect) in
      let* equal := immutableEffectMatches effect candidate in
      refuse negb equal with "BUSINESS_PROJECTION_OUTBOX_IMMUTABLE" in
      Ok effect
  end.

(** A start effect runs in the provider stage its branch is in. *)
Definition check_start_eligible (w : WorkOrder) (branch : Branch) (effect : Effect) : res unit :=
  refuse negb (bool_decide (br_state branch = BDispatchPending))
      || negb (among [WStarting; WRunning] (st_status (wo_state w))) with TRANSITION in
  refuse fx_v2 effect &&
      ((has_kind ThreadCreate effect
          && (negb (is_none (br_thread_create_effect_id branch))
              || negb (is_none (br_thread_identity branch))))
       || (has_kind TurnStart effect
          && (negb (succeeds effect (br_thread_create_effect_id branch)
                (br_thread_create_delivery_hash branch))
              || negb (same_target effect (br_thread_identity branch))
              || negb (is_none (br_turn_start_effect_id branch))))) with OUTBOX_BINDING in
  Ok tt.

Definition check_input_eligible (w : WorkOrder) (branch : Branch) (effect : Effect) : res unit :=
  let running := bool_decide (st_status (wo_state w) = WRunning) in
  refuse negb (if fx_v2 effect
      then bool_decide (br_state branch = BWaitingForUser) && running
        && bool_decide (br_pending_user_input_effect_id branch = Some (fx_effect_id effect))
      else bool_decide (br_state branch = BRunning) && running) with TRANSITION in
  Ok tt.

Definition check_cancel_eligible (branch : Branch) (effect : Effect) : res unit :=
  refuse negb (bool_decide (br_state branch = BCancelling))
      || (fx_v2 effect
          && (negb (same_target effect (br_runtime_identity branch))
              || negb (succeeds effect (br_turn_start_effect_id branch)
                   (br_turn_start_delivery_hash branch)))) with TRANSITION in
  Ok tt.

(** A worker may act on the effect: its branch is where the effect left it, in time. *)
Definition assertOutboxWorkerActionEligible (p : Projection) (effect : Effect) : res unit :=
  let* w := requireWorkOrder p b in
  let s := wo_state w in
  let* _ := assertEffectMatchesEngineContract w effect in
  let* _ := assertWorkOrderEffectContracts p w in
  let* branch := requireBranch w (JStr (fx_branch_ref effect)) in
  refuse negb (String.eqb (fx_work_order_id effect) (wo_id w))
      || negb (fx_attempt effect =? br_attempt branch)%Z
      || negb (bool_decide (fx_dispatch_id effect = br_dispatch_id branch))
      || negb (String.eqb (fx_provider_ref effect) (br_provider_ref branch))
    with OUTBOX_BINDING in
  if has_kind TurnCancel effect then check_cancel_eligible branch effect
  else
    let* _ := if has_start_kind effect then check_start_eligible w branch effect
      else if has_kind UserInputSubmit effect then check_input_eligible w branch effect
      else fail INVALID in
    refuse executionWindowElapsed s branch (bd_occurred_at b) with TRANSITION in
    Ok tt.

(** [transitionOutbox(projection, event, to, mutate, allowedSpecific, requiredSpecific)] *)
Definition transitionOutbox (p : Projection) (to : EffectStatus)
    (mutate : Effect → fields → Effect → res Effect) (allowedSpecific requiredSpecific : list string)
    : res Projection :=
  let* payload := requireSpecificFields e allowedSpecific requiredSpecific in
  let* effect := requireOutboxEffect p payload in
  refuse negb (among (OUTBOX_TRANSITIONS (fx_status effect)) to) with TRANSITION in
  refuse (bd_occurred_at b <? fx_updated_at effect)%Z with TRANSITION in
  let* next := mutate (set_fx_status to (bd_occurred_at b) effect) payload effect in
  let* kept := immutableEffectMatches effect (effect_fields next) in
  refuse negb kept with "BUSINESS_PROJECTION_OUTBOX_IMMUTABLE" in
  Ok (set_pj_outbox (<[fx_effect_id effect := next]> (pj_outbox p)) p).

(** [next.outbox[event.payload.effect_id]]: by the text of the event, which is not trimmed. *)
Definition event_effect (next : Projection) : res Effect :=
  match get "effect_id" (pe_payload e) with
  | JStr id => match pj_outbox next !! id with Some x => Ok x | None => Err TypeError end
  | _ => Err TypeError
  end.
End Normalisers.
