(* ===== verification/ProjectorEnqueue.v ===== *)
(** Enqueuing an effect ([packages/business-orchestrator/src/projector.js], lines 2709-3021): a new
    effect names the current attempt of its branch, the mutation it performs and the effect it
    follows, and no other effect of its kind may be under way. *)

From Stdlib Require Import ZArith Lia String.
From stdpp Require Import base tactics list strings option gmap.
From S2P Require Import Prelude JsString JsDate Json SettlementPolicy ContractBase PlanContract.
From S2P Require Import Envelope WorkOrderState WorkOrderFacts WorkOrderEffects Outbox Lifecycle.
From S2P Require Import ProjectorBase Projection ProjectorInput ProjectorWorkOrder.
From S2P Require Import ProjectorBranch ProjectorObserve ProjectorOutbox.
Import CONTRACT_LIMITS.

Section Reducers.
Context `{Sha256} (e : PEvent) (b : Binding).

(** A later generation of a start effect revives its branch. *)
Definition startGenerationActivation (effect : Effect) : bool :=
  fx_v2 effect && (1 <? fx_generation effect)%Z && has_start_kind effect.

Definition expected_branch_state (effect : Effect) : BranchState :=
  if has_start_kind effect then BDispatchPending
  else if has_kind UserInputSubmit effect then BWaitingForUser else BCancelling.

(** The effect is one of the current attempt, in a state that admits it. *)
Definition check_attempt (s : State) (branch : Branch) (effect : Effect) : res unit :=
  refuse negb (br_attempt branch =? fx_attempt effect)%Z
      || negb (bool_decide (br_dispatch_id branch = fx_dispatch_id effect))
      || negb (String.eqb (br_provider_ref branch) (fx_provider_ref effect))
      || negb (includes (pp_allowed_provider_refs (pl_provider_policy (st_plan s)))
           (fx_provider_ref effect)) with PLAN_BINDING in
  refuse negb (if startGenerationActivation effect
      then among [BDispatchPending; BRetryable] (br_state branch)
      else bool_decide (br_state branch = expected_branch_state effect)) with TRANSITION in
  Ok tt.

Definition scope_binding (branch : Branch) (effect : Effect) (kind : EffectKind)
    (responseRef : option ContentRef) : ScopeBinding :=
  let identity := fx_identity effect in
  let input := bool_decide (kind = UserInputSubmit) in
  {| sb_effect_kind := kind; sb_provider_ref := ef_provider_ref identity;
     sb_packet_ref := ef_packet_ref identity; sb_packet_hash := ef_packet_hash identity;
     sb_predecessor_effect_id := ef_predecessor_effect_id identity;
     sb_predecessor_delivery_hash := ef_predecessor_delivery_hash identity;
     sb_target_runtime_identity := ef_target_runtime_identity identity;
     sb_request_id := if input then oui_request_id <$> br_open_user_input branch else None;
     sb_response_ref := if input then responseRef else None |}.

(** The scope hash of the effect is that of the mutation it performs. *)
Definition check_scope (branch : Branch) (effect : Effect) (responseRef : option ContentRef)
    : res unit :=
  if negb (fx_v2 effect) then Ok tt
  else
    refuse has_kind UserInputSubmit effect
        && (is_none (br_open_user_input branch) || is_none responseRef) with PLAN_BINDING in
    match effect_kind_of effect with
    | None => fail INVALID                         (* not reached: the kind was read as one *)
    | Some kind =>
        let* expected := deriveEffectOperationScopeHashV2
          (scope_binding branch effect kind responseRef) in
        refuse negb (String.eqb (ef_operation_scope_hash (fx_identity effect)) expected)
          with PLAN_BINDING in
        Ok tt
    end.

(** The generation before this one: the same mutation, proven not sent. *)
Definition precedes (predecessor effect : Effect) : bool :=
  fx_v2 predecessor && has_status FsNotSent predecessor
  && String.eqb (fx_work_order_id predecessor) (fx_work_order_id effect)
  && String.eqb (fx_branch_ref predecessor) (fx_branch_ref effect)
  && (fx_attempt predecessor =? fx_attempt effect)%Z
  && bool_decide (fx_dispatch_id predecessor = fx_dispatch_id effect)
  && String.eqb (ef_effect_kind (fx_identity predecessor)) (ef_effect_kind (fx_identity effect))
  && String.eqb (fx_provider_ref predecessor) (fx_provider_ref effect)
  && String.eqb (ef_operation_scope_hash (fx_identity predecessor))
       (ef_operation_scope_hash (fx_identity effect))
  && (fx_generation predecessor =? fx_generation effect - 1)%Z.

(** The settlement of the predecessor authorises the generation, now. *)
Definition check_retry (w : WorkOrder) (branch : Branch) (effect predecessor : Effect)
    (stored : SettlementPolicy) : res unit :=
  let s := wo_state w in
  let* policy := normalizeSettlementPolicyRecordV2 (settlement_policy_json stored) in
  refuse negb (bool_decide (sp_disposition policy = RetryCandidate))
      || negb (bool_decide (sp_retry_scope policy = ScopeEffectGeneration))
    with SETTLEMENT_POLICY in
  match fx_delivery predecessor with
  | None => Err TypeError
  | Some delivery =>
      let* schedule := deriveEffectGenerationRetryScheduleV2
        (schedule_input s policy (fx_generation predecessor) (ed_recorded_at delivery)
          (br_attempt_deadline_at branch)) in
      refuse negb (rs_permitted schedule) || (bd_occurred_at b <? rs_eligible_at schedule)%Z
        with TRANSITION in
      let sourceType := pn_source_type <$> wo_pending w in
      let* _ :=
        if startGenerationActivation effect && bool_decide (br_state branch = BDispatchPending)
        then
          refuse negb (bool_decide (sourceType = Some SObservation ∨ sourceType = Some SSettlement))
              || negb (bool_decide (sp_retry_mode policy = ModeAutomatic))
              || negb (rs_delay_ms schedule =? 0)%Z
              || negb (bd_occurred_at b =? ed_recorded_at delivery)%Z with SETTLEMENT_POLICY in
          Ok tt
        else
          refuse negb (bool_decide (sourceType = Some SCommand))
            with "BUSINESS_PROJECTION_SOURCE_CLASS" in
          Ok tt in
      refuse startGenerationActivation effect && bool_decide (br_state branch = BRetryable)
          && negb (bool_decide (br_retry_at branch = Some (rs_eligible_at schedule)))
        with SETTLEMENT_POLICY in
      Ok tt
  end.

Definition check_generation (p : Projection) (w : WorkOrder) (branch : Branch) (effect : Effect)
    : res unit :=
  if fx_v2 effect && (1 <? fx_generation effect)%Z then
    match effect_at p (fx_predecessor effect) with
    | None => fail OUTBOX_BINDING
    | Some predecessor =>
        refuse negb (precedes predecessor effect) with OUTBOX_BINDING in
        match fx_settlement_policy predecessor with
        | Some stored => check_retry w branch effect predecessor stored
        | None => Ok tt
        end
    end
  else Ok tt.

(** [canonicalHash({ effect: identity, ...predecessor.delivery })] of the predecessor. *)
Definition predecessor_hash (predecessor : option Effect) : res (option string) :=
  match predecessor with
  | None => Ok None
  | Some x =>
      match fx_delivery x with
      | None => Ok None
      | Some d =>
          let* h := canonicalHash (JObj (("effect", effect_identity V2_EFFECT_IDENTITY_FIELDS x)
            :: effect_delivery_fields d)) in
          Ok (Some h)
      end
  end.

Definition same_attempt (x effect : Effect) : bool :=
  String.eqb (fx_work_order_id x) (fx_work_order_id effect)
  && String.eqb (fx_branch_ref x) (fx_branch_ref effect)
  && (fx_attempt x =? fx_attempt effect)%Z
  && bool_decide (fx_dispatch_id x = fx_dispatch_id effect).

(** The effect before this one, in the provider stages of the attempt. *)
Definition check_predecessor (branch : Branch) (effect : Effect) (predecessor : option Effect)
    (hash : option string) : res unit :=
  let named := ef_predecessor_delivery_hash (fx_identity effect) in
  if has_kind ThreadCreate effect then
    refuse negb (succeeds effect None None) || negb (same_target effect None)
        || negb (is_none (br_thread_identity branch))
        || negb (is_none (br_thread_create_effect_id branch))
        || negb (is_none (br_turn_start_effect_id branch)) with PLAN_BINDING in
    Ok tt
  else match predecessor with
  | None => fail PLAN_BINDING
  | Some x =>
      if has_kind TurnStart effect then
        refuse negb (has_kind ThreadCreate x) || negb (has_status FsDelivered x)
            || negb (same_attempt x effect)
            || negb (bool_decide (br_thread_create_effect_id branch = Some (fx_effect_id x)))
            || negb (bool_decide (br_thread_create_delivery_hash branch = hash))
            || negb (bool_decide (named = hash))
            || negb (same_target effect (br_thread_identity branch))
            || negb (is_none (br_turn_start_effect_id branch)) with PLAN_BINDING in
        Ok tt
      else
        refuse negb (has_kind TurnStart x) || negb (has_status FsDelivered x)
            || negb (bool_decide (br_turn_start_effect_id branch = Some (fx_effect_id x)))
            || negb (bool_decide (br_turn_start_delivery_hash branch = hash))
            || negb (bool_decide (named = hash))
            || negb (same_target effect (br_runtime_identity branch)) with PLAN_BINDING in
        Ok tt
  end.

(** No other effect of the stage is under way. *)
Definition check_exclusive (p : Projection) (s : State) (branch : Branch) (effect : Effect)
    : res unit :=
  refuse has_start_kind effect
      && existsb (λ x, same_attempt x effect && has_start_kind x
           && among V2_UNRESOLVED_EFFECT_STATUSES (fx_status x)) (effects p) with TRANSITION in
  refuse has_kind TurnCancel effect
      && (negb (is_none (br_cancel_effect_id branch))
          || existsb (λ x, v2_kind TurnCancel x && effectMatchesCurrentAttempt x s branch
               && among ACTIVE_CANCEL_EFFECT_STATES (fx_status x)) (effects p)) with TRANSITION in
  Ok tt.

(** The branch of a revived start. *)
Definition activated_branch (branch : Branch) : Branch :=
  set_br_last_transition_reason (Some "effect_generation_activated")
    (set_br_finished_at None (set_br_delivery None (set_br_retry_at None
      (set_br_state BDispatchPending branch)))).

(** The branch that waits for the effect. *)
Definition enqueued_branch (branch : Branch) (effect : Effect) (responseRef : option ContentRef)
    : option Branch :=
  if startGenerationActivation effect then Some (activated_branch branch)
  else if has_kind UserInputSubmit effect then
    Some (set_br_pending_user_input_response_ref responseRef
      (set_br_pending_user_input_effect_id (Some (fx_effect_id effect)) branch))
  else if has_kind TurnCancel effect then
    Some (set_br_cancel_effect_id (Some (fx_effect_id effect)) branch)
  else None.

(** The effect enters the outbox; the same effect again changes nothing. *)
Definition enqueue (p : Projection) (effect : Effect) : res (option Projection) :=
  match pj_outbox p !! fx_effect_id effect with
  | Some existing =>
      let* equal := same (effect_json existing) (effect_json effect) in
      refuse negb equal with "BUSINESS_PROJECTION_ID_CONFLICT" in Ok None
  | None => Ok (Some (put_effect p effect))
  end.

Definition reduceOutboxEnqueued (p : Projection) : res Projection :=
  let* payload := requireSpecificFields e ["effect"; "user_input_response_ref"] ["effect"] in
  let* w := requireWorkOrder p b in
  let s := wo_state w in
  let* effect := normalizeEffect b (get "effect" payload) in
  let* _ := assertEffectMatchesEngineContract w effect in
  let hasResponse := has_own payload "user_input_response_ref" in
  refuse negb (Bool.eqb hasResponse (has_kind UserInputSubmit effect))
      && (fx_v2 effect || hasResponse) with OUTBOX_BINDING in
  let* responseRef := if hasResponse
    then let* r := contentRef (get "user_input_response_ref" payload) in Ok (Some r)
    else Ok None in
  let* branch := requireBranch w (JStr (fx_branch_ref effect)) in
  let* _ := check_attempt s branch effect in
  let* _ := check_scope branch effect responseRef in
  let* _ := check_generation p w branch effect in
  refuse negb (has_kind TurnCancel effect)
      && executionWindowElapsed s branch (bd_occurred_at b) with TRANSITION in
  refuse has_start_kind effect
      && match br_packet_ref branch with
         | Some ref => negb (String.eqb (ef_packet_ref (fx_identity effect)) (cr_id ref))
             || negb (String.eqb (ef_packet_hash (fx_identity effect)) (cr_hash ref))
         | None => true
         end with PLAN_BINDING in
  if negb (fx_v2 effect) then
    let* next := enqueue p effect in Ok (default p next)
  else
    let predecessor := effect_at p (ef_predecessor_effect_id (fx_identity effect)) in
    let* hash := predecessor_hash predecessor in
    let* _ := check_predecessor branch effect predecessor hash in
    let* _ := check_exclusive p s branch effect in
    let* next := enqueue p effect in
    match next with
    | None => Ok p
    | Some next =>
        refuse has_kind UserInputSubmit effect
            && negb (is_none (br_pending_user_input_effect_id branch)) with TRANSITION in
        Ok match enqueued_branch branch effect responseRef with
           | Some branch => replaceBranch next w branch
           | None => next
           end
    end.
End Reducers.
