(* ===== verification/ProjectorDelivery.v ===== *)
(** The life of an effect in the outbox ([packages/business-orchestrator/src/projector.js],
    lines 3192-3708): claimed under a lease, sent, and settled, expired, requeued or cancelled. *)

From Stdlib Require Import ZArith Lia String.
From stdpp Require Import base tactics list strings option gmap.
From S2P Require Import Prelude JsString JsDate Json SettlementPolicy ContractBase PlanContract.
From S2P Require Import Envelope WorkOrderState WorkOrderFacts WorkOrderEffects Outbox Lifecycle.
From S2P Require Import ProjectorBase Projection ProjectorInput ProjectorWorkOrder.
From S2P Require Import ProjectorBranch ProjectorObserve ProjectorOutbox.
Import CONTRACT_LIMITS.

Definition TOKEN_FIELDS : list string := ["lease_id"; "owner_id"; "generation"].

(** The token of the current lease. *)
Definition current_token (effect : Effect) (token : FencingToken) : bool :=
  match fx_lease effect with Some l => bool_decide (lease_token l = token) | None => false end.

Definition lease_expired (effect : Effect) (now : Z) : bool :=
  match fx_lease effect with Some l => (ls_expires_at l <=? now)%Z | None => false end.

Section Reducers.
Context `{Sha256} {evidence : SendEvidence} (e : PEvent) (b : Binding).

(** ** Claim *)

Definition claim (s : State) (next : Effect) (payload : fields) (current : Effect) : res Effect :=
  let* lease := normalizeLease (get "lease" payload) in
  let* wrong := orR [
    Ok (negb (ls_generation lease =? fx_lease_generation next + 1)%Z);
    Ok (negb (ls_claimed_at lease =? bd_occurred_at b)%Z);
    Ok (negb (ls_heartbeat_at lease =? bd_occurred_at b)%Z);
    (let* expiry := expectedLeaseExpiry s (bd_occurred_at b) in
     Ok (negb (ls_expires_at lease =? expiry)%Z))] in
  refuse wrong with TRANSITION in
  refuse fx_v2 next
      && negb (Z.of_nat (length (fx_fencing_history next)) =? fx_lease_generation next)%Z
    with TRANSITION in
  Ok (claim_fields lease next).

Definition reduceOutboxClaimed (p : Projection) : res Projection :=
  let names := ["effect_id"; "lease"; "effect"] in
  let* payload := requireSpecificFields e names names in
  let* w := requireWorkOrder p b in
  let* effect := requireOutboxEffect b p payload in
  let* _ := assertOutboxWorkerActionEligible b p effect in
  transitionOutbox e b p FsClaimed (claim (wo_state w)) names names.

(** ** Send *)

(** The packet receipt binds the plan of the Work Order and the effect. *)
Definition packet_binds (w : WorkOrder) (effect : Effect) (receipt : json) : res bool :=
  let s := wo_state w in
  let identity := effect_identity V2_EFFECT_IDENTITY_FIELDS effect in
  let planned := branch_by_ref (pl_branches (st_plan s)) (fx_branch_ref effect) in
  let* equal := same (prop "effect_identity" receipt) identity in
  if negb equal then Ok false
  else
    let* binding := propR "packet_binding" receipt in
    let* work_order_id := propR "work_order_id" binding in
    if negb (strict_eq work_order_id (JStr (wo_id w)))
       || match prop "work_order_revision" binding with
          | JInt z => (st_revision s <? z)%Z | _ => false end
       || negb (strict_eq (prop "plan_snapshot_ref" binding) (JStr (st_plan_snapshot_ref s)))
       || negb (strict_eq (prop "plan_hash" binding) (JStr (st_plan_hash s)))
       || negb (strict_eq (prop "engine_contract_version" binding)
            (JInt (st_engine_contract_version s)))
    then Ok false
    else match planned with
    | None => Ok false
    | Some planned =>
        let ref_is k (r : ContentRef) :=
          let* v := propR k binding in
          let* id := propR "id" v in
          Ok (strict_eq id (JStr (cr_id r)) && strict_eq (prop "hash" v) (JStr (cr_hash r))) in
        if negb (strict_eq (prop "permission_mode" binding) (enum_json (pb_permission_mode planned)))
           || negb (strict_eq (prop "project_ref" binding) (JStr (pl_project_ref (st_plan s))))
           || negb (strict_eq (prop "isolation_mode" binding) (enum_json (pb_isolation planned)))
        then Ok false
        else negR (orR [
          negR (ref_is "task_intent_ref" (pb_task_intent_ref planned));
          negR (ref_is "execution_plan_ref" (pb_execution_plan_ref planned));
          negR (ref_is "context_pack_ref" (pb_context_pack_ref planned))])
    end.

Definition AUTHORIZATION_FIELDS : list string :=
  ["send_authorization_contract_version"; "lease_expires_at"; "provider_settlement_cutover_id";
   "operation_scope_binding"].

(** The evidence of a send after the cutover; the result is the packet receipt. *)
Definition check_send_evidence (p : Projection) (epoch : json) (effect : Effect) (payload : fields)
    : res json :=
  refuse negb (has_own payload "packet_verification_receipt")
      || existsb (λ k, negb (has_own payload k)) AUTHORIZATION_FIELDS with PACKET_VERIFICATION in
  match normalizeDispatchPacketVerificationReceiptV1 (get "packet_verification_receipt" payload) with
  | Err _ => fail PACKET_VERIFICATION
  | Ok receipt =>
      let* w := requireWorkOrder p b in
      let* binds := packet_binds w effect receipt in
      refuse negb binds with PACKET_VERIFICATION in
      let* _ := match normalizeSendAuthorizationOperationScopeBindingV2
          (get "operation_scope_binding" payload)
          (effect_identity V2_EFFECT_IDENTITY_FIELDS effect) with
        | Err (BusinessSendAuthorizationError _) => fail PACKET_VERIFICATION
        | r => r
        end in
      let* unbound := orR [
        Ok (negb (is_int (prop "send_authorization_contract_version" epoch)
          SEND_AUTHORIZATION_CONTRACT_VERSION));
        Ok (negb (is_int (get "send_authorization_contract_version" payload)
          SEND_AUTHORIZATION_CONTRACT_VERSION));
        Ok (negb (strict_eq (get "provider_settlement_cutover_id" payload)
          (prop "cutover_id" epoch)));
        (let* expires := timestamp (get "lease_expires_at" payload) in
         Ok (negb (bool_decide (ls_expires_at <$> fx_lease effect = Some expires))))] in
      refuse unbound with CUTOVER in
      Ok receipt
  end.

(** The lease token of the payload. *)
Definition payload_token (payload : fields) : res FencingToken :=
  let* id := portableRef (get "lease_id" payload) in
  let* owner := portableRef (get "lease_owner_id" payload) in
  let* generation := positive (get "lease_generation" payload) in
  Ok {| ft_lease_id := id; ft_owner_id := owner; ft_generation := generation |}.

Definition begin_send (receipt : option json) (next : Effect) (payload : fields) (current : Effect)
    : res Effect :=
  let* token := payload_token payload in
  refuse negb (current_token next token) || lease_expired next (bd_occurred_at b)
    with TRANSITION in
  Ok match receipt with
     | Some r => set_fx_packet_receipt (Some r) next
     | None => next
     end.

Definition reduceOutboxSendBegun (p : Projection) : res Projection :=
  let required := ["effect_id"; "lease_id"; "lease_owner_id"; "lease_generation"; "effect"] in
  let allowed := required ++ "packet_verification_receipt" :: AUTHORIZATION_FIELDS in
  let* payload := requireSpecificFields e allowed required in
  let* effect := requireOutboxEffect b p payload in
  let* _ := assertOutboxWorkerActionEligible b p effect in
  let* receipt := match pj_provider_settlement_epoch p with
    | Some epoch =>
        if fx_v2 effect
        then let* r := check_send_evidence p epoch effect payload in Ok (Some r)
        else Ok None
    | None => Ok None
    end in
  refuse is_none receipt && (has_own payload "packet_verification_receipt"
      || existsb (has_own payload) AUTHORIZATION_FIELDS) with CUTOVER in
  transitionOutbox e b p FsSending (begin_send receipt) allowed required.

(** ** Lease renewal *)

Definition renews (s : State) (current lease : Lease) (effect : Effect) : res bool :=
  negR (orR [
    Ok (negb (bool_decide (lease_token lease = lease_token current)));
    Ok (negb (ls_claimed_at lease =? ls_claimed_at current)%Z);
    Ok (ls_heartbeat_at lease <=? ls_heartbeat_at current)%Z;
    Ok (ls_expires_at lease <=? ls_expires_at current)%Z;
    Ok (negb (ls_heartbeat_at lease =? bd_occurred_at b)%Z);
    (let* expiry := expectedLeaseExpiry s (bd_occurred_at b) in
     Ok (negb (ls_expires_at lease =? expiry)%Z));
    Ok (ls_expires_at current <=? bd_occurred_at b)%Z;
    Ok (bd_occurred_at b <? fx_updated_at effect)%Z]).

Definition reduceOutboxLeaseRenewed (p : Projection) : res Projection :=
  let names := ["effect_id"; "lease"; "effect"] in
  let* payload := requireSpecificFields e names names in
  let* w := requireWorkOrder p b in
  let* effect := requireOutboxEffect b p payload in
  let* _ := assertOutboxWorkerActionEligible b p effect in
  match fx_lease effect with
  | None => fail TRANSITION
  | Some current =>
      refuse negb (among [FsClaimed; FsSending] (fx_status effect)) with TRANSITION in
      let* lease := normalizeLease (get "lease" payload) in
      let* extends := renews (wo_state w) current lease effect in
      refuse negb extends with TRANSITION in
      Ok (put_effect p (set_fx_lease (Some lease)
        (set_fx_status (fx_status effect) (bd_occurred_at b) effect)))
  end.

(** ** Requeue *)

Definition requeue (p : Projection) (next : Effect) (payload : fields) (current : Effect)
    : res Effect :=
  let* token := payload_token payload in
  refuse negb (current_token next token) || negb (lease_expired next (bd_occurred_at b))
    with TRANSITION in
  let released := set_fx_lease None next in
  let* reason := normalizeReason (get "reason" payload) in
  Ok (set_fx_last_delivery_reason reason
    (if fx_v2 next && (is_some (pj_provider_settlement_epoch p) || is_some (fx_packet_receipt next))
     then set_fx_packet_receipt None released else released)).

Definition reduceOutboxRequeued (p : Projection) : res Projection :=
  let names := ["effect_id"; "lease_id"; "lease_owner_id"; "lease_generation"; "reason"; "effect"] in
  transitionOutbox e b p FsPending (requeue p) names names.

(** ** Expiry *)

(** The input being projected is an observation. *)
Definition observing (w : WorkOrder) : bool :=
  match pn_source_type <$> wo_pending w with
  | Some SObservation | Some SSettlement => true
  | _ => false
  end.

Definition EXPIRY_FIELDS : list string :=
  ["fencing_token"; "lease_expires_at"; "expiry_trigger_ref"; "settlement_policy"].

(** The lease named by an expiry of contract 2, with its policy. *)
Definition check_expiry (p : Projection) (payload : fields) (current : Effect) (lease : Lease)
    : res SettlementPolicy :=
  let* w := requireWorkOrder p b in
  refuse negb (observing w) with "BUSINESS_PROJECTION_SOURCE_CLASS" in
  let* token := exact (get "fencing_token" payload) TOKEN_FIELDS TOKEN_FIELDS in
  let* expiresAt := timestamp (get "lease_expires_at" payload) in
  let* _ := contentRef (get "expiry_trigger_ref" payload) in
  refuse negb (is_str (get "lease_id" token) (ls_lease_id lease))
      || negb (is_str (get "owner_id" token) (ls_owner_id lease))
      || negb (is_int (get "generation" token) (ls_generation lease))
      || negb (expiresAt =? ls_expires_at lease)%Z with TRANSITION in
  normalizeSettlementPolicyRecord (get "settlement_policy" payload)
    (policy_scope NSendExpiry (JStr (ef_effect_kind (fx_identity current))) JUndef JUndef).

Definition expire (p : Projection) (next : Effect) (payload : fields) (current : Effect)
    : res Effect :=
  match fx_lease current with
  | None => fail TRANSITION
  | Some lease =>
      refuse (bd_occurred_at b <? ls_expires_at lease)%Z with TRANSITION in
      let* delivery := normalizeDelivery (get "delivery" payload) CDeliveryUnknown in
      refuse is_some (ed_runtime_identity delivery)
          || negb (ed_recorded_at delivery =? bd_occurred_at b)%Z with INVALID in
      let* next := if fx_v2 current then
          let* policy := check_expiry p payload current lease in
          Ok (set_fx_settlement_policy (Some policy) next)
        else refuse existsb (has_own payload) EXPIRY_FIELDS with INVALID in Ok next in
      Ok (set_fx_delivery (Some delivery) (set_fx_lease None next))
  end.

(** The Work Order and the branch an effect belongs to. *)
Definition effect_branch (p : Projection) (effect : Effect) : res (WorkOrder * Branch) :=
  let* w := requireWorkOrder p b in
  let* branch := requireBranch w (JStr (fx_branch_ref effect)) in
  Ok (w, branch).

Definition reduceOutboxSendExpired (p : Projection) : res Projection :=
  let required := ["effect_id"; "delivery"; "effect"] in
  let* next := transitionOutbox e b p FsDeliveryUnknown (expire p) (required ++ EXPIRY_FIELDS)
    required in
  let* effect := event_effect e next in
  if fx_v2 effect && has_start_kind effect then
    let* '(w, branch) := effect_branch next effect in
    Ok (replaceBranch next w (set_br_delivery (delivery_now b CDeliveryUnknown) branch))
  else Ok next.

(** ** Settlement *)

Definition settled_classification (status : EffectStatus) : Classification :=
  match status with
  | FsDelivered => CAccepted | FsNotSent => CNotSent | _ => CDeliveryUnknown end.

(** The token of a settlement: none for an ambiguous effect, otherwise that of the lease. *)
Definition check_settlement_token (payload : fields) (current : Effect) : res unit :=
  let* token := nullOr (λ v, exact v TOKEN_FIELDS TOKEN_FIELDS) (get "fencing_token" payload) in
  if has_status FsDeliveryUnknown current then
    refuse is_some token with TRANSITION in Ok tt
  else
    let field k := match token with Some fs => get k fs | None => JUndef end in
    let* id := portableRef (field "lease_id") in
    let* owner := portableRef (field "owner_id") in
    let* generation := positive (field "generation") in
    refuse negb (current_token current
          {| ft_lease_id := id; ft_owner_id := owner; ft_generation := generation |})
        || lease_expired current (bd_occurred_at b) with TRANSITION in
    Ok tt.

(** The policy of the settled effect: the one the event brings, or the absence of any. *)
Definition settlement_policy_of (p : Projection) (payload : fields) (current : Effect)
    (c : Classification) : res (option SettlementPolicy) :=
  if has_own payload "settlement_policy" then
    let* w := requireWorkOrder p b in
    refuse negb (fx_v2 current) || negb (observing w) with SETTLEMENT_POLICY in
    let* source := propR "settlement_source" (get "settlement_policy" payload) in
    let* policy := normalizeSettlementPolicyRecord (get "settlement_policy" payload)
      (policy_scope NSettlement (JStr (ef_effect_kind (fx_identity current))) source
        (enum_json c)) in
    Ok (Some policy)
  else
    refuse is_some (fx_settlement_policy current) with SETTLEMENT_POLICY in Ok None.

Definition settle (p : Projection) (status : EffectStatus) (next : Effect) (payload : fields)
    (current : Effect) : res Effect :=
  let* _ := check_settlement_token payload current in
  let c := settled_classification status in
  let* delivery := normalizeDelivery (get "delivery" payload) c in
  refuse negb (ed_recorded_at delivery =? bd_occurred_at b)%Z with INVALID in
  let* policy := settlement_policy_of p payload current c in
  Ok (set_fx_settlement_policy policy
    (set_fx_delivery (Some delivery) (set_fx_lease None next))).

Definition reduceOutboxSettled (p : Projection) (status : EffectStatus) : res Projection :=
  let required := ["effect_id"; "fencing_token"; "delivery"; "effect"] in
  let* next := transitionOutbox e b p status (settle p status)
    (required ++ ["settlement_policy"]) required in
  let* effect := event_effect e next in
  if v2_kind TurnCancel effect then
    let* '(w, branch) := effect_branch next effect in
    refuse negb (bool_decide (br_cancel_effect_id branch = Some (fx_effect_id effect)))
      with OUTBOX_BINDING in
    Ok (if bool_decide (status = FsNotSent)
        then replaceBranch next w (set_br_cancel_effect_id None branch) else next)
  else Ok next.

(** ** Cancellation *)

Definition cancel (next : Effect) (payload : fields) (current : Effect) : res Effect :=
  let* reason := normalizeReason (get "reason" payload) in
  Ok (set_fx_last_delivery_reason reason (set_fx_lease None next)).

Definition reduceOutboxCancelled (p : Projection) : res Projection :=
  let names := ["effect_id"; "reason"; "effect"] in
  let* next := transitionOutbox e b p FsCancelled cancel names names in
  let* effect := event_effect e next in
  if v2_kind TurnCancel effect then
    let* '(w, branch) := effect_branch next effect in
    refuse negb (bool_decide (br_cancel_effect_id branch = Some (fx_effect_id effect)))
      with OUTBOX_BINDING in
    Ok (replaceBranch next w (set_br_cancel_effect_id None branch))
  else if v2_kind UserInputSubmit effect then
    let* '(w, branch) := effect_branch next effect in
    refuse negb (bool_decide (br_pending_user_input_effect_id branch = Some (fx_effect_id effect)))
      with OUTBOX_BINDING in
    Ok (replaceBranch next w (set_br_open_user_input None (drop_submission branch)))
  else Ok next.
End Reducers.
