(* ===== verification/ProjectorSettlement.v ===== *)
(** The closing checks of the projector ([packages/business-orchestrator/src/projector.js]).

    First the coherence of a Work Order with the outbox after an input (lines 4631-4792): no effect
    is left behind by the state, no state waits for an effect that is gone.  Then the events of a
    settlement batch (lines 3842-4360): the receipt of a provider observation is accepted only when
    the events before it tell one coherent story about one effect; these checks read the events of
    the batch as they were supplied. *)

From Stdlib Require Import ZArith Lia String.
From stdpp Require Import base tactics list strings option gmap.
From S2P Require Import Prelude JsString JsDate Json SettlementPolicy ContractBase PlanContract.
From S2P Require Import Envelope WorkOrderState WorkOrderFacts WorkOrderEffects Outbox Lifecycle.
From S2P Require Import ProjectorBase Projection ProjectorInput ProjectorWorkOrder.
From S2P Require Import ProjectorBranch ProjectorObserve ProjectorOutbox.

Abbreviation RECEIPT_BINDING := "BUSINESS_PROJECTION_RECEIPT_BINDING" (only parsing).

Definition unresolved (e : Effect) : bool := among V2_UNRESOLVED_EFFECT_STATUSES (fx_status e).

Section Closure.
Context `{Sha256} (p : Projection) (s : State).

(** The effects of the current attempt of the branch. *)
Definition currentMutations (branch : Branch) : list Effect :=
  filter (λ e, effectMatchesCurrentAttempt e s branch = true) (effects p).

Definition unresolvedStarts (branch : Branch) : list Effect :=
  filter (λ e, has_start_kind e && unresolved e = true) (currentMutations branch).

(** A retained submission is one unresolved effect. *)
Definition pending_input_unresolved (branch : Branch) : bool :=
  match br_pending_user_input_effect_id branch with
  | None => true
  | Some id =>
      match pj_outbox p !! id with
      | Some e => v2_kind UserInputSubmit e
          && String.eqb (fx_work_order_id e) (st_work_order_id s)
          && String.eqb (fx_branch_ref e) (br_branch_ref branch) && unresolved e
      | None => false
      end
  end.

(** The starts of the current dispatch that are not yet settled nor ambiguous. *)
Definition currentStarts (branch : Branch) : list Effect :=
  filter (λ e, String.eqb (fx_work_order_id e) (st_work_order_id s)
      && String.eqb (fx_branch_ref e) (br_branch_ref branch)
      && (fx_attempt e =? br_attempt branch)%Z
      && bool_decide (fx_dispatch_id e = br_dispatch_id branch)
      && has_start_kind e && among [FsPending; FsClaimed; FsSending] (fx_status e) = true)
    (effects p).

(** A branch in doubt has one ambiguous start, nothing else under way, and somebody who looks. *)
Definition ambiguous_start_closed (branch : Branch) : bool :=
  match unresolvedStarts branch with
  | [start] =>
      among [FsSending; FsDeliveryUnknown] (fx_status start)
      && negb (has_status FsDeliveryUnknown start
          && negb (bool_decide (de_classification <$> br_delivery branch = Some CDeliveryUnknown)))
      && negb (existsb (λ e, unresolved e && negb (String.eqb (fx_effect_id e) (fx_effect_id start)))
          (currentMutations branch))
      && hasOpenDeliveryReconciliationAttention s branch start
  | _ => false
  end.

(** The submission of a cancelling branch that still shows its request. *)
Definition submission_may_be_sent (branch : Branch) : bool :=
  match effect_at p (br_pending_user_input_effect_id branch) with
  | Some e => among [FsSending; FsDeliveryUnknown] (fx_status e)
  | None => false
  end.

Definition validateBranchClosure (branch : Branch) : res unit :=
  let state := br_state branch in
  refuse negb (pending_input_unresolved branch) with RECEIPT_BINDING in
  refuse bool_decide (state = BDispatchPending) && negb (length (currentStarts branch) =? 1)%nat
    with RECEIPT_BINDING in
  refuse (if bool_decide (state = BDeliveryUnknown) then negb (ambiguous_start_closed branch)
      else negb (bool_decide (state = BDispatchPending))
        && negb (bool_decide (length (unresolvedStarts branch) = 0)))
    with RECEIPT_BINDING in
  let* _ := if among [BRunning; BWaitingForUser; BVerifying; BCancelling] state then
      let* accepted := acceptedCurrentTurn p s branch in
      refuse negb accepted with RECEIPT_BINDING in Ok tt
    else Ok tt in
  refuse among TERMINAL_BRANCH_STATES state
      && (existsb unresolved (currentMutations branch) || is_some (br_open_user_input branch))
    with RECEIPT_BINDING in
  refuse bool_decide (state = BCancelling) && is_some (br_open_user_input branch)
      && negb (submission_may_be_sent branch) with RECEIPT_BINDING in
  if bool_decide (state = BCancelling) then
    let* exact := exactCurrentCancelEffect p s branch in
    refuse negb exact && negb (hasOpenCancelAttention s branch) with RECEIPT_BINDING in Ok tt
  else Ok tt.

(** The effects of the Work Order. *)
Definition own_effects : list Effect :=
  filter (λ e, String.eqb (fx_work_order_id e) (st_work_order_id s) = true) (effects p).

Definition all_states (states : list BranchState) : bool :=
  forallb (λ branch, among states (br_state branch)) (branch_list s).

Definition validateStatusClosure : res unit :=
  refuse among TERMINAL_WORK_ORDER_STATES (st_status s)
      && (negb (all_states TERMINAL_BRANCH_STATES) || existsb unresolved own_effects)
    with RECEIPT_BINDING in
  refuse bool_decide (st_status s = WPaused)
      && negb (all_states [BBlocked; BDeliveryUnknown; BCancelling; BAccepted; BFailed; BCancelled])
    with RECEIPT_BINDING in
  refuse bool_decide (st_status s = WCancelling)
      && (negb (all_states [BDeliveryUnknown; BCancelling; BAccepted; BFailed; BCancelled])
          || existsb (λ e, has_start_kind e && among [FsPending; FsClaimed] (fx_status e))
               own_effects)
    with RECEIPT_BINDING in
  Ok tt.
End Closure.

Definition validateDurableInputClosure `{Sha256} (p : Projection) (w : WorkOrder) : res unit :=
  let s := wo_state w in
  let* version := workOrderEngineContractVersion w in
  let* _ := assertWorkOrderEffectContracts p w in
  if (version =? 1)%Z then Ok tt
  else
    let* _ := requireLifecycleSnapshot p w in
    let* _ := forR (validateBranchClosure p s) (branch_list s) in
    validateStatusClosure p s.

(** * Settlements *)

(** ** Reading the events of a batch *)

Definition is_type (t : EventType) (event : json) : bool :=
  is_str (prop "type" event) (enum_str t).
Definition of_types (ts : list EventType) (event : json) : bool := existsb (λ t, is_type t event) ts.
(** [event.payload.field] *)
Definition payload_field (k : string) (event : json) : json := prop k (prop "payload" event).
(** [event.payload.effect?.effect_contract_version === 2] *)
Definition carries_v2 (event : json) : bool :=
  is_int (prop "effect_contract_version" (payload_field "effect" event)) 2.
(** [event.payload.observation?.name] is one of the names. *)
Definition retains (names : list ObservationName) (event : json) : bool :=
  match prop "name" (payload_field "observation" event) with
  | JStr n => named names n | _ => false end.

Definition SETTLEMENT_EVENTS : list EventType := [EDelivered; ENotSent; EDeliveryUnknown; ESendExpired].

(** A runtime audit, or a probe, of the current contract. *)
Definition current_audit (event : json) : bool :=
  is_type ERuntimeObserved event && retains PROVIDER_SETTLEMENT_CURRENT_OBSERVATIONS event.
Definition current_probe (event : json) : bool :=
  is_type ERecoveryProbe event && retains [NSettlement] event.
Definition settlement_event (event : json) : bool :=
  of_types SETTLEMENT_EVENTS event && carries_v2 event.

(** The entry is required in the events of one class, and optional in the settlements. *)
Definition required_policy (v : json) : res (list json) :=
  refuse negb (truthy v) with SETTLEMENT_POLICY in Ok [v].

Definition policy_entries (event : json) : res (list json) :=
  let* audit := if current_audit event
    then required_policy (payload_field "settlement_policy" event) else Ok [] in
  let settled := if settlement_event event && truthy (payload_field "settlement_policy" event)
    then [payload_field "settlement_policy" event] else [] in
  let* probe := if current_probe event
    then required_policy (prop "settlement_policy" (payload_field "recovery_probe_ledger" event))
    else Ok [] in
  Ok (audit ++ settled ++ probe).

Definition settlementPolicyEntriesFromBatch (events : list json) : res (list json) :=
  let* entries := mapR policy_entries events in Ok (concat entries).

Definition canonicalSettlementPolicyFromBatch (events : list json) : res (option SettlementPolicy) :=
  let* entries := settlementPolicyEntriesFromBatch events in
  let* policies := mapR normalizeSettlementPolicyRecordV2 entries in
  match policies with
  | [] => Ok None
  | policy :: _ =>
      refuse existsb (λ c, negb (bool_decide (c = policy))) policies with SETTLEMENT_POLICY in
      Ok (Some policy)
  end.

(** ** Receipts of a batch *)

(** [validateReceiptBatch(event, batchContext)] *)
Definition validateReceiptBatch (e : PEvent) (batchContext : json) : res unit :=
  match batch_events batchContext with
  | None => Ok tt
  | Some events =>
      refuse (length events <? 2)%nat
          || match last events with
             | Some receipt => negb (is_str (prop "event_id" receipt) (pe_event_id e))
                 || negb (is_type (pe_type e) receipt)
             | None => true
             end
          || existsb (λ x, negb (of_types enum_all x)) events
          || negb (length (filter (λ x, of_types
               [ECommandReceived; EObservationReceived; ESettlementReceived; EInternalReceived] x
               = true) events) =? 1)%nat
        with RECEIPT_BINDING in
      Ok tt
  end.

(** [validateRecoveryProbeReceipt(projection, receiptPayload, batchContext)] *)
Definition validateRecoveryProbeReceipt (p : Projection) (payload : fields) (batchContext : json)
    : res unit :=
  match batch_events batchContext with
  | None => Ok tt
  | Some events =>
      let ledger := prop "recovery_probe_ledger" (prop "result" (get "receipt" payload)) in
      match filter (λ x, is_type ERecoveryProbe x = true) events with
      | [] => refuse negb (is_undef ledger) with "BUSINESS_PROJECTION_RECOVERY_PROBE" in Ok tt
      | event :: rest =>
          let* wrong := orR [
            Ok (negb (bool_decide (rest = [])));
            Ok match ledger with JObj _ => false | _ => true end;
            negR (same ledger (payload_field "recovery_probe_ledger" event))] in
          refuse wrong with "BUSINESS_PROJECTION_RECOVERY_PROBE" in
          let id l := prop "id" (prop "probe_receipt_ref" l) in
          refuse existsb (λ kr,
              let prior := prop "recovery_probe_ledger" (rc_result kr.2) in
              is_int (prop "version" prior) 1 && strict_eq (id prior) (id ledger))
              (map_to_list (pj_observation_receipts p))
            with "BUSINESS_PROJECTION_RECOVERY_PROBE_REUSED" in
          Ok tt
      end
  end.

(** [validateSendExpiryReceipt(receiptPayload, batchContext)] *)
Definition validateSendExpiryReceipt (payload : fields) (batchContext : json) : res unit :=
  match batch_events batchContext with
  | None => Ok tt
  | Some events =>
      match filter (λ x, is_type ESendExpired x && carries_v2 x = true) events with
      | [] => Ok tt
      | [expiration] =>
          let effectId := payload_field "effect_id" expiration in
          let attention := filter (λ x, is_type EAttentionOpened x
            && strict_eq (prop "effect_id" (payload_field "attention" x)) effectId
            && is_str (prop "kind" (payload_field "attention" x)) "delivery_unknown" = true)
            events in
          let audits := filter (λ x, is_type ERuntimeObserved x && retains [NSendExpiry] x
            && strict_eq (payload_field "delivery_effect_id" x) effectId = true) events in
          let late := filter (λ x, is_type ELateObservation x
            && is_str (prop "name" (prop "observation" (payload_field "record" x)))
                 (enum_str NSettlement)
            && strict_eq (prop "effect_id"
                 (prop "payload" (prop "observation" (payload_field "record" x)))) effectId
            && is_str (prop "reason" (payload_field "record" x)) "stale_effect_lease" = true)
            events in
          let result := prop "result" (get "receipt" payload) in
          refuse negb (length attention =? 1)%nat || negb (length audits + length late =? 1)%nat
              || ((length late =? 1)%nat
                  && (negb (is_str (prop "status" result) "quarantined")
                      || negb (is_str (prop "reason" result) "stale_effect_lease")))
            with "BUSINESS_PROJECTION_SEND_EXPIRY" in
          Ok tt
      | _ => fail "BUSINESS_PROJECTION_SEND_EXPIRY"
      end
  end.

(** ** The coherence of a settlement *)

Section Coherence.
Context (p : Projection) (s : State) (actor : json) (events : list json).

(** The settlements of effects of the kind of the policy. *)
Definition policy_settlement (policy : SettlementPolicy) (event : json) : bool :=
  let kind := if truthy (payload_field "effect_id" event)
      && is_undef (payload_field "effect_kind" event)
    then prop "effect_kind" (payload_field "effect" event) else payload_field "effect_kind" event in
  settlement_event event && strict_eq kind (enum_json (sp_effect_kind policy)).

Definition expected_settlement_type (c : Classification) (event : json) : EventType :=
  match c with
  | CAccepted => EDelivered
  | CNotSent => ENotSent
  | CDeliveryUnknown => if is_type ESendExpired event then ESendExpired else EDeliveryUnknown
  end.

(** A new generation of an effect. *)
Definition successor_event (event : json) : bool :=
  is_type EEnqueued event && carries_v2 event
  && negb (is_null (prop "generation_predecessor_effect_id" (payload_field "effect" event))).

(** A failure before the send closes a claimed effect into attention for the operator. *)
Definition check_presend_failure (policy : SettlementPolicy) (effectId : json)
    (settled : option Effect) (settlement : option json) : res unit :=
  let observations := filter (λ x, is_type ERuntimeObserved x && retains [NPresendFailure] x
    && strict_eq (payload_field "delivery_effect_id" x) effectId = true) events in
  let attention := filter (λ x, is_type EAttentionOpened x
    && is_str (prop "kind" (payload_field "attention" x)) "provider_effect_presend_failure"
    && strict_eq (prop "effect_id" (payload_field "attention" x)) effectId = true) events in
  let failures := filter (λ x, is_type EBranchStatus x
    && strict_eq (payload_field "branch_ref" x) (undef_or JStr (fx_branch_ref <$> settled))
    && is_str (payload_field "to" x) "failed" = true) events in
  let observation := match observations with
    | x :: _ => payload_field "observation" x | [] => JUndef end in
  let record := match attention with x :: _ => payload_field "attention" x | [] => JUndef end in
  let failure := prop "failure_record_ref" (prop "payload" observation) in
  let cites (x : option json) := match prop "evidence_refs" (default JUndef x) with
    | JArr l => existsb (strict_eq (prop "id" failure)) l
    | _ => false
    end in
  let* wrong := orR [
    Ok (negb (bool_decide (sp_settlement_source policy = ControlPlane))
      || negb (bool_decide (sp_classification policy = CNotSent))
      || negb (bool_decide (sp_disposition policy = OperatorAttention))
      || negb (bool_decide (sp_retry_scope policy = ScopeNone))
      || negb (bool_decide (sp_retry_mode policy = ModeNone)));
    Ok match settled with
       | None => true
       | Some effect => negb (has_status FsNotSent effect) || is_some (fx_lease effect)
           || negb (bool_decide
                (br_state <$> st_branches s !! fx_branch_ref effect = Some BFailed))
       end;
    Ok (negb (length observations =? 1)%nat || negb (length attention =? 1)%nat
      || negb (length failures =? 1)%nat);
    Ok (negb (is_str (prop "type" actor) "system")
      || negb (strict_eq (prop "id" actor) (prop "actor_id" (prop "actor" observation)))
      || negb (strict_eq (prop "failure_reason" (prop "payload" observation))
           (enum_json (sp_reason policy))));
    negR (same (prop "claimed_fencing_token" (prop "payload" observation))
      (payload_field "fencing_token" (default JUndef settlement)));
    negR (same (prop "detail_ref" record) failure);
    Ok (negb (cites settlement) || negb (cites (head attention)))] in
  refuse wrong with SETTLEMENT_POLICY in Ok tt.

(** A retry candidate: the batch contains the generation that may start now, and no other; the
    branch shows when a later one may. *)
Definition check_retry_candidate (policy : SettlementPolicy) (settled : option Effect)
    (successors : list json) : res unit :=
  match settled with
  | None => fail SETTLEMENT_POLICY
  | Some effect =>
      refuse negb (has_status FsNotSent effect)
          || negb (bool_decide (sp_retry_scope policy = ScopeEffectGeneration))
        with SETTLEMENT_POLICY in
      if negb (is_start_kind (sp_effect_kind policy)) then
        refuse negb (bool_decide (successors = [])) with SETTLEMENT_POLICY in Ok tt
      else match fx_delivery effect, st_branches s !! fx_branch_ref effect with
      | Some delivery, Some branch =>
          let* schedule := deriveEffectGenerationRetryScheduleV2
            (schedule_input s policy (fx_generation effect) (ed_recorded_at delivery)
              (br_attempt_deadline_at branch)) in
          let immediate := rs_permitted schedule && rs_automatic schedule
            && (rs_delay_ms schedule =? 0)%Z in
          refuse negb (length successors =? (if immediate then 1 else 0))%nat
            with SETTLEMENT_POLICY in
          if immediate then
            let generation := prop "operation_generation"
              (payload_field "effect" (default JUndef (head successors))) in
            refuse negb (bool_decide (br_state branch = BDispatchPending))
                || negb (is_int generation (rs_next_generation schedule)) with SETTLEMENT_POLICY in
            Ok tt
          else if rs_permitted schedule then
            refuse negb (bool_decide (br_state branch = BRetryable))
                || negb (bool_decide (br_retry_at branch = Some (rs_eligible_at schedule)))
              with SETTLEMENT_POLICY in
            Ok tt
          else
            refuse negb (bool_decide (br_state branch = BFailed)) with SETTLEMENT_POLICY in Ok tt
      | _, _ => Err TypeError
      end
  end.

(** The one settlement the policy binds; none for a probe that stays inconclusive. *)
Definition bound_settlement (policy : SettlementPolicy) : res (option json) :=
  match filter (λ x, policy_settlement policy x = true) events with
  | [] =>
      refuse negb (bool_decide (sp_classification policy = CDeliveryUnknown))
          || negb (existsb (λ x, is_type ERecoveryProbe x
               && is_str (prop "classification" (payload_field "recovery_probe_ledger" x))
                    "delivery_unknown") events)
        with SETTLEMENT_POLICY in
      Ok None
  | [settlement] =>
      refuse negb (is_type (expected_settlement_type (sp_classification policy) settlement)
          settlement) with SETTLEMENT_POLICY in
      Ok (Some settlement)
  | _ => fail SETTLEMENT_POLICY
  end.

(** The effect the settlement, or the ledger of a probe, names. *)
Definition settled_effect_id (settlement : option json) : json :=
  or_json (match settlement with Some x => payload_field "effect_id" x | None => JUndef end)
    (or_json (match head (filter (λ x, is_type ERecoveryProbe x = true) events) with
       | Some x => prop "effect_id" (payload_field "recovery_probe_ledger" x)
       | None => JUndef
       end) JNull).

Definition check_policy (policy : SettlementPolicy) : res unit :=
  refuse existsb (is_type EAttemptOpened) events with SETTLEMENT_POLICY in
  let* settlement := bound_settlement policy in
  let effectId := settled_effect_id settlement in
  refuse is_null effectId with SETTLEMENT_POLICY in
  let all := filter (λ x, successor_event x = true) events in
  let successors := filter (λ x, strict_eq
    (prop "generation_predecessor_effect_id" (payload_field "effect" x)) effectId = true) all in
  refuse negb (length all =? length successors)%nat with SETTLEMENT_POLICY in
  let settled := match effectId with JStr id => pj_outbox p !! id | _ => None end in
  refuse is_some settlement
      && match settled ≫= fx_settlement_policy with
         | Some stored => negb (bool_decide (stored = policy)) | None => false end
    with SETTLEMENT_POLICY in
  if bool_decide (sp_disposition policy = RetryCandidate)
  then check_retry_candidate policy settled successors
  else
    refuse negb (bool_decide (successors = [])) with SETTLEMENT_POLICY in
    if among V2_PRESEND_FAILURE_REASONS (sp_reason policy)
    then check_presend_failure policy effectId settled settlement else Ok tt.

Definition semantic_batch : bool :=
  existsb (λ x, current_audit x || current_probe x || (is_type ESendExpired x && carries_v2 x))
    events.

Definition check_coherence : res unit :=
  let* entries := settlementPolicyEntriesFromBatch events in
  if negb semantic_batch then Ok tt
  else
    let* policy := canonicalSettlementPolicyFromBatch events in
    match policy with
    | None => fail SETTLEMENT_POLICY
    | Some policy => check_policy policy
    end.
End Coherence.

(** [validateSettlementPolicyEventCoherence(projection, workOrder, batchContext)] *)
Definition validateSettlementPolicyEventCoherence (p : Projection) (w : WorkOrder)
    (batchContext : json) : res unit :=
  match batch_events batchContext with
  | None => Ok tt
  | Some events => check_coherence p (wo_state w) (prop "actor" batchContext) events
  end.
