(* ===== verification/ProjectorReceipt.v ===== *)
(** Receipts ([packages/business-orchestrator/src/projector.js], lines 3710-3978 and 4362-4850):
    the event that closes an input records it, once, and only when what the input leaves behind is
    coherent. *)

From Stdlib Require Import ZArith Lia String.
From stdpp Require Import base tactics list strings option gmap.
From S2P Require Import Prelude JsString JsDate Json SettlementPolicy ContractBase PlanContract.
From S2P Require Import Envelope WorkOrderState WorkOrderFacts WorkOrderEffects Outbox Lifecycle.
From S2P Require Import ProjectorBase Projection ProjectorInput ProjectorWorkOrder.
From S2P Require Import ProjectorBranch ProjectorObserve ProjectorOutbox ProjectorSettlement.
From S2P Require Import ProjectorSettlement.
Import CONTRACT_LIMITS.

Abbreviation SETTLEMENT_BUNDLE := "BUSINESS_PROJECTION_PROVIDER_SETTLEMENT_BUNDLE" (only parsing).
Abbreviation ENTRY_WINDOW := "BUSINESS_PROJECTION_PROVIDER_ENTRY_WINDOW" (only parsing).

Definition RECEIPT_FIELDS : list string :=
  ["source_id"; "source_type"; "identity_hash"; "payload_hash"; "work_order_id";
   "applied_revision"; "batch_id"; "event_ids"; "result"].
Definition PROVIDER_SETTLEMENT_BUNDLE_FIELDS : list string :=
  ["bundle_schema_version"; "settlement_contract_version"; "cutover_id"; "observation_name";
   "effect_binding"; "ingress_kind"; "provenance_ref"; "effective_classification";
   "settlement_policy_hash"; "domain_event_manifest_hash"].
Definition PROVIDER_SETTLEMENT_EFFECT_BINDING_FIELDS : list string :=
  ["effect_id"; "effect_contract_version"; "effect_kind"; "branch_ref"; "attempt"; "dispatch_id";
   "mutation_idempotency_key"].

(** A constant of the contract. *)
Definition constant (value : json) (z : Z) : res unit :=
  refuse negb (is_int value z) with INVALID in Ok tt.

(** One of a list of texts. *)
Definition one_of (value : json) (allowed : list string) : res string :=
  match value with
  | JStr s => refuse negb (includes allowed s) with INVALID in Ok s
  | _ => fail INVALID
  end.

Definition normalizeProviderSettlementBundle (value : json) : res SettlementBundle :=
  let* bundle := exact value PROVIDER_SETTLEMENT_BUNDLE_FIELDS PROVIDER_SETTLEMENT_BUNDLE_FIELDS in
  let* binding := exact (get "effect_binding" bundle) PROVIDER_SETTLEMENT_EFFECT_BINDING_FIELDS
    PROVIDER_SETTLEMENT_EFFECT_BINDING_FIELDS in
  let* _ := constant (get "bundle_schema_version" bundle) 1 in
  let* _ := constant (get "settlement_contract_version" bundle) 2 in
  let* cutover_id := portableRef (get "cutover_id" bundle) in
  let* name := enumeration (get "observation_name" bundle)
    PROVIDER_SETTLEMENT_CURRENT_OBSERVATIONS in
  let* effect_id := portableRef (get "effect_id" binding) in
  let* _ := constant (get "effect_contract_version" binding) 2 in
  let* kind := enumeration (get "effect_kind" binding) (@enum_all EffectKind _) in
  let* branch_ref := portableRef (get "branch_ref" binding) in
  let* attempt := count (get "attempt" binding) in
  let* dispatch_id := portableRef (get "dispatch_id" binding) in
  let* key := portableRef (get "mutation_idempotency_key" binding) in
  let* ingress := one_of (get "ingress_kind" bundle)
    ["worker_result"; "recovery_probe"; "expiry_receipt"; "control_plane_failure"] in
  let* provenance := contentRef (get "provenance_ref" bundle) in
  let* classification := enumeration (get "effective_classification" bundle)
    (@enum_all Classification _) in
  let* policy_hash := nullOr sha256 (get "settlement_policy_hash" bundle) in
  let* manifest := sha256 (get "domain_event_manifest_hash" bundle) in
  Ok {| bn_cutover_id := cutover_id; bn_observation_name := name; bn_effect_id := effect_id;
        bn_effect_kind := kind; bn_branch_ref := branch_ref; bn_attempt := attempt;
        bn_dispatch_id := dispatch_id; bn_mutation_idempotency_key := key;
        bn_ingress_kind := ingress; bn_provenance_ref := provenance;
        bn_effective_classification := classification; bn_settlement_policy_hash := policy_hash;
        bn_domain_event_manifest_hash := manifest |}.

Section Receipts.
Context `{Sha256} {evidence : SendEvidence} (e : PEvent) (b : Binding).

(** [normalizeReceipt(value, sourceType, event, pending, batchId)] *)
Definition normalizeReceipt (value : json) (sourceType : SourceType) (pending : Pending)
    (batchId : option string) : res Receipt :=
  let names := if bool_decide (sourceType = SSettlement)
    then RECEIPT_FIELDS ++ ["settlement_bundle"] else RECEIPT_FIELDS in
  let* receipt := exact value names names in
  let* source_id := portableRef (get "source_id" receipt) in
  let* source_type := enumeration (get "source_type" receipt) [sourceType] in
  let* identity_hash := sha256 (get "identity_hash" receipt) in
  let* payload_hash := sha256 (get "payload_hash" receipt) in
  let* work_order_id := normalizeWorkOrderId (get "work_order_id" receipt) in
  let* applied_revision := count (get "applied_revision" receipt) in
  let* batch_id := portableRef (get "batch_id" receipt) in
  let* event_ids := stringArray (get "event_ids" receipt) 1 511 in
  let* result := cloneJson (get "result" receipt) MAX_EVENT_BYTES in
  let* bundle := if bool_decide (sourceType = SSettlement)
    then let* s := normalizeProviderSettlementBundle (get "settlement_bundle" receipt) in Ok (Some s)
    else Ok None in
  refuse negb (String.eqb source_id (bd_source_id b))
      || negb (String.eqb work_order_id (bd_work_order_id b))
      || negb (applied_revision =? bd_target_revision b)%Z
      || negb (bool_decide (last (pn_event_ids pending) = Some (pe_event_id e)))
      || negb (bool_decide (event_ids = domain_events (pn_event_ids pending)))
      || match pn_batch_id pending with
         | Some id => negb (String.eqb batch_id id) | None => false end
      || match batchId with Some id => negb (String.eqb batch_id id) | None => false end
    with RECEIPT_BINDING in
  Ok {| rc_source_id := source_id; rc_source_type := source_type; rc_identity_hash := identity_hash;
        rc_payload_hash := payload_hash; rc_work_order_id := work_order_id;
        rc_applied_revision := applied_revision; rc_batch_id := batch_id;
        rc_event_ids := event_ids; rc_result := result; rc_settlement_bundle := bundle;
        rc_event_hashes := pn_event_hashes pending |}.

(** ** Provider settlements *)

(** The observation every event of the batch that retains one retains. *)
Definition normalizeProviderSettlementObservationFromBatch (events : list json)
    : res ObservationEnvelope :=
  let candidates := filter (λ o, match prop "name" o with
      | JStr n => named PROVIDER_SETTLEMENT_CURRENT_OBSERVATIONS n | _ => false end = true)
    (map (λ x, or_json (payload_field "observation" x)
       (prop "observation" (payload_field "record" x))) (domain_events events)) in
  let normalize o := match normalizeBusinessRuntimeObservationEnvelope o with
    | Ok n => Ok n | Err _ => fail SETTLEMENT_BUNDLE end in
  match candidates with
  | [] => fail SETTLEMENT_BUNDLE
  | first :: rest =>
      let* normalized := normalize first in
      let* _ := forR (λ o,
        let* other := normalize o in
        let* equal := same (observation_json other) (observation_json normalized) in
        refuse negb equal with SETTLEMENT_BUNDLE in Ok tt) rest in
      Ok normalized
  end.

Definition providerSettlementManifestHash (events : list json) : res string :=
  let* entries := mapR (λ x,
    let* hash := canonicalHash x in
    Ok (JObj [("event_id", prop "event_id" x); ("type", prop "type" x); ("event_hash", JStr hash)]))
    (domain_events events) in
  canonicalHash (JArr entries).

(** How a settlement came in, and what proves it. *)
Definition ingress_of (o : ObservationPayload) : option (string * ContentRef) :=
  match o with
  | SendExpiryPayload _ _ _ ref => Some ("expiry_receipt", ref)
  | PresendFailurePayload _ _ _ ref => Some ("control_plane_failure", ref)
  | SettlementPayload _ _ (ProbeEvidence probe) =>
      Some ("recovery_probe", rpr_probe_receipt_ref probe)
  | SettlementPayload _ _ (WorkerEvidence _ ref) => Some ("worker_result", ref)
  | _ => None
  end.

(** The bundle and the observation name the effect. *)
Definition bundle_binds (epoch : json) (bundle : SettlementBundle) (o : ObservationEnvelope)
    (effect : Effect) : res bool :=
  let identity := fx_identity effect in
  negR (orR [
    Ok (negb (strict_eq (JStr (bn_cutover_id bundle)) (prop "cutover_id" epoch)));
    Ok (negb (bool_decide (bn_observation_name bundle = observation_name o)));
    negR (same
      (effect_binding_json (bn_effect_id bundle) (bn_effect_kind bundle) (bn_branch_ref bundle)
        (bn_attempt bundle) (bn_dispatch_id bundle) (bn_mutation_idempotency_key bundle))
      (JObj [("effect_id", JStr (fx_effect_id effect));
             ("effect_contract_version", effect_field effect "effect_contract_version");
             ("effect_kind", JStr (ef_effect_kind identity));
             ("branch_ref", JStr (fx_branch_ref effect)); ("attempt", JInt (fx_attempt effect));
             ("dispatch_id", opt_json JStr (fx_dispatch_id effect));
             ("mutation_idempotency_key", JStr (ef_idempotency_key identity))]));
    Ok match payload_binding (oe_payload o) with
       | Some eb => negb (String.eqb (eb_effect_id eb) (fx_effect_id effect))
           || negb (has_kind (eb_effect_kind eb) effect)
           || negb (String.eqb (eb_branch_ref eb) (fx_branch_ref effect))
           || negb (eb_attempt eb =? fx_attempt effect)%Z
           || negb (bool_decide (Some (eb_dispatch_id eb) = fx_dispatch_id effect))
       | None => true
       end]).

Definition validateProviderSettlementReceiptBundle (p : Projection) (receipt : Receipt)
    (batchContext : json) : res unit :=
  match rc_source_type receipt, rc_settlement_bundle receipt with
  | SSettlement, Some bundle =>
      match pj_provider_settlement_epoch p, batch_events batchContext with
      | None, _ => fail CUTOVER
      | Some _, None => Err TypeError
      | Some epoch, Some events =>
          let* o := normalizeProviderSettlementObservationFromBatch events in
          match pj_outbox p !! bn_effect_id bundle with
          | None => fail SETTLEMENT_BUNDLE
          | Some effect =>
              let* binds := bundle_binds epoch bundle o effect in
              refuse negb binds with SETTLEMENT_BUNDLE in
              match ingress_of (oe_payload o) with
              | None => fail SETTLEMENT_BUNDLE      (* not reached: the name is a current one *)
              | Some (ingress, provenance) =>
                  let* policy := canonicalSettlementPolicyFromBatch events in
                  let* policyHash := match policy with
                    | Some q => let* h := canonicalHash (settlement_policy_json q) in Ok (Some h)
                    | None => Ok None
                    end in
                  let classification := match policy with
                    | Some q => Some (sp_classification q)
                    | None => payload_classification (oe_payload o)
                    end in
                  let* wrong := orR [
                    Ok (negb (String.eqb (bn_ingress_kind bundle) ingress));
                    Ok (negb (bool_decide (bn_provenance_ref bundle = provenance)));
                    Ok (negb (bool_decide
                      (Some (bn_effective_classification bundle) = classification)));
                    Ok (negb (bool_decide (bn_settlement_policy_hash bundle = policyHash)));
                    (let* manifest := providerSettlementManifestHash events in
                     Ok (negb (String.eqb (bn_domain_event_manifest_hash bundle) manifest)))] in
                  refuse wrong with SETTLEMENT_BUNDLE in
                  refuse is_none policy
                      && negb (match domain_events events with
                         | [x] => is_type ELateObservation x | _ => false end)
                    with SETTLEMENT_BUNDLE in
                  Ok tt
              end
          end
      end
  | _, _ => Ok tt
  end.

(** ** Send authorisation *)

Definition SEND_RESULT_FIELDS : list string :=
  ["internal_action_id"; "work_order_id"; "work_order_revision"; "effect_id"; "action";
   "outbox_status"; "fencing_token"; "packet_verification_receipt"].

Definition authorized_send (x : json) : bool :=
  is_int (payload_field "send_authorization_contract_version" x) SEND_AUTHORIZATION_CONTRACT_VERSION.

Definition validateSendAuthorizationReceipt (receipt : Receipt) (batchContext : json) : res unit :=
  match batch_events batchContext with
  | None => Ok tt
  | Some events =>
      match filter (λ x, is_type ESendBegun x && carries_v2 x
          && match prop "payload" x with
             | JObj fs => has_own fs "packet_verification_receipt" | _ => false end = true) events with
      | [] => Ok tt
      | [send] =>
          refuse negb (bool_decide (rc_source_type receipt = SInternal)) with PACKET_VERIFICATION in
          let names := if authorized_send send
            then SEND_RESULT_FIELDS ++ ["send_authorization_bundle"] else SEND_RESULT_FIELDS in
          let* result := exact (rc_result receipt) names names in
          let* wrong := orR [
            Ok (negb (is_str (get "internal_action_id" result) (rc_source_id receipt))
              || negb (is_str (get "work_order_id" result) (rc_work_order_id receipt))
              || negb (is_int (get "work_order_revision" result) (rc_applied_revision receipt))
              || negb (strict_eq (get "effect_id" result) (payload_field "effect_id" send))
              || negb (is_str (get "action" result) "outbox.send.begin")
              || negb (is_str (get "outbox_status" result) "sending"));
            negR (same (get "fencing_token" result)
              (JObj [("lease_id", payload_field "lease_id" send);
                     ("owner_id", payload_field "lease_owner_id" send);
                     ("generation", payload_field "lease_generation" send)]));
            negR (same (get "packet_verification_receipt" result)
              (payload_field "packet_verification_receipt" send))] in
          refuse wrong with PACKET_VERIFICATION in
          if authorized_send send then
            let* bundle := match normalizeSendAuthorizationBundleV1
                (get "send_authorization_bundle" result) with
              | Err (BusinessSendAuthorizationError _) => fail PACKET_VERIFICATION
              | r => r
              end in
            let* unbound := orR [negR (same (prop "send_event" bundle) send);
              Ok (negb (is_str (prop "batch_id" bundle) (rc_batch_id receipt)))] in
            refuse unbound with PACKET_VERIFICATION in Ok tt
          else Ok tt
      | _ => fail PACKET_VERIFICATION
      end
  end.

(** ** Provider entry windows *)

(** [try { ... } catch (error) { providerEntryWindowFailure(...) }] *)
Definition guarded {A} (r : res A) : res A :=
  match r with
  | Err (BusinessProviderEntryWindowError _) | Err (BusinessSendAuthorizationError _) =>
      fail ENTRY_WINDOW
  | r => r
  end.

Definition with_proof (proof : json) (more : fields) : json :=
  JObj (("committed_send_authorization", proof) :: more).

Definition committedSendProofFromReceipt (receipt : option json) : res json :=
  let r := default JUndef receipt in
  guarded (createCommittedSendAuthorizationProofV2
    (JObj [("send_authorization_bundle", prop "send_authorization_bundle" (prop "result" r));
           ("internal_receipt", r)])).

(** The receipt of an internal action the index names. *)
Definition internal_receipt (p : Projection) (id : json) : option json :=
  match id with JStr s => receipt_json <$> pj_internal_receipts p !! s | _ => None end.

Definition is_base (window_sequence : json) : bool := is_int window_sequence 0.

Definition currentProviderEntryWindow (p : Projection) (index proof : json) : res (json * json) :=
  match internal_receipt p (prop "current_window_receipt_id" index) with
  | None => fail ENTRY_WINDOW
  | Some current =>
      let* window := guarded (
        let* window := if is_base (prop "current_window_sequence" index)
          then createProviderEntryWindowAnchorV1 (with_proof proof [])
          else normalizeProviderEntryWindowV1
            (prop "provider_entry_window_continuation" (prop "result" current))
            (with_proof proof []) in
        let* _ := normalizeProviderEntryWindowIndexV1 index (with_proof proof
          [("current_window", window);
           ("current_window_internal_receipt",
             if is_base (prop "window_sequence" window) then JNull else current)]) in
        Ok window) in
      Ok (window, current)
  end.

(** The identifier of the effect of a proof, as a key of the windows. *)
Definition proof_effect_id (proof : json) : res string :=
  match prop "effect_id" (prop "effect" proof) with JStr id => Ok id | _ => Err TypeError end.

Definition put_window (id : string) (index : json) (p : Projection) : Projection :=
  set_pj_provider_entry_windows (<[id := index]> (pj_provider_entry_windows p)) p.

(** A send opens the window of its effect. *)
Definition open_window (p : Projection) (receipt : Receipt) : res Projection :=
  let* proof := committedSendProofFromReceipt (Some (receipt_json receipt)) in
  let* id := proof_effect_id proof in
  refuse is_some (pj_provider_entry_windows p !! id) with ENTRY_WINDOW in
  let* index := guarded (createProviderEntryWindowIndexV1 (with_proof proof [])) in
  Ok (put_window id index p).

(** A renewal while the effect is sent extends its window. *)
Definition extend_window (p : Projection) (receipt : Receipt) (renewal : json) (effect : Effect)
    : res Projection :=
  match pj_provider_entry_windows p !! fx_effect_id effect with
  | None => fail ENTRY_WINDOW
  | Some index =>
      let* proof := committedSendProofFromReceipt
        (internal_receipt p (prop "send_authorization_receipt_id" index)) in
      let* equal := same (prop "effect" proof) (effect_identity V2_EFFECT_IDENTITY_FIELDS effect) in
      refuse negb equal with ENTRY_WINDOW in
      let* '(window, currentReceipt) := currentProviderEntryWindow p index proof in
      let* '(next, nextIndex) := guarded (
        let* next := normalizeProviderEntryWindowV1
          (prop "provider_entry_window_continuation" (rc_result receipt)) (with_proof proof []) in
        let* _ := normalizeProviderEntryWindowReceiptClosureV1 (with_proof proof
          [("provider_entry_window", next); ("internal_receipt", receipt_json receipt)]) in
        let* nextIndex := advanceProviderEntryWindowIndexV1 (with_proof proof
          [("current_index", index); ("current_window", window);
           ("current_window_internal_receipt",
             if is_base (prop "window_sequence" window) then JNull else currentReceipt);
           ("next_window", next); ("next_window_internal_receipt", receipt_json receipt)]) in
        Ok (next, nextIndex)) in
      let lease := match get "lease" (effect_fields effect) with JObj fs => fs | _ => [] end in
      let* unbound := orR [
        Ok (negb (strict_eq (prop "event_id" (prop "source_event" next))
          (prop "event_id" renewal)));
        Ok (negb (strict_eq (prop "lease_expires_at" next) (get "expires_at" lease)));
        negR (same (prop "authorized_fencing_token" next)
          (JObj [("lease_id", get "lease_id" lease); ("owner_id", get "owner_id" lease);
                 ("generation", get "generation" lease)]))] in
      refuse unbound with ENTRY_WINDOW in
      Ok (put_window (fx_effect_id effect) nextIndex p)
  end.

Definition materializeProviderEntryWindow (p : Projection) (receipt : Receipt)
    (batchContext : json) : res Projection :=
  match batch_events batchContext with
  | None => Ok p
  | Some events =>
      if existsb (λ x, is_type ESendBegun x && authorized_send x) events
      then open_window p receipt
      else match head (filter (λ x, is_type ELeaseRenewed x = true) events) with
      | None => Ok p
      | Some renewal =>
          let effect := match payload_field "effect_id" renewal with
            | JStr id => pj_outbox p !! id | _ => None end in
          let supplied := match rc_result receipt with
            | JObj fs => has_own fs "provider_entry_window_continuation" | _ => false end in
          match pj_provider_settlement_epoch p, effect with
          | Some _, Some x =>
              if fx_v2 x && has_status FsSending x then
                refuse negb supplied with ENTRY_WINDOW in extend_window p receipt renewal x
              else refuse supplied with ENTRY_WINDOW in Ok p
          | _, _ => refuse supplied with ENTRY_WINDOW in Ok p
          end
      end
  end.

(** ** The receipt *)

(** The checks of an observation's batch. *)
Definition validateObservationBatch (p : Projection) (w : WorkOrder) (payload : fields)
    (batchContext : json) : res unit :=
  let* _ := validateRecoveryProbeReceipt p payload batchContext in
  let* _ := validateSettlementPolicyEventCoherence p w batchContext in
  validateSendExpiryReceipt payload batchContext.

Definition reduceReceipt (p : Projection) (sourceType : SourceType) (mapName : ReceiptMap)
    (batchContext : json) : res Projection :=
  let* payload := requireSpecificFields e ["receipt"] ["receipt"] in
  let* w := requireWorkOrder p b in
  match wo_pending w with
  | None => fail RECEIPT_BINDING
  | Some pending =>
      refuse negb (String.eqb (pn_source_id pending) (bd_source_id b)) with RECEIPT_BINDING in
      refuse negb (bool_decide (pn_source_type pending = sourceType))
        with "BUSINESS_PROJECTION_SOURCE_CLASS" in
      let* _ := forR (λ t, assertEventAllowedForSource t sourceType) (pn_event_types pending) in
      refuse negb (bd_target_revision b =? expected_target sourceType (bd_prior_revision b))%Z
        with "BUSINESS_PROJECTION_REVISION" in
      let* _ := validateReceiptBatch e batchContext in
      let* _ := match sourceType with
        | SObservation | SSettlement => validateObservationBatch p w payload batchContext
        | _ => Ok tt
        end in
      let* batchId := normalizedBatchId batchContext in
      let* receipt := normalizeReceipt (get "receipt" payload) sourceType pending batchId in
      let* _ := validateSendAuthorizationReceipt receipt batchContext in
      let* _ := validateProviderSettlementReceiptBundle p receipt batchContext in
      let* _ := validateDurableInputClosure p w in
      let* collision := findReceipt p (rc_source_id receipt) in
      match collision with
      | Some (m, existing) =>
          let* equal := same (receipt_json existing) (receipt_json receipt) in
          refuse negb (bool_decide (m = mapName) && equal) with "BUSINESS_PROJECTION_ID_CONFLICT" in
          Ok p
      | None =>
          let* next := materializeProviderEntryWindow p receipt batchContext in
          Ok (add_receipt mapName (rc_source_id receipt) receipt
            (replaceWorkOrder next (set_wo_pending None w)))
      end
  end.
End Receipts.
