(* ===== verification/Cutover.v ===== *)
(** The provider-settlement cutover
    ([packages/business-orchestrator/src/provider-settlement-cutover-boundary.js], lines 140-1121):
    the two-event batch that activates the second settlement contract, the epoch that is read back
    from it, and the readiness that must hold before.

    The file works on plain JSON, and so does the model: a projection is here a JSON value, with
    the field order of objects not represented. *)

From Stdlib Require Import ZArith Lia String Ascii.
From stdpp Require Import base tactics list strings option.
From S2P Require Import Prelude JsString JsDate Json SettlementPolicy ContractBase PlanContract.
From S2P Require Import WorkOrderFacts.

(** [throw boundaryError(code, message, details)] *)
Abbreviation boundaryError code :=
  (Err (BusinessProviderSettlementCutoverBoundaryError code)).
Abbreviation CUTOVER_INVALID := "BUSINESS_PROVIDER_SETTLEMENT_CUTOVER_INVALID" (only parsing).
Abbreviation BATCH_INVALID := "BUSINESS_PROVIDER_SETTLEMENT_CUTOVER_BATCH_INVALID" (only parsing).
Abbreviation PROJECTION_INVALID := "BUSINESS_PROVIDER_SETTLEMENT_CUTOVER_PROJECTION_INVALID"
  (only parsing).
Abbreviation READINESS_INVALID := "BUSINESS_PROVIDER_SETTLEMENT_CUTOVER_READINESS_INVALID"
  (only parsing).
Abbreviation RECEIPT_INVALID := "BUSINESS_PROVIDER_SETTLEMENT_CUTOVER_RECEIPT_INVALID"
  (only parsing).
Abbreviation NOT_READY := "BUSINESS_PROVIDER_SETTLEMENT_CUTOVER_NOT_READY" (only parsing).

Notation "'unless' b 'throw' code 'in' k" := (if b then k else boundaryError code)
  (at level 10, b at level 100, code at level 100, k at level 200) : res_scope.

Definition PROVIDER_SETTLEMENT_CUTOVER_ENVELOPE_VERSION : Z := 1.
Definition PROVIDER_SETTLEMENT_CUTOVER_SCHEMA_VERSION : Z := 1.
Definition PROVIDER_SETTLEMENT_CONTRACT_VERSION : Z := 2.
Definition SEND_AUTHORIZATION_CONTRACT_VERSION : Z := 2.
Definition PROVIDER_SETTLEMENT_CUTOVER_PROJECTION_SCHEMA_VERSION : Z := 2.
Definition PROVIDER_SETTLEMENT_CUTOVER_SOURCE_TYPE : string := "provider_settlement_cutover".
Definition PROVIDER_SETTLEMENT_CUTOVER_ACTION : string := "provider_settlement.v2.activate".
Definition PROVIDER_SETTLEMENT_ACTIVATED_EVENT : string := "business.provider_settlement.v2_activated".
Definition PROVIDER_SETTLEMENT_CUTOVER_RECEIVED_EVENT : string :=
  "business.provider_settlement.cutover_received".
Definition MAX_VALUE_BYTES : Z := 1048576.
Definition MAX_REF_BYTES : Z := 256.

Definition UNSAFE_PROVIDER_EFFECT_STATES : list string := ["claimed"; "sending"; "delivery_unknown"].
Definition LEGACY_UNRESOLVED_PROVIDER_EFFECT_STATES : list string :=
  "pending" :: UNSAFE_PROVIDER_EFFECT_STATES.

Definition CUTOVER_FIELDS : list string :=
  ["version"; "cutover_id"; "actor"; "settlement_contract_version";
   "send_authorization_contract_version"; "payload_hash"].
Definition ACTOR_FIELDS : list string := ["type"; "actor_id"].
Definition PRINCIPAL_FIELDS : list string := ["type"; "id"].
Definition AUTHORITY_FIELDS : list string :=
  ["authorized"; "principal_type"; "principal_id"; "action"; "cutover_id";
   "settlement_contract_version"; "send_authorization_contract_version"].
Definition READINESS_EVIDENCE_FIELDS : list string := ["readiness_assessment_ref"; "assessment"].
Definition READINESS_ASSESSMENT_FIELDS : list string :=
  ["assessment_schema_version"; "status"; "event_store_recovery"; "settlement_ingress";
   "provider_reactors"; "send_authorization_contract_version"; "projected_readiness"].
Definition PROJECTED_READINESS_FIELDS : list string :=
  ["readiness_schema_version"; "journal_sequence"; "pre_cutover_projection_hash";
   "provider_settlement_epoch"; "send_authorization_contract_version";
   "pending_projection_inputs"; "unsafe_provider_effects"].
Definition PENDING_INPUT_FIELDS : list string :=
  ["work_order_id"; "source_id"; "source_type"; "batch_id"].
Definition UNSAFE_EFFECT_FIELDS : list string :=
  ["effect_id"; "effect_contract_version"; "status"; "reason"].
Definition CONTENT_REF_FIELDS : list string := ["id"; "hash"].
Definition ACTIVATION_PAYLOAD_FIELDS : list string :=
  ["cutover_id"; "cutover_schema_version"; "settlement_contract_version";
   "send_authorization_contract_version"; "pre_cutover_projection_hash";
   "readiness_assessment_ref"; "occurred_at"].
Definition RECEIPT_PAYLOAD_FIELDS : list string :=
  ["cutover_id"; "source_type"; "identity_hash"; "payload_hash"; "batch_id";
   "applied_journal_sequence"; "event_ids"; "result"; "occurred_at"].
Definition RESULT_FIELDS : list string :=
  ["status"; "settlement_contract_version"; "send_authorization_contract_version"].
Definition EVENT_FIELDS : list string :=
  ["event_id"; "schema_version"; "type"; "payload"; "evidence_refs"].
Definition BATCH_FIELDS : list string :=
  ["expected_revision"; "batch_id"; "actor"; "correlation_id"; "events"].
Definition BATCH_ACTOR_FIELDS : list string := ["type"; "id"].
Definition EPOCH_FIELDS : list string :=
  ["epoch_schema_version"; "settlement_contract_version"; "send_authorization_contract_version";
   "cutover_id"; "legacy_tail_sequence"; "activation_journal_sequence"; "activation_batch_id";
   "activation_event_id"; "activation_receipt_event_id"; "activation_batch_core_hash";
   "pre_cutover_projection_hash"; "readiness_assessment_ref"; "activated_at"; "receipt"].

(** ** Readers *)

Definition hasExactFields (value : json) (names : list string) : bool :=
  match value with
  | JObj fs =>
      (length (keys fs) =? length names)%nat
      && forallb (includes names) (keys fs) && forallb (has_own fs) names
  | _ => false
  end.

(** [canonicalClone(value, code)]: the value again, when it is canonical JSON within the bound. *)
Definition canonicalClone (value : json) (code : string) : res json :=
  match canonicalJson value with
  | Err _ => boundaryError code
  | Ok serialized =>
      unless (utf8Bytes serialized <=? MAX_VALUE_BYTES)%Z throw code in Ok value
  end.

(** [/[\u0000-\u001f\u007f]/u] *)
Definition control_char (c : ascii) : bool := between 0 31 c || (code c =? 127)%Z.

Definition text (value : json) : res string :=
  match value with
  | JStr s =>
      unless negb (String.eqb (trim s) "") && String.eqb (trim s) s
          && (utf8Bytes s <=? MAX_REF_BYTES)%Z && all_chars (λ c, negb (control_char c)) s
        throw CUTOVER_INVALID in
      Ok s
  | _ => boundaryError CUTOVER_INVALID
  end.

Definition portableRef (value : json) : res string :=
  let* normalized := text value in
  unless portable_pattern normalized throw CUTOVER_INVALID in Ok normalized.

Definition sha256 (value : json) : res string :=
  match value with
  | JStr s => unless hex_pattern 64 s throw CUTOVER_INVALID in Ok s
  | _ => boundaryError CUTOVER_INVALID
  end.

Definition integer (value : json) (minimum : Z) : res Z :=
  match value with
  | JInt z => unless is_safe_integer z && (minimum <=? z)%Z throw CUTOVER_INVALID in Ok z
  | _ => boundaryError CUTOVER_INVALID
  end.

(** The pattern has a year of four digits, that is a text of 24 characters. *)
Definition timestamp (value : json) : res string :=
  match value with
  | JStr s =>
      unless (String.length s =? 24)%nat && negb (bool_decide (ms_of_iso s = None))
        throw CUTOVER_INVALID in
      Ok s
  | _ => boundaryError CUTOVER_INVALID
  end.

(** [normalizeContentRef(value, path, { derivedPrefix: "PSA" })], the only use. *)
Definition normalizeContentRef (value : json) : res ContentRef :=
  unless hasExactFields value CONTENT_REF_FIELDS throw READINESS_INVALID in
  let* id := portableRef (prop "id" value) in
  let* hash := sha256 (prop "hash" value) in
  unless String.eqb id ("PSA-" +:+ slice0 32 hash) throw READINESS_INVALID in
  Ok {| cr_id := id; cr_hash := hash |}.

Definition cutover_id_pattern (s : string) : bool := prefixed_hex_pattern "PSC-" 32 s.

Definition array (value : json) : option (list json) :=
  match value with JArr l => Some l | _ => None end.

(** ** Envelope and principal *)

(** The normalised envelope; the constants of version 1 are written by [envelope_json]. *)
Record CutoverEnvelope := {
  ce_cutover_id : string;
  ce_actor_id : string;
  ce_payload_hash : string;
}.
Definition envelope_json (c : CutoverEnvelope) : json :=
  JObj [("version", JInt PROVIDER_SETTLEMENT_CUTOVER_ENVELOPE_VERSION);
        ("cutover_id", JStr (ce_cutover_id c));
        ("actor", JObj [("type", JStr "system"); ("actor_id", JStr (ce_actor_id c))]);
        ("settlement_contract_version", JInt PROVIDER_SETTLEMENT_CONTRACT_VERSION);
        ("send_authorization_contract_version", JInt SEND_AUTHORIZATION_CONTRACT_VERSION);
        ("payload_hash", JStr (ce_payload_hash c))].

(** What a cutover activates, the content its envelope hashes. *)
Definition contract_versions : json :=
  JObj [("settlement_contract_version", JInt PROVIDER_SETTLEMENT_CONTRACT_VERSION);
        ("send_authorization_contract_version", JInt SEND_AUTHORIZATION_CONTRACT_VERSION)].

(** The authenticated principal: [{ type: "system", id }]. *)
Definition principal_json (id : string) : json := JObj [("type", JStr "system"); ("id", JStr id)].

(** ** Receipt *)

Record CutoverReceipt := {
  ct_cutover_id : string;
  ct_source_type : json;
  ct_identity_hash : string;
  ct_payload_hash : string;
  ct_batch_id : string;
  ct_applied_journal_sequence : Z;
  ct_event_id : string;                        (* [event_ids] has one entry *)
  ct_occurred_at : string;
}.

Definition result_json : json :=
  JObj [("status", JStr "activated");
        ("settlement_contract_version", JInt PROVIDER_SETTLEMENT_CONTRACT_VERSION);
        ("send_authorization_contract_version", JInt SEND_AUTHORIZATION_CONTRACT_VERSION)].

Definition receipt_json (r : CutoverReceipt) : json :=
  JObj [("cutover_id", JStr (ct_cutover_id r)); ("source_type", ct_source_type r);
        ("identity_hash", JStr (ct_identity_hash r)); ("payload_hash", JStr (ct_payload_hash r));
        ("batch_id", JStr (ct_batch_id r));
        ("applied_journal_sequence", JInt (ct_applied_journal_sequence r));
        ("event_ids", JArr [JStr (ct_event_id r)]); ("result", result_json);
        ("occurred_at", JStr (ct_occurred_at r))].

(** [normalizeReceiptResult(value)], whose result is always [result_json]. *)
Definition normalizeReceiptResult (value : json) : res unit :=
  unless hasExactFields value RESULT_FIELDS && is_str (prop "status" value) "activated"
      && is_int (prop "settlement_contract_version" value) PROVIDER_SETTLEMENT_CONTRACT_VERSION
      && is_int (prop "send_authorization_contract_version" value)
           SEND_AUTHORIZATION_CONTRACT_VERSION
    throw RECEIPT_INVALID in
  Ok tt.

Definition normalizeCutoverReceipt (value : json) : res CutoverReceipt :=
  unless hasExactFields value RECEIPT_PAYLOAD_FIELDS throw RECEIPT_INVALID in
  let* eventIds := match array (prop "event_ids" value) with
    | Some l => mapR portableRef l
    | None => boundaryError RECEIPT_INVALID
    end in
  match eventIds with
  | [event_id] =>
      let* cutover_id := portableRef (prop "cutover_id" value) in
      let* identity_hash := sha256 (prop "identity_hash" value) in
      let* payload_hash := sha256 (prop "payload_hash" value) in
      let* batch_id := portableRef (prop "batch_id" value) in
      let* sequence := integer (prop "applied_journal_sequence" value) 1 in
      let* _ := normalizeReceiptResult (prop "result" value) in
      let* occurred_at := timestamp (prop "occurred_at" value) in
      Ok {| ct_cutover_id := cutover_id; ct_source_type := prop "source_type" value;
            ct_identity_hash := identity_hash; ct_payload_hash := payload_hash;
            ct_batch_id := batch_id; ct_applied_journal_sequence := sequence;
            ct_event_id := event_id; ct_occurred_at := occurred_at |}
  | _ => boundaryError RECEIPT_INVALID
  end.

(** ** Epoch *)

Record Epoch := {
  ep_cutover_id : string;
  ep_legacy_tail_sequence : Z;
  ep_activation_journal_sequence : Z;
  ep_activation_batch_id : string;
  ep_activation_event_id : string;
  ep_activation_receipt_event_id : string;
  ep_activation_batch_core_hash : string;
  ep_pre_cutover_projection_hash : string;
  ep_readiness_assessment_ref : ContentRef;
  ep_activated_at : string;
  ep_receipt : CutoverReceipt;
}.
Definition epoch_json (e : Epoch) : json :=
  JObj [("epoch_schema_version", JInt PROVIDER_SETTLEMENT_CUTOVER_SCHEMA_VERSION);
        ("settlement_contract_version", JInt PROVIDER_SETTLEMENT_CONTRACT_VERSION);
        ("send_authorization_contract_version", JInt SEND_AUTHORIZATION_CONTRACT_VERSION);
        ("cutover_id", JStr (ep_cutover_id e));
        ("legacy_tail_sequence", JInt (ep_legacy_tail_sequence e));
        ("activation_journal_sequence", JInt (ep_activation_journal_sequence e));
        ("activation_batch_id", JStr (ep_activation_batch_id e));
        ("activation_event_id", JStr (ep_activation_event_id e));
        ("activation_receipt_event_id", JStr (ep_activation_receipt_event_id e));
        ("activation_batch_core_hash", JStr (ep_activation_batch_core_hash e));
        ("pre_cutover_projection_hash", JStr (ep_pre_cutover_projection_hash e));
        ("readiness_assessment_ref", content_ref_json (ep_readiness_assessment_ref e));
        ("activated_at", JStr (ep_activated_at e));
        ("receipt", receipt_json (ep_receipt e))].

Definition normalizeProviderSettlementEpochV1 (value : json) : res Epoch :=
  unless hasExactFields value EPOCH_FIELDS throw RECEIPT_INVALID in
  let* receipt := normalizeCutoverReceipt (prop "receipt" value) in
  let* schema := integer (prop "epoch_schema_version" value) 1 in
  let* settlement := integer (prop "settlement_contract_version" value) 1 in
  let* authorization := integer (prop "send_authorization_contract_version" value)
    SEND_AUTHORIZATION_CONTRACT_VERSION in
  let* cutover_id := portableRef (prop "cutover_id" value) in
  let* tail := integer (prop "legacy_tail_sequence" value) 0 in
  let* activation := integer (prop "activation_journal_sequence" value) 1 in
  let* batch_id := portableRef (prop "activation_batch_id" value) in
  let* event_id := portableRef (prop "activation_event_id" value) in
  let* receipt_event_id := portableRef (prop "activation_receipt_event_id" value) in
  let* core_hash := sha256 (prop "activation_batch_core_hash" value) in
  let* projection_hash := sha256 (prop "pre_cutover_projection_hash" value) in
  let* readiness := normalizeContentRef (prop "readiness_assessment_ref" value) in
  let* activated_at := timestamp (prop "activated_at" value) in
  unless (schema =? PROVIDER_SETTLEMENT_CUTOVER_SCHEMA_VERSION)%Z
      && (settlement =? PROVIDER_SETTLEMENT_CONTRACT_VERSION)%Z
      && (authorization =? SEND_AUTHORIZATION_CONTRACT_VERSION)%Z
      && cutover_id_pattern cutover_id && (activation =? tail + 1)%Z
      && String.eqb (ct_cutover_id receipt) cutover_id
      && is_str (ct_source_type receipt) PROVIDER_SETTLEMENT_CUTOVER_SOURCE_TYPE
      && String.eqb (ct_batch_id receipt) batch_id
      && (ct_applied_journal_sequence receipt =? activation)%Z
      && String.eqb (ct_event_id receipt) event_id
      && String.eqb (ct_occurred_at receipt) activated_at
    throw RECEIPT_INVALID in
  Ok {| ep_cutover_id := cutover_id; ep_legacy_tail_sequence := tail;
        ep_activation_journal_sequence := activation; ep_activation_batch_id := batch_id;
        ep_activation_event_id := event_id; ep_activation_receipt_event_id := receipt_event_id;
        ep_activation_batch_core_hash := core_hash;
        ep_pre_cutover_projection_hash := projection_hash;
        ep_readiness_assessment_ref := readiness; ep_activated_at := activated_at;
        ep_receipt := receipt |}.

Section Cutover.
Context `{Sha256}.

Definition normalizeProviderSettlementCutoverEnvelopeV1 (input : json) : res CutoverEnvelope :=
  let* value := canonicalClone input CUTOVER_INVALID in
  unless hasExactFields value CUTOVER_FIELDS throw CUTOVER_INVALID in
  unless is_int (prop "version" value) PROVIDER_SETTLEMENT_CUTOVER_ENVELOPE_VERSION
    throw "BUSINESS_PROVIDER_SETTLEMENT_CUTOVER_VERSION" in
  let* cutoverId := portableRef (prop "cutover_id" value) in
  unless cutover_id_pattern cutoverId throw CUTOVER_INVALID in
  let actor := prop "actor" value in
  unless hasExactFields actor ACTOR_FIELDS && is_str (prop "type" actor) "system"
    throw "BUSINESS_PROVIDER_SETTLEMENT_CUTOVER_ACTOR_INVALID" in
  unless is_int (prop "settlement_contract_version" value) PROVIDER_SETTLEMENT_CONTRACT_VERSION
    throw "BUSINESS_PROVIDER_SETTLEMENT_CUTOVER_VERSION" in
  unless is_int (prop "send_authorization_contract_version" value)
      SEND_AUTHORIZATION_CONTRACT_VERSION
    throw "BUSINESS_PROVIDER_SETTLEMENT_CUTOVER_VERSION" in
  let* payloadHash := sha256 (prop "payload_hash" value) in
  let* expected := canonicalHash contract_versions in
  unless String.eqb payloadHash expected
    throw "BUSINESS_PROVIDER_SETTLEMENT_CUTOVER_HASH_MISMATCH" in
  let* actor_id := portableRef (prop "actor_id" actor) in
  Ok {| ce_cutover_id := cutoverId; ce_actor_id := actor_id; ce_payload_hash := payloadHash |}.

(** [normalizePrincipal(value)]: the identifier of the system principal. *)
Definition normalizePrincipal (value : json) : res string :=
  let principal := or_json (prop "principal" value) value in
  unless hasExactFields principal PRINCIPAL_FIELDS && is_str (prop "type" principal) "system"
    throw "BUSINESS_PROVIDER_SETTLEMENT_CUTOVER_AUTHENTICATION_INVALID" in
  portableRef (prop "id" principal).

Definition normalizeAuthority (value : json) (cutover : CutoverEnvelope) (principal : string)
    : res json :=
  unless hasExactFields value AUTHORITY_FIELDS && is_true_value (prop "authorized" value)
      && is_str (prop "principal_type" value) "system"
      && is_str (prop "principal_id" value) principal
      && is_str (prop "action" value) PROVIDER_SETTLEMENT_CUTOVER_ACTION
      && is_str (prop "cutover_id" value) (ce_cutover_id cutover)
      && is_int (prop "settlement_contract_version" value) PROVIDER_SETTLEMENT_CONTRACT_VERSION
      && is_int (prop "send_authorization_contract_version" value)
           SEND_AUTHORIZATION_CONTRACT_VERSION
    throw "BUSINESS_PROVIDER_SETTLEMENT_CUTOVER_AUTHORIZATION_DENIED" in
  canonicalClone value "BUSINESS_PROVIDER_SETTLEMENT_CUTOVER_AUTHORIZATION_DENIED".

Definition cutoverIdentityHash (cutover : CutoverEnvelope) (principal : string) : res string :=
  canonicalHash (JObj [("source_type", JStr PROVIDER_SETTLEMENT_CUTOVER_SOURCE_TYPE);
    ("cutover", envelope_json cutover); ("authenticated_principal", principal_json principal)]).

Definition eventId (sourceId : string) (ordinal : Z) (type : string) (payload evidenceRefs : json)
    : res string :=
  let* hash := canonicalHash (JObj [("source_id", JStr sourceId); ("ordinal", JInt ordinal);
    ("type", JStr type); ("payload", payload); ("evidence_refs", evidenceRefs)]) in
  Ok ("BVE-" +:+ slice0 32 hash).

(** ** Reading the batch *)

Definition normalizeCutoverEvent (value : json) (type : string) (payloadFields : list string)
    : res json :=
  unless hasExactFields value EVENT_FIELDS && is_int (prop "schema_version" value) 1
      && is_str (prop "type" value) type && hasExactFields (prop "payload" value) payloadFields
      && negb (bool_decide (array (prop "evidence_refs" value) = None))
    throw BATCH_INVALID in
  Ok value.

(** The checks that close the activation and its receipt over one epoch, left to right. *)
Definition closes (request activation receiptEvent : json) (expectedRevision : Z)
    (receipt : CutoverReceipt) (readiness : ContentRef)
    (cutoverId payloadHash identityHash activationId receiptId : string) : res bool :=
  let payload := prop "payload" activation in
  let occurred_at := prop "occurred_at" payload in
  negR (orR
    [Ok (negb (cutover_id_pattern cutoverId));
     Ok (negb (is_int (prop "cutover_schema_version" payload)
       PROVIDER_SETTLEMENT_CUTOVER_SCHEMA_VERSION));
     Ok (negb (is_int (prop "settlement_contract_version" payload)
       PROVIDER_SETTLEMENT_CONTRACT_VERSION));
     Ok (negb (is_int (prop "send_authorization_contract_version" payload)
       SEND_AUTHORIZATION_CONTRACT_VERSION));
     (let* hash := sha256 (prop "pre_cutover_projection_hash" payload) in
      Ok (negb (is_str (prop "pre_cutover_projection_hash" payload) hash)));
     negR (same (prop "readiness_assessment_ref" payload) (content_ref_json readiness));
     (let* t := timestamp occurred_at in Ok (negb (is_str occurred_at t)));
     negR (same (prop "evidence_refs" activation) (JArr [JStr (cr_id readiness)]));
     Ok (negb (is_str (prop "event_id" activation) activationId));
     Ok (negb (is_str (prop "event_id" receiptEvent) receiptId));
     Ok (match array (prop "evidence_refs" receiptEvent) with
         | Some l => negb (length l =? 0)%nat | None => true end);
     Ok (negb (String.eqb (ct_cutover_id receipt) cutoverId));
     Ok (negb (is_str (ct_source_type receipt) PROVIDER_SETTLEMENT_CUTOVER_SOURCE_TYPE));
     Ok (negb (String.eqb (ct_payload_hash receipt) payloadHash));
     Ok (negb (String.eqb (ct_identity_hash receipt) identityHash));
     Ok (negb (is_str (prop "batch_id" request) (ct_batch_id receipt)));
     Ok (negb (ct_applied_journal_sequence receipt =? expectedRevision + 1)%Z);
     negR (same (JArr [JStr (ct_event_id receipt)]) (JArr [prop "event_id" activation]));
     Ok (negb (is_str occurred_at (ct_occurred_at receipt)));
     Ok (negb (is_str (prop "batch_id" request) ("business:" +:+ cutoverId)));
     Ok (negb (is_str (prop "correlation_id" request) cutoverId))]).

Definition deriveProviderSettlementEpochFromBatchV1 (input : json) : res Epoch :=
  let* request := canonicalClone input BATCH_INVALID in
  let actor := prop "actor" request in
  match hasExactFields request BATCH_FIELDS && hasExactFields actor BATCH_ACTOR_FIELDS
      && is_str (prop "type" actor) "system", prop "events" request with
  | true, JArr [first; second] =>
      let* expectedRevision := integer (prop "expected_revision" request) 0 in
      let* activation := normalizeCutoverEvent first PROVIDER_SETTLEMENT_ACTIVATED_EVENT
        ACTIVATION_PAYLOAD_FIELDS in
      let* receiptEvent := normalizeCutoverEvent second PROVIDER_SETTLEMENT_CUTOVER_RECEIVED_EVENT
        RECEIPT_PAYLOAD_FIELDS in
      let payload := prop "payload" activation in
      let* receipt := normalizeCutoverReceipt (prop "payload" receiptEvent) in
      let* readiness := normalizeContentRef (prop "readiness_assessment_ref" payload) in
      let* cutoverId := portableRef (prop "cutover_id" payload) in
      let* actorId := portableRef (prop "id" actor) in
      let* payloadHash := canonicalHash contract_versions in
      let* identityHash := cutoverIdentityHash
        {| ce_cutover_id := cutoverId; ce_actor_id := actorId; ce_payload_hash := payloadHash |}
        actorId in
      let* activationId := eventId cutoverId 0 PROVIDER_SETTLEMENT_ACTIVATED_EVENT payload
        (prop "evidence_refs" activation) in
      let* receiptId := eventId cutoverId 1 PROVIDER_SETTLEMENT_CUTOVER_RECEIVED_EVENT
        (prop "payload" receiptEvent) (prop "evidence_refs" receiptEvent) in
      let* closed := closes request activation receiptEvent expectedRevision receipt readiness
        cutoverId payloadHash identityHash activationId receiptId in
      unless closed throw BATCH_INVALID in
      let* core_hash := canonicalHash request in
      Ok {| ep_cutover_id := cutoverId; ep_legacy_tail_sequence := expectedRevision;
            ep_activation_journal_sequence := expectedRevision + 1;
            ep_activation_batch_id := ct_batch_id receipt;
            ep_activation_event_id := activationId;
            ep_activation_receipt_event_id := receiptId;
            ep_activation_batch_core_hash := core_hash;
            ep_pre_cutover_projection_hash :=
              match prop "pre_cutover_projection_hash" payload with JStr s => s | _ => "" end;
            ep_readiness_assessment_ref := readiness; ep_activated_at := ct_occurred_at receipt;
            ep_receipt := receipt |}
  | _, _ => boundaryError BATCH_INVALID
  end.

(** ** The batch of an epoch *)

Definition activation_payload (cutover_id projection_hash : string) (readiness : ContentRef)
    (occurred_at : string) : json :=
  JObj [("cutover_id", JStr cutover_id);
        ("cutover_schema_version", JInt PROVIDER_SETTLEMENT_CUTOVER_SCHEMA_VERSION);
        ("settlement_contract_version", JInt PROVIDER_SETTLEMENT_CONTRACT_VERSION);
        ("send_authorization_contract_version", JInt SEND_AUTHORIZATION_CONTRACT_VERSION);
        ("pre_cutover_projection_hash", JStr projection_hash);
        ("readiness_assessment_ref", content_ref_json readiness);
        ("occurred_at", JStr occurred_at)].

Definition cutover_event (event_id type : string) (payload evidence : json) : json :=
  JObj [("event_id", JStr event_id); ("schema_version", JInt 1); ("type", JStr type);
        ("payload", payload); ("evidence_refs", evidence)].

Definition cutover_request (revision : Z) (batch_id actor_id cutover_id : string)
    (activation receipt : json) : json :=
  JObj [("expected_revision", JInt revision); ("batch_id", JStr batch_id);
        ("actor", JObj [("type", JStr "system"); ("id", JStr actor_id)]);
        ("correlation_id", JStr cutover_id); ("events", JArr [activation; receipt])].

(** The activation event. *)
Definition activation_event (cutover_id projection_hash : string) (readiness : ContentRef)
    (occurred_at : string) : res (string * json) :=
  let payload := activation_payload cutover_id projection_hash readiness occurred_at in
  let evidence := JArr [JStr (cr_id readiness)] in
  let* id := eventId cutover_id 0 PROVIDER_SETTLEMENT_ACTIVATED_EVENT payload evidence in
  Ok (id, cutover_event id PROVIDER_SETTLEMENT_ACTIVATED_EVENT payload evidence).

(** The receipt event. *)
Definition received_event (cutover_id : string) (payload : json) : res json :=
  let* id := eventId cutover_id 1 PROVIDER_SETTLEMENT_CUTOVER_RECEIVED_EVENT payload (JArr []) in
  Ok (cutover_event id PROVIDER_SETTLEMENT_CUTOVER_RECEIVED_EVENT payload (JArr [])).

(** ** The stored receipt *)

Definition assertExactEpochReceiptClosure (epoch : Epoch) (cutover : CutoverEnvelope)
    (identityHash : string) : res unit :=
  let* '(_, activation) := activation_event (ep_cutover_id epoch)
    (ep_pre_cutover_projection_hash epoch) (ep_readiness_assessment_ref epoch)
    (ep_activated_at epoch) in
  let* receiptEvent := received_event (ep_cutover_id epoch) (receipt_json (ep_receipt epoch)) in
  let request := cutover_request (ep_legacy_tail_sequence epoch) (ep_activation_batch_id epoch)
    (ce_actor_id cutover) (ep_cutover_id epoch) activation receiptEvent in
  match deriveProviderSettlementEpochFromBatchV1 request with
  | Err _ => boundaryError RECEIPT_INVALID
  | Ok derived =>
      unless String.eqb (ct_identity_hash (ep_receipt epoch)) identityHash throw RECEIPT_INVALID in
      let* equal := same (epoch_json epoch) (epoch_json derived) in
      unless equal throw RECEIPT_INVALID in Ok tt
  end.

(** [readReceipt(projection, cutover, identityHash)]: the stored result, [None] when there is no
    receipt of this cutover.  The result of a receipt is always [result_json]. *)
Definition readReceipt (projection : json) (cutover : CutoverEnvelope) (identityHash : string)
    : res (option json) :=
  match prop "provider_settlement_epoch" projection with
  | JNull => Ok None
  | value =>
      let* epoch := normalizeProviderSettlementEpochV1 value in
      if negb (String.eqb (ep_cutover_id epoch) (ce_cutover_id cutover)) then Ok None
      else
        unless String.eqb (ct_identity_hash (ep_receipt epoch)) identityHash
            && String.eqb (ct_payload_hash (ep_receipt epoch)) (ce_payload_hash cutover)
          throw "BUSINESS_PROVIDER_SETTLEMENT_CUTOVER_ID_CONFLICT" in
        let* _ := assertExactEpochReceiptClosure epoch cutover identityHash in
        let* result := canonicalClone result_json RECEIPT_INVALID in
        Ok (Some result)
  end.

(** ** Readiness *)

(** An entry of an inventory: what names it, and its fields. *)
Record PendingInput := {
  pi_work_order_id : string; pi_source_id : string; pi_source_type : string; pi_batch_id : string;
}.
Definition pending_input_json (i : PendingInput) : json :=
  JObj [("work_order_id", JStr (pi_work_order_id i)); ("source_id", JStr (pi_source_id i));
        ("source_type", JStr (pi_source_type i)); ("batch_id", JStr (pi_batch_id i))].

Record UnsafeEffect := {
  ue_effect_id : string; ue_effect_contract_version : Z; ue_status : string; ue_reason : string;
}.
Definition unsafe_effect_json (e : UnsafeEffect) : json :=
  JObj [("effect_id", JStr (ue_effect_id e));
        ("effect_contract_version", JInt (ue_effect_contract_version e));
        ("status", JStr (ue_status e)); ("reason", JStr (ue_reason e))].

Record ProjectedReadiness := {
  pr_journal_sequence : Z;
  pr_pre_cutover_projection_hash : string;
  pr_provider_settlement_epoch : json;
  pr_send_authorization_contract_version : Z;
  pr_pending_projection_inputs : list PendingInput;
  pr_unsafe_provider_effects : list UnsafeEffect;
}.
Definition readiness_json (r : ProjectedReadiness) : json :=
  JObj [("readiness_schema_version", JInt 1);
        ("journal_sequence", JInt (pr_journal_sequence r));
        ("pre_cutover_projection_hash", JStr (pr_pre_cutover_projection_hash r));
        ("provider_settlement_epoch", pr_provider_settlement_epoch r);
        ("send_authorization_contract_version", JInt (pr_send_authorization_contract_version r));
        ("pending_projection_inputs", JArr (map pending_input_json (pr_pending_projection_inputs r)));
        ("unsafe_provider_effects", JArr (map unsafe_effect_json (pr_unsafe_provider_effects r)))].

(** The entry of one Work Order, [None] when no input of it is pending. *)
Definition pending_entry (kv : string * json) : res (option PendingInput) :=
  match kv.2 with
  | JObj workOrder =>
      match get "pending_projection_input" workOrder with
      | JNull | JUndef => Ok None
      | JObj pending =>
          let* work_order_id := portableRef (JStr kv.1) in
          let* source_id := portableRef (get "source_id" pending) in
          let* source_type := portableRef (get "source_type" pending) in
          let* batch_id := portableRef (get "batch_id" pending) in
          Ok (Some {| pi_work_order_id := work_order_id; pi_source_id := source_id;
                      pi_source_type := source_type; pi_batch_id := batch_id |})
      | _ => boundaryError PROJECTION_INVALID
      end
  | _ => boundaryError PROJECTION_INVALID
  end.

Definition entries (value : json) : res fields :=
  match value with JObj fs => Ok fs | _ => boundaryError PROJECTION_INVALID end.

Definition pendingProjectionInputs (projection : json) : res (list PendingInput) :=
  let* workOrders := entries (prop "work_orders" projection) in
  let* inputs := mapR pending_entry workOrders in
  Ok (isort (λ l r, text_leb (pi_work_order_id l) (pi_work_order_id r)) (omap (λ x, x) inputs)).

Definition in_states (status : json) (states : list string) : bool :=
  match status with JStr s => includes states s | _ => false end.

(** Why an effect keeps the cutover from happening. *)
Definition unsafe_reason (effect : json) : option string :=
  let legacy := negb (is_int (prop "effect_contract_version" effect)
    PROVIDER_SETTLEMENT_CONTRACT_VERSION) in
  let status := prop "status" effect in
  if in_states status UNSAFE_PROVIDER_EFFECT_STATES then Some "in_flight_or_ambiguous"
  else if legacy && in_states status LEGACY_UNRESOLVED_PROVIDER_EFFECT_STATES
  then Some "legacy_unresolved" else None.

Definition unsafe_entry (kv : string * json) : res (option UnsafeEffect) :=
  match kv.2 with
  | JObj _ =>
      match unsafe_reason kv.2 with
      | None => Ok None
      | Some reason =>
          let version := prop "effect_contract_version" kv.2 in
          let* effect_id := portableRef (JStr kv.1) in
          let* version := integer (if is_undef version then JInt 1 else version) 1 in
          let* status := portableRef (prop "status" kv.2) in
          Ok (Some {| ue_effect_id := effect_id; ue_effect_contract_version := version;
                      ue_status := status; ue_reason := reason |})
      end
  | _ => boundaryError PROJECTION_INVALID
  end.

Definition unsafeProviderEffects (projection : json) : res (list UnsafeEffect) :=
  let* outbox := entries (prop "outbox" projection) in
  let* effects := mapR unsafe_entry outbox in
  Ok (isort (λ l r, text_leb (ue_effect_id l) (ue_effect_id r)) (omap (λ x, x) effects)).

Definition is_object (value : json) : bool := match value with JObj _ => true | _ => false end.

Definition deriveProviderSettlementCutoverReadinessV1 (projection journalSequence : json)
    : res ProjectedReadiness :=
  unless is_object projection && is_object (prop "work_orders" projection)
      && is_object (prop "outbox" projection)
      && is_int (prop "schema_version" projection) PROVIDER_SETTLEMENT_CUTOVER_PROJECTION_SCHEMA_VERSION
      && match projection with JObj fs => has_own fs "provider_settlement_epoch" | _ => false end
    throw PROJECTION_INVALID in
  let* sequence := integer journalSequence 0 in
  let* projectionHash := match canonicalHash projection with
    | Ok hash => Ok hash | Err _ => boundaryError PROJECTION_INVALID end in
  let* inputs := pendingProjectionInputs projection in
  let* effects := unsafeProviderEffects projection in
  Ok {| pr_journal_sequence := sequence; pr_pre_cutover_projection_hash := projectionHash;
        pr_provider_settlement_epoch := prop "provider_settlement_epoch" projection;
        pr_send_authorization_contract_version := SEND_AUTHORIZATION_CONTRACT_VERSION;
        pr_pending_projection_inputs := inputs; pr_unsafe_provider_effects := effects |}.

Definition normalizePendingInput (value : json) : res PendingInput :=
  unless hasExactFields value PENDING_INPUT_FIELDS throw READINESS_INVALID in
  let* work_order_id := portableRef (prop "work_order_id" value) in
  let* source_id := portableRef (prop "source_id" value) in
  let* source_type := portableRef (prop "source_type" value) in
  let* batch_id := portableRef (prop "batch_id" value) in
  Ok {| pi_work_order_id := work_order_id; pi_source_id := source_id;
        pi_source_type := source_type; pi_batch_id := batch_id |}.

Definition normalizeUnsafeEffect (value : json) : res UnsafeEffect :=
  unless hasExactFields value UNSAFE_EFFECT_FIELDS throw READINESS_INVALID in
  let* reason := portableRef (prop "reason" value) in
  unless includes ["in_flight_or_ambiguous"; "legacy_unresolved"] reason throw READINESS_INVALID in
  let* effect_id := portableRef (prop "effect_id" value) in
  let* version := integer (prop "effect_contract_version" value) 1 in
  let* status := portableRef (prop "status" value) in
  Ok {| ue_effect_id := effect_id; ue_effect_contract_version := version;
        ue_status := status; ue_reason := reason |}.

Definition normalizeProjectedReadiness (value : json) : res ProjectedReadiness :=
  unless hasExactFields value PROJECTED_READINESS_FIELDS throw READINESS_INVALID in
  match is_int (prop "readiness_schema_version" value) 1,
        prop "pending_projection_inputs" value, prop "unsafe_provider_effects" value with
  | true, JArr pending, JArr unsafe =>
      let* sequence := integer (prop "journal_sequence" value) 0 in
      let* hash := sha256 (prop "pre_cutover_projection_hash" value) in
      let* version := integer (prop "send_authorization_contract_version" value)
        SEND_AUTHORIZATION_CONTRACT_VERSION in
      let* inputs := mapR normalizePendingInput pending in
      let* effects := mapR normalizeUnsafeEffect unsafe in
      Ok {| pr_journal_sequence := sequence; pr_pre_cutover_projection_hash := hash;
            pr_provider_settlement_epoch := prop "provider_settlement_epoch" value;
            pr_send_authorization_contract_version := version;
            pr_pending_projection_inputs := inputs; pr_unsafe_provider_effects := effects |}
  | _, _, _ => boundaryError READINESS_INVALID
  end.

(** The normalised assessment; its constants are fixed by the checks. *)
Definition assessment_json (readiness : ProjectedReadiness) : json :=
  JObj [("assessment_schema_version", JInt 1); ("status", JStr "ready");
        ("event_store_recovery", JStr "clean"); ("settlement_ingress", JStr "stopped");
        ("provider_reactors", JStr "stopped");
        ("send_authorization_contract_version", JInt SEND_AUTHORIZATION_CONTRACT_VERSION);
        ("projected_readiness", readiness_json readiness)].

Record ReadinessEvidence := {
  re_readiness_assessment_ref : ContentRef;
  re_projected_readiness : ProjectedReadiness;
}.

(** The projection itself is ready: no epoch, no incomplete input, no unsafe effect. *)
Definition projection_ready (r : ProjectedReadiness) : bool :=
  is_null (pr_provider_settlement_epoch r)
  && (length (pr_pending_projection_inputs r) =? 0)%nat
  && (length (pr_unsafe_provider_effects r) =? 0)%nat.

Definition normalizeProviderSettlementCutoverReadinessEvidenceV1 (input : json)
    (expected : ProjectedReadiness) : res ReadinessEvidence :=
  let* value := canonicalClone input READINESS_INVALID in
  let assessment := prop "assessment" value in
  unless hasExactFields value READINESS_EVIDENCE_FIELDS
      && hasExactFields assessment READINESS_ASSESSMENT_FIELDS
    throw READINESS_INVALID in
  let* readiness := normalizeProjectedReadiness (prop "projected_readiness" assessment) in
  unless is_int (prop "assessment_schema_version" assessment) 1
      && is_str (prop "status" assessment) "ready"
      && is_str (prop "event_store_recovery" assessment) "clean"
      && is_str (prop "settlement_ingress" assessment) "stopped"
      && is_str (prop "provider_reactors" assessment) "stopped"
      && is_int (prop "send_authorization_contract_version" assessment)
           SEND_AUTHORIZATION_CONTRACT_VERSION
      && (pr_send_authorization_contract_version readiness =? SEND_AUTHORIZATION_CONTRACT_VERSION)%Z
    throw NOT_READY in
  let* equal := same (readiness_json readiness) (readiness_json expected) in
  unless equal throw "BUSINESS_PROVIDER_SETTLEMENT_CUTOVER_READINESS_STALE" in
  unless projection_ready readiness throw NOT_READY in
  let* assessmentHash := canonicalHash (assessment_json readiness) in
  let* ref := normalizeContentRef (prop "readiness_assessment_ref" value) in
  unless String.eqb (cr_hash ref) assessmentHash
    throw "BUSINESS_PROVIDER_SETTLEMENT_CUTOVER_READINESS_HASH_MISMATCH" in
  Ok {| re_readiness_assessment_ref := ref; re_projected_readiness := readiness |}.

(** ** Building the batch *)

Record CutoverBatch := {
  cb_request : json;
  cb_epoch : Epoch;
  cb_result : json;
  cb_identity_hash : string;
  cb_readiness : ReadinessEvidence;
}.

(** [buildProviderSettlementCutoverBatchV1(input)], with the fields of [input]. *)
Definition buildProviderSettlementCutoverBatchV1
    (input_cutover input_principal projection journal_sequence input_readiness occurred_at : json)
    : res CutoverBatch :=
  let* cutover := normalizeProviderSettlementCutoverEnvelopeV1 input_cutover in
  let* principal := normalizePrincipal input_principal in
  unless String.eqb (ce_actor_id cutover) principal
    throw "BUSINESS_PROVIDER_SETTLEMENT_CUTOVER_ACTOR_BINDING_MISMATCH" in
  let* expected := deriveProviderSettlementCutoverReadinessV1 projection journal_sequence in
  let* readiness := normalizeProviderSettlementCutoverReadinessEvidenceV1 input_readiness expected in
  let* occurredAt := timestamp occurred_at in
  let* expectedRevision := integer journal_sequence 0 in
  let* identityHash := cutoverIdentityHash cutover principal in
  let batchId := "business:" +:+ ce_cutover_id cutover in
  let* '(activationId, activation) := activation_event (ce_cutover_id cutover)
    (pr_pre_cutover_projection_hash (re_projected_readiness readiness))
    (re_readiness_assessment_ref readiness) occurredAt in
  let receipt :=
    {| ct_cutover_id := ce_cutover_id cutover;
       ct_source_type := JStr PROVIDER_SETTLEMENT_CUTOVER_SOURCE_TYPE;
       ct_identity_hash := identityHash; ct_payload_hash := ce_payload_hash cutover;
       ct_batch_id := batchId; ct_applied_journal_sequence := expectedRevision + 1;
       ct_event_id := activationId; ct_occurred_at := occurredAt |} in
  let* received := received_event (ce_cutover_id cutover) (receipt_json receipt) in
  let request := cutover_request expectedRevision batchId principal (ce_cutover_id cutover)
    activation received in
  let* epoch := deriveProviderSettlementEpochFromBatchV1 request in
  Ok {| cb_request := request; cb_epoch := epoch; cb_result := result_json;
        cb_identity_hash := identityHash; cb_readiness := readiness |}.

(** [assertPrevalidatedCandidate(projection, candidate, expectedEpoch)] *)
Definition assertPrevalidatedCandidate (projection candidate : json) (expectedEpoch : Epoch)
    : res unit :=
  match candidate, projection with
  | JObj _, JObj fs =>
      let expected := JObj (("provider_settlement_epoch", epoch_json expectedEpoch)
        :: filter (λ kv, kv.1 ≠ "provider_settlement_epoch") fs) in
      let* equal := same candidate expected in
      unless equal throw "BUSINESS_PROVIDER_SETTLEMENT_CUTOVER_PREVALIDATION_INVALID" in Ok tt
  | _, _ => boundaryError "BUSINESS_PROVIDER_SETTLEMENT_CUTOVER_PREVALIDATION_INVALID"
  end.

(** [mapBatchConflict(error, cutover)]: the code a store's error is reported under, [None] when
    it is not one of this boundary. *)
Definition mapBatchConflict (error_code : option string) : option string :=
  if bool_decide (error_code = Some "EVENT_BATCH_ID_CONFLICT")
  then Some "BUSINESS_PROVIDER_SETTLEMENT_CUTOVER_ID_CONFLICT" else None.
End Cutover.
