(* ===== verification/Projector.v ===== *)
(** The projector ([packages/business-orchestrator/src/projector.js], lines 4937-5088): the
    dispatch of an event to its reducer, the projection of one event, and replay. *)

From Stdlib Require Import ZArith Lia String.
From stdpp Require Import base tactics list strings option gmap.
From S2P Require Cutover.
From S2P Require Import Prelude JsString JsDate Json SettlementPolicy ContractBase PlanContract.
From S2P Require Import Envelope WorkOrderState WorkOrderFacts WorkOrderEffects Outbox Lifecycle.
From S2P Require Import ProjectorBase Projection ProjectorInput ProjectorWorkOrder.
From S2P Require Import ProjectorBranch ProjectorObserve ProjectorOutbox.
From S2P Require Import ProjectorEnqueue ProjectorDelivery ProjectorSettlement.
From S2P Require Import ProjectorReceipt.
Import CONTRACT_LIMITS.

(** [canonicalHash(projection)]: the digest of the canonical text of the whole projection.  The
    records of the model do not fix that text (they do not tell an absent field from a null
    one), so the digest is an operation of its own. *)
Class ProjectionHash := projection_hash : Projection → res string.

Section Projector.
Context `{Sha256} {evidence : SendEvidence} {hashing : ProjectionHash}.

(** [REDUCERS[event.type]], with the arguments the type takes.  The two global events have no
    reducer. *)
Definition reduce (e : PEvent) (b : Binding) (batchId : option string) (batchContext : json)
    (p : Projection) : res Projection :=
  match pe_type e with
  | EWorkOrderCreated => reduceWorkOrderCreated e b p batchId
  | EWorkOrderStatus => reduceWorkOrderStatus e b p
  | EContextBudget => reduceContextBudget e b p
  | EBranchInitialized => reduceBranchInitialized e b p
  | EAttemptOpened => reduceAttemptOpened e b p
  | EBranchStatus => reduceBranchStatus e b p
  | ERuntimeObserved => reduceRuntimeObserved e b p
  | EVerification => reduceVerification e b p
  | EReview => reduceReview e b p
  | EAcceptance => reduceAcceptance e b p
  | ELateObservation => reduceLateObservation e b p
  | ERecoveryProbe => reduceRecoveryProbeRecorded e b p
  | EEnqueued => reduceOutboxEnqueued e b p
  | EClaimed => reduceOutboxClaimed e b p
  | ESendBegun => reduceOutboxSendBegun e b p
  | ELeaseRenewed => reduceOutboxLeaseRenewed e b p
  | ERequeued => reduceOutboxRequeued e b p
  | ESendExpired => reduceOutboxSendExpired e b p
  | EDelivered => reduceOutboxSettled e b p FsDelivered
  | ENotSent => reduceOutboxSettled e b p FsNotSent
  | EDeliveryUnknown => reduceOutboxSettled e b p FsDeliveryUnknown
  | ECancelled => reduceOutboxCancelled e b p
  | ECommandReceived => reduceReceipt e b p SCommand CommandReceipts batchContext
  | EObservationReceived => reduceReceipt e b p SObservation ObservationReceipts batchContext
  | ESettlementReceived => reduceReceipt e b p SSettlement ObservationReceipts batchContext
  | EInternalReceived => reduceReceipt e b p SInternal InternalReceipts batchContext
  | EAttentionOpened => reduceAttentionOpened e b p
  | EAttentionResolved => reduceAttentionResolved e b p
  | ESettlementActivated | ECutoverReceived => Err TypeError
  end.

Definition providerSettlementCutoverBatchCore (batchContext : json) : res json :=
  match batchContext, batch_events batchContext with
  | JObj batch, Some events =>
      Ok (JObj [("expected_revision", get "expected_revision" batch);
                ("batch_id", get "batch_id" batch); ("actor", get "actor" batch);
                ("correlation_id", get "correlation_id" batch); ("events", JArr events)])
  | _, _ => fail CUTOVER
  end.

(** The core's event at a position; a core whose epoch derives has two. *)
Definition core_event (core : json) (ordinal : nat) : json :=
  match batch_events core with Some l => default JUndef (l !! ordinal) | None => JUndef end.

Definition projectProviderSettlementCutoverEvent (p : Projection) (e : PEvent)
    (batchContext : json) : res Projection :=
  let* core := providerSettlementCutoverBatchCore batchContext in
  match Cutover.deriveProviderSettlementEpochFromBatchV1 core with
  | Err _ => fail CUTOVER
  | Ok derived =>
      let epoch := Cutover.epoch_json derived in
      let ordinal := if bool_decide (pe_type e = ESettlementActivated) then 0%nat else 1%nat in
      let* canonical := normalizeEvent (core_event core ordinal) in
      let* in_position := same (pevent_json e) (pevent_json canonical) in
      refuse negb in_position with CUTOVER in
      match pj_provider_settlement_epoch p with
      | Some active =>
          let* equal := same active epoch in
          if equal then Ok p else fail "BUSINESS_PROJECTION_ID_CONFLICT"
      | None =>
          refuse negb (bool_decide (pe_type e = ESettlementActivated)) with CUTOVER in
          let* actual := projection_hash p in
          refuse negb (String.eqb (Cutover.ep_pre_cutover_projection_hash derived) actual)
            with CUTOVER in
          Ok (set_pj_provider_settlement_epoch (Some epoch) p)
      end
  end.

(** [projectBusinessEventV1] of an event that belongs to a Work Order. *)
Definition project_bound (p : Projection) (e : PEvent) (b : Binding) (batchContext : json)
    : res Projection :=
  let* batchSourceType := validateAtomicBatchStart p e batchContext in
  let* begun := beginInput p e b batchContext batchSourceType in
  if bg_duplicate begun then Ok (bg_projection begun)
  else reduce e b (bg_batch_id begun) batchContext (bg_projection begun).

(** [projectBusinessEventV1(projection, event, batchContext)].  Only a global event has no
    binding. *)
Definition projectBusinessEventV1 (p : Projection) (inputEvent batchContext : json)
    : res Projection :=
  let* e := normalizeEvent inputEvent in
  match pe_binding e with
  | None => projectProviderSettlementCutoverEvent p e batchContext
  | Some b => project_bound p e b batchContext
  end.

(** ** Replay *)

(** The events of an entry, with the context each is projected in: a batch is its own context. *)
Definition entry_events (entry : json) : list (json * json) :=
  match entry, batch_events entry with
  | JObj _, Some events => map (λ event, (event, entry)) events
  | _, _ => [(entry, JUndef)]
  end.

Fixpoint project_events (p : Projection) (l : list (json * json)) : res Projection :=
  match l with
  | [] => Ok p
  | (event, context) :: l' =>
      let* next := projectBusinessEventV1 p event context in project_events next l'
  end.

Definition pending_inputs (p : Projection) : list WorkOrder :=
  filter (λ w, is_some (wo_pending w) = true) (map snd (map_to_list (pj_work_orders p))).

Definition replayBusinessProjectionV1 (entries : json) (initialProjection : Projection)
    : res Projection :=
  match entries with
  | JArr l =>
      let* p := project_events initialProjection (concat (map entry_events l)) in
      refuse negb (length (pending_inputs p) =? 0)%nat
        with "BUSINESS_PROJECTION_RECEIPT_BINDING" in
      Ok p
  | _ => fail INVALID
  end.

(** The reducer the event store calls for every event type. *)
Definition businessProjectionConfigurationV1 : Projection * (Projection → json → json → res Projection) :=
  (initialBusinessProjectionV1, projectBusinessEventV1).
End Projector.
