(* ===== verification/ProjectorSpec.v ===== *)
(** The abstract machine of the projection: what one event may change, whatever its payload.

    [change p p'] lists the changes a reducer can make; [branch_step], [order_step] and
    [effect_step] are the protocols of a branch, a Work Order and an outbox effect.  The file
    [ProjectorRefine] proves that every reducer makes one of these changes. *)

From Stdlib Require Import ZArith Lia String.
From stdpp Require Import base tactics list strings option gmap.
From S2P Require Cutover.
From S2P Require Import Prelude JsString JsDate Json SettlementPolicy ContractBase PlanContract.
From S2P Require Import Envelope WorkOrderState WorkOrderFacts WorkOrderEffects Outbox Lifecycle.
From S2P Require Import ProjectorBase Projection ProjectorInput ProjectorWorkOrder.
From S2P Require Import ProjectorBranch ProjectorOutbox ProjectorDelivery ProjectorSettlement.

(** ** Branches *)

(** How a branch may move: along [BRANCH_TRANSITIONS], or to its next attempt. *)
Inductive branch_move : BranchState * Z → BranchState * Z → Prop :=
| move_stay s n : branch_move (s, n) (s, n)
| move_edge s t n : t ∈ BRANCH_TRANSITIONS s → branch_move (s, n) (t, n)
| move_open s n : s ∈ [BReady; BRetryable; BFailed] →
    branch_move (s, n) (BDispatchPending, (n + 1)%Z).

(** The branch keeps its definition; its dispatch is that of its attempt. *)
Record branch_step (x y : Branch) : Prop := {
  bstep_planned : br_planned y = br_planned x;
  bstep_criteria : br_required_criterion_ids y = br_required_criterion_ids x;
  bstep_move : branch_move (br_state x, br_attempt x) (br_state y, br_attempt y);
  bstep_dispatch : br_attempt y = br_attempt x → br_dispatch_id y = br_dispatch_id x;
}.

(** ** Work Orders *)

(** An attention item stays, and is resolved at most once. *)
Definition attention_step (x y : Attention) : Prop :=
  y = x ∨ (att_resolution x = None ∧ ∃ r, y = resolve r x).

(** A Work Order keeps its plan; its branches are those of the plan, added once, and each makes a
    step of its own. *)
Record order_step (w v : WorkOrder) : Prop := {
  ostep_id : wo_id v = wo_id w;
  ostep_version :
    st_engine_contract_version (wo_state v) = st_engine_contract_version (wo_state w);
  ostep_snapshot : st_plan_snapshot_ref (wo_state v) = st_plan_snapshot_ref (wo_state w);
  ostep_hash : st_plan_hash (wo_state v) = st_plan_hash (wo_state w);
  ostep_plan : st_plan (wo_state v) = st_plan (wo_state w);
  ostep_created : st_created_at (wo_state v) = st_created_at (wo_state w);
  ostep_deadline : st_deadline_at (wo_state v) = st_deadline_at (wo_state w);
  ostep_revision : st_revision (wo_state v) = st_revision (wo_state w);
  ostep_pending : wo_pending v = wo_pending w;
  ostep_status : st_status (wo_state v) = st_status (wo_state w)
    ∨ st_status (wo_state v) ∈ WORK_ORDER_TRANSITIONS (st_status (wo_state w));
  ostep_branches : ∀ r x, st_branches (wo_state w) !! r = Some x →
    ∃ y, st_branches (wo_state v) !! r = Some y ∧ branch_step x y;
  ostep_new_branches : ∀ r y, st_branches (wo_state w) !! r = None →
    st_branches (wo_state v) !! r = Some y →
    ∃ planned criteria state, branch_by_ref (pl_branches (st_plan (wo_state w))) r = Some planned
      ∧ state ∈ [BBlocked; BReady] ∧ y = initialized_branch planned criteria state;
  ostep_attention : ∀ id x, st_attention (wo_state w) !! id = Some x →
    ∃ y, st_attention (wo_state v) !! id = Some y ∧ attention_step x y;
  ostep_decisions : default [] (st_decision_history (wo_state w))
    `prefix_of` default [] (st_decision_history (wo_state v));
}.

(** ** Effects *)

(** The protocol of an outbox effect.  [now] is the time of the event. *)
Inductive effect_step (now : Z) : Effect → Effect → Prop :=
| step_claim x l :
    fx_status x = FsPending →
    ls_generation l = (fx_lease_generation x + 1)%Z →
    (fx_v2 x = true → Z.of_nat (length (fx_fencing_history x)) = fx_lease_generation x) →
    (ls_claimed_at l = now ∧ now < ls_expires_at l)%Z →
    effect_step now x (claim_fields l (set_fx_status FsClaimed now x))
| step_send x l y :
    fx_status x = FsClaimed → fx_lease x = Some l → (now < ls_expires_at l)%Z →
    y = set_fx_status FsSending now x
      ∨ (∃ r, y = set_fx_packet_receipt (Some r) (set_fx_status FsSending now x)) →
    effect_step now x y
| step_renew x l l' :
    fx_status x ∈ [FsClaimed; FsSending] → fx_lease x = Some l → lease_token l' = lease_token l →
    (now < ls_expires_at l < ls_expires_at l')%Z →
    effect_step now x (set_fx_lease (Some l') (set_fx_status (fx_status x) now x))
| step_requeue x l y reason :
    fx_status x = FsClaimed → fx_lease x = Some l → (ls_expires_at l <= now)%Z →
    (let released := set_fx_lease None (set_fx_status FsPending now x) in
     y = released ∨ y = set_fx_packet_receipt None released) →
    effect_step now x (set_fx_last_delivery_reason reason y)
| step_expire x l d policy :
    fx_status x = FsSending → fx_lease x = Some l → (ls_expires_at l <= now)%Z →
    ed_classification d = CDeliveryUnknown → ed_runtime_identity d = None →
    effect_step now x (set_fx_delivery (Some d) (set_fx_lease None
      (set_fx_settlement_policy policy (set_fx_status FsDeliveryUnknown now x))))
| step_settle x status d policy :
    status ∈ OUTBOX_TRANSITIONS (fx_status x) →
    status ∈ [FsDelivered; FsNotSent; FsDeliveryUnknown] →
    (fx_status x ≠ FsDeliveryUnknown → ∃ l, fx_lease x = Some l ∧ now < ls_expires_at l)%Z →
    ed_classification d = settled_classification status → ed_recorded_at d = now →
    effect_step now x (set_fx_settlement_policy policy (set_fx_delivery (Some d)
      (set_fx_lease None (set_fx_status status now x))))
| step_cancel x reason :
    fx_status x ∈ [FsPending; FsClaimed] →
    effect_step now x (set_fx_last_delivery_reason reason
      (set_fx_lease None (set_fx_status FsCancelled now x))).

(** A new effect: pending, never leased. *)
Definition new_pending_effect (now : Z) (x : Effect) : Prop :=
  ∃ v2 identity, x = new_effect v2 identity now.

(** ** Projections *)

(** A Work Order as its first event leaves it. *)
Definition fresh_order (b : Binding) (e : PEvent) (hash : string) (w : WorkOrder) : Prop :=
  ∃ plan version deadline batchId,
    w = {| wo_state := created_state b plan version deadline; wo_extra := ∅;
           wo_pending := Some (created_pending e b batchId hash) |}
    ∧ (bd_occurred_at b < deadline)%Z.

Inductive orders_change (b : Binding) (m : gmap string WorkOrder) : gmap string WorkOrder → Prop :=
| orders_same : orders_change b m m
| orders_step w v : m !! bd_work_order_id b = Some w → order_step w v →
    orders_change b m (<[wo_id v := v]> m).

(** An event touches the effects of its Work Order only. *)
Inductive outbox_change (b : Binding) (m : gmap string Effect) : gmap string Effect → Prop :=
| outbox_same : outbox_change b m m
| outbox_new x : m !! fx_effect_id x = None → new_pending_effect (bd_occurred_at b) x →
    fx_work_order_id x = bd_work_order_id b → outbox_change b m (<[fx_effect_id x := x]> m)
| outbox_step k x y : m !! k = Some x → (fx_updated_at x <= bd_occurred_at b)%Z →
    fx_work_order_id x = bd_work_order_id b → effect_step (bd_occurred_at b) x y →
    outbox_change b m (<[k := y]> m).

(** What the reducer of an event that is not a receipt may change. *)
Record change (b : Binding) (p q : Projection) : Prop := {
  change_orders : orders_change b (pj_work_orders p) (pj_work_orders q);
  change_outbox : outbox_change b (pj_outbox p) (pj_outbox q);
  change_late : pj_late_observations q = pj_late_observations p
    ∨ ∃ id l, pj_late_observations p !! id = None
        ∧ pj_late_observations q = <[id := l]> (pj_late_observations p);
  change_receipts : ∀ m, receipts m q = receipts m p;
  change_windows : pj_provider_entry_windows q = pj_provider_entry_windows p;
  change_epoch : pj_provider_settlement_epoch q = pj_provider_settlement_epoch p;
}.

(** The keys of a projection are the identifiers of what they hold, and the branches of a Work
    Order are those its plan names. *)
Record order_keyed (w : WorkOrder) : Prop := {
  keyed_branches : ∀ r x, st_branches (wo_state w) !! r = Some x →
    branch_by_ref (pl_branches (st_plan (wo_state w))) r = Some (br_planned x);
}.
Record keyed (p : Projection) : Prop := {
  keyed_orders : ∀ k w, pj_work_orders p !! k = Some w → wo_id w = k ∧ order_keyed w;
  keyed_outbox : ∀ k x, pj_outbox p !! k = Some x → fx_effect_id x = k;
  keyed_receipts : ∀ m k r, receipts m p !! k = Some r → rc_source_id r = k;
}.

(** No receipt has the source of the event, and no other Work Order an input from it. *)
Definition input_alone (p : Projection) (b : Binding) : Prop :=
  (∀ m, receipts m p !! bd_source_id b = None)
  ∧ ∀ k w pending, pj_work_orders p !! k = Some w → wo_pending w = Some pending →
      pn_source_id pending = bd_source_id b → wo_id w = bd_work_order_id b.

(** The event joins or opens the input of a Work Order: its revision window and the pending input
    are all that is written. *)
Record opened (p : Projection) (b : Binding) (e : PEvent) (hash : string) (q : Projection)
    (w : WorkOrder) (pending : Pending) (revision : Z) : Prop := {
  opened_order : pj_work_orders p !! bd_work_order_id b = Some w;
  opened_result : q = replaceWorkOrder p
    (set_wo_pending (Some pending) (set_wo_state (set_st_revision revision (wo_state w)) w));
  opened_source : pn_source_id pending = bd_source_id b;
  opened_hash : pn_event_hashes pending !! pe_event_id e = Some hash;
  opened_mode : match wo_pending w with
    | Some before => revision = st_revision (wo_state w)
        ∧ pn_source_id before = bd_source_id b ∧ pn_source_type pending = pn_source_type before
        ∧ pn_event_hashes before !! pe_event_id e = None
        ∧ pending = join_pending before e hash
    | None => bd_prior_revision b = st_revision (wo_state w)
        ∧ revision = bd_target_revision b
        ∧ revision = expected_target (pn_source_type pending) (st_revision (wo_state w))
        ∧ pending = new_pending b (pn_source_type pending) (pn_batch_id pending) e hash
    end;
  opened_live : st_status (wo_state w) ∈ TERMINAL_WORK_ORDER_STATES →
    pe_type e = ELateObservation ∨ is_some (receiptSourceType (pe_type e)) = true;
  opened_alone : input_alone p b;
}.

(** The receipt closes the pending input of the Work Order [w], whose closure holds. *)
Record received `{Sha256} (p : Projection) (b : Binding) (m : ReceiptMap) (q : Projection)
    (w : WorkOrder) (pending : Pending) (r : Receipt) : Prop := {
  received_order : pj_work_orders p !! bd_work_order_id b = Some w;
  received_pending : wo_pending w = Some pending;
  received_source : rc_source_id r = pn_source_id pending;
  received_work_order : rc_work_order_id r = bd_work_order_id b;
  received_revision : rc_applied_revision r = bd_target_revision b;
  received_hashes : rc_event_hashes r = pn_event_hashes pending;
  received_fresh : ∀ k, receipts k p !! rc_source_id r = None;
  received_closure : validateDurableInputClosure p w = Ok tt;
  received_orders : pj_work_orders q
    = <[wo_id w := set_wo_pending None w]> (pj_work_orders p);
  received_receipts : ∀ k, receipts k q
    = if decide (m = k) then <[rc_source_id r := r]> (receipts k p) else receipts k p;
  received_outbox : pj_outbox q = pj_outbox p;
  received_late : pj_late_observations q = pj_late_observations p;
  received_epoch : pj_provider_settlement_epoch q = pj_provider_settlement_epoch p;
}.

(** The event with this identifier and content is known: it is part of the pending input of its
    Work Order, or was received. *)
Definition known_pending (p : Projection) (b : Binding) (id hash : string) : Prop :=
  ∃ w pending, pj_work_orders p !! bd_work_order_id b = Some w ∧ wo_pending w = Some pending
    ∧ pn_source_id pending = bd_source_id b ∧ pn_event_hashes pending !! id = Some hash.
Definition known_received (p : Projection) (b : Binding) (id hash : string) : Prop :=
  ∃ m r, receipts m p !! bd_source_id b = Some r
    ∧ is_Some (pj_work_orders p !! bd_work_order_id b)
    ∧ rc_work_order_id r = bd_work_order_id b ∧ rc_event_hashes r !! id = Some hash.
Definition known (p : Projection) (b : Binding) (id hash : string) : Prop :=
  known_pending p b id hash ∨ known_received p b id hash.

(** One event of a Work Order: it repeats a known one, creates the Work Order, or opens its input
    and then makes a change, or closes the input.  A quarantined observation leaves the Work
    Orders and the outbox alone.  The event that creates a Work Order is not refused when there is
    one already: it takes its place, in the middle of an input. *)
Inductive event_step `{Sha256} (b : Binding) (e : PEvent) (p : Projection) : Projection → Prop :=
| step_again hash : event_hash e = Ok hash → known p b (pe_event_id e) hash → event_step b e p p
| step_created w hash : pe_type e = EWorkOrderCreated →
    pj_work_orders p !! bd_work_order_id b = None →
    input_alone p b → event_hash e = Ok hash → fresh_order b e hash w →
    event_step b e p (replaceWorkOrder p w)
| step_recreated hash q w pending revision v :
    opened p b e hash q w pending revision → pe_type e = EWorkOrderCreated →
    event_hash e = Ok hash → fresh_order b e hash v → event_step b e p (replaceWorkOrder q v)
| step_change hash q w pending revision r :
    opened p b e hash q w pending revision → receiptSourceType (pe_type e) = None →
    pe_type e ≠ EWorkOrderCreated → event_hash e = Ok hash → change b q r →
    (pe_type e = ELateObservation →
      pj_work_orders r = pj_work_orders q ∧ pj_outbox r = pj_outbox q) →
    event_step b e p r
| step_received hash q w pending revision m v r receipt :
    opened p b e hash q w pending revision →
    RECEIPT_TYPES (pe_type e) = Some (pn_source_type pending, m) → event_hash e = Ok hash →
    received q b m r v pending receipt → event_step b e p r.

(** One projected event. *)
Inductive projected `{Sha256} (p : Projection) : Projection → Prop :=
| projected_epoch epoch : pj_provider_settlement_epoch p = None →
    projected p (set_pj_provider_settlement_epoch (Some (Cutover.epoch_json epoch)) p)
| projected_again : projected p p
| projected_event b e q : event_step b e p q → projected p q.
