(* ===== verification/ProjectorRefine.v ===== *)
(** Every reducer makes a change of the abstract machine ([ProjectorSpec]).

    The proofs walk through a reducer with [walk]: a postcondition of a throwing computation is
    one of its normal results, the checks on the way become hypotheses, and what is left is the
    change the reducer makes. *)

From Stdlib Require Import ZArith Lia String.
From stdpp Require Import base tactics list strings option gmap.
From S2P Require Import Prelude JsString JsDate Json SettlementPolicy ContractBase PlanContract.
From S2P Require Import PlanGraph.
From S2P Require Import Envelope WorkOrderState WorkOrderFacts WorkOrderEffects Outbox Lifecycle.
From S2P Require Import ProjectorBase Projection ProjectorInput ProjectorWorkOrder.
From S2P Require Import ProjectorBranch ProjectorObserve ProjectorOutbox.
From S2P Require Import ProjectorEnqueue ProjectorDelivery ProjectorSpec.

(** ** Postconditions *)

Definition post {A} (m : res A) (Q : A → Prop) : Prop := ∀ a, m = Ok a → Q a.

Lemma post_ret {A} (a : A) (Q : A → Prop) : Q a → post (Ok a) Q.
Proof. intros HQ ? [= <-]. exact HQ. Qed.
Lemma post_throw {A} e (Q : A → Prop) : post (Err e) Q.
Proof. intros ? [=]. Qed.
Lemma post_bind {A B} (m : res A) (k : A → res B) (Q : B → Prop) :
  (∀ a, m = Ok a → post (k a) Q) → post (bind m k) Q.
Proof. intros Hk y (x & Hm & H)%bind_Ok. exact (Hk x Hm y H). Qed.
Lemma post_mono {A} (m : res A) (P Q : A → Prop) :
  post m P → (∀ a, P a → Q a) → post m Q.
Proof. intros HP HPQ a H. apply HPQ, HP, H. Qed.

(** One step of a walk: a check that throws leaves the fact that it did not. *)
Ltac walk1 :=
  lazymatch goal with
  | |- post (Ok _) _ => apply post_ret
  | |- post (Err _) _ => apply post_throw
  | |- post (bind _ _) _ => let x := fresh "v" in let E := fresh "E" in
      apply post_bind; intros x E; cbv beta iota
  | |- post (if ?c then _ else _) _ => let B := fresh "B" in destruct c eqn:B
  | |- post (match ?x with _ => _ end) _ => let E := fresh "D" in destruct x eqn:E
  | |- post (let _ := _ in _) _ => cbv zeta
  end.
Ltac walk := repeat walk1.

(** ** Lookups *)

Section Lookups.
Context (p : Projection) (b : Binding).

Lemma requireWorkOrder_Ok w :
  requireWorkOrder p b = Ok w → pj_work_orders p !! bd_work_order_id b = Some w.
Proof. unfold requireWorkOrder. destruct (_ !! _); [|done]. by intros [= ->]. Qed.

Lemma requireBranch_Ok w v x :
  requireBranch w v = Ok x → ∃ r, st_branches (wo_state w) !! r = Some x.
Proof.
  unfold requireBranch. intros (r & _ & H)%bind_Ok. exists r.
  destruct (_ !! r); [|done]. by injection H as ->.
Qed.

Lemma requireOutboxEffect_Ok payload x :
  requireOutboxEffect b p payload = Ok x →
  (∃ k, pj_outbox p !! k = Some x) ∧ fx_work_order_id x = bd_work_order_id b.
Proof.
  unfold requireOutboxEffect. intros H. res_inv H. destruct (_ !! v) eqn:Hx; [|done].
  res_inv H. subst. split_bools. split; [eauto|]. by apply String.eqb_eq.
Qed.
End Lookups.

(** ** Steps of records *)

Lemma branch_step_refl x : branch_step x x.
Proof. split; [done..|constructor|done]. Qed.

(** A branch whose definition, attempt and dispatch are untouched makes the step of its state. *)
Lemma branch_step_of x y :
  br_planned y = br_planned x → br_required_criterion_ids y = br_required_criterion_ids x →
  br_attempt y = br_attempt x → br_dispatch_id y = br_dispatch_id x →
  br_state y = br_state x ∨ br_state y ∈ BRANCH_TRANSITIONS (br_state x) → branch_step x y.
Proof.
  intros Hp Hc Ha Hd Hs. split; [done..| |done]. rewrite Ha.
  destruct Hs as [->|Hs]; [constructor|by apply move_edge].
Qed.

Lemma order_step_refl w : order_step w w.
Proof.
  split; auto.
  - intros r x H. exists x. split; [done|apply branch_step_refl].
  - intros r y H1 H2. congruence.
  - intros id x H. exists x. split; [done|by left].
Qed.

(** The fields of a state that no reducer but the creation writes. *)
Definition same_frame (s t : State) : Prop :=
  st_work_order_id t = st_work_order_id s
  ∧ st_engine_contract_version t = st_engine_contract_version s
  ∧ st_plan_snapshot_ref t = st_plan_snapshot_ref s ∧ st_plan_hash t = st_plan_hash s
  ∧ st_plan t = st_plan s ∧ st_created_at t = st_created_at s
  ∧ st_deadline_at t = st_deadline_at s ∧ st_revision t = st_revision s.

Lemma order_step_frame w v :
  same_frame (wo_state w) (wo_state v) → wo_pending v = wo_pending w →
  st_status (wo_state v) = st_status (wo_state w)
    ∨ st_status (wo_state v) ∈ WORK_ORDER_TRANSITIONS (st_status (wo_state w)) →
  st_branches (wo_state v) = st_branches (wo_state w) →
  st_attention (wo_state v) = st_attention (wo_state w) →
  default [] (st_decision_history (wo_state w))
    `prefix_of` default [] (st_decision_history (wo_state v)) →
  order_step w v.
Proof.
  intros (?&?&?&?&?&?&?&?) Hp Hs Hb Ha Hd. split; try done.
  - intros r x Hx. exists x. rewrite Hb. split; [done|apply branch_step_refl].
  - intros r y Hn Hy. rewrite Hb in Hy. congruence.
  - intros id x Hx. exists x. rewrite Ha. split; [done|by left].
Qed.

(** A branch of a Work Order makes a step. *)
Lemma order_step_branch w x y r extra :
  order_keyed w → st_branches (wo_state w) !! r = Some x → branch_step x y →
  order_step w (with_branch y (set_wo_extra extra w)).
Proof.
  intros Hk Hr Hxy. pose proof (keyed_branches _ Hk _ _ Hr) as Hby.
  apply branch_by_ref_Some in Hby as [_ Href].
  assert (br_branch_ref y = r) as Hy.
  { unfold br_branch_ref. rewrite (bstep_planned _ _ Hxy). exact Href. }
  split; simpl; auto.
  - intros r' x' Hx'. rewrite Hy. destruct (decide (r' = r)) as [->|Hne].
    + rewrite lookup_insert_eq. exists y. split; [done|]. congruence.
    + rewrite lookup_insert_ne by done. exists x'. split; [done|apply branch_step_refl].
  - intros r' y' Hn Hs. rewrite Hy in Hs. destruct (decide (r' = r)) as [->|Hne]; [congruence|].
    rewrite lookup_insert_ne in Hs by done. congruence.
  - intros id a Ha. exists a. split; [done|by left].
Qed.

Lemma set_wo_extra_id w : set_wo_extra (wo_extra w) w = w.
Proof. by destruct w. Qed.

Lemma effect_step_identity now x y :
  effect_step now x y → fx_v2 y = fx_v2 x ∧ fx_identity y = fx_identity x.
Proof. inversion 1; subst; simpl; naive_solver. Qed.

(** ** Changes of a projection *)

Section Changes.
Context (b : Binding) (p : Projection) (Hp : keyed p).
Let now := bd_occurred_at b.

Lemma change_refl : change b p p.
Proof. split; auto; constructor. Qed.

Lemma change_order w v :
  pj_work_orders p !! bd_work_order_id b = Some w → order_step w v → change b p (replaceWorkOrder p v).
Proof.
  intros Hw Hs. split; simpl; auto; [by eapply orders_step|constructor].
Qed.

Lemma change_branch w r x y extra :
  pj_work_orders p !! bd_work_order_id b = Some w → st_branches (wo_state w) !! r = Some x → branch_step x y →
  change b p (replaceBranch p (set_wo_extra extra w) y).
Proof.
  intros Hw Hr Hxy. eapply change_order; [exact Hw|].
  eapply order_step_branch; [|exact Hr|exact Hxy]. by eapply keyed_orders.
Qed.

(** The outbox changes, and with it a branch. *)
Lemma change_with_outbox o : outbox_change b (pj_outbox p) o → change b p (set_pj_outbox o p).
Proof. intros Ho. split; simpl; auto. constructor. Qed.

Lemma change_put k x y :
  pj_outbox p !! k = Some x → (fx_updated_at x <= now)%Z →
  fx_work_order_id x = bd_work_order_id b → effect_step now x y → change b p (put_effect p y).
Proof.
  intros Hx Ht Hb Hs. apply change_with_outbox. unfold fx_effect_id.
  destruct (effect_step_identity _ _ _ Hs) as [_ ->].
  change (ef_effect_id (fx_identity x)) with (fx_effect_id x).
  rewrite (keyed_outbox _ Hp _ _ Hx). by eapply outbox_step.
Qed.

Lemma change_effect_branch q w r x y :
  change b p q → pj_work_orders q = pj_work_orders p →
  pj_work_orders p !! bd_work_order_id b = Some w → st_branches (wo_state w) !! r = Some x → branch_step x y →
  change b p (replaceBranch q w y).
Proof.
  intros Hq Ho Hw Hr Hxy.
  destruct (change_branch w r x y (wo_extra w) Hw Hr Hxy) as [H1 _ _ _ _ _].
  destruct Hq as [_ H2 H3 H4 H5 H6]. split; simpl in *; auto.
  rewrite set_wo_extra_id in H1. rewrite Ho. exact H1.
Qed.
End Changes.

(** ** The reducers *)

Create HintDb projector.
#[export] Hint Resolve change_refl branch_step_refl : projector.

(** Name the lookups a walk went through. *)
Ltac found :=
  repeat match goal with
  | H : requireWorkOrder _ _ = Ok _ |- _ => apply requireWorkOrder_Ok in H
  | H : requireBranch _ _ = Ok _ |- _ => apply requireBranch_Ok in H as (? & H)
  | H : requireOutboxEffect _ _ _ = Ok _ |- _ => apply requireOutboxEffect_Ok in H as ((? & H) & ?)
  end.

(** A frame change of the Work Order, all fields but the written ones being untouched. *)
Ltac frame := apply order_step_frame; simpl; repeat split; auto.

(** A disjunction of checks that did not hold: none did. *)
Lemma orR_false m l : orR (m :: l) = Ok false ↔ m = Ok false ∧ orR l = Ok false.
Proof. simpl. rewrite bind_Ok. split; [intros ([] & ? & ?); naive_solver|naive_solver]. Qed.

Lemma negR_Ok m v : negR m = Ok v ↔ m = Ok (negb v).
Proof.
  unfold negR. rewrite bind_Ok. split; [intros (x & -> & [= <-]); by rewrite negb_involutive|].
  intros ->. exists (negb v). by rewrite negb_involutive.
Qed.

(** Read the checks a walk passed. *)
Ltac pass :=
  repeat match goal with
  | H : ?v = true, E : _ = Ok ?v |- _ => is_var v; subst v
  | H : ?v = false, E : _ = Ok ?v |- _ => is_var v; subst v
  | H : negR _ = Ok _ |- _ => apply negR_Ok in H; cbn [negb] in H
  | H : orR (_ :: _) = Ok false |- _ => apply orR_false in H as [? H]
  | H : orR [] = Ok false |- _ => clear H
  | H : Ok _ = Ok _ |- _ => injection H as H
  | H : bind _ _ = Ok _ |- _ => apply bind_Ok in H as (? & ? & H)
  end.

Lemma enumeration_Ok {A} `{JsEnum A} v (l : list A) a : enumeration v l = Ok a → a ∈ l.
Proof.
  unfold enumeration. destruct v; try done. destruct (enum_find l s) eqn:E; [|done].
  intros [= <-]. by apply enum_find_Some in E as [? _].
Qed.

Section Reducers.
Context `{Sha256} (e : PEvent) (b : Binding) (p : Projection) (Hp : keyed p).
Let now := bd_occurred_at b.

Lemma reduceWorkOrderStatus_change : post (reduceWorkOrderStatus e b p) (change b p).
Proof.
  unfold reduceWorkOrderStatus. walk; found; split_bools.
  all: eapply change_order; [eassumption|frame]; right; subst.
  all: by apply among_true.
Qed.

Lemma reduceContextBudget_change : post (reduceContextBudget e b p) (change b p).
Proof.
  unfold reduceContextBudget. walk; found; auto with projector.
  eapply change_order; [eassumption|frame].
Qed.

Lemma reduceBranchInitialized_change : post (reduceBranchInitialized e b p) (change b p).
Proof.
  unfold reduceBranchInitialized. walk; found; auto with projector.
  eapply change_order; [eassumption|]. split; simpl; auto.
  - intros r x Hx. destruct (decide (r = v2)) as [->|]; [congruence|].
    rewrite lookup_insert_ne by done. eauto with projector.
  - intros r y Hn Hy. destruct (decide (r = v2)) as [->|].
    + rewrite lookup_insert_eq in Hy. injection Hy as <-.
      exists p0, (sort_text v5), v4. split; [done|]. split; [|done].
      by eapply enumeration_Ok.
    + rewrite lookup_insert_ne in Hy by done. congruence.
  - intros id x Hx. exists x. split; [done|by left].
Qed.

Lemma reduceAttemptOpened_change : post (reduceAttemptOpened e b p) (change b p).
Proof.
  unfold reduceAttemptOpened. walk; found; split_bools.
  all: eapply change_branch; [done|eassumption|eassumption|].
  all: split; simpl; [done..| |lia].
  all: subst; constructor; by apply among_true.
Qed.

Lemma moved_branch_step x from to retryAt reason :
  br_state x = from → among (BRANCH_TRANSITIONS from) to = true →
  branch_step x (moved_branch b x from to retryAt reason).
Proof.
  intros <- Ht. apply branch_step_of; try done. right. by apply among_true.
Qed.

Lemma reduceBranchStatus_change : post (reduceBranchStatus e b p) (change b p).
Proof.
  unfold reduceBranchStatus. walk; found; split_bools.
  all: eapply change_branch; [done|eassumption|eassumption|].
  all: by apply moved_branch_step.
Qed.

(** A fact or a delivery leaves the state of the branch alone. *)
Lemma apply_observation_step x identity o d :
  post (apply_observation b x identity o d) (branch_step x).
Proof.
  unfold apply_observation, apply_accepted, apply_not_sent, apply_unknown, apply_fact. walk.
  all: repeat case_match; apply branch_step_of; auto.
Qed.

Lemma reduceRuntimeObserved_change : post (reduceRuntimeObserved e b p) (change b p).
Proof.
  unfold reduceRuntimeObserved. walk; found; auto with projector.
  all: match goal with H : apply_observation _ _ _ _ _ = Ok _ |- _ =>
         apply apply_observation_step in H end.
  all: rewrite <- (set_wo_extra_id v0); by eapply change_branch.
Qed.

Lemma reduceVerification_change : post (reduceVerification e b p) (change b p).
Proof.
  unfold reduceVerification. walk; found.
  all: rewrite <- (set_wo_extra_id v0); eapply change_branch; [done|eassumption..|].
  all: by apply branch_step_of; auto.
Qed.

Lemma reduceReview_change : post (reduceReview e b p) (change b p).
Proof. unfold reduceReview. walk; found. all: eapply change_order; [eassumption|frame]. Qed.

Lemma reduceAcceptance_change : post (reduceAcceptance e b p) (change b p).
Proof.
  unfold reduceAcceptance. walk; found. all: eapply change_order; [eassumption|frame].
  by apply prefix_app_r.
Qed.

Lemma reduceLateObservation_change : post (reduceLateObservation e b p) (change b p).
Proof.
  unfold reduceLateObservation. walk; auto with projector.
  split; simpl; auto; [constructor..|]. right. eauto.
Qed.

Lemma reduceRecoveryProbeRecorded_change :
  post (reduceRecoveryProbeRecorded e b p) (change b p).
Proof. unfold reduceRecoveryProbeRecorded. walk; auto with projector. Qed.

Lemma reduceAttentionOpened_change : post (reduceAttentionOpened e b p) (change b p).
Proof.
  unfold reduceAttentionOpened. walk; found; auto with projector.
  all: eapply change_order; [eassumption|]; split; simpl; auto.
  all: try (intros r x Hx; exists x; split; [done|apply branch_step_refl]).
  all: try (intros r y Hn Hy; congruence).
  all: intros id x Hx; exists x; split; [|by left]; rewrite lookup_insert_ne; congruence.
Qed.

Lemma reduceAttentionResolved_change : post (reduceAttentionResolved e b p) (change b p).
Proof.
  unfold reduceAttentionResolved. walk; found.
  all: eapply change_order; [eassumption|]; split; simpl; auto.
  all: try (intros r x Hx; exists x; split; [done|apply branch_step_refl]).
  all: try (intros r y Hn Hy; congruence).
  intros id x Hx. destruct (decide (id = v1)) as [->|Hne].
  - rewrite lookup_insert_eq. eexists. split; [done|]. right.
    assert (a = x) as <- by congruence. split; [by unfold att_open in *; destruct (att_resolution a)|eauto].
  - rewrite lookup_insert_ne by done. exists x. split; [done|by left].
Qed.

(** ** The outbox *)

(** An effect moves when its mutation makes a step of the protocol. *)
Lemma transitionOutbox_change to mutate allowed required :
  (∀ x payload, to ∈ OUTBOX_TRANSITIONS (fx_status x) → (fx_updated_at x <= now)%Z →
    post (mutate (set_fx_status to now x) payload x) (effect_step now x)) →
  post (transitionOutbox e b p to mutate allowed required)
    (λ q, change b p q ∧ pj_work_orders q = pj_work_orders p).
Proof.
  intros Hm. unfold transitionOutbox. walk; found; split_bools.
  split; [|done]. apply change_with_outbox.
  match goal with H : pj_outbox p !! _ = Some ?x |- _ =>
    rewrite (keyed_outbox _ Hp _ _ H); eapply outbox_step; [exact H|done|done|] end.
  eapply Hm; [by apply among_true|done|eassumption].
Qed.

Lemma outbox_from to from :
  to ∈ OUTBOX_TRANSITIONS from →
  match to with
  | FsClaimed => from = FsPending
  | FsPending | FsSending => from = FsClaimed
  | FsDeliveryUnknown => from = FsSending
  | FsCancelled => from ∈ [FsPending; FsClaimed]
  | FsDelivered | FsNotSent => True
  end.
Proof. destruct from; simpl; rewrite ?elem_of_cons, elem_of_nil; naive_solver set_solver. Qed.

Lemma normalizeLease_Ok v l :
  normalizeLease v = Ok l → (ls_claimed_at l <= ls_heartbeat_at l < ls_expires_at l)%Z.
Proof. unfold normalizeLease. intros Hl. res_inv Hl. subst. split_bools. simpl. lia. Qed.

Lemma claim_step s x payload :
  FsClaimed ∈ OUTBOX_TRANSITIONS (fx_status x) →
  post (claim b s (set_fx_status FsClaimed now x) payload x) (effect_step now x).
Proof.
  intros Ht. unfold claim. walk. pass. split_bools. simpl in *.
  apply step_claim; [by apply outbox_from in Ht|done| |].
  - intros Hv. rewrite Hv in *. simpl in *. split_bools. done.
  - apply normalizeLease_Ok in E. unfold now. lia.
Qed.

Lemma reduceOutboxClaimed_change : post (reduceOutboxClaimed e b p) (change b p).
Proof.
  unfold reduceOutboxClaimed. walk. eapply post_mono.
  - apply transitionOutbox_change. intros. by apply claim_step.
  - by intros q [? _].
Qed.

Lemma current_token_lease x t :
  current_token x t = true → ∃ l, fx_lease x = Some l ∧ lease_token l = t.
Proof.
  unfold current_token. destruct (fx_lease x); [|done]. intros Ht. apply bool_decide_eq_true in Ht.
  eauto.
Qed.

(** The lease a token names, and whether it is over. *)
Ltac lease :=
  match goal with
  | Ht : current_token _ _ = true, Hx : lease_expired _ _ = _ |- _ =>
      apply current_token_lease in Ht as (? & Ht & _); unfold lease_expired in Hx; simpl in *;
      rewrite Ht in Hx; split_bools
  end.

Lemma begin_send_step receipt x payload :
  FsSending ∈ OUTBOX_TRANSITIONS (fx_status x) →
  post (begin_send b receipt (set_fx_status FsSending now x) payload x) (effect_step now x).
Proof.
  intros Ht%outbox_from. unfold begin_send. walk; split_bools.
  all: lease.
  eapply step_send; [done..|]. destruct receipt; eauto.
Qed.

Lemma reduceOutboxSendBegun_change `{SendEvidence} :
  post (reduceOutboxSendBegun e b p) (change b p).
Proof.
  unfold reduceOutboxSendBegun. walk. all: eapply post_mono;
    [apply transitionOutbox_change; intros; by apply begin_send_step|by intros q [? _]].
Qed.

Lemma renews_Ok s current lease x :
  renews b s current lease x = Ok true →
  lease_token lease = lease_token current
  ∧ (ls_heartbeat_at current < ls_heartbeat_at lease)%Z
  ∧ (ls_expires_at current < ls_expires_at lease)%Z
  ∧ (now < ls_expires_at current)%Z ∧ (fx_updated_at x <= now)%Z.
Proof. unfold renews. intros Hr. pass. split_bools. auto 6. Qed.

Lemma reduceOutboxLeaseRenewed_change : post (reduceOutboxLeaseRenewed e b p) (change b p).
Proof.
  unfold reduceOutboxLeaseRenewed. walk; found. split_bools. subst.
  apply renews_Ok in E4 as (Ht & _ & Hx & Hn & Hu).
  eapply change_put; [done|done|exact Hu|done|]. by apply (step_renew now v1 l); [apply among_true|..].
Qed.

Lemma requeue_step x payload :
  FsPending ∈ OUTBOX_TRANSITIONS (fx_status x) →
  post (requeue b p (set_fx_status FsPending now x) payload x) (effect_step now x).
Proof.
  intros Ht%outbox_from. unfold requeue. walk; split_bools.
  all: lease.
  eapply step_requeue; [done..|]. case_match; eauto.
Qed.

Lemma reduceOutboxRequeued_change : post (reduceOutboxRequeued e b p) (change b p).
Proof.
  unfold reduceOutboxRequeued.
  eapply post_mono; [apply transitionOutbox_change; intros; by apply requeue_step|].
  by intros q [? _].
Qed.

Lemma normalizeDelivery_Ok v c d : normalizeDelivery v c = Ok d → ed_classification d = c.
Proof. unfold normalizeDelivery. intros Hd. res_inv Hd. by subst. Qed.

Lemma set_fx_settlement_policy_id x : set_fx_settlement_policy (fx_settlement_policy x) x = x.
Proof. by destruct x. Qed.

Lemma expire_step x payload :
  FsDeliveryUnknown ∈ OUTBOX_TRANSITIONS (fx_status x) →
  post (expire b p (set_fx_status FsDeliveryUnknown now x) payload x) (effect_step now x).
Proof.
  intros Ht%outbox_from. unfold expire. walk; split_bools.
  all: match goal with H : normalizeDelivery _ _ = Ok ?d |- _ =>
    apply normalizeDelivery_Ok in H; destruct (ed_runtime_identity d) eqn:?; [done|] end.
  assert (∃ policy, v0 = set_fx_settlement_policy policy (set_fx_status FsDeliveryUnknown now x))
    as [policy ->]; [|by apply (step_expire now x l)].
  destruct (fx_v2 x); res_inv E0; subst; [eauto|].
  eexists. symmetry. apply set_fx_settlement_policy_id.
Qed.

(** After an effect moved, the branch it belongs to may drop what waited for it. *)
Lemma effect_branch_Ok q x w y :
  effect_branch b q x = Ok (w, y) →
  pj_work_orders q !! bd_work_order_id b = Some w ∧ ∃ r, st_branches (wo_state w) !! r = Some y.
Proof.
  unfold effect_branch. intros Hb. res_inv Hb. subst. found. eauto.
Qed.

Lemma change_then_branch q x w y z :
  change b p q ∧ pj_work_orders q = pj_work_orders p →
  effect_branch b q x = Ok (w, y) → branch_step y z → change b p (replaceBranch q w z).
Proof.
  intros [Hq Ho] [Hw [r Hr]]%effect_branch_Ok Hs. rewrite Ho in Hw.
  by eapply change_effect_branch.
Qed.

Lemma reduceOutboxSendExpired_change : post (reduceOutboxSendExpired e b p) (change b p).
Proof.
  unfold reduceOutboxSendExpired. apply post_bind. intros q Hq.
  eapply transitionOutbox_change in Hq; [|intros; by apply expire_step]. walk; [|apply Hq].
  eapply change_then_branch; [done|eassumption|]. by apply branch_step_of; auto.
Qed.

(** A settlement of an effect that is not ambiguous names its lease, in time. *)
Lemma check_settlement_token_Ok payload x v :
  check_settlement_token b payload x = Ok v → fx_status x ≠ FsDeliveryUnknown →
  ∃ l, fx_lease x = Some l ∧ (now < ls_expires_at l)%Z.
Proof.
  unfold check_settlement_token. intros Ht Hx. res_inv Ht.
  destruct (has_status FsDeliveryUnknown x) eqn:Hs;
    [unfold has_status in Hs; by split_bools|].
  res_inv Ht. split_bools. lease. eauto.
Qed.

Lemma settle_step status x payload :
  status ∈ OUTBOX_TRANSITIONS (fx_status x) →
  status ∈ [FsDelivered; FsNotSent; FsDeliveryUnknown] →
  post (settle b p status (set_fx_status status now x) payload x) (effect_step now x).
Proof.
  intros Ht Hs. unfold settle. walk; split_bools.
  apply step_settle; auto; [by eapply check_settlement_token_Ok|by eapply normalizeDelivery_Ok].
Qed.

Lemma reduceOutboxSettled_change status :
  status ∈ [FsDelivered; FsNotSent; FsDeliveryUnknown] →
  post (reduceOutboxSettled e b p status) (change b p).
Proof.
  intros Hs. unfold reduceOutboxSettled. apply post_bind. intros q Hq.
  eapply transitionOutbox_change in Hq; [|intros; by apply settle_step].
  walk; try case_match; try apply Hq.
  eapply change_then_branch; [done|eassumption|]. by apply branch_step_of; auto.
Qed.

Lemma reduceOutboxCancelled_change : post (reduceOutboxCancelled e b p) (change b p).
Proof.
  unfold reduceOutboxCancelled. apply post_bind. intros q Hq.
  eapply transitionOutbox_change in Hq.
  2:{ intros x payload Ht%outbox_from _. unfold cancel. walk. by apply step_cancel. }
  walk; try apply Hq.
  all: eapply change_then_branch; [done|eassumption|]; by apply branch_step_of; auto.
Qed.

(** ** New effects *)

Lemma normalizeEffect_new v x :
  normalizeEffect b v = Ok x →
  new_pending_effect now x ∧ fx_work_order_id x = bd_work_order_id b.
Proof.
  unfold normalizeEffect, normalizeEffectV2, normalizeLegacyEffect. intros Hx. res_inv Hx.
  destruct (has_own _ _); res_inv Hx; subst; split_bools; rewrite String.eqb_eq in *; subst;
    (split; [by eexists _, _|done]).
Qed.

Lemma enqueue_Ok x r :
  enqueue p x = Ok r → new_pending_effect now x ∧ fx_work_order_id x = bd_work_order_id b →
  match r with
  | None => True
  | Some q => change b p q ∧ pj_work_orders q = pj_work_orders p
  end.
Proof.
  unfold enqueue. intros Hr [Hx Hb]. destruct (_ !! _) eqn:Hn; res_inv Hr; subst; [done|].
  split; [|done]. apply change_with_outbox. by constructor.
Qed.

Lemma expected_branch_state_start x :
  startGenerationActivation x = true → has_start_kind x = true.
Proof. unfold startGenerationActivation. intros. by split_bools. Qed.

(** A revived branch was retryable, or waits for its dispatch already. *)
Lemma enqueued_branch_step s x y z responseRef :
  check_attempt s y x = Ok () → enqueued_branch y x responseRef = Some z → branch_step y z.
Proof.
  unfold check_attempt, enqueued_branch. intros Hc Hz. res_inv Hc. split_bools.
  destruct (startGenerationActivation x).
  - injection Hz as <-. apply branch_step_of; auto. simpl.
    match goal with H : among _ _ = true |- _ => apply among_true in H end.
    destruct (br_state y); simpl; set_solver.
  - repeat case_match; simplify_eq; apply branch_step_of; auto.
Qed.

Lemma reduceOutboxEnqueued_change : post (reduceOutboxEnqueued e b p) (change b p).
Proof.
  unfold reduceOutboxEnqueued. walk; auto with projector.
  all: match goal with H : normalizeEffect _ _ = Ok _ |- _ => apply normalizeEffect_new in H end.
  all: subst; match goal with H : enqueue _ _ = Ok ?r |- _ =>
    apply enqueue_Ok in H; [|done]; try (is_var r; destruct r); try apply H; auto with projector end.
  all: destruct (enqueued_branch _ _ _) eqn:Hz; [|apply E11].
  all: found; destruct v5.
  all: eapply change_effect_branch; [done|apply E11..|exact E0|exact E4|].
  all: by eapply enqueued_branch_step.
Qed.
End Reducers.
