(* ===== verification/ProjectorStep.v ===== *)
(** One projected event is a step of the abstract machine: it repeats a known event, activates
    the cutover, or opens its input and then makes a change or closes the input with a receipt. *)

From Stdlib Require Import ZArith Lia String.
From stdpp Require Import base tactics list strings option gmap.
From S2P Require Import Prelude JsString JsDate Json SettlementPolicy ContractBase PlanContract.
From S2P Require Import Envelope WorkOrderState WorkOrderFacts WorkOrderEffects Outbox Lifecycle.
From S2P Require Import ProjectorBase Projection ProjectorInput ProjectorWorkOrder.
From S2P Require Import ProjectorBranch ProjectorObserve ProjectorOutbox.
From S2P Require Import ProjectorEnqueue ProjectorDelivery ProjectorSettlement.
From S2P Require Import ProjectorReceipt Projector ProjectorSpec ProjectorRefine.

(** ** Finding receipts and pending inputs *)

Lemma findReceipt_None p source :
  findReceipt p source = Ok None → ∀ m, receipts m p !! source = None.
Proof.
  unfold findReceipt. intros H m.
  destruct (omap _ _) as [|x [|]] eqn:E; try discriminate.
  destruct (receipts m p !! source) as [r|] eqn:Hm; [|done].
  assert ((m, r) ∈ @nil (ReceiptMap * Receipt)) as Hin; [|by apply elem_of_nil in Hin].
  rewrite <- E. apply list_elem_of_omap. exists m. rewrite Hm. split; [|done].
  destruct m; set_solver.
Qed.

Lemma findReceipt_of_None p source :
  (∀ m, receipts m p !! source = None) → findReceipt p source = Ok None.
Proof. intros H. unfold findReceipt. cbn [omap list_omap]. by rewrite !H. Qed.

Lemma findReceipt_Some p source m r :
  findReceipt p source = Ok (Some (m, r)) → receipts m p !! source = Some r.
Proof.
  unfold findReceipt. intros H. destruct (omap _ _) as [|x [|]] eqn:E; try discriminate.
  injection H as ->.
  assert ((m, r) ∈ [(m, r)]) as Hin by set_solver. rewrite <- E in Hin.
  apply list_elem_of_omap in Hin as (k & _ & Hk).
  destruct (receipts k p !! source) eqn:Hr; [|done]. by injection Hk as <- <-.
Qed.

Lemma findPendingSource_alone p source r k v before :
  findPendingSource p source = Ok r → pj_work_orders p !! k = Some v →
  wo_pending v = Some before → pn_source_id before = source → r = Some v.
Proof.
  unfold findPendingSource. intros H Hk Hb Hs.
  assert (v ∈ filter (λ w, pn_source_id <$> wo_pending w = Some source)
    (map snd (map_to_list (pj_work_orders p)))) as Hin.
  { apply list_elem_of_filter. rewrite Hb. simpl. split; [congruence|].
    apply list_elem_of_fmap. exists (k, v). split; [done|]. by apply elem_of_map_to_list. }
  destruct (filter _ _) as [|w [|]]; try discriminate; [by apply elem_of_nil in Hin|].
  injection H as <-. apply list_elem_of_singleton in Hin. congruence.
Qed.

(** ** Opening an input *)

Section Open.
Context `{Sha256} (p : Projection) (e : PEvent) (b : Binding) (batchContext : json)
  (batchSourceType : option SourceType).

Lemma continueInput_Ok w pending batchId bg :
  pj_work_orders p !! bd_work_order_id b = Some w → wo_pending w = Some pending → input_alone p b →
  continueInput p w pending e b batchId = Ok bg →
  (bg_projection bg = p ∧ bg_duplicate bg = true
   ∧ ∃ hash, event_hash e = Ok hash ∧ known p b (pe_event_id e) hash)
  ∨ (bg_duplicate bg = false ∧ ∃ hash q revision, event_hash e = Ok hash
     ∧ opened p b e hash (bg_projection bg) w q revision).
Proof.
  intros Hw Hpn Ha Hc. unfold continueInput in Hc. res_inv Hc. split_bools.
  assert (among TERMINAL_WORK_ORDER_STATES (st_status (wo_state w)) = true →
    is_some (receiptSourceType (pe_type e)) = true) as Hlive.
  { intros Ht. rewrite Ht in *. simpl in *. by apply negb_true_iff. }
  destruct (pn_event_hashes pending !! pe_event_id e) eqn:Hh; res_inv Hc; subst; split_bools;
    rewrite ?String.eqb_eq in *.
  { left. subst. split; [done|]. split; [done|]. eexists. split; [done|]. left.
    by exists w, pending. }
  right. split; [done|].
  exists v0, (join_pending pending e v0), (st_revision (wo_state w)). split; [done|].
  split; simpl; try done.
  - by destruct w as [[] ? ?].
  - by rewrite lookup_insert_eq.
  - by rewrite Hpn.
  - intros Ht. right. apply Hlive. by apply among_true.
Qed.

Lemma openInput_Ok w batchId bg :
  pj_work_orders p !! bd_work_order_id b = Some w → wo_pending w = None → input_alone p b →
  openInput p w e b batchId batchSourceType = Ok bg →
  bg_duplicate bg = false ∧ ∃ hash q revision, event_hash e = Ok hash
    ∧ opened p b e hash (bg_projection bg) w q revision.
Proof.
  intros Hw Hpn Ha Hc. unfold openInput in Hc. res_inv Hc.
  destruct (match batchSourceType with Some t => Some t | None => inferSourceType (pe_type e) end)
    as [source|]; [|done]. res_inv Hc. subst. split_bools. split; [done|].
  exists v0, (new_pending b source batchId e v0), (expected_target source (st_revision (wo_state w))).
  split; [done|]. split; simpl; try done.
  - by rewrite lookup_singleton_eq.
  - by rewrite Hpn.
  - intros Ht. left. apply among_true in Ht. rewrite Ht in *. simpl in *. by split_bools.
Qed.

(** A successful begin: a repetition, the creation of a Work Order, or an opened input. *)
Lemma beginInput_Ok bg :
  beginInput p e b batchContext batchSourceType = Ok bg →
  (bg_projection bg = p ∧ bg_duplicate bg = true
   ∧ ∃ hash, event_hash e = Ok hash ∧ known p b (pe_event_id e) hash)
  ∨ (bg_projection bg = p ∧ bg_duplicate bg = false ∧ pe_type e = EWorkOrderCreated
     ∧ pj_work_orders p !! bd_work_order_id b = None ∧ input_alone p b)
  ∨ (bg_duplicate bg = false ∧ ∃ hash w pending revision,
     event_hash e = Ok hash ∧ opened p b e hash (bg_projection bg) w pending revision).
Proof.
  intros Hb. unfold beginInput in Hb. res_inv Hb. destruct v0 as [[m r]|].
  { unfold repeatInput in Hb. res_inv Hb. subst. split_bools. left. rewrite String.eqb_eq in *.
    split; [done|]. split; [done|]. eexists. split; [done|]. right.
    exists m, r. split; [by apply findReceipt_Some|]. split; [|done].
    by destruct (pj_work_orders p !! bd_work_order_id b). }
  res_inv Hb. assert (input_alone p b) as Ha.
  { split; [by apply findReceipt_None|]. intros k w' before Hk Hv Hs.
    rewrite (findPendingSource_alone _ _ _ _ _ _ E1 Hk Hv Hs) in B. split_bools.
    by apply String.eqb_eq. }
  destruct (pj_work_orders p !! bd_work_order_id b) as [w|] eqn:Hw.
  - res_inv Hb. destruct (wo_pending w) as [pending|] eqn:Hpn.
    + destruct (continueInput_Ok _ _ _ _ Hw Hpn Ha Hb) as [?|(?&?&?&?&?&?)]; [by left|].
      right; right. split; [done|]. by eexists _, _, _, _.
    + destruct (openInput_Ok _ _ _ Hw Hpn Ha Hb) as (?&?&?&?&?&?).
      right; right. split; [done|]. by eexists _, _, _, _.
  - unfold createInput in Hb. res_inv Hb. subst. split_bools. right; left. auto.
Qed.
End Open.

(** ** The reducers, together *)

Section Reduce.
Context `{Sha256} {evidence : SendEvidence} {hashing : ProjectionHash}.
Context (e : PEvent) (b : Binding) (p : Projection) (Hp : keyed p).
Let now := bd_occurred_at b.

Lemma reduceWorkOrderCreated_post batchId :
  post (reduceWorkOrderCreated e b p batchId)
    (λ q, ∃ w hash, event_hash e = Ok hash ∧ fresh_order b e hash w ∧ q = replaceWorkOrder p w).
Proof.
  unfold reduceWorkOrderCreated. walk. all: split_bools.
  all: eexists _, _; split; [eassumption|]; split; [|done]. all: by eexists _, _, _, batchId.
Qed.

(** A receipt may extend the provider entry windows, nothing else. *)
Lemma materializeProviderEntryWindow_post r batchContext :
  post (materializeProviderEntryWindow p r batchContext)
    (λ q, ∃ m, q = set_pj_provider_entry_windows m p).
Proof.
  assert (p = set_pj_provider_entry_windows (pj_provider_entry_windows p) p) as Hid
    by by destruct p.
  unfold materializeProviderEntryWindow, open_window, extend_window, put_window. walk; eauto.
Qed.

Lemma normalizeReceipt_Ok v source pending batchId r :
  normalizeReceipt e b v source pending batchId = Ok r →
  rc_source_id r = bd_source_id b ∧ rc_work_order_id r = bd_work_order_id b
  ∧ rc_applied_revision r = bd_target_revision b ∧ rc_event_hashes r = pn_event_hashes pending
  ∧ rc_event_ids r = domain_events (pn_event_ids pending)
  ∧ last (pn_event_ids pending) = Some (pe_event_id e).
Proof.
  unfold normalizeReceipt. intros Hr. res_inv Hr. subst. split_bools. simpl.
  rewrite !String.eqb_eq in *. auto 10.
Qed.

Lemma add_receipt_receipts m id r q k :
  receipts k (add_receipt m id r q)
  = if decide (m = k) then <[id := r]> (receipts k q) else receipts k q.
Proof. by destruct m, k. Qed.

Lemma reduceReceipt_Ok source m batchContext q :
  (∀ k, receipts k p !! bd_source_id b = None) →
  reduceReceipt e b p source m batchContext = Ok q →
  ∃ w pending r, pn_source_type pending = source ∧ received p b m q w pending r.
Proof.
  intros Hfresh Hq. unfold reduceReceipt in Hq. res_inv Hq. found.
  destruct (wo_pending v0) as [pending|] eqn:Hpn; [|done]. res_inv Hq. split_bools.
  rewrite String.eqb_eq in *.
  match goal with H : normalizeReceipt _ _ _ _ _ _ = Ok ?r |- _ =>
    apply normalizeReceipt_Ok in H as (Hs & Hwo & Hrev & Hh & _); rename r into receipt end.
  match goal with H : findReceipt _ _ = Ok ?c |- _ =>
    rewrite Hs, (findReceipt_of_None _ _ Hfresh) in H; injection H as <- end.
  res_inv Hq. subst.
  match goal with H : materializeProviderEntryWindow _ _ _ = Ok _ |- _ =>
    apply materializeProviderEntryWindow_post in H as [windows ->] end.
  exists v0, pending, receipt. split; [done|].
  match goal with H : validateDurableInputClosure _ _ = Ok ?u |- _ => destruct u end.
  split; try done.
  - congruence.
  - intros k. by rewrite Hs.
  - intros k. rewrite add_receipt_receipts. by destruct k.
Qed.

(** A reducer other than that of a receipt makes a change. *)
Lemma reduce_change batchId batchContext :
  receiptSourceType (pe_type e) = None → pe_type e ≠ EWorkOrderCreated →
  post (reduce e b batchId batchContext p) (change b p).
Proof.
  intros Hr Hc. unfold reduce. destruct (pe_type e) eqn:He; try discriminate Hr.
  - done.
  - by apply reduceWorkOrderStatus_change.
  - by apply reduceContextBudget_change.
  - by apply reduceBranchInitialized_change.
  - by apply reduceAttemptOpened_change.
  - by apply reduceBranchStatus_change.
  - by apply reduceRuntimeObserved_change.
  - by apply reduceVerification_change.
  - by apply reduceReview_change.
  - by apply reduceAcceptance_change.
  - by apply reduceLateObservation_change.
  - by apply reduceRecoveryProbeRecorded_change.
  - by apply reduceOutboxEnqueued_change.
  - by apply reduceOutboxClaimed_change.
  - by apply reduceOutboxSendBegun_change.
  - by apply reduceOutboxLeaseRenewed_change.
  - by apply reduceOutboxRequeued_change.
  - by apply reduceOutboxSendExpired_change.
  - apply reduceOutboxSettled_change; [done|set_solver].
  - apply reduceOutboxSettled_change; [done|set_solver].
  - apply reduceOutboxSettled_change; [done|set_solver].
  - by apply reduceOutboxCancelled_change.
  - by apply reduceAttentionOpened_change.
  - by apply reduceAttentionResolved_change.
  - apply post_throw.
  - apply post_throw.
Qed.

(** A quarantined observation is only recorded. *)
Lemma reduceLateObservation_orders :
  post (reduceLateObservation e b p)
    (λ q, pj_work_orders q = pj_work_orders p ∧ pj_outbox q = pj_outbox p).
Proof. unfold reduceLateObservation. walk; done. Qed.

(** A receipt's reducer closes the pending input, of a source that was not received before. *)
Lemma reduce_received batchId batchContext source m q :
  RECEIPT_TYPES (pe_type e) = Some (source, m) →
  (∀ k, receipts k p !! bd_source_id b = None) →
  reduce e b batchId batchContext p = Ok q →
  ∃ w pending r, pn_source_type pending = source ∧ received p b m q w pending r.
Proof.
  intros Hm Hfresh Hq. unfold reduce in Hq.
  destruct (pe_type e); try discriminate Hm; injection Hm as <- <-; by apply reduceReceipt_Ok in Hq.
Qed.
End Reduce.

(** ** Keys *)

Lemma order_step_keyed w v : order_keyed w → order_step w v → order_keyed v.
Proof.
  intros Hw Hs. split. intros r y Hy. rewrite (ostep_plan _ _ Hs).
  destruct (st_branches (wo_state w) !! r) as [x|] eqn:Hx.
  - destruct (ostep_branches _ _ Hs _ _ Hx) as (y' & Hy' & Hxy).
    assert (y' = y) as -> by congruence. rewrite (bstep_planned _ _ Hxy).
    by apply (keyed_branches _ Hw).
  - destruct (ostep_new_branches _ _ Hs _ _ Hx Hy) as (planned & cs & st & Hb & _ & ->). done.
Qed.

Lemma fresh_order_keyed b e hash w : fresh_order b e hash w → wo_id w = bd_work_order_id b ∧ order_keyed w.
Proof.
  intros (plan & version & deadline & batchId & -> & _). split; [done|].
  split. simpl. intros r x Hx. by rewrite lookup_empty in Hx.
Qed.

Lemma keyed_insert (m : gmap string WorkOrder) v :
  (∀ k w, m !! k = Some w → wo_id w = k ∧ order_keyed w) → order_keyed v →
  ∀ k w, <[wo_id v := v]> m !! k = Some w → wo_id w = k ∧ order_keyed w.
Proof.
  intros Hm Hv k w [[<- <-]|[Hne Hk]]%lookup_insert_Some; [done|by apply Hm].
Qed.

Lemma keyed_change b p q : keyed p → change b p q → keyed q.
Proof.
  intros [Ho Hx Hr] [Co Cx _ Cr _ _]. split.
  - destruct Co as [|w v Hk Hs]; [done|]. apply keyed_insert; [done|].
    eapply order_step_keyed; [by eapply Ho|done].
  - destruct Cx as [|x Hn Hp _|k x y Hk _ _ Hs]; [done|..]; intros k' z Hz.
    + apply lookup_insert_Some in Hz as [[<- <-]|[_ Hz]]; [done|by apply Hx].
    + apply lookup_insert_Some in Hz as [[<- <-]|[_ Hz]]; [|by apply Hx].
      rewrite <- (Hx _ _ Hk). unfold fx_effect_id.
      by destruct (effect_step_identity _ _ _ Hs) as [_ ->].
  - intros m k r. rewrite Cr. apply Hr.
Qed.

Lemma keyed_opened p b e hash q w pending revision :
  keyed p → opened p b e hash q w pending revision → keyed q.
Proof.
  intros [Ho Hx Hr] [Hw -> _ _ _ _ _]. split; [|done|done].
  simpl. apply keyed_insert; [done|]. destruct (Ho _ _ Hw) as [_ [Hk]]. by split.
Qed.

(** What an opened input leaves to the reducer. *)
Lemma opened_lookup p b e hash q w pending revision :
  keyed p → opened p b e hash q w pending revision →
  pj_work_orders q !! bd_work_order_id b
  = Some (set_wo_pending (Some pending) (set_wo_state (set_st_revision revision (wo_state w)) w)).
Proof.
  intros Hp Hq. rewrite (opened_result _ _ _ _ _ _ _ _ Hq). simpl.
  destruct (keyed_orders _ Hp _ _ (opened_order _ _ _ _ _ _ _ _ Hq)) as [<- _].
  by rewrite lookup_insert_eq.
Qed.

Lemma opened_receipts p b e hash q w pending revision :
  opened p b e hash q w pending revision → ∀ m, receipts m q !! bd_source_id b = None.
Proof.
  intros Hq m. rewrite (opened_result _ _ _ _ _ _ _ _ Hq).
  destruct (opened_alone _ _ _ _ _ _ _ _ Hq) as [Hr _]. by specialize (Hr m).
Qed.

Lemma keyed_received `{Sha256} p b m q w pending r :
  keyed p → received p b m q w pending r → keyed q.
Proof.
  intros [Ho Hx Hr] Hq. split.
  - rewrite (received_orders _ _ _ _ _ _ _ Hq). apply (keyed_insert _ (set_wo_pending None w)); [done|].
    destruct (Ho _ _ (received_order _ _ _ _ _ _ _ Hq)) as [_ [Hk]]. by split.
  - by rewrite (received_outbox _ _ _ _ _ _ _ Hq).
  - intros k id r'. rewrite (received_receipts _ _ _ _ _ _ _ Hq). destruct (decide _); [|apply Hr].
    intros [[<- <-]|[_ Hk]]%lookup_insert_Some; [done|by eapply Hr].
Qed.

Lemma keyed_fresh p b e hash w :
  keyed p → fresh_order b e hash w → keyed (replaceWorkOrder p w).
Proof.
  intros [Ho Hx Hr] Hw. split; [|done|done]. simpl. apply keyed_insert; [done|].
  by eapply fresh_order_keyed.
Qed.

Lemma keyed_event_step `{Sha256} b e p q : keyed p → event_step b e p q → keyed q.
Proof.
  intros Hp. destruct 1 as [|w hash _ Hn _ _ Hw|hash q w pn rev v Hq _ _ Hv
    |hash q w pn rev r Hq _ _ _ Hr _|hash q w pn rev m v r receipt Hq _ _ Hr]; [done|..].
  - by eapply keyed_fresh.
  - eapply keyed_fresh; [by eapply keyed_opened|done].
  - eapply keyed_change; [by eapply keyed_opened|done].
  - eapply keyed_received; [by eapply keyed_opened|done].
Qed.

Lemma keyed_projected `{Sha256} p q : keyed p → projected p q → keyed q.
Proof.
  intros Hp. destruct 1 as [epoch He| |b e q Hs]; [by destruct Hp|done|].
  by eapply keyed_event_step.
Qed.

(** ** One event *)

Section Event.
Context `{Sha256} {evidence : SendEvidence} {hashing : ProjectionHash}.

Lemma RECEIPT_TYPES_None t : receiptSourceType t = None → RECEIPT_TYPES t = None.
Proof. by destruct t. Qed.

Lemma project_bound_step p e b batchContext :
  keyed p → post (project_bound p e b batchContext) (event_step b e p).
Proof.
  intros Hp. unfold project_bound. apply post_bind. intros source _.
  apply post_bind. intros bg Hbg%beginInput_Ok.
  destruct Hbg as [(-> & -> & hash & Hh & Hn)
    |[(Hb & -> & He & Hn & Ha)|(-> & hash & w & pending & rev & Hh & Hq)]].
  - apply post_ret. by eapply step_again.
  - rewrite Hb. unfold reduce. rewrite He. eapply post_mono; [by apply reduceWorkOrderCreated_post|].
    intros q (w & hash & Hh & Hw & ->). by eapply step_created.
  - pose proof (keyed_opened _ _ _ _ _ _ _ _ Hp Hq) as Hk. intros r Hr.
    destruct (RECEIPT_TYPES (pe_type e)) as [[s m]|] eqn:Ht.
    + destruct (reduce_received _ _ _ Hk _ _ _ _ _ Ht (opened_receipts _ _ _ _ _ _ _ _ Hq) Hr)
        as (v & pn & receipt & <- & Hrec).
      assert (pn = pending) as ->; [|by eapply step_received].
      pose proof (received_order _ _ _ _ _ _ _ Hrec) as Hv.
      rewrite (opened_lookup _ _ _ _ _ _ _ _ Hp Hq) in Hv. injection Hv as <-.
      by injection (received_pending _ _ _ _ _ _ _ Hrec).
    + assert (receiptSourceType (pe_type e) = None) as Ht'
        by (unfold receiptSourceType; by rewrite Ht).
      destruct (decide (pe_type e = EWorkOrderCreated)) as [Hc|Hc].
      * unfold reduce in Hr. rewrite Hc in Hr. apply reduceWorkOrderCreated_post in Hr.
        destruct Hr as (v & hash' & Hh' & Hv & ->). assert (hash' = hash) as -> by congruence.
        by eapply step_recreated.
      * eapply step_change; [done..|by eapply reduce_change|].
        intros Hl. unfold reduce in Hr. rewrite Hl in Hr. by apply reduceLateObservation_orders in Hr.
Qed.

Lemma cutover_projected p e batchContext :
  post (projectProviderSettlementCutoverEvent p e batchContext) (projected p).
Proof.
  unfold projectProviderSettlementCutoverEvent. walk; [constructor|]. by apply projected_epoch.
Qed.

(** Every event that is projected is one step of the abstract machine. *)
Lemma event_projected p input batchContext :
  keyed p → post (projectBusinessEventV1 p input batchContext) (projected p).
Proof.
  intros Hp. unfold projectBusinessEventV1. walk.
  - intros q Hq. eapply projected_event. by eapply project_bound_step.
  - apply cutover_projected.
Qed.

(** An invariant of the steps is an invariant of the projections reached by events. *)
Lemma events_invariant (I : Projection → Prop) :
  (∀ p, I p → keyed p) → (∀ p q, I p → projected p q → I q) →
  ∀ l p, I p → post (project_events p l) I.
Proof.
  intros Hk Hs l. induction l as [|[ev ctx] l IH]; intros p Hp; simpl; [by apply post_ret|].
  apply post_bind. intros q Hq. apply IH. eapply Hs; [done|]. by eapply event_projected; [apply Hk|].
Qed.

(** A reflexive and transitive relation that contains the steps from reached projections holds
    between the ends of a run. *)
Lemma events_relation (R : Projection → Projection → Prop) :
  (∀ p, R p p) → (∀ p q r, R p q → R q r → R p r) → (∀ p q, keyed p → projected p q → R p q) →
  ∀ l p, keyed p → post (project_events p l) (λ q, keyed q ∧ R p q).
Proof.
  intros Hr Ht Hs l. induction l as [|[ev ctx] l IH]; intros p Hp; simpl; [by apply post_ret|].
  apply post_bind. intros q Hq. apply event_projected in Hq; [|done].
  eapply post_mono; [apply IH; by eapply keyed_projected|]. intros r [Hk Hqr]. split; [done|].
  by eapply Ht; [apply Hs|].
Qed.

Lemma replay_events entries p q :
  replayBusinessProjectionV1 entries p = Ok q →
  ∃ l, project_events p l = Ok q ∧ ∀ k w, pj_work_orders q !! k = Some w → wo_pending w = None.
Proof.
  unfold replayBusinessProjectionV1. destruct entries as [| | | | | | |l| |]; try done.
  intros Hq. res_inv Hq. subst. eexists. split; [done|]. intros k w Hk.
  split_bools. apply Nat.eqb_eq, nil_length_inv in B.
  destruct (wo_pending w) eqn:Hw; [|done].
  assert (w ∈ pending_inputs q) as Hin; [|rewrite B in Hin; by apply elem_of_nil in Hin].
  apply list_elem_of_filter. rewrite Hw. split; [done|].
  apply list_elem_of_fmap. exists (k, w). split; [done|]. by apply elem_of_map_to_list.
Qed.

Lemma keyed_initial : keyed initialBusinessProjectionV1.
Proof.
  split; simpl.
  - intros k w Hk. by rewrite lookup_empty in Hk.
  - intros k x Hk. by rewrite lookup_empty in Hk.
  - intros m k r Hk. destruct m; simpl in Hk; by rewrite lookup_empty in Hk.
Qed.
End Event.
