(* ===== verification/ProjectorInvariant.v ===== *)
(** What holds of every projection that events lead to: effects whose lease, delivery and fencing
    history agree with their status, inputs that are pending in one place only, and receipts
    that are unique. *)

From Stdlib Require Import ZArith Lia String.
From stdpp Require Import base tactics list strings option gmap relations.
From S2P Require Import Prelude JsString JsDate Json SettlementPolicy ContractBase PlanContract.
From S2P Require Import Envelope WorkOrderState WorkOrderFacts WorkOrderEffects Outbox Lifecycle.
From S2P Require Import ProjectorBase Projection ProjectorInput ProjectorWorkOrder.
From S2P Require Import ProjectorBranch ProjectorOutbox ProjectorDelivery.
From S2P Require Import Projector ProjectorSpec ProjectorRefine ProjectorStep.

(** ** Effects *)

(** A lease is held exactly while an effect is claimed or being sent, and it is the last one. *)
Definition lease_ok (x : Effect) : Prop :=
  if among [FsClaimed; FsSending] (fx_status x)
  then ∃ l, fx_lease x = Some l ∧ ls_generation l = fx_lease_generation x
    ∧ fx_last_lease_id x = Some (ls_lease_id l)
    ∧ (fx_v2 x = true → last (fx_fencing_history x) = Some (lease_token l))
  else fx_lease x = None.

(** The delivery is the outcome the status names. *)
Definition delivery_ok (x : Effect) : Prop :=
  match fx_status x with
  | FsDelivered | FsNotSent | FsDeliveryUnknown =>
      ed_classification <$> fx_delivery x = Some (settled_classification (fx_status x))
  | _ => fx_delivery x = None
  end.

(** The tokens of the leases were issued with generations 1, 2, 3, ... *)
Definition fencing_ok (x : Effect) : Prop :=
  (0 <= fx_lease_generation x)%Z ∧
  (fx_v2 x = true →
    Z.of_nat (length (fx_fencing_history x)) = fx_lease_generation x
    ∧ ∀ i t, fx_fencing_history x !! i = Some t → ft_generation t = (Z.of_nat i + 1)%Z).

Record effect_ok (x : Effect) : Prop := {
  effect_lease : lease_ok x;
  effect_delivery : delivery_ok x;
  effect_fencing : fencing_ok x;
}.

Lemma new_effect_ok now x : new_pending_effect now x → effect_ok x.
Proof. intros (v2 & identity & ->). by repeat split. Qed.

Lemma claim_fencing_ok x l :
  fencing_ok x → ls_generation l = (fx_lease_generation x + 1)%Z → fencing_ok (claim_fields l x).
Proof.
  intros [Hg Hf] Hl. split; simpl; [lia|]. intros Hv. rewrite Hv. destruct (Hf Hv) as [Hlen Hi].
  split; [rewrite length_app; simpl; lia|].
  intros i t [Ht|[Hge Ht]]%lookup_app_Some; [by apply Hi|].
  apply list_lookup_singleton_Some in Ht as [Hz <-]. simpl. lia.
Qed.

(** The protocol of an effect keeps its lease, delivery and history in agreement. *)
Lemma effect_step_ok now x y : effect_ok x → effect_step now x y → effect_ok y.
Proof.
  intros [Hl Hd Hf] Hs. unfold lease_ok, delivery_ok in *.
  destruct Hs as [x l Hs Hg Hv Ht|x l y Hs Hx Ht Hy|x l l' Hs Hx Htok Ht|x l y reason Hs Hx Ht Hy
    |x l d policy Hs Hx Ht Hc Hr|x st d policy Hto Hst Ht Hc Hr|x reason Hs].
  - rewrite Hs in *. split; [| |by apply (claim_fencing_ok (set_fx_status FsClaimed now x))]; simpl.
    + exists l. repeat split; auto. intros Hv2. simpl in *. by rewrite Hv2, last_snoc.
    + done.
  - rewrite Hs in *. simpl in *. destruct Hy as [->|[r ->]]; by split.
  - assert (ls_generation l' = ls_generation l ∧ ls_lease_id l' = ls_lease_id l) as [Hg Hi]
      by (injection Htok; auto).
    rewrite (proj2 (among_true _ _) Hs) in Hl. destruct Hl as (k & Hk & Ha & Hb & Hc).
    assert (k = l) as -> by congruence. split; [|by unfold delivery_ok|done].
    unfold lease_ok. simpl. rewrite (proj2 (among_true _ _) Hs). exists l'.
    rewrite Hg, Hi, Htok. auto.
  - rewrite Hs in *. simpl in *. destruct Hy as [-> | ->]; by split.
  - split; [done| |done]. unfold delivery_ok. simpl. by rewrite Hc.
  - split; [| |done].
    + unfold lease_ok. simpl. by destruct st; set_solver.
    + unfold delivery_ok. simpl. rewrite Hc. by destruct st; set_solver.
  - split; [done| |done]. unfold delivery_ok. simpl.
    by destruct (fx_status x); set_solver.
Qed.

(** ** Sources *)

(** What holds of a projection that events lead to. *)
Record invariant (p : Projection) : Prop := {
  inv_keyed : keyed p;
  inv_effects : ∀ k x, pj_outbox p !! k = Some x → effect_ok x;
  inv_effect_orders : ∀ k x, pj_outbox p !! k = Some x →
    is_Some (pj_work_orders p !! fx_work_order_id x);
  inv_receipt_once : ∀ m n k, is_Some (receipts m p !! k) → is_Some (receipts n p !! k) → m = n;
  inv_receipt_orders : ∀ m k r, receipts m p !! k = Some r →
    is_Some (pj_work_orders p !! rc_work_order_id r);
  inv_pending_fresh : ∀ k w pending m, pj_work_orders p !! k = Some w →
    wo_pending w = Some pending → receipts m p !! pn_source_id pending = None;
  inv_pending_once : ∀ k l w v pw pv,
    pj_work_orders p !! k = Some w → wo_pending w = Some pw →
    pj_work_orders p !! l = Some v → wo_pending v = Some pv →
    pn_source_id pw = pn_source_id pv → k = l;
}.

Lemma invariant_initial : invariant initialBusinessProjectionV1.
Proof.
  split; [apply keyed_initial|..]; simpl; intros *; rewrite ?lookup_empty; try done.
  - destruct m; simpl; rewrite lookup_empty; by intros [].
  - destruct m; simpl; by rewrite lookup_empty.
Qed.

(** Orders are never dropped. *)
Lemma orders_change_dom b m m' k : orders_change b m m' → is_Some (m !! k) → is_Some (m' !! k).
Proof. destruct 1; [done|]. rewrite lookup_insert_is_Some'. auto. Qed.

(** A set of pending inputs with one input more, at the Work Order of the event. *)
Section Insert.
Context (p : Projection) (b : Binding) (Hp : invariant p) (Ha : input_alone p b).
Context (w : WorkOrder) (Hid : wo_id w = bd_work_order_id b).
Context (Hsource : ∀ pending, wo_pending w = Some pending → pn_source_id pending = bd_source_id b).

Lemma insert_pending_fresh k v pending m :
  <[wo_id w := w]> (pj_work_orders p) !! k = Some v → wo_pending v = Some pending →
  receipts m p !! pn_source_id pending = None.
Proof.
  intros [[<- <-]|[_ Hk]]%lookup_insert_Some Hv; [|by eapply inv_pending_fresh].
  rewrite (Hsource _ Hv). apply Ha.
Qed.

(** A pending input from the source of the event belongs to its Work Order. *)
Lemma alone_key k v pending :
  pj_work_orders p !! k = Some v → wo_pending v = Some pending →
  pn_source_id pending = bd_source_id b → k = bd_work_order_id b.
Proof.
  intros Hk Hv Hs. destruct (keyed_orders _ (inv_keyed _ Hp) _ _ Hk) as [<- _].
  by eapply (proj2 Ha).
Qed.

Lemma insert_pending_once k l u v pu pv :
  <[wo_id w := w]> (pj_work_orders p) !! k = Some u → wo_pending u = Some pu →
  <[wo_id w := w]> (pj_work_orders p) !! l = Some v → wo_pending v = Some pv →
  pn_source_id pu = pn_source_id pv → k = l.
Proof.
  intros [[<- <-]|[Hk Hu]]%lookup_insert_Some Hpu [[<- <-]|[Hl Hv]]%lookup_insert_Some Hpv Hs.
  - done.
  - rewrite Hid. symmetry. eapply alone_key; [done..|]. rewrite <- Hs. auto.
  - rewrite Hid. eapply alone_key; [done..|]. rewrite Hs. auto.
  - by eapply (inv_pending_once _ Hp).
Qed.
End Insert.

Lemma input_alone_opened p b e hash q w pending revision :
  keyed p → opened p b e hash q w pending revision → input_alone q b.
Proof.
  intros Hp Hq. pose proof (opened_receipts _ _ _ _ _ _ _ _ Hq) as Hr. split; [done|].
  destruct Hq as [Hw -> _ _ _ _ [_ Ha]]. intros k v pn Hk Hv Hs. simpl in Hk.
  apply lookup_insert_Some in Hk as [[<- <-]|[_ Hk]]; [|by eapply Ha].
  by destruct (keyed_orders _ Hp _ _ Hw).
Qed.

Lemma invariant_opened p b e hash q w pending revision :
  invariant p → opened p b e hash q w pending revision → invariant q.
Proof.
  intros Hp Hq. pose proof (keyed_opened _ _ _ _ _ _ _ _ (inv_keyed _ Hp) Hq) as Hk.
  destruct Hq as [Hw -> Hs _ _ _ Ha].
  destruct (keyed_orders _ (inv_keyed _ Hp) _ _ Hw) as [Hid _].
  split; [done|simpl..].
  - apply (inv_effects _ Hp).
  - intros k x Hx. rewrite lookup_insert_is_Some'. right. by eapply inv_effect_orders.
  - apply (inv_receipt_once _ Hp).
  - intros m k r Hr. rewrite lookup_insert_is_Some'. right. by eapply (inv_receipt_orders _ Hp m).
  - intros k v pn m. eapply (insert_pending_fresh p b Hp Ha (set_wo_pending (Some pending)
      (set_wo_state (set_st_revision revision (wo_state w)) w))). by intros ? [= <-].
  - eapply (insert_pending_once p b Hp Ha); [done|]. by intros ? [= <-].
Qed.

Lemma order_step_pending p w u k v :
  keyed p → pj_work_orders p !! wo_id w = Some w → order_step w u →
  <[wo_id u := u]> (pj_work_orders p) !! k = Some v →
  ∃ v0, pj_work_orders p !! k = Some v0 ∧ wo_pending v = wo_pending v0.
Proof.
  intros Hp Hw Hs [[<- <-]|[_ Hv]]%lookup_insert_Some; [|eauto].
  rewrite (ostep_id _ _ Hs). exists w. split; [done|]. apply (ostep_pending _ _ Hs).
Qed.

Lemma invariant_change p b q :
  invariant p → input_alone p b → is_Some (pj_work_orders p !! bd_work_order_id b) →
  change b p q → invariant q.
Proof.
  intros Hp Ha Hb Hq. pose proof (keyed_change _ _ _ (inv_keyed _ Hp) Hq) as Hk.
  destruct Hq as [Co Cx _ Cr _ _].
  assert (∀ k, is_Some (pj_work_orders p !! k) → is_Some (pj_work_orders q !! k)) as Hdom
    by (intros k; by eapply orders_change_dom).
  split; [done|..].
  - intros k x Hx. destruct Cx as [|y Hn Hy _|l y z Hl _ _ Hs]; [by eapply inv_effects|..];
      apply lookup_insert_Some in Hx as [[<- <-]|[_ Hx]]; try by eapply inv_effects.
    + by eapply new_effect_ok.
    + eapply effect_step_ok; [by eapply inv_effects|done].
  - intros k x Hx. apply Hdom.
    destruct Cx as [|y Hn _ Hy|l y z Hl _ Hy Hs]; [by eapply inv_effect_orders|..];
      apply lookup_insert_Some in Hx as [[<- <-]|[_ Hx]]; try by eapply inv_effect_orders.
    + by rewrite Hy.
    + unfold fx_work_order_id in *. destruct (effect_step_identity _ _ _ Hs) as [_ ->]. by rewrite Hy.
  - intros m n k. rewrite !Cr. apply (inv_receipt_once _ Hp).
  - intros m k r. rewrite Cr. intros Hr. apply Hdom. by eapply (inv_receipt_orders _ Hp m).
  - intros k v pn m Hv Hpn. rewrite Cr.
    destruct Co as [|w u Hw Hs]; [by eapply inv_pending_fresh|].
    apply lookup_insert_Some in Hv as [[<- <-]|[_ Hv]]; [|by eapply inv_pending_fresh].
    rewrite (ostep_pending _ _ Hs) in Hpn. by eapply inv_pending_fresh.
  - destruct Co as [|w u Hw Hs]; [by apply inv_pending_once|].
    destruct (keyed_orders _ (inv_keyed _ Hp) _ _ Hw) as [Hid _]. rewrite <- Hid in Hw.
    pose proof (λ k v, order_step_pending p w u k v (inv_keyed _ Hp) Hw Hs) as Hold.
    intros k l v v' pv pv' Hv Hpv Hv' Hpv'.
    destruct (Hold _ _ Hv) as (v0 & Hv0 & He), (Hold _ _ Hv') as (v0' & Hv0' & He').
    rewrite He in Hpv. rewrite He' in Hpv'. by eapply (inv_pending_once _ Hp).
Qed.

Lemma invariant_received `{Sha256} p b m q w pending r :
  invariant p → received p b m q w pending r → invariant q.
Proof.
  intros Hp Hr. pose proof (keyed_received _ _ _ _ _ _ _ (inv_keyed _ Hp) Hr) as Hk.
  destruct Hr as [Hw Hpn Hs Hwo _ _ Hfresh _ Ho Hrs Hx _ _].
  destruct (keyed_orders _ (inv_keyed _ Hp) _ _ Hw) as [Hid _].
  assert (∀ k v pv, pj_work_orders q !! k = Some v → wo_pending v = Some pv →
    pj_work_orders p !! k = Some v ∧ k ≠ bd_work_order_id b) as Hold.
  { intros k v pv. rewrite Ho. intros [[<- <-]|[Hne Hv]]%lookup_insert_Some Hpv; [done|].
    split; [done|]. congruence. }
  assert (∀ k, is_Some (pj_work_orders p !! k) → is_Some (pj_work_orders q !! k)) as Hdom
    by (intros k; rewrite Ho, lookup_insert_is_Some'; auto).
  split; [done|..].
  - rewrite Hx. apply (inv_effects _ Hp).
  - rewrite Hx. intros k x Hu. apply Hdom. by eapply inv_effect_orders.
  - intros k l id. rewrite !Hrs.
    destruct (decide (id = rc_source_id r)) as [->|Hne].
    + repeat case_decide; subst; rewrite ?Hfresh; intros Hu Hu2; try done;
        by (destruct Hu || destruct Hu2).
    + intros Hu Hu2. apply (inv_receipt_once _ Hp k l id);
        [clear Hu2|clear Hu]; case_decide; rewrite ?lookup_insert_ne in * by done; done.
  - intros k id r'. rewrite Hrs. intros Hu. apply Hdom. case_decide.
    + apply lookup_insert_Some in Hu as [[<- <-]|[_ Hu]]; [rewrite Hwo; eauto|].
      by eapply (inv_receipt_orders _ Hp k).
    + by eapply (inv_receipt_orders _ Hp k).
  - intros k v pv l Hv Hpv. destruct (Hold _ _ _ Hv Hpv) as [Hv' Hne]. rewrite Hrs.
    assert (receipts l p !! pn_source_id pv = None) by by eapply inv_pending_fresh.
    case_decide; [|done]. rewrite lookup_insert_ne; [done|]. rewrite Hs. intros Heq.
    by pose proof (inv_pending_once _ Hp _ _ _ _ _ _ Hw Hpn Hv' Hpv Heq).
  - intros k l v v' pv pv' Hv Hpv Hv' Hpv'.
    destruct (Hold _ _ _ Hv Hpv) as [Hu _], (Hold _ _ _ Hv' Hpv') as [Hu2 _].
    by eapply (inv_pending_once _ Hp).
Qed.

Lemma invariant_fresh p b e hash w :
  invariant p → input_alone p b → fresh_order b e hash w → invariant (replaceWorkOrder p w).
Proof.
  intros Hp Ha Hw. pose proof (keyed_fresh _ _ _ _ _ (inv_keyed _ Hp) Hw) as Hk.
  destruct Hw as (?&?&?&?&->&_). split; [done|simpl..].
  - apply (inv_effects _ Hp).
  - intros k y Hy. rewrite lookup_insert_is_Some'. right. by eapply inv_effect_orders.
  - apply (inv_receipt_once _ Hp).
  - intros m k r Hr. rewrite lookup_insert_is_Some'. right. by eapply (inv_receipt_orders _ Hp m).
  - intros k v pn m. eapply (insert_pending_fresh p b Hp Ha (Build_WorkOrder _ _ _)).
    by intros ? [= <-].
  - eapply (insert_pending_once p b Hp Ha (Build_WorkOrder _ _ _)); [done|]. by intros ? [= <-].
Qed.

Lemma invariant_event_step `{Sha256} b e p q : invariant p → event_step b e p q → invariant q.
Proof.
  intros Hp. pose proof (inv_keyed _ Hp) as Hk.
  destruct 1 as [|w hash _ Hn Ha _ Hw|hash q w pn rev v Hq _ _ Hv
    |hash q w pn rev r Hq _ _ _ Hr _|hash q w pn rev m v r receipt Hq _ _ Hr].
  - done.
  - by eapply invariant_fresh.
  - eapply invariant_fresh; [by eapply invariant_opened|by eapply input_alone_opened|done].
  - eapply invariant_change; [by eapply invariant_opened|by eapply input_alone_opened| |done].
    by rewrite (opened_lookup _ _ _ _ _ _ _ _ Hk Hq).
  - eapply invariant_received; [by eapply invariant_opened|done].
Qed.

(** Every step keeps the invariant. *)
Lemma invariant_projected `{Sha256} p q : invariant p → projected p q → invariant q.
Proof.
  intros Hp. destruct 1 as [epoch He| |b e q Hs]; [|done|by eapply invariant_event_step].
  destruct Hp as [[???] ??????]. split; [by split|done..].
Qed.

(** The invariant holds of every projection a run of events leads to. *)
Lemma invariant_events `{Sha256} {evidence : SendEvidence} {hashing : ProjectionHash} l p :
  invariant p → post (project_events p l) invariant.
Proof. apply events_invariant; [by intros q []|by intros; eapply invariant_projected]. Qed.
