(* ===== verification/ProjectorRuns.v ===== *)
(** What a run of events keeps: the history is append-only, an effect follows its protocol, an
    event touches its own Work Order only, and a terminal Work Order is frozen. *)

From Stdlib Require Import ZArith Lia String.
From stdpp Require Import base tactics list strings option gmap relations.
From S2P Require Import Prelude JsString JsDate Json SettlementPolicy ContractBase PlanContract.
From S2P Require Import Envelope WorkOrderState WorkOrderFacts WorkOrderEffects Outbox Lifecycle.
From S2P Require Import ProjectorBase Projection ProjectorInput ProjectorWorkOrder.
From S2P Require Import ProjectorBranch ProjectorOutbox ProjectorDelivery.
From S2P Require Import Projector ProjectorSpec ProjectorRefine ProjectorStep ProjectorInvariant.

(** ** The outbox *)

(** What an effect may have become. *)
Record effect_kept (x y : Effect) : Prop := {
  kept_version : fx_v2 y = fx_v2 x;
  kept_identity : fx_identity y = fx_identity x;
  kept_status : rtc (λ s t, t ∈ OUTBOX_TRANSITIONS s) (fx_status x) (fx_status y);
  kept_generation : (fx_lease_generation x <= fx_lease_generation y)%Z;
  kept_history : fx_fencing_history x `prefix_of` fx_fencing_history y;
  kept_time : (fx_updated_at x <= fx_updated_at y)%Z;
  kept_terminal : fx_status x ∈ V2_TERMINAL_EFFECT_STATUSES → y = x;
}.

Lemma effect_kept_refl x : effect_kept x x.
Proof. split; done || constructor. Qed.

Lemma effect_kept_trans x y z : effect_kept x y → effect_kept y z → effect_kept x z.
Proof.
  intros [] []. split; [congruence..|by etrans|lia|by etrans|lia|].
  intros Hx. rewrite kept_terminal1; auto. rewrite kept_terminal0; auto.
Qed.

(** The status of an effect moves along [OUTBOX_TRANSITIONS], and never from a terminal one. *)
Lemma effect_step_status now x y :
  effect_step now x y →
  (fx_status x ∉ V2_TERMINAL_EFFECT_STATUSES)
  ∧ (fx_status y = fx_status x ∨ fx_status y ∈ OUTBOX_TRANSITIONS (fx_status x)).
Proof.
  destruct 1 as [x l Hs Hg Hv Ht|x l y Hs Hx Ht Hy|x l l' Hs Hx Htok Ht|x l y reason Hs Hx Ht Hy
    |x l d policy Hs Hx Ht Hc Hr|x st d policy Hto Hst Ht Hc Hr|x reason Hs]; simpl.
  - rewrite Hs. set_solver.
  - rewrite Hs. destruct Hy as [-> | [r ->]]; set_solver.
  - destruct (fx_status x); set_solver.
  - rewrite Hs. destruct Hy as [-> | ->]; set_solver.
  - rewrite Hs. set_solver.
  - destruct (fx_status x); set_solver.
  - destruct (fx_status x); set_solver.
Qed.

(** A claim is the only step that touches the history: it adds a token. *)
Lemma effect_step_history now x y :
  effect_step now x y →
  (fx_lease_generation x <= fx_lease_generation y)%Z
  ∧ fx_fencing_history x `prefix_of` fx_fencing_history y ∧ fx_updated_at y = now.
Proof.
  destruct 1 as [x l Hs Hg Hv Ht|x l y Hs Hx Ht Hy|x l l' Hs Hx Htok Ht|x l y reason Hs Hx Ht Hy
    |x l d policy Hs Hx Ht Hc Hr|x st d policy Hto Hst Ht Hc Hr|x reason Hs]; simpl.
  - split; [lia|]. split; [|done]. destruct (fx_v2 x); [by apply prefix_app_r|done].
  - by destruct Hy as [-> | [r ->]].
  - done.
  - by destruct Hy as [-> | ->].
  - done.
  - done.
  - done.
Qed.

Lemma effect_step_kept now x y :
  (fx_updated_at x <= now)%Z → effect_step now x y → effect_kept x y.
Proof.
  intros Hn Hs. destruct (effect_step_identity _ _ _ Hs) as [Hv Hi].
  destruct (effect_step_history _ _ _ Hs) as (Hg & Hh & Ht).
  destruct (effect_step_status _ _ _ Hs) as [Hl Hr].
  split; try done; [|lia]. destruct Hr as [->|Hr]; [done|]. by apply rtc_once.
Qed.

(** ** A run *)

(** What is never lost. *)
Record kept (p q : Projection) : Prop := {
  kept_effects : ∀ k x, pj_outbox p !! k = Some x →
    ∃ y, pj_outbox q !! k = Some y ∧ effect_kept x y;
  kept_receipts : ∀ m k r, receipts m p !! k = Some r → receipts m q !! k = Some r;
  kept_late : ∀ k l, pj_late_observations p !! k = Some l → pj_late_observations q !! k = Some l;
  kept_epoch : ∀ e, pj_provider_settlement_epoch p = Some e →
    pj_provider_settlement_epoch q = Some e;
  kept_orders : ∀ k, is_Some (pj_work_orders p !! k) → is_Some (pj_work_orders q !! k);
}.

Lemma kept_refl p : kept p p.
Proof. split; eauto using effect_kept_refl. Qed.

Lemma kept_trans p q r : kept p q → kept q r → kept p r.
Proof.
  intros Hp Hq. split.
  - intros k x Hx. destruct (kept_effects _ _ Hp _ _ Hx) as (y & Hy & Hxy).
    destruct (kept_effects _ _ Hq _ _ Hy) as (z & Hz & Hyz). exists z. split; [done|].
    by eapply effect_kept_trans.
  - intros m k x Hx. by apply (kept_receipts _ _ Hq), (kept_receipts _ _ Hp).
  - intros k l Hl. by apply (kept_late _ _ Hq), (kept_late _ _ Hp).
  - intros x Hx. by apply (kept_epoch _ _ Hq), (kept_epoch _ _ Hp).
  - intros k Hk. by apply (kept_orders _ _ Hq), (kept_orders _ _ Hp).
Qed.

Lemma outbox_change_kept b m m' k x :
  outbox_change b m m' → m !! k = Some x → ∃ y, m' !! k = Some y ∧ effect_kept x y.
Proof.
  destruct 1 as [|z Hn _ _|l z y Hl Ht _ Hs]; intros Hx.
  - eauto using effect_kept_refl.
  - exists x. rewrite lookup_insert_ne by congruence. eauto using effect_kept_refl.
  - destruct (decide (k = l)) as [->|Hne].
    + rewrite lookup_insert_eq. assert (z = x) as -> by congruence. exists y.
      split; [done|]. by eapply effect_step_kept.
    + rewrite lookup_insert_ne by done. eauto using effect_kept_refl.
Qed.

Lemma change_kept b p q : change b p q → kept p q.
Proof.
  intros [Co Cx Cl Cr _ Ce]. split.
  - intros k x. by apply outbox_change_kept with b.
  - intros m k r. by rewrite Cr.
  - intros k l Hl. destruct Cl as [->|(id & l' & Hn & ->)]; [done|].
    rewrite lookup_insert_ne; congruence.
  - by rewrite Ce.
  - intros k. by apply orders_change_dom with b.
Qed.

Lemma opened_kept p b e hash q w pending revision :
  opened p b e hash q w pending revision → kept p q.
Proof.
  intros [_ -> _ _ _ _ _]. split; simpl; eauto using effect_kept_refl.
  intros k. rewrite lookup_insert_is_Some'. auto.
Qed.

Lemma received_kept `{Sha256} p b m q w pending r : received p b m q w pending r → kept p q.
Proof.
  intros [_ _ _ _ _ _ Hf _ Ho Hr Hx Hl He]. split.
  - intros k x. rewrite Hx. eauto using effect_kept_refl.
  - intros n k x Hk. rewrite Hr. case_decide; [|done]. subst. rewrite lookup_insert_ne; [done|].
    intros Heq. subst. by rewrite Hf in Hk.
  - by rewrite Hl.
  - by rewrite He.
  - intros k. rewrite Ho, lookup_insert_is_Some'. auto.
Qed.

Lemma fresh_kept p w : kept p (replaceWorkOrder p w).
Proof.
  split; simpl; eauto using effect_kept_refl. intros k. rewrite lookup_insert_is_Some'. auto.
Qed.

Lemma event_step_kept `{Sha256} b e p q : event_step b e p q → kept p q.
Proof.
  destruct 1 as [|w hash _ Hn Ha _ Hw|hash q w pn rev v Hq _ _ Hv
    |hash q w pn rev r Hq _ _ _ Hr _|hash q w pn rev m v r receipt Hq _ _ Hr].
  - apply kept_refl.
  - apply fresh_kept.
  - eapply kept_trans; [by eapply opened_kept|apply fresh_kept].
  - eapply kept_trans; [by eapply opened_kept|by eapply change_kept].
  - eapply kept_trans; [by eapply opened_kept|by eapply received_kept].
Qed.

Lemma projected_kept `{Sha256} p q : projected p q → kept p q.
Proof.
  destruct 1 as [epoch Hn| |b e q Hs]; [|apply kept_refl|by eapply event_step_kept].
  split; simpl; eauto using effect_kept_refl. congruence.
Qed.

(** ** Isolation *)

(** Outside the Work Order [k], nothing differs but the receipts of [source]. *)
Record only_touches (k source : string) (p q : Projection) : Prop := {
  touches_orders : ∀ j, j ≠ k → pj_work_orders q !! j = pj_work_orders p !! j;
  touches_effects : ∀ j x, pj_outbox p !! j = Some x → fx_work_order_id x ≠ k →
    pj_outbox q !! j = Some x;
  touches_new_effects : ∀ j y, pj_outbox p !! j = None → pj_outbox q !! j = Some y →
    fx_work_order_id y = k;
  touches_receipts : ∀ m j, j ≠ source → receipts m q !! j = receipts m p !! j;
  touches_epoch : pj_provider_settlement_epoch q = pj_provider_settlement_epoch p;
}.

Lemma only_touches_refl k s p : only_touches k s p p.
Proof. split; congruence. Qed.

Lemma opened_touches p b e hash q w pending revision :
  keyed p → opened p b e hash q w pending revision →
  only_touches (bd_work_order_id b) (bd_source_id b) p q.
Proof.
  intros Hp [Hw -> _ _ _ _ _]. destruct (keyed_orders _ Hp _ _ Hw) as [Hid _].
  split; simpl; [|congruence..|by intros []|done].
  intros j Hj. apply lookup_insert_ne. intros Heq. apply Hj. by rewrite <- Heq, <- Hid.
Qed.

Lemma change_touches b p q :
  keyed p → change b p q → only_touches (bd_work_order_id b) (bd_source_id b) p q.
Proof.
  intros Hp [Co Cx _ Cr _ Ce]. split; [| | | |done].
  - intros j Hj. destruct Co as [|w v Hw Hs]; [done|]. apply lookup_insert_ne.
    destruct (keyed_orders _ Hp _ _ Hw) as [Hid _]. rewrite (ostep_id _ _ Hs). congruence.
  - intros j x Hx Hj. destruct Cx as [|y Hn _ _|l y z Hl _ Hy _]; [done|..];
      (rewrite lookup_insert_ne; [done|]); congruence.
  - intros j y Hn Hy. destruct Cx as [|z _ _ Hz|l z y' Hl _ Hz Hs]; [congruence|..];
      apply lookup_insert_Some in Hy as [[<- <-]|[_ Hy]]; congruence.
  - intros m j _. by rewrite Cr.
Qed.

Lemma received_touches `{Sha256} p b m q w pending r :
  keyed p → received p b m q w pending r → pn_source_id pending = bd_source_id b →
  only_touches (bd_work_order_id b) (bd_source_id b) p q.
Proof.
  intros Hp [Hw _ Hs _ _ _ _ _ Ho Hr Hx _ He] Hsource.
  destruct (keyed_orders _ Hp _ _ Hw) as [Hid _]. split; [| | | |done]; rewrite ?Hx; try congruence.
  - intros j Hj. rewrite Ho. apply lookup_insert_ne. congruence.
  - intros n j Hj. rewrite Hr. case_decide; [|done]. apply lookup_insert_ne. congruence.
Qed.

Lemma only_touches_trans k s p q r :
  kept q r → only_touches k s p q → only_touches k s q r → only_touches k s p r.
Proof.
  intros Hk Hp Hq. split.
  - intros j Hj. rewrite (touches_orders _ _ _ _ Hq) by done. by apply (touches_orders _ _ _ _ Hp).
  - intros j x Hx Hj. by apply (touches_effects _ _ _ _ Hq); [apply (touches_effects _ _ _ _ Hp)|].
  - intros j y Hn Hy. destruct (pj_outbox q !! j) as [x|] eqn:Hx.
    + pose proof (touches_new_effects _ _ _ _ Hp _ _ Hn Hx) as Hxk.
      destruct (kept_effects _ _ Hk _ _ Hx) as (z & Hz & Hxz).
      assert (z = y) as -> by congruence. unfold fx_work_order_id in *.
      by rewrite (kept_identity _ _ Hxz).
    + by eapply (touches_new_effects _ _ _ _ Hq).
  - intros m j Hj. rewrite (touches_receipts _ _ _ _ Hq) by done.
    by apply (touches_receipts _ _ _ _ Hp).
  - rewrite (touches_epoch _ _ _ _ Hq). apply (touches_epoch _ _ _ _ Hp).
Qed.

Lemma fresh_touches p b e hash w :
  fresh_order b e hash w →
  only_touches (bd_work_order_id b) (bd_source_id b) p (replaceWorkOrder p w).
Proof.
  intros Hw. destruct (fresh_order_keyed _ _ _ _ Hw) as [Hid _].
  split; simpl; [|congruence..|by intros []|done].
  intros j Hj. apply lookup_insert_ne. congruence.
Qed.

(** An event touches its own Work Order, its effects, and the receipt of its source. *)
Lemma event_step_touches `{Sha256} b e p q :
  keyed p → event_step b e p q → only_touches (bd_work_order_id b) (bd_source_id b) p q.
Proof.
  intros Hp. destruct 1 as [|w hash _ Hn Ha _ Hw|hash q w pn rev v Hq _ _ Hv
    |hash q w pn rev r Hq _ _ _ Hr _|hash q w pn rev m v r receipt Hq _ _ Hr].
  - apply only_touches_refl.
  - by eapply fresh_touches.
  - eapply only_touches_trans; [apply fresh_kept|by eapply opened_touches|by eapply fresh_touches].
  - eapply only_touches_trans; [by eapply change_kept|by eapply opened_touches|].
    apply change_touches; [by eapply keyed_opened|done].
  - eapply only_touches_trans; [by eapply received_kept|by eapply opened_touches|].
    eapply received_touches; [by eapply keyed_opened|done|]. apply (opened_source _ _ _ _ _ _ _ _ Hq).
Qed.

(** ** Terminal Work Orders *)

(** The Work Order is as it was, up to the input that is being projected. *)
Definition frozen (w v : WorkOrder) : Prop :=
  wo_state v = set_st_revision (st_revision (wo_state v)) (wo_state w) ∧ wo_extra v = wo_extra w.

Lemma frozen_refl w : frozen w w.
Proof. split; [|done]. by destruct w as [[] ? ?]. Qed.

Lemma frozen_trans w v u : frozen w v → frozen v u → frozen w u.
Proof. intros [H1 H2] [H3 H4]. split; [by rewrite H3, H1|congruence]. Qed.

(** A terminal Work Order of [p], in [q]. *)
Definition stays_terminal (p q : Projection) : Prop :=
  ∀ k w, pj_work_orders p !! k = Some w → st_status (wo_state w) ∈ TERMINAL_WORK_ORDER_STATES →
    (∃ v, pj_work_orders q !! k = Some v ∧ frozen w v)
    ∧ (∀ j x, fx_work_order_id x = k → pj_outbox q !! j = Some x ↔ pj_outbox p !! j = Some x).

(** The effects of a Work Order an event does not touch. *)
Lemma touches_other_effects k s p q i j x :
  kept p q → only_touches k s p q → i ≠ k → fx_work_order_id x = i →
  pj_outbox q !! j = Some x ↔ pj_outbox p !! j = Some x.
Proof.
  intros Hk Ht Hi Hx. split; intros Hj.
  - destruct (pj_outbox p !! j) as [y|] eqn:Hp.
    + destruct (decide (fx_work_order_id y = k)) as [Hy|Hy].
      * destruct (kept_effects _ _ Hk _ _ Hp) as (z & Hz & Hyz). assert (z = x) as -> by congruence.
        unfold fx_work_order_id in *. rewrite (kept_identity _ _ Hyz) in Hx. congruence.
      * rewrite <- Hj. symmetry. by apply (touches_effects _ _ _ _ Ht).
    + pose proof (touches_new_effects _ _ _ _ Ht _ _ Hp Hj). congruence.
  - apply (touches_effects _ _ _ _ Ht); [done|congruence].
Qed.

Lemma frozen_opened w pending revision :
  frozen w (set_wo_pending (Some pending) (set_wo_state (set_st_revision revision (wo_state w)) w)).
Proof. by split. Qed.

(** The event of a terminal Work Order is a quarantined observation or a receipt. *)
Lemma event_step_own_terminal `{Sha256} b e p q w :
  keyed p → event_step b e p q → pj_work_orders p !! bd_work_order_id b = Some w →
  st_status (wo_state w) ∈ TERMINAL_WORK_ORDER_STATES →
  (∃ v, pj_work_orders q !! bd_work_order_id b = Some v ∧ frozen w v) ∧ pj_outbox q = pj_outbox p.
Proof.
  intros Hp Hs Hw Ht.
  destruct Hs as [|u hash _ Hn _ _ _|hash q u pn rev v Hq Hc _ _
    |hash q u pn rev r Hq Ht' _ _ _ Hr|hash q u pn rev m v r receipt Hq _ _ Hr];
    [|congruence|..]; try pose proof (opened_order _ _ _ _ _ _ _ _ Hq) as Hu;
    try assert (u = w) as -> by congruence; try pose proof (opened_live _ _ _ _ _ _ _ _ Hq Ht) as Hl.
  - split; [|done]. exists w. split; [done|apply frozen_refl].
  - rewrite Hc in Hl. by destruct Hl.
  - destruct Hr as [Ho Hx]; [destruct Hl as [|Hl]; [done|by rewrite Ht' in Hl]|].
    rewrite Ho, Hx. split; [|by rewrite (opened_result _ _ _ _ _ _ _ _ Hq)].
    eexists. split; [by eapply opened_lookup|apply frozen_opened].
  - rewrite (received_outbox _ _ _ _ _ _ _ Hr), (received_orders _ _ _ _ _ _ _ Hr).
    split; [|by rewrite (opened_result _ _ _ _ _ _ _ _ Hq)].
    pose proof (received_order _ _ _ _ _ _ _ Hr) as Hv.
    rewrite (opened_lookup _ _ _ _ _ _ _ _ Hp Hq) in Hv. injection Hv as <-.
    destruct (keyed_orders _ Hp _ _ Hw) as [Hid _].
    exists (set_wo_pending None (set_wo_state (set_st_revision rev (wo_state w)) w)).
    split; [|by split]. rewrite <- Hid. by rewrite lookup_insert_eq.
Qed.

Lemma projected_terminal `{Sha256} p q : keyed p → projected p q → stays_terminal p q.
Proof.
  intros Hp Hs k w Hw Ht. pose proof (projected_kept _ _ Hs) as Hk.
  destruct Hs as [epoch Hn| |b e q Hs]; [eauto using frozen_refl..|].
  destruct (decide (k = bd_work_order_id b)) as [->|Hne].
  - destruct (event_step_own_terminal _ _ _ _ _ Hp Hs Hw Ht) as [Hv Hx]. split; [done|].
    intros j x _. by rewrite Hx.
  - pose proof (event_step_touches _ _ _ _ Hp Hs) as Htouch. split.
    + exists w. rewrite (touches_orders _ _ _ _ Htouch) by done. split; [done|apply frozen_refl].
    + intros j x Hx. by eapply touches_other_effects.
Qed.

Lemma stays_terminal_refl p : stays_terminal p p.
Proof. intros k w Hw _. eauto using frozen_refl. Qed.

Lemma stays_terminal_trans p q r :
  stays_terminal p q → stays_terminal q r → stays_terminal p r.
Proof.
  intros Hp Hq k w Hw Ht. destruct (Hp k w Hw Ht) as [(v & Hv & Hwv) Hx].
  assert (st_status (wo_state v) ∈ TERMINAL_WORK_ORDER_STATES) as Hvt
    by (destruct Hwv as [-> _]; exact Ht).
  destruct (Hq k v Hv Hvt) as [(u & Hu & Hvu) Hy]. split.
  - exists u. split; [done|]. by eapply frozen_trans.
  - intros j x Hj. by rewrite Hy, Hx.
Qed.
