(* ===== verification/ProjectorHistory.v ===== *)
(** Runs in which a Work Order is created once: its record then follows its protocol from its
    creation on, and its revision counts the inputs it received. *)

From Stdlib Require Import ZArith Lia String.
From stdpp Require Import base tactics list strings option gmap relations.
From S2P Require Import Prelude JsString JsDate Json SettlementPolicy ContractBase PlanContract.
From S2P Require Import Envelope WorkOrderState WorkOrderFacts WorkOrderEffects Outbox Lifecycle.
From S2P Require Import ProjectorBase Projection ProjectorInput ProjectorWorkOrder.
From S2P Require Import ProjectorBranch ProjectorOutbox ProjectorDelivery.
From S2P Require Import Projector ProjectorSpec ProjectorRefine ProjectorStep ProjectorInvariant.
From S2P Require Import ProjectorRuns.

(** The Work Order an event creates. *)
Definition created_id (input : json) : option string :=
  match normalizeEvent input with
  | Ok e => if bool_decide (pe_type e = EWorkOrderCreated)
            then bd_work_order_id <$> pe_binding e else None
  | Err _ => None
  end.

Definition creations (l : list (json * json)) : list string := omap (λ ec, created_id ec.1) l.

(** No event creates a Work Order that exists. *)
Definition created_once (p : Projection) (l : list (json * json)) : Prop :=
  NoDup (creations l) ∧ ∀ k, k ∈ creations l → pj_work_orders p !! k = None.

#[export] Instance created_once_dec p l : Decision (created_once p l).
Proof.
  unfold created_once. apply and_dec; [apply _|].
  destruct (decide (Forall (λ k, pj_work_orders p !! k = None) (creations l))) as [H|H].
  - left. by apply Forall_forall.
  - right. intros Hall. apply H. by apply Forall_forall.
Defined.

(** A step that does not replace a Work Order. *)
Definition proper (b : Binding) (e : PEvent) (p : Projection) : Prop :=
  pe_type e = EWorkOrderCreated → pj_work_orders p !! bd_work_order_id b = None.

Section Runs.
Context `{Sha256} {evidence : SendEvidence} {hashing : ProjectionHash}.

(** The two ways an event is projected. *)
Lemma event_cases p input batchContext q :
  keyed p → projectBusinessEventV1 p input batchContext = Ok q →
  (∃ e b, normalizeEvent input = Ok e ∧ pe_binding e = Some b ∧ event_step b e p q)
  ∨ (∃ e, normalizeEvent input = Ok e ∧ pe_binding e = None
     ∧ projectProviderSettlementCutoverEvent p e batchContext = Ok q).
Proof.
  intros Hp Hq. unfold projectBusinessEventV1 in Hq. res_inv Hq.
  destruct (pe_binding v) as [b|] eqn:Hb; [left|right; eauto].
  exists v, b. split; [done|]. split; [done|]. by eapply project_bound_step.
Qed.

(** The cutover writes the epoch alone. *)
Lemma cutover_writes p e batchContext q :
  projectProviderSettlementCutoverEvent p e batchContext = Ok q →
  ∃ epoch, q = set_pj_provider_settlement_epoch epoch p.
Proof.
  revert q. change (post (projectProviderSettlementCutoverEvent p e batchContext)
    (λ q, ∃ epoch, q = set_pj_provider_settlement_epoch epoch p)).
  unfold projectProviderSettlementCutoverEvent. walk; eauto.
  exists (pj_provider_settlement_epoch p). by destruct p.
Qed.

Lemma cutover_orders p e batchContext q :
  projectProviderSettlementCutoverEvent p e batchContext = Ok q →
  pj_work_orders q = pj_work_orders p.
Proof. by intros [epoch ->]%cutover_writes. Qed.

(** A missing Work Order appears with the event that creates it. *)
Lemma event_step_creates b e p q :
  event_step b e p q → pe_type e ≠ EWorkOrderCreated →
  is_Some (pj_work_orders p !! bd_work_order_id b).
Proof.
  destruct 1 as [hash _ Hk|w hash Hc _ _ _ _|hash q w pn rev v Hq _ _ _
    |hash q w pn rev r Hq _ _ _ _ _|hash q w pn rev m v r receipt Hq _ _ _]; intros Hne; try done.
  - destruct Hk as [(w & pn & -> & _)|(m & r & _ & ? & _)]; [eauto|done].
  - by rewrite (opened_order _ _ _ _ _ _ _ _ Hq).
  - by rewrite (opened_order _ _ _ _ _ _ _ _ Hq).
  - by rewrite (opened_order _ _ _ _ _ _ _ _ Hq).
Qed.

Lemma created_once_cons p input ctx l q :
  keyed p → created_once p ((input, ctx) :: l) →
  projectBusinessEventV1 p input ctx = Ok q → created_once q l.
Proof.
  intros Hp [Hnd Hn] Hq. unfold creations in *. simpl in *.
  assert (NoDup (omap (λ ec, created_id ec.1) l) ∧ ∀ k, k ∈ omap (λ ec, created_id ec.1) l →
    pj_work_orders p !! k = None ∧ created_id input ≠ Some k) as [Hnd' Hn'].
  { destruct (created_id input) as [k0|].
    - apply NoDup_cons in Hnd as [Hk0 Hnd]. split; [done|]. intros k Hk. split; [by apply Hn; right|].
      intros [= <-]. done.
    - split; [done|]. intros k Hk. split; [by apply Hn|done]. }
  split; [done|]. intros k Hk. destruct (Hn' _ Hk) as [Hpk Hne].
  destruct (event_cases _ _ _ _ Hp Hq) as [(e & b & He & Hb & Hs)|(e & _ & _ & Hc)].
  - pose proof (event_step_touches _ _ _ _ Hp Hs) as Ht.
    destruct (decide (k = bd_work_order_id b)) as [->|Hkb];
      [|by rewrite (touches_orders _ _ _ _ Ht)].
    exfalso. destruct (decide (pe_type e = EWorkOrderCreated)) as [Hc|Hc].
    + apply Hne. unfold created_id. rewrite He, Hb. by rewrite bool_decide_true.
    + destruct (event_step_creates _ _ _ _ Hs Hc) as [w Hw]. congruence.
  - by rewrite (cutover_orders _ _ _ _ Hc).
Qed.

Lemma created_once_proper p input ctx l e b :
  created_once p ((input, ctx) :: l) → normalizeEvent input = Ok e → pe_binding e = Some b →
  proper b e p.
Proof.
  intros [_ Hn] He Hb Hc. apply Hn. unfold creations, created_id. simpl. rewrite He, Hb.
  rewrite bool_decide_true by done. by left.
Qed.

(** A property and a relation carried along such a run. *)
Lemma run_invariant (I : Projection → Prop) :
  (∀ p e ctx q, I p → pe_binding e = None →
    projectProviderSettlementCutoverEvent p e ctx = Ok q → I q) →
  (∀ p b e q, invariant p → I p → proper b e p → event_step b e p q → I q) →
  ∀ l p, invariant p → I p → created_once p l → post (project_events p l) I.
Proof.
  intros Hc Hs l. induction l as [|[ev ctx] l IH]; intros p Hp Hi Ho; simpl; [by apply post_ret|].
  pose proof (inv_keyed _ Hp) as Hk.
  apply post_bind. intros q Hq. pose proof (created_once_cons _ _ _ _ _ Hk Ho Hq) as Ho'.
  pose proof (event_projected _ _ _ Hk _ Hq) as Hpq.
  apply IH; [by eapply invariant_projected| |done].
  destruct (event_cases _ _ _ _ Hk Hq) as [(e & b & He & Hb & Hstep)|(e & _ & Hb & Hcut)];
    [|by eapply Hc].
  eapply Hs; [done..| |done]. by eapply created_once_proper.
Qed.
End Runs.

(** ** The record of a Work Order *)

(** What a branch may have become. *)
Record branch_kept (x y : Branch) : Prop := {
  bkept_planned : br_planned y = br_planned x;
  bkept_criteria : br_required_criterion_ids y = br_required_criterion_ids x;
  bkept_moves : rtc branch_move (br_state x, br_attempt x) (br_state y, br_attempt y);
}.

(** What a Work Order may have become. *)
Record order_kept (w v : WorkOrder) : Prop := {
  okept_version :
    st_engine_contract_version (wo_state v) = st_engine_contract_version (wo_state w);
  okept_snapshot : st_plan_snapshot_ref (wo_state v) = st_plan_snapshot_ref (wo_state w);
  okept_hash : st_plan_hash (wo_state v) = st_plan_hash (wo_state w);
  okept_plan : st_plan (wo_state v) = st_plan (wo_state w);
  okept_created : st_created_at (wo_state v) = st_created_at (wo_state w);
  okept_deadline : st_deadline_at (wo_state v) = st_deadline_at (wo_state w);
  okept_revision : (st_revision (wo_state w) <= st_revision (wo_state v))%Z;
  okept_status : rtc (λ s t, t ∈ WORK_ORDER_TRANSITIONS s)
    (st_status (wo_state w)) (st_status (wo_state v));
  okept_branches : ∀ r x, st_branches (wo_state w) !! r = Some x →
    ∃ y, st_branches (wo_state v) !! r = Some y ∧ branch_kept x y;
  okept_attention : ∀ id x, st_attention (wo_state w) !! id = Some x →
    ∃ y, st_attention (wo_state v) !! id = Some y ∧ attention_step x y;
  okept_decisions : default [] (st_decision_history (wo_state w))
    `prefix_of` default [] (st_decision_history (wo_state v));
}.

Lemma branch_kept_refl x : branch_kept x x.
Proof. by split. Qed.
Lemma branch_kept_trans x y z : branch_kept x y → branch_kept y z → branch_kept x z.
Proof. intros [] []. split; [congruence..|by etrans]. Qed.
Lemma branch_step_kept x y : branch_step x y → branch_kept x y.
Proof. intros [Hp Hc Hm _]. split; [done..|]. by apply rtc_once. Qed.

Lemma attention_step_trans x y z :
  attention_step x y → attention_step y z → attention_step x z.
Proof.
  intros [->|[Hx [r ->]]] [->|[Hy [r' ->]]]; [by left|by right; eauto|by right; eauto|done].
Qed.

Lemma order_kept_refl w : order_kept w w.
Proof.
  split; try done.
  - intros r x Hx. exists x. split; [done|apply branch_kept_refl].
  - intros id x Hx. exists x. split; [done|by left].
Qed.

Lemma order_kept_trans w v u : order_kept w v → order_kept v u → order_kept w u.
Proof.
  intros Hw Hv. destruct Hw, Hv. split; try congruence; [lia|by etrans|..|by etrans].
  - intros r x Hx. destruct (okept_branches0 _ _ Hx) as (y & Hy & Hxy).
    destruct (okept_branches1 _ _ Hy) as (z & Hz & Hyz). exists z. split; [done|].
    by eapply branch_kept_trans.
  - intros id x Hx. destruct (okept_attention0 _ _ Hx) as (y & Hy & Hxy).
    destruct (okept_attention1 _ _ Hy) as (z & Hz & Hyz). exists z. split; [done|].
    by eapply attention_step_trans.
Qed.

Lemma order_step_kept w v : order_step w v → order_kept w v.
Proof.
  intros []. split; try done; [lia| |].
  - destruct ostep_status as [->|Hs]; [done|by apply rtc_once].
  - intros r x Hx. destruct (ostep_branches _ _ Hx) as (y & Hy & Hxy). exists y.
    split; [done|by apply branch_step_kept].
Qed.

(** A change of the input alone. *)
Lemma order_kept_input w pending revision :
  (st_revision (wo_state w) <= revision)%Z →
  order_kept w (set_wo_pending pending (set_wo_state (set_st_revision revision (wo_state w)) w)).
Proof. intros Hr. destruct (order_kept_refl w). by split. Qed.

(** The Work Orders of [p], in [q]. *)
Definition orders_kept (p q : Projection) : Prop :=
  ∀ k w, pj_work_orders p !! k = Some w →
    ∃ v, pj_work_orders q !! k = Some v ∧ order_kept w v.

Lemma orders_kept_refl p : orders_kept p p.
Proof. intros k w Hw. exists w. split; [done|apply order_kept_refl]. Qed.

Lemma orders_kept_trans p q r : orders_kept p q → orders_kept q r → orders_kept p r.
Proof.
  intros Hp Hq k w Hw. destruct (Hp _ _ Hw) as (v & Hv & Hwv).
  destruct (Hq _ _ Hv) as (u & Hu & Hvu). exists u. split; [done|]. by eapply order_kept_trans.
Qed.

(** One Work Order is written over. *)
Lemma orders_kept_insert p q w v :
  pj_work_orders p !! wo_id v = Some w → pj_work_orders q = <[wo_id v := v]> (pj_work_orders p) →
  order_kept w v → orders_kept p q.
Proof.
  intros Hw Hq Hk k u Hu. rewrite Hq. destruct (decide (k = wo_id v)) as [->|Hne].
  - exists v. rewrite lookup_insert_eq. split; [done|]. congruence.
  - exists u. rewrite lookup_insert_ne by done. split; [done|apply order_kept_refl].
Qed.

Lemma expected_target_ge s r : (r <= expected_target s r)%Z.
Proof. destruct s; simpl; lia. Qed.

Lemma opened_orders_kept p b e hash q w pending revision :
  keyed p → opened p b e hash q w pending revision → orders_kept p q.
Proof.
  intros Hp Hq. destruct (keyed_orders _ Hp _ _ (opened_order _ _ _ _ _ _ _ _ Hq)) as [Hid _].
  pose proof (opened_order _ _ _ _ _ _ _ _ Hq) as Hw. rewrite <- Hid in Hw.
  rewrite (opened_result _ _ _ _ _ _ _ _ Hq).
  eapply orders_kept_insert; [|done|]; [exact Hw|]. apply order_kept_input.
  pose proof (opened_mode _ _ _ _ _ _ _ _ Hq) as Hm.
  destruct (wo_pending w); [by destruct Hm as [-> _]|].
  destruct Hm as (_ & _ & -> & _). apply expected_target_ge.
Qed.

Lemma change_orders_kept p b q : keyed p → change b p q → orders_kept p q.
Proof.
  intros Hp [Ho _ _ _ _ _]. remember (pj_work_orders q) as m eqn:Hm.
  destruct Ho as [|w v Hw Hs].
  - intros k w Hw. rewrite <- Hm. exists w. split; [done|apply order_kept_refl].
  - destruct (keyed_orders _ Hp _ _ Hw) as [Hid _].
    eapply (orders_kept_insert _ _ w v); [|done|by apply order_step_kept].
    rewrite (ostep_id _ _ Hs). congruence.
Qed.

Lemma received_orders_kept `{Sha256} p b m q w pending r :
  keyed p → received p b m q w pending r → orders_kept p q.
Proof.
  intros Hp Hr. destruct (keyed_orders _ Hp _ _ (received_order _ _ _ _ _ _ _ Hr)) as [Hid _].
  apply (orders_kept_insert _ _ w (set_wo_pending None w)).
  - change (wo_id (set_wo_pending None w)) with (wo_id w). rewrite Hid. apply Hr.
  - apply Hr.
  - destruct (order_kept_refl w). by split.
Qed.

Lemma proper_orders_kept `{Sha256} b e p q :
  invariant p → proper b e p → event_step b e p q → orders_kept p q.
Proof.
  intros Hp Hc Hs. pose proof (inv_keyed _ Hp) as Hk.
  destruct Hs as [|w hash _ Hn Ha _ Hw|hash q w pn rev v Hq He _ _
    |hash q w pn rev r Hq _ _ _ Hr _|hash q w pn rev m v r receipt Hq _ _ Hr].
  - apply orders_kept_refl.
  - intros k u Hu. exists u. destruct (fresh_order_keyed _ _ _ _ Hw) as [Hid _]. simpl.
    rewrite lookup_insert_ne by congruence. split; [done|apply order_kept_refl].
  - pose proof (opened_order _ _ _ _ _ _ _ _ Hq). rewrite Hc in *; done.
  - eapply orders_kept_trans; [by eapply opened_orders_kept|].
    eapply change_orders_kept; [by eapply keyed_opened|done].
  - eapply orders_kept_trans; [by eapply opened_orders_kept|].
    eapply received_orders_kept; [by eapply keyed_opened|done].
Qed.

(** ** The revision *)

(** The receipts of a Work Order in a map. *)
Definition receipts_of (k : string) (m : gmap string Receipt) : nat :=
  size (filter (λ ir, rc_work_order_id ir.2 = k) m).

(** The inputs that move the revision of a Work Order: the received ones, and the pending one. *)
Definition inputs_of (p : Projection) (k : string) (w : WorkOrder) : nat :=
  receipts_of k (receipts CommandReceipts p) + receipts_of k (receipts ObservationReceipts p)
  + match wo_pending w with
    | Some pending => if bool_decide (pn_source_type pending = SInternal) then 0 else 1
    | None => 0
    end.

Definition counts_inputs (p : Projection) : Prop :=
  ∀ k w, pj_work_orders p !! k = Some w → st_revision (wo_state w) = Z.of_nat (inputs_of p k w).

Lemma receipts_of_insert k m id r :
  m !! id = None →
  receipts_of k (<[id := r]> m)
  = (if bool_decide (rc_work_order_id r = k) then 1 else 0) + receipts_of k m.
Proof.
  intros Hn. unfold receipts_of. case_bool_decide as Hk.
  - rewrite map_filter_insert_True by done. rewrite map_size_insert_None; [done|].
    apply map_lookup_filter_None. by left.
  - rewrite map_filter_insert_not'; [done|done|]. intros y Hy. congruence.
Qed.

Lemma receipts_of_none k m :
  (∀ id r, m !! id = Some r → rc_work_order_id r ≠ k) → receipts_of k m = 0.
Proof.
  intros Hm. unfold receipts_of. apply map_size_empty_iff, map_empty. intros id.
  apply map_lookup_filter_None. right. intros r Hr. by apply Hm with id.
Qed.

(** The inputs of the Work Orders a step writes over. *)
Lemma counts_insert p q v :
  counts_inputs p → (∀ m, receipts m q = receipts m p) →
  pj_work_orders q = <[wo_id v := v]> (pj_work_orders p) →
  st_revision (wo_state v) = Z.of_nat (inputs_of p (wo_id v) v) → counts_inputs q.
Proof.
  intros Hp Hr Hq Hv k w. rewrite Hq. unfold inputs_of. rewrite !Hr.
  intros [[<- <-]|[_ Hw]]%lookup_insert_Some; [done|by apply Hp].
Qed.

Lemma counts_opened p b e hash q w pending revision :
  keyed p → counts_inputs p → opened p b e hash q w pending revision → counts_inputs q.
Proof.
  intros Hk Hp Hq. pose proof (opened_order _ _ _ _ _ _ _ _ Hq) as Hw.
  destruct (keyed_orders _ Hk _ _ Hw) as [Hid _]. pose proof (Hp _ _ Hw) as Hr.
  rewrite (opened_result _ _ _ _ _ _ _ _ Hq).
  eapply counts_insert; [exact Hp|by intros []|done|].
  unfold inputs_of in *. cbn [wo_id wo_state wo_pending set_wo_pending set_wo_state set_st_revision
    st_work_order_id st_revision]. change (st_work_order_id (wo_state w)) with (wo_id w).
  rewrite Hid. pose proof (opened_mode _ _ _ _ _ _ _ _ Hq) as Hm. destruct (wo_pending w).
  - destruct Hm as (-> & _ & -> & _). exact Hr.
  - destruct Hm as (_ & _ & -> & _). rewrite Hr. destruct (pn_source_type pending); simpl; lia.
Qed.

Lemma counts_change p b q : keyed p → counts_inputs p → change b p q → counts_inputs q.
Proof.
  intros Hk Hp [Ho _ _ Hr _ _]. remember (pj_work_orders q) as m eqn:Hm. destruct Ho as [|w v Hw Hs].
  - intros k u. rewrite <- Hm. unfold inputs_of. rewrite !Hr. apply Hp.
  - eapply counts_insert; [exact Hp|exact Hr|done|]. destruct (keyed_orders _ Hk _ _ Hw) as [Hid _].
    unfold inputs_of. rewrite (ostep_revision _ _ Hs), (ostep_pending _ _ Hs), (ostep_id _ _ Hs), Hid.
    by apply Hp.
Qed.

Lemma counts_received `{Sha256} p b m q w pending r :
  keyed p → counts_inputs p → received p b m q w pending r →
  (m = InternalReceipts ↔ pn_source_type pending = SInternal) → counts_inputs q.
Proof.
  intros Hk Hp Hr Hm k u Hu.
  pose proof (received_order _ _ _ _ _ _ _ Hr) as Hw. destruct (keyed_orders _ Hk _ _ Hw) as [Hid _].
  pose proof (received_pending _ _ _ _ _ _ _ Hr) as Hpn.
  rewrite (received_orders _ _ _ _ _ _ _ Hr) in Hu.
  assert (∀ n, receipts_of k (receipts n q)
    = (if bool_decide (m = n ∧ rc_work_order_id r = k) then 1 else 0)
      + receipts_of k (receipts n p)) as Hof.
  { intros n. rewrite (received_receipts _ _ _ _ _ _ _ Hr). case_decide as Hmn.
    - rewrite receipts_of_insert by apply Hr. subst. by repeat case_bool_decide; naive_solver.
    - rewrite bool_decide_false; naive_solver. }
  unfold inputs_of. rewrite !Hof, (received_work_order _ _ _ _ _ _ _ Hr), <- Hid.
  apply lookup_insert_Some in Hu as [[<- <-]|[Hne Hu]].
  - simpl. pose proof (Hp _ _ Hw) as Hc. unfold inputs_of in Hc. rewrite Hpn, <- Hid in Hc.
    simpl in Hc. rewrite Hc. destruct m; repeat case_bool_decide; try (exfalso; naive_solver); lia.
  - rewrite !bool_decide_false by naive_solver. by apply Hp.
Qed.

Lemma proper_counts `{Sha256} b e p q :
  invariant p → counts_inputs p → proper b e p → event_step b e p q → counts_inputs q.
Proof.
  intros Hi Hp Hc Hs. pose proof (inv_keyed _ Hi) as Hk.
  destruct Hs as [|w hash _ Hn Ha _ Hw|hash q w pn rev v Hq He _ _
    |hash q w pn rev r Hq _ _ _ Hr _|hash q w pn rev m v r receipt Hq Hm _ Hr].
  - done.
  - assert (∀ m, receipts_of (bd_work_order_id b) (receipts m p) = 0) as Hz.
    { intros m. apply receipts_of_none. intros id r Hr Heq.
      destruct (inv_receipt_orders _ Hi m id r Hr) as [u Hu]. congruence. }
    eapply counts_insert; [exact Hp|by intros []|done|].
    destruct (fresh_order_keyed _ _ _ _ Hw) as [-> _]. unfold inputs_of. rewrite !Hz.
    by destruct Hw as (?&?&?&?&->&_).
  - pose proof (opened_order _ _ _ _ _ _ _ _ Hq). rewrite Hc in *; done.
  - eapply counts_change; [by eapply keyed_opened|by eapply counts_opened|done].
  - eapply counts_received; [by eapply keyed_opened|by eapply counts_opened|done|].
    destruct (pe_type e); try discriminate Hm; injection Hm as Hs <-; rewrite <- Hs; naive_solver.
Qed.
