(* ===== verification/ProjectorClosed.v ===== *)
(** What a complete input leaves behind: the checks of [validateDurableInputClosure], read as
    facts about the Work Order and the outbox. *)

From Stdlib Require Import ZArith Lia String.
From stdpp Require Import base tactics list strings option gmap relations.
From S2P Require Import Prelude JsString JsDate Json SettlementPolicy ContractBase PlanContract.
From S2P Require Import Envelope WorkOrderState WorkOrderFacts WorkOrderEffects Outbox Lifecycle.
From S2P Require Import ProjectorBase Projection ProjectorInput ProjectorWorkOrder.
From S2P Require Import ProjectorBranch ProjectorOutbox ProjectorDelivery ProjectorSettlement.
From S2P Require Import Projector ProjectorSpec ProjectorRefine ProjectorStep ProjectorInvariant.
From S2P Require Import ProjectorRuns.

(** A branch of a closed Work Order agrees with the effects of its current attempt. *)
Record branch_closed `{Sha256} (p : Projection) (s : State) (branch : Branch) : Prop := {
  closed_dispatch : br_state branch = BDispatchPending →
    ∃ start, currentStarts p s branch = [start];
  closed_unknown : br_state branch = BDeliveryUnknown →
    ∃ start, unresolvedStarts p s branch = [start]
      ∧ fx_status start ∈ [FsSending; FsDeliveryUnknown]
      ∧ hasOpenDeliveryReconciliationAttention s branch start = true;
  closed_settled : br_state branch ∉ [BDispatchPending; BDeliveryUnknown] →
    unresolvedStarts p s branch = [];
  closed_working : br_state branch ∈ [BRunning; BWaitingForUser; BVerifying; BCancelling] →
    acceptedCurrentTurn p s branch = Ok true;
  closed_terminal_branch : br_state branch ∈ TERMINAL_BRANCH_STATES →
    br_open_user_input branch = None
    ∧ ∀ x, x ∈ currentMutations p s branch → fx_status x ∉ V2_UNRESOLVED_EFFECT_STATUSES;
}.

(** A settled Work Order: its branches and its status agree with its effects. *)
Record settled `{Sha256} (p : Projection) (s : State) : Prop := {
  settled_branches : ∀ r branch, st_branches s !! r = Some branch → branch_closed p s branch;
  settled_terminal : st_status s ∈ TERMINAL_WORK_ORDER_STATES →
    (∀ r branch, st_branches s !! r = Some branch → br_state branch ∈ TERMINAL_BRANCH_STATES)
    ∧ ∀ k x, pj_outbox p !! k = Some x → fx_work_order_id x = st_work_order_id s →
        fx_status x ∉ V2_UNRESOLVED_EFFECT_STATUSES;
  settled_cancelling : st_status s = WCancelling →
    ∀ k x, pj_outbox p !! k = Some x → fx_work_order_id x = st_work_order_id s →
      has_start_kind x = true → fx_status x ∉ [FsPending; FsClaimed];
}.

(** A closed Work Order is settled, and its lifecycle shows no violation. *)
Record closed `{Sha256} (p : Projection) (s : State) : Prop := {
  closed_is_settled : settled p s;
  closed_lifecycle : ∃ snapshot,
    deriveLifecycleSnapshot s (pj_outbox p) (st_attention s) = Ok snapshot
    ∧ ls_violations snapshot = [];
}.

Lemma existsb_false {A} (f : A → bool) l : existsb f l = false ↔ ∀ x, x ∈ l → f x = false.
Proof.
  induction l as [|a l IH]; simpl; [split; [intros _ x Hx; by apply elem_of_nil in Hx|done]|].
  rewrite orb_false_iff, IH. split.
  - intros [Ha Hl] x [->|Hx]%elem_of_cons; auto.
  - intros Hx. split; [apply Hx; by left|intros; apply Hx; by right].
Qed.

Lemma elem_of_effects p x : x ∈ effects p ↔ ∃ k, pj_outbox p !! k = Some x.
Proof.
  unfold effects. rewrite list_elem_of_fmap. split.
  - intros ([k y] & -> & Hk). exists k. by apply elem_of_map_to_list.
  - intros [k Hk]. exists (k, x). split; [done|]. by apply elem_of_map_to_list.
Qed.

Lemma elem_of_branch_list s x : x ∈ branch_list s ↔ ∃ r, st_branches s !! r = Some x.
Proof.
  unfold branch_list. rewrite list_elem_of_fmap. split.
  - intros ([k y] & -> & Hk). exists k. by apply elem_of_map_to_list.
  - intros [k Hk]. exists (k, x). split; [done|]. by apply elem_of_map_to_list.
Qed.

Section Closed.
Context `{Sha256} (p : Projection) (s : State).

Lemma length_one {A} (l : list A) : (length l =? 1)%nat = true → ∃ x, l = [x].
Proof. destruct l as [|x [|]]; try done. by exists x. Qed.

(** A branch in doubt has one ambiguous start. *)
Lemma ambiguous_start_closed_Ok branch :
  ambiguous_start_closed p s branch = true →
  ∃ start, unresolvedStarts p s branch = [start]
    ∧ fx_status start ∈ [FsSending; FsDeliveryUnknown]
    ∧ hasOpenDeliveryReconciliationAttention s branch start = true.
Proof.
  unfold ambiguous_start_closed. destruct (unresolvedStarts p s branch) as [|x [|]]; try done.
  intros Ha. split_bools. exists x. split; [done|]. split; [by apply among_true|done].
Qed.

Lemma validateBranchClosure_Ok branch :
  validateBranchClosure p s branch = Ok () → branch_closed p s branch.
Proof.
  unfold validateBranchClosure. intros Hc. res_inv Hc. split.
  - intros Hs. rewrite bool_decide_true in B0 by done. simpl in B0. split_bools. by apply length_one.
  - intros Hs. rewrite bool_decide_true in B1 by done. split_bools.
    by apply ambiguous_start_closed_Ok.
  - intros Hs. rewrite !bool_decide_false in B1 by set_solver. simpl in B1. split_bools.
    by apply nil_length_inv.
  - intros Hs. rewrite (proj2 (among_true _ _) Hs) in E. res_inv E. split_bools. by subst.
  - intros Hs. rewrite (proj2 (among_true _ _) Hs) in B2. simpl in B2. split_bools. split.
    + by destruct (br_open_user_input branch).
    + intros x Hx. apply among_false. by apply (proj1 (existsb_false _ _) H0).
Qed.

Lemma all_states_Ok states :
  all_states s states = true →
  ∀ r branch, st_branches s !! r = Some branch → br_state branch ∈ states.
Proof.
  unfold all_states. rewrite forallb_forall. intros Ha r branch Hr. apply among_true, Ha.
  apply list_elem_of_In, elem_of_branch_list. eauto.
Qed.

Lemma elem_of_own_effects k x :
  pj_outbox p !! k = Some x → fx_work_order_id x = st_work_order_id s → x ∈ own_effects p s.
Proof.
  intros Hk Hw. apply list_elem_of_filter. split; [by apply String.eqb_eq|].
  apply elem_of_effects. eauto.
Qed.

Lemma requireLifecycleSnapshot_Ok w snapshot :
  wo_state w = s → st_engine_contract_version s = 2%Z →
  requireLifecycleSnapshot p w = Ok snapshot →
  deriveLifecycleSnapshot s (pj_outbox p) (st_attention s) = Ok snapshot
  ∧ ls_violations snapshot = [].
Proof.
  intros Hw Hv Hr. unfold requireLifecycleSnapshot in Hr. rewrite Hw in Hr.
  destruct (bind _ _) as [x|[]] eqn:Hd; try done. injection Hr as ->.
  apply bind_Ok in Hd as (y & Hy & Ha). unfold assertLifecycleInvariants in Ha.
  destruct (ls_mode y) eqn:Hm.
  2,3: res_inv Ha; subst; split_bools; done.
  exfalso. unfold deriveLifecycleSnapshot in Hy. rewrite Hv in Hy. res_inv Hy. by subst.
Qed.

Lemma validateDurableInputClosure_Ok w :
  wo_state w = s → st_engine_contract_version s = 2%Z →
  validateDurableInputClosure p w = Ok () → closed p s.
Proof.
  intros Hw Hv Hc. unfold validateDurableInputClosure in Hc. rewrite Hw in Hc.
  apply bind_Ok in Hc as (version & Hversion & Hc). apply bind_Ok in Hc as (_ & _ & Hc).
  unfold workOrderEngineContractVersion in Hversion. rewrite Hw, Hv in Hversion.
  injection Hversion as <-. simpl in Hc.
  apply bind_Ok in Hc as (snapshot & Hsnapshot & Hc). apply bind_Ok in Hc as ([] & Hb & Hc).
  apply forR_Ok in Hb. rewrite Forall_forall in Hb.
  unfold validateStatusClosure in Hc. res_inv Hc.
  split; [split|exists snapshot; by eapply requireLifecycleSnapshot_Ok].
  - intros r branch Hr. apply validateBranchClosure_Ok, Hb, elem_of_branch_list. eauto.
  - intros Hs. rewrite (proj2 (among_true _ _) Hs) in B. simpl in B. split_bools.
    split; [by apply all_states_Ok|]. intros k x Hk Hx. apply among_false.
    by apply (proj1 (existsb_false _ _) H1), (elem_of_own_effects k).
  - intros Hs k x Hk Hx Hst. rewrite bool_decide_true in B1 by done. simpl in B1. split_bools.
    apply among_false. pose proof (proj1 (existsb_false _ _) H1 x (elem_of_own_effects k x Hk Hx)) as Hf.
    simpl in Hf. by rewrite Hst in Hf.
Qed.

End Closed.

(** ** Projections that agree on the effects of a Work Order *)

Definition same_effects (k : string) (p q : Projection) : Prop :=
  ∀ j x, fx_work_order_id x = k → pj_outbox q !! j = Some x ↔ pj_outbox p !! j = Some x.

Lemma filter_map_snd {K A} (f : A → Prop) `{∀ x, Decision (f x)} (l : list (K * A)) :
  filter f (map snd l) = map snd (filter (λ kx, f kx.2) l).
Proof.
  induction l as [|[k x] l IH]; [done|]. simpl. rewrite !filter_cons. simpl.
  rewrite IH. by destruct (decide (f x)).
Qed.

(** A selection among the effects of the Work Order is the same, up to order. *)
Lemma same_effects_filter k p q (f : Effect → bool) :
  same_effects k p q → (∀ x, f x = true → fx_work_order_id x = k) →
  filter (λ x, f x = true) (effects q) ≡ₚ filter (λ x, f x = true) (effects p).
Proof.
  intros Hs Hf. unfold effects. rewrite !filter_map_snd. apply Permutation_map, NoDup_Permutation.
  1,2: apply NoDup_filter, NoDup_map_to_list.
  intros [j x]. rewrite !list_elem_of_filter, !elem_of_map_to_list. simpl.
  split; intros [Hx Hj]; (split; [done|]); by apply (Hs j x (Hf x Hx)).
Qed.

Section Same.
Context `{Sha256} (p q : Projection) (s : State).
Context (Hs : same_effects (st_work_order_id s) p q).

Lemma matches_own x branch :
  effectMatchesCurrentAttempt x s branch = true → fx_work_order_id x = st_work_order_id s.
Proof. unfold effectMatchesCurrentAttempt. intros Hx. split_bools. by apply String.eqb_eq. Qed.

Lemma same_currentMutations branch : currentMutations q s branch ≡ₚ currentMutations p s branch.
Proof. eapply same_effects_filter; [done|]. intros x. apply matches_own. Qed.

Lemma same_unresolvedStarts branch : unresolvedStarts q s branch ≡ₚ unresolvedStarts p s branch.
Proof.
  unfold unresolvedStarts. generalize (same_currentMutations branch). by intros ->.
Qed.

Lemma same_currentStarts branch : currentStarts q s branch ≡ₚ currentStarts p s branch.
Proof. eapply same_effects_filter; [done|]. intros x Hx. split_bools. by apply String.eqb_eq. Qed.

Lemma same_acceptedCurrentTurn branch :
  acceptedCurrentTurn p s branch = Ok true → acceptedCurrentTurn q s branch = Ok true.
Proof.
  unfold acceptedCurrentTurn, effect_at. destruct (_ || _); [done|].
  destruct (br_turn_start_effect_id branch) as [id|]; [|done]. simpl.
  destruct (pj_outbox p !! id) as [x|] eqn:Hx; [|done]. intros Ht.
  assert (effectMatchesCurrentAttempt x s branch = true) as Hm.
  { destruct (effectMatchesCurrentAttempt x s branch); [done|].
    by destruct (v2_kind TurnStart x). }
  by rewrite (proj2 (Hs id x (matches_own _ _ Hm)) Hx).
Qed.

Lemma same_branch_closed branch : branch_closed p s branch → branch_closed q s branch.
Proof.
  intros [H1 H2 H3 H4 H5]. split.
  - intros Hb. destruct (H1 Hb) as [x Hx]. exists x. apply Permutation_singleton_r.
    by rewrite same_currentStarts, Hx.
  - intros Hb. destruct (H2 Hb) as (x & Hx & Hrest). exists x. split; [|done].
    apply Permutation_singleton_r. by rewrite same_unresolvedStarts, Hx.
  - intros Hb. apply Permutation_nil_r. by rewrite same_unresolvedStarts, H3.
  - intros Hb. by apply same_acceptedCurrentTurn, H4.
  - intros Hb. destruct (H5 Hb) as [Ho Hm]. split; [done|]. intros x Hx. apply Hm.
    by rewrite <- same_currentMutations.
Qed.

Lemma same_settled : settled p s → settled q s.
Proof.
  intros [Hb Ht Hc]. split.
  - intros r branch Hr. by eapply same_branch_closed, Hb.
  - intros Hst. destruct (Ht Hst) as [Hx Ho]. split; [done|]. intros k x Hk Hw.
    eapply Ho; [|done]. by apply Hs.
  - intros Hst k x Hk Hw. eapply Hc; [done| |done]. by apply Hs.
Qed.
End Same.

Lemma same_outbox k p q : pj_outbox q = pj_outbox p → same_effects k p q.
Proof. intros Ho j x _. by rewrite Ho. Qed.

Lemma closed_outbox `{Sha256} p q s : pj_outbox q = pj_outbox p → closed p s → closed q s.
Proof.
  intros Ho [Hs Hl]. split; [|by rewrite Ho]. eapply same_settled; [|done]. by apply same_outbox.
Qed.

(** A receipt appears only when it closes the input of its Work Order, which is then closed. *)
Lemma event_step_received `{Sha256} b e p q m source r :
  keyed p → event_step b e p q → receipts m p !! source = None → receipts m q !! source = Some r →
  ∃ w, pj_work_orders q !! rc_work_order_id r = Some w ∧ wo_pending w = None
    ∧ (st_engine_contract_version (wo_state w) = 2%Z → closed q (wo_state w)).
Proof.
  intros Hp Hs Hn Hr.
  destruct Hs as [|w hash _ _ _ _ Hw|hash q w pn rev v Hq _ _ _
    |hash q w pn rev q' Hq _ _ _ Hc _|hash q w pn rev m' v q' receipt Hq _ _ Hrec].
  - congruence.
  - by destruct m; simpl in *; congruence.
  - rewrite (opened_result _ _ _ _ _ _ _ _ Hq) in Hr. by destruct m; simpl in *; congruence.
  - rewrite (change_receipts _ _ _ Hc), (opened_result _ _ _ _ _ _ _ _ Hq) in Hr.
    by destruct m; simpl in *; congruence.
  - pose proof (keyed_opened _ _ _ _ _ _ _ _ Hp Hq) as Hk.
    rewrite (received_receipts _ _ _ _ _ _ _ Hrec) in Hr.
    assert (receipts m q !! source = None) as Hn'
      by (rewrite (opened_result _ _ _ _ _ _ _ _ Hq); by destruct m).
    case_decide; [|congruence]. apply lookup_insert_Some in Hr as [[_ <-]|[_ Hr]]; [|congruence].
    rewrite (received_work_order _ _ _ _ _ _ _ Hrec), (received_orders _ _ _ _ _ _ _ Hrec).
    destruct (keyed_orders _ Hk _ _ (received_order _ _ _ _ _ _ _ Hrec)) as [Hid _].
    exists (set_wo_pending None v). rewrite <- Hid, lookup_insert_eq. split; [done|]. split; [done|].
    intros Hv. eapply closed_outbox; [apply (received_outbox _ _ _ _ _ _ _ Hrec)|].
    eapply validateDurableInputClosure_Ok; [done|done|apply Hrec].
Qed.

(** ** Every Work Order without a pending input *)

Definition orders_settled `{Sha256} (p : Projection) : Prop :=
  ∀ k w, pj_work_orders p !! k = Some w → wo_pending w = None →
    st_engine_contract_version (wo_state w) = 2%Z → settled p (wo_state w).

(** An event leaves an input of its Work Order pending, or closes it. *)
Lemma event_step_own_settled `{Sha256} b e p q w :
  invariant p → orders_settled p → event_step b e p q →
  pj_work_orders q !! bd_work_order_id b = Some w → wo_pending w = None →
  st_engine_contract_version (wo_state w) = 2%Z → settled q (wo_state w).
Proof.
  intros Hp Hset Hs Hw Hn Hv.
  destruct Hs as [|u hash _ _ _ _ Hu|hash q u pn rev v Hq _ _ Hu
    |hash q u pn rev r Hq _ _ _ Hc _|hash q u pn rev m v r receipt Hq _ _ Hrec].
  - by eapply Hset.
  - destruct (fresh_order_keyed _ _ _ _ Hu) as [Hid _]. destruct Hu as (? & ? & ? & ? & -> & _).
    simpl in Hw. rewrite <- Hid, lookup_insert_eq in Hw. by injection Hw as <-.
  - destruct (fresh_order_keyed _ _ _ _ Hu) as [Hid _]. destruct Hu as (? & ? & ? & ? & -> & _).
    simpl in Hw. rewrite <- Hid, lookup_insert_eq in Hw. by injection Hw as <-.
  - pose proof (opened_lookup _ _ _ _ _ _ _ _ (inv_keyed _ Hp) Hq) as Hl.
    revert Hw. destruct (change_orders _ _ _ Hc) as [|x y Hx Hxy]; intros Hw;
      [by rewrite Hl in Hw; injection Hw as <-|].
    pose proof (keyed_opened _ _ _ _ _ _ _ _ (inv_keyed _ Hp) Hq) as Hk.
    destruct (keyed_orders _ Hk _ _ Hx) as [Hid _].
    rewrite <- Hid, <- (ostep_id _ _ Hxy), lookup_insert_eq in Hw. injection Hw as <-.
    rewrite (ostep_pending _ _ Hxy) in Hn. rewrite Hl in Hx. by injection Hx as <-.
  - pose proof (keyed_opened _ _ _ _ _ _ _ _ (inv_keyed _ Hp) Hq) as Hk.
    destruct (keyed_orders _ Hk _ _ (received_order _ _ _ _ _ _ _ Hrec)) as [Hid _].
    rewrite (received_orders _ _ _ _ _ _ _ Hrec), <- Hid, lookup_insert_eq in Hw.
    injection Hw as <-. eapply same_settled;
      [apply same_outbox, (received_outbox _ _ _ _ _ _ _ Hrec)|].
    by eapply validateDurableInputClosure_Ok; [|done|apply Hrec].
Qed.

Lemma settled_projected `{Sha256} p q :
  invariant p → orders_settled p → projected p q → orders_settled q.
Proof.
  intros Hp Hset [epoch _| |b e q' Hs]; [|exact Hset|]; intros k w Hw Hn Hv.
  { apply (same_settled p); [by apply same_outbox|by eapply Hset]. }
  destruct (decide (k = bd_work_order_id b)) as [->|Hk]; [by eapply event_step_own_settled|].
  pose proof (event_step_touches _ _ _ _ (inv_keyed _ Hp) Hs) as Ht.
  rewrite (touches_orders _ _ _ _ Ht k Hk) in Hw. eapply same_settled; [|by eapply Hset].
  destruct (keyed_orders _ (inv_keyed _ Hp) _ _ Hw) as [Hid _]. intros j x Hx.
  eapply touches_other_effects; [by eapply event_step_kept|done|exact Hk|].
  by rewrite Hx.
Qed.

Lemma settled_initial `{Sha256} : orders_settled initialBusinessProjectionV1.
Proof. by intros k w Hw. Qed.
