(* ===== verification/ProjectorTheorems.v ===== *)
(** What the projector guarantees: one projected event, its redelivery, a run of events, and a
    replay. *)

From Stdlib Require Import ZArith Lia String.
From stdpp Require Import base tactics list strings option gmap relations.
From S2P Require Import Prelude JsString JsDate Json SettlementPolicy ContractBase PlanContract.
From S2P Require Import Envelope WorkOrderState WorkOrderFacts WorkOrderEffects Outbox Lifecycle.
From S2P Require Import ProjectorBase Projection ProjectorInput ProjectorWorkOrder.
From S2P Require Import ProjectorBranch ProjectorOutbox ProjectorDelivery ProjectorSettlement.
From S2P Require Import Projector ProjectorSpec ProjectorRefine ProjectorStep ProjectorInvariant.
From S2P Require Import ProjectorRuns ProjectorHistory ProjectorClosed.

(** ** What a projected event leaves known *)

Section Known.
Context `{Sha256}.

Lemma opened_known p b e hash q w pending revision :
  keyed p → opened p b e hash q w pending revision → known_pending q b (pe_event_id e) hash.
Proof.
  intros Hp Hq. eexists _, pending. split; [by eapply opened_lookup|]. split; [done|].
  split; [apply (opened_source _ _ _ _ _ _ _ _ Hq)|apply (opened_hash _ _ _ _ _ _ _ _ Hq)].
Qed.

Lemma fresh_known p b e hash w :
  fresh_order b e hash w → known_pending (replaceWorkOrder p w) b (pe_event_id e) hash.
Proof.
  intros Hw. destruct (fresh_order_keyed _ _ _ _ Hw) as [Hid _]. exists w.
  destruct Hw as (plan & version & deadline & batchId & -> & _).
  exists (created_pending e b batchId hash). simpl. rewrite <- Hid, lookup_insert_eq.
  split; [done|]. split; [done|]. split; [done|]. by rewrite lookup_singleton_eq.
Qed.

(** A pending input that is opened again keeps what it knows. *)
Lemma opened_keeps_pending p b e hash q w pending revision b' id known_hash :
  keyed p → opened p b e hash q w pending revision →
  known_pending p b' id known_hash → known_pending q b' id known_hash.
Proof.
  intros Hp Hq (u & before & Hu & Hb & Hs & Hh).
  pose proof (opened_order _ _ _ _ _ _ _ _ Hq) as Hw.
  destruct (decide (bd_work_order_id b' = bd_work_order_id b)) as [Heq|Hne].
  - assert (u = w) as -> by congruence.
    eexists _, pending. rewrite Heq. split; [by eapply opened_lookup|]. split; [done|].
    pose proof (opened_mode _ _ _ _ _ _ _ _ Hq) as Hm. rewrite Hb in Hm.
    destruct Hm as (_ & Hsource & _ & Hn & ->). simpl. split; [done|].
    rewrite lookup_insert_ne; [done|]. intros <-. congruence.
  - exists u, before. split; [|done].
    by rewrite (touches_orders _ _ _ _ (opened_touches _ _ _ _ _ _ _ _ Hp Hq)).
Qed.

Lemma change_keeps_pending p b q b' id hash :
  keyed p → change b p q → known_pending p b' id hash → known_pending q b' id hash.
Proof.
  intros Hp [Ho _ _ _ _ _] (u & pending & Hu & Hpn & Hs & Hh). unfold known_pending.
  remember (pj_work_orders q) as m eqn:Hm. destruct Ho as [|w v Hw Hstep].
  - eauto 10.
  - destruct (keyed_orders _ Hp _ _ Hw) as [Hid _].
    destruct (decide (bd_work_order_id b' = bd_work_order_id b)) as [Heq|Hne].
    + assert (u = w) as -> by congruence. exists v, pending.
      rewrite (ostep_id _ _ Hstep), Hid, Heq, lookup_insert_eq, (ostep_pending _ _ Hstep). done.
    + exists u, pending. rewrite lookup_insert_ne; [done|]. rewrite (ostep_id _ _ Hstep). congruence.
Qed.

(** A received input is known by its receipt. *)
Lemma received_keeps p b m q w pending r b' id hash :
  keyed p → received p b m q w pending r →
  known_pending p b' id hash → known q b' id hash.
Proof.
  intros Hp Hr (u & pn & Hu & Hpn & Hs & Hh).
  pose proof (received_order _ _ _ _ _ _ _ Hr) as Hw.
  destruct (keyed_orders _ Hp _ _ Hw) as [Hid _].
  destruct (decide (bd_work_order_id b' = bd_work_order_id b)) as [Heq|Hne].
  - right. assert (u = w) as -> by congruence. rewrite (received_pending _ _ _ _ _ _ _ Hr) in Hpn.
    injection Hpn as <-. exists m, r. split.
    + rewrite (received_receipts _ _ _ _ _ _ _ Hr), decide_True by done.
      rewrite <- Hs, <- (received_source _ _ _ _ _ _ _ Hr). by rewrite lookup_insert_eq.
    + rewrite (received_orders _ _ _ _ _ _ _ Hr), Heq, lookup_insert_is_Some'.
      rewrite (received_hashes _ _ _ _ _ _ _ Hr), (received_work_order _ _ _ _ _ _ _ Hr). eauto.
  - left. exists u, pn. rewrite (received_orders _ _ _ _ _ _ _ Hr).
    rewrite lookup_insert_ne by congruence. done.
Qed.

Lemma known_received_kept p q b id hash :
  kept p q → known_received p b id hash → known_received q b id hash.
Proof.
  intros Hk (m & r & Hr & Ho & ?). exists m, r. split; [by apply (kept_receipts _ _ Hk)|].
  split; [by apply (kept_orders _ _ Hk)|done].
Qed.

(** The event of a step is known after it. *)
Lemma event_step_known b e p q :
  keyed p → event_step b e p q → ∃ hash, event_hash e = Ok hash ∧ known q b (pe_event_id e) hash.
Proof.
  intros Hp. destruct 1 as [|w hash _ Hn Ha Hh Hw|hash q w pn rev v Hq _ Hh Hv
    |hash q w pn rev r Hq _ _ Hh Hr _|hash q w pn rev m v r receipt Hq _ Hh Hr]; [eauto|..];
    exists hash; (split; [done|]).
  - left. by apply fresh_known.
  - left. by apply fresh_known.
  - left. eapply change_keeps_pending; [by eapply keyed_opened|done|by eapply opened_known].
  - eapply received_keeps; [by eapply keyed_opened|done|by eapply opened_known].
Qed.

(** What is known stays known, as long as no Work Order is replaced. *)
Lemma proper_keeps_known b e p q b' id hash :
  keyed p → proper b e p → event_step b e p q → known p b' id hash → known q b' id hash.
Proof.
  intros Hp Hc Hs [Hk|Hk]; [|right; eapply known_received_kept; [by eapply event_step_kept|done]].
  destruct Hs as [|w h _ Hn Ha _ Hw|h q w pn rev v Hq He _ _
    |h q w pn rev r Hq _ _ _ Hr _|h q w pn rev m v r receipt Hq _ _ Hr].
  - by left.
  - left. destruct Hk as (u & pn & Hu & ?). exists u, pn. split; [|done].
    destruct (fresh_order_keyed _ _ _ _ Hw) as [Hid _]. simpl.
    rewrite lookup_insert_ne by congruence. done.
  - pose proof (opened_order _ _ _ _ _ _ _ _ Hq). rewrite Hc in *; done.
  - left. eapply change_keeps_pending; [by eapply keyed_opened|done|].
    by eapply opened_keeps_pending.
  - eapply received_keeps; [by eapply keyed_opened|done|]. by eapply opened_keeps_pending.
Qed.
End Known.

(** ** Projecting it again *)

Section Again.
Context `{Sha256} {evidence : SendEvidence} {hashing : ProjectionHash}.

Lemma findReceipt_unique p m source r :
  invariant p → receipts m p !! source = Some r → findReceipt p source = Ok (Some (m, r)).
Proof.
  intros Hp Hr.
  assert (∀ n, n ≠ m → receipts n p !! source = None) as Hn.
  { intros n Hne. destruct (receipts n p !! source) eqn:Hs; [|done]. exfalso. apply Hne.
    eapply (inv_receipt_once _ Hp); eauto. }
  unfold findReceipt. cbn [omap list_omap].
  destruct m; rewrite ?Hr; rewrite ?(Hn CommandReceipts), ?(Hn ObservationReceipts),
    ?(Hn InternalReceipts) by done; done.
Qed.

(** The checks of the batch depend on the projection through its epoch only. *)
Lemma validateAtomicBatchStart_epoch p q e batchContext :
  pj_provider_settlement_epoch p = pj_provider_settlement_epoch q →
  validateAtomicBatchStart p e batchContext = validateAtomicBatchStart q e batchContext.
Proof.
  intros He. unfold validateAtomicBatchStart, validateProviderSettlementBatchRoute. by rewrite He.
Qed.

Lemma project_bound_again p e b batchContext source batchId hash :
  invariant p → validateAtomicBatchStart p e batchContext = Ok source →
  normalizedBatchId batchContext = Ok batchId → event_hash e = Ok hash →
  known_received p b (pe_event_id e) hash → project_bound p e b batchContext = Ok p.
Proof.
  intros Hp Hv Hb Hh (m & r & Hr & [w Hw] & Hwo & Hk).
  unfold project_bound. rewrite Hv. simpl. unfold beginInput. rewrite Hb. simpl.
  rewrite (findReceipt_unique _ _ _ _ Hp Hr). simpl. unfold repeatInput. rewrite Hh. simpl.
  rewrite Hw, Hwo, Hk, String.eqb_refl, bool_decide_true by done. done.
Qed.

(** What the first projection of an event tells of its context. *)
Lemma project_bound_context p e b batchContext q :
  project_bound p e b batchContext = Ok q →
  ∃ source batchId, validateAtomicBatchStart p e batchContext = Ok source
    ∧ normalizedBatchId batchContext = Ok batchId.
Proof.
  unfold project_bound. intros (source & Hs & Hq)%bind_Ok.
  apply bind_Ok in Hq as (bg & Hbg & _). unfold beginInput in Hbg.
  apply bind_Ok in Hbg as (batchId & Hb & _). eauto.
Qed.

(** Every event belongs to a Work Order. *)
Definition all_bound (l : list (json * json)) : Prop :=
  ∀ ec e, ec ∈ l → normalizeEvent ec.1 = Ok e → pe_binding e ≠ None.

(** An event of a run, as the run saw it. *)
Definition remembered (p : Projection) (l : list (json * json)) : Prop :=
  ∀ ec, ec ∈ l → ∃ e b source batchId hash, normalizeEvent ec.1 = Ok e ∧ pe_binding e = Some b
    ∧ event_hash e = Ok hash ∧ known p b (pe_event_id e) hash
    ∧ normalizedBatchId ec.2 = Ok batchId ∧ validateAtomicBatchStart p e ec.2 = Ok source.

Lemma cutover_known p e ctx q b id hash :
  projectProviderSettlementCutoverEvent p e ctx = Ok q → known p b id hash → known q b id hash.
Proof.
  intros Hq. assert (kept p q) as Hk by (eapply projected_kept, cutover_projected, Hq).
  intros [(w & pn & Hw)|Hr]; [|right; by eapply known_received_kept].
  left. exists w, pn. by rewrite (cutover_orders _ _ _ _ Hq).
Qed.

Lemma run_keeps_known l p q b id hash :
  invariant p → created_once p l → project_events p l = Ok q →
  known p b id hash → known q b id hash.
Proof.
  intros Hp Ho Hq Hk. revert Hq. apply (run_invariant (λ q, known q b id hash)); try done.
  - intros p' e ctx q' Hk' _ Hc. by eapply cutover_known.
  - intros p' b' e q' Hp' Hk' Hc Hs. eapply proper_keeps_known; [apply Hp'|done..].
Qed.

Lemma run_remembers l p q :
  invariant p → created_once p l → all_bound l → project_events p l = Ok q →
  remembered q l ∧ pj_provider_settlement_epoch q = pj_provider_settlement_epoch p.
Proof.
  revert p. induction l as [|[ev ctx] l IH]; intros p Hp Ho Hb Hq; simpl in Hq.
  { injection Hq as <-. split; [|done]. intros ec Hec. by apply elem_of_nil in Hec. }
  apply bind_Ok in Hq as (p1 & Hp1 & Hq). pose proof (inv_keyed _ Hp) as Hk.
  pose proof (created_once_cons _ _ _ _ _ Hk Ho Hp1) as Ho1.
  assert (invariant p1) as Hi1 by (eapply invariant_projected; [done|by eapply event_projected]).
  destruct (IH p1 Hi1 Ho1) as [Hr He]; [intros ec e Hec; apply Hb; by right|done|].
  unfold projectBusinessEventV1 in Hp1. apply bind_Ok in Hp1 as (e & Hn & Hp1).
  destruct (pe_binding e) as [b|] eqn:Hbe; [|exfalso; eapply Hb; [by left|done|done]].
  pose proof (project_bound_step _ _ _ _ Hk _ Hp1) as Hs.
  pose proof (event_step_touches _ _ _ _ Hk Hs) as Ht.
  split; [|by rewrite He, (touches_epoch _ _ _ _ Ht)].
  intros ec [->|Hec]%elem_of_cons; [|by apply Hr].
  destruct (event_step_known _ _ _ _ Hk Hs) as (hash & Hh & Hkn).
  destruct (project_bound_context _ _ _ _ _ Hp1) as (source & batchId & Hv & Hbi).
  exists e, b, source, batchId, hash. repeat split; try done; [by eapply run_keeps_known|].
  rewrite <- Hv. apply validateAtomicBatchStart_epoch. by rewrite He, (touches_epoch _ _ _ _ Ht).
Qed.

(** With no input pending, what is known was received. *)
Lemma known_settled p b id hash :
  (∀ k w, pj_work_orders p !! k = Some w → wo_pending w = None) →
  known p b id hash → known_received p b id hash.
Proof. intros Hn [(w & pn & Hw & Hp & _)|Hr]; [by rewrite (Hn _ _ Hw) in Hp|done]. Qed.

Lemma remembered_again p q l :
  invariant q → kept p q → pj_provider_settlement_epoch q = pj_provider_settlement_epoch p →
  (∀ k w, pj_work_orders p !! k = Some w → wo_pending w = None) →
  remembered p l → project_events q l = Ok q.
Proof.
  intros Hq Hk He Hn. induction l as [|[ev ctx] l IH]; intros Hr; [done|].
  assert (projectBusinessEventV1 q ev ctx = Ok q) as Hev.
  { destruct (Hr (ev, ctx)) as (e & b & source & batchId & hash & Hne & Hb & Hh & Hkn & Hbi & Hv);
      [by left|]. simpl in *. unfold projectBusinessEventV1. rewrite Hne. simpl. rewrite Hb.
    eapply project_bound_again; [done| |done..|].
    - rewrite <- Hv. by apply validateAtomicBatchStart_epoch.
    - eapply known_received_kept; [done|]. by apply known_settled. }
  simpl. rewrite Hev. simpl. apply IH. intros ec Hec. apply Hr. by right.
Qed.
End Again.

(** * The theorems *)

Section Theorems.
Context `{Sha256} {evidence : SendEvidence} {hashing : ProjectionHash}.

Lemma project_events_app p l m :
  project_events p (l ++ m) = (let* q := project_events p l in project_events q m).
Proof.
  revert p. induction l as [|[event ctx] l IH]; intros p; [done|]. simpl.
  destruct (projectBusinessEventV1 p event ctx); [apply IH|done].
Qed.

(** The steps of a run, from a projection the invariant holds of. *)
Lemma run_relation (R : Projection → Projection → Prop) l p q :
  (∀ p, R p p) → (∀ p q r, R p q → R q r → R p r) → (∀ p q, keyed p → projected p q → R p q) →
  invariant p → project_events p l = Ok q → R p q.
Proof.
  intros Hr Ht Hs Hp Hq.
  by apply (events_relation R Hr Ht Hs l p (inv_keyed _ Hp) q Hq).
Qed.

Lemma run_invariant_ok l p q : invariant p → project_events p l = Ok q → invariant q.
Proof. intros Hp Hq. by eapply invariant_events. Qed.

Lemma run_kept l p q : invariant p → project_events p l = Ok q → kept p q.
Proof. apply run_relation; [apply kept_refl|apply kept_trans|]. intros. by apply projected_kept. Qed.

Lemma run_settled l p q :
  invariant p → orders_settled p → project_events p l = Ok q → invariant q ∧ orders_settled q.
Proof.
  intros Hp Hs Hq.
  apply (events_invariant (λ p, invariant p ∧ orders_settled p)) with (l := l) (p := p); [| |done|done].
  - by intros ? [? _]; apply inv_keyed.
  - intros p' q' [? ?] ?. split; [by eapply invariant_projected|by eapply settled_projected].
Qed.

Lemma run_orders_kept l p q :
  invariant p → created_once p l → project_events p l = Ok q → orders_kept p q.
Proof.
  intros Hp Hc Hq.
  refine (run_invariant (orders_kept p) _ _ l p Hp (orders_kept_refl p) Hc q Hq).
  - intros p' e ctx q' Hk _ Hq'. intros k w Hw. rewrite (cutover_orders _ _ _ _ Hq'). by apply Hk.
  - intros p' b e q' Hp' Hk Hpr Hs. eapply orders_kept_trans; [done|].
    by eapply proper_orders_kept.
Qed.

Lemma run_counts l p q :
  invariant p → counts_inputs p → created_once p l → project_events p l = Ok q → counts_inputs q.
Proof.
  intros Hp Hc Ho Hq. refine (run_invariant counts_inputs _ _ l p Hp Hc Ho q Hq).
  - intros p' e ctx q' Hk _ [epoch ->]%cutover_writes. exact Hk.
  - intros p' b e q' Hp' Hk Hpr Hs. by eapply proper_counts.
Qed.

(** A replay is a run that leaves no input incomplete. *)
Lemma replay_run entries p q :
  replayBusinessProjectionV1 (JArr entries) p = Ok q →
  project_events p (concat (map entry_events entries)) = Ok q
  ∧ ∀ k w, pj_work_orders q !! k = Some w → wo_pending w = None.
Proof.
  intros Hr. pose proof (replay_events _ _ _ Hr) as (_ & _ & Hn). split; [|done].
  simpl in Hr. apply bind_Ok in Hr as (q' & Hq & Hr). by destruct (negb _); [|injection Hr as <-].
Qed.

(** ** The theorems *)

(** C2: the projection of one event is one step of the abstract machine: the event repeats a known
    one and changes nothing, or activates the settlement contract, or creates a Work Order, or
    opens or joins the input of its Work Order and makes one legal change there (a branch moves
    along [BRANCH_TRANSITIONS], a status along [WORK_ORDER_TRANSITIONS], an effect by the protocol
    of leases and settlements), or closes the input with a receipt. *)
Theorem event_refines p input batchContext q :
  invariant p → projectBusinessEventV1 p input batchContext = Ok q → projected p q.
Proof. intros Hp. by apply event_projected, inv_keyed. Qed.

(** C28: every projection a replay builds satisfies the invariant: leases, deliveries and fencing
    histories agree with the status of their effect, effects and receipts belong to a Work Order,
    a source is received at most once, and no input is left incomplete. *)
Theorem replay_invariant entries q :
  replayBusinessProjectionV1 (JArr entries) initialBusinessProjectionV1 = Ok q →
  invariant q ∧ ∀ k w, pj_work_orders q !! k = Some w → wo_pending w = None.
Proof.
  intros [Hq Hn]%replay_run. split; [|done].
  by eapply run_invariant_ok; [apply invariant_initial|].
Qed.

(** C27: every Work Order of the second contract that a replay builds is settled: a branch that
    waits for a dispatch has exactly one start under way, a branch in doubt one ambiguous start
    with somebody who looks at it, any other branch no unresolved start; a working branch has its
    accepted turn; and a finished Work Order has only finished branches and no unresolved effect. *)
Theorem replay_settled entries q k w :
  replayBusinessProjectionV1 (JArr entries) initialBusinessProjectionV1 = Ok q →
  pj_work_orders q !! k = Some w → st_engine_contract_version (wo_state w) = 2%Z →
  settled q (wo_state w).
Proof.
  intros [Hq Hn]%replay_run Hw Hv.
  destruct (run_settled _ _ _ invariant_initial settled_initial Hq) as [_ Hs].
  by apply (Hs k w Hw (Hn k w Hw)).
Qed.

(** C32: a receipt is recorded only with the end of its input, and only when that leaves a Work
    Order of the second settlement contract closed: settled, and with a lifecycle snapshot that
    shows no violation.  Of a Work Order of the first contract it says only that the input ended. *)
Theorem receipt_closes p input batchContext q m source r :
  invariant p → projectBusinessEventV1 p input batchContext = Ok q →
  receipts m p !! source = None → receipts m q !! source = Some r →
  ∃ w, pj_work_orders q !! rc_work_order_id r = Some w ∧ wo_pending w = None
    ∧ (st_engine_contract_version (wo_state w) = 2%Z → closed q (wo_state w)).
Proof.
  intros Hp Hq Hn Hr.
  destruct (event_cases _ _ _ _ (inv_keyed _ Hp) Hq) as [(e & b & _ & _ & Hs)|(e & _ & _ & Hc)].
  - by eapply event_step_received; [apply inv_keyed|..].
  - apply cutover_writes in Hc as [epoch ->]. by destruct m; simpl in *; congruence.
Qed.

(** an event touches its own Work Order, the effects of that Work Order, and the receipt of
    its own source; everything else is left as it was. *)
Theorem event_isolated p input batchContext e b q :
  invariant p → normalizeEvent input = Ok e → pe_binding e = Some b →
  projectBusinessEventV1 p input batchContext = Ok q →
  only_touches (bd_work_order_id b) (bd_source_id b) p q.
Proof.
  intros Hp He Hb Hq.
  destruct (event_cases _ _ _ _ (inv_keyed _ Hp) Hq) as [(e' & b' & He' & Hb' & Hs)|(e' & He' & Hb' & _)].
  - assert (b' = b) as -> by congruence. by apply (event_step_touches _ _ _ _ (inv_keyed _ Hp) Hs).
  - congruence.
Qed.

(** C31: a Work Order that is accepted, failed or cancelled is frozen: no run of events changes its
    status, its branches, its effects or its decisions; only its revision counts the quarantined
    observations that still come in. *)
Theorem terminal_frozen p l q :
  invariant p → project_events p l = Ok q → stays_terminal p q.
Proof. apply run_relation; [apply stays_terminal_refl|apply stays_terminal_trans|apply projected_terminal]. Qed.

(** C30: history is append-only: a run of events never drops an effect, a receipt, a quarantined
    observation or a Work Order, an effect keeps its identity and moves along [OUTBOX_TRANSITIONS],
    its lease generation never decreases, its fencing history only grows, a settled or cancelled
    effect never changes again, and an activated settlement contract stays activated. *)
Theorem history_append_only p l q : invariant p → project_events p l = Ok q → kept p q.
Proof. apply run_kept. Qed.

(** C33: the record of a Work Order only moves forward: in a run in which no Work Order is created
    twice, it keeps its plan, its deadline and its branches, its revision never decreases, its
    status and its branches follow the transition tables, attempts open one by one, and attention
    items and decisions are only added and resolved. *)
Theorem orders_move_forward p l q :
  invariant p → created_once p l → project_events p l = Ok q → orders_kept p q.
Proof. apply run_orders_kept. Qed.

(** the revision of a Work Order is the number of its command and observation receipts:
    internal actions do not count, and no revision is skipped or used twice. *)
Theorem revision_counts_receipts entries q k w :
  created_once initialBusinessProjectionV1 (concat (map entry_events entries)) →
  replayBusinessProjectionV1 (JArr entries) initialBusinessProjectionV1 = Ok q →
  pj_work_orders q !! k = Some w →
  st_revision (wo_state w) = Z.of_nat (receipts_of k (pj_command_receipts q)
    + receipts_of k (pj_observation_receipts q)).
Proof.
  intros Hc [Hq Hn]%replay_run Hw.
  assert (counts_inputs q) as Hi.
  { eapply run_counts; [apply invariant_initial| |done|done]. by intros ? ? ?. }
  rewrite (Hi k w Hw). unfold inputs_of. rewrite (Hn k w Hw), Nat.add_0_r. done.
Qed.

(** C29: redelivery is harmless: when a run of events, from a projection that satisfies the
    invariant, creates no Work Order twice nor one that exists, contains no activation
    of the settlement contract and leaves no input open, projecting it again after any further
    events changes nothing, as long as the settlement contract in force is the same. *)
Theorem redelivery_no_op p l q m r :
  invariant p → created_once p l → all_bound l → project_events p l = Ok q →
  (∀ k w, pj_work_orders q !! k = Some w → wo_pending w = None) →
  project_events q m = Ok r →
  pj_provider_settlement_epoch r = pj_provider_settlement_epoch q →
  project_events r l = Ok r.
Proof.
  intros Hp Hc Hb Hq Hn Hr He. pose proof (run_invariant_ok _ _ _ Hp Hq) as Hiq.
  destruct (run_remembers _ _ _ Hp Hc Hb Hq) as [Hrem _].
  eapply remembered_again; [by eapply run_invariant_ok|by eapply run_kept|done..].
Qed.
End Theorems.
