(* ===== verification/WorkOrderCore.v ===== *)
(** The operations the deciders share ([packages/business-orchestrator/src/state-machine.js], lines
    733-909, 1047-1522 and 1850-1874): opening attempts and scheduling them within the concurrency
    limit, recomputing the parent status, attention items, and the settlement of a provider
    effect. *)

From Stdlib Require Import ZArith Lia String.
From stdpp Require Import base tactics list strings option gmap.
From S2P Require Import Prelude JsString JsDate Json SettlementPolicy ContractBase PlanContract.
From S2P Require Import Envelope WorkOrderState WorkOrderFacts WorkOrderContext WorkOrderEffects.

(** ** Queries on a state *)

Definition branch_list (s : State) : list Branch := map snd (map_to_list (st_branches s)).

Definition activeSlotCount (s : State) : Z :=
  Z.of_nat (length (filter (λ b, br_state b ∈ SLOT_BRANCH_STATES) (branch_list s))).

Definition availableSlotCount (s : State) : Z := (pl_max_concurrency (st_plan s) - activeSlotCount s)%Z.

(** [state.branches[ref].state === "accepted"] for every dependency; a dependency that is not a
    branch of the state counts as not accepted. *)
Definition dependenciesAccepted (s : State) (branch : Branch) : bool :=
  forallb (λ ref, match st_branches s !! ref with
    | Some b => bool_decide (br_state b = BAccepted) | None => false end) (br_dependencies branch).

(** [Object.keys(state.branches).sort(compareText)] *)
Definition branch_refs (s : State) : list string :=
  sort_text (map fst (map_to_list (st_branches s))).

Definition executionWindowElapsed (s : State) (branch : Branch) (observedAt : Z) : bool :=
  match br_attempt_deadline_at branch with
  | None => true
  | Some d => (d <=? observedAt)%Z || (st_deadline_at s <=? observedAt)%Z
  end.

Definition branchesQuiescent (s : State) : bool :=
  forallb (λ b, among TERMINAL_BRANCH_STATES (br_state b)) (branch_list s).

(** [retryDelay]: capped exponential back-off. *)
Definition retryDelay (policy : RetryPolicy) (completedAttempt : Z) : Z :=
  if (rp_backoff_initial_ms policy =? 0)%Z then 0%Z
  else Z.min (rp_backoff_initial_ms policy * 2 ^ Z.max 0 (completedAttempt - 1))
         (rp_backoff_max_ms policy).

Definition canRetryAt (s : State) (branch : Branch) (retryAt : Z) : bool :=
  (br_attempt branch <? rp_max_attempts (pl_retry_policy (st_plan s)))%Z
  && (retryAt <? st_deadline_at s)%Z.

(** [branch.packet_ref.id] and the like: dereferencing [null] throws. *)
Definition deref {A} (o : option A) : M A :=
  match o with Some a => mret a | None => λ _, Err TypeError end.

Section Core.
Context `{Sha256} {env : Env}.

(** ** Attempts *)

(** The assignments of [openAttempt]. *)
Definition open_attempt_fields (attempt : Z) (dispatchId : string) (packetRef : ContentRef)
    (deadline : Z) (b : Branch) : Branch :=
  {| br_planned := br_planned b; br_required_criterion_ids := br_required_criterion_ids b;
     br_state := BDispatchPending; br_attempt := attempt; br_dispatch_id := Some dispatchId;
     br_packet_ref := Some packetRef; br_attempt_started_at := Some occurred_at;
     br_attempt_deadline_at := Some deadline; br_retry_at := None; br_delivery := None;
     br_runtime_identity := None; br_thread_identity := None; br_open_user_input := None;
     br_pending_user_input_effect_id := None; br_pending_user_input_response_ref := None;
     br_result := None; br_verification_by_criterion := ∅; br_last_progress_at := None;
     br_finished_at := None; br_thread_create_effect_id := None;
     br_thread_create_delivery_hash := None; br_turn_start_effect_id := None;
     br_turn_start_delivery_hash := None; br_cancel_effect_id := None;
     br_last_transition_reason := br_last_transition_reason b;
     br_last_runtime_observation := br_last_runtime_observation b |}.

Definition openAttempt (branchRef : string) (packetRef : ContentRef) : M unit :=
  let! branch := branchByRef branchRef in
  let! s := getState in
  let policy := pl_retry_policy (st_plan s) in
  let attempt := (br_attempt branch + 1)%Z in
  deny (rp_max_attempts policy <? attempt)%Z with "BUSINESS_RETRY_EXHAUSTED" in
  deny (st_deadline_at s <=? occurred_at)%Z with "BUSINESS_ELAPSED_LIMIT" in
  let! dispatchId := mlift (deterministicId "DSP" (JObj
    [("work_order_id", JStr (st_work_order_id s)); ("branch_ref", JStr branchRef);
     ("attempt", JInt attempt); ("packet_ref", content_ref_json packetRef)])) in
  let! timeoutAt := mlift (addMilliseconds occurred_at (rp_attempt_timeout_ms policy)) in
  let attemptDeadline := minTimestamp timeoutAt (st_deadline_at s) in
  deny (attemptDeadline <=? occurred_at)%Z with "BUSINESS_ELAPSED_LIMIT" in
  let! _ := emit "business.branch.attempt_opened"
    [("branch_ref", JStr branchRef); ("attempt", JInt attempt); ("dispatch_id", JStr dispatchId);
     ("attempt_started_at", timestamp_json occurred_at);
     ("attempt_deadline_at", timestamp_json attemptDeadline);
     ("packet_ref", content_ref_json packetRef)] [] in
  let! _ := modifyBranch branchRef
    (open_attempt_fields attempt dispatchId packetRef attemptDeadline) in
  let! branch := branchByRef branchRef in
  let! s := getState in
  let! effect := mlift (outboxEffect s branch packetRef ThreadCreate no_options) in
  emit "business.outbox.enqueued" [("effect", outbox_effect_json effect)] [].

(** ** Scheduling *)

Definition releaseReadyBranches (evidenceRefs : list string) : M unit :=
  let! s := getState in
  forM (λ ref,
    let! s := getState in
    let! branch := deref (st_branches s !! ref) in
    if bool_decide (br_state branch = BBlocked) && dependenciesAccepted s branch
    then transitionBranch ref BReady "dependencies_accepted" (with_evidence evidenceRefs)
    else mret tt) (branch_refs s).

Definition branch_ref_leb (l r : Branch) : bool := text_leb (br_branch_ref l) (br_branch_ref r).

(** The ready branches that fit in the free slots, in the order of their references. *)
Definition selected_branches (s : State) (capacity : Z) : list Branch :=
  take (Z.to_nat capacity) (isort branch_ref_leb
    (filter (λ b, br_state b = BReady ∧ dependenciesAccepted s b = true) (branch_list s))).

Definition scheduleEligible (evidenceRefs : list string) : M (list string) :=
  let! s := getState in
  if negb (among [WStarting; WRunning] (st_status s)) then mret []
  else if (st_deadline_at s <=? occurred_at)%Z then mret []
  else
    let! _ := releaseReadyBranches evidenceRefs in
    let! s := getState in
    let capacity := availableSlotCount s in
    if (capacity <=? 0)%Z then mret []
    else
      let selected := selected_branches s capacity in
      let! packets := mlift (mapR (λ b,
        let* p := dispatchPacket (br_branch_ref b) in Ok (br_branch_ref b, p)) selected) in
      let! _ := forM (λ rp, openAttempt rp.1 rp.2) packets in
      mret (map br_branch_ref selected).

Definition recomputeParentStatus (reason : string) (evidenceRefs : list string) : M unit :=
  let! s := getState in
  if among TERMINAL_WORK_ORDER_STATES (st_status s) || bool_decide (st_status s = WCancelling)
  then mret tt
  else
    let branches := branch_list s in
    if forallb (λ b, bool_decide (br_state b = BAccepted)) branches
    then transitionWorkOrder WAwaitingAcceptance "all_required_branches_accepted" evidenceRefs
    else
      let active := existsb (λ b, among (SLOT_BRANCH_STATES ++ [BVerifying; BRetryable])
        (br_state b)) branches in
      let runnable := existsb (λ b, bool_decide (br_state b = BReady)
        && dependenciesAccepted s b) branches in
      if negb active && negb runnable then transitionWorkOrder WPaused reason evidenceRefs
      else if bool_decide (st_status s = WPaused)
      then transitionWorkOrder WRunning reason evidenceRefs
      else mret tt.

(** ** A successor generation of a start effect *)

(** The assignments after the successor is enqueued. *)
Definition activate_successor (reason : string) (b : Branch) : Branch :=
  set_br_last_transition_reason (Some reason)
    (set_br_finished_at None (set_br_delivery None (set_br_retry_at None
      (set_br_state BDispatchPending b)))).

Definition enqueueStartGenerationSuccessor (branchRef : string) (predecessor : EffectIdentity)
    (evidenceRefs : list string) (reason : string) : M EffectIdentity :=
  let! branch := branchByRef branchRef in
  match currentDispatchStage branch with
  | None => mfail "BUSINESS_OUTBOX_EFFECT_GENERATION_BINDING"
  | Some expectedKind =>
      deny negb (String.eqb (ef_effect_kind predecessor) (enum_str expectedKind))
          || negb (bool_decide (br_packet_ref branch
               = Some {| cr_id := ef_packet_ref predecessor; cr_hash := ef_packet_hash predecessor |}))
        with "BUSINESS_OUTBOX_EFFECT_GENERATION_BINDING" in
      let! _ := if bool_decide (br_state branch = BDeliveryUnknown)
        then transitionBranch (br_branch_ref branch) BRetryable reason
               (retrying_at occurred_at evidenceRefs)
        else mret tt in
      let! branch := branchByRef branchRef in
      deny negb (among [BDispatchPending; BRetryable] (br_state branch))
        with "BUSINESS_RETRY_NOT_SAFE" in
      let! s := getState in
      let! packet := deref (br_packet_ref branch) in
      let onTurn {A} (o : option A) : option A :=
        if bool_decide (expectedKind = TurnStart) then o else None in
      let! effect := mlift (outboxEffect s branch packet expectedKind
        {| oo_predecessorEffectId := onTurn (br_thread_create_effect_id branch);
           oo_predecessorDeliveryHash := onTurn (br_thread_create_delivery_hash branch);
           oo_targetRuntimeIdentity := onTurn (br_thread_identity branch);
           oo_requestId := None; oo_responseRef := None; oo_allowGenerationSuccessor := false;
           oo_generationPredecessorIdentity := Some predecessor |}) in
      let! _ := emit "business.outbox.enqueued" [("effect", outbox_effect_json effect)]
        evidenceRefs in
      let! _ := modifyBranch branchRef (activate_successor reason) in
      mret effect
  end.

(** [enqueueCancel]: [true] when a cancellation is under way, [false] when the branch has no
    accepted turn to cancel. *)
Definition enqueueCancel (branchRef : string) (evidenceRefs : list string) : M bool :=
  let! branch := branchByRef branchRef in
  match br_cancel_effect_id branch with
  | Some _ => mret true
  | None =>
      match br_runtime_identity branch, br_turn_start_effect_id branch,
        br_turn_start_delivery_hash branch with
      | Some {| ri_thread_id := Some t; ri_turn_id := Some u; ri_operation_id := o |},
        Some effectId, Some hash =>
          let! packetRef := mlift (cancelPacket (br_branch_ref branch)) in
          let! s := getState in
          let! effect := mlift (outboxEffect s branch packetRef TurnCancel
            {| oo_predecessorEffectId := Some effectId; oo_predecessorDeliveryHash := Some hash;
               oo_targetRuntimeIdentity := br_runtime_identity branch;
               oo_requestId := None; oo_responseRef := None; oo_allowGenerationSuccessor := true;
               oo_generationPredecessorIdentity := None |}) in
          let! _ := emit "business.outbox.enqueued" [("effect", outbox_effect_json effect)]
            evidenceRefs in
          let! _ := modifyBranch branchRef (set_br_cancel_effect_id (Some (ef_effect_id effect))) in
          mret true
      | _, _, _ => mret false
      end
  end.

(** ** Attention *)

Definition openAttention (kind branchRef : string) (evidenceRefs : list string)
    (effectId : option string) : M unit :=
  let! detailRef := mlift (contentRef (fact "attention_detail_ref")) in
  let! s := getState in
  let! attentionId := mlift (deterministicId "ATTN" (JObj
    [("work_order_id", JStr (st_work_order_id s)); ("source_id", JStr sourceId);
     ("kind", JStr kind); ("branch_ref", JStr branchRef)])) in
  let! effectId := mlift (optR (λ e, portableRef (JStr e)) effectId) in
  let attention :=
    {| att_attention_id := attentionId; att_kind := kind; att_branch_ref := Some branchRef;
       att_effect_id := effectId; att_detail_ref := detailRef;
       att_evidence_refs := evidenceRefs; att_opened_at := occurred_at;
       att_resolution := None |} in
  let! _ := emit "business.attention.opened" [("attention", JObj (attention_fields attention))]
    evidenceRefs in
  modifyState (λ s, set_st_attention (<[attentionId := attention]> (st_attention s)) s).

Definition effect_scoped_kinds : list string :=
  ["delivery_unknown"; "timeout_requires_reconciliation"; "cancel_requires_dispatch_reconciliation"].

(** The open items a settled delivery closes. *)
Definition resolves (branchRef : string) (effectId : option string) (includeCancelNotSent : bool)
    (a : Attention) : bool :=
  att_open a && bool_decide (att_branch_ref a = Some branchRef)
  && ((includes effect_scoped_kinds (att_kind a)
        && bool_decide (effectId ≠ None) && bool_decide (att_effect_id a = effectId))
      || (includeCancelNotSent && String.eqb (att_kind a) "cancel_not_sent")).

Definition resolve_attention (ref : ContentRef) (evidenceRefs : list string) (a : Attention)
    : Attention :=
  {| att_attention_id := att_attention_id a; att_kind := att_kind a;
     att_branch_ref := att_branch_ref a; att_effect_id := att_effect_id a;
     att_detail_ref := att_detail_ref a; att_evidence_refs := att_evidence_refs a;
     att_opened_at := att_opened_at a;
     att_resolution := Some {| re_resolution_ref := ref; re_evidence_refs := evidenceRefs;
                               re_resolved_at := occurred_at |} |}.

Definition attention_leb (l r : string * Attention) : bool :=
  text_leb (att_attention_id l.2) (att_attention_id r.2).

Definition resolveDeliveryAttention (branchRef : string) (evidenceRefs : list string)
    (effectId : option string) (includeCancelNotSent : bool) : M unit :=
  let! s := getState in
  match filter (λ ka, resolves branchRef effectId includeCancelNotSent ka.2 = true)
    (map_to_list (st_attention s)) with
  | [] => mret tt
  | opened =>
      let! resolutionRef := mlift (contentRef (fact "reconciliation_resolution_ref")) in
      forM (λ ka,
        let! _ := emit "business.attention.resolved"
          [("attention_id", JStr (att_attention_id ka.2));
           ("resolution_ref", content_ref_json resolutionRef);
           ("evidence_refs", str_list_json evidenceRefs)] evidenceRefs in
        modifyState (λ s, set_st_attention
          (alter (resolve_attention resolutionRef evidenceRefs) ka.1 (st_attention s)) s))
        (isort attention_leb opened)
  end.
End Core.
