(* ===== verification/WorkOrderSettle.v ===== *)
(** Observations of a Work Order, the shared part
    ([packages/business-orchestrator/src/state-machine.js], lines 1047-1301, 1386-1522 and
    2664-2697): who speaks, whether the observation is current, the settlement policy it carries,
    how it is recorded and how it settles a provider effect. *)

From Stdlib Require Import ZArith Lia String.
From stdpp Require Import base tactics list strings option gmap.
From S2P Require Import Prelude JsString JsDate Json SettlementPolicy ContractBase PlanContract.
From S2P Require Import Envelope WorkOrderState WorkOrderFacts WorkOrderContext WorkOrderEffects.
From S2P Require Import WorkOrderCore.

(** [result] of a decision: a JSON object. *)
Definition Result : Type := fields.

(** The three version 2 observations, whose settlement policy is mandatory. *)
Definition POLICY_OBSERVATIONS : list ObservationName := [NSettlement; NSendExpiry; NPresendFailure].
Definition START_KINDS : list EffectKind := [ThreadCreate; TurnStart].

(** The [effect_stage] of a raw effect kind: [undefined] when there is none. *)
Definition stage_of_kind (v : json) : json :=
  match v with
  | JStr s =>
      match enum_find (enum_all (A := EffectKind)) s with
      | Some k => JStr (effect_stage k)
      | None => JUndef
      end
  | _ => JUndef
  end.

Definition set_cx_settlementPolicy (p : SettlementPolicy) : M unit :=
  λ c, Ok (tt, {| cx_state := cx_state c; cx_events := cx_events c;
                  cx_settlementPolicy := Some p;
                  cx_recoveryProbeLedger := cx_recoveryProbeLedger c |}).
Definition get_cx_settlementPolicy : M (option SettlementPolicy) :=
  λ c, Ok (cx_settlementPolicy c, c).
Definition set_cx_recoveryProbeLedger (l : json) : M unit :=
  λ c, Ok (tt, {| cx_state := cx_state c; cx_events := cx_events c;
                  cx_settlementPolicy := cx_settlementPolicy c;
                  cx_recoveryProbeLedger := Some l |}).

(** The first settlement of a decision: the effect, the hash of its delivery, and what it was. *)
Record Settled := {
  se_identity : EffectIdentity;
  se_deliveryHash : string;
  se_settlementPolicy : option SettlementPolicy;
  se_alreadySettled : bool;
  se_priorStatus : string;
}.

(** The delivery status a classification may be recorded from. *)
Definition allowed_statuses (c : Classification) : list string :=
  match c with
  | CAccepted => ["sending"; "delivery_unknown"]
  | CNotSent => ["claimed"; "sending"; "delivery_unknown"]
  | CDeliveryUnknown => ["sending"; "delivery_unknown"]
  end.

Definition outbox_event_type (c : Classification) : string :=
  match c with
  | CAccepted => "business.outbox.delivered"
  | CNotSent => "business.outbox.not_sent"
  | CDeliveryUnknown => "business.outbox.delivery_unknown"
  end.

Definition outbox_statuses : list string :=
  ["pending"; "claimed"; "sending"; "delivery_unknown"; "delivered"; "not_sent"; "cancelled"].

(** The classification an observation gives the delivery it is about, if any. *)
Definition delivery_classification (p : ObservationPayload) : option Classification :=
  match p with
  | DeliveryRecordedPayload _ c | SettlementPayload _ c _ => Some c
  | SendExpiryPayload _ _ _ _ | DeliveryUnknownPayload _ _ _ _ => Some CDeliveryUnknown
  | PresendFailurePayload _ _ _ _ | DispatchNotSentPayload _ _ _ _ => Some CNotSent
  | DispatchAcceptedPayload _ _ _ => Some CAccepted
  | _ => None
  end.

Section Settle.
Context `{Sha256} {env : Env} (o : ObservationEnvelope).
Local Abbreviation payload := (oe_payload o).
Local Abbreviation name := (observation_name o).

Definition observationEvidence : res (list string) :=
  referenceArray (fact "observation_evidence_refs") 1.

Definition authenticatedActor : res string :=
  let* principal := object (fact "authenticated_principal") in
  reject negb (same_keys principal ["id"; "type"])
    with BusinessDecisionError "BUSINESS_AUTHENTICATED_PRINCIPAL_INVALID" in
  let* id := portableRef (get "id" principal) in
  let* _ := portableRef (get "type" principal) in
  reject negb (String.eqb id (act_actor_id (input_actor en_input)))
    with BusinessDecisionError "BUSINESS_ACTOR_BINDING_MISMATCH" in
  Ok id.

(** [branch_state: ..., work_order_revision: ...] and the like. *)
Definition status_field : M (string * json) :=
  let! s := getState in mret ("status", enum_json (st_status s)).
Definition revision_field : string * json := ("work_order_revision", JInt targetRevision).
Definition current_state_field (branchRef : string) : M (string * json) :=
  let! b := branchByRef branchRef in mret ("branch_state", enum_json (br_state b)).

(** The result [{ status, branch_state, ...extra, work_order_revision }]. *)
Definition branch_result (st : BranchState) (extra : fields) : M Result :=
  let! status := status_field in
  mret ([status; ("branch_state", enum_json st)] ++ extra ++ [revision_field]).
Definition current_branch_result (branchRef : string) (extra : fields) : M Result :=
  let! status := status_field in
  let! state := current_state_field branchRef in
  mret ([status; state] ++ extra ++ [revision_field]).

Definition quarantine (reason : string) : M Result :=
  let! evidenceRefs := mlift observationEvidence in
  let artifactRefs := match payload with
    | ResultSubmittedPayload _ _ refs _ => refs | _ => [] end in
  let! _ := emit "business.late_observation.quarantined"
    [("record", JObj [("observation", observation_json o); ("reason", JStr reason);
      ("artifact_refs", JArr (map content_ref_json artifactRefs));
      ("evidence_refs", str_list_json evidenceRefs)])] evidenceRefs in
  mret [("status", JStr "quarantined"); ("reason", JStr reason); revision_field].

(** The certainty fact of an expired send, built from the expiry fact. *)
Definition expiry_certainty_fact (expiryEffect : json) : json :=
  JObj [("certainty_fact_version", JInt 2); ("effect_contract_version", JInt 2);
        ("effect_kind", prop "effect_kind" expiryEffect);
        ("effect_stage", stage_of_kind (prop "effect_kind" expiryEffect));
        ("settlement_source", JStr "control_plane"); ("classification", JStr "delivery_unknown");
        ("reason", JStr "worker_send_expired")].

Definition settlementPolicyFor : M (option SettlementPolicy) :=
  if negb (among POLICY_OBSERVATIONS name) && is_undef (fact "send_expiry") then mret None
  else
    let! known := get_cx_settlementPolicy in
    match known with
    | Some p => mret (Some p)
    | None =>
        let expiryEffect := prop "effect" (fact "send_expiry") in
        let certaintyFact := if truthy expiryEffect then expiry_certainty_fact expiryEffect
          else fact "settlement_certainty_fact" in
        match deriveSettlementDispositionV2 certaintyFact with
        | Err _ => mfail "BUSINESS_SETTLEMENT_POLICY_INVALID"
        | Ok policy =>
            let presendFailure := bool_decide (name = NPresendFailure) in
            let expectedSource := if truthy expiryEffect || presendFailure
              then Some ControlPlane else payload_settlement_source payload in
            let expectedClassification := if truthy expiryEffect then Some CDeliveryUnknown
              else if presendFailure then Some CNotSent else payload_classification payload in
            deny negb (bool_decide
                   (option_map eb_effect_kind (payload_binding payload) = Some (sp_effect_kind policy)))
                || negb (bool_decide (expectedSource = Some (sp_settlement_source policy)))
                || negb (bool_decide (expectedClassification = Some (sp_classification policy)))
              with "BUSINESS_SETTLEMENT_POLICY_MISMATCH" in
            let! _ := set_cx_settlementPolicy policy in
            mret (Some policy)
        end
    end.

(** ** Currency *)

Definition stale_reasons : list string :=
  ["stale_effect_generation"; "stale_effect_stage"; "stale_effect_lease"].

(** The reason an observation is not about the present, if there is one. *)
Definition validateObservationCurrency (s : State) : res (option string) :=
  reject (st_revision s <? oe_work_order_revision o)%Z
    with BusinessDecisionError "BUSINESS_FUTURE_OBSERVATION" in
  if among TERMINAL_WORK_ORDER_STATES (st_status s) then Ok (Some "terminal_work_order")
  else match payload_branch_ref payload with
  | None => Ok None
  | Some ref =>
  match st_branches s !! ref with
  | None => Ok (Some "unknown_branch")
  | Some branch =>
  if among CURRENT_ATTEMPT_OBSERVATIONS name
     && negb (bool_decide (payload_attempt payload = Some (br_attempt branch)))
  then Ok (Some "stale_attempt")
  else if among CURRENT_DISPATCH_OBSERVATIONS name
     && negb (bool_decide (payload_dispatch_id payload = br_dispatch_id branch))
  then Ok (Some "replaced_dispatch")
  else if has_own en_facts "stale_delivery_reason" then
    let* staleReason := portableRef (fact "stale_delivery_reason") in
    reject negb (is_true_value (fact "stale_delivery_effect"))
        || negb (includes stale_reasons staleReason)
      with BusinessDecisionError "BUSINESS_DELIVERY_EFFECT_BINDING" in
    Ok (Some staleReason)
  else if is_true_value (fact "stale_delivery_effect") then Ok (Some "stale_effect_stage")
  else
    let* inputStale := if bool_decide (name = NUserInputRequested) then
        let* binding := object (fact "current_attempt") in
        Ok (negb (is_int (get "attempt" binding) (br_attempt branch))
            || negb (match br_dispatch_id branch with
                     | Some d => is_str (get "dispatch_id" binding) d
                     | None => is_null (get "dispatch_id" binding) end))
      else Ok false in
    if inputStale then Ok (Some "stale_attempt")
    else if among EXECUTION_WINDOW_OBSERVATIONS name && executionWindowElapsed s branch occurred_at
    then Ok (Some "execution_deadline_elapsed")
    else if among [NVerification; NReview] name then
      let* resultHash := sha256 (fact "current_result_hash") in
      match br_result branch with
      | None => Ok (Some "stale_result")
      | Some r =>
          let* h := canonicalHash (result_json r) in
          if String.eqb resultHash h then Ok None else Ok (Some "stale_result")
      end
    else Ok None
  end
  end.

(** ** Recording *)

(** The assignments of [recordRuntimeObservation] for a delivery. *)
Definition record_delivery (c : Classification) (effect : EffectIdentity)
    (runtimeIdentity : option RuntimeIdentity) (deliveryHash : option string) (b : Branch) : Branch :=
  let observed c := Some {| de_classification := c; de_observed_at := occurred_at |} in
  let is_kind k := String.eqb (ef_effect_kind effect) (enum_str k) in
  match c with
  | CAccepted =>
      if is_kind ThreadCreate then
        set_br_thread_create_delivery_hash deliveryHash
          (set_br_thread_create_effect_id (Some (ef_effect_id effect))
            (set_br_thread_identity runtimeIdentity (set_br_delivery None b)))
      else if is_kind TurnStart then
        set_br_turn_start_delivery_hash deliveryHash
          (set_br_turn_start_effect_id (Some (ef_effect_id effect))
            (set_br_runtime_identity runtimeIdentity (set_br_delivery (observed CAccepted) b)))
      else b
  | c => if is_kind ThreadCreate || is_kind TurnStart then set_br_delivery (observed c) b else b
  end.

Definition record_payload (b : Branch) : Branch :=
  match payload with
  | ProgressPayload _ _ _ => set_br_last_progress_at (Some occurred_at) b
  | ResultSubmittedPayload _ _ artifacts evidence =>
      set_br_result (Some {| rs_attempt := br_attempt b; rs_artifact_refs := artifacts;
        rs_evidence_refs := evidence; rs_submitted_at := occurred_at |}) b
  | UserInputRequestedPayload _ requestId prompt =>
      set_br_open_user_input (Some {| oui_request_id := requestId; oui_prompt_ref := prompt;
        oui_requested_at := occurred_at |}) b
  | _ => b
  end.

(** [delivery] is the effect and the hash of its delivery, when the observation settles one. *)
Definition recordRuntimeObservation (runtimeIdentity : option RuntimeIdentity)
    (evidenceRefs : list string) (delivery : option (EffectIdentity * string)) : M unit :=
  let! policyField := if among POLICY_OBSERVATIONS name
    then let! p := settlementPolicyFor in
         mret [("settlement_policy", opt_json settlement_policy_json p)]
    else mret [] in
  let runtimeField := match runtimeIdentity with
    | Some i => [("runtime_identity", runtime_identity_json i)] | None => [] end in
  let deliveryFields := match delivery with
    | Some (e, _) =>
        [("delivery_effect_id", JStr (ef_effect_id e)); ("effect_kind", JStr (ef_effect_kind e))]
    | None => []
    end in
  let! turnFields := match payload_branch_ref payload, delivery with
    | Some ref, None =>
        let! branch := branchByRef ref in
        if among TURN_BOUND_OBSERVATIONS name then
          match br_turn_start_effect_id branch, br_runtime_identity branch with
          | Some effectId, Some i =>
              mret [("active_turn_effect_id", JStr effectId);
                    ("active_runtime_identity", runtime_identity_json i)]
          | _, _ => mfail "BUSINESS_RUNTIME_TURN_BINDING"
          end
        else mret []
    | Some ref, Some _ => let! _ := branchByRef ref in mret []
    | None, _ => mret []
    end in
  let! _ := emit "business.branch.runtime_observed"
    ([("observation", observation_json o)] ++ policyField ++ runtimeField ++ deliveryFields
      ++ turnFields) evidenceRefs in
  match payload_branch_ref payload with
  | None => mret tt
  | Some ref =>
      let! _ := modifyBranch ref (set_br_last_runtime_observation (Some o)) in
      match delivery_classification payload with
      | Some c =>
          match delivery with
          | Some (effect, hash) =>
              modifyBranch ref (record_delivery c effect runtimeIdentity (Some hash))
          | None => λ _, Err TypeError
          end
      | None => modifyBranch ref record_payload
      end
  end.

(** ** Settling a provider effect *)

Definition fencingTokenFact (value : json) : res (option FencingToken) :=
  nullable (λ value,
    let* token := object value in
    reject negb (same_keys token ["generation"; "lease_id"; "owner_id"])
      with BusinessDecisionError "BUSINESS_DELIVERY_EFFECT_BINDING" in
    let* lease_id := portableRef (get "lease_id" token) in
    let* owner_id := portableRef (get "owner_id" token) in
    let* generation := integer (get "generation" token) 1 1000000000 in
    Ok {| ft_lease_id := lease_id; ft_owner_id := owner_id; ft_generation := generation |}) value.

(** Does the payload of a provider delivery name exactly this effect and outcome? *)
Definition payload_binds (identity : EffectIdentity) (token : option FencingToken)
    (classification : Classification) : bool :=
  match payload_binding payload with
  | Some b =>
      String.eqb (eb_effect_id b) (ef_effect_id identity)
      && String.eqb (enum_str (eb_effect_kind b)) (ef_effect_kind identity)
      && String.eqb (eb_branch_ref b) (ef_branch_ref identity)
      && (eb_attempt b =? ef_attempt identity)%Z
      && bool_decide (ef_dispatch_id identity = Some (eb_dispatch_id b))
      && match payload with
         | PresendFailurePayload _ claimed _ _ =>
             match token with
             | Some t => String.eqb (ft_lease_id claimed) (ft_lease_id t)
                 && String.eqb (ft_owner_id claimed) (ft_owner_id t)
                 && (ft_generation claimed =? ft_generation t)%Z
             | None => false
             end
         | p => bool_decide (payload_classification p = Some classification)
         end
  | None => false
  end.

Definition delivery_json (classification : Classification) (evidenceRefs : list string)
    (runtimeIdentity : option RuntimeIdentity) : fields :=
  [("classification", enum_json classification); ("evidence_refs", str_list_json evidenceRefs);
   ("runtime_identity", opt_json runtime_identity_json runtimeIdentity);
   ("recorded_at", timestamp_json occurred_at)].

Definition settleDispatchEffect (classification : Classification)
    (runtimeIdentity : option RuntimeIdentity) (evidenceRefs : list string)
    (expectedKind : EffectKind) : M Settled :=
  let! effect := mlift (object (fact "delivery_effect")) in
  deny negb (same_keys effect (identity_keys_with ["fencing_token"; "status"]))
    with "BUSINESS_DELIVERY_EFFECT_BINDING" in
  let! identity := mlift (normalizeOutboxEffectIdentity (pick V2_EFFECT_IDENTITY_FIELDS effect)) in
  let! fencingToken := mlift (fencingTokenFact (get "fencing_token" effect)) in
  let! status := mlift (portableRef (get "status" effect)) in
  deny among [NDeliveryRecorded; NSettlement; NPresendFailure] name
      && negb (payload_binds identity fencingToken classification)
    with "BUSINESS_DELIVERY_EFFECT_BINDING" in
  let! ref := deref (payload_branch_ref payload) in
  let! branch := branchByRef ref in
  deny among START_KINDS expectedKind && bool_decide (currentDispatchStage branch = None)
    with "BUSINESS_DELIVERY_EFFECT_STATE" in
  deny among START_KINDS expectedKind
      && negb (bool_decide (currentDispatchStage branch = Some expectedKind))
    with "BUSINESS_DELIVERY_EFFECT_STAGE" in
  let! s := getState in
  let! _ := mlift (assertEffectBindsBranch s branch identity expectedKind) in
  deny negb (String.eqb (ef_branch_ref identity) ref)
      || negb (bool_decide (payload_attempt payload = Some (ef_attempt identity)))
      || negb (bool_decide (payload_dispatch_id payload = ef_dispatch_id identity))
    with "BUSINESS_DELIVERY_EFFECT_BINDING" in
  deny negb (includes (allowed_statuses classification) status)
    with "BUSINESS_DELIVERY_EFFECT_STATE" in
  deny (if String.eqb status "delivery_unknown" then negb (is_none fencingToken)
        else is_none fencingToken)
    with "BUSINESS_DELIVERY_EFFECT_BINDING" in
  let delivery := delivery_json classification evidenceRefs runtimeIdentity in
  let! deliveryHash := mlift (canonicalHash
    (JObj (("effect", effect_identity_json identity) :: delivery))) in
  if bool_decide (classification = CDeliveryUnknown) && String.eqb status "delivery_unknown"
  then mret {| se_identity := identity; se_deliveryHash := deliveryHash;
               se_settlementPolicy := None; se_alreadySettled := true;
               se_priorStatus := status |}
  else
    let! settlementPolicy := if among [NSettlement; NPresendFailure] name
      then settlementPolicyFor else mret None in
    let policyField := match settlementPolicy with
      | Some p => [("settlement_policy", settlement_policy_json p)] | None => [] end in
    let! _ := emit (outbox_event_type classification)
      ([("effect_id", JStr (ef_effect_id identity)); ("effect", effect_identity_json identity);
        ("fencing_token", opt_json fencing_token_json fencingToken); ("delivery", JObj delivery)]
       ++ policyField) evidenceRefs in
    mret {| se_identity := identity; se_deliveryHash := deliveryHash;
            se_settlementPolicy := settlementPolicy; se_alreadySettled := false;
            se_priorStatus := status |}.
End Settle.

(** ** The effect a cancellation or a timeout acts on *)

Section CancellationEffect.
Context `{Sha256} {env : Env}.

Definition cancellationEffect (branch : Branch) (value : json)
    (expectedKindOverride : option EffectKind) : M (EffectIdentity * string) :=
  let! f := mlift (object value) in
  deny negb (same_keys f (identity_keys_with ["status"]))
    with "BUSINESS_CANCELLATION_EFFECT_BINDING" in
  let! identity := mlift (normalizeOutboxEffectIdentity (pick V2_EFFECT_IDENTITY_FIELDS f)) in
  match (match expectedKindOverride with
         | Some k => Some k | None => currentDispatchStage branch end) with
  | None => mfail "BUSINESS_CANCELLATION_EFFECT_BINDING"
  | Some expectedKind =>
      let! s := getState in
      let! _ := mlift (assertEffectBindsBranch s branch identity expectedKind) in
      let! status := mlift (portableRef (get "status" f)) in
      deny negb (includes outbox_statuses status)
        with "BUSINESS_CANCELLATION_EFFECT_BINDING" in
      mret (identity, status)
  end.
End CancellationEffect.
