(* ===== verification/WorkOrderObserve.v ===== *)
(** The observation deciders ([packages/business-orchestrator/src/state-machine.js], lines 1524-2657):
    one function per observation, as in the code's [OBSERVATION_DECIDERS] table. *)

From Stdlib Require Import ZArith Lia String.
From stdpp Require Import base tactics list strings option gmap.
From S2P Require Import Prelude JsString JsDate Json SettlementPolicy ContractBase PlanContract.
From S2P Require Import Envelope WorkOrderState WorkOrderFacts WorkOrderContext WorkOrderEffects.
From S2P Require Import WorkOrderCore WorkOrderSettle.

(** ** Verification and review *)

Definition criterion_by_id (s : State) (criterionId : string) : option AcceptanceCriterion :=
  head (filter (λ c, ac_criterion_id c = criterionId)
    (ap_criteria (pl_acceptance_policy (st_plan s)))).

(** Is this verification one the plan requires, of the kind it requires? *)
Definition verificationRequired (s : State) (criterionId : string) (ref : ContentRef)
    (kind : RequirementKind) : bool :=
  match criterion_by_id s criterionId with
  | None => false
  | Some criterion =>
      match head (filter (λ r, cr_id (vr_verification_ref r) = cr_id ref)
        (ac_verification_requirements criterion)) with
      | None => false
      | Some r => bool_decide (vr_kind r = kind) && bool_decide (vr_verification_ref r = ref)
      end
  end.

Definition verification_record (branch : Branch) (criterionId refId : string)
    : option VerificationRecord :=
  m ← br_verification_by_criterion branch !! criterionId; m !! refId.

Definition requirement_passed (branch : Branch) (criterionId : string)
    (r : VerificationRequirement) : bool :=
  match verification_record branch criterionId (cr_id (vr_verification_ref r)) with
  | Some record => bool_decide (ve_status record = VsPassed)
  | None => false
  end.

(** A required criterion that is not in the plan makes the code throw. *)
Fixpoint allBranchVerificationsPassed (s : State) (branch : Branch) (criteria : list string)
    : res bool :=
  match criteria with
  | [] => Ok true
  | criterionId :: rest =>
      match criterion_by_id s criterionId with
      | None => Err TypeError
      | Some criterion =>
          if forallb (requirement_passed branch criterionId) (ac_verification_requirements criterion)
          then allBranchVerificationsPassed s branch rest else Ok false
      end
  end.

(** The branch whose result is reviewed: the integration branch, or the only branch. *)
Definition finalBranchRef (s : State) : option string :=
  match pl_integration_branch_ref (st_plan s) with
  | Some ref => Some ref
  | None => option_map pb_branch_ref (head (pl_branches (st_plan s)))
  end.

Definition finalBranch (s : State) : option Branch :=
  ref ← finalBranchRef s; st_branches s !! ref.

Definition assignees (s : State) : list string :=
  map pb_assignee_ref (pl_branches (st_plan s)).

Record ReviewSummary := {
  sm_required : Z;
  sm_accepted : Z;
  sm_blocking : Z;
}.

(** An independent review without critical or important findings. *)
Definition clean_review (s : State) (r : Review) : bool :=
  bool_decide (rv_status r = DecAccepted) && (rf_critical (rv_findings r) =? 0)%Z
  && (rf_important (rv_findings r) =? 0)%Z && negb (includes (assignees s) (rv_reviewer_ref r)).

Section Summary.
Context `{Sha256}.

(** The reviews of the current result of [branch]: distinct clean reviewers, and blockers. *)
Definition currentResultReviewSummary (s : State) (branch : option Branch) : res ReviewSummary :=
  let required := REVIEW_COUNTS (ap_review_minimum (pl_acceptance_policy (st_plan s))) in
  match branch ≫= br_result, branch with
  | Some result, Some branch =>
      let* resultHash := canonicalHash (result_json result) in
      let reviews := filter (λ r, rv_branch_ref r = br_branch_ref branch
        ∧ rv_result_hash r = resultHash) (map snd (map_to_list (st_reviews s))) in
      let clean := filter (λ r, clean_review s r = true) reviews in
      Ok {| sm_required := required;
            sm_accepted := Z.of_nat (length (remove_dups (map rv_reviewer_ref clean)));
            sm_blocking := Z.of_nat (length reviews) - Z.of_nat (length clean) |}
  | _, _ => Ok {| sm_required := required; sm_accepted := 0; sm_blocking := 0 |}
  end.

Definition branchAcceptanceReady (s : State) (branch : Branch) : res bool :=
  let* passed := allBranchVerificationsPassed s branch (br_required_criterion_ids branch) in
  if negb passed then Ok false
  else match finalBranch s with
    | None => Err TypeError
    | Some final =>
        if negb (String.eqb (br_branch_ref branch) (br_branch_ref final)) then Ok true
        else
          let* reviews := currentResultReviewSummary s (Some branch) in
          Ok ((sm_blocking reviews =? 0)%Z && (sm_required reviews <=? sm_accepted reviews)%Z)
    end.
End Summary.

Section Observe.
Context `{Sha256} {env : Env} (o : ObservationEnvelope).
Local Abbreviation payload := (oe_payload o).
Local Abbreviation name := (observation_name o).

(** ** Work Order observations *)

Definition observeWorkOrderStarted (evidenceRefs : list string) : M Result :=
  let! s := getState in
  if negb (bool_decide (st_status s = WStarting)) then quarantine o "work_order_already_started"
  else
    let! _ := recordRuntimeObservation o None evidenceRefs None in
    let! _ := transitionWorkOrder WRunning "runtime_started" evidenceRefs in
    let! _ := recomputeParentStatus "runtime_started" evidenceRefs in
    let! status := status_field in
    mret [status; revision_field].

Definition observeWorkOrderCancelled (reason : string) (evidenceRefs : list string) : M Result :=
  let! _ := recordRuntimeObservation o None evidenceRefs None in
  let! s := getState in
  if negb (bool_decide (st_status s = WCancelling))
     || negb (is_true_value (fact "mutating_effects_quiescent"))
     || negb (branchesQuiescent s)
  then quarantine o "cancellation_not_quiescent"
  else
    let! _ := transitionWorkOrder WCancelled reason evidenceRefs in
    mret [("status", JStr "cancelled"); revision_field].

(** ** Start effects *)

(** Does the provider's answer fit the stage: a thread without a turn, or a turn on the target
    thread? *)
Definition identity_fits_stage (i : RuntimeIdentity) (effect : EffectIdentity)
    (expectedKind : EffectKind) : res bool :=
  if bool_decide (expectedKind = ThreadCreate)
  then Ok (negb (is_none (ri_thread_id i)) && is_none (ri_turn_id i))
  else if is_none (ri_thread_id i) || is_none (ri_turn_id i) then Ok false
  else match ef_target_runtime_identity effect with
    | Some target => Ok (bool_decide (ri_thread_id i = ri_thread_id target))
    | None => Err TypeError
    end.

(** The branch's turn started after the Work Order stopped, or after the deadline: cancel it. *)
Definition stop_started_turn (branchRef : string) (evidenceRefs : list string) : M Result :=
  let! branch := branchByRef branchRef in
  let! _ := if bool_decide (br_state branch = BCancelling) then mret tt
    else transitionBranch (br_branch_ref branch) BCancelling "turn_started_after_stop"
           (with_evidence evidenceRefs) in
  let! enqueued := enqueueCancel branchRef evidenceRefs in
  let! _ := if enqueued then mret tt
    else openAttention "cancel_requires_runtime_identity" (br_branch_ref branch) evidenceRefs None in
  branch_result BCancelling [].

Definition thread_created (branchRef : string) (evidenceRefs : list string)
    (effect : EffectIdentity) (deliveryHash : string) (runtimeIdentity : RuntimeIdentity)
    (elapsed : bool) : M Result :=
  let! s := getState in
  let! branch := branchByRef branchRef in
  let cancelling := bool_decide (st_status s = WCancelling) in
  if cancelling || elapsed then
    let! _ := transitionBranch (br_branch_ref branch) (if cancelling then BCancelled else BFailed)
      (if cancelling then "thread_created_after_cancel_without_turn"
       else "thread_created_after_execution_deadline") (with_evidence evidenceRefs) in
    let! _ := recomputeParentStatus "thread_create_reconciled_without_turn" evidenceRefs in
    current_branch_result branchRef []
  else
    let! _ := if bool_decide (br_state branch = BDeliveryUnknown)
      then transitionBranch (br_branch_ref branch) BDispatchPending "thread_create_recovered"
             (with_evidence evidenceRefs)
      else mret tt in
    let! s := getState in
    let! branch := branchByRef branchRef in
    let! packet := deref (br_packet_ref branch) in
    let! turnEffect := mlift (outboxEffect s branch packet TurnStart
      {| oo_predecessorEffectId := Some (ef_effect_id effect);
         oo_predecessorDeliveryHash := Some deliveryHash;
         oo_targetRuntimeIdentity := Some runtimeIdentity; oo_requestId := None;
         oo_responseRef := None; oo_allowGenerationSuccessor := false;
         oo_generationPredecessorIdentity := None |}) in
    let! _ := emit "business.outbox.enqueued" [("effect", outbox_effect_json turnEffect)]
      evidenceRefs in
    branch_result BDispatchPending [].

Definition observeStartAccepted (branchRef : string) (evidenceRefs : list string)
    (expectedKind : EffectKind) : M Result :=
  let! branch := branchByRef branchRef in
  if negb (among [BDispatchPending; BDeliveryUnknown] (br_state branch))
  then quarantine o "dispatch_not_pending"
  else
    let! runtimeIdentity := mlift (requiredRuntimeIdentity (fact "runtime_identity")) in
    let! settled := settleDispatchEffect o CAccepted (Some runtimeIdentity) evidenceRefs
      expectedKind in
    if se_alreadySettled settled then quarantine o "recovery_probe_ledger_required"
    else
      let effect := se_identity settled in
      let! fits := mlift (identity_fits_stage runtimeIdentity effect expectedKind) in
      deny negb fits with "BUSINESS_RUNTIME_IDENTITY_STAGE" in
      let! _ := recordRuntimeObservation o (Some runtimeIdentity) evidenceRefs
        (Some (effect, se_deliveryHash settled)) in
      let! _ := if bool_decide (br_state branch = BDeliveryUnknown)
        then resolveDeliveryAttention (br_branch_ref branch) evidenceRefs
               (Some (ef_effect_id effect)) false
        else mret tt in
      let! s := getState in
      let elapsed := executionWindowElapsed s branch occurred_at in
      if bool_decide (expectedKind = ThreadCreate)
      then thread_created branchRef evidenceRefs effect (se_deliveryHash settled) runtimeIdentity
             elapsed
      else if bool_decide (st_status s = WCancelling) || elapsed
      then stop_started_turn branchRef evidenceRefs
      else
        let! _ := if bool_decide (st_status s = WStarting)
          then transitionWorkOrder WRunning "dispatch_accepted_implies_started" evidenceRefs
          else mret tt in
        let! _ := transitionBranch (br_branch_ref branch) BRunning "dispatch_accepted"
          (with_evidence evidenceRefs) in
        let! _ := recomputeParentStatus "dispatch_accepted" evidenceRefs in
        branch_result BRunning [].

Definition retries_not_sent (s : State) : bool :=
  bool_decide (RetryNotSent ∈ rp_retryable_observations (pl_retry_policy (st_plan s))).

(** [observeNotSentStage], with a settlement policy: the retry is a successor generation of the
    effect. *)
Definition not_sent_with_policy (branchRef : string) (evidenceRefs : list string)
    (policy : SettlementPolicy) (identity : EffectIdentity) : M Result :=
  let! s := getState in
  let! branch := branchByRef branchRef in
  deny negb (bool_decide (sp_disposition policy = RetryCandidate))
      || negb (bool_decide (sp_retry_scope policy = ScopeEffectGeneration))
      || negb (among [ModeAutomatic; ModeExplicit] (sp_retry_mode policy))
    with "BUSINESS_SETTLEMENT_POLICY_MISMATCH" in
  let! schedule := mlift (deriveEffectGenerationRetryScheduleV2
    (schedule_input s policy (ef_operation_generation identity) occurred_at
      (br_attempt_deadline_at branch))) in
  if negb (retries_not_sent s) || negb (rs_permitted schedule) then
    let! _ := transitionBranch (br_branch_ref branch) BFailed "effect_generation_retry_exhausted"
      (with_evidence evidenceRefs) in
    let! _ := recomputeParentStatus "effect_generation_retry_exhausted" evidenceRefs in
    branch_result BFailed []
  else if rs_automatic schedule && (rs_delay_ms schedule =? 0)%Z then
    let! successor := enqueueStartGenerationSuccessor branchRef identity evidenceRefs
      "automatic_effect_generation_after_not_sent" in
    let! _ := recomputeParentStatus "automatic_effect_generation_enqueued" evidenceRefs in
    branch_result BDispatchPending
      [("automatic_retry", JBool true);
       ("successor_effect_id", JStr (ef_effect_id successor)); ("retry_at", JNull)]
  else
    let! _ := transitionBranch (br_branch_ref branch) BRetryable "effect_generation_proven_not_sent"
      (retrying_at (rs_eligible_at schedule) evidenceRefs) in
    let! _ := recomputeParentStatus "effect_generation_retry_scheduled" evidenceRefs in
    branch_result BRetryable
      [("automatic_retry", JBool (rs_automatic schedule));
       ("retry_at", timestamp_json (rs_eligible_at schedule))].

(** [observeNotSentStage], without one: the historical retry of the whole attempt. *)
Definition not_sent_without_policy (branchRef : string) (evidenceRefs : list string) : M Result :=
  let! s := getState in
  let! branch := branchByRef branchRef in
  let policy := pl_retry_policy (st_plan s) in
  let delay := retryDelay policy (br_attempt branch) in
  let! retryAt := mlift (addMilliseconds occurred_at delay) in
  if negb (retries_not_sent s) || negb (canRetryAt s branch retryAt) then
    let! _ := transitionBranch (br_branch_ref branch) BFailed "automatic_retry_exhausted"
      (with_evidence evidenceRefs) in
    let! _ := recomputeParentStatus "automatic_retry_exhausted" evidenceRefs in
    branch_result BFailed []
  else
    let! _ := transitionBranch (br_branch_ref branch) BRetryable "dispatch_proven_not_sent"
      (retrying_at retryAt evidenceRefs) in
    let! _ := if (delay =? 0)%Z then
        let! packet := mlift (retryPacket (br_branch_ref branch)) in
        openAttempt (br_branch_ref branch) packet
      else mret tt in
    let! _ := recomputeParentStatus "automatic_retry_scheduled" evidenceRefs in
    current_branch_result branchRef
      [("retry_at", if (delay =? 0)%Z then JNull else timestamp_json retryAt)].

Definition observeNotSentStage (branchRef : string) (evidenceRefs : list string)
    (expectedKind : EffectKind) : M Result :=
  let! branch := branchByRef branchRef in
  if negb (among [BDispatchPending; BDeliveryUnknown] (br_state branch))
  then quarantine o "dispatch_not_pending_or_ambiguous"
  else
    let! settled := settleDispatchEffect o CNotSent None evidenceRefs expectedKind in
    let! _ := recordRuntimeObservation o None evidenceRefs
      (Some (se_identity settled, se_deliveryHash settled)) in
    let! _ := if bool_decide (br_state branch = BDeliveryUnknown)
      then resolveDeliveryAttention (br_branch_ref branch) evidenceRefs
             (Some (ef_effect_id (se_identity settled))) false
      else mret tt in
    let! s := getState in
    if bool_decide (st_status s = WCancelling) then
      let! _ := transitionBranch (br_branch_ref branch) BCancelled "provider_start_proven_not_sent"
        (with_evidence evidenceRefs) in
      let! _ := recomputeParentStatus "provider_start_proven_not_sent" evidenceRefs in
      branch_result BCancelled [("automatic_retry", JBool false)]
    else match se_settlementPolicy settled with
      | Some policy => not_sent_with_policy branchRef evidenceRefs policy (se_identity settled)
      | None => not_sent_without_policy branchRef evidenceRefs
      end.

(** The delivery-unknown items already opened for this effect. *)
Definition priorUnknownCount (s : State) (branch : Branch) (observedEffectId : option string) : Z :=
  Z.of_nat (length (filter (λ a, att_kind a = "delivery_unknown"
    ∧ att_branch_ref a = Some (br_branch_ref branch) ∧ att_effect_id a = observedEffectId)
    (map snd (map_to_list (st_attention s))))).

Definition observeDeliveryUnknownStage (branchRef : string) (evidenceRefs : list string)
    (expectedKind : EffectKind) : M Result :=
  let! branch := branchByRef branchRef in
  if negb (among [BDispatchPending; BDeliveryUnknown] (br_state branch))
  then quarantine o "delivery_ambiguity_for_inactive_branch"
  else
    let observedEffectId := if among [NDeliveryRecorded; NSettlement] name
      then option_map eb_effect_id (payload_binding payload) else None in
    let! s := getState in
    if (lp_max_recovery_probes (pl_lease_policy (st_plan s))
        <=? priorUnknownCount s branch observedEffectId)%Z
    then quarantine o "recovery_probe_limit_exhausted"
    else
      let! settled := settleDispatchEffect o CDeliveryUnknown None evidenceRefs expectedKind in
      if se_alreadySettled settled then quarantine o "recovery_probe_ledger_required"
      else
        let! _ := recordRuntimeObservation o None evidenceRefs
          (Some (se_identity settled, se_deliveryHash settled)) in
        let! _ := transitionBranch (br_branch_ref branch) BDeliveryUnknown
          "provider_delivery_unknown" (with_evidence evidenceRefs) in
        let! _ := openAttention "delivery_unknown" (br_branch_ref branch) evidenceRefs
          (Some (ef_effect_id (se_identity settled))) in
        let! _ := recomputeParentStatus "delivery_unknown" evidenceRefs in
        branch_result BDeliveryUnknown [("automatic_retry", JBool false)].

(** ** Progress, results and failures *)

Definition observeProgress (branchRef : string) (evidenceRefs : list string) : M Result :=
  let! branch := branchByRef branchRef in
  if negb (among [BRunning; BWaitingForUser; BCancelling] (br_state branch))
  then quarantine o "progress_for_inactive_branch"
  else
    let! _ := recordRuntimeObservation o None evidenceRefs None in
    current_branch_result branchRef [].

Definition observeResult (branchRef : string) (evidenceRefs : list string) : M Result :=
  let! branch := branchByRef branchRef in
  if negb (bool_decide (br_state branch = BRunning))
  then quarantine o "result_for_non_running_branch"
  else
    let! _ := recordRuntimeObservation o None evidenceRefs None in
    let! _ := transitionBranch (br_branch_ref branch) BVerifying "result_submitted"
      (with_evidence evidenceRefs) in
    let! _ := recomputeParentStatus "result_awaiting_verification" evidenceRefs in
    branch_result BVerifying [].

Definition observeFailed (branchRef failureCode : string) (evidenceRefs : list string)
    : M Result :=
  let! branch := branchByRef branchRef in
  if bool_decide (br_state branch = BDispatchPending)
  then quarantine o "failure_before_delivery_certainty"
  else if negb (among [BRunning; BWaitingForUser; BVerifying; BCancelling] (br_state branch))
  then quarantine o "failure_for_inactive_branch"
  else
    let! _ := recordRuntimeObservation o None evidenceRefs None in
    let! _ := transitionBranch (br_branch_ref branch) BFailed failureCode
      (with_evidence evidenceRefs) in
    let! _ := recomputeParentStatus "branch_failed" evidenceRefs in
    branch_result BFailed [].
End Observe.
