(* ===== verification/WorkOrderDelivery.v ===== *)
(** The rest of the observation deciders ([packages/business-orchestrator/src/state-machine.js],
    lines 1876-2182, 2243-2437 and 2503-2657): timeouts, expired sends, pre-send failures, mutations
    of a running turn, verification and review; and the table that dispatches an observation. *)

From Stdlib Require Import ZArith Lia String.
From stdpp Require Import base tactics list strings option gmap.
From S2P Require Import Prelude JsString JsDate Json SettlementPolicy ContractBase PlanContract.
From S2P Require Import Envelope WorkOrderState WorkOrderFacts WorkOrderContext WorkOrderEffects.
From S2P Require Import WorkOrderCore WorkOrderSettle WorkOrderObserve.

Definition is_start_kind (kind : string) : bool := includes (map enum_str START_KINDS) kind.

(** [PRESEND_FAILURE_STAGE_RULES] *)
Definition PRESEND_FAILURE_STAGE_RULES (k : EffectKind) : list BranchState :=
  match k with
  | ThreadCreate | TurnStart => [BDispatchPending]
  | UserInputSubmit => [BWaitingForUser]
  | TurnCancel => [BCancelling]
  end.

Definition SEND_EXPIRY_FIELDS : list string :=
  ["effect"; "fencing_token"; "lease_expires_at"; "quarantine_original"; "status"; "trigger_ref"].

(** [branch.pending_user_input_effect_id = null; branch.pending_user_input_response_ref = null] *)
Definition clear_pending_user_input (b : Branch) : Branch :=
  set_br_pending_user_input_response_ref None (set_br_pending_user_input_effect_id None b).

Section Delivery.
Context `{Sha256} {env : Env} (o : ObservationEnvelope).
Local Abbreviation payload := (oe_payload o).
Local Abbreviation name := (observation_name o).

(** ** Timeouts *)

(** [observeTimedOut] while the start effect is still pending. *)
Definition timed_out_dispatch (branchRef : string) (evidenceRefs : list string) : M Result :=
  let! branch := branchByRef branchRef in
  let! ' (identity, status) := cancellationEffect branch (fact "timeout_effect") None in
  if includes ["pending"; "claimed"] status then
    let! _ := emit "business.outbox.cancelled"
      [("effect_id", JStr (ef_effect_id identity)); ("effect", effect_identity_json identity);
       ("reason", JStr "attempt_deadline_before_send")] evidenceRefs in
    let! _ := transitionBranch (br_branch_ref branch) BCancelled "attempt_deadline_before_send"
      (with_evidence evidenceRefs) in
    let! _ := recomputeParentStatus "attempt_deadline_before_send" evidenceRefs in
    branch_result BCancelled []
  else
    let! _ := transitionBranch (br_branch_ref branch) BDeliveryUnknown
      "attempt_deadline_during_send" (with_evidence evidenceRefs) in
    let! _ := openAttention "timeout_requires_reconciliation" (br_branch_ref branch) evidenceRefs
      (Some (ef_effect_id identity)) in
    let! _ := recomputeParentStatus "attempt_deadline_during_send" evidenceRefs in
    branch_result BDeliveryUnknown [].

(** [observeTimedOut], the answer that waits to be sent: withdrawn when no worker has it. *)
Definition timed_out_user_input (branchRef : string) (evidenceRefs : list string) : M unit :=
  let! branch := branchByRef branchRef in
  if negb (bool_decide (br_state branch = BWaitingForUser))
     || is_none (br_pending_user_input_effect_id branch)
  then mret tt
  else
    let! ' (identity, status) := cancellationEffect branch (fact "timeout_effect")
      (Some UserInputSubmit) in
    if includes ["pending"; "claimed"] status then
      let! _ := emit "business.outbox.cancelled"
        [("effect_id", JStr (ef_effect_id identity)); ("effect", effect_identity_json identity);
         ("reason", JStr "user_input_cancelled_at_attempt_deadline")] evidenceRefs in
      modifyBranch branchRef (λ b, set_br_open_user_input None (clear_pending_user_input b))
    else
      deny negb (includes ["sending"; "delivery_unknown"] status)
        with "BUSINESS_CANCELLATION_EFFECT_BINDING" in
      mret tt.

Definition timed_out_turn (branchRef : string) (evidenceRefs : list string) : M Result :=
  let! _ := timed_out_user_input branchRef evidenceRefs in
  let! _ := modifyBranch branchRef (λ b,
    if bool_decide (br_state b = BWaitingForUser) && is_none (br_pending_user_input_effect_id b)
    then set_br_open_user_input None b else b) in
  let! _ := transitionBranch branchRef BCancelling "attempt_timed_out"
    (with_evidence evidenceRefs) in
  let! enqueued := enqueueCancel branchRef evidenceRefs in
  let! _ := if enqueued then mret tt
    else openAttention "timeout_requires_reconciliation" branchRef evidenceRefs None in
  let! _ := recomputeParentStatus "attempt_timed_out" evidenceRefs in
  branch_result BCancelling [].

Definition observeTimedOut (branchRef : string) (evidenceRefs : list string) : M Result :=
  let! branch := branchByRef branchRef in
  if negb (among [BDispatchPending; BRunning; BWaitingForUser] (br_state branch))
  then quarantine o "timeout_for_inactive_branch"
  else if match br_attempt_deadline_at branch with
       | None => true | Some deadline => (occurred_at <? deadline)%Z end
  then quarantine o "attempt_deadline_not_reached"
  else
    let! _ := recordRuntimeObservation o None evidenceRefs None in
    if bool_decide (br_state branch = BDispatchPending)
    then timed_out_dispatch branchRef evidenceRefs
    else timed_out_turn branchRef evidenceRefs.

(** ** Expired sends *)

(** The fencing token of the expiry fact: checked, and emitted as it is. *)
Definition send_expiry_token (value : json) : res json :=
  let* token := object value in
  reject negb (same_keys token ["generation"; "lease_id"; "owner_id"])
      || match get "generation" token with
         | JInt g => negb (is_safe_integer g) || (g <? 1)%Z
         | _ => true
         end
    with BusinessDecisionError "BUSINESS_SEND_EXPIRY_BINDING" in
  let* _ := portableRef (get "lease_id" token) in
  let* _ := portableRef (get "owner_id" token) in
  Ok (JObj [("lease_id", get "lease_id" token); ("owner_id", get "owner_id" token);
            ("generation", get "generation" token)]).

(** The shape of [trustedFacts.send_expiry]; [true] when the original callback is quarantined. *)
Definition send_expiry_fact (value : json) : res (fields * bool) :=
  let* f := object value in
  reject negb (Nat.eqb (length f) (length SEND_EXPIRY_FIELDS))
      || negb (forallb (has_own f) SEND_EXPIRY_FIELDS)
      || negb (is_str (get "status" f) "sending")
    with BusinessDecisionError "BUSINESS_SEND_EXPIRY_BINDING" in
  match get "quarantine_original" f with
  | JBool q => Ok (f, q)
  | _ => fail "BUSINESS_SEND_EXPIRY_BINDING"
  end.

(** The branch waits for a start effect whose delivery is now unknown. *)
Definition expire_start (branchRef : string) (evidenceRefs : list string) : M unit :=
  let! branch := branchByRef branchRef in
  if bool_decide (br_state branch = BDeliveryUnknown) then mret tt
  else
    let! _ := modifyBranch branchRef (set_br_delivery
      (Some {| de_classification := CDeliveryUnknown; de_observed_at := occurred_at |})) in
    transitionBranch (br_branch_ref branch) BDeliveryUnknown "worker_send_expired"
      (with_evidence evidenceRefs).

Definition observeExpiredSend (branchRef : string) (effectKind : EffectKind)
    (evidenceRefs : list string) : M Result :=
  let! ' (f, quarantineOriginal) := mlift (send_expiry_fact (fact "send_expiry")) in
  let! branch := branchByRef branchRef in
  let! identity := mlift (normalizeOutboxEffectIdentity (get "effect" f)) in
  let! s := getState in
  let! _ := mlift (assertEffectBindsBranch s branch identity effectKind) in
  let! token := mlift (send_expiry_token (get "fencing_token" f)) in
  let! expiresAt := mlift (timestamp (get "lease_expires_at" f)) in
  deny (occurred_at <? expiresAt)%Z with "BUSINESS_SEND_NOT_EXPIRED" in
  let! triggerRef := mlift (contentRef (get "trigger_ref" f)) in
  let! policy := settlementPolicyFor o in
  let delivery := delivery_json CDeliveryUnknown evidenceRefs None in
  let! _ := emit "business.outbox.send_expired"
    [("effect_id", JStr (ef_effect_id identity)); ("effect", effect_identity_json identity);
     ("fencing_token", token); ("lease_expires_at", timestamp_json expiresAt);
     ("expiry_trigger_ref", content_ref_json triggerRef);
     ("settlement_policy", opt_json settlement_policy_json policy);
     ("delivery", JObj delivery)] evidenceRefs in
  let! deliveryHash := mlift (canonicalHash
    (JObj (("effect", effect_identity_json identity) :: delivery))) in
  let! _ := if negb quarantineOriginal
    then recordRuntimeObservation o None evidenceRefs (Some (identity, deliveryHash))
    else
      deny negb (bool_decide (name = NSettlement)) with "BUSINESS_SEND_EXPIRY_BINDING" in
      mret tt in
  let! _ := if is_start_kind (ef_effect_kind identity)
    then expire_start branchRef evidenceRefs else mret tt in
  let! _ := openAttention "delivery_unknown" (br_branch_ref branch) evidenceRefs
    (Some (ef_effect_id identity)) in
  let! _ := if is_start_kind (ef_effect_kind identity)
    then recomputeParentStatus "worker_send_expired" evidenceRefs else mret tt in
  if quarantineOriginal then quarantine o "stale_effect_lease"
  else current_branch_result branchRef [("automatic_retry", JBool false)].

(** ** Pre-send failures *)

(** Does the failure name the effect the branch waits for? *)
Definition presend_binds (branch : Branch) (effectKind : EffectKind) (effectId : string) : bool :=
  match effectKind with
  | ThreadCreate | TurnStart => bool_decide (currentDispatchStage branch = Some effectKind)
  | UserInputSubmit => bool_decide (br_pending_user_input_effect_id branch = Some effectId)
  | TurnCancel => bool_decide (br_cancel_effect_id branch = Some effectId)
  end.

(** The assignments of [observePresendFailure]. *)
Definition drop_failed_effect (effectKind : EffectKind) (b : Branch) : Branch :=
  match effectKind with
  | UserInputSubmit => set_br_open_user_input None (clear_pending_user_input b)
  | TurnCancel => set_br_cancel_effect_id None b
  | _ => b
  end.

Definition observePresendFailure (binding : EffectBinding) (evidenceRefs : list string)
    : M Result :=
  let branchRef := eb_branch_ref binding in
  let effectKind := eb_effect_kind binding in
  let! branch := branchByRef branchRef in
  let! policy := settlementPolicyFor o in
  let! policy := deref policy in
  deny negb (among (PRESEND_FAILURE_STAGE_RULES effectKind) (br_state branch))
      || negb (bool_decide (sp_disposition policy = OperatorAttention))
      || negb (bool_decide (sp_retry_scope policy = ScopeNone))
      || negb (bool_decide (sp_retry_mode policy = ModeNone))
    with "BUSINESS_PRESEND_FAILURE_BINDING" in
  deny negb (presend_binds branch effectKind (eb_effect_id binding))
    with "BUSINESS_PRESEND_FAILURE_BINDING" in
  let! settled := settleDispatchEffect o CNotSent None evidenceRefs effectKind in
  deny negb (String.eqb (se_priorStatus settled) "claimed")
    with "BUSINESS_PRESEND_FAILURE_BINDING" in
  let! _ := recordRuntimeObservation o None evidenceRefs
    (Some (se_identity settled, se_deliveryHash settled)) in
  let! _ := modifyBranch branchRef (drop_failed_effect effectKind) in
  let! _ := transitionBranch (br_branch_ref branch) BFailed
    "provider_presend_control_plane_failure" (with_evidence evidenceRefs) in
  let effectId := ef_effect_id (se_identity settled) in
  let! _ := openAttention "provider_effect_presend_failure" (br_branch_ref branch) evidenceRefs
    (Some effectId) in
  let! _ := recomputeParentStatus "provider_presend_control_plane_failure" evidenceRefs in
  branch_result BFailed
    [("effect_id", JStr effectId); ("disposition", enum_json (sp_disposition policy));
     ("automatic_retry", JBool false)].

(** ** Recovery probes *)

(** [true] when the observation is a recovery probe, which is then recorded. *)
Definition recordRecoveryProbe (evidenceRefs : list string) : M bool :=
  match payload with
  | SettlementPayload _ classification (ProbeEvidence probe) =>
      let! deliveryEffect := mlift (object (fact "delivery_effect")) in
      let! identity := mlift
        (normalizeOutboxEffectIdentity (pick V2_EFFECT_IDENTITY_FIELDS deliveryEffect)) in
      let! policy := settlementPolicyFor o in
      let ledger := JObj
        [("version", JInt 1); ("effect_id", JStr (ef_effect_id identity));
         ("probe_receipt_ref", content_ref_json (rpr_probe_receipt_ref probe));
         ("mutation_idempotency_key", JStr (rpr_mutation_idempotency_key probe));
         ("classification", enum_json classification);
         ("settlement_policy", opt_json settlement_policy_json policy)] in
      let! _ := emit "business.recovery_probe.recorded"
        [("observation", observation_json o); ("effect", effect_identity_json identity);
         ("recovery_probe_ledger", ledger)] evidenceRefs in
      let! _ := set_cx_recoveryProbeLedger ledger in
      mret true
  | _ => mret false
  end.

(** ** Mutations of a running turn: an answer to a question, a cancellation *)

Definition is_user_input (k : EffectKind) : bool := bool_decide (k = UserInputSubmit).

(** [observeProviderEffectDelivery] for a mutation that was not sent. *)
Definition mutation_not_sent (branchRef : string) (effectKind : EffectKind)
    (evidenceRefs : list string) : M Result :=
  let! branch := branchByRef branchRef in
  let! settled := settleDispatchEffect o CNotSent None evidenceRefs effectKind in
  if se_alreadySettled settled then quarantine o "recovery_probe_ledger_required"
  else
    let effectId := ef_effect_id (se_identity settled) in
    let! _ := recordRuntimeObservation o None evidenceRefs
      (Some (se_identity settled, se_deliveryHash settled)) in
    let! _ := if String.eqb (se_priorStatus settled) "delivery_unknown"
      then resolveDeliveryAttention (br_branch_ref branch) evidenceRefs (Some effectId) false
      else mret tt in
    let! _ := if is_user_input effectKind
      then modifyBranch branchRef (λ b,
        let b := clear_pending_user_input b in
        if bool_decide (br_state b = BCancelling) then set_br_open_user_input None b else b)
      else
        let! _ := modifyBranch branchRef (set_br_cancel_effect_id None) in
        openAttention "cancel_not_sent" (br_branch_ref branch) evidenceRefs (Some effectId) in
    current_branch_result branchRef [].

Definition mutation_unknown (branchRef : string) (effectKind : EffectKind)
    (evidenceRefs : list string) : M Result :=
  let! branch := branchByRef branchRef in
  let! settled := settleDispatchEffect o CDeliveryUnknown None evidenceRefs effectKind in
  if se_alreadySettled settled then quarantine o "recovery_probe_ledger_required"
  else
    let! _ := recordRuntimeObservation o None evidenceRefs
      (Some (se_identity settled, se_deliveryHash settled)) in
    let! _ := openAttention "delivery_unknown" (br_branch_ref branch) evidenceRefs
      (Some (ef_effect_id (se_identity settled))) in
    current_branch_result branchRef [("automatic_retry", JBool false)].

(** The answer reached the turn, which goes on. *)
Definition user_input_delivered (branchRef : string) (evidenceRefs : list string) : M unit :=
  let! branch := branchByRef branchRef in
  let! responseRef := mlift (contentRef
    (opt_json content_ref_json (br_pending_user_input_response_ref branch))) in
  let! request := deref (br_open_user_input branch) in
  let! _ := modifyBranch branchRef (λ b,
    set_br_open_user_input None (clear_pending_user_input b)) in
  if bool_decide (br_state branch = BWaitingForUser)
  then transitionBranch (br_branch_ref branch) BRunning "user_input_delivered"
         {| to_retry_at := None; to_resolved := Some (oui_request_id request, responseRef);
            to_evidence_refs := evidenceRefs |}
  else mret tt.

Definition mutation_accepted (branchRef : string) (effectKind : EffectKind)
    (evidenceRefs : list string) : M Result :=
  let! branch := branchByRef branchRef in
  let! identity := mlift (requiredRuntimeIdentity (fact "runtime_identity")) in
  deny negb (bool_decide (br_runtime_identity branch = Some identity))
    with "BUSINESS_RUNTIME_IDENTITY_STAGE" in
  let! settled := settleDispatchEffect o CAccepted (Some identity) evidenceRefs effectKind in
  let! _ := recordRuntimeObservation o (Some identity) evidenceRefs
    (Some (se_identity settled, se_deliveryHash settled)) in
  let isCancel := bool_decide (effectKind = TurnCancel) in
  let! _ := if String.eqb (se_priorStatus settled) "delivery_unknown" || isCancel
    then resolveDeliveryAttention (br_branch_ref branch) evidenceRefs
           (Some (ef_effect_id (se_identity settled))) isCancel
    else mret tt in
  let! _ := if is_user_input effectKind
    then user_input_delivered branchRef evidenceRefs else mret tt in
  current_branch_result branchRef [].

Definition observeMutation (branchRef : string) (effectKind : EffectKind)
    (classification : Classification) (evidenceRefs : list string) : M Result :=
  let! branch := branchByRef branchRef in
  let allowedStates := if is_user_input effectKind
    then [BWaitingForUser; BCancelling] else [BCancelling] in
  if negb (among allowedStates (br_state branch))
  then quarantine o "provider_effect_for_inactive_branch"
  else match classification with
    | CNotSent => mutation_not_sent branchRef effectKind evidenceRefs
    | CDeliveryUnknown => mutation_unknown branchRef effectKind evidenceRefs
    | CAccepted => mutation_accepted branchRef effectKind evidenceRefs
    end.

Definition observeProviderEffectDelivery (binding : EffectBinding)
    (classification : Classification) (evidenceRefs : list string) : M Result :=
  let branchRef := eb_branch_ref binding in
  let effectKind := eb_effect_kind binding in
  if negb (is_undef (fact "send_expiry"))
  then observeExpiredSend branchRef effectKind evidenceRefs
  else
    let! _ := if bool_decide (name = NSettlement)
      then settlementPolicyFor o else mret None in
    let! recoveryProbe := recordRecoveryProbe evidenceRefs in
    if recoveryProbe && bool_decide (classification = CDeliveryUnknown)
    then current_branch_result branchRef [("automatic_retry", JBool false)]
    else if among START_KINDS effectKind then
      match classification with
      | CAccepted => observeStartAccepted o branchRef evidenceRefs effectKind
      | CNotSent => observeNotSentStage o branchRef evidenceRefs effectKind
      | CDeliveryUnknown => observeDeliveryUnknownStage o branchRef evidenceRefs effectKind
      end
    else observeMutation branchRef effectKind classification evidenceRefs.

(** ** Cancellation and questions *)

Definition observeBranchCancelled (branchRef reason : string) (evidenceRefs : list string)
    : M Result :=
  let! branch := branchByRef branchRef in
  if negb (bool_decide (br_state branch = BCancelling))
  then quarantine o "cancel_for_non_cancelling_branch"
  else
    let! identity := mlift (normalizeRuntimeIdentity (fact "runtime_identity") false) in
    let! _ := recordRuntimeObservation o identity evidenceRefs None in
    let! _ := modifyBranch branchRef (set_br_cancel_effect_id None) in
    let! _ := transitionBranch (br_branch_ref branch) BCancelled reason
      (with_evidence evidenceRefs) in
    let! _ := recomputeParentStatus "branch_cancelled" evidenceRefs in
    branch_result BCancelled [].

Definition asks (requestId : string) (b : Branch) : bool :=
  match br_open_user_input b with
  | Some u => String.eqb (oui_request_id u) requestId
  | None => false
  end.

Definition observeUserInput (branchRef requestId : string) (evidenceRefs : list string)
    : M Result :=
  let! branch := branchByRef branchRef in
  let! s := getState in
  if negb (bool_decide (br_state branch = BRunning))
     || negb (is_none (br_open_user_input branch))
  then quarantine o "user_input_request_not_current"
  else if existsb (asks requestId) (branch_list s)
  then quarantine o "user_input_request_id_conflict"
  else
    let! _ := recordRuntimeObservation o None evidenceRefs None in
    let! _ := transitionBranch (br_branch_ref branch) BWaitingForUser "user_input_requested"
      (with_evidence evidenceRefs) in
    branch_result BWaitingForUser [("request_id", JStr requestId)].

(** ** Verification and review *)

Definition accepted_reason : string := "all_required_verifications_and_reviews_passed".

Definition acceptVerifiedBranch (branchRef : string) (evidenceRefs : list string)
    (reason : string) : M bool :=
  let! s := getState in
  let! branch := branchByRef branchRef in
  let! ready := mlift (branchAcceptanceReady s branch) in
  if negb ready then mret false
  else
    let! _ := transitionBranch (br_branch_ref branch) BAccepted reason
      (with_evidence evidenceRefs) in
    let! _ := scheduleEligible evidenceRefs in
    mret true.

(** [branch.verification_by_criterion[criterion] = { ...byCriterion, [ref.id]: record }] *)
Definition record_verification (record : VerificationRecord) (b : Branch) : Branch :=
  let byCriterion := default ∅ (br_verification_by_criterion b !! ve_criterion_id record) in
  set_br_verification_by_criterion
    (<[ve_criterion_id record :=
        <[cr_id (ve_verification_ref record) := record]> byCriterion]>
      (br_verification_by_criterion b)) b.

Definition observeVerification (branchRef criterionId : string) (ref : ContentRef)
    (kind : RequirementKind) (status : VerificationStatus) (payloadEvidence : list string)
    (evidenceRefs : list string) : M Result :=
  let! branch := branchByRef branchRef in
  let! s := getState in
  if negb (bool_decide (br_state branch = BVerifying)) || is_none (br_result branch)
  then quarantine o "verification_for_non_current_result"
  else if negb (verificationRequired s criterionId ref kind)
       || negb (includes (br_required_criterion_ids branch) criterionId)
  then quarantine o "verification_not_required"
  else
    let! verifierRef := mlift authenticatedActor in
    if bool_decide (kind = RkHuman) && includes (assignees s) verifierRef
    then quarantine o "human_verification_not_independent"
    else if negb (is_none (verification_record branch criterionId (cr_id ref)))
    then quarantine o "verification_already_recorded"
    else
      let! _ := emit "business.verification.recorded"
        [("observation", observation_json o); ("result_hash", fact "current_result_hash")]
        evidenceRefs in
      let! _ := modifyBranch branchRef (record_verification
        {| ve_criterion_id := criterionId; ve_verification_ref := ref; ve_kind := kind;
           ve_status := status; ve_evidence_refs := payloadEvidence;
           ve_verifier_ref := verifierRef; ve_recorded_at := occurred_at |}) in
      let! _ := if bool_decide (status = VsFailed)
        then transitionBranch (br_branch_ref branch) BFailed "verification_failed"
               (with_evidence evidenceRefs)
        else
          let! s := getState in
          let! branch := branchByRef branchRef in
          let! passed := mlift
            (allBranchVerificationsPassed s branch (br_required_criterion_ids branch)) in
          if passed then
            let! _ := acceptVerifiedBranch branchRef evidenceRefs accepted_reason in mret tt
          else mret tt in
      let! _ := recomputeParentStatus "verification_recorded" evidenceRefs in
      current_branch_result branchRef [].

Definition blocking_review (status : Decision2) (findings : ReviewFindings) : bool :=
  negb (bool_decide (status = DecAccepted)) || (0 <? rf_critical findings)%Z
  || (0 <? rf_important findings)%Z.

Definition observeReview (branchRef reviewId : string) (status : Decision2)
    (findings : ReviewFindings) (payloadEvidence evidenceRefs : list string) : M Result :=
  let! branch := branchByRef branchRef in
  let! s := getState in
  let! finalRef := deref (finalBranchRef s) in
  if negb (String.eqb branchRef finalRef) || is_none (br_result branch)
     || negb (bool_decide (br_state branch = BVerifying))
     || includes (assignees s) (act_actor_id (oe_actor o))
  then quarantine o "review_not_independent_or_final"
  else if negb (is_none (st_reviews s !! reviewId))
  then quarantine o "review_id_already_recorded"
  else
    let! reviewerRef := mlift authenticatedActor in
    let! resultHash := mlift (sha256 (fact "current_result_hash")) in
    let! _ := emit "business.review.recorded"
      [("observation", observation_json o); ("result_hash", JStr resultHash)] evidenceRefs in
    let! _ := modifyState (λ s, set_st_reviews (<[reviewId :=
      {| rv_review_id := reviewId; rv_branch_ref := branchRef; rv_status := status;
         rv_findings := findings; rv_evidence_refs := payloadEvidence;
         rv_reviewer_ref := reviewerRef; rv_result_hash := resultHash;
         rv_recorded_at := occurred_at |}]> (st_reviews s)) s) in
    let blocking := blocking_review status findings in
    let! _ := if blocking
      then transitionBranch (br_branch_ref branch) BFailed "current_result_review_blocked"
             (with_evidence evidenceRefs)
      else
        let! _ := acceptVerifiedBranch branchRef evidenceRefs accepted_reason in mret tt in
    let! _ := recomputeParentStatus
      (if blocking then "current_result_review_blocked" else "review_recorded") evidenceRefs in
    current_branch_result branchRef [("review_id", JStr reviewId)].

(** ** The provider itself *)

(** [name.replaceAll(".", "_")] for the two provider observations. *)
Definition provider_attention_kind : string :=
  match name with NRateLimited => "provider_rate_limited" | _ => "provider_unavailable" end.

Definition observeProviderAttention (branchRef : string) (evidenceRefs : list string)
    : M Result :=
  let! branch := branchByRef branchRef in
  if negb (among [BDispatchPending; BRunning; BWaitingForUser; BDeliveryUnknown] (br_state branch))
  then quarantine o "provider_status_for_inactive_branch"
  else
    let! _ := recordRuntimeObservation o None evidenceRefs None in
    let! _ := openAttention provider_attention_kind (br_branch_ref branch) evidenceRefs None in
    current_branch_result branchRef [].

(** ** Dispatch *)

Definition OBSERVATION_DECIDERS (evidenceRefs : list string) : M Result :=
  match payload with
  | StartedPayload => observeWorkOrderStarted o evidenceRefs
  | CancelledPayload reason => observeWorkOrderCancelled o reason evidenceRefs
  | DeliveryRecordedPayload b c | SettlementPayload b c _ =>
      observeProviderEffectDelivery b c evidenceRefs
  | SendExpiryPayload b _ _ _ =>
      observeExpiredSend (eb_branch_ref b) (eb_effect_kind b) evidenceRefs
  | PresendFailurePayload b _ _ _ => observePresendFailure b evidenceRefs
  | DispatchAcceptedPayload r _ _ => observeStartAccepted o r evidenceRefs TurnStart
  | DispatchNotSentPayload r _ _ _ => observeNotSentStage o r evidenceRefs TurnStart
  | ProgressPayload r _ _ => observeProgress o r evidenceRefs
  | ResultSubmittedPayload r _ _ _ => observeResult o r evidenceRefs
  | FailedPayload r _ code => observeFailed o r code evidenceRefs
  | TimedOutPayload r _ _ => observeTimedOut r evidenceRefs
  | DeliveryUnknownPayload r _ _ _ => observeDeliveryUnknownStage o r evidenceRefs TurnStart
  | BranchCancelledPayload r _ reason => observeBranchCancelled r reason evidenceRefs
  | UserInputRequestedPayload r id _ => observeUserInput r id evidenceRefs
  | VerificationPayload r c v k st e => observeVerification r c v k st e evidenceRefs
  | ReviewPayload r id st f e => observeReview r id st f e evidenceRefs
  | RateLimitedPayload r _ _ | UnavailablePayload r _ _ => observeProviderAttention r evidenceRefs
  end.

Definition decideObservation : M Result :=
  let! _ := mlift authenticatedActor in
  let! evidenceRefs := mlift observationEvidence in
  let! s := getState in
  let! staleReason := mlift (validateObservationCurrency o s) in
  match staleReason with
  | Some reason => quarantine o reason
  | None => OBSERVATION_DECIDERS evidenceRefs
  end.
End Delivery.
