(* ===== verification/WorkOrderCommands.v ===== *)
(** The command deciders ([packages/business-orchestrator/src/state-machine.js], lines 911-1045,
    2659-2662 and 2699-3169): start, cancel, resume, retry, answer and acceptance. *)

From Stdlib Require Import ZArith Lia String.
From stdpp Require Import base tactics list strings option gmap.
From S2P Require Import Prelude JsString JsDate Json SettlementPolicy ContractBase PlanContract.
From S2P Require Import Envelope WorkOrderState WorkOrderFacts WorkOrderContext WorkOrderEffects.
From S2P Require Import WorkOrderCore WorkOrderSettle WorkOrderObserve.

Definition BUSINESS_ENGINE_CONTRACT_VERSION : Z := 2.

(** ** Start *)

Definition criterion_ids (plan : Plan) : list string :=
  map ac_criterion_id (ap_criteria (pl_acceptance_policy plan)).

(** The criteria of one branch: known, distinct, sorted. *)
Definition branch_criteria (allowed : list string) (value : json) : res (list string) :=
  match value with
  | JArr values =>
      reject Nat.eqb (length values) 0 || Nat.ltb (length (remove_dups allowed)) (length values)
        with BusinessDecisionError "BUSINESS_CRITERION_BINDING" in
      let* refs := mapR (λ v,
        let* ref := portableRef v in
        reject negb (includes allowed ref)
          with BusinessDecisionError "BUSINESS_CRITERION_BINDING" in
        Ok ref) values in
      let sorted := sort_text refs in
      reject has_duplicates sorted with BusinessDecisionError "BUSINESS_CRITERION_BINDING" in
      Ok sorted
  | _ => fail "BUSINESS_CRITERION_BINDING"
  end.

(** [normalized[ref]] *)
Definition criteria_of (bindings : list (string * list string)) (ref : string)
    : option (list string) :=
  option_map snd (head (filter (λ b, b.1 = ref) bindings)).

Definition plan_final_ref (plan : Plan) : option string :=
  match pl_integration_branch_ref plan with
  | Some ref => Some ref
  | None => option_map pb_branch_ref (head (pl_branches plan))
  end.

Definition branchCriterionBindings (plan : Plan) (fact : json)
    : res (list (string * list string)) :=
  let* bindings := object fact in
  reject negb (bool_decide (sort_text (map pb_branch_ref (pl_branches plan))
      = sort_text (keys bindings)))
    with BusinessDecisionError "BUSINESS_CRITERION_BINDING" in
  let allowed := criterion_ids plan in
  let* normalized := mapR (λ branch,
    let* ids := branch_criteria allowed (get (pb_branch_ref branch) bindings) in
    Ok (pb_branch_ref branch, ids)) (pl_branches plan) in
  let finalCriteria := plan_final_ref plan ≫= criteria_of normalized in
  reject negb (bool_decide (finalCriteria = Some (sort_text (remove_dups allowed))))
    with BusinessDecisionError "BUSINESS_CRITERION_BINDING" in
  Ok normalized.

Definition contextReceipt (plan : Plan) (value : json) : res ContextBudget :=
  let* receipt := object value in
  let* budget := integer (get "budget_tokens" receipt) 0 100000000 in
  let* duplicate := integer (get "duplicate_context_tokens" receipt) 0 100000000 in
  let* evidence := referenceArray (get "evidence_refs" receipt) 1 in
  reject negb (budget =? pl_context_duplication_budget_tokens plan)%Z || (budget <? duplicate)%Z
    with BusinessDecisionError "BUSINESS_CONTEXT_BUDGET" in
  Ok {| cb_budget_tokens := budget; cb_duplicate_context_tokens := duplicate;
        cb_evidence_refs := evidence |}.

Definition initial_state (planned : PlanBranch) : BranchState :=
  match pb_dependencies planned with [] => BReady | _ => BBlocked end.

(** The branch literal of [startWorkOrder]. *)
Definition initial_branch (planned : PlanBranch) (criteria : list string) : Branch :=
  {| br_planned := planned; br_required_criterion_ids := criteria;
     br_state := initial_state planned; br_attempt := 0;
     br_dispatch_id := None; br_packet_ref := None; br_attempt_started_at := None;
     br_attempt_deadline_at := None; br_retry_at := None; br_delivery := None;
     br_runtime_identity := None; br_thread_identity := None; br_open_user_input := None;
     br_pending_user_input_effect_id := None; br_pending_user_input_response_ref := None;
     br_result := None; br_verification_by_criterion := ∅; br_last_progress_at := None;
     br_finished_at := None; br_thread_create_effect_id := None;
     br_thread_create_delivery_hash := None; br_turn_start_effect_id := None;
     br_turn_start_delivery_hash := None; br_cancel_effect_id := None;
     br_last_transition_reason := None; br_last_runtime_observation := None |}.

(** ** Retry *)

(** What a retry starts from: a start effect proven not to be sent, or a finished attempt. *)
Inductive RetryBasis :=
| EffectGeneration (predecessor : EffectIdentity) (settlementPolicy : SettlementPolicy)
    (schedule : RetrySchedule)
| BranchAttempt.

Definition retry_kind (b : RetryBasis) : string :=
  match b with EffectGeneration _ _ _ => "effect_generation" | BranchAttempt => "branch_attempt" end.

Definition delivered_as (branch : Branch) (c : Classification) : bool :=
  bool_decide (option_map de_classification (br_delivery branch) = Some c).

(** The last observation of the branch settled this effect as not sent. *)
Definition proves_not_sent (branch : Branch) (predecessor : EffectIdentity)
    (effectKind : EffectKind) (policy : SettlementPolicy) : bool :=
  match br_last_runtime_observation branch with
  | Some obs =>
      bool_decide (observation_name obs = NSettlement)
      && bool_decide (option_map eb_effect_id (payload_binding (oe_payload obs))
           = Some (ef_effect_id predecessor))
      && bool_decide (option_map eb_effect_kind (payload_binding (oe_payload obs)) = Some effectKind)
      && bool_decide (payload_classification (oe_payload obs) = Some CNotSent)
      && bool_decide (payload_settlement_source (oe_payload obs) = Some (sp_settlement_source policy))
  | None => false
  end.

(** [left && right], where [left] may throw and [right] is evaluated only when it holds. *)
Definition and_then (l : bool) (r : res bool) : res bool := if l then r else Ok false.

Definition TERMINAL_EVIDENCE_FIELDS : list string :=
  ["attempt"; "delivery"; "dispatch_id"; "kind"; "result"; "runtime_observation"].

Section Commands.
Context `{Sha256} {env : Env} (c : CommandEnvelope).

Definition startWorkOrder : M Result := λ ctx,
  match cx_state ctx with
  | Some _ => fail "BUSINESS_WORK_ORDER_EXISTS"
  | None => (
      let! _ := commandRevision None c in
      let! plan := match normalizeBusinessWorkOrderPlanV1 (fact "plan") with
        | Ok plan => mret plan | Err _ => mfail "BUSINESS_PLAN_INVALID" end in
      deny negb (String.eqb (pl_plan_snapshot_id plan) (ei_plan_snapshot_ref (ce_identity c)))
          || negb (String.eqb (pl_plan_hash plan) (ei_plan_hash (ce_identity c)))
        with "BUSINESS_PLAN_BINDING" in
      let! criterionBindings := mlift
        (branchCriterionBindings plan (fact "branch_criterion_ids")) in
      let! receipt := mlift (contextReceipt plan (fact "context_budget_receipt")) in
      let! deadlineAt := mlift
        (addMilliseconds occurred_at (rp_max_elapsed_ms (pl_retry_policy plan))) in
      let! _ := emit "business.work_order.created"
        [("plan", plan_json plan); ("deadline_at", timestamp_json deadlineAt);
         ("engine_contract_version", JInt BUSINESS_ENGINE_CONTRACT_VERSION)] [] in
      let! _ := putState
        {| st_work_order_id := ei_work_order_id (ce_identity c);
           st_engine_contract_version := BUSINESS_ENGINE_CONTRACT_VERSION;
           st_plan_snapshot_ref := pl_plan_snapshot_id plan; st_plan_hash := pl_plan_hash plan;
           st_plan := plan; st_revision := 1; st_status := WStarting;
           st_created_at := occurred_at; st_started_at := None; st_deadline_at := deadlineAt;
           st_stop_reason := None; st_branches := ∅; st_attention := ∅;
           st_context_budget := Some receipt; st_reviews := ∅; st_decision := None;
           st_decision_history := Some [] |} in
      let! _ := emit "business.context_budget.verified"
        [("receipt", context_budget_json receipt)] (cb_evidence_refs receipt) in
      let! _ := forM (λ planned,
        let ref := pb_branch_ref planned in
        let criteria := default [] (criteria_of criterionBindings ref) in
        let! _ := emit "business.branch.initialized"
          [("branch", plan_branch_json planned); ("state", enum_json (initial_state planned));
           ("required_criterion_ids", str_list_json criteria)] [] in
        modifyState (λ s, set_st_branches
          (<[ref := initial_branch planned criteria]> (st_branches s)) s)) (pl_branches plan) in
      let! dispatched := scheduleEligible [] in
      mret [("status", JStr "starting"); ("work_order_revision", JInt 1);
            ("dispatched_branch_refs", str_list_json dispatched)]) ctx
  end.

(** ** Cancel *)

Definition cancelFacts : res fields :=
  match fact "cancellation" with JUndef => Ok [] | v => object v end.

(** A cancellation that can be asked for again: the turn is known, no cancel is under way. *)
Definition retryable_cancel (b : Branch) : bool :=
  bool_decide (br_state b = BCancelling) && is_none (br_cancel_effect_id b)
  && match br_runtime_identity b with
     | Some i => negb (is_none (ri_thread_id i)) && negb (is_none (ri_turn_id i))
     | None => false
     end.

Definition cancellation_evidence : res (list string) :=
  referenceArray (fact "cancellation_evidence_refs") 1.

Definition cancel_dispatch (facts : fields) (branchRef : string) : M unit :=
  let! branch := branchByRef branchRef in
  deny negb (truthy (get branchRef facts)) with "BUSINESS_CANCELLATION_EFFECT_BINDING" in
  let! ' (identity, status) := cancellationEffect branch (get branchRef facts) None in
  if includes ["pending"; "claimed"] status then
    let! _ := emit "business.outbox.cancelled"
      [("effect_id", JStr (ef_effect_id identity)); ("effect", effect_identity_json identity);
       ("reason", JStr "cancelled_before_send")] [] in
    transitionBranch branchRef BCancelled "cancelled_before_send" (with_evidence [])
  else
    let! _ := transitionBranch branchRef BDeliveryUnknown
      "cancel_requires_dispatch_reconciliation" (with_evidence []) in
    let! evidence := mlift cancellation_evidence in
    openAttention "cancel_requires_dispatch_reconciliation" branchRef evidence
      (Some (ef_effect_id identity)).

(** The answer that waits to be sent is withdrawn when no worker has it. *)
Definition cancel_user_input (facts : fields) (branchRef : string) : M unit :=
  let! branch := branchByRef branchRef in
  if negb (bool_decide (br_state branch = BWaitingForUser))
     || is_none (br_pending_user_input_effect_id branch)
  then mret tt
  else
    deny negb (truthy (get branchRef facts)) with "BUSINESS_CANCELLATION_EFFECT_BINDING" in
    let! ' (identity, status) := cancellationEffect branch (get branchRef facts)
      (Some UserInputSubmit) in
    if includes ["pending"; "claimed"] status then
      let! _ := emit "business.outbox.cancelled"
        [("effect_id", JStr (ef_effect_id identity)); ("effect", effect_identity_json identity);
         ("reason", JStr "user_input_cancelled_before_send")] [] in
      modifyBranch branchRef (λ b, set_br_open_user_input None
        (set_br_pending_user_input_response_ref None
          (set_br_pending_user_input_effect_id None b)))
    else
      deny negb (includes ["sending"; "delivery_unknown"] status)
        with "BUSINESS_CANCELLATION_EFFECT_BINDING" in
      mret tt.

Definition cancel_turn (facts : fields) (branchRef : string) : M unit :=
  let! _ := cancel_user_input facts branchRef in
  let! _ := modifyBranch branchRef (λ b,
    if bool_decide (br_state b = BWaitingForUser) && is_none (br_pending_user_input_effect_id b)
    then set_br_open_user_input None b else b) in
  let! branch := branchByRef branchRef in
  let! _ := if bool_decide (br_state branch = BCancelling) then mret tt
    else transitionBranch branchRef BCancelling "cancel_requested" (with_evidence []) in
  let! enqueued := enqueueCancel branchRef [] in
  if enqueued then mret tt
  else
    let! evidence := mlift cancellation_evidence in
    openAttention "cancel_requires_runtime_identity" branchRef evidence None.

Definition cancel_branch (facts : fields) (branchRef : string) : M unit :=
  let! s := getState in
  let! branch := deref (st_branches s !! branchRef) in
  match br_state branch with
  | BBlocked | BReady | BRetryable | BVerifying =>
      transitionBranch branchRef BCancelled "cancelled_before_provider_effect" (with_evidence [])
  | BDispatchPending => cancel_dispatch facts branchRef
  | BRunning | BWaitingForUser | BCancelling => cancel_turn facts branchRef
  | _ => mret tt
  end.

Definition cancelWorkOrder (reason : string) : M Result :=
  let! s := getState in
  let! _ := commandRevision (Some s) c in
  deny among TERMINAL_WORK_ORDER_STATES (st_status s) with "BUSINESS_WORK_ORDER_TERMINAL" in
  deny bool_decide (st_status s = WCancelling) && negb (existsb retryable_cancel (branch_list s))
    with "BUSINESS_ALREADY_CANCELLING" in
  let! _ := transitionWorkOrder WCancelling reason [] in
  let! facts := mlift cancelFacts in
  let! s := getState in
  let! _ := forM (cancel_branch facts) (branch_refs s) in
  mret [("status", JStr "cancelling"); revision_field].

(** ** Resume *)

Definition blocks_resume (b : Branch) : bool :=
  bool_decide (br_state b = BDeliveryUnknown) || negb (is_none (br_open_user_input b)).

Definition resumeWorkOrder (reason : string) : M Result :=
  let! s := getState in
  let! _ := commandRevision (Some s) c in
  deny negb (bool_decide (st_status s = WPaused)) with "BUSINESS_NOT_PAUSED" in
  deny (st_deadline_at s <=? occurred_at)%Z with "BUSINESS_ELAPSED_LIMIT" in
  deny existsb blocks_resume (branch_list s) with "BUSINESS_RESUME_BLOCKED" in
  let! _ := transitionWorkOrder WRunning reason [] in
  let! dispatched := scheduleEligible [] in
  let! _ := recomputeParentStatus "resume_found_no_runnable_work" [] in
  let! s := getState in
  deny bool_decide (st_status s = WPaused) && Nat.eqb (length dispatched) 0
    with "BUSINESS_RESUME_BLOCKED" in
  let! status := status_field in
  mret [status; ("dispatched_branch_refs", str_list_json dispatched); revision_field].

(** ** Retry *)

Definition currentStartOperationScopeHash (branch : Branch) (effectKind : option EffectKind)
    : res (EffectKind * string) :=
  match br_packet_ref branch, effectKind with
  | Some packet, Some kind =>
      let onTurn {A} (v : option A) : option A :=
        if bool_decide (kind = TurnStart) then v else None in
      if among START_KINDS kind then
        let* h := deriveEffectOperationScopeHashV2
          {| sb_effect_kind := kind; sb_provider_ref := br_provider_ref branch;
             sb_packet_ref := cr_id packet; sb_packet_hash := cr_hash packet;
             sb_predecessor_effect_id := onTurn (br_thread_create_effect_id branch);
             sb_predecessor_delivery_hash := onTurn (br_thread_create_delivery_hash branch);
             sb_target_runtime_identity := onTurn (br_thread_identity branch);
             sb_request_id := None; sb_response_ref := None |} in
        Ok (kind, h)
      else fail "BUSINESS_RETRY_BASIS_INVALID"
  | _, _ => fail "BUSINESS_RETRY_BASIS_INVALID"
  end.

(** [retryBasis], a start effect proven not to be sent. *)
Definition effect_generation_basis (s : State) (branch : Branch) (basis : fields)
    : res RetryBasis :=
  reject negb (same_keys basis ["eligible_at"; "kind"; "predecessor"; "settlement_policy"])
    with BusinessDecisionError "BUSINESS_RETRY_BASIS_INVALID" in
  let* ' (kind, operationScopeHash) :=
    currentStartOperationScopeHash branch (currentDispatchStage branch) in
  let* predecessor := normalizeGenerationPredecessor s branch kind operationScopeHash
    (get "predecessor" basis) in
  let* policy := match normalizeSettlementPolicyRecordV2 (get "settlement_policy" basis) with
    | Ok p => Ok p | Err _ => fail "BUSINESS_RETRY_BASIS_INVALID" end in
  let* eligibleAt := timestamp (get "eligible_at" basis) in
  reject negb (bool_decide (br_state branch = BRetryable))
      || negb (delivered_as branch CNotSent)
      || negb (proves_not_sent branch predecessor kind policy)
      || negb (bool_decide (sp_effect_kind policy = kind))
      || negb (bool_decide (sp_classification policy = CNotSent))
      || negb (bool_decide (sp_disposition policy = RetryCandidate))
      || negb (bool_decide (sp_retry_scope policy = ScopeEffectGeneration))
    with BusinessDecisionError "BUSINESS_RETRY_BASIS_INVALID" in
  match br_delivery branch with
  | None => Err TypeError
  | Some delivery =>
      let* schedule := deriveEffectGenerationRetryScheduleV2
        (schedule_input s policy (ef_operation_generation predecessor)
          (de_observed_at delivery) (br_attempt_deadline_at branch)) in
      reject negb (eligibleAt =? rs_eligible_at schedule)%Z
        with BusinessDecisionError "BUSINESS_RETRY_BASIS_INVALID" in
      Ok (EffectGeneration predecessor policy schedule)
  end.

(** The terminal evidence describes the branch's current attempt. *)
Definition common_binding (branch : Branch) (evidence : fields) : res bool :=
  and_then (bool_decide (br_state branch = BFailed))
    (let* attempt := integer (get "attempt" evidence) 1 1000000000 in
     and_then (attempt =? br_attempt branch)%Z
       (let* dispatchId := portableRef (get "dispatch_id" evidence) in
        and_then (bool_decide (Some dispatchId = br_dispatch_id branch))
          (let* delivery := same (get "delivery" evidence)
             (opt_json delivery_state_json (br_delivery branch)) in
           and_then delivery
             (let* observation := same (get "runtime_observation" evidence)
                (opt_json observation_json (br_last_runtime_observation branch)) in
              and_then observation
                (let* result := same (get "result" evidence)
                   (opt_json result_json (br_result branch)) in
                 and_then result (Ok (delivered_as branch CAccepted))))))).

Definition runtime_failure (branch : Branch) : bool :=
  match br_last_runtime_observation branch with
  | Some obs => bool_decide (observation_name obs = NFailed)
      && bool_decide (payload_attempt (oe_payload obs) = Some (br_attempt branch))
  | None => false
  end.

(** [retryBasis], a failed attempt that ran. *)
Definition branch_attempt_basis (branch : Branch) (basis : fields) : res RetryBasis :=
  let* evidence := object (get "terminal_evidence" basis) in
  reject negb (same_keys evidence TERMINAL_EVIDENCE_FIELDS)
    with BusinessDecisionError "BUSINESS_RETRY_BASIS_INVALID" in
  let* evidenceKind := portableRef (get "kind" evidence) in
  let* commonBinding := common_binding branch evidence in
  let runtimeFailure := String.eqb evidenceKind "accepted_runtime_failure"
    && runtime_failure branch in
  let resultFailure := String.eqb evidenceKind "accepted_result_failure"
    && negb (is_none (br_result branch)) in
  reject negb commonBinding || (negb runtimeFailure && negb resultFailure)
    with BusinessDecisionError "BUSINESS_RETRY_BASIS_INVALID" in
  Ok BranchAttempt.

Definition retryBasis (s : State) (branch : Branch) : res RetryBasis :=
  let* basis := object (fact "retry_basis") in
  let* kind := portableRef (get "kind" basis) in
  if String.eqb kind "effect_generation" then effect_generation_basis s branch basis
  else
    reject negb (String.eqb kind "branch_attempt")
        || negb (same_keys basis ["kind"; "terminal_evidence"])
      with BusinessDecisionError "BUSINESS_RETRY_BASIS_INVALID" in
    branch_attempt_basis branch basis.

Definition retry_exhausted (s : State) (branch : Branch) (basis : RetryBasis) : bool :=
  match basis with
  | EffectGeneration _ _ schedule => negb (rs_permitted schedule)
  | BranchAttempt =>
      (rp_max_attempts (pl_retry_policy (st_plan s)) <=? br_attempt branch)%Z
      || (st_deadline_at s <=? occurred_at)%Z
  end.

Definition retry_not_before (branch : Branch) (basis : RetryBasis) : option Z :=
  match basis with
  | EffectGeneration _ _ schedule => Some (rs_eligible_at schedule)
  | BranchAttempt => br_retry_at branch
  end.

Definition retryBranch (branchRef : string) (failedAttempt : Z) : M Result :=
  let! s := getState in
  let! _ := commandRevision (Some s) c in
  deny among TERMINAL_WORK_ORDER_STATES (st_status s) || bool_decide (st_status s = WCancelling)
    with "BUSINESS_WORK_ORDER_NOT_RUNNABLE" in
  let! branch := branchByRef branchRef in
  deny negb (among [BFailed; BRetryable] (br_state branch))
      || negb (br_attempt branch =? failedAttempt)%Z
    with "BUSINESS_RETRY_NOT_SAFE" in
  deny (bool_decide (br_state branch = BFailed) && negb (delivered_as branch CAccepted))
      || (bool_decide (br_state branch = BRetryable) && negb (delivered_as branch CNotSent))
    with "BUSINESS_RETRY_NOT_SAFE" in
  let! basis := mlift (retryBasis s branch) in
  deny match retry_not_before branch basis with
      | Some retryAt => (occurred_at <? retryAt)%Z | None => false end
    with "BUSINESS_RETRY_TOO_EARLY" in
  deny retry_exhausted s branch basis with "BUSINESS_RETRY_EXHAUSTED" in
  deny (availableSlotCount s <=? 0)%Z with "BUSINESS_RETRY_CAPACITY_EXHAUSTED" in
  let! _ := if bool_decide (st_status s = WPaused)
    then transitionWorkOrder WRunning "explicit_branch_retry" [] else mret tt in
  let! _ := match basis with
    | EffectGeneration predecessor _ _ =>
        let! _ := enqueueStartGenerationSuccessor branchRef predecessor []
          "explicit_effect_generation_retry" in mret tt
    | BranchAttempt =>
        let! packet := mlift (dispatchPacket (br_branch_ref branch)) in
        openAttempt (br_branch_ref branch) packet
    end in
  let! _ := recomputeParentStatus "explicit_branch_retry" [] in
  branch_result BDispatchPending [("retry_kind", JStr (retry_kind basis))].

(** ** Answering a question *)

Definition asked_by (requestId : string) (kb : string * Branch) : Prop :=
  option_map oui_request_id (br_open_user_input kb.2) = Some requestId.
#[local] Instance asked_by_dec r kb : Decision (asked_by r kb).
Proof. unfold asked_by. apply _. Defined.

Definition resolveUserInput (requestId : string) (responseRef : ContentRef) : M Result :=
  let! s := getState in
  let! _ := commandRevision (Some s) c in
  deny among TERMINAL_WORK_ORDER_STATES (st_status s) || bool_decide (st_status s = WCancelling)
    with "BUSINESS_WORK_ORDER_NOT_RUNNABLE" in
  match filter (asked_by requestId) (map_to_list (st_branches s)) with
  | [(key, branch)] =>
      deny negb (bool_decide (br_state branch = BWaitingForUser))
        with "BUSINESS_USER_INPUT_NOT_OPEN" in
      let! resolved := mlift (contentRef (fact "resolved_response_ref")) in
      deny negb (bool_decide (resolved = responseRef)) with "BUSINESS_CONTENT_BINDING" in
      deny negb (is_none (br_pending_user_input_effect_id branch))
        with "BUSINESS_USER_INPUT_DELIVERY_PENDING" in
      deny executionWindowElapsed s branch occurred_at
        with "BUSINESS_EXECUTION_DEADLINE_ELAPSED" in
      let! packet := mlift (dispatchPacket (br_branch_ref branch)) in
      deny is_none (br_runtime_identity branch) || is_none (br_turn_start_effect_id branch)
          || is_none (br_turn_start_delivery_hash branch)
        with "BUSINESS_USER_INPUT_NOT_OPEN" in
      let! effect := mlift (outboxEffect s branch packet UserInputSubmit
        {| oo_predecessorEffectId := br_turn_start_effect_id branch;
           oo_predecessorDeliveryHash := br_turn_start_delivery_hash branch;
           oo_targetRuntimeIdentity := br_runtime_identity branch;
           oo_requestId := option_map oui_request_id (br_open_user_input branch);
           oo_responseRef := Some resolved; oo_allowGenerationSuccessor := true;
           oo_generationPredecessorIdentity := None |}) in
      let! _ := emit "business.outbox.enqueued"
        [("effect", outbox_effect_json effect);
         ("user_input_response_ref", content_ref_json resolved)] [] in
      let! _ := modifyBranch key (λ b,
        set_br_pending_user_input_response_ref (Some resolved)
          (set_br_pending_user_input_effect_id (Some (ef_effect_id effect)) b)) in
      branch_result BWaitingForUser [("delivery_pending", JBool true)]
  | _ => mfail "BUSINESS_USER_INPUT_NOT_OPEN"
  end.

(** ** Acceptance *)

Definition acceptedReviews (s : State) : res Z :=
  let* summary := currentResultReviewSummary s (finalBranch s) in Ok (sm_accepted summary).

(** The mandatory gates: budget, branches, attention, reviews. *)
Definition acceptance_gates (s : State) : res bool :=
  let* summary := currentResultReviewSummary s (finalBranch s) in
  let* accepted := acceptedReviews s in
  let required := REVIEW_COUNTS (ap_review_minimum (pl_acceptance_policy (st_plan s))) in
  Ok (negb (is_none (st_context_budget s))
    && forallb (λ b, bool_decide (br_state b = BAccepted)) (branch_list s)
    && forallb (λ ka, negb (att_open ka.2)) (map_to_list (st_attention s))
    && (sm_blocking summary <=? 0)%Z && (required <=? accepted)%Z).

(** The history so far; a decision from before the history existed is its first entry. *)
Definition decision_history (s : State) : list HistoryEntry :=
  match st_decision_history s, st_decision s with
  | Some l, _ => l
  | None, Some d => [{| he_record := d; he_source := None |}]
  | None, None => []
  end.

Definition record_decision (record : AcceptanceRecord) (s : State) : State :=
  set_st_decision (Some record)
    (set_st_decision_history (Some (decision_history s ++
      [{| he_record := record; he_source := Some (sourceId, targetRevision) |}])) s).

Definition recordAcceptance (decision : Decision2) (evidenceRefs : list string)
    (comment : string) : M Result :=
  let! s := getState in
  let! _ := commandRevision (Some s) c in
  deny negb (bool_decide (st_status s = WAwaitingAcceptance))
    with "BUSINESS_ACCEPTANCE_NOT_READY" in
  let! gates := mlift (acceptance_gates s) in
  deny negb gates with "BUSINESS_ACCEPTANCE_GATES" in
  let! decidedBy := mlift authenticatedActor in
  let record := {| ar_decision := decision; ar_evidence_refs := evidenceRefs;
                   ar_comment := comment; ar_decided_by := decidedBy;
                   ar_decided_at := occurred_at |} in
  let! _ := emit "business.acceptance.recorded"
    [("record", JObj (acceptance_record_fields record))] evidenceRefs in
  let! _ := modifyState (record_decision record) in
  let! _ := match decision with
    | DecAccepted => transitionWorkOrder WAccepted "user_accepted" evidenceRefs
    | DecRejected => transitionWorkOrder WPaused "user_rejected" evidenceRefs
    end in
  let! status := status_field in
  mret [status; ("decision", enum_json decision); revision_field].

(** ** Dispatch *)

Definition decideCommand : M Result :=
  match ce_payload c with
  | StartPayload => startWorkOrder
  | payload => λ ctx,
      match cx_state ctx with
      | None => fail "BUSINESS_WORK_ORDER_NOT_FOUND"
      | Some s =>
          if among TERMINAL_WORK_ORDER_STATES (st_status s)
          then fail "BUSINESS_WORK_ORDER_TERMINAL"
          else
            match payload with
            | StartPayload => startWorkOrder
            | CancelRequestPayload reason => cancelWorkOrder reason
            | ResumePayload reason => resumeWorkOrder reason
            | RetryRequestPayload ref attempt _ => retryBranch ref attempt
            | UserInputResolvePayload id ref => resolveUserInput id ref
            | AcceptanceDecisionPayload d e comment => recordAcceptance d e comment
            end ctx
      end
  end.
End Commands.
