(* ===== verification/WorkOrder.v ===== *)
(** The decider of a Work Order ([packages/business-orchestrator/src/state-machine.js], lines 131-145,
    243-350 and 3160-3211): what [decideWorkOrderV1] accepts, and what it returns. *)

From Stdlib Require Import ZArith Lia String.
From stdpp Require Import base tactics list strings option gmap.
From S2P Require Import Prelude JsString JsDate Json SettlementPolicy ContractBase PlanContract.
From S2P Require Import Envelope WorkOrderState WorkOrderFacts WorkOrderContext WorkOrderEffects.
From S2P Require Import WorkOrderCore WorkOrderSettle WorkOrderObserve WorkOrderDelivery.
From S2P Require Import WorkOrderCommands.
Import CONTRACT_LIMITS.

(** [cloneJson(value, path)]: a value with a canonical text, within four times the plan limit. *)
Definition cloneJson (value : json) : res unit :=
  match canonicalJson value with
  | Err _ => fail "BUSINESS_DECISION_INVALID"
  | Ok serialized =>
      if (max_plan_bytes * 4 <? utf8Bytes serialized)%Z
      then fail "BUSINESS_DECISION_LIMIT" else Ok tt
  end.

Section Inputs.
Context `{Sha256}.

Definition wrap {A} (code : string) (r : res A) : res A :=
  match r with Ok a => Ok a | Err _ => fail code end.

Definition normalizeInput (input : json) : res Input :=
  let* f := object input in
  let hasCommand := has_own f "command_id" in
  let hasObservation := has_own f "observation_id" in
  reject Bool.eqb hasCommand hasObservation
    with BusinessDecisionError "BUSINESS_INPUT_KIND" in
  wrap "BUSINESS_INPUT_INVALID"
    (if hasCommand
     then let* c := normalizeCommandEnvelopeV1 input in Ok (InCommand c)
     else let* o := normalizeBusinessRuntimeObservationEnvelope input in Ok (InObservation o)).

(** The check [normalizeState] makes of one planned branch. *)
Definition check_branch (plan : Plan) (branches : gmap string Branch) (planned : PlanBranch)
    : res unit :=
  match branches !! pb_branch_ref planned with
  | None => fail "BUSINESS_STATE_INVALID"
  | Some branch =>
      let* _ := integer (JInt (br_attempt branch)) 0 (rp_max_attempts (pl_retry_policy plan)) in
      reject Nat.eqb (length (br_required_criterion_ids branch)) 0
        with BusinessDecisionError "BUSINESS_STATE_INVALID" in
      Ok tt
  end.

Definition normalizeState (input : option State) : res (option State) :=
  match input with
  | None => Ok None
  | Some s =>
      let* _ := cloneJson (state_json s) in
      let* _ := portableRef (JStr (st_work_order_id s)) in
      let* _ := portableRef (JStr (st_plan_snapshot_ref s)) in
      let* _ := sha256 (JStr (st_plan_hash s)) in
      let* _ := integer (JInt (st_engine_contract_version s)) 1 2 in
      let* _ := integer (JInt (st_revision s)) 1 1000000000 in
      let* plan := wrap "BUSINESS_STATE_INVALID"
        (normalizeBusinessWorkOrderPlanV1 (plan_json (st_plan s))) in
      reject negb (String.eqb (pl_plan_snapshot_id plan) (st_plan_snapshot_ref s))
          || negb (String.eqb (pl_plan_hash plan) (st_plan_hash s))
        with BusinessDecisionError "BUSINESS_PLAN_BINDING" in
      let* _ := timestamp (timestamp_json (st_created_at s)) in
      let* _ := timestamp (timestamp_json (st_deadline_at s)) in
      let* _ := mapR (check_branch plan (st_branches s)) (pl_branches plan) in
      Ok (Some (set_st_plan plan s))
  end.

Definition validateBinding (state : option State) (identity : EnvelopeIdentity) : res unit :=
  match state with
  | None => Ok tt
  | Some s =>
      reject negb (String.eqb (st_work_order_id s) (ei_work_order_id identity))
        with BusinessDecisionError "BUSINESS_WORK_ORDER_BINDING" in
      reject negb (String.eqb (st_plan_snapshot_ref s) (ei_plan_snapshot_ref identity))
          || negb (String.eqb (st_plan_hash s) (ei_plan_hash identity))
        with BusinessDecisionError "BUSINESS_PLAN_BINDING" in
      Ok tt
  end.

Definition normalizeTrustedFacts (input : json) : res (fields * Z) :=
  let* facts := object input in
  let* occurred_at := timestamp (get "occurred_at" facts) in
  Ok (facts, occurred_at).

(** [createContext]: the fixed part, and the part that changes. *)
Definition create_env (state : option State) (input : Input) (facts : fields * Z) : Env :=
  {| en_input := input; en_facts := facts.1; en_occurred_at := facts.2;
     en_prior_revision := match state with Some s => st_revision s | None => 0%Z end |}.

Definition create_ctx (state : option State) : Ctx :=
  {| cx_state := state; cx_events := []; cx_settlementPolicy := None;
     cx_recoveryProbeLedger := None |}.

(** The decider of the input, in its context. *)
Definition decide_input `{env : Env} (input : Input) : M Result :=
  match input with
  | InCommand c => decideCommand c
  | InObservation o => λ ctx,
      match cx_state ctx with
      | None => fail "BUSINESS_WORK_ORDER_NOT_FOUND"
      | Some _ => decideObservation o ctx
      end
  end.

Definition decision_json (events : list Event) (result : Result) : json :=
  JObj [("events", JArr (map event_json events)); ("result", JObj result)].

(** [{ ...result, recovery_probe_ledger }] *)
Definition with_ledger (ctx : Ctx) (result : Result) : Result :=
  match cx_recoveryProbeLedger ctx with
  | Some l => result ++ [("recovery_probe_ledger", l)]
  | None => result
  end.

(** [decideWorkOrderV1] up to the working context it leaves. *)
Definition decide_context (inputState : option State) (input facts : json)
    : res (Result * Ctx) :=
  let* input := normalizeInput input in
  let* state := normalizeState inputState in
  let* facts := normalizeTrustedFacts facts in
  let* _ := validateBinding state (input_identity input) in
  reject match state with
    | Some s => negb (st_engine_contract_version s =? BUSINESS_ENGINE_CONTRACT_VERSION)%Z
    | None => false
    end with BusinessDecisionError "BUSINESS_ENGINE_MIGRATION_REQUIRED" in
  decide_input (env := create_env state input facts) input (create_ctx state).

(** The events and the result of a decision, which [freezeDecision] copies. *)
Definition decideWorkOrderV1 (inputState : option State) (input facts : json)
    : res (list Event * Result) :=
  let* ' (result, ctx) := decide_context inputState input facts in
  let result := with_ledger ctx result in
  reject Nat.ltb 512 (length (cx_events ctx))
    with BusinessDecisionError "BUSINESS_DECISION_LIMIT" in
  let* _ := cloneJson (decision_json (cx_events ctx) result) in
  Ok (cx_events ctx, result).
End Inputs.
