(* ===== verification/WorkOrderSpec.v ===== *)
(** The abstract machine of a Work Order: what of its state decides what may happen next (the status,
    and for each branch its state, its attempt and the deadline of the attempt), and the moves that
    are legal.  It is a specification: the deciders are proved to make only these moves in
    [WorkOrderRefine], and the invariants are proved here once, by induction on the moves. *)

From Stdlib Require Import ZArith Lia String.
From stdpp Require Import base tactics list strings option gmap relations.
From S2P Require Import Prelude JsString JsDate Json SettlementPolicy ContractBase PlanContract.
From S2P Require Import Envelope WorkOrderState WorkOrderFacts WorkOrderContext WorkOrderCore.

(** Goals [∀ s, P s → Q s] on an enumeration, by cases. *)
Ltac enum_cases :=
  let H := fresh in
  intros []; intros H%(bool_decide_pack _);
  first [by destruct H | by apply (bool_decide_unpack _)].

(** ** Abstract states *)

Record AbstractBranch := {
  ab_planned : PlanBranch;
  ab_state : BranchState;
  ab_attempt : Z;
  ab_deadline : option Z;
}.

(** What no decision after the first one changes. *)
Record Fixed := {
  fx_work_order_id : string;
  fx_engine_contract_version : Z;
  fx_plan_snapshot_ref : string;
  fx_plan_hash : string;
  fx_plan : Plan;
  fx_revision : Z;
  fx_created_at : Z;
  fx_deadline_at : Z;
}.

Record Abstract := {
  as_fixed : Fixed;
  as_status : WorkOrderStatus;
  as_branches : gmap string AbstractBranch;
}.

Definition as_plan (a : Abstract) : Plan := fx_plan (as_fixed a).
Definition capacity (a : Abstract) : Z := pl_max_concurrency (as_plan a).
Definition max_attempts (a : Abstract) : Z := rp_max_attempts (pl_retry_policy (as_plan a)).

Definition view (b : Branch) : AbstractBranch :=
  {| ab_planned := br_planned b; ab_state := br_state b; ab_attempt := br_attempt b;
     ab_deadline := br_attempt_deadline_at b |}.

Definition alpha (s : State) : Abstract :=
  {| as_fixed := {| fx_work_order_id := st_work_order_id s;
                    fx_engine_contract_version := st_engine_contract_version s;
                    fx_plan_snapshot_ref := st_plan_snapshot_ref s;
                    fx_plan_hash := st_plan_hash s; fx_plan := st_plan s;
                    fx_revision := st_revision s; fx_created_at := st_created_at s;
                    fx_deadline_at := st_deadline_at s |};
     as_status := st_status s; as_branches := view <$> st_branches s |}.

(** ** Moves *)

Definition set_astatus (to : WorkOrderStatus) (a : Abstract) : Abstract :=
  {| as_fixed := as_fixed a; as_status := to; as_branches := as_branches a |}.

Definition set_abranches (m : gmap string AbstractBranch) (a : Abstract) : Abstract :=
  {| as_fixed := as_fixed a; as_status := as_status a; as_branches := m |}.

Definition to_state (to : BranchState) (b : AbstractBranch) : AbstractBranch :=
  {| ab_planned := ab_planned b; ab_state := to; ab_attempt := ab_attempt b;
     ab_deadline := ab_deadline b |}.

Definition set_abranch (ref : string) (to : BranchState) (a : Abstract) : Abstract :=
  set_abranches (alter (to_state to) ref (as_branches a)) a.

Definition opened (deadline : Z) (b : AbstractBranch) : AbstractBranch :=
  {| ab_planned := ab_planned b; ab_state := BDispatchPending; ab_attempt := ab_attempt b + 1;
     ab_deadline := Some deadline |}.

Definition open_abranch (ref : string) (deadline : Z) (a : Abstract) : Abstract :=
  set_abranches (alter (opened deadline) ref (as_branches a)) a.

(** The status changes. [failed] is reached from nowhere. *)
Definition status_edge (from to : WorkOrderStatus) : bool :=
  match from, to with
  | WStarting, (WRunning | WPaused | WAwaitingAcceptance | WCancelling)
  | WRunning, (WPaused | WAwaitingAcceptance | WCancelling)
  | WPaused, (WRunning | WAwaitingAcceptance | WCancelling)
  | WAwaitingAcceptance, (WAccepted | WPaused | WCancelling)
  | WCancelling, WCancelled => true
  | _, _ => false
  end.

(** The state changes of a branch that take no slot and open no attempt. *)
Definition branch_edge (from to : BranchState) : bool :=
  match from, to with
  | (BBlocked | BReady), BCancelled
  | BDispatchPending,
      (BRunning | BRetryable | BDeliveryUnknown | BCancelling | BFailed | BCancelled)
  | BDeliveryUnknown,
      (BDispatchPending | BRunning | BRetryable | BCancelling | BFailed | BCancelled)
  | BRunning, (BVerifying | BWaitingForUser | BFailed | BCancelling)
  | BWaitingForUser, (BRunning | BFailed | BCancelling)
  | BVerifying, (BAccepted | BFailed | BCancelled)
  | BRetryable, BCancelled
  | BCancelling, (BFailed | BCancelled) => true
  | _, _ => false
  end.

Definition holds_slot (b : AbstractBranch) : Prop := ab_state b ∈ SLOT_BRANCH_STATES.
#[export] Instance holds_slot_dec b : Decision (holds_slot b).
Proof. unfold holds_slot. apply _. Defined.

Definition slot_of (kb : string * AbstractBranch) : Prop := holds_slot kb.2.
#[export] Instance slot_of_dec kb : Decision (slot_of kb).
Proof. unfold slot_of. apply _. Defined.

(** The branches that occupy the provider. *)
Definition slots (a : Abstract) : Z := Z.of_nat (size (filter slot_of (as_branches a))).

Definition deps_accepted (a : Abstract) (b : AbstractBranch) : Prop :=
  ∀ d, d ∈ pb_dependencies (ab_planned b) →
    ∃ b', as_branches a !! d = Some b' ∧ ab_state b' = BAccepted.

Definition live (a : Abstract) : Prop := as_status a ∉ TERMINAL_WORK_ORDER_STATES.

Definition all_states (l : list BranchState) (a : Abstract) : Prop :=
  ∀ ref b, as_branches a !! ref = Some b → ab_state b ∈ l.

(** What the branches must look like for the Work Order to take this status. *)
Definition status_guard (to : WorkOrderStatus) (a : Abstract) : Prop :=
  match to with
  | WAwaitingAcceptance | WAccepted => all_states [BAccepted] a
  | WCancelled => all_states TERMINAL_BRANCH_STATES a
  | _ => True
  end.

(** The moves of the machine at the time [now]. *)
Inductive astep (now : Z) : Abstract → Abstract → Prop :=
| a_status a to :
    status_edge (as_status a) to = true → status_guard to a → astep now a (set_astatus to a)
| a_branch a ref b to :
    live a → as_branches a !! ref = Some b → branch_edge (ab_state b) to = true →
    astep now a (set_abranch ref to a)
| a_release a ref b :
    live a → as_branches a !! ref = Some b → ab_state b = BBlocked → deps_accepted a b →
    astep now a (set_abranch ref BReady a)
| a_open a ref b deadline :
    live a → as_branches a !! ref = Some b → ab_state b ∈ [BReady; BRetryable; BFailed] →
    (ab_state b = BReady → as_status a ∈ [WStarting; WRunning] ∧ deps_accepted a b) →
    (slots a < capacity a)%Z → (ab_attempt b < max_attempts a)%Z →
    (now < deadline <= fx_deadline_at (as_fixed a))%Z →
    (deadline <= now + rp_attempt_timeout_ms (pl_retry_policy (as_plan a)))%Z →
    astep now a (open_abranch ref deadline a)
| a_resend a ref b :
    live a → as_branches a !! ref = Some b → ab_state b = BRetryable →
    (slots a < capacity a)%Z → astep now a (set_abranch ref BDispatchPending a).

(** ** Lemmas on abstract states *)

Lemma set_abranch_same ref to a b :
  as_branches a !! ref = Some b → ab_state b = to → set_abranch ref to a = a.
Proof.
  intros Hl Hs. destruct a as [f st m]. unfold set_abranch, set_abranches. simpl in *. f_equal.
  apply map_eq. intros k. destruct (decide (k = ref)) as [->|Hk].
  - rewrite lookup_alter_eq, Hl. simpl. f_equal. destruct b; simpl in *. by subst.
  - by rewrite lookup_alter_ne.
Qed.

Lemma set_astatus_same to a : as_status a = to → set_astatus to a = a.
Proof. destruct a; simpl. by intros <-. Qed.

Lemma set_abranch_eq ref to a b :
  as_branches a !! ref = Some b →
  as_branches (set_abranch ref to a) !! ref = Some (to_state to b).
Proof. intros H. simpl. by rewrite lookup_alter_eq, H. Qed.

Lemma set_abranch_ne ref to a k :
  k ≠ ref → as_branches (set_abranch ref to a) !! k = as_branches a !! k.
Proof. intros H. simpl. by rewrite lookup_alter_ne. Qed.

(** What changing one branch does to the slots. *)
Lemma slots_alter (f : AbstractBranch → AbstractBranch) ref a b :
  as_branches a !! ref = Some b →
  slots (set_abranches (alter f ref (as_branches a)) a)
  = (slots a - (if decide (holds_slot b) then 1 else 0)
     + (if decide (holds_slot (f b)) then 1 else 0))%Z.
Proof.
  intros Hl. unfold slots. simpl.
  assert (alter f ref (as_branches a) = <[ref := f b]> (delete ref (as_branches a))) as ->.
  { apply map_eq. intros k. destruct (decide (k = ref)) as [->|Hk].
    - by rewrite lookup_alter_eq, lookup_insert_eq, Hl.
    - by rewrite lookup_alter_ne, lookup_insert_ne, lookup_delete_ne. }
  assert (as_branches a = <[ref := b]> (delete ref (as_branches a))) as Ha
    by (by rewrite insert_delete_eq, insert_id).
  rewrite Ha at 2. set (m := delete ref (as_branches a)).
  assert (m !! ref = None) as Hm by apply lookup_delete_eq.
  assert (∀ b', size (filter slot_of (<[ref := b']> m))
    = (if decide (holds_slot b') then 1 else 0) + size (filter slot_of m)) as Hsize.
  { intros b'. rewrite map_filter_insert. unfold slot_of at 1. simpl.
    destruct (decide (holds_slot b')).
    - rewrite map_size_insert_None; [done|]. apply map_lookup_filter_None. by left.
    - by rewrite delete_id. }
  rewrite !Hsize. destruct (decide (holds_slot b)), (decide (holds_slot (f b))); lia.
Qed.

Lemma slots_set_abranch ref to a b :
  as_branches a !! ref = Some b →
  slots (set_abranch ref to a)
  = (slots a - (if decide (holds_slot b) then 1 else 0)
     + (if decide (to ∈ SLOT_BRANCH_STATES) then 1 else 0))%Z.
Proof. intros H. unfold set_abranch. by rewrite (slots_alter _ _ _ b H). Qed.

(** Changing one branch, seen from any branch. *)
Lemma lookup_alter_branch (f : AbstractBranch → AbstractBranch) ref
    (m : gmap string AbstractBranch) k b :
  alter f ref m !! k = Some b →
  (k ≠ ref ∧ m !! k = Some b) ∨ (k = ref ∧ ∃ b0, m !! k = Some b0 ∧ b = f b0).
Proof.
  destruct (decide (k = ref)) as [->|Hk].
  - rewrite lookup_alter_eq. intros Hl. right. split; [done|].
    destruct (m !! ref) as [b0|]; simplify_eq/=. eauto.
  - rewrite lookup_alter_ne by done. auto.
Qed.

(** ** Invariants *)

(** Every branch is stored under its own reference. *)
Definition keyed (a : Abstract) : Prop :=
  ∀ ref b, as_branches a !! ref = Some b → pb_branch_ref (ab_planned b) = ref.

(** The states of a branch before its first attempt, or in which it may have had none. *)
Definition UNSTARTED : list BranchState := [BBlocked; BReady; BCancelled].

(** An attempt is one of those the plan allows; a branch that was started has one, with a deadline
    within the Work Order's. *)
Definition attempt_ok (a : Abstract) (b : AbstractBranch) : Prop :=
  (0 <= ab_attempt b <= max_attempts a)%Z
  ∧ (∀ d, ab_deadline b = Some d → (d <= fx_deadline_at (as_fixed a))%Z)
  ∧ (ab_state b ∉ UNSTARTED → (1 <= ab_attempt b)%Z ∧ is_Some (ab_deadline b)).

Record Inv (a : Abstract) : Prop := {
  inv_keyed : keyed a;
  inv_slots : (slots a <= capacity a)%Z;
  inv_attempts : ∀ ref b, as_branches a !! ref = Some b → attempt_ok a b;
  (* A branch whose work began has only accepted dependencies. *)
  inv_dependencies : ∀ ref b, as_branches a !! ref = Some b →
    ab_state b ∉ [BBlocked; BCancelled] → deps_accepted a b;
  inv_status : as_status a ∈ TERMINAL_WORK_ORDER_STATES → status_guard (as_status a) a;
}.

Lemma edge_source from to :
  branch_edge from to = true →
  (from ∉ [BAccepted; BFailed; BCancelled]) ∧ (to ∉ [BBlocked; BReady])
  ∧ (to ∈ SLOT_BRANCH_STATES → from ∈ SLOT_BRANCH_STATES)
  ∧ (to = BCancelled ∨ from ∉ UNSTARTED).
Proof.
  destruct from, to; intros H; try discriminate H; by apply (bool_decide_unpack _).
Qed.

Lemma open_source s :
  s ∈ [BReady; BRetryable; BFailed] →
  s ≠ BAccepted ∧ (s ≠ BReady → s ∉ [BBlocked; BCancelled]).
Proof.
  destruct s; intros H%(bool_decide_pack _); first [by destruct H | by apply (bool_decide_unpack _)].
Qed.

Lemma deps_accepted_alter f ref a b b0 :
  as_branches a !! ref = Some b0 → (ab_state b0 = BAccepted → ab_state (f b0) = BAccepted) →
  deps_accepted a b → deps_accepted (set_abranches (alter f ref (as_branches a)) a) b.
Proof.
  intros Hl Hf Hd d Hin. destruct (Hd d Hin) as (b' & Hb' & Hs). simpl.
  destruct (decide (d = ref)) as [->|Hne].
  - rewrite lookup_alter_eq, Hb'. simplify_eq. eauto.
  - rewrite lookup_alter_ne by done. eauto.
Qed.

(** A move of one branch keeps the invariant, given what the branch becomes. *)
Lemma Inv_alter f ref a b :
  Inv a → live a → as_branches a !! ref = Some b →
  ab_planned (f b) = ab_planned b → ab_state b ≠ BAccepted →
  attempt_ok a (f b) → (ab_state (f b) ∉ [BBlocked; BCancelled] → deps_accepted a b) →
  (slots (set_abranches (alter f ref (as_branches a)) a) <= capacity a)%Z →
  Inv (set_abranches (alter f ref (as_branches a)) a).
Proof.
  intros [Hk Hs Ha Hd Ht] Hlive Hl Hp Hacc Hok Hdeps Hslots.
  assert (∀ b', deps_accepted a b' →
    deps_accepted (set_abranches (alter f ref (as_branches a)) a) b') as Hkeep.
  { intros b'. apply (deps_accepted_alter f ref a b' b Hl). done. }
  split.
  - intros k b' [[Hne Hb]|[-> (b0 & Hb & ->)]]%lookup_alter_branch; [eauto|].
    simplify_eq. rewrite Hp. eauto.
  - done.
  - intros k b' [[Hne Hb]|[-> (b0 & Hb & ->)]]%lookup_alter_branch; [exact (Ha _ _ Hb)|].
    by simplify_eq.
  - intros k b' [[Hne Hb]|[-> (b0 & Hb & ->)]]%lookup_alter_branch Hns.
    + apply Hkeep. eauto.
    + simplify_eq. apply Hkeep. unfold deps_accepted. rewrite Hp. by apply Hdeps.
  - done.
Qed.

Lemma Inv_step now a a' : Inv a → astep now a a' → Inv a'.
Proof.
  intros HI Hstep. pose proof HI as [Hk Hs Ha Hd Ht].
  destruct Hstep as [a to He Hg|a ref b to Hlive Hl He|a ref b Hlive Hl Hb Hda
    |a ref b d Hlive Hl Hb Hr Hcap Hmax Hdl Hto|a ref b Hlive Hl Hb Hcap].
  - by split.
  - destruct (edge_source _ _ He) as (H1 & H2 & H3 & H4). apply (Inv_alter _ ref a b); try done.
    + set_solver.
    + destruct (Ha _ _ Hl) as (Hr1 & Hr2 & Hr3). split; [done|split; [done|]].
      intros Hst. apply Hr3. destruct H4 as [->|?]; [|done]. unfold UNSTARTED in Hst. set_solver.
    + simpl. intros Hns. apply (Hd _ _ Hl). unfold UNSTARTED in H4.
      destruct H4 as [->|?]; set_solver.
    + rewrite (slots_alter _ ref a b Hl). unfold holds_slot in *. simpl.
      destruct (decide (ab_state b ∈ SLOT_BRANCH_STATES)) as [|Hn];
        destruct (decide (to ∈ SLOT_BRANCH_STATES)); try lia. exfalso. auto.
  - apply (Inv_alter _ ref a b); try done.
    + by rewrite Hb.
    + destruct (Ha _ _ Hl) as (Hr1 & Hr2 & Hr3). split; [done|split; [done|]].
      unfold UNSTARTED. simpl. set_solver.
    + rewrite (slots_alter _ ref a b Hl). simpl. destruct (decide (holds_slot b)); lia.
  - apply (Inv_alter _ ref a b); try done.
    + by apply open_source.
    + destruct (Ha _ _ Hl) as (Hr1 & Hr2 & Hr3). clear -Hr1 Hmax Hdl.
      split; [simpl; lia|]. split; [|split; [simpl; lia|by eexists]].
      intros ? [= <-]. apply Hdl.
    + intros _. destruct (decide (ab_state b = BReady)) as [E|E]; [by apply Hr|].
      apply (Hd _ _ Hl). by apply open_source.
    + rewrite (slots_alter _ ref a b Hl). unfold holds_slot. simpl.
      destruct (decide (ab_state b ∈ SLOT_BRANCH_STATES)); simpl; lia.
  - apply (Inv_alter _ ref a b); try done.
    + by rewrite Hb.
    + destruct (Ha _ _ Hl) as (Hr1 & Hr2 & Hr3). split; [done|split; [done|]].
      intros _. apply Hr3. rewrite Hb. unfold UNSTARTED. set_solver.
    + intros _. apply (Hd _ _ Hl). rewrite Hb. set_solver.
    + rewrite (slots_alter _ ref a b Hl). simpl. destruct (decide (holds_slot b)); lia.
Qed.

(** ** Runs *)

Definition asteps (now : Z) : Abstract → Abstract → Prop := rtc (astep now).

Lemma Inv_steps now a a' : asteps now a a' → Inv a → Inv a'.
Proof. induction 1; eauto using Inv_step. Qed.

(** What a branch can become in a run: its plan stays, its attempts only grow, and an accepted or
    cancelled branch stays as it is. *)
Definition branch_evolves (b b' : AbstractBranch) : Prop :=
  ab_planned b' = ab_planned b ∧ (ab_attempt b <= ab_attempt b')%Z
  ∧ (ab_state b ∈ [BAccepted; BCancelled] → b' = b).

#[export] Instance branch_evolves_preorder : PreOrder branch_evolves.
Proof.
  split.
  - intros b. split; [done|split; [lia|done]].
  - intros b1 b2 b3 (Hp1 & Ha1 & Hf1) (Hp2 & Ha2 & Hf2). split; [congruence|]. split; [lia|].
    intros H. specialize (Hf1 H). subst. auto.
Qed.

(** The run keeps the fixed part and the set of branches, and each branch evolves. *)
Definition evolves (a a' : Abstract) : Prop :=
  as_fixed a' = as_fixed a
  ∧ (∀ k, as_branches a !! k = None → as_branches a' !! k = None)
  ∧ (∀ k b, as_branches a !! k = Some b →
      ∃ b', as_branches a' !! k = Some b' ∧ branch_evolves b b').

#[export] Instance evolves_preorder : PreOrder evolves.
Proof.
  split.
  - intros a. split_and!; try done. intros k b Hb. eexists. split; [done|reflexivity].
  - intros a1 a2 a3 (Hf1 & Hn1 & Hb1) (Hf2 & Hn2 & Hb2). split_and!; [congruence|auto|].
    intros k b (b' & Hk & He)%Hb1. destruct (Hb2 _ _ Hk) as (b'' & Hk' & He').
    eexists. split; [done|]. by etrans.
Qed.

Lemma evolves_alter f ref a b :
  as_branches a !! ref = Some b → branch_evolves b (f b) →
  evolves a (set_abranches (alter f ref (as_branches a)) a).
Proof.
  intros Hl He. split_and!; [done|..]; simpl; intros k; [|intros b'];
    (destruct (decide (k = ref)) as [->|Hk]; [rewrite lookup_alter_eq|rewrite lookup_alter_ne by done]);
    intros Hb; simplify_eq.
  - done.
  - rewrite Hl. by eexists.
  - eexists. split; [done|reflexivity].
Qed.

Lemma unfinished s :
  s ∈ [BReady; BRetryable; BFailed] ∨ s ∉ [BAccepted; BFailed; BCancelled] ∨ s = BBlocked →
  s ∉ [BAccepted; BCancelled].
Proof.
  destruct s; intros H%(bool_decide_pack _); first [by destruct H | by apply (bool_decide_unpack _)].
Qed.

Lemma evolves_step now a a' : astep now a a' → evolves a a'.
Proof.
  destruct 1 as [a to He Hg|a ref b to Hlive Hl He|a ref b Hlive Hl Hb Hda
    |a ref b d Hlive Hl Hb Hr Hcap Hmax Hdl Hto|a ref b Hlive Hl Hb Hcap].
  1: by split_and!; [..|intros k b Hb; eexists; split; [done|reflexivity]].
  all: apply (evolves_alter _ ref a b Hl); split; [done|]; split; [simpl; lia|]; intros Hn;
    exfalso; revert Hn; apply unfinished; rewrite ?Hb; auto.
  - right. left. by apply edge_source in He as (H1 & _).
  - left. apply (bool_decide_unpack _). done.
Qed.

Lemma evolves_steps now a a' : asteps now a a' → evolves a a'.
Proof. induction 1 as [|? ? ? Hs _ IH]; [reflexivity|]. etrans; [by eapply evolves_step|done]. Qed.

(** A Work Order in a terminal status does not move. *)
Lemma dead_steps now a a' :
  asteps now a a' → as_status a ∈ TERMINAL_WORK_ORDER_STATES → a' = a.
Proof.
  destruct 1 as [|a1 a2 a3 Hs _]; [done|]. intros Ht. exfalso.
  destruct Hs; try (by unfold live in *).
  destruct (as_status a); try done; apply (bool_decide_pack _) in Ht; destruct Ht.
Qed.

(** The status [failed] is never entered. *)
Lemma never_failed_steps now a a' :
  asteps now a a' → as_status a ≠ WFailed → as_status a' ≠ WFailed.
Proof.
  induction 1 as [|a1 a2 a3 Hs _ IH]; [done|]. intros Hf. apply IH.
  destruct Hs; try done. simpl. intros ->. destruct (as_status a); done.
Qed.
