(* ===== verification/WorkOrderLogic.v ===== *)
(** A program logic for the deciders over the abstract machine: triples from an exact abstract
    state, the operations that leave it alone ([quiet]), and the programs that make only legal
    moves ([safe]). *)

From Stdlib Require Import ZArith Lia String.
From stdpp Require Import base tactics list strings option gmap relations.
From S2P Require Import Prelude JsString JsDate Json SettlementPolicy ContractBase PlanContract.
From S2P Require Import Envelope WorkOrderState WorkOrderFacts WorkOrderContext WorkOrderEffects.
From S2P Require Import WorkOrderCore WorkOrderSettle WorkOrderSpec.

Definition abs (c : Ctx) : option Abstract := alpha <$> cx_state c.

(** ** Triples *)

Definition tri {A} (a : Abstract) (m : M A) (Q : A → Abstract → Prop) : Prop :=
  ∀ c x c', abs c = Some a → m c = Ok (x, c') → ∃ a', abs c' = Some a' ∧ Q x a'.

Definition quiet {A} (m : M A) : Prop := ∀ c x c', m c = Ok (x, c') → abs c' = abs c.

Lemma mbind_Ok {A B} (m : M A) (k : A → M B) c y c' :
  mbind m k c = Ok (y, c') → ∃ x c1, m c = Ok (x, c1) ∧ k x c1 = Ok (y, c').
Proof. unfold mbind. destruct (m c) as [[x c1]|]; [eauto|done]. Qed.

Lemma mlift_Ok {A} (r : res A) c x c' : mlift r c = Ok (x, c') → r = Ok x ∧ c' = c.
Proof. unfold mlift. destruct r; intros; by simplify_eq. Qed.

Lemma getState_Ok c s c' : getState c = Ok (s, c') → cx_state c = Some s ∧ c' = c.
Proof. unfold getState. destruct (cx_state c); intros; by simplify_eq. Qed.

Lemma abs_Some c a : abs c = Some a → ∃ s, cx_state c = Some s ∧ alpha s = a.
Proof. unfold abs. destruct (cx_state c); intros; simplify_eq/=. eauto. Qed.

Lemma tri_use {A} (m : M A) c x c' a (Q : A → Abstract → Prop) :
  m c = Ok (x, c') → abs c = Some a → tri a m Q → ∃ a', abs c' = Some a' ∧ Q x a'.
Proof. eauto. Qed.

Section Logic.
Context {A B : Type}.
Implicit Types (m : M A) (k : A → M B) (a : Abstract).

Lemma tri_mono a m (Q Q' : A → Abstract → Prop) :
  tri a m Q → (∀ x a', Q x a' → Q' x a') → tri a m Q'.
Proof. intros H HQ c x c' Ha Hm. destruct (H c x c' Ha Hm) as (a' & Ha' & HQ'). eauto. Qed.

Lemma tri_bind a m k Q : tri a m (λ x a', tri a' (k x) Q) → tri a (mbind m k) Q.
Proof.
  intros H c y c' Ha (x & c1 & Hm & Hk)%mbind_Ok.
  destruct (H c x c1 Ha Hm) as (a1 & Ha1 & Hr). by apply (Hr c1).
Qed.

Lemma tri_quiet a m (Q : A → Abstract → Prop) : quiet m → (∀ x, Q x a) → tri a m Q.
Proof. intros Hq HQ c x c' Ha Hm. exists a. split; [|done]. by rewrite (Hq _ _ _ Hm). Qed.

Lemma tri_ret a x (Q : A → Abstract → Prop) : Q x a → tri a (mret x) Q.
Proof. intros HQ c y c' Ha [= <- <-]. eauto. Qed.

Lemma tri_fail a code (Q : A → Abstract → Prop) : tri a (mfail code) Q.
Proof. intros c x c' _ H. discriminate H. Qed.

Lemma tri_lift a (r : res A) (Q : A → Abstract → Prop) :
  (∀ x, r = Ok x → Q x a) → tri a (mlift r) Q.
Proof. intros HQ c x c' Ha [Hr ->]%mlift_Ok. eauto. Qed.

Lemma tri_deref a (v : option A) (Q : A → Abstract → Prop) :
  (∀ x, v = Some x → Q x a) → tri a (deref v) Q.
Proof. intros HQ c x c' Ha. destruct v; [|done]. intros [= <- <-]. eauto. Qed.

Lemma quiet_ret (x : A) : quiet (mret x).
Proof. by intros c y c' [= _ <-]. Qed.
Lemma quiet_fail code : quiet (A := A) (mfail code).
Proof. by intros c y c' H. Qed.
Lemma quiet_lift (r : res A) : quiet (mlift r).
Proof. by intros c x c' [_ ->]%mlift_Ok. Qed.
Lemma quiet_deref (v : option A) : quiet (deref v).
Proof. intros c x c'. destruct v; [|done]. by intros [= _ <-]. Qed.
Lemma quiet_bind m k : quiet m → (∀ x, quiet (k x)) → quiet (mbind m k).
Proof.
  intros Hm Hk c y c' (x & c1 & H1 & H2)%mbind_Ok. by rewrite (Hk _ _ _ _ H2), (Hm _ _ _ H1).
Qed.
Lemma quiet_forM (f : A → M unit) l : (∀ x, quiet (f x)) → quiet (forM f l).
Proof.
  intros Hf. induction l as [|x l IH]; simpl; [by intros c y c' [= _ <-]|].
  intros c y c' (z & c1 & H1 & H2)%mbind_Ok. by rewrite (IH _ _ _ H2), (Hf _ _ _ _ H1).
Qed.
End Logic.

Lemma quiet_getState : quiet getState.
Proof. by intros c x c' [_ ->]%getState_Ok. Qed.

Lemma quiet_error {A} e : quiet (A := A) (λ _, Err e).
Proof. by intros c x c' H. Qed.

Lemma quiet_modifyState f : (∀ s, alpha (f s) = alpha s) → quiet (modifyState f).
Proof.
  intros Hf c x c' (s & c1 & [Hs ->]%getState_Ok & [= _ <-])%mbind_Ok.
  unfold abs. simpl. rewrite Hs. simpl. by rewrite Hf.
Qed.

Lemma view_alter f ref (m : gmap string Branch) g :
  (∀ b, view (f b) = g (view b)) → view <$> alter f ref m = alter g ref (view <$> m).
Proof.
  intros Hf. apply map_eq. intros k. rewrite lookup_fmap.
  destruct (decide (k = ref)) as [->|Hk].
  - rewrite !lookup_alter_eq, lookup_fmap. destruct (m !! ref); simpl; [by rewrite Hf|done].
  - by rewrite !lookup_alter_ne, lookup_fmap by done.
Qed.

Lemma quiet_modifyBranch ref f : (∀ b, view (f b) = view b) → quiet (modifyBranch ref f).
Proof.
  intros Hf. apply quiet_modifyState. intros s. unfold alpha. simpl. f_equal.
  rewrite (view_alter f ref _ id Hf). apply map_eq. intros k.
  destruct (decide (k = ref)) as [->|Hk]; [rewrite lookup_alter_eq|by rewrite lookup_alter_ne].
  by destruct (_ !! ref).
Qed.

Lemma quiet_settlementPolicy p : quiet (set_cx_settlementPolicy p).
Proof. by intros c x c' [= _ <-]. Qed.
Lemma quiet_get_settlementPolicy : quiet get_cx_settlementPolicy.
Proof. by intros c x c' [= _ <-]. Qed.
Lemma quiet_ledger l : quiet (set_cx_recoveryProbeLedger l).
Proof. by intros c x c' [= _ <-]. Qed.

Lemma tri_getState a Q : (∀ s, alpha s = a → Q s a) → tri a getState Q.
Proof.
  intros HQ c s c' (s' & Hs & Ha)%abs_Some [Hs' ->]%getState_Ok. simplify_eq. exists (alpha s').
  split; [|by apply HQ]. unfold abs. by rewrite Hs.
Qed.

(** The proofs of [quiet] for composed programs. *)
Create HintDb quiet.
#[export] Hint Resolve quiet_ret quiet_fail quiet_lift quiet_deref quiet_getState quiet_error
  quiet_settlementPolicy quiet_get_settlementPolicy quiet_ledger : quiet.

Ltac view_solve := intros []; simpl; unfold view; simpl; repeat case_match; reflexivity.

Ltac quiet_tac :=
  repeat (intros; cbv zeta; first
    [ solve [eauto 2 with quiet]
    | match goal with |- quiet (mbind _ _) => apply quiet_bind end
    | match goal with |- quiet (forM _ _) => apply quiet_forM end
    | apply quiet_modifyBranch; solve [view_solve]
    | apply quiet_modifyState; solve [intros []; reflexivity]
    | match goal with |- quiet (if ?b then _ else _) => destruct b end
    | match goal with |- quiet (match ?x with _ => _ end) => destruct x end ]).

Section Operations.
Context `{Sha256} {env : Env}.

Lemma quiet_emit type specific evidence : quiet (emit type specific evidence).
Proof.
  apply quiet_bind; [apply quiet_lift|]. intros refs c x c' H1.
  destruct (event_id _ _ _ _); [|done]. by simplify_eq.
Qed.
#[local] Hint Resolve quiet_emit : quiet.

Lemma branchByRef_Ok ref c b c' :
  branchByRef ref c = Ok (b, c') →
  c' = c ∧ ∃ s, cx_state c = Some s ∧ st_branches s !! ref = Some b.
Proof.
  intros (s & c1 & [Hs ->]%getState_Ok & H1)%mbind_Ok.
  destruct (st_branches s !! ref) eqn:E; [|done]. injection H1 as <- <-. eauto.
Qed.

Lemma quiet_branchByRef ref : quiet (branchByRef ref).
Proof. by intros c b c' [-> _]%branchByRef_Ok. Qed.
#[local] Hint Resolve quiet_branchByRef : quiet.

Lemma tri_branchByRef ref a Q :
  (∀ b, as_branches a !! ref = Some (view b) → Q b a) → tri a (branchByRef ref) Q.
Proof.
  intros HQ c b c' Ha (-> & s & Hs & Hb)%branchByRef_Ok. exists a. split; [done|]. apply HQ.
  apply abs_Some in Ha as (s' & Hs' & <-). simplify_eq. simpl. by rewrite lookup_fmap, Hb.
Qed.

Lemma tri_modifyBranch ref f g a (Q : unit → Abstract → Prop) :
  (∀ b, view (f b) = g (view b)) →
  Q tt (set_abranches (alter g ref (as_branches a)) a) → tri a (modifyBranch ref f) Q.
Proof.
  intros Hf HQ c [] c' (s & Hs & <-)%abs_Some (s' & c1 & [Hs' ->]%getState_Ok & [= <-])%mbind_Ok.
  simplify_eq. eexists. split; [|exact HQ]. unfold abs. simpl. f_equal.
  unfold alpha, set_abranches. simpl. f_equal. by apply view_alter.
Qed.

Lemma view_set_branch_state to t reason b :
  view (set_branch_state to t reason b) = to_state to (view b).
Proof. by destruct b. Qed.

(** A transition of a branch, or none when it is there already. *)
Lemma tri_transitionBranch ref to reason options a (Q : unit → Abstract → Prop) :
  (is_Some (as_branches a !! ref) → Q tt (set_abranch ref to a)) →
  tri a (transitionBranch ref to reason options) Q.
Proof.
  intros HQ. apply tri_bind, tri_branchByRef. intros b Hb.
  case_bool_decide as Hs.
  { apply tri_ret. rewrite (set_abranch_same ref to a (view b)) in HQ by done.
    apply HQ. by rewrite Hb. }
  apply tri_bind, tri_quiet; [quiet_tac|]. intros retry.
  apply tri_bind, tri_quiet; [quiet_tac|]. intros resolved.
  apply tri_bind, tri_quiet; [quiet_tac|]. intros _.
  eapply tri_modifyBranch; [intros; apply view_set_branch_state|]. apply HQ. by rewrite Hb.
Qed.

Lemma alpha_set_status to reason s : alpha (set_status to reason s) = set_astatus to (alpha s).
Proof. unfold set_status. repeat case_match; by destruct s. Qed.

Lemma tri_transitionWorkOrder to reason evidence a (Q : unit → Abstract → Prop) :
  Q tt (set_astatus to a) → tri a (transitionWorkOrder to reason evidence) Q.
Proof.
  intros HQ. apply tri_bind, tri_getState. intros s <-. case_bool_decide as Hs.
  { apply tri_ret. by rewrite set_astatus_same in HQ. }
  apply tri_bind, tri_quiet; [quiet_tac|]. intros _.
  intros c [] c' (s' & Hs' & Ha)%abs_Some (s1 & c1 & [Hs1 ->]%getState_Ok & [= <-])%mbind_Ok.
  rewrite Hs1 in Hs'. injection Hs' as ->. eexists. split; [|exact HQ].
  unfold abs. simpl. by rewrite alpha_set_status, Ha.
Qed.

(** ** Programs that make only legal moves *)

Definition safe {A} (a : Abstract) (m : M A) : Prop :=
  tri a m (λ _ a', asteps occurred_at a a').

Lemma safe_quiet {A} a (m : M A) : quiet m → safe a m.
Proof. intros Hq. apply tri_quiet; [done|]. intros x. constructor. Qed.

Lemma safe_bind {A B} a (m : M A) (k : A → M B) :
  tri a m (λ x a1, asteps occurred_at a a1 ∧ safe a1 (k x)) → safe a (mbind m k).
Proof.
  intros H1. apply tri_bind. eapply tri_mono; [exact H1|]. intros x a1 [Hs Hk].
  eapply tri_mono; [exact Hk|]. intros y a2 Hs2. simpl in *. unfold asteps in *. by etrans.
Qed.

(** A quiet operation, then the rest. *)
Lemma safe_then {A B} a (m : M A) (k : A → M B) :
  quiet m → (∀ x, safe a (k x)) → safe a (mbind m k).
Proof. intros Hq Hk. apply safe_bind, tri_quiet; [done|]. intros x. split; [constructor|done]. Qed.

(** A safe program, then a quiet rest. *)
Lemma safe_before {A B} a (m : M A) (k : A → M B) :
  safe a m → (∀ x, quiet (k x)) → safe a (mbind m k).
Proof.
  intros Hm Hk. apply safe_bind. eapply tri_mono; [exact Hm|]. intros x a1 Hs.
  split; [done|]. by apply safe_quiet.
Qed.

Lemma safe_getState {B} a (k : State → M B) :
  (∀ s, alpha s = a → safe a (k s)) → safe a (mbind getState k).
Proof. intros Hk. apply safe_bind, tri_getState. intros s Hs. split; [constructor|auto]. Qed.

Lemma safe_lift {A B} a (r : res A) (k : A → M B) :
  (∀ x, r = Ok x → safe a (k x)) → safe a (mbind (mlift r) k).
Proof. intros Hk. apply safe_bind, tri_lift. intros x Hx. split; [constructor|auto]. Qed.

Lemma safe_deny {A} a (b : bool) code (k : M A) :
  (b = false → safe a k) → safe a (if b then mfail code else k).
Proof. destruct b; intros Hk; [apply tri_fail|auto]. Qed.

(** Reading a branch of a well-keyed state. *)
Lemma safe_branch {B} ref a (k : Branch → M B) :
  keyed a →
  (∀ b, as_branches a !! ref = Some (view b) → br_branch_ref b = ref → safe a (k b)) →
  safe a (mbind (branchByRef ref) k).
Proof.
  intros Hkeyed Hk. apply safe_bind, tri_branchByRef. intros b Hb. split; [constructor|].
  apply Hk; [done|]. exact (Hkeyed _ _ Hb).
Qed.

Lemma set_astatus_step to a :
  as_status a = to ∨ (status_edge (as_status a) to = true ∧ status_guard to a) →
  asteps occurred_at a (set_astatus to a).
Proof.
  intros [Hs|[He Hg]]; [rewrite set_astatus_same by done; constructor|].
  apply rtc_once. by apply a_status.
Qed.

Lemma set_abranch_step ref to a b :
  live a → as_branches a !! ref = Some b →
  ab_state b = to ∨ branch_edge (ab_state b) to = true →
  asteps occurred_at a (set_abranch ref to a).
Proof.
  intros Hlive Hb [Hs|He]; [rewrite (set_abranch_same ref to a b) by done; constructor|].
  apply rtc_once. by eapply a_branch.
Qed.

Lemma safe_transition {B} ref to reason options a b (k : unit → M B) :
  live a → as_branches a !! ref = Some b →
  ab_state b = to ∨ branch_edge (ab_state b) to = true →
  (∀ x, safe (set_abranch ref to a) (k x)) →
  safe a (mbind (transitionBranch ref to reason options) k).
Proof.
  intros Hlive Hb He Hk. apply safe_bind, tri_transitionBranch. intros _.
  split; [by eapply set_abranch_step|done].
Qed.

Lemma safe_status {B} to reason evidence a (k : unit → M B) :
  as_status a = to ∨ (status_edge (as_status a) to = true ∧ status_guard to a) →
  (∀ x, safe (set_astatus to a) (k x)) →
  safe a (mbind (transitionWorkOrder to reason evidence) k).
Proof.
  intros He Hk. apply safe_bind, tri_transitionWorkOrder. split; [by apply set_astatus_step|done].
Qed.
End Operations.
#[export] Hint Resolve quiet_emit quiet_branchByRef : quiet.
