(* ===== verification/WorkOrderRefine.v ===== *)
(** Refinement: the deciders of [state-machine.js], run on a state, make only moves of the abstract
    machine of [WorkOrderSpec]. *)

From Stdlib Require Import ZArith Lia String.
From stdpp Require Import base tactics list strings option gmap relations.
From S2P Require Import Prelude JsString JsDate Json SettlementPolicy ContractBase PlanContract.
From S2P Require Import Envelope WorkOrderState WorkOrderFacts WorkOrderContext WorkOrderEffects.
From S2P Require Import WorkOrderCore WorkOrderSettle WorkOrderObserve WorkOrderDelivery.
From S2P Require Import WorkOrderCommands WorkOrder WorkOrderSpec WorkOrderLogic.

(** ** Quiet operations *)

Section Quiet.
Context `{Sha256} {env : Env}.

Lemma quiet_commandRevision s c : quiet (commandRevision s c).
Proof. unfold commandRevision. quiet_tac. Qed.
Lemma quiet_status_field : quiet status_field.
Proof. unfold status_field. quiet_tac. Qed.
Lemma quiet_branch_result st extra : quiet (branch_result st extra).
Proof. unfold branch_result, status_field. quiet_tac. Qed.
Lemma quiet_current_branch_result ref extra : quiet (current_branch_result ref extra).
Proof. unfold current_branch_result, status_field, current_state_field. quiet_tac. Qed.
Lemma quiet_quarantine o reason : quiet (quarantine o reason).
Proof. unfold quarantine. quiet_tac. Qed.
Lemma quiet_settlementPolicyFor o : quiet (settlementPolicyFor o).
Proof. unfold settlementPolicyFor. quiet_tac. Qed.
#[local] Hint Resolve quiet_settlementPolicyFor : quiet.

Lemma view_record_delivery cl e i h b : view (record_delivery cl e i h b) = view b.
Proof. destruct b. unfold record_delivery. repeat case_match; reflexivity. Qed.
Lemma view_record_payload o b : view (record_payload o b) = view b.
Proof. destruct b. unfold record_payload. case_match; reflexivity. Qed.

Lemma quiet_recordRuntimeObservation o i e d : quiet (recordRuntimeObservation o i e d).
Proof.
  unfold recordRuntimeObservation. quiet_tac.
  - apply quiet_modifyBranch. intros. apply view_record_delivery.
  - apply quiet_modifyBranch. intros. apply view_record_payload.
Qed.
Lemma quiet_settleDispatchEffect o cl i e k : quiet (settleDispatchEffect o cl i e k).
Proof. unfold settleDispatchEffect. quiet_tac. Qed.
Lemma quiet_cancellationEffect b v k : quiet (cancellationEffect b v k).
Proof. unfold cancellationEffect. quiet_tac. Qed.
Lemma quiet_openAttention k r e f : quiet (openAttention k r e f).
Proof. unfold openAttention. quiet_tac. Qed.
Lemma quiet_resolveDeliveryAttention r e f i : quiet (resolveDeliveryAttention r e f i).
Proof. unfold resolveDeliveryAttention. quiet_tac. Qed.
Lemma quiet_enqueueCancel r e : quiet (enqueueCancel r e).
Proof. unfold enqueueCancel. quiet_tac. Qed.
Lemma quiet_recordRecoveryProbe o e : quiet (recordRecoveryProbe o e).
Proof. unfold recordRecoveryProbe. quiet_tac. Qed.
End Quiet.
#[export] Hint Resolve quiet_commandRevision quiet_status_field quiet_branch_result
  quiet_current_branch_result quiet_quarantine quiet_settlementPolicyFor
  quiet_recordRuntimeObservation quiet_settleDispatchEffect quiet_cancellationEffect
  quiet_openAttention quiet_resolveDeliveryAttention quiet_enqueueCancel
  quiet_recordRecoveryProbe : quiet.

(** ** The shared operations *)

Section Core.
Context `{Sha256} {env : Env}.

Lemma activeSlotCount_slots s : activeSlotCount s = slots (alpha s).
Proof.
  unfold activeSlotCount, slots, branch_list. simpl. f_equal. rewrite map_filter_fmap, map_size_fmap.
  rewrite <- length_map_to_list.
  assert (filter (λ b, br_state b ∈ SLOT_BRANCH_STATES) (map snd (map_to_list (st_branches s)))
    ≡ₚ map snd (map_to_list (filter (λ kb, slot_of (kb.1, view kb.2)) (st_branches s)))) as Hp.
  { induction (st_branches s) as [|k b m Hm IH] using map_ind.
    { by rewrite map_filter_empty, map_to_list_empty. }
    rewrite map_to_list_insert by done. simpl. rewrite filter_cons, map_filter_insert. simpl.
    unfold slot_of at 1, holds_slot. simpl.
    destruct (decide (br_state b ∈ SLOT_BRANCH_STATES)).
    - rewrite map_to_list_insert, IH; [done|]. apply map_lookup_filter_None. by left.
    - by rewrite IH, delete_id. }
  apply Permutation_length in Hp. by rewrite Hp, length_map.
Qed.

Lemma availableSlotCount_slots s : availableSlotCount s = (capacity (alpha s) - slots (alpha s))%Z.
Proof. unfold availableSlotCount. by rewrite activeSlotCount_slots. Qed.

Lemma view_open_attempt n i p d b :
  view (open_attempt_fields n i p d b)
  = {| ab_planned := br_planned b; ab_state := BDispatchPending; ab_attempt := n;
       ab_deadline := Some d |}.
Proof. reflexivity. Qed.

(** An attempt can be opened: what it makes of the branch. *)
Lemma tri_openAttempt ref packet a (Q : unit → Abstract → Prop) :
  (∀ b d, as_branches a !! ref = Some b → (ab_attempt b < max_attempts a)%Z →
    (occurred_at < d <= fx_deadline_at (as_fixed a))%Z →
    (d <= occurred_at + rp_attempt_timeout_ms (pl_retry_policy (as_plan a)))%Z →
    Q tt (open_abranch ref d a)) →
  tri a (openAttempt ref packet) Q.
Proof.
  intros HQ. apply tri_bind, tri_branchByRef. intros b Hb.
  apply tri_bind, tri_getState. intros s Hs. cbv zeta.
  destruct (_ <? _)%Z eqn:E1; [apply tri_fail|]. destruct (_ <=? _)%Z eqn:E2; [apply tri_fail|].
  apply tri_bind, tri_lift. intros dispatchId _. apply tri_bind, tri_lift.
  intros timeoutAt ->%addMilliseconds_Ok.
  destruct (minTimestamp _ _ <=? _)%Z eqn:E3; [apply tri_fail|].
  apply tri_bind, tri_quiet; [quiet_tac|]. intros _.
  set (d := minTimestamp _ _) in *. apply tri_bind.
  apply (tri_modifyBranch ref _ (λ b', {| ab_planned := ab_planned b';
    ab_state := BDispatchPending; ab_attempt := br_attempt b + 1; ab_deadline := Some d |}));
    [done|].
  replace (set_abranches _ a) with (open_abranch ref d a).
  - apply tri_quiet; [quiet_tac|]. intros []. apply (HQ _ _ Hb).
    + rewrite <- Hs. apply Z.ltb_ge in E1. unfold max_attempts, as_plan. simpl in *. lia.
    + rewrite <- Hs. split; [by apply Z.leb_gt in E3|]. apply minTimestamp_le.
    + rewrite <- Hs. apply minTimestamp_le.
  - unfold open_abranch. f_equal. apply alter_ext. intros b' Hb'. simplify_eq. done.
Qed.

(** *** Scheduling *)

Lemma dependenciesAccepted_deps s b :
  dependenciesAccepted s b = true → deps_accepted (alpha s) (view b).
Proof.
  unfold dependenciesAccepted. rewrite forallb_forall. intros Hall d Hd. simpl.
  specialize (Hall d (proj1 (list_elem_of_In _ _) Hd)). rewrite lookup_fmap.
  destruct (st_branches s !! d) as [b'|]; [|done]. apply bool_decide_eq_true in Hall. simpl. eauto.
Qed.

Lemma safe_release refs evidence a :
  live a →
  tri a (forM (λ ref,
    let! s := getState in
    let! branch := deref (st_branches s !! ref) in
    if bool_decide (br_state branch = BBlocked) && dependenciesAccepted s branch
    then transitionBranch ref BReady "dependencies_accepted" (with_evidence evidence)
    else mret tt) refs)
  (λ _ a', asteps occurred_at a a' ∧ as_status a' = as_status a).
Proof.
  revert a. induction refs as [|ref refs IH]; intros a Hlive; simpl.
  { apply tri_ret. split; [constructor|done]. }
  apply tri_bind, tri_bind, tri_getState. intros s Hs. apply tri_bind, tri_deref. intros b Hb.
  destruct (bool_decide (br_state b = BBlocked) && dependenciesAccepted s b) eqn:E; [|by apply tri_ret, IH].
  apply andb_true_iff in E as [Hblocked%bool_decide_eq_true Hdeps%dependenciesAccepted_deps].
  apply tri_transitionBranch. intros _.
  eapply tri_mono; [by apply IH|]. intros _ a' [Hst Hstat]. split; [|done].
  eapply rtc_l; [|exact Hst]. eapply (a_release _ _ _ (view b)); try done.
  - rewrite <- Hs. simpl. by rewrite lookup_fmap, Hb.
  - by rewrite <- Hs.
Qed.

Lemma open_abranch_slots ref d a b :
  as_branches a !! ref = Some b → (slots (open_abranch ref d a) <= slots a + 1)%Z.
Proof.
  intros Hb. unfold open_abranch. rewrite (slots_alter _ _ _ _ Hb).
  destruct (decide _), (decide _); lia.
Qed.

(** Distinct ready branches, no more than the free slots, can all be opened. *)
Lemma safe_open_all (l : list (string * ContentRef)) a :
  as_status a ∈ [WStarting; WRunning] → NoDup (map fst l) →
  (∀ ref, ref ∈ map fst l → ∃ b, as_branches a !! ref = Some b ∧ ab_state b = BReady
    ∧ deps_accepted a b) →
  (slots a + Z.of_nat (length l) <= capacity a)%Z →
  tri a (forM (λ rp, openAttempt rp.1 rp.2) l)
    (λ _ a', asteps occurred_at a a' ∧ as_status a' = as_status a).
Proof.
  revert a. induction l as [|[ref p] l IH]; intros a Hst Hnd Hready Hslots; simpl.
  { apply tri_ret. split; [constructor|done]. }
  apply tri_bind, tri_openAttempt. intros b d Hb Hmax Hd Hto.
  destruct (Hready ref) as (b' & Hb' & Hr & Hdeps); [by left|]. simplify_eq/=.
  apply NoDup_cons in Hnd as [Hnin Hnd].
  pose proof (open_abranch_slots ref d a b Hb) as Hs1.
  assert (slots (open_abranch ref d a) + Z.of_nat (length l)
    <= capacity (open_abranch ref d a))%Z as Hs2.
  { change (capacity (open_abranch ref d a)) with (capacity a). lia. }
  eapply tri_mono; [apply IH; [done|done| |done]|].
  - intros k Hk. destruct (Hready k) as (bk & Hbk & Hrk & Hdk); [by right|].
    exists bk. split_and!; [|done|].
    + simpl. rewrite lookup_alter_ne; [done|]. by intros ->.
    + eapply deps_accepted_alter; [exact Hb| |done]. by rewrite Hr.
  - intros _ a' [Hsteps Hstat]. split; [|done]. eapply rtc_l; [|exact Hsteps].
    eapply (a_open _ _ _ b); try done.
    + unfold live. intros Hin. revert Hst Hin. generalize (as_status a).
      intros []; intros H1%(bool_decide_pack _) H2%(bool_decide_pack _); done.
    + rewrite Hr. by left.
    + lia.
Qed.

Lemma NoDup_map_filter {A B} (f : A → B) (P : A → Prop) `{∀ x, Decision (P x)} l :
  NoDup (map f l) → NoDup (map f (filter P l)).
Proof.
  induction l as [|x l IH]; [done|]. intros [Hn Hnd]%NoDup_cons. rewrite filter_cons.
  destruct (decide (P x)); [|by apply IH]. apply NoDup_cons. split; [|by apply IH].
  intros (y & Hy & Hin)%list_elem_of_fmap. apply Hn. apply list_elem_of_fmap.
  exists y. split; [done|]. by apply list_elem_of_filter in Hin as [_ ?].
Qed.

Lemma branch_list_lookup s b :
  keyed (alpha s) → b ∈ branch_list s → st_branches s !! br_branch_ref b = Some b.
Proof.
  intros Hk ([k b'] & -> & Hin)%list_elem_of_fmap. apply elem_of_map_to_list in Hin. simpl.
  assert (br_branch_ref b' = k) as ->; [|done]. apply (Hk k (view b')). simpl.
  by rewrite lookup_fmap, Hin.
Qed.

Lemma branch_list_refs s : keyed (alpha s) → NoDup (map br_branch_ref (branch_list s)).
Proof.
  intros Hk. unfold branch_list. rewrite map_map.
  rewrite (map_ext_in _ fst); [apply NoDup_fst_map_to_list|].
  intros [k b] Hin%list_elem_of_In%elem_of_map_to_list. simpl. apply (Hk k (view b)). simpl.
  by rewrite lookup_fmap, Hin.
Qed.

Lemma selected_spec s n :
  keyed (alpha s) →
  NoDup (map br_branch_ref (selected_branches s n))
  ∧ (∀ b, b ∈ selected_branches s n → st_branches s !! br_branch_ref b = Some b
      ∧ br_state b = BReady ∧ deps_accepted (alpha s) (view b))
  ∧ (Z.of_nat (length (selected_branches s n)) <= Z.max 0 n)%Z.
Proof.
  intros Hk. unfold selected_branches.
  set (l := filter _ (branch_list s)). split_and!.
  - assert (NoDup (map br_branch_ref (isort branch_ref_leb l))) as Hnd.
    { rewrite (isort_Permutation branch_ref_leb l). by apply NoDup_map_filter, branch_list_refs. }
    rewrite <- (take_drop (Z.to_nat n) (isort branch_ref_leb l)), map_app in Hnd. by apply NoDup_app in Hnd as [? _].
  - intros b Hin. apply elem_of_take in Hin as (i & Hin & _).
    apply list_elem_of_lookup_2, isort_elem_of, list_elem_of_filter in Hin as [[Hr Hd] Hin].
    split_and!; [by apply branch_list_lookup|done|by apply dependenciesAccepted_deps].
  - rewrite length_take. lia.
Qed.

Lemma keyed_steps a a' : asteps occurred_at a a' → keyed a → keyed a'.
Proof.
  intros (_ & Hnone & Hsome)%evolves_steps Hk ref b' Hb'.
  destruct (as_branches a !! ref) as [b|] eqn:Hb; [|by rewrite (Hnone _ Hb) in Hb'].
  destruct (Hsome _ _ Hb) as (b'' & Hb'' & Hp & _). simplify_eq. rewrite Hp. eauto.
Qed.

Lemma running_live a : as_status a ∈ [WStarting; WRunning] → live a.
Proof.
  unfold live. generalize (as_status a).
  enum_cases.
Qed.

Lemma packets_refs (l : list Branch) packets :
  mapR (λ b, let* p := dispatchPacket (br_branch_ref b) in Ok (br_branch_ref b, p)) l = Ok packets →
  map fst packets = map br_branch_ref l.
Proof.
  intros HF%mapR_Ok. induction HF as [|b p l ps Hb _ IH]; simpl; [done|]. rewrite IH.
  destruct (dispatchPacket _); [|done]. simpl in Hb. by simplify_eq.
Qed.

Lemma tri_scheduleEligible evidence a :
  keyed a →
  tri a (scheduleEligible evidence)
    (λ _ a', asteps occurred_at a a' ∧ as_status a' = as_status a).
Proof.
  intros Hk. apply tri_bind, tri_getState. intros s Hs.
  destruct (negb _) eqn:Est; [apply tri_ret; split; [constructor|done]|].
  apply negb_false_iff in Est. unfold among in Est. apply bool_decide_eq_true in Est.
  assert (as_status a ∈ [WStarting; WRunning]) as Hst by by rewrite <- Hs.
  destruct (_ <=? _)%Z; [apply tri_ret; split; [constructor|done]|].
  apply tri_bind. eapply tri_mono; [apply tri_bind, tri_getState; intros s0 _;
    by apply safe_release, running_live|]. intros _ a1 [Hsteps1 Hst1].
  apply tri_bind, tri_getState. intros s1 Hs1. cbv zeta.
  destruct (_ <=? 0)%Z eqn:Ecap; [by apply tri_ret|]. apply Z.leb_gt in Ecap.
  apply tri_bind, tri_lift. intros packets Hp. pose proof (packets_refs _ _ Hp) as Hrefs.
  assert (keyed (alpha s1)) as Hk1 by (rewrite Hs1; by eapply keyed_steps).
  destruct (selected_spec s1 (availableSlotCount s1) Hk1) as (Hnd & Hsel & Hlen).
  apply tri_bind. eapply tri_mono; [apply safe_open_all|].
  - by rewrite Hst1.
  - by rewrite Hrefs.
  - rewrite Hrefs. intros ref (b & -> & Hin)%list_elem_of_fmap.
    destruct (Hsel b Hin) as (Hl & Hr & Hd). exists (view b). rewrite <- Hs1. simpl.
    by rewrite lookup_fmap, Hl.
  - pose proof (availableSlotCount_slots s1) as Hav. rewrite Hs1 in Hav.
    rewrite <- (length_map fst), Hrefs, length_map. lia.
  - intros _ a2 [Hsteps2 Hst2]. apply tri_ret. split; [|congruence]. unfold asteps in *. by etrans.
Qed.

Lemma safe_scheduleEligible evidence a : keyed a → safe a (scheduleEligible evidence).
Proof. intros Hk. eapply tri_mono; [by apply tri_scheduleEligible|]. by intros _ a' []. Qed.

Lemma all_accepted s :
  forallb (λ b, bool_decide (br_state b = BAccepted)) (branch_list s) = true →
  all_states [BAccepted] (alpha s).
Proof.
  rewrite forallb_forall. intros Hall ref b Hb. simpl in Hb. rewrite lookup_fmap in Hb.
  destruct (st_branches s !! ref) as [b0|] eqn:E; simplify_eq/=.
  assert (br_state b0 = BAccepted) as ->; [|by left]. eapply bool_decide_eq_true, Hall.
  apply list_elem_of_In, list_elem_of_fmap. exists (ref, b0). split; [done|].
  by apply elem_of_map_to_list.
Qed.

Lemma safe_recompute reason evidence a : safe a (recomputeParentStatus reason evidence).
Proof.
  apply safe_getState. intros s Hs.
  destruct (_ || _) eqn:E; [apply safe_quiet; quiet_tac|].
  apply orb_false_iff in E as [E1 E2]. unfold among in E1. apply bool_decide_eq_false in E1, E2.
  assert (as_status a = st_status s) as Hst by by rewrite <- Hs.
  cbv zeta. destruct (forallb _ (branch_list s)) eqn:Eacc.
  { apply tri_transitionWorkOrder, set_astatus_step. rewrite Hst.
    apply all_accepted in Eacc. rewrite Hs in Eacc.
    destruct (st_status s); first [by left | by right | by destruct E1; apply (bool_decide_unpack _)]. }
  destruct (_ && _).
  { apply tri_transitionWorkOrder, set_astatus_step. rewrite Hst.
    destruct (st_status s); first [by left | by right | by destruct E1; apply (bool_decide_unpack _)]. }
  case_bool_decide as E3; [|apply safe_quiet; quiet_tac].
  apply tri_transitionWorkOrder, set_astatus_step. rewrite Hst, E3. by right.
Qed.

(** *** Successors *)

Lemma set_abranch_twice ref t1 t2 a : set_abranch ref t2 (set_abranch ref t1 a) = set_abranch ref t2 a.
Proof.
  unfold set_abranch, set_abranches. simpl. f_equal.
  apply map_eq. intros k. destruct (decide (k = ref)) as [->|Hk].
  - rewrite !lookup_alter_eq. by destruct (_ !! ref).
  - by rewrite !lookup_alter_ne.
Qed.

Lemma view_activate_successor reason b :
  view (activate_successor reason b) = to_state BDispatchPending (view b).
Proof. by destruct b. Qed.

Lemma tri_successor ref predecessor evidence reason a (Q : EffectIdentity → Abstract → Prop) :
  keyed a →
  (∀ e b, as_branches a !! ref = Some b →
    ab_state b ∈ [BDispatchPending; BDeliveryUnknown; BRetryable] →
    Q e (set_abranch ref BDispatchPending a)) →
  tri a (enqueueStartGenerationSuccessor ref predecessor evidence reason) Q.
Proof.
  intros Hk HQ. apply tri_bind, tri_branchByRef. intros b Hb. pose proof (Hk _ _ Hb) as Href.
  destruct (currentDispatchStage b); [|apply tri_fail].
  destruct (_ || _); [apply tri_fail|]. apply tri_bind.
  apply (tri_mono _ _ (λ _ a1, ∃ b1, as_branches a1 !! ref = Some b1
    ∧ (ab_state b1 ∈ [BDispatchPending; BRetryable] →
       ab_state (view b) ∈ [BDispatchPending; BDeliveryUnknown; BRetryable])
    ∧ set_abranch ref BDispatchPending a1 = set_abranch ref BDispatchPending a)).
  - simpl in Href. change (br_branch_ref b) with (pb_branch_ref (br_planned b)). rewrite Href.
    case_bool_decide as E.
    + apply tri_transitionBranch. intros _. eexists.
      split; [by apply set_abranch_eq|]. split; [|apply set_abranch_twice].
      intros _. simpl. rewrite E. apply (bool_decide_unpack _). done.
    + apply tri_ret. eexists. split; [done|]. split; [|done].
      generalize (ab_state (view b)). enum_cases.
  - intros _ a1 (b1 & Hb1 & Hst & Heq). apply tri_bind, tri_branchByRef. intros b2 Hb2.
    rewrite Hb1 in Hb2. injection Hb2 as ->.
    destruct (negb _) eqn:E; [apply tri_fail|]. apply negb_false_iff in E.
    unfold among in E. apply bool_decide_eq_true in E.
    apply tri_bind, tri_getState. intros s _. apply tri_bind, tri_deref. intros packet _.
    cbv zeta. apply tri_bind, tri_lift. intros effect _.
    apply tri_bind, tri_quiet; [quiet_tac|]. intros _. apply tri_bind.
    eapply tri_modifyBranch; [intros; apply view_activate_successor|]. apply tri_ret.
    change (set_abranches _ a1) with (set_abranch ref BDispatchPending a1).
    rewrite Heq. eapply HQ; [done|]. by apply Hst.
Qed.
End Core.
