(* ===== verification/WorkOrderSafety.v ===== *)
(** The deciders one by one: each makes only legal moves, given the invariant. *)

From Stdlib Require Import ZArith Lia String.
From stdpp Require Import base tactics list strings option gmap relations.
From S2P Require Import Prelude JsString JsDate Json SettlementPolicy ContractBase PlanContract.
From S2P Require Import Envelope WorkOrderState WorkOrderFacts WorkOrderContext WorkOrderEffects.
From S2P Require Import WorkOrderCore WorkOrderSettle WorkOrderObserve WorkOrderDelivery.
From S2P Require Import WorkOrderCommands WorkOrder WorkOrderSpec WorkOrderLogic WorkOrderRefine.

Lemma not_among {A} `{EqDecision A} (l : list A) x : negb (among l x) = false → x ∈ l.
Proof. intros Hn. by apply among_true, negb_false_iff. Qed.
Lemma is_false {P} `{Decision P} : negb (bool_decide P) = false → P.
Proof. intros Hn. by apply (bool_decide_eq_true P), negb_false_iff. Qed.

(** The side conditions of a transition. *)
Ltac edge :=
  match goal with
  | H : br_state ?b ∈ _ |- _ =>
      revert H; simpl; clear; generalize (br_state b); enum_cases
  | H : br_state ?b = _ |- _ => simpl; rewrite H; first [by left | by right]
  end.

(** Past a quiet operation; to the end of a quiet rest. *)
Ltac skip := apply safe_then; [quiet_tac|intros ?].
Ltac stop := apply safe_quiet; quiet_tac.

(** Past the branch of the observation, past a transition of it, past the parent's status. *)
Ltac read_branch b Hb :=
  let Hr := fresh in
  apply safe_branch; [assumption|]; intros b Hb Hr; rewrite ?Hr; clear Hr.
Ltac transition Hb :=
  eapply safe_transition; [assumption|exact Hb|edge|]; intros ?.
Ltac recompute := apply safe_before; [apply safe_recompute|intros ?; quiet_tac].

Section Observations.
Context `{Sha256} {env : Env} (o : ObservationEnvelope).
Implicit Types (a : Abstract) (ref : string) (evidence : list string).

Lemma safe_observeWorkOrderStarted evidence a : safe a (observeWorkOrderStarted o evidence).
Proof.
  apply safe_getState. intros s Hs. destruct (negb _) eqn:E; [stop|]. apply is_false in E.
  skip. eapply safe_status; [right; by rewrite <- Hs; simpl; rewrite E|]. intros _. recompute.
Qed.

Lemma branchesQuiescent_states s :
  branchesQuiescent s = true → all_states TERMINAL_BRANCH_STATES (alpha s).
Proof.
  unfold branchesQuiescent. rewrite forallb_forall. intros Hall ref b Hb. simpl in Hb.
  rewrite lookup_fmap in Hb. destruct (st_branches s !! ref) as [b0|] eqn:E; simplify_eq/=.
  apply among_true, Hall. apply list_elem_of_In, list_elem_of_fmap. exists (ref, b0).
  split; [done|]. by apply elem_of_map_to_list.
Qed.

Lemma safe_observeWorkOrderCancelled reason evidence a :
  safe a (observeWorkOrderCancelled o reason evidence).
Proof.
  skip. apply safe_getState. intros s Hs. destruct (_ || _) eqn:E; [stop|].
  apply orb_false_iff in E as [[E1 _]%orb_false_iff E2%negb_false_iff]. apply is_false in E1.
  eapply safe_status; [right|intros _; stop]. rewrite <- Hs. simpl. rewrite E1.
  split; [done|]. by apply branchesQuiescent_states.
Qed.

Lemma safe_observeProgress ref evidence a : safe a (observeProgress o ref evidence).
Proof. unfold observeProgress. stop. Qed.

Lemma safe_observeResult ref evidence a :
  keyed a → live a → safe a (observeResult o ref evidence).
Proof.
  intros Hk Hl. read_branch b Hb. destruct (negb _) eqn:E; [stop|]. apply is_false in E.
  skip. transition Hb. recompute.
Qed.

Lemma safe_observeFailed ref code evidence a :
  keyed a → live a → safe a (observeFailed o ref code evidence).
Proof.
  intros Hk Hl. read_branch b Hb. destruct (bool_decide _); [stop|].
  destruct (negb _) eqn:E; [stop|]. apply not_among in E. skip. transition Hb. recompute.
Qed.

(** *** The start of a branch *)

Lemma safe_stop_started_turn ref evidence a b :
  keyed a → live a → as_branches a !! ref = Some (view b) →
  br_state b ∈ [BDispatchPending; BDeliveryUnknown] →
  safe a (stop_started_turn ref evidence).
Proof.
  intros Hk Hl Hb0 E0. read_branch b' Hb. rewrite Hb in Hb0. injection Hb0 as Hp Hs Ha Hd.
  rewrite <- Hs in E0. case_bool_decide; [skip; stop|].
  apply safe_before; [|intros ?; quiet_tac]. apply tri_transitionBranch. intros _.
  eapply set_abranch_step; [done|exact Hb|edge].
Qed.

Lemma safe_thread_created ref evidence effect hash identity elapsed a b :
  keyed a → live a → as_branches a !! ref = Some (view b) →
  br_state b ∈ [BDispatchPending; BDeliveryUnknown] →
  safe a (thread_created ref evidence effect hash identity elapsed).
Proof.
  intros Hk Hl Hb0 E0. apply safe_getState. intros s _. read_branch b' Hb.
  rewrite Hb in Hb0. injection Hb0 as Hp Hs Ha Hd. rewrite <- Hs in E0. cbv zeta.
  destruct (_ || _).
  - case_bool_decide; transition Hb; recompute.
  - case_bool_decide as Edu; [|skip; stop].
    apply safe_before; [|intros ?; quiet_tac]. apply tri_transitionBranch. intros _.
    eapply set_abranch_step; [done|exact Hb|]. simpl. rewrite Edu. by right.
Qed.

Lemma safe_observeStartAccepted ref evidence kind a :
  keyed a → live a → safe a (observeStartAccepted o ref evidence kind).
Proof.
  intros Hk Hl. read_branch b Hb. destruct (negb _) eqn:E; [stop|]. apply not_among in E.
  apply safe_lift. intros identity _. skip. destruct (se_alreadySettled _); [stop|]. cbv zeta.
  apply safe_lift. intros fits _. apply safe_deny. intros _. skip.
  skip. apply safe_getState. intros s Hs. case_bool_decide as Ek.
  { by eapply safe_thread_created. }
  destruct (_ || _); [by eapply safe_stop_started_turn|].
  case_bool_decide as Est.
  - eapply safe_status; [right; rewrite <- Hs; simpl; by rewrite Est|]. intros _.
    eapply (safe_transition _ _ _ _ (set_astatus WRunning a)); [|exact Hb|edge|].
    { apply running_live. simpl. apply (bool_decide_unpack _). done. }
    intros _. recompute.
  - skip. transition Hb. recompute.
Qed.

(** A safe program, then one that is safe from wherever the first one led. *)
Lemma safe_seq {A B} a (m : M A) (k : A → M B) :
  safe a m → (∀ x a1, asteps occurred_at a a1 → safe a1 (k x)) → safe a (mbind m k).
Proof.
  intros Hm Hk. apply safe_bind. eapply tri_mono; [exact Hm|]. intros x a1 Hs.
  split; [done|]. by apply Hk.
Qed.

Lemma safe_reopen ref packet a b :
  live a → (slots a < capacity a)%Z → as_branches a !! ref = Some b →
  ab_state b ∈ [BRetryable; BFailed] → safe a (openAttempt ref packet).
Proof.
  intros Hl Hs Hb Hst. apply tri_openAttempt. intros b' d Hb' Hmax Hd Hto. simplify_eq.
  apply rtc_once. eapply a_open; try done.
  - revert Hst. generalize (ab_state b). enum_cases.
  - intros E. rewrite E in Hst. apply (bool_decide_pack _) in Hst. destruct Hst.
Qed.

Lemma safe_resend ref predecessor evidence reason a :
  keyed a → live a →
  (∀ b, as_branches a !! ref = Some b → ab_state b = BRetryable → (slots a < capacity a)%Z) →
  safe a (enqueueStartGenerationSuccessor ref predecessor evidence reason).
Proof.
  intros Hk Hl Hr. apply tri_successor; [done|]. intros _ b Hb Hst.
  destruct (ab_state b) eqn:E; try (apply (bool_decide_pack _) in Hst; destruct Hst).
  - eapply set_abranch_step; [done|exact Hb|]. by left.
  - apply rtc_once. eapply a_resend; eauto.
  - eapply set_abranch_step; [done|exact Hb|]. rewrite E. by right.
Qed.

Lemma safe_not_sent_with_policy ref evidence policy identity a b :
  keyed a → live a → as_branches a !! ref = Some (view b) →
  br_state b ∈ [BDispatchPending; BDeliveryUnknown] →
  safe a (not_sent_with_policy ref evidence policy identity).
Proof.
  intros Hk Hl Hb0 E0. apply safe_getState. intros s _. read_branch b' Hb.
  rewrite Hb in Hb0. injection Hb0 as Hp Hs Ha Hd. rewrite <- Hs in E0.
  apply safe_deny. intros _. apply safe_lift. intros schedule _. destruct (_ || _).
  { transition Hb. recompute. }
  destruct (_ && _).
  - apply safe_seq; [|intros e a1 _; recompute]. apply safe_resend; [done|done|].
    intros b1 Hb1 Hst1. rewrite Hb in Hb1. injection Hb1 as <-. simpl in Hst1.
    rewrite Hst1 in E0. apply (bool_decide_pack _) in E0. destruct E0.
  - transition Hb. recompute.
Qed.

Lemma slots_leave ref to a b :
  as_branches a !! ref = Some b → ab_state b ∈ SLOT_BRANCH_STATES → to ∉ SLOT_BRANCH_STATES →
  slots (set_abranch ref to a) = (slots a - 1)%Z.
Proof.
  intros Hb Hs Hto. rewrite (slots_set_abranch _ _ _ _ Hb).
  rewrite (decide_True _ _ Hs), (decide_False _ _ Hto). lia.
Qed.

Lemma safe_not_sent_without_policy ref evidence a b :
  keyed a → live a → (slots a <= capacity a)%Z → as_branches a !! ref = Some (view b) →
  br_state b ∈ [BDispatchPending; BDeliveryUnknown] →
  safe a (not_sent_without_policy ref evidence).
Proof.
  intros Hk Hl Hcap Hb0 E0. apply safe_getState. intros s _. read_branch b' Hb.
  rewrite Hb in Hb0. injection Hb0 as Hp Hs Ha Hd. rewrite <- Hs in E0.
  cbv zeta. apply safe_lift. intros retryAt _. destruct (_ || _).
  { transition Hb. recompute. }
  transition Hb. apply safe_seq; [|intros e a1 _; recompute].
  destruct (_ =? 0)%Z; [|stop]. apply safe_lift. intros packet _.
  eapply safe_reopen; [done| |by apply set_abranch_eq|by left].
  rewrite (slots_leave _ _ _ _ Hb).
  - change (capacity (set_abranch ref BRetryable a)) with (capacity a). lia.
  - edge.
  - by apply (bool_decide_unpack _).
Qed.

Lemma safe_observeNotSentStage ref evidence kind a :
  keyed a → live a → (slots a <= capacity a)%Z →
  safe a (observeNotSentStage o ref evidence kind).
Proof.
  intros Hk Hl Hcap. read_branch b Hb. destruct (negb _) eqn:E; [stop|]. apply not_among in E.
  skip. skip. skip. apply safe_getState. intros s _. case_bool_decide.
  { transition Hb. recompute. }
  case_match; [by eapply safe_not_sent_with_policy|by eapply safe_not_sent_without_policy].
Qed.

Lemma safe_observeDeliveryUnknownStage ref evidence kind a :
  keyed a → live a → safe a (observeDeliveryUnknownStage o ref evidence kind).
Proof.
  intros Hk Hl. read_branch b Hb. destruct (negb _) eqn:E; [stop|]. apply not_among in E.
  cbv zeta. apply safe_getState. intros s _. destruct (_ <=? _)%Z; [stop|].
  skip. destruct (se_alreadySettled _); [stop|]. skip. transition Hb. skip. recompute.
Qed.

(** *** Timeouts and expiries *)

Lemma quiet_timed_out_user_input ref evidence : quiet (timed_out_user_input ref evidence).
Proof. unfold timed_out_user_input. quiet_tac. Qed.

Lemma safe_timed_out_turn ref evidence a b :
  live a → as_branches a !! ref = Some (view b) → br_state b ∈ [BRunning; BWaitingForUser] →
  safe a (timed_out_turn ref evidence).
Proof.
  intros Hl Hb E. apply safe_then; [apply quiet_timed_out_user_input|intros _].
  skip. transition Hb. skip. skip. recompute.
Qed.

Lemma safe_timed_out_dispatch ref evidence a b :
  keyed a → live a → as_branches a !! ref = Some (view b) → br_state b = BDispatchPending →
  safe a (timed_out_dispatch ref evidence).
Proof.
  intros Hk Hl Hb0 E0. read_branch b' Hb. rewrite Hb in Hb0. injection Hb0 as Hp Hs Ha Hd.
  rewrite <- Hs in E0. apply safe_then; [quiet_tac|intros [identity status]].
  destruct (includes _ _); [skip; transition Hb; recompute|transition Hb; skip; recompute].
Qed.

Lemma safe_observeTimedOut ref evidence a :
  keyed a → live a → safe a (observeTimedOut o ref evidence).
Proof.
  intros Hk Hl. read_branch b Hb. destruct (negb _) eqn:E; [stop|]. apply not_among in E.
  match goal with |- safe _ (if ?c then _ else _) => destruct c end; [stop|]. skip.
  case_bool_decide as Ed; [by eapply safe_timed_out_dispatch|].
  eapply safe_timed_out_turn; [done|exact Hb|].
  destruct (br_state b); try done; apply (bool_decide_pack _) in E; first [by destruct E|
    by apply (bool_decide_unpack _)].
Qed.

Lemma assertEffectBindsBranch_kind s b e k :
  assertEffectBindsBranch s b e k = Ok tt → ef_effect_kind e = enum_str k.
Proof.
  unfold assertEffectBindsBranch. cbv zeta. intros Hr. res_inv Hr. split_bools.
  by apply String.eqb_eq.
Qed.

Lemma is_start_kind_enum k : is_start_kind (enum_str k) = true → k ∈ START_KINDS.
Proof. destruct k; intros E; try discriminate E; by apply (bool_decide_unpack _). Qed.

Lemma safe_expire_start ref evidence a :
  keyed a → live a →
  (∀ b, as_branches a !! ref = Some b → ab_state b ∈ [BDispatchPending; BDeliveryUnknown]) →
  safe a (expire_start ref evidence).
Proof.
  intros Hk Hl Hst. read_branch b Hb. specialize (Hst _ Hb). simpl in Hst.
  case_bool_decide; [stop|]. skip. apply tri_transitionBranch. intros _.
  eapply set_abranch_step; [done|exact Hb|edge].
Qed.

Lemma safe_observeExpiredSend ref kind evidence a :
  keyed a → live a →
  (kind ∈ START_KINDS → ∀ b, as_branches a !! ref = Some b →
    ab_state b ∈ [BDispatchPending; BDeliveryUnknown]) →
  safe a (observeExpiredSend o ref kind evidence).
Proof.
  intros Hk Hl Hst. apply safe_lift. intros [f q] _. read_branch b Hb.
  apply safe_lift. intros identity _. apply safe_getState. intros s _.
  apply safe_lift. intros [] Hbind%assertEffectBindsBranch_kind.
  apply safe_lift. intros token _. apply safe_lift. intros expiresAt _.
  apply safe_deny. intros _. apply safe_lift. intros trigger _. skip. cbv zeta. skip. skip. skip.
  apply safe_seq.
  - destruct (is_start_kind _) eqn:E; [|stop]. rewrite Hbind in E.
    apply is_start_kind_enum in E. apply safe_expire_start; auto.
  - intros _ a1 _. skip. apply safe_before; [|intros _; quiet_tac].
    destruct (is_start_kind _); [apply safe_recompute|stop].
Qed.

(** *** Pre-send failures and mutations *)

Lemma safe_observePresendFailure binding evidence a :
  keyed a → live a → safe a (observePresendFailure o binding evidence).
Proof.
  intros Hk Hl. cbv zeta. read_branch b Hb. skip. skip.
  apply safe_deny. intros [[[E%not_among _]%orb_false_iff _]%orb_false_iff _]%orb_false_iff.
  apply safe_deny. intros _. skip. apply safe_deny. intros _. skip.
  apply safe_then.
  { apply quiet_modifyBranch. intros []. destruct (eb_effect_kind binding); reflexivity. }
  intros _. eapply safe_transition; [done|exact Hb| |].
  - revert E. simpl. clear. destruct (eb_effect_kind binding); simpl; generalize (br_state b);
      enum_cases.
  - intros _. skip. recompute.
Qed.

Lemma quiet_mutation_not_sent ref kind evidence : quiet (mutation_not_sent o ref kind evidence).
Proof. unfold mutation_not_sent. quiet_tac. Qed.
Lemma quiet_mutation_unknown ref kind evidence : quiet (mutation_unknown o ref kind evidence).
Proof. unfold mutation_unknown. quiet_tac. Qed.

Lemma safe_user_input_delivered ref evidence a :
  keyed a → live a → safe a (user_input_delivered ref evidence).
Proof.
  intros Hk Hl. read_branch b Hb. skip. skip. skip. case_bool_decide as E; [|stop].
  apply tri_transitionBranch. intros _. eapply set_abranch_step; [done|exact Hb|edge].
Qed.

Lemma safe_mutation_accepted ref kind evidence a :
  keyed a → live a → safe a (mutation_accepted o ref kind evidence).
Proof.
  intros Hk Hl. read_branch b Hb. skip. apply safe_deny. intros _. skip. skip. cbv zeta. skip.
  apply safe_before; [|intros _; quiet_tac].
  destruct (is_user_input kind); [by apply safe_user_input_delivered|stop].
Qed.

Lemma safe_observeMutation ref kind cl evidence a :
  keyed a → live a → safe a (observeMutation o ref kind cl evidence).
Proof.
  intros Hk Hl. skip. cbv zeta. destruct (negb _); [stop|]. destruct cl.
  - by apply safe_mutation_accepted.
  - apply safe_quiet, quiet_mutation_not_sent.
  - apply safe_quiet, quiet_mutation_unknown.
Qed.

Lemma safe_observeProviderEffectDelivery binding cl evidence a :
  keyed a → live a → (slots a <= capacity a)%Z →
  (is_undef (fact "send_expiry") = false → eb_effect_kind binding ∈ START_KINDS →
    ∀ b, as_branches a !! eb_branch_ref binding = Some b →
      ab_state b ∈ [BDispatchPending; BDeliveryUnknown]) →
  safe a (observeProviderEffectDelivery o binding cl evidence).
Proof.
  intros Hk Hl Hcap Hst. unfold observeProviderEffectDelivery. cbv zeta.
  destruct (negb _) eqn:E; [apply safe_observeExpiredSend; auto; by apply Hst, negb_true_iff|].
  skip. skip. destruct (_ && _); [stop|]. destruct (among _ _); [|by apply safe_observeMutation].
  destruct cl; [by apply safe_observeStartAccepted|by apply safe_observeNotSentStage|
    by apply safe_observeDeliveryUnknownStage].
Qed.

Lemma safe_observeBranchCancelled ref reason evidence a :
  keyed a → live a → safe a (observeBranchCancelled o ref reason evidence).
Proof.
  intros Hk Hl. read_branch b Hb. destruct (negb _) eqn:E; [stop|]. apply is_false in E.
  skip. skip. skip. transition Hb. recompute.
Qed.

Lemma safe_observeUserInput ref id evidence a :
  keyed a → live a → safe a (observeUserInput o ref id evidence).
Proof.
  intros Hk Hl. read_branch b Hb. apply safe_getState. intros s _.
  destruct (_ || _) eqn:E; [stop|]. apply orb_false_iff in E as [E%is_false _].
  destruct (existsb _ _); [stop|]. skip. transition Hb. stop.
Qed.

(** *** Verification and review *)

Lemma safe_acceptVerifiedBranch ref evidence reason a b :
  keyed a → live a → as_branches a !! ref = Some (view b) → br_state b = BVerifying →
  safe a (acceptVerifiedBranch ref evidence reason).
Proof.
  intros Hk Hl Hb0 E0. apply safe_getState. intros s _. read_branch b' Hb.
  rewrite Hb in Hb0. injection Hb0 as Hp Hs Ha Hd. rewrite <- Hs in E0.
  apply safe_lift. intros ready _. destruct (negb ready); [stop|]. transition Hb.
  apply safe_before; [|intros _; quiet_tac]. apply safe_scheduleEligible.
  eapply keyed_steps; [|exact Hk]. eapply set_abranch_step; [done|exact Hb|edge].
Qed.

Lemma safe_observeVerification ref criterion vref kind status refs evidence a :
  keyed a → live a → safe a (observeVerification o ref criterion vref kind status refs evidence).
Proof.
  intros Hk Hl. read_branch b Hb. apply safe_getState. intros s _.
  destruct (_ || _) eqn:E; [stop|]. apply orb_false_iff in E as [E%is_false _].
  destruct (_ || _); [stop|]. skip. destruct (_ && _); [stop|]. destruct (negb _); [stop|].
  skip. skip. apply safe_seq; [|intros _ a1 _; recompute]. case_bool_decide.
  - apply tri_transitionBranch. intros _. eapply set_abranch_step; [done|exact Hb|edge].
  - skip. skip. skip. case_match; [|stop]. apply safe_before; [|intros _; quiet_tac].
    by eapply safe_acceptVerifiedBranch.
Qed.

Lemma safe_observeReview ref id status findings refs evidence a :
  keyed a → live a → safe a (observeReview o ref id status findings refs evidence).
Proof.
  intros Hk Hl. read_branch b Hb. apply safe_getState. intros s _. skip.
  destruct (_ || _) eqn:E; [stop|].
  apply orb_false_iff in E as [[_ E%is_false]%orb_false_iff _]. destruct (negb _); [stop|].
  skip. skip. skip. skip. cbv zeta. apply safe_seq; [|intros _ a1 _; recompute].
  destruct (blocking_review _ _).
  - apply tri_transitionBranch. intros _. eapply set_abranch_step; [done|exact Hb|edge].
  - apply safe_before; [|intros _; quiet_tac]. by eapply safe_acceptVerifiedBranch.
Qed.

Lemma safe_observeProviderAttention ref evidence a : safe a (observeProviderAttention o ref evidence).
Proof. unfold observeProviderAttention. stop. Qed.

(** ** Every observation *)

(** What the outbox guarantees about an expired send: a start effect that was still being sent is
    the one its branch waits for. *)
Definition sends_current (a : Abstract) : Prop :=
  is_undef (fact "send_expiry") = false →
  ∀ binding b, payload_binding (oe_payload o) = Some binding →
    eb_effect_kind binding ∈ START_KINDS →
    as_branches a !! eb_branch_ref binding = Some b →
    ab_state b ∈ [BDispatchPending; BDeliveryUnknown].

Lemma send_expiry_fact_defined r : send_expiry_fact (fact "send_expiry") = Ok r →
  is_undef (fact "send_expiry") = false.
Proof. by destruct (fact "send_expiry"). Qed.

Lemma safe_decideObservation a :
  keyed a → (slots a <= capacity a)%Z → sends_current a → safe a (decideObservation o).
Proof.
  intros Hk Hcap Hsend. skip. apply safe_lift. intros evidence _. apply safe_getState.
  intros s Hs. apply safe_lift. intros [reason|] Hcur; [stop|].
  assert (live a) as Hl.
  { rewrite <- Hs. intros Ht. simpl in Ht. unfold validateObservationCurrency in Hcur.
    destruct (_ <? _)%Z; [done|]. unfold among in Hcur.
    rewrite (bool_decide_eq_true_2 _ Ht) in Hcur. done. }
  unfold OBSERVATION_DECIDERS.
  destruct (oe_payload o) eqn:Hp;
    auto using safe_observeWorkOrderStarted, safe_observeWorkOrderCancelled,
      safe_observeStartAccepted, safe_observeNotSentStage, safe_observeProgress,
      safe_observeResult, safe_observeFailed, safe_observeTimedOut,
      safe_observeDeliveryUnknownStage, safe_observeBranchCancelled, safe_observeUserInput,
      safe_observeVerification, safe_observeReview, safe_observeProviderAttention,
      safe_observePresendFailure.
  - apply safe_observeProviderEffectDelivery; auto. intros Hf Hkind b.
    eapply (Hsend Hf); [by rewrite Hp|done].
  - apply safe_observeProviderEffectDelivery; auto. intros Hf Hkind b.
    eapply (Hsend Hf); [by rewrite Hp|done].
  - destruct (is_undef (fact "send_expiry")) eqn:Hf.
    + apply safe_lift. intros r Hr%send_expiry_fact_defined. congruence.
    + apply safe_observeExpiredSend; auto. intros Hkind b.
      eapply (Hsend Hf); [by rewrite Hp|done].
Qed.
End Observations.

(** ** Commands on an existing Work Order *)

Section Commands.
Context `{Sha256} {env : Env} (c : CommandEnvelope).
Implicit Types (a : Abstract).

(** Safe, and the status of the Work Order stays. *)
Definition steady {A} (a : Abstract) (m : M A) : Prop :=
  tri a m (λ _ a', asteps occurred_at a a' ∧ as_status a' = as_status a).

Lemma steady_quiet {A} a (m : M A) : quiet m → steady a m.
Proof. intros Hq. apply tri_quiet; [done|]. intros x. split; [constructor|done]. Qed.

Lemma steady_then {A B} a (m : M A) (k : A → M B) :
  quiet m → (∀ x, steady a (k x)) → steady a (mbind m k).
Proof. intros Hq Hk. apply tri_bind, tri_quiet; auto. Qed.

Lemma steady_transition ref to reason options a b :
  live a → as_branches a !! ref = Some b →
  ab_state b = to ∨ branch_edge (ab_state b) to = true →
  steady a (transitionBranch ref to reason options).
Proof.
  intros Hl Hb He. apply tri_transitionBranch. intros _. split; [by eapply set_abranch_step|done].
Qed.

Lemma steady_before {A B} a (m : M A) (k : A → M B) :
  steady a m → (∀ x, quiet (k x)) → steady a (mbind m k).
Proof.
  intros Hm Hk. apply tri_bind. eapply tri_mono; [exact Hm|]. intros x a1 Hs.
  by apply tri_quiet.
Qed.

Lemma steady_forM {X} (f : X → M unit) l a :
  (∀ a', asteps occurred_at a a' → as_status a' = as_status a → ∀ x, steady a' (f x)) →
  steady a (forM f l).
Proof.
  revert a. induction l as [|x l IH]; intros a Hf; simpl.
  { apply steady_quiet. quiet_tac. }
  apply tri_bind. eapply tri_mono; [by apply Hf; [constructor|]|]. intros _ a1 [Hs1 Hst1].
  eapply tri_mono; [apply IH|].
  - intros a2 Hs2 Hst2. apply Hf; [|congruence]. unfold asteps in *. by etrans.
  - intros _ a2 [Hs2 Hst2]. split; [|congruence]. unfold asteps in *. by etrans.
Qed.

Lemma quiet_cancel_user_input facts ref : quiet (cancel_user_input facts ref).
Proof. unfold cancel_user_input. quiet_tac. Qed.

Lemma tri_read {B} ref a b0 (k : Branch → M B) Q :
  as_branches a !! ref = Some (view b0) →
  (∀ b, as_branches a !! ref = Some (view b) → br_state b = br_state b0 → tri a (k b) Q) →
  tri a (mbind (branchByRef ref) k) Q.
Proof.
  intros Hb0 Hk. apply tri_bind, tri_branchByRef. intros b Hb. apply Hk; [done|].
  rewrite Hb in Hb0. by injection Hb0.
Qed.

Lemma steady_cancel_dispatch facts ref a b :
  live a → as_branches a !! ref = Some (view b) → br_state b = BDispatchPending →
  steady a (cancel_dispatch facts ref).
Proof.
  intros Hl Hb0 E0. eapply tri_read; [done|]. intros b' Hb E. rewrite E0 in E. clear Hb0.
  destruct (negb _); [apply tri_fail|].
  apply steady_then; [quiet_tac|]. intros [identity status]. destruct (includes _ _).
  - apply steady_then; [quiet_tac|]. intros _. eapply steady_transition; [done|exact Hb|edge].
  - apply steady_before; [|intros _; quiet_tac]. eapply steady_transition; [done|exact Hb|edge].
Qed.

Lemma steady_cancel_turn facts ref a b :
  live a → as_branches a !! ref = Some (view b) →
  br_state b ∈ [BRunning; BWaitingForUser; BCancelling] → steady a (cancel_turn facts ref).
Proof.
  intros Hl Hb0 E0. apply steady_then; [apply quiet_cancel_user_input|]. intros _.
  apply steady_then; [quiet_tac|]. intros _. eapply tri_read; [done|]. intros b' Hb E.
  rewrite <- E in E0. clear Hb0 E. apply steady_before; [|intros _; quiet_tac].
  case_bool_decide; [apply steady_quiet; quiet_tac|].
  eapply steady_transition; [done|exact Hb|edge].
Qed.

Lemma steady_cancel_branch facts ref a : live a → steady a (cancel_branch facts ref).
Proof.
  intros Hl. apply tri_bind, tri_getState. intros s Hs. apply tri_bind, tri_deref. intros b Hb.
  assert (as_branches a !! ref = Some (view b)) as Hb'.
  { rewrite <- Hs. simpl. by rewrite lookup_fmap, Hb. }
  destruct (br_state b) eqn:E; first
    [ by apply steady_quiet, quiet_ret
    | by eapply steady_cancel_dispatch
    | eapply steady_cancel_turn; [done|done|]; rewrite E; by apply (bool_decide_unpack _)
    | eapply steady_transition; [done|exact Hb'|edge] ].
Qed.

Lemma safe_cancelWorkOrder reason a : keyed a → safe a (cancelWorkOrder c reason).
Proof.
  intros Hk. apply safe_getState. intros s Hs. skip. apply safe_deny. intros E.
  apply safe_deny. intros _. eapply safe_status.
  - rewrite <- Hs. simpl. unfold among in E. apply bool_decide_eq_false in E.
    destruct (st_status s); first [by left|by right|by destruct E; apply (bool_decide_unpack _)].
  - intros _. skip. apply safe_getState. intros s' _.
    apply safe_before; [|intros _; quiet_tac].
    eapply tri_mono; [apply steady_forM|by intros _ a' []].
    intros a' _ Hst ref. apply steady_cancel_branch. unfold live. rewrite Hst.
    by apply (bool_decide_unpack _).
Qed.

Lemma safe_resumeWorkOrder reason a : keyed a → safe a (resumeWorkOrder c reason).
Proof.
  intros Hk. apply safe_getState. intros s Hs. skip.
  apply safe_deny. intros E%is_false. apply safe_deny. intros _. apply safe_deny. intros _.
  eapply safe_status; [right; rewrite <- Hs; simpl; by rewrite E|]. intros _.
  apply safe_seq; [by apply safe_scheduleEligible|]. intros dispatched a1 _.
  apply safe_before; [apply safe_recompute|intros _; quiet_tac].
Qed.

Lemma safe_retryBranch ref attempt a : keyed a → safe a (retryBranch c ref attempt).
Proof.
  intros Hk. apply safe_getState. intros s Hs. skip.
  apply safe_deny. intros [Ht _]%orb_false_iff. unfold among in Ht.
  apply bool_decide_eq_false in Ht. read_branch b Hb.
  apply safe_deny. intros [E%not_among _]%orb_false_iff. apply safe_deny. intros _.
  apply safe_lift. intros basis _. apply safe_deny. intros _. apply safe_deny. intros _.
  apply safe_deny. intros Hcap%Z.leb_gt. rewrite availableSlotCount_slots, Hs in Hcap.
  assert (∀ a1, as_branches a1 = as_branches a → as_fixed a1 = as_fixed a → live a1 →
    safe a1 (let! _ := match basis with
      | EffectGeneration predecessor _ _ =>
          let! _ := enqueueStartGenerationSuccessor ref predecessor []
            "explicit_effect_generation_retry" in mret tt
      | BranchAttempt =>
          let! packet := mlift (dispatchPacket ref) in openAttempt ref packet
      end in
      let! _ := recomputeParentStatus "explicit_branch_retry" [] in
      branch_result BDispatchPending [("retry_kind", JStr (retry_kind basis))])) as Hrest.
  { intros a1 Hbr Hfix Hl. assert (slots a1 < capacity a1)%Z as Hslots.
    { unfold slots, capacity, as_plan in *. rewrite Hbr, Hfix. lia. }
    apply safe_seq; [|intros _ a2 _; recompute]. destruct basis.
    - apply safe_before; [|intros _; quiet_tac]. apply safe_resend; [|done|done].
      intros k b1. rewrite Hbr. apply Hk.
    - skip. eapply safe_reopen; [done|done|by rewrite Hbr|].
      revert E. simpl. clear. generalize (br_state b). enum_cases. }
  case_bool_decide as Ep.
  - eapply safe_status; [right; rewrite <- Hs; simpl; by rewrite Ep|]. intros _.
    apply Hrest; [done..|]. by apply (bool_decide_unpack _).
  - skip. apply Hrest; [done..|]. by rewrite <- Hs.
Qed.

Lemma safe_resolveUserInput id ref a : safe a (resolveUserInput c id ref).
Proof. unfold resolveUserInput. stop. Qed.

Lemma acceptance_gates_accepted s :
  acceptance_gates s = Ok true → all_states [BAccepted] (alpha s).
Proof.
  unfold acceptance_gates. destruct (currentResultReviewSummary _ _); [|done]. simpl.
  destruct (acceptedReviews _); [|done]. simpl. intros [= E]. split_bools. by apply all_accepted.
Qed.

Lemma safe_recordAcceptance decision evidence comment a :
  safe a (recordAcceptance c decision evidence comment).
Proof.
  apply safe_getState. intros s Hs. skip. apply safe_deny. intros E%is_false.
  apply safe_lift. intros gates Hg. apply safe_deny. intros ->%negb_false_iff.
  apply acceptance_gates_accepted in Hg. rewrite Hs in Hg. skip. cbv zeta. skip. skip.
  destruct decision; (eapply safe_status; [right; rewrite <- Hs; simpl; rewrite E|intros _; stop]).
  - split; [done|]. by rewrite Hs.
  - done.
Qed.

(** Every command but the first one. *)
Lemma safe_decideCommand a :
  command_name c ≠ NStart → keyed a → safe a (decideCommand c).
Proof.
  intros Hn Hk ctx x ctx' Ha Hrun. destruct (abs_Some _ _ Ha) as (s & Hs & _).
  unfold decideCommand, command_name in *. destruct (ce_payload c) eqn:Hp; [done|..];
    rewrite Hs in Hrun; (destruct (among _ _); [done|]); revert ctx x ctx' Ha Hs Hrun;
    intros ctx x ctx' Ha _; revert ctx x ctx' Ha.
  - exact (safe_cancelWorkOrder _ _ Hk).
  - exact (safe_resumeWorkOrder _ _ Hk).
  - exact (safe_retryBranch _ _ _ Hk).
  - exact (safe_resolveUserInput _ _ _).
  - exact (safe_recordAcceptance _ _ _ _).
Qed.
End Commands.
