(* ===== verification/WorkOrderEvents.v ===== *)
(** The events of a decision.  Every operation only appends events, through [emit]: what holds of
    the log and is kept by [emit] is kept by every decider. *)

From Stdlib Require Import ZArith Lia String.
From stdpp Require Import base tactics list strings option gmap.
From S2P Require Import Prelude JsString JsDate Json SettlementPolicy ContractBase PlanContract.
From S2P Require Import Envelope WorkOrderState WorkOrderFacts WorkOrderContext WorkOrderEffects.
From S2P Require Import WorkOrderCore WorkOrderSettle WorkOrderObserve WorkOrderDelivery.
From S2P Require Import WorkOrderCommands WorkOrder WorkOrderSpec WorkOrderLogic.

(** [m] keeps what [Q] says of the log. *)
Definition logs (Q : list Event → Prop) {A} (m : M A) : Prop :=
  ∀ c x c', m c = Ok (x, c') → Q (cx_events c) → Q (cx_events c').

Section Laws.
Context (Q : list Event → Prop).

Lemma logs_same {A} (m : M A) :
  (∀ c x c', m c = Ok (x, c') → cx_events c' = cx_events c) → logs Q m.
Proof. intros Hm c x c' H1. by rewrite (Hm _ _ _ H1). Qed.

Lemma logs_ret {A} (x : A) : logs Q (mret x).
Proof. apply logs_same. by intros c y c' [= _ <-]. Qed.
Lemma logs_fail {A} code : logs Q (A := A) (mfail code).
Proof. by intros c y c' H. Qed.
Lemma logs_error {A} e : logs Q (A := A) (λ _, Err e).
Proof. by intros c x c' H. Qed.
Lemma logs_lift {A} (r : res A) : logs Q (mlift r).
Proof. apply logs_same. by intros c x c' [_ ->]%mlift_Ok. Qed.
Lemma logs_deref {A} (v : option A) : logs Q (deref v).
Proof. apply logs_same. intros c x c'. destruct v; [|done]. by intros [= _ <-]. Qed.
Lemma logs_getState : logs Q getState.
Proof. apply logs_same. by intros c x c' [_ ->]%getState_Ok. Qed.
Lemma logs_putState s : logs Q (putState s).
Proof. apply logs_same. by intros c x c' [= _ <-]. Qed.
Lemma logs_bind {A B} (m : M A) (k : A → M B) :
  logs Q m → (∀ x, logs Q (k x)) → logs Q (mbind m k).
Proof. intros Hm Hk c y c' (x & c1 & H1 & H2)%mbind_Ok HQ. eapply Hk, Hm; eauto. Qed.
Lemma logs_forM {A} (f : A → M unit) l : (∀ x, logs Q (f x)) → logs Q (forM f l).
Proof. intros Hf. induction l; simpl; [apply logs_ret|]. by apply logs_bind. Qed.
Lemma logs_modifyState f : logs Q (modifyState f).
Proof. apply logs_bind; [apply logs_getState|]. intros. apply logs_putState. Qed.
Lemma logs_modifyBranch ref f : logs Q (modifyBranch ref f).
Proof. apply logs_modifyState. Qed.
Lemma logs_branchByRef ref : logs Q (branchByRef ref).
Proof. apply logs_same. by intros c b c' [-> _]%branchByRef_Ok. Qed.
Lemma logs_settlementPolicy p : logs Q (set_cx_settlementPolicy p).
Proof. apply logs_same. by intros c x c' [= _ <-]. Qed.
Lemma logs_get_settlementPolicy : logs Q get_cx_settlementPolicy.
Proof. apply logs_same. by intros c x c' [= _ <-]. Qed.
Lemma logs_ledger l : logs Q (set_cx_recoveryProbeLedger l).
Proof. apply logs_same. by intros c x c' [= _ <-]. Qed.
End Laws.

Create HintDb logs.
#[export] Hint Resolve logs_ret logs_fail logs_error logs_lift logs_deref logs_getState logs_putState
  logs_modifyState logs_modifyBranch logs_branchByRef logs_settlementPolicy
  logs_get_settlementPolicy logs_ledger : logs.

Ltac logs_tac :=
  repeat (intros; cbv zeta; first
    [ solve [eauto 6 with logs]
    | match goal with |- logs _ (mbind _ _) => apply logs_bind end
    | match goal with |- logs _ (forM _ _) => apply logs_forM end
    | match goal with |- logs _ (if ?b then _ else _) => destruct b end
    | match goal with |- logs _ (match ?x with _ => _ end) => destruct x end ]).

(** ** The operations that concern no other branch of work: kept by a log that allows their events *)

Section Shared.
Context `{Sha256} {env : Env} (Q : list Event → Prop).
Local Abbreviation allows type := (∀ specific evidence, logs Q (emit type specific evidence)).

Lemma logs_transitionBranch ref to reason options :
  allows "business.branch.status_changed" → logs Q (transitionBranch ref to reason options).
Proof. intros. unfold transitionBranch. logs_tac. Qed.
Lemma logs_transitionWorkOrder to reason evidence :
  allows "business.work_order.status_changed" → logs Q (transitionWorkOrder to reason evidence).
Proof. intros. unfold transitionWorkOrder. logs_tac. Qed.
#[local] Hint Resolve logs_transitionBranch logs_transitionWorkOrder : logs.
Lemma logs_recompute reason evidence :
  allows "business.work_order.status_changed" → logs Q (recomputeParentStatus reason evidence).
Proof. intros. unfold recomputeParentStatus. logs_tac. Qed.
Lemma logs_openAttention k r e f :
  allows "business.attention.opened" → logs Q (openAttention k r e f).
Proof. intros. unfold openAttention. logs_tac. Qed.
Lemma logs_quarantine o reason :
  allows "business.late_observation.quarantined" → logs Q (quarantine o reason).
Proof. intros. unfold quarantine. logs_tac. Qed.
Lemma logs_settlementPolicyFor o : logs Q (settlementPolicyFor o).
Proof. unfold settlementPolicyFor. logs_tac. Qed.
#[local] Hint Resolve logs_settlementPolicyFor : logs.
Lemma logs_recordRuntimeObservation o i e d :
  allows "business.branch.runtime_observed" → logs Q (recordRuntimeObservation o i e d).
Proof. intros. unfold recordRuntimeObservation. logs_tac. Qed.
Lemma logs_settleDispatchEffect o cl i e k :
  allows (outbox_event_type cl) → logs Q (settleDispatchEffect o cl i e k).
Proof. intros. unfold settleDispatchEffect. logs_tac. Qed.
Lemma logs_recordRecoveryProbe o e :
  allows "business.recovery_probe.recorded" → logs Q (recordRecoveryProbe o e).
Proof. intros. unfold recordRecoveryProbe. logs_tac. Qed.
Lemma logs_branch_result st extra : logs Q (branch_result st extra).
Proof. unfold branch_result, status_field. logs_tac. Qed.
Lemma logs_current_branch_result ref extra : logs Q (current_branch_result ref extra).
Proof. unfold current_branch_result, status_field, current_state_field. logs_tac. Qed.
End Shared.
#[export] Hint Resolve logs_transitionBranch logs_transitionWorkOrder logs_recompute
  logs_openAttention logs_quarantine logs_settlementPolicyFor logs_recordRuntimeObservation
  logs_settleDispatchEffect logs_recordRecoveryProbe logs_branch_result
  logs_current_branch_result : logs.

(** ** Every decider *)

(** The events any decision may emit, those of commands and those of observations. *)
Definition BASE_EVENTS : list string :=
  ["business.work_order.status_changed"; "business.branch.attempt_opened";
   "business.branch.status_changed"; "business.outbox.enqueued"; "business.outbox.cancelled";
   "business.attention.opened"; "business.attention.resolved"].
Definition COMMAND_EVENTS : list string := BASE_EVENTS ++
  ["business.work_order.created"; "business.context_budget.verified";
   "business.branch.initialized"; "business.acceptance.recorded"].
Definition OBSERVATION_EVENTS : list string := BASE_EVENTS ++
  ["business.branch.runtime_observed"; "business.verification.recorded";
   "business.review.recorded"; "business.late_observation.quarantined";
   "business.recovery_probe.recorded"; "business.outbox.delivered"; "business.outbox.not_sent";
   "business.outbox.delivery_unknown"; "business.outbox.send_expired"].

Section All.
Context `{Sha256} {env : Env} (Q : list Event → Prop).

(** The log may hold the events of these types. *)
Definition logs_types (types : list string) : Prop :=
  ∀ type, type ∈ types → ∀ specific evidence, logs Q (emit type specific evidence).

Lemma logs_types_app l k : logs_types (l ++ k) → logs_types l.
Proof. intros Hl type Ht. apply Hl, elem_of_app. by left. Qed.

Lemma logs_types_emit types type specific evidence :
  logs_types types → includes types type = true → logs Q (emit type specific evidence).
Proof. intros Hl Ht. by apply Hl, includes_true. Qed.

Section Base.
Context (Hbase : logs_types BASE_EVENTS).
#[local] Hint Extern 2 (logs _ (emit _ _ _)) => apply (logs_types_emit _ _ _ _ Hbase); reflexivity : logs.

Lemma logs_openAttempt ref p : logs Q (openAttempt ref p).
Proof. unfold openAttempt. logs_tac. Qed.
#[local] Hint Resolve logs_openAttempt : logs.
Lemma logs_scheduleEligible e : logs Q (scheduleEligible e).
Proof. unfold scheduleEligible, releaseReadyBranches. logs_tac. Qed.
Lemma logs_successor r p e reason : logs Q (enqueueStartGenerationSuccessor r p e reason).
Proof. unfold enqueueStartGenerationSuccessor. logs_tac. Qed.
Lemma logs_enqueueCancel r e : logs Q (enqueueCancel r e).
Proof. unfold enqueueCancel. logs_tac. Qed.
Lemma logs_resolveDeliveryAttention r e f i : logs Q (resolveDeliveryAttention r e f i).
Proof. unfold resolveDeliveryAttention. logs_tac. Qed.
Lemma logs_cancellationEffect b v k : logs Q (cancellationEffect b v k).
Proof. unfold cancellationEffect. logs_tac. Qed.
#[local] Hint Resolve logs_scheduleEligible logs_successor logs_enqueueCancel
  logs_resolveDeliveryAttention logs_cancellationEffect : logs.

Lemma logs_status_field : logs Q status_field.
Proof. unfold status_field. logs_tac. Qed.
Lemma logs_acceptVerifiedBranch r e reason : logs Q (acceptVerifiedBranch r e reason).
Proof. unfold acceptVerifiedBranch. logs_tac. Qed.
End Base.
#[local] Hint Resolve logs_openAttempt logs_scheduleEligible logs_successor logs_enqueueCancel
  logs_resolveDeliveryAttention logs_cancellationEffect logs_status_field
  logs_acceptVerifiedBranch : logs.

Lemma logs_commandRevision s c : logs Q (commandRevision s c).
Proof. unfold commandRevision. logs_tac. Qed.
#[local] Hint Resolve logs_commandRevision : logs.

Section Observations.
Context (Htypes : logs_types OBSERVATION_EVENTS).
Let Hbase : logs_types BASE_EVENTS := logs_types_app _ _ Htypes.
#[local] Hint Resolve Hbase : logs.
#[local] Hint Extern 2 (logs _ (emit _ _ _)) => apply (logs_types_emit _ _ _ _ Htypes); reflexivity : logs.
Lemma logs_settlement_emit c specific evidence : logs Q (emit (outbox_event_type c) specific evidence).
Proof. apply (logs_types_emit _ _ _ _ Htypes). by destruct c. Qed.
#[local] Hint Resolve logs_settlement_emit : logs.

Lemma logs_observeStartAccepted o r e k : logs Q (observeStartAccepted o r e k).
Proof. unfold observeStartAccepted, thread_created, stop_started_turn. logs_tac. Qed.
Lemma logs_observeNotSentStage o r e k : logs Q (observeNotSentStage o r e k).
Proof.
  unfold observeNotSentStage, not_sent_with_policy, not_sent_without_policy. logs_tac.
Qed.
Lemma logs_observeDeliveryUnknownStage o r e k : logs Q (observeDeliveryUnknownStage o r e k).
Proof. unfold observeDeliveryUnknownStage. logs_tac. Qed.
Lemma logs_observeExpiredSend o r k e : logs Q (observeExpiredSend o r k e).
Proof. unfold observeExpiredSend, expire_start. logs_tac. Qed.
Lemma logs_observeMutation o r k cl e : logs Q (observeMutation o r k cl e).
Proof.
  unfold observeMutation, mutation_accepted, mutation_not_sent, mutation_unknown,
    user_input_delivered. logs_tac.
Qed.
#[local] Hint Resolve logs_observeStartAccepted logs_observeNotSentStage
  logs_observeDeliveryUnknownStage logs_observeExpiredSend logs_observeMutation : logs.
Lemma logs_observeProviderEffectDelivery o b cl e :
  logs Q (observeProviderEffectDelivery o b cl e).
Proof. unfold observeProviderEffectDelivery. logs_tac. Qed.
Lemma logs_observePresendFailure o b e : logs Q (observePresendFailure o b e).
Proof. unfold observePresendFailure. logs_tac. Qed.
Lemma logs_observeTimedOut o r e : logs Q (observeTimedOut o r e).
Proof.
  unfold observeTimedOut, timed_out_dispatch, timed_out_turn, timed_out_user_input. logs_tac.
Qed.
#[local] Hint Resolve logs_observeProviderEffectDelivery logs_observePresendFailure
  logs_observeTimedOut : logs.

Lemma logs_decideObservation o : logs Q (decideObservation o).
Proof.
  unfold decideObservation, OBSERVATION_DECIDERS. logs_tac;
    unfold observeWorkOrderStarted, observeWorkOrderCancelled, observeProgress, observeResult,
      observeFailed, observeBranchCancelled, observeUserInput, observeVerification,
      observeReview, observeProviderAttention; logs_tac.
Qed.

End Observations.

Section Commands.
Context (Htypes : logs_types COMMAND_EVENTS).
Let Hbase : logs_types BASE_EVENTS := logs_types_app _ _ Htypes.
#[local] Hint Resolve Hbase : logs.
#[local] Hint Extern 2 (logs _ (emit _ _ _)) => apply (logs_types_emit _ _ _ _ Htypes); reflexivity : logs.

Lemma logs_cancel_branch facts r : logs Q (cancel_branch facts r).
Proof.
  unfold cancel_branch, cancel_dispatch, cancel_turn, cancel_user_input. logs_tac.
Qed.
#[local] Hint Resolve logs_cancel_branch : logs.

Lemma logs_startWorkOrder c : logs Q (startWorkOrder c).
Proof.
  intros ctx x ctx' Hrun. unfold startWorkOrder in Hrun. destruct (cx_state ctx); [done|].
  refine ((λ Hm : logs Q _, Hm ctx x ctx' Hrun) _). logs_tac.
Qed.
#[local] Hint Resolve logs_startWorkOrder : logs.

Lemma logs_decideCommand c : logs Q (decideCommand c).
Proof.
  intros ctx x ctx' Hrun. unfold decideCommand in Hrun.
  destruct (ce_payload c); [by apply logs_startWorkOrder in Hrun|..];
    destruct (cx_state ctx); try done; destruct (among _ _); try done;
    refine ((λ Hm : logs Q _, Hm ctx x ctx' Hrun) _);
    unfold cancelWorkOrder, resumeWorkOrder, retryBranch, resolveUserInput, recordAcceptance;
    logs_tac.
Qed.

End Commands.

Lemma logs_decide_input input :
  logs_types match input with InCommand _ => COMMAND_EVENTS | InObservation _ => OBSERVATION_EVENTS end →
  logs Q (decide_input input).
Proof.
  destruct input as [c|o]; intros Htypes; [by apply logs_decideCommand|]. intros ctx x ctx' Hrun.
  unfold decide_input in Hrun. destruct (cx_state ctx); [|done].
  by apply (logs_decideObservation Htypes) in Hrun.
Qed.
End All.

(** ** What every event says of itself *)

Section Provenance.
Context `{Sha256} {env : Env}.

(** The [i]-th event of a decision: it carries the common fields of its decision, its evidence is
    sorted and free of duplicates, and its identifier is the hash of its place and content. *)
Definition event_ok (i : nat) (e : Event) : Prop :=
  (∃ specific, ev_payload e = common_event_fields ++ specific)
  ∧ NoDup (ev_evidence_refs e) ∧ sort_text (ev_evidence_refs e) = ev_evidence_refs e
  ∧ event_id i (ev_type e) (ev_payload e) (ev_evidence_refs e) = Ok (ev_event_id e).

Definition log_ok (l : list Event) : Prop := ∀ i e, l !! i = Some e → event_ok i e.

Lemma emit_Ok type specific evidence c x c' :
  emit type specific evidence c = Ok (x, c') →
  ∃ refs id, referenceArray (str_list_json evidence) 0 = Ok refs
    ∧ event_id (length (cx_events c)) type (common_event_fields ++ specific) refs = Ok id
    ∧ cx_state c' = cx_state c
    ∧ cx_events c' = cx_events c ++ [{| ev_event_id := id; ev_type := type;
        ev_payload := common_event_fields ++ specific; ev_evidence_refs := refs |}].
Proof.
  intros (refs & c1 & [Hr ->]%mlift_Ok & H1)%mbind_Ok. cbv beta in H1.
  destruct (event_id _ _ _ _) as [id|] eqn:E; [|done]. injection H1 as <- <-. eauto 10.
Qed.

Lemma logs_emit_ok type specific evidence : logs log_ok (emit type specific evidence).
Proof.
  intros c x c' (refs & id & Hr & Hid & _ & ->)%emit_Ok HQ i e Hi.
  apply lookup_app_Some in Hi as [Hi|[Hlen Hi]]; [by apply HQ|].
  apply list_lookup_singleton_Some in Hi as [Hz <-].
  assert (i = length (cx_events c)) as -> by lia.
  apply referenceArray_Ok in Hr as (Hnd & Hs & _). split; [by eexists|done].
Qed.
End Provenance.
