(* ===== verification/WorkOrderExample.v ===== *)
(** A sample run of the decider, for the witnesses: a Work Order is started from the sample plan,
    and observations and commands are decided on the state that leaves. *)

From Stdlib Require Import ZArith Lia String.
From stdpp Require Import base tactics list strings option gmap.
From S2P Require Import Prelude JsString JsDate Json SettlementPolicy ContractBase PlanContract.
From S2P Require Import Envelope PlanProps EnvelopeProps WorkOrderState WorkOrderFacts.
From S2P Require Import WorkOrderContext WorkOrderEffects WorkOrderCore WorkOrderSettle.
From S2P Require Import WorkOrderObserve WorkOrderDelivery WorkOrderCommands WorkOrder.

#[export] Existing Instance checksum_sha.
#[local] Transparent iso_of_ms.

(** The sample plan, as a value. *)
Definition the_plan : Plan := Eval vm_compute in sample_plan.

(** An envelope of the sample Work Order. *)
Definition wo_envelope (version : Z) (id_field id_prefix revision_field actor name : string)
    (revision : Z) (payload : json) : json :=
  JObj [("version", JInt version); (id_field, hexid id_prefix 1);
        ("work_order_id", hexid "WO-" 2);
        ("plan_snapshot_ref", JStr (pl_plan_snapshot_id the_plan));
        ("plan_hash", JStr (pl_plan_hash the_plan)); (revision_field, JInt revision);
        ("actor", JObj [("type", JStr actor); ("actor_id", JStr "actor-1")]);
        ("name", JStr name); ("payload", payload);
        ("payload_hash", match canonicalHash payload with Ok h => JStr h | Err _ => JUndef end)].

Definition wo_command (actor : string) : string → Z → json → json :=
  wo_envelope 1 "command_id" "CMD-" "expected_work_order_revision" actor.
Definition wo_observation (actor : string) : string → Z → json → json :=
  wo_envelope 1 "observation_id" "OBS-" "work_order_revision" actor.

Definition at_time (t : Z) (facts : fields) : json :=
  JObj (("occurred_at", timestamp_json t) :: facts).

Definition start_time : Z := 1700000000000.

(** *** The first decision *)

Definition start_command : json := wo_command "orchestrator" "work_order.start" 0 (JObj []).

Definition start_facts : json := at_time start_time
  [("plan", plan_json the_plan);
   ("branch_criterion_ids", JObj (map (λ r, (r, str_list_json ["tests-pass"])) ["a"; "b"; "merge"]));
   ("context_budget_receipt",
     JObj [("budget_tokens", JInt 1000); ("duplicate_context_tokens", JInt 10);
           ("evidence_refs", str_list_json ["budget-evidence"])]);
   ("dispatch_packet", sample_ref "packet-1")].

(** A decision that is expected to succeed; a failed one leaves the empty Work Order. *)
Definition decided_on (state : option State) (input facts : json) : Result * Ctx :=
  match decide_context state input facts with
  | Ok run => run
  | Err _ => ([], {| cx_state := None; cx_events := []; cx_settlementPolicy := None;
                     cx_recoveryProbeLedger := None |})
  end.
Definition decided (s : State) : json → json → Result * Ctx := decided_on (Some s).

(** The effect of the last event a decision emits. *)
Definition last_effect (run : Result * Ctx) : fields :=
  match last (cx_events run.2) with
  | Some e => match get "effect" (ev_payload e) with JObj f => f | _ => [] end
  | None => []
  end.

(** The effect as the trusted facts report it: its identity, its status and the worker's lease. *)
Definition effect_fact (effect : fields) (status : string) (token : json) : json :=
  JObj (map (λ k, (k, get k effect)) V2_EFFECT_IDENTITY_FIELDS
    ++ [("status", JStr status); ("fencing_token", token)]).

Definition lease : json :=
  JObj [("lease_id", JStr "lease-1"); ("owner_id", JStr "worker"); ("generation", JInt 1)].

Definition principal (actor : string) : string * json :=
  ("authenticated_principal", JObj [("id", JStr "actor-1"); ("type", JStr actor)]).

Definition observed (actor : string) (facts : fields) : fields :=
  principal actor :: ("observation_evidence_refs", str_list_json ["evidence-1"]) :: facts.

Definition binding_fields (effect : fields) : fields :=
  map (λ k, (k, get k effect))
    ["effect_id"; "effect_contract_version"; "effect_kind"; "branch_ref"; "attempt"; "dispatch_id"].

Definition first_run : Result * Ctx := Eval vm_compute in decided_on None start_command start_facts.

(** A state that no run leaves, for the default case. *)
Definition no_state : State :=
  {| st_work_order_id := ""; st_engine_contract_version := 0; st_plan_snapshot_ref := "";
     st_plan_hash := ""; st_plan := the_plan; st_revision := 0; st_status := WFailed;
     st_created_at := 0; st_started_at := None; st_deadline_at := 0; st_stop_reason := None;
     st_branches := ∅; st_attention := ∅; st_context_budget := None; st_reviews := ∅;
     st_decision := None; st_decision_history := None |}.

Definition left_state (run : Result * Ctx) : State := default no_state (cx_state run.2).

(** After the start: branch [a] waits for its thread. *)
Definition state1 : State := Eval vm_compute in left_state first_run.

(** *** The thread is created, or its creation is in doubt *)

Definition thread_effect : fields := Eval vm_compute in last_effect first_run.

Definition thread_observation (classification : string) : json :=
  wo_observation "runtime" "provider.effect.delivery.recorded" 1
    (JObj (binding_fields thread_effect ++ [("classification", JStr classification)])).

Definition thread_facts : json := at_time (start_time + 5000)
  (observed "runtime"
    [("delivery_effect", effect_fact thread_effect "sending" lease);
     ("runtime_identity", JObj [("operation_id", JStr "op-1"); ("thread_id", JStr "thread-1")]);
     ("attention_detail_ref", sample_ref "detail-1")]).

Definition thread_run : Result * Ctx := Eval vm_compute in decided state1 (thread_observation "accepted") thread_facts.

(** The thread is known: the turn waits to be started. *)
Definition state2 : State := Eval vm_compute in left_state thread_run.
Definition turn_effect : fields := Eval vm_compute in last_effect thread_run.

Definition turn_observation : json :=
  wo_observation "runtime" "provider.effect.delivery.recorded" 1
    (JObj (binding_fields turn_effect ++ [("classification", JStr "accepted")])).

Definition turn_facts : json := at_time (start_time + 6000)
  (observed "runtime"
    [("delivery_effect", effect_fact turn_effect "sending" lease);
     ("runtime_identity", JObj [("operation_id", JStr "op-2"); ("thread_id", JStr "thread-1");
                                ("turn_id", JStr "turn-1")])]).

Definition turn_run : Result * Ctx := Eval vm_compute in decided state2 turn_observation turn_facts.

(** The turn runs. *)
Definition state3 : State := Eval vm_compute in left_state turn_run.

Definition result_observation : json :=
  wo_observation "provider" "branch.result.submitted" 1
    (JObj [("branch_ref", JStr "a"); ("attempt", JInt 1); ("artifact_refs", JArr [sample_ref "art"]);
           ("evidence_refs", str_list_json ["evidence-2"])]).

Definition result_facts : json := at_time (start_time + 7000) (observed "provider" []).

Definition result_run : Result * Ctx := Eval vm_compute in decided state3 result_observation result_facts.

(** The result waits to be verified. *)
Definition state4 : State := Eval vm_compute in left_state result_run.

Definition result_hash : json :=
  match st_branches state4 !! "a" ≫= br_result with
  | Some r => match canonicalHash (result_json r) with Ok h => JStr h | Err _ => JUndef end
  | None => JUndef
  end.

Definition verification_observation (status : string) : json :=
  wo_observation "verifier" "verification.recorded" 1
    (JObj [("branch_ref", JStr "a"); ("criterion_id", JStr "tests-pass");
           ("verification_ref", sample_ref "verify-1"); ("kind", JStr "deterministic");
           ("status", JStr status); ("evidence_refs", str_list_json ["evidence-3"])]).

Definition verification_facts : json := at_time (start_time + 8000)
  (observed "verifier" [("current_result_hash", result_hash);
                        ("dispatch_packet", sample_ref "packet-2")]).

Definition verification_run : Result * Ctx := Eval vm_compute in 
  decided state4 (verification_observation "passed") verification_facts.

(** Branch [a] is accepted and [b] is dispatched. *)
Definition state5 : State := Eval vm_compute in left_state verification_run.

Example state5_branches :
  map (λ r, br_state <$> st_branches state5 !! r) ["a"; "b"; "merge"]
  = [Some BAccepted; Some BDispatchPending; Some BBlocked].
Proof. vm_compute. reflexivity. Qed.

(** *** The rest of the run *)

Definition delivery (effect : fields) (classification : string) : json :=
  wo_observation "runtime" "provider.effect.delivery.recorded" 1
    (JObj (binding_fields effect ++ [("classification", JStr classification)])).

Definition delivery_facts (t : Z) (effect : fields) (identity : fields) : json := at_time t
  (observed "runtime"
    [("delivery_effect", effect_fact effect "sending" lease);
     ("runtime_identity", JObj (("thread_id", JStr "thread-1") :: identity))]).

Definition current_result_hash (s : State) (ref : string) : json :=
  match st_branches s !! ref ≫= br_result with
  | Some r => match canonicalHash (result_json r) with Ok h => JStr h | Err _ => JUndef end
  | None => JUndef
  end.

(** The branch whose thread is pending is driven to a verified result. *)
Definition drive (ref : string) (t : Z) (run : Result * Ctx) : Result * Ctx :=
  let run := decided (left_state run) (delivery (last_effect run) "accepted")
    (delivery_facts t (last_effect run) [("operation_id", JStr "op-1")]) in
  let run := decided (left_state run) (delivery (last_effect run) "accepted")
    (delivery_facts (t + 1000) (last_effect run)
      [("operation_id", JStr "op-2"); ("turn_id", JStr "turn-1")]) in
  let run := decided (left_state run)
    (wo_observation "provider" "branch.result.submitted" 1
      (JObj [("branch_ref", JStr ref); ("attempt", JInt 1);
             ("artifact_refs", JArr [sample_ref "art"]);
             ("evidence_refs", str_list_json ["evidence-2"])]))
    (at_time (t + 2000) (observed "provider" [])) in
  decided (left_state run)
    (wo_observation "verifier" "verification.recorded" 1
      (JObj [("branch_ref", JStr ref); ("criterion_id", JStr "tests-pass");
             ("verification_ref", sample_ref "verify-1"); ("kind", JStr "deterministic");
             ("status", JStr "passed"); ("evidence_refs", str_list_json ["evidence-3"])]))
    (at_time (t + 3000) (observed "verifier"
      [("current_result_hash", current_result_hash (left_state run) ref);
       ("dispatch_packet", sample_ref ("packet-" ++ ref))])).

Definition second_run : Result * Ctx := Eval vm_compute in drive "b" (start_time + 10000) verification_run.
Definition merge_run : Result * Ctx := Eval vm_compute in drive "merge" (start_time + 20000) second_run.

(** The integration branch is verified and waits for its review. *)
Definition state6 : State := Eval vm_compute in left_state merge_run.

Definition review_observation (status : string) : json :=
  wo_observation "verifier" "review.recorded" 1
    (JObj [("branch_ref", JStr "merge"); ("review_id", JStr "review-1"); ("status", JStr status);
           ("findings", JObj [("critical", JInt 0); ("important", JInt 0); ("minor", JInt 1)]);
           ("evidence_refs", str_list_json ["evidence-4"])]).

Definition review_facts : json := at_time (start_time + 30000)
  (observed "verifier" [("current_result_hash", current_result_hash state6 "merge")]).

Definition review_run : Result * Ctx :=
  Eval vm_compute in decided state6 (review_observation "accepted") review_facts.

(** The outcome awaits the decision of the user. *)
Definition state7 : State := Eval vm_compute in left_state review_run.

Definition acceptance_command (decision : string) : json :=
  wo_command "user" "acceptance.decision.record" 1
    (JObj [("decision", JStr decision); ("evidence_refs", str_list_json ["evidence-5"]);
           ("comment", JStr "Fine")]).

Definition user_facts (t : Z) : json := at_time t [principal "user"].

Definition acceptance_run : Result * Ctx :=
  Eval vm_compute in decided state7 (acceptance_command "accepted") (user_facts (start_time + 40000)).

(** The Work Order is accepted. *)
Definition state8 : State := Eval vm_compute in left_state acceptance_run.

Example sample_statuses :
  map st_status [state1; state6; state7; state8]
  = [WStarting; WRunning; WAwaitingAcceptance; WAccepted].
Proof. vm_compute. reflexivity. Qed.

(** *** Inputs and facts as the decider receives them *)



Lemma start_input_ok : is_ok (normalizeCommandEnvelopeV1 start_command) = true.
Proof. vm_compute. reflexivity. Defined.
Definition start_input : CommandEnvelope := Eval vm_compute in ok_get _ start_input_ok.

Lemma acceptance_input_ok : is_ok (normalizeCommandEnvelopeV1 (acceptance_command "accepted")) = true.
Proof. vm_compute. reflexivity. Defined.
Definition acceptance_input : CommandEnvelope := Eval vm_compute in ok_get _ acceptance_input_ok.

Lemma thread_input_ok : is_ok (normalizeBusinessRuntimeObservationEnvelope (thread_observation "accepted")) = true.
Proof. vm_compute. reflexivity. Defined.
Definition thread_input : ObservationEnvelope := Eval vm_compute in ok_get _ thread_input_ok.

Lemma unknown_input_ok : is_ok (normalizeBusinessRuntimeObservationEnvelope (thread_observation "delivery_unknown")) = true.
Proof. vm_compute. reflexivity. Defined.
Definition unknown_input : ObservationEnvelope := Eval vm_compute in ok_get _ unknown_input_ok.

Lemma verification_input_ok : is_ok (normalizeBusinessRuntimeObservationEnvelope (verification_observation "passed")) = true.
Proof. vm_compute. reflexivity. Defined.
Definition verification_input : ObservationEnvelope := Eval vm_compute in ok_get _ verification_input_ok.

(** The trusted facts with their time. *)
Definition trusted (facts : json) : fields * Z :=
  match normalizeTrustedFacts facts with Ok fs => fs | Err _ => ([], 0%Z) end.

Lemma start_step :
  decide_input (env := create_env None (InCommand start_input) (trusted start_facts))
    (InCommand start_input) (create_ctx None) = Ok (first_run.1, first_run.2).
Proof. vm_compute. reflexivity. Qed.

Lemma thread_step :
  decide_input (env := create_env (Some state1) (InObservation thread_input) (trusted thread_facts))
    (InObservation thread_input) (create_ctx (Some state1)) = Ok (thread_run.1, thread_run.2).
Proof. vm_compute. reflexivity. Qed.

Lemma verification_step :
  decide_input
    (env := create_env (Some state4) (InObservation verification_input) (trusted verification_facts))
    (InObservation verification_input) (create_ctx (Some state4)) = Ok (verification_run.1, verification_run.2).
Proof. vm_compute. reflexivity. Qed.
