(* ===== verification/WorkOrderTheorems.v ===== *)
(** What a decision guarantees: the theorems about [decideWorkOrderV1] and the deciders behind it,
    and what single operations guarantee: acceptance, attempts and the effect they enqueue. *)

From Stdlib Require Import ZArith Lia String.
From stdpp Require Import base tactics list strings option gmap relations.
From S2P Require Import Prelude JsString JsDate Json SettlementPolicy ContractBase PlanContract.
From S2P Require Import PlanGraph PlanProps Envelope EnvelopeProps WorkOrderState WorkOrderFacts.
From S2P Require Import WorkOrderContext WorkOrderEffects WorkOrderCore WorkOrderSettle.
From S2P Require Import WorkOrderObserve WorkOrderDelivery WorkOrderCommands WorkOrder.
From S2P Require Import WorkOrderSpec WorkOrderLogic WorkOrderRefine WorkOrderSafety.
From S2P Require Import WorkOrderEvents WorkOrderExample.

Section Start.
Context `{Sha256} {env : Env}.
Implicit Types (a : Abstract).

Definition fresh_branch (p : PlanBranch) : AbstractBranch :=
  {| ab_planned := p; ab_state := initial_state p; ab_attempt := 0; ab_deadline := None |}.

Definition add_branch (p : PlanBranch) (a : Abstract) : Abstract :=
  set_abranches (<[pb_branch_ref p := fresh_branch p]> (as_branches a)) a.

(** The loop of [startWorkOrder] over the planned branches. *)
Lemma tri_add_branch planned criteria specific a (Q : unit → Abstract → Prop) :
  Q tt (add_branch planned a) →
  tri a (let! _ := emit "business.branch.initialized" specific [] in
         modifyState (λ s, set_st_branches
           (<[pb_branch_ref planned := initial_branch planned criteria]> (st_branches s)) s)) Q.
Proof.
  intros HQ. apply tri_bind, tri_quiet; [quiet_tac|]. intros _.
  intros c [] c' (s & Hs & <-)%abs_Some (s' & c1 & [Hs' ->]%getState_Ok & [= <-])%mbind_Ok.
  rewrite Hs in Hs'. injection Hs' as ->. eexists. split; [|exact HQ].
  unfold abs. simpl. f_equal. unfold alpha, add_branch, set_abranches. simpl. f_equal.
  by rewrite fmap_insert.
Qed.

Definition add_branches (l : list PlanBranch) (a : Abstract) : Abstract :=
  foldl (λ a p, add_branch p a) a l.

Lemma tri_add_branches (specific : PlanBranch → fields) (criteria : PlanBranch → list string)
    l a (Q : unit → Abstract → Prop) :
  Q tt (add_branches l a) →
  tri a (forM (λ planned,
    let! _ := emit "business.branch.initialized" (specific planned) [] in
    modifyState (λ s, set_st_branches (<[pb_branch_ref planned :=
      initial_branch planned (criteria planned)]> (st_branches s)) s)) l) Q.
Proof.
  revert a. induction l as [|p l IH]; intros a HQ; simpl; [by apply tri_ret|].
  apply tri_bind, tri_add_branch. by apply IH.
Qed.

Lemma add_branches_fixed l a :
  as_fixed (add_branches l a) = as_fixed a ∧ as_status (add_branches l a) = as_status a.
Proof. revert a. induction l as [|p l IH]; intros a; [done|]. apply (IH (add_branch p a)). Qed.

Lemma add_branches_lookup l a :
  NoDup (map pb_branch_ref l) → (∀ p, p ∈ l → as_branches a !! pb_branch_ref p = None) →
  ∀ k b, as_branches (add_branches l a) !! k = Some b ↔
    as_branches a !! k = Some b ∨ (∃ p, p ∈ l ∧ k = pb_branch_ref p ∧ b = fresh_branch p).
Proof.
  revert a. induction l as [|p l IH]; intros a Hnd Hnone k b.
  { split; [by left|]. intros [?|(p & Hin & _)]; [done|]. by apply not_elem_of_nil in Hin. }
  apply NoDup_cons in Hnd as [Hn Hnd]. simpl. rewrite IH; [|done|].
  - simpl. rewrite lookup_insert_Some. split.
    + intros [[[<- <-]|[Hne Hb]]|(q & Hq & -> & ->)]; [|by left|].
      * right. exists p. split_and!; [by left|done|done].
      * right. exists q. split_and!; [by right|done|done].
    + intros [Hb|(q & [->|Hq]%elem_of_cons & -> & ->)].
      * left. right. split; [|done]. intros <-. by rewrite (Hnone p) in Hb by left.
      * left. by left.
      * right. by exists q.
  - intros q Hq. simpl. rewrite lookup_insert_ne; [apply Hnone; by right|].
    intros E. apply Hn. rewrite E. by apply list_elem_of_fmap_2.
Qed.

(** The fresh Work Order of a plan satisfies the invariant. *)
Lemma fresh_Inv (plan : Plan) (f : Fixed) :
  plan_wf plan → fx_plan f = plan →
  Inv (add_branches (pl_branches plan)
    {| as_fixed := f; as_status := WStarting; as_branches := ∅ |}).
Proof.
  intros Hwf Hf. set (a0 := {| as_fixed := f; as_status := WStarting; as_branches := ∅ |}).
  destruct (add_branches_fixed (pl_branches plan) a0) as [Hfix Hst].
  assert (∀ k b, as_branches (add_branches (pl_branches plan) a0) !! k = Some b →
    ∃ p, p ∈ pl_branches plan ∧ k = pb_branch_ref p ∧ b = fresh_branch p) as Hlook.
  { intros k b Hb. apply add_branches_lookup in Hb as [Hb|Hb]; [done|done|apply Hwf|done]. }
  assert (∀ p, initial_state p ∈ [BReady; BBlocked]) as Hinit.
  { intros p. unfold initial_state. case_match; by apply (bool_decide_unpack _). }
  split.
  - intros k b (p & _ & -> & ->)%Hlook. done.
  - unfold slots, capacity, as_plan. rewrite Hfix. simpl. rewrite Hf.
    replace (filter slot_of _) with (∅ : gmap string AbstractBranch).
    + rewrite map_size_empty. pose proof (pw_concurrency _ Hwf). lia.
    + symmetry. apply map_empty_filter_2. intros k b (p & _ & -> & ->)%Hlook.
      unfold slot_of, holds_slot. simpl. specialize (Hinit p). revert Hinit.
      generalize (initial_state p). enum_cases.
  - intros k b (p & _ & -> & ->)%Hlook. unfold attempt_ok, max_attempts, as_plan. rewrite Hfix.
    simpl. rewrite Hf. pose proof (pw_retry _ Hwf) as Hr. split_and!; [lia| |done|].
    + destruct Hr. lia.
    + intros Hu. exfalso. apply Hu. revert Hinit. clear. intros Hinit. specialize (Hinit p).
      revert Hinit. generalize (initial_state p). enum_cases.
  - intros k b (p & _ & -> & ->)%Hlook Hn d Hd. exfalso. simpl in *. unfold initial_state in Hn.
    destruct (pb_dependencies p); [by apply not_elem_of_nil in Hd|]. apply Hn. by left.
  - rewrite Hst. intros Ht. by apply (bool_decide_pack _) in Ht.
Qed.

(** The abstract Work Order [startWorkOrder] builds before it schedules. *)
Definition blank (workOrderId : string) (plan : Plan) (deadline : Z) : Abstract :=
  {| as_fixed := {| fx_work_order_id := workOrderId;
                    fx_engine_contract_version := BUSINESS_ENGINE_CONTRACT_VERSION;
                    fx_plan_snapshot_ref := pl_plan_snapshot_id plan;
                    fx_plan_hash := pl_plan_hash plan; fx_plan := plan; fx_revision := 1;
                    fx_created_at := occurred_at; fx_deadline_at := deadline |};
     as_status := WStarting; as_branches := ∅ |}.

Definition fresh (workOrderId : string) (plan : Plan) (deadline : Z) : Abstract :=
  add_branches (pl_branches plan) (blank workOrderId plan deadline).

Lemma start_run (c : CommandEnvelope) ctx x ctx' :
  cx_state ctx = None → startWorkOrder c ctx = Ok (x, ctx') →
  ∃ plan s', normalizeBusinessWorkOrderPlanV1 (fact "plan") = Ok plan
    ∧ cx_state ctx' = Some s'
    ∧ asteps occurred_at
        (fresh (ei_work_order_id (ce_identity c)) plan
          (occurred_at + rp_max_elapsed_ms (pl_retry_policy plan))) (alpha s').
Proof.
  intros Hs Hrun. unfold startWorkOrder in Hrun. rewrite Hs in Hrun.
  apply mbind_Ok in Hrun as (_ & c1 & _ & Hrun).
  destruct (normalizeBusinessWorkOrderPlanV1 (fact "plan")) as [plan|] eqn:Hplan; [|done].
  apply mbind_Ok in Hrun as (p & c2 & [= <- <-] & Hrun). destruct (_ || _); [done|].
  apply mbind_Ok in Hrun as (bindings & c2 & [_ ->]%mlift_Ok & Hrun).
  apply mbind_Ok in Hrun as (receipt & c2 & [_ ->]%mlift_Ok & Hrun).
  apply mbind_Ok in Hrun as (deadline & c2 & [Hd ->]%mlift_Ok & Hrun).
  apply addMilliseconds_Ok in Hd as ->.
  apply mbind_Ok in Hrun as (_ & c2 & _ & Hrun).
  apply mbind_Ok in Hrun as (u & c3 & [= Hu Hc3] & Hrun).
  assert (abs c3 = Some (blank (ei_work_order_id (ce_identity c)) plan
    (occurred_at + rp_max_elapsed_ms (pl_retry_policy plan)))) as Ha3.
  { rewrite <- Hc3. unfold abs, alpha. simpl. by rewrite fmap_empty. }
  clear Hc3. exists plan.
  eapply (tri_use _ _ _ _ _ (λ _, asteps occurred_at (fresh (ei_work_order_id (ce_identity c)) plan
      (occurred_at + rp_max_elapsed_ms (pl_retry_policy plan)))) Hrun) in Ha3
    as (a' & Ha' & Hst).
  - apply abs_Some in Ha' as (s' & Hs' & <-). by exists s'.
  - apply tri_bind, tri_quiet; [quiet_tac|]. intros _.
    apply tri_bind, (tri_add_branches (λ p, _) (λ p, _)).
    match goal with |- tri (add_branches _ (blank ?w ?p ?d)) _ _ =>
      change (safe (fresh w p d) (let! dispatched := scheduleEligible [] in
        mret [("status", JStr "starting"); ("work_order_revision", JInt 1);
              ("dispatched_branch_refs", str_list_json dispatched)])) end.
    apply safe_before; [|intros; quiet_tac]. apply safe_scheduleEligible.
    apply inv_keyed. apply fresh_Inv; [by eapply accepted_plan_wf|done].
Qed.
End Start.

(** * The promises *)

(** ** Decisions on an existing Work Order *)

Section Decisions.
Context `{Sha256}.

(** The decision [i] with the trusted [facts] on the state [s] succeeds and leaves [s']. *)
Definition decides (s : State) (i : Input) (facts : fields * Z) (s' : State) (events : list Event)
    : Prop :=
  ∃ r c', decide_input (env := create_env (Some s) i facts) i (create_ctx (Some s)) = Ok (r, c')
    ∧ cx_state c' = Some s' ∧ cx_events c' = events.

(** An expired send of a start effect names a branch that still waits for it. *)
Definition sends_are_current (s : State) (i : Input) (facts : fields * Z) : Prop :=
  match i with
  | InCommand _ => True
  | InObservation o => sends_current (env := create_env (Some s) i facts) o (alpha s)
  end.

Lemma decision_steps s i facts r c' :
  Inv (alpha s) → sends_are_current s i facts →
  decide_input (env := create_env (Some s) i facts) i (create_ctx (Some s)) = Ok (r, c') →
  ∃ s', cx_state c' = Some s' ∧ asteps facts.2 (alpha s) (alpha s').
Proof.
  intros [Hk Hcap _ _ _] Hsend Hrun. set (env := create_env (Some s) i facts) in *.
  assert (∃ a', abs c' = Some a' ∧ asteps facts.2 (alpha s) a') as (a' & Ha' & Hst).
  - destruct i as [c|o]; simpl in Hrun.
    + destruct (decide (command_name c = NStart)) as [E|E].
      { unfold decideCommand, command_name in *. by destruct (ce_payload c). }
      by apply (tri_use _ _ _ _ _ _ Hrun eq_refl (safe_decideCommand c (alpha s) E Hk)).
    + by apply (tri_use _ _ _ _ _ _ Hrun eq_refl
        (safe_decideObservation o (alpha s) Hk Hcap Hsend)).
  - apply abs_Some in Ha' as (s' & Hs' & <-). eauto.
Qed.

Lemma decides_run s i facts s' events :
  Inv (alpha s) → sends_are_current s i facts → decides s i facts s' events →
  asteps facts.2 (alpha s) (alpha s') ∧ Inv (alpha s').
Proof.
  intros HI Hsend (r & c' & Hrun & Hs' & _).
  destruct (decision_steps _ _ _ _ _ HI Hsend Hrun) as (s1 & Hs1 & Hst). simplify_eq.
  eauto using Inv_steps.
Qed.

Lemma alpha_lookup s ref b :
  st_branches s !! ref = Some b → as_branches (alpha s) !! ref = Some (view b).
Proof. intros Hb. simpl. by rewrite lookup_fmap, Hb. Qed.

Lemma alpha_lookup_inv s ref v :
  as_branches (alpha s) !! ref = Some v → ∃ b, st_branches s !! ref = Some b ∧ v = view b.
Proof. simpl. rewrite lookup_fmap. destruct (_ !! ref); intros; simplify_eq/=. eauto. Qed.

(** C1: every decision refines the abstract machine: a command or an observation decided on a
    state of a Work Order that satisfies the invariant leaves a state that the legal moves reach
    (status changes along [status_edge], branch changes along [branch_edge], a branch released
    when its dependencies are accepted, an attempt opened only on a free slot, within the
    plan's attempts and before the deadline), and that satisfies the invariant again.  The
    condition [sends_are_current] concerns only observations with an expiry fact: the branch of an
    expired start effect still waits for that start.  The decider does not check it, and without
    it an expiry moves any branch to an unknown delivery. *)
Theorem decision_refines s i facts r c' :
  Inv (alpha s) → sends_are_current s i facts →
  decide_input (env := create_env (Some s) i facts) i (create_ctx (Some s)) = Ok (r, c') →
  ∃ s', cx_state c' = Some s' ∧ asteps facts.2 (alpha s) (alpha s') ∧ Inv (alpha s').
Proof.
  intros HI Hsend Hrun. destruct (decision_steps _ _ _ _ _ HI Hsend Hrun) as (s' & Hs' & Hst).
  eauto using Inv_steps.
Qed.

(** C19: no decision on a state that satisfies the invariant exceeds the plan's concurrency: the
    branches that occupy the provider (a start pending or in doubt, a turn running, waiting or
    being cancelled) stay within [max_concurrency] - provided that an expiry fact about a start
    effect names a branch that still waits for it. *)
Theorem decision_concurrency s i facts s' events :
  Inv (alpha s) → sends_are_current s i facts → decides s i facts s' events →
  (activeSlotCount s' <= pl_max_concurrency (st_plan s'))%Z.
Proof.
  intros HI Hsend [_ HI']%decides_run; [|done..]. rewrite activeSlotCount_slots.
  exact (inv_slots _ HI').
Qed.

(** C21: a decision on a state that satisfies the invariant keeps the plan, the deadline and the
    set of branches; the attempts of a branch only grow and stay within the plan's, and an accepted
    or cancelled branch is final - provided that an expiry fact about a start effect names a branch
    that still waits for it. *)
Theorem decision_branches s i facts s' events ref b :
  Inv (alpha s) → sends_are_current s i facts → decides s i facts s' events →
  st_branches s !! ref = Some b →
  st_plan s' = st_plan s ∧ st_deadline_at s' = st_deadline_at s
  ∧ ∃ b', st_branches s' !! ref = Some b' ∧ br_planned b' = br_planned b
    ∧ (br_attempt b <= br_attempt b' <= rp_max_attempts (pl_retry_policy (st_plan s)))%Z
    ∧ (br_state b ∈ [BAccepted; BCancelled] →
        br_state b' = br_state b ∧ br_attempt b' = br_attempt b).
Proof.
  intros HI Hsend [Hsteps HI']%decides_run Hb; [|done..].
  pose proof (evolves_steps _ _ _ Hsteps) as (Hfix & _ & Hev).
  injection Hfix as Hwo Hver Hsnap Hhash Hplan Hrev Hcr Hdl.
  destruct (Hev _ _ (alpha_lookup _ _ _ Hb)) as (v & Hv & Hp & Ha & Hf).
  destruct (inv_attempts _ HI' _ _ Hv) as ((_ & Hmax) & _).
  apply alpha_lookup_inv in Hv as (b' & Hb' & ->). split_and!; try done.
  exists b'. unfold max_attempts, as_plan in Hmax. simpl in *. rewrite Hplan in Hmax.
  split_and!; try done. intros Hin. specialize (Hf Hin). by injection Hf.
Qed.

(** C20: the dependency order is respected: in the state a decision leaves on a state that
    satisfies the invariant, every branch whose work began (it is neither blocked nor cancelled)
    has only accepted dependencies - provided that an expiry fact about a start effect names a
    branch that still waits for it. *)
Theorem decision_dependency_order s i facts s' events ref b d :
  Inv (alpha s) → sends_are_current s i facts → decides s i facts s' events →
  st_branches s' !! ref = Some b → br_state b ∉ [BBlocked; BCancelled] →
  d ∈ br_dependencies b →
  ∃ b', st_branches s' !! d = Some b' ∧ br_state b' = BAccepted.
Proof.
  intros HI Hsend [_ HI']%decides_run Hb Hst Hd; [|done..].
  destruct (inv_dependencies _ HI' _ _ (alpha_lookup _ _ _ Hb) Hst d Hd) as (v & Hv & Hacc).
  apply alpha_lookup_inv in Hv as (b' & Hb' & ->). eauto.
Qed.

(** C22: the status is earned: a decision on a state that satisfies the invariant never fails a
    Work Order, it accepts one only when every branch is accepted, and it cancels one only when every
    branch is finished - provided that an expiry fact about a start effect names a branch that still
    waits for it. *)
Theorem decision_status s i facts s' events :
  Inv (alpha s) → sends_are_current s i facts → decides s i facts s' events →
  (st_status s ≠ WFailed → st_status s' ≠ WFailed)
  ∧ (st_status s' = WAccepted → ∀ ref b, st_branches s' !! ref = Some b → br_state b = BAccepted)
  ∧ (st_status s' = WCancelled → ∀ ref b, st_branches s' !! ref = Some b →
      br_state b ∈ TERMINAL_BRANCH_STATES).
Proof.
  intros HI Hsend [Hsteps HI']%decides_run; [|done..]. split; [|split].
  - exact (never_failed_steps _ _ _ Hsteps).
  - intros Hst ref b Hb. pose proof (inv_status _ HI') as Hg. simpl in Hg. rewrite Hst in Hg.
    apply list_elem_of_singleton. apply (Hg ltac:(by apply (bool_decide_unpack _)) ref (view b)).
    by apply alpha_lookup.
  - intros Hst ref b Hb. pose proof (inv_status _ HI') as Hg. simpl in Hg. rewrite Hst in Hg.
    apply (Hg ltac:(by apply (bool_decide_unpack _)) ref (view b)). by apply alpha_lookup.
Qed.
End Decisions.

(** ** The first decision *)

Section First.
Context `{Sha256}.

(** C18: a start command establishes the invariant: the Work Order it leaves holds exactly the
    branches of the accepted plan, satisfies the invariant, starts in [starting], and its
    deadline is the plan's elapsed limit from now. *)
Theorem start_establishes c facts r c' :
  command_name c = NStart →
  decide_input (env := create_env None (InCommand c) facts) (InCommand c) (create_ctx None)
    = Ok (r, c') →
  ∃ plan s', normalizeBusinessWorkOrderPlanV1 (get "plan" facts.1) = Ok plan
    ∧ cx_state c' = Some s' ∧ Inv (alpha s') ∧ st_plan s' = plan ∧ st_revision s' = 1%Z
    ∧ st_deadline_at s' = (facts.2 + rp_max_elapsed_ms (pl_retry_policy plan))%Z
    ∧ (∀ ref, is_Some (st_branches s' !! ref) ↔ ref ∈ map pb_branch_ref (pl_branches plan)).
Proof.
  intros Hn Hrun. set (env := create_env None (InCommand c) facts) in *.
  assert (startWorkOrder c (create_ctx None) = Ok (r, c')) as Hstart.
  { simpl in Hrun. unfold decideCommand, command_name in *. by destruct (ce_payload c). }
  destruct (start_run c (create_ctx None) _ _ eq_refl Hstart) as (plan & s' & Hplan & Hs' & Hst).
  exists plan, s'. pose proof (accepted_plan_wf _ _ Hplan) as Hwf.
  set (a := fresh _ _ _) in Hst. assert (Inv a) as HI by (by apply fresh_Inv).
  pose proof (evolves_steps _ _ _ Hst) as (Hfix & Hnone & Hsome).
  unfold a, fresh in Hfix. rewrite (proj1 (add_branches_fixed _ _)) in Hfix.
  injection Hfix as Hwo Hver Hsnap Hhash Hpl Hrev Hcr Hdl.
  split_and!; try done; [by eapply Inv_steps|]. intros ref.
  assert (∀ b, as_branches a !! ref = Some b ↔
    ∃ p, p ∈ pl_branches plan ∧ ref = pb_branch_ref p ∧ b = fresh_branch p) as Hlook.
  { intros b. unfold a, fresh. rewrite add_branches_lookup; [|apply Hwf|done].
    split; [intros [?|?]; done|auto]. }
  split.
  - intros [b Hb]. destruct (as_branches a !! ref) as [v|] eqn:Ev.
    + destruct (proj1 (Hlook v) eq_refl) as (p & Hp & -> & _). by apply list_elem_of_fmap_2.
    + apply Hnone in Ev. apply alpha_lookup in Hb. congruence.
  - intros (p & -> & Hp)%list_elem_of_fmap.
    destruct (Hsome (pb_branch_ref p) (fresh_branch p)) as (v & Hv & _).
    { apply Hlook. eauto. }
    apply alpha_lookup_inv in Hv as (b & Hb & _). eauto.
Qed.
End First.

(** ** Observations that are not about the present *)

Section Quarantine.
Context `{Sha256}.

Lemma quarantine_run {env : Env} o reason ctx r c' :
  quarantine o reason ctx = Ok (r, c') →
  ∃ e, ev_type e = "business.late_observation.quarantined"
    ∧ c' = {| cx_state := cx_state ctx; cx_events := cx_events ctx ++ [e];
              cx_settlementPolicy := cx_settlementPolicy ctx;
              cx_recoveryProbeLedger := cx_recoveryProbeLedger ctx |}
    ∧ r = [("status", JStr "quarantined"); ("reason", JStr reason); revision_field].
Proof.
  unfold quarantine. cbv zeta. intros (refs & c1 & [_ ->]%mlift_Ok & Hrun)%mbind_Ok.
  apply mbind_Ok in Hrun as (u & c2 & Hemit & [= <- <-]).
  apply mbind_Ok in Hemit as (ev & c3 & [_ ->]%mlift_Ok & Hemit). cbv beta in Hemit.
  destruct (event_id _ _ _ _) as [id|]; [|done]. injection Hemit as _ <-.
  eexists. split; [|split; reflexivity]. reflexivity.
Qed.

(** C26: an observation that is not about the present changes nothing: when the currency check
    gives a reason, the decision leaves the state as it is, emits exactly one quarantine event,
    and its result says so. *)
Theorem stale_observation_quarantined {env : Env} o s reason r c' :
  validateObservationCurrency o s = Ok (Some reason) →
  decideObservation o (create_ctx (Some s)) = Ok (r, c') →
  cx_state c' = Some s
  ∧ (∃ e, cx_events c' = [e] ∧ ev_type e = "business.late_observation.quarantined")
  ∧ r = [("status", JStr "quarantined"); ("reason", JStr reason);
         ("work_order_revision", JInt targetRevision)].
Proof.
  intros Hcur Hrun. unfold decideObservation in Hrun.
  apply mbind_Ok in Hrun as (a & c1 & [_ ->]%mlift_Ok & Hrun).
  apply mbind_Ok in Hrun as (e & c1 & [_ ->]%mlift_Ok & Hrun).
  apply mbind_Ok in Hrun as (s1 & c1 & [[= <-] ->]%getState_Ok & Hrun).
  rewrite Hcur in Hrun. apply quarantine_run in Hrun as (ev & Hev & -> & ->).
  split_and!; [done|by exists ev|done].
Qed.

(** C25: a Work Order in a terminal status is inert: whatever the input, a decision that succeeds
    leaves its state as it is and emits one quarantine event; commands are refused. *)
Theorem terminal_inert s i facts r c' :
  st_status s ∈ TERMINAL_WORK_ORDER_STATES →
  decide_input (env := create_env (Some s) i facts) i (create_ctx (Some s)) = Ok (r, c') →
  cx_state c' = Some s ∧ (∃ o, i = InObservation o)
  ∧ ∃ e, cx_events c' = [e] ∧ ev_type e = "business.late_observation.quarantined".
Proof.
  intros Ht Hrun. assert (among TERMINAL_WORK_ORDER_STATES (st_status s) = true) as Ha
    by by apply bool_decide_eq_true.
  destruct i as [c|o]; simpl in Hrun.
  { unfold decideCommand in Hrun. destruct (ce_payload c); simpl in Hrun;
      rewrite ?Ha in Hrun; done. }
  unfold decideObservation in Hrun.
  apply mbind_Ok in Hrun as (a & c1 & [_ ->]%mlift_Ok & Hrun).
  apply mbind_Ok in Hrun as (e & c1 & [_ ->]%mlift_Ok & Hrun).
  apply mbind_Ok in Hrun as (s1 & c1 & [[= <-] ->]%getState_Ok & Hrun).
  apply mbind_Ok in Hrun as (reason & c1 & [Hcur ->]%mlift_Ok & Hrun).
  unfold validateObservationCurrency in Hcur. destruct (_ <? _)%Z; [done|]. rewrite Ha in Hcur.
  injection Hcur as <-. apply quarantine_run in Hrun as (ev & Hev & -> & _). eauto 10.
Qed.
End Quarantine.

(** ** Events *)

Section Events.
Context `{Sha256}.

(** Every event of a decision names its source: the [i]-th event carries the Work Order, the
    plan, the source input, the revision it starts from and the next one, its evidence is sorted
    without duplicates, and its identifier is the hash of its place and content. *)
Theorem events_name_their_source state i facts r c' k e :
  decide_input (env := create_env state i facts) i (create_ctx state) = Ok (r, c') →
  cx_events c' !! k = Some e →
  event_ok (env := create_env state i facts) k e.
Proof.
  intros Hrun. set (env := create_env state i facts) in *.
  refine (logs_decide_input log_ok i _ _ _ _ Hrun _ k e); [intros ? _; apply logs_emit_ok|].
  by intros ? ?.
Qed.

Definition enqueues_nothing (l : list Event) : Prop :=
  Forall (λ e, ev_type e ≠ "business.outbox.enqueued") l.

Lemma logs_enqueues_nothing {env : Env} type specific evidence :
  type ≠ "business.outbox.enqueued" → logs enqueues_nothing (emit type specific evidence).
Proof.
  intros Ht c x c' (refs & id & _ & _ & _ & ->)%emit_Ok HQ. apply Forall_app. split; [done|].
  by repeat constructor.
Qed.

#[local] Hint Resolve logs_enqueues_nothing : logs.
#[local] Hint Extern 1 (_ ≠ _) => discriminate : logs.

Lemma unknown_stage_enqueues_nothing {env : Env} o r e k :
  logs enqueues_nothing (observeDeliveryUnknownStage o r e k).
Proof. unfold observeDeliveryUnknownStage. logs_tac. Qed.
Lemma expired_send_enqueues_nothing {env : Env} o r k e :
  logs enqueues_nothing (observeExpiredSend o r k e).
Proof. unfold observeExpiredSend, expire_start. logs_tac. Qed.
Lemma mutation_unknown_enqueues_nothing {env : Env} o r k e :
  logs enqueues_nothing (observeMutation o r k CDeliveryUnknown e).
Proof. unfold observeMutation, mutation_unknown. logs_tac. Qed.
#[local] Hint Resolve unknown_stage_enqueues_nothing expired_send_enqueues_nothing
  mutation_unknown_enqueues_nothing : logs.
Lemma unknown_effect_enqueues_nothing {env : Env} o b e :
  logs enqueues_nothing (observeProviderEffectDelivery o b CDeliveryUnknown e).
Proof. unfold observeProviderEffectDelivery. logs_tac. Qed.
#[local] Hint Resolve unknown_effect_enqueues_nothing : logs.

(** C24: no ambiguity is retried: a decision on an observation that classifies a delivery as unknown
    (an unknown or expired send) emits no new effect, whatever the state of the Work Order. *)
Theorem unknown_delivery_enqueues_nothing {env : Env} o s r c' :
  delivery_classification (oe_payload o) = Some CDeliveryUnknown →
  decideObservation o (create_ctx (Some s)) = Ok (r, c') →
  enqueues_nothing (cx_events c').
Proof.
  intros Hcl Hrun.
  assert (logs enqueues_nothing (decideObservation o)) as Hl.
  { unfold decideObservation, OBSERVATION_DECIDERS.
    apply logs_bind; [apply logs_lift|intros _]. apply logs_bind; [apply logs_lift|intros refs].
    apply logs_bind; [apply logs_getState|intros s0].
    apply logs_bind; [apply logs_lift|intros [reason|]]; [logs_tac|].
    destruct (oe_payload o) eqn:Hp; try discriminate Hcl; simplify_eq/=; logs_tac. }
  apply (Hl _ _ _ Hrun). constructor.
Qed.
End Events.

(** ** What an input must match *)

Section Binding.
Context `{Sha256}.

Lemma commandRevision_Ok s c ctx u ctx' :
  commandRevision (Some s) c ctx = Ok (u, ctx') →
  ce_expected_work_order_revision c = st_revision s ∧ ctx' = ctx.
Proof.
  unfold commandRevision. cbv zeta. destruct (negb _) eqn:E; [done|]. intros [= _ <-].
  split; [|done]. by apply negb_false_iff, Z.eqb_eq in E.
Qed.

Lemma decideCommand_revision {env : Env} c s r c' :
  decideCommand c (create_ctx (Some s)) = Ok (r, c') →
  ce_expected_work_order_revision c = st_revision s.
Proof.
  unfold decideCommand. destruct (ce_payload c); simpl; [done|..];
    (destruct (among _ _); [done|]); intros (s1 & c1 & [[= <-] ->]%getState_Ok & Hrun)%mbind_Ok;
    apply mbind_Ok in Hrun as (u & c2 & [Hrev _]%commandRevision_Ok & _); done.
Qed.

Lemma decideObservation_revision {env : Env} o s r c' :
  decideObservation o (create_ctx (Some s)) = Ok (r, c') →
  (oe_work_order_revision o <= st_revision s)%Z.
Proof.
  unfold decideObservation. intros (a & c1 & [_ ->]%mlift_Ok & Hrun)%mbind_Ok.
  apply mbind_Ok in Hrun as (e & c1 & [_ ->]%mlift_Ok & Hrun).
  apply mbind_Ok in Hrun as (s1 & c1 & [[= <-] ->]%getState_Ok & Hrun).
  apply mbind_Ok in Hrun as (reason & c1 & [Hcur _]%mlift_Ok & _).
  unfold validateObservationCurrency in Hcur. destruct (_ <? _)%Z eqn:E; [done|].
  by apply Z.ltb_ge in E.
Qed.

Lemma normalizeState_Some s state :
  normalizeState (Some s) = Ok state →
  ∃ plan, normalizeBusinessWorkOrderPlanV1 (plan_json (st_plan s)) = Ok plan
    ∧ state = Some (set_st_plan plan s).
Proof.
  unfold normalizeState. intros Hn.
  destruct (cloneJson _); [|done]. do 2 (destruct (portableRef _); [|done]).
  destruct (sha256 _); [|done]. do 2 (destruct (integer _ _ _); [|done]).
  destruct (normalizeBusinessWorkOrderPlanV1 _) as [plan|]; [|done]. cbn [bind wrap] in Hn. destruct (_ || _); [done|]. do 2 (destruct (timestamp _); [|done]).
  destruct (mapR _ _); [|done]. injection Hn as <-. eauto.
Qed.

(** The run of the decider inside a decision. *)
Lemma decide_context_run s input facts r ctx :
  decide_context (Some s) input facts = Ok (r, ctx) →
  ∃ i plan fs, normalizeInput input = Ok i
    ∧ normalizeBusinessWorkOrderPlanV1 (plan_json (st_plan s)) = Ok plan
    ∧ normalizeTrustedFacts facts = Ok fs
    ∧ validateBinding (Some (set_st_plan plan s)) (input_identity i) = Ok tt
    ∧ st_engine_contract_version s = BUSINESS_ENGINE_CONTRACT_VERSION
    ∧ decide_input (env := create_env (Some (set_st_plan plan s)) i fs) i
        (create_ctx (Some (set_st_plan plan s))) = Ok (r, ctx).
Proof.
  unfold decide_context. intros Hrun.
  destruct (normalizeInput input) as [i|] eqn:Ei; [|done]. cbn [bind] in Hrun.
  destruct (normalizeState (Some s)) as [state|] eqn:Es; [|done]. cbn [bind] in Hrun.
  apply normalizeState_Some in Es as (plan & Hplan & ->).
  destruct (normalizeTrustedFacts facts) as [fs|] eqn:Ef; [|done]. cbn [bind] in Hrun.
  destruct (validateBinding _ _) as [[]|] eqn:Eb; [|done]. cbn [bind] in Hrun.
  destruct (negb _) eqn:Ev; [done|]. apply negb_false_iff, Z.eqb_eq in Ev.
  exists i, plan, fs. by split_and!.
Qed.

(** A decision on a Work Order is bound to it: the input is a valid envelope that names this
    Work Order and its plan, a command expects exactly the current revision, an observation is
    not from a future one, the Work Order is of the current engine version, and at most 512
    events result. *)
Theorem decision_bound s input facts events result :
  decideWorkOrderV1 (Some s) input facts = Ok (events, result) →
  ∃ i, normalizeInput input = Ok i
    ∧ ei_work_order_id (input_identity i) = st_work_order_id s
    ∧ ei_plan_snapshot_ref (input_identity i) = st_plan_snapshot_ref s
    ∧ ei_plan_hash (input_identity i) = st_plan_hash s
    ∧ match i with
      | InCommand c => ce_expected_work_order_revision c = st_revision s
      | InObservation o => (oe_work_order_revision o <= st_revision s)%Z
      end
    ∧ st_engine_contract_version s = BUSINESS_ENGINE_CONTRACT_VERSION
    ∧ length events ≤ 512.
Proof.
  unfold decideWorkOrderV1. intros Hrun.
  destruct (decide_context _ _ _) as [[r ctx]|] eqn:E; [|done]. simpl in Hrun.
  destruct (512 <? _)%nat eqn:El; [done|]. apply Nat.ltb_ge in El.
  destruct (cloneJson _); [|done]. injection Hrun as <- <-.
  apply decide_context_run in E as (i & plan & fs & Hi & _ & _ & Hb & Hv & Hrun).
  exists i. unfold validateBinding in Hb. simpl in Hb. res_inv Hb. split_bools.
  repeat match goal with Hs : (_ =? _)%string = true |- _ => apply String.eqb_eq in Hs end.
  split_and!; try (symmetry; done); try done.
  destruct i as [c|o]; simpl in Hrun.
  - by apply decideCommand_revision in Hrun.
  - by apply decideObservation_revision in Hrun.
Qed.
End Binding.

(** * Single operations *)

Section Acceptance.
Context `{Sha256} {env : Env}.

Lemma commandRevision_ctx s c ctx u ctx' :
  commandRevision (Some s) c ctx = Ok (u, ctx') → ctx' = ctx.
Proof. unfold commandRevision. cbv zeta. destruct (negb _); [done|]. by intros [= _ <-]. Qed.

Lemma acceptance_gates_true s :
  acceptance_gates s = Ok true →
  is_Some (st_context_budget s)
  ∧ (∀ ref b, st_branches s !! ref = Some b → br_state b = BAccepted)
  ∧ (∀ id a, st_attention s !! id = Some a → att_open a = false)
  ∧ ∃ summary, currentResultReviewSummary s (finalBranch s) = Ok summary
    ∧ (sm_blocking summary <= 0)%Z
    ∧ (REVIEW_COUNTS (ap_review_minimum (pl_acceptance_policy (st_plan s)))
       <= sm_accepted summary)%Z.
Proof.
  unfold acceptance_gates, acceptedReviews.
  destruct (currentResultReviewSummary _ _) as [summary|]; [|done]. cbn [bind].
  intros [= E]. split_bools. rewrite !forallb_forall in *. split_and!.
  - destruct (st_context_budget s); [eauto|done].
  - intros ref b Hb. eapply (bool_decide_eq_true (br_state b = BAccepted)).
    match goal with Hf : ∀ x, In x (branch_list s) → _ |- _ => apply Hf end.
    apply list_elem_of_In, list_elem_of_fmap. exists (ref, b). split; [done|].
    by apply elem_of_map_to_list.
  - intros id a Ha. apply negb_true_iff.
    match goal with Hf : ∀ x, In x (map_to_list (st_attention s)) → _ |- _ =>
      apply (Hf (id, a)) end.
    by apply list_elem_of_In, elem_of_map_to_list.
  - by exists summary.
Qed.

(** C23: a decision on the outcome is recorded only behind every gate: the Work Order awaits it,
    its context budget was verified, every branch is accepted, no attention item is open, no
    review blocks the current result and enough reviewers accepted it; then the status becomes
    [accepted] or [paused], and the record, signed by the authenticated actor, is the decision
    and the last entry of the history. *)
Theorem acceptance_behind_gates c d refs comment s r c' :
  recordAcceptance c d refs comment (create_ctx (Some s)) = Ok (r, c') →
  st_status s = WAwaitingAcceptance
  ∧ is_Some (st_context_budget s)
  ∧ (∀ ref b, st_branches s !! ref = Some b → br_state b = BAccepted)
  ∧ (∀ id a, st_attention s !! id = Some a → att_open a = false)
  ∧ (∃ summary, currentResultReviewSummary s (finalBranch s) = Ok summary
      ∧ (sm_blocking summary <= 0)%Z
      ∧ (REVIEW_COUNTS (ap_review_minimum (pl_acceptance_policy (st_plan s)))
         <= sm_accepted summary)%Z)
  ∧ ∃ actor s', authenticatedActor = Ok actor ∧ cx_state c' = Some s'
    ∧ st_status s' = (match d with DecAccepted => WAccepted | DecRejected => WPaused end)
    ∧ st_branches s' = st_branches s
    ∧ let record := {| ar_decision := d; ar_evidence_refs := refs; ar_comment := comment;
                       ar_decided_by := actor; ar_decided_at := occurred_at |} in
      st_decision s' = Some record
      ∧ st_decision_history s' = Some (decision_history s ++
          [{| he_record := record; he_source := Some (sourceId, targetRevision) |}]).
Proof.
  unfold recordAcceptance. intros (s1 & c1 & [[= <-] ->]%getState_Ok & Hrun)%mbind_Ok.
  apply mbind_Ok in Hrun as (u & c1 & ->%commandRevision_ctx & Hrun).
  destruct (negb _) eqn:E; [done|]. apply is_false in E. split; [done|].
  apply mbind_Ok in Hrun as (gates & c1 & [Hg ->]%mlift_Ok & Hrun).
  destruct (negb gates) eqn:Eg; [done|]. apply negb_false_iff in Eg as ->.
  apply acceptance_gates_true in Hg as (Hb & Hacc & Hatt & Hsum). split_and!; try done.
  apply mbind_Ok in Hrun as (actor & c1 & [Hactor ->]%mlift_Ok & Hrun). cbv zeta in Hrun.
  apply mbind_Ok in Hrun as (u1 & c1 & (ev & id & _ & _ & Hs1 & _)%emit_Ok & Hrun).
  apply mbind_Ok in Hrun as (u2 & c2 & Hmod & Hrun).
  apply mbind_Ok in Hmod as (s1 & c3 & [Hs2 ->]%getState_Ok & Hmod).
  rewrite Hs1 in Hs2. injection Hs2 as <-. injection Hmod as _ <-.
  apply mbind_Ok in Hrun as (u3 & c4 & Htr & Hrun).
  apply mbind_Ok in Hrun as (st & c5 & Hst & [= _ <-]).
  apply mbind_Ok in Hst as (s5 & c6 & [Hs5 ->]%getState_Ok & [= _ <-]).
  exists actor, s5. split; [done|]. split; [done|].
  destruct d; apply mbind_Ok in Htr as (s6 & c7 & [[= <-] ->]%getState_Ok & Htr);
    simpl in Htr; rewrite E in Htr; simpl in Htr;
    apply mbind_Ok in Htr as (u4 & c8 & (ev2 & id2 & _ & _ & Hs8 & _)%emit_Ok & Htr);
    apply mbind_Ok in Htr as (s9 & c9 & [Hs9 ->]%getState_Ok & [= _ <-]);
    rewrite Hs8 in Hs9; simpl in Hs9, Hs5; injection Hs9 as <-; injection Hs5 as <-;
    unfold set_status; simpl; repeat case_match; split_and!; try done.
Qed.
End Acceptance.
