(* ===== verification/WorkOrderWitnesses.v ===== *)
(** The theorems about decisions, applied to the sample run. *)

From Stdlib Require Import ZArith Lia String.
From stdpp Require Import base tactics list strings option gmap relations.
From S2P Require Import Prelude JsString JsDate Json SettlementPolicy ContractBase PlanContract.
From S2P Require Import PlanProps Envelope EnvelopeProps WorkOrderState WorkOrderFacts.
From S2P Require Import WorkOrderContext WorkOrderEffects WorkOrderCore WorkOrderSettle.
From S2P Require Import WorkOrderObserve WorkOrderDelivery WorkOrderCommands WorkOrder.
From S2P Require Import WorkOrderSpec WorkOrderLogic WorkOrderRefine WorkOrderSafety WorkOrderTheorems.
From S2P Require Import WorkOrderEvents WorkOrderExample WorkOrderTheorems.

(** ** The invariant along the sample run *)

Lemma start_Inv c facts r c' :
  command_name c = NStart →
  decide_input (env := create_env None (InCommand c) facts) (InCommand c) (create_ctx None)
    = Ok (r, c') →
  ∃ s', cx_state c' = Some s' ∧ Inv (alpha s').
Proof.
  intros Hn Hrun. set (env := create_env None (InCommand c) facts) in *.
  assert (startWorkOrder c (create_ctx None) = Ok (r, c')) as Hstart.
  { simpl in Hrun. unfold decideCommand, command_name in *. by destruct (ce_payload c). }
  destruct (start_run c (create_ctx None) _ _ eq_refl Hstart) as (plan & s' & Hplan & Hs' & Hst).
  exists s'. split; [done|]. refine (Inv_steps _ _ _ Hst _).
  apply fresh_Inv; [by eapply accepted_plan_wf|done].
Qed.

(** A decision on a state whose plan is its own normal form, without an expired send. *)
Lemma decided_Inv s input facts s' :
  Inv (alpha s) → normalizeBusinessWorkOrderPlanV1 (plan_json (st_plan s)) = Ok (st_plan s) →
  prop "send_expiry" facts = JUndef →
  cx_state (decided s input facts).2 = Some s' →
  Inv (alpha s').
Proof.
  intros HI Hplan Hexp. unfold decided, decided_on.
  destruct (decide_context _ _ _) as [[r ctx]|] eqn:E; [|done]. intros Hs'.
  apply decide_context_run in E as (i & plan & fs & Hi & Hp & Hf & _ & _ & Hrun).
  rewrite Hplan in Hp. injection Hp as <-. unfold normalizeTrustedFacts in Hf.
  destruct facts as [| | | | | | | |f|]; try done. cbn [object bind] in Hf.
  destruct (timestamp _) as [t|]; [|done]. injection Hf as <-.
  assert (set_st_plan (st_plan s) s = s) as Hs by by destruct s. rewrite !Hs in Hrun.
  destruct (decision_steps s i (f, t) r ctx HI) as (s1 & Hs1 & Hst); [|done|].
  - destruct i as [|o]; [done|]. intros Hu. unfold fact in Hu. change (get "send_expiry" f = JUndef) in Hexp. simpl in Hu. by rewrite Hexp in Hu.
  - simpl in Hs'. rewrite Hs1 in Hs'. injection Hs' as <-. by apply (Inv_steps _ _ _ Hst).
Qed.

Lemma the_plan_stable : normalizeBusinessWorkOrderPlanV1 (plan_json the_plan) = Ok the_plan.
Proof. vm_compute. reflexivity. Qed.

Lemma start_input_name : command_name start_input = NStart.
Proof. vm_compute. reflexivity. Qed.

Lemma state1_Inv : Inv (alpha state1).
Proof.
  destruct (start_Inv _ _ _ _ start_input_name start_step) as (s' & Hs & HI).
  change (cx_state first_run.2) with (Some state1) in Hs. by injection Hs as ->.
Qed.

Lemma state2_Inv : Inv (alpha state2).
Proof.
  apply (decided_Inv _ (thread_observation "accepted") thread_facts _ state1_Inv the_plan_stable);
    vm_compute; reflexivity.
Qed.

Lemma state3_Inv : Inv (alpha state3).
Proof.
  apply (decided_Inv _ turn_observation turn_facts _ state2_Inv the_plan_stable);
    vm_compute; reflexivity.
Qed.

Lemma state4_Inv : Inv (alpha state4).
Proof.
  apply (decided_Inv _ result_observation result_facts _ state3_Inv the_plan_stable);
    vm_compute; reflexivity.
Qed.

Lemma no_expiry s o facts :
  get "send_expiry" facts.1 = JUndef → sends_are_current s (InObservation o) facts.
Proof. intros Hf Hu. unfold fact in Hu. simpl in Hu. by rewrite Hf in Hu. Qed.

Lemma thread_decides :
  decides state1 (InObservation thread_input) (trusted thread_facts) state2 (cx_events thread_run.2).
Proof.
  exists thread_run.1, thread_run.2. split; [exact thread_step|].
  split; [vm_compute; reflexivity|reflexivity].
Qed.

Lemma verification_decides :
  decides state4 (InObservation verification_input) (trusted verification_facts) state5
    (cx_events verification_run.2).
Proof.
  exists verification_run.1, verification_run.2. split; [exact verification_step|].
  split; [vm_compute; reflexivity|reflexivity].
Qed.

Lemma thread_current : sends_are_current state1 (InObservation thread_input) (trusted thread_facts).
Proof. apply no_expiry. vm_compute. reflexivity. Qed.

Lemma verification_current :
  sends_are_current state4 (InObservation verification_input) (trusted verification_facts).
Proof. apply no_expiry. vm_compute. reflexivity. Qed.

(** ** Decisions on an existing Work Order *)

Lemma decision_refines_witness :
  ∃ s', cx_state thread_run.2 = Some s'
    ∧ asteps (start_time + 5000) (alpha state1) (alpha s') ∧ Inv (alpha s').
Proof.
  exact (decision_refines state1 _ _ _ _ state1_Inv thread_current thread_step).
Defined.

Lemma decision_concurrency_witness :
  (activeSlotCount state2 <= pl_max_concurrency (st_plan state2))%Z.
Proof.
  exact (decision_concurrency state1 _ _ _ _ state1_Inv thread_current thread_decides).
Defined.

Lemma is_true_Some {A} (o : option A) : bool_decide (is_Some o) = true → is_Some o.
Proof. apply bool_decide_eq_true. Qed.

Lemma branch_a_state4 : is_Some (st_branches state4 !! "a").
Proof. apply is_true_Some. vm_compute. reflexivity. Qed.

Lemma decision_branches_witness :
  ∃ b b', st_branches state4 !! "a" = Some b ∧ st_branches state5 !! "a" = Some b'
    ∧ (br_attempt b <= br_attempt b')%Z.
Proof.
  destruct branch_a_state4 as [b Hb].
  destruct (decision_branches state4 _ _ _ _ "a" b state4_Inv verification_current
    verification_decides Hb) as (_ & _ & b' & Hb' & _ & Ha & _).
  exists b, b'. split; [exact Hb|]. split; [exact Hb'|]. exact (proj1 Ha).
Defined.

Lemma branch_b_state5 : ∃ b, st_branches state5 !! "b" = Some b
  ∧ br_state b = BDispatchPending ∧ br_dependencies b = ["a"].
Proof.
  assert ((λ b, (br_state b, br_dependencies b)) <$> st_branches state5 !! "b"
    = Some (BDispatchPending, ["a"])) as Hb by (vm_compute; reflexivity).
  apply fmap_Some in Hb as (b & Hb & Heq). injection Heq as Hst Hdeps. exact (ex_intro _ b (conj Hb (conj (eq_sym Hst) (eq_sym Hdeps)))).
Qed.

Lemma decision_dependency_order_witness :
  ∃ b', st_branches state5 !! "a" = Some b' ∧ br_state b' = BAccepted.
Proof.
  destruct branch_b_state5 as (b & Hb & Hst & Hdeps).
  apply (decision_dependency_order state4 _ _ _ _ "b" b "a" state4_Inv verification_current
    verification_decides Hb).
  - rewrite Hst. by apply (bool_decide_unpack _).
  - rewrite Hdeps. by apply (bool_decide_unpack _).
Defined.

Lemma decision_status_witness : st_status state2 ≠ WFailed.
Proof.
  apply (proj1 (decision_status state1 _ _ _ _ state1_Inv thread_current thread_decides)).
  by vm_compute.
Defined.

(** ** The first decision *)

Lemma start_establishes_witness :
  ∃ plan s', cx_state first_run.2 = Some s' ∧ Inv (alpha s') ∧ st_plan s' = plan
    ∧ (∀ ref, is_Some (st_branches s' !! ref) ↔ ref ∈ map pb_branch_ref (pl_branches plan)).
Proof.
  destruct (start_establishes _ _ _ _ start_input_name start_step)
    as (plan & s' & _ & Hs & HI & Hp & _ & _ & Hrefs).
  exists plan, s'. exact (conj Hs (conj HI (conj Hp Hrefs))).
Defined.

(** ** Observations that are not about the present *)

(** The thread's observation, once the Work Order is accepted. *)
Definition late_run : Result * Ctx := Eval vm_compute in
  match decide_input
    (env := create_env (Some state8) (InObservation thread_input) (trusted thread_facts))
    (InObservation thread_input) (create_ctx (Some state8)) with
  | Ok run => run | Err _ => ([], create_ctx None) end.

Lemma late_step_run : decide_input
  (env := create_env (Some state8) (InObservation thread_input) (trusted thread_facts))
  (InObservation thread_input) (create_ctx (Some state8)) = Ok (late_run.1, late_run.2).
Proof. vm_compute. reflexivity. Qed.

Lemma decide_input_observation {env : Env} s o :
  decide_input (InObservation o) (create_ctx (Some s)) = decideObservation o (create_ctx (Some s)).
Proof. reflexivity. Qed.

Lemma late_decides : decideObservation
  (env := create_env (Some state8) (InObservation thread_input) (trusted thread_facts))
  thread_input (create_ctx (Some state8)) = Ok (late_run.1, late_run.2).
Proof. rewrite <- decide_input_observation. exact late_step_run. Qed.

Lemma late_currency :
  validateObservationCurrency
    (env := create_env (Some state8) (InObservation thread_input) (trusted thread_facts))
    thread_input state8 = Ok (Some "terminal_work_order").
Proof. vm_compute. reflexivity. Qed.

Lemma stale_observation_quarantined_witness : cx_state late_run.2 = Some state8.
Proof.
  exact (proj1 (stale_observation_quarantined
    (env := create_env (Some state8) (InObservation thread_input) (trusted thread_facts))
    thread_input state8 _ _ _ late_currency late_decides)).
Defined.

Lemma terminal_inert_witness : cx_state late_run.2 = Some state8.
Proof.
  refine (proj1 (terminal_inert state8 (InObservation thread_input) (trusted thread_facts) _ _ _
    late_step_run)).
  apply (bool_decide_unpack _). vm_compute. exact I.
Defined.

(** ** Events *)

Lemma events_name_their_source_witness :
  ∃ e, cx_events thread_run.2 !! 0 = Some e
    ∧ event_ok (env := create_env (Some state1) (InObservation thread_input) (trusted thread_facts))
        0 e.
Proof.
  assert (is_Some (cx_events thread_run.2 !! 0)) as [e E]
    by (apply is_true_Some; vm_compute; reflexivity).
  exists e. exact (conj E (events_name_their_source _ _ _ _ _ 0 e thread_step E)).
Defined.

Lemma unknown_step : is_ok (decideObservation
  (env := create_env (Some state1) (InObservation unknown_input) (trusted thread_facts))
  unknown_input (create_ctx (Some state1))) = true.
Proof. vm_compute. reflexivity. Defined.

Lemma unknown_delivery_enqueues_nothing_witness :
  ∃ run, decideObservation
      (env := create_env (Some state1) (InObservation unknown_input) (trusted thread_facts))
      unknown_input (create_ctx (Some state1)) = Ok run
    ∧ enqueues_nothing (cx_events run.2).
Proof.
  exists (ok_get _ unknown_step). split; [apply ok_get_eq|].
  apply (unknown_delivery_enqueues_nothing
    (env := create_env (Some state1) (InObservation unknown_input) (trusted thread_facts))
    unknown_input state1 (ok_get _ unknown_step).1).
  - vm_compute. reflexivity.
  - rewrite <- surjective_pairing. apply ok_get_eq.
Defined.

(** ** What an input must match *)

Lemma thread_decision :
  is_ok (decideWorkOrderV1 (Some state1) (thread_observation "accepted") thread_facts) = true.
Proof. vm_compute. reflexivity. Defined.

Lemma decision_bound_witness :
  length (ok_get _ thread_decision).1 ≤ 512
  ∧ st_engine_contract_version state1 = BUSINESS_ENGINE_CONTRACT_VERSION.
Proof.
  destruct (decision_bound state1 (thread_observation "accepted") thread_facts
    (ok_get _ thread_decision).1 (ok_get _ thread_decision).2) as (i & _ & _ & _ & _ & _ & Hv & Hl).
  - rewrite <- surjective_pairing. apply ok_get_eq.
  - exact (conj Hl Hv).
Defined.

(** ** Acceptance *)

Definition acceptance_env : Env :=
  create_env (Some state7) (InCommand acceptance_input) (trusted (user_facts (start_time + 40000))).

Lemma acceptance_step : is_ok (recordAcceptance (env := acceptance_env) acceptance_input DecAccepted
  ["evidence-5"] "Fine" (create_ctx (Some state7))) = true.
Proof. vm_compute. reflexivity. Defined.

Lemma acceptance_behind_gates_witness :
  st_status state7 = WAwaitingAcceptance
  ∧ (∀ ref b, st_branches state7 !! ref = Some b → br_state b = BAccepted).
Proof.
  destruct (acceptance_behind_gates (env := acceptance_env) acceptance_input DecAccepted
    ["evidence-5"] "Fine" state7 (ok_get _ acceptance_step).1 (ok_get _ acceptance_step).2)
    as (Hst & _ & Hacc & _).
  - rewrite <- surjective_pairing. apply ok_get_eq.
  - exact (conj Hst Hacc).
Defined.
