(* ===== verification/Agreement.v ===== *)
(** The decider and the projector agree: what the state machine decides, the transition tables of
    the projector allow, and the events of a decision are of the types its batch may hold. *)

From Stdlib Require Import ZArith Lia String.
From stdpp Require Import base tactics list strings option gmap relations.
From S2P Require ProjectorBase ProjectorSpec.
From S2P Require Import Prelude JsString JsDate Json SettlementPolicy ContractBase PlanContract.
From S2P Require Import PlanProps Envelope EnvelopeProps WorkOrderState WorkOrderFacts.
From S2P Require Import WorkOrderContext WorkOrderEffects WorkOrderCore WorkOrderSettle.
From S2P Require Import WorkOrderObserve WorkOrderDelivery WorkOrderCommands WorkOrder.
From S2P Require Import WorkOrderSpec WorkOrderLogic WorkOrderRefine WorkOrderSafety WorkOrderTheorems.
From S2P Require Import WorkOrderEvents WorkOrderExample WorkOrderTheorems WorkOrderWitnesses.

#[local] Existing Instance ProjectorBase.EventType_enum.

(** ** Transitions *)

(** The projector accepts the step: every branch moves along its table or to its next attempt, and
    so does the status, but for the two shortcuts into acceptance. *)
Record projectable (a a' : Abstract) : Prop := {
  projectable_status : as_status a' = as_status a
    ∨ as_status a' ∈ ProjectorBase.WORK_ORDER_TRANSITIONS (as_status a)
    ∨ (as_status a ∈ [WStarting; WPaused] ∧ as_status a' = WAwaitingAcceptance);
  projectable_branches : ∀ ref b, as_branches a !! ref = Some b →
    ∃ b', as_branches a' !! ref = Some b' ∧
      ProjectorSpec.branch_move (ab_state b, ab_attempt b) (ab_state b', ab_attempt b');
}.

Lemma status_edge_projectable from to :
  status_edge from to = true →
  to ∈ ProjectorBase.WORK_ORDER_TRANSITIONS from
  ∨ (from ∈ [WStarting; WPaused] ∧ to = WAwaitingAcceptance).
Proof.
  destruct from, to; intros H; try discriminate H;
    first [left; by apply (bool_decide_unpack _) | right; split; [by apply (bool_decide_unpack _)|done]].
Qed.

Lemma branch_edge_projectable from to :
  branch_edge from to = true → to ∈ ProjectorBase.BRANCH_TRANSITIONS from.
Proof. destruct from, to; intros H; try discriminate H; by apply (bool_decide_unpack _). Qed.

(** A step that alters one branch. *)
Lemma alter_projectable a ref b f :
  as_branches a !! ref = Some b →
  ProjectorSpec.branch_move (ab_state b, ab_attempt b) (ab_state (f b), ab_attempt (f b)) →
  projectable a (set_abranches (alter f ref (as_branches a)) a).
Proof.
  intros Hb Hf. split; [by left|]. intros r x Hx. simpl.
  destruct (decide (r = ref)) as [->|Hr].
  - rewrite lookup_alter_eq, Hb. simplify_eq. eauto.
  - rewrite lookup_alter_ne by done. eexists. split; [done|]. constructor.
Qed.

Lemma astep_projectable now a a' : astep now a a' → projectable a a'.
Proof.
  intros [? to Hto _|? ref b to _ Hb Hto|? ref b _ Hb Hs _|? ref b deadline _ Hb Hs _ _ _ _ _|? ref b _ Hb Hs _].
  - split; [right; by apply status_edge_projectable|]. intros ref b Hb. exists b.
    split; [done|constructor].
  - eapply alter_projectable; [done|]. simpl. by apply ProjectorSpec.move_edge, branch_edge_projectable.
  - eapply alter_projectable; [done|]. simpl. rewrite Hs. apply ProjectorSpec.move_edge.
    by apply (bool_decide_unpack _).
  - eapply alter_projectable; [done|]. simpl. by apply ProjectorSpec.move_open.
  - eapply alter_projectable; [done|]. simpl. rewrite Hs. apply ProjectorSpec.move_edge.
    by apply (bool_decide_unpack _).
Qed.

(** ** Events *)

Section Events.
Context `{Sha256}.

(** Every event has a type of the list. *)
Definition log_types (types : list string) (l : list Event) : Prop :=
  Forall (λ e, ev_type e ∈ types) l.

Lemma logs_types_log {env : Env} types : logs_types (log_types types) types.
Proof.
  intros type Ht specific evidence c x c' (refs & id & _ & _ & _ & ->)%emit_Ok HQ.
  apply Forall_app. split; [done|]. by constructor.
Qed.

(** The source of the batch of a decision. *)
Definition input_source (i : Input) : ProjectorBase.SourceType :=
  match i with
  | InCommand _ => ProjectorBase.SCommand
  | InObservation _ => ProjectorBase.SObservation
  end.

Lemma batch_types i :
  match i with InCommand _ => COMMAND_EVENTS | InObservation _ => OBSERVATION_EVENTS end
  ⊆ map enum_str (ProjectorBase.BATCH_EVENT_TYPES (input_source i)).
Proof.
  intros t Ht. destruct i; apply includes_true; revert t Ht; apply Forall_forall;
    repeat (constructor; [reflexivity|]); constructor.
Qed.

(** the events of a decision are events its batch may hold: every event a command or an
    observation is decided into is of a type the projector admits in a batch of that source. *)
Theorem decision_events_admitted state i facts r c' :
  decide_input (env := create_env state i facts) i (create_ctx state) = Ok (r, c') →
  Forall (λ e, ev_type e ∈ map enum_str (ProjectorBase.BATCH_EVENT_TYPES (input_source i)))
    (cx_events c').
Proof.
  intros Hrun. eapply Forall_impl; [|intros e; apply (batch_types i)].
  refine (logs_decide_input (env := create_env state i facts) _ i _ _ _ _ Hrun _);
    [apply logs_types_log|constructor].
Qed.

(** C34: what the state machine decides, the projector's tables allow: a decision on a state that
    satisfies the invariant is a sequence of steps, in each of which every branch moves along
    [BRANCH_TRANSITIONS] or to its next attempt, and the status along [WORK_ORDER_TRANSITIONS] but
    for two shortcuts into acceptance - provided that an expiry fact about a start effect names a
    branch that still waits for it. *)
Theorem decision_projectable s i facts r c' :
  Inv (alpha s) → sends_are_current s i facts →
  decide_input (env := create_env (Some s) i facts) i (create_ctx (Some s)) = Ok (r, c') →
  ∃ s', cx_state c' = Some s' ∧ rtc projectable (alpha s) (alpha s').
Proof.
  intros HI Hsend Hrun. destruct (decision_steps _ _ _ _ _ HI Hsend Hrun) as (s' & Hs' & Hst).
  exists s'. split; [done|]. eapply rtc_subrel; [|exact Hst]. apply astep_projectable.
Qed.
End Events.

(** ** Witnesses *)

Lemma decision_events_admitted_witness :
  Forall (λ e, ev_type e ∈ map enum_str ProjectorBase.COMMAND_BATCH_EVENT_TYPES)
    (cx_events first_run.2).
Proof. exact (decision_events_admitted _ _ _ _ _ start_step). Defined.

Lemma decision_projectable_witness :
  ∃ s', cx_state thread_run.2 = Some s' ∧ rtc projectable (alpha state1) (alpha s').
Proof.
  exact (decision_projectable _ _ _ _ _ state1_Inv thread_current thread_step).
Defined.
