(* ===== verification/ProjectorWitnesses.v ===== *)
(** The theorems about the lifecycle, the outbox and the projector on concrete inputs.

    First the lifecycle of a thread-creating effect of the sample state.  Then the sample run: a
    Work Order is started, its first effect is claimed and sent, and the thread it creates is
    observed. *)

From Stdlib Require Import ZArith Lia String.
From stdpp Require Import base tactics list strings option gmap relations.
From S2P Require Import Prelude JsString JsDate Json SettlementPolicy ContractBase PlanContract.
From S2P Require Import PlanProps Envelope EnvelopeProps WorkOrderState WorkOrderFacts.
From S2P Require Import WorkOrderContext WorkOrderEffects Outbox Lifecycle LifecycleProps.
From S2P Require Import ProjectorBase Projection ProjectorInput ProjectorWorkOrder.
From S2P Require Import ProjectorBranch ProjectorOutbox ProjectorDelivery ProjectorSettlement.
From S2P Require Import Projector ProjectorSpec ProjectorRefine ProjectorStep ProjectorInvariant.
From S2P Require Import ProjectorRuns ProjectorHistory ProjectorClosed ProjectorTheorems.
From S2P Require Import WorkOrderCore WorkOrder WorkOrderExample WorkOrderWitnesses.

(** The branch of the sample state. *)
Definition some_get {A} (o : option A) : is_none o = false → A :=
  match o with Some a => λ _, a | None => λ H, match diff_true_false H with end end.

Lemma branch_a_found : is_none (st_branches state1 !! "a") = false.
Proof. vm_compute. reflexivity. Defined.
Definition branch_a : Branch := Eval vm_compute in some_get _ branch_a_found.

(** An effect that creates the thread of the branch. *)
Definition thread_effect_of (id : string) (generation : Z) (predecessor : option string)
    (status : EffectStatus) : Effect :=
  {| fx_v2 := true;
     fx_identity := {|
       ef_effect_id := id; ef_work_order_id := st_work_order_id state1; ef_branch_ref := "a";
       ef_attempt := br_attempt branch_a; ef_dispatch_id := br_dispatch_id branch_a;
       ef_effect_kind := enum_str ThreadCreate; ef_origin_source_id := "CMD-1";
       ef_operation_scope_hash := "0123456789abcdef0123456789abcdef0123456789abcdef0123456789abcdef";
       ef_operation_generation := generation;
       ef_generation_predecessor_effect_id := predecessor;
       ef_provider_ref := br_provider_ref branch_a; ef_packet_ref := "packet-1";
       ef_packet_hash := "hash-1"; ef_predecessor_effect_id := None;
       ef_predecessor_delivery_hash := None; ef_target_runtime_identity := None;
       ef_idempotency_key := "key-1"; ef_created_at := start_time |};
     fx_status := status; fx_lease := None; fx_delivery := None; fx_lease_generation := 0;
     fx_last_lease_id := None; fx_fencing_history := []; fx_settlement_policy := None;
     fx_packet_receipt := None; fx_last_delivery_reason := None; fx_updated_at := start_time |}.

Definition first_generation : Effect := thread_effect_of "EFF-1" 1 None FsNotSent.
Definition second_generation : Effect := thread_effect_of "EFF-2" 2 (Some "EFF-1") FsPending.
Definition sample_outbox : gmap string Effect :=
  {["EFF-1" := first_generation; "EFF-2" := second_generation]}.

Lemma branch_snapshot_ok :
  is_ok (deriveBranchLifecycleSnapshot state1 branch_a sample_outbox ∅) = true.
Proof. vm_compute. reflexivity. Defined.
Definition branch_snapshot : BranchSnapshot :=
  Eval vm_compute in ok_get _ branch_snapshot_ok.

Lemma branch_snapshot_eq :
  deriveBranchLifecycleSnapshot state1 branch_a sample_outbox ∅ = Ok branch_snapshot.
Proof. vm_compute. reflexivity. Qed.

Lemma branch_snapshot_clean : bs_violations branch_snapshot = [].
Proof. reflexivity. Defined.

Lemma second_of_branch : of_branch state1 branch_a sample_outbox "EFF-2" second_generation.
Proof. split; [reflexivity|]. split; reflexivity. Defined.

Lemma clean_branch_lineage_witness :
  ∃ p pe, fx_predecessor second_generation = Some p
    ∧ of_branch state1 branch_a sample_outbox p pe ∧ fx_status pe = FsNotSent.
Proof.
  destruct (clean_branch_lineage state1 branch_a sample_outbox ∅ branch_snapshot "EFF-2"
    second_generation (eq_refl 2%Z) branch_snapshot_eq branch_snapshot_clean second_of_branch)
    as (_ & _ & _ & _ & _ & _ & Hsucc & _).
  destruct Hsucc as (p & pe & H1 & H2 & _ & H4 & _); [discriminate|].
  exists p, pe. exact (conj H1 (conj H2 H4)).
Defined.

Lemma second_unresolved : fx_status second_generation ∈ V2_UNRESOLVED_EFFECT_STATUSES.
Proof. left. Defined.

Lemma clean_branch_one_unresolved_witness :
  fx_status second_generation = FsPending
  ∧ "EFF-2" = "EFF-2" ∧ second_generation = second_generation.
Proof.
  split; [reflexivity|].
  exact (clean_branch_one_unresolved state1 branch_a sample_outbox ∅ branch_snapshot "EFF-2"
    second_generation "EFF-2" second_generation (eq_refl 2%Z) branch_snapshot_eq
    branch_snapshot_clean second_of_branch second_of_branch eq_refl eq_refl eq_refl
    second_unresolved second_unresolved).
Defined.

Lemma snapshot_ok : is_ok (deriveLifecycleSnapshot state1 sample_outbox ∅) = true.
Proof. vm_compute. reflexivity. Defined.

Lemma snapshot_allows :
  au_may_schedule_forward_work (ls_automation (ok_get _ snapshot_ok)) = true.
Proof. vm_compute. reflexivity. Defined.

Lemma state1_keyed ref b : st_branches state1 !! ref = Some b → br_branch_ref b = ref.
Proof.
  assert (bool_decide (map_Forall (λ r b, br_branch_ref b = r) (st_branches state1)) = true) as Hk
    by (vm_compute; reflexivity).
  apply bool_decide_eq_true in Hk. apply Hk.
Qed.

Lemma forward_work_is_clean_witness :
  st_status state1 ∈ [WStarting; WRunning]
  ∧ ls_violations (ok_get _ snapshot_ok) = [].
Proof.
  destruct (forward_work_is_clean state1 sample_outbox ∅ (ok_get _ snapshot_ok)
    (ok_get_eq _ snapshot_ok) state1_keyed snapshot_allows) as (_ & Hs & Hv & _).
  exact (conj Hs Hv).
Defined.

(** * The projector *)

#[export] Existing Instance checksum_sha.

(** Send evidence is not part of the sample run: every normaliser refuses. *)
#[export] Instance no_send_evidence : SendEvidence :=
  {| normalizeDispatchPacketVerificationReceiptV1 := λ _, Err TypeError;
     normalizeSendAuthorizationOperationScopeBindingV2 := λ _ _, Err TypeError;
     normalizeSendAuthorizationBundleV1 := λ _, Err TypeError;
     createCommittedSendAuthorizationProofV2 := λ _, Err TypeError;
     createProviderEntryWindowAnchorV1 := λ _, Err TypeError;
     createProviderEntryWindowIndexV1 := λ _, Err TypeError;
     normalizeProviderEntryWindowV1 := λ _ _, Err TypeError;
     normalizeProviderEntryWindowIndexV1 := λ _ _, Err TypeError;
     normalizeProviderEntryWindowReceiptClosureV1 := λ _, Err TypeError;
     advanceProviderEntryWindowIndexV1 := λ _, Err TypeError |}.

(** The digest of a projection: that of its revisions, enough for the sample run. *)
#[export] Instance revisions_hash : ProjectionHash := λ p,
  canonicalHash (JArr (map (λ kw, JInt (st_revision (wo_state kw.2)))
    (map_to_list (pj_work_orders p)))).

(** ** Batches *)

Definition zero_hash : string := "0000000000000000000000000000000000000000000000000000000000000000".

(** A receipt for the events of a decision. *)
Definition receipt_event (source_type type event_id batch_id source_id : string) (common : fields)
    (events : list json) (result : json) : json :=
  JObj [("event_id", JStr event_id); ("schema_version", JInt 1); ("type", JStr type);
    ("payload", JObj (common ++ [("receipt", JObj
      [("source_id", JStr source_id); ("source_type", JStr source_type);
       ("identity_hash", JStr zero_hash); ("payload_hash", JStr zero_hash);
       ("work_order_id", get "work_order_id" common);
       ("applied_revision", get "target_work_order_revision" common);
       ("batch_id", JStr batch_id); ("event_ids", JArr (map (prop "event_id") events));
       ("result", result)])]));
    ("evidence_refs", JArr [])].

(** The batch of a decision: its events and their receipt. *)
Definition batch_of (source_type type number : string) (run : fields * WorkOrderContext.Ctx)
    : json :=
  let events := map WorkOrderContext.event_json (WorkOrderContext.cx_events run.2) in
  let common := match events with
    | e :: _ => match prop "payload" e with
        | JObj fs => map (λ k, (k, get k fs)) COMMON_PAYLOAD_FIELDS | _ => [] end
    | [] => [] end in
  let source_id := match get "source_id" common with JStr s => s | _ => "" end in
  let batch_id := "BATCH-" +:+ number in
  JObj [("batch_id", JStr batch_id);
    ("events", JArr (events ++ [receipt_event source_type type ("EV-" +:+ number) batch_id source_id
      common events (JObj run.1)]))].

Definition start_batch : json :=
  batch_of "command" "business.command.received" "1" WorkOrderExample.first_run.

(** A batch of one internal action on the effect of the sample thread. *)
Definition the_state : State := WorkOrderExample.state1.
Definition action_fields (source_id : string) (time : Z) : fields :=
  [("work_order_id", JStr (st_work_order_id the_state));
   ("plan_snapshot_ref", JStr (st_plan_snapshot_ref the_state));
   ("plan_hash", JStr (st_plan_hash the_state)); ("source_id", JStr source_id);
   ("prior_work_order_revision", JInt 1); ("target_work_order_revision", JInt 1);
   ("occurred_at", timestamp_json time)].

Definition action_batch (type number : string) (time : Z) (specific : fields) : json :=
  let common := action_fields ("ACT-" +:+ number) time in
  let batch_id := "BATCH-A" +:+ number in
  let event := JObj [("event_id", JStr ("EV-A" +:+ number)); ("schema_version", JInt 1);
    ("type", JStr type); ("payload", JObj (common ++ specific)); ("evidence_refs", JArr [])] in
  JObj [("batch_id", JStr batch_id);
    ("events", JArr [event; receipt_event "internal_action" "business.internal_action.received"
      ("EV-R" +:+ number) batch_id ("ACT-" +:+ number) common [event] (JObj [])])].

Definition on_thread : fields :=
  [("effect_id", get "effect_id" WorkOrderExample.thread_effect);
   ("effect", JObj (map (λ k, (k, get k WorkOrderExample.thread_effect)) V2_EFFECT_IDENTITY_FIELDS))].

Definition claim_time : Z := WorkOrderExample.start_time + 1000.
Definition claim_expiry : Z :=
  match expectedLeaseExpiry the_state claim_time with Ok t => t | Err _ => 0 end.

Definition claim_batch : json :=
  action_batch "business.outbox.claimed" "1" claim_time (on_thread ++ [("lease",
    JObj [("lease_id", JStr "lease-1"); ("owner_id", JStr "worker"); ("generation", JInt 1);
          ("claimed_at", timestamp_json claim_time); ("heartbeat_at", timestamp_json claim_time);
          ("expires_at", timestamp_json claim_expiry)])]).

Definition send_batch : json :=
  action_batch "business.outbox.send_begun" "2" (claim_time + 1000) (on_thread ++
    [("lease_id", JStr "lease-1"); ("lease_owner_id", JStr "worker"); ("lease_generation", JInt 1)]).

Definition thread_batch : json :=
  batch_of "observation" "business.observation.received" "2" WorkOrderExample.thread_run.

Definition sample_journal : list json :=
  Eval vm_compute in [start_batch; claim_batch; send_batch; thread_batch].

(** * The theorems *)

(** ** The sample run *)

Definition run_of (p : Projection) (l : list (json * json)) : Projection :=
  match project_events p l with Ok q => q | Err _ => initialBusinessProjectionV1 end.

Definition start_events : list (json * json) := Eval vm_compute in entry_events start_batch.
Definition rest_events : list (json * json) :=
  Eval vm_compute in concat (map entry_events (tail sample_journal)).

(** The first event, and what it creates. *)
Definition first_event : json * json := Eval vm_compute in default (JUndef, JUndef) (head start_events).
Definition created : Projection := Eval vm_compute in run_of initialBusinessProjectionV1 [first_event].

Lemma created_ok :
  projectBusinessEventV1 initialBusinessProjectionV1 first_event.1 first_event.2 = Ok created.
Proof. vm_compute. reflexivity. Qed.

(** The projection before the receipt of the start, and after it. *)
Definition domain_part : list (json * json) := Eval vm_compute in removelast start_events.
Definition receipt_part : json * json := Eval vm_compute in default (JUndef, JUndef) (last start_events).
Definition before_receipt : Projection :=
  Eval vm_compute in run_of initialBusinessProjectionV1 domain_part.
Definition started : Projection := Eval vm_compute in run_of before_receipt [receipt_part].
Definition replayed : Projection := Eval vm_compute in run_of started rest_events.

Lemma before_receipt_ok :
  project_events initialBusinessProjectionV1 domain_part = Ok before_receipt.
Proof. vm_compute. reflexivity. Qed.

Lemma started_ok :
  projectBusinessEventV1 before_receipt receipt_part.1 receipt_part.2 = Ok started.
Proof. vm_compute. reflexivity. Qed.

Lemma rest_ok : project_events started rest_events = Ok replayed.
Proof. vm_compute. reflexivity. Qed.

Lemma project_events_last l event p q r :
  project_events p l = Ok q → projectBusinessEventV1 q event.1 event.2 = Ok r →
  project_events p (l ++ [event]) = Ok r.
Proof.
  intros Hq Hr. rewrite project_events_app, Hq. destruct event. simpl in *. by rewrite Hr.
Qed.

Lemma start_events_parts : start_events = domain_part ++ [receipt_part].
Proof. reflexivity. Qed.

Lemma start_events_ok : project_events initialBusinessProjectionV1 start_events = Ok started.
Proof.
  rewrite start_events_parts. exact (project_events_last _ _ _ _ _ before_receipt_ok started_ok).
Qed.

Lemma replay_parts entries l m p q r :
  concat (map entry_events entries) = l ++ m → project_events p l = Ok q →
  project_events q m = Ok r → (length (pending_inputs r) =? 0)%nat = true →
  replayBusinessProjectionV1 (JArr entries) p = Ok r.
Proof.
  intros Hl Hq Hr Hn. unfold replayBusinessProjectionV1.
  by rewrite Hl, project_events_app, Hq; simpl; rewrite Hr; simpl; rewrite Hn.
Qed.

Lemma journal_events : concat (map entry_events sample_journal) = start_events ++ rest_events.
Proof. vm_compute. reflexivity. Qed.

Lemma journal_ok :
  replayBusinessProjectionV1 (JArr sample_journal) initialBusinessProjectionV1 = Ok replayed.
Proof.
  assert ((length (pending_inputs replayed) =? 0)%nat = true) as Hn by (vm_compute; reflexivity).
  exact (replay_parts _ _ _ _ _ _ journal_events start_events_ok rest_ok Hn).
Qed.

(** ** Witnesses *)

Lemma before_receipt_invariant : invariant before_receipt.
Proof. exact (run_invariant_ok _ _ _ invariant_initial before_receipt_ok). Qed.

Lemma started_invariant : invariant started.
Proof. exact (run_invariant_ok _ _ _ invariant_initial start_events_ok). Qed.

Lemma event_refines_witness : projected initialBusinessProjectionV1 created.
Proof.
  exact (event_refines initialBusinessProjectionV1 first_event.1 first_event.2 created
    invariant_initial created_ok).
Defined.

Lemma replay_invariant_witness : invariant replayed.
Proof. exact (proj1 (replay_invariant sample_journal replayed journal_ok)). Defined.

(** The Work Order of the sample run. *)
Definition the_id : string := Eval vm_compute in st_work_order_id the_state.
Definition sample_order : option WorkOrder := Eval vm_compute in pj_work_orders replayed !! the_id.
Definition no_order : WorkOrder :=
  {| wo_state := WorkOrderExample.no_state; wo_extra := ∅; wo_pending := None |}.
Definition the_order : WorkOrder := Eval vm_compute in default no_order sample_order.

Lemma the_order_found : pj_work_orders replayed !! the_id = Some the_order.
Proof. vm_compute. reflexivity. Qed.

Lemma the_order_version : st_engine_contract_version (wo_state the_order) = 2%Z.
Proof. reflexivity. Qed.

Lemma replay_settled_witness : settled replayed (wo_state the_order).
Proof.
  exact (replay_settled sample_journal replayed the_id the_order journal_ok the_order_found
    the_order_version).
Defined.

Definition start_source : string := "CMD-10000000000000000000000000000000".
Definition start_receipt : option Receipt :=
  Eval vm_compute in receipts CommandReceipts started !! start_source.

Lemma receipt_closes_witness :
  match start_receipt with
  | Some r => ∃ w, pj_work_orders started !! rc_work_order_id r = Some w ∧ wo_pending w = None
  | None => False
  end.
Proof.
  assert (receipts CommandReceipts before_receipt !! start_source = None) as Hn
    by (vm_compute; reflexivity).
  assert (receipts CommandReceipts started !! start_source = start_receipt) as Hr
    by (vm_compute; reflexivity).
  destruct (receipt_closes before_receipt receipt_part.1 receipt_part.2 started CommandReceipts
    start_source _ before_receipt_invariant started_ok Hn Hr) as (w & Hw & Hp & _).
  exists w. exact (conj Hw Hp).
Defined.

(** The first event, normalised. *)
Lemma first_event_ok : is_ok (normalizeEvent first_event.1) = true.
Proof. vm_compute. reflexivity. Defined.
Definition first_normal : PEvent := Eval vm_compute in ok_get _ first_event_ok.

Lemma first_normal_eq : normalizeEvent first_event.1 = Ok first_normal.
Proof. vm_compute. reflexivity. Qed.

Lemma event_isolated_witness :
  match pe_binding first_normal with
  | Some b => only_touches (bd_work_order_id b) (bd_source_id b) initialBusinessProjectionV1 created
  | None => False
  end.
Proof.
  exact (event_isolated initialBusinessProjectionV1 first_event.1 first_event.2 first_normal _
    created invariant_initial first_normal_eq eq_refl created_ok).
Defined.

Lemma history_append_only_witness : kept started replayed.
Proof. exact (history_append_only started rest_events replayed started_invariant rest_ok). Defined.

Lemma created_once_journal :
  created_once initialBusinessProjectionV1 (concat (map entry_events sample_journal)).
Proof.
  rewrite journal_events. apply (bool_decide_unpack _). vm_compute. exact I.
Qed.

Lemma created_once_start : created_once initialBusinessProjectionV1 start_events.
Proof. apply (bool_decide_unpack _). vm_compute. exact I. Qed.

Lemma orders_move_forward_witness : orders_kept initialBusinessProjectionV1 started.
Proof.
  exact (orders_move_forward initialBusinessProjectionV1 start_events started invariant_initial
    created_once_start start_events_ok).
Defined.

Lemma revision_counts_receipts_witness :
  st_revision (wo_state the_order) = Z.of_nat (receipts_of the_id (pj_command_receipts replayed)
    + receipts_of the_id (pj_observation_receipts replayed)).
Proof.
  exact (revision_counts_receipts sample_journal replayed the_id the_order created_once_journal
    journal_ok the_order_found).
Defined.

(** Every event of the start belongs to a Work Order. *)
Definition bound_event (input : json) : bool :=
  match normalizeEvent input with Ok e => is_some (pe_binding e) | Err _ => true end.

Lemma all_bound_check l : forallb (λ ec, bound_event ec.1) l = true → all_bound l.
Proof.
  intros Hl ec e He Hn. rewrite forallb_forall in Hl.
  specialize (Hl ec (proj1 (list_elem_of_In _ _) He)). unfold bound_event in Hl. rewrite Hn in Hl.
  by destruct (pe_binding e).
Qed.

Lemma start_bound : all_bound start_events.
Proof. apply all_bound_check. vm_compute. reflexivity. Qed.

Lemma no_pending_check p :
  (length (pending_inputs p) =? 0)%nat = true →
  ∀ k w, pj_work_orders p !! k = Some w → wo_pending w = None.
Proof.
  intros Hp. assert (replayBusinessProjectionV1 (JArr []) p = Ok p) as Hr.
  { exact (replay_parts [] [] [] p p p eq_refl eq_refl eq_refl Hp). }
  exact (proj2 (replay_run _ _ _ Hr)).
Qed.

Lemma started_no_pending k w : pj_work_orders started !! k = Some w → wo_pending w = None.
Proof. revert k w. apply no_pending_check. vm_compute. reflexivity. Qed.

(** The batch of the start is delivered again after its effect was claimed and sent. *)
Lemma redelivery_no_op_witness : project_events replayed start_events = Ok replayed.
Proof.
  exact (redelivery_no_op initialBusinessProjectionV1 start_events started rest_events replayed
    invariant_initial created_once_start start_bound start_events_ok started_no_pending rest_ok
    eq_refl).
Defined.

(** ** A finished Work Order *)

(** The accepted Work Order of the sample decisions, alone in a projection. *)
Definition accepted_order : WorkOrder :=
  {| wo_state := WorkOrderExample.state8; wo_extra := ∅; wo_pending := None |}.
Definition accepted_projection : Projection :=
  set_pj_work_orders {[ st_work_order_id WorkOrderExample.state8 := accepted_order ]}
    initialBusinessProjectionV1.

(** An observation of its first thread comes in late. *)
Definition late_events : list (json * json) := Eval vm_compute in
  entry_events (batch_of "observation" "business.observation.received" "3" WorkOrderWitnesses.late_run).
Definition late_projection : Projection := Eval vm_compute in run_of accepted_projection late_events.

Lemma late_events_ok : project_events accepted_projection late_events = Ok late_projection.
Proof. vm_compute. reflexivity. Qed.

Lemma accepted_order_keyed : order_keyed accepted_order.
Proof.
  assert (Forall (λ rx, branch_by_ref (pl_branches (st_plan WorkOrderExample.state8)) rx.1
    = Some (br_planned rx.2)) (map_to_list (st_branches WorkOrderExample.state8))) as Hk
    by (vm_compute; repeat constructor).
  rewrite Forall_forall in Hk. constructor. intros r x Hx.
  exact (Hk (r, x) (proj2 (elem_of_map_to_list _ _ _) Hx)).
Qed.

Lemma accepted_invariant : invariant accepted_projection.
Proof.
  assert (∀ k w, pj_work_orders accepted_projection !! k = Some w →
    k = st_work_order_id WorkOrderExample.state8 ∧ w = accepted_order) as Hw.
  { intros k w Hk.
    change (({[ st_work_order_id WorkOrderExample.state8 := accepted_order ]}
      : gmap string WorkOrder) !! k = Some w) in Hk.
    apply lookup_singleton_Some in Hk as [<- <-]. exact (conj eq_refl eq_refl). }
  assert (∀ m, receipts m accepted_projection = ∅) as Hr by (by intros []).
  split; try setoid_rewrite Hr; try done.
  - split; [|done|by setoid_rewrite Hr]. intros k w [-> ->]%Hw. split; [done|apply accepted_order_keyed].
  - intros ? ? k [? Hk]. by rewrite lookup_empty in Hk.
  - by intros k l w v pw pv [-> ->]%Hw _ [-> ->]%Hw.
Qed.

Lemma terminal_frozen_witness : stays_terminal accepted_projection late_projection.
Proof.
  exact (terminal_frozen accepted_projection late_events late_projection accepted_invariant
    late_events_ok).
Defined.

(** The projection of the events a decision emits rebuilds the state the decision left, one
    revision on. *)
Example projection_rebuilds_decisions :
  wo_state the_order = set_st_revision 2 WorkOrderExample.state2.
Proof. vm_compute. reflexivity. Qed.
