(* ===== verification/JsonText.v ===== *)
(** JSON text: [JSON.stringify] and [JSON.parse] of plain values, the normal form behind
    [canonicalJson], and UTF-8 decoding ([new TextDecoder("utf-8", { fatal: true })]).

    These are the language's own operations, as the event store uses them: [JSON.parse] of a
    line of the journal and of the pending evidence, [JSON.stringify] of the lock metadata.  The
    reader is recursive descent on the text with a fuel that [read_value_fuel] shows to be
    irrelevant; the main theorem is that reading what was printed gives the value back. *)

From Stdlib Require Import ZArith Lia Ascii String Permutation Sorted.
From stdpp Require Import base tactics list strings option pretty.
From S2P Require Import Prelude JsString Json.

(** ** Printing *)

(** [JSON.stringify(value)] of a plain value whose objects list their fields in enumeration
    order. *)
Fixpoint print (j : json) : string :=
  match j with
  | JNull | JUndef | JNonFinite | JOther => "null"
  | JBool b => if b then "true" else "false"
  | JInt z => pretty z
  | JNum t => t
  | JStr s => quote s
  | JArr l => "[" +:+ join_comma (map print l) +:+ "]"
  | JObj fs =>
      "{" +:+ join_comma (map (λ kv, match kv with (k, v) => quote k +:+ ":" +:+ print v end) fs)
        +:+ "}"
  end.

(** The order of two fields: that of their keys. *)
Definition field_leb {A} (a b : string * A) : bool := key_leb a.1 b.1.

(** [normalize(value)], with the keys of each object in the order the normalised object
    enumerates them. *)
Fixpoint canon (j : json) : json :=
  match j with
  | JArr l => JArr (map canon l)
  | JObj fs => JObj (isort field_leb (map (λ kv, match kv with (k, v) => (k, canon v) end) fs))
  | _ => j
  end.

(** ** Reading *)

(** A failed read is a [SyntaxError]. *)
Definition json_space (c : ascii) : bool :=
  (code c =? 32)%Z || (code c =? 9)%Z || (code c =? 10)%Z || (code c =? 13)%Z.

Fixpoint skip_space (s : string) : string :=
  match s with
  | String c s' => if json_space c then skip_space s' else s
  | EmptyString => s
  end.

Definition hex_value (c : ascii) : option N :=
  let n := N_of_ascii c in
  if between 48 57 c then Some (n - 48)%N
  else if between 97 102 c then Some (n - 87)%N
  else if between 65 70 c then Some (n - 55)%N
  else None.

Definition hex4 (a b c d : ascii) : option N :=
  x ← hex_value a; y ← hex_value b; z ← hex_value c; t ← hex_value d;
  Some (((x * 16 + y) * 16 + z) * 16 + t)%N.

(** The UTF-8 bytes of a code point. *)
Definition utf8_of (n : N) (rest : string) : string :=
  if (n <? 128)%N then String (ascii_of_N n) rest
  else if (n <? 2048)%N then
    String (ascii_of_N (192 + n / 64)) (String (ascii_of_N (128 + n mod 64)) rest)
  else if (n <? 65536)%N then
    String (ascii_of_N (224 + n / 4096))
      (String (ascii_of_N (128 + n / 64 mod 64)) (String (ascii_of_N (128 + n mod 64)) rest))
  else
    String (ascii_of_N (240 + n / 262144))
      (String (ascii_of_N (128 + n / 4096 mod 64))
        (String (ascii_of_N (128 + n / 64 mod 64)) (String (ascii_of_N (128 + n mod 64)) rest))).

Definition high_surrogate (n : N) : bool := (55296 <=? n)%N && (n <=? 56319)%N.
Definition low_surrogate (n : N) : bool := (56320 <=? n)%N && (n <=? 57343)%N.
Definition join_surrogates (h l : N) : N := (65536 + (h - 55296) * 1024 + (l - 56320))%N.

(** The character of a one-letter escape. *)
Definition simple_escape (c : ascii) : option ascii :=
  let n := N_of_ascii c in
  if (n =? 34)%N || (n =? 92)%N || (n =? 47)%N then Some c
  else if (n =? 98)%N then Some "008"%char
  else if (n =? 102)%N then Some "012"%char
  else if (n =? 110)%N then Some "010"%char
  else if (n =? 114)%N then Some "013"%char
  else if (n =? 116)%N then Some "009"%char
  else None.

Definition push (c : ascii) (r : option (string * string)) : option (string * string) :=
  match r with Some (s, rest) => Some (String c s, rest) | None => None end.
Definition push_point (n : N) (r : option (string * string)) : option (string * string) :=
  match r with Some (s, rest) => Some (utf8_of n s, rest) | None => None end.

(** The characters of a string literal up to its closing quote, and the text after it.  A pair of
    surrogate escapes is one code point; a lone one keeps its own three bytes. *)
Fixpoint read_chars (s : string) : option (string * string) :=
  match s with
  | EmptyString => None
  | String c s1 =>
      if (N_of_ascii c =? 34)%N then Some (EmptyString, s1)
      else if (N_of_ascii c <? 32)%N then None
      else if (N_of_ascii c =? 92)%N then
        match s1 with
        | EmptyString => None
        | String e s2 =>
            if (N_of_ascii e =? 117)%N then
              match s2 with
              | String a1 (String a2 (String a3 (String a4 s6))) =>
                  match hex4 a1 a2 a3 a4 with
                  | None => None
                  | Some h =>
                      match s6 with
                      | String c1 (String c2 (String b1 (String b2 (String b3 (String b4 s12))))) =>
                          match hex4 b1 b2 b3 b4 with
                          | Some l =>
                              if (N_of_ascii c1 =? 92)%N && (N_of_ascii c2 =? 117)%N
                                 && high_surrogate h && low_surrogate l
                              then push_point (join_surrogates h l) (read_chars s12)
                              else push_point h (read_chars s6)
                          | None => push_point h (read_chars s6)
                          end
                      | _ => push_point h (read_chars s6)
                      end
                  end
              | _ => None
              end
            else match simple_escape e with
                 | Some c' => push c' (read_chars s2)
                 | None => None
                 end
        end
      else push c (read_chars s1)
  end.

Fixpoint take_digits (s : string) : string * string :=
  match s with
  | String c s' =>
      if is_digit c then let p := take_digits s' in (String c p.1, p.2) else (EmptyString, s)
  | EmptyString => (EmptyString, EmptyString)
  end.

Definition starts_with (c : Z) (s : string) : option string :=
  match s with
  | String a s' => if (code a =? c)%Z then Some s' else None
  | EmptyString => None
  end.

(** The integer part of a number: [0] or a numeral without a leading zero. *)
Definition valid_int (ds : string) : bool :=
  match ds with
  | EmptyString => false
  | String c EmptyString => true
  | String c _ => negb (code c =? 48)%Z
  end.

(** An optional fraction, then an optional exponent: the text of each. *)
Definition read_fraction (s : string) : option (string * string) :=
  match starts_with 46 s with
  | None => Some (EmptyString, s)
  | Some s1 =>
      let '(ds, s2) := take_digits s1 in
      match ds with EmptyString => None | _ => Some ("." +:+ ds, s2) end
  end.

Definition read_exponent (s : string) : option (string * string) :=
  match s with
  | String e s1 =>
      if (code e =? 101)%Z || (code e =? 69)%Z then
        let '(sign, s2) :=
          match s1 with
          | String c s1' =>
              if (code c =? 43)%Z || (code c =? 45)%Z then (String c EmptyString, s1')
              else (EmptyString, s1)
          | EmptyString => (EmptyString, s1)
          end in
        let '(ds, s3) := take_digits s2 in
        match ds with EmptyString => None | _ => Some (String e (sign +:+ ds), s3) end
      else Some (EmptyString, s)
  | EmptyString => Some (EmptyString, s)
  end.

(** The value of a numeral that is not a plain safe integer is the language's own conversion of
    decimal text to a double. *)
Class NumberText := js_number : string → json.

Section Reader.
Context `{NumberText}.

Definition number_value (neg : bool) (ds frac exp : string) : json :=
  let text := (if neg then "-" else "") +:+ ds +:+ frac +:+ exp in
  match decimal_value 0 ds with
  | Some v =>
      if String.eqb frac "" && String.eqb exp "" && is_safe_integer v
      then JInt (if neg then - v else v) else js_number text
  | None => js_number text
  end.

Definition read_number (s : string) : option (json * string) :=
  let '(neg, s1) := match starts_with 45 s with Some s1 => (true, s1) | None => (false, s) end in
  let '(ds, s2) := take_digits s1 in
  if valid_int ds then
    '(frac, s3) ← read_fraction s2;
    '(exp, s4) ← read_exponent s3;
    Some (number_value neg ds frac exp, s4)
  else None.

(** [CreateDataProperty]: a repeated key keeps its place and takes the new value. *)
Fixpoint set_field (k : string) (v : json) (fs : fields) : fields :=
  match fs with
  | [] => [(k, v)]
  | (k', v') :: fs' => if String.eqb k k' then (k, v) :: fs' else (k', v') :: set_field k v fs'
  end.

Fixpoint read_value (fuel : nat) (s : string) : option (json * string) :=
  match fuel with
  | O => None
  | S f =>
      match skip_space s with
      | EmptyString => None
      | String c s' as t =>
          let n := N_of_ascii c in
          if (n =? 123)%N then
            match starts_with 125 (skip_space s') with
            | Some r => Some (JObj [], r)
            | None => read_members f [] s'
            end
          else if (n =? 91)%N then
            match starts_with 93 (skip_space s') with
            | Some r => Some (JArr [], r)
            | None => read_elements f s'
            end
          else if (n =? 34)%N then '(str, r) ← read_chars s'; Some (JStr str, r)
          else if (n =? 110)%N then r ← strip_prefix "null" t; Some (JNull, r)
          else if (n =? 116)%N then r ← strip_prefix "true" t; Some (JBool true, r)
          else if (n =? 102)%N then r ← strip_prefix "false" t; Some (JBool false, r)
          else read_number t
      end
  end
with read_elements (fuel : nat) (s : string) : option (json * string) :=
  match fuel with
  | O => None
  | S f =>
      '(v, r) ← read_value f s;
      match skip_space r with
      | String c r' =>
          if (code c =? 44)%Z then
            match read_elements f r' with
            | Some (JArr l, r'') => Some (JArr (v :: l), r'')
            | _ => None
            end
          else if (code c =? 93)%Z then Some (JArr [v], r')
          else None
      | EmptyString => None
      end
  end
with read_members (fuel : nat) (acc : fields) (s : string) : option (json * string) :=
  match fuel with
  | O => None
  | S f =>
      s1 ← starts_with 34 (skip_space s);
      '(k, s2) ← read_chars s1;
      s3 ← starts_with 58 (skip_space s2);
      '(v, r) ← read_value f s3;
      let acc' := set_field k v acc in
      match skip_space r with
      | String c r' =>
          if (code c =? 44)%Z then read_members f acc' r'
          else if (code c =? 125)%Z then Some (JObj acc', r')
          else None
      | EmptyString => None
      end
  end.

Definition reader_fuel (s : string) : nat := 2 * String.length s + 2.

(** [JSON.parse(text)]; [None] is a [SyntaxError]. *)
Definition JSON_parse (s : string) : option json :=
  match read_value (reader_fuel s) s with
  | Some (v, r) => match skip_space r with EmptyString => Some v | _ => None end
  | None => None
  end.
End Reader.

(** ** UTF-8 *)

Definition continuation (c : ascii) : bool := between 128 191 c.
Definition utf8_two (a b : ascii) : bool := between 194 223 a && continuation b.
Definition utf8_three (a b c : ascii) : bool :=
  continuation c &&
  (((code a =? 224)%Z && between 160 191 b)
   || ((between 225 236 a || between 238 239 a) && continuation b)
   || ((code a =? 237)%Z && between 128 159 b)).
Definition utf8_four (a b c d : ascii) : bool :=
  continuation c && continuation d &&
  (((code a =? 240)%Z && between 144 191 b)
   || (between 241 243 a && continuation b)
   || ((code a =? 244)%Z && between 128 143 b)).

Fixpoint valid_utf8 (s : string) : bool :=
  match s with
  | EmptyString => true
  | String a s1 =>
      if (code a <? 128)%Z then valid_utf8 s1 else
      match s1 with
      | EmptyString => false
      | String b s2 =>
          if utf8_two a b then valid_utf8 s2 else
          match s2 with
          | EmptyString => false
          | String c s3 =>
              if utf8_three a b c then valid_utf8 s3 else
              match s3 with
              | EmptyString => false
              | String d s4 => utf8_four a b c d && valid_utf8 s4
              end
          end
      end
  end.

Definition BOM : string := String "239" (String "187" (String "191" EmptyString)).

(** [new TextDecoder("utf-8", { fatal: true }).decode(bytes)]: [None] when it throws; a leading
    byte-order mark is dropped. *)
Definition decode_utf8 (bytes : string) : option string :=
  if valid_utf8 bytes then
    match strip_prefix BOM bytes with Some s => Some s | None => Some bytes end
  else None.

(** ** Values with a faithful text

    Plain, no repeated key in an object, integers that are safe, other numbers printed as the
    text that reads back to them, strings that are the UTF-8 of code points. *)
Section Faithful.
Context `{NumberText}.

Definition number_ok (t : string) : bool :=
  match read_number t with Some (JNum t', EmptyString) => String.eqb t t' | _ => false end
  && all_chars (between 33 126) t.

Fixpoint json_wf (j : json) : bool :=
  match j with
  | JUndef | JNonFinite | JOther => false
  | JNull | JBool _ => true
  | JStr s => valid_utf8 s
  | JInt z => is_safe_integer z
  | JNum t => number_ok t
  | JArr l => forallb json_wf l
  | JObj fs =>
      bool_decide (NoDup (keys fs))
      && forallb (λ kv, match kv with (k, v) => valid_utf8 k && json_wf v end) fs
  end.
End Faithful.

(** ** Numerals *)

Lemma is_digit_char n : (n < 10)%N → is_digit (pretty_N_char n) = true ∧
  (code (pretty_N_char n) - 48 = Z.of_N n)%Z.
Proof.
  intros Hn. assert (n = 0 ∨ n = 1 ∨ n = 2 ∨ n = 3 ∨ n = 4 ∨ n = 5 ∨ n = 6 ∨ n = 7 ∨ n = 8
    ∨ n = 9)%N as Hc by lia.
  repeat (destruct Hc as [->|Hc]; [by split|]). subst n. by split.
Qed.

Lemma pretty_N_go_decimal x s :
  decimal_value 0 (pretty_N_go x s) = decimal_value (Z.of_N x) s.
Proof.
  revert s. induction (N.lt_wf_0 x) as [x _ IH]; intros s.
  destruct (decide (x = 0)%N) as [->|Hx]; [done|].
  rewrite pretty_N_go_step by lia. rewrite IH by (apply N.div_lt; lia).
  assert (x `mod` 10 < 10)%N as Hm by (apply N.mod_lt; done).
  destruct (is_digit_char _ Hm) as [Hd Hc]. cbn [decimal_value]. rewrite Hd, Hc.
  f_equal. rewrite N2Z.inj_div, N2Z.inj_mod.
  change (Z.of_N 10) with 10%Z. pose proof (Z.div_mod (Z.of_N x) 10 ltac:(lia)). lia.
Qed.

Lemma decimal_value_pretty (n : N) : decimal_value 0 (pretty n) = Some (Z.of_N n).
Proof.
  unfold pretty, pretty_N. destruct (decide (n = 0)%N) as [->|]; [done|].
  by rewrite pretty_N_go_decimal.
Qed.

Lemma pretty_N_go_digits x s :
  all_chars is_digit s = true → all_chars is_digit (pretty_N_go x s) = true.
Proof.
  revert s. induction (N.lt_wf_0 x) as [x _ IH]; intros s Hs.
  destruct (decide (x = 0)%N) as [->|Hx]; [done|].
  rewrite pretty_N_go_step by lia. apply IH; [apply N.div_lt; lia|]. cbn [all_chars].
  destruct (is_digit_char (x `mod` 10)%N) as [-> _]; [by apply N.mod_lt | done].
Qed.

(** The digits of a positive number do not start with a zero. *)
Lemma pretty_N_go_head x s :
  (0 < x)%N → ∃ c r, pretty_N_go x s = String c r ∧ is_digit c = true ∧ (code c =? 48)%Z = false.
Proof.
  revert s. induction (N.lt_wf_0 x) as [x _ IH]; intros s Hx.
  rewrite pretty_N_go_step by lia. destruct (decide (x / 10 = 0)%N) as [Hz|Hz].
  - rewrite Hz, pretty_N_go_0. eexists _, _. split; [done|].
    assert (x `mod` 10 < 10)%N as Hm by (apply N.mod_lt; done).
    destruct (is_digit_char _ Hm) as [Hd Hc]. split; [done|]. apply Z.eqb_neq.
    pose proof (N.div_mod x 10 ltac:(done)) as Hx10. rewrite Hz in Hx10.
    generalize dependent (pretty_N_char (x `mod` 10)). intros c _ Hc Heq. rewrite Heq in Hc.
    assert (x `mod` 10 = 0)%N as Hm0 by (by apply N2Z.inj). rewrite Hm0 in Hx10.
    by rewrite Hx10 in Hx.
  - apply IH; [by apply N.div_lt | by apply N.neq_0_lt_0].
Qed.

Lemma pretty_N_facts (n : N) :
  all_chars is_digit (pretty n) = true ∧ valid_int (pretty n) = true.
Proof.
  unfold pretty, pretty_N. destruct (decide (n = 0)%N) as [->|Hn]; [done|].
  split; [by apply pretty_N_go_digits|].
  destruct (pretty_N_go_head n "" ltac:(lia)) as (c & r & -> & _ & Hc).
  simpl. rewrite Hc. by destruct r.
Qed.

(** The text after a numeral does not continue it. *)
Definition number_end (rest : string) : bool :=
  match rest with
  | EmptyString => true
  | String c _ =>
      negb (is_digit c || (code c =? 46)%Z || (code c =? 101)%Z || (code c =? 69)%Z)
  end.

Lemma take_digits_all ds rest :
  all_chars is_digit ds = true → number_end rest = true → take_digits (ds +:+ rest) = (ds, rest).
Proof.
  induction ds as [|c ds IH]; intros Hds Hr.
  - rewrite str_app_nil. destruct rest as [|c rest]; [done|]. simpl in *.
    destruct (is_digit c); [by split_bools|done].
  - rewrite str_app_cons. simpl in *. apply andb_true_iff in Hds as [-> Hds].
    by rewrite (IH Hds Hr).
Qed.

(** More text after what was read does not change what was read. *)
Lemma take_digits_app s rest :
  ((take_digits s).2 = "" → number_end rest = true) →
  take_digits (s +:+ rest) = ((take_digits s).1, (take_digits s).2 +:+ rest).
Proof.
  induction s as [|c s IH]; intros Hr.
  - rewrite str_app_nil. simpl in *. destruct rest as [|c rest]; [done|].
    specialize (Hr eq_refl). simpl in *. destruct (is_digit c); [by split_bools|done].
  - rewrite str_app_cons. simpl in *. destruct (is_digit c); simpl in *; [|done].
    by rewrite IH.
Qed.

Lemma app_empty_iff (s r : string) : s +:+ r = "" ↔ s = "" ∧ r = "".
Proof. destruct s; [rewrite str_app_nil; naive_solver|]. rewrite str_app_cons. naive_solver. Qed.

Lemma read_fraction_app s f r rest :
  read_fraction s = Some (f, r) → (r = "" → number_end rest = true) →
  read_fraction (s +:+ rest) = Some (f, r +:+ rest).
Proof.
  unfold read_fraction. destruct s as [|c s]; simpl.
  - intros [= <- <-] Hr. specialize (Hr eq_refl). rewrite str_app_nil.
    destruct rest as [|c rest]; [done|]. simpl in *. destruct (code c =? 46)%Z eqn:E; [|done].
    rewrite orb_true_r in Hr. done.
  - rewrite str_app_cons. simpl. destruct (code c =? 46)%Z.
    + destruct (take_digits s) as [ds s2] eqn:E. intros H1 Hr.
      destruct ds as [|d ds]; [done|]. injection H1 as <- <-.
      rewrite take_digits_app by (by rewrite E). rewrite E. simpl. by destruct ds.
    + intros [= <- <-] _. by rewrite str_app_cons.
Qed.

Lemma read_exponent_app s f r rest :
  read_exponent s = Some (f, r) → (r = "" → number_end rest = true) →
  read_exponent (s +:+ rest) = Some (f, r +:+ rest).
Proof.
  unfold read_exponent. destruct s as [|c s].
  - intros [= <- <-] Hr. specialize (Hr eq_refl). rewrite str_app_nil.
    destruct rest as [|c rest]; [done|]. simpl in *.
    destruct (code c =? 101)%Z; [by split_bools|]. destruct (code c =? 69)%Z; [by split_bools|].
    done.
  - rewrite str_app_cons. destruct ((code c =? 101)%Z || (code c =? 69)%Z) eqn:Ec.
    + destruct s as [|b s].
      * simpl. done.
      * rewrite str_app_cons. destruct ((code b =? 43)%Z || (code b =? 45)%Z).
        -- destruct (take_digits s) as [ds s2] eqn:E. intros H1 Hr.
           destruct ds as [|d ds]; [done|]. injection H1 as <- <-.
           rewrite take_digits_app by (by rewrite E). by rewrite E.
        -- rewrite <- str_app_cons.
           destruct (take_digits (String b s)) as [ds s2] eqn:E. intros H1 Hr.
           destruct ds as [|d ds]; [done|]. injection H1 as <- <-.
           rewrite take_digits_app by (by rewrite E). by rewrite E.
    + intros [= <- <-] _. by rewrite str_app_cons.
Qed.

Lemma read_fraction_none s : number_end s = true → read_fraction s = Some ("", s).
Proof.
  intros Hs. apply (read_fraction_app "" "" "" s); [done|]. done.
Qed.
Lemma read_exponent_none s : number_end s = true → read_exponent s = Some ("", s).
Proof. intros Hs. by apply (read_exponent_app "" "" "" s). Qed.

Section Numbers.
Context `{NumberText}.

Lemma read_number_app s v r rest :
  read_number s = Some (v, r) → (r = "" → number_end rest = true) →
  read_number (s +:+ rest) = Some (v, r +:+ rest).
Proof.
  unfold read_number.
  assert (∀ neg s1, 
    (let '(ds, s2) := take_digits s1 in
     if valid_int ds then
       '(frac, s3) ← read_fraction s2; '(exp, s4) ← read_exponent s3;
       Some (number_value neg ds frac exp, s4)
     else None) = Some (v, r) → (r = "" → number_end rest = true) →
    (let '(ds, s2) := take_digits (s1 +:+ rest) in
     if valid_int ds then
       '(frac, s3) ← read_fraction s2; '(exp, s4) ← read_exponent s3;
       Some (number_value neg ds frac exp, s4)
     else None) = Some (v, r +:+ rest)) as Hgo.
  { intros neg s1 H1 Hr. destruct (take_digits s1) as [ds s2] eqn:E1.
    destruct (valid_int ds) eqn:E2; [|done].
    destruct (read_fraction s2) as [[frac s3]|] eqn:E3; [|done]. cbn [mbind option_bind] in H1.
    destruct (read_exponent s3) as [[exp s4]|] eqn:E4; [|done]. cbn [mbind option_bind] in H1.
    injection H1 as <- <-.
    assert (s3 = "" → s4 = "") as H34.
    { intros ->. by injection E4. }
    assert (s2 = "" → s3 = "") as H23.
    { intros ->. by injection E3. }
    rewrite take_digits_app by (rewrite E1; intros; apply Hr; auto). rewrite E1. cbn [fst snd].
    rewrite E2. rewrite (read_fraction_app _ _ _ _ E3) by auto. cbn [mbind option_bind].
    by rewrite (read_exponent_app _ _ _ _ E4). }
  destruct s as [|c s].
  - done.
  - rewrite str_app_cons. cbn [starts_with]. destruct (code c =? 45)%Z.
    + apply Hgo.
    + rewrite <- str_app_cons. apply Hgo.
Qed.

Lemma read_number_digits (neg : bool) (n : N) rest :
  is_safe_integer (Z.of_N n) = true → number_end rest = true →
  read_number ((if neg then "-" else "") +:+ pretty n +:+ rest)
  = Some (JInt (if neg then - Z.of_N n else Z.of_N n)%Z, rest).
Proof.
  intros Hs Hr. destruct (pretty_N_facts n) as [Hd Hv].
  assert (∀ b : bool, (let '(ds, s2) := take_digits (pretty n +:+ rest) in
     if valid_int ds then
       '(frac, s3) ← read_fraction s2; '(exp, s4) ← read_exponent s3;
       Some (number_value b ds frac exp, s4)
     else None) = Some (JInt (if b then - Z.of_N n else Z.of_N n)%Z, rest)) as Hgo.
  { intros b. rewrite (take_digits_all _ _ Hd Hr), Hv, (read_fraction_none _ Hr).
    cbn [mbind option_bind]. rewrite (read_exponent_none _ Hr). cbn [mbind option_bind].
    unfold number_value. by rewrite decimal_value_pretty, Hs. }
  unfold read_number. destruct neg.
  - rewrite str_app_cons, str_app_nil. cbn [starts_with]. apply Hgo.
  - rewrite str_app_nil. destruct (pretty n) as [|c r] eqn:E; [done|].
    rewrite str_app_cons. cbn [starts_with].
    destruct (code c =? 45)%Z eqn:Ec; [|rewrite <- str_app_cons; apply Hgo].
    apply Z.eqb_eq in Ec. cbn [all_chars] in Hd. unfold is_digit, between in Hd.
    rewrite Ec in Hd. done.
Qed.

Lemma read_number_JInt z rest :
  is_safe_integer z = true → number_end rest = true →
  read_number (pretty z +:+ rest) = Some (JInt z, rest).
Proof.
  intros Hz Hr. destruct z as [|p|p].
  - apply (read_number_digits false 0); done.
  - by apply (read_number_digits false (Npos p)).
  - change (pretty (Z.neg p)) with ("-" +:+ pretty (Npos p)). rewrite str_app_assoc.
    apply (read_number_digits true (Npos p)); [|done].
    unfold is_safe_integer in *. cbn [Z.of_N]. split_bools. apply andb_true_iff.
    rewrite !Z.leb_le. unfold max_safe_integer in *. lia.
Qed.

Lemma read_number_JNum t rest :
  number_ok t = true → number_end rest = true → read_number (t +:+ rest) = Some (JNum t, rest).
Proof.
  unfold number_ok. intros [Ht _]%andb_true_iff Hr. revert Ht.
  destruct (read_number t) as [[v r]|] eqn:E; [|done].
  destruct v; try done. destruct r; [|done]. intros ->%String.eqb_eq.
  by rewrite (read_number_app _ _ _ _ E).
Qed.

(** A numeral starts with a digit or a minus sign. *)
Lemma read_number_head s p :
  read_number s = Some p → ∃ c r, s = String c r ∧ (is_digit c = true ∨ code c = 45%Z).
Proof.
  destruct s as [|c r]; [done|]. intros E. exists c, r. split; [done|].
  unfold read_number in E. cbn [starts_with] in E.
  destruct (code c =? 45)%Z eqn:Ec; [right; by apply Z.eqb_eq|].
  left. simpl in E. by destruct (is_digit c).
Qed.
End Numbers.

(** ** String literals *)

Lemma read_chars_u h1 h2 h3 h4 h t :
  hex4 h1 h2 h3 h4 = Some h → high_surrogate h = false →
  read_chars (String "\" (String "u" (String h1 (String h2 (String h3 (String h4 t))))))
  = push_point h (read_chars t).
Proof.
  intros Hh Hs. cbn [read_chars]. rewrite Hh, Hs.
  destruct t as [|c1 [|c2 [|b1 [|b2 [|b3 [|b4 t]]]]]]; try reflexivity.
  destruct (hex4 b1 b2 b3 b4); [|reflexivity]. by rewrite andb_false_r.
Qed.

Definition all_bytes : list ascii := map ascii_of_nat (seq 0 256).

Lemma all_bytes_complete c : In c all_bytes.
Proof.
  unfold all_bytes. rewrite <- (ascii_nat_embedding c). apply in_map, in_seq.
  pose proof (nat_ascii_bounded c). lia.
Qed.

(** A property of bytes that a computation checks on all of them. *)
Lemma byte_check (p : ascii → bool) : forallb p all_bytes = true → ∀ c, p c = true.
Proof. intros H c. rewrite forallb_forall in H. apply H, all_bytes_complete. Qed.

(** A control character without a short escape is read back from its [\u00xx]. *)
Definition control_escape_ok (c : ascii) : bool :=
  let n := N_of_ascii c in
  negb (n <? 32)%N
  || match hex4 "0" "0" (hex_digit (n / 16)) (hex_digit (n mod 16)) with
     | Some h => (h =? n)%N && negb (high_surrogate h)
     | None => false
     end.

Lemma control_escape c : control_escape_ok c = true.
Proof. revert c. apply byte_check. vm_compute. reflexivity. Qed.

Lemma read_chars_escape_char c t : read_chars (escape_char c t) = push c (read_chars t).
Proof.
  unfold escape_char. pose proof (control_escape c) as Hc. unfold control_escape_ok in Hc.
  assert (∀ k a, N_of_ascii a = k → (N_of_ascii c =? k)%N = true → c = a) as Heq.
  { intros k a <- E. apply N.eqb_eq in E. rewrite <- (ascii_N_embedding c), E.
    apply ascii_N_embedding. }
  destruct (N_of_ascii c =? 34)%N eqn:E1; [by rewrite (Heq _ dquote eq_refl E1)|].
  destruct (N_of_ascii c =? 92)%N eqn:E2; [by rewrite (Heq _ "\"%char eq_refl E2)|].
  destruct (N_of_ascii c =? 8)%N eqn:E3; [by rewrite (Heq _ "008"%char eq_refl E3)|].
  destruct (N_of_ascii c =? 9)%N eqn:E4; [by rewrite (Heq _ "009"%char eq_refl E4)|].
  destruct (N_of_ascii c =? 10)%N eqn:E5; [by rewrite (Heq _ "010"%char eq_refl E5)|].
  destruct (N_of_ascii c =? 12)%N eqn:E6; [by rewrite (Heq _ "012"%char eq_refl E6)|].
  destruct (N_of_ascii c =? 13)%N eqn:E7; [by rewrite (Heq _ "013"%char eq_refl E7)|].
  destruct (N_of_ascii c <? 32)%N eqn:E8.
  - simpl in Hc. destruct (hex4 "0" "0" _ _) as [h|] eqn:Eh; [|done].
    apply andb_true_iff in Hc as [Hn Hs]. apply negb_true_iff in Hs. apply N.eqb_eq in Hn.
    rewrite !str_app_cons, str_app_nil. rewrite (read_chars_u _ _ _ _ _ _ Eh Hs). subst h.
    destruct (read_chars t) as [[s r]|]; [|done]. simpl. unfold utf8_of.
    apply N.ltb_lt in E8. assert ((N_of_ascii c <? 128)%N = true) as -> by (apply N.ltb_lt; lia).
    by rewrite ascii_N_embedding.
  - cbn [read_chars]. by rewrite E1, E8, E2.
Qed.

Lemma escape_char_app c t rest : escape_char c t +:+ rest = escape_char c (t +:+ rest).
Proof.
  unfold escape_char. repeat (destruct (_ =? _)%N; [by rewrite ?str_app_assoc|]).
  destruct (_ <? _)%N; [|done]. by rewrite str_app_assoc.
Qed.

Lemma read_chars_escape s rest : read_chars (escape s +:+ rest) = Some (s, rest).
Proof.
  induction s as [|c s IH]; [done|]. cbn [escape].
  by rewrite escape_char_app, read_chars_escape_char, IH.
Qed.

(** ** Reading what was printed *)

Lemma skip_space_id c s : json_space c = false → skip_space (String c s) = String c s.
Proof. intros H. cbn [skip_space]. by rewrite H. Qed.

Lemma str_app_nil_r (s : string) : s +:+ "" = s.
Proof. induction s as [|c s IH]; [done|]. by rewrite str_app_cons, IH. Qed.

Section RoundTrip.
Context `{NumberText}.

(** The first character of a printed value, which decides how it is read. *)
Definition value_head (c : ascii) : bool :=
  negb (json_space c) && negb (code c =? 93)%Z && negb (code c =? 125)%Z.

Definition number_head (c : ascii) : bool := is_digit c || (code c =? 45)%Z.

Lemma number_head_spec c :
  number_head c = true →
  value_head c = true ∧ (N_of_ascii c =? 123)%N = false ∧ (N_of_ascii c =? 91)%N = false
  ∧ (N_of_ascii c =? 34)%N = false ∧ (N_of_ascii c =? 110)%N = false
  ∧ (N_of_ascii c =? 116)%N = false ∧ (N_of_ascii c =? 102)%N = false.
Proof.
  intros Hc.
  pose proof (byte_check (λ c, implb (number_head c)
    (value_head c && negb (N_of_ascii c =? 123)%N && negb (N_of_ascii c =? 91)%N
     && negb (N_of_ascii c =? 34)%N && negb (N_of_ascii c =? 110)%N
     && negb (N_of_ascii c =? 116)%N && negb (N_of_ascii c =? 102)%N))
    ltac:(vm_compute; reflexivity) c) as Hall.
  simpl in Hall. rewrite Hc in Hall. simpl in Hall. by split_bools.
Qed.

Lemma read_number_number_head s p :
  read_number s = Some p → ∃ c r, s = String c r ∧ number_head c = true.
Proof.
  intros (c & r & -> & Hc)%read_number_head. exists c, r. split; [done|].
  unfold number_head. destruct Hc as [->| ->]; [done|]. apply orb_true_r.
Qed.

Lemma print_head v : json_wf v = true → ∃ c r, print v = String c r ∧ value_head c = true.
Proof.
  destruct v as [| |[]|z|t| |s|l|fs|]; simpl; try done; intros Hw; try (by eexists _, _).
  - pose proof (read_number_JInt z "" Hw eq_refl) as Hr.
    apply read_number_number_head in Hr as (c & r & E & Hc). rewrite str_app_nil_r in E.
    exists c, r. split; [done|]. by apply number_head_spec.
  - unfold number_ok in Hw. destruct (read_number t) as [p|] eqn:E; [|done].
    apply read_number_number_head in E as (c & r & -> & Hc).
    exists c, r. split; [done|]. by apply number_head_spec.
Qed.

Lemma set_field_fresh k v fs : k ∉ keys fs → set_field k v fs = fs ++ [(k, v)].
Proof.
  induction fs as [|[k' v'] fs IH]; intros Hk; [done|]. simpl in *.
  apply not_elem_of_cons in Hk as [Hne Hk]. destruct (String.eqb_spec k k'); [done|].
  by rewrite IH.
Qed.

Definition reads_back (v : json) : Prop :=
  json_wf v = true → ∀ f rest, 2 * String.length (print v) < f → number_end rest = true →
  read_value f (print v +:+ rest) = Some (v, rest).

Lemma read_elements_print l :
  Forall reads_back l → l ≠ [] → forallb json_wf l = true → ∀ f rest,
  2 * String.length (join_comma (map print l)) + 2 ≤ f →
  read_elements f (join_comma (map print l) +:+ "]" +:+ rest) = Some (JArr l, rest).
Proof.
  induction 1 as [|v l Hv Hl IH]; [done|]. intros _ Hw f rest Hf.
  simpl in Hw. apply andb_true_iff in Hw as [Hw1 Hw2].
  destruct f as [|f]; [lia|]. destruct l as [|v' l].
  - cbn [map join_comma] in *. cbn [read_elements].
    rewrite Hv; [|done|lia|done]. reflexivity.
  - change (join_comma (map print (v :: v' :: l)))
      with (print v +:+ "," +:+ join_comma (map print (v' :: l))) in *.
    rewrite !str_length_app in Hf. cbn [String.length] in Hf.
    cbn [read_elements]. rewrite !str_app_assoc.
    rewrite Hv; [|done|lia|done]. cbn [mbind option_bind]. rewrite str_app_cons, str_app_nil.
    rewrite skip_space_id by done. change (code "," =? 44)%Z with true. cbv iota.
    rewrite IH; [done|done|done|lia].
Qed.

Definition member_text (kv : string * json) : string :=
  match kv with (k, v) => quote k +:+ ":" +:+ print v end.

Lemma read_members_print fs :
  Forall (λ kv, reads_back kv.2) fs → fs ≠ [] →
  forallb (λ kv, match kv with (k, v) => valid_utf8 k && json_wf v end) fs = true →
  ∀ f acc rest, NoDup (keys (acc ++ fs)) →
  2 * String.length (join_comma (map member_text fs)) + 2 ≤ f →
  read_members f acc (join_comma (map member_text fs) +:+ "}" +:+ rest)
  = Some (JObj (acc ++ fs), rest).
Proof.
  induction 1 as [|[k v] fs Hv Hl IH]; [done|]. intros _ Hw f acc rest Hnd Hf.
  simpl in Hw. apply andb_true_iff in Hw as [Hw1 Hw2]. apply andb_true_iff in Hw1 as [_ Hw1].
  simpl in Hv.
  assert (k ∉ keys acc) as Hk.
  { unfold keys in *. rewrite map_app in Hnd. apply NoDup_app in Hnd as (_ & Hd & _).
    intros Hin. apply (Hd _ Hin). left. }
  assert (∀ (tail : string) (k' : json * string → option (json * string)),
    (s1 ← starts_with 34 (skip_space (member_text (k, v) +:+ tail));
     '(k, s2) ← read_chars s1;
     s3 ← starts_with 58 (skip_space s2);
     '(v, r) ← read_value (pred f) s3; k' (JObj (set_field k v acc), r))
    = ('(v, r) ← read_value (pred f) (print v +:+ tail);
       k' (JObj (acc ++ [(k, v)]), r))) as Hmember.
  { intros tail k'. unfold member_text, quote. rewrite !str_app_assoc, str_app_cons.
    rewrite skip_space_id by done. cbn [starts_with]. change (code dquote =? 34)%Z with true.
    cbv iota. cbn [mbind option_bind]. rewrite read_chars_escape. cbn [mbind option_bind].
    rewrite str_app_cons, skip_space_id by done. cbn [starts_with].
    change (code ":" =? 58)%Z with true. cbv iota. cbn [mbind option_bind].
    rewrite str_app_nil. destruct (read_value _ _) as [[v' r]|]; [|done]. cbn [mbind option_bind].
    by rewrite set_field_fresh. }
  assert (2 * String.length (member_text (k, v)) ≤ f - 1 →
    2 * String.length (print v) < pred f) as Hlen.
  { unfold member_text. rewrite !str_length_app. cbn [String.length quote]. lia. }
  destruct f as [|f]; [lia|]. destruct fs as [|kv' fs].
  - cbn [map join_comma] in *. cbn [read_members]. cbn [pred] in *.
    pose proof (Hmember ("}" +:+ rest) (λ p, match p with
      | (JObj acc', r) => match skip_space r with
        | String c r' => if (code c =? 44)%Z then read_members f acc' r'
          else if (code c =? 125)%Z then Some (JObj acc', r') else None
        | EmptyString => None end
      | _ => None end)) as Hm.
    cbn beta iota in Hm. rewrite Hm. rewrite Hv; [|done|apply Hlen; lia|done]. reflexivity.
  - change (join_comma (map member_text ((k, v) :: kv' :: fs)))
      with (member_text (k, v) +:+ "," +:+ join_comma (map member_text (kv' :: fs))) in *.
    rewrite !str_length_app in Hf. cbn [String.length] in Hf.
    cbn [read_members]. cbn [pred] in *. rewrite !str_app_assoc.
    pose proof (Hmember ("," +:+ join_comma (map member_text (kv' :: fs)) +:+ "}" +:+ rest)
      (λ p, match p with
      | (JObj acc', r) => match skip_space r with
        | String c r' => if (code c =? 44)%Z then read_members f acc' r'
          else if (code c =? 125)%Z then Some (JObj acc', r') else None
        | EmptyString => None end
      | _ => None end)) as Hm.
    cbn beta iota in Hm. rewrite Hm. rewrite Hv; [|done|apply Hlen; lia|done].
    cbn [mbind option_bind]. rewrite str_app_cons, str_app_nil.
    rewrite skip_space_id by done. change (code "," =? 44)%Z with true. cbv iota.
    rewrite IH; [by rewrite <- app_assoc|done|done| |lia].
    by rewrite <- app_assoc.
Qed.

(** [read_value] dispatches on the first character. *)
Lemma read_value_number f s p :
  read_number s = Some p → read_value (S f) s = read_number s.
Proof.
  intros E. destruct (read_number_number_head _ _ E) as (c & r & -> & Hc).
  apply number_head_spec in Hc as (Hh & H1 & H2 & H3 & H4 & H5 & H6).
  unfold value_head in Hh. split_bools. cbn [read_value]. rewrite skip_space_id by done.
  by rewrite H1, H2, H3, H4, H5, H6.
Qed.

Lemma read_value_array f s c s' :
  s = String c s' → value_head c = true →
  read_value (S f) (String "[" s) = read_elements f s.
Proof.
  intros -> Hc. unfold value_head in Hc. split_bools. cbn [read_value].
  rewrite skip_space_id by done. change (N_of_ascii "[" =? 123)%N with false.
  change (N_of_ascii "[" =? 91)%N with true. cbv iota. rewrite skip_space_id by done.
  cbn [starts_with]. assert ((code c =? 93)%Z = false) as -> by (by apply Z.eqb_neq). done.
Qed.

Lemma read_value_object f s :
  read_value (S f) (String "{" (String dquote s)) = read_members f [] (String dquote s).
Proof. reflexivity. Qed.

Lemma join_comma_head x l : ∃ t, join_comma (x :: l) = x +:+ t.
Proof.
  destruct l as [|y l]; [exists ""; by rewrite str_app_nil_r|].
  by exists ("," +:+ join_comma (y :: l)).
Qed.

Theorem read_print v : reads_back v.
Proof.
  induction v as [| |b|z|t| |s|l IH|fs IH|] using json_rect_nested; intros Hw f rest Hf Hr;
    try done; (destruct f as [|f]; [lia|]).
  - reflexivity.
  - by destruct b.
  - cbn [print]. by erewrite read_value_number by (by apply read_number_JInt);
      apply read_number_JInt.
  - cbn [print]. by erewrite read_value_number by (by apply read_number_JNum);
      apply read_number_JNum.
  - cbn [print]. unfold quote. rewrite str_app_cons. cbn [read_value].
    rewrite skip_space_id by done. change (N_of_ascii dquote =? 123)%N with false.
    change (N_of_ascii dquote =? 91)%N with false. change (N_of_ascii dquote =? 34)%N with true.
    cbv iota. by rewrite read_chars_escape.
  - cbn [print json_wf] in *. destruct l as [|v l]; [reflexivity|].
    rewrite !str_app_assoc, str_app_cons, str_app_nil.
    rewrite !str_length_app in Hf. cbn [String.length] in Hf.
    assert (∃ c s', join_comma (map print (v :: l)) +:+ "]" +:+ rest = String c s' ∧
      value_head c = true) as (c & s' & E & Hc).
    { destruct (join_comma_head (print v) (map print l)) as [t Ht]. cbn [map]. rewrite Ht.
      simpl in Hw. apply andb_true_iff in Hw as [Hw _].
      destruct (print_head _ Hw) as (c & r & -> & Hc). rewrite !str_app_cons. eauto. }
    rewrite (read_value_array _ _ _ _ E Hc). apply read_elements_print; [done..|lia].
  - cbn [print json_wf] in *. apply andb_true_iff in Hw as [Hnd Hw].
    apply bool_decide_eq_true in Hnd. destruct fs as [|[k v] fs]; [reflexivity|].
    fold member_text in *.
    change (map (λ kv, match kv with (k, v) => quote k +:+ ":" +:+ print v end) ((k, v) :: fs))
      with (map member_text ((k, v) :: fs)) in *.
    rewrite !str_app_assoc, str_app_cons, str_app_nil.
    rewrite !str_length_app in Hf. cbn [String.length] in Hf.
    assert (∃ s', join_comma (map member_text ((k, v) :: fs)) +:+ "}" +:+ rest
      = String dquote s') as [s' E].
    { destruct (join_comma_head (member_text (k, v)) (map member_text fs)) as [t Ht].
      cbn [map]. rewrite Ht. unfold member_text, quote. rewrite !str_app_cons. eauto. }
    rewrite E, read_value_object, <- E. apply (read_members_print _ IH); [done..|lia].
Qed.

Theorem parse_print v : json_wf v = true → JSON_parse (print v) = Some v.
Proof.
  intros Hw. unfold JSON_parse, reader_fuel.
  pose proof (read_print v Hw (2 * String.length (print v) + 2) "" ltac:(lia) eq_refl) as Hr.
  rewrite str_app_nil_r in Hr. by rewrite Hr.
Qed.
End RoundTrip.

(** ** The fuel of the reader

    Every call consumes text, so the fuel [reader_fuel] never runs out: any larger fuel gives the
    same result. *)

Local Abbreviation len := String.length.

Lemma skip_space_len s : len (skip_space s) ≤ len s.
Proof. induction s as [|c s IH]; simpl; [lia|]. destruct (json_space c); simpl; lia. Qed.

Lemma starts_with_len c s r : starts_with c s = Some r → len r < len s.
Proof. destruct s as [|a s]; simpl; [done|]. destruct (code a =? c)%Z; [|done]. intros [= <-]. lia. Qed.

Lemma strip_prefix_len p s r : strip_prefix p s = Some r → len r + len p = len s.
Proof.
  revert s. induction p as [|a p IH]; intros [|b s]; simpl; try done.
  1,2: intros [= <-]; simpl; lia.
  destruct (Ascii.eqb a b); [|done]. intros H1%IH. lia.
Qed.

Lemma take_digits_len s : len (take_digits s).1 + len (take_digits s).2 = len s.
Proof. induction s as [|c s IH]; simpl; [done|]. destruct (is_digit c); simpl; lia. Qed.

Lemma push_Some c m p : push c m = Some p → ∃ s, m = Some (s, p.2).
Proof. destruct m as [[s r]|]; simpl; [|done]. intros [= <-]. eauto. Qed.
Lemma push_point_Some n m p : push_point n m = Some p → ∃ s, m = Some (s, p.2).
Proof. destruct m as [[s r]|]; simpl; [|done]. intros [= <-]. eauto. Qed.

Lemma read_chars_len s p : read_chars s = Some p → len p.2 < len s.
Proof.
  remember (len s) as n eqn:Hn. revert s Hn p.
  induction (lt_wf n) as [n _ IH]. intros s -> p.
  assert (∀ t q, len t < len s → read_chars t = Some q → len q.2 < len s) as Hrec.
  { intros t q Ht Hq. pose proof (IH _ Ht t eq_refl q Hq). lia. }
  assert (∀ t c, len t < len s → push c (read_chars t) = Some p → len p.2 < len s) as Hpush.
  { intros t c Ht (u & Hu)%push_Some. by apply (Hrec t _ Ht Hu). }
  assert (∀ t c, len t < len s → push_point c (read_chars t) = Some p → len p.2 < len s) as Hpt.
  { intros t c Ht (u & Hu)%push_point_Some. by apply (Hrec t _ Ht Hu). }
  clear Hrec IH. destruct s as [|c s]; [done|]. simpl in Hpush, Hpt. cbn [read_chars].
  destruct (N_of_ascii c =? 34)%N; [intros [= <-]; simpl; lia|].
  destruct (N_of_ascii c <? 32)%N; [done|].
  destruct (N_of_ascii c =? 92)%N; [|apply Hpush; lia].
  destruct s as [|e s]; [done|]. simpl in Hpush, Hpt.
  destruct (N_of_ascii e =? 117)%N;
    [|destruct (simple_escape e); [|done]; apply Hpush; simpl; lia].
  destruct s as [|a1 [|a2 [|a3 [|a4 s]]]]; try done. simpl in Hpt.
  destruct (hex4 a1 a2 a3 a4); [|done].
  destruct s as [|c1 [|c2 [|b1 [|b2 [|b3 [|b4 s]]]]]]; simpl in Hpt; try (apply Hpt; simpl; lia).
  destruct (hex4 b1 b2 b3 b4); [|apply Hpt; simpl; lia].
  destruct (_ && _); apply Hpt; simpl; lia.
Qed.

Lemma read_exponent_len s e r : read_exponent s = Some (e, r) → len r ≤ len s.
Proof.
  unfold read_exponent. destruct s as [|c s]; [intros [= <- <-]; done|].
  destruct (_ || _); [|intros [= <- <-]; done].
  assert (∀ sign t, len t ≤ len s →
    (let '(ds, s3) := take_digits t in
     match ds with EmptyString => None | _ => Some (String c (sign +:+ ds), s3) end) = Some (e, r)
    → len r ≤ len (String c s)) as Hgo.
  { intros sign t Ht. pose proof (take_digits_len t) as Hl. destruct (take_digits t) as [ds s3].
    destruct ds; [done|]. intros [= <- <-]. simpl in *. lia. }
  destruct s as [|b s]; [apply Hgo; done|].
  destruct (_ || _); apply Hgo; simpl; lia.
Qed.

Section Fuel.
Context `{NumberText}.

Lemma read_number_len s v r : read_number s = Some (v, r) → len r < len s.
Proof.
  unfold read_number.
  assert (∀ neg s1, len s1 ≤ len s →
    (let '(ds, s2) := take_digits s1 in
     if valid_int ds then
       '(frac, s3) ← read_fraction s2; '(exp, s4) ← read_exponent s3;
       Some (number_value neg ds frac exp, s4)
     else None) = Some (v, r) → len r < len s) as Hgo.
  { intros neg s1 Hs1. pose proof (take_digits_len s1) as Hl.
    destruct (take_digits s1) as [ds s2]. simpl in Hl.
    destruct (valid_int ds) eqn:Hv; [|done].
    assert (0 < len ds) by (destruct ds; [done|simpl; lia]).
    unfold read_fraction. destruct (starts_with 46 s2) as [s2'|] eqn:Ef.
    - apply starts_with_len in Ef. pose proof (take_digits_len s2') as Hl2.
      destruct (take_digits s2') as [fs s3]. simpl in Hl2. destruct fs; [done|].
      cbn [mbind option_bind]. intros Hx.
      destruct (read_exponent s3) as [[exp s4]|] eqn:Ee; [|done]. injection Hx as _ <-.
      apply read_exponent_len in Ee. lia.
    - cbn [mbind option_bind]. intros Hx.
      destruct (read_exponent s2) as [[exp s4]|] eqn:Ee; [|done]. injection Hx as _ <-.
      apply read_exponent_len in Ee. lia. }
  destruct (starts_with 45 s) as [s1|] eqn:E; apply Hgo; [|done].
  apply starts_with_len in E. lia.
Qed.

(** What a successful read leaves is shorter. *)
Lemma read_len f :
  (∀ s v r, read_value f s = Some (v, r) → len r < len s) ∧
  (∀ s v r, read_elements f s = Some (v, r) → len r < len s) ∧
  (∀ acc s v r, read_members f acc s = Some (v, r) → len r < len s).
Proof.
  induction f as [|f (IHv & IHe & IHm)]; [done|]. split_and!.
  - intros s v r. cbn [read_value]. pose proof (skip_space_len s) as Hs.
    destruct (skip_space s) as [|c s'] eqn:Es; [done|]. simpl in Hs.
    destruct (N_of_ascii c =? 123)%N.
    { destruct (starts_with 125 (skip_space s')) eqn:E1.
      - intros [= <- <-]. apply starts_with_len in E1. pose proof (skip_space_len s'). lia.
      - intros Hr%IHm. lia. }
    destruct (N_of_ascii c =? 91)%N.
    { destruct (starts_with 93 (skip_space s')) eqn:E1.
      - intros [= <- <-]. apply starts_with_len in E1. pose proof (skip_space_len s'). lia.
      - intros Hr%IHe. lia. }
    destruct (N_of_ascii c =? 34)%N.
    { destruct (read_chars s') as [[str r']|] eqn:E1; [|done]. intros [= <- <-].
      apply read_chars_len in E1. simpl in E1. lia. }
    destruct (N_of_ascii c =? 110)%N.
    { destruct (strip_prefix _ _) eqn:E1; [|done]. intros [= <- <-].
      apply strip_prefix_len in E1. simpl in E1. lia. }
    destruct (N_of_ascii c =? 116)%N.
    { destruct (strip_prefix _ _) eqn:E1; [|done]. intros [= <- <-].
      apply strip_prefix_len in E1. simpl in E1. lia. }
    destruct (N_of_ascii c =? 102)%N.
    { destruct (strip_prefix _ _) eqn:E1; [|done]. intros [= <- <-].
      apply strip_prefix_len in E1. simpl in E1. lia. }
    intros Hr%read_number_len. simpl in Hr. lia.
  - intros s v r. cbn [read_elements]. destruct (read_value f s) as [[x r1]|] eqn:E1; [|done].
    apply IHv in E1. cbn [mbind option_bind]. pose proof (skip_space_len r1) as Hs.
    destruct (skip_space r1) as [|c r2]; [done|]. simpl in Hs. destruct (code c =? 44)%Z.
    + destruct (read_elements f r2) as [[[] r3]|] eqn:E2; try done. apply IHe in E2.
      intros [= <- <-]. lia.
    + destruct (code c =? 93)%Z; [|done]. intros [= <- <-]. lia.
  - intros acc s v r. cbn [read_members].
    destruct (starts_with 34 (skip_space s)) as [s1|] eqn:E1; [|done].
    apply starts_with_len in E1. pose proof (skip_space_len s). cbn [mbind option_bind].
    destruct (read_chars s1) as [[k s2]|] eqn:E2; [|done]. apply read_chars_len in E2.
    cbn [mbind option_bind]. simpl in E2. pose proof (skip_space_len s2).
    destruct (starts_with 58 (skip_space s2)) as [s3|] eqn:E3; [|done].
    apply starts_with_len in E3. cbn [mbind option_bind].
    destruct (read_value f s3) as [[x r1]|] eqn:E4; [|done]. apply IHv in E4.
    cbn [mbind option_bind]. pose proof (skip_space_len r1) as Hs.
    destruct (skip_space r1) as [|c r2]; [done|]. simpl in Hs. destruct (code c =? 44)%Z.
    + intros Hr%IHm. lia.
    + destruct (code c =? 125)%Z; [|done]. intros [= <- <-]. lia.
Qed.

Lemma read_fuel f :
  (∀ s g, 2 * len s + 1 ≤ f → f ≤ g → read_value g s = read_value f s) ∧
  (∀ s g, 2 * len s + 2 ≤ f → f ≤ g → read_elements g s = read_elements f s) ∧
  (∀ acc s g, 2 * len s + 2 ≤ f → f ≤ g → read_members g acc s = read_members f acc s).
Proof.
  induction f as [|f (IHv & IHe & IHm)]; [split_and!; intros; lia|]. split_and!.
  - intros s [|g] Hf Hg; [lia|]. cbn [read_value]. pose proof (skip_space_len s) as Hs.
    destruct (skip_space s) as [|c s']; [done|]. simpl in Hs.
    rewrite IHe by lia. rewrite IHm by lia. done.
  - intros s [|g] Hf Hg; [lia|]. cbn [read_elements]. rewrite IHv by lia.
    destruct (read_value f s) as [[x r1]|] eqn:E1; [|done]. apply (proj1 (read_len f)) in E1.
    cbn [mbind option_bind]. pose proof (skip_space_len r1) as Hs.
    destruct (skip_space r1) as [|c r2]; [done|]. simpl in Hs. by rewrite IHe by lia.
  - intros acc s [|g] Hf Hg; [lia|]. cbn [read_members].
    destruct (starts_with 34 (skip_space s)) as [s1|] eqn:E1; [|done].
    apply starts_with_len in E1. pose proof (skip_space_len s). cbn [mbind option_bind].
    destruct (read_chars s1) as [[k s2]|] eqn:E2; [|done]. apply read_chars_len in E2.
    cbn [mbind option_bind]. simpl in E2. pose proof (skip_space_len s2).
    destruct (starts_with 58 (skip_space s2)) as [s3|] eqn:E3; [|done].
    apply starts_with_len in E3. cbn [mbind option_bind]. rewrite IHv by lia.
    destruct (read_value f s3) as [[x r1]|] eqn:E4; [|done]. apply (proj1 (read_len f)) in E4.
    cbn [mbind option_bind]. pose proof (skip_space_len r1) as Hs.
    destruct (skip_space r1) as [|c r2]; [done|]. simpl in Hs. by rewrite IHm by lia.
Qed.

Lemma read_value_fuel s g : reader_fuel s ≤ g → read_value g s = read_value (reader_fuel s) s.
Proof. intros Hg. apply (proj1 (read_fuel (reader_fuel s))); unfold reader_fuel in *; lia. Qed.
End Fuel.
