(* ===== verification/JsonCanon.v ===== *)
(** The normal form behind [canonicalJson] ([packages/contracts/src/canonical-json.js]): a plain
    value has as canonical text the print of its normal form, the normal form is stable, field
    access commutes with it, and the text is one line of valid UTF-8 that [JSON.parse] reads back
    to the normal form. *)

From Stdlib Require Import ZArith Lia Ascii String Permutation Sorted.
From stdpp Require Import base tactics list strings option pretty.
From S2P Require Import Prelude JsString Json JsonText.

(** ** Sorting and mapping *)

Lemma insert_sorted_map {A B} (f : A → B) la lb x l :
  (∀ a b, lb (f a) (f b) = la a b) →
  insert_sorted lb (f x) (map f l) = map f (insert_sorted la x l).
Proof.
  intros H. induction l as [|y l IH]; [done|]. simpl. rewrite H.
  destruct (la x y); [done|]. simpl. by rewrite IH.
Qed.

Lemma isort_map {A B} (f : A → B) la lb l :
  (∀ a b, lb (f a) (f b) = la a b) → isort lb (map f l) = map f (isort la l).
Proof.
  intros H. induction l as [|x l IH]; [done|]. simpl. rewrite IH. by apply insert_sorted_map.
Qed.

Definition canon_field (kv : string * json) : string * json :=
  match kv with (k, v) => (k, canon v) end.

Lemma canon_object fs : canon (JObj fs) = JObj (map canon_field (isort field_leb fs)).
Proof.
  cbn [canon]. f_equal. rewrite <- (isort_map canon_field field_leb field_leb); [done|].
  by intros [] [].
Qed.

Lemma keys_canon_fields fs : keys (map canon_field fs) = keys fs.
Proof. unfold keys. rewrite map_map. apply map_ext. by intros []. Qed.

Lemma field_leb_ordered_map l :
  ordered field_leb l → ordered field_leb (map canon_field l).
Proof.
  induction 1 as [|x l Hl IH Hx]; [constructor|]. simpl. constructor; [done|].
  rewrite Forall_map. eapply Forall_impl; [exact Hx|]. intros y. by destruct x, y.
Qed.

Lemma field_leb_total {A} (a b : string * A) : field_leb a b = true ∨ field_leb b a = true.
Proof. apply key_leb_total. Qed.
Lemma field_leb_trans {A} (a b c : string * A) :
  field_leb a b = true → field_leb b c = true → field_leb a c = true.
Proof. apply key_leb_trans. Qed.
#[export] Hint Resolve field_leb_total field_leb_trans : orquesta.

(** ** The canonical text *)

Lemma entry_texts fs :
  Forall (λ kv, canonicalJson kv.2 = Ok (print (canon kv.2))) fs →
  mapR entry_text (map (λ kv, match kv with (k, v) => (k, canonicalJson v) end) fs)
  = Ok (map member_text (map canon_field fs)).
Proof.
  induction 1 as [|[k v] fs Hv _ IH]; [done|]. simpl in *. rewrite IH, Hv. done.
Qed.

Lemma canonicalJson_print j : plain j = true → canonicalJson j = Ok (print (canon j)).
Proof.
  induction j as [| | | | | | |l IH|fs IH|] using json_rect_nested; intros Hp; try done.
  - cbn [canonicalJson canon print plain] in *.
    assert (mapR (λ r, r) (map canonicalJson l) = Ok (map print (map canon l))) as ->; [|done].
    clear -IH Hp. induction IH as [|v l Hv _ IHl]; [done|]. simpl in *.
    apply andb_true_iff in Hp as [Hp1 Hp2]. by rewrite (Hv Hp1), (IHl Hp2).
  - cbn [canonicalJson plain] in *. rewrite canon_object. cbn [print].
    fold member_text.
    rewrite (isort_map (λ kv, match kv with (k, v) => (k, canonicalJson v) end) field_leb)
      by (by intros [] []).
    rewrite entry_texts; [done|]. apply isort_Forall.
    rewrite Forall_forall in *. intros [k v] Hin. apply (IH _ Hin).
    rewrite forallb_forall in Hp. apply (Hp (k, v)). by apply list_elem_of_In.
Qed.

Lemma canonicalJson_Ok j t : canonicalJson j = Ok t → plain j = true.
Proof.
  revert t. induction j as [| | | | | | |l IH|fs IH|] using json_rect_nested; intros text;
    try done.
  - cbn [canonicalJson plain]. intros (ts & H & _)%bind_Ok. apply mapR_Ok in H.
    apply forallb_forall. intros v Hv. apply list_elem_of_In in Hv.
    apply list_elem_of_lookup in Hv as [i Hi]. rewrite Forall_forall in IH.
    destruct (Forall2_lookup_l _ _ _ i (canonicalJson v) H) as (y & _ & Hy).
    { by rewrite list_lookup_fmap, Hi. }
    apply (IH v) with y; [by eapply list_elem_of_lookup_2 | done].
  - cbn [canonicalJson plain]. intros (ts & H & _)%bind_Ok. apply mapR_Ok in H.
    apply forallb_forall. intros [k v] Hv. apply list_elem_of_In in Hv.
    assert ((k, canonicalJson v) ∈ isort (λ a b, key_leb a.1 b.1)
      (map (λ kv, match kv with (k, v) => (k, canonicalJson v) end) fs)) as Hin.
    { apply isort_elem_of. apply list_elem_of_fmap. by exists (k, v). }
    apply list_elem_of_lookup in Hin as [i Hi].
    destruct (Forall2_lookup_l _ _ _ i _ H Hi) as (y & _ & Hy).
    unfold entry_text in Hy. simpl in Hy. apply bind_Ok in Hy as (u & Hu & _).
    rewrite Forall_forall in IH. by apply (IH (k, v) Hv u).
Qed.

Lemma mapR_Err {A B} (f : A → res B) l e : mapR f l = Err e → ∃ x, x ∈ l ∧ f x = Err e.
Proof.
  induction l as [|x l IH]; simpl; [done|].
  destruct (f x) eqn:E; simpl; [|intros [= <-]; eexists; split; [left|done]].
  destruct (mapR f l); simpl; [done|]. intros [= <-]. destruct IH as (y & ? & ?); [done|].
  exists y. split; [by right|done].
Qed.

Lemma canonicalJson_Err j e : canonicalJson j = Err e → e = TypeError.
Proof.
  induction j as [| | | | | | |l IH|fs IH|] using json_rect_nested; try (simpl; congruence).
  - cbn [canonicalJson]. intros [H|(? & _ & ?)]%bind_Err; [|done].
    apply mapR_Err in H as (r & Hr & He). apply list_elem_of_fmap in Hr as (v & -> & Hv).
    rewrite Forall_forall in IH. by apply (IH v).
  - cbn [canonicalJson]. intros [H|(? & _ & ?)]%bind_Err; [|done].
    apply mapR_Err in H as (kr & Hr & He). apply isort_elem_of in Hr.
    apply list_elem_of_fmap in Hr as ([k v] & -> & Hv). unfold entry_text in He. simpl in He.
    apply bind_Err in He as [He|(? & _ & ?)]; [|done].
    rewrite Forall_forall in IH. by apply (IH (k, v)).
Qed.

(** ** The normal form is stable *)

Lemma canon_idem j : canon (canon j) = canon j.
Proof.
  induction j as [| | | | | | |l IH|fs IH|] using json_rect_nested; try done.
  - cbn [canon]. f_equal. rewrite map_map. induction IH as [|v l Hv _ IHl]; [done|].
    simpl. by rewrite Hv, IHl.
  - rewrite canon_object, canon_object. f_equal.
    rewrite (isort_id field_leb (map canon_field _)).
    + rewrite map_map. apply map_ext_in. intros [k v] Hin. simpl. f_equal.
      rewrite Forall_forall in IH. apply (IH (k, v)). by apply list_elem_of_In, isort_elem_of in Hin.
    + apply field_leb_ordered_map, isort_ordered; auto with orquesta.
      intros x y z. apply field_leb_trans.
Qed.

Lemma plain_canon j : plain (canon j) = plain j.
Proof.
  induction j as [| | | | | | |l IH|fs IH|] using json_rect_nested; try done.
  - cbn [canon plain]. induction IH as [|v l Hv _ IHl]; [done|]. simpl. by rewrite Hv, IHl.
  - rewrite canon_object. cbn [plain].
    apply eq_true_iff_eq. rewrite !forallb_forall. rewrite Forall_forall in IH.
    split.
    + intros H [k v] Hv. pose proof (IH (k, v) (proj2 (list_elem_of_In _ _) Hv)) as E.
      simpl in E. rewrite <- E. apply (H (k, canon v)). apply in_map_iff. exists (k, v). split; [done|].
      apply list_elem_of_In, isort_elem_of. by apply list_elem_of_In.
    + intros H [k v] Hv. apply in_map_iff in Hv as ([k' v'] & [= <- <-] & Hv).
      apply list_elem_of_In, isort_elem_of in Hv. pose proof (IH (k', v') Hv) as E.
      simpl in E. rewrite E. apply (H (k', v')). by apply list_elem_of_In.
Qed.

Lemma canonicalJson_canon j : canonicalJson (canon j) = canonicalJson j.
Proof.
  destruct (plain j) eqn:Hp.
  - rewrite !canonicalJson_print by (by rewrite ?plain_canon). by rewrite canon_idem.
  - destruct (canonicalJson j) as [t|e] eqn:E1.
    { apply canonicalJson_Ok in E1. congruence. }
    destruct (canonicalJson (canon j)) as [t|e'] eqn:E2.
    { apply canonicalJson_Ok in E2. rewrite plain_canon in E2. congruence. }
    apply canonicalJson_Err in E1, E2. congruence.
Qed.

(** ** Field access *)

Lemma get_absent k fs : k ∉ keys fs → get k fs = JUndef.
Proof.
  induction fs as [|[k' v] fs IH]; [done|]. simpl. intros [Hne Hk]%not_elem_of_cons.
  destruct (String.eqb_spec k k'); [done|]. auto.
Qed.

Lemma get_elem_of k v fs : NoDup (keys fs) → (k, v) ∈ fs → get k fs = v.
Proof.
  induction fs as [|[k' v'] fs IH]; [by intros _ ?%not_elem_of_nil|].
  simpl. intros [Hk Hnd]%NoDup_cons [[= -> ->]|Hin]%elem_of_cons; [by rewrite String.eqb_refl|].
  destruct (String.eqb_spec k k') as [->|]; [|auto].
  destruct Hk. unfold keys. apply list_elem_of_fmap. by exists (k', v).
Qed.

Lemma get_Permutation fs1 fs2 k :
  NoDup (keys fs1) → Permutation fs1 fs2 → get k fs1 = get k fs2.
Proof.
  intros Hnd HP. destruct (decide (k ∈ keys fs1)) as [Hk|Hk].
  - unfold keys in Hk. apply list_elem_of_fmap in Hk as ([k' v] & -> & Hin). simpl.
    rewrite (get_elem_of _ _ _ Hnd Hin). symmetry. apply get_elem_of.
    + unfold keys in *. by rewrite <- HP.
    + by rewrite <- HP.
  - rewrite !get_absent; [done| |done]. unfold keys in *. by rewrite <- HP.
Qed.

Lemma get_canon_fields k fs : get k (map canon_field fs) = canon (get k fs).
Proof.
  induction fs as [|[k' v] fs IH]; [done|]. simpl. by destruct (String.eqb k k').
Qed.

(** Reading a field of the normal form is reading it and normalising. *)
Lemma get_canon k fs fs' :
  NoDup (keys fs) → canon (JObj fs) = JObj fs' → get k fs' = canon (get k fs).
Proof.
  intros Hnd. rewrite canon_object. intros [= <-]. rewrite get_canon_fields. f_equal.
  symmetry. apply get_Permutation; [done|]. symmetry. apply isort_Permutation.
Qed.

Lemma has_own_canon k fs fs' : canon (JObj fs) = JObj fs' → has_own fs' k = has_own fs k.
Proof.
  rewrite canon_object. intros [= <-]. unfold has_own, includes. apply bool_decide_ext.
  fold (keys (map canon_field (isort field_leb fs))). rewrite keys_canon_fields. unfold keys.
  by rewrite isort_Permutation.
Qed.

(** ** Well-formed values *)
Section Wf.
Context `{Hnt : NumberText}.

Lemma json_wf_plain j : json_wf j = true → plain j = true.
Proof.
  induction j as [| | | | | | |l IH|fs IH|] using json_rect_nested; try done; cbn [json_wf plain].
  - rewrite !forallb_forall. rewrite Forall_forall in IH. intros Hw v Hv.
    apply IH; [by apply list_elem_of_In | by apply Hw].
  - intros [_ Hw]%andb_true_iff. rewrite forallb_forall in *. rewrite Forall_forall in IH.
    intros [k v] Hv. apply (IH (k, v)); [by apply list_elem_of_In|].
    specialize (Hw _ Hv). simpl in *. by apply andb_true_iff in Hw as [_ Hw].
Qed.

Lemma json_wf_canon j : json_wf j = true → json_wf (canon j) = true.
Proof.
  induction j as [| | | | | | |l IH|fs IH|] using json_rect_nested; try done.
  - cbn [json_wf canon]. induction IH as [|v l Hv _ IHl]; [done|]. simpl.
    intros [H1 H2]%andb_true_iff. by rewrite (Hv H1), (IHl H2).
  - rewrite canon_object. cbn [json_wf]. intros [Hnd Hw]%andb_true_iff.
    apply andb_true_iff. split.
    + apply bool_decide_eq_true in Hnd. apply bool_decide_eq_true. rewrite keys_canon_fields.
      unfold keys in *. by rewrite isort_Permutation.
    + rewrite forallb_forall in *. intros kv Hin. apply in_map_iff in Hin as ([k v] & <- & Hin).
      apply list_elem_of_In, isort_elem_of in Hin. simpl.
      pose proof (Hw (k, v) (proj1 (list_elem_of_In _ _) Hin)) as Hkv. simpl in Hkv.
      apply andb_true_iff in Hkv as [-> Hkv]. rewrite Forall_forall in IH.
      by apply (IH (k, v)).
Qed.

(** The canonical text of a well-formed value, and that it reads back. *)
Lemma canonical_text j t :
  json_wf j = true → canonicalJson j = Ok t → t = print (canon j) ∧ JSON_parse t = Some (canon j).
Proof.
  intros Hw. rewrite (canonicalJson_print _ (json_wf_plain _ Hw)). intros [= <-].
  split; [done|]. by apply parse_print, json_wf_canon.
Qed.

(** *** One line of valid UTF-8 *)

Definition line_char (c : ascii) : bool := negb (code c =? 10)%Z.

Lemma all_chars_app p s t : all_chars p (s +:+ t) = all_chars p s && all_chars p t.
Proof.
  induction s as [|c s IH]; [by rewrite str_app_nil|]. rewrite str_app_cons. simpl.
  by rewrite IH, andb_assoc.
Qed.

Lemma all_chars_impl (p q : ascii → bool) s :
  (∀ c, p c = true → q c = true) → all_chars p s = true → all_chars q s = true.
Proof.
  intros Hpq. induction s as [|c s IH]; [done|]. simpl. rewrite !andb_true_iff. naive_solver.
Qed.

(** The characters of an escape sequence are printable; other characters stand for themselves. *)
Definition escape_plain (c : ascii) : bool :=
  let n := N_of_ascii c in
  negb ((n =? 34)%N || (n =? 92)%N || (n <? 32)%N).

Lemma is_hex_between n : (n < 16)%N → between 33 126 (hex_digit n) = true.
Proof.
  intros Hn.
  assert (forallb (λ k, between 33 126 (hex_digit (N.of_nat k))) (seq 0 16) = true) as Hall
    by reflexivity.
  rewrite forallb_forall in Hall. rewrite <- (N2Nat.id n). apply Hall, in_seq. lia.
Qed.

Lemma escape_char_cases c t :
  (escape_plain c = true ∧ escape_char c t = String c t) ∨
  (∃ e, escape_char c t = e +:+ t ∧ all_chars (between 33 126) e = true ∧ (code c < 128)%Z).
Proof.
  assert (∀ k, N_of_ascii c = k → (k < 128)%N → (code c < 128)%Z) as Hk.
  { intros k <- Hlt. unfold code. lia. }
  unfold escape_char, escape_plain.
  destruct (N_of_ascii c =? 34)%N eqn:E1.
  { right. exists ("\" +:+ String dquote ""). apply N.eqb_eq in E1.
    assert (c = dquote) as -> by (by rewrite <- (ascii_N_embedding c), E1). by split_and!. }
  destruct (N_of_ascii c =? 92)%N eqn:E2.
  { right. exists "\\". apply N.eqb_eq in E2. split_and!; [done..|]. by eapply Hk. }
  destruct (N_of_ascii c =? 8)%N eqn:E3.
  { right. exists "\b". apply N.eqb_eq in E3. split_and!; [done..|]. by eapply Hk. }
  destruct (N_of_ascii c =? 9)%N eqn:E4.
  { right. exists "\t". apply N.eqb_eq in E4. split_and!; [done..|]. by eapply Hk. }
  destruct (N_of_ascii c =? 10)%N eqn:E5.
  { right. exists "\n". apply N.eqb_eq in E5. split_and!; [done..|]. by eapply Hk. }
  destruct (N_of_ascii c =? 12)%N eqn:E6.
  { right. exists "\f". apply N.eqb_eq in E6. split_and!; [done..|]. by eapply Hk. }
  destruct (N_of_ascii c =? 13)%N eqn:E7.
  { right. exists "\r". apply N.eqb_eq in E7. split_and!; [done..|]. by eapply Hk. }
  destruct (N_of_ascii c <? 32)%N eqn:E8; [|by left].
  right. exists ("\u00" +:+ String (hex_digit (N_of_ascii c / 16))
    (String (hex_digit (N_of_ascii c mod 16)) "")). split_and!.
  - rewrite str_app_assoc. done.
  - rewrite all_chars_app. simpl. rewrite !is_hex_between; [done| |];
      [apply N.mod_lt; done|]. apply N.ltb_lt in E8. apply N.Div0.div_lt_upper_bound. lia.
  - apply N.ltb_lt in E8. apply (Hk _ eq_refl). lia.
Qed.

Lemma valid_utf8_ascii p s :
  all_chars (between 0 127) p = true → valid_utf8 (p +:+ s) = valid_utf8 s.
Proof.
  induction p as [|c p IH]; [by rewrite str_app_nil|]. rewrite str_app_cons. simpl.
  unfold between at 1. intros [[_ Hc]%andb_true_iff Hp]%andb_true_iff.
  apply Z.leb_le in Hc. assert ((code c <? 128)%Z = true) as -> by (apply Z.ltb_lt; lia). auto.
Qed.

Lemma printable_ascii p :
  all_chars (between 33 126) p = true → all_chars (between 0 127) p = true.
Proof.
  apply all_chars_impl. intros c. unfold between. rewrite !andb_true_iff, !Z.leb_le. lia.
Qed.

Lemma printable_line p : all_chars (between 33 126) p = true → all_chars line_char p = true.
Proof.
  apply all_chars_impl. intros c. unfold between, line_char.
  rewrite andb_true_iff, !Z.leb_le, negb_true_iff, Z.eqb_neq. lia.
Qed.

(** The four shapes of a valid first character. *)
Lemma valid_utf8_step s :
  valid_utf8 s = true → s = "" ∨
  ∃ p r, s = p +:+ r ∧ p ≠ "" ∧ valid_utf8 r = true
    ∧ (∀ t, valid_utf8 (p +:+ t) = valid_utf8 t)
    ∧ ((∃ c, p = String c "" ∧ (code c < 128)%Z) ∨ all_chars (between 128 255) p = true).
Proof.
  assert (∀ c, continuation c = true → between 128 255 c = true) as Hcont.
  { intros c. unfold continuation, between. rewrite !andb_true_iff, !Z.leb_le. lia. }
  assert (∀ c, (code c <? 128)%Z = false → between 128 255 c = true) as Hhigh.
  { intros c Hc. apply Z.ltb_ge in Hc. unfold between. rewrite andb_true_iff, !Z.leb_le.
    unfold code in *. pose proof (N_ascii_bounded c). lia. }
  destruct s as [|a s1]; [by left|]. intros Hs. right. simpl in Hs.
  destruct (code a <? 128)%Z eqn:Ea.
  { exists (String a ""), s1. split_and!; [done..| |].
    - intros t. rewrite str_app_cons, str_app_nil. simpl. by rewrite Ea.
    - left. exists a. split; [done|]. by apply Z.ltb_lt. }
  destruct s1 as [|b s2]; [done|]. destruct (utf8_two a b) eqn:E2.
  { exists (String a (String b "")), s2. split_and!; [done..| |].
    - intros t. rewrite !str_app_cons, str_app_nil. simpl. by rewrite Ea, E2.
    - right. unfold utf8_two in E2. apply andb_true_iff in E2 as [_ E2]. simpl.
      by rewrite (Hhigh _ Ea), (Hcont _ E2). }
  destruct s2 as [|c s3]; [done|]. destruct (utf8_three a b c) eqn:E3.
  { exists (String a (String b (String c ""))), s3. split_and!; [done..| |].
    - intros t. rewrite !str_app_cons, str_app_nil. simpl. by rewrite Ea, E2, E3.
    - right. unfold utf8_three in E3. apply andb_true_iff in E3 as [Hc Hb]. simpl.
      rewrite (Hhigh _ Ea), (Hcont _ Hc).
      assert (between 128 255 b = true) as ->; [|done].
      unfold continuation, between in Hb. unfold between.
      rewrite ?orb_true_iff, ?andb_true_iff, ?orb_true_iff, ?Z.leb_le, ?Z.eqb_eq in *. lia. }
  destruct s3 as [|d s4]; [done|]. apply andb_true_iff in Hs as [E4 Hs].
  exists (String a (String b (String c (String d "")))), s4. split_and!; [done..| |].
  - intros t. rewrite !str_app_cons, str_app_nil. simpl. by rewrite Ea, E2, E3, E4.
  - right. unfold utf8_four in E4. apply andb_true_iff in E4 as [Hcd Hb].
    apply andb_true_iff in Hcd as [Hc Hd]. simpl.
    rewrite (Hhigh _ Ea), (Hcont _ Hc), (Hcont _ Hd).
    assert (between 128 255 b = true) as ->; [|done].
    unfold continuation, between in Hb. unfold between.
    rewrite ?orb_true_iff, ?andb_true_iff, ?orb_true_iff, ?Z.leb_le, ?Z.eqb_eq in *. lia.
Qed.

Lemma valid_utf8_ind (P : string → Prop) :
  P "" →
  (∀ p r, (∀ t, valid_utf8 (p +:+ t) = valid_utf8 t) → valid_utf8 r = true →
    ((∃ c, p = String c "" ∧ (code c < 128)%Z) ∨ all_chars (between 128 255) p = true) →
    P r → P (p +:+ r)) →
  ∀ s, valid_utf8 s = true → P s.
Proof.
  intros H0 Hs s. remember (String.length s) as n eqn:Hn. revert s Hn.
  induction (lt_wf n) as [n _ IH]. intros s -> Hv.
  destruct (valid_utf8_step s Hv) as [-> | (p & r & -> & Hp & Hr & Hpt & Hc)]; [done|].
  apply Hs; [done..|]. apply (IH (String.length r)); [|done..].
  rewrite str_length_app. destruct p; [done|]. simpl. lia.
Qed.

Lemma valid_utf8_app s t : valid_utf8 s = true → valid_utf8 (s +:+ t) = valid_utf8 t.
Proof.
  revert s. apply valid_utf8_ind; [done|]. intros p r Hp _ _ IH.
  by rewrite str_app_assoc, Hp.
Qed.

Lemma escape_high p t :
  all_chars (between 128 255) p = true → escape (p +:+ t) = p +:+ escape t.
Proof.
  induction p as [|c p IH]; [done|]. rewrite !str_app_cons. cbn [all_chars].
  intros [Hc Hp]%andb_true_iff. cbn [escape]. rewrite (IH Hp).
  destruct (escape_char_cases c (p +:+ escape t)) as [[_ ->]|(e & _ & _ & Hlt)]; [done|].
  unfold between in Hc. apply andb_true_iff in Hc as [Hc _]. apply Z.leb_le in Hc. lia.
Qed.

Lemma escape_utf8 s : valid_utf8 s = true → valid_utf8 (escape s) = true.
Proof.
  revert s. apply valid_utf8_ind; [done|]. intros p r Hp Hr Hcase IH.
  destruct Hcase as [(c & -> & Hc)|Hall].
  - rewrite str_app_cons, str_app_nil. cbn [escape].
    destruct (escape_char_cases c (escape r)) as [[_ ->]|(e & -> & He & _)].
    + simpl. apply Z.ltb_lt in Hc. by rewrite Hc.
    + by rewrite (valid_utf8_ascii e) by (by apply printable_ascii).
  - rewrite (escape_high _ _ Hall). by rewrite Hp.
Qed.

Lemma escape_line s : all_chars line_char (escape s) = true.
Proof.
  induction s as [|c s IH]; [done|]. cbn [escape].
  destruct (escape_char_cases c (escape s)) as [[Hp ->]|(e & -> & He & _)].
  - simpl. rewrite IH, andb_true_r. unfold escape_plain, line_char, code in *.
    apply negb_true_iff in Hp. rewrite !orb_false_iff in Hp. destruct Hp as [_ Hp].
    apply N.ltb_ge in Hp. apply negb_true_iff, Z.eqb_neq. lia.
  - by rewrite all_chars_app, (printable_line _ He), IH.
Qed.

(** A text that is one line of valid UTF-8. *)
Definition line_text (t : string) : bool := valid_utf8 t && all_chars line_char t.

Lemma line_text_app s t : line_text s = true → line_text t = true → line_text (s +:+ t) = true.
Proof.
  unfold line_text. intros [Hs1 Hs2]%andb_true_iff [Ht1 Ht2]%andb_true_iff.
  by rewrite valid_utf8_app, Ht1, all_chars_app, Hs2, Ht2.
Qed.

Lemma line_text_printable p : all_chars (between 33 126) p = true → line_text p = true.
Proof.
  intros Hp. unfold line_text. rewrite (printable_line _ Hp), andb_true_r.
  rewrite <- (str_app_nil_r p). by rewrite valid_utf8_ascii by (by apply printable_ascii).
Qed.

Lemma line_text_quote s : valid_utf8 s = true → line_text (quote s) = true.
Proof.
  intros Hs. unfold line_text, quote. cbn [all_chars]. rewrite escape_line.
  assert (valid_utf8 (String dquote (escape s)) = true) as ->; [|done].
  change (valid_utf8 (escape s) = true). by apply escape_utf8.
Qed.

Lemma line_text_join l :
  Forall (λ t, line_text t = true) l → line_text (join_comma l) = true.
Proof.
  induction 1 as [|t l Ht Hl IH]; [done|]. destruct l as [|t' l]; [done|].
  change (join_comma (t :: t' :: l)) with (t +:+ "," +:+ join_comma (t' :: l)).
  by repeat apply line_text_app.
Qed.

Lemma line_text_pretty z : line_text (pretty (z : Z)) = true.
Proof.
  assert (∀ n : N, line_text (pretty n) = true) as Hn.
  { intros n. apply line_text_printable. eapply all_chars_impl; [|apply pretty_N_facts].
    intros c. unfold is_digit, between. rewrite !andb_true_iff, !Z.leb_le. lia. }
  destruct z as [|p|p]; [done|apply (Hn (Npos p))|].
  change (pretty (Z.neg p)) with ("-" +:+ pretty (Npos p)). by apply line_text_app.
Qed.

Lemma print_line j : json_wf j = true → line_text (print j) = true.
Proof.
  induction j as [| |b|z|t| |s|l IH|fs IH|] using json_rect_nested; intros Hw; try done.
  - by destruct b.
  - apply line_text_pretty.
  - cbn [json_wf print] in *. unfold number_ok in Hw. apply andb_true_iff in Hw as [_ Hw].
    by apply line_text_printable.
  - by apply line_text_quote.
  - cbn [json_wf print] in *. apply line_text_app; [done|]. apply line_text_app; [|done].
    apply line_text_join. rewrite forallb_forall in Hw. rewrite Forall_forall in IH. apply Forall_forall.
    intros t (v & -> & Hv)%list_elem_of_fmap. apply IH; [done|]. apply Hw.
    by apply list_elem_of_In.
  - cbn [json_wf print] in *. apply andb_true_iff in Hw as [_ Hw].
    apply line_text_app; [done|]. apply line_text_app; [|done].
    apply line_text_join. rewrite forallb_forall in Hw. rewrite Forall_forall in IH. apply Forall_forall.
    intros t ([k v] & -> & Hv)%list_elem_of_fmap.
    pose proof (Hw _ (proj1 (list_elem_of_In _ _) Hv)) as Hkv. simpl in Hkv.
    apply andb_true_iff in Hkv as [Hk Hkv].
    apply line_text_app; [by apply line_text_quote|]. apply line_text_app; [done|].
    by apply (IH (k, v)).
Qed.
End Wf.
