(* ===== verification/Validator.v ===== *)
(** The contracts validator ([packages/contracts/src/validator.js]): the schema interpreter
    [validateSchema] over the keywords of the repository's schemas, and the contract the event
    store validates every batch with, [schemas/event-batch.schema.json].

    A schema is typed data with the keywords [assertSupportedSchema] admits; a keyword that a
    schema leaves out is [None].  An error is its path and its code; messages are dropped.  The
    regular expressions of the schemas are an enumeration with the strings each one matches.  The
    main theorem decides the event-batch contract: a value passes exactly when it decodes to a
    typed batch. *)

From Stdlib Require Import ZArith Lia Ascii String.
From stdpp Require Import base tactics list strings option pretty.
From S2P Require Import Prelude JsString JsDate Json.

(** ** Values *)

(** [isDeepStrictEqual(left, right)] of plain data: field order does not matter. *)
Fixpoint deep_equal (l r : json) : bool :=
  match l, r with
  | JUndef, JUndef | JNull, JNull => true
  | JBool a, JBool b => Bool.eqb a b
  | JInt a, JInt b => (a =? b)%Z
  | JNum a, JNum b | JStr a, JStr b => String.eqb a b
  | JArr xs, JArr ys =>
      (fix go (xs ys : list json) : bool :=
         match xs, ys with
         | [], [] => true
         | x :: xs', y :: ys' => deep_equal x y && go xs' ys'
         | _, _ => false
         end) xs ys
  | JObj fs, JObj gs =>
      Nat.eqb (length fs) (length gs)
      && forallb (λ kv, match kv with (k, v) => has_own gs k && deep_equal v (get k gs) end) fs
  | _, _ => false
  end.

(** A decimal numeral as a mantissa and a power of ten. *)
Fixpoint split_at_char (k : Z) (s : string) : string * option string :=
  match s with
  | EmptyString => (EmptyString, None)
  | String c s' =>
      if (code c =? k)%Z then (EmptyString, Some s')
      else let p := split_at_char k s' in (String c p.1, p.2)
  end.

Definition signed_value (s : string) : Z :=
  match s with
  | String c s' =>
      if (code c =? 45)%Z then - default 0 (decimal_value 0 s')
      else if (code c =? 43)%Z then default 0 (decimal_value 0 s')
      else default 0 (decimal_value 0 s)
  | EmptyString => 0
  end%Z.

Definition decimal_of (t : string) : Z * Z :=
  let '(mant, exp) := split_at_char 101 t in
  let '(int, frac) := split_at_char 46 mant in
  let f := default "" frac in
  (signed_value (int +:+ f), signed_value (default "" exp) - Z.of_nat (String.length f))%Z.

(** [value < bound] for a number that is not an integer. *)
Definition decimal_below (t : string) (m : Z) : bool :=
  let '(n, e) := decimal_of t in
  if (0 <=? e)%Z then (n * 10 ^ e <? m)%Z else (n <? m * 10 ^ (- e))%Z.
Definition decimal_above (t : string) (m : Z) : bool :=
  let '(n, e) := decimal_of t in
  if (0 <=? e)%Z then (m <? n * 10 ^ e)%Z else (m * 10 ^ (- e) <? n)%Z.

(** [[...value].length]: the number of code points, the bytes that do not continue one. *)
Fixpoint code_points (s : string) : Z :=
  match s with
  | EmptyString => 0
  | String c s' => (if between 128 191 c then 0 else 1) + code_points s'
  end%Z.

(** ** Patterns *)

(** [.+]: some character that is not a line terminator ([\n], [\r], U+2028, U+2029). *)
Fixpoint some_line_char (s : string) : bool :=
  match s with
  | EmptyString => false
  | String a s1 =>
      if (code a =? 10)%Z || (code a =? 13)%Z then some_line_char s1
      else match s1 with
           | String b (String c s3) =>
               if (code a =? 226)%Z && (code b =? 128)%Z && ((code c =? 168)%Z || (code c =? 169)%Z)
               then some_line_char s3 else true
           | _ => true
           end
  end.

(** [/^\d{4}-\d{2}-\d{2}T\d{2}:\d{2}:\d{2}\.\d{3}Z$/], read against a picture of the text. *)
Fixpoint picture (p s : string) : bool :=
  match p, s with
  | EmptyString, EmptyString => true
  | String c p', String d s' => (if (code c =? 100)%Z then is_digit d else Ascii.eqb c d) && picture p' s'
  | _, _ => false
  end.
Definition utc_picture : string := "dddd-dd-ddTdd:dd:dd.dddZ".

Inductive pattern :=
| DotPlus                                  (* .+ *)
| HexId (prefix : string) (digits : nat)   (* ^PREFIX[a-f0-9]{n}$ *)
| UtcText.                                 (* the time-stamp pattern *)

Definition pattern_test (p : pattern) (s : string) : bool :=
  match p with
  | DotPlus => some_line_char s
  | HexId pre n => prefixed_hex_pattern pre n s
  | UtcText => picture utc_picture s
  end.

(** [isValidUtcTimestamp(value)] of the validator, [isUtcTimestamp(value)] of the event store:
    the pattern, a real date, and the text that date prints as. *)
Definition isUtcTimestamp (v : json) : bool :=
  match v with
  | JStr s => picture utc_picture s && bool_decide (is_Some (ms_of_iso s))
  | _ => false
  end.

(** ** Schemas *)

Inductive json_type := TNull | TBoolean | TString | TNumber | TInteger | TArray | TObject.

Inductive schema := Schema {
  s_type : option json_type;
  s_required : option (list string);
  s_properties : option (list (string * schema));
  s_items : option schema;
  s_enum : option (list json);
  s_const : option json;
  s_minItems : option Z;
  s_maxItems : option Z;
  s_uniqueItems : bool;
  s_minLength : option Z;
  s_maxLength : option Z;
  s_minimum : option Z;
  s_maximum : option Z;
  s_pattern : option pattern;
  s_additional : option (bool + schema);
  s_anyOf : option (list schema);
  s_oneOf : option (list schema);
}.

(** The schema without keywords. *)
Definition any_schema : schema :=
  Schema None None None None None None None None false None None None None None None None None.

Definition typeMatches (v : json) (t : json_type) : bool :=
  match t, v with
  | TNull, JNull | TBoolean, JBool _ | TString, JStr _ | TArray, JArr _ | TObject, JObj _
  | TInteger, JInt _ | TNumber, JInt _ | TNumber, JNum _ => true
  | _, _ => false
  end.

(** A violation: where, and which keyword. *)
Abbreviation violation := (string * string)%type.

Definition err_if (b : bool) (path code : string) : list violation :=
  if b then [(path, code)] else [].

Definition opt_test {A} (o : option A) (p : A → bool) : bool :=
  match o with Some a => p a | None => false end.

Definition below (v : json) (m : Z) : bool :=
  match v with JInt z => (z <? m)%Z | JNum t => decimal_below t m | _ => false end.
Definition above (v : json) (m : Z) : bool :=
  match v with JInt z => (m <? z)%Z | JNum t => decimal_above t m | _ => false end.

Definition string_test (v : json) (p : string → bool) : bool :=
  match v with JStr s => p s | _ => false end.
Definition array_test (v : json) (p : list json → bool) : bool :=
  match v with JArr l => p l | _ => false end.

Fixpoint has_deep_duplicate (seen l : list json) : bool :=
  match l with
  | [] => false
  | x :: l' => existsb (λ y, deep_equal y x) seen || has_deep_duplicate (seen ++ [x]) l'
  end.

Definition index_path (path : string) (i : nat) : string :=
  path +:+ "[" +:+ pretty (N.of_nat i) +:+ "]".
Definition field_path (path property : string) : string := path +:+ "." +:+ property.

(** Does the object part of a schema apply? *)
Definition has_object_part (sc : schema) : bool :=
  match s_type sc with Some TObject => true | _ => false end
  || match s_properties sc with Some _ => true | None => false end
  || match s_required sc with Some _ => true | None => false end
  || match s_additional sc with Some _ => true | None => false end.

Definition not_own (fs : fields) (p : string) : bool := negb (has_own fs p).

(** The errors of the properties a schema declares, in the order of their names. *)
Definition by_name (l : list (string * list violation)) : list violation :=
  concat (map snd (isort (λ a b, text_leb a.1 b.1) l)).

(** [validateSchema(schema, value, valuePath)] *)
Fixpoint validateSchema (sc : schema) (v : json) (path : string) {struct sc} : list violation :=
  err_if (opt_test (s_anyOf sc)
    (forallb (λ alt, negb (Nat.eqb (length (validateSchema alt v path)) 0)))) path "anyOf"
  ++ err_if (opt_test (s_oneOf sc) (λ alts,
       negb (Nat.eqb (length (List.filter id
         (map (λ alt, Nat.eqb (length (validateSchema alt v path)) 0) alts))) 1))) path "oneOf"
  ++ err_if (opt_test (s_type sc) (λ t, negb (typeMatches v t))) path "type"
  ++ err_if (opt_test (s_const sc) (λ c, negb (deep_equal v c))) path "const"
  ++ err_if (opt_test (s_enum sc) (λ es, negb (existsb (λ e, deep_equal e v) es))) path "enum"
  ++ err_if (opt_test (s_minimum sc) (below v)) path "minimum"
  ++ err_if (opt_test (s_maximum sc) (above v)) path "maximum"
  ++ err_if (opt_test (s_pattern sc) (λ p, string_test v (λ s, negb (pattern_test p s)))) path
       "pattern"
  ++ err_if (opt_test (s_minLength sc) (λ n, string_test v (λ s, (code_points s <? n)%Z))) path
       "minLength"
  ++ err_if (opt_test (s_maxLength sc) (λ n, string_test v (λ s, (n <? code_points s)%Z))) path
       "maxLength"
  ++ err_if (opt_test (s_minItems sc) (λ n, array_test v (λ l, (Z.of_nat (length l) <? n)%Z))) path
       "minItems"
  ++ err_if (opt_test (s_maxItems sc) (λ n, array_test v (λ l, (n <? Z.of_nat (length l))%Z))) path
       "maxItems"
  ++ err_if (s_uniqueItems sc && array_test v (has_deep_duplicate [])) path "uniqueItems"
  ++ match s_items sc, v with
     | Some items, JArr l =>
         concat (imap (λ i x, validateSchema items x (index_path path i)) l)
     | _, _ => []
     end
  ++ match v with
     | JObj fs =>
         if has_object_part sc then
           map (λ p, (field_path path p, "required"))
             (List.filter (not_own fs) (default [] (s_required sc)))
           ++ by_name (match s_properties sc with
                | Some ps =>
                    map (λ ps, match ps with (p, child) =>
                      (p, if has_own fs p
                          then validateSchema child (get p fs) (field_path path p) else [])
                      end) ps
                | None => []
                end)
           ++ by_name
                (match s_additional sc with
                 | Some (inl false) =>
                     map (λ k, (k, [(field_path path k, "additionalProperties")]))
                       (List.filter (λ k, negb (includes (match s_properties sc with
                          | Some ps => map fst ps | None => [] end) k)) (keys fs))
                 | Some (inr child) =>
                     map (λ k, (k, validateSchema child (get k fs) (field_path path k)))
                       (List.filter (λ k, negb (includes (match s_properties sc with
                          | Some ps => map fst ps | None => [] end) k)) (keys fs))
                 | _ => []
                 end)
         else []
     | _ => []
     end.

(** [sortErrors(errors)]: by path, then by code. *)
Definition violation_leb (a b : violation) : bool :=
  if String.eqb a.1 b.1 then text_leb a.2 b.2 else text_leb a.1 b.1.
Definition sortErrors : list violation → list violation := isort violation_leb.

(** [validateContract(name, value)]: the schema of the contract, then its own checks.  [None] is
    [ok: true]. *)
Definition validateContract (sc : schema) (checks : json → list violation) (v : json)
    : list violation :=
  sortErrors (validateSchema sc v "$" ++ checks v).
Definition contract_ok (sc : schema) (checks : json → list violation) (v : json) : bool :=
  match validateContract sc checks v with [] => true | _ => false end.

(** ** The event-batch contract *)

Definition text_schema : schema :=
  Schema (Some TString) None None None None None None None false None None None None
    (Some DotPlus) None None None.
Definition integer_schema (least : Z) : schema :=
  Schema (Some TInteger) None None None None None None None false None None (Some least) None
    None None None None.

Definition actor_schema : schema :=
  Schema (Some TObject) (Some ["type"; "id"])
    (Some [("type", Schema None None None None (Some [JStr "agent"; JStr "user"; JStr "system"])
                      None None None false None None None None None None None None);
           ("id", text_schema)])
    None None None None None false None None None None None (Some (inl false)) None None.

Definition event_schema : schema :=
  Schema (Some TObject) (Some ["event_id"; "schema_version"; "type"; "payload"; "evidence_refs"])
    (Some [("event_id", text_schema); ("schema_version", integer_schema 1); ("type", text_schema);
           ("payload", Schema (Some TObject) None None None None None None None false None None
                         None None None (Some (inl true)) None None);
           ("evidence_refs", Schema (Some TArray) None None (Some text_schema) None None None None
                               false None None None None None None None None)])
    None None None None None false None None None None None (Some (inl false)) None None.

Definition event_batch_schema : schema :=
  Schema (Some TObject)
    (Some ["sequence"; "expected_revision"; "batch_id"; "actor"; "correlation_id"; "events"])
    (Some [("sequence", integer_schema 0); ("expected_revision", integer_schema 0);
           ("batch_id", text_schema); ("actor", actor_schema); ("correlation_id", text_schema);
           ("events", Schema (Some TArray) None None (Some event_schema) None None (Some 1%Z) None
                        false None None None None None None None None)])
    None None None None None false None None None None None (Some (inl false)) None None.

Definition event_batch_ok : json → bool := contract_ok event_batch_schema (λ _, []).

(** ** Typed batches *)

Record Event := MkEvent {
  e_id : string;
  e_version : Z;
  e_type : string;
  e_payload : fields;
  e_evidence : list string;
}.

Inductive actor_type := AgentActor | UserActor | SystemActor.
#[export] Instance actor_type_eq_dec : EqDecision actor_type.
Proof. solve_decision. Defined.
#[export] Instance actor_type_enum : JsEnum actor_type := {|
  enum_all := [AgentActor; UserActor; SystemActor];
  enum_str a := match a with AgentActor => "agent" | UserActor => "user" | SystemActor => "system" end;
|}.
#[export] Instance actor_type_laws : JsEnumLaws actor_type.
Proof. enum_laws. Qed.

Record Batch := MkBatch {
  b_sequence : Z;
  b_expected_revision : Z;
  b_id : string;
  b_actor_type : actor_type;
  b_actor_id : string;
  b_correlation_id : string;
  b_events : list Event;
}.

Definition text_of (v : json) : option string :=
  match v with JStr s => if some_line_char s then Some s else None | _ => None end.
Definition integer_of (least : Z) (v : json) : option Z :=
  match v with JInt z => if (least <=? z)%Z then Some z else None | _ => None end.
Definition array_of (v : json) : option (list json) :=
  match v with JArr l => Some l | _ => None end.
Definition object_of (v : json) : option fields :=
  match v with JObj fs => Some fs | _ => None end.
(** The fields of an object that has all of [required] and no other. *)
Definition exact_object (required : list string) (v : json) : option fields :=
  fs ← object_of v;
  if forallb (has_own fs) required && forallb (includes required) (keys fs)
  then Some fs else None.

Definition decode_event (v : json) : option Event :=
  fs ← exact_object ["event_id"; "schema_version"; "type"; "payload"; "evidence_refs"] v;
  id ← text_of (get "event_id" fs);
  version ← integer_of 1 (get "schema_version" fs);
  type ← text_of (get "type" fs);
  payload ← object_of (get "payload" fs);
  refs ← array_of (get "evidence_refs" fs);
  evidence ← mapM text_of refs;
  Some (MkEvent id version type payload evidence).

Definition decode_batch (v : json) : option Batch :=
  fs ← exact_object
    ["sequence"; "expected_revision"; "batch_id"; "actor"; "correlation_id"; "events"] v;
  sequence ← integer_of 0 (get "sequence" fs);
  revision ← integer_of 0 (get "expected_revision" fs);
  id ← text_of (get "batch_id" fs);
  actor ← exact_object ["type"; "id"] (get "actor" fs);
  actor_name ← match get "type" actor with JStr s => Some s | _ => None end;
  actor_type ← enum_find (enum_all (A := actor_type)) actor_name;
  actor_id ← text_of (get "id" actor);
  correlation ← text_of (get "correlation_id" fs);
  items ← array_of (get "events" fs);
  events ← mapM decode_event items;
  match events with
  | [] => None
  | _ => Some (MkBatch sequence revision id actor_type actor_id correlation events)
  end.

(** ** Deciding the contract *)

Lemma err_if_nil b path code : err_if b path code = [] ↔ b = false.
Proof. by destruct b. Qed.

Lemma by_name_nil l : by_name l = [] ↔ Forall (λ pe, pe.2 = []) l.
Proof.
  unfold by_name. rewrite concat_nil_Forall, Forall_map. by rewrite isort_Forall.
Qed.

Lemma sortErrors_nil l : sortErrors l = [] ↔ l = [].
Proof.
  unfold sortErrors. split; [|by intros ->]. intros H.
  apply Permutation_nil. rewrite <- H. apply isort_Permutation.
Qed.

Lemma contract_ok_iff sc checks v :
  contract_ok sc checks v = true ↔ validateSchema sc v "$" = [] ∧ checks v = [].
Proof.
  unfold contract_ok, validateContract. rewrite <- app_nil.
  rewrite <- (sortErrors_nil (_ ++ _)). by destruct (sortErrors _).
Qed.

Lemma text_schema_ok v path : validateSchema text_schema v path = [] ↔ is_Some (text_of v).
Proof.
  unfold text_schema. destruct v; cbn; try (split; [done|by intros []]).
  destruct (some_line_char s); simpl; split; try done; by intros [].
Qed.

Lemma integer_schema_ok n v path :
  validateSchema (integer_schema n) v path = [] ↔ is_Some (integer_of n v).
Proof.
  unfold integer_schema. destruct v; cbn; try (split; [done|by intros []]).
  rewrite !app_nil_r, err_if_nil, Z.ltb_ge.
  destruct (Z.leb_spec n z); split; try done; try lia; by intros [].
Qed.

Lemma payload_schema_ok v path :
  validateSchema (Schema (Some TObject) None None None None None None None false None None None
    None None (Some (inl true)) None None) v path = [] ↔ is_Some (object_of v).
Proof. destruct v; cbn; split; try done; by intros []. Qed.

Lemma concat_imap_nil {A B} (f : nat → A → list B) l :
  concat (imap f l) = [] ↔ ∀ i x, l !! i = Some x → f i x = [].
Proof.
  rewrite concat_nil_Forall, Forall_lookup. split.
  - intros H i x Hx. apply (H i). by rewrite list_lookup_imap, Hx.
  - intros H i y. rewrite list_lookup_imap. destruct (l !! i) as [x|] eqn:E; [|done].
    intros [= <-]. by apply H.
Qed.

(** An array schema whose items decode. *)
Lemma items_ok {A} (sc : schema) (f : json → option A) l path :
  (∀ v p, validateSchema sc v p = [] ↔ is_Some (f v)) →
  concat (imap (λ i x, validateSchema sc x (index_path path i)) l) = [] ↔ is_Some (mapM f l).
Proof.
  intros Hsc. rewrite concat_imap_nil, mapM_is_Some, Forall_lookup.
  split; intros H i x Hx; by apply (Hsc _ (index_path path i)), (H i).
Qed.

(** An array schema whose items decode. *)
Definition array_schema (child : schema) (least : option Z) : schema :=
  Schema (Some TArray) None None (Some child) None None least None false None None None None None
    None None None.

Lemma array_schema_ok {A} (child : schema) (f : json → option A) least v path :
  (∀ v p, validateSchema child v p = [] ↔ is_Some (f v)) →
  validateSchema (array_schema child least) v path = []
  ↔ ∃ l, array_of v = Some l ∧ opt_test least (λ n, (Z.of_nat (length l) <? n)%Z) = false
      ∧ is_Some (mapM f l).
Proof.
  intros Hc. unfold array_schema.
  destruct v; try (cbn; split; [done | by intros (? & ? & _)]).
  cbn -[mapM index_path]. rewrite !app_nil, err_if_nil, (items_ok child f) by done. naive_solver.
Qed.

(** An object schema with required properties and no others. *)
Definition object_schema (required : list string) (ps : list (string * schema)) : schema :=
  Schema (Some TObject) (Some required) (Some ps) None None None None None false None None None
    None None (Some (inl false)) None None.

Lemma map_nil_iff {A B} (f : A → B) l : map f l = [] ↔ l = [].
Proof. by destruct l. Qed.

Lemma filter_nil_forallb {A} (p : A → bool) l :
  List.filter p l = [] ↔ forallb (λ x, negb (p x)) l = true.
Proof.
  induction l as [|x l IH]; simpl; [done|]. destruct (p x); simpl; [done|]. done.
Qed.

Lemma forallb_ext' {A} (p q : A → bool) l : (∀ x, p x = q x) → forallb p l = forallb q l.
Proof. intros H. induction l as [|x l IH]; simpl; [done|]. by rewrite H, IH. Qed.

Lemma object_schema_ok ps v path :
  validateSchema (object_schema (map fst ps) ps) v path = []
  ↔ ∃ fs, exact_object (map fst ps) v = Some fs ∧
      Forall (λ pc, validateSchema pc.2 (get pc.1 fs) (field_path path pc.1) = []) ps.
Proof.
  unfold object_schema, exact_object.
  destruct v as [| | | | | | | |fields0|];
    try (cbn; split; [done | by intros (? & ? & _)]).
  cbn [validateSchema s_type s_required s_properties s_items s_enum s_const s_minItems s_maxItems
    s_uniqueItems s_minLength s_maxLength s_minimum s_maximum s_pattern s_additional s_anyOf
    s_oneOf opt_test typeMatches negb err_if andb app has_object_part orb object_of mbind
    option_bind default].
  rewrite !app_nil, !by_name_nil, !Forall_map.
  assert (map (λ p, (field_path path p, "required")) (List.filter (not_own fields0) (map fst ps)) = []
    ↔ forallb (has_own fields0) (map fst ps) = true) as ->.
  { rewrite map_nil_iff, filter_nil_forallb. unfold not_own.
    erewrite forallb_ext'; [done|]. intros x. apply negb_involutive. }
  assert (Forall (λ k, [(field_path path k, "additionalProperties")] = [])
      (List.filter (λ k, negb (includes (map fst ps) k)) (keys fields0))
    ↔ forallb (includes (map fst ps)) (keys fields0) = true) as Hadd.
  { trans (List.filter (λ k, negb (includes (map fst ps) k)) (keys fields0) = []).
    - destruct (List.filter _ _); [split; [done|constructor]|].
      split; [by inversion 1|done].
    - rewrite filter_nil_forallb. erewrite forallb_ext'; [done|]. intros x.
      apply negb_involutive. }
  cbn [snd]. rewrite Hadd.
  assert (forallb (has_own fields0) (map fst ps) = true →
    Forall (λ x : string * schema, (let (p, child) := x in
      (p, if has_own fields0 p then validateSchema child (get p fields0) (field_path path p) else [])).2
      = []) ps ↔
    Forall (λ pc, validateSchema pc.2 (get pc.1 fields0) (field_path path pc.1) = []) ps) as Hprops.
  { intros Hown. rewrite forallb_forall in Hown.
    rewrite !Forall_forall. split; intros H [p c] Hin; specialize (H _ Hin); simpl in *;
      rewrite (Hown p) in *; try done; apply in_map_iff; exists (p, c);
      split; try done; by apply list_elem_of_In. }
  split.
  - intros (H1 & H2 & H3). exists fields0. rewrite H1, H3. split; [done|]. by apply Hprops.
  - intros (fs & H1 & H2). destruct (forallb (has_own fields0) _) eqn:E1; [|done].
    destruct (forallb (includes _) _) eqn:E2; [|done]. injection H1 as <-.
    split_and!; try done. by apply Hprops.
Qed.

Lemma event_schema_ok v path : validateSchema event_schema v path = [] ↔ is_Some (decode_event v).
Proof.
  change event_schema with (object_schema (map fst (default [] (s_properties event_schema)))
    (default [] (s_properties event_schema))).
  rewrite object_schema_ok. unfold decode_event.
  change (map fst (default [] (s_properties event_schema)))
    with ["event_id"; "schema_version"; "type"; "payload"; "evidence_refs"].
  destruct (exact_object _ v) as [fs|]; cbn [mbind option_bind];
    [|split; [by intros (? & ? & _)|by intros []]].
  trans (Forall (λ pc, validateSchema pc.2 (get pc.1 fs) (field_path path pc.1) = [])
    (default [] (s_properties event_schema))); [naive_solver|].
  cbn [default s_properties event_schema]. unfold from_option, id. rewrite !Forall_cons.
  cbn [fst snd]. rewrite !text_schema_ok, integer_schema_ok, payload_schema_ok.
  fold (array_schema text_schema None).
  rewrite (array_schema_ok _ text_of) by apply text_schema_ok.
  destruct (text_of (get "event_id" fs)); cbn -[mapM]; [|naive_solver].
  destruct (integer_of 1 (get "schema_version" fs)); cbn -[mapM]; [|naive_solver].
  destruct (text_of (get "type" fs)); cbn -[mapM]; [|naive_solver].
  destruct (object_of (get "payload" fs)); cbn -[mapM]; [|naive_solver].
  destruct (array_of (get "evidence_refs" fs)) as [refs|]; cbn -[mapM]; [|naive_solver].
  destruct (mapM text_of refs) eqn:E; cbn -[mapM].
  - split; [done|]. intros _. split_and!; try done. exists refs. by rewrite E.
  - split; [|by intros []]. intros (_ & _ & _ & _ & (? & [= <-] & _ & Hs) & _).
    rewrite E in Hs. by destruct Hs.
Qed.

Lemma actor_type_ok v path :
  validateSchema (Schema None None None None (Some [JStr "agent"; JStr "user"; JStr "system"])
    None None None false None None None None None None None None) v path = []
  ↔ is_Some (s ← match v with JStr s => Some s | _ => None end;
             enum_find (enum_all (A := actor_type)) s).
Proof.
  destruct v; try (cbn; split; [done|by intros []]).
  cbn -[enum_find String.eqb]. rewrite app_nil_r, err_if_nil, negb_false_iff.
  rewrite !(String.eqb_sym _ s). unfold enum_find. cbn.
  destruct (String.eqb_spec s "agent") as [->|H1]; [split; [by eexists|done]|].
  destruct (String.eqb_spec s "user") as [->|H2]; [split; [by eexists|done]|].
  destruct (String.eqb_spec s "system") as [->|H3]; [split; [by eexists|done]|].
  rewrite !decide_False by congruence. simpl. split; [done|by intros []].
Qed.

Lemma actor_schema_ok v path :
  validateSchema actor_schema v path = [] ↔
  is_Some (actor ← exact_object ["type"; "id"] v;
    actor_name ← match get "type" actor with JStr s => Some s | _ => None end;
    actor_type ← enum_find (enum_all (A := actor_type)) actor_name;
    actor_id ← text_of (get "id" actor); Some (actor_type, actor_id)).
Proof.
  change actor_schema with (object_schema (map fst (default [] (s_properties actor_schema)))
    (default [] (s_properties actor_schema))).
  rewrite object_schema_ok.
  change (map fst (default [] (s_properties actor_schema))) with ["type"; "id"].
  destruct (exact_object _ v) as [fs|]; cbn [mbind option_bind];
    [|split; [by intros (? & ? & _)|by intros []]].
  trans (Forall (λ pc, validateSchema pc.2 (get pc.1 fs) (field_path path pc.1) = [])
    (default [] (s_properties actor_schema))); [naive_solver|].
  cbn [default s_properties actor_schema]. unfold from_option, id. rewrite !Forall_cons.
  cbn [fst snd]. rewrite text_schema_ok, actor_type_ok.
  destruct (get "type" fs); cbn [mbind option_bind]; try (split; [naive_solver|by intros []]).
  destruct (enum_find _ s); cbn [mbind option_bind]; [|naive_solver].
  destruct (text_of (get "id" fs)); cbn [mbind option_bind]; [|naive_solver].
  split; [done|]. intros _. by split_and!.
Qed.

Lemma event_batch_is_Some v : event_batch_ok v = true ↔ is_Some (decode_batch v).
Proof.
  unfold event_batch_ok. rewrite contract_ok_iff.
  trans (validateSchema event_batch_schema v "$" = []); [naive_solver|].
  change event_batch_schema with
    (object_schema (map fst (default [] (s_properties event_batch_schema)))
      (default [] (s_properties event_batch_schema))).
  rewrite object_schema_ok. unfold decode_batch.
  change (map fst (default [] (s_properties event_batch_schema))) with
    ["sequence"; "expected_revision"; "batch_id"; "actor"; "correlation_id"; "events"].
  destruct (exact_object ["sequence"; "expected_revision"; "batch_id"; "actor"; "correlation_id";
    "events"] v) as [fs|]; cbn [mbind option_bind];
    [|split; [by intros (? & ? & _)|by intros []]].
  trans (Forall (λ pc, validateSchema pc.2 (get pc.1 fs) (field_path "$" pc.1) = [])
    (default [] (s_properties event_batch_schema))); [naive_solver|].
  cbn [default s_properties event_batch_schema]. unfold from_option, id. rewrite !Forall_cons.
  cbn [fst snd]. rewrite !text_schema_ok, !integer_schema_ok, actor_schema_ok.
  fold (array_schema event_schema (Some 1%Z)).
  rewrite (array_schema_ok _ decode_event) by apply event_schema_ok.
  destruct (integer_of 0 (get "sequence" fs)); cbn [mbind option_bind]; [|naive_solver].
  destruct (integer_of 0 (get "expected_revision" fs)); cbn [mbind option_bind]; [|naive_solver].
  destruct (text_of (get "batch_id" fs)); cbn [mbind option_bind]; [|naive_solver].
  destruct (exact_object _ (get "actor" fs)) as [actor|]; cbn [mbind option_bind]; [|naive_solver].
  destruct (get "type" actor); cbn [mbind option_bind]; try naive_solver.
  destruct (enum_find _ _); cbn [mbind option_bind]; [|naive_solver].
  destruct (text_of (get "id" actor)); cbn [mbind option_bind]; [|naive_solver].
  destruct (text_of (get "correlation_id" fs)); cbn [mbind option_bind]; [|naive_solver].
  destruct (array_of (get "events" fs)) as [items|]; cbn [mbind option_bind]; [|naive_solver].
  destruct (mapM decode_event items) as [es|] eqn:E; cbn [mbind option_bind].
  - pose proof (Forall2_length _ _ _ (mapM_Some_1 _ _ _ E)) as Hlen.
    destruct es as [|ev es], items as [|it items]; try done.
    + split; [|by intros []]. intros (_ & _ & _ & _ & _ & (? & [= <-] & H & _) & _). done.
    + split; [done|]. intros _. split_and!; try done.
      exists (it :: items). split_and!; [done| |by rewrite E]. cbn [opt_test].
      apply Z.ltb_ge. simpl. lia.
  - split; [|by intros []]. intros (_ & _ & _ & _ & _ & (? & [= <-] & _ & Hs) & _).
    rewrite E in Hs. by destruct Hs.
Qed.

(** C35: the validator accepts a value as an event batch exactly when the value decodes to a typed
    batch: the declared fields and no other, a non-negative sequence and revision, texts with a
    character, a known kind of actor, and at least one event, each well-formed. *)
Theorem event_batch_decodes v : event_batch_ok v = true ↔ is_Some (decode_batch v).
Proof. apply event_batch_is_Some. Qed.
