(* ===== verification/FileStore.v ===== *)
(** The state directory of the event store, as a small file system with a history.

    [packages/event-store/src/atomic-replace.js] and the [node:fs] calls of the package.  A file
    is its directory under the state root, its name and its bytes; a directory without files is
    absent.  A computation reads and changes the files, may throw, and records every state it
    passes through: the recorded states are those a crash of the process can leave behind.  A file
    that is being written is recorded empty and then complete.  System calls fail only with
    [ENOENT] and [EEXIST], so the retries of [renameSync] on transient errors never happen.

    The second part reasons about computations: [execs I m F n r F' n'] says that from files [F] at
    reading [n] the computation [m] ends with outcome [r], files [F'] and reading [n'], and that
    every state it recorded on the way satisfies the crash condition [I].  The rules compose
    executions; there is one lemma for each system call and for [replaceFileAtomic]. *)

From Stdlib Require Import ZArith Lia Ascii String.
From stdpp Require Import base tactics list gmap strings option pretty.
From S2P Require Import Prelude JsString JsDate Json Validator.

(** ** Paths *)

Inductive directory := Root | Pending | Projections | Quarantine.

#[export] Instance directory_eq_dec : EqDecision directory.
Proof. solve_decision. Defined.

#[export] Instance directory_countable : Countable directory.
Proof.
  refine (inj_countable'
    (λ d, match d with Root => 0 | Pending => 1 | Projections => 2 | Quarantine => 3 end)
    (λ n, match n with 0 => Root | 1 => Pending | 2 => Projections | _ => Quarantine end) _).
  by intros [].
Defined.

(** A path: its directory and its base name. *)
Abbreviation path := (directory * string)%type.
Abbreviation file_map := (gmap path string).

(** [`${filePath}${suffix}`] *)
Definition add_suffix (p : path) (suffix : string) : path := (p.1, p.2 +:+ suffix).

(** [fs.readdirSync(directory).sort()] *)
Definition names_in (d : directory) (m : file_map) : list string :=
  sort_text (omap (λ pt, if bool_decide (pt.1.1 = d) then Some pt.1.2 else None) (map_to_list m)).

Lemma elem_of_names_in d m n : n ∈ names_in d m ↔ is_Some (m !! (d, n)).
Proof.
  unfold names_in, sort_text. rewrite isort_elem_of, list_elem_of_omap. split.
  - intros ([[d' n'] t] & Hin & Hif). simpl in Hif.
    destruct (bool_decide_reflect (d' = d)) as [->|]; [|done]. injection Hif as ->.
    apply elem_of_map_to_list in Hin. by eexists.
  - intros [t Ht]. exists (d, n, t). simpl. rewrite bool_decide_eq_true_2 by done.
    split; [by apply elem_of_map_to_list | done].
Qed.

Lemma names_in_nil d m : names_in d m = [] ↔ ∀ n, m !! (d, n) = None.
Proof.
  split.
  - intros H n. apply eq_None_not_Some. rewrite <- elem_of_names_in, H. apply not_elem_of_nil.
  - intros H. destruct (names_in d m) as [|n l] eqn:E; [done|].
    assert (n ∈ names_in d m) as Hn by (rewrite E; left).
    apply elem_of_names_in in Hn. rewrite H in Hn. by destruct Hn.
Qed.

Lemma names_in_NoDup d m : NoDup (names_in d m).
Proof.
  unfold names_in, sort_text. apply isort_NoDup.
  pose proof (NoDup_map_to_list m) as Hnd.
  assert (∀ (l : list (path * string)), NoDup l → (∀ p t1 t2, (p, t1) ∈ l → (p, t2) ∈ l → t1 = t2) →
    NoDup (omap (λ pt, if bool_decide (pt.1.1 = d) then Some pt.1.2 else None) l)) as Hgo.
  { clear Hnd. induction l as [|[[d' n] t] l IH]; [constructor|].
    intros [Hnin Hl]%NoDup_cons Hfun. simpl.
    assert (NoDup (omap (λ pt : path * string, if bool_decide (pt.1.1 = d) then Some pt.1.2 else None) l)).
    { apply IH; [done|]. intros p t1 t2 H1 H2. apply (Hfun p); by right. }
    destruct (bool_decide_reflect (d' = d)) as [->|]; [|done].
    constructor; [|done]. rewrite list_elem_of_omap. intros ([[d2 n2] t2] & Hin & Hif).
    simpl in Hif. destruct (bool_decide_reflect (d2 = d)) as [->|]; [|done]. injection Hif as ->.
    apply Hnin. rewrite (Hfun (d, n) t t2); [done|left|by right]. }
  apply Hgo; [done|]. intros p t1 t2 H1%elem_of_map_to_list H2%elem_of_map_to_list. congruence.
Qed.

(** The names only depend on the files of the directory. *)
Lemma names_in_ext d m m' : (∀ n, m !! (d, n) = m' !! (d, n)) → names_in d m = names_in d m'.
Proof.
  intros H. apply (ordered_unique text_leb).
  - intros x y _ _. apply text_leb_antisym.
  - apply isort_ordered; [apply text_leb_total | apply text_leb_trans].
  - apply isort_ordered; [apply text_leb_total | apply text_leb_trans].
  - apply NoDup_Permutation; [apply names_in_NoDup..|]. intros n.
    by rewrite !elem_of_names_in, H.
Qed.

(** ** Computations *)

Record world := World {
  files : file_map;
  ticks : nat;                (* how often the clock or the random source was read *)
  history : list file_map;    (* the states passed through, the last one first *)
}.

Definition io (A : Type) : Type := world → res A * world.

Definition ret {A} (a : A) : io A := λ w, (Ok a, w).
Definition throw {A} (e : error) : io A := λ w, (Err e, w).
Definition io_bind {A B} (m : io A) (k : A → io B) : io B :=
  λ w, match m w with (Ok a, w') => k a w' | (Err e, w') => (Err e, w') end.
(** The outcome of a computation as a value: [try { m } catch (error) { ... }]. *)
Definition attempt {A} (m : io A) : io (res A) := λ w, let '(r, w') := m w in (Ok r, w').
Definition lift {A} (r : res A) : io A := λ w, (r, w).

Declare Scope io_scope.
Delimit Scope io_scope with io.
Notation "'do*' x := m 'in' k" := (io_bind m (fun x => k))
  (at level 10, x name, m at level 100, k at level 200) : io_scope.
Notation "'do*' ' p := m 'in' k" := (io_bind m (fun x => match x with p => k end))
  (at level 10, p pattern, m at level 100, k at level 200) : io_scope.
Notation "'run' m 'in' k" := (io_bind m (fun _ => k))
  (at level 10, m at level 100, k at level 200) : io_scope.
Open Scope io_scope.

(** [if (b) throw e] *)
Definition throw_if (b : bool) (e : error) : io unit := if b then throw e else ret tt.

Definition get_files : io file_map := λ w, (Ok (files w), w).
(** A step that changes the files, recorded. *)
Definition set_files (m : file_map) : io unit :=
  λ w, (Ok tt, World m (ticks w) (m :: history w)).
(** A reading of the clock or of the random source. *)
Definition tick : io nat := λ w, (Ok (ticks w), World (files w) (S (ticks w)) (history w)).

(** ** System calls *)

Definition ENOENT : error := SystemError "ENOENT".
Definition EEXIST : error := SystemError "EEXIST".

Definition exists_file (p : path) : io bool :=
  do* m := get_files in ret (match m !! p with Some _ => true | None => false end).

Definition read_file (p : path) : io string :=
  do* m := get_files in
  match m !! p with Some t => ret t | None => throw ENOENT end.

(** [openSync(path, "wx")], [writeFileSync], [fsyncSync], [closeSync]. *)
Definition create_file (p : path) (text : string) : io unit :=
  do* m := get_files in
  match m !! p with
  | Some _ => throw EEXIST
  | None => run set_files (<[p := ""]> m) in set_files (<[p := text]> m)
  end.

Definition unlink (p : path) : io unit :=
  do* m := get_files in
  match m !! p with Some _ => set_files (delete p m) | None => throw ENOENT end.

Definition rename (p q : path) : io unit :=
  do* m := get_files in
  match m !! p with
  | Some t => set_files (<[q := t]> (delete p m))
  | None => throw ENOENT
  end.

(** [copyFileSync]: the target is emptied and then written. *)
Definition copy_file (p q : path) : io unit :=
  do* m := get_files in
  match m !! p with
  | Some t => run set_files (<[q := ""]> m) in set_files (<[q := t]> m)
  | None => throw ENOENT
  end.

Definition read_dir (d : directory) : io (list string) :=
  do* m := get_files in ret (names_in d m).

(** [unlinkIfPresent(filePath)] *)
Definition unlinkIfPresent (p : path) : io unit :=
  do* r := attempt (unlink p) in
  match r with
  | Err e => if bool_decide (e = ENOENT) then ret tt else throw e
  | Ok _ => ret tt
  end.

(** What [process.kill(pid, 0)] says of a process. *)
Inductive probe_result := ProbeAlive | ProbeNoProcess | ProbeRefused.

(** The process, its clock and its random source, which the code takes from [node:os], [process]
    and [node:crypto]; [wall_clock] and [random_hex] are indexed by the reading. *)
Class Platform := {
  process_pid : Z;
  process_incarnation : string;
  wall_clock : nat → Z;
  random_hex : nat → nat → string;          (* [randomBytes(n).toString("hex")] *)
  probe_process : Z → probe_result;
  incarnation_of : Z → option string;       (* [processIncarnation(pid)] *)
}.

(** Their documented values: a process has a positive number, a random text is hexadecimal, the
    incarnation is a digest or a random text, the clock is in the years of the pattern and the
    process itself is alive and not another incarnation of itself. *)
Class PlatformLaws `{Platform} := {
  pid_positive : (0 < process_pid)%Z ∧ is_safe_integer process_pid = true;
  random_hex_pattern : ∀ n k, hex_pattern (2 * n) (random_hex n k) = true;
  incarnation_pattern : hex_pattern 64 process_incarnation = true;
  clock_text : ∀ k, isUtcTimestamp (JStr (iso_of_ms (wall_clock k))) = true;
}.

(** [Buffer.equals] of the file with the staged bytes; a missing file is the same failure. *)
Definition verify_bytes (p : path) (text : string) : io unit :=
  do* m := get_files in
  match m !! p with
  | Some t => throw_if (negb (String.eqb t text)) (EventStoreError "EVENT_ATOMIC_VERIFY_FAILED")
  | None => throw (EventStoreError "EVENT_ATOMIC_VERIFY_FAILED")
  end.

Section AtomicReplace.
Context `{Platform}.

(** The staging file of a replacement. *)
Definition temp_path (p : path) (random : string) : path :=
  (p.1, "." +:+ p.2 +:+ "." +:+ pretty process_pid +:+ "." +:+ random +:+ ".tmp").

(** [replaceFileAtomic(filePath, text, { onBeforeRename })]: stage and sync a temporary file, keep
    the old file as [.bak], check the caller's authority, rename, verify; the temporary file is
    removed in every case. *)
Definition replaceFileAtomic (p : path) (text : string) (onBeforeRename : io unit) : io unit :=
  do* n := tick in
  let temp := temp_path p (random_hex 8 n) in
  do* r := attempt (
    run create_file temp text in
    do* present := exists_file p in
    run (if present then copy_file p (add_suffix p ".bak") else ret tt) in
    run onBeforeRename in
    run rename temp p in
    verify_bytes p text) in
  do* left := exists_file temp in
  run (if left then unlinkIfPresent temp else ret tt) in
  lift r.
End AtomicReplace.

(** * Reasoning about computations *)

Definition execs {A : Type} (I : file_map → Prop) (m : io A) (F : file_map) (n : nat) (r : res A)
    (F' : file_map) (n' : nat) : Prop :=
  ∃ trace, Forall I trace ∧ ∀ h, m (World F n h) = (r, World F' n' (trace ++ h)).

Section Rules.
Context {A B : Type} (I : file_map → Prop).
Implicit Types (F : file_map) (n : nat).

Lemma execs_ret (a : A) F n : execs I (ret a) F n (Ok a) F n.
Proof. by exists []. Qed.

Lemma execs_throw e F n : execs I (throw (A := A) e) F n (Err e) F n.
Proof. by exists []. Qed.

Lemma execs_lift (r : res A) F n : execs I (lift r) F n r F n.
Proof. by exists []. Qed.

Lemma execs_bind (m : io A) (k : A → io B) F n a F1 n1 r F2 n2 :
  execs I m F n (Ok a) F1 n1 → execs I (k a) F1 n1 r F2 n2 → execs I (io_bind m k) F n r F2 n2.
Proof.
  intros (t1 & H1 & E1) (t2 & H2 & E2). exists (t2 ++ t1). split; [by apply Forall_app|].
  intros h. unfold io_bind. by rewrite E1, E2, app_assoc.
Qed.

Lemma execs_bind_Err (m : io A) (k : A → io B) F n e F1 n1 :
  execs I m F n (Err e) F1 n1 → execs I (io_bind m k) F n (Err e) F1 n1.
Proof.
  intros (t1 & H1 & E1). exists t1. split; [done|]. intros h. unfold io_bind. by rewrite E1.
Qed.

Lemma execs_attempt (m : io A) F n r F1 n1 :
  execs I m F n r F1 n1 → execs I (attempt m) F n (Ok r) F1 n1.
Proof.
  intros (t1 & H1 & E1). exists t1. split; [done|]. intros h. unfold attempt. by rewrite E1.
Qed.

Lemma execs_impl (I' : file_map → Prop) (m : io A) F n r F1 n1 :
  (∀ F, I F → I' F) → execs I m F n r F1 n1 → execs I' m F n r F1 n1.
Proof. intros H (t & Ht & E). exists t. split; [by eapply Forall_impl|done]. Qed.

(** An execution is what the computation does. *)
Lemma execs_run (m : io A) F n r F1 n1 :
  execs I m F n r F1 n1 → ∃ trace, Forall I trace ∧ m (World F n []) = (r, World F1 n1 trace).
Proof. intros (t & Ht & E). exists t. split; [done|]. by rewrite E, app_nil_r. Qed.
End Rules.

Section Calls.
Context (I : file_map → Prop).
Implicit Types (F : file_map) (n : nat) (p q : path).

Lemma execs_get_files F n : execs I get_files F n (Ok F) F n.
Proof. by exists []. Qed.

Lemma execs_set_files F F' n : I F' → execs I (set_files F') F n (Ok tt) F' n.
Proof. intros H. exists [F']. split; [by constructor|done]. Qed.

Lemma execs_tick F n : execs I tick F n (Ok n) F (S n).
Proof. by exists []. Qed.

Lemma execs_throw_if_false e F n : execs I (throw_if false e) F n (Ok tt) F n.
Proof. by exists []. Qed.
Lemma execs_throw_if_true e F n : execs I (throw_if true e) F n (Err e) F n.
Proof. by exists []. Qed.

Lemma execs_exists_true F n p t : F !! p = Some t → execs I (exists_file p) F n (Ok true) F n.
Proof. intros H. exists []. split; [done|]. intros h. unfold exists_file, io_bind. simpl. by rewrite H. Qed.
Lemma execs_exists_false F n p : F !! p = None → execs I (exists_file p) F n (Ok false) F n.
Proof. intros H. exists []. split; [done|]. intros h. unfold exists_file, io_bind. simpl. by rewrite H. Qed.

Lemma execs_read_file F n p t : F !! p = Some t → execs I (read_file p) F n (Ok t) F n.
Proof. intros H. exists []. split; [done|]. intros h. unfold read_file, io_bind. simpl. by rewrite H. Qed.
Lemma execs_read_absent F n p : F !! p = None → execs I (read_file p) F n (Err ENOENT) F n.
Proof. intros H. exists []. split; [done|]. intros h. unfold read_file, io_bind. simpl. by rewrite H. Qed.

Lemma execs_read_dir F n d : execs I (read_dir d) F n (Ok (names_in d F)) F n.
Proof. by exists []. Qed.

Lemma execs_create F n p t :
  F !! p = None → I (<[p := ""]> F) → I (<[p := t]> F) →
  execs I (create_file p t) F n (Ok tt) (<[p := t]> F) n.
Proof.
  intros H H1 H2. exists [<[p := t]> F; <[p := ""]> F]. split; [by repeat constructor|].
  intros h. unfold create_file, io_bind. simpl. by rewrite H.
Qed.

Lemma execs_create_present F n p t t' :
  F !! p = Some t' → execs I (create_file p t) F n (Err EEXIST) F n.
Proof. intros H. exists []. split; [done|]. intros h. unfold create_file, io_bind. simpl. by rewrite H. Qed.

Lemma execs_unlink F n p t :
  F !! p = Some t → I (delete p F) → execs I (unlink p) F n (Ok tt) (delete p F) n.
Proof.
  intros H H1. exists [delete p F]. split; [by constructor|]. intros h.
  unfold unlink, io_bind. simpl. by rewrite H.
Qed.

Lemma execs_rename F n p q t :
  F !! p = Some t → I (<[q := t]> (delete p F)) →
  execs I (rename p q) F n (Ok tt) (<[q := t]> (delete p F)) n.
Proof.
  intros H H1. exists [<[q := t]> (delete p F)]. split; [by constructor|]. intros h.
  unfold rename, io_bind. simpl. by rewrite H.
Qed.

Lemma execs_copy F n p q t :
  F !! p = Some t → I (<[q := ""]> F) → I (<[q := t]> F) →
  execs I (copy_file p q) F n (Ok tt) (<[q := t]> F) n.
Proof.
  intros H H1 H2. exists [<[q := t]> F; <[q := ""]> F]. split; [by repeat constructor|].
  intros h. unfold copy_file, io_bind. simpl. by rewrite H.
Qed.

Lemma execs_unlinkIfPresent F n p t :
  F !! p = Some t → I (delete p F) → execs I (unlinkIfPresent p) F n (Ok tt) (delete p F) n.
Proof.
  intros H H1. unfold unlinkIfPresent.
  eapply execs_bind; [apply execs_attempt; by eapply execs_unlink|]. apply execs_ret.
Qed.

Lemma execs_verify_bytes F n p t : F !! p = Some t → execs I (verify_bytes p t) F n (Ok tt) F n.
Proof.
  intros H. exists []. split; [done|]. intros h. unfold verify_bytes, io_bind. simpl.
  by rewrite H, String.eqb_refl.
Qed.
End Calls.

(** ** Atomic replacement *)

Section Replace.
Context `{Platform} (I : file_map → Prop).
Implicit Types (F : file_map) (n : nat) (p : path).

(** The files when the temporary file is staged and the old file copied. *)
Definition staged (p temp : path) (text : string) F : file_map :=
  let F1 := <[temp := text]> F in
  match F !! p with Some old => <[add_suffix p ".bak" := old]> F1 | None => F1 end.

(** The files after the replacement. *)
Definition replaced (p : path) (text : string) F : file_map :=
  <[p := text]> (match F !! p with
    | Some old => <[add_suffix p ".bak" := old]> F
    | None => F
    end).

Lemma add_suffix_neq p s : s ≠ "" → add_suffix p s ≠ p.
Proof.
  destruct p as [d b]. unfold add_suffix. intros Hs [=E]. apply Hs.
  assert (String.length (b +:+ s) = String.length b) as Hl by (by rewrite E).
  rewrite str_length_app in Hl. destruct s; [done|simpl in Hl; lia].
Qed.

Lemma temp_path_neq p r : temp_path p r ≠ p ∧ temp_path p r ≠ add_suffix p ".bak".
Proof.
  destruct p as [d b]. unfold temp_path, add_suffix. cbn [fst snd].
  assert (∀ x y : string, x = y → String.length x = String.length y) as Hlen by (by intros ? ? ->).
  split; intros [=E]; apply Hlen in E; rewrite !str_length_app in E; simpl in E; lia.
Qed.

(** What the crash condition must hold of: the states of a replacement. *)
Definition replace_crashes (p temp : path) (text : string) F : Prop :=
  I (<[temp := ""]> F) ∧ I (<[temp := text]> F) ∧
  (∀ old, F !! p = Some old →
    I (<[add_suffix p ".bak" := ""]> (<[temp := text]> F)) ∧
    I (<[add_suffix p ".bak" := old]> (<[temp := text]> F))) ∧
  I (replaced p text F).

Lemma staged_temp p temp text F :
  temp ≠ p → temp ≠ add_suffix p ".bak" → staged p temp text F !! temp = Some text.
Proof.
  intros H1 H2. unfold staged. destruct (F !! p).
  - rewrite lookup_insert_ne by congruence. by rewrite lookup_insert_eq.
  - by rewrite lookup_insert_eq.
Qed.

Lemma rename_staged p temp text F :
  temp ≠ p → temp ≠ add_suffix p ".bak" → F !! temp = None →
  <[p := text]> (delete temp (staged p temp text F)) = replaced p text F.
Proof.
  intros H1 H2 H3. unfold staged, replaced. f_equal. destruct (F !! p) as [old|].
  - rewrite delete_insert_ne by congruence. by rewrite delete_insert_id.
  - by rewrite delete_insert_id.
Qed.

Lemma execs_replace p text hook F n :
  let temp := temp_path p (random_hex 8 n) in
  F !! temp = None →
  replace_crashes p temp text F →
  execs I hook (staged p temp text F) (S n) (Ok tt) (staged p temp text F) (S n) →
  execs I (replaceFileAtomic p text hook) F n (Ok tt) (replaced p text F) (S n).
Proof.
  intros temp Hfree (I1 & I2 & I3 & I4) Hhook. unfold replaceFileAtomic.
  destruct (temp_path_neq p (random_hex 8 n)) as [Hn1 Hn2]. fold temp in Hn1, Hn2.
  eapply execs_bind; [apply execs_tick|]. cbv zeta. fold temp.
  assert (execs I (run create_file temp text in
    do* present := exists_file p in
    run (if present then copy_file p (add_suffix p ".bak") else ret tt) in
    run hook in run rename temp p in verify_bytes p text) F (S n) (Ok tt)
    (replaced p text F) (S n)) as Hbody.
  { eapply execs_bind; [by apply execs_create|].
    eapply execs_bind with (F1 := <[temp := text]> F) (n1 := S n)
      (a := match F !! p with Some _ => true | None => false end).
    { destruct (F !! p) eqn:E; [eapply execs_exists_true | apply execs_exists_false];
        by rewrite lookup_insert_ne. }
    eapply execs_bind with (F1 := staged p temp text F) (n1 := S n) (a := tt).
    { unfold staged. destruct (F !! p) as [old|] eqn:E; [|apply execs_ret].
      destruct (I3 _ eq_refl) as [I3a I3b].
      apply execs_copy; [by rewrite lookup_insert_ne|done..]. }
    eapply execs_bind; [exact Hhook|].
    eapply execs_bind.
    { apply execs_rename with (t := text); [by apply staged_temp|].
      by rewrite rename_staged. }
    rewrite rename_staged by done. apply execs_verify_bytes. unfold replaced.
    by rewrite lookup_insert_eq. }
  eapply execs_bind; [apply execs_attempt, Hbody|].
  eapply execs_bind.
  { apply execs_exists_false. unfold replaced. rewrite lookup_insert_ne by done.
    destruct (F !! p); [by rewrite lookup_insert_ne|done]. }
  eapply execs_bind; [apply execs_ret|]. apply execs_lift.
Qed.
End Replace.
