(* ===== verification/EventLock.v ===== *)
(** The journal lock ([packages/event-store/src/lock.js]): a lock file created exclusively, whose
    metadata names its owner; publication and release markers beside it; the classification of
    an owner that may have died.

    The waiting loops end with the state of the files at their deadline: no other process acts
    while this one runs, so what the loop sees does not change. *)

From Stdlib Require Import ZArith Lia Ascii String.
From stdpp Require Import base tactics list gmap strings option pretty.
From S2P Require Import Prelude JsString JsDate Json JsonText JsonCanon Validator FileStore.

Abbreviation lock_error c := (EventStoreError c).
(** A failed [JSON.parse] or a failed decoding throws an error without a [code]. *)
Definition no_code : error := SystemError "".

(** ** Metadata *)

(** The identity a lock file records.  A version 1 lock has no incarnation. *)
Record LockMetadata := MkLock {
  lm_version : Z;
  lm_pid : Z;
  lm_host : string;
  lm_incarnation : option string;
  lm_nonce : string;
  lm_acquired_at : string;
  lm_target : Z;
}.
#[export] Instance LockMetadata_eq_dec : EqDecision LockMetadata.
Proof. solve_decision. Defined.

Definition LOCK_V1_FIELDS : list string :=
  ["acquired_at"; "host_id"; "nonce"; "owner_pid"; "target_revision"].
Definition LOCK_V2_FIELDS : list string :=
  ["acquired_at"; "host_id"; "lock_version"; "nonce"; "owner_incarnation"; "owner_pid";
   "target_revision"].

(** [sameFields(value, fields)]: the sorted keys are the sorted [fields]. *)
Definition sameFields (fs : fields) (expected : list string) : bool :=
  bool_decide (sort_text (keys fs) = expected).

(** The JSON the code writes for the lock it takes, in the order it builds it. *)
Definition lock_json (m : LockMetadata) : json :=
  JObj [("lock_version", JInt 2); ("owner_pid", JInt (lm_pid m)); ("host_id", JStr (lm_host m));
        ("owner_incarnation", JStr (default "" (lm_incarnation m))); ("nonce", JStr (lm_nonce m));
        ("acquired_at", JStr (lm_acquired_at m)); ("target_revision", JInt (lm_target m))].

Definition newline : string := String "010" "".
Definition json_line (v : json) : string := print v +:+ newline.

(** A text of one line: [text.endsWith("\n") && !text.slice(0, -1).includes("\n")]. *)
Fixpoint one_line (s : string) : bool :=
  match s with
  | EmptyString => false
  | String c EmptyString => (code c =? 10)%Z
  | String c s' => negb (code c =? 10)%Z && one_line s'
  end.

Section Metadata.
Context `{NumberText}.

Definition integer_field (least : Z) (v : json) : option Z :=
  match v with JInt z => if (least <=? z)%Z then Some z else None | _ => None end.
Definition blank (s : string) : bool := String.eqb (trim s) "".
Definition nonblank_field (v : json) : option string :=
  match v with JStr s => if blank s then None else Some s | _ => None end.
Definition nonempty_field (v : json) : option string :=
  match v with JStr s => if String.eqb s "" then None else Some s | _ => None end.
Definition utc_field (v : json) : option string :=
  match v with JStr s => if isUtcTimestamp v then Some s else None | _ => None end.
Definition hex_field (n : nat) (v : json) : option string :=
  match v with JStr s => if hex_pattern n s then Some s else None | _ => None end.

(** The checks of [readMetadata] on the parsed value. *)
Definition decode_lock (v : json) : option LockMetadata :=
  fs ← object_of v;
  pid ← integer_field 1 (get "owner_pid" fs);
  host ← nonblank_field (get "host_id" fs);
  nonce ← nonempty_field (get "nonce" fs);
  acquired ← utc_field (get "acquired_at" fs);
  target ← integer_field 0 (get "target_revision" fs);
  match get "lock_version" fs with
  | JInt 2 =>
      if sameFields fs LOCK_V2_FIELDS && hex_pattern 32 nonce then
        incarnation ← hex_field 64 (get "owner_incarnation" fs);
        Some (MkLock 2 pid host (Some incarnation) nonce acquired target)
      else None
  | _ =>
      if sameFields fs LOCK_V1_FIELDS
      then Some (MkLock 1 pid host None nonce acquired target) else None
  end.

(** The text of a file of one JSON line, read strictly. *)
Definition strict_json_line (bytes : string) (shape : error) : res json :=
  match decode_utf8 bytes with
  | None => Err no_code
  | Some text =>
      check one_line text else shape in
      match JSON_parse text with Some v => Ok v | None => Err no_code end
  end.

(** [readMetadata] of the bytes of a lock file. *)
Definition parse_lock (bytes : string) : res LockMetadata :=
  let* v := strict_json_line bytes (lock_error "EVENT_LOCK_INVALID") in
  match decode_lock v with Some m => Ok m | None => Err (lock_error "EVENT_LOCK_INVALID") end.

(** *** Transition markers *)

Inductive transition_kind := Release | Publication.
#[export] Instance transition_kind_eq_dec : EqDecision transition_kind.
Proof. solve_decision. Defined.
#[export] Instance transition_kind_enum : JsEnum transition_kind := {|
  enum_all := [Release; Publication];
  enum_str k := match k with Release => "release" | Publication => "publication" end;
|}.
#[export] Instance transition_kind_laws : JsEnumLaws transition_kind.
Proof. enum_laws. Qed.

Record Transition := MkTransition {
  tr_kind : transition_kind;
  tr_nonce : string;
  tr_pid : Z;
  tr_host : string;
  tr_incarnation : string;
  tr_created_at : string;
}.

Definition TRANSITION_V2_FIELDS : list string :=
  ["created_at"; "host_id"; "owner_incarnation"; "owner_nonce"; "owner_pid"; "transition_kind";
   "transition_version"].

Definition transition_json (t : Transition) : json :=
  JObj [("transition_version", JInt 2); ("transition_kind", JStr (enum_str (tr_kind t)));
        ("owner_nonce", JStr (tr_nonce t)); ("owner_pid", JInt (tr_pid t));
        ("host_id", JStr (tr_host t)); ("owner_incarnation", JStr (tr_incarnation t));
        ("created_at", JStr (tr_created_at t))].

Definition decode_transition (v : json) : option Transition :=
  fs ← object_of v;
  if negb (sameFields fs TRANSITION_V2_FIELDS) then None else
  match get "transition_version" fs, get "transition_kind" fs with
  | JInt 2, JStr kind_text =>
      kind ← enum_find (enum_all (A := transition_kind)) kind_text;
      pid ← integer_field 1 (get "owner_pid" fs);
      host ← nonblank_field (get "host_id" fs);
      nonce ← hex_field 32 (get "owner_nonce" fs);
      incarnation ← hex_field 64 (get "owner_incarnation" fs);
      created ← utc_field (get "created_at" fs);
      Some (MkTransition kind nonce pid host incarnation created)
  | _, _ => None
  end.

(** [readTransitionMetadata] of the bytes of a marker. *)
Definition parse_transition (bytes : string) : res Transition :=
  let* v := strict_json_line bytes (lock_error "EVENT_LOCK_INVALID") in
  match decode_transition v with
  | Some t => Ok t | None => Err (lock_error "EVENT_LOCK_INVALID")
  end.
End Metadata.

(** ** Paths *)

Definition JOURNAL : string := "events.jsonl".
Definition journal_path : path := (Root, JOURNAL).
Definition lock_path : path := (Root, "events.jsonl.lock").
Definition transition_path (nonce : string) : path :=
  (Root, "events.jsonl.lock.transition-" +:+ nonce).
Definition publication_path (nonce : string) : path :=
  (Root, "events.jsonl.lock.transition-" +:+ nonce +:+ "-publication").
Definition release_path (nonce random : string) : path :=
  (Root, "events.jsonl.lock.release-" +:+ nonce +:+ "-" +:+ random).

Definition has_prefix (p s : string) : bool :=
  match strip_prefix p s with Some _ => true | None => false end.
Definition is_transition_name (n : string) : bool := has_prefix "events.jsonl.lock.transition-" n.
Definition is_release_name (n : string) : bool := has_prefix "events.jsonl.lock.release-" n.

(** [transitionPaths(lockPath)] *)
Definition transitionPaths : io (list string) :=
  do* names := read_dir Root in
  ret (List.filter (λ n, is_transition_name n || is_release_name n) names).

Section Lock.
Context `{NumberText, Platform}.

Definition read_lock_file (p : path) : io LockMetadata :=
  do* bytes := read_file p in lift (parse_lock bytes).
Definition read_transition_file (p : path) : io Transition :=
  do* bytes := read_file p in lift (parse_transition bytes).

(** [inspectJournalLock(journalPath)]: does the lock exist, its metadata when they are valid, and
    the transitions. *)
Record LockView := MkView {
  lv_exists : bool;
  lv_metadata : option LockMetadata;
  lv_transitions : list string;
}.

Definition inspectJournalLock : io LockView :=
  do* r := attempt (read_lock_file lock_path) in
  do* ts := transitionPaths in
  ret (match r with
       | Ok m => MkView true (Some m) ts
       | Err e => MkView (negb (bool_decide (e = ENOENT))) None ts
       end).

(** *** Owners *)

Inductive owner := OwnerUnproven | OwnerRemote | OwnerLive | OwnerDead | OwnerIncarnationMismatch.
#[export] Instance owner_eq_dec : EqDecision owner.
Proof. solve_decision. Defined.

(** [classifyOwner(metadata, hostId)] *)
Definition classifyOwner (m : option LockMetadata) (hostId : string) : owner :=
  match m with
  | None => OwnerUnproven
  | Some m =>
      if negb (String.eqb (lm_host m) hostId) then OwnerRemote else
      match probe_process (lm_pid m) with
      | ProbeAlive =>
          match (lm_version m =? 2)%Z, incarnation_of (lm_pid m) with
          | true, Some observed =>
              if bool_decide (Some observed = lm_incarnation m) then OwnerLive
              else OwnerIncarnationMismatch
          | _, _ => OwnerLive
          end
      | ProbeNoProcess => OwnerDead
      | ProbeRefused => OwnerUnproven
      end
  end.

(** The owner of a marker or of a moved lock. *)
Definition transition_owner (name hostId : string) : io owner :=
  if has_prefix "events.jsonl.lock.transition-" name then
    do* t := read_transition_file (Root, name) in
    ret (classifyOwner (Some (MkLock 2 (tr_pid t) (tr_host t) (Some (tr_incarnation t))
      (tr_nonce t) (tr_created_at t) 0)) hostId)
  else
    do* m := read_lock_file (Root, name) in ret (classifyOwner (Some m) hostId).

Fixpoint io_map {A B} (f : A → io B) (l : list A) : io (list B) :=
  match l with
  | [] => ret []
  | x :: l' => do* y := f x in do* ys := io_map f l' in ret (y :: ys)
  end.

Definition LOCK_BUSY : error := lock_error "EVENT_LOCK_BUSY".
Definition STALE_LOCK : error := lock_error "EVENT_STALE_LOCK".
Definition OWNERSHIP_LOST : error := lock_error "EVENT_LOCK_OWNERSHIP_LOST".
Definition GUARD_FAILED : error := lock_error "EVENT_LOCK_GUARD_FAILED".
Definition RELEASE_FAILED : error := lock_error "EVENT_LOCK_RELEASE_FAILED".

(** [waitForTransitions(lockPath, hostId, deadline)] *)
Definition waitForTransitions (hostId : string) : io unit :=
  do* ts := transitionPaths in
  match ts with
  | [] => ret tt
  | _ =>
      do* r := attempt (io_map (λ n, transition_owner n hostId) (sort_text ts)) in
      match r with
      | Ok owners => if bool_decide (OwnerLive ∈ owners) then throw LOCK_BUSY else throw STALE_LOCK
      | Err _ => throw STALE_LOCK
      end
  end.

(** [sameLockIdentity(left, right)] *)
Definition sameLockIdentity (l r : LockMetadata) : bool :=
  (lm_pid l =? lm_pid r)%Z && String.eqb (lm_host l) (lm_host r)
  && String.eqb (lm_nonce l) (lm_nonce r) && String.eqb (lm_acquired_at l) (lm_acquired_at r)
  && (lm_target l =? lm_target r)%Z && (lm_version l =? lm_version r)%Z
  && bool_decide (lm_incarnation l = lm_incarnation r).

(** [assertJournalLockOwned(lock)] *)
Definition assertJournalLockOwned (lock : LockMetadata) : io unit :=
  do* r := attempt (read_lock_file lock_path) in
  match r with
  | Ok current => throw_if (negb (sameLockIdentity current lock)) OWNERSHIP_LOST
  | Err _ => throw OWNERSHIP_LOST
  end.

(** A failed second wait gives the lock back, when it is still this process's. *)
Definition abandon_lock (m : LockMetadata) : io unit :=
  do* r := attempt (
    do* current := read_lock_file lock_path in
    if sameLockIdentity current m then unlink lock_path else ret tt) in
  match r with
  | Err e => throw_if (negb (bool_decide (e = ENOENT))) OWNERSHIP_LOST
  | Ok _ => ret tt
  end.

(** What [acquireJournalLock] throws when the lock file is there at the deadline. *)
Definition contended (hostId : string) : io LockMetadata :=
  do* observed := inspectJournalLock in
  if bool_decide (classifyOwner (lv_metadata observed) hostId = OwnerLive)
  then throw LOCK_BUSY else throw STALE_LOCK.

(** [acquireJournalLock({ journalPath, hostId, targetRevision, timeoutMs })] *)
Definition acquireJournalLock (hostId : string) (target : Z) : io LockMetadata :=
  do* n := tick in
  do* k := tick in
  let m := MkLock 2 process_pid hostId (Some process_incarnation) (random_hex 16 n)
             (iso_of_ms (wall_clock k)) target in
  run waitForTransitions hostId in
  do* r := attempt (create_file lock_path (json_line (lock_json m))) in
  match r with
  | Ok _ =>
      do* w := attempt (waitForTransitions hostId) in
      match w with
      | Ok _ => ret m
      | Err e => run abandon_lock m in throw e
      end
  | Err e =>
      if bool_decide (e = EEXIST) then contended hostId
      else throw (lock_error "EVENT_LOCK_ACQUIRE_FAILED")
  end.

Definition marker (m : LockMetadata) (kind : transition_kind) (k : nat) : Transition :=
  MkTransition kind (lm_nonce m) (lm_pid m) (lm_host m)
    (default process_incarnation (lm_incarnation m)) (iso_of_ms (wall_clock k)).

(** [armJournalLockGuard(lock)]: the publication marker of the lock's holder. *)
Definition armJournalLockGuard (m : LockMetadata) : io path :=
  run assertJournalLockOwned m in
  do* k := tick in
  let p := publication_path (lm_nonce m) in
  do* r := attempt (create_file p (json_line (transition_json (marker m Publication k)))) in
  match r with
  | Err _ => throw GUARD_FAILED
  | Ok _ =>
      do* owned := attempt (assertJournalLockOwned m) in
      match owned with Err _ => throw OWNERSHIP_LOST | Ok _ => ret p end
  end.

(** [disarmJournalLockGuard(guard)] *)
Definition disarmJournalLockGuard (m : LockMetadata) (p : path) : io unit :=
  run assertJournalLockOwned m in
  do* r := attempt (read_transition_file p) in
  match r with
  | Err _ => throw GUARD_FAILED
  | Ok t =>
      run throw_if (negb (bool_decide (tr_kind t = Publication) && String.eqb (tr_nonce t) (lm_nonce m)))
        GUARD_FAILED in
      run assertJournalLockOwned m in
      do* u := attempt (unlinkIfPresent p) in
      match u with Err _ => throw GUARD_FAILED | Ok _ => ret tt end
  end.

Definition holds_nonce (v : LockView) (m : LockMetadata) : bool :=
  match lv_metadata v with
  | Some c => lv_exists v && String.eqb (lm_nonce c) (lm_nonce m)
  | None => false
  end.

(** [releaseJournalLock(lock)]: mark the release, move the lock aside, verify that the moved file
    is the lock that was held, delete it and the marker. *)
Definition releaseJournalLock (m : LockMetadata) : io unit :=
  do* current := inspectJournalLock in
  run throw_if (negb (holds_nonce current m)) OWNERSHIP_LOST in
  do* k := tick in
  let mark := transition_path (lm_nonce m) in
  do* r := attempt (create_file mark (json_line (transition_json (marker m Release k)))) in
  match r with
  | Err _ => throw RELEASE_FAILED
  | Ok _ =>
      do* rechecked := inspectJournalLock in
      if negb (holds_nonce rechecked m) then
        run attempt (unlinkIfPresent mark) in throw OWNERSHIP_LOST
      else
      do* n := tick in
      let moved_path := release_path (lm_nonce m) (random_hex 16 n) in
      do* owned := attempt (assertJournalLockOwned m) in
      match owned with
      | Err e => run attempt (unlinkIfPresent mark) in throw e
      | Ok _ =>
          do* moved := attempt (rename lock_path moved_path) in
          match moved with
          | Err _ => throw RELEASE_FAILED
          | Ok _ =>
              do* back := attempt (read_lock_file moved_path) in
              match back with
              | Err _ => throw RELEASE_FAILED
              | Ok c =>
                  run throw_if (negb (sameLockIdentity c m)) OWNERSHIP_LOST in
                  do* gone := attempt (run unlink moved_path in unlinkIfPresent mark) in
                  match gone with Err _ => throw RELEASE_FAILED | Ok _ => ret tt end
              end
          end
      end
  end.
End Lock.
