(* ===== verification/EventJournal.v ===== *)
(** The journal of the event store ([packages/event-store/src/journal.js], the parts that read
    and check): the strict reader of the journal text, request validation and identity, the
    pending evidence, and the blockers of recovery. *)

From Stdlib Require Import ZArith Lia Ascii String.
From stdpp Require Import base tactics list gmap strings option pretty.
From S2P Require Import Prelude JsString JsDate Json JsonText JsonCanon Validator FileStore EventLock.

(** ** Errors *)

Definition JOURNAL_INVALID : error := EventStoreError "EVENT_JOURNAL_INVALID".
Definition BATCH_INVALID : error := EventStoreError "EVENT_BATCH_INVALID".
Definition DUPLICATE_EVENT : error := EventStoreError "EVENT_DUPLICATE_EVENT_ID".
Definition REVISION_CONFLICT : error := EventStoreError "EVENT_REVISION_CONFLICT".
Definition BATCH_CONFLICT : error := EventStoreError "EVENT_BATCH_ID_CONFLICT".
Definition PENDING_RECOVERY_REQUIRED : error := EventStoreError "EVENT_PENDING_RECOVERY_REQUIRED".
Definition RECOVERY_REQUIRED : error := EventStoreError "EVENT_RECOVERY_REQUIRED".
Definition PENDING_VERIFY_FAILED : error := EventStoreError "EVENT_PENDING_VERIFY_FAILED".
Definition SOURCE_CHANGED : error := EventStoreError "EVENT_JOURNAL_SOURCE_CHANGED".
Definition JOURNAL_VERIFY_FAILED : error := EventStoreError "EVENT_JOURNAL_VERIFY_FAILED".
Definition CLOCK_INVALID : error := EventStoreError "EVENT_CLOCK_INVALID".

(** ** Texts *)

(** [text.split("\n")] *)
Fixpoint split_lines (s : string) : list string :=
  match s with
  | EmptyString => [EmptyString]
  | String c s' =>
      if (code c =? 10)%Z then EmptyString :: split_lines s'
      else match split_lines s' with
           | l :: ls => String c l :: ls
           | [] => [String c EmptyString]
           end
  end.

(** [text.endsWith("\n")] *)
Fixpoint ends_with_newline (s : string) : bool :=
  match s with
  | EmptyString => false
  | String c EmptyString => (code c =? 10)%Z
  | String _ s' => ends_with_newline s'
  end.

(** [text.slice(0, -1).split("\n")] of a text that ends with a newline. *)
Definition journal_lines (text : string) : list string := removelast (split_lines text).

(** Removal of a field: [delete object[k]]. *)
Definition remove_field (k : string) (fs : fields) : fields :=
  List.filter (λ kv, negb (String.eqb kv.1 k)) fs.

(** ** The strict reader *)

(** The batch of an entry: the entry without the two fields the journal adds. *)
Definition entry_core (fs : fields) : json :=
  JObj (remove_field "committed_at" (remove_field "journal_version" fs)).

Definition get_str (k : string) (v : json) : string :=
  match v with
  | JObj fs => match get k fs with JStr s => s | _ => "" end
  | _ => ""
  end.
Definition get_array (k : string) (v : json) : list json :=
  match v with
  | JObj fs => match get k fs with JArr l => l | _ => [] end
  | _ => []
  end.
Definition get_of (k : string) (v : json) : json :=
  match v with JObj fs => get k fs | _ => JUndef end.

(** [entry.batch_id], [entry.events.map((event) => event.event_id)] of a validated batch. *)
Definition batch_id_of (v : json) : string := get_str "batch_id" v.
Definition event_ids_of (v : json) : list string := map (get_str "event_id") (get_array "events" v).

(** Does the line at [index] hold a valid wrapper? *)
Definition wrapper_ok (index : nat) (fs : fields) : bool :=
  strict_eq (get "journal_version" fs) (JInt 1)
  && strict_eq (get "sequence" fs) (JInt (Z.of_nat index + 1))
  && strict_eq (get "expected_revision" fs) (JInt (Z.of_nat index))
  && isUtcTimestamp (get "committed_at" fs).

Section Reader.
Context `{NumberText}.

(** An entry at [index], given the batch and event ids seen before. *)
Definition read_entry (index : nat) (batches events : list string) (line : string) : option json :=
  if String.eqb line "" then None else
  match JSON_parse line with
  | Some (JObj fs) =>
      if wrapper_ok index fs && event_batch_ok (entry_core fs)
         && negb (includes batches (batch_id_of (JObj fs)))
         && negb (existsb (includes events) (event_ids_of (JObj fs)))
         && bool_decide (NoDup (event_ids_of (JObj fs)))
      then Some (JObj fs) else None
  | _ => None
  end.

(** The entries of the lines from [index] on, or the number of the first line that is refused. *)
Fixpoint read_lines (index : nat) (batches events : list string) (lines : list string)
    : nat + list json :=
  match lines with
  | [] => inr []
  | line :: lines' =>
      match read_entry index batches events line with
      | None => inl (S index)
      | Some entry =>
          match read_lines (S index) (batch_id_of entry :: batches)
                  (event_ids_of entry ++ events) lines' with
          | inl n => inl n
          | inr entries => inr (entry :: entries)
          end
      end
  end.

(** The journal of a text, or the line of the failure when the failure has one. *)
Definition parse_journal (text : string) : option nat + list json :=
  if String.eqb text "" then inr []
  else if negb (ends_with_newline text) then inl None
  else match read_lines 0 [] [] (journal_lines text) with
       | inl n => inl (Some n)
       | inr entries => inr entries
       end.

Record Journal := MkJournal {
  j_entries : list json;
  j_text : string;
}.

Definition read_journal_bytes (bytes : string) : res Journal :=
  match decode_utf8 bytes with
  | None => Err JOURNAL_INVALID
  | Some text =>
      match parse_journal text with
      | inr entries => Ok (MkJournal entries text)
      | inl _ => Err JOURNAL_INVALID
      end
  end.

(** [readJournal(journalPath)] *)
Definition readJournal (p : path) : io Journal :=
  do* m := get_files in
  match m !! p with
  | None => ret (MkJournal [] "")
  | Some bytes => lift (read_journal_bytes bytes)
  end.

(** [physicalJournalText(journalPath)] *)
Definition physicalJournalText : io string :=
  do* m := get_files in
  match m !! journal_path with
  | None => ret ""
  | Some bytes => match decode_utf8 bytes with Some t => ret t | None => throw no_code end
  end.
End Reader.

(** ** Requests *)

Section Requests.
Context `{Sha256}.

(** [canonicalFailure(error)] *)
Definition canonical_or_invalid {A} (r : res A) : res A :=
  match r with Ok a => Ok a | Err _ => Err BATCH_INVALID end.

(** [requestIdentity(request)] *)
Definition requestIdentity (request : json) : res string :=
  canonical_or_invalid (canonicalHash (JObj
    [("expected_revision", get_of "expected_revision" request);
     ("batch_id", get_of "batch_id" request); ("actor", get_of "actor" request);
     ("correlation_id", get_of "correlation_id" request);
     ("events", get_of "events" request)])).

Definition set_sequence (n : Z) (fs : fields) : json := JObj (set_field "sequence" (JInt n) fs).

(** [assertRequestObject(request)] and [validateRequest(request, nextSequence)]: the batch. *)
Definition validateRequest (request : json) (next : Z) : res json :=
  match request with
  | JObj fs =>
      reject has_own fs "sequence" || has_own fs "journal_version" || has_own fs "committed_at"
        with BATCH_INVALID in
      check event_batch_ok (set_sequence next fs) else BATCH_INVALID in
      check bool_decide (NoDup (event_ids_of request)) else DUPLICATE_EVENT in
      Ok (set_sequence next fs)
  | _ => Err BATCH_INVALID
  end.

(** [pendingPathFor(stateRoot, batchId)] *)
Definition pending_name (batchId : string) : string := sha256_hex batchId +:+ ".json".
Definition pendingPathFor (batchId : string) : path := (Pending, pending_name batchId).

(** ** Recovery blockers *)

(** [assertNoUnresolvedPending(stateRoot, allowedPendingPath)] *)
Definition assertNoUnresolvedPending (allowed : option string) : io unit :=
  do* names := read_dir Pending in
  let artifacts := List.filter (λ n, negb (bool_decide (Some n = allowed))) names in
  throw_if (negb (Nat.eqb (length artifacts) 0)) PENDING_RECOVERY_REQUIRED.
End Requests.

Fixpoint strip_hex (n : nat) (s : string) : option string :=
  match n, s with
  | O, _ => Some s
  | S n', String c s' => if is_hex c then strip_hex n' s' else None
  | S _, EmptyString => None
  end.

Definition matches_rest (o : option string) (rests : list string) : bool :=
  match o with Some r => includes rests r | None => false end.

(** [events.jsonl.conflict-<digest>] *)
Definition journal_conflict_name (n : string) : bool :=
  matches_rest (r ← strip_prefix "events.jsonl.conflict-" n; strip_hex 64 r) [""].
(** [<digest>.json.conflict-<digest>] *)
Definition pending_conflict_name (n : string) : bool :=
  matches_rest (r ← strip_hex 64 n; r ← strip_prefix ".json.conflict-" r; strip_hex 64 r) [""].
(** [conflict-<digest>.json], [conflict-<digest>.json.bak] *)
Definition conflict_manifest_name (n : string) : bool :=
  matches_rest (r ← strip_prefix "conflict-" n; strip_hex 64 r) [".json"].
Definition conflict_backup_name (n : string) : bool :=
  matches_rest (r ← strip_prefix "conflict-" n; strip_hex 64 r) [".json.bak"].
(** [.conflict-<digest>.json.<pid>.<random>.tmp] *)
Definition conflict_temp_name (n : string) : bool :=
  match (r ← strip_prefix ".conflict-" n; r ← strip_hex 64 r; strip_prefix ".json." r) with
  | Some r =>
      let '(ds, r') := take_digits r in
      negb (String.eqb ds "")
      && matches_rest (r ← strip_prefix "." r'; strip_hex 16 r) [".tmp"]
  | None => false
  end.

(** [/conflicted copy/iu.test(name)] *)
Definition to_lower (c : ascii) : ascii :=
  if between 65 90 c then ascii_of_N (N_of_ascii c + 32) else c.
Fixpoint lower (s : string) : string :=
  match s with EmptyString => EmptyString | String c s' => String (to_lower c) (lower s') end.
Fixpoint contains (p s : string) : bool :=
  has_prefix p s || match s with String _ s' => contains p s' | EmptyString => false end.
Definition conflicted_copy (n : string) : bool := contains "conflicted copy" (lower n).

(** [unresolvedUserDecisionArtifacts(stateRoot, journalPath)] *)
Definition user_decision_artifact (p : path) : bool :=
  match p.1 with
  | Root => journal_conflict_name p.2 || conflicted_copy p.2
  | Pending => pending_conflict_name p.2
  | Quarantine =>
      conflict_manifest_name p.2 || conflict_backup_name p.2 || conflict_temp_name p.2
  | Projections => false
  end.

Definition unresolvedUserDecisionArtifacts (m : file_map) : list path :=
  List.filter user_decision_artifact (map fst (map_to_list m)).

(** [assertNoUnresolvedUserDecision(stateRoot, journalPath)] *)
Definition assertNoUnresolvedUserDecision : io unit :=
  do* m := get_files in
  throw_if (negb (Nat.eqb (length (unresolvedUserDecisionArtifacts m)) 0)) RECOVERY_REQUIRED.

(** ** Pending evidence *)

Definition PENDING_FIELDS : list string :=
  ["batch_id"; "created_at"; "expected_revision"; "journal_path"; "next_sequence";
   "pending_version"; "serialized_batch"; "sha256"; "workspace_id"].

Definition JOURNAL_LOCATION : string := ".orquesta/v4/events.jsonl".

Section Evidence.
Context `{NumberText, Sha256}.

(** [readStrictPendingEvidence(pendingPath)] of the bytes. *)
Definition parse_pending (bytes : string) : option fields :=
  match strict_json_line bytes PENDING_VERIFY_FAILED with
  | Ok (JObj fs) => if sameFields fs PENDING_FIELDS then Some fs else None
  | _ => None
  end.

(** The value and the text it was read from. *)
Definition readStrictPendingEvidence (p : path) : io (fields * string) :=
  do* m := get_files in
  match m !! p with
  | None => throw PENDING_VERIFY_FAILED
  | Some bytes =>
      match parse_pending bytes with
      | Some fs => ret (fs, default bytes (decode_utf8 bytes))
      | None => throw PENDING_VERIFY_FAILED
      end
  end.

(** The protocol values of pending evidence: the checks that
    [readRecoveryPending] and [verifyPersistedPending] share. *)
Definition pending_values_ok (fs : fields) : bool :=
  strict_eq (get "pending_version" fs) (JInt 1)
  && strict_eq (get "journal_path" fs) (JStr JOURNAL_LOCATION)
  && isUtcTimestamp (get "created_at" fs)
  && match get "sha256" fs, get "serialized_batch" fs with
     | JStr digest, JStr text => hex_pattern 64 digest && String.eqb (sha256_hex text) digest
     | _, _ => false
     end.

(** [verifyPersistedPending(pendingPath, expected)] *)
Definition verifyPersistedPending (p : path) (expected : fields) : io fields :=
  do* '(actual, _) := readStrictPendingEvidence p in
  run throw_if (negb (forallb (λ f, strict_eq (get f actual) (get f expected)) PENDING_FIELDS))
    PENDING_VERIFY_FAILED in
  run throw_if (negb (pending_values_ok actual)) PENDING_VERIFY_FAILED in
  ret actual.

Record RecoveredPending := MkRecovered {
  rp_fields : fields;
  rp_entry : json;
  rp_serialized : string;
  rp_bytes : string;
}.

(** [requestIdentity(entry) === requestIdentity(request)] *)
Definition same_request (entry request : json) : res bool :=
  let* l := requestIdentity entry in
  let* r := requestIdentity request in
  Ok (String.eqb l r).

(** Does the entry of the evidence belong to the evidence, and to the request at [next]? *)
Definition evidence_revisions_ok (fs entry : fields) (request : json) (next : Z) : bool :=
  strict_eq (get "batch_id" entry) (get "batch_id" fs)
  && strict_eq (get "expected_revision" entry) (get "expected_revision" fs)
  && strict_eq (get "sequence" entry) (get "next_sequence" fs)
  && strict_eq (get "batch_id" entry) (get_of "batch_id" request)
  && strict_eq (get "expected_revision" entry) (get_of "expected_revision" request)
  && strict_eq (get "sequence" entry) (JInt next).

(** [readRecoveryPending(pendingPath, request, nextSequence, workspaceId)] *)
Definition readRecoveryPending (name : string) (request : json) (next : Z) (workspaceId : string)
    : io RecoveredPending :=
  do* '(fs, bytes) := readStrictPendingEvidence (Pending, name) in
  match get "batch_id" fs with
  | JStr batchId =>
      run throw_if (negb (strict_eq (get "workspace_id" fs) (JStr workspaceId)
          && String.eqb name (pending_name batchId) && pending_values_ok fs))
        PENDING_VERIFY_FAILED in
      match get "serialized_batch" fs with
      | JStr text =>
          match JSON_parse text with
          | Some (JObj entry) =>
              run throw_if (negb (strict_eq (get "journal_version" entry) (JInt 1)
                  && strict_eq (get "created_at" fs) (get "committed_at" entry)
                  && event_batch_ok (entry_core entry))) PENDING_VERIFY_FAILED in
              run throw_if (negb (evidence_revisions_ok fs entry request next))
                PENDING_VERIFY_FAILED in
              do* same := lift (same_request (JObj entry) request) in
              run throw_if (negb same) PENDING_VERIFY_FAILED in
              ret (MkRecovered fs (JObj entry) text bytes)
          | _ => throw PENDING_VERIFY_FAILED
          end
      | _ => throw PENDING_VERIFY_FAILED
      end
  | _ => throw PENDING_VERIFY_FAILED
  end.
End Evidence.
