(* ===== verification/EventStore.v ===== *)
(** The event store ([packages/event-store/src/journal.js], [createEventStore], and
    [projection-store.js]): replay of the journal through reducers, the source cursor and its
    continuity, the published projection, and [commit], which appends one batch under the journal
    lock, with the evidence on disk that recovery needs at every point. *)

From Stdlib Require Import ZArith Lia Ascii String.
From stdpp Require Import base tactics list gmap strings option pretty.
From S2P Require Import Prelude JsString JsDate Json JsonText JsonCanon Validator FileStore EventLock EventJournal.

(** The options of a store: who it is, its clock, its reducers and initial state, and the
    [project] callback.  A reducer is the store's own function of a type of event; it may throw. *)
Class StoreOptions := {
  workspaceId : string;
  hostId : string;
  store_clock : nat → json;
  reducers : string → option (json → json → json → res json);
  initialState : json;
  project : json → res unit;
  preflight : bool;
}.

(** ** Replay *)

Section Replay.
Context `{NumberText, Sha256, StoreOptions}.

Definition type_of_event (event : json) : string := get_str "type" event.

(** One event of a batch through its reducer, if its type has one. *)
Definition reduce_event (batch : json) (state : json) (event : json) : res json :=
  match reducers (type_of_event event) with
  | Some reducer => reducer state event batch
  | None => Ok state
  end.

Fixpoint foldR {A B} (f : B → A → res B) (b : B) (l : list A) : res B :=
  match l with
  | [] => Ok b
  | x :: l' => let* b' := f b x in foldR f b' l'
  end.

Definition reduce_batch (state batch : json) : res json :=
  foldR (reduce_event batch) state (get_array "events" batch).

(** [JSON.parse(canonicalJson(initialState))] *)
Definition initial_state : res json :=
  let* t := canonicalJson initialState in
  match JSON_parse t with Some v => Ok v | None => Err no_code end.

(** [reduceEntries(entries, reducers, initialState)] *)
Definition reduceEntries (entries : list json) : res json :=
  let* s := initial_state in foldR reduce_batch s entries.

(** [journalPrefix(text, sequence)] *)
Definition join_lines (l : list string) : string :=
  fold_right (λ line rest, line +:+ newline +:+ rest) "" l.
Definition journalPrefix (text : string) (sequence : nat) : string :=
  match sequence with O => "" | _ => join_lines (take sequence (journal_lines text)) end.

(** [entries.at(-1)?.batch_id || null] *)
Definition last_batch_id (entries : list json) : json :=
  match last entries with
  | Some e => match get_of "batch_id" e with JStr "" => JNull | v => v end
  | None => JNull
  end.

Record Cursor := MkCursor {
  c_sequence : Z;
  c_last_batch : json;
  c_journal_hash : string;
  c_projection_hash : string;
}.

Definition cursor_json (c : Cursor) : json :=
  JObj [("journalSequence", JInt (c_sequence c)); ("lastBatchId", c_last_batch c);
        ("journalHash", JStr (c_journal_hash c)); ("projectionHash", JStr (c_projection_hash c))].

(** [cursorFor(entries, text, state)] *)
Definition cursorFor (entries : list json) (text : string) (state : json) : res Cursor :=
  let* h := canonicalHash state in
  Ok (MkCursor (Z.of_nat (length entries)) (last_batch_id entries) (sha256_hex text) h).

(** [validateCursor(value)] *)
Definition validateCursor (v : json) : res Cursor :=
  match v with
  | JObj fs =>
      match get "journalSequence" fs, get "lastBatchId" fs, get "journalHash" fs,
            get "projectionHash" fs with
      | JInt n, last, JStr j, JStr p =>
          if is_safe_integer n && (0 <=? n)%Z && hex_pattern 64 j && hex_pattern 64 p
             && match last with JNull | JStr _ => true | _ => false end
          then Ok (MkCursor n last j p)
          else Err (EventStoreError "EVENT_CURSOR_INVALID")
      | _, _, _, _ => Err (EventStoreError "EVENT_CURSOR_INVALID")
      end
  | _ => Err (EventStoreError "EVENT_CURSOR_INVALID")
  end.

Inductive continuity := Initial | Unchanged | Advanced | Rewound | Diverged.

(** [continuityFor(afterCursor, entries, text, reducers, initialState, currentCursor)]; the
    canonical texts of the cursors are compared, the one given with all its fields. *)
Definition continuityFor (after : json) (entries : list json) (text : string) (current : Cursor)
    : res continuity :=
  match after with
  | JNull | JUndef => Ok Initial
  | _ =>
      let* previous := validateCursor after in
      if (c_sequence current <? c_sequence previous)%Z then Ok Rewound else
      if (c_sequence current =? c_sequence previous)%Z then
        let* eq := same (cursor_json current) after in
        Ok (if eq then Unchanged else Diverged)
      else
        let n := Z.to_nat (c_sequence previous) in
        let* state := reduceEntries (take n entries) in
        let* prefix := cursorFor (take n entries) (journalPrefix text n) state in
        let* eq := same (cursor_json prefix) after in
        Ok (if eq then Advanced else Diverged)
  end.

Record Replay := MkReplay {
  r_state : json;
  r_cursor : Cursor;
  r_continuity : continuity;
}.

(** The check of [claimedEventPrefixes]: a claimed event without a reducer is an error. *)
Definition unclaimed (prefixes : list string) (event : json) : bool :=
  match reducers (type_of_event event) with
  | Some _ => true
  | None => negb (existsb (λ p, has_prefix p (type_of_event event)) prefixes)
  end.

Definition replay_journal (j : Journal) (prefixes : list string) (after : json) : res Replay :=
  check forallb (λ batch, forallb (unclaimed prefixes) (get_array "events" batch)) (j_entries j)
    else EventStoreError "EVENT_PROJECTION_EVENT_UNSUPPORTED" in
  let* state := reduceEntries (j_entries j) in
  let* cursor := cursorFor (j_entries j) (j_text j) state in
  let* c := continuityFor after (j_entries j) (j_text j) cursor in
  Ok (MkReplay state cursor c).

(** [replay({ claimedEventPrefixes, afterCursor })] *)
Definition replay (prefixes : list string) (after : json) : io Replay :=
  do* j := readJournal journal_path in lift (replay_journal j prefixes after).

(** ** The published projection *)

Definition projection_path : path := (Projections, "state.json").

Definition projection_json (j : Journal) (r : Replay) : json :=
  JObj [("projection_version", JInt 1); ("journal_sequence", JInt (c_sequence (r_cursor r)));
        ("last_batch_id", c_last_batch (r_cursor r));
        ("journal_hash", JStr (c_journal_hash (r_cursor r))); ("data", r_state r)].

(** [JSON.parse(fs.readFileSync(target, "utf8"))] is canonically the wrapper. *)
Definition verify_projection (wrapper : json) : io unit :=
  do* bytes := read_file projection_path in
  match JSON_parse bytes with
  | None => throw no_code
  | Some reread =>
      do* eq := lift (same reread wrapper) in
      throw_if (negb eq) (EventStoreError "EVENT_PROJECTION_VERIFY_FAILED")
  end.
End Replay.

Section Store.
Context `{NumberText, Sha256, Platform, StoreOptions}.

(** [assertJournalAuthority(lock, journalPath, expectedText)] *)
Definition assertJournalAuthority (lock : LockMetadata) (expected : string) : io unit :=
  run assertJournalLockOwned lock in
  do* actual := physicalJournalText in
  throw_if (negb (String.eqb actual expected)) SOURCE_CHANGED.

(** [projectionStore.rebuild(...)] with the authority checks of [rebuildProjectionsLocked]. *)
Definition rebuildProjectionsLocked (lock : LockMetadata) (expected : string) : io Replay :=
  run assertJournalAuthority lock expected in
  do* j := readJournal journal_path in
  do* r := lift (replay_journal j [] JNull) in
  let wrapper := projection_json j r in
  do* text := lift (canonicalJson wrapper) in
  run replaceFileAtomic projection_path (text +:+ newline) (assertJournalAuthority lock expected) in
  run verify_projection wrapper in
  run assertJournalAuthority lock expected in
  ret r.

(** [preflightProjection(entry)] *)
Definition preflightProjection (entry : json) : io unit :=
  if preflight then
    do* r := replay [] JNull in
    do* _ := lift (reduce_batch (r_state r) entry) in ret tt
  else ret tt.

(** ** Commit *)

Inductive commit_status := Committed | Idempotent.

Record CommitResult := MkResult {
  cr_status : commit_status;
  cr_sequence : json;
}.

(** [{ journal_version: 1, ...core, committed_at }] *)
Definition entry_of (core : json) (committed_at : json) : json :=
  match core with
  | JObj fs => JObj (("journal_version", JInt 1) :: fs ++ [("committed_at", committed_at)])
  | _ => core
  end.

Definition pending_of (request entry : json) (serialized : string) (committed_at : json) : fields :=
  [("pending_version", JInt 1); ("workspace_id", JStr workspaceId);
   ("journal_path", JStr JOURNAL_LOCATION); ("batch_id", get_of "batch_id" request);
   ("expected_revision", get_of "expected_revision" request);
   ("next_sequence", get_of "sequence" entry); ("serialized_batch", JStr serialized);
   ("sha256", JStr (sha256_hex serialized)); ("created_at", committed_at)].

(** The evidence a commit goes by: the pending file, the entry and its line, the fields of the
    file, and the file's text when it is recovery's. *)
Record Evidence := MkEvidence {
  ev_name : string;
  ev_entry : json;
  ev_line : string;
  ev_fields : fields;
  ev_recovered : option string;
}.

(** The evidence of a new batch: read back from recovery's file, or made with the clock. *)
Definition prepare_evidence (request core : json) (next : Z) (recovery : option string)
    : io Evidence :=
  match recovery with
  | Some name =>
      do* r := readRecoveryPending name request next workspaceId in
      ret (MkEvidence name (rp_entry r) (rp_serialized r) (rp_fields r) (Some (rp_bytes r)))
  | None =>
      do* k := tick in
      run throw_if (negb (isUtcTimestamp (store_clock k))) CLOCK_INVALID in
      let entry := entry_of core (store_clock k) in
      do* line := lift (canonical_or_invalid (canonicalJson entry)) in
      ret (MkEvidence (pending_name (batch_id_of request)) entry line
             (pending_of request entry line (store_clock k)) None)
  end.

Definition write_pending (ev : Evidence) : io unit :=
  match ev_recovered ev with
  | Some _ => ret tt
  | None =>
      do* text := lift (canonical_or_invalid (canonicalJson (JObj (ev_fields ev)))) in
      replaceFileAtomic (Pending, ev_name ev) (text +:+ newline) (ret tt)
  end.

(** The tail of the reread journal is the entry, on the line that the evidence signs. *)
Definition verify_tail (ev : Evidence) : io unit :=
  do* verified := readJournal journal_path in
  do* persisted := verifyPersistedPending (Pending, ev_name ev) (ev_fields ev) in
  match last (j_entries verified), last (journal_lines (j_text verified)), get "sha256" persisted with
  | Some tail, Some line, JStr digest =>
      throw_if (negb (strict_eq (get_of "sequence" tail) (get_of "sequence" (ev_entry ev))
          && strict_eq (get_of "batch_id" tail) (get_of "batch_id" (ev_entry ev))
          && String.eqb (sha256_hex line) digest)) JOURNAL_VERIFY_FAILED
  | None, _, _ => throw TypeError
  | _, _, _ => throw JOURNAL_VERIFY_FAILED
  end.

(** The publication of a new batch: pending evidence, journal, verification, projection, and the
    removal of the evidence. *)
Definition publish (lock : LockMetadata) (journal : Journal) (ev : Evidence) : io unit :=
  run preflightProjection (ev_entry ev) in
  run write_pending ev in
  let text := j_text journal +:+ ev_line ev +:+ newline in
  run replaceFileAtomic journal_path text (assertJournalAuthority lock (j_text journal)) in
  run assertJournalAuthority lock text in
  run verify_tail ev in
  do* _ := rebuildProjectionsLocked lock text in
  run lift (project (ev_entry ev)) in
  run assertJournalAuthority lock text in
  match ev_recovered ev with
  | Some _ => ret tt
  | None => unlinkIfPresent (Pending, ev_name ev)
  end.

(** A batch the journal does not hold yet. *)
Definition commit_new (lock : LockMetadata) (journal : Journal) (request : json)
    (recovery : option string) : io (CommitResult * option (string * string)) :=
  let n := Z.of_nat (length (j_entries journal)) in
  run throw_if (negb (strict_eq (get_of "expected_revision" request) (JInt n))) REVISION_CONFLICT in
  do* core := lift (validateRequest request (n + 1)) in
  run throw_if (existsb (includes (concat (map event_ids_of (j_entries journal))))
    (event_ids_of request)) DUPLICATE_EVENT in
  do* ev := prepare_evidence request core (n + 1) recovery in
  run publish lock journal ev in
  ret (MkResult Committed (get_of "sequence" (ev_entry ev)),
       match ev_recovered ev with Some t => Some (ev_name ev, t) | None => None end).

(** A batch the journal already holds: the same request is idempotent. *)
Definition commit_existing (journal : Journal) (existing request : json) (recovery : option string)
    : io (CommitResult * option (string * string)) :=
  do* recovered :=
    match recovery with
    | None => ret None
    | Some name =>
        match get_of "sequence" existing with
        | JInt n =>
            do* r := readRecoveryPending name request n workspaceId in
            let tail := last (journal_lines (j_text journal)) in
            run throw_if (negb ((n =? Z.of_nat (length (j_entries journal)))%Z
                && match tail, get "sha256" (rp_fields r) with
                   | Some line, JStr digest =>
                       negb (String.eqb line "") && String.eqb (sha256_hex line) digest
                   | _, _ => false
                   end)) PENDING_VERIFY_FAILED in
            ret (Some (name, rp_bytes r))
        | _ => throw PENDING_VERIFY_FAILED
        end
    end in
  do* eq := lift (same_request existing request) in
  run throw_if (negb eq) BATCH_CONFLICT in
  ret (MkResult Idempotent (get_of "sequence" existing), recovered).

(** [consumeRecoveryPending(pendingPath, pendingBytes, lock)] *)
Definition consumeRecoveryPending (lock : LockMetadata) (name text : string) : io unit :=
  do* m := get_files in
  match m !! ((Pending, name) : path) with
  | None => throw PENDING_VERIFY_FAILED
  | Some bytes =>
      run throw_if (negb (String.eqb bytes text)) PENDING_VERIFY_FAILED in
      run assertJournalLockOwned lock in
      unlink (Pending, name)
  end.

(** The part of [commit] under the publication guard; the consumed evidence is returned. *)
Definition commit_guarded (lock : LockMetadata) (journal : Journal) (request : json)
    (recovery : option string) : io (CommitResult * option string) :=
  run assertNoUnresolvedPending recovery in
  run assertNoUnresolvedUserDecision in
  do* '(result, recovered) :=
    match find (λ e, strict_eq (get_of "batch_id" e) (get_of "batch_id" request))
            (j_entries journal) with
    | Some existing =>
        do* '(result, recovered) := commit_existing journal existing request recovery in
        run (match recovered with
             | Some _ => do* _ := rebuildProjectionsLocked lock (j_text journal) in ret tt
             | None => ret tt
             end) in
        ret (result, recovered)
    | None => commit_new lock journal request recovery
    end in
  match recovered with
  | Some (name, text) =>
      run consumeRecoveryPending lock name text in ret (result, Some name)
  | None => ret (result, None)
  end.

(** The primary error wins over the error of a clean-up step. *)
Definition primary {A B} (r : res A) (cleanup : res B) : res A :=
  match r, cleanup with
  | Ok a, Err e => Err e
  | _, _ => r
  end.

(** The guard is disarmed, then the lock released; a failed release has its own code. *)
Definition disarm_step (lock : LockMetadata) (guard : option path) : io unit :=
  match guard with Some p => disarmJournalLockGuard lock p | None => ret tt end.

Definition release_step {A} (lock : LockMetadata) (r : res A) : io (res A) :=
  do* released := attempt (releaseJournalLock lock) in
  ret (primary r (match released with Ok _ => Ok tt | Err _ => Err RELEASE_FAILED end)).

(** [commit(request, { recoveryPendingPath })] *)
Definition commit (request : json) (recovery : option string) : io CommitResult :=
  do* _ := lift (validateRequest request 0) in
  let target := match get_of "expected_revision" request with JInt z => z | _ => 0%Z end in
  do* lock := acquireJournalLock hostId target in
  do* opened := attempt (
    run assertNoUnresolvedUserDecision in
    do* journal := readJournal journal_path in
    do* guard := armJournalLockGuard lock in
    ret (journal, guard)) in
  do* '(r, guard) :=
    match opened with
    | Err e => ret (Err e, None)
    | Ok (journal, guard) =>
        do* r := attempt (commit_guarded lock journal request recovery) in ret (r, Some guard)
    end in
  do* disarmed := attempt (disarm_step lock guard) in
  do* r := release_step lock (primary r disarmed) in
  match r with
  | Ok (result, Some name) =>
      do* replaced := exists_file (Pending, name) in
      run throw_if replaced PENDING_VERIFY_FAILED in ret result
  | Ok (result, None) => ret result
  | Err e => throw e
  end.

(** [rebuildProjections({ beforeLockedRebuild })] *)
Definition rebuildProjections (beforeLockedRebuild : LockMetadata → io unit) : io Replay :=
  do* preliminary := readJournal journal_path in
  do* lock := acquireJournalLock hostId (Z.of_nat (length (j_entries preliminary))) in
  do* opened := attempt (
    run beforeLockedRebuild lock in
    do* journal := readJournal journal_path in
    do* guard := armJournalLockGuard lock in
    ret (journal, guard)) in
  do* '(r, guard) :=
    match opened with
    | Err e => ret (Err e, None)
    | Ok (journal, guard) =>
        do* r := attempt (rebuildProjectionsLocked lock (j_text journal)) in ret (r, Some guard)
    end in
  do* disarmed := attempt (disarm_step lock guard) in
  do* r := release_step lock (primary r disarmed) in
  lift r.
End Store.
