(* ===== verification/Recovery.v ===== *)
(** Explicit recovery of the event store ([packages/event-store/src/recovery.js],
    [diagnostics.js], and [removeDeadJournalLockTransitions] of [lock.js]): the classification of
    what a crash left behind into one action, and the application of that action.

    The digest of a snapshot is a parameter: it covers the artifacts' paths, sizes, contents and
    modification times, and the model's files have no modification times. *)

From Stdlib Require Import ZArith Lia Ascii String.
From stdpp Require Import base tactics list gmap strings option pretty.
From S2P Require Import Prelude JsString JsDate Json JsonText JsonCanon Validator FileStore EventLock EventJournal EventStore.

(** ** Texts *)

(** [bytes.toString("utf8")] and [readFileSync(path, "utf8")]: a byte sequence that is no code
    point becomes U+FFFD, once for each maximal subpart. *)
Definition REPLACEMENT : string := String "239" (String "191" (String "189" EmptyString)).

Fixpoint lossy_utf8 (s : string) : string :=
  match s with
  | EmptyString => EmptyString
  | String a s1 =>
      if (code a <? 128)%Z then String a (lossy_utf8 s1) else
      match s1 with
      | EmptyString => REPLACEMENT
      | String b s2 =>
          if utf8_two a b then String a (String b (lossy_utf8 s2)) else
          match s2 with
          | EmptyString =>
              if utf8_three a b "128" || utf8_four a b "128" "128"
              then REPLACEMENT else REPLACEMENT +:+ lossy_utf8 s1
          | String c s3 =>
              if utf8_three a b c then String a (String b (String c (lossy_utf8 s3))) else
              if utf8_three a b "128" then REPLACEMENT +:+ lossy_utf8 s2 else
              match s3 with
              | EmptyString =>
                  if utf8_four a b c "128" then REPLACEMENT
                  else if utf8_four a b "128" "128" then REPLACEMENT +:+ lossy_utf8 s2
                  else REPLACEMENT +:+ lossy_utf8 s1
              | String d s4 =>
                  if utf8_four a b c d
                  then String a (String b (String c (String d (lossy_utf8 s4))))
                  else if utf8_four a b c "128" then REPLACEMENT +:+ lossy_utf8 s3
                  else if utf8_four a b "128" "128" then REPLACEMENT +:+ lossy_utf8 s2
                  else REPLACEMENT +:+ lossy_utf8 s1
              end
          end
      end
  end.

(** [String(value)] of a parsed value. *)
Fixpoint js_text (v : json) : string :=
  match v with
  | JUndef => "undefined"
  | JNull => "null"
  | JBool b => if b then "true" else "false"
  | JInt z => pretty z
  | JNum t => t
  | JStr s => s
  | JArr l =>
      (fix join (l : list json) : string :=
         match l with
         | [] => ""
         | [x] => match x with JNull | JUndef => "" | _ => js_text x end
         | x :: l' => (match x with JNull | JUndef => "" | _ => js_text x end) +:+ "," +:+ join l'
         end) l
  | _ => "[object Object]"
  end.

(** [value || ""] as a text. *)
Definition text_or_empty (v : json) : string :=
  match v with
  | JUndef | JNull | JBool false | JInt 0 => ""
  | _ => js_text v
  end.

(** [left.subarray(0, n).equals(right)] for the prefix of [left] of [right]'s length. *)
Definition proper_prefix (p s : string) : bool := has_prefix p s && negb (String.eqb p s).

(** ** Reports *)

Inductive action :=
| NoAction | StaleLock | BlockedLock | QuarantineConflict | BlockedConflict | RestoreBackupRetry
| BlockedPending | BlockedCorruption | RetryPending | FinalizePending | RebuildProjection.
#[export] Instance action_eq_dec : EqDecision action.
Proof. solve_decision. Defined.

Inductive decision :=
| UserDecision | ExplicitLockRecovery | ManualLockRepair | ExplicitRecovery | ManualPendingRepair
| ManualRecovery.
#[export] Instance decision_eq_dec : EqDecision decision.
Proof. solve_decision. Defined.

Inductive lock_reason :=
| OwnerIncarnationChanged | DeadLocalOwner | TransitionPresent | InvalidMetadata | HostUnproven
| LiveOwner | UnprovenOwner.

Record LockReport := MkLockReport {
  lr_exists : bool;
  lr_eligible : bool;
  lr_reason : option lock_reason;
  lr_metadata : option LockMetadata;
  lr_transitions : list string;
}.

Inductive pending_kind := PendingNone | PendingBlocked | PendingConflict | PendingRetry | PendingFinalize.
#[export] Instance pending_kind_eq_dec : EqDecision pending_kind.
Proof. solve_decision. Defined.
Inductive pending_reason :=
| MultiplePending | InvalidPending | PendingMismatch | PendingHashMismatch | RevisionMismatch
| JournalHashMismatch.
#[export] Instance pending_reason_eq_dec : EqDecision pending_reason.
Proof. solve_decision. Defined.

(** What [readPending] returns; [pr_value] is the pending object with its entry. *)
Record PendingReport := MkPendingReport {
  pr_kind : pending_kind;
  pr_reason : option pending_reason;
  pr_value : option (fields * json);
}.

Record Diagnosis := MkDiagnosis {
  dg_journal : option Journal;
  dg_last_valid : nat;
  dg_corruption_line : option nat;
}.

(** The digest of the artifacts of a snapshot. *)
Class RecoveryDigest := recovery_digest : list (path * string) → string.

Section Recovery.
Context `{NumberText, Sha256, Platform, StoreOptions, RecoveryDigest}.

(** *** The lock *)

(** A transition that the lock's dead owner left. *)
Definition owned_transition (m : LockMetadata) (name : string) : io bool :=
  if negb (is_transition_name name) then ret false else
  do* t := read_transition_file (Root, name) in
  ret (String.eqb (tr_nonce t) (lm_nonce m) && (tr_pid t =? lm_pid m)%Z
       && String.eqb (tr_host t) (lm_host m)
       && bool_decide (Some (tr_incarnation t) = lm_incarnation m)).

(** [names.every(...)] *)
Fixpoint io_every {A} (f : A → io bool) (l : list A) : io bool :=
  match l with
  | [] => ret true
  | x :: l' => do* b := f x in if b then io_every f l' else ret false
  end.

Definition dead_reason (o : owner) : lock_reason :=
  match o with OwnerIncarnationMismatch => OwnerIncarnationChanged | _ => DeadLocalOwner end.

Definition no_lock : LockReport := MkLockReport false false None None [].

(** [parseLock(lockPath, hostId, ignoreOwnedLock)] *)
Definition parseLock (ignore : option LockMetadata) : io LockReport :=
  do* observed := inspectJournalLock in
  let ts := lv_transitions observed in
  let owner := classifyOwner (lv_metadata observed) hostId in
  if match ts, lv_metadata observed, ignore with
     | [], Some m, Some own => bool_decide (m = own)
     | _, _, _ => false
     end
  then ret no_lock
  else match ts with
  | _ :: _ =>
      do* all_owned :=
        match lv_metadata observed with
        | Some m =>
            if (lm_version m =? 2)%Z && bool_decide (owner ∈ [OwnerDead; OwnerIncarnationMismatch])
            then do* r := attempt (io_every (owned_transition m) ts) in
                 ret (match r with Ok b => b | Err _ => false end)
            else ret false
        | None => ret false
        end in
      ret (if all_owned
           then MkLockReport true true (Some (dead_reason owner)) (lv_metadata observed) ts
           else MkLockReport true false (Some TransitionPresent) (lv_metadata observed) ts)
  | [] =>
      ret (if negb (lv_exists observed) then no_lock else
           match lv_metadata observed with
           | None => MkLockReport true false (Some InvalidMetadata) None []
           | Some m =>
               match owner with
               | OwnerRemote => MkLockReport true false (Some HostUnproven) (Some m) []
               | OwnerLive => MkLockReport true false (Some LiveOwner) (Some m) []
               | OwnerUnproven => MkLockReport true false (Some UnprovenOwner) (Some m) []
               | _ => MkLockReport true true (Some (dead_reason owner)) (Some m) []
               end
           end)
  end.

(** *** The journal *)

(** The lines of a damaged journal that still carry their own number. *)
Fixpoint numbered_lines (index : nat) (lines : list string) : nat :=
  match lines with
  | [] => index
  | line :: lines' =>
      match JSON_parse line with
      | Some v =>
          if strict_eq (get_of "sequence" v) (JInt (Z.of_nat index + 1))
             && strict_eq (get_of "expected_revision" v) (JInt (Z.of_nat index))
          then numbered_lines (S index) lines' else index
      | None => index
      end
  end.

(** [diagnoseJournal(journalPath, readJournal)] *)
Definition diagnoseJournal (m : file_map) : Diagnosis :=
  match m !! journal_path with
  | None => MkDiagnosis (Some (MkJournal [] "")) 0 None
  | Some bytes =>
      match read_journal_bytes bytes with
      | Ok j => MkDiagnosis (Some j) (length (j_entries j)) None
      | Err _ =>
          match text ← decode_utf8 bytes; Some (parse_journal text) with
          | Some (inl (Some line)) => MkDiagnosis None (line - 1) (Some line)
          | _ =>
              let text := lossy_utf8 bytes in
              let lines := removelast (split_lines text) in
              let last := numbered_lines 0 lines in
              MkDiagnosis None last (Some (
                if Nat.ltb last (length lines) then S last
                else if ends_with_newline text then Nat.max 1 (length lines)
                else S (length lines)))
          end
      end
  end.

Definition backup_path : path := add_suffix journal_path ".bak".

(** [readBackup(journalPath, readJournal)] *)
Definition readBackup (m : file_map) : option Journal :=
  match m !! backup_path with
  | None => None
  | Some bytes => match read_journal_bytes bytes with Ok j => Some j | Err _ => None end
  end.

(** *** Pending evidence *)

(** The parsed text of [JSON.parse(pending.serialized_batch)]. *)
Definition parse_serialized (v : json) : option json :=
  match v with JObj _ | JUndef => None | _ => JSON_parse (js_text v) end.

(** The shape checks of [readPending]. *)
Definition pending_shape_ok (name : string) (pending : fields) (entry : json) : bool :=
  sameFields pending PENDING_FIELDS
  && strict_eq (get "pending_version" pending) (JInt 1)
  && strict_eq (get "workspace_id" pending) (JStr workspaceId)
  && strict_eq (get "journal_path" pending) (JStr JOURNAL_LOCATION)
  && match get "batch_id" pending with
     | JStr bid => negb (String.eqb bid "") && String.eqb name (pending_name bid)
     | _ => false
     end
  && match get "serialized_batch" pending with JStr _ => true | _ => false end
  && hex_pattern 64 (text_or_empty (get "sha256" pending))
  && match entry with
     | JObj fs =>
         strict_eq (get "journal_version" fs) (JInt 1)
         && isUtcTimestamp (get "created_at" pending)
         && strict_eq (get "created_at" pending) (get "committed_at" fs)
         && event_batch_ok (entry_core fs)
         && strict_eq (get "batch_id" fs) (get "batch_id" pending)
         && strict_eq (get "expected_revision" fs) (get "expected_revision" pending)
         && strict_eq (get "sequence" fs) (get "next_sequence" pending)
     | _ => false
     end.

Definition blocked (reason : pending_reason) (v : option (fields * json)) : PendingReport :=
  MkPendingReport PendingBlocked (Some reason) v.

(** The parsed pending file: the object and its entry. *)
Definition parse_pending_file (bytes : string) : option (fields * json) :=
  match strict_json_line bytes PENDING_VERIFY_FAILED with
  | Ok (JObj fs) => entry ← parse_serialized (get "serialized_batch" fs); Some (fs, entry)
  | _ => None
  end.

(** The line of the journal that holds a batch. *)
Definition physical_line (j : Journal) (bid : json) : option string :=
  find (λ line, match JSON_parse line with
                | Some v => strict_eq (get_of "batch_id" v) bid
                | None => false
                end) (journal_lines (j_text j)).

(** The classification of well-shaped evidence against the journal. *)
Definition classify_pending (lastValid : nat) (journal : option Journal) (pending : fields)
    (entry : json) : PendingReport :=
  let value := Some (pending, entry) in
  let existing := j ← journal;
    find (λ e, strict_eq (get_of "batch_id" e) (get "batch_id" pending)) (j_entries j) in
  let hash_valid :=
    match get "sha256" pending, get "serialized_batch" pending with
    | JStr digest, JStr text => hex_pattern 64 digest && String.eqb digest (sha256_hex text)
    | _, _ => false
    end in
  match existing, journal with
  | Some e, Some j =>
      if negb hash_valid then MkPendingReport PendingConflict (Some JournalHashMismatch) value else
      if negb (strict_eq (get_of "sequence" entry) (get_of "sequence" e)
               && match get "expected_revision" pending, get_of "sequence" e with
                  | JInt r, JInt s => (r =? s - 1)%Z
                  | _, _ => false
                  end)
      then blocked RevisionMismatch value else
      match physical_line j (get "batch_id" pending), get "sha256" pending with
      | Some line, JStr digest =>
          if negb (String.eqb line "") && String.eqb (sha256_hex line) digest
          then MkPendingReport PendingFinalize None value
          else MkPendingReport PendingConflict (Some JournalHashMismatch) value
      | _, _ => MkPendingReport PendingConflict (Some JournalHashMismatch) value
      end
  | _, _ =>
      if negb hash_valid then blocked PendingHashMismatch value else
      if strict_eq (get "expected_revision" pending) (JInt (Z.of_nat lastValid))
         && strict_eq (get_of "sequence" entry) (JInt (Z.of_nat lastValid + 1))
      then MkPendingReport PendingRetry None value
      else blocked RevisionMismatch value
  end.

(** [readPending(pendingPaths, lastValid, journal, workspaceId)] *)
Definition readPending (m : file_map) (names : list string) (lastValid : nat)
    (journal : option Journal) : PendingReport :=
  match names with
  | [] => MkPendingReport PendingNone None None
  | [name] =>
      match bytes ← m !! ((Pending, name) : path); parse_pending_file bytes with
      | None => blocked InvalidPending None
      | Some (pending, entry) =>
          if pending_shape_ok name pending entry
          then classify_pending lastValid journal pending entry
          else blocked PendingMismatch (Some (pending, entry))
      end
  | _ => blocked MultiplePending None
  end.

(** *** Quarantine *)

(** [backupMatchesBrokenJournal(journalPath, backup, pending)] *)
Definition backupMatchesBrokenJournal (m : file_map) (backup : Journal) (p : PendingReport) : bool :=
  match pr_value p, m !! journal_path with
  | Some (pending, _), Some broken =>
      match get "serialized_batch" pending, strip_prefix (j_text backup) broken with
      | JStr serialized, Some suffix =>
          negb (String.eqb suffix "") && has_prefix suffix serialized
      | _, _ => false
      end
  | _, _ => false
  end.

(** [events-<digest>.jsonl] *)
Definition quarantined_journal_name (n : string) : bool :=
  matches_rest (r ← strip_prefix "events-" n; strip_hex 64 r) [".jsonl"].

(** [matchingQuarantineJournals(stateRoot, backup, pending)]: torn copies of the journal that the
    pending batch was being appended to. *)
Definition matchingQuarantineJournals (m : file_map) (backup : Journal) (p : PendingReport)
    : res (list string) :=
  match pr_value p with
  | None => Ok []
  | Some (pending, _) =>
      if bool_decide (names_in Quarantine m = []) then Ok [] else
      match get "serialized_batch" pending with
      | JNull | JBool _ | JInt _ | JNum _ | JNonFinite => Err TypeError
      | v =>
          let expected := j_text backup +:+ js_text v +:+ newline in
          Ok (List.filter (λ n, quarantined_journal_name n &&
            match m !! ((Quarantine, n) : path) with
            | Some bytes => proper_prefix (j_text backup) bytes && proper_prefix bytes expected
            | None => false
            end) (names_in Quarantine m))
      end
  end.

(** A conflict: its digest, the evidence and where the artifacts are. *)
Record ConflictItem := MkItem {
  it_canonical : path;
  it_transition : path;
  it_quarantine : path;
  it_sha256 : string;
}.

Inductive conflict_status := InProgress | Decided.
#[export] Instance conflict_status_eq_dec : EqDecision conflict_status.
Proof. solve_decision. Defined.
#[export] Instance conflict_status_enum : JsEnum conflict_status := {|
  enum_all := [InProgress; Decided];
  enum_str s := match s with InProgress => "in_progress" | Decided => "user_decision" end;
|}.
#[export] Instance conflict_status_laws : JsEnumLaws conflict_status.
Proof. enum_laws. Qed.

Record Conflict := MkConflict {
  cf_id : string;
  cf_status : conflict_status;
  cf_journal_sha256 : string;
  cf_pending_name : string;
  cf_pending_sha256 : string;
}.

Definition conflict_json (c : Conflict) : json :=
  JObj [("conflict_version", JInt 1); ("id", JStr (cf_id c));
        ("required_user_decision", JStr "user_decision"); ("status", JStr (enum_str (cf_status c)));
        ("journal_sha256", JStr (cf_journal_sha256 c)); ("pending_name", JStr (cf_pending_name c));
        ("pending_sha256", JStr (cf_pending_sha256 c))].

Definition CONFLICT_FIELDS : list string :=
  ["conflict_version"; "id"; "journal_sha256"; "pending_name"; "pending_sha256";
   "required_user_decision"; "status"].

(** [conflictManifestPath(stateRoot, id)] *)
Definition manifest_name (id : string) : string := "conflict-" +:+ id +:+ ".json".

(** [conflictArtifactPaths(stateRoot, journalPath, value)] *)
Definition journal_item (c : Conflict) : ConflictItem :=
  MkItem journal_path (Root, JOURNAL +:+ ".conflict-" +:+ cf_id c)
    (Quarantine, "events-" +:+ cf_journal_sha256 c +:+ ".jsonl") (cf_journal_sha256 c).
Definition pending_item (c : Conflict) : ConflictItem :=
  MkItem (Pending, cf_pending_name c) (Pending, cf_pending_name c +:+ ".conflict-" +:+ cf_id c)
    (Quarantine, "pending-" +:+ cf_pending_sha256 c +:+ ".json") (cf_pending_sha256 c).

(** [<digest>.json] *)
Definition pending_file_name (n : string) : bool := matches_rest (strip_hex 64 n) [".json"].

(** The id of a conflict: the digest of its two digests. *)
Definition conflict_id (journal_sha256 pending_sha256 : string) : string :=
  sha256_hex (journal_sha256 +:+ ":" +:+ pending_sha256).

(** [strictConflictManifest(stateRoot, journalPath, manifestPath, value)] *)
Definition strictConflictManifest (name : string) (v : json) : option Conflict :=
  fs ← object_of v;
  if negb (sameFields fs CONFLICT_FIELDS && strict_eq (get "conflict_version" fs) (JInt 1)
           && strict_eq (get "required_user_decision" fs) (JStr "user_decision")) then None else
  match get "status" fs, get "pending_name" fs with
  | JStr status_text, JStr pending =>
      status ← enum_find (enum_all (A := conflict_status)) status_text;
      id ← hex_field 64 (get "id" fs);
      js ← hex_field 64 (get "journal_sha256" fs);
      ps ← hex_field 64 (get "pending_sha256" fs);
      if pending_file_name pending && String.eqb name (manifest_name id)
         && String.eqb (conflict_id js ps) id
      then Some (MkConflict id status js pending ps) else None
  | _, _ => None
  end.

(** [readConflictManifests(stateRoot, journalPath)]: the manifests by name, the invalid ones
    without a value. *)
Definition readConflictManifests (m : file_map) : list (string * option Conflict) :=
  map (λ n, (n,
      bytes ← m !! ((Quarantine, n) : path);
      match strict_json_line bytes no_code with
      | Ok v => strictConflictManifest n v
      | Err _ => None
      end))
    (List.filter conflict_manifest_name (names_in Quarantine m)).

(** Where an artifact is, compared with its evidence. *)
Inductive artifact_place := Absent | Exact | Replacement.
#[export] Instance artifact_place_eq_dec : EqDecision artifact_place.
Proof. solve_decision. Defined.
Definition state_at (m : file_map) (p : path) (expected : string) : artifact_place :=
  match m !! p with
  | None => Absent
  | Some bytes => if String.eqb bytes expected then Exact else Replacement
  end.

Inductive progress := Invalid | ArtifactsPresent | Complete | Replaced | Ready | Incomplete.
#[export] Instance progress_eq_dec : EqDecision progress.
Proof. solve_decision. Defined.

Definition evidence_of (m : file_map) (i : ConflictItem) : option string :=
  bytes ← m !! it_quarantine i;
  if String.eqb (sha256_hex bytes) (it_sha256 i) then Some bytes else None.

(** [conflictProgress(manifest)] of a manifest with a value. *)
Definition conflictProgress (m : file_map) (c : Conflict) : progress :=
  match evidence_of m (journal_item c), evidence_of m (pending_item c) with
  | Some jb, Some pb =>
      let states :=
        [(state_at m (it_canonical (journal_item c)) jb, state_at m (it_transition (journal_item c)) jb);
         (state_at m (it_canonical (pending_item c)) pb, state_at m (it_transition (pending_item c)) pb)] in
      if bool_decide (cf_status c = Decided) then
        if existsb (λ s, negb (bool_decide (s.2 = Absent))) states then ArtifactsPresent
        else Complete
      else if existsb (λ s, bool_decide (s.1 = Replacement) || bool_decide (s.2 = Replacement)) states
      then Replaced
      else if forallb (λ s, bool_decide (s = (Exact, Absent))
                || (bool_decide (s.1 = Absent) && bool_decide (s.2 ∈ [Absent; Exact]))) states
      then Ready else Incomplete
  | _, _ => Invalid
  end.

Definition VERIFY_FAILED : error := EventStoreError "RECOVERY_CONFLICT_VERIFY_FAILED".
Definition STATE_CHANGED : error := EventStoreError "RECOVERY_STATE_CHANGED".
Definition ACTION_MISMATCH : error := EventStoreError "RECOVERY_ACTION_MISMATCH".
Definition LOCK_NOT_ELIGIBLE : error := EventStoreError "RECOVERY_LOCK_NOT_ELIGIBLE".
Definition PENDING_INVALID : error := EventStoreError "RECOVERY_PENDING_INVALID".
Definition ACTION_BLOCKED : error := EventStoreError "RECOVERY_ACTION_BLOCKED".

(** [writeVerifiedEvidence(target, bytes)] *)
Definition writeVerifiedEvidence (p : path) (bytes : string) : io unit :=
  do* m := get_files in
  match m !! p with
  | Some present => throw_if (negb (String.eqb present bytes)) VERIFY_FAILED
  | None =>
      do* r := attempt (create_file p bytes) in
      match r with
      | Err _ => throw (EventStoreError "RECOVERY_CONFLICT_QUARANTINE_FAILED")
      | Ok _ =>
          do* m' := get_files in
          throw_if (negb (bool_decide (m' !! p = Some bytes))) VERIFY_FAILED
      end
  end.

(** *** Inspection *)

(** [snapshot(stateRoot, journalPath, projectionPath)]: the artifacts with their contents. *)
Definition snapshot (m : file_map) : list (path * string) :=
  omap (λ p : path, t ← m !! p; Some (p, t))
    ([journal_path; backup_path; lock_path; projection_path]
     ++ map (pair Pending) (names_in Pending m) ++ map (pair Quarantine) (names_in Quarantine m)).

Record Inspection := MkInspection {
  in_id : string;
  in_action : action;
  in_last_valid : nat;
  in_quarantine : list path;
  in_decision : option decision;
  in_artifacts : list (path * string);    (* path and sha256 *)
}.

(** What [inspect] chooses, before it is reported. *)
Record Choice := MkChoice {
  ch_action : action;
  ch_decision : option decision;
  ch_quarantine : list path;
}.

Definition journal_copy (id : string) : path := (Quarantine, "events-" +:+ id +:+ ".jsonl").
Definition pending_copy (id : string) : path := (Quarantine, "pending-" +:+ id +:+ ".json").

(** The journal is missing, and a backup is there. *)
Definition choose_resume (m : file_map) (backup : Journal) (quarantined : list string) : Choice :=
  let p := readPending m (names_in Pending m) (length (j_entries backup)) None in
  match pr_kind p, quarantined, pr_value p with
  | PendingRetry, [n], Some (pending, _) =>
      if strict_eq (get "expected_revision" pending) (JInt (Z.of_nat (length (j_entries backup))))
      then MkChoice RestoreBackupRetry (Some ExplicitRecovery) [(Quarantine, n)]
      else MkChoice BlockedCorruption (Some ManualRecovery) []
  | PendingBlocked, _, _ => MkChoice BlockedPending (Some ManualPendingRepair) []
  | _, _, _ => MkChoice BlockedCorruption (Some ManualRecovery) []
  end.

(** The journal is there and damaged. *)
Definition choose_damaged (m : file_map) (id : string) (pending : PendingReport) : Choice :=
  let backup := readBackup m in
  let p := match backup with
    | Some b => readPending m (names_in Pending m) (length (j_entries b)) None
    | None => pending
    end in
  match pr_kind p, backup, pr_value p with
  | PendingRetry, Some b, Some (fs, _) =>
      if strict_eq (get "expected_revision" fs) (JInt (Z.of_nat (length (j_entries b))))
         && backupMatchesBrokenJournal m b p
      then MkChoice RestoreBackupRetry (Some ExplicitRecovery) [journal_copy id]
      else MkChoice BlockedCorruption (Some ManualRecovery) [journal_copy id]
  | PendingBlocked, _, _ => MkChoice BlockedPending (Some ManualPendingRepair) [pending_copy id]
  | _, _, _ => MkChoice BlockedCorruption (Some ManualRecovery) [journal_copy id]
  end.

(** There is pending evidence beside a valid journal. *)
Definition choose_pending (id : string) (p : PendingReport) : Choice :=
  match pr_kind p with
  | PendingBlocked => MkChoice BlockedPending (Some ManualPendingRepair) [pending_copy id]
  | PendingConflict =>
      MkChoice (if bool_decide (pr_reason p = Some JournalHashMismatch) then QuarantineConflict
                else BlockedConflict) (Some UserDecision) [journal_copy id; pending_copy id]
  | PendingRetry => MkChoice RetryPending (Some ExplicitRecovery) []
  | PendingFinalize => MkChoice FinalizePending (Some ExplicitRecovery) []
  | PendingNone => MkChoice NoAction None []
  end.

(** Is the published projection the replay's? *)
Definition projection_current (m : file_map) (j : Journal) : bool :=
  match bytes ← m !! projection_path; JSON_parse (lossy_utf8 bytes),
        replay_journal j [] JNull with
  | Some data, Ok expected =>
      let wrapper := projection_json j expected in
      strict_eq (get_of "projection_version" data) (JInt 1)
      && strict_eq (get_of "journal_sequence" data) (get_of "journal_sequence" wrapper)
      && strict_eq (get_of "last_batch_id" data) (get_of "last_batch_id" wrapper)
      && strict_eq (get_of "journal_hash" data) (get_of "journal_hash" wrapper)
      && match same (get_of "data" data) (r_state expected) with Ok b => b | Err _ => false end
  | _, _ => false
  end.

Definition choice_inspection (id : string) (last : nat) (artifacts : list (path * string))
    (c : Choice) : Inspection :=
  MkInspection id (ch_action c) last (ch_quarantine c) (ch_decision c)
    (map (λ pt, (pt.1, sha256_hex pt.2)) artifacts).

(** The cascade of [inspect]: conflicts, the lock, the journal, pending evidence, the projection. *)
Definition choose (m : file_map) (id : string) (lock : LockReport) : res Choice :=
  let diagnosis := diagnoseJournal m in
  let names := names_in Pending m in
  let pending := readPending m names (dg_last_valid diagnosis) (dg_journal diagnosis) in
  let manifests := readConflictManifests m in
  let missing := bool_decide (m !! journal_path = None) in
  let backup := if missing then readBackup m else None in
  let* quarantined :=
    match backup with
    | Some b => matchingQuarantineJournals m b (readPending m names (length (j_entries b)) None)
    | None => Ok []
    end in
  Ok (
    if existsb conflicted_copy (names_in Root m)
    then MkChoice BlockedConflict (Some UserDecision) []
    else match manifests with
    | [(name, Some c)] =>
        MkChoice (if bool_decide (conflictProgress m c ∈ [Incomplete; Ready])
                  then QuarantineConflict else BlockedConflict) (Some UserDecision)
          [it_quarantine (journal_item c); it_quarantine (pending_item c); (Quarantine, name)]
    | _ :: _ => MkChoice BlockedConflict (Some UserDecision) []
    | [] =>
        if lr_exists lock then
          if lr_eligible lock then MkChoice StaleLock (Some ExplicitLockRecovery) []
          else MkChoice BlockedLock (Some ManualLockRepair) []
        else match backup, dg_journal diagnosis with
        | Some b, _ => choose_resume m b quarantined
        | None, None => choose_damaged m id pending
        | None, Some j =>
            if negb (bool_decide (pr_kind pending = PendingNone)) then choose_pending id pending
            else if projection_current m j then MkChoice NoAction None []
            else MkChoice RebuildProjection None []
        end
    end).

(** [inspect({ ..., ignoreOwnedLock })] *)
Definition inspect (ignore : option LockMetadata) : io Inspection :=
  do* observed := inspectJournalLock in
  let ignored :=
    match ignore, lv_transitions observed, lv_metadata observed with
    | Some own, [], Some c => bool_decide (c = own)
    | _, _, _ => false
    end in
  do* m := get_files in
  let artifacts :=
    List.filter (λ pt : path * string, negb (ignored && bool_decide (pt.1 = lock_path))) (snapshot m) in
  let id := recovery_digest artifacts in
  do* lock := parseLock ignore in
  do* c := lift (choose m id lock) in
  ret (choice_inspection id (dg_last_valid (diagnoseJournal m)) artifacts c).

(** *** Application *)

(** [removeDeadJournalLockTransitions(lock, paths)] *)
Definition UNPROVEN : error := lock_error "EVENT_LOCK_OWNERSHIP_UNPROVEN".
Fixpoint io_each {A} (f : A → io unit) (l : list A) : io unit :=
  match l with
  | [] => ret tt
  | x :: l' => run f x in io_each f l'
  end.
Definition removeDeadJournalLockTransitions (m : LockMetadata) (names : list string) : io unit :=
  let expected := sort_text names in
  run io_each (λ name,
    run throw_if (negb (is_transition_name name)) UNPROVEN in
    do* own := owned_transition m name in throw_if (negb own) UNPROVEN) expected in
  do* now := transitionPaths in
  run throw_if (negb (bool_decide (sort_text now = expected))) UNPROVEN in
  run assertJournalLockOwned m in
  io_each (λ name, unlink (Root, name)) expected.

(** [createConflictManifest(stateRoot, journalPath, inspection)] *)
Definition artifact_hash (i : Inspection) (p : path) : option string :=
  snd <$> find (λ pt, bool_decide (pt.1 = p)) (in_artifacts i).

Definition conflict_of (pending journal pendingBytes : string) : Conflict :=
  let js := sha256_hex journal in
  let ps := sha256_hex pendingBytes in
  MkConflict (conflict_id js ps) InProgress js pending ps.

Definition manifest_text (c : Conflict) : res string :=
  let* t := canonicalJson (conflict_json c) in Ok (t +:+ newline).

Definition createConflictManifest (i : Inspection) : io Conflict :=
  do* m := get_files in
  match readConflictManifests m with
  | [(_, Some c)] => ret c
  | _ :: _ => throw VERIFY_FAILED
  | [] =>
      match names_in Pending m, m !! journal_path with
      | name :: _, Some journal =>
          match m !! ((Pending, name) : path) with
          | None => throw ENOENT
          | Some pending =>
              run throw_if (negb (bool_decide (artifact_hash i journal_path = Some (sha256_hex journal))
                    && bool_decide (artifact_hash i (Pending, name) = Some (sha256_hex pending))))
                STATE_CHANGED in
              let c := conflict_of name journal pending in
              do* text := lift (manifest_text c) in
              run writeVerifiedEvidence (it_quarantine (journal_item c)) journal in
              run writeVerifiedEvidence (it_quarantine (pending_item c)) pending in
              run writeVerifiedEvidence (Quarantine, manifest_name (cf_id c)) text in
              match strictConflictManifest (manifest_name (cf_id c)) (conflict_json c) with
              | Some c => ret c
              | None => throw no_code
              end
          end
      | _, _ => throw VERIFY_FAILED
      end
  end.

(** [transitionConflictArtifact(item, ...)]: the artifacts in place still are the evidence. *)
Definition transitionConflictArtifact (i : ConflictItem) : io unit :=
  do* m := get_files in
  match m !! it_quarantine i with
  | None => throw VERIFY_FAILED
  | Some expected =>
      run throw_if (negb (String.eqb (sha256_hex expected) (it_sha256 i))) VERIFY_FAILED in
      run throw_if (bool_decide (state_at m (it_canonical i) expected = Replacement)) VERIFY_FAILED in
      throw_if (bool_decide (state_at m (it_transition i) expected = Replacement)) VERIFY_FAILED
  end.

(** [completeConflictManifest(manifest)] *)
Definition decided (c : Conflict) : Conflict :=
  MkConflict (cf_id c) Decided (cf_journal_sha256 c) (cf_pending_name c) (cf_pending_sha256 c).
Definition completeConflictManifest (c : Conflict) : io unit :=
  do* text := lift (manifest_text (decided c)) in
  run replaceFileAtomic (Quarantine, manifest_name (cf_id c)) text (ret tt) in
  do* m := get_files in
  match find (λ nc, String.eqb nc.1 (manifest_name (cf_id c))) (readConflictManifests m) with
  | Some (_, Some c') => throw_if (negb (bool_decide (cf_status c' = Decided))) VERIFY_FAILED
  | _ => throw VERIFY_FAILED
  end.

(** [fs.writeFileSync(path, bytes)] *)
Definition write_file (p : path) (text : string) : io unit :=
  do* m := get_files in run set_files (<[p := ""]> m) in set_files (<[p := text]> m).

(** [requestFromEntry(entry)] *)
Definition requestFromEntry (entry : json) : json :=
  match entry with
  | JObj fs =>
      JObj (remove_field "committed_at" (remove_field "sequence" (remove_field "journal_version" fs)))
  | _ => JObj []
  end.

(** The operator's request: who asks, for which inspection, for which action. *)
Record Input := MkInput {
  ip_operator_type : string;
  ip_operator_id : string;
  ip_recovery_id : string;
  ip_action : action;
}.

Inductive status :=
| ConflictQuarantined | LockReleased | ProjectionRebuilt | PendingCommittedRebuilt
| Retried (s : commit_status).

Record Applied := MkApplied {
  ap_status : status;
  ap_after : Inspection;
}.

Definition reported (s : status) : io Applied := do* after := inspect None in ret (MkApplied s after).

Definition quarantine_conflict (current : Inspection) : io Applied :=
  do* c := createConflictManifest current in
  do* m := get_files in
  run throw_if (bool_decide (conflictProgress m c ∈ [Invalid; Replaced])) VERIFY_FAILED in
  run (if bool_decide (conflictProgress m c ∈ [Incomplete; Ready]) then
         run transitionConflictArtifact (journal_item c) in transitionConflictArtifact (pending_item c)
       else ret tt) in
  do* m' := get_files in
  run throw_if (negb (bool_decide (conflictProgress m' c = Ready))) VERIFY_FAILED in
  run completeConflictManifest c in
  do* after := inspect None in
  run throw_if (negb (bool_decide (in_action after = BlockedConflict)
                      && bool_decide (in_decision after = Some UserDecision))) VERIFY_FAILED in
  ret (MkApplied ConflictQuarantined after).

Definition release_stale_lock : io Applied :=
  do* journal := attempt (readJournal journal_path) in
  match journal with
  | Err _ => throw LOCK_NOT_ELIGIBLE
  | Ok _ =>
      do* lock := parseLock None in
      match lr_eligible lock, lr_metadata lock with
      | true, Some metadata =>
          run (match lr_transitions lock with
               | [] => ret tt
               | ts => removeDeadJournalLockTransitions metadata ts
               end) in
          run releaseJournalLock metadata in
          reported LockReleased
      | _, _ => throw LOCK_NOT_ELIGIBLE
      end
  end.

(** The retry of the batch that pending evidence records. *)
Definition retry_pending (current : Inspection) : io CommitResult :=
  do* names := read_dir Pending in
  match names with
  | [] => throw TypeError
  | name :: _ =>
      do* journal := readJournal journal_path in
      do* m := get_files in
      let p := readPending m [name] (in_last_valid current) (Some journal) in
      let entry := match pr_value p with Some (_, e) => e | None => JUndef end in
      commit (requestFromEntry entry) (Some name)
  end.

(** The restoration of the backup over a torn or missing journal. *)
Definition restore_backup (i : Inspection) : io unit :=
  do* m := get_files in
  run (match m !! journal_path, in_quarantine i with
       | None, _ => ret tt
       | Some _, [] => throw TypeError
       | Some broken, copy :: _ =>
           run write_file copy broken in
           do* m1 := get_files in
           run throw_if (negb (bool_decide (m1 !! copy = Some broken)))
             (EventStoreError "RECOVERY_QUARANTINE_VERIFY_FAILED") in
           throw_if (negb (bool_decide (m1 !! journal_path = Some broken))) STATE_CHANGED
       end) in
  do* backup := read_file backup_path in
  run replaceFileAtomic journal_path (lossy_utf8 backup) (ret tt) in
  do* m' := get_files in
  throw_if (negb (bool_decide (m' !! journal_path = Some backup)))
    (EventStoreError "RECOVERY_BACKUP_VERIFY_FAILED").

(** The check of [apply] that the inspection still holds. *)
Definition check_input (i : Inspection) (input : Input) (current : Inspection) : res unit :=
  if negb (String.eqb (ip_recovery_id input) (in_id i) && String.eqb (in_id current) (in_id i))
  then Err STATE_CHANGED
  else if negb (bool_decide (ip_action input = in_action i)
                && bool_decide (ip_action input = in_action current))
  then Err ACTION_MISMATCH
  else Ok tt.

(** The action of [apply], on the current inspection; a restoration applies the action that is then
    due in the same call. *)
Definition perform (again : Inspection → Input → io Applied) (i : Inspection) (input : Input)
    (current : Inspection) : io Applied :=
  match ip_action input with
  | BlockedLock => throw LOCK_NOT_ELIGIBLE
  | BlockedPending => throw PENDING_INVALID
  | BlockedConflict | BlockedCorruption | NoAction => throw ACTION_BLOCKED
  | QuarantineConflict => quarantine_conflict current
  | StaleLock => release_stale_lock
  | RebuildProjection =>
      do* _ := rebuildProjections (λ lock,
        do* locked := inspect (Some lock) in
        run throw_if (negb (String.eqb (in_id locked) (in_id i))) STATE_CHANGED in
        throw_if (negb (bool_decide (in_action locked = ip_action input))) ACTION_MISMATCH) in
      reported ProjectionRebuilt
  | FinalizePending => do* _ := retry_pending current in reported PendingCommittedRebuilt
  | RetryPending => do* r := retry_pending current in reported (Retried (cr_status r))
  | RestoreBackupRetry =>
      run restore_backup i in
      do* after := inspect None in
      again after
        (MkInput (ip_operator_type input) (ip_operator_id input) (in_id after) (in_action after))
  end.

(** [apply({ inspection, input, ... })], with fuel for the applications after a restoration. *)
Fixpoint apply_within (fuel : nat) (i : Inspection) (input : Input) : io Applied :=
  match fuel with
  | O => throw no_code
  | S fuel =>
      run throw_if (negb (String.eqb (ip_operator_type input) "local_operator"
          && String.eqb (ip_operator_id input) "explicit-recovery-command"))
        (EventStoreError "RECOVERY_OPERATOR_INVALID") in
      do* current := inspect None in
      run lift (check_input i input current) in
      perform (apply_within fuel) i input current
  end.

(** A restoration is followed by at most one more application. *)
Definition recovery_fuel : nat := 2.
Definition apply : Inspection → Input → io Applied := apply_within recovery_fuel.
End Recovery.
