(* ===== verification/LockProps.v ===== *)
(** The journal lock, proved: metadata and markers read back what was written, and the sequence
    acquire, arm, disarm, release runs through on a directory without contention, leaving the
    directory as it was. *)

From Stdlib Require Import ZArith Lia Ascii String.
From stdpp Require Import base tactics list gmap strings option pretty.
From S2P Require Import Prelude JsString JsDate Json JsonText JsonCanon Validator FileStore EventLock.

(** ** Lines *)

Lemma one_line_text t : all_chars line_char t = true → one_line (t +:+ newline) = true.
Proof.
  induction t as [|c t IH]; [done|]. rewrite str_app_cons. cbn [all_chars].
  intros [Hc Ht]%andb_true_iff. unfold line_char in Hc. specialize (IH Ht).
  cbn [one_line]. rewrite Hc. destruct (t +:+ newline) eqn:E; [|done].
  apply app_empty_iff in E as [_ ?]. done.
Qed.

Lemma hex_line n s : hex_pattern n s = true → all_chars (between 33 126) s = true.
Proof.
  intros [_ H]%andb_true_iff. revert H. apply all_chars_impl. intros c.
  unfold is_hex, is_digit, between. rewrite orb_true_iff, !andb_true_iff, !Z.leb_le. lia.
Qed.

Lemma printable_utf8 s : all_chars (between 33 126) s = true → valid_utf8 s = true.
Proof. intros H%line_text_printable. by apply andb_true_iff in H as [? _]. Qed.

Lemma picture_printable p s :
  all_chars (between 33 126) p = true → picture p s = true → all_chars (between 33 126) s = true.
Proof.
  revert s. induction p as [|c p IH]; intros [|d s]; try done. cbn [all_chars picture].
  intros [Hc Hp]%andb_true_iff [Hd Hs]%andb_true_iff. rewrite (IH _ Hp Hs), andb_true_r.
  destruct (code c =? 100)%Z.
  - unfold is_digit, between in *. rewrite andb_true_iff, !Z.leb_le in *. lia.
  - apply Ascii.eqb_eq in Hd as <-. done.
Qed.

Lemma utc_printable s : isUtcTimestamp (JStr s) = true → all_chars (between 33 126) s = true.
Proof. intros [H _]%andb_true_iff. by apply (picture_printable utc_picture). Qed.

Section Lines.
Context `{NumberText}.

Lemma parse_print_line v : json_wf v = true → JSON_parse (json_line v) = Some v.
Proof.
  intros Hw. unfold JSON_parse, reader_fuel, json_line.
  rewrite (read_print v Hw); [done| |done]. rewrite str_length_app. simpl. lia.
Qed.

(** A text that starts with an ASCII character decodes to itself. *)
Lemma decode_ascii c s :
  (code c < 128)%Z → valid_utf8 (String c s) = true → decode_utf8 (String c s) = Some (String c s).
Proof.
  intros Hc Hv. unfold decode_utf8. rewrite Hv. unfold BOM. cbn [strip_prefix].
  destruct (Ascii.eqb_spec "239" c) as [<-|]; [done|]. done.
Qed.

Lemma decode_line fs :
  json_wf (JObj fs) = true →
  decode_utf8 (json_line (JObj fs)) = Some (json_line (JObj fs)) ∧
  one_line (json_line (JObj fs)) = true.
Proof.
  intros Hw%print_line. pose proof Hw as Hw'. apply andb_true_iff in Hw' as [_ Hl].
  split; [|by apply one_line_text].
  assert (valid_utf8 (json_line (JObj fs)) = true) as Hv.
  { unfold json_line. apply andb_true_iff in Hw as [Hu _]. by rewrite valid_utf8_app. }
  revert Hv. unfold json_line. cbn [print]. rewrite !str_app_cons, !str_app_nil.
  intros Hv. by apply decode_ascii.
Qed.

Lemma strict_json_line_print fs e :
  json_wf (JObj fs) = true → strict_json_line (json_line (JObj fs)) e = Ok (JObj fs).
Proof.
  intros Hw. unfold strict_json_line. destruct (decode_line fs Hw) as [-> ->].
  by rewrite parse_print_line.
Qed.

(** ** Metadata *)

Record lock_wf (m : LockMetadata) : Prop := {
  lw_version : lm_version m = 2%Z;
  lw_pid : (1 <= lm_pid m)%Z ∧ is_safe_integer (lm_pid m) = true;
  lw_host : blank (lm_host m) = false ∧ valid_utf8 (lm_host m) = true;
  lw_incarnation : ∃ i, lm_incarnation m = Some i ∧ hex_pattern 64 i = true;
  lw_nonce : hex_pattern 32 (lm_nonce m) = true;
  lw_acquired : isUtcTimestamp (JStr (lm_acquired_at m)) = true;
  lw_target : (0 <= lm_target m)%Z ∧ is_safe_integer (lm_target m) = true;
}.

Definition lock_text (m : LockMetadata) : string := json_line (lock_json m).

Lemma lock_json_wf m : lock_wf m → json_wf (lock_json m) = true.
Proof.
  intros [_ [_ Hp] [_ Hh] (i & Hi & Hix) Hn Ha [_ Ht]]. unfold lock_json. cbn [json_wf].
  apply andb_true_iff. split; [by vm_compute|]. cbn [forallb json_wf].
  rewrite Hp, Hh, Hi, Ht. cbn [default]. unfold from_option, id.
  rewrite (printable_utf8 i) by (by eapply hex_line).
  rewrite (printable_utf8 (lm_nonce m)) by (by eapply hex_line).
  rewrite (printable_utf8 (lm_acquired_at m)) by (by apply utc_printable). done.
Qed.

Lemma hex_nonempty n s : hex_pattern (S n) s = true → String.eqb s "" = false.
Proof. by destruct s. Qed.

Lemma parse_lock_text m : lock_wf m → parse_lock (lock_text m) = Ok m.
Proof.
  intros Hw. unfold parse_lock, lock_text. unfold lock_json at 1.
  rewrite strict_json_line_print by (by apply lock_json_wf). fold (lock_json m). cbn [bind].
  destruct Hw as [Hv [Hp _] [Hh _] (i & Hi & Hix) Hn Ha [Ht _]].
  unfold decode_lock, lock_json. cbn [object_of mbind option_bind get String.eqb Ascii.eqb Bool.eqb].
  unfold integer_field, nonblank_field, nonempty_field, utc_field.
  apply Z.leb_le in Hp, Ht. rewrite Hp. cbn [mbind option_bind]. rewrite Hh. cbn [mbind option_bind].
  rewrite (hex_nonempty 31 _ Hn). cbn [mbind option_bind]. rewrite Ha. cbn [mbind option_bind].
  rewrite Ht. cbn [mbind option_bind]. unfold sameFields. rewrite bool_decide_eq_true_2 by done.
  rewrite Hn. cbn [andb]. rewrite Hi. cbn [default]. unfold from_option, id, hex_field.
  rewrite Hix. cbn [mbind option_bind]. rewrite <- Hv, <- Hi. by destruct m.
Qed.

(** The transition of a marker is written and read back. *)
Record transition_wf (t : Transition) : Prop := {
  tw_pid : (1 <= tr_pid t)%Z ∧ is_safe_integer (tr_pid t) = true;
  tw_host : blank (tr_host t) = false ∧ valid_utf8 (tr_host t) = true;
  tw_incarnation : hex_pattern 64 (tr_incarnation t) = true;
  tw_nonce : hex_pattern 32 (tr_nonce t) = true;
  tw_created : isUtcTimestamp (JStr (tr_created_at t)) = true;
}.

Definition transition_text (t : Transition) : string := json_line (transition_json t).

Lemma parse_transition_text t : transition_wf t → parse_transition (transition_text t) = Ok t.
Proof.
  intros [[Hp Hps] [Hh Hhu] Hi Hn Ha].
  assert (json_wf (transition_json t) = true) as Hw.
  { unfold transition_json. cbn [json_wf]. apply andb_true_iff. split; [by vm_compute|].
    cbn [forallb json_wf]. rewrite Hps, Hhu.
    rewrite (printable_utf8 (tr_incarnation t)) by (by eapply hex_line).
    rewrite (printable_utf8 (tr_nonce t)) by (by eapply hex_line).
    rewrite (printable_utf8 (tr_created_at t)) by (by apply utc_printable).
    by destruct (tr_kind t). }
  unfold parse_transition, transition_text. unfold transition_json at 1.
  rewrite strict_json_line_print by done. cbn [bind].
  unfold decode_transition, transition_json.
  cbn [object_of mbind option_bind get String.eqb Ascii.eqb Bool.eqb].
  unfold sameFields. rewrite bool_decide_eq_true_2 by done. cbn [negb].
  rewrite enum_find_str by apply enum_all_complete. cbn [mbind option_bind].
  unfold integer_field, nonblank_field, utc_field, hex_field.
  apply Z.leb_le in Hp. rewrite Hp. cbn [mbind option_bind]. rewrite Hh. cbn [mbind option_bind].
  rewrite Hn. cbn [mbind option_bind]. rewrite Hi. cbn [mbind option_bind]. rewrite Ha.
  cbn [mbind option_bind]. by destruct t.
Qed.
End Lines.

(** ** Running under the lock *)

Section Running.
Context `{NumberText, Platform} (I : file_map → Prop).
Implicit Types (F : file_map) (n : nat) (m : LockMetadata).

Definition no_transitions F : Prop :=
  ∀ b, is_Some (F !! ((Root, b) : path)) → is_transition_name b || is_release_name b = false.

Lemma execs_transitions_none F n :
  no_transitions F → execs I transitionPaths F n (Ok []) F n.
Proof.
  intros Hno. unfold transitionPaths. eapply execs_bind; [apply execs_read_dir|].
  assert (List.filter (λ b, is_transition_name b || is_release_name b) (names_in Root F) = []) as ->;
    [|apply execs_ret].
  rewrite filter_nil_forallb, forallb_forall. intros b Hb. apply negb_true_iff, Hno.
  apply elem_of_names_in. by apply list_elem_of_In.
Qed.

Lemma execs_wait_none host F n :
  no_transitions F → execs I (waitForTransitions host) F n (Ok tt) F n.
Proof.
  intros Hno. unfold waitForTransitions.
  eapply execs_bind; [by apply execs_transitions_none|]. apply execs_ret.
Qed.

Lemma sameLockIdentity_refl m : sameLockIdentity m m = true.
Proof.
  unfold sameLockIdentity. rewrite !Z.eqb_refl, !String.eqb_refl. simpl.
  by apply bool_decide_eq_true.
Qed.

Lemma execs_read_lock F n p m :
  lock_wf m → F !! p = Some (lock_text m) → execs I (read_lock_file p) F n (Ok m) F n.
Proof.
  intros Hw Hp. unfold read_lock_file. eapply execs_bind; [by eapply execs_read_file|].
  rewrite parse_lock_text by done. apply execs_lift.
Qed.

Definition owned m F : Prop := F !! lock_path = Some (lock_text m).

Lemma execs_owned F n m :
  lock_wf m → owned m F → execs I (assertJournalLockOwned m) F n (Ok tt) F n.
Proof.
  intros Hw Ho. unfold assertJournalLockOwned.
  eapply execs_bind; [apply execs_attempt; by apply (execs_read_lock _ _ _ m)|].
  cbv beta iota. rewrite sameLockIdentity_refl. apply execs_throw_if_false.
Qed.

(** The metadata [acquireJournalLock] writes. *)
Definition acquired host target n : LockMetadata :=
  MkLock 2 process_pid host (Some process_incarnation) (random_hex 16 n)
    (iso_of_ms (wall_clock (S n))) target.

Context `{!PlatformLaws}.

Lemma acquired_wf host target n :
  blank host = false → valid_utf8 host = true → (0 <= target)%Z → is_safe_integer target = true →
  lock_wf (acquired host target n).
Proof.
  intros Hb Hu Ht Hs. destruct pid_positive as [Hp1 Hp2].
  split; simpl; try done.
  - split; [lia|done].
  - eexists. split; [done|]. apply incarnation_pattern.
  - apply (random_hex_pattern 16).
  - apply clock_text.
Qed.

Lemma no_transitions_insert F p t :
  no_transitions F → (∀ b, p = (Root, b) → is_transition_name b || is_release_name b = false) →
  no_transitions (<[p := t]> F).
Proof.
  intros Hno Hp b. destruct (decide (p = (Root, b))) as [->|Hne]; [by intros _; apply Hp|].
  rewrite lookup_insert_ne by done. apply Hno.
Qed.

Lemma execs_acquire host target F n :
  F !! lock_path = None → no_transitions F →
  I (<[lock_path := ""]> F) → I (<[lock_path := lock_text (acquired host target n)]> F) →
  execs I (acquireJournalLock host target) F n (Ok (acquired host target n))
    (<[lock_path := lock_text (acquired host target n)]> F) (S (S n)).
Proof.
  intros Hfree Hno HI1 HI2. unfold acquireJournalLock.
  eapply execs_bind; [apply execs_tick|]. eapply execs_bind; [apply execs_tick|].
  cbv zeta. fold (acquired host target n).
  eapply execs_bind; [by apply execs_wait_none|].
  eapply execs_bind; [apply execs_attempt; by apply execs_create|].
  eapply execs_bind; [apply execs_attempt, execs_wait_none|apply execs_ret].
  apply no_transitions_insert; [done|]. by intros b [= <-].
Qed.

Lemma marker_wf m kind k : lock_wf m → transition_wf (marker m kind k).
Proof.
  intros [_ Hp Hh (i & Hi & Hix) Hn _ _]. unfold marker. rewrite Hi. split; simpl; try done.
  apply clock_text.
Qed.

Lemma lock_not_publication nonce : lock_path ≠ publication_path nonce.
Proof. by unfold lock_path, publication_path. Qed.
Lemma lock_not_transition nonce : lock_path ≠ transition_path nonce.
Proof. by unfold lock_path, transition_path. Qed.
Lemma lock_not_release nonce r : lock_path ≠ release_path nonce r.
Proof. by unfold lock_path, release_path. Qed.
Lemma transition_not_release nonce r : transition_path nonce ≠ release_path nonce r.
Proof. by unfold transition_path, release_path. Qed.

(** The text of the publication marker armed at reading [n]. *)
Definition guard_text m n : string := transition_text (marker m Publication n).

Lemma execs_arm F n m :
  lock_wf m → owned m F → F !! publication_path (lm_nonce m) = None →
  I (<[publication_path (lm_nonce m) := ""]> F) →
  I (<[publication_path (lm_nonce m) := guard_text m n]> F) →
  execs I (armJournalLockGuard m) F n (Ok (publication_path (lm_nonce m)))
    (<[publication_path (lm_nonce m) := guard_text m n]> F) (S n).
Proof.
  intros Hw Ho Hfree HI1 HI2. unfold armJournalLockGuard.
  eapply execs_bind; [by apply execs_owned|]. eapply execs_bind; [apply execs_tick|].
  cbv zeta. eapply execs_bind; [apply execs_attempt; by apply execs_create|].
  eapply execs_bind; [apply execs_attempt, execs_owned; [done|]|apply execs_ret].
  unfold owned. by rewrite lookup_insert_ne by (symmetry; apply lock_not_publication).
Qed.

Lemma execs_disarm F n m k :
  lock_wf m → owned m F → F !! publication_path (lm_nonce m) = Some (guard_text m k) →
  I (delete (publication_path (lm_nonce m)) F) →
  execs I (disarmJournalLockGuard m (publication_path (lm_nonce m))) F n (Ok tt)
    (delete (publication_path (lm_nonce m)) F) n.
Proof.
  intros Hw Ho Hp HI. unfold disarmJournalLockGuard.
  eapply execs_bind; [by apply execs_owned|].
  eapply execs_bind.
  { apply execs_attempt. unfold read_transition_file.
    eapply execs_bind; [by apply execs_read_file|]. unfold guard_text.
    rewrite parse_transition_text by (by apply marker_wf). apply execs_lift. }
  cbv beta iota. rewrite bool_decide_eq_true_2 by done.
  cbn [tr_nonce marker]. rewrite String.eqb_refl. cbn [andb negb].
  eapply execs_bind; [apply execs_throw_if_false|].
  eapply execs_bind; [by apply execs_owned|].
  eapply execs_bind; [apply execs_attempt; by eapply execs_unlinkIfPresent|]. apply execs_ret.
Qed.

Lemma execs_inspect F n m :
  lock_wf m → owned m F →
  ∃ v, execs I inspectJournalLock F n (Ok v) F n ∧ holds_nonce v m = true.
Proof.
  intros Hw Ho. eexists. split.
  - unfold inspectJournalLock. eapply execs_bind;
      [apply execs_attempt; by apply (execs_read_lock _ _ _ m)|].
    eapply execs_bind; [|apply execs_ret]. unfold transitionPaths.
    eapply execs_bind; [apply execs_read_dir|apply execs_ret].
  - unfold holds_nonce. simpl. by rewrite String.eqb_refl.
Qed.

(** The states of a release. *)
Definition release_crashes m n F : Prop :=
  let mark := transition_path (lm_nonce m) in
  let moved := release_path (lm_nonce m) (random_hex 16 (S n)) in
  let F1 := <[mark := transition_text (marker m Release n)]> F in
  let F2 := <[moved := lock_text m]> (delete lock_path F1) in
  I (<[mark := ""]> F) ∧ I F1 ∧ I F2 ∧ I (delete moved F2) ∧ I (delete lock_path F).

Lemma execs_release F n m :
  lock_wf m → owned m F →
  F !! transition_path (lm_nonce m) = None →
  F !! release_path (lm_nonce m) (random_hex 16 (S n)) = None →
  release_crashes m n F →
  execs I (releaseJournalLock m) F n (Ok tt) (delete lock_path F) (S (S n)).
Proof.
  intros Hw Ho Hmark Hmoved (I1 & I2 & I3 & I4 & I5). unfold releaseJournalLock.
  set (mark := transition_path (lm_nonce m)) in *.
  set (moved := release_path (lm_nonce m) (random_hex 16 (S n))) in *.
  set (mt := transition_text (marker m Release n)) in *.
  assert (mark ≠ moved) as Hmm by apply transition_not_release.
  assert (lock_path ≠ mark) as Hlm by apply lock_not_transition.
  assert (lock_path ≠ moved) as Hlv by apply lock_not_release.
  destruct (execs_inspect F n m Hw Ho) as (v & Hv & Hn).
  eapply execs_bind; [exact Hv|]. rewrite Hn. cbn [negb].
  eapply execs_bind; [apply execs_throw_if_false|]. eapply execs_bind; [apply execs_tick|].
  cbv zeta. fold mark. fold (transition_text (marker m Release n)). fold mt.
  eapply execs_bind; [apply execs_attempt; by apply execs_create|]. cbv beta iota.
  assert (owned m (<[mark := mt]> F)) as Ho1 by (unfold owned; by rewrite lookup_insert_ne).
  destruct (execs_inspect (<[mark := mt]> F) (S n) m Hw Ho1) as (v1 & Hv1 & Hn1).
  eapply execs_bind; [exact Hv1|]. rewrite Hn1. cbn [negb].
  eapply execs_bind; [apply execs_tick|]. fold moved.
  eapply execs_bind; [apply execs_attempt; by apply execs_owned|]. cbv beta iota.
  eapply execs_bind; [apply execs_attempt; by eapply execs_rename|]. cbv beta iota.
  set (F2 := <[moved := lock_text m]> (delete lock_path (<[mark := mt]> F))) in *.
  eapply execs_bind.
  { apply execs_attempt, execs_read_lock with (m := m); [done|]. unfold F2.
    by rewrite lookup_insert_eq. }
  cbv beta iota. rewrite sameLockIdentity_refl. cbn [negb].
  eapply execs_bind; [apply execs_throw_if_false|].
  assert (delete moved F2 = delete lock_path (<[mark := mt]> F)) as HF3.
  { unfold F2. apply delete_insert_id. by rewrite lookup_delete_ne, lookup_insert_ne. }
  assert (delete mark (delete moved F2) = delete lock_path F) as HF4.
  { rewrite HF3, delete_delete. f_equal. by apply delete_insert_id. }
  eapply execs_bind.
  { apply execs_attempt. eapply execs_bind.
    - eapply execs_unlink; [|done]. unfold F2. by rewrite lookup_insert_eq.
    - eapply execs_unlinkIfPresent with (t := mt); [|by rewrite HF4].
      rewrite HF3, lookup_delete_ne, lookup_insert_eq by done. done. }
  rewrite HF4. apply execs_ret.
Qed.
End Running.
