(* ===== verification/BatchProps.v ===== *)
(** The journal's text, and batches under normalisation.

    A journal splits into the lines it was joined from, and its reader returns the entries that were
    written.  The event-batch contract, the ids of a batch and the identity of a request are the
    same for a value and for the normal form that reading back its canonical text gives. *)

From Stdlib Require Import ZArith Lia Ascii String Permutation Sorted.
From stdpp Require Import base tactics list gmap strings option pretty.
From S2P Require Import Prelude JsString JsDate Json JsonText JsonCanon Validator FileStore.
From S2P Require Import EventLock EventJournal EventStore LockProps.

(** ** Lines and text *)

Definition line_of (l : string) : bool := all_chars line_char l.

Lemma split_lines_nonempty s : split_lines s ≠ [].
Proof. destruct s as [|c s]; [done|]. simpl. destruct (code c =? 10)%Z; [done|]. by destruct (split_lines s). Qed.

Lemma split_lines_line l rest :
  line_of l = true → split_lines (l +:+ newline +:+ rest) = l :: split_lines rest.
Proof.
  induction l as [|c l IH].
  - intros _. rewrite str_app_nil. unfold newline. by rewrite str_app_cons, str_app_nil.
  - rewrite !str_app_cons. unfold line_of. cbn [all_chars]. intros [Hc Hl]%andb_true_iff.
    unfold line_char in Hc. apply negb_true_iff in Hc. cbn [split_lines]. rewrite Hc.
    by rewrite (IH Hl).
Qed.

Lemma split_join ls : forallb line_of ls = true → split_lines (join_lines ls) = ls ++ [""].
Proof.
  induction ls as [|l ls IH]; [done|]. simpl. intros [Hl Hls]%andb_true_iff.
  rewrite (split_lines_line l (join_lines ls) Hl). by rewrite (IH Hls).
Qed.

Lemma journal_lines_join ls : forallb line_of ls = true → journal_lines (join_lines ls) = ls.
Proof. intros H. unfold journal_lines. rewrite split_join by done. apply removelast_last. Qed.

Lemma join_lines_app ls ls' : join_lines (ls ++ ls') = join_lines ls +:+ join_lines ls'.
Proof.
  induction ls as [|l ls IH]; [by rewrite str_app_nil|]. simpl. by rewrite IH, !str_app_assoc.
Qed.

Lemma join_lines_snoc ls l : join_lines (ls ++ [l]) = join_lines ls +:+ l +:+ newline.
Proof. rewrite join_lines_app. cbn [join_lines fold_right]. by rewrite !str_app_nil_r. Qed.

Lemma split_lines_lines s : forallb line_of (split_lines s) = true.
Proof.
  induction s as [|c s IH]; [done|]. simpl. destruct (code c =? 10)%Z eqn:E; simpl; [done|].
  destruct (split_lines s) as [|l ls]; simpl in *.
  - unfold line_of. simpl. unfold line_char. by rewrite E.
  - unfold line_of in *. simpl. unfold line_char at 1. by rewrite E.
Qed.

(** A text that is empty or ends with a newline is its lines. *)
Lemma join_journal_lines s :
  s = "" ∨ ends_with_newline s = true → join_lines (journal_lines s) = s.
Proof.
  intros [->|Hs]; [done|]. unfold journal_lines.
  induction s as [|c s IH]; [done|]. cbn [split_lines].
  destruct (code c =? 10)%Z eqn:E.
  - assert (c = "010"%char) as ->.
    { apply Z.eqb_eq in E. rewrite <- (ascii_N_embedding c).
      assert (N_of_ascii c = 10)%N as -> by (unfold code in E; lia). done. }
    destruct s as [|d s]; [done|]. cbn [ends_with_newline] in Hs.
    assert (split_lines (String d s) ≠ []) as Hne by apply split_lines_nonempty.
    cbn [removelast]. destruct (split_lines (String d s)) eqn:E2; [done|].
    rewrite <- E2 in *. cbn [join_lines fold_right]. rewrite str_app_nil.
    fold (join_lines (removelast (split_lines (String d s)))). rewrite IH by done. done.
  - destruct s as [|d s]; [simpl in Hs; congruence|]. cbn [ends_with_newline] in Hs.
    specialize (IH Hs). destruct (split_lines (String d s)) as [|l ls] eqn:E2;
      [by apply split_lines_nonempty in E2|].
    destruct ls as [|l' ls].
    + cbn [removelast join_lines fold_right] in IH. done.
    + change (removelast (String c l :: l' :: ls)) with (String c l :: removelast (l' :: ls)).
      change (removelast (l :: l' :: ls)) with (l :: removelast (l' :: ls)) in IH.
      cbn [join_lines fold_right] in *. rewrite !str_app_cons. by rewrite IH.
Qed.

Lemma journal_lines_line_of s : forallb line_of (journal_lines s) = true.
Proof.
  unfold journal_lines. pose proof (split_lines_lines s) as H. revert H.
  generalize (split_lines s). intros ls. induction ls as [|l ls IH]; [done|].
  simpl. intros [Hl Hls]%andb_true_iff. destruct ls; [done|]. simpl in *.
  by rewrite Hl, (IH Hls).
Qed.

Lemma ends_join ls : ls ≠ [] → ends_with_newline (join_lines ls) = true.
Proof.
  intros Hne. destruct (exists_last Hne) as (ls' & l & ->). rewrite join_lines_snoc.
  rewrite <- str_app_assoc. generalize (join_lines ls' +:+ l). intros s.
  induction s as [|c s IH]; [done|]. rewrite str_app_cons. cbn [ends_with_newline].
  destruct (s +:+ newline) eqn:E; [|done]. by apply app_empty_iff in E as [_ ?].
Qed.

Lemma join_lines_empty ls : join_lines ls = "" → ls = [].
Proof. destruct ls as [|l ls]; [done|]. simpl. intros [_ [? _]%app_empty_iff]%app_empty_iff. done. Qed.

(** ** The reader *)

Section Reader.
Context `{NumberText}.

(** The ids of a list of entries. *)
Definition batch_ids (es : list json) : list string := map batch_id_of es.
Definition event_ids (es : list json) : list string := concat (map event_ids_of es).

(** A line that is accepted at [index] after the ids of [batches] and [events]. *)
Definition entry_ok (index : nat) (batches events : list string) (e : json) : Prop :=
  ∃ fs, e = JObj fs ∧ wrapper_ok index fs = true ∧ event_batch_ok (entry_core fs) = true
    ∧ (batch_id_of e ∉ batches) ∧ (∀ i, i ∈ event_ids_of e → i ∉ events)
    ∧ NoDup (event_ids_of e).

Lemma read_entry_ok index B E line e :
  line ≠ "" → JSON_parse line = Some e → entry_ok index B E e → read_entry index B E line = Some e.
Proof.
  intros Hne Hp (fs & -> & Hw & Hb & HB & HE & Hnd). unfold read_entry.
  destruct (String.eqb_spec line ""); [done|]. rewrite Hp, Hw, Hb.
  apply includes_false in HB. rewrite HB. cbn [negb andb].
  rewrite bool_decide_eq_true_2 by done.
  destruct (existsb (includes E) _) eqn:Ex; [|done].
  apply existsb_exists in Ex as (i & Hi & Hin). apply includes_true in Hin.
  by destruct (HE i); [by apply list_elem_of_In|].
Qed.

Lemma read_entry_inv index B E line e :
  read_entry index B E line = Some e →
  line ≠ "" ∧ JSON_parse line = Some e ∧ entry_ok index B E e.
Proof.
  unfold read_entry. destruct (String.eqb_spec line ""); [done|].
  destruct (JSON_parse line) as [[]|] eqn:Hp; try done.
  destruct (_ && _) eqn:Ec; [|done]. intros [= <-]. split_bools.
  split_and!; [done..|]. eexists. split_and!; [done..| | |done].
  - by apply includes_false.
  - intros i Hi Hin. rewrite <- not_true_iff_false in *.
    match goal with H : existsb _ _ ≠ true |- _ => apply H end.
    apply existsb_exists. exists i. split; [by apply list_elem_of_In|by apply includes_true].
Qed.

Lemma entry_ok_ext index B E B' E' e :
  (∀ x, x ∈ B ↔ x ∈ B') → (∀ x, x ∈ E ↔ x ∈ E') → entry_ok index B E e → entry_ok index B' E' e.
Proof.
  intros HB HE (fs & -> & Hw & Hb & H1 & H2 & H3). exists fs. split_and!; try done.
  - by rewrite <- HB.
  - intros i Hi. rewrite <- HE. auto.
Qed.

(** The entries of a valid journal: each is accepted after the ids of those before it. *)
Definition entries_ok (index : nat) (B E : list string) (es : list json) : Prop :=
  ∀ i e, es !! i = Some e →
    entry_ok (index + i) (batch_ids (take i es) ++ B) (event_ids (take i es) ++ E) e.

(** Moving an entry from the entries read to the ids seen. *)
Lemma seen_swap_batches e es B x :
  x ∈ batch_ids (e :: es) ++ B ↔ x ∈ batch_ids es ++ batch_id_of e :: B.
Proof. unfold batch_ids. simpl. rewrite !elem_of_cons, !elem_of_app, elem_of_cons. tauto. Qed.
Lemma seen_swap_events e es E x :
  x ∈ event_ids (e :: es) ++ E ↔ x ∈ event_ids es ++ event_ids_of e ++ E.
Proof. unfold event_ids. simpl. rewrite !elem_of_app. tauto. Qed.

Lemma read_lines_ok index B E ls es :
  Forall2 (λ l e, l ≠ "" ∧ JSON_parse l = Some e) ls es → entries_ok index B E es →
  read_lines index B E ls = inr es.
Proof.
  intros HF. revert index B E. induction HF as [|l e ls es [Hne Hp] HF IH]; intros index B E Hok;
    [done|]. cbn [read_lines].
  rewrite (read_entry_ok index B E l e Hne Hp).
  2:{ pose proof (Hok 0 e eq_refl) as H0. by rewrite Nat.add_0_r in H0. }
  rewrite IH; [done|]. intros i e' Hi. pose proof (Hok (S i) e' Hi) as H0.
  rewrite Nat.add_succ_r in H0. revert H0. apply entry_ok_ext; intros x;
    apply seen_swap_batches || apply seen_swap_events.
Qed.

Lemma read_lines_inv index B E ls es :
  read_lines index B E ls = inr es →
  Forall2 (λ l e, l ≠ "" ∧ JSON_parse l = Some e) ls es ∧ entries_ok index B E es.
Proof.
  revert index B E es. induction ls as [|l ls IH]; intros index B E es; cbn [read_lines].
  - intros [= <-]. split; [constructor|]. by intros i e.
  - destruct (read_entry index B E l) as [e|] eqn:He; [|done].
    destruct (read_lines _ _ _ ls) as [|es'] eqn:Hls; [done|]. intros [= <-].
    apply IH in Hls as [HF Hok]. apply read_entry_inv in He as (Hne & Hp & He).
    split; [by constructor|]. intros [|i] e' Hi.
    + injection Hi as <-. by rewrite Nat.add_0_r.
    + specialize (Hok i e' Hi). rewrite Nat.add_succ_r. revert Hok.
      apply entry_ok_ext; intros x; symmetry;
        apply seen_swap_batches || apply seen_swap_events.
Qed.

(** *** Valid journals *)

(** [text] is the text of a journal with the entries [es]. *)
Definition journal_of (text : string) (es : list json) : Prop :=
  parse_journal text = inr es.

Lemma journal_of_iff text es :
  journal_of text es ↔
  (text = "" ∨ ends_with_newline text = true) ∧
  Forall2 (λ l e, l ≠ "" ∧ JSON_parse l = Some e) (journal_lines text) es ∧ entries_ok 0 [] [] es.
Proof.
  unfold journal_of, parse_journal. destruct (String.eqb_spec text "") as [->|Hne].
  - split.
    + intros [= <-]. split_and!; [by left|constructor|by intros i e].
    + intros (_ & HF & _). by inversion HF.
  - destruct (ends_with_newline text) eqn:Hend; cbn [negb].
    + destruct (read_lines 0 [] [] (journal_lines text)) as [k|es'] eqn:Hr.
      * split; [done|]. intros (_ & HF & Hok).
        by rewrite (read_lines_ok _ _ _ _ _ HF Hok) in Hr.
      * split.
        -- intros [= <-]. apply read_lines_inv in Hr as [HF Hok]. split_and!; [by right|done..].
        -- intros (_ & HF & Hok). rewrite (read_lines_ok _ _ _ _ _ HF Hok) in Hr. congruence.
    + split; [done|]. intros ([?|?] & _); done.
Qed.

(** Appending a line that reads to an accepted entry appends that entry. *)
Lemma journal_append text es line e :
  journal_of text es → line_of line = true → line ≠ "" → JSON_parse line = Some e →
  entry_ok (length es) (batch_ids es) (event_ids es) e →
  journal_of (text +:+ line +:+ newline) (es ++ [e]) ∧
  journal_lines (text +:+ line +:+ newline) = journal_lines text ++ [line].
Proof.
  rewrite journal_of_iff. intros (Ht & HF & Hok) Hl Hne Hp He.
  set (ls := journal_lines text) in *.
  assert (text +:+ line +:+ newline = join_lines (ls ++ [line])) as Htext.
  { unfold ls. by rewrite join_lines_snoc, (join_journal_lines text Ht). }
  assert (forallb line_of (ls ++ [line]) = true) as Hlines.
  { rewrite forallb_app. unfold ls. rewrite journal_lines_line_of. simpl. by rewrite Hl. }
  rewrite Htext, journal_lines_join by done. split; [|done].
  rewrite journal_of_iff, journal_lines_join by done. split_and!.
  - right. apply ends_join. by destruct ls.
  - apply Forall2_app; [done|]. by constructor.
  - intros i e' Hi. apply lookup_app_Some in Hi as [Hi|[Hlen Hi]].
    + rewrite take_app_le by (by apply lookup_lt_Some in Hi; lia). by apply Hok.
    + destruct (i - length es) as [|k] eqn:Ek; [|done]. injection Hi as <-.
      assert (i = length es) as -> by lia. rewrite take_app_length, !app_nil_r. done.
Qed.
End Reader.

(** * Batches *)

(** [gs] holds the normal forms of the fields of [fs]. *)
Definition fields_canon (fs gs : fields) : Prop :=
  (∀ k, get k gs = canon (get k fs)) ∧ Permutation (keys gs) (keys fs).

Lemma fields_canon_own fs gs k : fields_canon fs gs → has_own gs k = has_own fs k.
Proof.
  intros [_ Hk]. unfold has_own, includes. apply bool_decide_ext. fold (keys gs) (keys fs).
  by rewrite Hk.
Qed.

Lemma canon_fields_canon fs :
  NoDup (keys fs) → fields_canon fs (map canon_field (isort field_leb fs)).
Proof.
  intros Hnd. split.
  - intros k. apply get_canon; [done|apply canon_object].
  - rewrite keys_canon_fields. unfold keys. by rewrite isort_Permutation.
Qed.

Section Wf.
Context `{NumberText}.

Lemma json_wf_fields fs :
  json_wf (JObj fs) = true → NoDup (keys fs) ∧
  ∀ k v, (k, v) ∈ fs → valid_utf8 k = true ∧ json_wf v = true.
Proof.
  cbn [json_wf]. intros [Hnd Hw]%andb_true_iff. apply bool_decide_eq_true in Hnd.
  split; [done|]. intros k v Hin. rewrite forallb_forall in Hw.
  apply list_elem_of_In in Hin. specialize (Hw _ Hin). simpl in Hw. by apply andb_true_iff in Hw.
Qed.

Lemma json_wf_get k fs : json_wf (JObj fs) = true → get k fs = JUndef ∨ json_wf (get k fs) = true.
Proof.
  intros [Hnd Hw]%json_wf_fields. destruct (decide (k ∈ keys fs)) as [Hk|Hk].
  - unfold keys in Hk. apply list_elem_of_fmap in Hk as ([k' v] & -> & Hin). simpl.
    rewrite (get_elem_of _ _ _ Hnd Hin). right. by apply Hw in Hin as [_ ?].
  - left. by apply get_absent.
Qed.

Lemma json_wf_array l : json_wf (JArr l) = true → Forall (λ v, json_wf v = true) l.
Proof.
  cbn [json_wf]. rewrite forallb_forall, Forall_forall. intros Hl v Hv. apply Hl.
  by apply list_elem_of_In.
Qed.

Lemma get_array_wf k v : json_wf v = true → Forall (λ v, json_wf v = true) (get_array k v).
Proof.
  destruct v; intros Hw; try constructor. unfold get_array.
  destruct (json_wf_get k _ Hw) as [E|E]; [rewrite E; constructor|].
  destruct (get k _); try (by constructor). exact (json_wf_array _ E).
Qed.

Lemma get_of_canon k v : json_wf v = true → get_of k (canon v) = canon (get_of k v).
Proof.
  destruct v; try done. intros [Hnd _]%json_wf_fields. unfold get_of. rewrite canon_object.
  apply get_canon; [done|apply canon_object].
Qed.

Lemma get_str_of k v : get_str k v = match get_of k v with JStr s => s | _ => "" end.
Proof. by destruct v. Qed.
Lemma get_array_of k v : get_array k v = match get_of k v with JArr l => l | _ => [] end.
Proof. by destruct v. Qed.

Lemma get_str_canon k v : json_wf v = true → get_str k (canon v) = get_str k v.
Proof.
  intros Hw. rewrite !get_str_of, (get_of_canon k v Hw). by destruct (get_of k v).
Qed.

Lemma get_array_canon k v : json_wf v = true → get_array k (canon v) = map canon (get_array k v).
Proof.
  intros Hw. rewrite !get_array_of, (get_of_canon k v Hw). by destruct (get_of k v).
Qed.

Lemma batch_id_canon v : json_wf v = true → batch_id_of (canon v) = batch_id_of v.
Proof. apply get_str_canon. Qed.

Lemma event_ids_canon v : json_wf v = true → event_ids_of (canon v) = event_ids_of v.
Proof.
  intros Hw. unfold event_ids_of. rewrite get_array_canon, map_map by done.
  pose proof (get_array_wf "events" v Hw) as Hl. induction Hl as [|e l He _ IH]; [done|].
  simpl. by rewrite IH, get_str_canon.
Qed.

(** *** The contract *)

Lemma text_of_canon v : text_of (canon v) = text_of v.
Proof. by destruct v. Qed.
Lemma integer_of_canon n v : integer_of n (canon v) = integer_of n v.
Proof. by destruct v. Qed.
Lemma object_of_canon v : is_Some (object_of v) → is_Some (object_of (canon v)).
Proof. by destruct v; intros []. Qed.
Lemma array_of_canon v : array_of (canon v) = map canon <$> array_of v.
Proof. by destruct v. Qed.

Lemma exact_object_canon r fs gs fs' :
  fields_canon fs gs → exact_object r (JObj fs) = Some fs' →
  fs' = fs ∧ exact_object r (JObj gs) = Some gs.
Proof.
  intros Hc. unfold exact_object. cbn [object_of mbind option_bind].
  destruct (_ && _) eqn:E; [|done]. intros [= <-]. split; [done|].
  apply andb_true_iff in E as [E1 E2].
  assert (forallb (has_own gs) r = true) as ->.
  { erewrite forallb_ext'; [exact E1|]. intros k. by apply fields_canon_own. }
  assert (forallb (includes r) (keys gs) = true) as ->; [|done].
  rewrite forallb_forall in *. intros k Hk. apply E2. destruct Hc as [_ Hp].
  apply list_elem_of_In. rewrite <- Hp. by apply list_elem_of_In.
Qed.

Lemma mapM_text_canon l : mapM text_of (map canon l) = mapM text_of l.
Proof. induction l as [|v l IH]; [done|]. simpl. by rewrite text_of_canon, IH. Qed.

Lemma decode_event_canon v :
  json_wf v = true → is_Some (decode_event v) → is_Some (decode_event (canon v)).
Proof.
  destruct v; try (by intros _ []). intros Hw [e He]. rewrite canon_object.
  apply json_wf_fields in Hw as [Hnd _].
  pose proof (canon_fields_canon _ Hnd) as Hc. set (gs := map canon_field _) in *.
  unfold decode_event in *.
  destruct (exact_object _ (JObj fields)) as [fs'|] eqn:Ex; [|done].
  destruct (exact_object_canon _ _ _ _ Hc Ex) as [-> ->]. cbn [mbind option_bind] in *.
  destruct Hc as [Hg _]. rewrite !Hg, !text_of_canon, integer_of_canon, array_of_canon.
  destruct (text_of (get "event_id" fields)); [|done]. cbn [mbind option_bind] in *.
  destruct (integer_of 1 (get "schema_version" fields)); [|done]. cbn [mbind option_bind] in *.
  destruct (text_of (get "type" fields)); [|done]. cbn [mbind option_bind] in *.
  destruct (object_of (get "payload" fields)) eqn:Eo; [|done]. cbn [mbind option_bind] in *.
  destruct (object_of_canon (get "payload" fields)) as [o ->]; [by eexists|].
  destruct (array_of (get "evidence_refs" fields)); [|done].
  cbn [mbind option_bind fmap option_fmap option_map] in *.
  rewrite mapM_text_canon. destruct (mapM text_of _); [by eexists|done].
Qed.

Lemma mapM_event_canon l :
  Forall (λ v, json_wf v = true) l → is_Some (mapM decode_event l) →
  is_Some (mapM decode_event (map canon l)).
Proof.
  rewrite !mapM_is_Some, Forall_map. intros Hw Hl.
  induction Hl; inversion Hw; subst; constructor; auto. by apply decode_event_canon.
Qed.

Lemma decode_batch_canon fs gs :
  json_wf (JObj fs) = true → fields_canon fs gs →
  is_Some (decode_batch (JObj fs)) → is_Some (decode_batch (JObj gs)).
Proof.
  intros Hw Hc [b Hb]. unfold decode_batch in *.
  destruct (exact_object _ (JObj fs)) as [fs'|] eqn:Ex; [|done].
  destruct (exact_object_canon _ _ _ _ Hc Ex) as [-> ->]. cbn [mbind option_bind] in *.
  destruct Hc as [Hg _]. rewrite !Hg, !text_of_canon, !integer_of_canon, array_of_canon.
  destruct (integer_of 0 (get "sequence" fs)); [|done]. cbn [mbind option_bind] in *.
  destruct (integer_of 0 (get "expected_revision" fs)); [|done]. cbn [mbind option_bind] in *.
  destruct (text_of (get "batch_id" fs)); [|done]. cbn [mbind option_bind] in *.
  destruct (exact_object _ (get "actor" fs)) as [actor|] eqn:Ea; [|done].
  assert (∃ ga, exact_object ["type"; "id"] (canon (get "actor" fs)) = Some ga ∧
    fields_canon actor ga) as (ga & -> & [Hga _]).
  { destruct (json_wf_get "actor" fs Hw) as [E|E]; [rewrite E in Ea; done|].
    destruct (get "actor" fs) as [| | | | | | | |af|] eqn:Eg; try done.
    pose proof (proj1 (json_wf_fields _ E)) as Hnd. rewrite canon_object.
    pose proof (canon_fields_canon _ Hnd) as Hca.
    destruct (exact_object_canon _ _ _ _ Hca Ea) as [-> Hx]. by eexists. }
  cbn [mbind option_bind] in *. rewrite !Hga, text_of_canon.
  destruct (get "type" actor); try done. cbn [canon mbind option_bind] in *.
  destruct (enum_find _ _); [|done]. cbn [mbind option_bind] in *.
  destruct (text_of (get "id" actor)); [|done]. cbn [mbind option_bind] in *.
  destruct (text_of (get "correlation_id" fs)); [|done]. cbn [mbind option_bind] in *.
  destruct (array_of (get "events" fs)) as [items|] eqn:Ei; [|done].
  cbn [mbind option_bind fmap option_fmap option_map] in *.
  assert (Forall (λ v, json_wf v = true) items) as Hitems.
  { destruct (json_wf_get "events" fs Hw) as [E|E]; [rewrite E in Ei; done|].
    destruct (get "events" fs); try done. injection Ei as <-. by apply json_wf_array. }
  destruct (mapM decode_event items) as [es|] eqn:Em; [|done].
  destruct (mapM_event_canon items Hitems) as [es' Hes']; [by eexists|].
  rewrite Hes'. cbn [mbind option_bind] in *. destruct es as [|e es]; [done|].
  destruct items as [|it items]; [done|]. cbn [map] in Hes'.
  pose proof (Forall2_length _ _ _ (mapM_Some_1 _ _ _ Hes')) as Hl. by destruct es'.
Qed.

Lemma event_batch_ok_canon fs gs :
  json_wf (JObj fs) = true → fields_canon fs gs →
  event_batch_ok (JObj fs) = true → event_batch_ok (JObj gs) = true.
Proof.
  intros Hw Hc Hok. apply event_batch_is_Some. apply event_batch_is_Some in Hok.
  by apply (decode_batch_canon fs).
Qed.
End Wf.

(** ** The entry of a request *)

Lemma has_own_false_get k fs : has_own fs k = false → k ∉ keys fs.
Proof. unfold has_own. apply includes_false. Qed.

Lemma get_app k fs gs : k ∉ keys fs → get k (fs ++ gs) = get k gs.
Proof.
  induction fs as [|[k' v] fs IH]; [done|]. simpl. intros [Hne Hk]%not_elem_of_cons.
  destruct (String.eqb_spec k k'); [done|]. auto.
Qed.

Lemma get_app_l k fs gs : k ∈ keys fs → get k (fs ++ gs) = get k fs.
Proof.
  induction fs as [|[k' v] fs IH]; [by intros ?%not_elem_of_nil|]. simpl.
  intros [->|Hk]%elem_of_cons; [by rewrite String.eqb_refl|].
  destruct (String.eqb k k'); [done|]. auto.
Qed.

Lemma get_remove k k' fs : get k (remove_field k' fs) = if String.eqb k k' then JUndef else get k fs.
Proof.
  unfold remove_field. induction fs as [|[k2 v] fs IH]; simpl; [by destruct (String.eqb k k')|].
  destruct (String.eqb_spec k2 k') as [->|Hne]; simpl.
  - rewrite IH. by destruct (String.eqb k k').
  - rewrite IH. destruct (String.eqb_spec k k2) as [->|]; [|done].
    by destruct (String.eqb_spec k2 k').
Qed.

Lemma keys_remove k fs : keys (remove_field k fs) = List.filter (λ k', negb (String.eqb k' k)) (keys fs).
Proof.
  unfold remove_field, keys. induction fs as [|[k' v] fs IH]; [done|]. simpl.
  destruct (negb (String.eqb k' k)); simpl; by rewrite IH.
Qed.

Lemma filter_Permutation {A} (p : A → bool) l l' :
  Permutation l l' → Permutation (List.filter p l) (List.filter p l').
Proof.
  induction 1 as [| x | x y | ]; simpl; [done| | |by etrans];
    repeat destruct (p _); try done; by constructor.
Qed.

Lemma filter_all {A} (p : A → bool) l : (∀ x, x ∈ l → p x = true) → List.filter p l = l.
Proof.
  induction l as [|x l IH]; intros Hp; [done|]. simpl. rewrite (Hp x) by left.
  rewrite IH; [done|]. intros y Hy. apply Hp. by right.
Qed.

Section Entry.
Context `{NumberText, Sha256}.

(** What a valid request is. *)
Record request_ok (request : json) (next : Z) (core : json) (fs : fields) : Prop := {
  rq_object : request = JObj fs;
  rq_sequence : "sequence" ∉ keys fs;
  rq_version : "journal_version" ∉ keys fs;
  rq_committed : "committed_at" ∉ keys fs;
  rq_core : core = JObj (fs ++ [("sequence", JInt next)]);
  rq_batch : event_batch_ok core = true;
  rq_events : NoDup (event_ids_of request);
}.

Lemma validateRequest_Ok request next core :
  validateRequest request next = Ok core → ∃ fs, request_ok request next core fs.
Proof.
  destruct request as [| | | | | | | |fs|]; try done. cbn [validateRequest].
  destruct (_ || _) eqn:Eo; [done|]. destruct (event_batch_ok _) eqn:Eb; [|done].
  destruct (bool_decide _) eqn:Ed; [|done]. intros [= <-].
  apply orb_false_iff in Eo as [Eo E3]. apply orb_false_iff in Eo as [E1 E2].
  apply has_own_false_get in E1, E2, E3. apply bool_decide_eq_true in Ed.
  assert (set_sequence next fs = JObj (fs ++ [("sequence", JInt next)])) as Hs.
  { unfold set_sequence. by rewrite set_field_fresh. }
  exists fs. by split.
Qed.

Definition entry_fields (fs : fields) (next : Z) (at_ : string) : fields :=
  ("journal_version", JInt 1) :: (fs ++ [("sequence", JInt next)]) ++ [("committed_at", JStr at_)].

Section OfRequest.
Context (request : json) (n : nat) (core : json) (fs : fields) (at_ : string).
Local Abbreviation next := (Z.of_nat n + 1)%Z.
Hypothesis Hrq : request_ok request next core fs.
Hypothesis Hwf : json_wf request = true.
Hypothesis Hsafe : is_safe_integer next = true.
Hypothesis Hclock : isUtcTimestamp (JStr at_) = true.

Local Abbreviation entry := (entry_of core (JStr at_)).

Lemma entry_object : entry = JObj (entry_fields fs next at_).
Proof. destruct Hrq as [_ _ _ _ -> _ _]. done. Qed.

Lemma fs_wf : NoDup (keys fs) ∧ ∀ k v, (k, v) ∈ fs → valid_utf8 k = true ∧ json_wf v = true.
Proof. destruct Hrq as [-> _ _ _ _ _ _]. by apply json_wf_fields. Qed.

Lemma entry_wf : json_wf entry = true.
Proof.
  rewrite entry_object. destruct fs_wf as [Hnd Hall]. destruct Hrq as [_ H1 H2 H3 _ _ _].
  cbn [json_wf]. apply andb_true_iff. split.
  - apply bool_decide_eq_true. unfold entry_fields, keys in *. simpl.
    rewrite !map_app. simpl. apply NoDup_cons. split.
    { rewrite !elem_of_app, !list_elem_of_singleton. naive_solver. }
    apply NoDup_app. split_and!.
    + apply NoDup_app. split_and!; [done| |apply NoDup_singleton].
      intros k Hk ->%list_elem_of_singleton. done.
    + intros k Hk ->%list_elem_of_singleton. rewrite elem_of_app, list_elem_of_singleton in Hk.
      naive_solver.
    + apply NoDup_singleton.
  - unfold entry_fields. cbn [forallb]. rewrite !forallb_app. cbn [forallb json_wf].
    rewrite Hsafe. rewrite (printable_utf8 at_) by (by apply utc_printable).
    cbn. rewrite !andb_true_r. apply forallb_forall. intros [k v] Hin.
    apply list_elem_of_In in Hin. destruct (Hall k v Hin) as [-> ->]. done.
Qed.

Lemma entry_keys_nodup : NoDup (keys (entry_fields fs next at_)).
Proof.
  pose proof entry_wf as Hw. rewrite entry_object in Hw. by apply json_wf_fields in Hw as [? _].
Qed.

Lemma entry_get k :
  get k (entry_fields fs next at_) =
    if String.eqb k "journal_version" then JInt 1
    else if String.eqb k "committed_at" then JStr at_
    else if String.eqb k "sequence" then JInt next
    else get k fs.
Proof.
  destruct Hrq as [_ H1 H2 H3 _ _ _]. unfold entry_fields. cbn [get].
  destruct (String.eqb_spec k "journal_version") as [->|Hv]; [done|].
  rewrite <- app_assoc. destruct (decide (k ∈ keys fs)) as [Hk|Hk].
  - rewrite get_app_l by done.
    destruct (String.eqb_spec k "committed_at") as [->|]; [done|].
    by destruct (String.eqb_spec k "sequence") as [->|].
  - rewrite get_app by done. cbn [app get].
    destruct (String.eqb_spec k "committed_at") as [->|]; [done|].
    destruct (String.eqb_spec k "sequence") as [->|]; [done|].
    by rewrite (get_absent k fs).
Qed.

(** The normal form of the entry. *)
Definition entry_canon : fields := map canon_field (isort field_leb (entry_fields fs next at_)).

Lemma canon_entry : canon entry = JObj entry_canon.
Proof. by rewrite entry_object, canon_object. Qed.

Lemma entry_canon_get k : get k entry_canon = canon (get k (entry_fields fs next at_)).
Proof.
  apply get_canon; [apply entry_keys_nodup|apply canon_object].
Qed.

Lemma entry_core_canon :
  event_batch_ok (entry_core entry_canon) = true.
Proof.
  pose proof Hrq as [_ H1 H2 H3 Hc Hb _]. rewrite Hc in Hb.
  unfold entry_core. eapply (event_batch_ok_canon (fs ++ [("sequence", JInt next)])); [| |done].
  - cbn [json_wf]. destruct fs_wf as [Hnd Hall]. apply andb_true_iff. split.
    + apply bool_decide_eq_true. unfold keys in *. rewrite map_app. apply NoDup_app.
      split_and!; [done| |apply NoDup_singleton].
      intros k Hk ->%list_elem_of_singleton. done.
    + rewrite forallb_app. cbn [forallb json_wf]. rewrite Hsafe. cbn. rewrite andb_true_r.
      apply forallb_forall. intros [k v] Hin. apply list_elem_of_In in Hin.
      by destruct (Hall k v Hin) as [-> ->].
  - split.
    + intros k. rewrite !get_remove, entry_canon_get, entry_get.
      destruct (String.eqb_spec k "committed_at") as [->|Hat].
      { rewrite get_app by done. done. }
      destruct (String.eqb_spec k "journal_version") as [->|Hv].
      { rewrite get_app by done. done. }
      f_equal. destruct (decide (k ∈ keys fs)) as [Hk|Hk].
      * rewrite get_app_l by done. by destruct (String.eqb_spec k "sequence") as [->|].
      * rewrite get_app by done. cbn [get].
        destruct (String.eqb_spec k "sequence") as [->|]; [done|]. by rewrite get_absent.
    + rewrite !keys_remove. unfold entry_canon. rewrite keys_canon_fields.
      assert (Permutation (keys (isort field_leb (entry_fields fs next at_)))
        (keys (entry_fields fs next at_))) as HP.
      { unfold keys. by rewrite isort_Permutation. }
      rewrite (filter_Permutation _ _ _ (filter_Permutation _ _ _ HP)).
      unfold entry_fields, keys. simpl. rewrite !map_app, !List.filter_app. simpl.
      rewrite app_nil_r. rewrite !(filter_all _ (map fst fs)); [done| |];
        intros k Hk; apply negb_true_iff, String.eqb_neq; by intros ->.
Qed.

Hypothesis Hrevision : get_of "expected_revision" request = JInt (Z.of_nat n).

Lemma entry_accepted B E :
  batch_id_of request ∉ B → (∀ i, i ∈ event_ids_of request → i ∉ E) →
  entry_ok n B E (canon entry).
Proof.
  intros HB HE. rewrite canon_entry. exists entry_canon.
  assert (batch_id_of (JObj entry_canon) = batch_id_of request) as Hid.
  { rewrite <- canon_entry, batch_id_canon by apply entry_wf. rewrite entry_object.
    unfold batch_id_of. rewrite !get_str_of. cbn [get_of]. rewrite entry_get.
    destruct Hrq as [-> _ _ _ _ _ _]. done. }
  assert (event_ids_of (JObj entry_canon) = event_ids_of request) as Hev.
  { rewrite <- canon_entry, event_ids_canon by apply entry_wf. rewrite entry_object.
    unfold event_ids_of. rewrite !get_array_of. cbn [get_of]. rewrite entry_get.
    destruct Hrq as [-> _ _ _ _ _ _]. done. }
  rewrite Hid, Hev. split_and!; try done.
  - unfold wrapper_ok. rewrite !entry_canon_get, !entry_get. cbn -[Z.add Z.eqb].
    destruct Hrq as [Hr _ _ _ _ _ _]. rewrite Hr in Hrevision. cbn [get_of] in Hrevision.
    rewrite Hrevision. cbn [canon strict_eq]. rewrite !Z.eqb_refl. exact Hclock.
  - apply entry_core_canon.
  - by destruct Hrq.
Qed.
End OfRequest.
End Entry.
