(* ===== verification/CommitFrame.v ===== *)
(** The frame of a commit: a quiet state directory, what the lock and the publication guard add
    to it, and the lemma that turns an execution of the guarded part into one of [commit].

    Then the steps of a commit under the lock: authority, pending evidence, publication of the
    journal and of the projection.  The crash condition of a commit is [crash_state]: what the
    journal, the projection and the pending directory look like at every point. *)

From Stdlib Require Import ZArith Lia Ascii String Permutation Sorted.
From stdpp Require Import base tactics list gmap strings option pretty.
From S2P Require Import Prelude JsString JsDate Json JsonText JsonCanon Validator FileStore.
From S2P Require Import EventLock EventJournal EventStore LockProps BatchProps.

(** ** Quiet directories *)

(** A text that decodes to itself. *)
Definition own_text (t : string) : Prop :=
  valid_utf8 t = true ∧ (t = "" ∨ ∃ c s, t = String c s ∧ (code c < 128)%Z).

Lemma own_text_decode t : own_text t → decode_utf8 t = Some t.
Proof. intros [Hv [->|(c & s & -> & Hc)]]; [done|]. by apply decode_ascii. Qed.

Lemma own_text_app t u : own_text t → own_text u → own_text (t +:+ u).
Proof.
  intros [Hv Ht] [Hu Hut]. split; [by rewrite valid_utf8_app|].
  destruct Ht as [->|(c & s & -> & Hc)]; [by rewrite str_app_nil|]. right.
  exists c, (s +:+ u). by rewrite str_app_cons.
Qed.

Section Frame.
Context `{NumberText, Sha256, Platform, StoreOptions}.
Implicit Types (F : file_map) (n : nat).

(** The journal file holds [text]. *)
Definition journal_at F (text : string) : Prop :=
  own_text text ∧ (F !! journal_path = Some text ∨ (F !! journal_path = None ∧ text = "")).

(** No commit in progress and nothing for recovery: no lock, no transition, no pending evidence,
    no unresolved conflict; the staging names that will be drawn are free. *)
Record quiet F (es : list json) (text : string) : Prop := {
  q_lock : F !! lock_path = None;
  q_transitions : no_transitions F;
  q_pending : ∀ b, F !! ((Pending, b) : path) = None;
  q_decisions : ∀ p, is_Some (F !! p) → user_decision_artifact p = false;
  q_fresh : ∀ p k, F !! temp_path p (random_hex 8 k) = None;
  q_journal : journal_at F text;
  q_entries : journal_of text es;
}.

(** Directories that agree on what a commit is about. *)
Definition agree F F' : Prop :=
  F !! journal_path = F' !! journal_path ∧ F !! projection_path = F' !! projection_path ∧
  ∀ b, F !! ((Pending, b) : path) = F' !! ((Pending, b) : path).

Lemma agree_refl F : agree F F.
Proof. done. Qed.

(** The lock, the markers, the staging files and the backups are beside them. *)
Definition beside (p : path) : Prop :=
  p.1 ≠ Pending ∧ p ≠ journal_path ∧ p ≠ projection_path.

Lemma agree_insert F p t : beside p → agree (<[p := t]> F) F.
Proof.
  intros (Hd & Hj & Hp). split_and!; intros; apply lookup_insert_ne; try done.
  intros ->. by apply Hd.
Qed.
Lemma agree_delete F p : beside p → agree (delete p F) F.
Proof.
  intros (Hd & Hj & Hp). split_and!; intros; apply lookup_delete_ne; try done.
  intros ->. by apply Hd.
Qed.
Lemma agree_trans F1 F2 F3 : agree F1 F2 → agree F2 F3 → agree F1 F3.
Proof.
  intros (A1 & A2 & A3) (B1 & B2 & B3). split_and!; [congruence..|]. intros b.
  by rewrite A3.
Qed.

Lemma beside_lock : beside lock_path.
Proof. by split_and!. Qed.
Lemma beside_publication nonce : beside (publication_path nonce).
Proof. by split_and!. Qed.
Lemma beside_transition nonce : beside (transition_path nonce).
Proof. by split_and!. Qed.
Lemma beside_release nonce r : beside (release_path nonce r).
Proof. by split_and!. Qed.
Lemma beside_temp r : beside (temp_path journal_path r).
Proof. by split_and!. Qed.
Lemma beside_backup : beside (add_suffix journal_path ".bak").
Proof. by split_and!. Qed.
Lemma beside_projection_temp r : beside (temp_path projection_path r).
Proof. by split_and!. Qed.
Lemma beside_projection_backup : beside (add_suffix projection_path ".bak").
Proof. by split_and!. Qed.

Lemma has_prefix_app p s : has_prefix p (p +:+ s) = true.
Proof.
  unfold has_prefix. induction p as [|a p IH]; [by rewrite str_app_nil|].
  rewrite str_app_cons. simpl. by rewrite Ascii.eqb_refl.
Qed.

Lemma publication_not_transition nonce : publication_path nonce ≠ transition_path nonce.
Proof.
  intros E. apply (f_equal (λ p : path, String.length p.2)) in E. cbn [snd publication_path
    transition_path] in E. rewrite !str_length_app in E. simpl in E. lia.
Qed.
Lemma publication_not_release nonce nonce' r : publication_path nonce ≠ release_path nonce' r.
Proof. by unfold publication_path, release_path. Qed.

(** The files while [m] holds the lock with its guard armed at reading [k]. *)
Definition under (m : LockMetadata) (k : nat) F : file_map :=
  <[publication_path (lm_nonce m) := guard_text m k]> (<[lock_path := lock_text m]> F).

Lemma under_lookup m k F p :
  p ≠ lock_path → p ≠ publication_path (lm_nonce m) → under m k F !! p = F !! p.
Proof. intros. unfold under. by rewrite !lookup_insert_ne by congruence. Qed.

Lemma under_owned m k F : owned m (under m k F).
Proof.
  unfold owned, under. rewrite lookup_insert_ne by (symmetry; apply lock_not_publication).
  by rewrite lookup_insert_eq.
Qed.

Lemma agree_under m k F : agree (under m k F) F.
Proof.
  unfold under. eapply agree_trans; [apply agree_insert, beside_publication|].
  apply agree_insert, beside_lock.
Qed.

Lemma under_insert m k F p t :
  p ≠ lock_path → p ≠ publication_path (lm_nonce m) →
  <[p := t]> (under m k F) = under m k (<[p := t]> F).
Proof.
  intros H1' H2'. unfold under. rewrite (insert_insert_ne _ p) by congruence.
  f_equal. by rewrite insert_insert_ne by congruence.
Qed.
Lemma under_delete m k F p :
  p ≠ lock_path → p ≠ publication_path (lm_nonce m) →
  delete p (under m k F) = under m k (delete p F).
Proof.
  intros H1' H2'. unfold under. rewrite delete_insert_ne by congruence.
  f_equal. by rewrite delete_insert_ne by congruence.
Qed.

(** The name of a transition is not there. *)
Lemma no_transition_lookup F b :
  no_transitions F → is_transition_name b || is_release_name b = true →
  F !! ((Root, b) : path) = None.
Proof.
  intros Hno Hb. apply eq_None_not_Some. intros Hs. apply Hno in Hs. congruence.
Qed.
Lemma transition_name nonce s :
  is_transition_name ("events.jsonl.lock.transition-" +:+ nonce +:+ s) = true.
Proof. apply has_prefix_app. Qed.

Lemma quiet_publication F m : no_transitions F → F !! publication_path (lm_nonce m) = None.
Proof.
  intros Hno. unfold publication_path. apply no_transition_lookup; [done|].
  by rewrite transition_name.
Qed.
Lemma quiet_transition F m : no_transitions F → F !! transition_path (lm_nonce m) = None.
Proof.
  intros Hno. apply no_transition_lookup; [done|].
  assert (is_transition_name ("events.jsonl.lock.transition-" +:+ lm_nonce m) = true) as ->; [|done].
  apply has_prefix_app.
Qed.
Lemma quiet_release F m r : no_transitions F → F !! release_path (lm_nonce m) r = None.
Proof.
  intros Hno. apply no_transition_lookup; [done|].
  assert (is_release_name ("events.jsonl.lock.release-" +:+ lm_nonce m +:+ "-" +:+ r) = true) as ->;
    [apply has_prefix_app|apply orb_true_r].
Qed.

(** Nothing in the directory asks for a decision of the user. *)
Definition undecided_free F : Prop := ∀ p, is_Some (F !! p) → user_decision_artifact p = false.

Lemma execs_undecided (I : file_map → Prop) F n :
  undecided_free F → execs I assertNoUnresolvedUserDecision F n (Ok tt) F n.
Proof.
  intros Hu. unfold assertNoUnresolvedUserDecision. eapply execs_bind; [apply execs_get_files|].
  assert (unresolvedUserDecisionArtifacts F = []) as ->; [|apply execs_throw_if_false].
  unfold unresolvedUserDecisionArtifacts. rewrite filter_nil_forallb, forallb_forall.
  intros p Hp. apply in_map_iff in Hp as ([p' t] & <- & Hin). apply negb_true_iff, Hu.
  apply list_elem_of_In, elem_of_map_to_list in Hin. by eexists.
Qed.

Lemma undecided_insert F p t :
  undecided_free F → user_decision_artifact p = false → undecided_free (<[p := t]> F).
Proof.
  intros Hu Hp q. destruct (decide (p = q)) as [->|Hne]; [done|].
  rewrite lookup_insert_ne by done. apply Hu.
Qed.

(** A root name that starts with the lock's name is no conflict. *)
Lemma conflict_free_lock : user_decision_artifact lock_path = false.
Proof. vm_compute. reflexivity. Qed.

(** A name without a space is no conflicted copy. *)
Lemma all_chars_lower s :
  all_chars (between 33 126) s = true → all_chars (between 33 126) (lower s) = true.
Proof.
  induction s as [|c s IH]; [done|]. cbn [lower all_chars]. intros [Hc Hs]%andb_true_iff.
  rewrite (IH Hs), andb_true_r.
  pose proof (byte_check (λ c, implb (between 33 126 c) (between 33 126 (to_lower c)))
    ltac:(vm_compute; reflexivity) c) as Hall. simpl in Hall. by rewrite Hc in Hall.
Qed.

Lemma strip_prefix_Some p s r : strip_prefix p s = Some r → s = p +:+ r.
Proof.
  revert s. induction p as [|a p IH]; intros s.
  { simpl. intros [= ->]. by rewrite str_app_nil. }
  destruct s as [|b s]; simpl; [done|]. destruct (Ascii.eqb_spec a b) as [->|]; [|done]. intros ->%IH. by rewrite str_app_cons.
Qed.

Lemma contains_chars q p s :
  all_chars q s = true → all_chars q p = false → contains p s = false.
Proof.
  intros Hs Hp. induction s as [|c s IH].
  - simpl. rewrite orb_false_r. unfold has_prefix. destruct (strip_prefix p "") eqn:E; [|done].
    apply strip_prefix_Some in E. destruct p; [done|by rewrite str_app_cons in E].
  - cbn [contains]. cbn [all_chars] in Hs. pose proof Hs as [_ Hs']%andb_true_iff.
    rewrite (IH Hs'), orb_false_r. unfold has_prefix.
    destruct (strip_prefix p (String c s)) eqn:E; [|done]. apply strip_prefix_Some in E.
    change (all_chars q (String c s) = true) in Hs. rewrite E, all_chars_app, Hp in Hs. done.
Qed.

Lemma not_conflicted s : all_chars (between 33 126) s = true → conflicted_copy s = false.
Proof.
  intros Hs. unfold conflicted_copy. eapply contains_chars; [by apply all_chars_lower|done].
Qed.

Lemma conflict_free_publication m :
  lock_wf m → user_decision_artifact (publication_path (lm_nonce m)) = false.
Proof.
  intros [_ _ _ _ Hn _ _]. unfold user_decision_artifact, publication_path. cbn [fst snd].
  rewrite not_conflicted; [done|]. rewrite !all_chars_app. rewrite (hex_line _ _ Hn). done.
Qed.

(** ** The frame *)

(** The shape of a name that a lock leaves in the root. *)
Definition free_of_lock F m r : Prop :=
  F !! lock_path = None ∧ F !! publication_path (lm_nonce m) = None ∧
  F !! transition_path (lm_nonce m) = None ∧ F !! release_path (lm_nonce m) r = None.

Lemma quiet_free F m r :
  F !! lock_path = None → no_transitions F → free_of_lock F m r.
Proof.
  intros Hl Hno. split_and!; [done|by apply quiet_publication|by apply quiet_transition|
    by apply quiet_release].
Qed.

Context `{!PlatformLaws}.

(** The lock and the guard that [commit] works under. *)
Definition commit_lock (target : Z) n : LockMetadata := acquired hostId target n.
Definition commit_frame (target : Z) n F : file_map := under (commit_lock target n) (S (S n)) F.

(** Disarming and releasing after the guarded part. *)
Lemma execs_disarm_step (I : file_map → Prop) (m : LockMetadata) (k n : nat) F :
  lock_wf m → (∀ F1 F2, agree F1 F2 → I F2 → I F1) → I F →
  F !! publication_path (lm_nonce m) = None →
  execs I (disarm_step m (Some (publication_path (lm_nonce m)))) (under m k F) n (Ok tt)
    (<[lock_path := lock_text m]> F) n.
Proof.
  intros Hw HI HF Hp.
  assert (delete (publication_path (lm_nonce m)) (under m k F) = <[lock_path := lock_text m]> F)
    as Hdel.
  { unfold under. apply delete_insert_id. by rewrite lookup_insert_ne by apply lock_not_publication. }
  rewrite <- Hdel. apply (execs_disarm I (under m k F) n m k); [done|apply under_owned| |].
  - unfold under. by rewrite lookup_insert_eq.
  - rewrite Hdel. eapply HI; [|exact HF]. apply agree_insert, beside_lock.
Qed.

Lemma release_crashes_beside (I : file_map → Prop) m n F :
  (∀ F1 F2, agree F1 F2 → I F2 → I F1) → I F →
  release_crashes I m n (<[lock_path := lock_text m]> F).
Proof.
  intros HI HF. pose proof beside_lock. pose proof (beside_transition (lm_nonce m)).
  pose proof (beside_release (lm_nonce m) (random_hex 16 (S n))).
  unfold release_crashes. split_and!; (eapply HI; [|exact HF]);
    repeat (eapply agree_trans; [by (apply agree_insert || apply agree_delete)|]);
    apply agree_refl.
Qed.

Lemma execs_release_step (I : file_map → Prop) {A} (m : LockMetadata) (n : nat) F (r : res A) :
  lock_wf m → (∀ F1 F2, agree F1 F2 → I F2 → I F1) → I F →
  free_of_lock F m (random_hex 16 (S n)) →
  execs I (release_step m r) (<[lock_path := lock_text m]> F) n (Ok r) F (S (S n)).
Proof.
  intros Hw HI HF (Hl & Hp & Ht & Hr). unfold release_step.
  eapply execs_bind.
  { apply execs_attempt, execs_release; [done|unfold owned; by rewrite lookup_insert_eq| | |].
    - by rewrite lookup_insert_ne by apply lock_not_transition.
    - by rewrite lookup_insert_ne by apply lock_not_release.
    - by apply release_crashes_beside. }
  rewrite delete_insert_id by done. destruct r; apply execs_ret.
Qed.

(** [commit] on a quiet directory, given what its guarded part does. *)
Lemma commit_runs (I : file_map → Prop) request recovery core0 target F n es text
    (r : res (CommitResult * option string)) G n2 :
  blank hostId = false → valid_utf8 hostId = true →
  is_safe_integer target = true → (0 <= target)%Z →
  validateRequest request 0 = Ok core0 → get_of "expected_revision" request = JInt target →
  F !! lock_path = None → no_transitions F → undecided_free F → journal_at F text →
  journal_of text es →
  (∀ F1 F2, agree F1 F2 → I F2 → I F1) → I F → I G →
  (∀ x, free_of_lock G (commit_lock target n) x) →
  execs I (commit_guarded (commit_lock target n) (MkJournal es text) request recovery)
    (commit_frame target n F) (S (S (S n))) r (commit_frame target n G) n2 →
  execs I (commit request recovery) F n
    (match r with
     | Ok (result, Some name) =>
         match G !! ((Pending, name) : path) with
         | Some _ => Err PENDING_VERIFY_FAILED | None => Ok result
         end
     | Ok (result, None) => Ok result
     | Err e => Err e
     end) G (S (S n2)).
Proof.
  intros Hh1 Hh2 Hs Hpos Hv Ht Hlock Hno Hu Hj Hjo HI HIF HIG Hfree Hbody.
  assert (lock_wf (commit_lock target n)) as Hw by (by apply acquired_wf).
  assert (∀ p t, beside p → I (<[p := t]> F)) as HIins.
  { intros p t Hp. eapply HI; [by apply agree_insert|done]. }
  unfold commit. rewrite Hv, Ht.
  eapply execs_bind; [apply execs_lift|]. cbv zeta.
  eapply execs_bind.
  { apply execs_acquire; try done; apply HIins, beside_lock. }
  fold (commit_lock target n). set (FL := <[lock_path := _]> F).
  assert (agree FL F) as HFL by apply agree_insert, beside_lock.
  assert (FL !! journal_path = F !! journal_path) as HFLj by apply HFL.
  eapply execs_bind.
  { apply execs_attempt.
    eapply execs_bind.
    { apply execs_undecided, undecided_insert; [done|apply conflict_free_lock]. }
    eapply execs_bind with (a := MkJournal es text).
    { unfold readJournal. eapply execs_bind; [apply execs_get_files|]. rewrite HFLj.
      destruct Hj as [Hown [Hj|[Hj ->]]]; rewrite Hj.
      - unfold read_journal_bytes. rewrite (own_text_decode _ Hown), Hjo. apply execs_lift.
      - injection Hjo as <-. apply execs_ret. }
    eapply execs_bind.
    { apply execs_arm; [done|unfold owned, FL; by rewrite lookup_insert_eq| | |].
      - unfold FL. rewrite lookup_insert_ne by apply lock_not_publication.
        by apply quiet_publication.
      - eapply HI; [apply agree_insert, beside_publication|]. by apply HIins.
      - eapply HI; [apply agree_insert, beside_publication|]. by apply HIins. }
    apply execs_ret. }
  cbv beta iota.
  change (<[publication_path (lm_nonce (commit_lock target n)) := _]> FL)
    with (commit_frame target n F).
  eapply execs_bind.
  { eapply execs_bind; [apply execs_attempt, Hbody|]. apply execs_ret. }
  cbv beta iota.
  destruct (Hfree (random_hex 16 (S n2))) as (_ & Hgp & _ & _).
  eapply execs_bind.
  { apply execs_attempt. by apply (execs_disarm_step I (commit_lock target n) (S (S n)) n2 G). }
  assert (primary r (Ok tt) = r) as -> by (by destruct r).
  eapply execs_bind; [by apply execs_release_step|].
  destruct r as [[result [name|]]|e]; cbv beta iota.
  - destruct (G !! ((Pending, name) : path)) as [t|] eqn:E.
    + eapply execs_bind; [by eapply execs_exists_true|].
      apply execs_bind_Err, execs_throw_if_true.
    + eapply execs_bind; [by apply execs_exists_false|].
      eapply execs_bind; [apply execs_throw_if_false|apply execs_ret].
  - apply execs_ret.
  - apply execs_throw.
Qed.
End Frame.

(** * The steps of a commit *)

Section Steps.
Context `{NumberText, Sha256, Platform, StoreOptions, !PlatformLaws, !Sha256Laws}.
Implicit Types (F L : file_map) (n : nat) (m : LockMetadata).

(** ** What a commit leaves to see *)

(** The journal, the projection and the pending directory, which holds at most one file. *)
Definition looks (j pj : option string) (d : option (string * string)) F : Prop :=
  F !! journal_path = j ∧ F !! projection_path = pj ∧
  ∀ b, F !! ((Pending, b) : path) =
    match d with Some (b', t) => if decide (b' = b) then Some t else None | None => None end.

Lemma looks_agree j pj d F F' : agree F F' → looks j pj d F' → looks j pj d F.
Proof.
  intros (A1 & A2 & A3) (B1 & B2 & B3). split_and!; [congruence..|]. intros b. by rewrite A3.
Qed.

Lemma looks_beside j pj d F p t : beside p → looks j pj d F → looks j pj d (<[p := t]> F).
Proof. intros Hp. apply looks_agree. by apply agree_insert. Qed.

Lemma looks_pending_insert j pj F b t : looks j pj None F → looks j pj (Some (b, t)) (<[(Pending, b) := t]> F).
Proof.
  intros (B1 & B2 & B3). split_and!; [by rewrite lookup_insert_ne..|]. intros b'.
  case_decide as Hd; [subst; by rewrite lookup_insert_eq|].
  rewrite lookup_insert_ne by congruence. apply B3.
Qed.

Lemma looks_pending_delete j pj F b t :
  looks j pj (Some (b, t)) F → looks j pj None (delete ((Pending, b) : path) F).
Proof.
  intros (B1 & B2 & B3). split_and!; [by rewrite lookup_delete_ne..|]. intros b'.
  destruct (decide (b = b')) as [->|Hne]; [by rewrite lookup_delete_eq|].
  rewrite lookup_delete_ne by congruence. rewrite B3. by case_decide.
Qed.

Lemma looks_journal j j' pj d F : looks j pj d F → looks (Some j') pj d (<[journal_path := j']> F).
Proof.
  intros (B1 & B2 & B3). split_and!; [by rewrite lookup_insert_eq|by rewrite lookup_insert_ne|].
  intros b. by rewrite lookup_insert_ne.
Qed.

Lemma looks_projection j pj pj' d F :
  looks j pj d F → looks j (Some pj') d (<[projection_path := pj']> F).
Proof.
  intros (B1 & B2 & B3). split_and!; [by rewrite lookup_insert_ne|by rewrite lookup_insert_eq|].
  intros b. by rewrite lookup_insert_ne.
Qed.

(** The states a crash of a commit can leave: nothing done; evidence being staged; evidence
    written; journal published; projection published; evidence removed. *)
Inductive stage := Untouched | Staging | Evident | Journaled | Projected | Done.
#[global] Instance stage_eq_dec : EqDecision stage.
Proof. solve_decision. Defined.

Record commit_view := MkCommitView {
  v_journal : option string;      (* before *)
  v_projection : option string;
  v_journal' : string;            (* after *)
  v_projection' : string;
  v_name : string;                (* the pending evidence: file and text *)
  v_text : string;
  v_temp : string;                (* its staging file *)
}.

Definition at_stage (v : commit_view) (s : stage) F : Prop :=
  match s with
  | Untouched => looks (v_journal v) (v_projection v) None F
  | Staging => ∃ t, looks (v_journal v) (v_projection v) (Some (v_temp v, t)) F
  | Evident => looks (v_journal v) (v_projection v) (Some (v_name v, v_text v)) F
  | Journaled => looks (Some (v_journal' v)) (v_projection v) (Some (v_name v, v_text v)) F
  | Projected => looks (Some (v_journal' v)) (Some (v_projection' v)) (Some (v_name v, v_text v)) F
  | Done => looks (Some (v_journal' v)) (Some (v_projection' v)) None F
  end.

Definition crash_state (v : commit_view) F : Prop := ∃ s, at_stage v s F.

Lemma at_stage_agree v s F F' : agree F F' → at_stage v s F' → at_stage v s F.
Proof.
  intros Ha. destruct s; simpl; try by apply looks_agree.
  intros [t Ht]. exists t. by eapply looks_agree.
Qed.

Lemma crash_state_agree v F F' : agree F F' → crash_state v F' → crash_state v F.
Proof. intros Ha [s Hs]. exists s. by eapply at_stage_agree. Qed.

(** ** Authority *)

Lemma journal_at_lookup F F' text :
  F' !! journal_path = F !! journal_path → journal_at F text → journal_at F' text.
Proof. intros E [Ho Hj]. split; [done|]. by rewrite E. Qed.

Lemma execs_authority (I : file_map → Prop) L n m text :
  lock_wf m → owned m L → journal_at L text →
  execs I (assertJournalAuthority m text) L n (Ok tt) L n.
Proof.
  intros Hw Ho [Hown Hj]. unfold assertJournalAuthority.
  eapply execs_bind; [by apply execs_owned|].
  eapply execs_bind with (a := text).
  { unfold physicalJournalText. eapply execs_bind; [apply execs_get_files|].
    destruct Hj as [Hj|[Hj ->]]; rewrite Hj; [|apply execs_ret].
    rewrite (own_text_decode _ Hown). apply execs_ret. }
  rewrite String.eqb_refl. apply execs_throw_if_false.
Qed.

Lemma execs_readJournal (I : file_map → Prop) L n text es :
  journal_at L text → journal_of text es →
  execs I (readJournal journal_path) L n (Ok (MkJournal es text)) L n.
Proof.
  intros [Hown Hj] Hjo. unfold readJournal. eapply execs_bind; [apply execs_get_files|].
  destruct Hj as [Hj|[Hj ->]]; rewrite Hj.
  - unfold read_journal_bytes. rewrite (own_text_decode _ Hown), Hjo. apply execs_lift.
  - injection Hjo as <-. apply execs_ret.
Qed.

(** Staging a replacement beside the commit's files keeps the authority. *)
Lemma staged_journal p temp text F :
  temp ≠ journal_path → add_suffix p ".bak" ≠ journal_path →
  staged p temp text F !! journal_path = F !! journal_path.
Proof.
  intros H1' H2'. unfold staged. destruct (F !! p); by rewrite !lookup_insert_ne.
Qed.

Lemma staged_owned p temp text m F :
  temp ≠ lock_path → add_suffix p ".bak" ≠ lock_path → owned m F → owned m (staged p temp text F).
Proof.
  unfold owned. intros H1' H2' Ho. unfold staged. destruct (F !! p); by rewrite !lookup_insert_ne.
Qed.

(** ** The projection *)

Lemma sha256_line text : json_wf (JStr (sha256_hex text)) = true.
Proof.
  simpl. apply printable_utf8. eapply hex_line. apply sha256_hex_pattern.
Qed.

(** The crash states of a replacement whose staging and backup files are beside. *)
Lemma replace_crashes_beside (I : file_map → Prop) p temp text F :
  (∀ F1 F2, agree F1 F2 → I F2 → I F1) → beside temp → beside (add_suffix p ".bak") →
  I F → I (<[p := text]> F) → p ≠ add_suffix p ".bak" → replace_crashes I p temp text F.
Proof.
  intros HI Ht Hb HF Hp Hne.
  assert (∀ t, I (<[temp := t]> F)) as HIt by (intros; eapply HI; [by apply agree_insert|done]).
  split_and!; [done|done| |].
  - intros old _. split; (eapply HI; [by apply agree_insert|done]).
  - unfold replaced. destruct (F !! p) as [old|]; [|done].
    rewrite insert_insert_ne by congruence. eapply HI; [by apply agree_insert|done].
Qed.

Lemma suffix_neq p : p ≠ add_suffix p ".bak".
Proof. intros E. symmetry in E. by apply (add_suffix_neq p ".bak") in E. Qed.

(** The published text of a replay. *)
Definition projection_text (j : Journal) (r : Replay) : string :=
  print (canon (projection_json j r)) +:+ newline.

Lemma canon_json_line v : json_wf v = true → JSON_parse (print (canon v) +:+ newline) = Some (canon v).
Proof. intros Hw. apply parse_print_line. by apply json_wf_canon. Qed.

Lemma same_canon v : json_wf v = true → same (canon v) v = Ok true.
Proof.
  intros Hw. unfold same. rewrite canonicalJson_canon.
  rewrite (canonicalJson_print _ (json_wf_plain _ Hw)). simpl. by rewrite String.eqb_refl.
Qed.

Lemma execs_rebuild (I : file_map → Prop) L n m es text r :
  lock_wf m → owned m L → journal_at L text → journal_of text es →
  replay_journal (MkJournal es text) [] JNull = Ok r →
  json_wf (projection_json (MkJournal es text) r) = true →
  L !! temp_path projection_path (random_hex 8 n) = None →
  (∀ F1 F2, agree F1 F2 → I F2 → I F1) → I L →
  I (<[projection_path := projection_text (MkJournal es text) r]> L) →
  execs I (rebuildProjectionsLocked m text) L n (Ok r)
    (replaced projection_path (projection_text (MkJournal es text) r) L) (S n).
Proof.
  intros Hw Ho Hj Hjo Hr Hpw Hfree HI HIL HIP. unfold rebuildProjectionsLocked.
  eapply execs_bind; [by apply execs_authority|].
  eapply execs_bind; [by apply execs_readJournal|].
  rewrite Hr. eapply execs_bind; [apply execs_lift|]. cbv zeta.
  rewrite (canonicalJson_print _ (json_wf_plain _ Hpw)).
  eapply execs_bind; [apply execs_lift|].
  fold (projection_text (MkJournal es text) r).
  set (pt := projection_text _ r) in *.
  assert (replaced projection_path pt L !! projection_path = Some pt) as Hlook
    by (unfold replaced; by rewrite lookup_insert_eq).
  eapply execs_bind.
  { apply execs_replace; [done| |].
    - by apply replace_crashes_beside.
    - apply execs_authority; [done| |].
      + by apply staged_owned.
      + eapply journal_at_lookup; [|exact Hj]. by apply staged_journal. }
  eapply execs_bind.
  { unfold verify_projection. eapply execs_bind; [by apply execs_read_file|].
    unfold pt, projection_text. rewrite canon_json_line by done.
    rewrite same_canon by done. eapply execs_bind; [apply execs_lift|].
    apply execs_throw_if_false. }
  eapply execs_bind; [|apply execs_ret].
  apply execs_authority; [done| |].
  - unfold owned, replaced. rewrite lookup_insert_ne by done.
    destruct (L !! projection_path); [by rewrite lookup_insert_ne|done].
  - eapply journal_at_lookup; [|exact Hj]. unfold replaced. rewrite lookup_insert_ne by done.
    destruct (L !! projection_path); [by rewrite lookup_insert_ne|done].
Qed.
End Steps.
