(* ===== verification/CommitProps.v ===== *)
(** Publishing a new batch: the commit of a valid request on a quiet directory, step by step, with
    its crash states, and the outcomes of the other requests. *)

From Stdlib Require Import ZArith Lia Ascii String Permutation Sorted.
From stdpp Require Import base tactics list gmap strings option pretty.
From S2P Require Import Prelude JsString JsDate Json JsonText JsonCanon Validator FileStore EventLock EventJournal EventStore LockProps BatchProps CommitFrame.

Section Commit.
Context `{NumberText, Sha256, Platform, StoreOptions, !PlatformLaws, !Sha256Laws}.
Implicit Types (F L : file_map) (n : nat) (m : LockMetadata).

(** ** Names that are not staging names *)

Definition not_temp (q : path) : Prop := ∀ p r, temp_path p r ≠ q.

Lemma not_temp_head d c s : c ≠ "."%char → not_temp (d, String c s).
Proof. intros Hc p r [= _ Hs]. congruence. Qed.

Lemma not_temp_journal : not_temp journal_path.
Proof. by apply not_temp_head. Qed.
Lemma not_temp_lock : not_temp lock_path.
Proof. by apply not_temp_head. Qed.
Lemma not_temp_publication nonce : not_temp (publication_path nonce).
Proof. by apply not_temp_head. Qed.
Lemma not_temp_journal_bak : not_temp (add_suffix journal_path ".bak").
Proof. by apply not_temp_head. Qed.
Lemma not_temp_projection : not_temp projection_path.
Proof. by apply not_temp_head. Qed.
Lemma not_temp_projection_bak : not_temp (add_suffix projection_path ".bak").
Proof. by apply not_temp_head. Qed.

Lemma not_temp_pending b : not_temp (Pending, pending_name b).
Proof.
  unfold pending_name. pose proof (sha256_hex_pattern b) as Hp.
  destruct (sha256_hex b) as [|c s]; [done|]. rewrite str_app_cons. apply not_temp_head.
  intros ->. apply andb_true_iff in Hp as [_ Hp]. done.
Qed.

Definition fresh_names F : Prop := ∀ p k, F !! temp_path p (random_hex 8 k) = None.

Lemma fresh_insert F q t : fresh_names F → not_temp q → fresh_names (<[q := t]> F).
Proof. intros Hf Hq p k. rewrite lookup_insert_ne; [apply Hf|]. intros E. by apply (Hq p (random_hex 8 k)). Qed.

Lemma fresh_replaced F p t :
  fresh_names F → not_temp p → not_temp (add_suffix p ".bak") → fresh_names (replaced p t F).
Proof.
  intros Hf H1' H2'. unfold replaced. apply fresh_insert; [|done].
  destruct (F !! p); [by apply fresh_insert|done].
Qed.

Lemma fresh_under m k F : fresh_names F → fresh_names (under m k F).
Proof.
  intros Hf. unfold under. apply fresh_insert; [|apply not_temp_publication].
  apply fresh_insert; [done|apply not_temp_lock].
Qed.

(** ** Replacements and the frame *)

Lemma replaced_under m k p t F :
  p ≠ lock_path → p ≠ publication_path (lm_nonce m) → add_suffix p ".bak" ≠ lock_path →
  add_suffix p ".bak" ≠ publication_path (lm_nonce m) →
  replaced p t (under m k F) = under m k (replaced p t F).
Proof.
  intros. unfold replaced. rewrite under_lookup by done.
  destruct (F !! p); rewrite ?under_insert by done; done.
Qed.

Lemma replaced_absent p t F : F !! p = None → replaced p t F = <[p := t]> F.
Proof. unfold replaced. by intros ->. Qed.

Lemma replaced_insert_ne p t q u F :
  q ≠ p → q ≠ add_suffix p ".bak" → replaced p t (<[q := u]> F) = <[q := u]> (replaced p t F).
Proof.
  intros H1' H2'. unfold replaced. rewrite lookup_insert_ne by done.
  rewrite (insert_insert_ne _ q p) by done. f_equal.
  destruct (F !! p); [|done]. by rewrite insert_insert_ne.
Qed.

Lemma replaced_lookup_ne p t F q :
  q ≠ p → q ≠ add_suffix p ".bak" → replaced p t F !! q = F !! q.
Proof.
  intros H1' H2'. unfold replaced. rewrite lookup_insert_ne by done.
  destruct (F !! p); [by rewrite lookup_insert_ne|done].
Qed.

Lemma publication_ne_prefix nonce d c s : c ≠ "e"%char → publication_path nonce ≠ (d, String c s).
Proof. intros Hc [=]. congruence. Qed.

(** ** The pending evidence *)

Section Evidence.
Context (request entry : json) (line bid at_ : string) (rev seq : Z).
Hypothesis Hbid : get_of "batch_id" request = JStr bid.
Hypothesis Hrev : get_of "expected_revision" request = JInt rev.
Hypothesis Hseq : get_of "sequence" entry = JInt seq.
Hypothesis Hline : valid_utf8 line = true.
Hypothesis Hutf : valid_utf8 bid = true ∧ valid_utf8 workspaceId = true.
Hypothesis Hsafe : is_safe_integer rev = true ∧ is_safe_integer seq = true.
Hypothesis Hclock : isUtcTimestamp (JStr at_) = true.

Local Abbreviation pf := (pending_of request entry line (JStr at_)).

Lemma pending_wf : json_wf (JObj pf) = true.
Proof.
  cbn [json_wf]. apply andb_true_iff. split; [by apply bool_decide_eq_true; vm_compute; repeat
    (apply NoDup_cons_2; [set_solver|]); apply NoDup_nil_2|].
  unfold pending_of. cbn [forallb]. rewrite Hbid, Hrev, Hseq. cbn [json_wf].
  destruct Hutf as [-> ->], Hsafe as [-> ->].
  rewrite Hline. rewrite (printable_utf8 at_) by (by apply utc_printable).
  rewrite (printable_utf8 (sha256_hex line)) by (eapply hex_line; apply sha256_hex_pattern).
  done.
Qed.

Definition pending_canon : fields := map canon_field (isort field_leb pf).
Definition pending_text : string := print (canon (JObj pf)) +:+ newline.

Lemma pending_get k : get k pending_canon = canon (get k pf).
Proof.
  apply get_canon; [|apply canon_object]. pose proof pending_wf as Hw.
  by apply json_wf_fields in Hw as [? _].
Qed.

Lemma pending_fields_ok : sameFields pending_canon PENDING_FIELDS = true.
Proof.
  unfold sameFields. apply bool_decide_eq_true. unfold pending_canon. rewrite keys_canon_fields.
  rewrite (sort_text_Permutation_eq (keys (isort field_leb pf)) (keys pf)).
  - vm_compute. reflexivity.
  - unfold keys. by rewrite isort_Permutation.
Qed.

Lemma pending_line : strict_json_line pending_text PENDING_VERIFY_FAILED = Ok (JObj pending_canon).
Proof.
  unfold pending_text. rewrite canon_object. fold pending_canon.
  change (print (JObj pending_canon) +:+ newline) with (json_line (JObj pending_canon)).
  apply strict_json_line_print. unfold pending_canon. rewrite <- canon_object.
  apply json_wf_canon, pending_wf.
Qed.

Lemma parse_pending_text : parse_pending pending_text = Some pending_canon.
Proof. unfold parse_pending. by rewrite pending_line, pending_fields_ok. Qed.

Lemma pending_values : pending_values_ok pending_canon = true.
Proof.
  unfold pending_values_ok. rewrite !pending_get. unfold pending_of.
  cbn [get String.eqb Ascii.eqb Bool.eqb canon strict_eq].
  rewrite Hclock, sha256_hex_pattern, !String.eqb_refl. done.
Qed.

Lemma execs_verify_against (I : file_map → Prop) L n p expected :
  L !! p = Some pending_text →
  (∀ f, f ∈ PENDING_FIELDS → strict_eq (get f pending_canon) (get f expected) = true) →
  execs I (verifyPersistedPending p expected) L n (Ok pending_canon) L n.
Proof.
  intros Hp Hexp. unfold verifyPersistedPending.
  eapply execs_bind.
  { unfold readStrictPendingEvidence. eapply execs_bind; [apply execs_get_files|].
    rewrite Hp, parse_pending_text. apply execs_ret. }
  cbv beta iota.
  assert (forallb (λ f, strict_eq (get f pending_canon) (get f expected)) PENDING_FIELDS = true) as ->.
  { apply forallb_forall. intros f Hf. by apply Hexp, list_elem_of_In. }
  eapply execs_bind; [apply execs_throw_if_false|]. rewrite pending_values.
  eapply execs_bind; [apply execs_throw_if_false|]. apply execs_ret.
Qed.

(** The fields are primitive values: canonical as they are, and equal to themselves. *)
Lemma pending_field_self f : canon (get f pf) = get f pf ∧ strict_eq (get f pf) (get f pf) = true ∨
  f ∉ PENDING_FIELDS.
Proof.
  destruct (decide (f ∈ PENDING_FIELDS)) as [Hf|]; [left|by right].
  unfold pending_of. rewrite Hbid, Hrev, Hseq. unfold PENDING_FIELDS in Hf.
  repeat (apply elem_of_cons in Hf as [->|Hf];
    [cbn [get String.eqb Ascii.eqb Bool.eqb canon strict_eq];
     by rewrite ?Z.eqb_refl, ?String.eqb_refl|]). by apply not_elem_of_nil in Hf.
Qed.

Lemma execs_verify_pending (I : file_map → Prop) L n p :
  L !! p = Some pending_text →
  execs I (verifyPersistedPending p pf) L n (Ok pending_canon) L n.
Proof.
  intros Hp. apply execs_verify_against; [done|]. intros f Hf. rewrite pending_get.
  destruct (pending_field_self f) as [[-> ?]|?]; done.
Qed.

(** Evidence that was read back is verified against itself. *)
Lemma execs_verify_again (I : file_map → Prop) L n p :
  L !! p = Some pending_text →
  execs I (verifyPersistedPending p pending_canon) L n (Ok pending_canon) L n.
Proof.
  intros Hp. apply execs_verify_against; [done|]. intros f Hf. rewrite pending_get.
  destruct (pending_field_self f) as [[-> ?]|?]; done.
Qed.
End Evidence.

(** ** A new batch *)

(** What a commit of [request] as entry number [length es + 1] relies on. *)
Record new_batch (es : list json) (request core : json) (fs : fields)
    (bid at_ : string) : Prop := {
  nb_host : blank hostId = false ∧ valid_utf8 hostId = true;
  nb_workspace : valid_utf8 workspaceId = true;
  nb_request : request_ok request (Z.of_nat (length es) + 1) core fs;
  nb_wf : json_wf request = true;
  nb_safe : is_safe_integer (Z.of_nat (length es) + 1) = true;
  nb_revision : get_of "expected_revision" request = JInt (Z.of_nat (length es));
  nb_id : get_of "batch_id" request = JStr bid;
  nb_batch : bid ∉ batch_ids es;
  nb_events : ∀ i, i ∈ event_ids_of request → i ∉ event_ids es;
  nb_clock : isUtcTimestamp (JStr at_) = true;
}.

Section NewBatch.
Context (es : list json) (text : string) (request core : json) (fs : fields) (bid at_ : string).
Hypothesis Hnb : new_batch es request core fs bid at_.

(** The entry, its line, the journal text after the commit. *)
Definition new_entry : json := entry_of core (JStr at_).
Definition new_line : string := print (canon new_entry).
Definition new_text : string := text +:+ new_line +:+ newline.
Definition new_pending : fields := pending_of request new_entry new_line (JStr at_).
Definition new_pending_text : string := pending_text request new_entry new_line at_.

Lemma new_entry_wf : json_wf new_entry = true.
Proof. destruct Hnb. by eapply entry_wf. Qed.

Lemma new_entry_canonical : canonicalJson new_entry = Ok new_line.
Proof. apply canonicalJson_print, json_wf_plain, new_entry_wf. Qed.

Lemma new_line_text : line_text new_line = true.
Proof. apply print_line, json_wf_canon, new_entry_wf. Qed.

Lemma new_line_head : ∃ s, new_line = String "{" s.
Proof.
  unfold new_line, new_entry. destruct Hnb as [_ _ Hrq _ _ _ _ _ _ _].
  erewrite (canon_entry _ (length es)) by exact Hrq. simpl. rewrite str_app_cons. eauto.
Qed.

Lemma new_journal : journal_of text es →
  journal_of new_text (es ++ [canon new_entry]) ∧
  journal_lines new_text = journal_lines text ++ [new_line].
Proof.
  intros Hj. pose proof new_line_text as Hl. apply andb_true_iff in Hl as [_ Hl].
  destruct new_line_head as [s Hs]. apply journal_append; try done.
  - by rewrite Hs.
  - unfold new_line. apply parse_print, json_wf_canon, new_entry_wf.
  - destruct Hnb. eapply entry_accepted; try done.
    unfold batch_id_of. rewrite get_str_of. by rewrite nb_id0.
Qed.

Lemma new_own_text : own_text text → own_text new_text.
Proof.
  intros Ht. apply own_text_app; [done|]. pose proof new_line_text as Hl.
  apply andb_true_iff in Hl as [Hl _]. destruct new_line_head as [s Hs]. split.
  - by rewrite valid_utf8_app.
  - right. rewrite Hs. eexists _, _. split; [by rewrite str_app_cons|done].
Qed.

Lemma new_sequence : get_of "sequence" new_entry = JInt (Z.of_nat (length es) + 1).
Proof.
  destruct Hnb. unfold new_entry. erewrite entry_object by done. cbn [get_of].
  by erewrite entry_get.
Qed.

Lemma new_batch_id : get_of "batch_id" new_entry = JStr bid.
Proof.
  destruct Hnb. unfold new_entry. erewrite entry_object by done. cbn [get_of].
  erewrite entry_get by done. cbn [String.eqb Ascii.eqb Bool.eqb].
  destruct nb_request0 as [-> _ _ _ _ _ _]. done.
Qed.

Lemma bid_utf8 : valid_utf8 bid = true.
Proof.
  destruct Hnb. destruct nb_request0 as [-> _ _ _ _ _ _]. cbn [get_of] in nb_id0.
  destruct (json_wf_get "batch_id" fs nb_wf0) as [E|E]; rewrite nb_id0 in E; [done|].
  exact E.
Qed.

Lemma revision_safe : is_safe_integer (Z.of_nat (length es)) = true.
Proof.
  destruct Hnb. unfold is_safe_integer in *. split_bools.
  apply andb_true_iff. rewrite !Z.leb_le. unfold max_safe_integer in *. lia.
Qed.

(** *** The steps *)

Lemma pending_evidence :
  json_wf (JObj new_pending) = true ∧
  ∀ (I : file_map → Prop) L n p, L !! p = Some new_pending_text →
    execs I (verifyPersistedPending p new_pending) L n
      (Ok (pending_canon request new_entry new_line at_)) L n.
Proof.
  pose proof Hnb as [_ Hws _ _ Hsafe Hrev Hbid _ _ Hclock].
  pose proof new_sequence as Hseq. pose proof bid_utf8 as Hb. pose proof revision_safe as Hrs.
  pose proof new_line_text as Hl. apply andb_true_iff in Hl as [Hl _].
  split.
  - by eapply pending_wf.
  - intros I L n p. by eapply execs_verify_pending.
Qed.

(** The evidence of the new batch. *)
Definition new_evidence : Evidence :=
  MkEvidence (pending_name bid) new_entry new_line new_pending None.

Local Abbreviation pend := ((Pending, pending_name bid) : path).

Lemma execs_verify_tail (I : file_map → Prop) L n :
  journal_of text es → journal_at L new_text → L !! pend = Some new_pending_text →
  execs I (verify_tail new_evidence) L n (Ok tt) L n.
Proof.
  intros Hj Hat Hp. destruct (new_journal Hj) as [Hj' Hlines]. unfold verify_tail.
  eapply execs_bind; [by apply execs_readJournal|].
  eapply execs_bind; [by apply pending_evidence|]. cbn [j_entries j_text].
  rewrite last_snoc, Hlines, last_snoc.
  assert (get "sha256" (pending_canon request new_entry new_line at_)
    = JStr (sha256_hex new_line)) as ->.
  { pose proof Hnb as [_ Hws _ _ Hsafe Hrev Hbid _ _ Hclock].
    pose proof new_sequence as Hseq. pose proof bid_utf8 as Hb. pose proof revision_safe as Hrs.
    pose proof new_line_text as Hl. apply andb_true_iff in Hl as [Hl _].
    erewrite pending_get by done. done. }
  cbn [ev_entry new_evidence]. rewrite !get_of_canon by apply new_entry_wf.
  rewrite new_sequence, new_batch_id. cbn [canon strict_eq].
  rewrite Z.eqb_refl, !String.eqb_refl. apply execs_throw_if_false.
Qed.

(** The replay after the commit, and what the callbacks do. *)
Context (r : Replay).
Hypothesis Hreplay : replay_journal (MkJournal (es ++ [canon new_entry]) new_text) [] JNull = Ok r.
Local Abbreviation new_journal_state := (MkJournal (es ++ [canon new_entry]) new_text).
Hypothesis Hprojection : json_wf (projection_json new_journal_state r) = true.
Hypothesis Hproject : project new_entry = Ok tt.
Hypothesis Hpreflight : preflight = true → ∃ r0 s,
  replay_journal (MkJournal es text) [] JNull = Ok r0 ∧ reduce_batch (r_state r0) new_entry = Ok s.

(** The directory after the commit. *)
Definition committed_files F : file_map :=
  replaced projection_path (projection_text new_journal_state r) (replaced journal_path new_text F).

(** What is to be seen of the commit on its way. *)
Definition new_view F n : commit_view :=
  MkCommitView (F !! journal_path) (F !! projection_path) new_text
    (projection_text new_journal_state r) (pending_name bid) new_pending_text
    (temp_path pend (random_hex 8 n)).2.

Lemma execs_preflight (I : file_map → Prop) L n :
  journal_of text es → journal_at L text → execs I (preflightProjection new_entry) L n (Ok tt) L n.
Proof.
  intros Hj Hat. unfold preflightProjection. destruct preflight eqn:E; [|apply execs_ret].
  destruct (Hpreflight eq_refl) as (r0 & s & H1' & H2').
  eapply execs_bind.
  { unfold replay. eapply execs_bind; [by apply execs_readJournal|].
    rewrite H1'. apply execs_lift. }
  rewrite H2'. eapply execs_bind; [apply execs_lift|apply execs_ret].
Qed.

Lemma execs_write_pending (I : file_map → Prop) L n :
  L !! pend = None → L !! temp_path pend (random_hex 8 n) = None →
  (∀ t, I (<[temp_path pend (random_hex 8 n) := t]> L)) → I (<[pend := new_pending_text]> L) →
  execs I (write_pending new_evidence) L n (Ok tt) (<[pend := new_pending_text]> L) (S n).
Proof.
  intros Hp Hfree HI1 HI2. unfold write_pending. cbn [ev_recovered ev_fields ev_name new_evidence].
  rewrite (canonicalJson_print _ (json_wf_plain _ (proj1 pending_evidence))).
  eapply execs_bind; [apply execs_lift|].
  change (print (canon (JObj new_pending)) +:+ newline) with new_pending_text.
  rewrite <- (replaced_absent pend) by done. apply execs_replace; [done| |apply execs_ret].
  split_and!; [done|done|by rewrite Hp|]. by rewrite replaced_absent.
Qed.

Lemma looks_start F :
  (∀ b, F !! ((Pending, b) : path) = None) → looks (F !! journal_path) (F !! projection_path) None F.
Proof. by intros. Qed.

(** From the evidence on disk to the published projection, with what follows. *)
Lemma execs_publication (v : commit_view) m (ev : Evidence) (K : io unit) L n R F' n' :
  v_journal' v = new_text → v_projection' v = projection_text new_journal_state r →
  v_name v = pending_name bid → v_text v = new_pending_text →
  project (ev_entry ev) = Ok tt →
  (∀ L n, journal_at L new_text → L !! pend = Some new_pending_text →
    execs (crash_state v) (verify_tail ev) L n (Ok tt) L n) →
  lock_wf m → owned m L → fresh_names L → journal_at L text → journal_of text es →
  looks (v_journal v) (v_projection v) (Some (v_name v, v_text v)) L →
  execs (crash_state v) K (committed_files L) (S (S n)) R F' n' →
  execs (crash_state v)
    (run replaceFileAtomic journal_path new_text (assertJournalAuthority m text) in
     run assertJournalAuthority m new_text in
     run verify_tail ev in
     do* _ := rebuildProjectionsLocked m new_text in
     run lift (project (ev_entry ev)) in
     run assertJournalAuthority m new_text in K) L n R F' n'.
Proof.
  intros Vj Vp Vn Vt Hpr Htail Hw Ho1 Hf1 Hat1 Hj Hl1 HK.
  assert (∀ F1 F2, agree F1 F2 → crash_state v F2 → crash_state v F1) as HI
    by apply crash_state_agree.
  destruct (new_journal Hj) as [Hj' Hlines].
  assert (own_text new_text) as Hown by (apply new_own_text, Hat1).
  (* the journal *)
  set (L2 := replaced journal_path new_text L) in *.
  assert (looks (Some (v_journal' v)) (v_projection v) (Some (v_name v, v_text v))
    (<[journal_path := new_text]> L)) as Hl2' by (rewrite Vj; by eapply looks_journal).
  assert (looks (Some (v_journal' v)) (v_projection v) (Some (v_name v, v_text v)) L2) as Hl2.
  { unfold L2, replaced. rewrite Vj. eapply looks_journal. destruct (L !! journal_path); [|exact Hl1].
    apply looks_beside; [apply beside_backup|exact Hl1]. }
  eapply execs_bind.
  { apply execs_replace; [apply Hf1| |].
    - apply replace_crashes_beside; try done; [by exists Evident|by exists Journaled].
    - apply execs_authority; [done|by apply staged_owned|].
      eapply journal_at_lookup; [|exact Hat1]. by apply staged_journal. }
  fold L2.
  assert (owned m L2) as Ho2 by (unfold owned, L2; by rewrite replaced_lookup_ne).
  assert (fresh_names L2) as Hf2.
  { apply fresh_replaced; [done|apply not_temp_journal|apply not_temp_journal_bak]. }
  assert (journal_at L2 new_text) as Hat2.
  { split; [done|]. left. unfold L2, replaced. by rewrite lookup_insert_eq. }
  assert (L2 !! pend = Some new_pending_text) as Hp2.
  { destruct Hl2 as (_ & _ & ->). rewrite Vn, Vt. by case_decide. }
  eapply execs_bind; [by apply execs_authority|].
  eapply execs_bind; [by apply Htail|].
  (* the projection *)
  eapply execs_bind.
  { eapply execs_rebuild; try done.
    - by exists Journaled.
    - exists Projected. rewrite <- Vp. by eapply looks_projection. }
  fold (committed_files L) in *. rewrite Hpr. eapply execs_bind; [apply execs_lift|].
  assert (owned m (committed_files L)) as Ho3.
  { unfold owned, committed_files. by rewrite !replaced_lookup_ne. }
  eapply execs_bind; [|exact HK]. apply execs_authority; [done..|].
  eapply journal_at_lookup; [|exact Hat2]. unfold committed_files.
  by rewrite (replaced_lookup_ne projection_path).
Qed.

Lemma committed_looks (v : commit_view) L :
  v_journal' v = new_text → v_projection' v = projection_text new_journal_state r →
  looks (v_journal v) (v_projection v) (Some (v_name v, v_text v)) L →
  looks (Some (v_journal' v)) (Some (v_projection' v)) (Some (v_name v, v_text v))
    (committed_files L).
Proof.
  intros -> -> (_ & _ & Hp). unfold committed_files. split_and!.
  - rewrite replaced_lookup_ne by done. unfold replaced. by rewrite lookup_insert_eq.
  - unfold replaced at 1. by rewrite lookup_insert_eq.
  - intros b. by rewrite !replaced_lookup_ne.
Qed.

Lemma committed_under m k F : committed_files (under m k F) = under m k (committed_files F).
Proof. unfold committed_files. by rewrite !replaced_under. Qed.

Lemma execs_publish m k F n :
  lock_wf m → (∀ b, F !! ((Pending, b) : path) = None) → fresh_names F → journal_at F text →
  journal_of text es →
  execs (crash_state (new_view F n)) (publish m (MkJournal es text) new_evidence)
    (under m k F) n (Ok tt) (under m k (committed_files F)) (S (S (S n))).
Proof.
  intros Hw Hpend Hfresh Hat Hj. set (v := new_view F n).
  set (L := under m k F). assert (agree L F) as HLF by apply agree_under.
  assert (looks (v_journal v) (v_projection v) None L) as Hl0.
  { eapply looks_agree; [exact HLF|]. by apply looks_start. }
  assert (owned m L) as Ho by apply under_owned.
  assert (fresh_names L) as HfL by by apply fresh_under.
  assert (journal_at L text) as HatL by (eapply journal_at_lookup; [apply HLF|done]).
  unfold publish. cbn [j_text ev_entry ev_line ev_recovered ev_name new_evidence]. fold new_text.
  eapply execs_bind; [by apply execs_preflight|].
  (* the evidence *)
  set (L1 := <[pend := new_pending_text]> L).
  assert (looks (v_journal v) (v_projection v) (Some (v_name v, v_text v)) L1) as Hl1
    by by apply looks_pending_insert.
  eapply execs_bind.
  { apply execs_write_pending; [|apply HfL| |].
    - destruct HLF as (_ & _ & HLF). rewrite HLF. apply Hpend.
    - intros t. exists Staging, t. by apply looks_pending_insert.
    - by exists Evident. }
  fold L1.
  eapply (execs_publication v m new_evidence); try done.
  - intros L' n'. by apply execs_verify_tail.
  - unfold owned, L1. by rewrite lookup_insert_ne.
  - apply fresh_insert; [done|apply not_temp_pending].
  - eapply journal_at_lookup; [|exact HatL]. unfold L1. by rewrite lookup_insert_ne.
  - (* the evidence is removed *)
    assert (committed_files L1 = <[pend := new_pending_text]> (under m k (committed_files F))) as E.
    { unfold L1, L. rewrite <- committed_under. unfold committed_files.
      by rewrite !replaced_insert_ne. }
    assert (delete pend (committed_files L1) = under m k (committed_files F)) as <-.
    { rewrite E. apply delete_insert_id. rewrite under_lookup by done.
      unfold committed_files. by rewrite !replaced_lookup_ne. }
    eapply execs_unlinkIfPresent; [by rewrite E, lookup_insert_eq|].
    exists Done. eapply looks_pending_delete. by eapply committed_looks.
Qed.
End NewBatch.
End Commit.
