(* ===== verification/CommitTheorems.v ===== *)
(** What a commit promises: it appends exactly one entry to a valid journal or leaves the
    directory as it was, it is idempotent, one revision takes one batch, and a crash at any point
    leaves the journal as it was or with the new entry and the evidence recovery needs. *)

From Stdlib Require Import ZArith Lia Ascii String Permutation Sorted.
From stdpp Require Import base tactics list gmap strings option pretty.
From S2P Require Import Prelude JsString JsDate Json JsonText JsonCanon Validator FileStore EventLock EventJournal EventStore LockProps BatchProps CommitFrame CommitProps.

(** ** Validation at another sequence number *)

Lemma get_snoc_ne k k' v fs : k ≠ k' → get k (fs ++ [(k', v)]) = get k fs.
Proof.
  intros Hne. induction fs as [|[k2 v2] fs IH]; simpl.
  - by destruct (String.eqb_spec k k').
  - by destruct (String.eqb k k2).
Qed.

Lemma keys_snoc k v fs : keys (fs ++ [(k, v)]) = keys fs ++ [k].
Proof. unfold keys. by rewrite map_app. Qed.

Lemma decode_batch_sequence fs a b :
  "sequence" ∉ keys fs → (0 <= b)%Z →
  is_Some (decode_batch (JObj (fs ++ [("sequence", JInt a)]))) →
  is_Some (decode_batch (JObj (fs ++ [("sequence", JInt b)]))).
Proof.
  intros Hk Hb [x Hx]. unfold decode_batch, exact_object in *. cbn [object_of mbind option_bind] in *.
  unfold has_own in *.
  change (map fst (fs ++ [("sequence", JInt a)])) with (keys (fs ++ [("sequence", JInt a)])) in Hx.
  change (map fst (fs ++ [("sequence", JInt b)])) with (keys (fs ++ [("sequence", JInt b)])).
  rewrite keys_snoc in *. destruct (_ && _); [|done]. cbn [mbind option_bind] in *.
  rewrite (get_app "sequence") in * by done. cbn [get String.eqb Ascii.eqb Bool.eqb integer_of] in *.
  apply Z.leb_le in Hb. rewrite Hb. rewrite !get_snoc_ne in * by done.
  destruct (0 <=? a)%Z; [|done]. cbn [mbind option_bind] in *.
  destruct (integer_of 0 (get "expected_revision" fs)); [|done]. cbn [mbind option_bind] in *.
  destruct (text_of (get "batch_id" fs)); [|done]. cbn [mbind option_bind] in *.
  destruct (object_of (get "actor" fs)) as [actor|]; [|done]. cbn [mbind option_bind] in *.
  destruct (_ && _); [|done]. cbn [mbind option_bind] in *.
  destruct (get "type" actor); try done. cbn [mbind option_bind] in *.
  destruct (enum_find _ _); [|done]. cbn [mbind option_bind] in *.
  destruct (text_of (get "id" actor)); [|done]. cbn [mbind option_bind] in *.
  destruct (text_of (get "correlation_id" fs)); [|done]. cbn [mbind option_bind] in *.
  destruct (array_of (get "events" fs)); [|done]. cbn [mbind option_bind] in *.
  destruct (mapM decode_event _) as [[|e es]|]; done.
Qed.

Section Theorems.
Context `{NumberText, Sha256, Platform, StoreOptions, !PlatformLaws, !Sha256Laws}.
Implicit Types (F : file_map) (n : nat).

Lemma request_ok_validates request next core fs :
  request_ok request next core fs → validateRequest request next = Ok core.
Proof.
  intros [-> R1 R2 R3 -> R4 R5]. cbn [validateRequest].
  assert (∀ k, k ∉ keys fs → has_own fs k = false) as Hown.
  { intros k' Hk. unfold has_own. by apply includes_false. }
  rewrite !Hown by done. unfold set_sequence. rewrite set_field_fresh by done.
  rewrite R4. by rewrite bool_decide_eq_true_2.
Qed.

Lemma validate_again request next core fs next' :
  request_ok request next core fs → (0 <= next')%Z →
  ∃ core', validateRequest request next' = Ok core'.
Proof.
  intros [-> H1' H2' H3' -> Hb Hev] Hpos. cbn [validateRequest].
  assert (∀ k, k ∉ keys fs → has_own fs k = false) as Hown.
  { intros k Hk. unfold has_own. by apply includes_false. }
  rewrite !Hown by done. cbn [orb].
  unfold set_sequence. rewrite set_field_fresh by done.
  apply event_batch_is_Some in Hb. apply (decode_batch_sequence _ _ next') in Hb; try done.
  apply event_batch_is_Some in Hb. rewrite Hb. rewrite bool_decide_eq_true_2 by done. eauto.
Qed.

(** ** Finding a batch *)

Lemma find_none {A} (p : A → bool) l : (∀ x, x ∈ l → p x = false) → find p l = None.
Proof.
  induction l as [|x l IH]; intros Hp; [done|]. simpl. rewrite (Hp x) by left.
  apply IH. intros y Hy. apply Hp. by right.
Qed.

Lemma find_none_inv {A} (p : A → bool) l : find p l = None → ∀ x, x ∈ l → p x = false.
Proof. intros Hf x Hx. eapply List.find_none; [exact Hf|]. by apply list_elem_of_In. Qed.

Lemma same_batch_id e request bid :
  get_of "batch_id" request = JStr bid →
  strict_eq (get_of "batch_id" e) (get_of "batch_id" request) = true → batch_id_of e = bid.
Proof.
  intros ->. unfold batch_id_of. rewrite get_str_of. destruct (get_of "batch_id" e); try done.
  simpl. by intros ->%String.eqb_eq.
Qed.

Lemma find_batch_none es request bid :
  get_of "batch_id" request = JStr bid → bid ∉ batch_ids es →
  find (λ e, strict_eq (get_of "batch_id" e) (get_of "batch_id" request)) es = None.
Proof.
  intros Hb Hnin. apply find_none. intros e He. apply not_true_iff_false. intros Heq.
  apply (same_batch_id _ _ _ Hb) in Heq. apply Hnin. unfold batch_ids.
  apply list_elem_of_fmap. by exists e.
Qed.

Lemma no_known_event (request : json) (es : list json) :
  (∀ i, i ∈ event_ids_of request → i ∉ event_ids es) →
  existsb (includes (concat (map event_ids_of es))) (event_ids_of request) = false.
Proof.
  intros Hev. apply not_true_iff_false. intros (i & Hi & Hin)%existsb_exists.
  apply includes_true in Hin. apply (Hev i); [by apply list_elem_of_In|done].
Qed.

Lemma execs_no_pending (I : file_map → Prop) F n recovery :
  (∀ b, F !! ((Pending, b) : path) = None) →
  execs I (assertNoUnresolvedPending recovery) F n (Ok tt) F n.
Proof.
  intros Hp. unfold assertNoUnresolvedPending. eapply execs_bind; [apply execs_read_dir|].
  assert (names_in Pending F = []) as -> by by apply names_in_nil.
  apply execs_throw_if_false.
Qed.

(** ** The commit of a new batch *)

(** The callbacks succeed on the new entry: the replay of the longer journal, the projected text,
    the preflight when it is on, and the [project] callback. *)
Record callbacks_ok (es : list json) (text : string) (core : json) (at_ : string) (r : Replay)
    : Prop := {
  cb_replay : replay_journal (MkJournal (es ++ [canon (new_entry core at_)]) (new_text text core at_))
                [] JNull = Ok r;
  cb_projection : json_wf (projection_json
    (MkJournal (es ++ [canon (new_entry core at_)]) (new_text text core at_)) r) = true;
  cb_project : project (new_entry core at_) = Ok tt;
  cb_preflight : preflight = true → ∃ r0 s,
    replay_journal (MkJournal es text) [] JNull = Ok r0 ∧
    reduce_batch (r_state r0) (new_entry core at_) = Ok s;
}.

Section New.
Context (F : file_map) (n : nat) (es : list json) (text : string) (request core : json).
Context (fs : fields) (bid at_ : string) (r : Replay).
Hypothesis Hq : quiet F es text.
Hypothesis Hnb : new_batch es request core fs bid at_.
Hypothesis Hcb : callbacks_ok es text core at_ r.
Hypothesis Hclock : store_clock (3 + n) = JStr at_.

Definition after_commit : file_map := committed_files es text core at_ r F.
Definition commit_trace_view : commit_view :=
  new_view es text request core bid at_ r F (4 + n).

Lemma after_commit_other q :
  q ≠ journal_path → q ≠ add_suffix journal_path ".bak" → q ≠ projection_path →
  q ≠ add_suffix projection_path ".bak" → after_commit !! q = F !! q.
Proof. intros. unfold after_commit, committed_files. by rewrite !replaced_lookup_ne. Qed.

Lemma after_commit_names q :
  is_Some (after_commit !! q) →
  q = journal_path ∨ q = add_suffix journal_path ".bak" ∨ q = projection_path ∨
  q = add_suffix projection_path ".bak" ∨ is_Some (F !! q).
Proof.
  intros Hs. destruct (decide (q = journal_path)); [by left|].
  destruct (decide (q = add_suffix journal_path ".bak")); [by right; left|].
  destruct (decide (q = projection_path)); [by right; right; left|].
  destruct (decide (q = add_suffix projection_path ".bak")); [by do 3 right; left|].
  do 4 right. by rewrite after_commit_other in Hs.
Qed.

Lemma after_commit_looks :
  looks (Some (new_text text core at_)) (Some (v_projection' commit_trace_view)) None after_commit.
Proof.
  destruct Hq as [_ _ Hp _ _ _ _]. unfold after_commit, committed_files. split_and!.
  - rewrite replaced_lookup_ne by done. unfold replaced at 1. by rewrite lookup_insert_eq.
  - unfold replaced at 1. by rewrite lookup_insert_eq.
  - intros b. by rewrite !replaced_lookup_ne.
Qed.

Lemma after_commit_quiet :
  quiet after_commit (es ++ [canon (new_entry core at_)]) (new_text text core at_).
Proof.
  destruct after_commit_looks as (Hj & _ & Hp). destruct Hq as [Q1 Q2 Q3 Q4 Q5 Q6 Q7].
  split.
  - by rewrite after_commit_other.
  - intros b Hs. apply after_commit_names in Hs
      as [[= ->]|[[= ->]|[[=]|[[=]|Hs]]]]; [by vm_compute..|]. by apply Q2.
  - exact Hp.
  - intros p Hs. apply after_commit_names in Hs
      as [->|[->|[->|[->|Hs]]]]; [by vm_compute..|]. by apply Q4.
  - unfold after_commit, committed_files.
    apply fresh_replaced; [|apply not_temp_projection|apply not_temp_projection_bak].
    apply fresh_replaced; [done|apply not_temp_journal|apply not_temp_journal_bak].
  - split; [|by left]. eapply new_own_text; [exact Hnb|]. apply Q6.
  - by eapply new_journal.
Qed.

Lemma execs_prepare (I : file_map → Prop) L :
  execs I (prepare_evidence request core (Z.of_nat (length es) + 1) None) L (3 + n)
    (Ok (new_evidence request core bid at_)) L (4 + n).
Proof.
  unfold prepare_evidence. eapply execs_bind; [apply execs_tick|].
  rewrite Hclock. destruct Hnb as [_ _ _ _ _ _ Hbid _ _ Hutc]. rewrite Hutc. cbn [negb].
  eapply execs_bind; [apply execs_throw_if_false|]. cbv zeta.
  change (entry_of core (JStr at_)) with (new_entry core at_).
  rewrite (new_entry_canonical es request core fs bid at_ Hnb).
  eapply execs_bind; [apply execs_lift|].
  unfold new_evidence. assert (batch_id_of request = bid) as ->; [|apply execs_ret].
  unfold batch_id_of. by rewrite get_str_of, Hbid.
Qed.

Lemma execs_commit_new m k :
  lock_wf m →
  execs (crash_state commit_trace_view) (commit_guarded m (MkJournal es text) request None)
    (under m k F) (3 + n)
    (Ok (MkResult Committed (JInt (Z.of_nat (length es) + 1)), None))
    (under m k after_commit) (7 + n).
Proof.
  intros Hw. destruct Hq as [Q1 Q2 Q3 Q4 Q5 Q6 Q7].
  pose proof Hnb as [_ _ Hrq _ _ Hrev Hbid Hnew Hevents _].
  unfold commit_guarded.
  eapply execs_bind.
  { apply execs_no_pending. intros b. rewrite under_lookup; [apply Q3|done|done]. }
  eapply execs_bind.
  { apply execs_undecided. unfold under.
    apply undecided_insert; [|by apply conflict_free_publication].
    apply undecided_insert; [done|apply conflict_free_lock]. }
  cbn [j_entries]. rewrite (find_batch_none es request bid Hbid Hnew).
  eapply execs_bind.
  { unfold commit_new. cbn [j_entries]. rewrite Hrev. cbn [strict_eq]. rewrite Z.eqb_refl.
    eapply execs_bind; [apply execs_throw_if_false|].
    rewrite (request_ok_validates _ _ _ _ Hrq).
    eapply execs_bind; [apply execs_lift|].
    rewrite (no_known_event request es Hevents).
    eapply execs_bind; [apply execs_throw_if_false|].
    eapply execs_bind; [apply execs_prepare|].
    eapply execs_bind.
    { destruct Hcb. by eapply execs_publish. }
    cbn [ev_entry ev_recovered new_evidence].
    rewrite (new_sequence es request core fs bid at_ Hnb). apply execs_ret. }
  cbv beta iota. apply execs_ret.
Qed.

Lemma execs_commit :
  execs (crash_state commit_trace_view) (commit request None) F n
    (Ok (MkResult Committed (JInt (Z.of_nat (length es) + 1)))) after_commit (9 + n).
Proof.
  pose proof Hq as [Q1 Q2 Q3 Q4 Q5 Q6 Q7].
  pose proof Hnb as [[Hh1 Hh2] _ Hrq _ _ Hrev Hbid _ _ _].
  pose proof after_commit_quiet as [A1 A2 _ _ _ _ _].
  destruct (validate_again _ _ _ _ 0 Hrq) as [core0 Hcore0]; [done|].
  pose proof (revision_safe es request core fs bid at_ Hnb) as Hsafe.
  eapply (commit_runs _ request None core0 (Z.of_nat (length es)) F n es text
    (Ok (MkResult Committed (JInt (Z.of_nat (length es) + 1)), None)) after_commit (7 + n));
    try done; try lia.
  - apply crash_state_agree.
  - exists Untouched. by split_and!.
  - exists Done. apply after_commit_looks.
  - intros x. by apply quiet_free.
  - apply execs_commit_new. apply acquired_wf; try done. lia.
Qed.
End New.

(** ** The store as a log

    The specification of [commit]: a log of entries with compare-and-append on the revision,
    idempotent on a batch the log already holds. *)
Definition log_commit (es : list json) (request entry : json) : res CommitResult * list json :=
  match find (λ e, strict_eq (get_of "batch_id" e) (get_of "batch_id" request)) es with
  | Some e =>
      (match same_request e request with
       | Ok true => Ok (MkResult Idempotent (get_of "sequence" e))
       | Ok false => Err BATCH_CONFLICT
       | Err x => Err x
       end, es)
  | None =>
      if negb (strict_eq (get_of "expected_revision" request) (JInt (Z.of_nat (length es))))
      then (Err REVISION_CONFLICT, es)
      else if existsb (includes (event_ids es)) (event_ids_of request)
      then (Err DUPLICATE_EVENT, es)
      else (Ok (MkResult Committed (JInt (Z.of_nat (length es) + 1))), es ++ [canon entry])
  end.

(** Requests that pass validation. *)
Record valid_request (request : json) (fs : fields) (bid : string) (rev : Z) : Prop := {
  vr_wf : json_wf request = true;
  vr_ok : ∀ next, (0 <= next)%Z → ∃ core, request_ok request next core fs;
  vr_id : get_of "batch_id" request = JStr bid;
  vr_revision : get_of "expected_revision" request = JInt rev;
  vr_rev_safe : (0 <= rev)%Z ∧ is_safe_integer rev = true;
}.

Lemma validate_valid request core0 :
  json_wf request = true → validateRequest request 0 = Ok core0 →
  ∃ fs bid rev, valid_request request fs bid rev.
Proof.
  intros Hw Hv. destruct (validateRequest_Ok _ _ _ Hv) as [fs Hrq]. exists fs.
  pose proof Hrq as [-> R1 R2 R3 R4 R5 R6].
  assert (event_batch_ok (JObj (fs ++ [("sequence", JInt 0)])) = true) as Hb by (by rewrite <- R4).
  apply event_batch_is_Some in Hb as [x Hx]. unfold decode_batch in Hx.
  destruct (exact_object _ _) as [fs'|] eqn:Ex; [|done]. cbn [mbind option_bind] in Hx.
  assert (fs' = fs ++ [("sequence", JInt 0)]) as ->.
  { unfold exact_object in Ex. cbn [object_of mbind option_bind] in Ex.
    destruct (_ && _); [|done]. by injection Ex. }
  rewrite !get_snoc_ne in Hx by done.
  destruct (integer_of 0 (get "sequence" _)); [|done]. cbn [mbind option_bind] in Hx.
  destruct (integer_of 0 (get "expected_revision" fs)) as [rev|] eqn:Er; [|done].
  cbn [mbind option_bind] in Hx.
  destruct (text_of (get "batch_id" fs)) as [bid|] eqn:Eb; [|done].
  exists bid, rev. split; try done.
  - intros next Hn. destruct (validate_again _ _ _ _ next Hrq Hn) as [core Hc].
    apply validateRequest_Ok in Hc as [fs2 Hc]. exists core.
    pose proof Hc as [Hfs _ _ _ _ _ _]. by injection Hfs as <-.
  - cbn [get_of]. destruct (get "batch_id" fs); try done. simpl in Eb.
    destruct (some_line_char s); [by injection Eb as ->|done].
  - cbn [get_of]. destruct (get "expected_revision" fs) as [| | |k| | | | | |]; try done.
    cbn [integer_of] in Er. destruct (0 <=? k)%Z; [by injection Er as ->|done].
  - destruct (json_wf_get "expected_revision" fs Hw) as [E|E];
      destruct (get "expected_revision" fs) as [| | |k| | | | | |]; try done.
    cbn [integer_of] in Er. destruct (0 <=? k)%Z eqn:Ez; [|done]. injection Er as ->.
    split; [by apply Z.leb_le|exact E].
Qed.

(** A guarded part that changes nothing. *)
Lemma execs_commit_unchanged F n es text request core0 fs bid rev
    (r : res CommitResult) :
  quiet F es text → blank hostId = false → valid_utf8 hostId = true →
  valid_request request fs bid rev → validateRequest request 0 = Ok core0 →
  (∀ (I : file_map → Prop) m k, I F → lock_wf m →
    execs I (commit_guarded m (MkJournal es text) request None) (under m k F) (3 + n)
      (match r with Ok a => Ok (a, None) | Err e => Err e end) (under m k F) (3 + n)) →
  execs (λ F', F' !! journal_path = F !! journal_path) (commit request None) F n r F (5 + n).
Proof.
  intros [Q1 Q2 Q3 Q4 Q5 Q6 Q7] Hh1 Hh2 [V1 V2 V3 V4 [V5 V6]] Hv Hbody.
  assert (r = match (match r with Ok a => Ok (a, @None string) | Err e => Err e end) with
    | Ok (result, Some name) => match F !! ((Pending, name) : path) with
        | Some _ => Err PENDING_VERIFY_FAILED | None => Ok result end
    | Ok (result, None) => Ok result
    | Err e => Err e end) as Hr by (by destruct r).
  rewrite Hr at 1.
  eapply (commit_runs _ request None core0 rev F n es text _ F (3 + n)); try done.
  - intros F1 F2 (E & _) E2. by rewrite E.
  - intros x. by apply quiet_free.
  - apply Hbody; [done|]. apply acquired_wf; try done.
Qed.

Lemma execs_guards (I : file_map → Prop) F m k n :
  (∀ b, F !! ((Pending, b) : path) = None) → undecided_free F → lock_wf m →
  execs I (assertNoUnresolvedPending None) (under m k F) n (Ok tt) (under m k F) n ∧
  execs I assertNoUnresolvedUserDecision (under m k F) n (Ok tt) (under m k F) n.
Proof.
  intros Hp Hu Hw. split.
  - apply execs_no_pending. intros b. by rewrite under_lookup.
  - apply execs_undecided. unfold under.
    apply undecided_insert; [|by apply conflict_free_publication].
    apply undecided_insert; [done|apply conflict_free_lock].
Qed.

(** When the log decides without appending, the store does the same and changes nothing. *)
Lemma execs_commit_decided F n es text request core0 fs bid rev entry :
  quiet F es text → blank hostId = false → valid_utf8 hostId = true →
  valid_request request fs bid rev → validateRequest request 0 = Ok core0 →
  (log_commit es request entry).2 = es →
  execs (λ F', F' !! journal_path = F !! journal_path) (commit request None) F n
    (log_commit es request entry).1 F (5 + n).
Proof.
  intros Hq Hh1 Hh2 Hvr Hv Hlog. pose proof Hq as [Q1 Q2 Q3 Q4 Q5 Q6 Q7].
  eapply execs_commit_unchanged; try done. intros I m k HI Hw.
  destruct (execs_guards I F m k (3 + n) Q3 Q4 Hw) as [G1 G2].
  unfold commit_guarded. eapply execs_bind; [exact G1|]. eapply execs_bind; [exact G2|].
  unfold log_commit, event_ids in *. cbn [j_entries].
  destruct (find _ es) as [e|]; cbn [fst snd] in *.
  - unfold commit_existing. destruct (same_request e request) as [[]|x].
    + eapply execs_bind.
      { eapply execs_bind.
        { eapply execs_bind; [apply execs_ret|]. eapply execs_bind; [apply execs_lift|].
          eapply execs_bind; [apply execs_throw_if_false|]. apply execs_ret. }
        cbv beta iota. eapply execs_bind; [apply execs_ret|apply execs_ret]. }
      cbv beta iota. apply execs_ret.
    + apply execs_bind_Err, execs_bind_Err.
      eapply execs_bind; [apply execs_ret|]. eapply execs_bind; [apply execs_lift|].
      apply execs_bind_Err, execs_throw_if_true.
    + apply execs_bind_Err, execs_bind_Err.
      eapply execs_bind; [apply execs_ret|]. apply execs_bind_Err, execs_lift.
  - unfold commit_new. cbn [j_entries].
    destruct (strict_eq _ _) eqn:Erev; cbn [negb fst snd] in *.
    + destruct Hvr as [V1 V2 V3 V4 V5]. destruct (V2 (Z.of_nat (length es) + 1)%Z) as [core Hc];
        [lia|].
      destruct (validate_again _ _ _ _ (Z.of_nat (length es) + 1)%Z Hc) as [core' Hcore']; [lia|].
      destruct (existsb _ _) eqn:Edup; cbn [fst snd] in *.
      * apply execs_bind_Err. eapply execs_bind; [apply execs_throw_if_false|]. rewrite Hcore'.
        eapply execs_bind; [apply execs_lift|]. apply execs_bind_Err, execs_throw_if_true.
      * exfalso. apply (f_equal length) in Hlog. rewrite length_app in Hlog. simpl in Hlog. lia.
    + apply execs_bind_Err, execs_bind_Err, execs_throw_if_true.
Qed.

(** ** Identity of a committed request *)

Lemma canonicalJson_canon_fields l :
  canonicalJson (JObj (map canon_field l)) = canonicalJson (JObj l).
Proof.
  rewrite <- (canonicalJson_canon (JObj l)), <- (canonicalJson_canon (JObj (map canon_field l))).
  rewrite !canon_object. do 2 f_equal.
  rewrite (isort_map canon_field field_leb field_leb) by (by intros [] []).
  rewrite map_map. apply map_ext. intros [k v]. simpl. by rewrite canon_idem.
Qed.

Lemma requestIdentity_canon v : json_wf v = true → requestIdentity (canon v) = requestIdentity v.
Proof.
  intros Hw. unfold requestIdentity, canonicalHash. rewrite !get_of_canon by done.
  by rewrite <- (canonicalJson_canon_fields [("expected_revision", get_of "expected_revision" v);
    ("batch_id", get_of "batch_id" v); ("actor", get_of "actor" v);
    ("correlation_id", get_of "correlation_id" v); ("events", get_of "events" v)]).
Qed.

Lemma plain_get_of k v : json_wf v = true → get_of k v = JUndef ∨ plain (get_of k v) = true.
Proof.
  destruct v; try (by left). intros Hw. unfold get_of.
  destruct (json_wf_get k _ Hw) as [->|E]; [by left|right; by apply json_wf_plain].
Qed.

Lemma get_own k fs : k ∈ keys fs → json_wf (JObj fs) = true → json_wf (get k fs) = true.
Proof.
  intros Hk [Hnd Hw]%json_wf_fields. unfold keys in Hk.
  apply list_elem_of_fmap in Hk as ([k' v] & -> & Hin). simpl.
  rewrite (get_elem_of _ _ _ Hnd Hin). by apply Hw in Hin as [_ ?].
Qed.

(** The fields of a batch are there. *)
Lemma batch_fields_own request next core fs k :
  request_ok request next core fs →
  k ∈ ["expected_revision"; "batch_id"; "actor"; "correlation_id"; "events"] → k ∈ keys fs.
Proof.
  intros [_ _ _ _ -> Hb _] Hk. apply event_batch_is_Some in Hb as [x Hx].
  unfold decode_batch, exact_object in Hx. cbn [object_of mbind option_bind] in Hx.
  destruct (forallb (has_own _) _) eqn:Eown; [|done].
  rewrite forallb_forall in Eown.
  assert (has_own (fs ++ [("sequence", JInt next)]) k = true) as Ho.
  { apply Eown. apply list_elem_of_In. set_solver. }
  unfold has_own in Ho. apply includes_true in Ho.
  fold (keys (fs ++ [("sequence", JInt next)])) in Ho. rewrite keys_snoc in Ho.
  apply elem_of_app in Ho as [?|Ho]; [done|].
  apply list_elem_of_singleton in Ho as ->. set_solver.
Qed.

Lemma requestIdentity_Ok request next core fs :
  request_ok request next core fs → json_wf request = true →
  ∃ h, requestIdentity request = Ok h.
Proof.
  intros Hrq Hw. pose proof Hrq as [-> _ _ _ _ _ _]. unfold requestIdentity, canonicalHash.
  rewrite canonicalJson_print; [by eexists|]. cbn [get_of plain forallb].
  assert (∀ k, k ∈ ["expected_revision"; "batch_id"; "actor"; "correlation_id"; "events"] →
    plain (get k fs) = true) as Hp.
  { intros k Hk. apply json_wf_plain, get_own; [|done]. by eapply batch_fields_own. }
  rewrite !Hp by set_solver. done.
Qed.

Section Again.
Context (es : list json) (request core : json) (fs : fields) (bid at_ : string).
Hypothesis Hnb : new_batch es request core fs bid at_.

Lemma new_entry_get k :
  k ∈ ["expected_revision"; "batch_id"; "actor"; "correlation_id"; "events"] →
  get_of k (new_entry core at_) = get_of k request.
Proof.
  intros Hk. destruct Hnb as [_ _ Hrq _ _ _ _ _ _ _]. unfold new_entry.
  erewrite entry_object by done. cbn [get_of]. erewrite entry_get by done.
  destruct Hrq as [-> _ _ _ _ _ _].
  repeat (apply elem_of_cons in Hk as [->|Hk]; [done|]). by apply not_elem_of_nil in Hk.
Qed.

Lemma same_request_entry : same_request (canon (new_entry core at_)) request = Ok true.
Proof.
  pose proof Hnb as [_ _ Hrq Hw _ _ _ _ _ _]. unfold same_request.
  assert (requestIdentity (canon (new_entry core at_)) = requestIdentity request) as ->.
  { rewrite requestIdentity_canon by (by eapply new_entry_wf). unfold requestIdentity.
    by rewrite !new_entry_get by set_solver. }
  destruct (requestIdentity_Ok _ _ _ _ Hrq Hw) as [h ->]. simpl. by rewrite String.eqb_refl.
Qed.

Lemma find_app_none {A} (p : A → bool) l l' : find p l = None → find p (l ++ l') = find p l'.
Proof. induction l as [|x l IH]; [done|]. simpl. by destruct (p x). Qed.

Lemma find_new_entry :
  find (λ e, strict_eq (get_of "batch_id" e) (get_of "batch_id" request))
    (es ++ [canon (new_entry core at_)]) = Some (canon (new_entry core at_)).
Proof.
  pose proof Hnb as [_ _ _ _ _ _ Hbid Hnew _ _].
  rewrite find_app_none by (by eapply find_batch_none). simpl.
  rewrite get_of_canon by (by eapply new_entry_wf).
  rewrite (new_batch_id es request core fs bid at_ Hnb), Hbid. simpl. by rewrite String.eqb_refl.
Qed.

Lemma log_commit_again entry :
  log_commit (es ++ [canon (new_entry core at_)]) request entry =
  (Ok (MkResult Idempotent (JInt (Z.of_nat (length es) + 1))), es ++ [canon (new_entry core at_)]).
Proof.
  unfold log_commit. rewrite find_new_entry, same_request_entry.
  rewrite get_of_canon by (by eapply new_entry_wf).
  by rewrite (new_sequence es request core fs bid at_ Hnb).
Qed.
End Again.

(** ** The promises *)

(** The batch a request makes at a sequence number. *)
Definition core_of (request : json) (next : Z) : json :=
  match validateRequest request next with Ok core => core | Err _ => JUndef end.

(** The entry [commit] makes of a request when the journal holds [es]. *)
Definition entry_for (es : list json) (request : json) (at_ : string) : json :=
  new_entry (core_of request (Z.of_nat (length es) + 1)) at_.

(** A store, a clock and a request that [commit] can be called with. *)
Record commit_call (n : nat) (es : list json) (request core0 : json) (at_ : string) : Prop := {
  cc_host : blank hostId = false ∧ valid_utf8 hostId = true;
  cc_workspace : valid_utf8 workspaceId = true;
  cc_wf : json_wf request = true;
  cc_valid : validateRequest request 0 = Ok core0;
  cc_safe : is_safe_integer (Z.of_nat (length es) + 1) = true;
  cc_clock : store_clock (3 + n) = JStr at_;
  cc_utc : isUtcTimestamp (JStr at_) = true;
}.

(** The log appends the entry exactly when the batch is new, at the revision, with new events. *)
Lemma log_commit_appends es request entry :
  (log_commit es request entry).2 = es ∨
  (log_commit es request entry).2 = es ++ [canon entry] ∧
  (log_commit es request entry).1 = Ok (MkResult Committed (JInt (Z.of_nat (length es) + 1))) ∧
  find (λ e, strict_eq (get_of "batch_id" e) (get_of "batch_id" request)) es = None ∧
  strict_eq (get_of "expected_revision" request) (JInt (Z.of_nat (length es))) = true ∧
  existsb (includes (event_ids es)) (event_ids_of request) = false.
Proof.
  unfold log_commit. destruct (find _ es); [by left|].
  destruct (strict_eq _ _); [|by left]. destruct (existsb _ _); [by left|]. by right.
Qed.

Lemma appended_new_batch n es request core0 at_ :
  commit_call n es request core0 at_ →
  (∀ e, e ∈ es → ∃ fs, e = JObj fs ∧ event_batch_ok (entry_core fs) = true) →
  find (λ e, strict_eq (get_of "batch_id" e) (get_of "batch_id" request)) es = None →
  strict_eq (get_of "expected_revision" request) (JInt (Z.of_nat (length es))) = true →
  existsb (includes (event_ids es)) (event_ids_of request) = false →
  ∃ fs bid, new_batch es request (core_of request (Z.of_nat (length es) + 1)) fs bid at_.
Proof.
  intros [Hhost Hws Hw Hv Hsafe _ Hutc] Hes Hfind Hrev Hev.
  destruct (validate_valid _ _ Hw Hv) as (fs & bid & rev & [V1 V2 V3 V4 V5]).
  exists fs, bid.
  destruct (V2 (Z.of_nat (length es) + 1)%Z) as [core Hcore]; [lia|].
  destruct (validate_again _ _ _ _ (Z.of_nat (length es) + 1)%Z Hcore) as [core' Hcore']; [lia|].
  assert (core' = core) as ->.
  { apply validateRequest_Ok in Hcore' as [fs2 [E1 _ _ _ E2 _ _]].
    destruct Hcore as [E3 _ _ _ E4 _ _]. rewrite E1 in E3. injection E3 as ->. congruence. }
  unfold core_of. rewrite Hcore'. split; try done.
  - rewrite V4 in *. simpl in Hrev. apply Z.eqb_eq in Hrev. congruence.
  - intros Hin. unfold batch_ids in Hin. apply list_elem_of_fmap in Hin as (e & Hid & He).
    pose proof (find_none_inv _ _ Hfind e He) as Hne. simpl in Hne. rewrite V3 in Hne.
    destruct (Hes e He) as (gs & -> & Hok).
    apply event_batch_is_Some in Hok as [x Hx]. unfold decode_batch in Hx.
    destruct (exact_object _ _) as [gs'|] eqn:Ex; [|done]. cbn [mbind option_bind] in Hx.
    assert (gs' = remove_field "committed_at" (remove_field "journal_version" gs)) as ->.
    { unfold exact_object, entry_core in Ex. cbn [object_of mbind option_bind] in Ex.
      destruct (_ && _); [|done]. by injection Ex. }
    destruct (integer_of 0 (get "sequence" _)); [|done]. cbn [mbind option_bind] in Hx.
    destruct (integer_of 0 (get "expected_revision" _)); [|done]. cbn [mbind option_bind] in Hx.
    rewrite !get_remove in Hx. cbn [String.eqb Ascii.eqb Bool.eqb] in Hx.
    unfold batch_id_of in Hid. rewrite get_str_of in Hid. cbn [get_of] in *.
    destruct (get "batch_id" gs); try done. simpl in Hne, Hid. subst.
    by rewrite String.eqb_refl in Hne.
  - intros i Hi Hin. apply not_true_iff_false in Hev. apply Hev, existsb_exists.
    exists i. split; [by apply list_elem_of_In|by apply includes_true].
Qed.
End Theorems.
