(* ===== verification/StoreTheorems.v ===== *)
(** What the event store promises, as theorems: [commit] is an atomic compare-and-append on a log,
    a repeated request is idempotent, and a crash at any point of a commit leaves the old or the
    new journal with the evidence recovery needs.

    The first part is the source cursor of a replay: a replay over a journal that has grown is
    [advanced], over the same journal [unchanged], over a shorter one [rewound], and no replay is
    called advanced unless the prefix of the journal is what the cursor signed. *)

From Stdlib Require Import ZArith Lia Ascii String Permutation Sorted.
From stdpp Require Import base tactics list gmap strings option pretty.
From S2P Require Import Prelude JsString JsDate Json JsonText JsonCanon Validator FileStore.
From S2P Require Import EventLock EventJournal EventStore LockProps BatchProps.
From S2P Require Import CommitFrame CommitProps CommitTheorems.

(** ** Prefixes of the text *)

Lemma split_lines_app ls rest :
  forallb line_of ls = true → split_lines (join_lines ls +:+ rest) = ls ++ split_lines rest.
Proof.
  induction ls as [|l ls IH]; intros Hl; [by rewrite str_app_nil|].
  cbn [forallb] in Hl. apply andb_true_iff in Hl as [Hl Hls].
  cbn [join_lines fold_right]. fold (join_lines ls). rewrite !str_app_assoc.
  rewrite (split_lines_line l _ Hl). by rewrite (IH Hls).
Qed.

Lemma journal_lines_app text rest :
  text = "" ∨ ends_with_newline text = true →
  journal_lines (text +:+ rest) = journal_lines text ++ journal_lines rest.
Proof.
  intros Ht. rewrite <- (join_journal_lines text Ht) at 1. unfold journal_lines at 1.
  rewrite split_lines_app by apply journal_lines_line_of.
  rewrite removelast_app by apply split_lines_nonempty. done.
Qed.

Section Cursor.
Context `{NumberText, Sha256, StoreOptions, !Sha256Laws}.
Implicit Types (c : Cursor) (es : list json) (text : string).

(** The prefix of a grown journal is the journal it grew from. *)
Lemma journalPrefix_grown text rest es :
  journal_of text es → journalPrefix (text +:+ rest) (length es) = text.
Proof.
  intros (Ht & HF & _)%journal_of_iff. pose proof (Forall2_length _ _ _ HF) as Hlen.
  unfold journalPrefix. destruct es as [|e es]; simpl length.
  - destruct (journal_lines text) as [|] eqn:E; [|done].
    rewrite <- (join_journal_lines text Ht). by rewrite E.
  - rewrite journal_lines_app by done. rewrite take_app_le by (simpl in Hlen; lia).
    rewrite firstn_all2 by (simpl in Hlen; lia). by apply join_journal_lines.
Qed.

(** ** Cursors *)

(** What [validateCursor] accepts. *)
Record cursor_ok c : Prop := {
  co_sequence : is_safe_integer (c_sequence c) = true ∧ (0 <= c_sequence c)%Z;
  co_batch : c_last_batch c = JNull ∨ ∃ s, c_last_batch c = JStr s;
  co_journal : hex_pattern 64 (c_journal_hash c) = true;
  co_projection : hex_pattern 64 (c_projection_hash c) = true;
}.

Lemma validateCursor_json c : cursor_ok c → validateCursor (cursor_json c) = Ok c.
Proof.
  intros [[H1' H2'] H3' H4' H5']. destruct c as [n b j p].
  cbn [c_sequence c_last_batch c_journal_hash c_projection_hash] in *.
  unfold validateCursor, cursor_json. cbn [c_sequence c_last_batch c_journal_hash
    c_projection_hash get String.eqb Ascii.eqb Bool.eqb].
  rewrite H1', H4', H5'. apply Z.leb_le in H2'. rewrite H2'.
  by destruct H3' as [->|[s ->]].
Qed.

Lemma cursor_plain c : cursor_ok c → plain (cursor_json c) = true.
Proof.
  intros [_ Hb _ _]. destruct c as [n b j p]. cbn [c_last_batch] in Hb.
  by destruct Hb as [->|[s ->]].
Qed.

Lemma cursor_wf c :
  cursor_ok c → json_wf (c_last_batch c) = true → json_wf (cursor_json c) = true.
Proof.
  intros [[H1' _] _ H2' H3'] Hb. destruct c as [n b j p].
  cbn [c_sequence c_last_batch c_journal_hash c_projection_hash] in *.
  unfold cursor_json. cbn [json_wf forallb c_sequence c_last_batch c_journal_hash
    c_projection_hash]. rewrite H1', Hb.
  rewrite !(printable_utf8 _ (hex_line _ _ H2')), !(printable_utf8 _ (hex_line _ _ H3')).
  rewrite bool_decide_eq_true_2; [done|].
  repeat (apply NoDup_cons_2; [set_solver|]). apply NoDup_nil_2.
Qed.

Lemma same_print l r :
  plain l = true → plain r = true → same l r = Ok (String.eqb (print (canon l)) (print (canon r))).
Proof. intros Hl Hr. unfold same. by rewrite (canonicalJson_print _ Hl), (canonicalJson_print _ Hr). Qed.

Lemma same_refl v : plain v = true → same v v = Ok true.
Proof. intros Hp. rewrite same_print by done. by rewrite String.eqb_refl. Qed.

(** Cursors with the same canonical text are the same. *)
Lemma same_cursor c c' :
  cursor_ok c → cursor_ok c' → json_wf (c_last_batch c) = true → json_wf (c_last_batch c') = true →
  same (cursor_json c) (cursor_json c') = Ok true → c = c'.
Proof.
  intros Hc Hc' Hb Hb'. pose proof (cursor_wf c Hc Hb) as Hw. pose proof (cursor_wf c' Hc' Hb') as Hw'.
  rewrite (same_print _ _ (json_wf_plain _ Hw) (json_wf_plain _ Hw')).
  intros E. assert (String.eqb (print (canon (cursor_json c))) (print (canon (cursor_json c'))) = true)
    as E'%String.eqb_eq by congruence. clear E; rename E' into E.
  assert (canon (cursor_json c) = canon (cursor_json c')) as Hcanon.
  { apply (f_equal JSON_parse) in E. rewrite !parse_print in E by by apply json_wf_canon.
    congruence. }
  assert (∀ k, canon (get_of k (cursor_json c)) = canon (get_of k (cursor_json c'))) as Hk.
  { intros k. rewrite <- !get_of_canon by done. by rewrite Hcanon. }
  pose proof (Hk "journalSequence") as E1. pose proof (Hk "lastBatchId") as E2.
  pose proof (Hk "journalHash") as E3. pose proof (Hk "projectionHash") as E4.
  destruct Hc as [_ Hl _ _], Hc' as [_ Hl' _ _].
  destruct c as [n b j p], c' as [n' b' j' p']. cbn [c_last_batch] in *.
  cbn in E1, E2, E3, E4.
  destruct Hl as [->|[s ->]], Hl' as [->|[s' ->]]; simpl in E2; congruence.
Qed.

(** The entries of a valid journal are objects whose core is a valid batch. *)
Definition batch_entry (e : json) : Prop :=
  ∃ fs, e = JObj fs ∧ event_batch_ok (entry_core fs) = true.

Lemma journal_entries_shape text es : journal_of text es → Forall batch_entry es.
Proof.
  intros (_ & _ & Hok)%journal_of_iff. apply Forall_forall. intros e [i Hi]%list_elem_of_lookup.
  destruct (Hok i e Hi) as (fs & -> & _ & Hb & _). by exists fs.
Qed.

Lemma last_Forall {A} (P : A → Prop) l x : Forall P l → last l = Some x → P x.
Proof.
  intros HF [l' ->]%last_Some. apply Forall_app in HF as [_ HF]. by apply Forall_inv in HF.
Qed.

(** The cursor of the entries of a journal can be given back. *)
Lemma last_batch_ok es :
  Forall batch_entry es → last_batch_id es = JNull ∨ ∃ s, last_batch_id es = JStr s.
Proof.
  intros HF. unfold last_batch_id.
  destruct (last es) as [e|] eqn:El; [|by left].
  destruct (last_Forall _ _ _ HF El) as (fs & -> & Hb).
  apply event_batch_is_Some in Hb as [x Hx]. unfold decode_batch in Hx.
  destruct (exact_object _ _) as [gs|] eqn:Ex; [|done]. cbn [mbind option_bind] in Hx.
  assert (gs = remove_field "committed_at" (remove_field "journal_version" fs)) as ->.
  { unfold exact_object, entry_core in Ex. cbn [object_of mbind option_bind] in Ex.
    destruct (_ && _); [|done]. by injection Ex. }
  destruct (integer_of 0 (get "sequence" _)); [|done]. cbn [mbind option_bind] in Hx.
  destruct (integer_of 0 (get "expected_revision" _)); [|done]. cbn [mbind option_bind] in Hx.
  rewrite !get_remove in Hx. cbn [String.eqb Ascii.eqb Bool.eqb] in Hx. cbn [get_of].
  destruct (get "batch_id" fs); try done.
  match goal with |- match ?t with _ => _ end = _ ∨ _ => destruct t end;
    [by left|right; by eexists].
Qed.

Lemma cursorFor_ok text es state c :
  journal_of text es → is_safe_integer (Z.of_nat (length es)) = true →
  cursorFor es text state = Ok c →
  cursor_ok c ∧ c_sequence c = Z.of_nat (length es) ∧ c_journal_hash c = sha256_hex text.
Proof.
  intros Hj Hs. unfold cursorFor, canonicalHash.
  destruct (canonicalJson state) as [t|]; [|done]. simpl. intros [= <-]. split; [|done].
  split; simpl; [split; [done|lia]|by eapply last_batch_ok, journal_entries_shape|apply sha256_hex_pattern..].
Qed.

(** The same of the cursor of a prefix. *)
Lemma cursorFor_take text es n p state c :
  journal_of text es → is_safe_integer (Z.of_nat (length es)) = true →
  cursorFor (take n es) p state = Ok c → cursor_ok c.
Proof.
  intros Hj Hs. unfold cursorFor, canonicalHash.
  destruct (canonicalJson state) as [t|]; [|done]. simpl. intros [= <-].
  split; simpl; [|by eapply last_batch_ok, Forall_take, journal_entries_shape|apply sha256_hex_pattern..].
  rewrite length_take. split; [|lia]. unfold is_safe_integer in *. split_bools.
  apply andb_true_iff. rewrite !Z.leb_le. unfold max_safe_integer in *. lia.
Qed.

Lemma last_batch_wf es :
  Forall batch_entry es → Forall (λ e, json_wf e = true) es → json_wf (last_batch_id es) = true.
Proof.
  intros HF Hwf. pose proof (last_batch_ok es HF) as Ho. unfold last_batch_id in *.
  destruct (last es) as [e|] eqn:El; [|done].
  destruct (last_Forall _ _ _ HF El) as (fs & -> & _).
  pose proof (last_Forall _ _ _ Hwf El) as Hw. cbn [get_of] in *.
  destruct (json_wf_get "batch_id" fs Hw) as [E|E].
  - rewrite E in Ho. by destruct Ho as [|[s ?]].
  - destruct (get "batch_id" fs); try done. by destruct s.
Qed.

Lemma replay_journal_parts text es prefixes r :
  replay_journal (MkJournal es text) prefixes JNull = Ok r →
  forallb (λ batch, forallb (unclaimed prefixes) (get_array "events" batch)) es = true ∧
  reduceEntries es = Ok (r_state r) ∧ cursorFor es text (r_state r) = Ok (r_cursor r).
Proof.
  unfold replay_journal. cbn [j_entries j_text]. destruct (forallb _ es); [|done].
  destruct (reduceEntries es) as [s|]; [|done]. simpl.
  destruct (cursorFor es text s) as [c|] eqn:Ec; [|done]. simpl. by intros [= <-].
Qed.

(** A replay after a cursor is the replay, with its continuity. *)
Lemma replay_after text es prefixes after r (k : continuity) :
  replay_journal (MkJournal es text) prefixes JNull = Ok r →
  continuityFor after es text (r_cursor r) = Ok k →
  replay_journal (MkJournal es text) prefixes after = Ok (MkReplay (r_state r) (r_cursor r) k).
Proof.
  intros (H1' & H2' & H3')%replay_journal_parts Hc. unfold replay_journal. cbn [j_entries j_text].
  rewrite H1', H2'. simpl. rewrite H3'. simpl. by rewrite Hc.
Qed.

Lemma continuity_given c es text current :
  cursor_ok c →
  continuityFor (cursor_json c) es text current =
  if (c_sequence current <? c_sequence c)%Z then Ok Rewound else
  if (c_sequence current =? c_sequence c)%Z then
    let* eq := same (cursor_json current) (cursor_json c) in
    Ok (if eq then Unchanged else Diverged)
  else
    let n := Z.to_nat (c_sequence c) in
    let* state := reduceEntries (take n es) in
    let* prefix := cursorFor (take n es) (journalPrefix text n) state in
    let* eq := same (cursor_json prefix) (cursor_json c) in
    Ok (if eq then Advanced else Diverged).
Proof.
  intros Hc. unfold continuityFor. rewrite (validateCursor_json c Hc). by destruct c.
Qed.

(** Continuity of a replay: after its own cursor it is unchanged; after the cursor of an
    earlier replay, when the journal has grown since, it is advanced, with the state and the
    cursor of a replay from the start; and the shorter journal after the later cursor is
    rewound. *)
Theorem replay_continuity text es rest es' prefixes r0 r :
  journal_of text es → journal_of (text +:+ rest) (es ++ es') → es' ≠ [] →
  is_safe_integer (Z.of_nat (length (es ++ es'))) = true →
  replay_journal (MkJournal es text) prefixes JNull = Ok r0 →
  replay_journal (MkJournal (es ++ es') (text +:+ rest)) prefixes JNull = Ok r →
  replay_journal (MkJournal es text) prefixes (cursor_json (r_cursor r0)) =
    Ok (MkReplay (r_state r0) (r_cursor r0) Unchanged) ∧
  replay_journal (MkJournal (es ++ es') (text +:+ rest)) prefixes (cursor_json (r_cursor r0)) =
    Ok (MkReplay (r_state r) (r_cursor r) Advanced) ∧
  replay_journal (MkJournal es text) prefixes (cursor_json (r_cursor r)) =
    Ok (MkReplay (r_state r0) (r_cursor r0) Rewound).
Proof.
  intros Hj Hj' Hne Hs Hr0 Hr.
  pose proof (replay_journal_parts _ _ _ _ Hr0) as (_ & Hred0 & Hcur0).
  pose proof (replay_journal_parts _ _ _ _ Hr) as (_ & _ & Hcur).
  assert (is_safe_integer (Z.of_nat (length es)) = true) as Hs0.
  { unfold is_safe_integer in *. rewrite length_app in Hs. split_bools.
    apply andb_true_iff. rewrite !Z.leb_le. unfold max_safe_integer in *. lia. }
  destruct (cursorFor_ok _ _ _ _ Hj Hs0 Hcur0) as (Hok0 & Hq0 & _).
  destruct (cursorFor_ok _ _ _ _ Hj' Hs Hcur) as (Hok & Hq & _).
  assert (length (es ++ es') = length es + length es' ∧ 0 < length es') as [Hlen Hpos].
  { rewrite length_app. destruct es'; [done|simpl; lia]. }
  split_and!; eapply replay_after; try eassumption; rewrite continuity_given by done.
  - rewrite Z.ltb_irrefl, Z.eqb_refl, same_refl by by apply cursor_plain. done.
  - rewrite (proj2 (Z.ltb_ge _ _)) by lia. rewrite (proj2 (Z.eqb_neq _ _)) by lia. cbv zeta.
    rewrite Hq0, Nat2Z.id, take_app_length, Hred0. simpl.
    rewrite journalPrefix_grown by done. rewrite Hcur0. simpl.
    rewrite same_refl by by apply cursor_plain. done.
  - rewrite (proj2 (Z.ltb_lt _ _)) by lia. done.
Qed.

(** A replay is called advanced only when the cursor given is the cursor of a proper prefix of
    the journal: its entries reduce to the state the cursor signed and its text has the hash the
    cursor signed; it is called unchanged only when the cursor given is the journal's own. *)
Theorem continuity_sound text es state current c k :
  journal_of text es → Forall (λ e, json_wf e = true) es →
  is_safe_integer (Z.of_nat (length es)) = true → cursorFor es text state = Ok current →
  cursor_ok c → json_wf (c_last_batch c) = true →
  continuityFor (cursor_json c) es text current = Ok k →
  (k = Advanced → (c_sequence c < Z.of_nat (length es))%Z ∧
    ∃ s, reduceEntries (take (Z.to_nat (c_sequence c)) es) = Ok s ∧
      c_last_batch c = last_batch_id (take (Z.to_nat (c_sequence c)) es) ∧
      c_journal_hash c = sha256_hex (journalPrefix text (Z.to_nat (c_sequence c))) ∧
      canonicalHash s = Ok (c_projection_hash c)) ∧
  (k = Unchanged → c = current).
Proof.
  intros Hj Hwf Hs Hcur Hc Hb. rewrite continuity_given by done.
  destruct (cursorFor_ok _ _ _ _ Hj Hs Hcur) as (Hok & Hq & _).
  assert (last_batch_id es = c_last_batch current) as Hlast.
  { unfold cursorFor in Hcur. destruct (canonicalHash state); [|done]. by injection Hcur as <-. }
  destruct (Z.ltb_spec (c_sequence current) (c_sequence c)) as [|Hge]; [by intros [= <-]|].
  destruct (Z.eqb_spec (c_sequence current) (c_sequence c)) as [|Hne].
  - destruct (same _ _) as [[]|] eqn:Es; simpl; try by intros [= <-].
    intros [= <-]. split; [done|]. intros _. symmetry.
    apply same_cursor; try done. rewrite <- Hlast. apply last_batch_wf; [|done].
    by eapply journal_entries_shape.
  - cbv zeta. set (n := Z.to_nat (c_sequence c)).
    destruct (reduceEntries (take n es)) as [s|] eqn:Er; [|done]. simpl.
    destruct (cursorFor _ _ s) as [p|] eqn:Ep; [|done]. simpl.
    destruct (same _ _) as [[]|] eqn:Es; simpl; try by intros [= <-].
    intros [= <-]. split; [|done]. intros _. split; [lia|]. exists s.
    clearbody n. assert (p = c) as ->.
    { assert (last_batch_id (take n es) = c_last_batch p) as Hlp.
      { unfold cursorFor in Ep. destruct (canonicalHash s); [|done]. by injection Ep as <-. }
      apply same_cursor; try done.
      - eapply cursorFor_take; [exact Hj|..]; done.
      - rewrite <- Hlp. apply last_batch_wf; apply Forall_take; [|done].
        by eapply journal_entries_shape. }
    unfold cursorFor in Ep. destruct (canonicalHash s) as [h|] eqn:Eh; [|done].
    by injection Ep as <-.
Qed.
End Cursor.

(** * The theorems *)

Section StoreTheorems.
Context `{NumberText, Sha256, Platform, StoreOptions, !PlatformLaws, !Sha256Laws}.
Implicit Types (F : file_map) (n : nat).

(** ** Helpers *)

(** The log takes the entry of this call. *)
Definition appends (es : list json) (request : json) (at_ : string) : Prop :=
  (log_commit es request (entry_for es request at_)).2 =
    es ++ [canon (entry_for es request at_)].

Lemma appends_or_not es request at_ :
  (log_commit es request (entry_for es request at_)).2 = es ∨
  (appends es request at_ ∧
   (log_commit es request (entry_for es request at_)).1 =
     Ok (MkResult Committed (JInt (Z.of_nat (length es) + 1)))).
Proof.
  destruct (log_commit_appends es request (entry_for es request at_)) as [?|(H1' & H2' & _)];
    [by left|by right].
Qed.

Lemma appends_new_batch n text es request core0 at_ :
  journal_of text es → commit_call n es request core0 at_ → appends es request at_ →
  ∃ fs bid, new_batch es request (core_of request (Z.of_nat (length es) + 1)) fs bid at_.
Proof.
  intros Hj Hc Ha. destruct (log_commit_appends es request (entry_for es request at_))
    as [E|(_ & _ & Hf & Hr & He)].
  - exfalso. unfold appends in Ha. rewrite E in Ha. apply (f_equal length) in Ha.
    rewrite length_app in Ha. simpl in Ha. lia.
  - eapply appended_new_batch; try done.
    apply Forall_forall. by eapply journal_entries_shape.
Qed.

(** The text of the journal with the new entry, and what the commit of it leaves. *)
Definition appended_text (es : list json) (text : string) (request : json) (at_ : string) : string :=
  new_text text (core_of request (Z.of_nat (length es) + 1)) at_.
Definition appended_files (es : list json) (text : string) (request : json) (at_ : string)
    (r : Replay) F : file_map :=
  after_commit F es text (core_of request (Z.of_nat (length es) + 1)) at_ r.

(** The store, the log and the callbacks that a new entry runs through. *)
Record append_call F n (es : list json) (text : string) (request core0 : json) (at_ : string)
    (r : Replay) : Prop := {
  ac_quiet : quiet F es text;
  ac_call : commit_call n es request core0 at_;
  ac_appends : appends es request at_;
  ac_callbacks : callbacks_ok es text (core_of request (Z.of_nat (length es) + 1)) at_ r;
}.

Lemma execs_append F n es text request core0 at_ r :
  append_call F n es text request core0 at_ r →
  ∃ bid,
  execs (crash_state (commit_trace_view F n es text request
      (core_of request (Z.of_nat (length es) + 1)) bid at_ r)) (commit request None) F n
    (Ok (MkResult Committed (JInt (Z.of_nat (length es) + 1))))
    (appended_files es text request at_ r F) (9 + n) ∧
  quiet (appended_files es text request at_ r F) (es ++ [canon (entry_for es request at_)])
    (appended_text es text request at_) ∧
  get_of "batch_id" request = JStr bid.
Proof.
  intros [Hq Hc Ha Hcb]. pose proof Hq as [_ _ _ _ _ _ Hj].
  destruct (appends_new_batch _ _ _ _ _ _ Hj Hc Ha) as (fs & bid & Hnb). exists bid.
  split_and!.
  - eapply execs_commit; try done. by destruct Hc.
  - by eapply after_commit_quiet.
  - by destruct Hnb.
Qed.

(** A call that the log decides without appending. *)
Lemma execs_decided F n es text request core0 at_ entry :
  quiet F es text → commit_call n es request core0 at_ → (log_commit es request entry).2 = es →
  execs (λ F', F' !! journal_path = F !! journal_path) (commit request None) F n
    (log_commit es request entry).1 F (5 + n).
Proof.
  intros Hq [[Hh1 Hh2] _ Hw Hv _ _ _] Hlog.
  destruct (validate_valid _ _ Hw Hv) as (fs & bid & rev & Hvr).
  by eapply execs_commit_decided.
Qed.

(** What a reader finds in a state of a commit on its way. *)
Lemma crash_state_reads (v : commit_view) F F' (es : list json) (text text' : string) (es' : list json) (I : file_map → Prop) n :
  journal_at F text → journal_of text es → own_text text' → journal_of text' es' →
  v_journal v = F !! journal_path → v_journal' v = text' → crash_state v F' →
  execs I (readJournal journal_path) F' n (Ok (MkJournal es text)) F' n ∨
  execs I (readJournal journal_path) F' n (Ok (MkJournal es' text')) F' n.
Proof.
  intros Hat Hj Ho Hj' E1 E2 [s Hs].
  assert (F' !! journal_path = F !! journal_path ∨ F' !! journal_path = Some text') as [E|E].
  { rewrite <- E1, <- E2. destruct s; simpl in Hs;
      [left; apply Hs|destruct Hs as [t Hs]; left; apply Hs|left; apply Hs|right; apply Hs..]. }
  - left. apply execs_readJournal; [|done]. by eapply journal_at_lookup.
  - right. apply execs_readJournal; [|done]. split; [done|by left].
Qed.

(** ** Round trips *)

Lemma entries_object es (g : json → json) :
  entries_ok 0 [] [] (map g es) → ∀ e, e ∈ es → ∃ fs, g e = JObj fs.
Proof.
  intros Hok e [i Hi]%list_elem_of_lookup.
  destruct (Hok i (g e)) as (fs & -> & _); [|by exists fs]. by rewrite list_lookup_fmap, Hi.
Qed.

(** C36: Canonical text is a normal form that reads back: the text [canonicalJson] writes of a value
    is parsed to the value with its fields sorted, which has the same canonical text; and it is one
    line of valid UTF-8, so it can be a line of the journal. *)
Theorem canonical_roundtrip v t :
  json_wf v = true → canonicalJson v = Ok t →
  JSON_parse t = Some (canon v) ∧ canonicalJson (canon v) = Ok t ∧ line_text t = true.
Proof.
  intros Hw Ht. destruct (canonical_text v t Hw Ht) as [-> Hp]. split_and!; [done|..].
  - by rewrite canonicalJson_canon.
  - by apply print_line, json_wf_canon.
Qed.

(** The text of a journal of these entries. *)
Definition journal_text (es : list json) : string := join_lines (map (λ e, print (canon e)) es).

(** C37: A journal reads back what was written to it: the canonical lines of acceptable entries —
    objects with the wrapper of their place, a valid batch and fresh ids — are read as these
    entries in this order. *)
Theorem journal_roundtrip es :
  Forall (λ e, json_wf e = true) es → entries_ok 0 [] [] (map canon es) →
  parse_journal (journal_text es) = inr (map canon es).
Proof.
  intros Hw Hok. change (journal_of (journal_text es) (map canon es)).
  assert (forallb line_of (map (λ e, print (canon e)) es) = true) as Hlines.
  { apply forallb_forall. intros l (e & <- & He)%in_map_iff. rewrite Forall_forall in Hw.
    pose proof (print_line (canon e)) as Hl. unfold line_text in Hl.
    apply andb_true_iff in Hl as [_ Hl]; [done|].
    by apply json_wf_canon, Hw, list_elem_of_In. }
  apply journal_of_iff. unfold journal_text. rewrite journal_lines_join by done.
  split_and!; [|clear Hlines|done].
  - destruct es as [|e es]; [by left|]. right. by apply ends_join.
  - apply Forall2_fmap_2. apply Forall_Forall2_diag, Forall_forall. intros e He.
    rewrite Forall_forall in Hw. specialize (Hw e He). split.
    + destruct (entries_object _ _ Hok e He) as [fs E]. rewrite E. simpl. by rewrite str_app_cons.
    + by apply parse_print, json_wf_canon.
Qed.

(** ** The promises *)

(** C3: [commit] refines the abstract log: on a quiet directory whose journal holds [es] it
    returns what compare-and-append on [es] returns — committed, idempotent, a conflict of batch,
    revision or event ids — leaves a quiet directory whose journal holds the log's entries, and
    changes no file when the log does not append. *)
Theorem commit_refines_log F n es text request core0 at_ :
  quiet F es text → commit_call n es request core0 at_ →
  (appends es request at_ →
    ∃ r, callbacks_ok es text (core_of request (Z.of_nat (length es) + 1)) at_ r) →
  let spec := log_commit es request (entry_for es request at_) in
  ∃ w text', commit request None (World F n []) = (spec.1, w) ∧
    quiet (files w) spec.2 text' ∧ (spec.2 = es → files w = F).
Proof.
  intros Hq Hc Hcb. destruct (appends_or_not es request at_) as [E|[Ha E1]].
  - destruct (execs_run _ _ _ _ _ _ _ (execs_decided _ _ _ _ _ _ _ _ Hq Hc E)) as (t & _ & Hrun).
    cbv zeta. rewrite Hrun. eexists _, text. rewrite !E. by split_and!.
  - destruct (Hcb Ha) as [r Hr].
    destruct (execs_append F n es text request core0 at_ r) as (bid & Hx & Hq' & _); [by split|].
    destruct (execs_run _ _ _ _ _ _ _ Hx) as (t & _ & Hrun). cbv zeta. rewrite Hrun.
    eexists _, _. rewrite E1. split; [done|]. unfold appends in Ha. rewrite !Ha. split; [exact Hq'|].
    intros E. apply (f_equal length) in E. rewrite length_app in E. simpl in E. lia.
Qed.

(** C4: A crash of the process at any point of the commit of a new batch leaves one of six states:
    nothing done, evidence being staged, evidence written, journal published, projection
    published, evidence removed; a reader of the journal finds the old entries or the old entries
    and the new one, never a torn journal. *)
Theorem commit_crash_safe F n es text request core0 at_ r :
  append_call F n es text request core0 at_ r →
  ∃ bid, get_of "batch_id" request = JStr bid ∧
  ∀ F', F' ∈ history (commit request None (World F n [])).2 →
    crash_state (commit_trace_view F n es text request
      (core_of request (Z.of_nat (length es) + 1)) bid at_ r) F' ∧
    let read := (readJournal journal_path (World F' n [])).1 in
    read = Ok (MkJournal es text) ∨
    read = Ok (MkJournal (es ++ [canon (entry_for es request at_)])
                 (appended_text es text request at_)).
Proof.
  intros Hac. destruct (execs_append _ _ _ _ _ _ _ _ Hac) as (bid & Hx & Hq' & Hb).
  exists bid. split; [done|]. intros F' Hin.
  destruct (execs_run _ _ _ _ _ _ _ Hx) as (t & Ht & Hrun). rewrite Hrun in Hin.
  rewrite Forall_forall in Ht. specialize (Ht F' Hin). split; [done|].
  destruct Hac as [[_ _ _ _ _ Hat Hj] _ _ _]. destruct Hq' as [_ _ _ _ _ [Ho _] Hj'].
  destruct (crash_state_reads (commit_trace_view F n es text request
      (core_of request (Z.of_nat (length es) + 1)) bid at_ r)
      F F' es text _ _ (λ _, True) n Hat Hj Ho Hj' eq_refl eq_refl Ht)
    as [(t1 & _ & E)|(t1 & _ & E)]; cbv zeta; rewrite E; [by left|by right].
Qed.

(** A request that is committed again, at any later time, is answered as idempotent with the
    sequence number of its first commit, and changes no file. *)
Theorem commit_idempotent F n k es text request core0 at_ r :
  append_call F n es text request core0 at_ r →
  let seq := JInt (Z.of_nat (length es) + 1) in
  ∃ w w', commit request None (World F n []) = (Ok (MkResult Committed seq), w) ∧
    commit request None (World (files w) k []) = (Ok (MkResult Idempotent seq), w') ∧
    files w' = files w ∧
    ∀ F', F' ∈ history w' → F' !! journal_path = files w !! journal_path.
Proof.
  intros Hac seq. destruct (execs_append _ _ _ _ _ _ _ _ Hac) as (bid & Hx & Hq' & Hb).
  destruct (execs_run _ _ _ _ _ _ _ Hx) as (t & _ & Hrun).
  destruct Hac as [Hq Hc Ha _]. pose proof Hq as [_ _ _ _ _ _ Hj].
  destruct (appends_new_batch _ _ _ _ _ _ Hj Hc Ha) as (fs & bid' & Hnb).
  pose proof (log_commit_again _ _ _ _ _ _ Hnb JNull) as Hlog.
  destruct Hc as [[Hh1 Hh2] _ Hw Hv _ _ _].
  destruct (validate_valid _ _ Hw Hv) as (gs & b2 & rev & Hvr).
  assert ((log_commit (es ++ [canon (entry_for es request at_)]) request JNull).2 =
    es ++ [canon (entry_for es request at_)]) as Hsnd by (unfold entry_for; by rewrite Hlog).
  destruct (execs_run _ _ _ _ _ _ _ (execs_commit_decided _ k _ _ _ _ _ _ _ _ Hq' Hh1 Hh2 Hvr Hv
    Hsnd)) as (t2 & Ht2 & Hrun2).
  exists (World (appended_files es text request at_ r F) (9 + n) t). eexists.
  split; [done|]. cbn [files]. split.
  - rewrite Hrun2. unfold entry_for. by rewrite Hlog.
  - split; [done|]. by apply Forall_forall.
Qed.
End StoreTheorems.
