(* ===== verification/RecoveryProps.v ===== *)
(** Recovery, proved: when the process that held the lock died with the evidence of a batch
    written, one application of the recovery releases the dead lock and the next one brings the
    interrupted commit to its end. *)

From Stdlib Require Import ZArith Lia Ascii String Permutation Sorted.
From stdpp Require Import base tactics list gmap strings option pretty.
From S2P Require Import Prelude JsString JsDate Json JsonText JsonCanon Validator FileStore.
From S2P Require Import EventLock EventJournal EventStore Recovery LockProps BatchProps.
From S2P Require Import CommitFrame CommitProps CommitTheorems StoreTheorems.

(** ** Lists and names *)

Lemma NoDup_single {A} (l : list A) x : NoDup l → (∀ y, y ∈ l ↔ y = x) → l = [x].
Proof.
  intros Hnd Hl. apply Permutation_singleton_r, NoDup_Permutation; [done|apply NoDup_singleton|].
  intros y. by rewrite Hl, list_elem_of_singleton.
Qed.

Lemma filter_elem {A} (p : A → bool) l x : x ∈ List.filter p l ↔ x ∈ l ∧ p x = true.
Proof. by rewrite !list_elem_of_In, List.filter_In. Qed.

Lemma filter_NoDup {A} (p : A → bool) l : NoDup l → NoDup (List.filter p l).
Proof. intros H. apply NoDup_ListNoDup in H. by apply NoDup_ListNoDup, List.NoDup_filter. Qed.

Lemma names_in_single (d : directory) (m : file_map) (n : string) :
  (∀ b, is_Some (m !! ((d, b) : path)) ↔ b = n) → names_in d m = [n].
Proof.
  intros H. apply NoDup_single; [apply names_in_NoDup|]. intros b. by rewrite elem_of_names_in.
Qed.

Section Recovery.
Context `{NumberText, Sha256, Platform, StoreOptions, RecoveryDigest, !PlatformLaws, !Sha256Laws}.
Implicit Types (F G : file_map) (n : nat) (I : file_map → Prop).

(** ** What a dead process leaves *)

(** A lock whose owner is dead, with the marker of its publication. *)
Record dead_lock (m : LockMetadata) (t : Transition) : Prop := {
  dl_lock : lock_wf m;
  dl_owner : classifyOwner (Some m) hostId ∈ [OwnerDead; OwnerIncarnationMismatch];
  dl_transition : transition_wf t;
  dl_owned : tr_nonce t = lm_nonce m ∧ tr_pid t = lm_pid m ∧ tr_host t = lm_host m ∧
    Some (tr_incarnation t) = lm_incarnation m;
}.

Definition left_by (m : LockMetadata) (t : Transition) G : file_map :=
  <[publication_path (lm_nonce m) := transition_text t]> (<[lock_path := lock_text m]> G).

Section Dead.
Context (m : LockMetadata) (t : Transition) (G : file_map).
Hypothesis Hdead : dead_lock m t.
Hypothesis Hlock : G !! lock_path = None.
Hypothesis Hno : no_transitions G.

Local Abbreviation mark := ("events.jsonl.lock.transition-" +:+ lm_nonce m +:+ "-publication").
Local Abbreviation F := (left_by m t G).

Lemma left_mark : F !! publication_path (lm_nonce m) = Some (transition_text t).
Proof. unfold left_by. by rewrite lookup_insert_eq. Qed.

Lemma left_owned : owned m F.
Proof.
  unfold owned, left_by. rewrite lookup_insert_ne by (symmetry; apply lock_not_publication).
  by rewrite lookup_insert_eq.
Qed.

Lemma left_transitions : List.filter (λ b, is_transition_name b || is_release_name b)
  (names_in Root F) = [mark].
Proof.
  apply NoDup_single; [apply filter_NoDup, names_in_NoDup|]. intros b.
  rewrite filter_elem, elem_of_names_in. unfold left_by. split.
  - intros [Hs Hb]. destruct (decide (b = mark)) as [|Hne]; [done|].
    rewrite lookup_insert_ne in Hs by (unfold publication_path; congruence).
    destruct (decide (lock_path = (Root, b))) as [E|E].
    + injection E as <-. done.
    + rewrite lookup_insert_ne in Hs by done. apply Hno in Hs. congruence.
  - intros ->. unfold publication_path. rewrite lookup_insert_eq. split; [by eexists|].
    assert (is_transition_name mark = true) as ->; [apply has_prefix_app|done].
Qed.

Lemma execs_left_transitions I n : execs I transitionPaths F n (Ok [mark]) F n.
Proof.
  unfold transitionPaths. eapply execs_bind; [apply execs_read_dir|].
  rewrite left_transitions. apply execs_ret.
Qed.

Lemma execs_left_inspect I n :
  execs I inspectJournalLock F n (Ok (MkView true (Some m) [mark])) F n.
Proof.
  unfold inspectJournalLock. eapply execs_bind.
  { apply execs_attempt. apply (execs_read_lock _ _ _ _ m); [apply Hdead|apply left_owned]. }
  eapply execs_bind; [apply execs_left_transitions|]. apply execs_ret.
Qed.

Lemma execs_left_owned I n : execs I (owned_transition m mark) F n (Ok true) F n.
Proof.
  destruct Hdead as [Hw _ Ht (H1' & H2' & H3' & H4')]. unfold owned_transition.
  assert (is_transition_name mark = true) as -> by apply has_prefix_app. cbn [negb].
  eapply execs_bind.
  { unfold read_transition_file. eapply execs_bind; [apply execs_read_file, left_mark|].
    rewrite parse_transition_text by done. apply execs_lift. }
  rewrite H1', H2', H3', String.eqb_refl, Z.eqb_refl, String.eqb_refl.
  rewrite bool_decide_eq_true_2 by done. apply execs_ret.
Qed.

Definition dead_report : LockReport :=
  MkLockReport true true (Some (dead_reason (classifyOwner (Some m) hostId))) (Some m) [mark].

Lemma execs_left_parse I n : execs I (parseLock None) F n (Ok dead_report) F n.
Proof.
  unfold parseLock. eapply execs_bind; [apply execs_left_inspect|].
  cbn [lv_transitions lv_metadata lv_exists]. cbv zeta.
  destruct Hdead as [Hw Ho _ _]. pose proof Hw as [Hv _ _ _ _ _ _].
  rewrite Hv. rewrite bool_decide_eq_true_2 by done. cbn [andb Z.eqb].
  eapply execs_bind.
  { eapply execs_bind.
    - apply execs_attempt. cbn [io_every]. eapply execs_bind; [apply execs_left_owned|].
      apply execs_ret.
    - apply execs_ret. }
  apply execs_ret.
Qed.

(** The dead owner's marker is removed, and its lock released. *)
Lemma execs_left_remove I n :
  (∀ F1 F2, agree F1 F2 → I F2 → I F1) → I G →
  execs I (removeDeadJournalLockTransitions m [mark]) F n (Ok tt) (<[lock_path := lock_text m]> G) n.
Proof.
  intros HI HG. unfold removeDeadJournalLockTransitions. cbv zeta.
  assert (sort_text [mark] = [mark]) as -> by done. cbn [io_each].
  eapply execs_bind.
  { eapply execs_bind; [|apply execs_ret].
    assert (is_transition_name mark = true) as -> by apply has_prefix_app.
    eapply execs_bind; [apply execs_throw_if_false|].
    eapply execs_bind; [apply execs_left_owned|]. apply execs_throw_if_false. }
  eapply execs_bind; [apply execs_left_transitions|].
  rewrite bool_decide_eq_true_2 by done.
  eapply execs_bind; [apply execs_throw_if_false|].
  eapply execs_bind; [apply execs_owned; [apply Hdead|apply left_owned]|].
  eapply execs_bind; [|apply execs_ret].
  assert (delete (publication_path (lm_nonce m)) F = <[lock_path := lock_text m]> G) as <-.
  { unfold left_by. apply delete_insert_id. rewrite lookup_insert_ne by apply lock_not_publication.
    by apply quiet_publication. }
  eapply execs_unlink; [apply left_mark|].
  unfold left_by. rewrite delete_insert_id.
  - eapply HI; [apply agree_insert, beside_lock|done].
  - rewrite lookup_insert_ne by apply lock_not_publication. by apply quiet_publication.
Qed.

Lemma execs_left_release I n :
  (∀ F1 F2, agree F1 F2 → I F2 → I F1) → I G →
  execs I (releaseJournalLock m) (<[lock_path := lock_text m]> G) n (Ok tt) G (S (S n)).
Proof.
  intros HI HG. assert (delete lock_path (<[lock_path := lock_text m]> G) = G) as <-.
  { by apply delete_insert_id. }
  rewrite (delete_insert_id G) at 1 by done.
  apply execs_release; [apply Hdead|unfold owned; by rewrite lookup_insert_eq| | |].
  - rewrite lookup_insert_ne by apply lock_not_transition. by apply quiet_transition.
  - rewrite lookup_insert_ne by apply lock_not_release. by apply quiet_release.
  - by apply release_crashes_beside.
Qed.
End Dead.

(** ** Inspection *)

(** No conflict waits for a decision, and a missing journal has no backup. *)
Definition calm F : Prop :=
  undecided_free F ∧ (F !! journal_path = None → F !! backup_path = None).

Lemma calm_no_conflict F : calm F → existsb conflicted_copy (names_in Root F) = false.
Proof.
  intros [Hu _]. apply not_true_iff_false. intros (b & Hb & Hc)%existsb_exists.
  apply list_elem_of_In, elem_of_names_in, Hu in Hb. unfold user_decision_artifact in Hb.
  cbn [fst snd] in Hb. by rewrite Hc, orb_true_r in Hb.
Qed.

Lemma calm_no_manifest F : calm F → readConflictManifests F = [].
Proof.
  intros [Hu _]. unfold readConflictManifests.
  assert (List.filter conflict_manifest_name (names_in Quarantine F) = []) as ->; [|done].
  rewrite filter_nil_forallb, forallb_forall. intros b Hb. apply negb_true_iff.
  apply list_elem_of_In, elem_of_names_in, Hu in Hb. unfold user_decision_artifact in Hb.
  cbn [fst snd] in Hb. by destruct (conflict_manifest_name b).
Qed.

(** What [inspect] chooses in a calm directory with a valid journal. *)
Definition calm_choice F (id : string) (lock : LockReport) (j : Journal) : Choice :=
  if lr_exists lock then
    if lr_eligible lock then MkChoice StaleLock (Some ExplicitLockRecovery) []
    else MkChoice BlockedLock (Some ManualLockRepair) []
  else
    let pending := readPending F (names_in Pending F) (length (j_entries j)) (Some j) in
    if negb (bool_decide (pr_kind pending = PendingNone)) then choose_pending id pending
    else if projection_current F j then MkChoice NoAction None []
    else MkChoice RebuildProjection None [].

Lemma diagnose_valid F text es :
  journal_at F text → journal_of text es →
  diagnoseJournal F = MkDiagnosis (Some (MkJournal es text)) (length es) None.
Proof.
  intros [Hown [Hj|[Hj ->]]] Hjo; unfold diagnoseJournal; rewrite Hj.
  - unfold read_journal_bytes. by rewrite (own_text_decode _ Hown), Hjo.
  - by injection Hjo as <-.
Qed.

Lemma choose_calm F id lock text es :
  calm F → journal_at F text → journal_of text es →
  choose F id lock = Ok (calm_choice F id lock (MkJournal es text)).
Proof.
  intros Hc Hat Hj. unfold choose. rewrite (diagnose_valid F text es Hat Hj).
  rewrite calm_no_conflict, calm_no_manifest by done. cbn [dg_journal dg_last_valid].
  assert ((if bool_decide (F !! journal_path = None) then readBackup F else None) = None) as ->.
  { destruct (bool_decide_reflect (F !! journal_path = None)) as [E|]; [|done].
    unfold readBackup. by rewrite (proj2 Hc E). }
  cbn [bind]. unfold calm_choice. cbn [j_entries].
  destruct (lr_exists lock); [by destruct (lr_eligible lock)|]. cbv zeta.
  by destruct (negb _); [|destruct (projection_current _ _)].
Qed.

(** The inspection that [inspect] reports in a calm directory. *)
Definition inspected F (lock : LockReport) (j : Journal) : Inspection :=
  let id := recovery_digest (List.filter (λ pt : path * string,
    negb (false && bool_decide (pt.1 = lock_path))) (snapshot F)) in
  choice_inspection id (length (j_entries j)) (List.filter (λ pt : path * string,
    negb (false && bool_decide (pt.1 = lock_path))) (snapshot F)) (calm_choice F id lock j).

Lemma execs_inspect_calm I F n lock view text es :
  calm F → journal_at F text → journal_of text es →
  execs I inspectJournalLock F n (Ok view) F n → execs I (parseLock None) F n (Ok lock) F n →
  execs I (inspect None) F n (Ok (inspected F lock (MkJournal es text))) F n.
Proof.
  intros Hc Hat Hj Hv Hp. unfold inspect.
  eapply execs_bind; [exact Hv|]. cbv zeta.
  eapply execs_bind; [apply execs_get_files|].
  eapply execs_bind; [exact Hp|].
  rewrite (choose_calm F _ lock text es Hc Hat Hj).
  eapply execs_bind; [apply execs_lift|].
  rewrite (diagnose_valid F text es Hat Hj). apply execs_ret.
Qed.

(** Without a lock. *)
Lemma execs_inspect_lock_none I F n :
  F !! lock_path = None → no_transitions F →
  execs I inspectJournalLock F n (Ok (MkView false None [])) F n.
Proof.
  intros Hl Hno. unfold inspectJournalLock.
  eapply execs_bind.
  { apply execs_attempt. unfold read_lock_file. apply execs_bind_Err. by apply execs_read_absent. }
  eapply execs_bind; [by apply execs_transitions_none|]. cbv beta iota.
  rewrite bool_decide_eq_true_2 by done. apply execs_ret.
Qed.

Lemma execs_parse_none I F n :
  F !! lock_path = None → no_transitions F → execs I (parseLock None) F n (Ok no_lock) F n.
Proof.
  intros Hl Hno. unfold parseLock.
  eapply execs_bind; [by apply execs_inspect_lock_none|]. apply execs_ret.
Qed.

Lemma execs_inspect_none I F n text es :
  calm F → journal_at F text → journal_of text es → F !! lock_path = None → no_transitions F →
  execs I (inspect None) F n (Ok (inspected F no_lock (MkJournal es text))) F n.
Proof.
  intros Hc Hat Hj Hl Hno. eapply execs_inspect_calm; try done;
    [by apply execs_inspect_lock_none|by apply execs_parse_none].
Qed.

(** ** The operator *)

(** The operator confirms what was inspected. *)
Definition confirm (i : Inspection) : Input :=
  MkInput "local_operator" "explicit-recovery-command" (in_id i) (in_action i).

(** [inspectRecovery()] and then [applyRecovery(...)] of what it reported. *)
Definition recover_once : io Applied := do* i := inspect None in apply i (confirm i).

Lemma confirmed i : check_input i (confirm i) i = Ok tt.
Proof.
  unfold check_input. cbn [ip_recovery_id ip_action confirm]. rewrite !String.eqb_refl.
  by rewrite !bool_decide_eq_true_2.
Qed.

(** An application confirms the inspection and performs its action. *)
Lemma execs_recover_once I F n i n' r F' :
  execs I (inspect None) F n (Ok i) F n →
  execs I (perform (apply_within 1) i (confirm i) i) F n r F' n' →
  execs I recover_once F n r F' n'.
Proof.
  intros Hi Hb. unfold recover_once. eapply execs_bind; [exact Hi|].
  unfold apply, recovery_fuel. cbn [apply_within]. cbn [confirm ip_operator_type ip_operator_id].
  eapply execs_bind; [apply execs_throw_if_false|].
  eapply execs_bind; [exact Hi|]. fold (confirm i). rewrite confirmed.
  eapply execs_bind; [apply execs_lift|]. exact Hb.
Qed.

(** ** The dead lock is released *)

Section Stale.
Context (m : LockMetadata) (t : Transition) (G : file_map) (es : list json) (text : string).
Hypothesis Hdead : dead_lock m t.
Hypothesis Hlock : G !! lock_path = None.
Hypothesis Hno : no_transitions G.
Hypothesis Hcalm : calm G.
Hypothesis Hat : journal_at G text.
Hypothesis Hj : journal_of text es.

Local Abbreviation F := (left_by m t G).

Lemma left_other p : p ≠ lock_path → p ≠ publication_path (lm_nonce m) → F !! p = G !! p.
Proof. intros. unfold left_by. by rewrite !lookup_insert_ne by congruence. Qed.

Lemma left_calm : calm F.
Proof.
  destruct Hcalm as [Hu Hb]. split.
  - unfold left_by. apply undecided_insert.
    + apply undecided_insert; [done|apply conflict_free_lock].
    + apply conflict_free_publication, Hdead.
  - rewrite !left_other by done. exact Hb.
Qed.

Lemma left_at : journal_at F text.
Proof. eapply journal_at_lookup; [|exact Hat]. by rewrite left_other. Qed.

Lemma execs_recover_stale I n :
  (∀ F1 F2, agree F1 F2 → I F2 → I F1) → I G →
  execs I recover_once F n
    (Ok (MkApplied LockReleased (inspected G no_lock (MkJournal es text)))) G (S (S n)).
Proof.
  intros HI HG. pose proof left_calm as Hc. pose proof left_at as HatF.
  eapply execs_recover_once.
  { eapply execs_inspect_calm; try done;
      [by apply (execs_left_inspect m t G)|by apply (execs_left_parse m t G)]. }
  unfold perform. cbn [ip_action confirm in_action inspected choice_inspection ch_action calm_choice
    lr_exists lr_eligible dead_report].
  unfold release_stale_lock.
  eapply execs_bind; [apply execs_attempt; by apply execs_readJournal|]. cbv beta iota.
  eapply execs_bind; [by apply (execs_left_parse m t G)|].
  cbn [lr_eligible lr_metadata lr_transitions dead_report].
  eapply execs_bind; [by apply (execs_left_remove m t G)|].
  eapply execs_bind; [by apply (execs_left_release m t G)|].
  unfold reported. eapply execs_bind; [by apply execs_inspect_none|]. apply execs_ret.
Qed.
End Stale.

(** ** The recorded request *)

Section Recorded.
Context (es : list json) (request core : json) (fs : fields) (bid at_ : string).
Hypothesis Hnb : new_batch es request core fs bid at_.

Local Abbreviation next := (Z.of_nat (length es) + 1)%Z.
(** The entry's normal form, and the request that recovery takes from it. *)
Definition recorded : fields := entry_canon (length es) fs at_.
Definition recorded_fields : fields :=
  remove_field "committed_at" (remove_field "sequence" (remove_field "journal_version" recorded)).

Lemma recorded_entry : canon (new_entry core at_) = JObj recorded.
Proof. destruct Hnb as [_ _ Hrq _ _ _ _ _ _ _]. unfold new_entry. by apply (canon_entry request). Qed.

Lemma recorded_request : requestFromEntry (canon (new_entry core at_)) = JObj recorded_fields.
Proof. by rewrite recorded_entry. Qed.

Lemma recorded_get k :
  get k recorded = canon (get k (entry_fields fs next at_)).
Proof. destruct Hnb as [_ _ Hrq Hw Hs _ _ _ _ Hc]. by eapply entry_canon_get. Qed.

Lemma recorded_fields_get k :
  get k recorded_fields =
    if String.eqb k "committed_at" || String.eqb k "sequence" || String.eqb k "journal_version"
    then JUndef else canon (get k fs).
Proof.
  destruct Hnb as [_ _ Hrq Hw Hs _ _ _ _ Hc]. unfold recorded_fields.
  rewrite !get_remove, recorded_get. erewrite entry_get by done.
  destruct (String.eqb k "committed_at"); [done|].
  destruct (String.eqb k "sequence"); [done|]. by destruct (String.eqb k "journal_version").
Qed.

(** The fields of a batch are neither of the three that the journal adds. *)
Lemma recorded_batch_get k :
  k ∈ ["expected_revision"; "batch_id"; "actor"; "correlation_id"; "events"] →
  get k recorded_fields = canon (get k fs).
Proof.
  intros Hk. rewrite recorded_fields_get.
  repeat (apply elem_of_cons in Hk as [->|Hk]; [done|]). by apply not_elem_of_nil in Hk.
Qed.

Lemma recorded_wf : json_wf (JObj recorded) = true.
Proof.
  rewrite <- recorded_entry. apply json_wf_canon. by eapply new_entry_wf.
Qed.

Lemma remove_field_elem k kv gs : kv ∈ remove_field k gs ↔ kv ∈ gs ∧ kv.1 ≠ k.
Proof.
  unfold remove_field. rewrite filter_elem. rewrite negb_true_iff, String.eqb_neq. done.
Qed.

Lemma remove_field_wf k gs : json_wf (JObj gs) = true → json_wf (JObj (remove_field k gs)) = true.
Proof.
  intros [Hnd Hall]%json_wf_fields. cbn [json_wf]. apply andb_true_iff. split.
  - apply bool_decide_eq_true. rewrite keys_remove. by apply filter_NoDup.
  - apply forallb_forall. intros [k' v] Hin%list_elem_of_In.
    apply remove_field_elem in Hin as [Hin _]. by destruct (Hall k' v Hin) as [-> ->].
Qed.

Lemma recorded_request_wf : json_wf (JObj recorded_fields) = true.
Proof. unfold recorded_fields. do 3 apply remove_field_wf. apply recorded_wf. Qed.

Lemma recorded_keys : Permutation (keys recorded_fields) (keys fs).
Proof.
  destruct Hnb as [_ _ [_ H1' H2' H3' _ _ _] _ _ _ _ _ _ _].
  unfold recorded_fields, recorded, entry_canon. rewrite !keys_remove, keys_canon_fields.
  assert (Permutation (keys (isort field_leb (entry_fields fs next at_)))
    (keys (entry_fields fs next at_))) as HP by (unfold keys; by rewrite isort_Permutation).
  rewrite (filter_Permutation _ _ _ (filter_Permutation _ _ _ (filter_Permutation _ _ _ HP))).
  unfold entry_fields, keys in *. simpl. rewrite !map_app, !List.filter_app. simpl.
  rewrite !app_nil_r. rewrite !(filter_all _ (map fst fs)); [done| | |];
    intros k Hk; apply negb_true_iff, String.eqb_neq; by intros ->.
Qed.

Lemma recorded_absent k :
  k ∈ ["sequence"; "journal_version"; "committed_at"] → k ∉ keys recorded_fields.
Proof.
  destruct Hnb as [_ _ [_ H1' H2' H3' _ _ _] _ _ _ _ _ _ _]. intros Hk. rewrite recorded_keys.
  repeat (apply elem_of_cons in Hk as [->|Hk]; [done|]). by apply not_elem_of_nil in Hk.
Qed.

Lemma recorded_event_ids : event_ids_of (JObj recorded_fields) = event_ids_of request.
Proof.
  pose proof Hnb as [_ _ [Hr _ _ _ _ _ _] Hw _ _ _ _ _ _].
  rewrite <- (event_ids_canon request) by done. unfold event_ids_of. rewrite !get_array_of.
  rewrite get_of_canon by done. rewrite Hr. cbn [get_of]. by rewrite recorded_batch_get by set_solver.
Qed.

(** The recorded request is valid, at the same sequence number. *)
Lemma recorded_ok :
  request_ok (JObj recorded_fields) next (JObj (recorded_fields ++ [("sequence", JInt next)]))
    recorded_fields.
Proof.
  pose proof Hnb as [_ _ Hrq Hw Hs _ _ _ _ _]. pose proof Hrq as [Hr H1' H2' H3' Hc Hb Hev].
  split; try done; try (apply recorded_absent; set_solver).
  - rewrite Hc in Hb. eapply (event_batch_ok_canon (fs ++ [("sequence", JInt next)])); [| |exact Hb].
    + rewrite Hr in Hw. apply json_wf_fields in Hw as [Hnd Hall].
      cbn [json_wf]. apply andb_true_iff. split.
      * apply bool_decide_eq_true. rewrite keys_snoc. apply NoDup_app.
        split_and!; [done| |apply NoDup_singleton]. by intros k Hk ->%list_elem_of_singleton.
      * rewrite forallb_app. cbn [forallb json_wf]. rewrite Hs. cbn. rewrite andb_true_r.
        apply forallb_forall. intros [k v] Hin%list_elem_of_In. by destruct (Hall k v Hin) as [-> ->].
    + split.
      * intros k. destruct (decide (k = "sequence")) as [->|Hk].
        { rewrite !get_app by (done || (apply recorded_absent; set_solver)). done. }
        rewrite !get_snoc_ne by done. rewrite recorded_fields_get.
        destruct (String.eqb_spec k "sequence") as [|_]; [done|].
        destruct (String.eqb_spec k "committed_at") as [->|_]; [by rewrite get_absent|].
        destruct (String.eqb_spec k "journal_version") as [->|_]; [by rewrite get_absent|]. done.
      * rewrite !keys_snoc. by rewrite recorded_keys.
  - rewrite recorded_event_ids. done.
Qed.

Lemma recorded_revision : get_of "expected_revision" (JObj recorded_fields) = JInt (Z.of_nat (length es)).
Proof.
  pose proof Hnb as [_ _ [Hr _ _ _ _ _ _] _ _ Hrev _ _ _ _]. rewrite Hr in Hrev.
  cbn [get_of] in *. rewrite recorded_batch_get by set_solver. by rewrite Hrev.
Qed.

Lemma recorded_id : get_of "batch_id" (JObj recorded_fields) = JStr bid.
Proof.
  pose proof Hnb as [_ _ [Hr _ _ _ _ _ _] _ _ _ Hbid _ _ _]. rewrite Hr in Hbid.
  cbn [get_of] in *. rewrite recorded_batch_get by set_solver. by rewrite Hbid.
Qed.

Lemma recorded_same : same_request (canon (new_entry core at_)) (JObj recorded_fields) = Ok true.
Proof.
  pose proof Hnb as [_ _ Hrq _ _ _ _ _ _ _]. unfold same_request. rewrite recorded_entry.
  assert (requestIdentity (JObj recorded) = requestIdentity (JObj recorded_fields)) as ->.
  { unfold requestIdentity. cbn [get_of]. rewrite !recorded_get, !recorded_batch_get by set_solver.
    by erewrite !entry_get by done. }
  destruct (requestIdentity_Ok _ _ _ _ recorded_ok recorded_request_wf) as [h ->]. simpl.
  by rewrite String.eqb_refl.
Qed.
End Recorded.
End Recovery.
