(* ===== verification/RecoveryTheorems.v ===== *)
(** The resumption of an interrupted commit: the pending evidence that a dead process left is read
    back, its batch is appended or found in the journal, the projection is published and the
    evidence consumed. *)

From Stdlib Require Import ZArith Lia Ascii String Permutation Sorted.
From stdpp Require Import base tactics list gmap strings option pretty.
From S2P Require Import Prelude JsString JsDate Json JsonText JsonCanon Validator FileStore.
From S2P Require Import EventLock EventJournal EventStore Recovery LockProps BatchProps.
From S2P Require Import CommitFrame CommitProps CommitTheorems StoreTheorems RecoveryProps.

Lemma lossy_valid s : valid_utf8 s = true → lossy_utf8 s = s.
Proof.
  revert s. fix IH 1. intros [|a s1]; [done|]. cbn [valid_utf8 lossy_utf8].
  destruct (code a <? 128)%Z; [intros Hv; f_equal; by apply IH|].
  destruct s1 as [|b s2]; [done|].
  destruct (utf8_two a b); [intros Hv; do 2 f_equal; by apply IH|].
  destruct s2 as [|c s3]; [done|].
  destruct (utf8_three a b c); [intros Hv; do 3 f_equal; by apply IH|].
  destruct s3 as [|d s4]; [done|]. intros [Hd Hv]%andb_true_iff.
  assert (utf8_three a b "128" = false) as ->; [|rewrite Hd; do 4 f_equal; by apply IH].
  unfold utf8_three, utf8_four, between in *. change (code "128") with 128%Z.
  destruct (Z.eqb_spec (code a) 224); destruct (Z.eqb_spec (code a) 237); simpl in *; lia.
Qed.

Section Resume.
Context `{NumberText, Sha256, Platform, StoreOptions, RecoveryDigest, !PlatformLaws, !Sha256Laws}.
Implicit Types (F G L : file_map) (n : nat) (I : file_map → Prop).

Section Interrupted.
Context (es : list json) (text : string) (request core : json) (fs : fields) (bid at_ : string).
Hypothesis Hnb : new_batch es request core fs bid at_.
Hypothesis Hj : journal_of text es.

Local Abbreviation next := (Z.of_nat (length es) + 1)%Z.
Local Abbreviation name := (pending_name bid).
Local Abbreviation pend := ((Pending, pending_name bid) : path).
Local Abbreviation line := (new_line core at_).
Local Abbreviation ptext := (new_pending_text request core at_).
Local Abbreviation entry := (canon (new_entry core at_)).
Local Abbreviation entry_fs := (recorded es fs at_).
Local Abbreviation rq_fs := (recorded_fields es fs at_).
Local Abbreviation longer := (new_text text core at_).
Local Abbreviation es' := (es ++ [canon (new_entry core at_)]).

(** ** The evidence *)

Definition evidence : fields := pending_canon request (new_entry core at_) line at_.

Lemma evidence_get k : get k evidence = canon (get k (new_pending request core at_)).
Proof.
  pose proof Hnb as [_ Hws _ _ Hsafe Hrev Hbid _ _ Hclock].
  pose proof (new_sequence es request core fs bid at_ Hnb) as Hseq.
  pose proof (bid_utf8 es request core fs bid at_ Hnb) as Hb.
  pose proof (revision_safe es request core fs bid at_ Hnb) as Hrs.
  pose proof (new_line_text es request core fs bid at_ Hnb) as Hl.
  apply andb_true_iff in Hl as [Hl _].
  by eapply pending_get.
Qed.

Lemma evidence_facts :
  sameFields evidence PENDING_FIELDS = true ∧ pending_values_ok evidence = true ∧
  strict_json_line ptext PENDING_VERIFY_FAILED = Ok (JObj evidence) ∧
  json_wf (JObj evidence) = true ∧
  ∀ I L n p, L !! p = Some ptext →
    execs I (verifyPersistedPending p evidence) L n (Ok evidence) L n.
Proof.
  pose proof Hnb as [_ Hws _ _ Hsafe Hrev Hbid _ _ Hclock].
  pose proof (new_sequence es request core fs bid at_ Hnb) as Hseq.
  pose proof (bid_utf8 es request core fs bid at_ Hnb) as Hb.
  pose proof (revision_safe es request core fs bid at_ Hnb) as Hrs.
  pose proof (new_line_text es request core fs bid at_ Hnb) as Hl.
  apply andb_true_iff in Hl as [Hl _].
  split_and!.
  - apply pending_fields_ok.
  - by eapply pending_values.
  - by eapply pending_line.
  - unfold evidence, pending_canon. rewrite <- canon_object. apply json_wf_canon.
    by eapply pending_wf.
  - intros I L n p. by eapply execs_verify_again.
Qed.

Lemma evidence_own : own_text ptext.
Proof.
  destruct evidence_facts as (_ & _ & _ & Hw & _).
  assert (ptext = json_line (JObj evidence)) as ->.
  { unfold new_pending_text, pending_text, evidence, pending_canon. by rewrite canon_object. }
  pose proof (print_line _ Hw) as Hl. apply andb_true_iff in Hl as [Hl _].
  split; [unfold json_line; by rewrite valid_utf8_app|]. right.
  unfold json_line. cbn [print]. rewrite !str_app_cons. by eexists _, _.
Qed.

Lemma evidence_values :
  get "pending_version" evidence = JInt 1 ∧ get "workspace_id" evidence = JStr workspaceId ∧
  get "journal_path" evidence = JStr JOURNAL_LOCATION ∧ get "batch_id" evidence = JStr bid ∧
  get "expected_revision" evidence = JInt (Z.of_nat (length es)) ∧
  get "next_sequence" evidence = JInt next ∧ get "serialized_batch" evidence = JStr line ∧
  get "sha256" evidence = JStr (sha256_hex line) ∧ get "created_at" evidence = JStr at_.
Proof.
  pose proof Hnb as [_ _ _ _ _ Hrev Hbid _ _ _].
  pose proof (new_sequence es request core fs bid at_ Hnb) as Hseq.
  rewrite !evidence_get. unfold new_pending, pending_of.
  cbn [get String.eqb Ascii.eqb Bool.eqb]. rewrite Hbid, Hrev, Hseq. by split_and!.
Qed.

Lemma entry_values :
  get "journal_version" entry_fs = JInt 1 ∧ get "committed_at" entry_fs = JStr at_ ∧
  get "sequence" entry_fs = JInt next ∧ get "batch_id" entry_fs = JStr bid ∧
  get "expected_revision" entry_fs = JInt (Z.of_nat (length es)) ∧
  event_batch_ok (entry_core entry_fs) = true.
Proof.
  pose proof Hnb as [_ _ Hrq Hwf Hsafe Hrev Hbid _ _ Hclock].
  rewrite !(recorded_get es request core fs bid at_ Hnb).
  rewrite !(entry_get request (length es) core fs at_ Hrq).
  cbn [String.eqb Ascii.eqb Bool.eqb].
  pose proof Hrq as [Hr _ _ _ _ _ _]. rewrite Hr in Hrev, Hbid. cbn [get_of] in Hrev, Hbid.
  rewrite Hrev, Hbid. split_and!; try done. by eapply entry_core_canon.
Qed.

Lemma parse_line : JSON_parse line = Some (JObj entry_fs).
Proof.
  rewrite <- (recorded_entry es request core fs bid at_ Hnb).
  unfold new_line. apply parse_print, json_wf_canon. by eapply new_entry_wf.
Qed.

(** ** The evidence, classified *)

Lemma parse_evidence : parse_pending_file ptext = Some (evidence, JObj entry_fs).
Proof.
  unfold parse_pending_file. destruct evidence_facts as (_ & _ & -> & _ & _).
  destruct evidence_values as (_ & _ & _ & _ & _ & _ & -> & _ & _).
  cbn [parse_serialized js_text]. by rewrite parse_line.
Qed.

Lemma bid_nonempty : String.eqb bid "" = false.
Proof.
  pose proof Hnb as [_ _ [Hr _ _ _ Hcore Hb _] _ _ _ Hbid _ _ _].
  rewrite Hcore in Hb. apply event_batch_is_Some in Hb as [x Hx]. unfold decode_batch in Hx.
  destruct (exact_object _ _) as [gs|] eqn:Ex; [|done]. cbn [mbind option_bind] in Hx.
  assert (gs = fs ++ [("sequence", JInt next)]) as ->.
  { unfold exact_object in Ex. cbn [object_of mbind option_bind] in Ex.
    destruct (_ && _); [|done]. by injection Ex. }
  rewrite !get_snoc_ne in Hx by done. rewrite Hr in Hbid. cbn [get_of] in Hbid.
  destruct (integer_of 0 (get "sequence" _)); [|done]. cbn [mbind option_bind] in Hx.
  destruct (integer_of 0 (get "expected_revision" fs)); [|done]. cbn [mbind option_bind] in Hx.
  rewrite Hbid in Hx. by destruct bid.
Qed.

Lemma shape_evidence : pending_shape_ok name evidence (JObj entry_fs) = true.
Proof.
  pose proof Hnb as [_ _ _ _ _ _ _ _ _ Hclock].
  destruct evidence_facts as (Hf & _ & _ & _ & _).
  destruct evidence_values as (V1 & V2 & V3 & V4 & V5 & V6 & V7 & V8 & V9).
  destruct entry_values as (E1 & E2 & E3 & E4 & E5 & E6).
  unfold pending_shape_ok. rewrite Hf, V1, V2, V3, V4, V5, V6, V7, V8, V9, E1, E2, E3, E4, E5, E6.
  cbn [strict_eq text_or_empty js_text]. rewrite Hclock, sha256_hex_pattern, bid_nonempty.
  rewrite !String.eqb_refl, !Z.eqb_refl. done.
Qed.

(** The journal does not hold the batch: a retry. *)
Lemma classify_retry :
  classify_pending (length es) (Some (MkJournal es text)) evidence (JObj entry_fs) =
    MkPendingReport PendingRetry None (Some (evidence, JObj entry_fs)).
Proof.
  pose proof Hnb as [_ _ _ _ _ _ Hbid Hnew _ _].
  destruct evidence_values as (_ & _ & _ & V4 & V5 & _ & V7 & V8 & _).
  destruct entry_values as (_ & _ & E3 & _ & _ & _).
  unfold classify_pending. cbn [mbind option_bind j_entries].
  assert (find (λ e, strict_eq (get_of "batch_id" e) (get "batch_id" evidence)) es = None) as ->.
  { rewrite V4, <- Hbid. by eapply find_batch_none. }
  rewrite V5, V7, V8. cbn [get_of]. rewrite E3. cbn [strict_eq].
  rewrite sha256_hex_pattern, String.eqb_refl, !Z.eqb_refl. done.
Qed.
(** The line of the journal that holds the batch. *)
Lemma physical_own :
  physical_line (MkJournal es' longer) (JStr bid) = Some line.
Proof.
  pose proof Hnb as [_ _ _ _ _ _ Hbid Hnew _ _].
  destruct (new_journal es text request core fs bid at_ Hnb Hj) as [_ Hlines].
  apply journal_of_iff in Hj as (_ & HF & _).
  unfold physical_line. cbn [j_text]. rewrite Hlines. rewrite find_app_none.
  - cbn [find]. rewrite parse_line. cbn [get_of].
    destruct entry_values as (_ & _ & _ & -> & _). cbn [strict_eq]. by rewrite String.eqb_refl.
  - apply find_none. intros l Hl. apply list_elem_of_lookup in Hl as [i Hi].
    destruct (Forall2_lookup_l _ _ _ _ _ HF Hi) as (e & He & _ & ->).
    rewrite <- Hbid. apply (find_none_inv _ _ (find_batch_none es request bid Hbid Hnew) e).
    by eapply list_elem_of_lookup_2.
Qed.

(** The journal holds the batch: nothing but the projection is to be finished. *)
Lemma classify_finalize :
  classify_pending (length es') (Some (MkJournal es' longer)) evidence (JObj entry_fs) =
    MkPendingReport PendingFinalize None (Some (evidence, JObj entry_fs)).
Proof.
  pose proof Hnb as [_ _ _ _ _ _ Hbid Hnew _ _].
  destruct evidence_values as (_ & _ & _ & V4 & V5 & _ & V7 & V8 & _).
  destruct entry_values as (_ & _ & E3 & _ & _ & _).
  unfold classify_pending. cbn [mbind option_bind j_entries]. rewrite V4.
  assert (find (λ e, strict_eq (get_of "batch_id" e) (JStr bid)) es' = Some (JObj entry_fs)) as ->.
  { rewrite <- Hbid, (find_new_entry es request core fs bid at_ Hnb).
    by rewrite (recorded_entry es request core fs bid at_ Hnb). }
  rewrite V5, V7, V8, physical_own. cbn [get_of]. rewrite E3. cbn [strict_eq].
  rewrite sha256_hex_pattern, !String.eqb_refl, Z.eqb_refl.
  replace (next - 1)%Z with (Z.of_nat (length es)) by lia. rewrite Z.eqb_refl.
  destruct (new_line_head es request core fs bid at_ Hnb) as [s ->]. done.
Qed.

(** What a crash of the commit left beside the journal: the evidence and nothing else. *)
Record interrupted (j : string) G : Prop := {
  in_lock : G !! lock_path = None;
  in_transitions : no_transitions G;
  in_calm : calm G;
  in_fresh : fresh_names G;
  in_journal : journal_at G j;
  in_pending : ∀ b, G !! ((Pending, b) : path) = if decide (name = b) then Some ptext else None;
}.

Lemma interrupted_names j G : interrupted j G → names_in Pending G = [name].
Proof.
  intros HG. apply names_in_single. intros b. rewrite (in_pending _ _ HG).
  case_decide as E; split; [done|done|by intros [? ?]|by intros ->].
Qed.

Lemma interrupted_at j G : interrupted j G → G !! pend = Some ptext.
Proof. intros HG. rewrite (in_pending _ _ HG). by case_decide. Qed.

Lemma read_evidence L last journal :
  L !! pend = Some ptext →
  readPending L [name] last journal = classify_pending last journal evidence (JObj entry_fs).
Proof.
  intros Hp. unfold readPending. rewrite Hp. cbn [mbind option_bind].
  by rewrite parse_evidence, shape_evidence.
Qed.

(** ** The evidence, read back by the commit *)

Lemma execs_read_evidence I L n :
  L !! pend = Some ptext →
  execs I (readRecoveryPending name (JObj rq_fs) next workspaceId) L n
    (Ok (MkRecovered evidence (JObj entry_fs) line ptext)) L n.
Proof.
  intros Hp.
  destruct evidence_facts as (Hf & Hv & Hline & _ & _).
  destruct evidence_values as (V1 & V2 & V3 & V4 & V5 & V6 & V7 & V8 & V9).
  destruct entry_values as (E1 & E2 & E3 & E4 & E5 & E6).
  unfold readRecoveryPending. eapply execs_bind.
  { unfold readStrictPendingEvidence. eapply execs_bind; [apply execs_get_files|].
    rewrite Hp. unfold parse_pending. rewrite Hline, Hf. apply execs_ret. }
  rewrite (own_text_decode _ evidence_own). cbn [default]. cbv beta iota.
  rewrite V2, V4, V7, Hv. cbn [strict_eq]. rewrite !String.eqb_refl.
  eapply execs_bind; [apply execs_throw_if_false|]. rewrite parse_line.
  rewrite E1, V9, E2, E6. cbn [strict_eq]. rewrite String.eqb_refl.
  eapply execs_bind; [apply execs_throw_if_false|].
  assert (evidence_revisions_ok evidence entry_fs (JObj rq_fs) next = true) as ->.
  { unfold evidence_revisions_ok. rewrite V4, V5, V6, E3, E4, E5.
    rewrite (recorded_id es request core fs bid at_ Hnb),
      (recorded_revision es request core fs bid at_ Hnb). cbn [strict_eq].
    by rewrite String.eqb_refl, !Z.eqb_refl. }
  eapply execs_bind; [apply execs_throw_if_false|].
  rewrite <- (recorded_entry es request core fs bid at_ Hnb).
  rewrite (recorded_same es request core fs bid at_ Hnb).
  eapply execs_bind; [apply execs_lift|].
  eapply execs_bind; [apply execs_throw_if_false|apply execs_ret].
Qed.

(** ** The commit resumed *)

(** The callbacks succeed on the recorded entry. *)
Record resumable (r : Replay) : Prop := {
  rs_replay : replay_journal (MkJournal es' longer) [] JNull = Ok r;
  rs_projection : json_wf (projection_json (MkJournal es' longer) r) = true;
  rs_project : project entry = Ok tt;
  rs_preflight : preflight = true → ∃ r0 s,
    replay_journal (MkJournal es text) [] JNull = Ok r0 ∧ reduce_batch (r_state r0) entry = Ok s;
}.

Context (r : Replay) (v : commit_view).
Hypothesis Hrs : resumable r.
Hypothesis Hview : v_journal' v = longer ∧
  v_projection' v = projection_text (MkJournal es' longer) r ∧ v_name v = name ∧ v_text v = ptext.

Definition resumed : Evidence := MkEvidence name (JObj entry_fs) line evidence (Some ptext).

Lemma resumed_entry : JObj entry_fs = entry.
Proof. symmetry. by eapply recorded_entry. Qed.

Lemma execs_resumed_tail I L n :
  journal_at L longer → L !! pend = Some ptext →
  execs I (verify_tail resumed) L n (Ok tt) L n.
Proof.
  intros Hat Hp. destruct (new_journal es text request core fs bid at_ Hnb Hj) as [Hj' Hlines].
  destruct evidence_facts as (_ & _ & _ & _ & Hv).
  destruct evidence_values as (_ & _ & _ & _ & _ & _ & _ & V8 & _).
  destruct entry_values as (_ & _ & E3 & E4 & _ & _).
  unfold verify_tail. eapply execs_bind; [by apply execs_readJournal|].
  eapply execs_bind; [by apply Hv|]. cbn [j_entries j_text ev_entry resumed].
  rewrite last_snoc, Hlines, last_snoc, V8, resumed_entry.
  rewrite <- resumed_entry. cbn [get_of]. rewrite E3, E4. cbn [strict_eq].
  rewrite Z.eqb_refl, !String.eqb_refl. apply execs_throw_if_false.
Qed.

Lemma execs_publish_resumed m k G n :
  lock_wf m → interrupted text G → at_stage v Evident G →
  execs (crash_state v) (publish m (MkJournal es text) resumed) (under m k G) n (Ok tt)
    (under m k (committed_files es text core at_ r G)) (S (S n)).
Proof.
  intros Hw HG Hst. destruct HG as [_ _ _ Hfresh Hat Hpend]. destruct Hview as (V1 & V2 & V3 & V4).
  set (L := under m k G). assert (agree L G) as HLG by apply agree_under.
  assert (journal_at L text) as HatL by (eapply journal_at_lookup; [apply HLG|done]).
  unfold publish. cbn [j_text ev_entry ev_line ev_recovered ev_name resumed].
  eapply execs_bind.
  { unfold preflightProjection. destruct preflight eqn:E; [|apply execs_ret].
    destruct (rs_preflight _ Hrs E) as (r0 & s & H1' & H2').
    eapply execs_bind.
    { unfold replay. eapply execs_bind; [by apply execs_readJournal|].
      rewrite H1'. apply execs_lift. }
    rewrite resumed_entry, H2'. eapply execs_bind; [apply execs_lift|apply execs_ret]. }
  eapply execs_bind; [apply execs_ret|].
  rewrite <- committed_under. fold L.
  eapply (execs_publication es text request core fs bid at_ Hnb r (rs_replay _ Hrs)
    (rs_projection _ Hrs) v m resumed); try done.
  - cbn [ev_entry resumed]. rewrite resumed_entry. apply Hrs.
  - intros L' n'. apply execs_resumed_tail.
  - apply under_owned.
  - by apply fresh_under.
  - eapply looks_agree; [exact HLG|exact Hst].
  - apply execs_ret.
Qed.

(** The evidence is consumed. *)
Lemma execs_consume I m k G n :
  lock_wf m → G !! pend = Some ptext → I (under m k (delete pend G)) →
  execs I (consumeRecoveryPending m name ptext) (under m k G) n (Ok tt)
    (under m k (delete pend G)) n.
Proof.
  intros Hw Hp HI. unfold consumeRecoveryPending. eapply execs_bind; [apply execs_get_files|].
  assert (under m k G !! pend = Some ptext) as HpL by by rewrite under_lookup.
  rewrite HpL, String.eqb_refl. eapply execs_bind; [apply execs_throw_if_false|].
  eapply execs_bind; [apply execs_owned; [done|apply under_owned]|].
  rewrite <- under_delete in * by done. by eapply execs_unlink.
Qed.

(** Only the evidence that the commit itself brings is there. *)
Lemma execs_resumed_guards I m k j G n :
  lock_wf m → interrupted j G →
  execs I (assertNoUnresolvedPending (Some name)) (under m k G) n (Ok tt) (under m k G) n ∧
  execs I assertNoUnresolvedUserDecision (under m k G) n (Ok tt) (under m k G) n.
Proof.
  intros Hw HG. split.
  - unfold assertNoUnresolvedPending. eapply execs_bind; [apply execs_read_dir|].
    assert (names_in Pending (under m k G) = [name]) as ->.
    { apply names_in_single. intros b. rewrite under_lookup, (in_pending _ _ HG) by done.
      case_decide as E; split; [done|done|by intros [? ?]|by intros ->]. }
    cbn [List.filter]. rewrite bool_decide_eq_true_2 by done. apply execs_throw_if_false.
  - apply execs_undecided. unfold under. destruct HG as [_ _ [Hu _] _ _ _].
    apply undecided_insert; [|by apply conflict_free_publication].
    apply undecided_insert; [done|apply conflict_free_lock].
Qed.

(** What is there after the resumption: the journal was, or is now, the longer one. *)
Definition finished G : file_map := delete pend (committed_files es text core at_ r G).
Definition refreshed G : file_map :=
  delete pend (replaced projection_path (projection_text (MkJournal es' longer) r) G).

Local Abbreviation request' := (JObj rq_fs).

Lemma execs_guarded_append m k G n :
  lock_wf m → interrupted text G → at_stage v Evident G →
  execs (crash_state v) (commit_guarded m (MkJournal es text) request' (Some name)) (under m k G) n
    (Ok (MkResult Committed (JInt next), Some name)) (under m k (finished G)) (S (S n)).
Proof.
  intros Hw HG Hst. destruct (execs_resumed_guards (crash_state v) m k text G n Hw HG) as [G1 G2].
  pose proof Hnb as [_ _ _ _ _ _ _ Hnew Hevents _]. pose proof Hview as (V1 & V2 & V3 & V4).
  pose proof (recorded_id es request core fs bid at_ Hnb) as Hid.
  pose proof (recorded_revision es request core fs bid at_ Hnb) as Hrev.
  pose proof (recorded_ok es request core fs bid at_ Hnb) as Hrq.
  pose proof (interrupted_at _ _ HG) as Hp.
  unfold commit_guarded. eapply execs_bind; [exact G1|]. eapply execs_bind; [exact G2|].
  cbn [j_entries]. rewrite (find_batch_none es request' bid Hid Hnew).
  eapply execs_bind.
  { unfold commit_new. cbn [j_entries]. rewrite Hrev. cbn [strict_eq]. rewrite Z.eqb_refl.
    eapply execs_bind; [apply execs_throw_if_false|].
    rewrite (request_ok_validates _ _ _ _ Hrq).
    eapply execs_bind; [apply execs_lift|].
    rewrite (no_known_event request' es).
    2:{ rewrite (recorded_event_ids es request core fs bid at_ Hnb). exact Hevents. }
    eapply execs_bind; [apply execs_throw_if_false|].
    eapply execs_bind.
    { unfold prepare_evidence. eapply execs_bind; [|apply execs_ret].
      apply execs_read_evidence. by rewrite under_lookup. }
    cbn [rp_entry rp_serialized rp_fields rp_bytes]. fold resumed.
    eapply execs_bind; [by apply execs_publish_resumed|].
    cbn [ev_entry ev_recovered ev_name resumed get_of].
    destruct entry_values as (_ & _ & -> & _). apply execs_ret. }
  cbv beta iota. eapply execs_bind; [|apply execs_ret].
  apply execs_consume; [done| |].
  - unfold committed_files. by rewrite !replaced_lookup_ne.
  - exists Done. eapply looks_agree; [apply agree_under|]. apply looks_pending_delete with (t := ptext).
    pose proof Hst as Hl. apply (committed_looks es text core at_ r v) in Hl; [|done|done].
    by rewrite V3, V4 in Hl.
Qed.

Lemma execs_guarded_refresh m k s G n :
  lock_wf m → interrupted longer G → s ∈ [Journaled; Projected] → at_stage v s G →
  execs (crash_state v) (commit_guarded m (MkJournal es' longer) request' (Some name))
    (under m k G) n (Ok (MkResult Idempotent (JInt next), Some name))
    (under m k (refreshed G)) (S n).
Proof.
  intros Hw HG Hs Hst.
  destruct (execs_resumed_guards (crash_state v) m k longer G n Hw HG) as [G1 G2].
  pose proof Hnb as [_ _ _ _ _ _ Hbid _ _ _]. pose proof Hview as (V1 & V2 & V3 & V4).
  destruct (new_journal es text request core fs bid at_ Hnb Hj) as [Hj' Hlines].
  pose proof (recorded_id es request core fs bid at_ Hnb) as Hid.
  destruct entry_values as (_ & _ & E3 & _ & _ & _).
  destruct evidence_values as (_ & _ & _ & _ & _ & _ & _ & V8 & _).
  pose proof (interrupted_at _ _ HG) as Hp.
  assert (looks (Some (v_journal' v)) (Some (v_projection' v)) (Some (v_name v, v_text v))
    (<[projection_path := projection_text (MkJournal es' longer) r]> G)) as Hl.
  { rewrite <- V2. repeat (apply elem_of_cons in Hs as [->|Hs]; [by eapply looks_projection|]).
    by apply not_elem_of_nil in Hs. }
  unfold commit_guarded. eapply execs_bind; [exact G1|]. eapply execs_bind; [exact G2|].
  cbn [j_entries]. rewrite Hid, <- Hbid, (find_new_entry es request core fs bid at_ Hnb).
  rewrite <- resumed_entry. eapply execs_bind.
  { eapply execs_bind.
    { unfold commit_existing. cbn [get_of]. rewrite E3. eapply execs_bind.
      { eapply execs_bind; [apply execs_read_evidence; by rewrite under_lookup|].
        cbn [rp_fields rp_bytes j_text j_entries]. cbv zeta. rewrite Hlines, last_snoc, V8.
        rewrite length_app. cbn [length].
        replace (Z.of_nat (length es + 1)) with next by lia. rewrite Z.eqb_refl.
        assert (String.eqb line "" = false) as ->.
        { by destruct (new_line_head es request core fs bid at_ Hnb) as [s' ->]. }
        rewrite String.eqb_refl. eapply execs_bind; [apply execs_throw_if_false|apply execs_ret]. }
      rewrite resumed_entry, (recorded_same es request core fs bid at_ Hnb).
      eapply execs_bind; [apply execs_lift|].
      eapply execs_bind; [apply execs_throw_if_false|apply execs_ret]. }
    cbv beta iota. eapply execs_bind; [|apply execs_ret].
    eapply execs_bind; [|apply execs_ret].
    cbn [j_text]. eapply execs_rebuild; try done; try apply Hrs.
    - apply under_owned.
    - eapply journal_at_lookup; [apply agree_under|apply HG].
    - apply fresh_under, HG.
    - apply crash_state_agree.
    - exists s. eapply at_stage_agree; [apply agree_under|done].
    - exists Projected. rewrite under_insert by done.
      eapply looks_agree; [apply agree_under|exact Hl]. }
  cbv beta iota. rewrite replaced_under by done.
  eapply execs_bind; [|apply execs_ret]. unfold refreshed. apply execs_consume; [done| |].
  - by rewrite replaced_lookup_ne.
  - exists Done. eapply looks_agree; [apply agree_under|]. apply looks_pending_delete with (t := ptext).
    rewrite V3, V4 in Hl. unfold replaced.
    destruct (G !! projection_path) as [old|] eqn:E; [|exact Hl].
    rewrite insert_insert_ne by done. apply looks_beside; [apply beside_projection_backup|exact Hl].
Qed.

(** The whole commit, from the evidence. *)
Lemma execs_commit_resumed G n j body r' G' n' :
  interrupted j G → journal_of j body → crash_state v G → crash_state v G' →
  G' !! pend = None → (∀ x, free_of_lock G' (commit_lock (Z.of_nat (length es)) n) x) →
  (∀ m k, lock_wf m →
    execs (crash_state v) (commit_guarded m (MkJournal body j) request' (Some name))
      (under m k G) (3 + n) (Ok (r', Some name)) (under m k G') n') →
  execs (crash_state v) (commit request' (Some name)) G n (Ok r') G' (S (S n')).
Proof.
  intros HG Hbody HI HI' Hp Hfree Hrun. pose proof HG as [G1 G2 [G3 _] G4 G5 G6].
  pose proof Hnb as [[Hh1 Hh2] _ _ _ _ _ _ _ _ _].
  pose proof (revision_safe es request core fs bid at_ Hnb) as Hsafe.
  destruct (validate_again _ _ _ _ 0 (recorded_ok es request core fs bid at_ Hnb)) as [core0 Hc];
    [done|].
  pose proof (commit_runs (crash_state v) request' (Some name) core0 (Z.of_nat (length es)) G n body j
    (Ok (r', Some name)) G' n' Hh1 Hh2 Hsafe ltac:(lia) Hc
    (recorded_revision es request core fs bid at_ Hnb) G1 G2 G3 G5 Hbody
    (crash_state_agree v) HI HI' Hfree) as Hx.
  cbv beta iota in Hx. rewrite Hp in Hx. apply Hx, Hrun. apply acquired_wf; try done. lia.
Qed.

(** What the resumption leaves is quiet. *)
Definition only_published G F : Prop :=
  ∀ p, is_Some (F !! p) → p = journal_path ∨ p = add_suffix journal_path ".bak" ∨
    p = projection_path ∨ p = add_suffix projection_path ".bak" ∨ is_Some (G !! p).

Lemma only_published_replaced G F p t :
  p = journal_path ∨ p = projection_path → only_published G F → only_published G (replaced p t F).
Proof.
  intros Hp HF q Hq. destruct (decide (q = p)) as [->|Hne]; [by destruct Hp; auto|].
  destruct (decide (q = add_suffix p ".bak")) as [->|Hne'].
  - destruct Hp as [->| ->]; auto.
  - rewrite replaced_lookup_ne in Hq by done. by apply HF.
Qed.

Lemma only_published_delete G F p : only_published G F → only_published G (delete p F).
Proof.
  intros HF q Hq. apply HF. destruct (decide (p = q)) as [->|Hne].
  - rewrite lookup_delete_eq in Hq. by destruct Hq.
  - by rewrite lookup_delete_ne in Hq.
Qed.

Lemma only_published_refl G : only_published G G.
Proof. intros q Hq. by repeat right. Qed.

Lemma fresh_delete F p : fresh_names F → fresh_names (delete p F).
Proof.
  intros Hf q k. destruct (decide (p = temp_path q (random_hex 8 k))) as [->|Hne].
  - apply lookup_delete_eq.
  - rewrite lookup_delete_ne by done. apply Hf.
Qed.

Lemma quiet_after j G F :
  interrupted j G → only_published G F → fresh_names F → F !! journal_path = Some longer →
  (∀ b, F !! ((Pending, b) : path) = None) → own_text longer → quiet F es' longer.
Proof.
  intros [G1 G2 [G3 _] _ _ _] Ho Hf Hjf Hp Hown. split; try done.
  - apply eq_None_not_Some. intros Hs. apply Ho in Hs as [[=]|[[=]|[[=]|[[=]|Hs]]]].
    rewrite G1 in Hs. by destruct Hs.
  - intros b Hs. apply Ho in Hs as [[= ->]|[[= ->]|[[=]|[[=]|Hs]]]]; [by vm_compute..|].
    by apply G2.
  - intros p Hs. apply Ho in Hs as [->|[->|[->|[->|Hs]]]]; [by vm_compute..|]. by apply G3.
  - split; [done|by left].
  - by eapply new_journal.
Qed.

Lemma interrupted_own j G : interrupted j G → j = text ∨ j = longer → own_text longer.
Proof.
  intros [_ _ _ _ [Hown _] _] [->| ->]; [|done].
  by eapply new_own_text.
Qed.

Lemma pending_consumed j G F :
  interrupted j G → (∀ b, F !! ((Pending, b) : path) = G !! ((Pending, b) : path)) →
  ∀ b, delete pend F !! ((Pending, b) : path) = None.
Proof.
  intros HG HF b. destruct (decide (name = b)) as [<-|Hne]; [apply lookup_delete_eq|].
  rewrite lookup_delete_ne by congruence. rewrite HF, (in_pending _ _ HG). by case_decide.
Qed.

Lemma finished_quiet G : interrupted text G → quiet (finished G) es' longer.
Proof.
  intros HG. unfold finished, committed_files. eapply quiet_after; [exact HG|..].
  - apply only_published_delete, only_published_replaced; [by right|].
    apply only_published_replaced; [by left|]. apply only_published_refl.
  - apply fresh_delete, fresh_replaced; [|apply not_temp_projection|apply not_temp_projection_bak].
    apply fresh_replaced; [apply HG|apply not_temp_journal|apply not_temp_journal_bak].
  - rewrite lookup_delete_ne by done. rewrite replaced_lookup_ne by done.
    unfold replaced. by rewrite lookup_insert_eq.
  - eapply pending_consumed; [exact HG|]. intros b. by rewrite !replaced_lookup_ne.
  - eapply interrupted_own; [exact HG|by left].
Qed.

Lemma refreshed_quiet G : interrupted longer G → quiet (refreshed G) es' longer.
Proof.
  intros HG. pose proof (interrupted_own _ _ HG ltac:(by right)) as Hown.
  unfold refreshed. eapply quiet_after; [exact HG|..]; try done.
  - apply only_published_delete, only_published_replaced; [by right|]. apply only_published_refl.
  - apply fresh_delete, fresh_replaced; [apply HG|apply not_temp_projection|
      apply not_temp_projection_bak].
  - rewrite lookup_delete_ne by done. rewrite replaced_lookup_ne by done.
    destruct HG as [_ _ _ _ [_ [Hg|[_ Hg]]] _]; [done|].
    destruct (new_line_head es request core fs bid at_ Hnb) as [s Hs].
    apply (f_equal String.length) in Hg. unfold new_text in Hg. rewrite Hs in Hg.
    rewrite str_length_app in Hg. simpl in Hg. lia.
  - eapply pending_consumed; [exact HG|]. intros b. by rewrite replaced_lookup_ne.
Qed.

(** ** The resumed commits *)

Lemma execs_commit_append G n :
  interrupted text G → at_stage v Evident G →
  execs (crash_state v) (commit request' (Some name)) G n
    (Ok (MkResult Committed (JInt next))) (finished G) (7 + n).
Proof.
  intros HG Hst. pose proof Hview as (V1 & V2 & V3 & V4).
  pose proof (finished_quiet G HG) as [Q1 Q2 Q3 _ _ _ _].
  eapply (execs_commit_resumed G n text es); try done.
  - by exists Evident.
  - exists Done. unfold finished. apply looks_pending_delete with (t := ptext).
    pose proof Hst as Hl. apply (committed_looks es text core at_ r v) in Hl; [|done|done].
    by rewrite V3, V4 in Hl.
  - intros x. by apply quiet_free.
  - intros m k Hw. by apply execs_guarded_append.
Qed.

Lemma execs_commit_refresh G s n :
  interrupted longer G → s ∈ [Journaled; Projected] → at_stage v s G →
  execs (crash_state v) (commit request' (Some name)) G n
    (Ok (MkResult Idempotent (JInt next))) (refreshed G) (6 + n).
Proof.
  intros HG Hs Hst. pose proof (refreshed_quiet G HG) as [Q1 Q2 Q3 _ _ Q6 _].
  pose proof Hview as (V1 & V2 & V3 & V4).
  destruct (new_journal es text request core fs bid at_ Hnb Hj) as [Hj' _].
  eapply (execs_commit_resumed G n longer es'); try done.
  - by exists s.
  - exists Done. unfold at_stage. split_and!; [| |done].
    + rewrite V1. destruct Q6 as [_ [E|[_ E]]]; [done|].
      destruct (new_line_head es request core fs bid at_ Hnb) as [s' Hs'].
      apply (f_equal String.length) in E. unfold new_text in E. rewrite Hs' in E.
      rewrite str_length_app in E. simpl in E. lia.
    + rewrite V2. unfold refreshed, replaced. rewrite lookup_delete_ne by done.
      by rewrite lookup_insert_eq.
  - intros x. by apply quiet_free.
  - intros m k Hw. by eapply execs_guarded_refresh.
Qed.

(** ** The projection is current *)

Lemma projection_own : valid_utf8 (projection_text (MkJournal es' longer) r) = true.
Proof.
  unfold projection_text. pose proof (print_line (canon (projection_json (MkJournal es' longer) r)))
    as Hl. unfold line_text in Hl. apply andb_true_iff in Hl as [Hl _].
  - by rewrite valid_utf8_app.
  - apply json_wf_canon, Hrs.
Qed.

Lemma last_recorded : last_batch_id es' = JStr bid.
Proof.
  unfold last_batch_id. rewrite last_snoc, <- resumed_entry. cbn [get_of].
  destruct entry_values as (_ & _ & _ & -> & _). generalize bid_nonempty. generalize bid.
  intros [|c s]; [intros Hf%String.eqb_neq; congruence|reflexivity].
Qed.

Lemma current_published F :
  F !! projection_path = Some (projection_text (MkJournal es' longer) r) →
  projection_current F (MkJournal es' longer) = true.
Proof.
  intros Hp. destruct Hrs as [Hr Hw _ _]. unfold projection_current. rewrite Hp.
  cbn [mbind option_bind]. rewrite (lossy_valid _ projection_own).
  unfold projection_text. rewrite (canon_json_line _ Hw), Hr.
  rewrite !get_of_canon by done. unfold projection_json. cbn [get_of get String.eqb Ascii.eqb Bool.eqb].
  assert (c_last_batch (r_cursor r) = JStr bid) as ->.
  { revert Hr. unfold replay_journal. destruct (forallb _ _); [|done].
    destruct (reduceEntries _) as [s|]; [|done]. cbn [bind].
    unfold cursorFor. destruct (canonicalHash s); [|done]. cbn [bind continuityFor].
    intros [= <-]. cbn [r_cursor c_last_batch]. apply last_recorded. }
  cbn [canon strict_eq]. rewrite Z.eqb_refl, !String.eqb_refl. cbn [andb].
  rewrite same_canon; [by rewrite Z.eqb_refl|]. unfold projection_json in Hw. cbn [json_wf forallb] in Hw.
  apply andb_true_iff in Hw as [_ Hw]. by split_bools.
Qed.

Lemma settled_action F :
  quiet F es' longer → F !! projection_path = Some (projection_text (MkJournal es' longer) r) →
  in_action (inspected F no_lock (MkJournal es' longer)) = NoAction.
Proof.
  intros [_ _ Hp _ _ _ _] Hpj. unfold inspected. cbn [in_action choice_inspection].
  unfold calm_choice. cbn [lr_exists no_lock]. cbv zeta.
  rewrite (proj2 (names_in_nil Pending F) Hp). cbn [readPending pr_kind].
  rewrite bool_decide_eq_true_2 by done. cbn [negb]. by rewrite current_published.
Qed.

Lemma quiet_calm F : quiet F es' longer → calm F.
Proof.
  intros [_ _ _ Hd _ [_ Hat] _]. split; [done|]. intros Hno. destruct Hat as [E|[_ E]]; [congruence|].
  destruct (new_line_head es request core fs bid at_ Hnb) as [s' Hs'].
  apply (f_equal String.length) in E. unfold new_text in E. rewrite Hs' in E.
  rewrite str_length_app in E. simpl in E. lia.
Qed.

(** ** Recovery of the batch *)

(** The evidence is what the inspection chooses by. *)
Lemma choice_interrupted j body G kind a :
  interrupted j G →
  classify_pending (length body) (Some (MkJournal body j)) evidence (JObj entry_fs) =
    MkPendingReport kind None (Some (evidence, JObj entry_fs)) →
  (kind, a) ∈ [(PendingRetry, RetryPending); (PendingFinalize, FinalizePending)] →
  in_action (inspected G no_lock (MkJournal body j)) = a ∧
  in_last_valid (inspected G no_lock (MkJournal body j)) = length body.
Proof.
  intros HG Hc Ha. split; [|done]. unfold inspected. cbn [in_action choice_inspection].
  unfold calm_choice. cbn [lr_exists no_lock j_entries]. cbv zeta.
  rewrite (interrupted_names _ _ HG), (read_evidence G) by (by eapply interrupted_at).
  rewrite Hc. cbn [pr_kind].
  repeat (apply elem_of_cons in Ha as [[= -> ->]|Ha];
    [rewrite bool_decide_eq_false_2 by done; done|]). by apply not_elem_of_nil in Ha.
Qed.

Lemma execs_retry I i j body G n r' G' n' :
  interrupted j G → journal_of j body → in_last_valid i = length body →
  execs I (commit request' (Some name)) G n (Ok r') G' n' →
  execs I (retry_pending i) G n (Ok r') G' n'.
Proof.
  intros HG Hbody Hi Hc. unfold retry_pending. eapply execs_bind; [apply execs_read_dir|].
  rewrite (interrupted_names _ _ HG).
  eapply execs_bind; [apply execs_readJournal; [apply HG|exact Hbody]|].
  eapply execs_bind; [apply execs_get_files|]. cbv zeta.
  rewrite (read_evidence G) by (by eapply interrupted_at).
  assert (pr_value (classify_pending (in_last_valid i) (Some (MkJournal body j)) evidence
    (JObj entry_fs)) = Some (evidence, JObj entry_fs)) as ->.
  { unfold classify_pending, blocked. repeat case_match; done. }
  rewrite resumed_entry, (recorded_request es request core fs bid at_ Hnb). exact Hc.
Qed.

(** One recovery resumes the commit and leaves nothing to recover. *)
Lemma execs_recover_batch I j body G n kind a st r' G' n' :
  interrupted j G → journal_of j body →
  classify_pending (length body) (Some (MkJournal body j)) evidence (JObj entry_fs) =
    MkPendingReport kind None (Some (evidence, JObj entry_fs)) →
  (kind, a, st) ∈ [(PendingRetry, RetryPending, Retried (cr_status r'));
                   (PendingFinalize, FinalizePending, PendingCommittedRebuilt)] →
  execs I (commit request' (Some name)) G n (Ok r') G' n' →
  quiet G' es' longer → G' !! projection_path = Some (projection_text (MkJournal es' longer) r) →
  execs I recover_once G n
    (Ok (MkApplied st (inspected G' no_lock (MkJournal es' longer)))) G' n'.
Proof.
  intros HG Hbody Hc Ha Hrun Hq Hp. pose proof HG as [G1 G2 G3 G4 G5 G6].
  pose proof (quiet_calm _ Hq) as Hcalm. destruct Hq as [Q1 Q2 Q3 Q4 Q5 Q6 Q7].
  destruct (choice_interrupted j body G kind a HG Hc) as [Hact Hlast].
  { repeat (apply elem_of_cons in Ha as [[= -> -> ->]|Ha]; [set_solver|]).
    by apply not_elem_of_nil in Ha. }
  eapply execs_recover_once; [by apply execs_inspect_none|].
  unfold perform. cbn [ip_action confirm]. rewrite Hact.
  assert (execs I (reported st) G' n' (Ok (MkApplied st (inspected G' no_lock (MkJournal es' longer))))
    G' n') as Hrep.
  { unfold reported. eapply execs_bind; [by apply execs_inspect_none|]. apply execs_ret. }
  repeat (apply elem_of_cons in Ha as [[= -> -> ->]|Ha];
    [eapply execs_bind; [by eapply execs_retry|exact Hrep]|]).
  by apply not_elem_of_nil in Ha.
Qed.

Lemma execs_recover_retry G n :
  interrupted text G → at_stage v Evident G →
  execs (crash_state v) recover_once G n
    (Ok (MkApplied (Retried Committed) (inspected (finished G) no_lock (MkJournal es' longer))))
    (finished G) (7 + n).
Proof.
  intros HG Hst.
  apply (execs_recover_batch _ text es G n PendingRetry RetryPending (Retried Committed)
    (MkResult Committed (JInt next))); try done.
  - apply classify_retry.
  - by left.
  - by apply execs_commit_append.
  - by apply finished_quiet.
  - unfold finished, committed_files. rewrite lookup_delete_ne by done.
    unfold replaced at 1. by rewrite lookup_insert_eq.
Qed.

Lemma execs_recover_finalize G s n :
  interrupted longer G → s ∈ [Journaled; Projected] → at_stage v s G →
  execs (crash_state v) recover_once G n
    (Ok (MkApplied PendingCommittedRebuilt (inspected (refreshed G) no_lock (MkJournal es' longer))))
    (refreshed G) (6 + n).
Proof.
  intros HG Hs Hst. destruct (new_journal es text request core fs bid at_ Hnb Hj) as [Hj' _].
  apply (execs_recover_batch _ longer es' G n PendingFinalize FinalizePending PendingCommittedRebuilt
    (MkResult Idempotent (JInt next))); try done.
  - apply classify_finalize.
  - by right; left.
  - by eapply execs_commit_refresh.
  - by apply refreshed_quiet.
  - unfold refreshed. rewrite lookup_delete_ne by done. unfold replaced. by rewrite lookup_insert_eq.
Qed.
End Interrupted.

(** ** The promise *)

(** What a commit left whose process died with the evidence written: its lock and the marker of the
    publication in the root, and beside them the files of one of the stages. *)
Record dead_commit (m : LockMetadata) (t : Transition) (s : stage) (v : commit_view)
    (es : list json) (text : string) (request core : json) (fs : fields) (bid at_ : string)
    (r : Replay) G : Prop := {
  dc_owner : dead_lock m t;
  dc_batch : new_batch es request core fs bid at_;
  dc_entries : journal_of text es;
  dc_resumable : resumable es text core at_ r;
  dc_view : v_journal' v = new_text text core at_ ∧
    v_projection' v = projection_text
      (MkJournal (es ++ [canon (new_entry core at_)]) (new_text text core at_)) r ∧
    v_name v = pending_name bid ∧ v_text v = new_pending_text request core at_;
  dc_stage : s ∈ [Evident; Journaled; Projected] ∧ at_stage v s G;
  dc_files : interrupted request core bid at_
    (match s with Evident => text | _ => new_text text core at_ end) G;
}.

(** What the second recovery reports. *)
Definition resumed_status (s : stage) : status :=
  match s with Evident => Retried Committed | _ => PendingCommittedRebuilt end.

(** C5: Recovery completes an interrupted commit.  When a process died with the evidence of a batch
    on disk — before the journal was published, after it, or after the projection was — one
    confirmed recovery releases its lock and the next resumes the batch: the journal ends with the
    entry exactly once, the projection is the replay's, the evidence is consumed, and inspection
    finds nothing more to do.  Every state on the way is again a crash state of the same commit, so
    that a crash of the recovery loses nothing. *)
Theorem recovery_completes m t s v es text request core fs bid at_ r G n :
  dead_commit m t s v es text request core fs bid at_ r G →
  let j := MkJournal (es ++ [canon (new_entry core at_)]) (new_text text core at_) in
  ∃ w1 w2 a1 a2,
    recover_once (World (left_by m t G) n []) = (Ok a1, w1) ∧ ap_status a1 = LockReleased ∧
    recover_once w1 = (Ok a2, w2) ∧ ap_status a2 = resumed_status s ∧
    quiet (files w2) (j_entries j) (j_text j) ∧
    files w2 !! projection_path = Some (projection_text j r) ∧
    in_action (ap_after a2) = NoAction ∧
    ∀ F', F' ∈ history w2 → crash_state v F'.
Proof.
  intros [Hd Hnb Hj Hrs Hv [Hs Hst] HG] j. pose proof HG as [G1 G2 G3 G4 G5 G6].
  assert (crash_state v G) as HIG by by exists s.
  assert (∃ body, journal_of (match s with Evident => text | _ => new_text text core at_ end) body)
    as [body Hbody].
  { destruct (new_journal es text request core fs bid at_ Hnb Hj) as [Hj' _].
    destruct s; eauto. }
  destruct (execs_recover_stale m t G body _ Hd G1 G2 G3 G5 Hbody (crash_state v) n
    (crash_state_agree v) HIG) as (t1 & Ht1 & E1).
  assert (∃ G' n', execs (crash_state v) recover_once G (S (S n))
      (Ok (MkApplied (resumed_status s) (inspected G' no_lock j))) G' n' ∧
    quiet G' (j_entries j) (j_text j) ∧ G' !! projection_path = Some (projection_text j r))
    as (G' & n' & (t2 & Ht2 & E2) & Hq & Hp).
  { destruct (decide (s = Evident)) as [->|Hne].
    - exists (finished es text core bid at_ r G), (7 + S (S n)). split_and!.
      + by eapply execs_recover_retry.
      + by eapply finished_quiet.
      + unfold finished, committed_files. rewrite lookup_delete_ne by done.
        unfold replaced at 1. by rewrite lookup_insert_eq.
    - assert (s ∈ [Journaled; Projected]) as Hs' by set_solver.
      exists (refreshed es text core bid at_ r G), (6 + S (S n)).
      assert (interrupted request core bid at_ (new_text text core at_) G) as HG'
        by (destruct s; done).
      split_and!.
      + destruct s; try done; by eapply execs_recover_finalize.
      + by eapply refreshed_quiet.
      + unfold refreshed. rewrite lookup_delete_ne by done.
        unfold replaced. by rewrite lookup_insert_eq. }
  eexists _, _, _, _. rewrite E1. split_and!; [done|done|apply E2|done|done|done| |].
  - by eapply settled_action.
  - cbn [history]. intros F' HF. rewrite app_nil_r in HF. apply elem_of_app in HF.
    rewrite Forall_forall in Ht1, Ht2. destruct HF; auto.
Qed.
End Resume.
