(* ===== verification/StoreWitnesses.v ===== *)
(** A concrete store on which the theorems of the event store are applied: a toy process and clock,
    a store that counts its notes, an empty state directory and a batch of one note. *)

From Stdlib Require Import ZArith Lia Ascii String.
From stdpp Require Import base tactics list gmap strings option pretty.
From S2P Require Import Prelude JsString JsDate Json JsonText JsonCanon Validator FileStore EventLock EventJournal EventStore Recovery LockProps BatchProps CommitFrame CommitProps CommitTheorems StoreTheorems RecoveryProps RecoveryTheorems.

(** ** The process and the store *)

#[export] Existing Instance checksum_sha.
#[export] Existing Instance checksum_sha_laws.

#[local] Transparent iso_of_ms.

#[export] Instance toy_numbers : NumberText := JNum.

#[export] Instance toy_platform : Platform := {|
  process_pid := 4711;
  process_incarnation := hex_digits 64 12345;
  wall_clock := λ _, 1767225600000%Z;
  random_hex := λ n k, hex_digits (2 * n) (N.of_nat k);
  probe_process := λ pid, if (pid =? 4711)%Z then ProbeAlive else ProbeNoProcess;
  incarnation_of := λ pid, if (pid =? 4711)%Z then Some (hex_digits 64 12345) else None;
|}.

#[export] Instance toy_platform_laws : PlatformLaws.
Proof.
  split; try (by vm_compute); try (by intros; vm_compute).
  intros n k. apply hex_digits_pattern.
Qed.

(** The reducer of the store counts the notes it sees. *)
Definition count_note (state event batch : json) : res json :=
  match get_of "notes" state with
  | JInt n => Ok (JObj [("notes", JInt (n + 1))])
  | _ => Err TypeError
  end.

#[export] Instance toy_store : StoreOptions := {|
  workspaceId := "workspace";
  hostId := "host-1";
  store_clock := λ _, JStr "2026-01-01T00:00:00.000Z";
  reducers := λ type, if String.eqb type "note.added" then Some count_note else None;
  initialState := JObj [("notes", JInt 0)];
  project := λ _, Ok tt;
  preflight := true;
|}.

(** ** The first batch *)

Definition note_batch (revision : Z) (batch event : string) : json :=
  JObj [("expected_revision", JInt revision); ("batch_id", JStr batch);
        ("actor", JObj [("type", JStr "user"); ("id", JStr "user-1")]);
        ("correlation_id", JStr "correlation-1");
        ("events", JArr [JObj [("event_id", JStr event); ("schema_version", JInt 1);
           ("type", JStr "note.added"); ("payload", JObj [("text", JStr "first")]);
           ("evidence_refs", JArr [])]])].

Definition first_request : json := note_batch 0 "batch-1" "event-1".
Definition clock_reading : string := "2026-01-01T00:00:00.000Z".

Definition no_replay : Replay := MkReplay JNull (MkCursor 0 JNull "" "") Initial.
Definition replayed (es : list json) (text : string) : Replay :=
  match replay_journal (MkJournal es text) [] JNull with Ok r => r | Err _ => no_replay end.

Definition first_core : json := core_of first_request 1.
Definition first_entry : json := canon (new_entry first_core clock_reading).
Definition first_text : string := new_text "" first_core clock_reading.
Definition first_replay : Replay := replayed [first_entry] first_text.

Lemma empty_quiet : quiet ∅ [] "".
Proof.
  split; try done.
  - intros b. rewrite lookup_empty. by intros [].
  - intros p. rewrite lookup_empty. by intros [].
  - split; [by split; [|left]|by right].
Qed.

Lemma first_call : commit_call 0 [] first_request (core_of first_request 0) clock_reading.
Proof. split; [split|..]; vm_compute; reflexivity. Qed.

Lemma first_appends : appends [] first_request clock_reading.
Proof. vm_compute. reflexivity. Qed.

Lemma first_callbacks : callbacks_ok [] "" first_core clock_reading first_replay.
Proof.
  split.
  - vm_compute. reflexivity.
  - vm_compute. reflexivity.
  - reflexivity.
  - intros _. exists (replayed [] ""), (JObj [("notes", JInt 1)]). by split; vm_compute.
Qed.

Lemma first_append_call :
  append_call ∅ 0 [] "" first_request (core_of first_request 0) clock_reading first_replay.
Proof.
  split; [apply empty_quiet|apply first_call|apply first_appends|apply first_callbacks].
Qed.

(** ** The theorems, applied *)

Lemma commit_refines_log_witness :
  let spec := log_commit [] first_request (entry_for [] first_request clock_reading) in
  ∃ w text', commit first_request None (World ∅ 0 []) = (spec.1, w) ∧
    quiet (files w) spec.2 text' ∧ (spec.2 = [] → files w = ∅).
Proof.
  exact (commit_refines_log ∅ 0 [] "" first_request _ clock_reading empty_quiet first_call
    (λ _, ex_intro _ first_replay first_callbacks)).
Defined.

Lemma commit_crash_safe_witness :
  ∃ bid, get_of "batch_id" first_request = JStr bid ∧
  ∀ F', F' ∈ history (commit first_request None (World ∅ 0 [])).2 →
    crash_state (commit_trace_view ∅ 0 [] "" first_request first_core bid clock_reading
      first_replay) F' ∧
    let read := (readJournal journal_path (World F' 0 [])).1 in
    read = Ok (MkJournal [] "") ∨
    read = Ok (MkJournal [canon (entry_for [] first_request clock_reading)]
                 (appended_text [] "" first_request clock_reading)).
Proof. exact (commit_crash_safe ∅ 0 [] "" first_request _ clock_reading _ first_append_call). Defined.

Lemma commit_idempotent_witness :
  let seq := JInt (Z.of_nat (length (A := json) []) + 1) in
  ∃ w w', commit first_request None (World ∅ 0 []) = (Ok (MkResult Committed seq), w) ∧
    commit first_request None (World (files w) 100 []) = (Ok (MkResult Idempotent seq), w') ∧
    files w' = files w ∧
    ∀ F', F' ∈ history w' → F' !! journal_path = files w !! journal_path.
Proof.
  exact (commit_idempotent ∅ 0 100 [] "" first_request _ clock_reading _ first_append_call).
Defined.

Lemma first_journal : journal_of first_text [first_entry].
Proof. vm_compute. reflexivity. Qed.

Lemma replay_continuity_witness :
  replay_journal (MkJournal [] "") [] (cursor_json (r_cursor (replayed [] ""))) =
    Ok (MkReplay (r_state (replayed [] "")) (r_cursor (replayed [] "")) Unchanged) ∧
  replay_journal (MkJournal [first_entry] first_text) []
      (cursor_json (r_cursor (replayed [] ""))) =
    Ok (MkReplay (r_state first_replay) (r_cursor first_replay) Advanced) ∧
  replay_journal (MkJournal [] "") [] (cursor_json (r_cursor first_replay)) =
    Ok (MkReplay (r_state (replayed [] "")) (r_cursor (replayed [] "")) Rewound).
Proof.
  apply (replay_continuity "" [] first_text [first_entry] [] (replayed [] "") first_replay);
    vm_compute; congruence.
Defined.

Definition empty_cursor : Cursor := r_cursor (replayed [] "").

Lemma continuity_sound_witness :
  let n := Z.to_nat (c_sequence empty_cursor) in
  (Advanced = Advanced →
    (c_sequence empty_cursor < Z.of_nat (length [first_entry]))%Z ∧
    ∃ s, reduceEntries (take n [first_entry]) = Ok s ∧
      c_last_batch empty_cursor = last_batch_id (take n [first_entry]) ∧
      c_journal_hash empty_cursor = sha256_hex (journalPrefix first_text n) ∧
      canonicalHash s = Ok (c_projection_hash empty_cursor)) ∧
  (Advanced = Unchanged → empty_cursor = r_cursor first_replay).
Proof.
  pose proof (continuity_sound first_text [first_entry] (r_state first_replay)
    (r_cursor first_replay) empty_cursor Advanced) as Hsound. apply Hsound.
  - exact first_journal.
  - by repeat constructor; vm_compute.
  - vm_compute. reflexivity.
  - vm_compute. reflexivity.
  - split; try (vm_compute; reflexivity); [by split; vm_compute|by left; vm_compute].
  - vm_compute. reflexivity.
  - vm_compute. reflexivity.
Defined.

Lemma canonical_roundtrip_witness :
  JSON_parse (print (canon first_request)) = Some (canon first_request) ∧
  canonicalJson (canon first_request) = Ok (print (canon first_request)) ∧
  line_text (print (canon first_request)) = true.
Proof. apply (canonical_roundtrip first_request); vm_compute; reflexivity. Defined.

Lemma journal_roundtrip_witness :
  parse_journal (journal_text [first_entry]) = inr (map canon [first_entry]).
Proof.
  apply (journal_roundtrip [first_entry]).
  - by repeat constructor; vm_compute.
  - apply (proj2 (proj2 (proj1 (journal_of_iff first_text (map canon [first_entry]))
      ltac:(vm_compute; reflexivity)))).
Defined.

(** ** A commit that died *)

#[export] Instance toy_digest : RecoveryDigest :=
  λ l, sha256_hex (fold_right (λ (pt : path * string) s, pt.1.2 +:+ newline +:+ pt.2 +:+ s) "" l).

(** The lock and the marker of a process that is no more. *)
Definition dead_owner : LockMetadata :=
  MkLock 2 4000 "host-1" (Some (hex_digits 64 777)) (hex_digits 32 99) clock_reading 0.
Definition dead_marker : Transition :=
  MkTransition Publication (hex_digits 32 99) 4000 "host-1" (hex_digits 64 777) clock_reading.

Definition first_pending : string := new_pending_text first_request first_core clock_reading.
Definition first_projection : string :=
  projection_text (MkJournal [first_entry] first_text) first_replay.
Definition first_view : commit_view :=
  MkCommitView None None first_text first_projection (pending_name "batch-1") first_pending "".

(** The evidence is written, and the journal is not. *)
Definition died_files : file_map := {[ (Pending, pending_name "batch-1") := first_pending ]}.

Lemma died_lookup p t : died_files !! p = Some t → p = (Pending, pending_name "batch-1").
Proof. unfold died_files. by intros [<- _]%lookup_singleton_Some. Qed.

Lemma first_new_batch : ∃ fs,
  new_batch [] first_request first_core fs "batch-1" clock_reading.
Proof.
  destruct (appends_new_batch 0 "" [] first_request _ clock_reading eq_refl first_call first_appends)
    as (fs & bid & Hnb).
  exists fs. pose proof (nb_id _ _ _ _ _ _ Hnb) as E. by injection E as <-.
Qed.

Lemma died_commit : ∃ fs,
  dead_commit dead_owner dead_marker Evident first_view [] "" first_request first_core fs "batch-1"
    clock_reading first_replay died_files.
Proof.
  destruct first_new_batch as [fs Hnb]. exists fs.
  assert (∀ p, p ≠ (Pending, pending_name "batch-1") → died_files !! p = None) as Hno.
  { intros p Hp. by apply lookup_singleton_ne. }
  assert (∀ b, died_files !! ((Pending, b) : path) =
    if decide (pending_name "batch-1" = b) then Some first_pending else None) as Hpend.
  { intros b. case_decide as E; [subst; apply lookup_singleton_eq|].
    apply Hno. congruence. }
  split; try done.
  - split; [|by vm_compute; left| |by vm_compute].
    + split; try (vm_compute; by split || done). by eexists.
    + split; vm_compute; by split || done.
  - destruct first_callbacks as [C1 C2 C3 C4]. by split.
  - split; [by left|]. split_and!; [by apply Hno..|exact Hpend].
  - split; try done.
    + intros b [t Ht]. apply died_lookup in Ht. done.
    + split; [|done]. intros p [t ->%died_lookup]. by vm_compute.
    + intros p k. apply Hno. intros E. by apply (not_temp_pending "batch-1" p (random_hex 8 k)).
    + split; [split; [done|by left]|by right].
Qed.

Lemma recovery_completes_witness :
  let j := MkJournal [first_entry] first_text in
  ∃ w1 w2 a1 a2,
    recover_once (World (left_by dead_owner dead_marker died_files) 0 []) = (Ok a1, w1) ∧
    ap_status a1 = LockReleased ∧
    recover_once w1 = (Ok a2, w2) ∧ ap_status a2 = Retried Committed ∧
    quiet (files w2) (j_entries j) (j_text j) ∧
    files w2 !! projection_path = Some (projection_text j first_replay) ∧
    in_action (ap_after a2) = NoAction ∧
    ∀ F', F' ∈ history w2 → crash_state first_view F'.
Proof.
  destruct died_commit as [fs Hdied].
  exact (recovery_completes dead_owner dead_marker Evident first_view [] "" first_request first_core
    fs "batch-1" clock_reading first_replay died_files 0 Hdied).
Defined.

(** ** A restoration that dies

    [restore_backup_retry] puts the backup back with [replaceFileAtomic], which first copies the
    torn journal over the backup: a crash between the copy and the rename leaves no valid backup,
    and inspection asks for a manual recovery. *)
Definition torn_files : file_map :=
  <[backup_path := ""]> (<[journal_path := "{"]> died_files).

Definition finds (a : action) (F : file_map) : bool :=
  match (inspect None (World F 0 [])).1 with
  | Ok i => bool_decide (in_action i = a) | Err _ => false
  end.

Lemma restoration_loses_backup :
  finds RestoreBackupRetry torn_files = true ∧
  (∃ i, (recover_once (World torn_files 0 [])).1 = Ok (MkApplied (Retried Committed) i)) ∧
  existsb (finds BlockedCorruption) (history (recover_once (World torn_files 0 [])).2) = true.
Proof. split_and!; [vm_compute; reflexivity|eexists; vm_compute; reflexivity|vm_compute; reflexivity]. Qed.

(** A crash while the evidence is being staged, before anything is published, also asks for a
    manual repair: the staging file is in the directory of the evidence. *)
Lemma staging_blocks :
  existsb (finds BlockedPending)
    (map (λ F, delete lock_path (filter (λ pt, negb (is_transition_name pt.1.2)) F))
       (history (commit first_request None (World ∅ 0 [])).2)) = true.
Proof. vm_compute. reflexivity. Qed.
