(* ===== verification/CommandFacts.v ===== *)
(** The command boundary, its inputs ([packages/business-orchestrator/src/command-boundary.js]).

    The values of callers and resolvers are validated before use: principal, authority ceiling,
    plan, project, artefacts and the surface of the facts (lines 24-592).  The rest the boundary
    derives from the authoritative projection itself, so that no resolver can nominate it: the
    effects a cancellation concerns, the predecessors of a new generation, and the evidence a retry
    rests on (lines 583-899). *)

From Stdlib Require Import ZArith Lia String.
From stdpp Require Import base tactics list strings option gmap.
From S2P Require Import Prelude JsString JsDate Json SettlementPolicy ContractBase PlanContract.
From S2P Require Import Envelope WorkOrderState WorkOrderFacts WorkOrderEffects Outbox Lifecycle.
From S2P Require Import ProjectorBase Projection ProjectorBranch JsonText Validator.

(** [throw boundaryError(code, message, details)] *)
Abbreviation boundary code := (Err (BusinessCommandBoundaryError code)) (only parsing).
Notation "'demand' b 'else' code 'in' k" :=
  (if b then k else Err (BusinessCommandBoundaryError code))
  (at level 10, b at level 100, code at level 100, k at level 200) : res_scope.

(** ** Vocabulary *)

Definition EVENT_ACTOR_TYPES : list string := ["agent"; "user"; "system"].
Definition COMMAND_PRINCIPAL_TYPES (t : ActorType) : list string :=
  match t with ActUser => ["user"] | ActOrchestrator => ["agent"; "system"] | _ => [] end.
Definition PERMISSION_RANK (m : string) : option Z :=
  permissionRank <$> enum_find enum_all m.
Definition REQUIRED_PROVIDER_EFFECTS : list string :=
  ["provider.thread.create"; "provider.turn.start"; "provider.user_input.submit";
   "provider.turn.cancel"; "provider.thread.inspect"; "provider.turn.inspect"].
Definition COMMAND_FACT_FIELDS (n : CommandName) : list string :=
  match n with
  | NStart => ["context_budget_receipt"; "branch_criterion_ids"; "dispatch_packets"]
  | NCancelRequest => ["cancellation_evidence_refs"; "cancel_packets"; "attention_detail_ref"]
  | NResume | NRetryRequest => ["dispatch_packets"]
  | NUserInputResolve => ["resolved_response_ref"; "dispatch_packets"]
  | NAcceptanceDecision => []
  end.
Definition REQUIRED_COMMAND_FACT_FIELDS (n : CommandName) : list string :=
  match n with
  | NCancelRequest | NAcceptanceDecision => []
  | _ => COMMAND_FACT_FIELDS n
  end.
Definition PLAN_ARTIFACT_FACT_FIELDS : list string :=
  ["plan_snapshot_ref"; "plan_hash"; "project_ref"; "verified_refs"; "provider_capabilities"].
Definition CONTENT_REF_FIELDS : list string := ["id"; "hash"].
Definition PROVIDER_CAPABILITY_FIELDS : list string :=
  ["provider_ref"; "permission_modes"; "isolation_modes"; "effects"].
Definition COMMAND_AUTHORITY_FIELDS : list string :=
  ["authorized"; "principal_type"; "principal_id"; "project_ref"; "permission_mode";
   "allowed_provider_refs"; "allowed_effects"].

(** ** Readers *)

Definition isPlainObject (v : json) : bool := match v with JObj _ => true | _ => false end.

Definition hasExactFields (value : json) (names : list string) : bool :=
  match value with
  | JObj fs =>
      (length (keys fs) =? length names)%nat
      && forallb (includes names) (keys fs) && forallb (has_own fs) names
  | _ => false
  end.

(** [canonicalClone(value, code)]: what its canonical text reads back to. *)
Definition canonicalClone (value : json) (code : string) : res json :=
  match canonicalJson value with Ok _ => Ok (canon value) | Err _ => boundary code end.

Definition validateClockValue (value : json) : res string :=
  match value with
  | JStr s => demand isUtcTimestamp value else "BUSINESS_COMMAND_CLOCK_INVALID" in Ok s
  | _ => boundary "BUSINESS_COMMAND_CLOCK_INVALID"
  end.

(** A dependency that fails: an abort or a timeout is passed on, anything else has its code. *)
Definition dependencyControlError (e : error) : bool :=
  match e with
  | BusinessCommandBoundaryError code =>
      includes ["BUSINESS_COMMAND_ABORTED"; "BUSINESS_COMMAND_DEPENDENCY_TIMEOUT"] code
  | _ => false
  end.
Definition dependency {A} (code : string) (r : res A) : res A :=
  match r with
  | Ok a => Ok a
  | Err e => if dependencyControlError e then Err e else boundary code
  end.

(** ** Principals *)

Record Principal := { pr_type : string; pr_id : string }.
Definition principal_json (p : Principal) : json :=
  JObj [("type", JStr (pr_type p)); ("id", JStr (pr_id p))].

Definition normalizePrincipal (value : json) : res Principal :=
  match prop "type" value, prop "id" value with
  | JStr type, JStr id =>
      demand includes EVENT_ACTOR_TYPES type && negb (String.eqb (trim id) "")
          && String.eqb (trim id) id && (utf8Bytes id <=? 256)%Z
        else "BUSINESS_AUTHENTICATION_INVALID" in
      Ok {| pr_type := type; pr_id := id |}
  | _, _ => boundary "BUSINESS_AUTHENTICATION_INVALID"
  end.

Definition validateCommandActorBinding (command : CommandEnvelope) (principal : Principal)
    : res unit :=
  demand includes (COMMAND_PRINCIPAL_TYPES (act_type (ce_actor command))) (pr_type principal)
      && String.eqb (act_actor_id (ce_actor command)) (pr_id principal)
    else "BUSINESS_ACTOR_BINDING_MISMATCH" in Ok tt.

(** [authenticate], of what the authoriser answered. *)
Definition authenticated (answer : res json) : res Principal :=
  let* value := dependency "BUSINESS_AUTHENTICATION_FAILED" answer in
  demand truthy value else "BUSINESS_AUTHENTICATION_FAILED" in
  normalizePrincipal (or_json (prop "principal" value) value).

(** [authorize], of what the authoriser answered. *)
Definition authorized (answer : res json) : res json :=
  let* value := dependency "BUSINESS_AUTHORIZATION_DENIED" answer in
  demand truthy value else "BUSINESS_AUTHORIZATION_DENIED" in
  Ok (if is_true_value value then JObj [("authorized", JBool true)] else value).

(** ** Authority *)

(** [validateStringSet(value, { required, allowed })], with the set it accepts. *)
Definition validateStringSet (value : json) (required : list string) (allowed : option (list string))
    : option (list string) :=
  match value with
  | JArr l =>
      texts ← mapM (λ v, match v with
        | JStr s => if String.eqb (trim s) "" then None else Some s | _ => None end) l;
      if negb (has_duplicates texts) && forallb (includes texts) required
         && match allowed with Some a => forallb (includes a) texts | None => true end
      then Some texts else None
  | _ => None
  end.

Record Authority := {
  au_principal : Principal;
  au_project_ref : string;
  au_permission_mode : string;
  au_allowed_provider_refs : list string;
  au_allowed_effects : list string;
}.
Definition authority_json (a : Authority) : json :=
  JObj [("authorized", JBool true); ("principal_type", JStr (pr_type (au_principal a)));
        ("principal_id", JStr (pr_id (au_principal a)));
        ("project_ref", JStr (au_project_ref a));
        ("permission_mode", JStr (au_permission_mode a));
        ("allowed_provider_refs", str_list_json (au_allowed_provider_refs a));
        ("allowed_effects", str_list_json (au_allowed_effects a))].

Definition plan_providers (plan : Plan) : list string :=
  pp_allowed_provider_refs (pl_provider_policy plan).

Definition validateAuthorityCeiling (authority : json) (plan : Plan) (principal : Principal)
    : res Authority :=
  let code := "BUSINESS_AUTHORITY_CEILING_INVALID" in
  demand hasExactFields authority COMMAND_AUTHORITY_FIELDS
      && is_true_value (prop "authorized" authority)
      && strict_eq (prop "principal_type" authority) (JStr (pr_type principal))
      && strict_eq (prop "principal_id" authority) (JStr (pr_id principal))
      && strict_eq (prop "project_ref" authority) (JStr (pl_project_ref plan))
    else code in
  match prop "permission_mode" authority,
        validateStringSet (prop "allowed_provider_refs" authority) (plan_providers plan) None,
        validateStringSet (prop "allowed_effects" authority) REQUIRED_PROVIDER_EFFECTS None with
  | JStr mode, Some providers, Some effects =>
      match PERMISSION_RANK mode with
      | Some rank =>
          demand negb (rank <? permissionRank (pl_permission_mode plan))%Z else code in
          Ok {| au_principal := principal; au_project_ref := pl_project_ref plan;
                au_permission_mode := mode; au_allowed_provider_refs := sort_text providers;
                au_allowed_effects := sort_text effects |}
      | None => boundary code
      end
  | _, _, _ => boundary code
  end.

(** ** The plan and the project *)

Section Plans.
Context `{Sha256}.

Definition normalizeResolvedPlan (value : json) (command : CommandEnvelope) : res Plan :=
  match normalizeBusinessWorkOrderPlanV1 (or_json (prop "plan" value) value) with
  | Err _ => boundary "BUSINESS_PLAN_INVALID"
  | Ok normalized =>
      demand String.eqb (pl_plan_snapshot_id normalized) (ei_plan_snapshot_ref (ce_identity command))
          && String.eqb (pl_plan_hash normalized) (ei_plan_hash (ce_identity command))
        else "BUSINESS_PLAN_BINDING_MISMATCH" in
      Ok normalized
  end.

(** [resolveStartPlan], of what the resolver answered. *)
Definition resolveStartPlan (answer : res json) (command : CommandEnvelope) : res Plan :=
  let* resolved := dependency "BUSINESS_PLAN_RESOLUTION_FAILED" answer in
  demand truthy resolved else "BUSINESS_PLAN_NOT_FOUND" in
  normalizeResolvedPlan resolved command.
End Plans.

(** [resolveProject], of what the resolver answered. *)
Definition resolveProject (answer : res json) (plan : Plan) : res json :=
  let* project := dependency "BUSINESS_PROJECT_RESOLUTION_FAILED" answer in
  demand isPlainObject project else "BUSINESS_PROJECT_NOT_FOUND" in
  demand strict_eq (nullish (prop "project_ref" project) (prop "id" project))
      (JStr (pl_project_ref plan))
    else "BUSINESS_PROJECT_BINDING_MISMATCH" in
  Ok project.

(** ** The artefacts of a plan *)

Definition planContentRefs (plan : Plan) : list ContentRef :=
  isort content_ref_leb
    (plan_content_refs
      [pl_task_intent_ref plan; pl_execution_plan_ref plan; pl_context_pack_ref plan]
      (pl_branches plan) (pl_acceptance_policy plan)).

(** An entry of [verified_refs]. *)
Definition verified_ref (v : json) : option ContentRef :=
  if hasExactFields v CONTENT_REF_FIELDS then
    match prop "id" v, prop "hash" v with
    | JStr id, JStr hash =>
        if hex_pattern 64 hash then Some {| cr_id := id; cr_hash := hash |} else None
    | _, _ => None
    end
  else None.

Definition validateVerifiedRefs (value : json) (plan : Plan) : bool :=
  match value with
  | JArr l =>
      let expected := planContentRefs plan in
      (length l =? length expected)%nat &&
      match mapM verified_ref l with
      | Some actual =>
          negb (has_duplicates (map cr_id actual))
          && match same (JArr (map content_ref_json (isort content_ref_leb actual)))
                        (JArr (map content_ref_json expected)) with
             | Ok equal => equal
             | Err _ => false
             end
      | None => false
      end
  | _ => false
  end.

(** What a capability of a provider must cover. *)
Definition plan_permissions (plan : Plan) : list string :=
  remove_dups (enum_str (pl_permission_mode plan)
    :: map (λ b, enum_str (pb_permission_mode b)) (pl_branches plan)).
Definition plan_isolations (plan : Plan) : list string :=
  remove_dups (map (λ b, enum_str (pb_isolation b)) (pl_branches plan)).

Definition provider_capability (plan : Plan) (v : json) : option string :=
  if hasExactFields v PROVIDER_CAPABILITY_FIELDS then
    match prop "provider_ref" v,
          validateStringSet (prop "permission_modes" v) (plan_permissions plan)
            (Some (map enum_str (@enum_all PermissionMode _))),
          validateStringSet (prop "isolation_modes" v) (plan_isolations plan)
            (Some (map enum_str (@enum_all IsolationMode _))),
          validateStringSet (prop "effects" v) REQUIRED_PROVIDER_EFFECTS None with
    | JStr provider, Some _, Some _, Some _ => Some provider
    | _, _, _, _ => None
    end
  else None.

Definition validateProviderCapabilities (value : json) (plan : Plan) : bool :=
  match value with
  | JArr l =>
      (length l =? length (plan_providers plan))%nat &&
      match mapM (provider_capability plan) l with
      | Some providers =>
          negb (has_duplicates providers) && forallb (includes providers) (plan_providers plan)
      | None => false
      end
  | _ => false
  end.

(** [resolvePlanArtifacts], of what the resolver answered. *)
Definition resolvePlanArtifacts (answer : res json) (plan : Plan) : res json :=
  let* facts := dependency "BUSINESS_PLAN_ARTIFACT_RESOLUTION_FAILED" answer in
  demand hasExactFields facts PLAN_ARTIFACT_FACT_FIELDS
      && strict_eq (prop "plan_snapshot_ref" facts) (JStr (pl_plan_snapshot_id plan))
      && strict_eq (prop "plan_hash" facts) (JStr (pl_plan_hash plan))
      && strict_eq (prop "project_ref" facts) (JStr (pl_project_ref plan))
      && validateVerifiedRefs (prop "verified_refs" facts) plan
      && validateProviderCapabilities (prop "provider_capabilities" facts) plan
    else "BUSINESS_PLAN_ARTIFACTS_UNVERIFIED" in
  canonicalClone facts "BUSINESS_PLAN_ARTIFACTS_UNVERIFIED".

(** ** The facts of a command *)

(** [resolveCommandFacts], of what the resolver answered.  A retry of an effect generation needs no
    packet and drops one that is offered. *)
Definition resolveCommandFacts (answer : res json) (command : CommandEnvelope)
    (retries_generation : bool) : res fields :=
  let* facts := dependency "BUSINESS_COMMAND_FACT_RESOLUTION_FAILED" answer in
  let retries_generation :=
    bool_decide (command_name command = NRetryRequest) && retries_generation in
  match facts with
  | JObj fs =>
      let required := if retries_generation then []
        else REQUIRED_COMMAND_FACT_FIELDS (command_name command) in
      demand forallb (includes (COMMAND_FACT_FIELDS (command_name command))) (keys fs)
          && forallb (has_own fs) required
        else "BUSINESS_COMMAND_FACTS_UNVERIFIED" in
      let* normalized := canonicalClone facts "BUSINESS_COMMAND_FACTS_UNVERIFIED" in
      match normalized with
      | JObj fs =>
          Ok (if retries_generation then filter (λ kv, kv.1 ≠ "dispatch_packets") fs else fs)
      | _ => boundary "BUSINESS_COMMAND_FACTS_UNVERIFIED"   (* not reached: a clone of an object *)
      end
  | _ => boundary "BUSINESS_COMMAND_FACTS_UNVERIFIED"
  end.

(** * Facts of the projection *)

Abbreviation PROJECTION_INVALID := "BUSINESS_WORK_ORDER_PROJECTION_INVALID" (only parsing).
Abbreviation PREDECESSOR_INVALID := "BUSINESS_EFFECT_GENERATION_PREDECESSOR_INVALID" (only parsing).

Section Facts.
Context `{Sha256}.
Implicit Types (p : Projection) (s : State) (branch : Branch).

(** The effect is one of the branch's current attempt and dispatch, in the current contract. *)
Definition of_current_attempt s branch (e : Effect) : bool :=
  fx_v2 e && String.eqb (fx_work_order_id e) (st_work_order_id s)
  && String.eqb (fx_branch_ref e) (br_branch_ref branch)
  && (fx_attempt e =? br_attempt branch)%Z
  && bool_decide (fx_dispatch_id e = br_dispatch_id branch)
  && String.eqb (fx_provider_ref e) (br_provider_ref branch).

(** [Object.values(projection.outbox)] *)
Definition outbox_effects p : list Effect := map snd (sorted_entries (pj_outbox p)).

Definition immutableEffectFact (e : Effect) : json :=
  match effect_identity V2_EFFECT_IDENTITY_FIELDS e with
  | JObj fs => JObj (fs ++ [("status", enum_json (fx_status e))])
  | j => j
  end.

(** ** Cancellation *)

Definition cancellation_candidates p s branch : list Effect :=
  match br_state branch with
  | BDispatchPending =>
      filter (λ e, of_current_attempt s branch e && has_start_kind e
        && among V2_UNRESOLVED_EFFECT_STATUSES (fx_status e) = true) (outbox_effects p)
  | BWaitingForUser =>
      match br_pending_user_input_effect_id branch ≫= λ id, pj_outbox p !! id with
      | Some e =>
          if of_current_attempt s branch e && has_kind UserInputSubmit e
             && among V2_UNRESOLVED_EFFECT_STATUSES (fx_status e) then [e] else []
      | None => []
      end
  | _ => []
  end.

Definition authoritativeCancellationFacts p s : res json :=
  let* entries := mapR (λ branch,
    match cancellation_candidates p s branch with
    | [] => Ok []
    | [e] => Ok [(br_branch_ref branch, immutableEffectFact e)]
    | _ => boundary "BUSINESS_CANCELLATION_EFFECT_INVALID"
    end) (ordered_branches s) in
  canonicalClone (JObj (concat entries)) "BUSINESS_CANCELLATION_EFFECT_INVALID".

(** ** Generations *)

(** [candidates.sort((l, r) => l.operation_generation - r.operation_generation).at(-1)] *)
Definition latest_generation (l : list Effect) : option Effect :=
  last (isort (λ a b, fx_generation a <=? fx_generation b)%Z l).

Definition latestNotSentGeneration p s branch (effectKind : EffectKind)
    (operationScopeHash : string) : option json :=
  e ← latest_generation (filter (λ e, of_current_attempt s branch e && has_kind effectKind e
    && String.eqb (ef_operation_scope_hash (fx_identity e)) operationScopeHash = true)
    (outbox_effects p));
  if has_status FsNotSent e then Some (immutableEffectFact e) else None.

Definition authoritativeLifecycleSnapshot p s : res LifecycleSnapshot :=
  match let* snapshot := deriveLifecycleSnapshot s (pj_outbox p) (st_attention s) in
        assertLifecycleInvariants snapshot with
  | Err (BusinessLifecycleInvariantError _) => boundary PROJECTION_INVALID
  | r => r
  end.

(** The scope of the mutation of the running turn of a branch, when it has one. *)
Definition turn_scope branch (effectKind : EffectKind) (requestId : option string)
    (responseRef : option ContentRef) : option ScopeBinding :=
  match br_runtime_identity branch, br_turn_start_effect_id branch,
        br_turn_start_delivery_hash branch with
  | Some identity, Some effect, Some delivery =>
      Some {| sb_effect_kind := effectKind; sb_provider_ref := br_provider_ref branch;
              sb_packet_ref := ""; sb_packet_hash := "";   (* [undefined]: not in this scope *)
              sb_predecessor_effect_id := Some effect;
              sb_predecessor_delivery_hash := Some delivery;
              sb_target_runtime_identity := Some identity; sb_request_id := requestId;
              sb_response_ref := responseRef |}
  | _, _, _ => None
  end.

(** The predecessors, by branch, of one kind of mutation on some of the branches. *)
Definition predecessors_of p s (branches : list Branch) (effectKind : EffectKind)
    (requestId : option string) (responseRef : option ContentRef) : res fields :=
  let* entries := mapR (λ branch,
    match turn_scope branch effectKind requestId responseRef with
    | None => Ok []
    | Some scope =>
        let* hash := deriveEffectOperationScopeHashV2 scope in
        Ok match latestNotSentGeneration p s branch effectKind hash with
           | Some predecessor => [(br_branch_ref branch, predecessor)]
           | None => []
           end
    end) branches in
  Ok (concat entries).

Definition authoritativeGenerationPredecessors p s (command : CommandEnvelope) : res json :=
  match ce_payload command with
  | CancelRequestPayload _ =>
      let* _ := authoritativeLifecycleSnapshot p s in
      let* predecessors := predecessors_of p s (ordered_branches s) TurnCancel None None in
      canonicalClone (JObj predecessors) PREDECESSOR_INVALID
  | UserInputResolvePayload request response =>
      let* _ := authoritativeLifecycleSnapshot p s in
      let* predecessors := predecessors_of p s
        (filter (λ b, (oui_request_id <$> br_open_user_input b) = Some request) (ordered_branches s))
        UserInputSubmit (Some request) (Some response) in
      canonicalClone (JObj predecessors) PREDECESSOR_INVALID
  | _ => Ok (JObj [])
  end.

(** ** Retries *)

Definition currentStartStage branch : option EffectKind :=
  match br_turn_start_effect_id branch, br_thread_create_effect_id branch with
  | Some _, _ => None
  | None, Some _ => Some TurnStart
  | None, None => Some ThreadCreate
  end.

Definition currentStartOperationScopeHash branch (effectKind : EffectKind) : res (option string) :=
  match br_packet_ref branch with
  | None => Ok None
  | Some packet =>
      let on_turn {A} (o : option A) := match effectKind with TurnStart => o | _ => None end in
      let* hash := deriveEffectOperationScopeHashV2
        {| sb_effect_kind := effectKind; sb_provider_ref := br_provider_ref branch;
           sb_packet_ref := cr_id packet; sb_packet_hash := cr_hash packet;
           sb_predecessor_effect_id := on_turn (br_thread_create_effect_id branch);
           sb_predecessor_delivery_hash := on_turn (br_thread_create_delivery_hash branch);
           sb_target_runtime_identity := on_turn (br_thread_identity branch);
           sb_request_id := None; sb_response_ref := None |} in
      Ok (Some hash)
  end.

Definition latestCurrentStartEffect p s branch : res (option Effect) :=
  match currentStartStage branch, br_packet_ref branch with
  | Some effectKind, Some packet =>
      let* hash := currentStartOperationScopeHash branch effectKind in
      Ok (latest_generation (filter (λ e, of_current_attempt s branch e && has_kind effectKind e
        && bool_decide (Some (ef_operation_scope_hash (fx_identity e)) = hash)
        && String.eqb (ef_packet_ref (fx_identity e)) (cr_id packet)
        && String.eqb (ef_packet_hash (fx_identity e)) (cr_hash packet) = true)
        (outbox_effects p)))
  | _, _ => Ok None
  end.

(** What a retry of an effect generation rests on: the effect that was not sent, the policy it was
    settled with and the schedule that policy gives. *)
Inductive RetryBasis :=
| EffectGeneration (basis : json)
| BranchAttempt (basis : json).
Definition retry_basis_json (b : RetryBasis) : json :=
  match b with EffectGeneration j | BranchAttempt j => j end.
Definition retries_generation (b : option RetryBasis) : bool :=
  match b with Some (EffectGeneration _) => true | _ => false end.

(** The policy and the schedule of the generation that was not sent; a failure inside is one of
    the projection. *)
Definition generation_schedule s branch (predecessor : Effect) (policy : SettlementPolicy)
    : res (SettlementPolicy * RetrySchedule) :=
  let derived :=
    let* policy := normalizeSettlementPolicyRecordV2 (settlement_policy_json policy) in
    demand has_kind (sp_effect_kind policy) predecessor
        && bool_decide (sp_classification policy = CNotSent)
        && bool_decide (sp_disposition policy = RetryCandidate)
        && bool_decide (sp_retry_scope policy = ScopeEffectGeneration)
      else PROJECTION_INVALID in
    match fx_delivery predecessor with
    | Some delivery =>
        demand bool_decide (ed_classification delivery = CNotSent) else PROJECTION_INVALID in
        let* schedule := deriveEffectGenerationRetryScheduleV2
          (schedule_input s policy (fx_generation predecessor) (ed_recorded_at delivery)
            (br_attempt_deadline_at branch)) in
        Ok (policy, schedule)
    | None => boundary PROJECTION_INVALID
    end in
  match derived with Ok r => Ok r | Err _ => boundary PROJECTION_INVALID end.

Definition effectGenerationRetryBasis p s branch : res (option RetryBasis) :=
  let* latest := latestCurrentStartEffect p s branch in
  match latest with
  | None => Ok None
  | Some predecessor =>
      match has_status FsNotSent predecessor, fx_settlement_policy predecessor with
      | true, Some stored =>
          let* ' (policy, schedule) := generation_schedule s branch predecessor stored in
          demand rs_permitted schedule else "BUSINESS_RETRY_EXHAUSTED" in
          demand negb (bool_decide (br_state branch = BRetryable))
              || bool_decide (br_retry_at branch = Some (rs_eligible_at schedule))
            else PROJECTION_INVALID in
          let* basis := canonicalClone (JObj
            [("kind", JStr "effect_generation"); ("predecessor", immutableEffectFact predecessor);
             ("settlement_policy", settlement_policy_json policy);
             ("eligible_at", timestamp_json (rs_eligible_at schedule))]) PREDECESSOR_INVALID in
          Ok (Some (EffectGeneration basis))
      | _, _ => Ok None
      end
  end.

(** Has the runtime reported the failure of the current attempt? *)
Definition runtime_failure branch : bool :=
  match br_last_runtime_observation branch with
  | Some o =>
      bool_decide (observation_name o = NFailed)
      && bool_decide (payload_branch_ref (oe_payload o) = Some (br_branch_ref branch))
      && bool_decide (payload_attempt (oe_payload o) = Some (br_attempt branch))
  | None => false
  end.
Definition result_failure branch : bool :=
  match br_result branch with Some r => (rs_attempt r =? br_attempt branch)%Z | None => false end.

Definition branchAttemptRetryBasis branch : res (option RetryBasis) :=
  let acceptedDelivery := bool_decide (de_classification <$> br_delivery branch = Some CAccepted) in
  if bool_decide (br_state branch = BFailed) && acceptedDelivery
     && (runtime_failure branch || result_failure branch) then
    let* basis := canonicalClone (JObj
      [("kind", JStr "branch_attempt");
       ("terminal_evidence", JObj
         [("kind", JStr (if runtime_failure branch then "accepted_runtime_failure"
             else "accepted_result_failure"));
          ("attempt", JInt (br_attempt branch));
          ("dispatch_id", opt_json JStr (br_dispatch_id branch));
          ("delivery", opt_json delivery_state_json (br_delivery branch));
          ("runtime_observation", opt_json observation_json (br_last_runtime_observation branch));
          ("result", opt_json result_json (br_result branch))])]) PROJECTION_INVALID in
    Ok (Some (BranchAttempt basis))
  else Ok None.

Definition authoritativeRetryBasis p s (command : CommandEnvelope) : res (option RetryBasis) :=
  match ce_payload command with
  | RetryRequestPayload ref failed_attempt _ =>
      match st_branches s !! ref with
      | None => boundary "BUSINESS_RETRY_NOT_SAFE"
      | Some branch =>
          demand (br_attempt branch =? failed_attempt)%Z else "BUSINESS_RETRY_NOT_SAFE" in
          let* generation := effectGenerationRetryBasis p s branch in
          match generation with
          | Some basis => Ok (Some basis)
          | None =>
              let* attempt := branchAttemptRetryBasis branch in
              match attempt with
              | Some basis => Ok (Some basis)
              | None => boundary "BUSINESS_RETRY_NOT_SAFE"
              end
          end
      end
  | _ => Ok None
  end.
End Facts.
