(* ===== verification/CommandBoundary.v ===== *)
(** The command boundary, execution ([packages/business-orchestrator/src/command-boundary.js],
    lines 149-215 and 902-1423): a command is bound to the state the journal holds, decided, and
    committed with its receipt as one batch.  A lost race for the journal's revision is decided
    again on the newer state; an uncertain commit is settled by reading the receipt back.

    The event store, the authoriser, the resolvers, the decider and the clock are injected by the
    code and are parameters here.  A call that the code awaits is a point at which other processes
    may change the store: [es_others] says how.  What the boundary itself asks of the store is
    recorded: [w_commits] lists the requests, each with the store it met and the store it left. *)

From Stdlib Require Import ZArith Lia String.
From stdpp Require Import base tactics list strings option gmap.
From S2P Require Import Prelude JsString JsDate Json JsonText SettlementPolicy ContractBase.
From S2P Require Import PlanContract Envelope WorkOrderState WorkOrderFacts Outbox Lifecycle.
From S2P Require Import ProjectorBase Projection ProjectorOutbox ProjectorSettlement Projector.
From S2P Require Import CommandFacts.

Abbreviation DECISION_INVALID := "BUSINESS_COMMAND_DECISION_INVALID" (only parsing).
Abbreviation ENGINE_VERSION := (2%Z) (only parsing).   (* [BUSINESS_ENGINE_CONTRACT_VERSION] *)

(** ** Receipts and decisions *)

Section Decision.
Context `{Sha256}.

Definition commandIdentityHash (command : CommandEnvelope) (principal : Principal) : res string :=
  canonicalHash (JObj [("source_type", JStr "command"); ("command", command_json command);
                       ("authenticated_principal", principal_json principal)]).

(** [None] is [RECEIPT_NOT_FOUND]. *)
Definition readReceipt (p : Projection) (command : CommandEnvelope) (identityHash : string)
    : res (option json) :=
  match pj_command_receipts p !! ce_command_id command with
  | None => Ok None
  | Some receipt =>
      demand String.eqb (rc_source_id receipt) (ce_command_id command)
          && bool_decide (rc_source_type receipt = SCommand)
        else "BUSINESS_COMMAND_RECEIPT_INVALID" in
      demand String.eqb (rc_identity_hash receipt) identityHash
        else "BUSINESS_COMMAND_ID_CONFLICT" in
      let* result := canonicalClone (rc_result receipt) "BUSINESS_COMMAND_RECEIPT_INVALID" in
      Ok (Some result)
  end.

Definition currentWorkOrderRevision (w : WorkOrder) : res Z :=
  let revision := st_revision (wo_state w) in
  demand is_safe_integer revision && (1 <=? revision)%Z else PROJECTION_INVALID in Ok revision.

Definition assertExpectedRevision (command : CommandEnvelope) (workOrder : option WorkOrder)
    : res unit :=
  let* actual := match workOrder with Some w => currentWorkOrderRevision w | None => Ok 0%Z end in
  demand (ce_expected_work_order_revision command =? actual)%Z else "BUSINESS_WORK_ORDER_STALE" in
  Ok tt.

(** The references of an intent, absent ones being none. *)
Definition intent_evidence (v : json) : res (list json) :=
  match v with
  | JUndef => Ok []
  | JArr l =>
      demand forallb (λ x, match x with
          | JStr s => negb (String.eqb (trim s) "") | _ => false end) l else DECISION_INVALID in
      Ok l
  | _ => boundary DECISION_INVALID
  end.

Definition normalizeDecisionEvent (intent : json) (sourceId : string) (ordinal : nat) : res json :=
  match prop "type" intent, prop "payload" intent with
  | JStr type, JObj payload =>
      demand bool_decide (is_Some (enum_find (@enum_all EventType _) type)) else DECISION_INVALID in
      let* evidence := intent_evidence (prop "evidence_refs" intent) in
      let* payload := canonicalClone (JObj payload) DECISION_INVALID in
      let* hash := canonicalHash (JObj
        [("source_id", JStr sourceId); ("ordinal", JInt (Z.of_nat ordinal)); ("type", JStr type);
         ("payload", payload); ("evidence_refs", JArr evidence)]) in
      Ok (JObj [("event_id", JStr ("BVE-" +:+ slice0 32 hash)); ("schema_version", JInt 1);
                ("type", JStr type); ("payload", payload); ("evidence_refs", JArr evidence)])
  | _, _ => boundary DECISION_INVALID
  end.

(** A start creates exactly one Work Order, in the current contract. *)
Definition checkCreation (command : CommandEnvelope) (events : list json) : res unit :=
  if bool_decide (command_name command = NStart) then
    match filter (λ e, strict_eq (prop "type" e) (enum_json EWorkOrderCreated) = true) events with
    | [created] =>
        match prop "payload" created with
        | JUndef | JNull => Err TypeError
        | payload =>
            demand strict_eq (prop "engine_contract_version" payload) (JInt ENGINE_VERSION)
              else DECISION_INVALID in Ok tt
        end
    | _ => boundary DECISION_INVALID
    end
  else Ok tt.

Record Decision := {
  dc_events : list json;
  dc_result : json;
  dc_applied_revision : Z;
}.

Definition normalizeDecision (decision : json) (command : CommandEnvelope) : res Decision :=
  match decision, prop "events" decision with
  | JObj fs, JArr (first :: rest) =>
      let events := first :: rest in
      demand has_own fs "result" else DECISION_INVALID in
      let* result := canonicalClone (get "result" fs) DECISION_INVALID in
      let targetRevision := (ce_expected_work_order_revision command + 1)%Z in
      demand is_undef (get "applied_revision" fs)
          || strict_eq (get "applied_revision" fs) (JInt targetRevision) else DECISION_INVALID in
      demand match result with
             | JObj r => negb (has_own r "work_order_revision")
                 || strict_eq (get "work_order_revision" r) (JInt targetRevision)
             | _ => true
             end else DECISION_INVALID in
      let* _ := checkCreation command events in
      let* events := imapR (λ i e, normalizeDecisionEvent e (ce_command_id command) i) 0 events in
      Ok {| dc_events := events; dc_result := result; dc_applied_revision := targetRevision |}
  | _, _ => boundary DECISION_INVALID
  end.

Definition batchId (command : CommandEnvelope) : string :=
  "business:" +:+ ce_command_id command.

(** The receipt of a decision, and the event that records it. *)
Definition receiptEvent (command : CommandEnvelope) (identityHash : string) (decision : Decision)
    (occurredAt : string) : res json :=
  let identity := ce_identity command in
  let receipt := JObj
    [("source_id", JStr (ce_command_id command)); ("source_type", JStr "command");
     ("identity_hash", JStr identityHash); ("payload_hash", JStr (ce_payload_hash command));
     ("work_order_id", JStr (ei_work_order_id identity));
     ("applied_revision", JInt (dc_applied_revision decision));
     ("batch_id", JStr (batchId command));
     ("event_ids", JArr (map (prop "event_id") (dc_events decision)));
     ("result", dc_result decision)] in
  normalizeDecisionEvent (JObj
    [("type", enum_json ECommandReceived);
     ("payload", JObj
       [("work_order_id", JStr (ei_work_order_id identity));
        ("plan_snapshot_ref", JStr (ei_plan_snapshot_ref identity));
        ("plan_hash", JStr (ei_plan_hash identity)); ("source_id", JStr (ce_command_id command));
        ("prior_work_order_revision", JInt (ce_expected_work_order_revision command));
        ("target_work_order_revision", JInt (dc_applied_revision decision));
        ("occurred_at", JStr occurredAt); ("receipt", receipt)]);
     ("evidence_refs", JArr [])])
    (ce_command_id command) (length (dc_events decision)).

(** The request for the store. *)
Definition commit_request (command : CommandEnvelope) (principal : Principal) (revision : Z)
    (events : list json) : json :=
  JObj [("expected_revision", JInt revision); ("batch_id", JStr (batchId command));
        ("actor", principal_json principal); ("correlation_id", JStr (ce_command_id command));
        ("events", JArr events)].

Definition workOrderPlan (w : WorkOrder) (command : CommandEnvelope) : res Plan :=
  normalizeResolvedPlan (plan_json (st_plan (wo_state w))) command.
End Decision.

(** ** What the boundary is given *)

(** [createEventStore]'s interface: [replay] answers the projection and the journal's length,
    [commit] answers and changes the store, [es_others] is what other processes do meanwhile. *)
Class EventStoreApi (S : Type) := {
  es_replay : nat → S → res (Projection * Z);
  es_commit : nat → json → S → res json * S;
  es_others : nat → S → S;
}.

(** What ends a wait before its answer. *)
Inductive Interruption := Aborts | TimesOut.

(** The injected services, by the number of the call: each may answer differently each time.
    [sv_aborted] is [signal.aborted]. *)
Class CommandServices := {
  sv_authenticate : nat → json → res json;
  sv_authorize : nat → Principal → CommandEnvelope → option WorkOrder → Plan → json → res json;
  sv_resolvePlan : nat → string → string → Principal → res json;
  sv_resolveProject : nat → string → Principal → res json;
  sv_resolvePlanArtifacts : nat → Plan → json → Principal → Authority → list ContentRef → res json;
  sv_resolveCommandFacts : nat → CommandEnvelope → option WorkOrder → Plan → json → Principal →
    Authority → json → list string → res json;
  sv_decider : nat → option WorkOrder → CommandEnvelope → fields → res json;
  sv_clock : nat → json;
  sv_aborted : nat → bool;
  sv_interruption : nat → option Interruption;
  maxGlobalCasRetries : nat;
}.

(** ** Computations *)

(** A call of [eventStore.commit]: the store before it, the request, the store after it. *)
Record Commit (S : Type) := MkCommit { cm_before : S; cm_request : json; cm_after : S }.
Arguments MkCommit {S}.
Arguments cm_before {S}.
Arguments cm_request {S}.
Arguments cm_after {S}.

Record World (S : Type) := MkWorld {
  w_store : S;
  w_time : nat;                     (* calls so far *)
  w_commits : list (Commit S);     (* the commits so far, the latest first *)
}.
Arguments MkWorld {S}.
Arguments w_store {S}.
Arguments w_time {S}.
Arguments w_commits {S}.

Definition M (S A : Type) : Type := World S → res A * World S.

Definition ret {S A} (a : A) : M S A := λ w, (Ok a, w).
Definition throw {S A} (e : error) : M S A := λ w, (Err e, w).
Definition lift {S A} (r : res A) : M S A := λ w, (r, w).
Definition then_ {S A B} (m : M S A) (k : A → M S B) : M S B :=
  λ w, match m w with (Ok a, w') => k a w' | (Err e, w') => (Err e, w') end.
(** [try { return await m } catch (error) { ... }] *)
Definition try_catch {S A} (m : M S A) (handler : error → M S A) : M S A :=
  λ w, match m w with (Ok a, w') => (Ok a, w') | (Err e, w') => handler e w' end.

Declare Scope await_scope.
Notation "'await' x := m 'in' k" := (then_ m (fun x => k))
  (at level 10, x name, m at level 100, k at level 200) : await_scope.
Notation "'await' ' p := m 'in' k" := (then_ m (fun x => match x with p => k end))
  (at level 10, p pattern, m at level 100, k at level 200) : await_scope.
Notation "'require' b 'else' code 'in' k" :=
  (if b then k else throw (BusinessCommandBoundaryError code))
  (at level 10, b at level 100, code at level 100, k at level 200) : await_scope.
Open Scope await_scope.

Section Execute.
Context `{Sha256} {evidence : SendEvidence} {hashing : ProjectionHash}.
Context {Store : Type} {store : EventStoreApi Store} {services : CommandServices}.
Abbreviation io := (M Store).

(** Other processes act, and a call passes. *)
Definition pass (w : World Store) : World Store :=
  MkWorld (es_others (w_time w) (w_store w)) (S (w_time w)) (w_commits w).

Definition assertNotAborted : io unit :=
  λ w, (if sv_aborted (w_time w) then boundary "BUSINESS_COMMAND_ABORTED" else Ok tt, w).

(** [awaitDependency(operation, { signal, timeoutMs, dependency })]; without a signal nothing
    aborts. *)
Definition awaitDependency {A} (signal : bool) (operation : nat → Store → res A) : io A := λ w,
  if signal && sv_aborted (w_time w) then (boundary "BUSINESS_COMMAND_ABORTED", w)
  else
    let w' := pass w in
    (match sv_interruption (w_time w), signal with
     | Some Aborts, true => boundary "BUSINESS_COMMAND_ABORTED"
     | Some TimesOut, _ => boundary "BUSINESS_COMMAND_DEPENDENCY_TIMEOUT"
     | _, _ => operation (w_time w) (w_store w')
     end, w').

(** An injected service is awaited, and what it settled with is read. *)
Definition consult {A B} (operation : nat → res A) (read : res A → res B) : io B := λ w,
  let (answer, w') := awaitDependency true (λ t _, operation t) w in (read answer, w').

(** [normalizeProjection(await awaitDependency(() => eventStore.replay(...)))]: the projection and
    its watermark. *)
Definition replay_store (signal : bool) : io (Projection * Z) :=
  await ' (projection, revision) := awaitDependency signal es_replay in
  require is_safe_integer revision && (0 <=? revision)%Z else "BUSINESS_PROJECTION_INVALID" in
  ret (projection, revision).

(** [eventStore.commit(request)] *)
Definition commit_store (request : json) : io json := λ w,
  let w' := pass w in
  let (answer, s) := es_commit (w_time w) request (w_store w') in
  (answer, MkWorld s (w_time w') (MkCommit (w_store w') request s :: w_commits w)).

Section Command.
Context (command : CommandEnvelope) (principal : Principal) (identityHash : string).

Definition is_start : bool := bool_decide (command_name command = NStart).

(** What a command is bound to. *)
Record Bound := {
  bn_projection : Projection;
  bn_revision : Z;
  bn_order : option WorkOrder;
  bn_plan : Plan;
  bn_project : json;
  bn_authority : Authority;
}.

(** [startPlan || workOrderPlan(workOrder, command)] *)
Definition command_plan (workOrder : option WorkOrder) : io Plan :=
  match is_start, workOrder with
  | false, Some w => lift (workOrderPlan w command)
  | _, _ => consult (λ t, sv_resolvePlan t (ei_plan_snapshot_ref (ce_identity command))
      (ei_plan_hash (ce_identity command)) principal) (λ r, resolveStartPlan r command)
  end.

(** The state the journal holds, the plan, the project and the authority. *)
Definition bind_command : io Bound :=
  await ' (projection, revision) := replay_store true in
  let workOrder := pj_work_orders projection !! ei_work_order_id (ce_identity command) in
  require is_start || negb (is_none workOrder) else "BUSINESS_WORK_ORDER_NOT_FOUND" in
  await plan := command_plan workOrder in
  await project := consult (λ t, sv_resolveProject t (pl_project_ref plan) principal)
    (λ r, resolveProject r plan) in
  await ceiling := consult (λ t, sv_authorize t principal command workOrder plan project)
    authorized in
  await authority := lift (validateAuthorityCeiling ceiling plan principal) in
  ret {| bn_projection := projection; bn_revision := revision; bn_order := workOrder;
         bn_plan := plan; bn_project := project; bn_authority := authority |}.

(** Forward automation waits for a provider mutation that still needs cleaning up, and a retry has
    its evidence. *)
Definition retry_basis (b : Bound) : res (option RetryBasis) :=
  match bn_order b, ce_payload command with
  | Some w, ResumePayload _ =>
      let* _ := authoritativeLifecycleSnapshot (bn_projection b) (wo_state w) in Ok None
  | Some w, RetryRequestPayload ref _ _ =>
      let* lifecycle := authoritativeLifecycleSnapshot (bn_projection b) (wo_state w) in
      demand match snapshot_branch lifecycle ref with
             | Some branch => bs_lifecycle_retry_clear branch | None => true end
        else "BUSINESS_COMMAND_LIFECYCLE_HOLD" in
      authoritativeRetryBasis (bn_projection b) (wo_state w) command
  | _, _ => Ok None
  end.

(** The facts the projection itself gives to the decider. *)
Definition projection_facts (b : Bound) : res fields :=
  match bn_order b, ce_payload command with
  | Some w, CancelRequestPayload _ =>
      let* cancellation := authoritativeCancellationFacts (bn_projection b) (wo_state w) in
      let* predecessors :=
        authoritativeGenerationPredecessors (bn_projection b) (wo_state w) command in
      Ok [("cancellation", cancellation); ("generation_predecessors", predecessors)]
  | Some w, UserInputResolvePayload _ _ =>
      let* predecessors :=
        authoritativeGenerationPredecessors (bn_projection b) (wo_state w) command in
      Ok [("generation_predecessors", predecessors)]
  | _, _ => Ok []
  end.

(** The checks before a decision: the engine's version, the holds on a retry, that a start starts
    something new, and the revision the command expects. *)
Definition check_bound (b : Bound) : res (option RetryBasis) :=
  demand match bn_order b with
         | Some w => (st_engine_contract_version (wo_state w) =? ENGINE_VERSION)%Z
         | None => true end else "BUSINESS_ENGINE_MIGRATION_REQUIRED" in
  let* basis := retry_basis b in
  demand negb is_start || is_none (bn_order b) else "BUSINESS_WORK_ORDER_EXISTS" in
  let* _ := assertExpectedRevision command (bn_order b) in
  Ok basis.

(** The time of the decision and the facts it may trust. *)
Definition trusted_facts (b : Bound) (basis : option RetryBasis) : io (string * fields) :=
  await occurredAt := (λ w, (validateClockValue (sv_clock (w_time w)), w)) in
  await artifacts := if is_start
    then consult (λ t, sv_resolvePlanArtifacts t (bn_plan b) (bn_project b) principal
      (bn_authority b) (planContentRefs (bn_plan b))) (λ r, resolvePlanArtifacts r (bn_plan b))
    else ret JNull in
  await commandFacts := consult (λ t, sv_resolveCommandFacts t command (bn_order b) (bn_plan b)
      (bn_project b) principal (bn_authority b) artifacts
      (COMMAND_FACT_FIELDS (command_name command)))
    (λ r, resolveCommandFacts r command (retries_generation basis)) in
  await projectionFacts := lift (projection_facts b) in
  ret (occurredAt,
    [("occurred_at", JStr occurredAt); ("authenticated_principal", principal_json principal);
     ("authority", authority_json (bn_authority b)); ("plan", plan_json (bn_plan b));
     ("project", bn_project b); ("resolved_plan_artifacts", artifacts)]
    ++ commandFacts
    ++ match basis with Some r => [("retry_basis", retry_basis_json r)] | None => [] end
    ++ projectionFacts).

(** The events of a request, each in the context of the request. *)
Definition request_events (request : json) : list (json * json) :=
  match prop "events" request with
  | JArr events => map (λ event, (event, request)) events
  | _ => []
  end.

(** The events must project, and leave the receipt of the command. *)
Definition prevalidateCandidateBatch (projection : Projection) (request : json) : res json :=
  match project_events projection (request_events request) with
  | Err _ => boundary DECISION_INVALID
  | Ok candidate =>
      let* stored := readReceipt candidate command identityHash in
      match stored with
      | Some result => Ok result
      | None => boundary "BUSINESS_COMMAND_RECEIPT_MISSING"
      end
  end.

(** The request for a decision, which the projector accepts and answers with the same result. *)
Definition candidate_request (b : Bound) (occurredAt : string) (decision : Decision) : res json :=
  let* receipt := receiptEvent command identityHash decision occurredAt in
  let request := commit_request command principal (bn_revision b)
    (dc_events decision ++ [receipt]) in
  let* projected := prevalidateCandidateBatch (bn_projection b) request in
  let* equal := same projected (dc_result decision) in
  demand equal else DECISION_INVALID in
  Ok request.

(** The candidate: the request for the store, and the result of the decision. *)
Definition prepare_candidate (b : Bound) : io (json * json) :=
  await basis := lift (check_bound b) in
  await ' (occurredAt, facts) := trusted_facts b basis in
  await decision := consult (λ t, sv_decider t (bn_order b) command facts)
    (λ r, let* d := r in normalizeDecision d command) in
  await request := lift (candidate_request b occurredAt decision) in
  ret (request, dc_result decision).

(** The receipt, read back without a signal. *)
Definition read_back : io (option json) :=
  await ' (projection, _) := replay_store false in
  lift (readReceipt projection command identityHash).

(** The [try] block around the commit. *)
Definition submit (request result : json) : io json :=
  await commitResult := commit_store request in
  require isPlainObject commitResult
      && (is_str (prop "status" commitResult) "committed"
          || is_str (prop "status" commitResult) "idempotent")
    else "BUSINESS_EVENT_STORE_RESULT_INVALID" in
  if is_str (prop "status" commitResult) "idempotent" then
    await stored := read_back in
    match stored with
    | Some storedResult => ret storedResult
    | None => throw (BusinessCommandBoundaryError "BUSINESS_COMMAND_RECEIPT_MISSING")
    end
  else lift (canonicalClone result DECISION_INVALID).

(** [error.code === code] *)
Definition has_code (code : string) (e : error) : bool :=
  match e with
  | EventStoreError c | SystemError c | BusinessCommandBoundaryError c => String.eqb c code
  | _ => false
  end.
Definition lost_race (e : error) : bool :=
  has_code "EVENT_REVISION_CONFLICT" e || has_code "EVENT_LOCK_BUSY" e.

Definition mapBatchConflict (e : error) : error :=
  if has_code "EVENT_BATCH_ID_CONFLICT" e
  then BusinessCommandBoundaryError "BUSINESS_COMMAND_ID_CONFLICT" else e.

(** [try { ... } catch {}] around the reading of the receipt. *)
Definition read_back_quietly : io (option json) :=
  try_catch read_back (λ _, ret None).

(** A commit that failed: the receipt decides, and when it cannot be read the error stands. *)
Definition reconcile (e : error) : io json :=
  await concurrent := if has_code "EVENT_BATCH_ID_CONFLICT" e then read_back else ret None in
  match concurrent with
  | Some storedResult => ret storedResult
  | None =>
      await uncertain := if dependencyControlError e then ret None else read_back_quietly in
      match uncertain with
      | Some storedResult => ret storedResult
      | None =>
          throw match mapBatchConflict e with
                | BusinessCommandBoundaryError code => BusinessCommandBoundaryError code
                | _ => BusinessCommandBoundaryError "BUSINESS_COMMAND_EVENT_STORE_COMMIT_FAILED"
                end
      end
  end.

(** The loop over [casAttempt], by the attempts that are left after this one. *)
Fixpoint attempts (retries : nat) : io json :=
  await b := bind_command in
  await stored := lift (readReceipt (bn_projection b) command identityHash) in
  match stored with
  | Some replayedResult => ret replayedResult
  | None =>
      await ' (request, result) := prepare_candidate b in
      await _ := assertNotAborted in
      try_catch (submit request result) (λ e,
        if lost_race e then
          match retries with
          | S retries => attempts retries
          | O => throw (BusinessCommandBoundaryError "BUSINESS_GLOBAL_CAS_EXHAUSTED")
          end
        else reconcile e)
  end.
End Command.

(** [execute(input)] *)
Definition execute (input : json) : io json :=
  match input with
  | JObj fs =>
      if has_own fs "command" then
        await command := lift (normalizeCommandEnvelopeV1 (get "command" fs)) in
        await principal := consult (λ t, sv_authenticate t (get "authentication" fs))
          authenticated in
        await _ := lift (validateCommandActorBinding command principal) in
        await identityHash := lift (commandIdentityHash command principal) in
        attempts command principal identityHash maxGlobalCasRetries
      else throw TypeError
  | _ => throw TypeError
  end.
End Execute.
