(* ===== verification/CommandLaws.v ===== *)
(** What the command boundary relies on and what it promises: the laws of the store, as an
    interface the theorems are proved against, the reasons for a commit, the rules for the
    computations that only wait, and one attempt of an execution.

    A store is seen as a log of requests.  [replay] answers the projection of the log, [commit]
    appends at the revision it names or not at all, and other processes only append.  The event
    store proves this of its own [commit] ([commit_refines_log], [log_commit_appends]). *)

From Stdlib Require Import ZArith Lia String.
From stdpp Require Import base tactics list strings option gmap.
From S2P Require Import Prelude JsString JsDate Json SettlementPolicy ContractBase PlanContract.
From S2P Require Import PlanProps Envelope WorkOrderState WorkOrderFacts Outbox ProjectorBase.
From S2P Require Import Projection ProjectorOutbox ProjectorSettlement Projector ProjectorInvariant.
From S2P Require Import ProjectorRuns ProjectorTheorems JsonText JsonCanon CommandFacts.
From S2P Require Import CommandBoundary.

(** ** The log *)

Section Log.
Context `{Sha256} {evidence : SendEvidence} {hashing : ProjectionHash}.

(** The projection of a journal. *)
Definition project_log (log : list json) : res Projection :=
  project_events initialBusinessProjectionV1 (concat (map request_events log)).

Lemma project_log_snoc log request :
  project_log (log ++ [request]) =
  (let* p := project_log log in project_events p (request_events request)).
Proof.
  unfold project_log. rewrite map_app, concat_app, project_events_app. simpl. by rewrite app_nil_r.
Qed.

(** A longer journal projects to a later projection. *)
Lemma project_log_kept log log' p p' :
  log `prefix_of` log' → project_log log = Ok p → project_log log' = Ok p' → kept p p'.
Proof.
  intros [more ->] Hp. unfold project_log in *.
  rewrite map_app, concat_app, project_events_app, Hp. simpl.
  apply run_kept. eapply run_invariant_ok; [apply invariant_initial|exact Hp].
Qed.

Lemma receipt_kept log log' p p' id r :
  log `prefix_of` log' → project_log log = Ok p → project_log log' = Ok p' →
  pj_command_receipts p !! id = Some r → pj_command_receipts p' !! id = Some r.
Proof.
  intros Hl Hp Hp'. exact (kept_receipts _ _ (project_log_kept _ _ _ _ Hl Hp Hp') CommandReceipts id r).
Qed.
End Log.

(** The request asks to be appended at this length. *)
Definition asks_for (request : json) (length : nat) : Prop :=
  strict_eq (prop "expected_revision" request) (JInt (Z.of_nat length)) = true.

(** A replay takes no lock and loses no race; a commit that answers a lost race did not append. *)
Class StoreLaws `{Sha256} {evidence : SendEvidence} {hashing : ProjectionHash}
    (Store : Type) {store : EventStoreApi Store} := {
  es_log : Store → list json;
  es_others_append t s : es_log s `prefix_of` es_log (es_others t s);
  es_replay_log t s p n :
    es_replay t s = Ok (p, n) → n = Z.of_nat (length (es_log s)) ∧ project_log (es_log s) = Ok p;
  es_replay_unraced t s e : es_replay t s = Err e → lost_race e = false;
  es_commit_step t r s :
    es_log (es_commit t r s).2 = es_log s ∨
    es_log (es_commit t r s).2 = es_log s ++ [r] ∧ asks_for r (length (es_log s));
  es_commit_committed t r s v :
    (es_commit t r s).1 = Ok v → is_str (prop "status" v) "committed" = true →
    es_log (es_commit t r s).2 = es_log s ++ [r];
  es_commit_idempotent t r s v :
    (es_commit t r s).1 = Ok v → is_str (prop "status" v) "idempotent" = true →
    es_log (es_commit t r s).2 = es_log s;
  es_commit_lost t r s e :
    (es_commit t r s).1 = Err e → lost_race e = true → es_log (es_commit t r s).2 = es_log s;
  es_commit_conflict t r s e :
    (es_commit t r s).1 = Err e → has_code "EVENT_REVISION_CONFLICT" e = true →
    ¬ asks_for r (length (es_log s));
}.

(** ** Computations *)

Lemma then_Ok {S A B} (m : M S A) (k : A → M S B) w b w' :
  then_ m k w = (Ok b, w') ↔ ∃ a w1, m w = (Ok a, w1) ∧ k a w1 = (Ok b, w').
Proof.
  unfold then_. destruct (m w) as [[a|e] w1]; [|by split; [intros ?|intros (? & ? & ? & ?)]].
  split; [eauto|]. by intros (? & ? & [= <- <-] & ?).
Qed.

Lemma lift_Ok {S A} (r : res A) (w : World S) a w' : lift r w = (Ok a, w') → r = Ok a ∧ w' = w.
Proof. unfold lift. intros Hr. by pose proof (f_equal fst Hr); pose proof (f_equal snd Hr). Qed.

Section Rules.
Context `{Sha256} {evidence : SendEvidence} {hashing : ProjectionHash}.
Context {Store : Type} {store : EventStoreApi Store} {laws : StoreLaws Store}.
Context {services : CommandServices}.
Implicit Types (w : World Store) (s : Store).

Abbreviation log w := (es_log (w_store w)).

(** Nothing was asked of the store, which others may have extended. *)
Record waited w w' : Prop := {
  waited_log : log w `prefix_of` log w';
  waited_commits : w_commits w' = w_commits w;
}.

#[export] Instance waited_preorder : PreOrder waited.
Proof.
  split.
  - intros w. by split.
  - intros w1 w2 w3 [L1 C1] [L2 C2]. split; [by etrans|congruence].
Qed.

(** The computation only waits. *)
Definition waits {A} (m : M Store A) : Prop := ∀ w, waited w (m w).2.

Lemma waits_run {A} (m : M Store A) w r w' : waits m → m w = (r, w') → waited w w'.
Proof. intros Hm E. specialize (Hm w). by rewrite E in Hm. Qed.

Lemma waits_ret {A} (a : A) : waits (ret a).
Proof. by intros w. Qed.
Lemma waits_throw {A} e : waits (A := A) (throw e).
Proof. by intros w. Qed.
Lemma waits_lift {A} (r : res A) : waits (lift r).
Proof. by intros w. Qed.
Lemma waits_then {A B} (m : M Store A) (k : A → M Store B) :
  waits m → (∀ a, waits (k a)) → waits (then_ m k).
Proof.
  intros Hm Hk w. unfold then_. specialize (Hm w). destruct (m w) as [[a|e] w1]; [|done].
  etrans; [exact Hm|apply Hk].
Qed.
Lemma waits_try {A} (m : M Store A) h : waits m → (∀ e, waits (h e)) → waits (try_catch m h).
Proof.
  intros Hm Hk w. unfold try_catch. specialize (Hm w). destruct (m w) as [[a|e] w1]; [done|].
  etrans; [exact Hm|apply Hk].
Qed.
Lemma waited_pass w : waited w (pass w).
Proof. split; [apply es_others_append|done]. Qed.
Lemma waits_await {A} signal (op : nat → Store → res A) : waits (awaitDependency signal op).
Proof.
  intros w. unfold awaitDependency. destruct (_ && _); [done|]. apply waited_pass.
Qed.
Lemma waits_consult {A B} (op : nat → res A) (read : res A → res B) :
  waits (consult op read : M Store B).
Proof.
  intros w. unfold consult. pose proof (waits_await true (λ t _, op t) w) as Hw.
  by destruct (awaitDependency _ _ w).
Qed.
Lemma waits_notAborted : waits (assertNotAborted : M Store unit).
Proof. by intros w. Qed.
Lemma waits_now {A} (f : World Store → res A) : waits (λ w, (f w, w)).
Proof. by intros w. Qed.

(** The read of a replay: the projection of the log as it is then. *)
Lemma replay_store_Ok signal w p n w' :
  replay_store signal w = (Ok (p, n), w') →
  waited w w' ∧ n = Z.of_nat (length (log w')) ∧ project_log (log w') = Ok p.
Proof.
  intros E. unfold replay_store in E. apply then_Ok in E as ([p' n'] & w1 & E1 & E).
  destruct (_ && _); [|done]. injection E as -> -> ->.
  split; [exact (waits_run _ _ _ _ (waits_await _ _) E1)|].
  unfold awaitDependency in E1. destruct (_ && _); [done|].
  injection E1 as E1 <-. apply (es_replay_log (w_time w)).
  by destruct (sv_interruption _) as [[]|], signal.
Qed.

(** What a consultation read: an answer the service gave at some call, or the end of the wait. *)
Lemma consult_Ok {A B} (op : nat → res A) (read : res A → res B) w b w' :
  (consult op read : M Store B) w = (Ok b, w') →
  waited w w' ∧ ∃ answer, read answer = Ok b ∧ ∀ a, answer = Ok a → ∃ t, op t = Ok a.
Proof.
  intros E. split; [exact (waits_run _ _ _ _ (waits_consult _ _) E)|].
  unfold consult in E. destruct (awaitDependency _ _ w) as [answer w1] eqn:Ea.
  injection E as E <-. exists answer. split; [done|]. intros a ->.
  unfold awaitDependency in Ea. destruct (_ && _); [done|]. injection Ea as Ea _.
  exists (w_time w). by destruct (sv_interruption _) as [[]|].
Qed.

(** [a] was read from an answer the service gave. *)
Definition answered {A} (operation : nat → res json) (read : res json → res A) (a : A) : Prop :=
  ∃ t answer, operation t = Ok answer ∧ read (Ok answer) = Ok a.

(** A reader that passes on failures has read an answer. *)
Lemma consult_answered {A} (op : nat → res json) (read : res json → res A) w a w' :
  (∀ e, is_ok (read (Err e)) = false) → (consult op read : M Store A) w = (Ok a, w') →
  waited w w' ∧ answered op read a.
Proof.
  intros Hread [Hw (answer & Ha & Ht)]%consult_Ok. split; [done|].
  destruct answer as [v|e]; [|specialize (Hread e); by rewrite Ha in Hread].
  destruct (Ht v eq_refl) as [t Hv]. by exists t, v.
Qed.

Lemma await_unraced {A} signal (op : nat → Store → res A) w e w' :
  (∀ t s e, op t s = Err e → lost_race e = false) →
  awaitDependency signal op w = (Err e, w') → lost_race e = false.
Proof.
  intros Hop. unfold awaitDependency. destruct (_ && _); [by intros [= <- _]|].
  destruct (sv_interruption _) as [[]|], signal; intros [= E _]; try (by subst);
    by eapply Hop.
Qed.

Lemma replay_store_unraced signal w e w' :
  replay_store signal w = (Err e, w') → lost_race e = false.
Proof.
  unfold replay_store, then_. destruct (awaitDependency _ _ w) as [[[p n]|e1] w1] eqn:E.
  - destruct (_ && _); [done|]. by intros [= <- _].
  - intros [= -> _]. eapply await_unraced; [apply es_replay_unraced|exact E].
Qed.
End Rules.

Create HintDb waits.
#[export] Hint Resolve waits_ret waits_throw waits_lift waits_await waits_consult waits_notAborted
  waits_now : waits.

(** The computations built from waits, by their structure. *)
Ltac waits_tac :=
  repeat match goal with
  | |- waits (then_ _ _) => apply waits_then; [|intros ?]
  | |- waits (try_catch _ _) => apply waits_try; [|intros ?]
  | |- waits (match ?x with _ => _ end) => destruct x
  | |- waits _ => solve [auto with waits]
  end.

(** Run a computation that returned, step by step. *)
Ltac step H x w E := apply then_Ok in H as (x & w & E & H).

(** * One attempt of the boundary *)

#[local] Strategy 100 [normalizeResolvedPlan].

Section Promises.
Context `{Sha256} {evidence : SendEvidence} {hashing : ProjectionHash}.
Context {Store : Type} {store : EventStoreApi Store} {laws : StoreLaws Store}.
Context {services : CommandServices}.
Context (command : CommandEnvelope) (principal : Principal) (identityHash : string).
Implicit Types (w : World Store) (s : Store) (p q : Projection).

Abbreviation log w := (es_log (w_store w)).

(** The projection holds the receipt of the command, with this result. *)
Definition receipted p (result : json) : Prop := ∃ r,
  pj_command_receipts p !! ce_command_id command = Some r ∧ rc_source_type r = SCommand ∧
  rc_identity_hash r = identityHash ∧ canonicalJson result = canonicalJson (rc_result r) ∧
  ∃ text, canonicalJson result = Ok text.

(** The journal holds it. *)
Definition durable (l : list json) (result : json) : Prop :=
  ∃ l' p, l' `prefix_of` l ∧ project_log l' = Ok p ∧ receipted p result.

(** The Work Order the command names. *)
Abbreviation order_of p := (pj_work_orders p !! ei_work_order_id (ce_identity command)).

(** The plan of the command: the one its Work Order has, or for a start the one the resolver
    answered. *)
Definition plan_bound p (plan : Plan) : Prop :=
  match is_start command, order_of p with
  | false, Some w => workOrderPlan w command = Ok plan
  | _, _ => answered (λ t, sv_resolvePlan t (ei_plan_snapshot_ref (ce_identity command))
      (ei_plan_hash (ce_identity command)) principal) (λ r, resolveStartPlan r command) plan
  end.

(** The authoriser, asked about this command, plan and project, answered [grant], from which the
    boundary drew [authority]. *)
Definition authorised order (plan : Plan) (project grant : json) (authority : Authority) : Prop :=
  (∃ t, sv_authorize t principal command order plan project = Ok grant) ∧
  ∃ ceiling, authorized (Ok grant) = Ok ceiling ∧
    validateAuthorityCeiling ceiling plan principal = Ok authority.

(** The facts handed to the decider that the boundary answers for. *)
Record boundary_facts (authority : Authority) (plan : Plan) (project : json) (occurredAt : string)
    (facts : fields) : Prop := {
  bf_principal : get "authenticated_principal" facts = principal_json principal;
  bf_authority : get "authority" facts = authority_json authority;
  bf_plan : get "plan" facts = plan_json plan;
  bf_project : get "project" facts = project;
  bf_time : get "occurred_at" facts = JStr occurredAt;
}.

(** The decider, asked about this Work Order with facts that hold the authority, the plan and the
    project, answered [decision]. *)
Definition decided order (plan : Plan) (project : json) (authority : Authority)
    (occurredAt : string) (decision : Decision) : Prop :=
  ∃ t facts answer, boundary_facts authority plan project occurredAt facts ∧
    sv_decider t order command facts = Ok answer ∧ normalizeDecision answer command = Ok decision.

(** Why a request was made of a store: the journal [l] projected to [p], which has no receipt of
    the command; the plan is the command's, the project the one the resolver answered, and the
    authoriser's answer covers the plan; the Work Order is at the revision the command expects and
    no lifecycle hold or lack of evidence stands against the command; the decider, given that
    authority, plan and project, decided on it; and the events of the decision, with the receipt,
    project to [q]. *)
Inductive justified s : json → Prop :=
| Justified l p plan project grant authority basis occurredAt decision receipt q
    (Hl : l `prefix_of` es_log s) (Hp : project_log l = Ok p)
    (Hnew : pj_command_receipts p !! ce_command_id command = None)
    (Hplan : plan_bound p plan)
    (Hproject : answered (λ t, sv_resolveProject t (pl_project_ref plan) principal)
      (λ r, resolveProject r plan) project)
    (Hauthority : authorised (order_of p) plan project grant authority)
    (Hrevision : assertExpectedRevision command (order_of p) = Ok tt)
    (Hbasis : retry_basis command
      (Build_Bound p (Z.of_nat (length l)) (order_of p) plan project authority) = Ok basis)
    (Hdecided : decided (order_of p) plan project authority occurredAt decision)
    (Hreceipt : receiptEvent command identityHash decision occurredAt = Ok receipt)
    (Hq : project_events p (request_events (commit_request command principal
      (Z.of_nat (length l)) (dc_events decision ++ [receipt]))) = Ok q)
    (Hresult : receipted q (dc_result decision)) :
    justified s (commit_request command principal (Z.of_nat (length l))
      (dc_events decision ++ [receipt])).

(** What a commit needs of its reasons. *)
Lemma justified_request s request :
  justified s request →
  ∃ l p q result, l `prefix_of` es_log s ∧ project_log l = Ok p ∧
    pj_command_receipts p !! ce_command_id command = None ∧ asks_for request (length l) ∧
    project_events p (request_events request) = Ok q ∧ receipted q result.
Proof.
  intros [l p plan project grant authority basis at_ decision receipt q].
  exists l, p, q, (dc_result decision). split_and!; try done. apply Z.eqb_refl.
Qed.

(** ** Receipts *)

Lemma canonicalClone_Ok v code v' :
  canonicalClone v code = Ok v' → v' = canon v ∧ ∃ text, canonicalJson v = Ok text.
Proof. unfold canonicalClone. destruct (canonicalJson v); [|done]. intros [= <-]. eauto. Qed.

Lemma readReceipt_Some p result :
  readReceipt p command identityHash = Ok (Some result) → receipted p result.
Proof.
  unfold readReceipt. destruct (pj_command_receipts p !! _) as [r|] eqn:Er; [|done].
  destruct (_ && _) eqn:Es; [|done]. destruct (String.eqb _ identityHash) eqn:Ei; [|done].
  intros (v & Hv & [= <-])%bind_Ok. apply canonicalClone_Ok in Hv as [-> [text Ht]].
  apply String.eqb_eq in Ei. apply andb_true_iff in Es as [_ Es%bool_decide_eq_true].
  exists r. rewrite canonicalJson_canon. by split_and!; [..|exists text].
Qed.

Lemma readReceipt_None p :
  readReceipt p command identityHash = Ok None → pj_command_receipts p !! ce_command_id command = None.
Proof.
  unfold readReceipt. destruct (pj_command_receipts p !! _); [|done].
  destruct (_ && _); [|done]. destruct (String.eqb _ identityHash); [|done].
  by intros (v & _ & [=])%bind_Ok.
Qed.

Lemma receipted_text p result result' :
  canonicalJson result' = canonicalJson result → receipted p result → receipted p result'.
Proof. intros Ht (r & Hr & Hs & Hi & Hc & Hx). exists r. rewrite Ht. by split_and!. Qed.

Lemma durable_log l l' result : l `prefix_of` l' → durable l result → durable l' result.
Proof. intros Hl (l0 & p & Hl0 & Hp & Hr). exists l0, p. split; [by etrans|done]. Qed.

(** ** The parts of an attempt that wait *)

Lemma waits_replay signal : waits (replay_store (Store := Store) signal).
Proof. unfold replay_store. waits_tac. Qed.
Hint Resolve waits_replay : waits.

Lemma waits_plan order : waits (command_plan (Store := Store) command principal order).
Proof. unfold command_plan. waits_tac. Qed.
Hint Resolve waits_plan : waits.

Lemma waits_bind : waits (bind_command (Store := Store) command principal).
Proof. unfold bind_command. waits_tac. Qed.

Lemma waits_facts b basis : waits (trusted_facts (Store := Store) command principal b basis).
Proof. unfold trusted_facts. waits_tac. Qed.
Hint Resolve waits_facts : waits.

Lemma waits_prepare b :
  waits (prepare_candidate (Store := Store) command principal identityHash b).
Proof. unfold prepare_candidate. waits_tac. Qed.

Lemma waits_read_back : waits (read_back (Store := Store) command identityHash).
Proof. unfold read_back. waits_tac. Qed.
Hint Resolve waits_read_back : waits.

Lemma waits_reconcile e : waits (reconcile (Store := Store) command identityHash e).
Proof. unfold reconcile, read_back_quietly. waits_tac. Qed.

(** ** What a command is bound to *)

Lemma normalizeResolvedPlan_Ok value (plan : Plan) :
  normalizeResolvedPlan value command = Ok plan →
  plan_wf plan ∧ pl_plan_snapshot_id plan = ei_plan_snapshot_ref (ce_identity command)
  ∧ pl_plan_hash plan = ei_plan_hash (ce_identity command).
Proof.
  unfold normalizeResolvedPlan. destruct (normalizeBusinessWorkOrderPlanV1 _) as [p|] eqn:Ep; [|done].
  destruct (_ && _) eqn:E; [|done]. intros [= <-].
  apply andb_true_iff in E as [E1%String.eqb_eq E2%String.eqb_eq].
  split; [by eapply accepted_plan_wf|done].
Qed.

(** The plan of a command is well formed and the one the command names. *)
Lemma plan_bound_normalized p (plan : Plan) :
  plan_bound p plan → ∃ value, normalizeResolvedPlan value command = Ok plan.
Proof.
  unfold plan_bound. assert (∀ op, answered op (λ r, resolveStartPlan r command) plan →
    ∃ value, normalizeResolvedPlan value command = Ok plan) as Hstart.
  { intros op (t & answer & _ & Ha). unfold resolveStartPlan in Ha. simpl in Ha.
    destruct (truthy answer); [eauto|done]. }
  destruct (is_start command), (order_of p); eauto.
Qed.

Lemma fails_dependency {A B} code (k : A → res B) e : is_ok (bind (dependency code (Err e)) k) = false.
Proof. simpl. by destruct (dependencyControlError e). Qed.

Lemma command_plan_Ok p w plan w' :
  command_plan command principal (order_of p) w = (Ok plan, w') →
  waited w w' ∧ plan_bound p plan.
Proof.
  unfold command_plan, plan_bound.
  destruct (is_start command); [|destruct (order_of p) as [o|]].
  1, 3: apply consult_answered; intros e; apply fails_dependency.
  intros [Hv ->]%lift_Ok. by split.
Qed.

(** The binding is to one moment of the journal, not before the attempt began. *)
Record bound_at (l : list json) (b : Bound) : Prop := {
  ba_projection : project_log l = Ok (bn_projection b);
  ba_revision : bn_revision b = Z.of_nat (length l);
  ba_order : bn_order b =
    pj_work_orders (bn_projection b) !! ei_work_order_id (ce_identity command);
  ba_plan : plan_bound (bn_projection b) (bn_plan b);
  ba_project : answered (λ t, sv_resolveProject t (pl_project_ref (bn_plan b)) principal)
    (λ r, resolveProject r (bn_plan b)) (bn_project b);
  ba_authority : ∃ grant,
    authorised (bn_order b) (bn_plan b) (bn_project b) grant (bn_authority b);
}.

Lemma bind_command_Ok w b w' :
  bind_command command principal w = (Ok b, w') →
  ∃ l, log w `prefix_of` l ∧ l `prefix_of` log w' ∧ bound_at l b.
Proof.
  unfold bind_command. intros Hrun. step Hrun pn w1 E1. destruct pn as [p n].
  apply replay_store_Ok in E1 as ([L1 _] & -> & Hp).
  destruct (_ || _) eqn:Eo; [|done].
  step Hrun plan w2 E2. step Hrun project w3 E3. step Hrun ceiling w4 E4. step Hrun authority w5 E5.
  injection Hrun as <- <-. apply command_plan_Ok in E2 as [[L2 _] Hv].
  apply consult_answered in E3 as [[L3 _] Hproject]; [|intros e; apply fails_dependency].
  apply consult_answered in E4 as [[L4 _] (t & grant & Hgrant & Hceiling)];
    [|intros e; apply fails_dependency].
  apply lift_Ok in E5 as [Ea ->].
  exists (log w1). split; [exact L1|]. split; [by do 2 (etrans; [eassumption|])|].
  split; simpl; try done. exists grant. split; [by exists t|by exists ceiling].
Qed.

Lemma check_bound_Ok b basis :
  check_bound command b = Ok basis →
  assertExpectedRevision command (bn_order b) = Ok tt ∧ retry_basis command b = Ok basis.
Proof.
  unfold check_bound. destruct (match bn_order b with Some _ => _ | None => _ end); [|done].
  intros (r & Hr & E)%bind_Ok. destruct (_ || _); [|done].
  by apply bind_Ok in E as ([] & E & [= <-]).
Qed.

Lemma trusted_facts_Ok b basis w occurredAt facts w' :
  trusted_facts command principal b basis w = (Ok (occurredAt, facts), w') →
  boundary_facts (bn_authority b) (bn_plan b) (bn_project b) occurredAt facts.
Proof.
  unfold trusted_facts. intros Hrun. step Hrun at_ w1 E1. step Hrun artifacts w2 E2.
  step Hrun commandFacts w3 E3. step Hrun projectionFacts w4 E4. injection Hrun as <- <- _.
  by split.
Qed.

Lemma normalizeDecision_result answer decision :
  normalizeDecision answer command = Ok decision →
  ∃ v text, dc_result decision = canon v ∧ canonicalJson v = Ok text.
Proof.
  unfold normalizeDecision. destruct answer as [| | | | | | | |fs|]; try done.
  destruct (prop "events" _) as [| | | | | | |[|e l]| |]; try done.
  destruct (has_own fs "result"); [|done]. intros (r & Hr & E)%bind_Ok.
  destruct (_ || _); [|done]. destruct (match r with JObj _ => _ | _ => true end); [|done].
  apply bind_Ok in E as (_ & _ & E). apply bind_Ok in E as (events & _ & [= <-]).
  apply canonicalClone_Ok in Hr as [-> [text Ht]]. by eexists _, _.
Qed.

Lemma candidate_request_Ok b occurredAt decision request :
  candidate_request command principal identityHash b occurredAt decision = Ok request →
  ∃ receipt q, receiptEvent command identityHash decision occurredAt = Ok receipt ∧
    request = commit_request command principal (bn_revision b) (dc_events decision ++ [receipt]) ∧
    project_events (bn_projection b) (request_events request) = Ok q ∧
    receipted q (dc_result decision).
Proof.
  unfold candidate_request. intros (receipt & Hr & E)%bind_Ok.
  apply bind_Ok in E as (projected & Hp & E). apply bind_Ok in E as (equal & He & E).
  destruct equal; [|done]. injection E as <-.
  unfold prevalidateCandidateBatch in Hp.
  destruct (project_events _ _) as [q|] eqn:Hq; [|done].
  apply bind_Ok in Hp as ([v|] & Hv & Hp); [|done]. injection Hp as ->.
  exists receipt, q. split_and!; try done. eapply receipted_text; [|by apply readReceipt_Some].
  unfold same in He. apply bind_Ok in He as (t1 & H1 & He). apply bind_Ok in He as (t2 & H2 & He).
  injection He as ->%String.eqb_eq. congruence.
Qed.

(** A prepared candidate is justified in the state the attempt has reached. *)
Lemma prepare_candidate_Ok l b w request result w' :
  bound_at l b → l `prefix_of` log w →
  readReceipt (bn_projection b) command identityHash = Ok None →
  prepare_candidate command principal identityHash b w = (Ok (request, result), w') →
  (∀ s, l `prefix_of` es_log s → justified s request)
  ∧ asks_for request (length l)
  ∧ (∃ q, project_log (l ++ [request]) = Ok q ∧ receipted q result)
  ∧ ∃ text, canonicalJson result = Ok text.
Proof.
  intros [B1 B2 B3 B4 B5 [grant B6]] Hl Hn Hrun. unfold prepare_candidate in Hrun.
  step Hrun basis w1 E1. apply lift_Ok in E1 as [Ec ->]. step Hrun facts w2 E2. destruct facts as [at_ facts].
  apply trusted_facts_Ok in E2.
  step Hrun decision w3 E3. apply consult_Ok in E3 as [_ (answer & Ha & Hd)].
  apply bind_Ok in Ha as (d & -> & Hdec). destruct (Hd d eq_refl) as [t Ht].
  step Hrun req w4 E4. injection Hrun as <- <- <-. apply lift_Ok in E4 as [E4 ->].
  apply candidate_request_Ok in E4 as (receipt & q & Hr & -> & Hq & Hres).
  apply readReceipt_None in Hn. apply check_bound_Ok in Ec as [Er Ec].
  destruct b as [p n order plan project authority]. simpl in *. subst n order.
  split_and!.
  - intros s Hs. eapply Justified; try done. by exists t, facts, d.
  - unfold asks_for. simpl. apply Z.eqb_refl.
  - exists q. by rewrite project_log_snoc, B1.
  - by destruct Hres as (r & _ & _ & _ & _ & Hx).
Qed.

(** ** What an answer after a commit rests on *)

Lemma read_back_Ok w result w' :
  read_back command identityHash w = (Ok (Some result), w') → durable (log w') result.
Proof.
  unfold read_back. intros Hrun. step Hrun pn w1 E1. destruct pn as [p n].
  apply replay_store_Ok in E1 as (_ & _ & Hp). apply lift_Ok in Hrun as [Hr ->].
  exists (log w1), p. split_and!; [done..|by apply readReceipt_Some].
Qed.

Lemma readReceipt_unraced p e :
  readReceipt p command identityHash = Err e → lost_race e = false.
Proof.
  unfold readReceipt, canonicalClone. destruct (pj_command_receipts p !! _); [|done].
  destruct (_ && _); [|by intros [= <-]]. destruct (String.eqb _ identityHash); [|by intros [= <-]].
  by destruct (canonicalJson _); [|intros [= <-]].
Qed.

Lemma read_back_unraced w e w' :
  read_back command identityHash w = (Err e, w') → lost_race e = false.
Proof.
  unfold read_back, then_. destruct (replay_store false w) as [[[p n]|e1] w1] eqn:E.
  - intros [= Hr _]. by eapply readReceipt_unraced.
  - intros [= -> _]. by eapply replay_store_unraced.
Qed.

Lemma read_back_quietly_Ok w result w' :
  read_back_quietly command identityHash w = (Ok (Some result), w') → durable (log w') result.
Proof.
  unfold read_back_quietly, try_catch.
  destruct (read_back _ _ w) as [[o|e] w1] eqn:E; [|done]. intros [= -> ->].
  by apply read_back_Ok in E.
Qed.

Lemma reconcile_Ok e w result w' :
  reconcile command identityHash e w = (Ok result, w') → durable (log w') result.
Proof.
  unfold reconcile. intros Hrun. step Hrun o1 w1 E1. destruct o1 as [v|].
  { injection Hrun as -> ->. destruct (has_code _ e); [|done]. by eapply read_back_Ok. }
  step Hrun o2 w2 E2. destruct o2 as [v|]; [|done].
  injection Hrun as -> ->. destruct (dependencyControlError e); [done|].
  by eapply read_back_quietly_Ok.
Qed.

(** A commit of the run: where it met the store, and what it left. *)
Record committed w w' (c : Commit Store) : Prop := {
  co_before : log w `prefix_of` es_log (cm_before c);
  co_step : es_log (cm_after c) = es_log (cm_before c) ∨
    es_log (cm_after c) = es_log (cm_before c) ++ [cm_request c]
    ∧ asks_for (cm_request c) (length (es_log (cm_before c)));
  co_after : es_log (cm_after c) `prefix_of` log w';
}.

Definition appended (c : Commit Store) : bool :=
  (length (es_log (cm_before c)) <? length (es_log (cm_after c)))%nat.

Lemma committed_mono w0 w w' w1 c :
  log w0 `prefix_of` log w → log w' `prefix_of` log w1 → committed w w' c → committed w0 w1 c.
Proof. intros L0 L1 [B1 B2 B3]. split; [by etrans|done|by etrans]. Qed.

(** The [try] block: one commit, and how its outcome and its effect on the log fit. *)
Lemma submit_run request result w r w' :
  (∃ text, canonicalJson result = Ok text) →
  submit command identityHash request result w = (r, w') →
  ∃ c, w_commits w' = c :: w_commits w ∧ committed w w' c ∧ cm_request c = request ∧
    (∀ v, r = Ok v → durable (log w') v ∨
      es_log (cm_after c) = es_log (cm_before c) ++ [request] ∧ v = canon result) ∧
    (∀ e, r = Err e → lost_race e = true →
      ∃ t, es_commit t request (cm_before c) = (Err e, cm_after c)).
Proof.
  intros [text Ht]. unfold submit, then_, commit_store.
  destruct (es_commit (w_time w) request (w_store (pass w))) as [answer s'] eqn:Ec.
  assert (committed w (MkWorld s' (w_time (pass w)) (MkCommit (w_store (pass w)) request s' :: w_commits w))
    (MkCommit (w_store (pass w)) request s')) as Hc.
  { split; simpl; [apply es_others_append| |done].
    pose proof (es_commit_step (w_time w) request (w_store (pass w))) as Hs. by rewrite Ec in Hs. }
  destruct answer as [v|e].
  2: { intros [= <- <-]. eexists. split; [done|]. split_and!; try done. intros e' [= <-] _. eauto. }
  destruct (_ && _) eqn:Ev.
  2: { intros [= <- <-]. eexists. split; [done|]. split_and!; try done. by intros e [= <-]. }
  apply andb_true_iff in Ev as [_ Ev].
  destruct (is_str (prop "status" v) "idempotent") eqn:Ei.
  - set (w1 := MkWorld _ _ _). destruct (read_back command identityHash w1) as [o w2] eqn:Er.
    pose proof (waits_run _ _ _ _ waits_read_back Er) as [L C].
    assert (committed w w2 (MkCommit (w_store (pass w)) request s')) as Hc2
      by (eapply committed_mono; [reflexivity|exact L|exact Hc]).
    destruct o as [[stored|]|e].
    + intros [= <- <-]. eexists. split; [exact C|]. split_and!; try done.
      intros v' [= <-]. left. by eapply read_back_Ok.
    + intros [= <- <-]. eexists. split; [exact C|]. split_and!; try done. by intros e [= <-].
    + intros [= <- <-]. eexists. split; [exact C|]. split_and!; try done.
      intros e' [= <-]. intros Hl. by rewrite (read_back_unraced _ _ _ Er) in Hl.
  - rewrite orb_false_r in Ev. unfold lift, canonicalClone. rewrite Ht. intros [= <- <-].
    eexists. split; [done|]. split_and!; try done. intros v' [= <-]. right. split; [|done].
    simpl. pose proof (es_commit_committed (w_time w) request (w_store (pass w)) v) as Hs.
    rewrite Ec in Hs. by apply Hs.
Qed.

(** ** One attempt *)

Lemma asks_for_inj request n m : asks_for request n → asks_for request m → n = m.
Proof.
  unfold asks_for. destruct (prop _ request); try done. simpl. rewrite !Z.eqb_eq. lia.
Qed.

(** A request that is appended is appended where it was decided. *)
Lemma appended_where_decided w w' l c :
  committed w w' c → l `prefix_of` es_log (cm_before c) → asks_for (cm_request c) (length l) →
  es_log (cm_after c) = es_log (cm_before c) ++ [cm_request c] → es_log (cm_before c) = l.
Proof.
  intros [_ [Hs|[_ Ha]] _] [more Hl] Hask Hs'.
  - rewrite Hs in Hs'. apply (f_equal length) in Hs'. rewrite length_app in Hs'. simpl in Hs'. lia.
  - pose proof (asks_for_inj _ _ _ Ha Hask) as Hlen. rewrite Hl, length_app in Hlen.
    destruct more; [|simpl in Hlen; lia]. by rewrite Hl, app_nil_r.
Qed.

Inductive attempt_outcome (retries : nat) w : res json → World Store → Prop :=
| Answered r w'
    (Hwait : waited w w') (Hanswer : ∀ v, r = Ok v → durable (log w') v) :
    attempt_outcome retries w r w'
| Settled c w1 r w'
    (Hcommits : w_commits w1 = c :: w_commits w) (Hc : committed w w1 c)
    (Hwhy : justified (cm_before c) (cm_request c))
    (Hwait : waited w1 w') (Hanswer : ∀ v, r = Ok v → durable (log w') v) :
    attempt_outcome retries w r w'
| Lost c w1 r w' n t e l
    (Hretries : retries = S n) (Hcommits : w_commits w1 = c :: w_commits w)
    (Hc : committed w w1 c) (Hwhy : justified (cm_before c) (cm_request c))
    (Hdecided : log w `prefix_of` l ∧ l `prefix_of` es_log (cm_before c)
      ∧ asks_for (cm_request c) (length l))
    (Hlost : es_commit t (cm_request c) (cm_before c) = (Err e, cm_after c))
    (He : lost_race e = true)
    (Hagain : attempts command principal identityHash n w1 = (r, w')) :
    attempt_outcome retries w r w'.

Lemma attempts_eq retries :
  attempts command principal identityHash retries =
  (await b := bind_command command principal in
   await stored := lift (readReceipt (bn_projection b) command identityHash) in
   match stored with
   | Some replayedResult => ret replayedResult
   | None =>
       await ' (request, result) := prepare_candidate command principal identityHash b in
       await _ := assertNotAborted in
       try_catch (submit command identityHash request result) (λ e,
         if lost_race e then
           match retries with
           | S retries => attempts command principal identityHash retries
           | O => throw (BusinessCommandBoundaryError "BUSINESS_GLOBAL_CAS_EXHAUSTED")
           end
         else reconcile command identityHash e)
   end).
Proof. by destruct retries. Qed.

(** A computation that failed or ended while it only waited. *)
Lemma answered_error retries w e w' : waited w w' → attempt_outcome retries w (Err e) w'.
Proof. intros Hw. by apply Answered. Qed.

Lemma attempt_run retries w r w' :
  attempts command principal identityHash retries w = (r, w') → attempt_outcome retries w r w'.
Proof.
  rewrite attempts_eq. unfold then_ at 1.
  destruct (bind_command command principal w) as [[b|e] w1] eqn:Eb;
    pose proof (waits_run _ _ _ _ waits_bind Eb) as W1;
    [|by intros [= <- <-]; apply answered_error].
  apply bind_command_Ok in Eb as (l & Hl & Hl1 & Hb).
  unfold then_ at 1, lift.
  destruct (readReceipt (bn_projection b) command identityHash) as [[v|]|e] eqn:Er;
    [| |by intros [= <- <-]; apply answered_error].
  { intros [= <- <-]. apply Answered; [done|]. intros v' [= <-]. exists l, (bn_projection b).
    split_and!; [done|by apply ba_projection in Hb|by apply readReceipt_Some]. }
  unfold then_ at 1.
  destruct (prepare_candidate command principal identityHash b w1) as [[[request result]|e] w2] eqn:Ep;
    pose proof (waits_run _ _ _ _ (waits_prepare b) Ep) as W2;
    [|by intros [= <- <-]; apply answered_error; etrans].
  destruct (prepare_candidate_Ok _ _ _ _ _ _ Hb Hl1 Er Ep) as (Hwhy & Hask & (q & Hq & Hres) & Htext).
  unfold then_ at 1. destruct (assertNotAborted w2) as [[[]|e] w3] eqn:Ea;
    pose proof (waits_run _ _ _ _ waits_notAborted Ea) as W3;
    [|by intros [= <- <-]; apply answered_error; do 2 (etrans; [eassumption|])].
  assert (waited w w3) as [L3 C3] by (do 2 (etrans; [eassumption|]); exact W3).
  unfold try_catch.
  destruct (submit command identityHash request result w3) as [o w4] eqn:Es.
  apply submit_run in Es as (c & Hc & Hcc & Hreq & Hans & Herr); [|exact Htext].
  assert (l `prefix_of` es_log (cm_before c)) as Hlb.
  { etrans; [exact Hl1|]. etrans; [exact (waited_log _ _ W2)|].
    etrans; [exact (waited_log _ _ W3)|]. apply Hcc. }
  assert (justified (cm_before c) (cm_request c)) as Hj by (rewrite Hreq; by apply Hwhy).
  assert (committed w w4 c) as Hcw by (eapply committed_mono; [exact L3|reflexivity|exact Hcc]).
  rewrite C3 in Hc.
  assert (∀ v, o = Ok v → durable (log w4) v) as Hd.
  { intros v Hv. destruct (Hans v Hv) as [?|[Hs ->]]; [done|].
    exists (l ++ [request]), q. split; [|split; [exact Hq|]].
    - rewrite <- Hreq in Hask.
      rewrite <- (appended_where_decided _ _ _ _ Hcc Hlb Hask) by (by rewrite Hreq).
      rewrite <- Hs. apply Hcc.
    - eapply receipted_text; [|exact Hres]. apply canonicalJson_canon. }
  destruct o as [v|e].
  { intros [= <- <-]. eapply Settled; try done. }
  destruct (lost_race e) eqn:Hlost.
  - destruct (Herr e eq_refl Hlost) as [t Ht].
    destruct retries as [|n].
    + intros [= <- <-]. by eapply Settled.
    + intros Hagain. eapply (Lost _ _ c w4 r w' n t e l); try done.
      * rewrite Hreq. by split_and!.
      * by rewrite Hreq.
  - intros Hrec. eapply Settled; try done.
    + exact (waits_run _ _ _ _ (waits_reconcile e) Hrec).
    + intros v ->. by eapply reconcile_Ok.
Qed.
End Promises.
