(* ===== verification/CommandTheorems.v ===== *)
(** The promises of the command boundary, against any store that keeps [StoreLaws]: it commits only
    what was decided on the state it extends, at most once; an answer is durable and the same for
    every later execution; and it repeats an attempt only when another process got ahead. *)

From Stdlib Require Import ZArith Lia String.
From stdpp Require Import base tactics list strings option gmap.
From S2P Require Import Prelude JsString JsDate Json JsonText JsonCanon SettlementPolicy.
From S2P Require Import ContractBase PlanContract PlanProps Envelope WorkOrderState.
From S2P Require Import WorkOrderFacts Outbox ProjectorBase Projection ProjectorOutbox.
From S2P Require Import ProjectorSettlement Projector ProjectorBranch Lifecycle WorkOrderEffects.
From S2P Require Import CommandFacts CommandBoundary CommandLaws.

(** ** Authority *)

Lemma validateStringSet_texts value required allowed l :
  validateStringSet value required allowed = Some l → value = str_list_json l.
Proof.
  unfold validateStringSet. destruct value as [| | | | | | |items| |]; try done.
  destruct (mapM _ items) as [texts|] eqn:E; [|done]. simpl. destruct (_ && _); [|done].
  intros [= <-]. unfold str_list_json. f_equal. apply mapM_Some in E.
  induction E as [|v x items texts Hv _ IH]; [done|]. simpl. rewrite <- IH. f_equal.
  destruct v; try done. destruct (String.eqb _ _); [done|]. by injection Hv as ->.
Qed.

Lemma mapM_texts_included value required allowed l :
  validateStringSet value required allowed = Some l → ∀ x, x ∈ required → x ∈ l.
Proof.
  unfold validateStringSet. destruct value as [| | | | | | |items| |]; try done.
  destruct (mapM _ items) as [texts|]; [|done]. simpl. destruct (_ && _) eqn:E; [|done].
  intros [= <-] x Hx. apply andb_true_iff in E as [[_ E]%andb_true_iff _].
  rewrite forallb_forall in E. apply includes_true, E. by apply list_elem_of_In.
Qed.

(** The authority covers what the plan allows. *)
Record covers (a : Authority) (plan : Plan) (principal : Principal) : Prop := {
  cv_principal : au_principal a = principal;
  cv_project : au_project_ref a = pl_project_ref plan;
  cv_permission : ∃ rank, PERMISSION_RANK (au_permission_mode a) = Some rank ∧
    (permissionRank (pl_permission_mode plan) <= rank)%Z;
  cv_providers : ∀ x, x ∈ plan_providers plan → x ∈ au_allowed_provider_refs a;
  cv_effects : ∀ x, x ∈ REQUIRED_PROVIDER_EFFECTS → x ∈ au_allowed_effects a;
}.

Lemma strict_eq_str v x : strict_eq v (JStr x) = true → v = JStr x.
Proof. destruct v; try done. by intros ->%String.eqb_eq. Qed.

Lemma is_true_value_true v : is_true_value v = true → v = JBool true.
Proof. by destruct v as [| |[]| | | | | | |]. Qed.

(** The authority is what the authoriser's answer says. *)
Record drawn_from (grant : json) (a : Authority) : Prop := {
  df_authorized : prop "authorized" grant = JBool true;
  df_type : prop "principal_type" grant = JStr (pr_type (au_principal a));
  df_principal : prop "principal_id" grant = JStr (pr_id (au_principal a));
  df_project : prop "project_ref" grant = JStr (au_project_ref a);
  df_permission : prop "permission_mode" grant = JStr (au_permission_mode a);
  df_providers : ∃ providers, prop "allowed_provider_refs" grant = str_list_json providers ∧
    au_allowed_provider_refs a ≡ₚ providers;
  df_effects : ∃ effects, prop "allowed_effects" grant = str_list_json effects ∧
    au_allowed_effects a ≡ₚ effects;
}.

Lemma validateAuthorityCeiling_drawn ceiling plan principal a :
  validateAuthorityCeiling ceiling plan principal = Ok a → drawn_from ceiling a.
Proof.
  unfold validateAuthorityCeiling. destruct (_ && _) eqn:E; [|done].
  destruct (prop "permission_mode" ceiling) as [| | | | | |mode| | |] eqn:Em; try done.
  destruct (validateStringSet _ (plan_providers plan) _) as [providers|] eqn:Ep; [|done].
  destruct (validateStringSet _ REQUIRED_PROVIDER_EFFECTS _) as [effects|] eqn:Ee; [|done].
  destruct (PERMISSION_RANK mode); [|done]. destruct (negb _); [|done]. intros [= <-].
  apply validateStringSet_texts in Ep, Ee. split_bools.
  split; simpl; try done; eauto using strict_eq_str, is_true_value_true, sort_text_Permutation.
Qed.

(** A grant is read as it stands: the bare [true] has no fields to be a ceiling. *)
Lemma authorised_drawn grant ceiling plan principal a :
  authorized (Ok grant) = Ok ceiling → validateAuthorityCeiling ceiling plan principal = Ok a →
  drawn_from grant a.
Proof.
  unfold authorized. simpl. destruct (truthy grant); [|done].
  destruct (is_true_value grant).
  - intros [= <-] Hv. discriminate Hv.
  - intros [= <-]. apply validateAuthorityCeiling_drawn.
Qed.

Lemma validateAuthorityCeiling_covers ceiling plan principal a :
  validateAuthorityCeiling ceiling plan principal = Ok a → covers a plan principal.
Proof.
  unfold validateAuthorityCeiling. destruct (_ && _); [|done].
  destruct (prop "permission_mode" ceiling) as [| | | | | |mode| | |]; try done.
  destruct (validateStringSet _ (plan_providers plan) _) as [providers|] eqn:Ep; [|done].
  destruct (validateStringSet _ REQUIRED_PROVIDER_EFFECTS _) as [effects|] eqn:Ee; [|done].
  destruct (PERMISSION_RANK mode) as [rank|] eqn:Er; [|done].
  destruct (negb _) eqn:El; [|done]. intros [= <-].
  apply negb_true_iff, Z.ltb_ge in El. split; simpl; try done; [by exists rank|..];
    intros x Hx; rewrite sort_text_Permutation; by eapply mapM_texts_included.
Qed.

(** ** Retries *)

Section Retries.
Context `{Sha256}.
Implicit Types (p : Projection) (s : State) (branch : Branch).

Lemma latest_generation_elem l e : latest_generation l = Some e → e ∈ l.
Proof.
  unfold latest_generation. intros Hl%last_Some_elem_of. by apply isort_elem_of in Hl.
Qed.

Lemma outbox_effects_elem p e : e ∈ outbox_effects p → ∃ k, pj_outbox p !! k = Some e.
Proof.
  unfold outbox_effects, sorted_entries. intros ([k x] & -> & Hx)%list_elem_of_fmap.
  apply isort_elem_of, elem_of_map_to_list in Hx. by exists k.
Qed.

Lemma latestCurrentStartEffect_Ok p s branch e :
  latestCurrentStartEffect p s branch = Ok (Some e) →
  (∃ k, pj_outbox p !! k = Some e) ∧ of_current_attempt s branch e = true
  ∧ ∃ kind, currentStartStage branch = Some kind ∧ has_kind kind e = true.
Proof.
  unfold latestCurrentStartEffect. destruct (currentStartStage branch) as [kind|]; [|done].
  destruct (br_packet_ref branch) as [packet|]; [|done]. intros (hash & _ & Hl)%bind_Ok.
  injection Hl as Hl%latest_generation_elem. apply list_elem_of_filter in Hl as [Hf Hl].
  apply outbox_effects_elem in Hl. split_bools. split_and!; try done. by exists kind.
Qed.

Lemma timestamp_read t path x :
  exactTimestamp (timestamp_json t) path = Ok x → time_in_range t = true → x = t.
Proof.
  unfold exactTimestamp, timestamp_json. intros Hx Ht. rewrite iso_roundtrip in Hx by done.
  destruct (_ =? _)%nat; [|done]. by injection Hx.
Qed.

(** The schedule of a generation leaves room for another one. *)
Record room_for_retry s branch (e : Effect) (schedule : RetrySchedule) : Prop := {
  rr_generation : (fx_generation e < rp_max_attempts (pl_retry_policy (st_plan s)))%Z;
  rr_attempt : ∀ t, br_attempt_deadline_at branch = Some t → time_in_range t = true →
    (rs_eligible_at schedule < t)%Z;
  rr_order : time_in_range (st_deadline_at s) = true →
    (rs_eligible_at schedule < st_deadline_at s)%Z;
}.

Lemma schedule_room s branch e policy settled schedule :
  deriveEffectGenerationRetryScheduleV2
    (schedule_input s policy (fx_generation e) settled (br_attempt_deadline_at branch)) = Ok schedule →
  rs_permitted schedule = true → room_for_retry s branch e schedule.
Proof.
  intros Hs Hp. destruct (retry_schedule_permitted _ _ Hs Hp)
    as (c & rp & t & ta & tw & g & m & [= <-] & [= <-] & _ & Ha & Hw & [= <-] & [= <-] & Hg & Hm & _ & _ & Hta & Htw).
  split.
  - lia.
  - intros t' Ht' Hr. simpl in Ha. rewrite Ht' in Ha. by rewrite <- (timestamp_read _ _ _ Ha Hr).
  - intros Hr. by rewrite <- (timestamp_read _ _ _ Hw Hr).
Qed.

Lemma generation_schedule_Ok s branch e stored policy schedule :
  generation_schedule s branch e stored = Ok (policy, schedule) →
  normalizeSettlementPolicyRecordV2 (settlement_policy_json stored) = Ok policy ∧
  sp_disposition policy = RetryCandidate ∧
  ed_classification <$> fx_delivery e = Some CNotSent ∧
  (rs_permitted schedule = true → room_for_retry s branch e schedule).
Proof.
  unfold generation_schedule.
  destruct (normalizeSettlementPolicyRecordV2 _) as [policy'|]; [|done]. simpl.
  destruct (_ && _) eqn:Ec; [|done]. destruct (fx_delivery e) as [delivery|]; [|done].
  destruct (bool_decide (ed_classification delivery = CNotSent)) eqn:Ed; [|done].
  destruct (deriveEffectGenerationRetryScheduleV2 _) as [schedule'|] eqn:Es; [|done].
  simpl. intros [= <- <-]. split_bools. split_and!; try done.
  - simpl. congruence.
  - by eapply schedule_room.
Qed.

(** What a retry rests on. *)
Definition retry_evidence p s branch (basis : RetryBasis) : Prop :=
  match basis with
  | EffectGeneration _ => ∃ k e stored policy schedule,
      pj_outbox p !! k = Some e ∧ of_current_attempt s branch e = true ∧
      (∃ kind, currentStartStage branch = Some kind ∧ has_kind kind e = true) ∧
      fx_status e = FsNotSent ∧ ed_classification <$> fx_delivery e = Some CNotSent ∧
      fx_settlement_policy e = Some stored ∧
      normalizeSettlementPolicyRecordV2 (settlement_policy_json stored) = Ok policy ∧
      sp_disposition policy = RetryCandidate ∧ room_for_retry s branch e schedule ∧
      (br_state branch = BRetryable → br_retry_at branch = Some (rs_eligible_at schedule))
  | BranchAttempt _ =>
      br_state branch = BFailed ∧ de_classification <$> br_delivery branch = Some CAccepted ∧
      (runtime_failure branch = true ∨ result_failure branch = true)
  end.

Lemma effectGenerationRetryBasis_Ok p s branch basis :
  effectGenerationRetryBasis p s branch = Ok (Some basis) → retry_evidence p s branch basis.
Proof.
  unfold effectGenerationRetryBasis. intros (latest & Hl & Hrun)%bind_Ok.
  destruct latest as [e|]; [|done].
  apply latestCurrentStartEffect_Ok in Hl as ([k Hk] & Hcur & Hkind).
  destruct (has_status FsNotSent e) eqn:Est; [|done].
  destruct (fx_settlement_policy e) as [stored|] eqn:Ep; [|done].
  apply bind_Ok in Hrun as ([policy schedule] & Hs & Hrun).
  destruct (rs_permitted schedule) eqn:Eperm; [|done]. destruct (_ || _) eqn:Er; [|done].
  apply bind_Ok in Hrun as (j & _ & [= <-]).
  apply generation_schedule_Ok in Hs as (Hn & Hd & Hc & Hroom).
  exists k, e, stored, policy, schedule. apply bool_decide_eq_true in Est.
  split_and!; try done; [by apply Hroom|]. intros Hb.
  rewrite (bool_decide_eq_true_2 _ Hb) in Er. by apply bool_decide_eq_true in Er.
Qed.

Lemma branchAttemptRetryBasis_Ok p s branch basis :
  branchAttemptRetryBasis branch = Ok (Some basis) → retry_evidence p s branch basis.
Proof.
  unfold branchAttemptRetryBasis. destruct (_ && _ && _) eqn:E; [|done].
  intros (j & _ & [= <-])%bind_Ok. simpl.
  apply andb_true_iff in E as [[E1%bool_decide_eq_true E2%bool_decide_eq_true]%andb_true_iff E3].
  apply orb_true_iff in E3. done.
Qed.

(** C11: no retry without evidence: the boundary lets a retry be decided only on the current attempt
    of the branch, and only when the current start effect was settled as not sent by a policy that
    makes it a candidate, with a generation left before the deadlines, or when the branch failed
    after its delivery was accepted.  An effect whose delivery is unknown is never a basis. *)
Theorem retry_rests_on_evidence p s command basis :
  authoritativeRetryBasis p s command = Ok (Some basis) →
  ∃ ref reason branch,
    ce_payload command = RetryRequestPayload ref (br_attempt branch) reason ∧
    st_branches s !! ref = Some branch ∧ retry_evidence p s branch basis.
Proof.
  unfold authoritativeRetryBasis. destruct (ce_payload command) as [| | |ref n reason| |]; try done.
  destruct (st_branches s !! ref) as [branch|] eqn:Eb; [|done].
  destruct (_ =? n)%Z eqn:En; [|done]. apply Z.eqb_eq in En as <-.
  intros Hrun. exists ref, reason, branch. split_and!; [done..|].
  apply bind_Ok in Hrun as ([b|] & Hg & Hrun).
  - injection Hrun as <-. by apply effectGenerationRetryBasis_Ok.
  - apply bind_Ok in Hrun as ([b|] & Ha & Hrun); [|done]. injection Hrun as <-.
    by apply branchAttemptRetryBasis_Ok.
Qed.
End Retries.

(** ** The loop *)

Section Loop.
Context `{Sha256} {evidence : SendEvidence} {hashing : ProjectionHash}.
Context {Store : Type} {store : EventStoreApi Store} {laws : StoreLaws Store}.
Context {services : CommandServices}.
Context (command : CommandEnvelope) (principal : Principal) (identityHash : string).
Implicit Types (w : World Store).

Abbreviation log w := (es_log (w_store w)).
Abbreviation justified := (justified command principal identityHash).
Abbreviation durable := (durable command identityHash).
Abbreviation attempts := (attempts command principal identityHash).

(** What a run of attempts leaves: its commits, the answer, and the journal it met. *)
Record boundary_run w (r : res json) w' (new : list (Commit Store)) : Prop := {
  run_commits : w_commits w' = new ++ w_commits w;
  run_log : log w `prefix_of` log w';
  run_justified : Forall (λ c, justified (cm_before c) (cm_request c) ∧ committed w w' c) new;
  run_once : (length (filter (λ c, appended c = true) new) <= 1)%nat;
  run_answer : ∀ v, r = Ok v → durable (log w') v;
}.

Lemma committed_log w w' c : committed w w' c → log w `prefix_of` log w'.
Proof.
  intros [B1 B2 B3]. etrans; [exact B1|]. etrans; [|exact B3].
  destruct B2 as [->|[-> _]]; [done|by apply prefix_app_r].
Qed.

Lemma appended_length c :
  es_log (cm_after c) = es_log (cm_before c) → appended (Store := Store) c = false.
Proof. intros E. unfold appended. rewrite E. apply Nat.ltb_irrefl. Qed.

Lemma attempts_run retries w r w' :
  attempts retries w = (r, w') →
  ∃ new, boundary_run w r w' new ∧ (length new <= S retries)%nat.
Proof.
  revert w r w'. induction retries as [retries IH] using lt_wf_ind. intros w r w' Hrun.
  destruct (attempt_run _ _ _ _ _ _ _ Hrun) as [r w' [L C] Ha|c w1 r w' Hcs Hc Hj Hw Ha
    |c w1 r w' n t e l -> Hcs Hc Hj Hd Hlost He Hagain].
  - exists []. split; [|simpl; lia]. split; try done. simpl. lia.
  - exists [c]. split; [|simpl; lia]. destruct Hw as [L C].
    assert (committed w w' c) as Hc' by (eapply committed_mono; [reflexivity|exact L|exact Hc]).
    split; [by rewrite C|by eapply committed_log|by apply Forall_singleton| |done].
    rewrite filter_cons. destruct (decide _); simpl; lia.
  - destruct (IH n ltac:(lia) w1 r w' Hagain) as (new & [R1 R2 R3 R4 R5] & Hlen).
    pose proof (es_commit_lost t (cm_request c) (cm_before c) e) as Hsame.
    rewrite Hlost in Hsame. specialize (Hsame eq_refl He). simpl in Hsame.
    exists (new ++ [c]). split; [|rewrite length_app; simpl; lia].
    split.
    + by rewrite R1, Hcs, <- app_assoc.
    + etrans; [by eapply committed_log|done].
    + apply Forall_app. split.
      * eapply Forall_impl; [exact R3|]. intros c' [Hj' Hc']. split; [done|].
        eapply committed_mono; [by eapply committed_log|reflexivity|exact Hc'].
      * apply Forall_singleton. split; [done|]. eapply committed_mono; [reflexivity|exact R2|exact Hc].
    + rewrite filter_app, length_app, filter_cons, (appended_length c) by done.
      rewrite decide_False by done. simpl. lia.
    + done.
Qed.

(** The receipt is there before the attempt: nothing is committed, and the answer is its result. *)
Lemma attempts_known retries w r w' l0 p receipt :
  l0 `prefix_of` log w → project_log l0 = Ok p →
  pj_command_receipts p !! ce_command_id command = Some receipt →
  attempts retries w = (r, w') →
  waited w w' ∧ ∀ v, r = Ok v →
    canonicalJson v = canonicalJson (rc_result receipt) ∧ rc_identity_hash receipt = identityHash.
Proof.
  intros Hl0 Hp Hr. rewrite attempts_eq. unfold then_ at 1.
  destruct (bind_command command principal w) as [[b|e] w1] eqn:Eb;
    pose proof (waits_run _ _ _ _ (waits_bind _ _) Eb) as W1; [|by intros [= <- <-]].
  apply bind_command_Ok in Eb as (l & Hl & _ & [Hb _ _ _ _]).
  assert (l0 `prefix_of` l) as Hl0' by by etrans.
  pose proof (receipt_kept _ _ _ _ _ _ Hl0' Hp Hb Hr) as Hr'.
  unfold then_ at 1, lift.
  destruct (readReceipt (bn_projection b) command identityHash) as [[v|]|e] eqn:Er.
  - intros [= <- <-]. split; [done|]. intros v' [= <-].
    apply readReceipt_Some in Er as (r' & Hr2 & _ & Hi & Hc & _).
    rewrite Hr' in Hr2. injection Hr2 as <-. by rewrite Hc.
  - apply readReceipt_None in Er. by rewrite Hr' in Er.
  - by intros [= <- <-].
Qed.

(** Each attempt after the first follows an append of another process. *)
Lemma attempts_contention retries w r w' :
  (∀ t q s e, (es_commit t q s).1 = Err e → has_code "EVENT_LOCK_BUSY" e = false) →
  attempts retries w = (r, w') →
  ∃ new, w_commits w' = new ++ w_commits w ∧
    ∀ c, head new = Some c → (length new + length (log w) <= S (length (es_log (cm_before c))))%nat.
Proof.
  intros Hbusy. revert w r w'. induction retries as [retries IH] using lt_wf_ind. intros w r w' Hrun.
  destruct (attempt_run _ _ _ _ _ _ _ Hrun) as [r w' [L C] Ha|c w1 r w' Hcs Hc Hj Hw Ha
    |c w1 r w' n t e l -> Hcs Hc Hj (Hl & Hlb & Hask) Hlost He Hagain].
  - by exists [].
  - exists [c]. rewrite (waited_commits _ _ Hw). split; [done|]. intros c' [= <-]. simpl.
    pose proof (prefix_length _ _ (co_before _ _ _ Hc)). lia.
  - destruct (IH n ltac:(lia) w1 r w' Hagain) as (new & Hnew & Hhead).
    exists (new ++ [c]). split; [by rewrite Hnew, Hcs, <- app_assoc|].
    assert (length (log w) < length (es_log (cm_before c)))%nat as Hlt.
    { pose proof (prefix_length _ _ Hl). pose proof (prefix_length _ _ Hlb).
      destruct (decide (length l = length (es_log (cm_before c)))) as [E|]; [exfalso|lia].
      apply (es_commit_conflict t (cm_request c) (cm_before c) e); [by rewrite Hlost| |by rewrite <- E].
      unfold lost_race in He. rewrite (Hbusy t (cm_request c) (cm_before c)) in He by by rewrite Hlost.
      by rewrite orb_false_r in He. }
    pose proof (prefix_length _ _ (co_after _ _ _ Hc)) as Hafter.
    assert (length (es_log (cm_before c)) <= length (es_log (cm_after c)))%nat as Hgrow.
    { destruct (co_step _ _ _ Hc) as [->|[-> _]]; [done|]. rewrite length_app. lia. }
    intros c' Hc'. destruct new as [|c0 new].
    + injection Hc' as <-. simpl. lia.
    + injection Hc' as <-. specialize (Hhead c0 eq_refl). rewrite length_app. simpl in *. lia.
Qed.
End Loop.

(** ** An execution *)

(** The command of an input. *)
Definition command_of `{Sha256} (input : json) : res CommandEnvelope :=
  match input with JObj fs => normalizeCommandEnvelopeV1 (get "command" fs) | _ => Err TypeError end.

Section Execution.
Context `{Sha256} {evidence : SendEvidence} {hashing : ProjectionHash}.
Context {Store : Type} {store : EventStoreApi Store} {laws : StoreLaws Store}.
Context {services : CommandServices}.
Implicit Types (w : World Store) (c : Commit Store).

Abbreviation log w := (es_log (w_store w)).

(** The command, under a principal the actor of the command is bound to. *)
Record admitted (input : json) (command : CommandEnvelope) (principal : Principal) (hash : string)
    : Prop := {
  ad_command : command_of input = Ok command;
  ad_principal : answered (λ t, sv_authenticate t (prop "authentication" input)) authenticated
    principal;
  ad_actor : validateCommandActorBinding command principal = Ok tt;
  ad_identity : commandIdentityHash command principal = Ok hash;
}.

(** An execution ends while it waits, with an error, or it runs the attempts of its command. *)
Lemma execute_cases input w r w' :
  execute input w = (r, w') →
  (waited w w' ∧ ∃ e, r = Err e) ∨
  ∃ command principal hash w1, admitted input command principal hash ∧ waited w w1 ∧
    attempts command principal hash maxGlobalCasRetries w1 = (r, w').
Proof.
  unfold execute. destruct input as [| | | | | | | |fs|];
    try (intros [= <- <-]; left; by split; [|eexists]).
  destruct (has_own fs "command"); [|intros [= <- <-]; left; by split; [|eexists]].
  unfold then_ at 1, lift.
  destruct (normalizeCommandEnvelopeV1 _) as [command|] eqn:Ec;
    [|intros [= <- <-]; left; by split; [|eexists]].
  unfold then_ at 1. destruct (consult _ _ w) as [[principal|e] w1] eqn:Ep;
    pose proof (waits_run _ _ _ _ (waits_consult _ _) Ep) as W1;
    [|intros [= <- <-]; left; by split; [|eexists]].
  apply consult_answered in Ep as [_ Ep]; [|intros ?; apply fails_dependency].
  unfold then_ at 1. destruct (validateCommandActorBinding _ _) as [[]|] eqn:Ea;
    [|intros [= <- <-]; left; by split; [|eexists]].
  unfold then_ at 1. destruct (commandIdentityHash _ _) as [hash|] eqn:Eh;
    [|intros [= <- <-]; left; by split; [|eexists]].
  intros Hrun. right. by exists command, principal, hash, w1.
Qed.

(** A commit that appended did so where it was decided, and the journal projects. *)
Lemma justified_projects command principal hash w w' c :
  justified command principal hash (cm_before c) (cm_request c) → committed w w' c →
  appended c = true →
  ∃ p q result, project_log (es_log (cm_before c)) = Ok p ∧
    project_log (es_log (cm_after c)) = Ok q ∧
    pj_command_receipts p !! ce_command_id command = None ∧ receipted command hash q result.
Proof.
  intros Hj Hc Happ. destruct (co_step _ _ _ Hc) as [Hs|[Hs _]].
  { by rewrite appended_length in Happ. }
  apply justified_request in Hj as (l & p & q & result & Hl & Hp & Hnew & Hask & Hq & Hres).
  pose proof (appended_where_decided _ _ _ _ Hc Hl Hask Hs) as E.
  exists p, q, result. split_and!; [by rewrite E| |done|done].
  by rewrite Hs, project_log_snoc, E, Hp.
Qed.

(** The part of the reasons that is about authority. *)
Lemma justified_within command principal hash s request :
  justified command principal hash s request →
  ∃ order (plan : Plan) project grant authority occurredAt decision receipt revision,
    plan_wf plan ∧ pl_plan_snapshot_id plan = ei_plan_snapshot_ref (ce_identity command) ∧
    (∃ t, sv_authorize t principal command order plan project = Ok grant) ∧
    drawn_from grant authority ∧ covers authority plan principal ∧
    (∀ b, b ∈ pl_branches plan → pb_provider_ref b ∈ au_allowed_provider_refs authority ∧
      ∃ rank, PERMISSION_RANK (au_permission_mode authority) = Some rank ∧
        (permissionRank (pb_permission_mode b) <= rank)%Z) ∧
    decided command principal order plan project authority occurredAt decision ∧
    request = commit_request command principal revision (dc_events decision ++ [receipt]).
Proof.
  intros [l p plan project grant authority basis at_ decision receipt q _ _ _ Hplan _ Ha _ _ Hd _ _ _].
  destruct (plan_bound_normalized _ _ _ _ Hplan) as (v & (Hwf & Hid & _)%normalizeResolvedPlan_Ok).
  destruct Ha as [Hgrant (ceiling & Hg & Hceiling)].
  pose proof (validateAuthorityCeiling_covers _ _ _ _ Hceiling) as Hcov.
  do 9 eexists. split_and!; [exact Hwf|exact Hid|exact Hgrant| |exact Hcov| |exact Hd|reflexivity].
  - by eapply authorised_drawn.
  - destruct Hcov as [_ _ (rank & Hr & Hle) Hp _]. intros b Hb.
    split; [by apply Hp, (pw_providers _ Hwf)|]. exists rank. split; [done|].
    pose proof (pw_permissions _ Hwf b Hb). lia.
Qed.

(** C6: the boundary commits only what was decided on the journal it extends: for every commit of
    an execution the principal is one the authenticator answered and the actor of the command may
    be; the authoriser, asked about this principal, command, plan and project, answered a grant that
    covers the plan the command names; the Work Order is at the revision the command expects; the
    decider was asked about it, with that authority, plan and project as its facts, and its events
    are the ones committed; and if the commit appends, the journal it met projects without a receipt
    of the command, and the journal it leaves projects with one. *)
Theorem execute_commits_justified input w r w' :
  execute input w = (r, w') →
  ∃ new, w_commits w' = new ++ w_commits w ∧ ∀ c, c ∈ new →
    ∃ command principal hash, admitted input command principal hash ∧
      justified command principal hash (cm_before c) (cm_request c) ∧
      (appended c = true → ∃ p q result, project_log (es_log (cm_before c)) = Ok p ∧
        project_log (es_log (cm_after c)) = Ok q ∧
        pj_command_receipts p !! ce_command_id command = None ∧ receipted command hash q result).
Proof.
  intros [[[_ Hc] _]|(command & principal & hash & w1 & Had & [_ Hc] & Hrun)]%execute_cases.
  { exists []. split; [done|]. by intros c ?%elem_of_nil. }
  apply attempts_run in Hrun as (new & [R1 _ R3 _ _] & _).
  exists new. split; [by rewrite R1, Hc|]. intros c Hin.
  rewrite Forall_forall in R3. destruct (R3 c Hin) as [Hj Hcc].
  exists command, principal, hash. split_and!; [done..|]. by eapply justified_projects.
Qed.

(** C10: an execution commits only within its authority: for every commit, the authoriser was asked
    about the authenticated principal, the command, its Work Order, a well formed plan that the
    command names and the project, and answered a grant; the authority that the decider was given is
    what that grant says; it covers the plan: its project, all required provider effects, and of
    every branch the provider and the permission mode; and what is committed are the events of
    that decision, with the receipt. *)
Theorem execute_within_authority input w r w' :
  execute input w = (r, w') →
  ∃ new, w_commits w' = new ++ w_commits w ∧ ∀ c, c ∈ new →
    ∃ command principal hash order (plan : Plan) project grant authority occurredAt decision
        receipt revision,
      admitted input command principal hash ∧
      plan_wf plan ∧ pl_plan_snapshot_id plan = ei_plan_snapshot_ref (ce_identity command) ∧
      (∃ t, sv_authorize t principal command order plan project = Ok grant) ∧
      drawn_from grant authority ∧ covers authority plan principal ∧
      (∀ b, b ∈ pl_branches plan → pb_provider_ref b ∈ au_allowed_provider_refs authority ∧
        ∃ rank, PERMISSION_RANK (au_permission_mode authority) = Some rank ∧
          (permissionRank (pb_permission_mode b) <= rank)%Z) ∧
      decided command principal order plan project authority occurredAt decision ∧
      cm_request c = commit_request command principal revision (dc_events decision ++ [receipt]).
Proof.
  intros [[[_ Hc] _]|(command & principal & hash & w1 & Had & [_ Hc] & Hrun)]%execute_cases.
  { exists []. split; [done|]. by intros c ?%elem_of_nil. }
  apply attempts_run in Hrun as (new & [R1 _ R3 _ _] & _).
  exists new. split; [by rewrite R1, Hc|]. intros c Hin.
  rewrite Forall_forall in R3. destruct (R3 c Hin) as [Hj _].
  destruct (justified_within _ _ _ _ _ Hj)
    as (order & plan & project & grant & authority & at_ & decision & receipt & revision & Hwithin).
  exists command, principal, hash, order, plan, project, grant, authority, at_, decision, receipt,
    revision. by split.
Qed.

(** C8: an execution appends at most one batch, however often it tries, and it tries at most
    [maxGlobalCasRetries] times again; and a result it returns is the result in the receipt of the
    command, with the identity of this command and principal, in a journal that the store holds. *)
Theorem execute_appends_once input w r w' :
  execute input w = (r, w') →
  ∃ new, w_commits w' = new ++ w_commits w ∧ (length new <= S maxGlobalCasRetries)%nat ∧
    (length (filter (λ c, appended c = true) new) <= 1)%nat ∧
    ∀ v, r = Ok v → ∃ command principal hash, admitted input command principal hash ∧
      durable command hash (log w') v.
Proof.
  intros [[[_ Hc] [e ->]]|(command & principal & hash & w1 & Had & [_ Hc] & Hrun)]%execute_cases.
  { exists []. split_and!; simpl; [done|lia..|done]. }
  apply attempts_run in Hrun as (new & [R1 _ _ R4 R5] & Hlen).
  exists new. split_and!; [by rewrite R1, Hc|done..|]. intros v Hv.
  exists command, principal, hash. split; [done|by apply R5].
Qed.

(** C9: the boundary tries again only when another process got ahead: as long as the lock is not
    found busy, the number of commits an execution makes is at most one more than the number of
    entries by which the journal had grown when the last of them was made. *)
Theorem execute_contention input w r w' :
  (∀ t q s e, (es_commit t q s).1 = Err e → has_code "EVENT_LOCK_BUSY" e = false) →
  execute input w = (r, w') →
  ∃ new, w_commits w' = new ++ w_commits w ∧ ∀ c, head new = Some c →
    (length new + length (log w) <= S (length (es_log (cm_before c))))%nat.
Proof.
  intros Hbusy [[[_ Hc] _]|(command & principal & hash & w1 & _ & [L C] & Hrun)]%execute_cases.
  { by exists []. }
  apply attempts_contention in Hrun as (new & Hnew & Hhead); [|done].
  exists new. split; [by rewrite Hnew, C|]. intros c Hc. specialize (Hhead c Hc).
  pose proof (prefix_length _ _ L). lia.
Qed.
End Execution.

Section Executions.
Context `{Sha256} {evidence : SendEvidence} {hashing : ProjectionHash}.
Context {Store : Type} {store : EventStoreApi Store} {laws : StoreLaws Store}.
Implicit Types (w : World Store).

Abbreviation log w := (es_log (w_store w)).

(** C7: a command takes effect exactly once: after an execution that returned, any execution of a
    command with the same identifier (by any process, with other services, from a later store)
    commits nothing, and if it returns, it returns the same result. *)
Theorem execute_exactly_once {services : CommandServices} input w v w1 :
  execute input w = (Ok v, w1) →
  ∀ (services' : CommandServices) input' command command' w2 r w3,
    command_of input = Ok command → command_of input' = Ok command' →
    ce_command_id command' = ce_command_id command → log w1 `prefix_of` log w2 →
    execute (services := services') input' w2 = (r, w3) →
    w_commits w3 = w_commits w2 ∧ ∀ v', r = Ok v' → canonicalJson v' = canonicalJson v.
Proof.
  intros Hrun services' input' command command' w2 r w3 Hc Hc' Hid Hlog Hrun'.
  apply execute_cases in Hrun as [[_ [e [=]]]|(command1 & principal & hash & w0 & Had & _ & Hrun)].
  apply attempts_run in Hrun as (_ & [_ _ _ _ Hans] & _).
  destruct (Hans v eq_refl) as (l & p & Hl & Hp & receipt & Hr & _ & _ & Hv & _).
  assert (command1 = command) as -> by (destruct Had; congruence).
  apply execute_cases in Hrun' as [[[_ Hn] [e ->]]|(c2 & principal2 & hash2 & w4 & Had2 & [L4 C4] & Hrun')].
  { by split. }
  assert (c2 = command') as -> by (destruct Had2; congruence).
  rewrite <- Hid in Hr.
  assert (l `prefix_of` log w4) as Hl4 by (do 2 (etrans; [eassumption|]); exact L4).
  destruct (attempts_known _ _ _ _ _ _ _ _ _ _ Hl4 Hp Hr Hrun') as [[_ C5] Hans'].
  split; [congruence|]. intros v' Hv'. destruct (Hans' v' Hv') as [-> _]. done.
Qed.
End Executions.
