(* ===== verification/CommandWitnesses.v ===== *)
(** The command boundary on a concrete store: the journal as a list of requests, the sample plan,
    and services that answer as the sample run expects. *)

From Stdlib Require Import ZArith Lia String.
From stdpp Require Import base tactics list strings option gmap.
From S2P Require Import Prelude JsString JsDate Json JsonText JsonCanon SettlementPolicy.
From S2P Require Import ContractBase PlanContract Envelope EnvelopeProps PlanProps WorkOrderState.
From S2P Require Import WorkOrderFacts WorkOrder WorkOrderExample Outbox ProjectorBase Projection.
From S2P Require Import ProjectorOutbox ProjectorSettlement Projector ProjectorWitnesses.
From S2P Require Import CommandFacts CommandBoundary CommandLaws CommandTheorems.

(** ** The store as a list of requests *)

Section LogStore.
Context `{Sha256} {evidence : SendEvidence} {hashing : ProjectionHash}.

(** What other processes append at each call. *)
Context (others : nat → list json).

Definition log_answer (status : string) : json := JObj [("status", JStr status)].

Definition commit_to_log (request : json) (log : list json) : res json * list json :=
  match find (λ r, strict_eq (prop "batch_id" r) (prop "batch_id" request)) log with
  | Some r =>
      (match same r request with
       | Ok true => Ok (log_answer "idempotent")
       | _ => Err (EventStoreError "EVENT_BATCH_ID_CONFLICT")
       end, log)
  | None =>
      if strict_eq (prop "expected_revision" request) (JInt (Z.of_nat (length log)))
      then (Ok (log_answer "committed"), log ++ [request])
      else (Err (EventStoreError "EVENT_REVISION_CONFLICT"), log)
  end.

Definition replay_log (log : list json) : res (Projection * Z) :=
  match project_log log with
  | Ok p => Ok (p, Z.of_nat (length log))
  | Err _ => Err (EventStoreError "EVENT_REDUCER_FAILED")
  end.

Definition log_store : EventStoreApi (list json) := {|
  es_replay _ log := replay_log log;
  es_commit _ request log := commit_to_log request log;
  es_others t log := log ++ others t;
|}.

Lemma commit_to_log_cases request log :
  let r := commit_to_log request log in
  (r = (Ok (log_answer "committed"), log ++ [request])
    ∧ asks_for request (length log))
  ∨ (r.2 = log ∧ (r.1 = Ok (log_answer "idempotent")
      ∨ r.1 = Err (EventStoreError "EVENT_BATCH_ID_CONFLICT")
      ∨ r.1 = Err (EventStoreError "EVENT_REVISION_CONFLICT") ∧ ¬ asks_for request (length log))).
Proof.
  unfold commit_to_log. cbn zeta. destruct (find _ log).
  - right. split; [done|]. simpl. destruct (same _ _) as [[]|]; auto.
  - destruct (strict_eq _ _) eqn:E; [by left|]. right. split; [done|]. simpl. do 2 right.
    split; [done|]. unfold asks_for. by rewrite E.
Qed.

#[refine] Definition log_store_laws : @StoreLaws _ evidence hashing _ log_store := {|
  es_log (log : list json) := log |}.
Proof.
  - intros t s. by apply prefix_app_r.
  - intros t s p n. simpl. unfold replay_log. destruct (project_log s); [|done]. by intros [= <- <-].
  - intros t s e. simpl. unfold replay_log. destruct (project_log s); [done|]. by intros [= <-].
  - intros t r s. simpl. destruct (commit_to_log_cases r s) as [[-> ?]|[-> _]]; auto.
  - intros t r s v. simpl. destruct (commit_to_log_cases r s) as [[-> ?]|[_ [->|[->|[-> _]]]]];
      try done. by intros [= <-].
  - intros t r s v. simpl. destruct (commit_to_log_cases r s) as [[-> ?]|[-> _]]; [|done].
    by intros [= <-].
  - intros t r s e. simpl. destruct (commit_to_log_cases r s) as [[-> ?]|[-> _]]; done.
  - intros t r s e. simpl. destruct (commit_to_log_cases r s) as [[-> ?]|[_ [->|[->|[-> ?]]]]];
      try done. by intros [= <-].
Defined.
End LogStore.

(** ** The sample services *)

#[export] Existing Instance checksum_sha.

Definition sample_authority : json :=
  JObj [("authorized", JBool true); ("principal_type", JStr "agent");
        ("principal_id", JStr "actor-1"); ("project_ref", JStr "project-1");
        ("permission_mode", JStr "workspace-write"); ("allowed_provider_refs", str_list_json ["codex"]);
        ("allowed_effects", str_list_json REQUIRED_PROVIDER_EFFECTS)].

Definition sample_artifacts (plan : Plan) (refs : list ContentRef) : json :=
  JObj [("plan_snapshot_ref", JStr (pl_plan_snapshot_id plan)); ("plan_hash", JStr (pl_plan_hash plan));
        ("project_ref", JStr (pl_project_ref plan)); ("verified_refs", JArr (map content_ref_json refs));
        ("provider_capabilities", JArr
          [JObj [("provider_ref", JStr "codex"); ("permission_modes", str_list_json ["workspace-write"]);
                 ("isolation_modes", str_list_json ["worktree"; "sandbox"]);
                 ("effects", str_list_json REQUIRED_PROVIDER_EFFECTS)]])].

Definition sample_command_facts : json :=
  JObj [("branch_criterion_ids",
          JObj (map (λ r, (r, str_list_json ["tests-pass"])) ["a"; "b"; "merge"]));
        ("context_budget_receipt",
          JObj [("budget_tokens", JInt 1000); ("duplicate_context_tokens", JInt 10);
                ("evidence_refs", str_list_json ["budget-evidence"])]);
        ("dispatch_packets", JObj [("a", sample_ref "packet-1")])].

(** The decider of the repository. *)
Definition work_order_decider (order : option WorkOrder) (command : CommandEnvelope) (facts : fields)
    : res json :=
  let* ' (events, result) :=
    decideWorkOrderV1 (wo_state <$> order) (command_json command) (JObj facts) in
  Ok (decision_json events result).

Definition sample_services : CommandServices := {|
  sv_authenticate _ _ := Ok (JObj [("type", JStr "agent"); ("id", JStr "actor-1")]);
  sv_authorize _ _ _ _ _ _ := Ok sample_authority;
  sv_resolvePlan _ _ _ _ := Ok (plan_json the_plan);
  sv_resolveProject _ ref _ := Ok (JObj [("project_ref", JStr ref)]);
  sv_resolvePlanArtifacts _ plan _ _ _ refs := Ok (sample_artifacts plan refs);
  sv_resolveCommandFacts _ _ _ _ _ _ _ _ _ := Ok sample_command_facts;
  sv_decider _ := work_order_decider;
  sv_clock _ := timestamp_json start_time;
  sv_aborted _ := false;
  sv_interruption _ := None;
  maxGlobalCasRetries := 3;
|}.

Definition sample_input : json := JObj [("command", start_command); ("authentication", JStr "token")].
Definition alone : nat → list json := λ _, [].
Definition fresh_world : World (list json) := MkWorld [] 0 [].

(** Another process starts another Work Order. *)
Definition other_command : json :=
  match start_command with
  | JObj fs => JObj (set_field "command_id" (hexid "CMD-" 7) (set_field "work_order_id" (hexid "WO-" 7) fs))
  | j => j
  end.
Definition other_input : json := JObj [("command", other_command); ("authentication", JStr "token")].
Definition rival : list json := Eval vm_compute in
  w_store (execute (store := log_store alone) (services := sample_services) other_input fresh_world).2.

(** It gets ahead at the ninth call, the first commit of the sample run. *)
Definition rivals (t : nat) : list json := if (t =? 8)%nat then rival else [].

#[local] Existing Instance sample_services.
Definition contended_store : EventStoreApi (list json) := log_store rivals.
#[local] Existing Instance contended_store.
Definition contended_laws : StoreLaws (list json) := log_store_laws rivals.
#[local] Existing Instance contended_laws.

Definition sample_end : res json * World (list json) :=
  Eval vm_compute in execute sample_input fresh_world.

Lemma sample_end_ok : execute sample_input fresh_world = (sample_end.1, sample_end.2).
Proof. vm_compute. reflexivity. Qed.

(** The first commit lost the race, the second appended behind the rival's entry. *)
Example sample_outcome :
  is_ok sample_end.1 = true ∧ map appended (w_commits sample_end.2) = [true; false]
  ∧ length (w_store sample_end.2) = 2.
Proof. vm_compute. repeat split. Qed.

(** ** Witnesses *)

Lemma execute_commits_justified_witness :
  ∃ new, w_commits sample_end.2 = new ++ w_commits fresh_world ∧ ∀ c, c ∈ new →
    ∃ command principal hash, admitted sample_input command principal hash ∧
      justified command principal hash (cm_before c) (cm_request c) ∧
      (appended c = true → ∃ p q result, project_log (cm_before c) = Ok p ∧
        project_log (cm_after c) = Ok q ∧
        pj_command_receipts p !! ce_command_id command = None ∧ receipted command hash q result).
Proof. exact (execute_commits_justified sample_input fresh_world _ _ sample_end_ok). Defined.

(** What the authoriser answered is what both commits of the run rest on. *)
Lemma execute_within_authority_witness :
  ∃ new, w_commits sample_end.2 = new ++ w_commits fresh_world ∧ ∀ c, c ∈ new →
    ∃ command principal hash authority,
      admitted sample_input command principal hash ∧ drawn_from sample_authority authority ∧
      au_permission_mode authority = "workspace-write".
Proof.
  destruct (execute_within_authority sample_input fresh_world _ _ sample_end_ok)
    as (new & Hnew & Hall).
  exists new. split; [exact Hnew|]. intros c Hc.
  destruct (Hall c Hc) as (command & principal & hash & order & plan & project & grant & authority
    & at_ & decision & receipt & revision & Had & _ & _ & [t Hgrant] & Hdrawn & _).
  injection Hgrant as <-. exists command, principal, hash, authority.
  split; [exact Had|]. split; [exact Hdrawn|]. by injection (df_permission _ _ Hdrawn) as <-.
Defined.

Lemma execute_appends_once_witness :
  ∃ new, w_commits sample_end.2 = new ++ w_commits fresh_world ∧ (length new <= 4)%nat ∧
    (length (filter (λ c, appended c = true) new) <= 1)%nat ∧
    ∀ v, sample_end.1 = Ok v → ∃ command principal hash,
      admitted sample_input command principal hash ∧ durable command hash (w_store sample_end.2) v.
Proof. exact (execute_appends_once sample_input fresh_world _ _ sample_end_ok). Defined.

(** The same command again, on the store the first execution left. *)
Definition again_world : World (list json) := MkWorld (w_store sample_end.2) 20 [].
Definition again_end : res json * World (list json) :=
  Eval vm_compute in execute sample_input again_world.
Lemma again_end_ok : execute sample_input again_world = (again_end.1, again_end.2).
Proof. vm_compute. reflexivity. Qed.

Definition sample_result : json :=
  Eval vm_compute in match sample_end.1 with Ok v => v | Err _ => JUndef end.
Lemma sample_result_ok : execute sample_input fresh_world = (Ok sample_result, sample_end.2).
Proof. vm_compute. reflexivity. Qed.
Lemma sample_command_ok : command_of sample_input = Ok start_input.
Proof. vm_compute. reflexivity. Qed.

Lemma execute_exactly_once_witness :
  w_commits again_end.2 = w_commits again_world
  ∧ (∀ v', again_end.1 = Ok v' → canonicalJson v' = canonicalJson sample_result)
  ∧ is_ok again_end.1 = true.
Proof.
  destruct (execute_exactly_once sample_input fresh_world sample_result _ sample_result_ok
    sample_services sample_input start_input start_input again_world _ _
    sample_command_ok sample_command_ok eq_refl (reflexivity _) again_end_ok) as [Hc Hv].
  split; [exact Hc|]. split; [exact Hv|]. vm_compute. reflexivity.
Defined.

Lemma log_never_busy t q s e :
  (es_commit t q s).1 = Err e → has_code "EVENT_LOCK_BUSY" e = false.
Proof.
  simpl. destruct (commit_to_log_cases q s) as [[-> _]|[_ [->|[->|[-> _]]]]]; try done;
    by intros [= <-].
Qed.

Lemma execute_contention_witness :
  ∃ new, w_commits sample_end.2 = new ++ w_commits fresh_world ∧ ∀ c, head new = Some c →
    (length new + length (w_store fresh_world) <= S (length (cm_before c)))%nat.
Proof.
  exact (execute_contention sample_input fresh_world _ _ log_never_busy sample_end_ok).
Defined.

(** ** A retry *)

(** The first effect of the sample run, settled as not sent. *)
Definition unsent (e : Effect) : Effect :=
  set_fx_settlement_policy (Some (policy_of ThreadCreate ProviderDeferredNoMutation))
    (set_fx_delivery (Some {| ed_classification := CNotSent; ed_evidence_refs := [];
        ed_runtime_identity := None; ed_recorded_at := start_time + 2000 |})
      (set_fx_status FsNotSent (start_time + 2000) e)).
Definition unsent_projection : Projection :=
  Eval vm_compute in set_pj_outbox (unsent <$> pj_outbox started) started.
Definition started_state : State :=
  Eval vm_compute in match pj_work_orders started !! the_id with
    | Some w => wo_state w | None => no_state end.

Lemma retry_command_ok : is_ok (normalizeCommandEnvelopeV1 (wo_command "orchestrator" "branch.retry.request" 1
  (JObj [("branch_ref", JStr "a"); ("failed_attempt", JInt 1); ("reason", JStr "again")]))) = true.
Proof. vm_compute. reflexivity. Defined.
Definition retry_command : CommandEnvelope := Eval vm_compute in ok_get _ retry_command_ok.

Definition sample_basis : option RetryBasis :=
  Eval vm_compute in match authoritativeRetryBasis unsent_projection started_state retry_command with
    | Ok b => b | Err _ => None end.
Lemma sample_basis_ok :
  authoritativeRetryBasis unsent_projection started_state retry_command = Ok sample_basis.
Proof. vm_compute. reflexivity. Qed.

Lemma retry_rests_on_evidence_witness :
  match sample_basis with
  | Some (EffectGeneration b) =>
      ∃ ref reason branch,
        ce_payload retry_command = RetryRequestPayload ref (br_attempt branch) reason ∧
        st_branches started_state !! ref = Some branch ∧
        retry_evidence unsent_projection started_state branch (EffectGeneration b)
  | _ => False
  end.
Proof.
  exact (retry_rests_on_evidence unsent_projection started_state retry_command _ sample_basis_ok).
Defined.
