(* ===== verification/Kernel.v ===== *)
(** The execution kernel ([packages/execution-kernel/src/kernel.js] and [scheduler.js]): a
    deterministic scheduler of tasks that depend on each other.

    A kernel state holds the tasks.  Every operation takes a state and gives a new one, or throws:
    definitions are reconciled into it, eligible tasks are selected and claimed within a bound on
    concurrency, and events of the runtime move them on.  A tick of the scheduler reconciles,
    selects, claims and starts. *)

From Stdlib Require Import ZArith Lia Ascii String.
From stdpp Require Import base tactics list gmap strings option pretty.
From S2P Require Import Prelude JsString JsDate Json WorkOrderFacts.

(** ** Dates and names

    [Date.parse] of the format of [toISOString] is computed.  What it makes of other texts is left
    to implementations, as are the coercions of [new Date(value)] for a value that is neither a
    text nor an integral number, and the collation of [localeCompare]. *)
Class Locale := {
  parse_other_date : string → option Z;
  coerce_date : json → option Z;
  localeCompare : string → string → Z;
}.

Section Dates.
Context `{Locale}.

Definition clip (t : Z) : option Z := if time_in_range t then Some t else None.

(** [Date.parse(text)]; [None] is NaN. *)
Definition date_parse (text : string) : option Z :=
  match ms_of_iso text with Some t => Some t | None => parse_other_date text ≫= clip end.

(** [new Date(value).toISOString()], as the time value. *)
Definition new_date (value : json) : res Z :=
  match (match value with
         | JStr s => date_parse s
         | JInt z => clip z
         | _ => coerce_date value ≫= clip
         end) with
  | Some t => Ok t
  | None => Err RangeError
  end.

Definition nonempty (value : json) : res string :=
  match value with
  | JStr s => if String.eqb (trim s) "" then Err TypeError else Ok (trim s)
  | _ => Err TypeError
  end.

Definition positiveInteger (value : json) (fallback : option Z) : res Z :=
  match value, fallback with
  | JUndef, Some z => Ok z
  | JInt z, _ => if (z <? 1)%Z then Err TypeError else Ok z
  | _, _ => Err TypeError
  end.

Definition timestamp (value : json) (fallback : option Z) : res (option Z) :=
  match value with
  | JUndef | JNull | JStr "" => Ok fallback
  | JStr s => match date_parse s with Some t => Ok (Some t) | None => Err TypeError end
  | _ => Err TypeError
  end.

Definition uniqueStrings (value : json) : res (list string) :=
  match value with
  | JUndef | JNull => Ok []
  | JArr items => let* texts := mapR nonempty items in Ok (sort_text (remove_dups texts))
  | _ => Err TypeError
  end.
End Dates.

(** [parts.join("\u0000")] *)
Fixpoint join_nul (parts : list string) : string :=
  match parts with
  | [] => ""
  | [p] => p
  | p :: parts' => p +:+ String "000"%char (join_nul parts')
  end.

Definition stableHash `{Sha256} (prefix : string) (parts : list string) : string :=
  prefix +:+ "-" +:+ slice0 16 (sha256_hex (join_nul parts)).

Definition executionKeyFor `{Sha256} (taskId : string) (executionRevision : Z) (cycleId : string)
    : res string :=
  let* taskId := nonempty (JStr taskId) in
  let* executionRevision := positiveInteger (JInt executionRevision) (Some 1%Z) in
  let* cycleId := nonempty (JStr cycleId) in
  Ok (stableHash "E" [taskId; pretty executionRevision; cycleId]).

Definition dispatchIdFor `{Sha256} (taskId : string) (executionRevision : Z) (cycleId : string)
    (attempt : Z) : res string :=
  let* executionKey := executionKeyFor taskId executionRevision cycleId in
  let* attempt := positiveInteger (JInt attempt) (Some 1%Z) in
  Ok (stableHash "D" [executionKey; pretty attempt]).

(** ** Tasks *)

Inductive TaskState :=
| TkPending | TkEligible | TkClaimed | TkDispatching | TkRunning | TkWaitingForUser
| TkWaitingForDependency | TkRetryQueued | TkVerifying | TkAccepted | TkFailed | TkCancelled.

#[export] Instance TaskState_eq_dec : EqDecision TaskState.
Proof. solve_decision. Defined.

#[export] Instance TaskState_enum : JsEnum TaskState := {
  enum_all := [TkPending; TkEligible; TkClaimed; TkDispatching; TkRunning; TkWaitingForUser;
               TkWaitingForDependency; TkRetryQueued; TkVerifying; TkAccepted; TkFailed;
               TkCancelled];
  enum_str s := match s with
    | TkPending => "pending" | TkEligible => "eligible" | TkClaimed => "claimed"
    | TkDispatching => "dispatching" | TkRunning => "running"
    | TkWaitingForUser => "waiting_for_user" | TkWaitingForDependency => "waiting_for_dependency"
    | TkRetryQueued => "retry_queued" | TkVerifying => "verifying" | TkAccepted => "accepted"
    | TkFailed => "failed" | TkCancelled => "cancelled" end;
}.

Definition ACTIVE_STATES (s : TaskState) : bool :=
  match s with TkClaimed | TkDispatching | TkRunning => true | _ => false end.
Definition TERMINAL_STATES (s : TaskState) : bool :=
  match s with TkAccepted | TkFailed | TkCancelled => true | _ => false end.

Inductive EventType :=
| KDispatchAccepted | KTurnStarted | KProgressObserved | KModelObserved | KRuntimeErrorObserved
| KUserInputRequired | KUserInputResolved | KTurnCompleted | KVerificationAccepted
| KAttemptFailed | KRetryDue | KTaskCancelled | KTaskFailed.

#[export] Instance EventType_eq_dec : EqDecision EventType.
Proof. solve_decision. Defined.

#[export] Instance EventType_enum : JsEnum EventType := {
  enum_all := [KDispatchAccepted; KTurnStarted; KProgressObserved; KModelObserved;
               KRuntimeErrorObserved; KUserInputRequired; KUserInputResolved; KTurnCompleted;
               KVerificationAccepted; KAttemptFailed; KRetryDue; KTaskCancelled; KTaskFailed];
  enum_str t := match t with
    | KDispatchAccepted => "dispatch_accepted" | KTurnStarted => "turn_started"
    | KProgressObserved => "progress_observed" | KModelObserved => "model_observed"
    | KRuntimeErrorObserved => "runtime_error_observed"
    | KUserInputRequired => "user_input_required" | KUserInputResolved => "user_input_resolved"
    | KTurnCompleted => "turn_completed" | KVerificationAccepted => "verification_accepted"
    | KAttemptFailed => "attempt_failed" | KRetryDue => "retry_due"
    | KTaskCancelled => "task_cancelled" | KTaskFailed => "task_failed" end;
}.

#[export] Instance EventType_enum_laws : JsEnumLaws EventType.
Proof. enum_laws. Qed.

Definition TRANSITIONS (t : EventType) (s : TaskState) : bool :=
  match t with
  | KDispatchAccepted => bool_decide (s ∈ [TkClaimed; TkDispatching])
  | KTurnStarted => bool_decide (s ∈ [TkClaimed; TkDispatching; TkRunning])
  | KProgressObserved => bool_decide (s ∈ [TkRunning])
  | KModelObserved => bool_decide (s ∈ [TkDispatching; TkRunning])
  | KRuntimeErrorObserved => bool_decide (s ∈ [TkDispatching; TkRunning])
  | KUserInputRequired => bool_decide (s ∈ [TkDispatching; TkRunning])
  | KUserInputResolved => bool_decide (s ∈ [TkWaitingForUser])
  | KTurnCompleted => bool_decide (s ∈ [TkRunning])
  | KVerificationAccepted => bool_decide (s ∈ [TkVerifying])
  | KAttemptFailed => bool_decide (s ∈ [TkClaimed; TkDispatching; TkRunning; TkVerifying])
  | KRetryDue => bool_decide (s ∈ [TkRetryQueued])
  | KTaskCancelled | KTaskFailed => negb (TERMINAL_STATES s)
  end.

(** What the runtime reported of the current attempt. *)
Record TaskRuntime := {
  rt_correlation_id : option string;
  rt_thread_id : option string;
  rt_turn_id : option string;
  rt_actual_model : option string;
  rt_actual_model_evidence_ref : option string;
  rt_model_evidence : json;
  rt_runtime_profile : json;
  rt_runtime_status : option string;
}.

Record TaskTimes := {
  tm_claimed_at : option Z;
  tm_dispatch_accepted_at : option Z;
  tm_turn_started_at : option Z;
  tm_last_progress_at : option Z;
  tm_finished_at : option Z;
}.

(** What a definition fixes of a task. *)
Record TaskDefinition := {
  td_task_id : string;
  td_dependencies : list string;
  td_priority : option Z;
  td_created_at : option Z;
  td_execution_revision : Z;
  td_cycle_id : string;
  td_execution_key : string;
  td_initial_state : TaskState;
}.

Record Task := {
  tk_task_id : string;
  tk_dependencies : list string;
  tk_priority : option Z;
  tk_created_at : option Z;
  tk_execution_revision : Z;
  tk_cycle_id : string;
  tk_execution_key : string;
  tk_state : TaskState;
  tk_blocker_reason : option string;
  tk_attempt : Z;
  tk_dispatch_id : option string;
  tk_retry_at : option Z;
  tk_last_error : option string;
  tk_runtime : TaskRuntime;
  tk_times : TaskTimes;
}.

Record KernelState := {
  ks_revision : Z;
  ks_max_concurrent : Z;
  ks_tasks : gmap string Task;
  ks_applied_event_ids : list string;
  ks_recent_events : list json;
  ks_updated_at : option Z;
}.

(** *** Assignments to fields *)

Definition task_is (s : TaskState) (blocker : option string) (retry : option Z) (t : Task) : Task :=
  {| tk_task_id := tk_task_id t; tk_dependencies := tk_dependencies t; tk_priority := tk_priority t;
     tk_created_at := tk_created_at t; tk_execution_revision := tk_execution_revision t;
     tk_cycle_id := tk_cycle_id t; tk_execution_key := tk_execution_key t; tk_state := s;
     tk_blocker_reason := blocker; tk_attempt := tk_attempt t; tk_dispatch_id := tk_dispatch_id t;
     tk_retry_at := retry; tk_last_error := tk_last_error t; tk_runtime := tk_runtime t;
     tk_times := tk_times t |}.

(** [task.state = s] *)
Definition set_state (s : TaskState) (t : Task) : Task :=
  task_is s (tk_blocker_reason t) (tk_retry_at t) t.

Definition set_error (e : option string) (t : Task) : Task :=
  {| tk_task_id := tk_task_id t; tk_dependencies := tk_dependencies t; tk_priority := tk_priority t;
     tk_created_at := tk_created_at t; tk_execution_revision := tk_execution_revision t;
     tk_cycle_id := tk_cycle_id t; tk_execution_key := tk_execution_key t; tk_state := tk_state t;
     tk_blocker_reason := tk_blocker_reason t; tk_attempt := tk_attempt t;
     tk_dispatch_id := tk_dispatch_id t; tk_retry_at := tk_retry_at t; tk_last_error := e;
     tk_runtime := tk_runtime t; tk_times := tk_times t |}.

Definition set_observed (r : TaskRuntime) (m : TaskTimes) (t : Task) : Task :=
  {| tk_task_id := tk_task_id t; tk_dependencies := tk_dependencies t; tk_priority := tk_priority t;
     tk_created_at := tk_created_at t; tk_execution_revision := tk_execution_revision t;
     tk_cycle_id := tk_cycle_id t; tk_execution_key := tk_execution_key t; tk_state := tk_state t;
     tk_blocker_reason := tk_blocker_reason t; tk_attempt := tk_attempt t;
     tk_dispatch_id := tk_dispatch_id t; tk_retry_at := tk_retry_at t;
     tk_last_error := tk_last_error t; tk_runtime := r; tk_times := m |}.

(** [state.tasks = tasks] and the like. *)
Definition set_tasks (tasks : gmap string Task) (s : KernelState) : KernelState :=
  {| ks_revision := ks_revision s; ks_max_concurrent := ks_max_concurrent s; ks_tasks := tasks;
     ks_applied_event_ids := ks_applied_event_ids s; ks_recent_events := ks_recent_events s;
     ks_updated_at := ks_updated_at s |}.

(** [state.revision += 1; state.updated_at = at] *)
Definition revise (updated_at : option Z) (s : KernelState) : KernelState :=
  {| ks_revision := ks_revision s + 1; ks_max_concurrent := ks_max_concurrent s;
     ks_tasks := ks_tasks s; ks_applied_event_ids := ks_applied_event_ids s;
     ks_recent_events := ks_recent_events s; ks_updated_at := updated_at |}.

(** ** Definitions *)

Section Definitions.
Context `{Sha256, Locale}.

Definition normalizeTaskDefinition (value : json) : res TaskDefinition :=
  match value with
  | JObj _ =>
      let* taskId := nonempty (nullish (prop "task_id" value) (prop "taskId" value)) in
      let* executionRevision := positiveInteger
        (nullish (prop "execution_revision" value) (prop "executionRevision" value)) (Some 1%Z) in
      let* cycleId := nonempty (nullish (nullish (prop "cycle_id" value) (prop "cycleId" value))
                                  (JStr "implementation-1")) in
      match (match nullish (prop "state" value) (JStr "pending") with
             | JStr s => enum_find enum_all s
             | _ => None
             end) with
      | None => Err TypeError
      | Some initialState =>
          let* priority := match prop "priority" value with
            | JUndef | JNull => Ok None
            | v => let* p := positiveInteger v None in Ok (Some p)
            end in
          let* dependencies := uniqueStrings
            (nullish (nullish (prop "dependencies" value) (prop "depends_on" value))
               (prop "blocked_by_task_ids" value)) in
          let* created_at := timestamp (prop "created_at" value) None in
          let* execution_key := executionKeyFor taskId executionRevision cycleId in
          Ok {| td_task_id := taskId; td_dependencies := dependencies; td_priority := priority;
                td_created_at := created_at; td_execution_revision := executionRevision;
                td_cycle_id := cycleId; td_execution_key := execution_key;
                td_initial_state := initialState |}
      end
  | _ => Err TypeError
  end.

(** [byId.get(taskId)]: of several definitions the last. *)
Fixpoint definition_of (definitions : list TaskDefinition) (taskId : string)
    : option TaskDefinition :=
  match definitions with
  | [] => None
  | d :: ds =>
      match definition_of ds taskId with
      | Some d' => Some d'
      | None => if String.eqb (td_task_id d) taskId then Some d else None
      end
  end.

Fixpoint visit_task (fuel : nat) (definitions : list TaskDefinition) (visiting visited : list string)
    (taskId : string) : res (list string) :=
  match fuel with
  | O => Err OutOfFuel
  | S fuel' =>
      if includes visiting taskId then Err (PlainError "dependency_cycle")
      else if includes visited taskId then Ok visited
      else match definition_of definitions taskId with
      | None => Ok visited
      | Some definition =>
          let* visited' := (fix visit_all (ds : list string) (visited : list string) :=
            match ds with
            | [] => Ok visited
            | d :: ds' =>
                let* visited' := visit_task fuel' definitions (taskId :: visiting) visited d in
                visit_all ds' visited'
            end) (td_dependencies definition) visited in
          Ok (taskId :: visited')
      end
  end.

Fixpoint visit_definitions (fuel : nat) (definitions todo : list TaskDefinition)
    (visited : list string) : res (list string) :=
  match todo with
  | [] => Ok visited
  | d :: todo' =>
      let* visited' := visit_task fuel definitions [] visited (td_task_id d) in
      visit_definitions fuel definitions todo' visited'
  end.

(** One level of recursion for each definition, and one for the call that ends the trail; the answer
    is the order in which the tasks were left. *)
Definition assertAcyclic (definitions : list TaskDefinition) : res (list string) :=
  visit_definitions (S (S (length definitions))) definitions definitions [].

(** ** States *)

Definition createKernelState (maxConcurrent : json) (updatedAt : json) : res KernelState :=
  let* max_concurrent := positiveInteger maxConcurrent (Some 1%Z) in
  let* updated_at := timestamp updatedAt None in
  Ok {| ks_revision := 0; ks_max_concurrent := max_concurrent; ks_tasks := ∅;
        ks_applied_event_ids := []; ks_recent_events := []; ks_updated_at := updated_at |}.

Definition normalizeState (s : KernelState) : res KernelState :=
  let* max_concurrent := positiveInteger (JInt (ks_max_concurrent s)) (Some 1%Z) in
  let* applied := uniqueStrings (JArr (map JStr (ks_applied_event_ids s))) in
  Ok {| ks_revision := if (0 <=? ks_revision s)%Z then ks_revision s else 0;
        ks_max_concurrent := max_concurrent; ks_tasks := ks_tasks s;
        ks_applied_event_ids := applied; ks_recent_events := ks_recent_events s;
        ks_updated_at := ks_updated_at s |}.

Record DependencyStatus := {
  ds_missing : list string;
  ds_unresolved : list string;
  ds_terminalBlockers : list string;
}.

Definition dependencyStatus (tasks : gmap string Task) (record : Task) : DependencyStatus :=
  let among (p : option TaskState → bool) :=
    filter (λ id, p (tk_state <$> tasks !! id) = true) (tk_dependencies record) in
  {| ds_missing := among (λ s, match s with None => true | _ => false end);
     ds_unresolved := among (λ s,
       match s with Some s => negb (TERMINAL_STATES s) | None => false end);
     ds_terminalBlockers := among (λ s,
       match s with Some TkFailed | Some TkCancelled => true | _ => false end) |}.

Definition nonempty_list {A} (l : list A) : bool := match l with [] => false | _ => true end.

(** The state a waiting record should be in, and why. *)
Definition desired (d : DependencyStatus) : TaskState * option string :=
  (if nonempty_list (ds_missing d) || nonempty_list (ds_unresolved d)
      || nonempty_list (ds_terminalBlockers d) then TkWaitingForDependency else TkEligible,
   if nonempty_list (ds_terminalBlockers d) then Some "dependency_terminal_without_acceptance"
   else if nonempty_list (ds_missing d) then Some "dependency_missing"
   else if nonempty_list (ds_unresolved d) then Some "dependency_incomplete" else None).

(** Does the refresh leave the record alone? *)
Definition refresh_skips (observedAt : option Z) (record : Task) : bool :=
  TERMINAL_STATES (tk_state record) || ACTIVE_STATES (tk_state record)
  || bool_decide (tk_state record = TkVerifying) || bool_decide (tk_state record = TkWaitingForUser)
  || bool_decide (tk_state record = TkRetryQueued)
     && match tk_retry_at record, observedAt with
        | Some retry_at, Some now => (now <? retry_at)%Z
        | _, _ => true
        end.

(** One turn of the loop of [refreshEligibility]; [None]: the record is as it was. *)
Definition refresh_record (tasks : gmap string Task) (observedAt : option Z) (record : Task)
    : option Task :=
  if refresh_skips observedAt record then None
  else
    let retry_at := if bool_decide (tk_state record = TkRetryQueued) then None
                    else tk_retry_at record in
    let '(state, blockerReason) := desired (dependencyStatus tasks record) in
    if bool_decide (tk_state record = state) && bool_decide (tk_blocker_reason record = blockerReason)
    then None
    else Some (task_is state blockerReason retry_at record).

(** The loop changes the tasks while it reads them. *)
Definition refresh_turn (observedAt : option Z) (acc : gmap string Task * bool) (id : string)
    : gmap string Task * bool :=
  match acc.1 !! id ≫= refresh_record acc.1 observedAt with
  | Some record => (<[id := record]> acc.1, true)
  | None => acc
  end.

Definition refreshEligibility (s : KernelState) (now : json) : res KernelState :=
  let* observedAt := timestamp now None in
  let '(tasks, changed) :=
    foldl (refresh_turn observedAt) (ks_tasks s, false) (map fst (map_to_list (ks_tasks s))) in
  let next := set_tasks tasks s in
  Ok (if changed : bool
      then revise (match observedAt with Some t => Some t | None => ks_updated_at s end) next
      else next).

Definition no_runtime : TaskRuntime :=
  {| rt_correlation_id := None; rt_thread_id := None; rt_turn_id := None; rt_actual_model := None;
     rt_actual_model_evidence_ref := None; rt_model_evidence := JNull;
     rt_runtime_profile := JNull; rt_runtime_status := None |}.

(** A task as its definition is reconciled for the first time. *)
Definition new_task (d : TaskDefinition) (finished_at : option Z) : Task :=
  {| tk_task_id := td_task_id d; tk_dependencies := td_dependencies d;
     tk_priority := td_priority d; tk_created_at := td_created_at d;
     tk_execution_revision := td_execution_revision d; tk_cycle_id := td_cycle_id d;
     tk_execution_key := td_execution_key d; tk_state := td_initial_state d;
     tk_blocker_reason := None; tk_attempt := 0; tk_dispatch_id := None; tk_retry_at := None;
     tk_last_error := None; tk_runtime := no_runtime;
     tk_times := {| tm_claimed_at := None; tm_dispatch_accepted_at := None;
                    tm_turn_started_at := None; tm_last_progress_at := None;
                    tm_finished_at := finished_at |} |}.

(** [Object.assign(current, nextMetadata)] *)
Definition assign_metadata (d : TaskDefinition) (t : Task) : Task :=
  {| tk_task_id := tk_task_id t; tk_dependencies := td_dependencies d;
     tk_priority := td_priority d; tk_created_at := td_created_at d;
     tk_execution_revision := tk_execution_revision t; tk_cycle_id := tk_cycle_id t;
     tk_execution_key := tk_execution_key t; tk_state := tk_state t;
     tk_blocker_reason := tk_blocker_reason t; tk_attempt := tk_attempt t;
     tk_dispatch_id := tk_dispatch_id t; tk_retry_at := tk_retry_at t;
     tk_last_error := tk_last_error t; tk_runtime := tk_runtime t; tk_times := tk_times t |}.

Definition same_metadata (d : TaskDefinition) (t : Task) : bool :=
  bool_decide (tk_dependencies t = td_dependencies d)
  && bool_decide (tk_priority t = td_priority d)
  && bool_decide (tk_created_at t = td_created_at d).

(** One definition: the tasks it leaves, and whether it changed any. *)
Definition reconcile_definition (now : json) (tasks : gmap string Task) (d : TaskDefinition)
    : res (gmap string Task * bool) :=
  match tasks !! td_task_id d with
  | None =>
      let* finished_at :=
        if TERMINAL_STATES (td_initial_state d) then timestamp now None else Ok None in
      Ok (<[td_task_id d := new_task d finished_at]> tasks, true)
  | Some current =>
      reject negb (String.eqb (tk_execution_key current) (td_execution_key d))
          && negb (TERMINAL_STATES (tk_state current))
        with PlainError "active_execution_identity_changed" in
      if same_metadata d current then Ok (tasks, false)
      else Ok (<[td_task_id d := assign_metadata d current]> tasks, true)
  end.

Fixpoint reconcile_definitions (now : json) (seen : list string) (tasks : gmap string Task)
    (changed : bool) (ds : list TaskDefinition) : res (gmap string Task * bool) :=
  match ds with
  | [] => Ok (tasks, changed)
  | d :: ds' =>
      reject includes seen (td_task_id d) with PlainError "duplicate_task" in
      let* '(tasks', changed') := reconcile_definition now tasks d in
      reconcile_definitions now (td_task_id d :: seen) tasks' (changed || changed') ds'
  end.

Definition reconcileTasks (value : KernelState) (taskDefinitions now : json) : res KernelState :=
  let* state := normalizeState value in
  match taskDefinitions with
  | JArr items =>
      let* definitions := mapR normalizeTaskDefinition items in
      let* _ := assertAcyclic definitions in
      let* '(tasks, changed) := reconcile_definitions now [] (ks_tasks state) false definitions in
      let* state :=
        if changed : bool then
          let* updated_at := timestamp now (ks_updated_at state) in
          Ok (revise updated_at (set_tasks tasks state))
        else Ok (set_tasks tasks state) in
      refreshEligibility state now
  | _ => Err TypeError
  end.

(** ** Selection and claims *)

Definition activeCount (s : KernelState) : Z :=
  Z.of_nat (length (filter (λ t, ACTIVE_STATES (tk_state t) = true) (map snd (map_to_list (ks_tasks s))))).

Definition candidateCompare (left right : Task) : Z :=
  let leftPriority := default max_safe_integer (tk_priority left) in
  let rightPriority := default max_safe_integer (tk_priority right) in
  if negb (leftPriority =? rightPriority)%Z then leftPriority - rightPriority else
  let leftCreated := default max_safe_integer (tk_created_at left) in
  let rightCreated := default max_safe_integer (tk_created_at right) in
  if negb (leftCreated =? rightCreated)%Z then leftCreated - rightCreated else
  localeCompare (tk_task_id left) (tk_task_id right).

Record Candidate := {
  cd_task_id : string;
  cd_execution_key : string;
  cd_next_attempt : Z;
}.

Definition candidate_of (t : Task) : Candidate :=
  {| cd_task_id := tk_task_id t; cd_execution_key := tk_execution_key t;
     cd_next_attempt := tk_attempt t + 1 |}.

Definition eligible_tasks (s : KernelState) : list Task :=
  filter (λ t, tk_state t = TkEligible) (map snd (map_to_list (ks_tasks s))).

Record Selection := {
  sl_state : KernelState;
  sl_dispatches : list Candidate;
  sl_available_slots : Z;
}.

Definition selectDispatches (value : KernelState) (now : json) (limit : Z) : res Selection :=
  reject (limit <? 0)%Z with TypeError in
  let* normalized := normalizeState value in
  let* state := refreshEligibility normalized now in
  let slots := Z.max (Z.min (ks_max_concurrent state - activeCount state) limit) 0 in
  let candidates := isort (λ l r, (candidateCompare l r <=? 0)%Z) (eligible_tasks state) in
  Ok {| sl_state := state;
        sl_dispatches := map candidate_of (take (Z.to_nat slots) candidates);
        sl_available_slots := slots |}.

Record Dispatch := {
  dp_task_id : string;
  dp_execution_key : string;
  dp_dispatch_id : option string;
  dp_attempt : Z;
}.

Definition dispatch_of (t : Task) : Dispatch :=
  {| dp_task_id := tk_task_id t; dp_execution_key := tk_execution_key t;
     dp_dispatch_id := tk_dispatch_id t; dp_attempt := tk_attempt t |}.

Record Claim := {
  cl_state : KernelState;
  cl_dispatch : Dispatch;
  cl_claimed : bool;
}.

(** The task of a new attempt. *)
Definition claimed_task (t : Task) (dispatchId : string) (claimed_at : option Z) : Task :=
  {| tk_task_id := tk_task_id t; tk_dependencies := tk_dependencies t; tk_priority := tk_priority t;
     tk_created_at := tk_created_at t; tk_execution_revision := tk_execution_revision t;
     tk_cycle_id := tk_cycle_id t; tk_execution_key := tk_execution_key t;
     tk_state := TkClaimed; tk_blocker_reason := None; tk_attempt := tk_attempt t + 1;
     tk_dispatch_id := Some dispatchId; tk_retry_at := tk_retry_at t; tk_last_error := None;
     tk_runtime := no_runtime;
     tk_times := {| tm_claimed_at := claimed_at; tm_dispatch_accepted_at := None;
                    tm_turn_started_at := None; tm_last_progress_at := None;
                    tm_finished_at := tm_finished_at (tk_times t) |} |}.

Definition claimDispatch (value : KernelState) (taskId now : json) : res Claim :=
  let* normalized := normalizeState value in
  let* state := refreshEligibility normalized now in
  let* normalizedTaskId := nonempty taskId in
  match ks_tasks state !! normalizedTaskId with
  | None => Err (PlainError "task_not_found")
  | Some task =>
      if ACTIVE_STATES (tk_state task)
      then Ok {| cl_state := state; cl_dispatch := dispatch_of task; cl_claimed := false |}
      else
        check bool_decide (tk_state task = TkEligible) else PlainError "task_not_eligible" in
        reject (ks_max_concurrent state <=? activeCount state)%Z
          with PlainError "no_available_slots" in
        let* dispatchId := dispatchIdFor (tk_task_id task) (tk_execution_revision task)
          (tk_cycle_id task) (tk_attempt task + 1) in
        let* claimed_at := timestamp now None in
        let* updated_at := timestamp now (ks_updated_at state) in
        let claimed := claimed_task task dispatchId claimed_at in
        Ok {| cl_state := revise updated_at
                (set_tasks (<[normalizedTaskId := claimed]> (ks_tasks state)) state);
              cl_dispatch := dispatch_of claimed; cl_claimed := true |}
  end.

(** ** Events *)

Record KernelEvent := {
  ke_event_id : string;
  ke_type : string;
  ke_task_id : string;
  ke_observed_at : option Z;
  ke_input : json;                 (* the other fields *)
}.

Definition ke_field (e : KernelEvent) (k : string) : json := prop k (ke_input e).

Definition normalizeEvent (input : json) : res KernelEvent :=
  match input with
  | JObj _ =>
      let* event_id := nonempty (prop "event_id" input) in
      let* type := nonempty (prop "type" input) in
      let* task_id := nonempty (prop "task_id" input) in
      let* observed_at := timestamp (prop "observed_at" input) None in
      Ok {| ke_event_id := event_id; ke_type := type; ke_task_id := task_id;
            ke_observed_at := observed_at; ke_input := input |}
  | _ => Err TypeError
  end.

Definition opt_str (o : option string) : json := match o with Some s => JStr s | None => JNull end.
Definition opt_time (o : option Z) : json :=
  match o with Some t => JStr (iso_of_ms t) | None => JNull end.

Definition eventForLog (e : KernelEvent) : json :=
  let field k := (k, nullish (ke_field e k) JNull) in
  JObj [("event_id", JStr (ke_event_id e)); ("type", JStr (ke_type e));
        ("task_id", JStr (ke_task_id e)); field "dispatch_id"; field "correlation_id";
        field "thread_id"; field "turn_id"; ("observed_at", opt_time (ke_observed_at e))].

(** [event.field && task.field && event.field !== task.field] *)
Definition contradicts (v : json) (known : option string) : bool :=
  truthy v && truthy (opt_str known) && negb (strict_eq v (opt_str known)).

(** [event.field ? nonempty(event.field) : otherwise] *)
Definition nonempty_or (v : json) (otherwise : option string) : res (option string) :=
  if truthy v then let* s := nonempty v in Ok (Some s) else Ok otherwise.

(** [task.finished_at = at] *)
Definition finish (m : TaskTimes) (at_ : option Z) : TaskTimes :=
  {| tm_claimed_at := tm_claimed_at m; tm_dispatch_accepted_at := tm_dispatch_accepted_at m;
     tm_turn_started_at := tm_turn_started_at m; tm_last_progress_at := tm_last_progress_at m;
     tm_finished_at := at_ |}.

(** The branches of [applyKernelEvent]. *)
Definition apply_event (e : KernelEvent) (type : EventType) (t : Task) : res Task :=
  let r := tk_runtime t in
  let m := tk_times t in
  let at_ := ke_observed_at e in
  match type with
  | KDispatchAccepted =>
      let* correlation_id := nonempty_or (ke_field e "correlation_id") (rt_correlation_id r) in
      let* thread_id := nonempty_or (ke_field e "thread_id") (rt_thread_id r) in
      let* turn_id := nonempty_or (ke_field e "turn_id") (rt_turn_id r) in
      Ok (set_observed
        {| rt_correlation_id := correlation_id; rt_thread_id := thread_id; rt_turn_id := turn_id;
           rt_actual_model := rt_actual_model r;
           rt_actual_model_evidence_ref := rt_actual_model_evidence_ref r;
           rt_model_evidence := or_json (ke_field e "model_evidence") (rt_model_evidence r);
           rt_runtime_profile := or_json (ke_field e "runtime_profile") (rt_runtime_profile r);
           rt_runtime_status := rt_runtime_status r |}
        {| tm_claimed_at := tm_claimed_at m; tm_dispatch_accepted_at := at_;
           tm_turn_started_at := tm_turn_started_at m;
           tm_last_progress_at := tm_last_progress_at m; tm_finished_at := tm_finished_at m |}
        (set_state TkDispatching t))
  | KTurnStarted =>
      Ok (set_observed r
        {| tm_claimed_at := tm_claimed_at m; tm_dispatch_accepted_at := tm_dispatch_accepted_at m;
           tm_turn_started_at := at_; tm_last_progress_at := tm_last_progress_at m;
           tm_finished_at := tm_finished_at m |} (set_state TkRunning t))
  | KProgressObserved =>
      Ok (set_observed r
        {| tm_claimed_at := tm_claimed_at m; tm_dispatch_accepted_at := tm_dispatch_accepted_at m;
           tm_turn_started_at := tm_turn_started_at m; tm_last_progress_at := at_;
           tm_finished_at := tm_finished_at m |} t)
  | KModelObserved =>
      let* model := nonempty (ke_field e "model") in
      Ok (set_observed
        {| rt_correlation_id := rt_correlation_id r; rt_thread_id := rt_thread_id r;
           rt_turn_id := rt_turn_id r; rt_actual_model := Some model;
           rt_actual_model_evidence_ref := Some (ke_event_id e);
           rt_model_evidence := rt_model_evidence r; rt_runtime_profile := rt_runtime_profile r;
           rt_runtime_status := rt_runtime_status r |} m t)
  | KRuntimeErrorObserved =>
      let* error := nonempty (nullish (ke_field e "error") (JStr "runtime_error")) in
      Ok (set_error (Some error) t)
  | KUserInputRequired =>
      let* reason := nonempty (nullish (ke_field e "reason") (JStr "user_input_required")) in
      Ok (task_is TkWaitingForUser (Some reason) (tk_retry_at t) t)
  | KUserInputResolved => Ok (task_is TkPending None (tk_retry_at t) t)
  | KTurnCompleted =>
      let* status := nonempty_or (ke_field e "status") (Some "completed") in
      Ok (set_observed
        {| rt_correlation_id := rt_correlation_id r; rt_thread_id := rt_thread_id r;
           rt_turn_id := rt_turn_id r; rt_actual_model := rt_actual_model r;
           rt_actual_model_evidence_ref := rt_actual_model_evidence_ref r;
           rt_model_evidence := rt_model_evidence r; rt_runtime_profile := rt_runtime_profile r;
           rt_runtime_status := status |}
        {| tm_claimed_at := tm_claimed_at m; tm_dispatch_accepted_at := tm_dispatch_accepted_at m;
           tm_turn_started_at := tm_turn_started_at m; tm_last_progress_at := at_;
           tm_finished_at := tm_finished_at m |} (set_state TkVerifying t))
  | KVerificationAccepted => Ok (set_observed r (finish m at_) (set_state TkAccepted t))
  | KAttemptFailed =>
      let* retry_at := timestamp (ke_field e "retry_at") None in
      let* error := nonempty (nullish (ke_field e "error") (JStr "attempt_failed")) in
      Ok (set_error (Some error) (task_is TkRetryQueued (tk_blocker_reason t) retry_at t))
  | KRetryDue =>
      reject match tk_retry_at t, at_ with
             | Some retry_at, Some now => (now <? retry_at)%Z
             | _, _ => false
             end with PlainError "retry_not_due" in
      Ok (task_is TkPending (tk_blocker_reason t) None t)
  | KTaskCancelled => Ok (set_observed r (finish m at_) (set_state TkCancelled t))
  | KTaskFailed =>
      let* error := nonempty (nullish (ke_field e "error") (JStr "task_failed")) in
      Ok (set_error (Some error) (set_observed r (finish m at_) (set_state TkFailed t)))
  end.

(** [list.slice(-256)] *)
Definition last_256 {A} (l : list A) : list A := drop (length l - 256) l.

Definition applyKernelEvent (value : KernelState) (input : json) : res KernelState :=
  let* state := normalizeState value in
  let* event := normalizeEvent input in
  if includes (ks_applied_event_ids state) (ke_event_id event) then Ok state else
  match ks_tasks state !! ke_task_id event with
  | None => Err (PlainError "task_not_found")
  | Some task =>
      match enum_find enum_all (ke_type event) with
      | None => Err (PlainError "unsupported_event")
      | Some type =>
          check TRANSITIONS type (tk_state task) else PlainError "invalid_transition" in
          reject contradicts (ke_field event "dispatch_id") (tk_dispatch_id task)
            with PlainError "stale_dispatch" in
          reject contradicts (ke_field event "thread_id") (rt_thread_id (tk_runtime task))
            with PlainError "runtime_thread_mismatch" in
          reject contradicts (ke_field event "turn_id") (rt_turn_id (tk_runtime task))
            with PlainError "runtime_turn_mismatch" in
          let* task' := apply_event event type task in
          refreshEligibility
            {| ks_revision := ks_revision state + 1;
               ks_max_concurrent := ks_max_concurrent state;
               ks_tasks := <[ke_task_id event := task']> (ks_tasks state);
               ks_applied_event_ids := ks_applied_event_ids state ++ [ke_event_id event];
               ks_recent_events := last_256 (ks_recent_events state ++ [eventForLog event]);
               ks_updated_at := ke_observed_at event |}
            (opt_time (ke_observed_at event))
      end
  end.

Record RetryOptions := { ro_baseMs : Z; ro_maxMs : Z }.

Definition default_retry : RetryOptions := {| ro_baseMs := 10000; ro_maxMs := 300000 |}.

Definition retryDelayMs (attempt : Z) (options : RetryOptions) : res Z :=
  let* normalizedAttempt := positiveInteger (JInt attempt) None in
  reject (ro_baseMs options <? 1)%Z with TypeError in
  reject (ro_maxMs options <? 1)%Z with TypeError in
  Ok (Z.min (ro_baseMs options * 2 ^ Z.min (normalizedAttempt - 1) 30) (ro_maxMs options)).

(** ** The scheduler *)

(** [new Date(now ?? Date.now()).toISOString()] *)
Definition observed_now (now : json) (clock : Z) : res Z := new_date (nullish now (JInt clock)).

Record TickPlan := {
  tp_state : KernelState;
  tp_dispatches : list Dispatch;
  tp_considered : nat;
  tp_available_slots : Z;
  tp_observed_at : Z;
}.

Definition planned_dispatch (state : KernelState) (c : Candidate) : res Dispatch :=
  match ks_tasks state !! cd_task_id c with
  | None => Err TypeError
  | Some task =>
      let* dispatchId := dispatchIdFor (tk_task_id task) (tk_execution_revision task)
        (tk_cycle_id task) (cd_next_attempt c) in
      Ok {| dp_task_id := cd_task_id c; dp_execution_key := cd_execution_key c;
            dp_dispatch_id := Some dispatchId; dp_attempt := cd_next_attempt c |}
  end.

Definition planDispatchTick (state : KernelState) (tasks now : json) (clock limit : Z)
    : res TickPlan :=
  let* observedAt := observed_now now clock in
  let at_ := JStr (iso_of_ms observedAt) in
  let* reconciled := reconcileTasks state tasks at_ in
  let* selection := selectDispatches reconciled at_ limit in
  let* dispatches := mapR (planned_dispatch (sl_state selection)) (sl_dispatches selection) in
  Ok {| tp_state := sl_state selection; tp_dispatches := dispatches;
        tp_considered := length (sl_dispatches selection);
        tp_available_slots := sl_available_slots selection; tp_observed_at := observedAt |}.

(** How the promise of [adapter.start] settles; a rejection by its message. *)
Inductive Outcome :=
| Fulfilled (value : json)
| Rejected (reason : string).

Inductive DispatchResult :=
| Started (dispatch : Dispatch) (accepted_at : Z)
    (correlation_id thread_id turn_id model_evidence runtime_profile : json)
| Requeued (dispatch : Dispatch) (retry_at : Z).

Fixpoint claim_all (state : KernelState) (candidates : list Candidate) (now : json)
    : res (KernelState * list Dispatch) :=
  match candidates with
  | [] => Ok (state, [])
  | candidate :: candidates' =>
      let* result := claimDispatch state (JStr (cd_task_id candidate)) now in
      let* '(state', claims) := claim_all (cl_state result) candidates' now in
      Ok (state', if cl_claimed result then cl_dispatch result :: claims else claims)
  end.

Definition eventId (type : EventType) (d : Dispatch) : string :=
  default "null" (dp_dispatch_id d) +:+ ":" +:+ enum_str type.

Definition tick_event (type : EventType) (d : Dispatch) (observedAt : Z) (more : fields) : json :=
  JObj ([("event_id", JStr (eventId type d)); ("type", JStr (enum_str type));
         ("task_id", JStr (dp_task_id d)); ("dispatch_id", opt_str (dp_dispatch_id d));
         ("observed_at", JStr (iso_of_ms observedAt))] ++ more).

(** One outcome applied to the state. *)
Definition settle_outcome (state : KernelState) (d : Dispatch) (outcome : Outcome) (observedAt : Z)
    (retry : RetryOptions) : res (KernelState * DispatchResult) :=
  match outcome with
  | Fulfilled value =>
      let* acceptedAt :=
        if truthy (prop "accepted_at" value) then new_date (prop "accepted_at" value)
        else Ok observedAt in
      let field k := nullish (prop k value) JNull in
      let* state' := applyKernelEvent state
        (tick_event KDispatchAccepted d acceptedAt
          [("correlation_id", field "correlation_id"); ("thread_id", field "thread_id");
           ("turn_id", field "turn_id"); ("model_evidence", field "model_evidence");
           ("runtime_profile", field "runtime_profile")]) in
      Ok (state', Started d acceptedAt (field "correlation_id") (field "thread_id")
                    (field "turn_id") (field "model_evidence") (field "runtime_profile"))
  | Rejected reason =>
      let* delay := retryDelayMs (dp_attempt d) retry in
      let* retryAt := to_time (observedAt + delay) in
      let* state' := applyKernelEvent state
        (tick_event KAttemptFailed d observedAt
          [("retry_at", JStr (iso_of_ms retryAt)); ("error", JStr reason)]) in
      Ok (state', Requeued d retryAt)
  end.

Fixpoint settle_all (state : KernelState) (settled : list (Dispatch * Outcome)) (observedAt : Z)
    (retry : RetryOptions) : res (KernelState * list DispatchResult) :=
  match settled with
  | [] => Ok (state, [])
  | (d, outcome) :: settled' =>
      let* '(state', result) := settle_outcome state d outcome observedAt retry in
      let* '(state'', results) := settle_all state' settled' observedAt retry in
      Ok (state'', result :: results)
  end.

Record TickResult := {
  tr_state : KernelState;
  tr_results : list DispatchResult;
  tr_considered : nat;
  tr_available_slots_before_claim : Z;
}.

(** The tick up to the calls of the adapter: the state, the claims and the selection. *)
Definition claim_tick (state : KernelState) (tasks : json) (observedAt limit : Z)
    : res (KernelState * list Dispatch * Selection) :=
  let at_ := JStr (iso_of_ms observedAt) in
  let* next := reconcileTasks state tasks at_ in
  let* selection := selectDispatches next at_ limit in
  let* '(claimed, claims) := claim_all (sl_state selection) (sl_dispatches selection) at_ in
  Ok (claimed, claims, selection).

(** An adapter that throws instead of returning a promise answers [Err]. *)
Definition runDispatchTick (adapter : Dispatch → res Outcome) (state : KernelState)
    (tasks now : json) (clock limit : Z) (retry : RetryOptions) : res TickResult :=
  let* observedAt := observed_now now clock in
  let* '(claimed, claims, selection) := claim_tick state tasks observedAt limit in
  let* outcomes := mapR adapter claims in
  let* '(next, results) := settle_all claimed (zip claims outcomes) observedAt retry in
  Ok {| tr_state := next; tr_results := results;
        tr_considered := length (sl_dispatches selection);
        tr_available_slots_before_claim := sl_available_slots selection |}.
End Definitions.
