(* ===== verification/KernelTheorems.v ===== *)
(** What the execution kernel promises: concurrency stays within its bound in every run whose
    definitions bring no task in flight, a tick starts exactly the dispatches that planning
    announces, finished tasks stay as they are, an event is applied once, and a tick that starts
    nothing, over definitions that are closed under dependencies, has a reason. *)

From Stdlib Require Import ZArith Lia Ascii String.
From stdpp Require Import base tactics list gmap strings option pretty relations.
From S2P Require Import Prelude JsString JsDate Json WorkOrderFacts Kernel.

(** ** Names *)

Section Names.
Context `{Locale}.

Lemma nonempty_Ok v s : nonempty v = Ok s → trim s = s ∧ s ≠ "".
Proof.
  destruct v; try done. simpl. destruct (String.eqb _ _) eqn:E; [done|]. intros [= <-].
  apply String.eqb_neq in E. by rewrite trim_idem.
Qed.

Lemma nonempty_trimmed s : trim s = s → s ≠ "" → nonempty (JStr s) = Ok s.
Proof. intros Ht Hs. simpl. rewrite Ht. by apply String.eqb_neq in Hs as ->. Qed.

Lemma remove_dups_id (l : list string) : NoDup l → remove_dups l = l.
Proof. induction 1; simpl; [done|]. destruct (decide_rel _ _ _); [done|]. by f_equal. Qed.

Lemma date_parse_range s t : date_parse s = Some t → time_in_range t = true.
Proof.
  unfold date_parse. destruct (ms_of_iso s) eqn:E.
  - intros [= <-]. by eapply ms_of_iso_sound.
  - intros (u & _ & Hu)%bind_Some. unfold clip in Hu. by destruct (time_in_range u) eqn:?; simplify_eq.
Qed.

Lemma new_date_range v t : new_date v = Ok t → time_in_range t = true.
Proof.
  assert (∀ u, clip u = Some t → time_in_range t = true) as Hclip.
  { unfold clip. intros u. by destruct (time_in_range u) eqn:?; intros; simplify_eq. }
  unfold new_date. destruct (match v with JStr _ => _ | _ => _ end) eqn:E; [|done].
  intros [= ->]. destruct v; try (apply bind_Some in E as (u & _ & E)); eauto using date_parse_range.
Qed.

Lemma iso_nonempty t : time_in_range t = true → iso_of_ms t ≠ "".
Proof. intros Ht E. apply iso_roundtrip in Ht. by rewrite E in Ht. Qed.

Lemma timestamp_iso t fallback :
  time_in_range t = true → timestamp (JStr (iso_of_ms t)) fallback = Ok (Some t).
Proof.
  intros Ht. pose proof (iso_nonempty t Ht). unfold timestamp.
  destruct (iso_of_ms t) eqn:E; [done|]. rewrite <- E. unfold date_parse. by rewrite iso_roundtrip.
Qed.

Lemma timestamp_range v t : timestamp v None = Ok (Some t) → time_in_range t = true.
Proof.
  destruct v as [| | | | | |s| | |]; try done. destruct s; [done|]. unfold timestamp.
  destruct (date_parse _) eqn:E; [|done]. intros [= <-]. by eapply date_parse_range.
Qed.

End Names.

(** ** Refreshing *)

(** The state of a dependency, as far as it matters to those that wait for it. *)
Definition outlook (tasks : gmap string Task) (id : string) : option (option TaskState) :=
  (λ t, if TERMINAL_STATES (tk_state t) then Some (tk_state t) else None) <$> tasks !! id.

Lemma dependencyStatus_outlook tasks tasks' record :
  (∀ id, outlook tasks id = outlook tasks' id) →
  dependencyStatus tasks record = dependencyStatus tasks' record.
Proof.
  intros Heq. unfold dependencyStatus. f_equal; apply list_filter_iff; intros id;
    specialize (Heq id); unfold outlook in Heq;
    destruct (tasks !! id) as [t|], (tasks' !! id) as [t'|]; simpl in *; try done;
    destruct (tk_state t), (tk_state t'); simpl in *; (done || by simplify_eq).
Qed.

Lemma desired_state d : (desired d).1 = TkEligible ∨ (desired d).1 = TkWaitingForDependency.
Proof. unfold desired. simpl. destruct (_ || _); auto. Qed.

(** What a refresh makes of one record. *)
Definition refresh_one (tasks : gmap string Task) (now : option Z) (t : Task) : Task :=
  default t (refresh_record tasks now t).

(** A refresh changes what decides eligibility, and nothing else. *)
Inductive waits (t : Task) : Task → Prop :=
| waits_same : waits t t
| waits_set s blocker retry :
    TERMINAL_STATES (tk_state t) = false → ACTIVE_STATES (tk_state t) = false →
    s = TkEligible ∨ s = TkWaitingForDependency → waits t (task_is s blocker retry t).

Lemma refresh_record_waits tasks now t t' : refresh_record tasks now t = Some t' → waits t t'.
Proof.
  unfold refresh_record. destruct (refresh_skips now t) eqn:Es; [done|].
  pose proof (desired_state (dependencyStatus tasks t)) as Hd.
  destruct (desired _) as [s b]. destruct (_ && _); [done|]. intros [= <-].
  unfold refresh_skips in Es. split_bools. by constructor.
Qed.

Lemma refresh_one_waits tasks now t : waits t (refresh_one tasks now t).
Proof.
  unfold refresh_one. destruct (refresh_record tasks now t) eqn:E; simpl; [|constructor].
  by eapply refresh_record_waits.
Qed.

Lemma waits_terminal t t' : waits t t' → TERMINAL_STATES (tk_state t') = TERMINAL_STATES (tk_state t).
Proof. intros [|s b r Ht _ [-> | ->]]; simpl; [done|by rewrite Ht..]. Qed.

Lemma waits_active t t' : waits t t' → ACTIVE_STATES (tk_state t') = ACTIVE_STATES (tk_state t).
Proof. intros [|s b r _ Ht [-> | ->]]; simpl; [done|by rewrite Ht..]. Qed.

Lemma waits_settled t t' : waits t t' →
  TERMINAL_STATES (tk_state t) = true ∨ ACTIVE_STATES (tk_state t) = true → t' = t.
Proof. intros [|s b r Ht Ha _] [H'|H']; congruence. Qed.

Lemma waits_outlook tasks now id :
  outlook ((λ t, refresh_one tasks now t) <$> tasks) id = outlook tasks id.
Proof.
  unfold outlook. rewrite lookup_fmap. destruct (tasks !! id) as [t|]; [|done]. simpl.
  pose proof (refresh_one_waits tasks now t) as Hw. rewrite (waits_terminal _ _ Hw).
  destruct (TERMINAL_STATES (tk_state t)) eqn:E; [|done].
  by rewrite (waits_settled _ _ Hw) by auto.
Qed.

(** What the loop has done with the records [ids]. *)
Definition refreshed_on (ids : list string) (tasks : gmap string Task) (now : option Z)
    (acc : gmap string Task) : Prop :=
  ∀ id, acc !! id = if decide (id ∈ ids) then refresh_one tasks now <$> tasks !! id else tasks !! id.

Lemma refreshed_on_outlook ids tasks now acc id :
  refreshed_on ids tasks now acc → outlook acc id = outlook tasks id.
Proof.
  intros Hacc. rewrite <- (waits_outlook tasks now id). unfold outlook.
  rewrite Hacc, lookup_fmap. destruct (decide (id ∈ ids)); [done|].
  pose proof (waits_outlook tasks now id) as Hw. unfold outlook in Hw. rewrite lookup_fmap in Hw.
  by rewrite Hw.
Qed.

(** The loop reads what it wrote, but only in ways that do not matter: it treats every record as
    if it saw the tasks as they were. *)
Lemma refresh_turn_spec ids tasks now acc changed id :
  refreshed_on ids tasks now acc → id ∉ ids →
  refreshed_on (ids ++ [id]) tasks now (refresh_turn now (acc, changed) id).1 ∧
  (refresh_turn now (acc, changed) id).2
    = changed || negb (is_none (tasks !! id ≫= refresh_record tasks now)).
Proof.
  intros Hacc Hid.
  assert (acc !! id = tasks !! id) as Eid by (by rewrite Hacc, decide_False).
  assert (∀ t, refresh_record acc now t = refresh_record tasks now t) as Hrec.
  { intros t. unfold refresh_record. rewrite (dependencyStatus_outlook acc tasks); [done|].
    intros j. by eapply refreshed_on_outlook. }
  unfold refresh_turn. cbn [fst]. rewrite Eid.
  assert (tasks !! id ≫= refresh_record acc now = tasks !! id ≫= refresh_record tasks now) as ->
    by (destruct (tasks !! id); [apply Hrec | done]).
  assert (refresh_one tasks now <$> tasks !! id
    = match tasks !! id ≫= refresh_record tasks now with Some t => Some t | None => tasks !! id end)
    as Hone.
  { unfold refresh_one. destruct (tasks !! id) as [t|]; [|done]. simpl.
    by destruct (refresh_record tasks now t). }
  split; [|by destruct (_ ≫= _); simpl; rewrite ?orb_true_r, ?orb_false_r].
  intros j. destruct (decide (j = id)) as [->|Hne].
  - rewrite decide_True, Hone by set_solver. destruct (_ ≫= _); simpl; [|done].
    by rewrite lookup_insert_eq.
  - transitivity (acc !! j); [by destruct (_ ≫= _); simpl; rewrite ?lookup_insert_ne by done|].
    rewrite Hacc. destruct (decide (j ∈ ids)), (decide (j ∈ ids ++ [id])); done || set_solver.
Qed.

Lemma refresh_turns tasks now ids todo acc changed :
  refreshed_on ids tasks now acc → NoDup (ids ++ todo) →
  let r := foldl (refresh_turn now) (acc, changed) todo in
  refreshed_on (ids ++ todo) tasks now r.1 ∧
  r.2 = changed || existsb (λ id, negb (is_none (tasks !! id ≫= refresh_record tasks now))) todo.
Proof.
  revert ids acc changed. induction todo as [|id todo IH]; intros ids acc changed Hacc Hnd.
  { simpl. by rewrite app_nil_r, orb_false_r. }
  assert (id ∉ ids) as Hid by (apply NoDup_app in Hnd; set_solver).
  destruct (refresh_turn_spec ids tasks now acc changed id Hacc Hid) as [H1 H2].
  cbn [foldl]. destruct (refresh_turn now (acc, changed) id) as [acc' changed']. simpl in H1, H2.
  destruct (IH (ids ++ [id]) acc' changed' H1) as [IH1 IH2]; [by rewrite <- app_assoc|].
  rewrite <- app_assoc in IH1. split; [done|]. rewrite IH2, H2. simpl. by rewrite orb_assoc.
Qed.

(** The refresh in closed form. *)
Definition refresh_all (tasks : gmap string Task) (now : option Z) : gmap string Task :=
  (λ t, refresh_one tasks now t) <$> tasks.

Definition some_refreshed (tasks : gmap string Task) (now : option Z) : bool :=
  existsb (λ id, negb (is_none (tasks !! id ≫= refresh_record tasks now)))
    (map fst (map_to_list tasks)).

Lemma refreshEligibility_spec `{Locale} s now :
  refreshEligibility s now =
  (let* observedAt := timestamp now None in
   let next := set_tasks (refresh_all (ks_tasks s) observedAt) s in
   Ok (if some_refreshed (ks_tasks s) observedAt
       then revise (match observedAt with Some t => Some t | None => ks_updated_at s end) next
       else next)).
Proof.
  unfold refreshEligibility. destruct (timestamp now None) as [observedAt|]; [|done]. simpl.
  destruct (refresh_turns (ks_tasks s) observedAt [] (map fst (map_to_list (ks_tasks s)))
    (ks_tasks s) false) as [H1 H2].
  { intros id. by rewrite decide_False by (apply not_elem_of_nil). }
  { apply NoDup_fst_map_to_list. }
  destruct (foldl _ _ _) as [tasks changed]. simpl in H1, H2. rewrite H2.
  assert (tasks = refresh_all (ks_tasks s) observedAt) as ->; [|done].
  apply map_eq. intros id. rewrite H1. unfold refresh_all. rewrite lookup_fmap.
  destruct (decide _) as [|Hid]; [done|]. destruct (ks_tasks s !! id) as [t|] eqn:E; [|done].
  destruct Hid. apply list_elem_of_fmap. exists (id, t). split; [done|]. by apply elem_of_map_to_list.
Qed.

(** ** Changes

    Every operation is a sequence of changes to the tasks; [admits] says which definitions may add
    a task. *)

(** Ids as [uniqueStrings] accepts them without change, up to order. *)
Record ids_ok (l : list string) : Prop := {
  io_unique : NoDup l;
  io_trimmed : ∀ x, x ∈ l → trim x = x ∧ x ≠ "";
}.

Lemma ids_ok_Permutation l l' : Permutation l l' → ids_ok l → ids_ok l'.
Proof.
  intros Hp [Hnd Ht]. split; [by rewrite <- Hp|]. intros x Hx. apply Ht. by rewrite Hp.
Qed.

Lemma ids_ok_snoc l x : ids_ok l → x ∉ l → trim x = x → x ≠ "" → ids_ok (l ++ [x]).
Proof.
  intros [Hnd Ht] Hx Htx Hne. split.
  - apply NoDup_app. split_and!; [done | | apply NoDup_singleton]. set_solver.
  - intros y [Hy|Hy]%elem_of_app; [auto|]. apply list_elem_of_singleton in Hy. by subst.
Qed.

Section Changes.
Context `{Sha256, Locale}.

(** Names and numbers of a task that the kernel itself has checked. *)
Record task_ok (id : string) (t : Task) : Prop := {
  to_id : tk_task_id t = id;
  to_trimmed : trim id = id;
  to_nonempty : id ≠ "";
  to_revision : (1 <= tk_execution_revision t)%Z;
  to_cycle : trim (tk_cycle_id t) = tk_cycle_id t;
  to_cycle_nonempty : tk_cycle_id t ≠ "";
  to_attempt : (0 <= tk_attempt t)%Z;
}.

(** A task in flight carries the id of its current attempt. *)
Definition dispatched (t : Task) : Prop :=
  ACTIVE_STATES (tk_state t) = true → ∃ d, tk_dispatch_id t = Some d ∧
    dispatchIdFor (tk_task_id t) (tk_execution_revision t) (tk_cycle_id t) (tk_attempt t) = Ok d.

Record definition_ok (d : TaskDefinition) : Prop := {
  do_id : trim (td_task_id d) = td_task_id d ∧ td_task_id d ≠ "";
  do_revision : (1 <= td_execution_revision d)%Z;
  do_cycle : trim (td_cycle_id d) = td_cycle_id d ∧ td_cycle_id d ≠ "";
}.

Lemma normalizeTaskDefinition_ok v d : normalizeTaskDefinition v = Ok d → definition_ok d.
Proof.
  unfold normalizeTaskDefinition. destruct v; try done. intros Hd.
  apply bind_Ok in Hd as (id & Hid & Hd). apply bind_Ok in Hd as (revision & Hrev & Hd).
  apply bind_Ok in Hd as (cycle & Hcycle & Hd). destruct (match nullish _ _ with JStr _ => _ | _ => _ end); [|done].
  res_inv Hd. subst. split; simpl; [by eapply nonempty_Ok| |by eapply nonempty_Ok].
  destruct (nullish _ _) in Hrev; try done; simpl in Hrev; [by simplify_eq|].
  destruct (_ <? 1)%Z eqn:Ez; [done|]. apply Z.ltb_ge in Ez. by simplify_eq.
Qed.

Context (admits : TaskDefinition → Prop).

Inductive task_change (s : KernelState) : gmap string Task → list string → Prop :=
| tc_none : task_change s (ks_tasks s) []
| tc_refresh now : task_change s (refresh_all (ks_tasks s) now) []
| tc_define d finished_at :
    definition_ok d → admits d → ks_tasks s !! td_task_id d = None →
    task_change s (<[td_task_id d := new_task d finished_at]> (ks_tasks s)) []
| tc_metadata d t :
    ks_tasks s !! td_task_id d = Some t →
    task_change s (<[td_task_id d := assign_metadata d t]> (ks_tasks s)) []
| tc_claim id t dispatchId claimed_at :
    ks_tasks s !! id = Some t → tk_state t = TkEligible →
    (activeCount s < ks_max_concurrent s)%Z →
    dispatchIdFor (tk_task_id t) (tk_execution_revision t) (tk_cycle_id t) (tk_attempt t + 1)
      = Ok dispatchId →
    task_change s (<[id := claimed_task t dispatchId claimed_at]> (ks_tasks s)) []
| tc_event e type id t t' :
    ks_tasks s !! id = Some t → TRANSITIONS type (tk_state t) = true →
    apply_event e type t = Ok t' →
    ke_event_id e ∉ ks_applied_event_ids s → trim (ke_event_id e) = ke_event_id e →
    ke_event_id e ≠ "" →
    task_change s (<[id := t']> (ks_tasks s)) [ke_event_id e].

Record change (s s' : KernelState) : Prop := {
  ch_max : ks_max_concurrent s' = ks_max_concurrent s;
  ch_tasks : ∃ ids, task_change s (ks_tasks s') ids ∧
    Permutation (ks_applied_event_ids s') (ks_applied_event_ids s ++ ids);
}.

Lemma change_ids_ok s s' : change s s' → ids_ok (ks_applied_event_ids s) → ids_ok (ks_applied_event_ids s').
Proof.
  intros [_ (ids & Ht & Hids)] Hok. eapply ids_ok_Permutation; [by symmetry|].
  destruct Ht; rewrite ?app_nil_r; [done..|]. by apply ids_ok_snoc.
Qed.

(** A change of the tasks alone. *)
Lemma change_quiet s s' tasks :
  task_change s tasks [] → ks_tasks s' = tasks → ks_max_concurrent s' = ks_max_concurrent s →
  Permutation (ks_applied_event_ids s') (ks_applied_event_ids s) → rtc change s s'.
Proof.
  intros Ht <- Hm Hids. apply rtc_once. split; [done|]. exists []. by rewrite app_nil_r.
Qed.

Definition sorted_ids (s : KernelState) : KernelState :=
  {| ks_revision := if (0 <=? ks_revision s)%Z then ks_revision s else 0;
     ks_max_concurrent := ks_max_concurrent s; ks_tasks := ks_tasks s;
     ks_applied_event_ids := sort_text (ks_applied_event_ids s);
     ks_recent_events := ks_recent_events s; ks_updated_at := ks_updated_at s |}.

Lemma uniqueStrings_ids l : ids_ok l → uniqueStrings (JArr (map JStr l)) = Ok (sort_text l).
Proof.
  intros [Hnd Ht]. simpl.
  assert (mapR nonempty (map JStr l) = Ok l) as ->; [|simpl; by rewrite remove_dups_id].
  apply mapR_Ok. rewrite Forall2_fmap_l. apply Forall2_same_length_lookup_2; [done|].
  intros i x y Hx Hy. simplify_eq. apply nonempty_trimmed; apply Ht; by eapply list_elem_of_lookup_2.
Qed.

Lemma normalizeState_eq s : ids_ok (ks_applied_event_ids s) →
  normalizeState s = if (ks_max_concurrent s <? 1)%Z then Err TypeError else Ok (sorted_ids s).
Proof.
  intros Hids. unfold normalizeState. cbn [positiveInteger].
  destruct (ks_max_concurrent s <? 1)%Z; [done|]. cbn [bind]. by rewrite uniqueStrings_ids.
Qed.

Lemma normalizeState_changes s s' :
  ids_ok (ks_applied_event_ids s) → normalizeState s = Ok s' → rtc change s s' ∧ (1 <= ks_max_concurrent s)%Z.
Proof.
  intros Hids. rewrite normalizeState_eq by done. destruct (_ <? 1)%Z eqn:E; [done|].
  intros [= <-]. apply Z.ltb_ge in E. split; [|done].
  eapply change_quiet; [apply tc_none | done | done|]. apply sort_text_Permutation.
Qed.

Lemma refreshEligibility_changes s now s' : refreshEligibility s now = Ok s' → rtc change s s'.
Proof.
  rewrite refreshEligibility_spec. intros (o & _ & [= <-])%bind_Ok.
  eapply change_quiet; [apply (tc_refresh s o)|..]; by destruct (some_refreshed _ _).
Qed.

Lemma reconcile_definition_change now s d tasks' changed :
  reconcile_definition now (ks_tasks s) d = Ok (tasks', changed) → definition_ok d → admits d →
  task_change s tasks' [].
Proof.
  unfold reconcile_definition. intros Hd Hok Had. destruct (ks_tasks s !! td_task_id d) as [t|] eqn:Et.
  - destruct (_ && _); [done|]. destruct (same_metadata d t); simplify_eq; by constructor.
  - apply bind_Ok in Hd as (at_ & _ & [= <- <-]). by constructor.
Qed.

Lemma reconcile_definitions_changes now ds : ∀ seen s changed tasks' changed',
  reconcile_definitions now seen (ks_tasks s) changed ds = Ok (tasks', changed') →
  Forall definition_ok ds → Forall admits ds → rtc change s (set_tasks tasks' s).
Proof.
  induction ds as [|d ds IH]; intros seen s changed tasks' changed' Hr Hok Had; simpl in Hr.
  - simplify_eq. eapply change_quiet; [apply tc_none|done..].
  - destruct (includes seen _); [done|]. apply bind_Ok in Hr as ([tasks1 changed1] & H1 & Hr).
    inversion_clear Hok. inversion_clear Had. etrans.
    + eapply (change_quiet s (set_tasks tasks1 s)); [by eapply reconcile_definition_change|done..].
    + by eapply (IH _ (set_tasks tasks1 s)) in Hr.
Qed.

(** The definitions a reconciliation brings are admitted. *)
Definition tasks_admitted (tasks : json) : Prop :=
  ∀ items ds, tasks = JArr items → mapR normalizeTaskDefinition items = Ok ds → Forall admits ds.

Lemma change_max s s' : rtc change s s' → ks_max_concurrent s' = ks_max_concurrent s.
Proof. induction 1 as [|s1 s2 s3 H12 _ IH]; [done|]. by rewrite IH, (ch_max _ _ H12). Qed.

Lemma reconcileTasks_changes s tasks now s' :
  ids_ok (ks_applied_event_ids s) → tasks_admitted tasks → reconcileTasks s tasks now = Ok s' →
  rtc change s s' ∧ (1 <= ks_max_concurrent s)%Z.
Proof.
  intros Hids Had. unfold reconcileTasks. intros (s1 & H1 & Hr)%bind_Ok.
  apply normalizeState_changes in H1 as [H1 Hmax]; [|done].
  destruct tasks as [| | | | | | |items| |]; try done.
  apply bind_Ok in Hr as (ds & Hds & Hr). apply bind_Ok in Hr as (_ & _ & Hr).
  apply bind_Ok in Hr as ([tasks' changed] & Hd & Hr). apply bind_Ok in Hr as (s2 & H2 & Hr).
  apply refreshEligibility_changes in Hr. split; [|done].
  apply reconcile_definitions_changes in Hd; [| |by eapply Had].
  - rewrite H1, Hd. etrans; [|exact Hr]. destruct changed; [|by simplify_eq].
    apply bind_Ok in H2 as (o & _ & [= <-]). by eapply change_quiet; [apply tc_none|..].
  - apply mapR_Ok in Hds. apply Forall_forall. intros d (i & Hi)%list_elem_of_lookup.
    destruct (Forall2_lookup_r _ _ _ _ _ Hds Hi) as (v & _ & Hv). by eapply normalizeTaskDefinition_ok.
Qed.

Lemma selectDispatches_changes s now limit sel :
  ids_ok (ks_applied_event_ids s) → selectDispatches s now limit = Ok sel →
  rtc change s (sl_state sel).
Proof.
  intros Hids. unfold selectDispatches. destruct (_ <? 0)%Z; [done|].
  intros (s1 & H1 & Hr)%bind_Ok. apply normalizeState_changes in H1 as [H1 _]; [|done].
  apply bind_Ok in Hr as (s2 & H2 & [= <-]). apply refreshEligibility_changes in H2.
  by etrans.
Qed.

Lemma claimDispatch_changes s id now c :
  ids_ok (ks_applied_event_ids s) → claimDispatch s id now = Ok c → rtc change s (cl_state c).
Proof.
  intros Hids. unfold claimDispatch. intros (s1 & H1 & Hr)%bind_Ok.
  apply normalizeState_changes in H1 as [H1 _]; [|done].
  apply bind_Ok in Hr as (s2 & H2 & Hr). apply refreshEligibility_changes in H2.
  apply bind_Ok in Hr as (i & _ & Hr). rewrite H1, H2. clear H1 H2.
  destruct (ks_tasks s2 !! i) as [t|] eqn:Et; [|done].
  destruct (ACTIVE_STATES _); [by simplify_eq|].
  destruct (bool_decide _) eqn:Es; [|done]. apply bool_decide_eq_true in Es.
  destruct (_ <=? _)%Z eqn:Em; [done|]. apply Z.leb_gt in Em.
  apply bind_Ok in Hr as (d & Hd & Hr). apply bind_Ok in Hr as (a & _ & Hr).
  apply bind_Ok in Hr as (u & _ & [= <-]).
  eapply change_quiet; [by eapply (tc_claim s2 i t d a)|done..].
Qed.

Lemma ids_ok_changes s s' : rtc change s s' → ids_ok (ks_applied_event_ids s) → ids_ok (ks_applied_event_ids s').
Proof. induction 1; eauto using change_ids_ok. Qed.

Lemma applyKernelEvent_changes s input s' :
  ids_ok (ks_applied_event_ids s) → applyKernelEvent s input = Ok s' → rtc change s s'.
Proof.
  intros Hids. unfold applyKernelEvent. intros (s1 & H1 & Hr)%bind_Ok.
  apply normalizeState_changes in H1 as [H1 _]; [|done].
  apply bind_Ok in Hr as (e & He & Hr). rewrite H1.
  destruct (includes _ _) eqn:Ei; [by simplify_eq|]. apply includes_false in Ei.
  destruct (ks_tasks s1 !! ke_task_id e) as [t|] eqn:Et; [|done].
  destruct (enum_find _ _) as [type|]; [|done].
  res_inv Hr. apply refreshEligibility_changes in Hr. etrans; [|exact Hr].
  apply rtc_once. split; [done|]. exists [ke_event_id e]. split; [|done]. simpl.
  assert (trim (ke_event_id e) = ke_event_id e ∧ ke_event_id e ≠ "") as [? ?].
  { unfold normalizeEvent in He. destruct input; try done. res_inv He. subst. by eapply nonempty_Ok. }
  by eapply tc_event.
Qed.

Lemma claim_all_changes cs : ∀ s now s' claims,
  ids_ok (ks_applied_event_ids s) → claim_all s cs now = Ok (s', claims) → rtc change s s'.
Proof.
  induction cs as [|c cs IH]; intros s now s' claims Hids; simpl; [by intros [= <- <-]|].
  intros (r & Hc & Hr)%bind_Ok. apply bind_Ok in Hr as ([s2 l] & Hl & [= <- <-]).
  apply claimDispatch_changes in Hc; [|done]. etrans; [exact Hc|].
  eapply IH; [|exact Hl]. by eapply ids_ok_changes.
Qed.

Lemma settle_all_changes settled : ∀ s at_ retry s' results,
  ids_ok (ks_applied_event_ids s) → settle_all s settled at_ retry = Ok (s', results) → rtc change s s'.
Proof.
  induction settled as [|[d o] settled IH]; intros s at_ retry s' results Hids; simpl; [by intros [= <- <-]|].
  intros ([s1 r] & H1 & Hr)%bind_Ok. apply bind_Ok in Hr as ([s2 l] & Hl & [= <- <-]).
  assert (rtc change s s1) as Hs1.
  { destruct o; simpl in H1; cbv zeta in H1; res_inv H1; simplify_eq;
      eauto using applyKernelEvent_changes. }
  etrans; [exact Hs1|]. eapply IH; [|exact Hl]. by eapply ids_ok_changes.
Qed.

Lemma claim_tick_changes s tasks at_ limit s' claims sel :
  ids_ok (ks_applied_event_ids s) → tasks_admitted tasks →
  claim_tick s tasks at_ limit = Ok (s', claims, sel) → rtc change s s'.
Proof.
  intros Hids Had. unfold claim_tick. intros (s1 & H1 & Hr)%bind_Ok.
  apply reconcileTasks_changes in H1 as [H1 _]; [|done..].
  apply bind_Ok in Hr as (sel' & H2 & Hr). apply selectDispatches_changes in H2; [|by eapply ids_ok_changes].
  apply bind_Ok in Hr as ([s2 l] & H3 & [= <- <- <-]).
  apply claim_all_changes in H3; [by rewrite H1, H2|]. eapply ids_ok_changes; [|done]; by etrans.
Qed.

Lemma runDispatchTick_changes adapter s tasks now clock limit retry r :
  ids_ok (ks_applied_event_ids s) → tasks_admitted tasks →
  runDispatchTick adapter s tasks now clock limit retry = Ok r → rtc change s (tr_state r).
Proof.
  intros Hids Had. unfold runDispatchTick. intros (at_ & _ & Hr)%bind_Ok.
  apply bind_Ok in Hr as ([[s1 claims] sel] & H1 & Hr).
  apply claim_tick_changes in H1; [|done..].
  apply bind_Ok in Hr as (outcomes & _ & Hr). apply bind_Ok in Hr as ([s2 l] & H2 & [= <-]).
  apply settle_all_changes in H2; [by etrans|]. by eapply ids_ok_changes.
Qed.
End Changes.

(** Cases of a change, by the tasks it leaves. *)
Ltac change_cases H :=
  let ids := fresh "ids" in
  destruct H as [_ (ids & H & _)];
  lazymatch type of H with task_change _ _ ?tasks _ => generalize dependent tasks end;
  intros ? [|now|d finished_at Hd Hadm Hnew|d t Hold|id t dispatchId claimed_at Hold Hst Hfree Hdisp
    |e type id t t' Hold Htr Happ Hfresh Htrim Hne].

(** ** Invariants of changes *)

Definition active_ids (tasks : gmap string Task) : gset string :=
  dom (filter (λ kt, ACTIVE_STATES (tk_state kt.2) = true) tasks).

Lemma elem_of_active_ids tasks id :
  id ∈ active_ids tasks ↔ ∃ t, tasks !! id = Some t ∧ ACTIVE_STATES (tk_state t) = true.
Proof.
  unfold active_ids. rewrite elem_of_dom. unfold is_Some. setoid_rewrite map_lookup_filter_Some.
  naive_solver.
Qed.

Lemma activeCount_ids s : activeCount s = Z.of_nat (size (active_ids (ks_tasks s))).
Proof.
  unfold activeCount, active_ids. f_equal. rewrite size_dom, map_filter_alt, map_size_list_to_map.
  2: { apply NoDup_fmap_fst; [|apply NoDup_filter, NoDup_map_to_list].
       intros id t t' [_ Ht]%list_elem_of_filter [_ Ht']%list_elem_of_filter.
       apply elem_of_map_to_list in Ht, Ht'. by simplify_eq. }
  induction (map_to_list (ks_tasks s)) as [|[id t] l IH]; [done|].
  cbn [map fst snd]. rewrite !filter_cons. cbn [snd].
  destruct (decide (ACTIVE_STATES (tk_state t) = true)); simpl; by rewrite IH.
Qed.

Lemma active_insert tasks id t' :
  (ACTIVE_STATES (tk_state t') = true → ∃ t, tasks !! id = Some t ∧ ACTIVE_STATES (tk_state t) = true) →
  active_ids (<[id := t']> tasks) ⊆ active_ids tasks.
Proof.
  intros Ht j. rewrite !elem_of_active_ids. intros (u & Hu & Ha).
  destruct (decide (j = id)) as [->|Hne]; [rewrite lookup_insert_eq in Hu; simplify_eq; auto|].
  rewrite lookup_insert_ne in Hu by done. eauto.
Qed.

(** One insertion makes at most one more task active. *)
Lemma active_insert_le tasks id t' :
  size (active_ids (<[id := t']> tasks)) ≤ size (active_ids tasks) + 1.
Proof.
  transitivity (size ({[id]} ∪ active_ids tasks : gset string)).
  - apply subseteq_size. intros j. rewrite elem_of_union, !elem_of_active_ids.
    intros (u & Hu & Ha). destruct (decide (j = id)) as [->|Hj]; [left; set_solver|right].
    rewrite lookup_insert_ne in Hu by done. eauto.
  - rewrite size_union_alt, size_singleton.
    pose proof (subseteq_size (active_ids tasks ∖ {[id]}) (active_ids tasks)). set_solver by lia.
Qed.

Lemma active_refresh tasks now : active_ids (refresh_all tasks now) = active_ids tasks.
Proof.
  apply set_eq. intros id. rewrite !elem_of_active_ids. unfold refresh_all. rewrite lookup_fmap.
  destruct (tasks !! id) as [t|]; simpl; [|naive_solver].
  pose proof (waits_active _ _ (refresh_one_waits tasks now t)). naive_solver congruence.
Qed.

Section Invariants.
Context `{Sha256, Locale}.

(** An event neither renames a task nor starts an attempt. *)
Record same_attempt (t t' : Task) : Prop := {
  sa_id : tk_task_id t' = tk_task_id t;
  sa_revision : tk_execution_revision t' = tk_execution_revision t;
  sa_cycle : tk_cycle_id t' = tk_cycle_id t;
  sa_key : tk_execution_key t' = tk_execution_key t;
  sa_attempt : tk_attempt t' = tk_attempt t;
  sa_dispatch : tk_dispatch_id t' = tk_dispatch_id t;
}.

Lemma apply_event_attempt e type t t' : apply_event e type t = Ok t' → same_attempt t t'.
Proof. destruct type; simpl; intros Ha; res_inv Ha; subst; split; done. Qed.

Lemma apply_event_active e type t t' :
  apply_event e type t = Ok t' → TRANSITIONS type (tk_state t) = true →
  ACTIVE_STATES (tk_state t') = true → ACTIVE_STATES (tk_state t) = true.
Proof. destruct type; simpl; intros Ha; res_inv Ha; subst; simpl; by destruct (tk_state t). Qed.

Lemma waits_attempt t t' : waits t t' → same_attempt t t'.
Proof. intros []; split; done. Qed.

Lemma task_ok_same id t t' : same_attempt t t' → task_ok id t → task_ok id t'.
Proof. intros [] []. split; congruence || lia. Qed.

Lemma dispatched_same t t' :
  same_attempt t t' → (ACTIVE_STATES (tk_state t') = true → ACTIVE_STATES (tk_state t) = true) →
  dispatched t → dispatched t'.
Proof.
  intros [Hid Hrev Hcycle _ Hat Hdi] Ha Hd Ht. rewrite Hid, Hrev, Hcycle, Hat, Hdi.
  apply Hd, Ha, Ht.
Qed.

(** The definition brings a task that is not in flight. *)
Definition idle (d : TaskDefinition) : Prop := ACTIVE_STATES (td_initial_state d) = false.

Record kernel_inv (s : KernelState) : Prop := {
  ki_bound : (activeCount s <= ks_max_concurrent s)%Z;
  ki_tasks : map_Forall task_ok (ks_tasks s);
  ki_dispatched : map_Forall (λ _, dispatched) (ks_tasks s);
  ki_ids : ids_ok (ks_applied_event_ids s);
}.

Lemma change_tasks_ok admits s s' :
  change admits s s' → map_Forall task_ok (ks_tasks s) → map_Forall task_ok (ks_tasks s').
Proof.
  intros Hc Hok. change_cases Hc; [done|..].
  - intros id t'. unfold refresh_all. rewrite lookup_fmap. intros (t & Ht & ->)%fmap_Some.
    eapply task_ok_same; [|by apply Hok]. apply waits_attempt, refresh_one_waits.
  - apply map_Forall_insert_2; [|done]. destruct Hd as [[] ? []]. by split.
  - apply map_Forall_insert_2; [|done]. apply Hok in Hold as []. by split.
  - apply map_Forall_insert_2; [|done]. apply Hok in Hold as []. split; try done. simpl. lia.
  - apply map_Forall_insert_2; [|done]. apply Hok in Hold. eapply task_ok_same; [|done].
    by eapply apply_event_attempt.
Qed.

Lemma change_dispatched s s' :
  change idle s s' → map_Forall (λ _, dispatched) (ks_tasks s) →
  map_Forall (λ _, dispatched) (ks_tasks s').
Proof.
  intros Hc Hok. change_cases Hc; [done|..].
  - intros id t'. unfold refresh_all. rewrite lookup_fmap. intros (t & Ht & ->)%fmap_Some.
    pose proof (refresh_one_waits (ks_tasks s) now t) as Hw.
    eapply dispatched_same; [by apply waits_attempt | by rewrite (waits_active _ _ Hw) | by eapply Hok].
  - apply map_Forall_insert_2; [|done]. unfold dispatched. simpl. by rewrite Hadm.
  - apply map_Forall_insert_2; [|done]. exact (Hok _ _ Hold).
  - apply map_Forall_insert_2; [|done]. intros _. by exists dispatchId.
  - apply map_Forall_insert_2; [|done]. eapply dispatched_same; [by eapply apply_event_attempt| |by eapply Hok].
    intros Ha. by eapply apply_event_active.
Qed.

Lemma change_bound s s' :
  change idle s s' → (activeCount s <= ks_max_concurrent s)%Z →
  (activeCount s' <= ks_max_concurrent s')%Z.
Proof.
  intros Hc Hb. rewrite (ch_max _ _ _ Hc), (activeCount_ids s').
  enough (Z.of_nat (size (active_ids (ks_tasks s'))) <= activeCount s ∨
    Z.of_nat (size (active_ids (ks_tasks s'))) <= activeCount s + 1 ∧
    activeCount s < ks_max_concurrent s)%Z by lia.
  rewrite activeCount_ids in *. change_cases Hc.
  5: { right. split; [|by rewrite <- activeCount_ids]. pose proof (active_insert_le (ks_tasks s) id
         (claimed_task t dispatchId claimed_at)). lia. }
  all: left; apply inj_le; try (rewrite active_refresh; done); try done; apply subseteq_size, active_insert;
    simpl.
  - by rewrite Hadm.
  - eauto.
  - intros Ha. exists t. split; [done|]. by eapply apply_event_active.
Qed.

Lemma change_inv s s' : change idle s s' → kernel_inv s → kernel_inv s'.
Proof.
  intros Hc [Hb Hok Hd Hi].
  split; eauto using change_bound, change_tasks_ok, change_dispatched, change_ids_ok.
Qed.

Lemma changes_inv s s' : rtc (change idle) s s' → kernel_inv s → kernel_inv s'.
Proof. induction 1; eauto using change_inv. Qed.
End Invariants.

(** ** Runs *)

Section Runs.
Context `{Sha256, Locale}.

(** What the embedding program may ask of the kernel. *)
Inductive operation :=
| OReconcile (tasks now : json)
| OSelect (now : json) (limit : Z)
| OClaim (taskId now : json)
| OEvent (input : json)
| OTick (adapter : Dispatch → res Outcome) (tasks now : json) (clock limit : Z)
    (retry : RetryOptions).

Definition operate (s : KernelState) (o : operation) : res KernelState :=
  match o with
  | OReconcile tasks now => reconcileTasks s tasks now
  | OSelect now limit => let* sel := selectDispatches s now limit in Ok (sl_state sel)
  | OClaim taskId now => let* c := claimDispatch s taskId now in Ok (cl_state c)
  | OEvent input => applyKernelEvent s input
  | OTick adapter tasks now clock limit retry =>
      let* r := runDispatchTick adapter s tasks now clock limit retry in Ok (tr_state r)
  end.

(** A throwing operation leaves the caller with the state it had. *)
Definition run : KernelState → list operation → KernelState :=
  foldl (λ s o, match operate s o with Ok s' => s' | Err _ => s end).

Definition brings (admits : TaskDefinition → Prop) (o : operation) : Prop :=
  match o with
  | OReconcile tasks _ | OTick _ tasks _ _ _ _ => tasks_admitted admits tasks
  | _ => True
  end.

Lemma operate_changes admits s o s' :
  ids_ok (ks_applied_event_ids s) → brings admits o → operate s o = Ok s' → rtc (change admits) s s'.
Proof.
  intros Hids Hb. destruct o; simpl; intros Ho.
  - by eapply reconcileTasks_changes.
  - apply bind_Ok in Ho as (sel & Hs & [= <-]). by eapply selectDispatches_changes.
  - apply bind_Ok in Ho as (c & Hc & [= <-]). by eapply claimDispatch_changes.
  - by eapply applyKernelEvent_changes.
  - apply bind_Ok in Ho as (r & Hr & [= <-]). by eapply runDispatchTick_changes.
Qed.

Lemma run_changes admits ops s :
  ids_ok (ks_applied_event_ids s) → Forall (brings admits) ops → rtc (change admits) s (run s ops).
Proof.
  intros Hids Hops. revert s Hids. induction Hops as [|o ops Ho _ IH]; intros s Hids; [done|].
  simpl. destruct (operate s o) as [s'|] eqn:E; [|by apply IH].
  apply (operate_changes admits) in E; [|done..]. etrans; [exact E|]. apply IH.
  by eapply ids_ok_changes.
Qed.

Lemma createKernelState_inv maxConcurrent updatedAt s :
  createKernelState maxConcurrent updatedAt = Ok s → kernel_inv s ∧ (1 <= ks_max_concurrent s)%Z.
Proof.
  unfold createKernelState. intros (m & Hm & Hs)%bind_Ok. apply bind_Ok in Hs as (u & _ & [= <-]).
  assert (1 <= m)%Z as Hm1.
  { destruct maxConcurrent; try done; simpl in Hm; [by simplify_eq|].
    destruct (_ <? 1)%Z eqn:E; [done|]. apply Z.ltb_ge in E. by simplify_eq. }
  split; [|done]. split; [|apply map_Forall_empty..|].
  - unfold activeCount. cbn [ks_tasks ks_max_concurrent]. rewrite map_to_list_empty. simpl. lia.
  - split; [constructor | by intros x ?%not_elem_of_nil].
Qed.

(** C14: Concurrency is bounded in every run.  Whatever operations follow the creation of a kernel,
    in whatever order, with whatever events, adapters and clocks, and whichever of them throw, no
    more than [max_concurrent] tasks are claimed, dispatching or running, the bound is the one it
    was created with, and each of these tasks carries the dispatch id of its current attempt - as
    long as no reconciled definition brings a task that is already in flight. *)
Theorem kernel_stays_bounded maxConcurrent updatedAt s0 ops :
  createKernelState maxConcurrent updatedAt = Ok s0 → Forall (brings idle) ops →
  let s := run s0 ops in
  (activeCount s <= ks_max_concurrent s)%Z ∧ ks_max_concurrent s = ks_max_concurrent s0 ∧
  ∀ id t, ks_tasks s !! id = Some t → ACTIVE_STATES (tk_state t) = true →
    ∃ d, tk_dispatch_id t = Some d ∧
      dispatchIdFor id (tk_execution_revision t) (tk_cycle_id t) (tk_attempt t) = Ok d.
Proof.
  intros [Hi _]%createKernelState_inv Hops s.
  pose proof (run_changes idle ops s0 (ki_ids _ Hi) Hops) as Hr.
  pose proof (changes_inv _ _ Hr Hi) as [Hb Ht Hd _]. split_and!; [done | by eapply change_max|].
  intros id t Hid Ha. rewrite <- (to_id _ _ (Ht _ _ Hid)). by apply (Hd _ _ Hid).
Qed.

(** *** Finished tasks *)

(** All but the metadata a definition may correct. *)
Record same_outcome (t t' : Task) : Prop := {
  so_attempt : same_attempt t t';
  so_state : tk_state t' = tk_state t;
  so_blocker : tk_blocker_reason t' = tk_blocker_reason t;
  so_retry : tk_retry_at t' = tk_retry_at t;
  so_error : tk_last_error t' = tk_last_error t;
  so_runtime : tk_runtime t' = tk_runtime t;
  so_times : tk_times t' = tk_times t;
}.

Lemma same_outcome_refl t : same_outcome t t.
Proof. by split. Qed.

Lemma same_outcome_trans t1 t2 t3 : same_outcome t1 t2 → same_outcome t2 t3 → same_outcome t1 t3.
Proof. intros [[]] [[]]. split; [split|..]; congruence. Qed.

Lemma finished_no_event type t : TERMINAL_STATES (tk_state t) = true → TRANSITIONS type (tk_state t) = false.
Proof. by destruct type, (tk_state t). Qed.

Lemma change_finished admits s s' i u :
  change admits s s' → ks_tasks s !! i = Some u → TERMINAL_STATES (tk_state u) = true →
  ∃ u', ks_tasks s' !! i = Some u' ∧ same_outcome u u'.
Proof.
  intros Hc Hi Hfin.
  assert (∀ j v, (j = i → same_outcome u v) →
    ∃ u', <[j := v]> (ks_tasks s) !! i = Some u' ∧ same_outcome u u') as Hins.
  { intros j v Hv. destruct (decide (j = i)) as [->|Hne].
    - rewrite lookup_insert_eq. eauto.
    - rewrite lookup_insert_ne by done. eauto using same_outcome_refl. }
  change_cases Hc.
  - eauto using same_outcome_refl.
  - unfold refresh_all. rewrite lookup_fmap, Hi. simpl. eexists. split; [done|].
    rewrite (waits_settled _ _ (refresh_one_waits (ks_tasks s) now u)) by auto. apply same_outcome_refl.
  - apply Hins. congruence.
  - apply Hins. intros <-. simplify_eq. by repeat split.
  - apply Hins. intros ->. simplify_eq. by rewrite Hst in Hfin.
  - apply Hins. intros ->. simplify_eq. by rewrite finished_no_event in Htr.
Qed.

Lemma changes_finished admits s s' id t :
  rtc (change admits) s s' → ks_tasks s !! id = Some t → TERMINAL_STATES (tk_state t) = true →
  ∃ t', ks_tasks s' !! id = Some t' ∧ same_outcome t t'.
Proof.
  intros Hr. revert t. induction Hr as [s|s1 s2 s3 H12 _ IH]; intros t Hid Hfin.
  { eauto using same_outcome_refl. }
  destruct (change_finished _ _ _ _ _ H12 Hid Hfin) as (t2 & H2 & Ho).
  destruct (IH t2 H2) as (t3 & H3 & Ho'); [by rewrite (so_state _ _ Ho)|].
  eauto using same_outcome_trans.
Qed.

Lemma changes_applied admits s s' id :
  rtc (change admits) s s' → id ∈ ks_applied_event_ids s → id ∈ ks_applied_event_ids s'.
Proof.
  induction 1 as [|s1 s2 s3 [_ (ids & _ & Hp)] _ IH]; [done|]. intros Hid. apply IH.
  rewrite Hp. by apply elem_of_app; left.
Qed.

(** C17: What is finished stays finished, and an event counts once.  From any state a run reaches,
    through any further operations: a task that is accepted, failed or cancelled keeps its outcome,
    its attempt and all that was observed of it, and an event whose id was applied has no effect
    when it is delivered again, however it is disguised. *)
Theorem finished_and_applied_stay maxConcurrent updatedAt s0 before after :
  createKernelState maxConcurrent updatedAt = Ok s0 →
  let s := run s0 before in
  let s' := run s after in
  (∀ id t, ks_tasks s !! id = Some t → TERMINAL_STATES (tk_state t) = true →
     ∃ t', ks_tasks s' !! id = Some t' ∧ same_outcome t t') ∧
  (∀ input e, normalizeEvent input = Ok e → ke_event_id e ∈ ks_applied_event_ids s →
     applyKernelEvent s' input = Ok (sorted_ids s')).
Proof.
  intros [Hi Hmax]%createKernelState_inv s s'.
  assert (∀ ops, Forall (brings (λ _, True)) ops) as Hany.
  { intros ops. apply Forall_true. intros []; simpl; try done; intros ? ? _ _; by apply Forall_true. }
  assert (rtc (change (λ _, True)) s0 s) as H1 by (apply run_changes; [apply Hi | apply Hany]).
  assert (rtc (change (λ _, True)) s s') as H2.
  { apply run_changes; [|apply Hany]. eapply ids_ok_changes; [exact H1 | apply Hi]. }
  split.
  - intros id t. by eapply changes_finished.
  - intros input e He Hid. unfold applyKernelEvent.
    rewrite normalizeState_eq by (eapply ids_ok_changes; [etrans; [exact H1|exact H2] | apply Hi]).
    rewrite (change_max _ _ _ H2), (change_max _ _ _ H1).
    assert ((ks_max_concurrent s0 <? 1)%Z = false) as -> by lia. simpl. rewrite He. simpl.
    assert (includes (sort_text (ks_applied_event_ids s')) (ke_event_id e) = true) as ->; [|done].
    apply includes_true. unfold sort_text. rewrite isort_elem_of. by eapply changes_applied.
Qed.
End Runs.

(** ** Ticks *)

Lemma drop_ws_stop w2 w3 a s :
  ws1 a = false → (∀ b, w2 a b = false) → (∀ b c, w3 a b c = false) →
  drop_ws w2 w3 (String a s) = String a s.
Proof.
  intros H1 H2 H3. simpl. rewrite H1. destruct s as [|b s]; [done|]. rewrite H2.
  destruct s as [|c s]; [done|]. by rewrite H3.
Qed.

(** A text between an upper-case D and a lower-case d has nothing to trim. *)
Lemma trim_ends s s' : s = String "D" s' → (∃ r, srev s = String "d" r) → trim s = s.
Proof.
  intros -> [r Hr]. unfold trim, trim_start. rewrite drop_ws_stop by done.
  unfold trim_end, drop_ws_rev. rewrite Hr, drop_ws_stop.
  - by rewrite <- Hr, srev_involutive.
  - done.
  - intros b. unfold ws2. by rewrite andb_false_r.
  - intros b c. unfold ws3. change (code "d") with 100%Z. change (between 128 138 "d") with false.
    cbn [Z.eqb Pos.eqb orb]. by rewrite !andb_false_r.
Qed.

Section Ticks.
Context `{Sha256, Locale}.

Lemma executionKeyFor_total t id : task_ok id t →
  executionKeyFor (tk_task_id t) (tk_execution_revision t) (tk_cycle_id t)
  = Ok (stableHash "E" [id; pretty (tk_execution_revision t); tk_cycle_id t]).
Proof.
  intros [-> Ht Hne Hr Hc Hcne _]. unfold executionKeyFor. rewrite nonempty_trimmed by done.
  cbn [bind positiveInteger]. assert ((tk_execution_revision t <? 1)%Z = false) as -> by lia.
  cbn [bind]. by rewrite nonempty_trimmed.
Qed.

(** The id of the next attempt. *)
Definition next_id (t : Task) : string :=
  stableHash "D" [stableHash "E" [tk_task_id t; pretty (tk_execution_revision t); tk_cycle_id t];
                  pretty (tk_attempt t + 1)%Z].

Lemma dispatchIdFor_next t id : task_ok id t →
  dispatchIdFor (tk_task_id t) (tk_execution_revision t) (tk_cycle_id t) (tk_attempt t + 1)
  = Ok (next_id t).
Proof.
  intros Hok. unfold dispatchIdFor. rewrite (executionKeyFor_total _ _ Hok). cbn [bind positiveInteger].
  pose proof (to_attempt _ _ Hok). assert ((tk_attempt t + 1 <? 1)%Z = false) as -> by lia.
  unfold next_id. by rewrite (to_id _ _ Hok).
Qed.

(** A refresh at the same time finds nothing more to do. *)
Lemma refresh_again tasks now t :
  refresh_record (refresh_all tasks now) now (refresh_one tasks now t) = None.
Proof.
  assert (∀ u, refresh_record (refresh_all tasks now) now u = refresh_record tasks now u) as ->.
  { intros u. unfold refresh_record. rewrite (dependencyStatus_outlook _ tasks); [done|].
    intros id. apply waits_outlook. }
  unfold refresh_one. destruct (refresh_record tasks now t) as [t'|] eqn:E; simpl; [|done].
  revert E. unfold refresh_record at 1. destruct (refresh_skips now t); [done|].
  pose proof (desired_state (dependencyStatus tasks t)) as Hd.
  destruct (desired (dependencyStatus tasks t)) as [s b] eqn:Eds. destruct (_ && _); [done|].
  intros [= <-]. unfold refresh_record.
  assert (refresh_skips now (task_is s b (if bool_decide (tk_state t = TkRetryQueued) then None
    else tk_retry_at t) t) = false) as ->.
  { unfold refresh_skips. simpl in *. by destruct Hd as [-> | ->]. }
  change (dependencyStatus tasks (task_is _ _ _ t)) with (dependencyStatus tasks t).
  rewrite Eds. cbn [task_is tk_state tk_blocker_reason].
  by rewrite (bool_decide_eq_true_2 (s = s)), (bool_decide_eq_true_2 (b = b)) by done.
Qed.

Lemma refresh_stable s now o :
  timestamp now None = Ok o →
  (∀ id t, ks_tasks s !! id = Some t → refresh_record (ks_tasks s) o t = None) →
  refreshEligibility s now = Ok s.
Proof.
  intros Ho Hall. rewrite refreshEligibility_spec, Ho. cbn [bind].
  assert (refresh_all (ks_tasks s) o = ks_tasks s) as ->.
  { apply map_eq. intros id. unfold refresh_all. rewrite lookup_fmap.
    destruct (ks_tasks s !! id) as [t|] eqn:E; [|done]. simpl. unfold refresh_one. by rewrite (Hall _ _ E). }
  assert (some_refreshed (ks_tasks s) o = false) as ->; [|by destruct s].
  apply not_true_iff_false. unfold some_refreshed. intros (id & _ & Hid)%existsb_exists.
  destruct (ks_tasks s !! id) as [t|] eqn:E; [|done]. simpl in Hid. by rewrite (Hall _ _ E) in Hid.
Qed.

(** A state that selecting or claiming at [at_] reads as it is. *)
Record settled (at_ : Z) (s : KernelState) : Prop := {
  st_normal : normalizeState s = Ok s;
  st_ids : ids_ok (ks_applied_event_ids s);
  st_time : time_in_range at_ = true;
  st_fresh : ∀ id t, ks_tasks s !! id = Some t → refresh_record (ks_tasks s) (Some at_) t = None;
}.

Lemma settled_refresh at_ s : settled at_ s → refreshEligibility s (JStr (iso_of_ms at_)) = Ok s.
Proof. intros [_ _ Ht Hf]. by eapply refresh_stable; [apply timestamp_iso|]. Qed.

(** Replacing a task that waits for no one by another one that waits for no one. *)
Lemma fresh_replace tasks now id t t' :
  tasks !! id = Some t → TERMINAL_STATES (tk_state t) = false → TERMINAL_STATES (tk_state t') = false →
  refresh_skips now t' = true →
  (∀ j u, tasks !! j = Some u → refresh_record tasks now u = None) →
  ∀ j u, <[id := t']> tasks !! j = Some u → refresh_record (<[id := t']> tasks) now u = None.
Proof.
  intros Hid Ht Ht' Hs Hall j u Hu.
  destruct (decide (j = id)) as [->|Hne].
  - rewrite lookup_insert_eq in Hu. simplify_eq. unfold refresh_record. by rewrite Hs.
  - rewrite lookup_insert_ne in Hu by done. rewrite <- (Hall _ _ Hu). unfold refresh_record.
    rewrite (dependencyStatus_outlook _ tasks); [done|]. intros k. unfold outlook.
    destruct (decide (k = id)) as [->|]; [|by rewrite lookup_insert_ne].
    rewrite lookup_insert_eq, Hid. simpl. by rewrite Ht, Ht'.
Qed.

Lemma settled_max at_ s : settled at_ s → (1 <= ks_max_concurrent s)%Z ∧ (0 <= ks_revision s)%Z
  ∧ sort_text (ks_applied_event_ids s) = ks_applied_event_ids s.
Proof.
  intros [Hn Hi _ _]. rewrite normalizeState_eq in Hn by done.
  destruct (ks_max_concurrent s <? 1)%Z eqn:E; [done|]. apply Z.ltb_ge in E.
  apply (f_equal (λ r, match r with Ok s => Some (ks_revision s, ks_applied_event_ids s) | _ => None end)) in Hn.
  simpl in Hn. injection Hn as Hr Hs. split_and!; [done | | done].
  destruct (0 <=? ks_revision s)%Z eqn:Er; lia.
Qed.

Lemma normalize_same s :
  ids_ok (ks_applied_event_ids s) → (1 <= ks_max_concurrent s)%Z → (0 <= ks_revision s)%Z →
  sort_text (ks_applied_event_ids s) = ks_applied_event_ids s → normalizeState s = Ok s.
Proof.
  intros Hi Hm Hr Hs. rewrite normalizeState_eq by done.
  assert ((ks_max_concurrent s <? 1)%Z = false) as -> by lia. unfold sorted_ids.
  assert ((0 <=? ks_revision s)%Z = true) as -> by lia. rewrite Hs. by destruct s.
Qed.

Lemma select_settled s limit sel at_ :
  ids_ok (ks_applied_event_ids s) → time_in_range at_ = true →
  selectDispatches s (JStr (iso_of_ms at_)) limit = Ok sel → settled at_ (sl_state sel).
Proof.
  intros Hids Ht. unfold selectDispatches. destruct (limit <? 0)%Z; [done|].
  rewrite normalizeState_eq by done. destruct (_ <? 1)%Z eqn:Em; [done|]. apply Z.ltb_ge in Em.
  cbn [bind]. rewrite refreshEligibility_spec, timestamp_iso by done. intros [= <-]. cbn [sl_state].
  set (s1 := sorted_ids s).
  assert (ids_ok (ks_applied_event_ids s1)) as Hi1.
  { eapply ids_ok_Permutation; [symmetry; apply sort_text_Permutation|done]. }
  assert (0 <= ks_revision s1)%Z as Hr1 by (simpl; destruct (0 <=? _)%Z eqn:?; lia).
  split; [|by destruct (some_refreshed _ _)|done|].
  - apply normalize_same; destruct (some_refreshed _ _); try done; simpl in *; try lia; apply sort_text_idem.
  - intros id t. destruct (some_refreshed _ _); simpl; unfold refresh_all; rewrite lookup_fmap;
      intros (u & Hu & ->)%fmap_Some; apply refresh_again.
Qed.

(** A claim on a settled state. *)
Lemma claim_settled at_ s id t :
  settled at_ s → task_ok id t → ks_tasks s !! id = Some t → tk_state t = TkEligible →
  (activeCount s < ks_max_concurrent s)%Z →
  let t' := claimed_task t (next_id t) (Some at_) in
  ∃ s', claimDispatch s (JStr id) (JStr (iso_of_ms at_))
          = Ok {| cl_state := s'; cl_dispatch := dispatch_of t'; cl_claimed := true |}
    ∧ settled at_ s' ∧ ks_tasks s' = <[id := t']> (ks_tasks s)
    ∧ ks_max_concurrent s' = ks_max_concurrent s
    ∧ ks_applied_event_ids s' = ks_applied_event_ids s.
Proof.
  intros Hs Hok Hid He Hfree t'. unfold claimDispatch.
  rewrite (st_normal _ _ Hs). cbn [bind]. rewrite (settled_refresh _ _ Hs). cbn [bind].
  rewrite nonempty_trimmed by apply Hok. cbn [bind]. rewrite Hid, He. cbn [ACTIVE_STATES].
  rewrite bool_decide_eq_true_2 by done.
  assert ((ks_max_concurrent s <=? activeCount s)%Z = false) as -> by lia.
  rewrite (dispatchIdFor_next _ _ Hok). cbn [bind].
  rewrite !timestamp_iso by apply Hs. cbn [bind]. eexists. split; [done|].
  split_and!; try done. destruct (settled_max _ _ Hs) as (Hm & Hr & Hsort). split.
  - apply normalize_same; simpl; [apply Hs | lia | lia | done].
  - apply Hs.
  - apply Hs.
  - simpl. eapply fresh_replace; [exact Hid | by rewrite He | done | done | apply Hs].
Qed.

(** A claimed dispatch that is waiting to be started. *)
Definition in_flight (s : KernelState) (d : Dispatch) : Prop :=
  ∃ t, ks_tasks s !! dp_task_id d = Some t ∧ task_ok (dp_task_id d) t ∧ tk_state t = TkClaimed ∧
    tk_dispatch_id t = dp_dispatch_id d ∧ tk_attempt t = dp_attempt d ∧ (1 <= dp_attempt d)%Z ∧
    tk_runtime t = no_runtime ∧ ∃ parts, dp_dispatch_id d = Some (stableHash "D" parts).

Lemma activeCount_insert s s' id t' :
  ks_tasks s' = <[id := t']> (ks_tasks s) → (activeCount s' <= activeCount s + 1)%Z.
Proof. intros Hs. rewrite !activeCount_ids, Hs. pose proof (active_insert_le (ks_tasks s) id t'). lia. Qed.

(** Claims do not get in each other's way: what was selected is claimed, with the ids that planning
    computes. *)
Lemma claim_all_planned at_ ts : ∀ s,
  settled at_ s → map_Forall task_ok (ks_tasks s) → NoDup (map tk_task_id ts) →
  Forall (λ t, ks_tasks s !! tk_task_id t = Some t ∧ tk_state t = TkEligible) ts →
  (0 < Z.of_nat (length ts) →
   activeCount s + Z.of_nat (length ts) <= ks_max_concurrent s)%Z →
  ∃ s' claims,
    claim_all s (map candidate_of ts) (JStr (iso_of_ms at_)) = Ok (s', claims) ∧
    mapR (planned_dispatch s) (map candidate_of ts) = Ok claims ∧
    settled at_ s' ∧ ks_applied_event_ids s' = ks_applied_event_ids s ∧
    (∀ id, id ∉ map tk_task_id ts → ks_tasks s' !! id = ks_tasks s !! id) ∧
    map dp_task_id claims = map tk_task_id ts ∧ Forall (in_flight s') claims.
Proof.
  induction ts as [|t ts IH]; intros s Hs Hok Hnd Hts Hfree.
  { exists s, []. split_and!; done. }
  cbn [map] in Hnd. apply NoDup_cons in Hnd as [Hnew Hnd].
  apply Forall_cons in Hts as [[Hid He] Hts]. cbn [length] in Hfree.
  pose proof (Hok _ _ Hid) as Htok.
  destruct (claim_settled at_ s (tk_task_id t) t) as (s1 & Hc & Hs1 & Ht1 & Hm1 & Ha1); [done..|lia|].
  set (t' := claimed_task t (next_id t) (Some at_)) in *.
  pose proof (activeCount_insert _ _ _ _ Ht1) as Hcount.
  assert (task_ok (tk_task_id t) t') as Htok'.
  { destruct Htok. split; try done. simpl. lia. }
  assert (∀ u, u ∈ ts → ks_tasks s1 !! tk_task_id u = ks_tasks s !! tk_task_id u) as Hother.
  { intros u Hu. rewrite Ht1, lookup_insert_ne; [done|]. intros Heq. destruct Hnew. rewrite Heq.
    by apply list_elem_of_fmap_2. }
  destruct (IH s1) as (s2 & claims & Hall & Hplan & Hs2 & Ha2 & Hrest & Hids & Hfl); try done.
  { rewrite Ht1. by apply map_Forall_insert_2. }
  { apply Forall_forall. intros u Hu. rewrite Hother by done. rewrite Forall_forall in Hts. by apply Hts. }
  { lia. }
  exists s2, (dispatch_of t' :: claims). split_and!; [..|constructor]; try done.
  - cbn [map claim_all]. change (cd_task_id (candidate_of t)) with (tk_task_id t). rewrite Hc. cbn [bind cl_state].
    rewrite Hall. done.
  - cbn [map mapR]. unfold planned_dispatch at 1. change (cd_task_id (candidate_of t)) with (tk_task_id t).
    rewrite Hid. change (cd_next_attempt (candidate_of t)) with (tk_attempt t + 1)%Z.
    rewrite (dispatchIdFor_next _ _ Htok). cbn [bind].
    assert (mapR (planned_dispatch s) (map candidate_of ts) = Ok claims) as ->; [|done].
    rewrite <- Hplan. clear -Hother. induction ts as [|u ts IH]; [done|]. cbn [map mapR].
    rewrite IH by (intros; apply Hother; by right). unfold planned_dispatch at 1 3.
    change (cd_task_id (candidate_of u)) with (tk_task_id u). by rewrite Hother by left.
  - congruence.
  - intros id Hnid. cbn [map] in Hnid. rewrite Hrest, Ht1, lookup_insert_ne; set_solver.
  - cbn [map]. by rewrite Hids.
  - exists t'. simpl. rewrite Hrest, Ht1, lookup_insert_eq by done.
    pose proof (to_attempt _ _ Htok). split_and!; try done; [lia|]. by eexists.
Qed.

Lemma elem_of_values (tasks : gmap string Task) t :
  t ∈ map snd (map_to_list tasks) ↔ ∃ id, tasks !! id = Some t.
Proof.
  rewrite list_elem_of_fmap. split.
  - intros ([id u] & -> & Hu%elem_of_map_to_list). by exists id.
  - intros [id Ht]. exists (id, t). split; [done|]. by apply elem_of_map_to_list.
Qed.

Lemma NoDup_values_ids (tasks : gmap string Task) :
  map_Forall task_ok tasks → NoDup (map tk_task_id (map snd (map_to_list tasks))).
Proof.
  intros Hok. rewrite map_map.
  assert (map (λ kt, tk_task_id kt.2) (map_to_list tasks) = (map_to_list tasks).*1) as ->.
  { apply list_fmap_ext. intros i [id t] Hi. simpl.
    apply list_elem_of_lookup_2, elem_of_map_to_list in Hi. apply (to_id _ _ (Hok _ _ Hi)). }
  apply NoDup_fst_map_to_list.
Qed.

(** What a selection selects. *)
Lemma select_tasks s now limit sel :
  selectDispatches s now limit = Ok sel → map_Forall task_ok (ks_tasks (sl_state sel)) →
  ∃ ts, sl_dispatches sel = map candidate_of ts ∧ NoDup (map tk_task_id ts) ∧
    Forall (λ t, ks_tasks (sl_state sel) !! tk_task_id t = Some t ∧ tk_state t = TkEligible) ts ∧
    (0 < Z.of_nat (length ts) →
     activeCount (sl_state sel) + Z.of_nat (length ts) <= ks_max_concurrent (sl_state sel))%Z.
Proof.
  unfold selectDispatches. destruct (limit <? 0)%Z; [done|].
  intros (s1 & _ & Hr)%bind_Ok. apply bind_Ok in Hr as (s2 & _ & [= <-]).
  cbn [sl_state sl_dispatches]. intros Hok.
  set (slots := Z.max _ 0). set (sorted := isort _ _). exists (take (Z.to_nat slots) sorted).
  assert (∀ t, t ∈ take (Z.to_nat slots) sorted → t ∈ eligible_tasks s2) as Hin.
  { intros t Ht. apply subseteq_take in Ht. unfold sorted in Ht. by rewrite isort_elem_of in Ht. }
  split_and!; [done|..].
  - assert (NoDup (map tk_task_id sorted)) as Hnd.
    { unfold sorted. rewrite isort_Permutation. unfold eligible_tasks.
      eapply sublist_NoDup; [by apply NoDup_values_ids|]. apply fmap_sublist, sublist_filter. }
    eapply sublist_NoDup; [exact Hnd|]. apply fmap_sublist, sublist_take.
  - apply Forall_forall. intros t Ht%Hin. unfold eligible_tasks in Ht.
    apply list_elem_of_filter in Ht as [He Ht]. apply elem_of_values in Ht as [id Hid].
    by rewrite (to_id _ _ (Hok _ _ Hid)).
  - rewrite length_take. unfold slots. lia.
Qed.

(** *** Events of a tick *)

Lemma eventId_trimmed d parts type :
  dp_dispatch_id d = Some (stableHash "D" parts) →
  type = KDispatchAccepted ∨ type = KAttemptFailed →
  trim (eventId type d) = eventId type d ∧ eventId type d ≠ "".
Proof.
  intros Hd Ht. unfold eventId. rewrite Hd. cbn [default]. unfold stableHash.
  split; [|by intros [=]]. eapply trim_ends; [reflexivity|].
  rewrite !srev_append. destruct Ht as [-> | ->]; eexists; reflexivity.
Qed.

Lemma normalize_tick_event type d at_ more parts :
  type = KDispatchAccepted ∨ type = KAttemptFailed → time_in_range at_ = true →
  dp_dispatch_id d = Some (stableHash "D" parts) → trim (dp_task_id d) = dp_task_id d →
  dp_task_id d ≠ "" →
  normalizeEvent (tick_event type d at_ more) = Ok {|
    ke_event_id := eventId type d; ke_type := enum_str type; ke_task_id := dp_task_id d;
    ke_observed_at := Some at_; ke_input := tick_event type d at_ more |}.
Proof.
  intros Htype Ht Hd Hid Hne. destruct (eventId_trimmed _ _ _ Hd Htype) as [Hte Hene].
  unfold normalizeEvent, tick_event. cbn [app prop get String.eqb Ascii.eqb Bool.eqb].
  rewrite nonempty_trimmed by done. cbn [bind].
  assert (nonempty (JStr (enum_str type)) = Ok (enum_str type)) as -> by (by destruct Htype as [-> | ->]).
  cbn [bind]. rewrite nonempty_trimmed by done. cbn [bind]. by rewrite timestamp_iso.
Qed.

(** How the application of a tick's event proceeds. *)
Lemma apply_tick_event s type d at_ more t t' :
  type = KDispatchAccepted ∨ type = KAttemptFailed → time_in_range at_ = true →
  ids_ok (ks_applied_event_ids s) → (1 <= ks_max_concurrent s)%Z → in_flight s d →
  eventId type d ∉ ks_applied_event_ids s → ks_tasks s !! dp_task_id d = Some t →
  let e := {| ke_event_id := eventId type d; ke_type := enum_str type;
              ke_task_id := dp_task_id d; ke_observed_at := Some at_;
              ke_input := tick_event type d at_ more |} in
  apply_event e type t = Ok t' →
  ∃ s', applyKernelEvent s (tick_event type d at_ more) = Ok s' ∧
    ks_tasks s' = refresh_all (<[dp_task_id d := t']> (ks_tasks s)) (Some at_) ∧
    ks_max_concurrent s' = ks_max_concurrent s ∧
    Permutation (ks_applied_event_ids s') (ks_applied_event_ids s ++ [eventId type d]).
Proof.
  intros Htype Ht Hids Hm (u & Hu & Hok & Hst & Hdi & _ & _ & Hrt & parts & Hparts) Hfresh Hlook e Happ.
  rewrite Hlook in Hu. injection Hu as <-. unfold applyKernelEvent.
  rewrite normalizeState_eq by done.
  assert ((ks_max_concurrent s <? 1)%Z = false) as -> by lia. cbn [bind].
  rewrite (normalize_tick_event _ _ _ _ _ Htype Ht Hparts) by apply Hok. cbn [bind ke_event_id].
  assert (includes (ks_applied_event_ids (sorted_ids s)) (eventId type d) = false) as ->.
  { apply includes_false. simpl. unfold sort_text. by rewrite isort_elem_of. }
  cbn [ke_task_id ke_type]. change (ks_tasks (sorted_ids s)) with (ks_tasks s). rewrite Hlook.
  assert (enum_find enum_all (enum_str type) = Some type) as ->
    by (apply enum_find_str; by destruct type; vm_compute; repeat constructor).
  rewrite Hst. assert (TRANSITIONS type TkClaimed = true) as -> by (by destruct Htype as [-> | ->]).
  fold e. assert (contradicts (ke_field e "dispatch_id") (tk_dispatch_id t) = false) as ->.
  { unfold contradicts. rewrite Hdi, Hparts. unfold e, ke_field, tick_event.
    cbn [app ke_input prop get String.eqb Ascii.eqb Bool.eqb opt_str]. rewrite Hparts. cbn [opt_str].
    simpl strict_eq. rewrite String.eqb_refl. by rewrite andb_false_r. }
  rewrite Hrt. unfold contradicts. cbn [no_runtime rt_thread_id rt_turn_id opt_str truthy].
  rewrite !andb_false_r. cbn [andb]. fold e. rewrite Happ. cbn [bind ke_observed_at opt_time e].
  rewrite refreshEligibility_spec, timestamp_iso by done. cbn [bind ks_tasks].
  eexists. split; [reflexivity|]. destruct (some_refreshed _ _); simpl; split_and!; try done;
    by rewrite sort_text_Permutation.
Qed.

(** *** Outcomes *)

(** An outcome that the kernel can record: dates that are dates, references that are texts, and a
    reason that is not blank. *)
Definition readable (o : Outcome) : bool :=
  match o with
  | Fulfilled v =>
      (negb (truthy (prop "accepted_at" v)) || is_ok (new_date (prop "accepted_at" v)))
      && forallb (λ k, negb (truthy (prop k v)) || is_ok (nonempty (prop k v)))
           ["correlation_id"; "thread_id"; "turn_id"]
  | Rejected reason => negb (String.eqb (trim reason) "")
  end.

(** The retries that a tick may schedule are dates. *)
Definition retry_fits (at_ : Z) (retry : RetryOptions) : bool :=
  (1 <=? ro_baseMs retry)%Z && (1 <=? ro_maxMs retry)%Z && (at_ + ro_maxMs retry <=? max_time)%Z.

Definition outcome_event (o : Outcome) (d : Dispatch) : string :=
  eventId (match o with Fulfilled _ => KDispatchAccepted | Rejected _ => KAttemptFailed end) d.

(** The result reports the outcome. *)
Definition answers (at_ : Z) (retry : RetryOptions) (od : Outcome * Dispatch) (r : DispatchResult)
    : Prop :=
  match od.1, r with
  | Fulfilled v, Started d _ correlation_id thread_id turn_id _ _ =>
      d = od.2 ∧ correlation_id = nullish (prop "correlation_id" v) JNull
      ∧ thread_id = nullish (prop "thread_id" v) JNull ∧ turn_id = nullish (prop "turn_id" v) JNull
  | Rejected _, Requeued d retry_at =>
      d = od.2 ∧ (at_ < retry_at <= at_ + ro_maxMs retry)%Z
  | _, _ => False
  end.

(** The state shows the outcome. *)
Definition landed (s : KernelState) (od : Outcome * Dispatch) : Prop :=
  ∃ t, ks_tasks s !! dp_task_id od.2 = Some t ∧ tk_attempt t = dp_attempt od.2 ∧
    tk_dispatch_id t = dp_dispatch_id od.2 ∧
    match od.1 with
    | Fulfilled _ => tk_state t = TkDispatching
    | Rejected _ => ACTIVE_STATES (tk_state t) = false ∧ TERMINAL_STATES (tk_state t) = false
    end.

Lemma retryDelayMs_bounds attempt retry :
  (1 <= attempt)%Z → (1 <= ro_baseMs retry)%Z → (1 <= ro_maxMs retry)%Z →
  ∃ delay, retryDelayMs attempt retry = Ok delay ∧ (1 <= delay <= ro_maxMs retry)%Z.
Proof.
  intros Ha Hb Hm. unfold retryDelayMs. cbn [positiveInteger].
  assert ((attempt <? 1)%Z = false) as -> by lia. cbn [bind].
  assert ((ro_baseMs retry <? 1)%Z = false) as -> by lia.
  assert ((ro_maxMs retry <? 1)%Z = false) as -> by lia. eexists. split; [done|].
  pose proof (Z.pow_pos_nonneg 2 (Z.min (attempt - 1) 30)). nia.
Qed.

Lemma nonempty_or_field v o :
  negb (truthy v) || is_ok (nonempty v) = true → ∃ o', nonempty_or (nullish v JNull) o = Ok o'.
Proof.
  intros Hv. assert (truthy (nullish v JNull) = truthy v) as Ht by (by destruct v).
  unfold nonempty_or. rewrite Ht. destruct (truthy v) eqn:E; [|by eexists].
  assert (nullish v JNull = v) as -> by (by destruct v). simpl in Hv.
  destruct (nonempty v); [|done]. by eexists.
Qed.

(** The tasks of the other dispatches are as they were, or wait. *)
Lemma settle_frame s s' d t' at_ :
  ks_tasks s' = refresh_all (<[dp_task_id d := t']> (ks_tasks s)) at_ →
  (∀ d', dp_task_id d' ≠ dp_task_id d → in_flight s d' → in_flight s' d') ∧
  (∀ od, dp_task_id od.2 ≠ dp_task_id d → landed s od → landed s' od).
Proof.
  intros Hs. assert (∀ id t, id ≠ dp_task_id d → ks_tasks s !! id = Some t →
    ∃ u, ks_tasks s' !! id = Some u ∧ waits t u) as Hother.
  { intros id t Hne Ht. rewrite Hs. unfold refresh_all. rewrite lookup_fmap, lookup_insert_ne, Ht by done.
    simpl. eexists. split; [done|]. apply refresh_one_waits. }
  split.
  - intros d' Hne (t & Ht & Hok & Hst & Hrest). destruct (Hother _ _ Hne Ht) as (u & Hu & Hw).
    rewrite (waits_settled _ _ Hw) in Hu by (rewrite Hst; auto). by exists t.
  - intros [o d'] Hne (t & Ht & Hat & Hdi & Ho). destruct (Hother _ _ Hne Ht) as (u & Hu & Hw).
    exists u. destruct (waits_attempt _ _ Hw) as [_ _ _ _ Hau Hdu]. split_and!; [done|congruence..|].
    simpl in *. destruct o.
    + by rewrite (waits_settled _ _ Hw) by (rewrite Ho; auto).
    + by rewrite (waits_active _ _ Hw), (waits_terminal _ _ Hw).
Qed.

Lemma accepted_applies v d at_ t :
  readable (Fulfilled v) = true →
  let field k := nullish (prop k v) JNull in
  let more := [("correlation_id", field "correlation_id"); ("thread_id", field "thread_id");
               ("turn_id", field "turn_id"); ("model_evidence", field "model_evidence");
               ("runtime_profile", field "runtime_profile")] in
  ∃ t', apply_event {| ke_event_id := eventId KDispatchAccepted d;
      ke_type := enum_str KDispatchAccepted; ke_task_id := dp_task_id d;
      ke_observed_at := Some at_; ke_input := tick_event KDispatchAccepted d at_ more |}
    KDispatchAccepted t = Ok t' ∧ tk_state t' = TkDispatching.
Proof.
  intros Hread field more. unfold readable in Hread. apply andb_true_iff in Hread as [_ Hf].
  cbn [forallb] in Hf. rewrite !andb_true_iff in Hf. destruct Hf as (Hc & Hth & Htu & _).
  cbn [apply_event]. unfold ke_field, more, field, tick_event.
  cbn [ke_input app prop get String.eqb Ascii.eqb Bool.eqb].
  destruct (nonempty_or_field _ (rt_correlation_id (tk_runtime t)) Hc) as [c ->].
  destruct (nonempty_or_field _ (rt_thread_id (tk_runtime t)) Hth) as [th ->].
  destruct (nonempty_or_field _ (rt_turn_id (tk_runtime t)) Htu) as [tu ->].
  cbn [bind]. eexists. split; reflexivity.
Qed.

Lemma rejected_applies reason d at_ retryAt t :
  readable (Rejected reason) = true → time_in_range retryAt = true →
  let more := [("retry_at", JStr (iso_of_ms retryAt)); ("error", JStr reason)] in
  ∃ t', apply_event {| ke_event_id := eventId KAttemptFailed d;
      ke_type := enum_str KAttemptFailed; ke_task_id := dp_task_id d;
      ke_observed_at := Some at_; ke_input := tick_event KAttemptFailed d at_ more |}
    KAttemptFailed t = Ok t' ∧ tk_state t' = TkRetryQueued.
Proof.
  intros Hread Ht more. cbn [apply_event]. unfold ke_field, more, tick_event.
  cbn [ke_input app prop get String.eqb Ascii.eqb Bool.eqb nullish].
  rewrite timestamp_iso by done. cbn [bind]. unfold nonempty.
  simpl in Hread. apply negb_true_iff in Hread as ->. cbn [bind]. eexists. split; reflexivity.
Qed.

(** One outcome is recorded; it concerns its own task and no other. *)
Lemma settle_one s d o at_ retry :
  time_in_range at_ = true → ids_ok (ks_applied_event_ids s) → (1 <= ks_max_concurrent s)%Z →
  in_flight s d → readable o = true → retry_fits at_ retry = true →
  outcome_event o d ∉ ks_applied_event_ids s →
  ∃ s' r, settle_outcome s d o at_ retry = Ok (s', r) ∧ answers at_ retry (o, d) r ∧
    landed s' (o, d) ∧ ks_max_concurrent s' = ks_max_concurrent s ∧
    Permutation (ks_applied_event_ids s') (ks_applied_event_ids s ++ [outcome_event o d]) ∧
    (∀ d', dp_task_id d' ≠ dp_task_id d → in_flight s d' → in_flight s' d') ∧
    (∀ od, dp_task_id od.2 ≠ dp_task_id d → landed s od → landed s' od).
Proof.
  intros Ht Hids Hm Hfl Hread Hretry Hfresh. pose proof Hfl as (t & Hid & _ & Hst & Hdi & Hat & Hpos & _).
  assert (∀ s' t' now, same_attempt t t' →
    ks_tasks s' = refresh_all (<[dp_task_id d := t']> (ks_tasks s)) now →
    ∃ u, ks_tasks s' !! dp_task_id d = Some u ∧ waits t' u ∧ tk_attempt u = dp_attempt d ∧
      tk_dispatch_id u = dp_dispatch_id d) as Hown.
  { intros s' t' now [_ _ _ _ Ha Hd] Hs'. rewrite Hs'. unfold refresh_all.
    rewrite lookup_fmap, lookup_insert_eq. simpl. eexists. split; [done|].
    pose proof (refresh_one_waits (<[dp_task_id d := t']> (ks_tasks s)) now t') as Hw.
    destruct (waits_attempt _ _ Hw) as [_ _ _ _ Ha' Hd']. split_and!; [done|congruence..]. }
  unfold outcome_event in *. destruct o as [v|reason]; cbn [settle_outcome] in *.
  - assert (∃ acceptedAt, (if truthy (prop "accepted_at" v) then new_date (prop "accepted_at" v)
      else Ok at_) = Ok acceptedAt ∧ time_in_range acceptedAt = true) as (acceptedAt & -> & Hacc).
    { unfold readable in Hread. apply andb_true_iff in Hread as [Ha _].
      destruct (truthy _); [|by exists at_]. simpl in Ha.
      destruct (new_date _) as [a|] eqn:E; [|done]. exists a. split; [done|]. by eapply new_date_range. }
    cbn [bind]. destruct (accepted_applies v d acceptedAt t Hread) as (t' & Happ & Hdisp).
    destruct (apply_tick_event s _ d acceptedAt _ t t' (or_introl eq_refl) Hacc Hids Hm Hfl Hfresh
      Hid Happ) as (s' & -> & Hs' & Hm' & Hp). cbn [bind]. do 2 eexists. split; [reflexivity|].
    destruct (Hown s' t' _ (apply_event_attempt _ _ _ _ Happ) Hs') as (u & Hu & Hw & Hua & Hud).
    split_and!; try done; [|by eapply settle_frame..].
    exists u. split_and!; try done. cbn. by rewrite (waits_settled _ _ Hw) by (rewrite Hdisp; auto).
  - unfold retry_fits in Hretry. split_bools.
    destruct (retryDelayMs_bounds (dp_attempt d) retry) as (delay & -> & Hdelay); [done..|]. cbn [bind].
    assert (time_in_range (at_ + delay) = true) as Hra.
    { unfold time_in_range in *. split_bools. apply andb_true_iff; split; apply Z.leb_le; lia. }
    unfold to_time. rewrite Hra. cbn [bind].
    destruct (rejected_applies reason d at_ (at_ + delay) t) as (t' & Happ & Hq); [done..|].
    destruct (apply_tick_event s _ d at_ _ t t' (or_intror eq_refl) Ht Hids Hm Hfl Hfresh Hid Happ)
      as (s' & -> & Hs' & Hm' & Hp). cbn [bind]. do 2 eexists. split; [reflexivity|].
    destruct (Hown s' t' _ (apply_event_attempt _ _ _ _ Happ) Hs') as (u & Hu & Hw & Hua & Hud).
    split_and!; try done; [split; [done|cbn; lia]| |by eapply settle_frame..].
    exists u. split_and!; try done. cbn. by rewrite (waits_active _ _ Hw), (waits_terminal _ _ Hw), Hq.
Qed.

Lemma settle_all_lands at_ retry outcomes : ∀ dispatches s,
  time_in_range at_ = true → retry_fits at_ retry = true →
  ids_ok (ks_applied_event_ids s) → (1 <= ks_max_concurrent s)%Z →
  Forall (in_flight s) dispatches → NoDup (map dp_task_id dispatches) →
  length dispatches = length outcomes → forallb readable outcomes = true →
  NoDup (ks_applied_event_ids s ++ zip_with outcome_event outcomes dispatches) →
  ∃ s' results, settle_all s (zip dispatches outcomes) at_ retry = Ok (s', results) ∧
    Forall2 (answers at_ retry) (zip outcomes dispatches) results ∧
    Forall (landed s') (zip outcomes dispatches) ∧
    (∀ od, dp_task_id od.2 ∉ map dp_task_id dispatches → landed s od → landed s' od).
Proof.
  induction outcomes as [|o outcomes IH]; intros [|d ds] s Ht Hretry Hids Hm Hfl Hnd Hlen Hread Hev;
    try done.
  { by exists s, []. }
  apply Forall_cons in Hfl as [Hd Hds]. cbn [map] in Hnd. apply NoDup_cons in Hnd as [Hnew Hnd].
  cbn [forallb] in Hread. apply andb_true_iff in Hread as [Ho Hread]. cbn [zip_with] in Hev.
  destruct (settle_one s d o at_ retry) as (s1 & r & Hs1 & Hans & Hland & Hm1 & Hp & Hkeep & Hkeep');
    try done.
  { apply NoDup_app in Hev as (_ & Hdis & _). intros Hin. apply (Hdis _ Hin). left. }
  assert (∀ d', d' ∈ ds → dp_task_id d' ≠ dp_task_id d) as Hne.
  { intros d' Hd' Heq. apply Hnew. rewrite <- Heq. by apply list_elem_of_fmap_2. }
  assert (NoDup (ks_applied_event_ids s1 ++ zip_with outcome_event outcomes ds)) as Hev1.
  { rewrite Hp, <- app_assoc. done. }
  destruct (IH ds s1) as (s2 & rs & Hs2 & Hanss & Hlands & Hk); try done.
  - eapply ids_ok_Permutation; [by symmetry|].
    destruct Hd as (t & _ & _ & _ & _ & _ & _ & _ & parts & Hparts).
    apply ids_ok_snoc; [done|..].
    + apply NoDup_app in Hev as (_ & Hdis & _). intros Hin. apply (Hdis _ Hin). left.
    + eapply eventId_trimmed; [done|]. destruct o; auto.
    + eapply eventId_trimmed; [done|]. destruct o; auto.
  - by rewrite Hm1.
  - apply Forall_forall. intros d' Hd'. rewrite Forall_forall in Hds. apply Hkeep; auto.
  - simpl in Hlen. lia.
  - exists s2, (r :: rs). cbn [zip_with]. unfold zip in *. split_and!.
    + cbn [settle_all]. rewrite Hs1. cbn [bind]. by rewrite Hs2.
    + by constructor.
    + constructor; [|done]. by apply Hk.
    + intros od Hod Hl. cbn [map] in Hod. apply Hk; [set_solver|]. apply Hkeep'; [set_solver|done].
Qed.

Lemma mapR_length {A B} (f : A → res B) l l' : mapR f l = Ok l' → length l = length l'.
Proof. intros Hl%mapR_Ok. by eapply Forall2_length. Qed.

Lemma changes_tasks_ok admits s s' :
  rtc (change admits) s s' → map_Forall task_ok (ks_tasks s) → map_Forall task_ok (ks_tasks s').
Proof. induction 1; eauto using change_tasks_ok. Qed.

(** C15: A tick carries out its plan.  From any state a run reaches: when [planDispatchTick] announces
    dispatches, [runDispatchTick] starts exactly these, with the same task, execution key, attempt
    and dispatch id, and when the adapter answers each of them with something readable the tick
    returns; it reports every answer, and in its state each dispatch that was accepted is
    dispatching under its id, while each one that was rejected has left the slot and will be
    retried - whatever the other dispatches came to.  The ids of the tick's events must be new. *)
Theorem tick_carries_out_the_plan maxConcurrent updatedAt s0 ops tasks now clock limit plan
    adapter outcomes retry :
  createKernelState maxConcurrent updatedAt = Ok s0 →
  let s := run s0 ops in
  planDispatchTick s tasks now clock limit = Ok plan →
  mapR adapter (tp_dispatches plan) = Ok outcomes →
  forallb readable outcomes = true →
  retry_fits (tp_observed_at plan) retry = true →
  NoDup (ks_applied_event_ids (tp_state plan)
    ++ zip_with outcome_event outcomes (tp_dispatches plan)) →
  ∃ r, runDispatchTick adapter s tasks now clock limit retry = Ok r ∧
    Forall2 (answers (tp_observed_at plan) retry) (zip outcomes (tp_dispatches plan)) (tr_results r) ∧
    Forall (landed (tr_state r)) (zip outcomes (tp_dispatches plan)).
Proof.
  intros [Hi Hmax]%createKernelState_inv s Hplan Hadapter Hread Hretry Hev.
  assert (∀ ops, Forall (brings (λ _, True)) ops) as Hany.
  { intros ops'. apply Forall_true. intros []; simpl; try done; intros ? ? _ _; by apply Forall_true. }
  assert (rtc (change (λ _, True)) s0 s) as Hs by (apply run_changes; [apply Hi | apply Hany]).
  unfold planDispatchTick in Hplan. apply bind_Ok in Hplan as (at_ & Hat & Hplan).
  apply bind_Ok in Hplan as (s1 & Hs1 & Hplan). apply bind_Ok in Hplan as (sel & Hsel & Hplan).
  apply bind_Ok in Hplan as (planned & Hp & [= <-]). cbn [tp_dispatches tp_state tp_observed_at] in *.
  assert (time_in_range at_ = true) as Hrange by (by eapply new_date_range).
  assert (rtc (change (λ _, True)) s0 s1) as Hc1.
  { etrans; [exact Hs|]. eapply reconcileTasks_changes; [|by intros ? ? _ _; apply Forall_true|done].
    eapply ids_ok_changes; [exact Hs|apply Hi]. }
  assert (ids_ok (ks_applied_event_ids s1)) as Hids1 by (eapply ids_ok_changes; [exact Hc1|apply Hi]).
  pose proof (select_settled _ _ _ _ Hids1 Hrange Hsel) as Hsettled.
  assert (rtc (change (λ _, True)) s0 (sl_state sel)) as Hc2.
  { etrans; [exact Hc1|]. by eapply selectDispatches_changes. }
  assert (map_Forall task_ok (ks_tasks (sl_state sel))) as Hok.
  { eapply changes_tasks_ok; [exact Hc2|apply Hi]. }
  destruct (select_tasks _ _ _ _ Hsel Hok) as (ts & Hts & Hnd & Hel & Hfree).
  destruct (claim_all_planned at_ ts (sl_state sel)) as
    (s2 & claims & Hclaims & Hplanned & Hs2 & Ha2 & _ & Hids & Hfl); [done..|].
  rewrite Hts in Hp. assert (planned = claims) as -> by congruence.
  destruct (settle_all_lands at_ retry outcomes claims s2) as (s3 & rs & Hset & Hans & Hland & _);
    try done; [apply Hs2 | exact (proj1 (settled_max _ _ Hs2)) | by rewrite Hids | by eapply mapR_length
    | by rewrite Ha2 |].
  eexists (Build_TickResult s3 rs _ _). split; [|by split].
  unfold runDispatchTick. rewrite Hat. cbn [bind]. unfold claim_tick. rewrite Hs1. cbn [bind].
  rewrite Hsel. cbn [bind]. rewrite Hts, Hclaims. cbn [bind]. rewrite Hadapter. cbn [bind].
  by rewrite Hset.
Qed.
End Ticks.

(** ** Progress *)

Section Progress.
Context `{Sha256, Locale}.

(** *** The dependency graph *)

Definition deps_of (ds : list TaskDefinition) (id : string) : list string :=
  from_option td_dependencies [] (definition_of ds id).

Lemma definition_of_elem ds id d : definition_of ds id = Some d → d ∈ ds ∧ td_task_id d = id.
Proof.
  induction ds as [|e ds IH]; simpl; [done|]. destruct (definition_of ds id) as [d'|].
  - intros [= ->]. destruct IH as [? ?]; [done|]. split; [by right|done].
  - destruct (String.eqb _ _) eqn:E; [|done]. intros [= ->]. split; [left|by apply String.eqb_eq].
Qed.

Lemma definition_of_unique ds d :
  NoDup (map td_task_id ds) → d ∈ ds → definition_of ds (td_task_id d) = Some d.
Proof.
  induction ds as [|e ds IH]; cbn [map]; intros Hnd Hd; [by apply not_elem_of_nil in Hd|].
  apply NoDup_cons in Hnd as [Hnew Hnd]. simpl. apply elem_of_cons in Hd as [->|Hd].
  - destruct (definition_of ds (td_task_id e)) as [d'|] eqn:E; [|by rewrite String.eqb_refl].
    apply definition_of_elem in E as [Hin Heq]. destruct Hnew. rewrite <- Heq.
    by apply list_elem_of_fmap_2.
  - by rewrite IH.
Qed.

(** Each task comes before what it depends on. *)
Inductive sorted_tasks (ds : list TaskDefinition) : list string → Prop :=
| sorted_tasks_nil : sorted_tasks ds []
| sorted_tasks_cons id l :
    (∀ dep, dep ∈ deps_of ds id → is_Some (definition_of ds dep) → dep ∈ l) →
    sorted_tasks ds l → sorted_tasks ds (id :: l).

(** Among the tasks with a property, one depends on none of the others. *)
Lemma sorted_tasks_least ds l (p : string → bool) :
  sorted_tasks ds l → existsb p l = true →
  ∃ id, id ∈ l ∧ p id = true ∧
    ∀ dep, dep ∈ deps_of ds id → is_Some (definition_of ds dep) → p dep = false.
Proof.
  induction 1 as [|id l Hdeps _ IH]; [done|]. simpl. intros Hp.
  destruct (existsb p l) eqn:E.
  - destruct IH as (j & Hj & Hpj & Hd); [done|]. exists j. split_and!; [by right|done..].
  - rewrite orb_false_r in Hp. exists id. split_and!; [left|done|]. intros dep Hdep Hdef.
    apply not_true_iff_false. intros Hpd. apply not_true_iff_false in E. apply E.
    apply existsb_exists. exists dep. split; [|done]. apply list_elem_of_In. auto.
Qed.

Lemma visit_task_sorted ds fuel : ∀ visiting visited id visited',
  visit_task fuel ds visiting visited id = Ok visited' → sorted_tasks ds visited →
  sorted_tasks ds visited' ∧ visited ⊆ visited' ∧ (is_Some (definition_of ds id) → id ∈ visited').
Proof.
  induction fuel as [|fuel IH]; [done|]. intros visiting visited id visited' Hv Hs. simpl in Hv.
  destruct (includes visiting id); [done|]. destruct (includes visited id) eqn:Ei.
  { apply includes_true in Ei. by simplify_eq. }
  destruct (definition_of ds id) as [d|] eqn:Ed; [|simplify_eq; split_and!; [done..|by intros []]].
  apply bind_Ok in Hv as (visited1 & Hall & [= <-]).
  enough (sorted_tasks ds visited1 ∧ visited ⊆ visited1 ∧
    ∀ dep, dep ∈ td_dependencies d → is_Some (definition_of ds dep) → dep ∈ visited1)
    as (Hs1 & Hsub & Hdeps).
  { split_and!; [|set_solver|left]. constructor; [|done]. unfold deps_of. by rewrite Ed. }
  clear Ei Ed. revert visited Hs Hall. induction (td_dependencies d) as [|dep deps IHd];
    intros visited Hs Hall.
  { simplify_eq. split_and!; [done..|]. by intros ? ?%not_elem_of_nil. }
  apply bind_Ok in Hall as (visited2 & Hv2 & Hall).
  apply IH in Hv2 as (Hs2 & Hsub2 & Hdep); [|done].
  apply IHd in Hall as (? & ? & Hdeps); [|done]. split_and!; [done|set_solver|].
  intros x [->|Hx]%elem_of_cons Hdef; [set_solver|auto].
Qed.

Lemma assertAcyclic_sorted ds order :
  assertAcyclic ds = Ok order → sorted_tasks ds order ∧ ∀ d, d ∈ ds → td_task_id d ∈ order.
Proof.
  assert (∀ fuel todo visited order,
    visit_definitions fuel ds todo visited = Ok order → sorted_tasks ds visited →
    (∀ d, d ∈ todo → is_Some (definition_of ds (td_task_id d))) →
    sorted_tasks ds order ∧ visited ⊆ order ∧ ∀ d, d ∈ todo → td_task_id d ∈ order) as Hgen.
  { intros fuel todo. induction todo as [|d todo IH]; intros visited order' Ho Hs Hdef; simpl in Ho.
    { simplify_eq. split_and!; [done..|]. by intros ? ?%not_elem_of_nil. }
    apply bind_Ok in Ho as (visited1 & Hv & Ho).
    apply visit_task_sorted in Hv as (Hs1 & Hsub & Hin); [|done].
    apply IH in Ho as (? & ? & Hall); [|done|intros; apply Hdef; by right].
    split_and!; [done|set_solver|]. intros x [->|Hx]%elem_of_cons; [|auto].
    assert (td_task_id d ∈ visited1) by (apply Hin, Hdef; left). set_solver. }
  unfold assertAcyclic. intros Ho. eapply Hgen in Ho as (Hs & _ & Hin); [done|constructor|].
  intros d Hd. clear -Hd. induction ds as [|e ds IH]; [by apply not_elem_of_nil in Hd|].
  simpl. apply elem_of_cons in Hd as [->|Hd].
  - destruct (definition_of ds _); [done|]. by rewrite String.eqb_refl.
  - by destruct IH as [? ->].
Qed.

(** The recursion is no deeper than the number of definitions. *)
Lemma visit_task_fuel ds fuel : ∀ visiting visited id,
  NoDup visiting → visiting ⊆ map td_task_id ds → length ds < fuel + length visiting →
  visit_task fuel ds visiting visited id ≠ Err OutOfFuel.
Proof.
  induction fuel as [|fuel IH]; intros visiting visited id Hnd Hsub Hlen.
  { exfalso. assert (length visiting ≤ length (map td_task_id ds)) as Hle.
    { by apply submseteq_length, NoDup_submseteq. }
    rewrite length_map in Hle. simpl in Hlen. lia. }
  simpl. destruct (includes visiting id) eqn:Ei; [done|]. apply includes_false in Ei.
  destruct (includes visited id); [done|].
  destruct (definition_of ds id) as [d|] eqn:Ed; [|done].
  apply definition_of_elem in Ed as [Hd <-]. intros [Hv|(? & _ & Hv)]%bind_Err; [|done].
  revert visited Hv. induction (td_dependencies d) as [|dep deps IHd]; intros visited Hv; [done|].
  apply bind_Err in Hv as [Hv|(visited' & _ & Hv)]; [|by eapply IHd].
  revert Hv. apply IH; [by constructor| |simpl; lia].
  intros x [->|Hx]%elem_of_cons; [by apply list_elem_of_fmap_2|auto].
Qed.

(** A task depends on another one. *)
Definition needs (ds : list TaskDefinition) (id dep : string) : Prop := dep ∈ deps_of ds id.

(** A reported cycle is one. *)
Lemma visit_task_cycle ds fuel : ∀ visiting visited id message,
  visit_task fuel ds visiting visited id = Err (PlainError message) →
  (∀ v, v ∈ visiting → tc (needs ds) v id) → ∃ x, tc (needs ds) x x.
Proof.
  induction fuel as [|fuel IH]; [done|]. intros visiting visited id message Hv Hpath. simpl in Hv.
  destruct (includes visiting id) eqn:Ei; [apply includes_true in Ei; eauto|].
  destruct (includes visited id); [done|]. destruct (definition_of ds id) as [d|] eqn:Ed; [|done].
  apply bind_Err in Hv as [Hv|(? & _ & Hv)]; [|done].
  assert (∀ dep, dep ∈ td_dependencies d → ∀ v, v ∈ id :: visiting → tc (needs ds) v dep) as Hnext.
  { intros dep Hdep v Hin. assert (needs ds id dep) as Hn by (unfold needs, deps_of; by rewrite Ed).
    apply elem_of_cons in Hin as [->|Hin]; [by apply tc_once|]. eapply tc_r; [by apply Hpath|done]. }
  clear Ed. revert visited Hv. induction (td_dependencies d) as [|dep deps IHd]; intros visited Hv; [done|].
  apply bind_Err in Hv as [Hv|(visited' & _ & Hv)].
  - eapply IH; [exact Hv|]. apply Hnext. left.
  - eapply IHd; [|exact Hv]. intros x Hx. apply Hnext. by right.
Qed.

Lemma visit_task_error ds fuel : ∀ visiting visited id e,
  visit_task fuel ds visiting visited id = Err e →
  e = OutOfFuel ∨ e = PlainError "dependency_cycle".
Proof.
  induction fuel as [|fuel IH]; intros visiting visited id e Hv; [naive_solver|]. simpl in Hv.
  destruct (includes visiting id); [naive_solver|]. destruct (includes visited id); [done|].
  destruct (definition_of ds id) as [d|]; [|done].
  apply bind_Err in Hv as [Hv|(? & _ & Hv)]; [|done]. revert visited Hv.
  induction (td_dependencies d) as [|dep deps IHd]; intros visited Hv; [done|].
  apply bind_Err in Hv as [Hv|(visited' & _ & Hv)]; eauto.
Qed.

(** The check ends, with an order or with a cycle. *)
Lemma assertAcyclic_total ds :
  (∃ order, assertAcyclic ds = Ok order) ∨
  (∃ x, tc (needs ds) x x) ∧ assertAcyclic ds = Err (PlainError "dependency_cycle").
Proof.
  unfold assertAcyclic.
  enough (∀ todo visited,
    (∃ order, visit_definitions (S (S (length ds))) ds todo visited = Ok order) ∨
    (∃ x, tc (needs ds) x x) ∧
    visit_definitions (S (S (length ds))) ds todo visited = Err (PlainError "dependency_cycle"))
    as Hgen by apply Hgen.
  induction todo as [|d todo IH]; intros visited; [left; by eexists|]. cbn [visit_definitions].
  destruct (visit_task _ ds [] visited (td_task_id d)) as [visited'|e] eqn:Ev; cbn [bind]; [apply IH|].
  right. destruct (visit_task_error _ _ _ _ _ _ Ev) as [-> | ->].
  - exfalso. revert Ev. apply visit_task_fuel; [constructor|by intros ? ?%not_elem_of_nil|simpl; lia].
  - split; [|done]. eapply visit_task_cycle; [exact Ev|]. by intros ? ?%not_elem_of_nil.
Qed.

(** *** Reconciliation *)

Lemma reconcile_definitions_spec now ds : ∀ seen tasks changed tasks' changed',
  reconcile_definitions now seen tasks changed ds = Ok (tasks', changed') →
  NoDup (map td_task_id ds) ∧ (∀ id, id ∈ seen → id ∉ map td_task_id ds) ∧
  (∀ d, d ∈ ds → ∃ t, tasks' !! td_task_id d = Some t ∧ tk_dependencies t = td_dependencies d) ∧
  (∀ id, id ∉ map td_task_id ds → tasks' !! id = tasks !! id).
Proof.
  induction ds as [|d ds IH]; intros seen tasks changed tasks' changed' Hr; simpl in Hr.
  { simplify_eq. split_and!; [constructor|set_solver| |done]. by intros ? ?%not_elem_of_nil. }
  destruct (includes seen _) eqn:Eseen; [done|]. apply includes_false in Eseen.
  apply bind_Ok in Hr as ([tasks1 changed1] & H1 & Hr).
  apply IH in Hr as (Hnd & Hseen & Hall & Hother). cbn [map].
  assert (td_task_id d ∉ map td_task_id ds) as Hnew by (apply Hseen; left).
  assert (∃ t, tasks1 !! td_task_id d = Some t ∧ tk_dependencies t = td_dependencies d) as Hown.
  { unfold reconcile_definition in H1. destruct (tasks !! td_task_id d) as [t|] eqn:Et.
    - destruct (_ && _); [done|]. destruct (same_metadata d t) eqn:Em; simplify_eq.
      + exists t. split; [done|]. unfold same_metadata in Em. by split_bools.
      + eexists. by rewrite lookup_insert_eq.
    - apply bind_Ok in H1 as (f & _ & [= <- <-]). eexists. by rewrite lookup_insert_eq. }
  assert (∀ id, id ≠ td_task_id d → tasks1 !! id = tasks !! id) as Hkeep.
  { intros id Hne. unfold reconcile_definition in H1. destruct (tasks !! td_task_id d) as [t|].
    - destruct (_ && _); [done|]. destruct (same_metadata d t); simplify_eq; [done|].
      by rewrite lookup_insert_ne.
    - apply bind_Ok in H1 as (f & _ & [= <- <-]). by rewrite lookup_insert_ne. }
  split_and!.
  - by constructor.
  - intros id Hid [->|Hin]%elem_of_cons; [done|]. eapply Hseen; [by right|done].
  - intros e [->|He]%elem_of_cons; [|auto]. destruct Hown as (t & Ht & Hd). exists t.
    by rewrite Hother.
  - intros id Hid. rewrite Hother by set_solver. apply Hkeep. set_solver.
Qed.

(** *** What a tick waits for *)

(** The task is in flight, or its way on lies with someone else. *)
Definition held (s : TaskState) : bool :=
  ACTIVE_STATES s || match s with
  | TkWaitingForUser | TkRetryQueued | TkVerifying | TkFailed | TkCancelled => true
  | _ => false
  end.

Lemma select_tasks_fresh s now o limit sel :
  selectDispatches s now limit = Ok sel → timestamp now None = Ok o →
  ks_tasks (sl_state sel) = refresh_all (ks_tasks s) o ∧
  (∀ id t, ks_tasks (sl_state sel) !! id = Some t →
     refresh_record (ks_tasks (sl_state sel)) o t = None) ∧
  (1 <= ks_max_concurrent (sl_state sel))%Z.
Proof.
  unfold selectDispatches. destruct (limit <? 0)%Z; [done|]. intros (s1 & H1 & Hr)%bind_Ok Ho.
  apply bind_Ok in Hr as (s2 & H2 & [= <-]). cbn [sl_state].
  unfold normalizeState in H1. cbn [positiveInteger] in H1.
  destruct (ks_max_concurrent s <? 1)%Z eqn:Em; [done|]. apply Z.ltb_ge in Em. cbn [bind] in H1.
  apply bind_Ok in H1 as (ids & _ & [= <-]).
  rewrite refreshEligibility_spec, Ho in H2. cbn [bind] in H2.
  assert (ks_tasks s2 = refresh_all (ks_tasks s) o ∧ (1 <= ks_max_concurrent s2)%Z) as [Ht Hm].
  { injection H2 as <-. by destruct (some_refreshed _ _). }
  split_and!; [done| |done]. intros id t. rewrite Ht. unfold refresh_all at 1. rewrite lookup_fmap.
  intros (u & _ & ->)%fmap_Some. apply refresh_again.
Qed.

(** A task that is not held, with nothing left to wait for, is eligible. *)
Lemma ready_eligible tasks o t :
  refresh_record tasks o t = None → held (tk_state t) = false → tk_state t ≠ TkAccepted →
  (∀ dep, dep ∈ tk_dependencies t → tk_state <$> tasks !! dep = Some TkAccepted) →
  tk_state t = TkEligible.
Proof.
  intros Hr Hh Hna Hdeps.
  assert (∀ p : option TaskState → bool, p (Some TkAccepted) = false →
    filter (λ id, p (tk_state <$> tasks !! id) = true) (tk_dependencies t) = []) as Hnil.
  { intros p Hp. destruct (filter _ _) as [|x l] eqn:E; [done|]. exfalso.
    assert (x ∈ filter (λ id, p (tk_state <$> tasks !! id) = true) (tk_dependencies t)) as Hx
      by (rewrite E; left).
    apply list_elem_of_filter in Hx as [Hx Hin]. rewrite (Hdeps _ Hin) in Hx. congruence. }
  assert (dependencyStatus tasks t
    = {| ds_missing := []; ds_unresolved := []; ds_terminalBlockers := [] |}) as Hstatus.
  { unfold dependencyStatus. f_equal.
    - exact (Hnil (λ s, match s with None => true | _ => false end) eq_refl).
    - exact (Hnil (λ s, match s with Some s => negb (TERMINAL_STATES s) | None => false end) eq_refl).
    - exact (Hnil (λ s, match s with Some TkFailed | Some TkCancelled => true | _ => false end)
        eq_refl). }
  unfold refresh_record in Hr. rewrite Hstatus in Hr.
  assert (refresh_skips o t = false) as Hs.
  { unfold refresh_skips. revert Hh Hna. by destruct (tk_state t). }
  rewrite Hs in Hr. unfold desired in Hr.
  cbn [ds_missing ds_unresolved ds_terminalBlockers nonempty_list orb] in Hr.
  destruct (bool_decide (tk_state t = TkEligible)) eqn:E; [by apply bool_decide_eq_true in E|done].
Qed.

Lemma no_active s :
  (∀ id t, ks_tasks s !! id = Some t → ACTIVE_STATES (tk_state t) = false) → activeCount s = 0%Z.
Proof.
  intros Hall. rewrite activeCount_ids.
  assert (active_ids (ks_tasks s) = ∅) as ->; [|by rewrite size_empty].
  apply set_eq. intros id. rewrite elem_of_active_ids. split; [|set_solver].
  intros (t & Ht & Ha). by rewrite (Hall _ _ Ht) in Ha.
Qed.

(** A free slot and an eligible task make a dispatch. *)
Lemma select_some s now limit sel id t :
  selectDispatches s now limit = Ok sel → (0 < limit)%Z →
  (activeCount (sl_state sel) < ks_max_concurrent (sl_state sel))%Z →
  ks_tasks (sl_state sel) !! id = Some t → tk_state t = TkEligible → sl_dispatches sel ≠ [].
Proof.
  unfold selectDispatches. destruct (limit <? 0)%Z; [done|]. intros (s1 & _ & Hr)%bind_Ok.
  apply bind_Ok in Hr as (s2 & _ & [= <-]). cbn [sl_state sl_dispatches]. intros Hl Hfree Hid He.
  set (sorted := isort _ _).
  assert (t ∈ sorted) as Hin.
  { unfold sorted. rewrite isort_elem_of. unfold eligible_tasks. apply list_elem_of_filter.
    split; [done|]. apply elem_of_values. by exists id. }
  destruct sorted as [|u l]; [by apply not_elem_of_nil in Hin|].
  destruct (Z.to_nat _) as [|n] eqn:En; [lia|]. done.
Qed.

(** What a reconciliation with definitions of every task establishes. *)
Lemma reconcile_covers s items ds now s1 :
  reconcileTasks s (JArr items) now = Ok s1 → mapR normalizeTaskDefinition items = Ok ds →
  (∀ id, id ∈ dom (ks_tasks s) → id ∈ map td_task_id ds) →
  (∃ order, sorted_tasks ds order ∧ ∀ id, is_Some (definition_of ds id) → id ∈ order) ∧
  (∀ id t, ks_tasks s1 !! id = Some t →
     is_Some (definition_of ds id) ∧ tk_dependencies t = deps_of ds id) ∧
  (∀ id, id ∈ map td_task_id ds → is_Some (ks_tasks s1 !! id) ∧ is_Some (definition_of ds id)).
Proof.
  unfold reconcileTasks. intros (s2 & H2 & Hr)%bind_Ok Hds Hcover.
  assert (ks_tasks s2 = ks_tasks s) as Hs2.
  { unfold normalizeState in H2. apply bind_Ok in H2 as (m & _ & H2).
    by apply bind_Ok in H2 as (ids & _ & [= <-]). }
  rewrite Hds in Hr. cbn [bind] in Hr. apply bind_Ok in Hr as (order & Hord & Hr).
  apply bind_Ok in Hr as ([tasks changed] & Hd & Hr). apply bind_Ok in Hr as (s3 & H3 & Hr).
  assert (ks_tasks s3 = tasks) as Hs3.
  { destruct changed; [apply bind_Ok in H3 as (u & _ & [= <-])|injection H3 as <-]; done. }
  rewrite refreshEligibility_spec in Hr. apply bind_Ok in Hr as (o & _ & [= <-]).
  apply reconcile_definitions_spec in Hd as (Hnd & _ & Hall & Hother).
  apply assertAcyclic_sorted in Hord as [Hsorted Hin].
  assert (∀ id, id ∈ map td_task_id ds → ∃ d, d ∈ ds ∧ td_task_id d = id ∧ definition_of ds id = Some d)
    as Hdef.
  { intros id (d & -> & Hd)%list_elem_of_fmap. exists d. by rewrite definition_of_unique. }
  assert (∀ (A : Type) (f : gmap string Task → A),
    f (ks_tasks (if some_refreshed (ks_tasks s3) o
       then revise (match o with Some t => Some t | None => ks_updated_at s3 end)
              (set_tasks (refresh_all (ks_tasks s3) o) s3)
       else set_tasks (refresh_all (ks_tasks s3) o) s3)) = f (refresh_all tasks o)) as Hrefresh.
  { intros A f. rewrite Hs3. by destruct (some_refreshed _ _). }
  split_and!.
  - exists order. split; [done|]. intros id [d Hd]. apply definition_of_elem in Hd as [Hd <-]. auto.
  - intros id t. rewrite (Hrefresh _ (λ m, m !! id)). unfold refresh_all. rewrite lookup_fmap.
    intros (u & Hu & ->)%fmap_Some.
    assert (id ∈ map td_task_id ds) as Hid.
    { destruct (decide (id ∈ map td_task_id ds)) as [|Hno]; [done|]. apply Hcover, elem_of_dom.
      rewrite (Hother _ Hno), Hs2 in Hu. eauto. }
    destruct (Hdef _ Hid) as (d & Hd & Hdid & Hdd). split; [eauto|].
    destruct (Hall _ Hd) as (v & Hv & Hvd). rewrite Hdid, Hu in Hv. injection Hv as <-.
    unfold deps_of. rewrite Hdd. simpl. rewrite <- Hvd.
    by destruct (refresh_one_waits tasks o u).
  - intros id Hid. destruct (Hdef _ Hid) as (d & Hd & Hdid & Hdd). split; [|eauto].
    destruct (Hall _ Hd) as (v & Hv & _). rewrite Hdid in Hv.
    rewrite (Hrefresh _ (λ m, is_Some (m !! id))). unfold refresh_all. rewrite lookup_fmap, Hv. eauto.
Qed.

(** C16: An idle tick has a reason.  When every task of the state is defined by the definitions
    of a tick, and these depend only on each other - that they do so without a cycle is what the
    kernel itself checks - a plan with a positive limit that announces no dispatch means that every
    task is accepted, or that some task is held: in flight, in verification, waiting for the user or
    for a retry, failed or cancelled. *)
Theorem idle_tick_has_a_reason s items ds now clock limit plan :
  mapR normalizeTaskDefinition items = Ok ds →
  (∀ d dep, d ∈ ds → dep ∈ td_dependencies d → dep ∈ map td_task_id ds) →
  (∀ id, id ∈ dom (ks_tasks s) → id ∈ map td_task_id ds) →
  planDispatchTick s (JArr items) now clock limit = Ok plan →
  (0 < limit)%Z → tp_dispatches plan = [] →
  (∀ id t, ks_tasks (tp_state plan) !! id = Some t → tk_state t = TkAccepted) ∨
  (∃ id t, ks_tasks (tp_state plan) !! id = Some t ∧ held (tk_state t) = true).
Proof.
  intros Hds Hknown Hcover Hplan Hlimit Hnone. unfold planDispatchTick in Hplan.
  apply bind_Ok in Hplan as (at_ & Hat & Hplan). apply bind_Ok in Hplan as (s1 & Hs1 & Hplan).
  apply bind_Ok in Hplan as (sel & Hsel & Hplan). apply bind_Ok in Hplan as (planned & Hp & [= <-]).
  cbn [tp_dispatches tp_state] in *. subst planned.
  assert (sl_dispatches sel = []) as Hno by (apply mapR_length in Hp; by destruct (sl_dispatches sel)).
  destruct (select_tasks_fresh _ _ _ _ _ Hsel (timestamp_iso _ _ (new_date_range _ _ Hat)))
    as (Htasks & Hfresh & Hmax).
  destruct (reconcile_covers _ _ _ _ _ Hs1 Hds Hcover) as ((order & Hsorted & Horder) & Hdeps & Hall).
  set (tasks := ks_tasks (sl_state sel)) in *.
  assert (∀ id t, tasks !! id = Some t →
    is_Some (definition_of ds id) ∧ tk_dependencies t = deps_of ds id) as Hdeps2.
  { intros id t. rewrite Htasks. unfold refresh_all. rewrite lookup_fmap.
    intros (u & Hu & ->)%fmap_Some. destruct (Hdeps _ _ Hu) as [? <-]. split; [done|].
    by destruct (refresh_one_waits (ks_tasks s1) (Some at_) u). }
  set (open id := match tasks !! id with
                  | Some t => negb (bool_decide (tk_state t = TkAccepted)) | None => false end).
  destruct (decide (map_Exists (λ _ t, held (tk_state t) = true) tasks)) as [(id & t & Ht & Hh)|Hheld];
    [right; eauto|left].
  assert (∀ id t, tasks !! id = Some t → held (tk_state t) = false) as Hfree.
  { intros id t Ht. apply not_true_iff_false. intros Hh. apply Hheld. by exists id, t. }
  destruct (existsb open order) eqn:Eopen.
  - exfalso. destruct (sorted_tasks_least _ _ _ Hsorted Eopen) as (id & _ & Hid & Hleast).
    unfold open in Hid. destruct (tasks !! id) as [t|] eqn:Et; [|done]. split_bools.
    destruct (Hdeps2 _ _ Et) as [[d Hd] Htd].
    assert (tk_state t = TkEligible) as He.
    { eapply ready_eligible; [by eapply Hfresh|by eapply Hfree|done|]. intros dep Hdep.
      assert (dep ∈ map td_task_id ds) as Hdepin.
      { rewrite Htd in Hdep. unfold deps_of in Hdep. rewrite Hd in Hdep.
        apply definition_of_elem in Hd as [Hd _]. eauto. }
      destruct (Hall _ Hdepin) as [[u Hu] Hdd].
      pose proof (Hleast dep) as Hl. rewrite <- Htd in Hl. specialize (Hl Hdep Hdd).
      unfold open in Hl. fold tasks. rewrite Htasks in *. unfold refresh_all in *.
      rewrite lookup_fmap, Hu in *. simpl in *. split_bools. by rewrite Hl. }
    eapply select_some; [exact Hsel|exact Hlimit| |exact Et|exact He|exact Hno].
    rewrite no_active; [lia|]. intros j u Hu. apply Hfree in Hu. unfold held in Hu.
    by apply orb_false_iff in Hu as [? _].
  - intros id t Ht. destruct (Hdeps2 _ _ Ht) as [Hdef _].
    destruct (bool_decide (tk_state t = TkAccepted)) eqn:E; [by apply bool_decide_eq_true in E|].
    apply not_true_iff_false in Eopen. destruct Eopen. apply existsb_exists. exists id.
    split; [by apply list_elem_of_In, Horder|]. unfold open. rewrite Ht. by rewrite E.
Qed.
End Progress.

(** ** A concrete kernel *)

Module KernelSample.
#[local] Existing Instance checksum_sha.

#[local] Instance sample_locale : Locale := {
  parse_other_date _ := None;
  coerce_date _ := None;
  localeCompare s1 s2 :=
    (if String.eqb s1 s2 then 0 else if String.leb s1 s2 then -1 else 1)%Z;
}.

Definition now0 : json := JStr "2026-01-01T00:00:00.000Z".
Definition task (id : string) (deps : list string) : json :=
  JObj [("task_id", JStr id); ("dependencies", JArr (map JStr deps))].

(** Two tasks at a time; the last of four waits for the others. *)
Definition sample_items : list json :=
  [task "build" []; task "lint" []; task "docs" []; task "ship" ["build"; "lint"; "docs"]].
Definition sample_tasks : json := JArr sample_items.

Lemma kernel0_ok : is_ok (createKernelState (JInt 2) JUndef) = true.
Proof. vm_compute. reflexivity. Defined.
Definition kernel0 : KernelState := ok_get _ kernel0_ok.

Lemma definitions_ok : is_ok (mapR normalizeTaskDefinition sample_items) = true.
Proof. vm_compute. reflexivity. Defined.
Definition sample_definitions : list TaskDefinition := ok_get _ definitions_ok.

Lemma sample_brings_idle : tasks_admitted idle sample_tasks.
Proof.
  intros items ds [= <-] Hds. rewrite (ok_get_eq _ definitions_ok) in Hds. injection Hds as <-.
  vm_compute. repeat constructor.
Qed.

(** One start succeeds, the other one fails. *)
Definition sample_adapter (d : Dispatch) : res Outcome :=
  Ok (if String.eqb (dp_task_id d) "build"
      then Fulfilled (JObj [("thread_id", JStr "thread-1")]) else Rejected "no such model").

Definition event (id type task_id : string) : json :=
  JObj [("event_id", JStr id); ("type", JStr type); ("task_id", JStr task_id);
        ("observed_at", JStr "2026-01-01T00:00:05.000Z")].

Definition tick : operation := OTick sample_adapter sample_tasks now0 0 10 default_retry.
Definition finish_build : list operation :=
  [OEvent (event "e1" "turn_started" "build"); OEvent (event "e2" "turn_completed" "build");
   OEvent (event "e3" "verification_accepted" "build")].

(** The sample really runs: a started and a requeued task, then an accepted one. *)
Example sample_states :
  (λ s, (activeCount s, map (λ id, tk_state <$> ks_tasks s !! id) ["build"; "docs"; "lint"; "ship"]))
    <$> [run kernel0 [tick]; run kernel0 (tick :: finish_build)]
  = [(1%Z, [Some TkDispatching; Some TkRetryQueued; Some TkEligible; Some TkWaitingForDependency]);
     (0%Z, [Some TkAccepted; Some TkRetryQueued; Some TkEligible; Some TkWaitingForDependency])].
Proof. vm_compute. reflexivity. Qed.

Definition busy_run : list operation :=
  [tick; OEvent (event "e1" "turn_started" "build"); tick].

Lemma kernel_stays_bounded_witness :
  let s := run kernel0 busy_run in
  Forall (brings idle) busy_run ∧ (activeCount s <= 2)%Z ∧ activeCount s = 1%Z.
Proof.
  assert (Forall (brings idle) busy_run) as Hb by (repeat constructor; apply sample_brings_idle).
  split_and!; [exact Hb| |vm_compute; reflexivity].
  apply (kernel_stays_bounded (JInt 2) JUndef kernel0 _ (ok_get_eq _ kernel0_ok) Hb).
Defined.

Lemma finished_and_applied_stay_witness :
  let s := run kernel0 (tick :: finish_build) in
  applyKernelEvent (run s [tick]) (event "e3" "task_failed" "build") = Ok (sorted_ids (run s [tick])).
Proof.
  destruct (finished_and_applied_stay (JInt 2) JUndef kernel0 (tick :: finish_build) [tick]
    (ok_get_eq _ kernel0_ok)) as [_ Happlied].
  assert (is_ok (normalizeEvent (event "e3" "task_failed" "build")) = true) as He
    by (vm_compute; reflexivity).
  apply (Happlied _ _ (ok_get_eq _ He)). apply (bool_decide_unpack _). vm_compute. exact I.
Defined.

Lemma plan_ok : is_ok (planDispatchTick (run kernel0 []) sample_tasks now0 0 10) = true.
Proof. vm_compute. reflexivity. Defined.
Definition sample_plan : TickPlan := ok_get _ plan_ok.

Lemma outcomes_ok : is_ok (mapR sample_adapter (tp_dispatches sample_plan)) = true.
Proof. vm_compute. reflexivity. Defined.
Definition sample_outcomes : list Outcome := ok_get _ outcomes_ok.

Lemma tick_carries_out_the_plan_witness :
  length sample_outcomes = 2 ∧
  ∃ r, runDispatchTick sample_adapter (run kernel0 []) sample_tasks now0 0 10 default_retry = Ok r ∧
    Forall (landed (tr_state r)) (zip sample_outcomes (tp_dispatches sample_plan)).
Proof.
  split; [vm_compute; reflexivity|].
  destruct (tick_carries_out_the_plan (JInt 2) JUndef kernel0 [] sample_tasks now0 0 10 sample_plan
    sample_adapter sample_outcomes default_retry (ok_get_eq _ kernel0_ok) (ok_get_eq _ plan_ok)
    (ok_get_eq _ outcomes_ok)) as (r & Hr & _ & Hl).
  - vm_compute. reflexivity.
  - vm_compute. reflexivity.
  - apply (bool_decide_unpack _). vm_compute. exact I.
  - exists r. split; [exact Hr|exact Hl].
Defined.

(** After the tick nothing can start: the reason is a task in flight. *)
Definition busy : KernelState := run kernel0 [tick; OTick sample_adapter sample_tasks now0 0 10 default_retry].

Lemma stalled_plan_ok : is_ok (planDispatchTick busy sample_tasks now0 0 10) = true.
Proof. vm_compute. reflexivity. Defined.
Definition stalled_plan : TickPlan := ok_get _ stalled_plan_ok.

Lemma idle_tick_has_a_reason_witness :
  tp_dispatches stalled_plan = [] ∧
  ((∀ id t, ks_tasks (tp_state stalled_plan) !! id = Some t → tk_state t = TkAccepted) ∨
   (∃ id t, ks_tasks (tp_state stalled_plan) !! id = Some t ∧ held (tk_state t) = true)).
Proof.
  assert (tp_dispatches stalled_plan = []) as Hnone by (vm_compute; reflexivity).
  split; [exact Hnone|].
  apply (idle_tick_has_a_reason busy sample_items sample_definitions now0 0 10 stalled_plan).
  - apply (ok_get_eq _ definitions_ok).
  - assert (forallb (λ d, forallb (λ dep, bool_decide (dep ∈ map td_task_id sample_definitions))
      (td_dependencies d)) sample_definitions = true) as Hall by (vm_compute; reflexivity).
    intros d dep Hd Hdep. rewrite forallb_forall in Hall.
    specialize (Hall d (proj1 (list_elem_of_In _ _) Hd)). rewrite forallb_forall in Hall.
    eapply bool_decide_eq_true_1, Hall. by apply list_elem_of_In.
  - assert (set_Forall (λ id, id ∈ map td_task_id sample_definitions) (dom (ks_tasks busy))) as Hall.
    { apply (bool_decide_unpack _). vm_compute. exact I. }
    exact Hall.
  - apply (ok_get_eq _ stalled_plan_ok).
  - reflexivity.
  - exact Hnone.
Defined.

(** Only the definitions at hand are checked for cycles: two reconciliations leave a cycle in the
    state, and its tasks wait for each other. *)
Example cycle_through_two_reconciliations :
  let s := run kernel0 [OReconcile (JArr [task "a" ["b"]]) now0; OReconcile (JArr [task "b" ["a"]]) now0] in
  map (λ id, (tk_state <$> ks_tasks s !! id, tk_dependencies <$> ks_tasks s !! id)) ["a"; "b"]
  = [(Some TkWaitingForDependency, Some ["b"]); (Some TkWaitingForDependency, Some ["a"])].
Proof. vm_compute. reflexivity. Qed.

(** A start that is rejected without a message makes the whole tick throw, after the other starts
    were made. *)
Example silent_rejection_loses_the_tick :
  runDispatchTick (λ d, Ok (if String.eqb (dp_task_id d) "build" then Fulfilled JNull else Rejected ""))
    kernel0 sample_tasks now0 0 10 default_retry = Err TypeError.
Proof. vm_compute. reflexivity. Qed.

(** A retry that is reported due without a time is not held back. *)
Example retry_due_without_time :
  tk_state <$> ks_tasks (run kernel0 [tick;
    OEvent (JObj [("event_id", JStr "r1"); ("type", JStr "retry_due"); ("task_id", JStr "docs")])])
    !! "docs" = Some TkEligible.
Proof. vm_compute. reflexivity. Qed.
End KernelSample.
