(* ===== verification/CutoverBoundary.v ===== *)
(** The provider-settlement cutover, execution
    ([packages/business-orchestrator/src/provider-settlement-cutover-boundary.js], lines 413-432 and
    1123-1520): a system principal activates the second settlement contract.  The projection is
    replayed, authorised and assessed; the two-event batch of [Cutover] is built from it,
    prevalidated, and committed at the revision it was assessed at.  A lost race is assessed again;
    an uncertain commit is settled by reading the receipt back.

    The store, the authoriser, the resolver of readiness, the projection adapter and the clock are
    injected by the code and are parameters here.  The computations are those of the command
    boundary: an awaited call is a point at which other processes may act, and what is asked of the
    store is recorded. *)

From Stdlib Require Import ZArith Lia String.
From stdpp Require Import base tactics list strings option.
From S2P Require Import Prelude JsString JsDate Json JsonText JsonCanon SettlementPolicy.
From S2P Require Import ContractBase WorkOrderFacts PlanContract CommandBoundary CommandLaws.
From S2P Require Import CommandWitnesses Cutover.

Abbreviation raise := CommandBoundary.throw.
Abbreviation CUTOVER code := (BusinessProviderSettlementCutoverBoundaryError code) (only parsing).
Abbreviation PREVALIDATION_INVALID :=
  "BUSINESS_PROVIDER_SETTLEMENT_CUTOVER_PREVALIDATION_INVALID" (only parsing).
Abbreviation CAS_EXHAUSTED :=
  "BUSINESS_PROVIDER_SETTLEMENT_CUTOVER_GLOBAL_CAS_EXHAUSTED" (only parsing).

(** The event store, as the boundary sees it; [cs_others] is what other processes do to it before
    a call. *)
Class CutoverStore (S : Type) := {
  cs_replay : nat → S → res json;
  cs_commit : nat → json → S → res json * S;
  cs_others : nat → S → S;
}.

(** The injected services, by the number of the call. *)
Class CutoverServices := {
  cv_authenticate : nat → json → res json;
  cv_authorize : nat → string → CutoverEnvelope → json → json → res json;
  cv_resolveReadiness : nat → CutoverEnvelope → string → json → ProjectedReadiness → res json;
  cv_prevalidate : nat → json → json → Epoch → res json;
  cv_clock : nat → json;
  cv_aborted : nat → bool;
  cv_interruption : nat → option Interruption;
  cv_maxGlobalCasRetries : nat;
}.

(** ** Replay *)

Definition MAX_PROJECTION_BYTES : Z := 64 * 1024 * 1024.

Definition normalizeReplay (value : json) : res json :=
  let state := prop "state" value in
  let sequence := prop "journal_sequence" (prop "watermark" value) in
  unless is_object value && is_object state && is_object (prop "watermark" value)
      && match sequence with JInt z => is_safe_integer z && (0 <=? z)%Z | _ => false end
      && forallb (λ k, is_object (prop k state))
           ["work_orders"; "command_receipts"; "observation_receipts"; "internal_receipts"; "outbox"]
      && is_int (prop "schema_version" state) PROVIDER_SETTLEMENT_CUTOVER_PROJECTION_SCHEMA_VERSION
      && match state with JObj fs => has_own fs "provider_settlement_epoch" | _ => false end
    throw PROJECTION_INVALID in
  Ok value.

Definition immutableProjectionSnapshot (value : json) : res json :=
  match canonicalJson value with
  | Err _ => boundaryError PROJECTION_INVALID
  | Ok serialized =>
      unless (utf8Bytes serialized <=? MAX_PROJECTION_BYTES)%Z throw PROJECTION_INVALID in
      Ok (canon value)
  end.

(** The projection and its watermark, as the boundary works with them. *)
Definition replayed_snapshot (value : json) : res (json * json) :=
  let* replay := normalizeReplay value in
  let* state := immutableProjectionSnapshot (prop "state" replay) in
  let* watermark := canonicalClone (prop "watermark" replay) PROJECTION_INVALID in
  Ok (state, watermark).

Definition evidence_json (r : ReadinessEvidence) : json :=
  JObj [("readiness_assessment_ref", content_ref_json (re_readiness_assessment_ref r));
        ("assessment", assessment_json (re_projected_readiness r))].

(** [error instanceof BusinessProviderSettlementCutoverBoundaryError] stays as it is, any other
    error is reported under [code]. *)
Definition reported (code : string) (e : error) : error :=
  match e with
  | BusinessProviderSettlementCutoverBoundaryError c => CUTOVER c
  | _ => CUTOVER code
  end.

(** [error?.code === code] *)
Definition code_is (code : string) (e : error) : bool :=
  match e with
  | EventStoreError c | SystemError c | BusinessProviderSettlementCutoverBoundaryError c =>
      String.eqb c code
  | _ => false
  end.

Definition race_lost (e : error) : bool :=
  code_is "EVENT_REVISION_CONFLICT" e || code_is "EVENT_LOCK_BUSY" e.

Section Execute.
Context `{Sha256}.
Context {Store : Type} {store : CutoverStore Store} {services : CutoverServices}.
Abbreviation io := (M Store).

(** Other processes act, and a call passes. *)
Definition passes (w : World Store) : World Store :=
  MkWorld (cs_others (w_time w) (w_store w)) (S (w_time w)) (w_commits w).

Definition throwIfAborted : io unit :=
  λ w, (if cv_aborted (w_time w)
        then boundaryError "BUSINESS_PROVIDER_SETTLEMENT_CUTOVER_ABORTED" else Ok tt, w).

(** [callDependency(name, invoke, externalSignal, timeoutMs)]; without a signal nothing aborts. *)
Definition callDependency {A} (signal : bool) (invoke : nat → Store → res A) : io A := λ w,
  if signal && cv_aborted (w_time w)
  then (boundaryError "BUSINESS_PROVIDER_SETTLEMENT_CUTOVER_ABORTED", w)
  else
    let w' := passes w in
    (match cv_interruption (w_time w), signal with
     | Some Aborts, true => boundaryError "BUSINESS_PROVIDER_SETTLEMENT_CUTOVER_ABORTED"
     | Some TimesOut, _ => boundaryError "BUSINESS_PROVIDER_SETTLEMENT_CUTOVER_DEPENDENCY_TIMEOUT"
     | _, _ => invoke (w_time w) (w_store w')
     end, w').

(** [try { ... await callDependency(...) ... } catch (error) { ... }]: the answer is read inside the
    block, and a foreign error is reported under [code]. *)
Definition ask {A B} (code : string) (signal : bool) (invoke : nat → Store → res A)
    (read : A → res B) : io B :=
  try_catch (await answer := callDependency signal invoke in lift (read answer))
    (λ e, raise (reported code e)).

Definition replayProjection (signal : bool) : io (json * json) :=
  ask "BUSINESS_PROVIDER_SETTLEMENT_CUTOVER_REPLAY_FAILED" signal cs_replay replayed_snapshot.

(** [eventStore.commit(request)], which is not timed out. *)
Definition commit_cutover (request : json) : io json := λ w,
  let w' := passes w in
  let (answer, s) := cs_commit (w_time w) request (w_store w') in
  (answer, MkWorld s (w_time w') (MkCommit (w_store w') request s :: w_commits w)).

Section Cutover.
Context (cutover : CutoverEnvelope) (principal : string) (identityHash : string).

(** The receipt, read back without a signal. *)
Definition receipt_back : io (option json) :=
  await ' (state, _) := replayProjection false in
  lift (readReceipt state cutover identityHash).

(** The readiness of the projection, as the resolver attests it. *)
Definition assess (state watermark authority : json) : io ReadinessEvidence :=
  await projected := lift (deriveProviderSettlementCutoverReadinessV1 state
    (prop "journal_sequence" watermark)) in
  ask "BUSINESS_PROVIDER_SETTLEMENT_CUTOVER_READINESS_RESOLUTION_FAILED" true
    (λ t _, cv_resolveReadiness t cutover principal authority projected)
    (λ resolved, normalizeProviderSettlementCutoverReadinessEvidenceV1 resolved projected).

Definition clock_time : io string := λ w,
  (match timestamp (cv_clock (w_time w)) with
   | Ok t => Ok t
   | Err _ => boundaryError "BUSINESS_PROVIDER_SETTLEMENT_CUTOVER_CLOCK_INVALID"
   end, w).

(** The candidate projects to the epoch and the receipt it claims. *)
Definition check_candidate (state candidateProjection : json) (candidate : CutoverBatch)
    : res unit :=
  let* _ := assertPrevalidatedCandidate state candidateProjection (cb_epoch candidate) in
  let* projectedResult := readReceipt candidateProjection cutover identityHash in
  match projectedResult with
  | None => boundaryError PREVALIDATION_INVALID
  | Some result =>
      let* equal := same result (cb_result candidate) in
      unless equal throw PREVALIDATION_INVALID in Ok tt
  end.

(** From a projection without a receipt and without an epoch to the batch to commit. *)
Definition prepare_cutover (state watermark authority : json) : io CutoverBatch :=
  await readiness := assess state watermark authority in
  await occurredAt := clock_time in
  await candidate := lift (buildProviderSettlementCutoverBatchV1 (envelope_json cutover)
    (principal_json principal) state (prop "journal_sequence" watermark) (evidence_json readiness)
    (JStr occurredAt)) in
  await candidateProjection := ask "BUSINESS_PROVIDER_SETTLEMENT_CUTOVER_PREVALIDATION_FAILED" true
    (λ t _, cv_prevalidate t state (cb_request candidate) (cb_epoch candidate)) Ok in
  await _ := lift (check_candidate state candidateProjection candidate) in
  ret candidate.

(** The [try] block around the commit. *)
Definition submit_cutover (candidate : CutoverBatch) : io json :=
  await commitResult := commit_cutover (cb_request candidate) in
  await _ := lift (unless is_object commitResult
      && (is_str (prop "status" commitResult) "committed"
          || is_str (prop "status" commitResult) "idempotent")
    throw "BUSINESS_PROVIDER_SETTLEMENT_CUTOVER_EVENT_STORE_RESULT_INVALID" in Ok tt) in
  if is_str (prop "status" commitResult) "idempotent" then
    await stored := receipt_back in
    match stored with
    | Some result => ret result
    | None => raise (CUTOVER "BUSINESS_PROVIDER_SETTLEMENT_CUTOVER_RECEIPT_MISSING")
    end
  else lift (canonicalClone (cb_result candidate) RECEIPT_INVALID).

(** An error without a receipt, under a code of this boundary. *)
Definition commit_failure (e : error) : error :=
  match e with
  | BusinessProviderSettlementCutoverBoundaryError c => CUTOVER c
  | _ =>
      match mapBatchConflict (if code_is "EVENT_BATCH_ID_CONFLICT" e
                              then Some "EVENT_BATCH_ID_CONFLICT" else None) with
      | Some code => CUTOVER code
      | None => CUTOVER "BUSINESS_PROVIDER_SETTLEMENT_CUTOVER_COMMIT_FAILED"
      end
  end.

(** A commit that failed other than by a race: the receipt decides. *)
Definition recover_outcome (e : error) : io json :=
  await stored := try_catch receipt_back (λ replayError,
    if code_is "BUSINESS_PROVIDER_SETTLEMENT_CUTOVER_ID_CONFLICT" replayError
    then raise replayError
    else raise (CUTOVER "BUSINESS_PROVIDER_SETTLEMENT_CUTOVER_COMMIT_OUTCOME_UNKNOWN")) in
  match stored with
  | Some result => ret result
  | None => raise (commit_failure e)
  end.

(** The part of an attempt before the commit: the stored answer, or the batch to commit. *)
Definition attempt_cutover : io (json + CutoverBatch) :=
  await _ := throwIfAborted in
  await ' (state, watermark) := replayProjection true in
  await authority := ask "BUSINESS_PROVIDER_SETTLEMENT_CUTOVER_AUTHORIZATION_DENIED" true
    (λ t _, cv_authorize t principal cutover state watermark)
    (λ answer, normalizeAuthority answer cutover principal) in
  await replayed := lift (readReceipt state cutover identityHash) in
  match replayed with
  | Some result => ret (inl result)
  | None =>
      await _ := lift (unless is_null (prop "provider_settlement_epoch" state)
        throw "BUSINESS_PROVIDER_SETTLEMENT_CUTOVER_ALREADY_ACTIVATED" in Ok tt) in
      await candidate := prepare_cutover state watermark authority in
      await _ := throwIfAborted in
      ret (inr candidate)
  end.

(** The loop over [casAttempt], by the attempts that are left after this one. *)
Fixpoint cutover_attempts (retries : nat) : io json :=
  await prepared := attempt_cutover in
  match prepared with
  | inl result => ret result
  | inr candidate =>
      try_catch (submit_cutover candidate) (λ e,
        if race_lost e then
          match retries with
          | S retries => cutover_attempts retries
          | O => raise (CUTOVER CAS_EXHAUSTED)
          end
        else recover_outcome e)
  end.
End Cutover.

(** [execute(input)] *)
Definition execute_cutover (input : json) : io json :=
  match input with
  | JObj fs =>
      if has_own fs "cutover" then
        await cutover := lift (normalizeProviderSettlementCutoverEnvelopeV1 (get "cutover" fs)) in
        await principal := ask "BUSINESS_PROVIDER_SETTLEMENT_CUTOVER_AUTHENTICATION_FAILED" true
          (λ t _, cv_authenticate t (get "authentication" fs)) normalizePrincipal in
        await _ := lift (unless String.eqb (ce_actor_id cutover) principal
          throw "BUSINESS_PROVIDER_SETTLEMENT_CUTOVER_ACTOR_BINDING_MISMATCH" in Ok tt) in
        await identityHash := lift (cutoverIdentityHash cutover principal) in
        cutover_attempts cutover principal identityHash cv_maxGlobalCasRetries
      else raise TypeError
  | _ => raise TypeError
  end.
End Execute.

(** ** What the boundary relies on

    The store is a log of requests, of which it answers the projection, and to which it appends at
    the revision named or not at all; other processes only append; what is activated stays
    activated; and the projection adapter knows what the store's projection will be. *)

Abbreviation EPOCH := "provider_settlement_epoch" (only parsing).

Class CutoverLaws (Store : Type) {store : CutoverStore Store} {services : CutoverServices} := {
  cl_log : Store → list json;
  cl_project : list json → json;
  cl_others_append t s : cl_log s `prefix_of` cl_log (cs_others t s);
  cl_replay t s v : cs_replay t s = Ok v →
    prop "state" v = cl_project (cl_log s) ∧
    prop "journal_sequence" (prop "watermark" v) = JInt (Z.of_nat (length (cl_log s)));
  cl_commit_step t r s :
    cl_log (cs_commit t r s).2 = cl_log s ∨
    cl_log (cs_commit t r s).2 = cl_log s ++ [r] ∧ asks_for r (length (cl_log s));
  cl_commit_committed t r s v :
    (cs_commit t r s).1 = Ok v → is_str (prop "status" v) "committed" = true →
    cl_log (cs_commit t r s).2 = cl_log s ++ [r];
  cl_commit_idempotent t r s v :
    (cs_commit t r s).1 = Ok v → is_str (prop "status" v) "idempotent" = true →
    cl_log (cs_commit t r s).2 = cl_log s;
  cl_commit_lost t r s e :
    (cs_commit t r s).1 = Err e → race_lost e = true → cl_log (cs_commit t r s).2 = cl_log s;
  cl_epoch_kept l l' : l `prefix_of` l' →
    prop EPOCH (canon (cl_project l)) ≠ JNull → prop EPOCH (canon (cl_project l')) ≠ JNull;
  cl_prevalidate t l request epoch q :
    cv_prevalidate t (canon (cl_project l)) request epoch = Ok q →
    prop EPOCH (canon (cl_project (l ++ [request]))) = canon (prop EPOCH q);
}.

Section Promises.
Context `{Sha256} {Store : Type} {store : CutoverStore Store} {services : CutoverServices}.
Context {laws : CutoverLaws Store}.
Implicit Types (w : World Store).

Abbreviation log w := (cl_log (w_store w)).

(** The second settlement contract is active in the projection of the journal. *)
Definition activated (l : list json) : Prop := prop EPOCH (canon (cl_project l)) ≠ JNull.

(** *** Computations that only wait *)

Record idled w w' : Prop := {
  idled_log : log w `prefix_of` log w';
  idled_commits : w_commits w' = w_commits w;
}.

#[export] Instance idled_preorder : PreOrder idled.
Proof.
  split.
  - intros w. by split.
  - intros w1 w2 w3 [L1 C1] [L2 C2]. split; [by etrans|congruence].
Qed.

Definition idles {A} (m : M Store A) : Prop := ∀ w, idled w (m w).2.

Lemma idles_run {A} (m : M Store A) w r w' : idles m → m w = (r, w') → idled w w'.
Proof. intros Hm E. specialize (Hm w). by rewrite E in Hm. Qed.

Lemma idles_now {A} (f : World Store → res A) : idles (λ w, (f w, w)).
Proof. by intros w. Qed.
Lemma idles_lift {A} (r : res A) : idles (lift r).
Proof. apply idles_now. Qed.
Lemma idles_ret {A} (a : A) : idles (ret a).
Proof. apply idles_now. Qed.
Lemma idles_raise {A} e : idles (raise e : M Store A).
Proof. apply idles_now. Qed.
Lemma idles_then {A B} (m : M Store A) (k : A → M Store B) :
  idles m → (∀ a, idles (k a)) → idles (then_ m k).
Proof.
  intros Hm Hk w. unfold then_. specialize (Hm w). destruct (m w) as [[a|e] w1]; [|done].
  etrans; [exact Hm|apply Hk].
Qed.
Lemma idles_try {A} (m : M Store A) h : idles m → (∀ e, idles (h e)) → idles (try_catch m h).
Proof.
  intros Hm Hk w. unfold try_catch. specialize (Hm w). destruct (m w) as [[a|e] w1]; [done|].
  etrans; [exact Hm|apply Hk].
Qed.
Lemma idles_call {A} signal (invoke : nat → Store → res A) : idles (callDependency signal invoke).
Proof.
  intros w. unfold callDependency. destruct (_ && _); [done|].
  split; [apply cl_others_append|done].
Qed.
Lemma idles_ask {A B} code signal (invoke : nat → Store → res A) (read : A → res B) :
  idles (ask code signal invoke read).
Proof.
  apply idles_try; [|intros e; apply idles_raise].
  apply idles_then; [apply idles_call|intros a; apply idles_lift].
Qed.
End Promises.

Create HintDb idles.
#[export] Hint Resolve idles_lift idles_ret idles_raise idles_call idles_ask idles_now : idles.

Ltac idles_tac :=
  repeat match goal with
  | |- idles (then_ _ _) => apply idles_then; [|intros ?]
  | |- idles (try_catch _ _) => apply idles_try; [|intros ?]
  | |- idles (match ?x with _ => _ end) => destruct x
  | |- idles _ => solve [auto with idles]
  end.

Section Attempts.
Context `{Sha256} {Store : Type} {store : CutoverStore Store} {services : CutoverServices}.
Context {laws : CutoverLaws Store}.
Context (cutover : CutoverEnvelope) (principal : string) (identityHash : string).
Implicit Types (w : World Store).

Abbreviation log w := (cl_log (w_store w)).

Lemma ask_Ok {A B} code signal (invoke : nat → Store → res A) (read : A → res B) w b w' :
  ask code signal invoke read w = (Ok b, w') →
  idled w w' ∧ ∃ answer t, invoke t (w_store w') = Ok answer ∧ read answer = Ok b.
Proof.
  intros E. split; [exact (idles_run _ _ _ _ (idles_ask _ _ _ _) E)|].
  unfold ask, try_catch in E.
  destruct (then_ _ _ w) as [[b'|e] w1] eqn:E1; [|done]. injection E as -> ->.
  apply then_Ok in E1 as (answer & w1 & E1 & E2). apply lift_Ok in E2 as [E2 ->].
  unfold callDependency in E1. destruct (_ && _); [done|].
  injection E1 as E1 <-. exists answer, (w_time w). split; [|done].
  by destruct (cv_interruption _) as [[]|], signal.
Qed.

(** A replay gives the projection of the log as it is then. *)
Lemma replayProjection_Ok signal w state watermark w' :
  replayProjection signal w = (Ok (state, watermark), w') →
  idled w w' ∧ state = canon (cl_project (log w')) ∧
  prop "journal_sequence" watermark = JInt (Z.of_nat (length (log w'))).
Proof.
  intros E. apply ask_Ok in E as (Hi & v & t & Hv & Hr). split; [exact Hi|].
  destruct (cl_replay _ _ _ Hv) as [Hs Hw].
  unfold replayed_snapshot in Hr. apply bind_Ok in Hr as (v' & Hn & Hr).
  unfold normalizeReplay in Hn. destruct (_ && _) in Hn; [|done]. injection Hn as <-.
  apply bind_Ok in Hr as (st & Hst & Hr). apply bind_Ok in Hr as (wm & Hwm & [= <- <-]).
  unfold immutableProjectionSnapshot in Hst. destruct (canonicalJson _) in Hst; [|done].
  destruct (_ <=? _)%Z in Hst; [|done]. injection Hst as <-.
  unfold canonicalClone in Hwm. destruct (canonicalJson _) in Hwm; [|done].
  destruct (_ <=? _)%Z in Hwm; [|done]. injection Hwm as <-. by rewrite Hs.
Qed.

Lemma readReceipt_activated state result :
  readReceipt state cutover identityHash = Ok (Some result) → prop EPOCH state ≠ JNull.
Proof. unfold readReceipt. intros Hr Hn. by rewrite Hn in Hr. Qed.

Lemma idles_receipt : idles (receipt_back (Store := Store) cutover identityHash).
Proof. unfold receipt_back, replayProjection. idles_tac. Qed.

Lemma receipt_back_Ok w result w' :
  receipt_back cutover identityHash w = (Ok (Some result), w') → activated (log w').
Proof.
  unfold receipt_back. intros Hrun. step Hrun sw w1 E1. destruct sw as [state watermark].
  apply replayProjection_Ok in E1 as (_ & -> & _). apply lift_Ok in Hrun as [Hr ->].
  by eapply readReceipt_activated.
Qed.

Lemma idles_recover e : idles (recover_outcome (Store := Store) cutover identityHash e).
Proof.
  unfold recover_outcome. apply idles_then; [|intros []; auto with idles].
  apply idles_try; [apply idles_receipt|]. intros e'. destruct (code_is _ e'); auto with idles.
Qed.

Lemma recover_Ok e w result w' :
  recover_outcome cutover identityHash e w = (Ok result, w') → activated (log w').
Proof.
  unfold recover_outcome. intros Hrun. step Hrun o w1 E1. destruct o as [v|]; [|done].
  injection Hrun as _ <-. unfold try_catch in E1.
  destruct (receipt_back _ _ w) as [[o|e'] w2] eqn:E; [|by destruct (code_is _ e')].
  injection E1 as -> ->. by eapply receipt_back_Ok.
Qed.

(** The authoriser, asked about this cutover and the projection of the journal [l], answered
    [authority], whose fields name this principal, action and cutover. *)
Definition cutover_authorised (l : list json) (authority : json) : Prop :=
  ∃ watermark t answer, prop "journal_sequence" watermark = JInt (Z.of_nat (length l)) ∧
    cv_authorize t principal cutover (canon (cl_project l)) watermark = Ok answer ∧
    normalizeAuthority answer cutover principal = Ok authority.

(** The resolver, asked about the readiness [projected] under that authority, attested exactly it:
    no pending input, no unsafe effect. *)
Definition attested (authority : json) (projected : ProjectedReadiness) (evidence : ReadinessEvidence)
    : Prop :=
  (∃ t answer, cv_resolveReadiness t cutover principal authority projected = Ok answer ∧
    normalizeProviderSettlementCutoverReadinessEvidenceV1 answer projected = Ok evidence) ∧
  same (readiness_json (re_projected_readiness evidence)) (readiness_json projected) = Ok true ∧
  projection_ready (re_projected_readiness evidence) = true.

(** From the authority and the evidence to the batch: the readiness is the one derived from [l], and
    the candidate is built from [l] and the evidence at a time of the clock. *)
Definition built_on (l : list json) (authority : json) (candidate : CutoverBatch) : Prop :=
  ∃ projected evidence occurredAt,
    deriveProviderSettlementCutoverReadinessV1 (canon (cl_project l))
      (JInt (Z.of_nat (length l))) = Ok projected ∧
    attested authority projected evidence ∧
    (∃ t, timestamp (cv_clock t) = Ok occurredAt) ∧
    buildProviderSettlementCutoverBatchV1 (envelope_json cutover) (principal_json principal)
      (canon (cl_project l)) (JInt (Z.of_nat (length l))) (evidence_json evidence) (JStr occurredAt)
      = Ok candidate.

(** Why a batch may be committed: the journal [l] had no epoch, the authoriser granted this cutover
    on it, the batch is built on a readiness of exactly this journal that the resolver attested under
    that authority, it asks to extend exactly [l], and the projection adapter projected it to the
    epoch of the candidate. *)
Record assessed (l : list json) (candidate : CutoverBatch) : Prop := {
  sd_inactive : ¬ activated l;
  sd_granted : ∃ authority, cutover_authorised l authority ∧ built_on l authority candidate;
  sd_asks : asks_for (cb_request candidate) (length l);
  sd_candidate : ∃ t q,
    cv_prevalidate t (canon (cl_project l)) (cb_request candidate) (cb_epoch candidate) = Ok q ∧
    assertPrevalidatedCandidate (canon (cl_project l)) q (cb_epoch candidate) = Ok tt ∧
    prop EPOCH q ≠ JNull;
}.

Lemma assessed_activates l candidate :
  assessed l candidate → activated (l ++ [cb_request candidate]).
Proof.
  intros [_ _ _ (t & q & Hq & _ & Hne)]. unfold activated. rewrite (cl_prevalidate _ _ _ _ _ Hq).
  by destruct (prop EPOCH q).
Qed.

Lemma evidence_ready resolved projected e :
  normalizeProviderSettlementCutoverReadinessEvidenceV1 resolved projected = Ok e →
  same (readiness_json (re_projected_readiness e)) (readiness_json projected) = Ok true ∧
  projection_ready (re_projected_readiness e) = true.
Proof.
  unfold normalizeProviderSettlementCutoverReadinessEvidenceV1. intros (v & _ & Hr)%bind_Ok.
  destruct (_ && _) in Hr; [|done]. apply bind_Ok in Hr as (readiness & _ & Hr).
  destruct (_ && _) in Hr; [|done]. apply bind_Ok in Hr as (equal & He & Hr).
  destruct equal; [|done]. destruct (projection_ready readiness) eqn:Ep; [|done].
  apply bind_Ok in Hr as (h & _ & Hr). apply bind_Ok in Hr as (ref & _ & Hr).
  destruct (String.eqb _ h); [|done]. by injection Hr as <-.
Qed.

Lemma batch_asks c p state n r t candidate :
  buildProviderSettlementCutoverBatchV1 c p state (JInt n) r t = Ok candidate →
  prop "expected_revision" (cb_request candidate) = JInt n.
Proof.
  unfold buildProviderSettlementCutoverBatchV1. intros (cut & _ & Hb)%bind_Ok.
  apply bind_Ok in Hb as (principal' & _ & Hb). destruct (String.eqb _ principal'); [|done].
  apply bind_Ok in Hb as (expected & _ & Hb). apply bind_Ok in Hb as (ready & _ & Hb).
  apply bind_Ok in Hb as (at_ & _ & Hb). apply bind_Ok in Hb as (revision & Hr & Hb).
  unfold integer in Hr. destruct (_ && _) in Hr; [|done]. injection Hr as <-.
  apply bind_Ok in Hb as (ih & _ & Hb). apply bind_Ok in Hb as ([aid act] & _ & Hb).
  apply bind_Ok in Hb as (received & _ & Hb). apply bind_Ok in Hb as (epoch & _ & Hb).
  by injection Hb as <-.
Qed.

Lemma check_candidate_Ok state q candidate :
  check_candidate cutover identityHash state q candidate = Ok tt →
  assertPrevalidatedCandidate state q (cb_epoch candidate) = Ok tt ∧ prop EPOCH q ≠ JNull.
Proof.
  unfold check_candidate. intros ([] & Ha & Hc)%bind_Ok. split; [done|].
  apply bind_Ok in Hc as ([result|] & Hr & Hc); [|done]. by eapply readReceipt_activated.
Qed.

Lemma idles_prepare state watermark authority :
  idles (prepare_cutover (Store := Store) cutover principal identityHash state watermark authority).
Proof. unfold prepare_cutover, assess, clock_time. idles_tac. Qed.
Hint Resolve idles_prepare : idles.

Lemma idles_aborted : idles (throwIfAborted : M Store unit).
Proof. apply idles_now. Qed.

Lemma idles_attempt : idles (attempt_cutover (Store := Store) cutover principal identityHash).
Proof. unfold attempt_cutover, replayProjection, throwIfAborted. idles_tac. Qed.

Lemma assess_Ok l watermark authority w evidence w' :
  prop "journal_sequence" watermark = JInt (Z.of_nat (length l)) →
  assess cutover principal (canon (cl_project l)) watermark authority w = (Ok evidence, w') →
  ∃ projected, deriveProviderSettlementCutoverReadinessV1 (canon (cl_project l))
      (JInt (Z.of_nat (length l))) = Ok projected ∧ attested authority projected evidence.
Proof.
  intros Hseq Hrun. unfold assess in Hrun. step Hrun projected w2 E2.
  apply lift_Ok in E2 as [E2 _]. rewrite Hseq in E2.
  apply ask_Ok in Hrun as (_ & answer & t & Ht & He). exists projected. split; [done|].
  split; [by exists t, answer|by eapply evidence_ready].
Qed.

Lemma clock_time_Ok w occurredAt w' :
  (clock_time : M Store string) w = (Ok occurredAt, w') → ∃ t, timestamp (cv_clock t) = Ok occurredAt.
Proof.
  unfold clock_time. intros [= E _]. exists (w_time w).
  destruct (timestamp (cv_clock (w_time w))); [by injection E as ->|done].
Qed.

(** A prepared batch was assessed on the journal it asks to extend. *)
Lemma prepare_cutover_Ok l watermark authority w candidate w' :
  ¬ activated l → prop "journal_sequence" watermark = JInt (Z.of_nat (length l)) →
  cutover_authorised l authority →
  prepare_cutover cutover principal identityHash (canon (cl_project l)) watermark authority w
    = (Ok candidate, w') → assessed l candidate.
Proof.
  intros Hin Hseq Hauth Hrun. unfold prepare_cutover in Hrun. step Hrun evidence w1 E1.
  apply (assess_Ok l) in E1 as (projected & Hd & Hat); [|exact Hseq].
  step Hrun at_ w3 E3. apply clock_time_Ok in E3.
  step Hrun cand w4 E4. apply lift_Ok in E4 as [E4 _]. rewrite Hseq in E4.
  step Hrun q w5 E5. apply ask_Ok in E5 as (_ & q' & t' & Hq & [= ->]).
  step Hrun u w6 E6. apply lift_Ok in E6 as [E6 _]. destruct u. injection Hrun as -> _.
  apply check_candidate_Ok in E6 as [Hassert Hepoch].
  split; [done| | |by eexists _, _].
  - exists authority. split; [done|]. by exists projected, evidence, at_.
  - unfold asks_for. rewrite (batch_asks _ _ _ _ _ _ _ E4). apply Z.eqb_refl.
Qed.

(** What an attempt comes to before the commit. *)
Lemma attempt_cutover_Ok w a w' :
  attempt_cutover cutover principal identityHash w = (Ok a, w') →
  ∃ l, log w `prefix_of` l ∧ l `prefix_of` log w' ∧
    match a with inl _ => activated l | inr candidate => assessed l candidate end.
Proof.
  intros Hrun. unfold attempt_cutover in Hrun. step Hrun u w1 E1. step Hrun sw w2 E2.
  destruct sw as [state watermark]. pose proof (idles_run _ _ _ _ idles_aborted E1) as [L1 _].
  apply replayProjection_Ok in E2 as ([L2 _] & -> & Hseq). exists (log w2).
  split; [by etrans|]. step Hrun authority w3 E3.
  apply ask_Ok in E3 as ([L3 _] & answer & t & Hanswer & Hauth).
  step Hrun replayed w4 E4. apply lift_Ok in E4 as [E4 ->]. destruct replayed as [result|].
  { injection Hrun as <- <-. split; [done|]. by eapply readReceipt_activated. }
  step Hrun u' w5 E5. apply lift_Ok in E5 as [E5 ->].
  destruct (is_null _) eqn:En; [|done]. step Hrun candidate w6 E6. step Hrun u'' w7 E7.
  injection Hrun as <- <-. pose proof (idles_run _ _ _ _ (idles_prepare _ _ _) E6) as [L6 _].
  pose proof (idles_run _ _ _ _ idles_aborted E7) as [L7 _].
  split; [etrans; [exact L3|]; etrans; [exact L6|exact L7]|]. eapply prepare_cutover_Ok;
    [|exact Hseq|by exists watermark, t, answer|exact E6].
  unfold activated. intros Hn. by destruct (prop EPOCH (canon (cl_project (log w2)))); destruct Hn.
Qed.

(** ** Runs *)

(** A commit of the run: where it met the store, why, and what it left. *)
Record cutover_commit w w' (c : Commit Store) : Prop := {
  cc_assessed : ∃ l candidate, log w `prefix_of` l ∧ l `prefix_of` cl_log (cm_before c) ∧
    assessed l candidate ∧ cm_request c = cb_request candidate;
  cc_step : cl_log (cm_after c) = cl_log (cm_before c) ∨
    cl_log (cm_after c) = cl_log (cm_before c) ++ [cm_request c]
    ∧ asks_for (cm_request c) (length (cl_log (cm_before c)));
  cc_after : cl_log (cm_after c) `prefix_of` log w';
}.

Definition extends (c : Commit Store) : bool :=
  (length (cl_log (cm_before c)) <? length (cl_log (cm_after c)))%nat.

Lemma cutover_commit_mono w0 w w' w1 c :
  log w0 `prefix_of` log w → log w' `prefix_of` log w1 →
  cutover_commit w w' c → cutover_commit w0 w1 c.
Proof.
  intros L0 L1 [(l & cand & Hl & Hrest) Hs Ha]. split; [|done|by etrans].
  exists l, cand. split; [by etrans|done].
Qed.

(** What is appended is appended to the journal that was assessed, and activates. *)
Lemma extends_assessed w w' c :
  cutover_commit w w' c → extends c = true →
  ∃ candidate, assessed (cl_log (cm_before c)) candidate ∧ cm_request c = cb_request candidate ∧
    cl_log (cm_after c) = cl_log (cm_before c) ++ [cm_request c] ∧ activated (cl_log (cm_after c)).
Proof.
  intros [(l & cand & _ & [more Hl] & Has & Hreq) Hs _] He. unfold extends in He.
  destruct Hs as [Hs|[Hs Hask]]; [rewrite Hs, Nat.ltb_irrefl in He; done|].
  pose proof (sd_asks _ _ Has) as Hask'. rewrite <- Hreq in Hask'.
  pose proof (asks_for_inj _ _ _ Hask Hask') as Hlen. rewrite Hl, length_app in Hlen.
  destruct more; [|simpl in Hlen; lia]. rewrite app_nil_r in Hl. rewrite Hl in *.
  exists cand. split_and!; try done. rewrite Hs, Hreq. by apply assessed_activates.
Qed.

Lemma activated_mono l l' : l `prefix_of` l' → activated l → activated l'.
Proof. intros Hl. by apply cl_epoch_kept. Qed.

(** The [try] block: one commit, and how its outcome and its effect on the journal fit. *)
Lemma submit_cutover_run w0 l candidate w r w' :
  assessed l candidate → log w0 `prefix_of` l → l `prefix_of` log w →
  submit_cutover cutover identityHash candidate w = (r, w') →
  ∃ c, w_commits w' = c :: w_commits w ∧ cutover_commit w0 w' c ∧ log w `prefix_of` log w' ∧
    (∀ v, r = Ok v → activated (log w')) ∧
    (∀ e, r = Err e → race_lost e = true → extends c = false).
Proof.
  intros Has Hl0 Hl. unfold submit_cutover, then_ at 1, commit_cutover.
  destruct (cs_commit (w_time w) (cb_request candidate) (w_store (passes w))) as [answer s'] eqn:Ec.
  set (c := MkCommit (w_store (passes w)) (cb_request candidate) s').
  set (w1 := MkWorld s' (w_time (passes w)) (c :: w_commits w)).
  pose proof (cl_others_append (w_time w) (w_store w)) as Hothers.
  pose proof (cl_commit_step (w_time w) (cb_request candidate) (w_store (passes w))) as Hstep.
  rewrite Ec in Hstep. simpl in Hstep.
  assert (cutover_commit w0 w1 c) as Hc.
  { split; simpl; [|exact Hstep|done]. exists l, candidate. split_and!; try done. by etrans. }
  assert (log w `prefix_of` log w1) as Hlog.
  { etrans; [exact Hothers|]. simpl. destruct Hstep as [-> | [-> _]]; [done|by apply prefix_app_r]. }
  assert (cl_log s' = cl_log (w_store (passes w)) → extends c = false) as Hnone.
  { intros Hs. unfold extends, c. simpl in *. rewrite Hs. apply Nat.ltb_irrefl. }
  destruct answer as [v|e].
  2: { intros [= <- <-]. exists c. split_and!; try done. intros e' [= <-] Hl'. apply Hnone.
       pose proof (cl_commit_lost (w_time w) (cb_request candidate) (w_store (passes w)) e) as Hs.
       rewrite Ec in Hs. by apply Hs. }
  unfold then_ at 1, lift at 1. destruct (_ && _) eqn:Ev.
  2: { intros [= <- <-]. exists c. split_and!; try done. by intros e [= <-]. }
  apply andb_true_iff in Ev as [_ Ev].
  destruct (is_str (prop "status" v) "idempotent") eqn:Ei.
  - assert (extends c = false) as Hno.
    { apply Hnone. pose proof (cl_commit_idempotent (w_time w) (cb_request candidate)
        (w_store (passes w)) v) as Hs. rewrite Ec in Hs. by apply Hs. }
    unfold then_. destruct (receipt_back cutover identityHash w1) as [o w2] eqn:Er.
    pose proof (idles_run _ _ _ _ idles_receipt Er) as [L C].
    assert (cutover_commit w0 w2 c) as Hc2 by (eapply cutover_commit_mono; [done|exact L|exact Hc]).
    assert (log w `prefix_of` log w2) as Hlog2 by (by etrans).
    destruct o as [[stored|]|e]; intros [= <- <-]; exists c; split_and!; try done.
    intros v' _. by eapply receipt_back_Ok.
  - rewrite orb_false_r in Ev. unfold lift. intros [= Hr <-]. exists c. split_and!; try done.
    + intros v' _. assert (extends c = true) as He.
      { unfold extends, c. simpl.
        pose proof (cl_commit_committed (w_time w) (cb_request candidate) (w_store (passes w)) v) as Hs.
        rewrite Ec in Hs. simpl in Hs. rewrite Hs by done. rewrite length_app. simpl.
        apply Nat.ltb_lt. lia. }
      by destruct (extends_assessed _ _ _ Hc He) as (cand & _ & _ & _ & Hact).
    + intros e He. rewrite He in Hr. revert Hr. unfold canonicalClone. destruct (canonicalJson _); [|by intros [= <-]].
      destruct (_ <=? _)%Z; [done|by intros [= <-]].
Qed.

(** An execution of the loop. *)
Record loop_run (bound : nat) w (r : res json) w' (new : list (Commit Store)) : Prop := {
  lr_commits : w_commits w' = new ++ w_commits w;
  lr_log : log w `prefix_of` log w';
  lr_reasons : Forall (cutover_commit w w') new;
  lr_bound : length new ≤ bound;
  lr_once : length (filter (λ c, extends c = true) new) ≤ 1;
  lr_answer : ∀ v, r = Ok v → activated (log w');
}.

Lemma loop_run_idle bound w r w' :
  idled w w' → (∀ v, r = Ok v → activated (log w')) → loop_run bound w r w' [].
Proof. intros [L C] Hr. split; try done; simpl; lia. Qed.

Lemma cutover_attempts_run retries : ∀ w r w',
  cutover_attempts cutover principal identityHash retries w = (r, w') →
  ∃ new, loop_run (S retries) w r w' new.
Proof.
  induction retries as [|retries IH]; intros w r w'; cbn [cutover_attempts]; unfold then_ at 1.
  all: destruct (attempt_cutover cutover principal identityHash w) as [[a|e] w1] eqn:Ea;
    pose proof (idles_run _ _ _ _ idles_attempt Ea) as Hi1;
    [|intros [= <- <-]; exists []; by apply loop_run_idle].
  all: destruct (attempt_cutover_Ok _ _ _ Ea) as (l & Hl0 & Hl1 & Ha); destruct a as [result|candidate];
    [intros [= <- <-]; exists []; apply loop_run_idle; [done|intros; by eapply activated_mono]|].
  all: unfold try_catch; destruct (submit_cutover _ _ candidate w1) as [[v|e] w2] eqn:Es;
    destruct (submit_cutover_run w l candidate w1 _ w2 Ha Hl0 Hl1 Es) as (c & C2 & Hc & L2 & Hok & Hlost).
  all: assert (log w `prefix_of` log w2) as Lw by (etrans; [apply Hi1|exact L2]).
  all: assert (w_commits w2 = [c] ++ w_commits w) as Cw by (rewrite C2; simpl; f_equal; apply Hi1).
  all: assert (length (filter (λ c, extends c = true) [c]) ≤ 1) as Honce
    by (rewrite filter_cons; destruct (decide _); simpl; lia).
  all: try (intros [= <- <-]; exists [c]; split; try done; try (simpl; lia); by constructor).
  all: destruct (race_lost e) eqn:El.
  all: try (intros [= <- <-]; exists [c]; split; try done; try (simpl; lia); by constructor).
  1, 3: intros Hrec; pose proof (idles_run _ _ _ _ (idles_recover e) Hrec) as [L3 C3]; exists [c];
    split; [by rewrite C3|by etrans| |simpl; lia|done|intros v ->; by eapply recover_Ok];
    apply Forall_singleton; eapply cutover_commit_mono; [..|exact Hc]; [done|exact L3].
  intros Hrec. destruct (IH _ _ _ Hrec) as (new & [C3 L3 Hnew Hbound Honce3 Hans]).
  exists (new ++ [c]). split; [by rewrite C3, Cw, <- app_assoc|by etrans| | |  |done].
  - apply Forall_app. split.
    + eapply Forall_impl; [|exact Hnew]. intros c' Hc'.
      eapply cutover_commit_mono; [..|exact Hc']; [exact Lw|done].
    + apply Forall_singleton. eapply cutover_commit_mono; [..|exact Hc]; [done|exact L3].
  - rewrite length_app. simpl. lia.
  - rewrite list.filter_app, filter_cons, (Hlost e eq_refl El). simpl. rewrite app_nil_r. exact Honce3.
Qed.

(** On an active projection nothing is committed. *)
Lemma cutover_attempts_active retries w :
  activated (log w) → idled w (cutover_attempts cutover principal identityHash retries w).2.
Proof.
  intros Hact. assert (∀ (k : json + CutoverBatch → M Store json),
    (∀ result, idles (k (inl result))) →
    idled w (then_ (attempt_cutover cutover principal identityHash) k w).2) as Hgen.
  { intros k Hk. unfold then_.
    destruct (attempt_cutover cutover principal identityHash w) as [[a|e] w1] eqn:Ea;
      pose proof (idles_run _ _ _ _ idles_attempt Ea) as Hi; [|done].
    destruct (attempt_cutover_Ok _ _ _ Ea) as (l & Hl & _ & Ha). destruct a as [result|candidate].
    - etrans; [exact Hi|]. apply Hk.
    - destruct (sd_inactive _ _ Ha). by eapply activated_mono. }
  destruct retries; apply Hgen; intros result; apply idles_ret.
Qed.
End Attempts.

(** ** The promises *)

Section Theorems.
Context `{Sha256} {Store : Type} {store : CutoverStore Store} {services : CutoverServices}.
Context {laws : CutoverLaws Store}.
Implicit Types (w : World Store).

Abbreviation log w := (cl_log (w_store w)).

(** What an execution authenticated. *)
Record requested (input : json) (cutover : CutoverEnvelope) (principal : string) : Prop := {
  rq_envelope : normalizeProviderSettlementCutoverEnvelopeV1 (prop "cutover" input) = Ok cutover;
  rq_principal : ∃ t answer, cv_authenticate t (prop "authentication" input) = Ok answer ∧
    normalizePrincipal answer = Ok principal;
  rq_actor : ce_actor_id cutover = principal;
}.

(** An execution waits until it enters the loop for an authenticated request, or ends before. *)
Lemma execute_cutover_run input w r w' :
  execute_cutover input w = (r, w') →
  (idled w w' ∧ ∃ e, r = Err e) ∨
  ∃ cutover principal identityHash w1, requested input cutover principal ∧ idled w w1 ∧
    cutover_attempts cutover principal identityHash cv_maxGlobalCasRetries w1 = (r, w').
Proof.
  unfold execute_cutover. destruct input as [| | | | | | | |fs|];
    try (intros [= <- <-]; left; split; [apply idled_preorder|by eexists]).
  destruct (has_own fs "cutover").
  2: { intros [= <- <-]. left. split; [apply idled_preorder|by eexists]. }
  unfold then_ at 1, lift at 1.
  destruct (normalizeProviderSettlementCutoverEnvelopeV1 _) as [cutover|e] eqn:Ec.
  2: { intros [= <- <-]. left. split; [apply idled_preorder|by eexists]. }
  unfold then_ at 1. set (a := ask _ _ _ _). destruct (a w) as [[principal|e] w1] eqn:Ea.
  2: { intros [= <- <-]. left. split; [|by eexists]. exact (idles_run _ _ _ _ (idles_ask _ _ _ _) Ea). }
  pose proof (ask_Ok _ _ _ _ _ _ _ Ea) as (Hi & answer & t & Hanswer & Hp).
  unfold then_ at 1, lift at 1. destruct (String.eqb (ce_actor_id cutover) principal) eqn:Eactor.
  2: { intros [= <- <-]. left. split; [done|by eexists]. }
  unfold then_, lift. destruct (cutoverIdentityHash cutover principal) as [identityHash|e] eqn:Eh.
  2: { intros [= <- <-]. left. split; [done|by eexists]. }
  intros Hrun. right. exists cutover, principal, identityHash, w1. split_and!; try done.
  apply String.eqb_eq in Eactor. split; [done|by exists t, answer|done].
Qed.

(** C12: A cutover activates the journal it assessed.  Whatever other processes do between the calls,
    an execution commits at most [cv_maxGlobalCasRetries] times more than once and extends the
    journal at most once.  Every commit is for a principal the authenticator answered and whom the
    authoriser, asked about the projection of a journal without an epoch, granted this cutover; its
    batch is built on the readiness derived from that journal, as the resolver attested it under
    that grant.  A commit that extends the journal extends exactly the journal that was assessed,
    and activates the contract.  An execution that returns leaves the contract activated. *)
Theorem cutover_activates_assessed_journal input w r w' :
  execute_cutover input w = (r, w') →
  ∃ new, w_commits w' = new ++ w_commits w ∧ length new ≤ S cv_maxGlobalCasRetries ∧
    length (filter (λ c, extends c = true) new) ≤ 1 ∧
    (∀ v, r = Ok v → activated (log w')) ∧
    ∀ c, c ∈ new → ∃ cutover principal l candidate, requested input cutover principal ∧
      log w `prefix_of` l ∧ assessed cutover principal l candidate ∧
      cm_request c = cb_request candidate ∧
      (extends c = true → cl_log (cm_before c) = l ∧
        cl_log (cm_after c) = l ++ [cm_request c] ∧ activated (cl_log (cm_after c))).
Proof.
  intros [[[L C] [e ->]]|(cutover & principal & ih & w1 & Hreq & [L1 C1] & Hrun)]%execute_cutover_run.
  { exists []. split_and!; try done; simpl; [lia..|]. by intros c ?%not_elem_of_nil. }
  apply cutover_attempts_run in Hrun as (new & [Hc Hl Hreasons Hbound Honce Hans]).
  exists new. split_and!; try done; [by rewrite Hc, C1|]. intros c Hin.
  rewrite list.Forall_forall in Hreasons. pose proof (Hreasons c Hin) as Hcc.
  destruct (extends c) eqn:Ee.
  - destruct (extends_assessed _ _ _ _ _ Hcc Ee) as (candidate & Has & Hcr & Hafter & Hact).
    exists cutover, principal, (cl_log (cm_before c)), candidate. split_and!; try done.
    destruct (cc_assessed _ _ _ _ _ Hcc) as (l & _ & Hl0 & Hl1 & _). etrans; [exact L1|].
    by etrans.
  - destruct (cc_assessed _ _ _ _ _ Hcc) as (l & candidate & Hl0 & _ & Has & Hcr).
    exists cutover, principal, l, candidate. split_and!; try done. by etrans.
Qed.

(** C13: The contract is activated once.  After an execution that returned, or that extended the
    journal, every execution at any later time, of the same or another cutover, asks the store for
    nothing: it answers the stored receipt or an error. *)
Theorem cutover_activates_once input w r w' input' w2 r' w3 :
  execute_cutover input w = (r, w') →
  (∃ v, r = Ok v) ∨ (∃ new c, w_commits w' = new ++ w_commits w ∧ c ∈ new ∧ extends c = true) →
  log w' `prefix_of` log w2 →
  execute_cutover input' w2 = (r', w3) →
  w_commits w3 = w_commits w2.
Proof.
  intros Hrun Heffect Hlog Hrun'.
  assert (activated (log w')) as Hact.
  { apply execute_cutover_run in Hrun as
      [[[L C] [e ->]]|(cutover & principal & ih & w1 & _ & [L1 C1] & Hrun)].
    - destruct Heffect as [[v Hv]|(new & c & Hn & Hin & _)]; [done|]. rewrite C in Hn.
      apply (f_equal length) in Hn. rewrite length_app in Hn. destruct new; [|simpl in Hn; lia].
      by apply not_elem_of_nil in Hin.
    - apply cutover_attempts_run in Hrun as (new & [Hc Hl Hreasons _ _ Hans]).
      destruct Heffect as [[v Hv]|(new' & c & Hn & Hin & He)]; [by eapply Hans|].
      rewrite Hc, C1 in Hn. apply app_inv_tail in Hn as ->. rewrite list.Forall_forall in Hreasons.
      destruct (extends_assessed _ _ _ _ _ (Hreasons c Hin) He) as (_ & _ & _ & _ & Hact).
      eapply activated_mono; [|exact Hact]. by eapply cc_after, Hreasons. }
  apply execute_cutover_run in Hrun' as
    [[[_ C] _]|(cutover & principal & ih & w1 & _ & [L1 C1] & Hrun')]; [done|].
  pose proof (cutover_attempts_active cutover principal ih cv_maxGlobalCasRetries w1) as Hidle.
  rewrite Hrun' in Hidle. cbn [snd] in Hidle.
  assert (activated (log w1)) as Hact1.
  { eapply activated_mono; [|exact Hact]. etrans; [exact Hlog|exact L1]. }
  rewrite (idled_commits _ _ (Hidle Hact1)). exact C1.
Qed.
End Theorems.

(** ** A concrete cutover *)

Module CutoverSample.

Lemma prop_canon k fs : NoDup (keys fs) → prop k (canon (JObj fs)) = canon (get k fs).
Proof.
  intros Hnd. rewrite canon_object. apply (get_canon k fs); [done|]. by rewrite canon_object.
Qed.

(** The epoch of a journal is the one of its first cutover batch. *)
Definition batch_epoch (request : json) : option json :=
  match deriveProviderSettlementEpochFromBatchV1 request with
  | Ok epoch => Some (epoch_json epoch)
  | Err _ => None
  end.
Definition epoch_of (log : list json) : json := default JNull (head (omap batch_epoch log)).

Definition state_with (epoch : json) : fields :=
  [("schema_version", JInt 2); ("provider_settlement_epoch", epoch); ("work_orders", JObj []);
   ("outbox", JObj []); ("command_receipts", JObj []); ("observation_receipts", JObj []);
   ("internal_receipts", JObj [])].
Definition project (log : list json) : json := JObj (state_with (epoch_of log)).

Definition foreign_request : json :=
  JObj [("batch_id", JStr "foreign"); ("expected_revision", JInt 0)].

(** Another process appends while the first candidate is prevalidated. *)
Instance sample_store : CutoverStore (list json) := {
  cs_replay _ log := Ok (JObj [("state", project log);
    ("watermark", JObj [("journal_sequence", JInt (Z.of_nat (length log)))])]);
  cs_commit _ request log := commit_to_log request log;
  cs_others t log := if (t =? 4)%nat then log ++ [foreign_request] else log;
}.

Definition actor : string := "runtime".

Lemma payload_hash_ok : is_ok (canonicalHash contract_versions) = true.
Proof. vm_compute. reflexivity. Defined.
Definition sample_cutover : CutoverEnvelope :=
  {| ce_cutover_id := "PSC-0123456789abcdef0123456789abcdef"; ce_actor_id := actor;
     ce_payload_hash := ok_get _ payload_hash_ok |}.

Definition granted (cutover : CutoverEnvelope) : json :=
  JObj [("authorized", JBool true); ("principal_type", JStr "system"); ("principal_id", JStr actor);
        ("action", JStr PROVIDER_SETTLEMENT_CUTOVER_ACTION);
        ("cutover_id", JStr (ce_cutover_id cutover));
        ("settlement_contract_version", JInt PROVIDER_SETTLEMENT_CONTRACT_VERSION);
        ("send_authorization_contract_version", JInt SEND_AUTHORIZATION_CONTRACT_VERSION)].

Definition attest (projected : ProjectedReadiness) : res json :=
  let* hash := canonicalHash (assessment_json projected) in
  Ok (JObj [("readiness_assessment_ref",
              JObj [("id", JStr ("PSA-" +:+ slice0 32 hash)); ("hash", JStr hash)]);
            ("assessment", assessment_json projected)]).

(** The epoch that the adapter's projection will have. *)
Definition epoch_after (state request : json) : json :=
  match prop EPOCH state with
  | JNull => default JNull (batch_epoch request)
  | epoch => epoch
  end.

Instance sample_services : CutoverServices := {
  cv_authenticate _ _ := Ok (principal_json actor);
  cv_authorize _ _ cutover _ _ := Ok (granted cutover);
  cv_resolveReadiness _ _ _ _ projected := attest projected;
  cv_prevalidate _ state request _ := Ok (JObj (state_with (epoch_after state request)));
  cv_clock _ := JStr "2026-01-01T00:00:00.000Z";
  cv_aborted _ := false;
  cv_interruption _ := None;
  cv_maxGlobalCasRetries := 3;
}.

Lemma project_epoch log : prop EPOCH (canon (project log)) = canon (epoch_of log).
Proof.
  unfold project. rewrite prop_canon; [done|]. apply (bool_decide_unpack _). vm_compute. exact I.
Qed.

Lemma canon_null v : canon v = JNull ↔ v = JNull.
Proof. by destruct v. Qed.

Lemma epoch_of_app l l' : epoch_of l ≠ JNull → epoch_of (l ++ l') = epoch_of l.
Proof. unfold epoch_of. rewrite omap_app. by destruct (omap batch_epoch l). Qed.

Lemma batch_epoch_object request epoch : batch_epoch request = Some epoch → epoch ≠ JNull.
Proof.
  unfold batch_epoch. destruct (deriveProviderSettlementEpochFromBatchV1 request); [|done].
  by intros [= <-].
Qed.

Lemma epoch_of_snoc l request :
  epoch_of (l ++ [request])
  = match epoch_of l with JNull => default JNull (batch_epoch request) | epoch => epoch end.
Proof.
  unfold epoch_of. rewrite omap_app. destruct (omap batch_epoch l) as [|epoch es] eqn:E; simpl.
  { by destruct (batch_epoch request). }
  assert (epoch ≠ JNull) as Hne; [|by destruct epoch].
  assert (epoch ∈ omap batch_epoch l) as Hin by (rewrite E; left).
  apply list_elem_of_omap in Hin as (r & _ & Hr). by eapply batch_epoch_object.
Qed.

#[refine] Instance sample_laws : CutoverLaws (list json) := {|
  cl_log (log : list json) := log; cl_project := project |}.
Proof.
  - intros t s. simpl. destruct (t =? 4)%nat; [by apply prefix_app_r|done].
  - intros t s v [= <-]. done.
  - intros t r s. simpl. destruct (commit_to_log_cases r s) as [[-> ?]|[-> _]]; auto.
  - intros t r s v. simpl. destruct (commit_to_log_cases r s) as [[-> ?]|[_ [->|[->|[-> _]]]]];
      try done. by intros [= <-].
  - intros t r s v. simpl. destruct (commit_to_log_cases r s) as [[-> ?]|[-> _]]; [|done].
    by intros [= <-].
  - intros t r s e. simpl. destruct (commit_to_log_cases r s) as [[-> ?]|[-> _]]; done.
  - intros l l' [more ->]. rewrite !project_epoch, !canon_null. intros Hne. by rewrite epoch_of_app.
  - intros t l request epoch q [= <-]. rewrite project_epoch, epoch_of_snoc. unfold epoch_after.
    cbn [prop get state_with String.eqb Ascii.eqb Bool.eqb].
    destruct (epoch_of l) as [| | | | | | |items|fs|]; try done; symmetry;
      [apply (canon_idem (JArr items))|apply (canon_idem (JObj fs))].
Defined.

Definition input : json := JObj [("cutover", envelope_json sample_cutover); ("authentication", JNull)].
Definition start : World (list json) := MkWorld [] 0 [].
Definition after : World (list json) := (execute_cutover input start).2.

(** The first candidate loses the race; the second one, assessed again, is appended after the other
    process's entry. *)
Example sample_run :
  is_ok (execute_cutover input start).1 = true ∧ length (w_store after) = 2 ∧
  map extends (w_commits after) = [true; false].
Proof. vm_compute. split_and!; reflexivity. Qed.

Lemma cutover_activates_assessed_journal_witness :
  ∃ new, w_commits after = new ++ [] ∧ length new ≤ 4 ∧
    length (filter (λ c, extends c = true) new) ≤ 1.
Proof.
  destruct (cutover_activates_assessed_journal input start (execute_cutover input start).1 after)
    as (new & Hc & Hl & Ho & _); [apply surjective_pairing|].
  exists new. split_and!; [exact Hc|exact Hl|exact Ho].
Defined.

Lemma first_ok : is_ok (execute_cutover input start).1 = true.
Proof. vm_compute. reflexivity. Defined.

(** The same cutover again, after the run: nothing is committed. *)
Lemma cutover_activates_once_witness :
  w_commits (execute_cutover input after).2 = w_commits after.
Proof.
  apply (cutover_activates_once input start (execute_cutover input start).1 after input after
    (execute_cutover input after).1 (execute_cutover input after).2).
  - apply surjective_pairing.
  - left. exists (ok_get _ first_ok). apply ok_get_eq.
  - reflexivity.
  - apply surjective_pairing.
Defined.
End CutoverSample.
